(* ===== verification/_CoqProject ===== *)
-Q . S2P
Prelude.v
StringC.v
Spinlock.v
Kalloc.v
Ptable.v
SchedSys.v
Signal.v
Ports.v
Sleeplock.v
Pipe.v
Block.v
Bio.v
Ide.v
IdeSpec.v
Log.v
Layer.v
Fs.v
FsBlocks.v
FsFile.v
FsWrite.v
FsInode.v
FsClaims.v
FsDir.v
FsPath.v
Mkfs.v
MkfsSpec.v
MkfsImage.v
FsBoot.v
Mp.v
Lapic.v
Bootmain.v
Console.v
Kbd.v
ConsoleScreen.v
ConsoleInput.v
ConsoleClaims.v
Pages.v
Vm.v
VmSpec.v
VmFree.v
VmOps.v
VmCopy.v
VmClaims.v
Startup.v
ProcMem.v
Args.v
File.v
FileSpec.v
Exec.v
KState.v
ProcWit.v
Process.v
ProcSpec.v
ProcWait.v
ProcFork.v
Sysfile.v
Syscall.v
Trap.v
SyscallSpec.v
Ulib.v
Uprogs.v
Grep.v
Umalloc.v
UmallocSpec.v
Sh.v
ShGrammar.v
ShSpec.v
ShRun.v
