(* ===== verification/Prelude.v ===== *)
(** A verification of this variant of xv6: the x86 kernel of src/, with signals and
    with a process table that is protected by compare-and-swap instead of a lock,
    its boot code, its user programs and the builder of its file system image.

    * Parts of the program, and the files that model them

    The state of a component is a record, its data are inductive types, and each C
    function is a definition of the same name (with a prefix or an underscore where
    two functions share a name).  Loops that a function contains are definitions of
    their own, named after it.  Before a definition stands a comment with the lines
    of src/ that it translates.

    Foundations.  StringC: string.c.  Spinlock: spinlock.c, and [mycpu], [cpuid],
    [myproc] of proc.c.  Block: fields of disk blocks.  Pages: lists of pages.

    Memory.  Kalloc: kalloc.c, the free list in the pages themselves.  Vm: the page
    tables of vm.c, in the same memory; VmSpec, VmOps, VmFree, VmCopy, VmClaims:
    what they map, and who owns their pages.

    Processes.  Ptable: slots, pids, [cas] on states, [sleep], [wakeup], the
    scheduler, of proc.c.  SchedSys: the same protocols as step relations over all
    interleavings of the CPUs.  Signal: the signal routines.  Process: [userinit],
    [fork], [exit], [wait], [growproc], [forkret].  ProcMem: the owner of each
    page; ProcSpec, ProcWait, ProcFork: what the calls do to processes and pages;
    ProcWit: an example machine.  Sleeplock: sleeplock.c.

    Devices.  Ports: the interface to ports and memory-mapped registers, uart.c,
    picirq.c, ioapic.c.  Console, ConsoleScreen, ConsoleInput, ConsoleClaims:
    console.c.  Kbd: kbd.c, kbd.h.  Ide, IdeSpec: ide.c.  Lapic: lapic.c.

    Storage.  Bio: bio.c over memide.c.  Log: log.c.  Layer: the interface between
    the file system and these two.  Fs: fs.c; FsBlocks, FsFile, FsWrite, FsInode,
    FsClaims, FsDir, FsPath: its block allocator, file contents, inodes,
    directories and paths.  File, FileSpec: file.c and [pipealloc].  Pipe: pipe.c.
    Mkfs, MkfsSpec, MkfsImage: mkfs.c.  FsBoot: the kernel on the image of mkfs.

    Calls and traps.  Args: the argument routines of syscall.c.  Exec: exec.c and
    [loaduvm].  Sysfile: sysfile.c.  Syscall: sysproc.c and the dispatcher.  Trap:
    trap.c.  KState, SyscallSpec: lemmas on them.

    Start.  Bootmain: bootmain.c.  Mp: mp.c.  Startup: [seginit] and [kvmalloc] of
    vm.c, [entrypgdir] and [startothers] of main.c, the end of entryother.S.

    User programs.  Ulib: ulib.c, printf.c.  Umalloc, UmallocSpec: umalloc.c.  Grep:
    grep.c.  Sh, ShGrammar, ShSpec, ShRun: sh.c.  Uprogs: cat.c, wc.c, ls.c,
    echo.c, rm.c, mkdir.c, ln.c, kill.c, zombie.c, init.c.

    * How the parts meet

    A C function is a computation in the monad [M] below: state, result, panic, and
    [Wait] where the thread cannot go on alone (it spins or sleeps).  A component
    that calls another one runs it on its part of the state with [zoom].  Calls that
    sleep take the list of what other processes do meanwhile, one element for each
    time they are woken ([envs], [arrivals]).  Interfaces are classes with laws:
    [BlockLayer] (the file system is proved against it; the buffer cache with the
    log, and blocks in memory, are instances), [TxnOps] (the transactions that the
    file layer opens), [Ports], [PcDev], [StringPorts], [AtaDev], [RtcDev] (hardware,
    each with an example device that has the properties) and [FileWorld] (the kernel
    as a user program sees it).  The system call [sbrk] that the user allocator is
    proved with is [growproc].

    The memory of the current process is kept by virtual address, next to the
    physical memory with the page tables: [fork] reads it through the pages,
    [exec] and [growproc] set it from the page table they make.  The console has a
    state of its own, and the device switch is an argument of the file system.

    * What the theorems show

    - Concurrency: mutual exclusion of spin locks in every interleaving; the
      scheduler runs no process twice unless another CPU interleaves with the three
      instructions of the hand-over, and an execution in which that happens; no
      wakeup is lost on one CPU, and an execution with two in which one is.
    - Memory: the allocator never hands out a page in use; building, copying,
      growing and freeing an address space neither loses nor shares a page; every
      page of the machine has one owner through [fork], [wait] and [growproc].
    - Signals: where a handler is entered and what [sigret] restores; SIGKILL
      cannot be blocked; what nested delivery loses.
    - Storage: the cache is transparent; a commit is atomic under a crash after any
      of its writes; the reservations of the log suffice, and the case in which they
      do not; [readi] and [writei] are reads and writes of a byte sequence;
      directories are maps; path lookup is the walk along the elements.  mkfs makes
      a well-formed file system, on which the kernel finds and reads its files.
    - Devices: the disk driver does what the disk in memory does; the console is a
      line editor and a terminal; the date of the clock is not torn.
    - Start: the loader puts the segments of the kernel in place; the processors of
      the configuration table are found; each other CPU starts with its own stack.
    - User programs: the parser of the shell is its grammar and a session runs the
      commands of its lines; the allocator keeps blocks apart; grep decides the
      language of its pattern; printf is the kernel's cprintf; [cat] copies, [wc]
      counts, [init] has one shell at a time.

    * Bounds and fuel

    Integers are kept at their width: [u32] and the like stand where the C code
    wraps.  A loop that is not structural takes fuel, and the theorem about it holds
    for all fuel from a bound on: the length of the string (StringC, Ulib), the
    length of the path (FsPath), three turns (the clock), the number of polls after
    which the controller is ready (Ide, Bootmain), the length of the table (Mp), the
    length of the line and 3 (the shell's parser), 102 turns for a line (the
    shell's input), twice the length of the free list and 3 ([malloc]), the number
    of reads of a file and one (Grep, Uprogs), the number of bytes to write
    (Mkfs).  Page-table loops take as many turns as there are pages in the range.

    * Not modelled

    - [main], [mpenter] and [mpmain] call the initialisers, which are modelled, in
      a fixed order on different states.
    - The assembly files, except for the words that entryother.S loads: [swtch] is
      the outcome [Wait] and the definitions that resume, the trap entry is the
      trap frame that [trap] is given, the stubs of usys.S are the calls of the
      user programs.  Instructions of x86.h that load segment or table registers
      have no state here.
    - usertests.c, sanity.c and the other test programs exercise the kernel from
      outside; they are not part of what it promises.  defs.h has prototypes only.
    - Time: [microdelay] and the rate of the timer.  Memory is sequentially
      consistent.

    * This file

    - C integers: [u32], [s32], [u16], [s16], [u8] are the conversions of an
      integer to the width of the C type ([uint], [int], [ushort], [short],
      [uchar]); arithmetic on the program's variables is written on [Z] with
      the conversion where the C code wraps.
    - The kernel monad [M St A]: a C function that reads and writes the state
      [St] and returns an [A].  Its outcome is [Ok], a [panic], or [Wait]: the
      calling thread cannot go on by itself (it spins on a lock that another
      CPU holds, or it sleeps on a channel), in the state reached so far.
    - Lenses, to run the operations of one component on the part of a larger
      state that belongs to it ([zoom]).
    - Byte-addressed memory, with little-endian 32-bit loads and stores.
    - Lemmas on lists that several components use, the hint databases and the
      tactics of the development. *)

From stdpp Require Export base list numbers strings gmap.
From Stdlib Require Export ZArith Lia.

#[export] Set Default Goal Selector "!".
Open Scope Z_scope.

(* ------------------------------------------------------------------ *)
(** * C integers *)

Abbreviation M32 := 4294967296 (only parsing).

Definition u32 (z : Z) : Z := z mod 4294967296.
Definition s32 (z : Z) : Z := (z + 2147483648) mod 4294967296 - 2147483648.
Definition u16 (z : Z) : Z := z mod 65536.
Definition s16 (z : Z) : Z := (z + 32768) mod 65536 - 32768.
Definition u8 (z : Z) : Z := z mod 256.

(** [zsolve]: linear arithmetic with division and remainder by constants. *)
Ltac zsolve :=
  unfold u32, s32, u16, s16, u8 in *; Z.to_euclidean_division_equations; lia.

Lemma u32_id z : 0 <= z < 4294967296 -> u32 z = z.
Proof. apply Z.mod_small. Qed.
Lemma u32_range z : 0 <= u32 z < 4294967296.
Proof. apply Z.mod_pos_bound. lia. Qed.
Lemma s32_id z : -2147483648 <= z < 2147483648 -> s32 z = z.
Proof. zsolve. Qed.
Lemma s32_range z : -2147483648 <= s32 z < 2147483648.
Proof. zsolve. Qed.
Lemma u32_s32 z : u32 (s32 z) = u32 z.
Proof. zsolve. Qed.
Lemma s32_u32 z : s32 (u32 z) = s32 z.
Proof. zsolve. Qed.
Lemma u8_range z : 0 <= u8 z < 256.
Proof. apply Z.mod_pos_bound. lia. Qed.
Lemma u8_id z : 0 <= z < 256 -> u8 z = z.
Proof. apply Z.mod_small. Qed.

(** A multiple of a power of two, and a number below it. *)
Lemma lor_low k a b : 0 <= k -> 0 <= b < 2 ^ k -> Z.lor (a * 2 ^ k) b = a * 2 ^ k + b.
Proof.
  intros Hk Hb. assert (Hl : Z.land (a * 2 ^ k) b = 0).
  { apply Z.bits_inj'. intros n Hn. rewrite Z.land_spec, Z.bits_0. destruct (Z.lt_ge_cases n k) as [H|H].
    - by rewrite Z.mul_pow2_bits_low by lia.
    - rewrite <- (Z.mod_small b (2 ^ k)) by done. rewrite Z.mod_pow2_bits_high by lia. apply andb_false_r. }
  rewrite <- Z.lxor_lor by done. symmetry. by apply Z.add_nocarry_lxor.
Qed.

(** C's conditional on an integer: nonzero is true. *)
Definition truth (z : Z) : bool := negb (z =? 0).

(** A C comparison used as an integer. *)
Definition b2z (b : bool) : Z := if b then 1 else 0.

Create HintDb cint.
Create Rewrite HintDb cint.
#[export] Hint Rewrite u32_s32 s32_u32 : cint.
#[export] Hint Resolve u32_range s32_range u8_range : cint.

(* ------------------------------------------------------------------ *)
(** * The kernel monad *)

Inductive outcome (St A : Type) : Type :=
| Ok (a : A) (s : St)
| Panic (msg : string)
| Wait (s : St).
Arguments Ok {St A} a s.
Arguments Panic {St A} msg.
Arguments Wait {St A} s.

Definition M (St A : Type) : Type := St -> outcome St A.

Section monad.
Context {St : Type}.

Definition ret {A} (a : A) : M St A := fun s => Ok a s.
Definition bind {A B} (m : M St A) (k : A -> M St B) : M St B :=
  fun s =>
    match m s with
    | Ok a s' => k a s'
    | Panic msg => Panic msg
    | Wait s' => Wait s'
    end.
Definition panic {A} (msg : string) : M St A := fun _ => Panic msg.
Definition wait {A} : M St A := fun s => Wait s.
Definition get : M St St := fun s => Ok s s.
Definition gets {A} (f : St -> A) : M St A := fun s => Ok (f s) s.
Definition modify (f : St -> St) : M St unit := fun s => Ok tt (f s).
Definition when (b : bool) (m : M St unit) : M St unit :=
  if b then m else ret tt.
End monad.

Declare Scope kernel_scope.
Delimit Scope kernel_scope with kernel.
Notation "x <- m ;; k" := (bind m (fun x => k))
  (at level 100, m at next level, k at level 200, right associativity) : kernel_scope.
Notation "m ;; k" := (bind m (fun _ => k)) : kernel_scope.
Open Scope kernel_scope.

(** [ok_with m s P]: the call [m] returns from [s], with a value and a state
    that satisfy [P]; it neither panics nor waits. *)
Definition ok_with {St A} (m : M St A) (s : St) (P : A -> St -> Prop) : Prop :=
  match m s with Ok a s' => P a s' | _ => False end.

Section monad_lemmas.
Context {St : Type}.

Lemma bind_ok {A B} (m : M St A) (k : A -> M St B) s a s' :
  m s = Ok a s' -> bind m k s = k a s'.
Proof. unfold bind. by intros ->. Qed.

Lemma bind_ret {A B} (a : A) (k : A -> M St B) s : bind (ret a) k s = k a s.
Proof. reflexivity. Qed.

Lemma bind_assoc {A B C} (m : M St A) (k : A -> M St B) (h : B -> M St C) s :
  bind (bind m k) h s = bind m (fun a => bind (k a) h) s.
Proof. unfold bind. by destruct (m s). Qed.

Lemma bind_ext {A B} (m : M St A) (k k' : A -> M St B) s :
  (forall a s', k a s' = k' a s') -> bind m k s = bind m k' s.
Proof. intros Hk. unfold bind. by destruct (m s). Qed.

Lemma Ok_inj {S A} (a b : A) (s s' : S) : Ok a s = Ok b s' -> a = b /\ s = s'.
Proof. by intros [= -> ->]. Qed.

Lemma bind_Ok_inv {A B} (m : M St A) (k : A -> M St B) s b s' :
  bind m k s = Ok b s' -> exists a s1, m s = Ok a s1 /\ k a s1 = Ok b s'.
Proof. unfold bind. destruct (m s); naive_solver. Qed.

Lemma ok_with_intro {A} (m : M St A) s a s' (P : A -> St -> Prop) :
  m s = Ok a s' -> P a s' -> ok_with m s P.
Proof. unfold ok_with. by intros ->. Qed.

Lemma ok_with_elim {A} (m : M St A) s (P : A -> St -> Prop) :
  ok_with m s P -> exists a s', m s = Ok a s' /\ P a s'.
Proof. unfold ok_with. destruct (m s); naive_solver. Qed.

Lemma ok_with_bind {A B} (m : M St A) (k : A -> M St B) s P Q :
  ok_with m s P -> (forall a s', P a s' -> ok_with (k a) s' Q) ->
  ok_with (bind m k) s Q.
Proof. unfold ok_with, bind. destruct (m s); naive_solver. Qed.

Lemma ok_with_mono {A} (m : M St A) s (P Q : A -> St -> Prop) :
  ok_with m s P -> (forall a s', P a s' -> Q a s') -> ok_with m s Q.
Proof. unfold ok_with. destruct (m s); naive_solver. Qed.
End monad_lemmas.

(** [mred] runs the primitive steps of the monad. *)
Ltac mred := unfold bind, ret, get, gets, modify, when, panic, wait; simpl.

(** Counted loops: [for_each l f] runs [f] on the elements of [l] in order,
    as a C [for] loop over an index range does. *)
Fixpoint for_each {St A} (l : list A) (f : A -> M St unit) : M St unit :=
  match l with
  | [] => ret tt
  | x :: l' => f x ;; for_each l' f
  end.

(** Loops that may leave early with a result ([return] in the loop body). *)
Fixpoint for_find {St A B} (l : list A) (f : A -> M St (option B)) : M St (option B) :=
  match l with
  | [] => ret None
  | x :: l' => r <- f x ;;
               match r with Some b => ret (Some b) | None => for_find l' f end
  end.

(** [range a n] is the list of the [n] integers from [a]. *)
Definition range (a : Z) (n : nat) : list Z := seqZ a (Z.of_nat n).

Lemma elem_of_range a n x : x ∈ range a n <-> a <= x < a + Z.of_nat n.
Proof. unfold range. rewrite elem_of_seqZ. lia. Qed.

Lemma range_cons a n : range a (S n) = a :: range (a + 1) n.
Proof. unfold range. rewrite seqZ_cons by lia. do 2 f_equal; lia. Qed.

Lemma range_app a n m : range a (n + m) = range a n ++ range (a + Z.of_nat n) m.
Proof. unfold range. rewrite Nat2Z.inj_add. apply seqZ_app; lia. Qed.

Lemma range_length a n : length (range a n) = n.
Proof. unfold range. rewrite length_seqZ. lia. Qed.

Lemma range_lookup a n i : (i < n)%nat -> range a n !! i = Some (a + Z.of_nat i).
Proof. intros Hi. unfold range. apply lookup_seqZ. lia. Qed.

(** The first element of a range with a property. *)
Lemma find_range_some f n : forall a x, List.find f (range a n) = Some x ->
  a <= x < a + Z.of_nat n /\ f x = true /\ forall y, a <= y < x -> f y = false.
Proof.
  induction n as [|n IH]; intros a x Hf; [done|]. rewrite range_cons in Hf. simpl in Hf.
  destruct (f a) eqn:E.
  - injection Hf as <-. split; [lia|]. split; [done|]. intros y Hy. lia.
  - apply IH in Hf as (H1 & H2 & H3). split; [lia|]. split; [done|]. intros y Hy.
    destruct (decide (y = a)) as [->|]; [done|]. apply H3. lia.
Qed.

Lemma find_range_first f n a x : a <= x < a + Z.of_nat n -> f x = true -> (forall y, a <= y < x -> f y = false) ->
  List.find f (range a n) = Some x.
Proof.
  intros Hx Ht Hb. destruct (List.find f (range a n)) as [y|] eqn:Hf.
  - apply find_range_some in Hf as (Hy & Hfy & Hby). f_equal.
    destruct (Z.lt_trichotomy x y) as [H|[H|H]]; [|done|].
    + by rewrite Hby in Ht by lia.
    + by rewrite Hb in Hfy by lia.
  - pose proof (List.find_none _ _ Hf x ltac:(apply list_elem_of_In, elem_of_range; lia)). congruence.
Qed.

Lemma find_range_none f n a x : List.find f (range a n) = None -> a <= x < a + Z.of_nat n -> f x = false.
Proof. intros Hf Hx. apply (List.find_none _ _ Hf), list_elem_of_In, elem_of_range, Hx. Qed.

(* ------------------------------------------------------------------ *)
(** * Lenses *)

Record lens (S T : Type) := Lens { view : S -> T; over : T -> S -> S }.
Arguments Lens {S T} _ _.
Arguments view {S T} _ _.
Arguments over {S T} _ _ _.

Class LensLaws {S T} (l : lens S T) : Prop := {
  view_over : forall t s, view l (over l t s) = t;
  over_view : forall s, over l (view l s) s = s;
  over_over : forall t t' s, over l t' (over l t s) = over l t' s;
}.

Definition zoom {S T A} (l : lens S T) (m : M T A) : M S A :=
  fun s =>
    match m (view l s) with
    | Ok a t => Ok a (over l t s)
    | Panic msg => Panic msg
    | Wait t => Wait (over l t s)
    end.

Definition compose {S T U} (l : lens S T) (l' : lens T U) : lens S U :=
  Lens (fun s => view l' (view l s)) (fun u s => over l (over l' u (view l s)) s).

#[export] Instance compose_laws {S T U} (l : lens S T) (l' : lens T U) :
  LensLaws l -> LensLaws l' -> LensLaws (compose l l').
Proof.
  intros H H'. split; simpl; intros.
  - by rewrite !view_over.
  - by rewrite !over_view.
  - by rewrite view_over, !over_over.
Qed.

(** Two lenses on different parts of a state. *)
Class Indep {S T U} (l : lens S T) (l' : lens S U) : Prop := {
  view_indep : forall u s, view l (over l' u s) = view l s;
  view_indep' : forall t s, view l' (over l t s) = view l' s;
  over_indep : forall t u s, over l' u (over l t s) = over l t (over l' u s);
}.

Lemma zoom_ok {S T A} (l : lens S T) (m : M T A) s a t :
  m (view l s) = Ok a t -> zoom l m s = Ok a (over l t s).
Proof. unfold zoom. by intros ->. Qed.

Lemma zoom_Ok_inv {S T A} (l : lens S T) (m : M T A) s a s' :
  zoom l m s = Ok a s' -> exists t, m (view l s) = Ok a t /\ s' = over l t s.
Proof. unfold zoom. destruct (m (view l s)); naive_solver. Qed.

Lemma ok_with_zoom {S T A} (l : lens S T) (m : M T A) s (P : A -> S -> Prop) :
  ok_with m (view l s) (fun a t => P a (over l t s)) -> ok_with (zoom l m) s P.
Proof. unfold ok_with, zoom. by destruct (m (view l s)). Qed.

(* ------------------------------------------------------------------ *)
(** * Byte-addressed memory *)

Definition memory : Type := Z -> Z.

Definition upd (m : memory) (a v : Z) : memory :=
  fun x => if x =? a then v else m x.

Lemma upd_eq m a v : upd m a v a = v.
Proof. unfold upd. by rewrite Z.eqb_refl. Qed.
Lemma upd_ne m a v x : x <> a -> upd m a v x = m x.
Proof. unfold upd. intros. by destruct (Z.eqb_spec x a). Qed.

(** A 32-bit store and load at address [a], least significant byte first. *)
Definition store32 (m : memory) (a v : Z) : memory :=
  upd (upd (upd (upd m a (v mod 256))
                     (a + 1) (v / 256 mod 256))
                (a + 2) (v / 65536 mod 256))
           (a + 3) (v / 16777216 mod 256).

Definition load32 (m : memory) (a : Z) : Z :=
  m a + 256 * m (a + 1) + 65536 * m (a + 2) + 16777216 * m (a + 3).

Definition bytes_ok (m : memory) : Prop := forall a, 0 <= m a < 256.

(** [mem_cases]: reduce reads of updated memory by comparing addresses. *)
Ltac mem_cases :=
  repeat match goal with
  | |- context [upd _ ?a _ ?x] =>
      first [ rewrite (upd_ne _ a _ x) by lia
            | replace x with a by lia; rewrite upd_eq ]
  end.

Lemma load32_store32 m a v : load32 (store32 m a v) a = u32 v.
Proof.
  unfold load32, store32. mem_cases. zsolve.
Qed.

Lemma store32_ne m a v x : x < a \/ a + 4 <= x -> store32 m a v x = m x.
Proof. intros. unfold store32. by mem_cases. Qed.

Lemma load32_store32_ne m a v b :
  b + 4 <= a \/ a + 4 <= b -> load32 (store32 m a v) b = load32 m b.
Proof. intros. unfold load32. by rewrite !store32_ne by lia. Qed.

Lemma load32_ext m m' a :
  (forall x, a <= x < a + 4 -> m' x = m x) -> load32 m' a = load32 m a.
Proof. intros H. unfold load32. by rewrite !H by lia. Qed.

Lemma load32_range m a : bytes_ok m -> 0 <= load32 m a < 4294967296.
Proof.
  intros H. unfold load32.
  pose proof (H a). pose proof (H (a+1)). pose proof (H (a+2)). pose proof (H (a+3)). lia.
Qed.

Lemma upd_bytes_ok m a v : bytes_ok m -> 0 <= v < 256 -> bytes_ok (upd m a v).
Proof. intros H Hv x. unfold upd. by destruct (x =? a). Qed.

Lemma store32_bytes_ok m a v : bytes_ok m -> bytes_ok (store32 m a v).
Proof. intros H. unfold store32. repeat apply upd_bytes_ok; try done; zsolve. Qed.

Create HintDb mem.
#[export] Hint Resolve upd_bytes_ok store32_bytes_ok load32_range : mem.
