(* ===== verification/StringC.v ===== *)
(** The kernel's memory and string routines (src/string.c), on the
    byte-addressed [memory] of the prelude.  Pointers are addresses in [Z]; a C
    object does not wrap around the end of the address space, so pointer
    arithmetic is plain.  Loop counts are [nat] (the [uint n] of the source).
    [strlen] scans until a NUL byte and takes fuel: the number of bytes it may
    look at; [strlen_finds] shows that any fuel beyond the string's length
    gives the length. *)

From S2P Require Import Prelude.

(* ------------------------------------------------------------------ *)
(** * The routines *)

(* src/x86.h:43-50 stosb *)
Fixpoint stosb (m : memory) (addr data : Z) (cnt : nat) : memory :=
  match cnt with
  | O => m
  | S cnt' => stosb (upd m addr (u8 data)) (addr + 1) data cnt'
  end.

(* src/x86.h:52-59 stosl *)
Fixpoint stosl (m : memory) (addr data : Z) (cnt : nat) : memory :=
  match cnt with
  | O => m
  | S cnt' => stosl (store32 m addr data) (addr + 4) data cnt'
  end.

(* src/string.c:4-13 memset *)
Definition memset (m : memory) (dst c : Z) (n : nat) : memory :=
  if (dst mod 4 =? 0) && (Z.of_nat n mod 4 =? 0) then
    let c := Z.land c 255 in
    stosl m dst (Z.lor (Z.lor (Z.lor (Z.shiftl c 24) (Z.shiftl c 16)) (Z.shiftl c 8)) c)
          (n / 4)%nat
  else stosb m dst c n.

(* src/string.c:15-29 memcmp *)
Fixpoint memcmp (m : memory) (s1 s2 : Z) (n : nat) : Z :=
  match n with
  | O => 0
  | S n' => if negb (m s1 =? m s2) then m s1 - m s2 else memcmp m (s1 + 1) (s2 + 1) n'
  end.

(** The two copying loops of [memmove]: from the end, then from the start. *)

(* src/string.c:39-43 memmove *)
Fixpoint copy_down (m : memory) (d s : Z) (n : nat) : memory :=
  match n with
  | O => m
  | S n' => copy_down (upd m (d - 1) (m (s - 1))) (d - 1) (s - 1) n'
  end.

(* src/string.c:44-46 memmove *)
Fixpoint copy_up (m : memory) (d s : Z) (n : nat) : memory :=
  match n with
  | O => m
  | S n' => copy_up (upd m d (m s)) (d + 1) (s + 1) n'
  end.

(* src/string.c:31-49 memmove *)
Definition memmove (m : memory) (dst src : Z) (n : nat) : memory :=
  if (src <? dst) && (dst <? src + Z.of_nat n)
  then copy_down m (dst + Z.of_nat n) (src + Z.of_nat n) n
  else copy_up m dst src n.

(* src/string.c:51-56 memcpy *)
Definition memcpy (m : memory) (dst src : Z) (n : nat) : memory := memmove m dst src n.

(** [p] and [q] may point into different objects, read through [mp] and [mq]. *)

(* src/string.c:58-66 strncmp *)
Fixpoint strncmp (mp : memory) (p : Z) (mq : memory) (q : Z) (n : nat) : Z :=
  match n with
  | O => 0
  | S n' =>
      if negb (mp p =? 0) && (mp p =? mq q)
      then strncmp mp (p + 1) mq (q + 1) n'
      else u8 (mp p) - u8 (mq q)
  end.

(* src/string.c:76-77 strncpy *)
Fixpoint zero_fill (m : memory) (s : Z) (n : nat) : memory :=
  match n with
  | O => m
  | S n' => zero_fill (upd m s 0) (s + 1) n'
  end.

(* src/string.c:68-79 strncpy *)
Fixpoint strncpy (m : memory) (s t : Z) (n : nat) : memory :=
  match n with
  | O => m
  | S n' =>
      let c := m t in
      let m := upd m s c in
      if c =? 0 then zero_fill m (s + 1) n' else strncpy m (s + 1) (t + 1) n'
  end.

(** The loop of [safestrcpy] after the guard: [n] bytes of room are left. *)

(* src/string.c:90-93 safestrcpy *)
Fixpoint safestrcpy_loop (m : memory) (s t : Z) (n : nat) : memory :=
  match n with
  | O => m
  | S O => upd m s 0
  | S n' =>
      let c := m t in
      let m := upd m s c in
      if c =? 0 then upd m (s + 1) 0 else safestrcpy_loop m (s + 1) (t + 1) n'
  end.

(* src/string.c:81-94 safestrcpy *)
Definition safestrcpy (m : memory) (s t n : Z) : memory :=
  if n <=? 0 then m else safestrcpy_loop m s t (Z.to_nat n).

(* src/string.c:96-104 strlen *)
Fixpoint strlen (m : memory) (s : Z) (fuel : nat) : option Z :=
  match fuel with
  | O => None
  | S f => if m s =? 0 then Some 0 else option_map (Z.add 1) (strlen m (s + 1) f)
  end.

#[global] Arguments memset : simpl never.
#[global] Arguments memmove : simpl never.
#[global] Arguments store32 : simpl never.
#[global] Arguments load32 : simpl never.

(** A list of bytes read as a C array that starts at address 0. *)
Definition arr (l : list Z) : memory := fun i => if i <? 0 then 0 else nth (Z.to_nat i) l 0.

(** Is there a NUL among the [n] bytes at [t]? *)
Fixpoint has_nul (m : memory) (t : Z) (n : nat) : bool :=
  match n with
  | O => false
  | S n' => (m t =? 0) || has_nul m (t + 1) n'
  end.

(* ------------------------------------------------------------------ *)
(** * Their specifications *)

Lemma stosb_spec n : forall m a v x,
  stosb m a v n x = if (a <=? x) && (x <? a + Z.of_nat n) then u8 v else m x.
Proof.
  induction n as [|n IH]; intros m a v x; simpl stosb.
  - destruct (Z.leb_spec a x), (Z.ltb_spec x (a + Z.of_nat 0)); simpl; try done; lia.
  - rewrite IH. unfold upd.
    destruct (Z.leb_spec a x), (Z.leb_spec (a + 1) x), (Z.ltb_spec x (a + 1 + Z.of_nat n)),
      (Z.ltb_spec x (a + Z.of_nat (S n))), (Z.eqb_spec x a); simpl; try done; lia.
Qed.

Lemma store32_rep m a b x :
  0 <= b < 256 ->
  store32 m a (b * 16777216 + b * 65536 + b * 256 + b) x =
  if (a <=? x) && (x <? a + 4) then b else m x.
Proof.
  intros Hb. unfold store32, upd.
  replace ((b * 16777216 + b * 65536 + b * 256 + b) mod 256) with b by zsolve.
  replace ((b * 16777216 + b * 65536 + b * 256 + b) / 256 mod 256) with b by zsolve.
  replace ((b * 16777216 + b * 65536 + b * 256 + b) / 65536 mod 256) with b by zsolve.
  replace ((b * 16777216 + b * 65536 + b * 256 + b) / 16777216 mod 256) with b by zsolve.
  destruct (Z.eqb_spec x (a + 3)), (Z.eqb_spec x (a + 2)), (Z.eqb_spec x (a + 1)),
    (Z.eqb_spec x a), (Z.leb_spec a x), (Z.ltb_spec x (a + 4)); simpl; try done; lia.
Qed.

Lemma stosl_spec n : forall m a b x,
  0 <= b < 256 ->
  stosl m a (b * 16777216 + b * 65536 + b * 256 + b) n x =
  if (a <=? x) && (x <? a + 4 * Z.of_nat n) then b else m x.
Proof.
  induction n as [|n IH]; intros m a b x Hb; simpl stosl.
  - destruct (Z.leb_spec a x), (Z.ltb_spec x (a + 4 * Z.of_nat 0)); simpl; try done; lia.
  - rewrite IH, store32_rep by done.
    destruct (Z.leb_spec a x), (Z.leb_spec (a + 4) x), (Z.ltb_spec x (a + 4 + 4 * Z.of_nat n)),
      (Z.ltb_spec x (a + 4 * Z.of_nat (S n))), (Z.ltb_spec x (a + 4)); simpl; try done; lia.
Qed.

(** Four copies of a byte side by side, as [memset] builds them with shifts. *)
Lemma byte_replicate c :
  0 <= c < 256 ->
  Z.lor (Z.lor (Z.lor (Z.shiftl c 24) (Z.shiftl c 16)) (Z.shiftl c 8)) c =
  c * 16777216 + c * 65536 + c * 256 + c.
Proof.
  intros Hc.
  assert (Hall : Forall (fun c => Z.lor (Z.lor (Z.lor (Z.shiftl c 24) (Z.shiftl c 16))
                                         (Z.shiftl c 8)) c =
                            c * 16777216 + c * 65536 + c * 256 + c) (seqZ 0 256)).
  { apply (bool_decide_unpack _). vm_compute. exact I. }
  rewrite Forall_forall in Hall. apply Hall, elem_of_seqZ. lia.
Qed.

(** [memset] fills exactly the [n] bytes from [dst] with the low byte of [c],
    whichever of the word and byte loops it takes. *)
Lemma memset_spec m dst c n x :
  memset m dst c n x = if (dst <=? x) && (x <? dst + Z.of_nat n) then u8 c else m x.
Proof.
  unfold memset. destruct (Z.eqb_spec (dst mod 4) 0); cbn [andb]; [|apply stosb_spec].
  destruct (Z.eqb_spec (Z.of_nat n mod 4) 0); [|apply stosb_spec].
  assert (Hc : Z.land c 255 = u8 c) by apply (Z.land_ones c 8 ltac:(lia)).
  rewrite Hc, byte_replicate, stosl_spec by apply u8_range.
  rewrite Nat2Z.inj_div. change (Z.of_nat 4) with 4.
  replace (4 * (Z.of_nat n / 4)) with (Z.of_nat n) by zsolve. done.
Qed.

Lemma copy_up_spec n : forall m d s x,
  d <= s \/ s + Z.of_nat n <= d ->
  copy_up m d s n x = if (d <=? x) && (x <? d + Z.of_nat n) then m (s + (x - d)) else m x.
Proof.
  induction n as [|n IH]; intros m d s x Hov; simpl copy_up.
  - destruct (Z.leb_spec d x), (Z.ltb_spec x (d + Z.of_nat 0)); simpl; try done; lia.
  - rewrite IH by lia.
    destruct (Z.leb_spec d x), (Z.leb_spec (d + 1) x), (Z.ltb_spec x (d + 1 + Z.of_nat n)),
      (Z.ltb_spec x (d + Z.of_nat (S n))); simpl; try lia; unfold upd.
    + destruct (Z.eqb_spec (s + 1 + (x - (d + 1))) d); [lia|f_equal; lia].
    + destruct (Z.eqb_spec x d); [lia|done].
    + destruct (Z.eqb_spec x d); [f_equal; lia|lia].
    + destruct (Z.eqb_spec x d); [lia|done].
Qed.

Lemma copy_down_spec n : forall m d s x,
  s <= d ->
  copy_down m d s n x =
  if (d - Z.of_nat n <=? x) && (x <? d) then m (s + (x - d)) else m x.
Proof.
  induction n as [|n IH]; intros m d s x Hov; simpl copy_down.
  - destruct (Z.leb_spec (d - Z.of_nat 0) x), (Z.ltb_spec x d); simpl; try done; lia.
  - rewrite IH by lia.
    destruct (Z.leb_spec (d - 1 - Z.of_nat n) x), (Z.leb_spec (d - Z.of_nat (S n)) x),
      (Z.ltb_spec x (d - 1)), (Z.ltb_spec x d); simpl; try lia; unfold upd.
    + destruct (Z.eqb_spec (s - 1 + (x - (d - 1))) (d - 1)); [lia|f_equal; lia].
    + destruct (Z.eqb_spec x (d - 1)); [f_equal; lia|lia].
    + destruct (Z.eqb_spec x (d - 1)); [lia|done].
    + destruct (Z.eqb_spec x (d - 1)); [lia|done].
Qed.

Lemma memmove_at m dst src n x :
  memmove m dst src n x =
  if (dst <=? x) && (x <? dst + Z.of_nat n) then m (src + (x - dst)) else m x.
Proof.
  unfold memmove.
  destruct (Z.ltb_spec src dst), (Z.ltb_spec dst (src + Z.of_nat n)); simpl;
    try (apply copy_up_spec; lia).
  rewrite copy_down_spec by lia.
  replace (dst + Z.of_nat n - Z.of_nat n) with dst by lia.
  destruct (_ && _); [f_equal; lia|done].
Qed.

Lemma strncmp_zero n : forall mp p mq q,
  bytes_ok mp -> bytes_ok mq ->
  strncmp mp p mq q n = 0 <->
  (forall i, 0 <= i < Z.of_nat n -> (forall j, 0 <= j < i -> mp (p + j) <> 0) ->
             mp (p + i) = mq (q + i)).
Proof.
  induction n as [|n IH]; intros mp p mq q Hp Hq; simpl strncmp.
  - split; [|done]. intros _ i Hi. lia.
  - pose proof (Hp p) as Hbp. pose proof (Hq q) as Hbq. rewrite !u8_id by done.
    destruct (Z.eqb_spec (mp p) (mq q)) as [He|He], (Z.eqb_spec (mp p) 0) as [Hz|Hz];
      simpl.
    + split; [|lia]. intros _ i Hi Hj. destruct (decide (i = 0)) as [->|].
      * by rewrite !Z.add_0_r.
      * exfalso. apply (Hj 0); [lia|]. by rewrite Z.add_0_r.
    + rewrite IH by done. split; intros H i Hi Hj.
      * destruct (decide (i = 0)) as [->|]; [by rewrite !Z.add_0_r|].
        specialize (H (i - 1)). replace (p + 1 + (i - 1)) with (p + i) in H by lia.
        replace (q + 1 + (i - 1)) with (q + i) in H by lia. apply H; [lia|].
        intros j Hj'. specialize (Hj (j + 1)). replace (p + 1 + j) with (p + (j + 1)) by lia.
        apply Hj. lia.
      * specialize (H (i + 1)). replace (p + (i + 1)) with (p + 1 + i) in H by lia.
        replace (q + (i + 1)) with (q + 1 + i) in H by lia. apply H; [lia|].
        intros j Hj'. destruct (decide (j = 0)) as [->|]; [by rewrite Z.add_0_r|].
        specialize (Hj (j - 1)). replace (p + 1 + (j - 1)) with (p + j) in Hj by lia.
        apply Hj. lia.
    + split; [lia|]. intros H. exfalso. apply He. specialize (H 0).
      rewrite !Z.add_0_r in H. apply H; lia.
    + split; [lia|]. intros H. exfalso. apply He. specialize (H 0).
      rewrite !Z.add_0_r in H. apply H; lia.
Qed.

Lemma zero_fill_spec n : forall m s x,
  zero_fill m s n x = if (s <=? x) && (x <? s + Z.of_nat n) then 0 else m x.
Proof.
  induction n as [|n IH]; intros m s x; simpl zero_fill.
  - destruct (Z.leb_spec s x), (Z.ltb_spec x (s + Z.of_nat 0)); simpl; try done; lia.
  - rewrite IH. unfold upd.
    destruct (Z.leb_spec s x), (Z.leb_spec (s + 1) x), (Z.ltb_spec x (s + 1 + Z.of_nat n)),
      (Z.ltb_spec x (s + Z.of_nat (S n))), (Z.eqb_spec x s); simpl; try done; lia.
Qed.

Lemma has_nul_ext n : forall m m' t,
  (forall i, t <= i < t + Z.of_nat n -> m' i = m i) -> has_nul m' t n = has_nul m t n.
Proof.
  induction n as [|n IH]; intros m m' t H; simpl; [done|].
  rewrite (H t) by lia. f_equal. apply IH. intros i Hi. apply H. lia.
Qed.

(** [strncpy] writes the [n] bytes from [s]: the string at [t], then NULs. *)
Lemma strncpy_spec n : forall m s t x,
  s + Z.of_nat n <= t \/ t + Z.of_nat n <= s ->
  strncpy m s t n x =
  if (s <=? x) && (x <? s + Z.of_nat n)
  then if has_nul m t (Z.to_nat (x - s)) then 0 else m (t + (x - s))
  else m x.
Proof.
  induction n as [|n IH]; intros m s t x Hd; simpl strncpy.
  { destruct (Z.leb_spec s x), (Z.ltb_spec x (s + Z.of_nat 0)); simpl; try done; lia. }
  destruct (Z.eqb_spec (m t) 0) as [Hz|Hz].
  - rewrite zero_fill_spec. unfold upd.
    destruct (Z.eqb_spec x s) as [->|Hx].
    + destruct (Z.leb_spec (s + 1) s); [lia|]. simpl. rewrite Z.leb_refl.
      destruct (Z.ltb_spec s (s + Z.of_nat (S n))); [|lia]. simpl.
      by rewrite Z.sub_diag, Z.add_0_r.
    + destruct (Z.leb_spec (s + 1) x), (Z.leb_spec s x), (Z.ltb_spec x (s + 1 + Z.of_nat n)),
        (Z.ltb_spec x (s + Z.of_nat (S n))); simpl; try done; try lia.
      destruct (Z.to_nat (x - s)) as [|k] eqn:Hk; [lia|]. simpl. by rewrite Hz.
  - rewrite IH by lia.
    destruct (Z.leb_spec s x); simpl.
    2:{ destruct (Z.leb_spec (s + 1) x); [lia|]. simpl. by rewrite upd_ne by lia. }
    destruct (decide (x = s)) as [->|Hx].
    { destruct (Z.leb_spec (s + 1) s); [lia|]. simpl.
      destruct (Z.ltb_spec s (s + Z.of_nat (S n))); [|lia].
      by rewrite Z.sub_diag, Z.add_0_r, upd_eq. }
    destruct (Z.leb_spec (s + 1) x); [|lia]. simpl.
    destruct (Z.ltb_spec x (s + 1 + Z.of_nat n)), (Z.ltb_spec x (s + Z.of_nat (S n)));
      try lia; simpl; [|by rewrite upd_ne by lia].
    replace (Z.to_nat (x - s)) with (S (Z.to_nat (x - (s + 1)))) by lia. simpl.
    destruct (Z.eqb_spec (m t) 0); [done|]. simpl.
    rewrite (has_nul_ext _ m) by (intros i Hi; apply upd_ne; lia).
    rewrite upd_ne by lia. by replace (t + 1 + (x - (s + 1))) with (t + (x - s)) by lia.
Qed.

Lemma safestrcpy_loop_spec n : forall m s t,
  (0 < n)%nat -> s + Z.of_nat n <= t \/ t + Z.of_nat n <= s ->
  exists k, 0 <= k < Z.of_nat n /\
    (forall i, 0 <= i < k -> safestrcpy_loop m s t n (s + i) = m (t + i) /\ m (t + i) <> 0) /\
    safestrcpy_loop m s t n (s + k) = 0 /\
    (k = Z.of_nat n - 1 \/ m (t + k) = 0) /\
    (forall x, x < s \/ s + Z.of_nat n <= x -> safestrcpy_loop m s t n x = m x).
Proof.
  induction n as [|n IH]; intros m s t Hn Hd; [lia|].
  destruct n as [|n].
  { exists 0. split; [lia|]. split; [lia|].
    rewrite Z.add_0_r. simpl safestrcpy_loop. rewrite upd_eq. repeat split; [by left|].
    intros x Hx. apply upd_ne. lia. }
  remember (S n) as n1 eqn:Hn1.
  assert (Hloop : safestrcpy_loop m s t (S n1) =
    (if m t =? 0 then upd (upd m s (m t)) (s + 1) 0
     else safestrcpy_loop (upd m s (m t)) (s + 1) (t + 1) n1)) by (subst; reflexivity).
  rewrite Hloop. clear Hloop. destruct (Z.eqb_spec (m t) 0) as [Hz|Hz].
  - exists 0. rewrite !Z.add_0_r. split; [lia|]. split; [lia|].
    rewrite upd_ne, upd_eq by lia. repeat split; [done|by right|].
    intros x Hx. rewrite !upd_ne by lia. done.
  - destruct (IH (upd m s (m t)) (s + 1) (t + 1)) as (k & Hk & Hpre & Hend & Hwhy & Hout);
      [lia|lia|].
    exists (k + 1). split; [lia|]. split; [|split; [|split]].
    + intros i Hi. destruct (decide (i = 0)) as [->|].
      * rewrite !Z.add_0_r. split; [|done]. rewrite Hout by lia. apply upd_eq.
      * destruct (Hpre (i - 1)) as [H1 H2]; [lia|]. rewrite upd_ne in H1, H2 by lia.
        replace (s + 1 + (i - 1)) with (s + i) in H1 by lia.
        replace (t + 1 + (i - 1)) with (t + i) in H1, H2 by lia. done.
    + by replace (s + (k + 1)) with (s + 1 + k) by lia.
    + destruct Hwhy as [->|Hw]; [left; lia|]. right. rewrite upd_ne in Hw by lia.
      by replace (t + (k + 1)) with (t + 1 + k) by lia.
    + intros x Hx. rewrite Hout by lia. apply upd_ne. lia.
Qed.

Lemma strlen_finds m : forall k s fuel,
  (forall i, 0 <= i < Z.of_nat k -> m (s + i) <> 0) -> m (s + Z.of_nat k) = 0 ->
  (k < fuel)%nat -> strlen m s fuel = Some (Z.of_nat k).
Proof.
  induction k as [|k IH]; intros s fuel Hpre Hend Hf; (destruct fuel as [|f]; [lia|]); simpl.
  - rewrite Z.add_0_r in Hend. by rewrite Hend.
  - destruct (Z.eqb_spec (m s) 0) as [Hz|Hz].
    { exfalso. apply (Hpre 0); [lia|]. by rewrite Z.add_0_r. }
    rewrite IH; [simpl; f_equal; lia| | |lia].
    + intros i Hi. replace (s + 1 + i) with (s + (i + 1)) by lia. apply Hpre. lia.
    + by replace (s + 1 + Z.of_nat k) with (s + Z.of_nat (S k)) by lia.
Qed.

(* ------------------------------------------------------------------ *)
(** * Properties *)

(** [memmove] copies correctly whether or not the two regions overlap, in
    either direction: afterwards every byte of the destination holds what the
    corresponding source byte held before the call, and no other byte of
    memory changed. *)
Theorem memmove_correct m dst src n :
  (forall i, 0 <= i < Z.of_nat n -> memmove m dst src n (dst + i) = m (src + i)) /\
  (forall x, x < dst \/ dst + Z.of_nat n <= x -> memmove m dst src n x = m x).
Proof.
  split; intros x Hx; rewrite memmove_at.
  - destruct (Z.leb_spec dst (dst + x)), (Z.ltb_spec (dst + x) (dst + Z.of_nat n));
      simpl; try lia. f_equal. lia.
  - destruct (Z.leb_spec dst x), (Z.ltb_spec x (dst + Z.of_nat n)); simpl; try lia; done.
Qed.

(** [safestrcpy] into an [n]-byte buffer that does not overlap the source
    always leaves a NUL-terminated string there: the longest prefix of the
    source that has no NUL and fits with its terminator; and it writes nothing
    outside the buffer. *)
Theorem safestrcpy_terminates m s t n :
  0 < n -> s + n <= t \/ t + n <= s ->
  exists k, 0 <= k < n /\
    (forall i, 0 <= i < k -> safestrcpy m s t n (s + i) = m (t + i) /\ m (t + i) <> 0) /\
    safestrcpy m s t n (s + k) = 0 /\
    (k = n - 1 \/ m (t + k) = 0) /\
    (forall x, x < s \/ s + n <= x -> safestrcpy m s t n x = m x).
Proof.
  intros Hn Hd. unfold safestrcpy. destruct (Z.leb_spec n 0); [lia|].
  destruct (safestrcpy_loop_spec (Z.to_nat n) m s t) as (k & Hk); [lia|lia|].
  rewrite !Z2Nat.id in Hk by lia. by exists k.
Qed.

Lemma safestrcpy_terminates_witness :
  exists k, 0 <= k < 4 /\ safestrcpy (arr [7; 7; 7; 7; 7; 97; 98; 0]) 0 5 4 k = 0.
Proof.
  destruct (safestrcpy_terminates (arr [7; 7; 7; 7; 7; 97; 98; 0]) 0 5 4) as (k & Hk & _ & Hz & _);
    [lia|lia|].
  exists k. split; [exact Hk|exact Hz].
Defined.
