(* ===== verification/Spinlock.v ===== *)
(** Interrupt disabling and spin locks (src/spinlock.c), and the functions of
    src/proc.c that find the current CPU.

    Three layers:
    - the C functions as they run on one CPU: [machine] holds the CPU array,
      the interrupt flag and the local APIC id of the running CPU, [spinlock] is
      the C struct;
    - the same lock under all interleavings of the CPUs' memory accesses
      ([lock_step], one constructor per shared access of [acquire], [holding]
      and [release]);
    - the view one CPU has of a lock ([lock_view]: free, held here, held
      elsewhere), which is the lock the other components use.  [acquire_view]
      and [release_view] relate it to the C functions. *)

From S2P Require Import Prelude.

(* src/memlayout.h:8-8 KERNBASE *)
Definition KERNBASE : Z := 2147483648.

(* ------------------------------------------------------------------ *)
(** * CPUs *)

(* src/proc.h:38-47 cpu *)
Record cpu := Cpu {
  apicid : Z;            (* Local APIC ID *)
  ncli : Z;              (* Depth of pushcli nesting. *)
  intena : bool;         (* Were interrupts enabled before pushcli? *)
  cproc : option nat;    (* The process running on this cpu or null *)
}.

(** [iflag] is FL_IF in the running CPU's eflags, [lapic] what [lapicid()]
    reads from its local APIC. *)
Record machine := Machine { cpus : list cpu; iflag : bool; lapic : Z }.

Definition set_cpus (cs : list cpu) (k : machine) : machine :=
  Machine cs (iflag k) (lapic k).
Definition set_iflag (b : bool) (k : machine) : machine :=
  Machine (cpus k) b (lapic k).
Definition set_ncli (n : Z) (c : cpu) : cpu := Cpu (apicid c) n (intena c) (cproc c).
Definition set_intena (b : bool) (c : cpu) : cpu := Cpu (apicid c) (ncli c) b (cproc c).

Definition cli : M machine unit := modify (set_iflag false).
Definition sti : M machine unit := modify (set_iflag true).

(** The loop of [mycpu]: the first index whose APIC id is [id]. *)
Fixpoint find_apic (id : Z) (i : nat) (cs : list cpu) : option nat :=
  match cs with
  | [] => None
  | c :: cs' => if apicid c =? id then Some i else find_apic id (S i) cs'
  end.

(* src/proc.c:44-61 mycpu *)
Definition mycpu : M machine nat :=
  k <- get ;;
  if iflag k then panic "mycpu called with interrupts enabled"
  else match find_apic (lapic k) 0 (cpus k) with
       | Some i => ret i
       | None => panic "unknown apicid"
       end.

(* src/proc.c:38-42 cpuid *)
Definition cpuid : M machine nat := mycpu.

(** Read and write a field of the current CPU: [mycpu()->f]. *)
Definition mycpu_get {A} (f : cpu -> A) : M machine (option A) :=
  i <- mycpu ;; gets (fun k => f <$> cpus k !! i).
Definition mycpu_set (f : cpu -> cpu) : M machine unit :=
  i <- mycpu ;; modify (fun k => set_cpus (alter f i (cpus k)) k).

(* src/spinlock.c:104-114 pushcli *)
Definition pushcli : M machine unit :=
  eflags <- gets iflag ;;
  cli ;;
  n <- mycpu_get ncli ;;
  when (bool_decide (n = Some 0)) (mycpu_set (set_intena eflags)) ;;
  mycpu_set (fun c => set_ncli (ncli c + 1) c).

(* src/spinlock.c:116-125 popcli *)
Definition popcli : M machine unit :=
  eflags <- gets iflag ;;
  if eflags then panic "popcli - interruptible"
  else
    mycpu_set (fun c => set_ncli (ncli c - 1) c) ;;
    n <- mycpu_get ncli ;;
    if bool_decide (default 0 n < 0) then panic "popcli"
    else
      e <- mycpu_get intena ;;
      when (bool_decide (n = Some 0) && default false e) sti.

(* src/proc.c:63-74 myproc *)
Definition myproc : M machine (option nat) :=
  pushcli ;;
  p <- mycpu_get cproc ;;
  popcli ;;
  ret (p ≫= id).

(* ------------------------------------------------------------------ *)
(** * Spin locks on one CPU *)

(* src/spinlock.h:2-10 spinlock *)
Record spinlock := Spinlock {
  locked : Z;                 (* Is the lock held? *)
  lk_name : string;           (* Name of lock. *)
  lk_cpu : option nat;        (* The cpu holding the lock. *)
  lk_pcs : list Z;            (* The call stack that locked the lock. *)
}.

Record lockenv := LockEnv { le_machine : machine; le_lock : spinlock }.

Definition machine_of : lens lockenv machine :=
  Lens le_machine (fun k e => LockEnv k (le_lock e)).
Definition set_lock (l : spinlock) (e : lockenv) : lockenv := LockEnv (le_machine e) l.

(* src/spinlock.c:12-18 initlock *)
Definition initlock (name : string) (l : spinlock) : spinlock :=
  Spinlock 0 name None (lk_pcs l).

(** The loop of [getcallerpcs]: at most [n] more frames from [ebp]. *)

(* src/spinlock.c:77-85 getcallerpcs *)
Fixpoint walk_frames (stack : memory) (ebp : Z) (n : nat) : list Z :=
  match n with
  | O => []
  | S n' =>
      if (ebp =? 0) || (ebp <? KERNBASE) || (ebp =? 4294967295)
      then replicate n 0
      else load32 stack (ebp + 4) :: walk_frames stack (load32 stack ebp) n'
  end.

(* src/spinlock.c:70-86 getcallerpcs *)
Definition getcallerpcs (stack : memory) (v : Z) : list Z :=
  walk_frames stack (u32 (v - 8)) 10.

(* src/spinlock.c:88-97 holding *)
Definition holding : M lockenv bool :=
  zoom machine_of pushcli ;;
  l <- gets le_lock ;;
  r <- (if truth (locked l)
        then me <- zoom machine_of mycpu ;; ret (bool_decide (lk_cpu l = Some me))
        else ret false) ;;
  zoom machine_of popcli ;;
  ret r.

(** [xchg(&lk->locked, 1)]: returns the old value. *)

(* src/x86.h:120-131 xchg *)
Definition xchg_locked (newval : Z) : M lockenv Z :=
  l <- gets le_lock ;;
  modify (set_lock (Spinlock newval (lk_name l) (lk_cpu l) (lk_pcs l))) ;;
  ret (locked l).

(** The spin loop of [acquire]: with the lock held elsewhere the loop makes no
    progress until its holder runs, so the CPU waits. *)

(* src/spinlock.c:20-43 acquire *)
Definition acquire (stack : memory) (v : Z) : M lockenv unit :=
  zoom machine_of pushcli ;;
  h <- holding ;;
  if h then panic "acquire"
  else
    old <- xchg_locked 1 ;;
    if truth old then wait
    else
      me <- zoom machine_of mycpu ;;
      modify (fun e => let l := le_lock e in
        set_lock (Spinlock (locked l) (lk_name l) (Some me) (getcallerpcs stack v)) e).

(* src/spinlock.c:45-68 release *)
Definition release : M lockenv unit :=
  h <- holding ;;
  if negb h then panic "release"
  else
    modify (fun e => let l := le_lock e in
      set_lock (Spinlock (locked l) (lk_name l) None (<[0%nat := 0]> (lk_pcs l))) e) ;;
    modify (fun e => let l := le_lock e in
      set_lock (Spinlock 0 (lk_name l) (lk_cpu l) (lk_pcs l)) e) ;;
    zoom machine_of popcli.

(* ------------------------------------------------------------------ *)
(** * The lock under interleaving *)

(** Where a CPU is in [acquire] and [release]; [Panicked] is a call that
    reached [panic]. *)
Inductive lock_pc :=
| Out | A_hold1 | A_hold2 | A_spin | A_own | Crit
| R_hold1 | R_hold2 | R_clear | R_store | Panicked.

Record lock_sys := LockSys {
  sh_locked : Z;
  sh_cpu : option nat;
  pc_of : nat -> lock_pc;
}.

Definition set_pc (f : nat -> lock_pc) (c : nat) (p : lock_pc) : nat -> lock_pc :=
  fun x => if decide (x = c) then p else f x.

(* src/spinlock.c:24-97 acquire *)
Inductive lock_step (c : nat) : lock_sys -> lock_sys -> Prop :=
| step_call s : pc_of s c = Out ->
    lock_step c s (LockSys (sh_locked s) (sh_cpu s) (set_pc (pc_of s) c A_hold1))
| step_a_hold1 s : pc_of s c = A_hold1 ->
    lock_step c s (LockSys (sh_locked s) (sh_cpu s)
      (set_pc (pc_of s) c (if truth (sh_locked s) then A_hold2 else A_spin)))
| step_a_hold2 s : pc_of s c = A_hold2 ->
    lock_step c s (LockSys (sh_locked s) (sh_cpu s)
      (set_pc (pc_of s) c (if decide (sh_cpu s = Some c) then Panicked else A_spin)))
| step_xchg s : pc_of s c = A_spin ->
    lock_step c s (LockSys 1 (sh_cpu s)
      (set_pc (pc_of s) c (if truth (sh_locked s) then A_spin else A_own)))
| step_set_cpu s : pc_of s c = A_own ->
    lock_step c s (LockSys (sh_locked s) (Some c) (set_pc (pc_of s) c Crit))
| step_release s : pc_of s c = Crit ->
    lock_step c s (LockSys (sh_locked s) (sh_cpu s) (set_pc (pc_of s) c R_hold1))
| step_r_hold1 s : pc_of s c = R_hold1 ->
    lock_step c s (LockSys (sh_locked s) (sh_cpu s)
      (set_pc (pc_of s) c (if truth (sh_locked s) then R_hold2 else Panicked)))
| step_r_hold2 s : pc_of s c = R_hold2 ->
    lock_step c s (LockSys (sh_locked s) (sh_cpu s)
      (set_pc (pc_of s) c (if decide (sh_cpu s = Some c) then R_clear else Panicked)))
| step_clear s : pc_of s c = R_clear ->
    lock_step c s (LockSys (sh_locked s) None (set_pc (pc_of s) c R_store))
| step_store s : pc_of s c = R_store ->
    lock_step c s (LockSys 0 (sh_cpu s) (set_pc (pc_of s) c Out)).

Inductive lock_reachable : lock_sys -> Prop :=
| lock_init : lock_reachable (LockSys 0 None (fun _ => Out))
| lock_next c s s' : lock_reachable s -> lock_step c s s' -> lock_reachable s'.

(** The CPU's [xchg] returned 0 and it has not yet stored 0 back. *)
Definition owns (p : lock_pc) : bool :=
  match p with A_own | Crit | R_hold1 | R_hold2 | R_clear | R_store => true | _ => false end.
(** ... and it is between the two writes of [lk->cpu]. *)
Definition named (p : lock_pc) : bool :=
  match p with Crit | R_hold1 | R_hold2 | R_clear => true | _ => false end.

Record lock_inv (s : lock_sys) : Prop := {
  inv_excl : forall c d, owns (pc_of s c) = true -> owns (pc_of s d) = true -> c = d;
  inv_locked : forall c, owns (pc_of s c) = true -> sh_locked s = 1;
  inv_free : truth (sh_locked s) = true -> exists c, owns (pc_of s c) = true;
  inv_cpu : forall c, sh_cpu s = Some c <-> named (pc_of s c) = true;
  inv_nopanic : forall c, pc_of s c <> Panicked;
}.

(* ------------------------------------------------------------------ *)
(** * The view of one CPU *)

Inductive lock_view := Unlocked | HeldHere | HeldElsewhere.

#[export] Instance lock_view_eq_dec : EqDecision lock_view.
Proof. solve_decision. Defined.

Definition view_lock (me : nat) (l : spinlock) : lock_view :=
  if truth (locked l)
  then if bool_decide (lk_cpu l = Some me) then HeldHere else HeldElsewhere
  else Unlocked.

(** [acquire] and [release] of a lock of a component's state, as seen by the
    CPU that runs the component. *)
Definition lock_acquire {St} (l : lens St lock_view) : M St unit :=
  v <- gets (view l) ;;
  match v with
  | Unlocked => modify (over l HeldHere)
  | HeldHere => panic "acquire"
  | HeldElsewhere => wait
  end.

Definition lock_release {St} (l : lens St lock_view) : M St unit :=
  v <- gets (view l) ;;
  match v with
  | HeldHere => modify (over l Unlocked)
  | _ => panic "release"
  end.

Lemma bind_acquire {St A} (l : lens St lock_view) (k : M St A) s :
  view l s = Unlocked -> (lock_acquire l ;; k) s = k (over l HeldHere s).
Proof. intros H. unfold lock_acquire, bind, gets. by rewrite H. Qed.

Lemma bind_release {St A} (l : lens St lock_view) (k : M St A) s :
  view l s = HeldHere -> (lock_release l ;; k) s = k (over l Unlocked s).
Proof. intros H. unfold lock_release, bind, gets. by rewrite H. Qed.

Lemma release_held {St} (l : lens St lock_view) s :
  view l s = HeldHere -> lock_release l s = Ok tt (over l Unlocked s).
Proof. intros H. unfold lock_release, bind, gets. by rewrite H. Qed.

(* ------------------------------------------------------------------ *)
(** * One CPU: specifications *)

(** The running CPU is entry [i] of the CPU array, with contents [c]. *)
Definition running (k : machine) (i : nat) (c : cpu) : Prop :=
  find_apic (lapic k) 0 (cpus k) = Some i /\ cpus k !! i = Some c.

Lemma find_apic_alter f i cs : forall id j,
  (forall c, apicid (f c) = apicid c) ->
  find_apic id j (alter f i cs) = find_apic id j cs.
Proof.
  revert i. induction cs as [|c cs IH]; intros i id j Hf; [done|].
  destruct i as [|i]; simpl; [by rewrite Hf|]. destruct (apicid c =? id); [done|by apply IH].
Qed.

Lemma alter_insert {A} (f : A -> A) (l : list A) i x :
  l !! i = Some x -> alter f i l = <[i := f x]> l.
Proof.
  intros Hl. apply list_eq. intros j. destruct (decide (i = j)) as [<-|Hne].
  - rewrite list_lookup_alter_eq, list_lookup_insert_eq by (by eapply lookup_lt_Some). by rewrite Hl.
  - by rewrite list_lookup_alter_ne, list_lookup_insert_ne.
Qed.

Lemma running_insert k i c c' b :
  running k i c -> apicid c' = apicid c ->
  running (Machine (<[i := c']> (cpus k)) b (lapic k)) i c'.
Proof.
  intros [H1 H2] Ha. split; simpl.
  - rewrite <- (find_apic_alter
      (fun d => Cpu (apicid d) (ncli c') (intena c') (cproc c')) i) in H1 by done.
    rewrite (alter_insert _ _ _ c) in H1 by done. rewrite <- Ha in H1. by destruct c'.
  - apply list_lookup_insert_eq. by eapply lookup_lt_Some.
Qed.

Lemma mycpu_ok k i c : running k i c -> iflag k = false -> mycpu k = Ok i k.
Proof. intros [H1 H2] Hf. unfold mycpu, bind, get. rewrite Hf, H1. done. Qed.

Lemma mycpu_get_ok {A} (f : cpu -> A) k i c :
  running k i c -> iflag k = false -> mycpu_get f k = Ok (Some (f c)) k.
Proof.
  intros Hr Hf. unfold mycpu_get. rewrite (bind_ok _ _ _ _ _ (mycpu_ok _ _ _ Hr Hf)).
  destruct Hr as [_ H2]. unfold gets. by rewrite H2.
Qed.

Lemma mycpu_set_ok f k i c :
  running k i c -> iflag k = false ->
  mycpu_set f k = Ok tt (Machine (<[i := f c]> (cpus k)) false (lapic k)).
Proof.
  intros Hr Hf. unfold mycpu_set. rewrite (bind_ok _ _ _ _ _ (mycpu_ok _ _ _ Hr Hf)).
  unfold modify, set_cpus. rewrite (alter_insert _ _ _ c) by apply Hr. by rewrite Hf.
Qed.

(** The CPU after [pushcli] and after [popcli]. *)
Definition pushed (c : cpu) (fl : bool) : cpu :=
  Cpu (apicid c) (ncli c + 1) (if ncli c =? 0 then fl else intena c) (cproc c).
Definition popped (c : cpu) : cpu := set_ncli (ncli c - 1) c.

Lemma pushcli_ok k i c :
  running k i c ->
  pushcli k = Ok tt (Machine (<[i := pushed c (iflag k)]> (cpus k)) false (lapic k)).
Proof.
  intros Hr. unfold pushcli. unfold bind at 1 2, gets at 1, cli, modify at 1.
  set (k0 := set_iflag false k). assert (Hr0 : running k0 i c) by done.
  rewrite (bind_ok _ _ _ _ _ (mycpu_get_ok ncli k0 i c Hr0 eq_refl)). unfold pushed.
  destruct (Z.eqb_spec (ncli c) 0) as [Hz|Hz].
  - rewrite bool_decide_eq_true_2 by (by rewrite Hz). unfold when.
    rewrite (bind_ok _ _ _ _ _ (mycpu_set_ok _ k0 i c Hr0 eq_refl)).
    rewrite (mycpu_set_ok _ _ i _ (running_insert k0 i c (set_intena (iflag k) c) false Hr0 eq_refl) eq_refl). simpl.
    by rewrite list_insert_insert_eq.
  - rewrite bool_decide_eq_false_2 by congruence. unfold when. rewrite bind_ret.
    by rewrite (mycpu_set_ok _ k0 i c Hr0 eq_refl).
Qed.

Lemma popcli_ok k i c :
  running k i c -> iflag k = false -> 1 <= ncli c ->
  popcli k = Ok tt (Machine (<[i := popped c]> (cpus k)) ((ncli c =? 1) && intena c) (lapic k)).
Proof.
  intros Hr Hf Hn. unfold popcli. unfold bind at 1, gets at 1. rewrite Hf.
  rewrite (bind_ok _ _ _ _ _ (mycpu_set_ok _ k i c Hr Hf)).
  assert (Hr1 := running_insert k i c (popped c) false Hr eq_refl). unfold popped in Hr1.
  rewrite (bind_ok _ _ _ _ _ (mycpu_get_ok ncli _ i _ Hr1 eq_refl)).
  rewrite bool_decide_eq_false_2 by (simpl; lia).
  rewrite (bind_ok _ _ _ _ _ (mycpu_get_ok intena _ i _ Hr1 eq_refl)). simpl.
  unfold when, sti, ret, modify, set_iflag; simpl.
  destruct (Z.eqb_spec (ncli c) 1) as [H1|H1].
  - rewrite bool_decide_eq_true_2 by (f_equal; lia). by destruct (intena c).
  - rewrite bool_decide_eq_false_2 by (intros [=]; lia). done.
Qed.

(** In a section with interrupts off, a nested [pushcli]/[popcli] pair leaves
    the machine as it was. *)
Lemma push_pop_nested k i c :
  running k i c -> iflag k = false -> 1 <= ncli c ->
  (pushcli ;; popcli) k = Ok tt k.
Proof.
  intros Hr Hf Hn. rewrite (bind_ok _ _ _ _ _ (pushcli_ok k i c Hr)).
  assert (Hr1 := running_insert k i c (pushed c (iflag k)) false Hr eq_refl).
  rewrite (popcli_ok _ i _ Hr1); [|done|simpl; lia]. simpl.
  destruct (Z.eqb_spec (ncli c + 1) 1); [lia|]. simpl.
  rewrite list_insert_insert_eq. destruct Hr as [_ Hl].
  assert (popped (pushed c (iflag k)) = c) as ->.
  { destruct c as [a d b q]. unfold popped, pushed, set_ncli. simpl in *.
    destruct (Z.eqb_spec d 0); [lia|]. f_equal. lia. }
  rewrite list_insert_id by done. destruct k as [cs fl la]. simpl in *. by subst.
Qed.

(** From any state where nesting and the interrupt flag agree, a pair leaves
    the nesting, the current process and the flag as they were. *)
Lemma push_pop_pair k i c :
  running k i c -> 0 <= ncli c -> (ncli c = 0 \/ iflag k = false) ->
  exists k1 k2 c2, pushcli k = Ok tt k1 /\ popcli k1 = Ok tt k2 /\ running k2 i c2 /\
    ncli c2 = ncli c /\ cproc c2 = cproc c /\ iflag k2 = iflag k.
Proof.
  intros Hr Hn Hf. rewrite (pushcli_ok k i c Hr).
  assert (Hr1 := running_insert k i c (pushed c (iflag k)) false Hr eq_refl).
  do 3 eexists. split; [done|]. split; [apply (popcli_ok _ i _ Hr1); [done|simpl; lia]|].
  split; [by apply running_insert with (pushed c (iflag k))|]. simpl.
  split; [lia|]. split; [done|].
  destruct (Z.eqb_spec (ncli c) 0) as [Hz|Hz]; [by rewrite Hz|].
  destruct Hf as [Hf|Hf]; [lia|]. rewrite Hf.
  destruct (Z.eqb_spec (ncli c + 1) 1); [lia|done].
Qed.

Lemma holding_ok e i c :
  running (le_machine e) i c -> iflag (le_machine e) = false -> 1 <= ncli c ->
  holding e = Ok (bool_decide (view_lock i (le_lock e) = HeldHere)) e.
Proof.
  intros Hr Hf Hn. destruct e as [k l]. simpl in *. unfold holding, zoom.
  assert (Hpp := push_pop_nested k i c Hr Hf Hn).
  rewrite (bind_ok _ _ _ _ _ (pushcli_ok k i c Hr)) in Hpp.
  unfold bind at 1. simpl. rewrite (pushcli_ok k i c Hr). simpl. unfold bind, gets. simpl.
  assert (Hr1 := running_insert k i c (pushed c (iflag k)) false Hr eq_refl).
  unfold view_lock. destruct (truth (locked l)); simpl.
  - rewrite (mycpu_ok _ i _ Hr1 eq_refl). simpl. rewrite Hpp. simpl.
    by destruct (bool_decide (lk_cpu l = Some i)).
  - by rewrite Hpp.
Qed.

Lemma acquire_view stack v e i c :
  running (le_machine e) i c -> 0 <= ncli c ->
  match view_lock i (le_lock e) with
  | Unlocked => exists e', acquire stack v e = Ok tt e' /\
      view_lock i (le_lock e') = HeldHere /\
      le_machine e' = Machine (<[i := pushed c (iflag (le_machine e))]> (cpus (le_machine e)))
                              false (lapic (le_machine e))
  | HeldHere => acquire stack v e = Panic "acquire"
  | HeldElsewhere => exists e', acquire stack v e = Wait e'
  end.
Proof.
  intros Hr Hn. destruct e as [k l]. simpl.
  set (k1 := Machine (<[i := pushed c (iflag k)]> (cpus k)) false (lapic k)).
  assert (Hr1 : running k1 i (pushed c (iflag k))) by (by apply running_insert with c).
  assert (Hacq : acquire stack v (LockEnv k l) =
    if bool_decide (view_lock i l = HeldHere) then Panic "acquire"
    else if truth (locked l) then Wait (LockEnv k1 (Spinlock 1 (lk_name l) (lk_cpu l) (lk_pcs l)))
    else Ok tt (LockEnv k1 (Spinlock 1 (lk_name l) (Some i) (getcallerpcs stack v)))).
  { unfold acquire. unfold bind at 1, zoom at 1. simpl. rewrite (pushcli_ok k i c Hr). simpl.
    erewrite bind_ok by (eapply (holding_ok (LockEnv k1 l)); [exact Hr1|done|simpl; lia]).
    simpl. destruct (bool_decide _); [done|].
    unfold xchg_locked, bind, gets, modify, ret, wait, zoom, set_lock; simpl.
    destruct (truth (locked l)); [done|]. simpl. by rewrite (mycpu_ok _ i _ Hr1 eq_refl). }
  rewrite Hacq. unfold view_lock. destruct (truth (locked l)); simpl.
  - destruct (bool_decide (lk_cpu l = Some i)); simpl; [done|eauto].
  - eexists. split; [done|]. simpl. by rewrite bool_decide_eq_true_2.
Qed.

Lemma release_view e i c :
  running (le_machine e) i c -> iflag (le_machine e) = false -> 1 <= ncli c ->
  match view_lock i (le_lock e) with
  | HeldHere => exists e', release e = Ok tt e' /\
      view_lock i (le_lock e') = Unlocked /\
      le_machine e' = Machine (<[i := popped c]> (cpus (le_machine e)))
                              ((ncli c =? 1) && intena c) (lapic (le_machine e))
  | _ => release e = Panic "release"
  end.
Proof.
  intros Hr Hf Hn. unfold release.
  rewrite (bind_ok _ _ _ _ _ (holding_ok e i c Hr Hf Hn)).
  destruct (view_lock i (le_lock e)) eqn:Hv;
    [by rewrite bool_decide_eq_false_2| |by rewrite bool_decide_eq_false_2].
  rewrite bool_decide_eq_true_2 by done. simpl.
  unfold bind, modify, zoom; simpl. rewrite (popcli_ok _ i c Hr Hf Hn).
  eexists. split; [done|]. done.
Qed.

(* ------------------------------------------------------------------ *)
(** * Interleavings: the invariant *)

Lemma set_pc_eq f c p : set_pc f c p c = p.
Proof. unfold set_pc. by rewrite decide_True. Qed.
Lemma set_pc_ne f c p d : d <> c -> set_pc f c p d = f d.
Proof. intros. unfold set_pc. by rewrite decide_False. Qed.

(** A CPU that neither starts nor stops owning the lock keeps the invariant. *)
Lemma lock_inv_local s c p :
  lock_inv s -> owns p = owns (pc_of s c) -> named p = named (pc_of s c) -> p <> Panicked ->
  lock_inv (LockSys (sh_locked s) (sh_cpu s) (set_pc (pc_of s) c p)).
Proof.
  intros [Hex Hlk Hfr Hcpu Hnp] Ho Hn Hp.
  assert (Hoo : forall d, owns (set_pc (pc_of s) c p d) = owns (pc_of s d)).
  { intros d. destruct (decide (d = c)) as [->|]; [by rewrite set_pc_eq|by rewrite set_pc_ne]. }
  split; simpl.
  - intros d e. rewrite !Hoo. apply Hex.
  - intros d. rewrite Hoo. apply Hlk.
  - intros H. destruct (Hfr H) as [d Hd]. exists d. by rewrite Hoo.
  - intros d. destruct (decide (d = c)) as [->|].
    + rewrite set_pc_eq, Hn. apply Hcpu.
    + rewrite set_pc_ne by done. apply Hcpu.
  - intros d. destruct (decide (d = c)) as [->|]; [by rewrite set_pc_eq|by rewrite set_pc_ne].
Qed.

(** The steps that take and give up ownership, or write [lk->cpu]. *)
Lemma lock_inv_owner s c p lk cp :
  lock_inv s ->
  (forall d, d <> c -> owns (pc_of s d) = false) ->
  (owns p = true -> lk = 1) -> (owns p = false -> lk = 0) ->
  (named p = true -> cp = Some c) -> (named p = false -> cp = None) ->
  p <> Panicked ->
  lock_inv (LockSys lk cp (set_pc (pc_of s) c p)).
Proof.
  intros [Hex Hlk Hfr Hcpu Hnp] Hoth Ho1 Ho0 Hn1 Hn0 Hp.
  assert (Hnm : forall d, d <> c -> named (pc_of s d) = false).
  { intros d Hd. specialize (Hoth d Hd). by destruct (pc_of s d). }
  assert (Hown : forall d, owns (set_pc (pc_of s) c p d) = true -> d = c).
  { intros d Hd. destruct (decide (d = c)); [done|]. by rewrite set_pc_ne, Hoth in Hd. }
  split; simpl.
  - intros d e Hd He. by rewrite (Hown d), (Hown e).
  - intros d Hd. rewrite (Hown d Hd), set_pc_eq in Hd. auto.
  - intros H. exists c. rewrite set_pc_eq. destruct (owns p) eqn:E; [done|].
    by rewrite (Ho0 eq_refl) in H.
  - intros d. destruct (decide (d = c)) as [->|].
    + rewrite set_pc_eq. destruct (named p) eqn:E; [by rewrite Hn1|].
      rewrite Hn0 by done. by split.
    + rewrite set_pc_ne, Hnm by done. split; [|done]. destruct (named p) eqn:E.
      * rewrite Hn1 by done. intros [=]. congruence.
      * by rewrite Hn0.
  - intros d. destruct (decide (d = c)) as [->|]; [by rewrite set_pc_eq|by rewrite set_pc_ne].
Qed.

Lemma truth_0_false s : truth s = false -> s = 0.
Proof. unfold truth. destruct (Z.eqb_spec s 0); done. Qed.

Lemma lock_step_inv c s s' : lock_inv s -> lock_step c s s' -> lock_inv s'.
Proof.
  intros Hi Hstep. pose proof Hi as [Hex Hlk Hfr Hcpu Hnp].
  assert (Hothers : owns (pc_of s c) = true -> forall d, d <> c -> owns (pc_of s d) = false).
  { intros Ho d Hd. destruct (owns (pc_of s d)) eqn:E; [|done]. exfalso. apply Hd. by apply Hex. }
  destruct Hstep as [s Hc|s Hc|s Hc|s Hc|s Hc|s Hc|s Hc|s Hc|s Hc|s Hc];
    rewrite ?Hc in Hothers; simpl in Hothers.
  - apply lock_inv_local; rewrite ?Hc; done.
  - apply lock_inv_local; rewrite ?Hc; by destruct (truth _).
  - rewrite decide_False.
    2:{ intros H. apply Hcpu in H. by rewrite Hc in H. }
    apply lock_inv_local; rewrite ?Hc; done.
  - destruct (truth (sh_locked s)) eqn:Ht.
    + destruct (Hfr eq_refl) as [d Hd]. rewrite <- (Hlk d Hd).
      apply lock_inv_local; rewrite ?Hc; done.
    + assert (Hno : forall d, owns (pc_of s d) = false).
      { intros d. destruct (owns (pc_of s d)) eqn:E; [|done]. by rewrite (Hlk d E) in Ht. }
      apply lock_inv_owner; try done. intros _.
      destruct (sh_cpu s) as [d|] eqn:E; [|done]. exfalso.
      assert (En : named (pc_of s d) = true) by (by apply Hcpu).
      specialize (Hno d). by destruct (pc_of s d).
  - apply lock_inv_owner; auto; try done. intros _. apply (Hlk c). by rewrite Hc.
  - apply lock_inv_local; rewrite ?Hc; done.
  - rewrite (Hlk c) by (by rewrite Hc). simpl. rewrite <- (Hlk c) by (by rewrite Hc).
    apply lock_inv_local; rewrite ?Hc; done.
  - rewrite decide_True by (apply Hcpu; by rewrite Hc).
    apply lock_inv_local; rewrite ?Hc; done.
  - apply lock_inv_owner; auto; try done. intros _. apply (Hlk c). by rewrite Hc.
  - apply lock_inv_owner; auto; try done. intros _.
    destruct (sh_cpu s) as [d|] eqn:E; [|done]. exfalso.
    assert (En : named (pc_of s d) = true) by (by apply Hcpu).
    destruct (decide (d = c)) as [->|Hd]; [by rewrite Hc in En|].
    specialize (Hothers eq_refl d Hd). by destruct (pc_of s d).
Qed.

Lemma lock_reachable_inv s : lock_reachable s -> lock_inv s.
Proof.
  induction 1 as [|c s s' _ IH Hs]; [|by eapply lock_step_inv]. by split.
Qed.

(* ------------------------------------------------------------------ *)
(** * Properties *)

(** C4: spin locks give mutual exclusion.  In every interleaving of any number
    of CPUs that acquire and release the lock, with each shared memory access
    of [acquire], [holding] and [release] a separate step, at most one CPU is
    between its successful [xchg] and its store that frees the lock, and no
    CPU's [acquire] or [release] panics. *)
Theorem spinlock_mutual_exclusion s :
  lock_reachable s ->
  (forall c d, owns (pc_of s c) = true -> owns (pc_of s d) = true -> c = d) /\
  (forall c, pc_of s c <> Panicked).
Proof. intros H. destruct (lock_reachable_inv s H) as [Hex _ _ _ Hnp]. done. Qed.

Lemma spinlock_mutual_exclusion_witness :
  exists s, lock_reachable s /\ pc_of s 1%nat = A_spin /\
    (forall c d, owns (pc_of s c) = true -> owns (pc_of s d) = true -> c = d).
Proof.
  assert (H : lock_reachable (LockSys 0 None (set_pc (set_pc (fun _ => Out) 1%nat A_hold1) 1%nat A_spin))).
  { eapply (lock_next 1%nat); [eapply (lock_next 1%nat)|].
    - apply lock_init.
    - by apply step_call.
    - exact (step_a_hold1 1%nat (LockSys 0 None (set_pc (fun _ => Out) 1%nat A_hold1)) eq_refl). }
  eexists. split; [exact H|]. split; [reflexivity|]. apply (spinlock_mutual_exclusion _ H).
Defined.

Fixpoint repeat_m {St} (n : nat) (m : M St unit) : M St unit :=
  match n with O => ret tt | S n' => m ;; repeat_m n' m end.

Lemma pushcli_repeat n : forall k i c,
  running k i c -> iflag k = false -> 1 <= ncli c ->
  repeat_m n pushcli k =
  Ok tt (Machine (<[i := set_ncli (ncli c + Z.of_nat n) c]> (cpus k)) false (lapic k)).
Proof.
  induction n as [|n IH]; intros k i c Hr Hf Hn; simpl.
  - rewrite Z.add_0_r. destruct Hr as [_ Hl]. rewrite list_insert_id by (by destruct c).
    destruct k; simpl in *. by subst.
  - rewrite (bind_ok _ _ _ _ _ (pushcli_ok k i c Hr)).
    rewrite (IH _ i (pushed c (iflag k)));
      [|by apply running_insert with c|done|simpl; lia].
    simpl. rewrite list_insert_insert_eq. unfold set_ncli, pushed. simpl.
    destruct (Z.eqb_spec (ncli c) 0); [lia|].
    by replace (ncli c + 1 + Z.of_nat n) with (ncli c + Z.pos (Pos.of_succ_nat n)) by lia.
Qed.

Lemma popcli_repeat n : forall k i c,
  running k i c -> iflag k = false -> Z.of_nat n <= ncli c -> (1 <= n)%nat ->
  repeat_m n popcli k =
  Ok tt (Machine (<[i := set_ncli (ncli c - Z.of_nat n) c]> (cpus k))
                 ((ncli c =? Z.of_nat n) && intena c) (lapic k)).
Proof.
  induction n as [|n IH]; intros k i c Hr Hf Hn H1; [lia|]. simpl repeat_m.
  rewrite (bind_ok _ _ _ _ _ (popcli_ok k i c Hr Hf ltac:(lia))).
  destruct (decide (n = O)) as [->|Hn0]; [done|].
  destruct (Z.eqb_spec (ncli c) 1); [lia|]. simpl andb.
  rewrite (IH _ i (popped c)); [|by apply running_insert with c|done|simpl; lia|lia].
  simpl. rewrite list_insert_insert_eq. unfold set_ncli, popped. simpl.
  replace (ncli c - 1 - Z.of_nat n) with (ncli c - Z.of_nat (S n)) by lia.
  by destruct (Z.eqb_spec (ncli c - 1) (Z.of_nat n)),
    (Z.eqb_spec (ncli c) (Z.of_nat (S n))); try lia.
Qed.

(** [pushcli] and [popcli] nest: after [n] calls of [pushcli] from a state
    with no nesting, interrupts stay off until the [n]-th [popcli], which
    restores the interrupt flag to what it was before the first [pushcli]. *)
Theorem cli_nesting k i c n j :
  running k i c -> ncli c = 0 -> (1 <= j <= n)%nat ->
  exists k' c', (repeat_m n pushcli ;; repeat_m j popcli) k = Ok tt k' /\
    running k' i c' /\ ncli c' = Z.of_nat (n - j) /\
    iflag k' = (if decide (j = n) then iflag k else false).
Proof.
  intros Hr Hz Hj. destruct n as [|n]; [lia|]. simpl (repeat_m (S n) _).
  set (c1 := set_ncli (Z.of_nat (S n)) (pushed c (iflag k))).
  assert (Hpush : repeat_m (S n) pushcli k =
    Ok tt (Machine (<[i := c1]> (cpus k)) false (lapic k))).
  { simpl. rewrite (bind_ok _ _ _ _ _ (pushcli_ok k i c Hr)).
    rewrite (pushcli_repeat n _ i (pushed c (iflag k)));
      [|by apply running_insert with c|done|simpl; lia].
    simpl. rewrite list_insert_insert_eq. unfold c1, set_ncli. simpl.
    by replace (ncli c + 1 + Z.of_nat n) with (Z.pos (Pos.of_succ_nat n)) by lia. }
  rewrite (bind_ok _ _ _ _ _ Hpush).
  assert (Hr1 : running (Machine (<[i := c1]> (cpus k)) false (lapic k)) i c1)
    by (by apply running_insert with c).
  rewrite (popcli_repeat j _ i c1 Hr1 eq_refl); [|simpl; lia|lia].
  do 2 eexists. split; [done|]. split; [|split].
  - by apply running_insert with c1.
  - change (Z.of_nat (S n) - Z.of_nat j = Z.of_nat (S n - j)). lia.
  - change ((Z.of_nat (S n) =? Z.of_nat j) && (if ncli c =? 0 then iflag k else intena c) =
            (if decide (j = S n) then iflag k else false)).
    rewrite Hz. case_decide as Hj'.
    + subst. by rewrite Z.eqb_refl.
    + destruct (Z.eqb_spec (Z.of_nat (S n)) (Z.of_nat j)); [lia|done].
Qed.

Definition one_cpu : machine := Machine [Cpu 0 0 false None] true 0.

Lemma cli_nesting_witness :
  exists k', (repeat_m 3 pushcli ;; repeat_m 3 popcli) one_cpu = Ok tt k' /\ iflag k' = true.
Proof.
  destruct (cli_nesting one_cpu 0 (Cpu 0 0 false None) 3 3) as (k' & c' & H & _ & _ & Hf);
    [by split|done|lia|].
  exists k'. split; [exact H|exact Hf].
Defined.
