(* ===== verification/Kalloc.v ===== *)
(** The physical page allocator (src/kalloc.c): the free list threaded through
    the first word of each free page.

    The state is the memory together with [kmem]; [kend] is the address
    [end] that the linker gives the kernel image.  [freelist_repr] relates the
    linked list in memory to the list of free pages; every operation is shown to
    act on that list.  [kalloc_step] is the allocator in use: allocations,
    frees of pages in use, and arbitrary writes of the owners into their pages. *)

From S2P Require Import Prelude StringC Spinlock.

(* src/mmu.h:85-85 PGSIZE *)
Definition PGSIZE : Z := 4096.
(* src/memlayout.h:4-4 PHYSTOP *)
Definition PHYSTOP : Z := 234881024.
(** The size of a page as a byte count. *)
Definition PGBYTES : nat := Z.to_nat PGSIZE.
#[global] Arguments PGBYTES : simpl never.

Lemma PGBYTES_Z : Z.of_nat PGBYTES = 4096.
Proof. reflexivity. Qed.
#[global] Opaque PGBYTES.

(* src/memlayout.h:11-11 V2P *)
Definition V2P (a : Z) : Z := u32 (a - KERNBASE).
(* src/memlayout.h:12-12 P2V *)
Definition P2V (a : Z) : Z := u32 (a + KERNBASE).

(* src/mmu.h:90-90 PGROUNDUP *)
Definition PGROUNDUP (sz : Z) : Z := Z.land (u32 (sz + PGSIZE - 1)) 4294963200.
(* src/mmu.h:91-91 PGROUNDDOWN *)
Definition PGROUNDDOWN (a : Z) : Z := Z.land (u32 a) 4294963200.

Lemma land_page x : 0 <= x < 4294967296 -> Z.land x 4294963200 = x / 4096 * 4096.
Proof.
  intros Hx. change 4294963200 with (Z.ldiff (Z.ones 32) (Z.ones 12)).
  assert (Hl : Z.land x (Z.ldiff (Z.ones 32) (Z.ones 12)) = Z.ldiff (Z.land x (Z.ones 32)) (Z.ones 12)).
  { apply Z.bits_inj'. intros n Hn. by rewrite Z.land_spec, !Z.ldiff_spec, Z.land_spec, andb_assoc. }
  rewrite Hl, Z.land_ones, Z.mod_small, Z.ldiff_ones_r by lia.
  by rewrite Z.shiftl_mul_pow2, Z.shiftr_div_pow2 by lia.
Qed.

Lemma PGROUNDUP_eq sz : 0 <= sz <= 4294963200 -> PGROUNDUP sz = (sz + 4095) / 4096 * 4096.
Proof.
  intros H. unfold PGROUNDUP, PGSIZE. rewrite u32_id by lia.
  rewrite land_page by lia. by replace (sz + 4096 - 1) with (sz + 4095) by lia.
Qed.

Lemma PGROUNDDOWN_eq a : 0 <= a < 4294967296 -> PGROUNDDOWN a = a / 4096 * 4096.
Proof. intros H. unfold PGROUNDDOWN. rewrite u32_id by lia. by apply land_page. Qed.

(* src/kalloc.c:20-24 kmem *)
Record kmem := Kmem { kmem_lock : lock_view; use_lock : bool; freelist : Z }.

Record kstate := Kstate { k_mem : memory; k_kmem : kmem }.

Definition set_mem (m : memory) (s : kstate) : kstate := Kstate m (k_kmem s).
Definition set_freelist (h : Z) (s : kstate) : kstate :=
  Kstate (k_mem s) (Kmem (kmem_lock (k_kmem s)) (use_lock (k_kmem s)) h).
Definition set_use_lock (b : bool) (s : kstate) : kstate :=
  Kstate (k_mem s) (Kmem (kmem_lock (k_kmem s)) b (freelist (k_kmem s))).

Definition kmem_lock_of : lens kstate lock_view :=
  Lens (fun s => kmem_lock (k_kmem s))
       (fun v s => Kstate (k_mem s) (Kmem v (use_lock (k_kmem s)) (freelist (k_kmem s)))).

Section kalloc.
Variable kend : Z.

(* src/kalloc.c:54-77 kfree *)
Definition kfree (v : Z) : M kstate unit :=
  if truth (v mod PGSIZE) || (v <? kend) || (PHYSTOP <=? V2P v) then panic "kfree"
  else
    (* Fill with junk to catch dangling refs. *)
    modify (fun s => set_mem (memset (k_mem s) v 1 PGBYTES) s) ;;
    ul <- gets (fun s => use_lock (k_kmem s)) ;;
    when ul (lock_acquire kmem_lock_of) ;;
    (* r->next = kmem.freelist; kmem.freelist = r *)
    modify (fun s => set_mem (store32 (k_mem s) v (freelist (k_kmem s))) s) ;;
    modify (set_freelist v) ;;
    when ul (lock_release kmem_lock_of).

(* src/kalloc.c:79-95 kalloc *)
Definition kalloc : M kstate Z :=
  ul <- gets (fun s => use_lock (k_kmem s)) ;;
  when ul (lock_acquire kmem_lock_of) ;;
  r <- gets (fun s => freelist (k_kmem s)) ;;
  when (truth r) (modify (fun s => set_freelist (load32 (k_mem s) r) s)) ;;
  when ul (lock_release kmem_lock_of) ;;
  ret r.

(** The loop of [freerange]; [fuel] bounds its iterations. *)
Fixpoint freerange_loop (fuel : nat) (p vend : Z) : M kstate unit :=
  match fuel with
  | O => ret tt
  | S f => if p + PGSIZE <=? vend then kfree p ;; freerange_loop f (p + PGSIZE) vend
           else ret tt
  end.

(** The loop runs once per page below [vend], so [vend / PGSIZE + 1] iterations
    are more than it needs. *)

(* src/kalloc.c:46-53 freerange *)
Definition freerange (vstart vend : Z) : M kstate unit :=
  freerange_loop (Z.to_nat (vend / PGSIZE + 1)) (PGROUNDUP vstart) vend.

(* src/kalloc.c:26-37 kinit1 *)
Definition kinit1 (vstart vend : Z) : M kstate unit :=
  modify (over kmem_lock_of Unlocked) ;;
  modify (set_use_lock false) ;;
  freerange vstart vend.

(* src/kalloc.c:39-44 kinit2 *)
Definition kinit2 (vstart vend : Z) : M kstate unit :=
  freerange vstart vend ;;
  modify (set_use_lock true).

(* ------------------------------------------------------------------ *)
(** * The free list *)

(** A page [kfree] accepts. *)
Definition valid_page (v : Z) : Prop :=
  v mod PGSIZE = 0 /\ kend <= v /\ KERNBASE <= v < KERNBASE + PHYSTOP.

Fixpoint freelist_repr (m : memory) (h : Z) (ps : list Z) : Prop :=
  match ps with
  | [] => h = 0
  | p :: ps' => h = p /\ valid_page p /\ freelist_repr m (load32 m p) ps'
  end.

(** The allocator between two calls: its lock is free, and its list holds the
    distinct pages [ps]. *)
Record kmem_ok (s : kstate) (ps : list Z) : Prop := {
  kmem_unlocked : kmem_lock (k_kmem s) = Unlocked;
  kmem_repr : freelist_repr (k_mem s) (freelist (k_kmem s)) ps;
  kmem_nodup : NoDup ps;
}.

Definition in_page (p x : Z) : Prop := p <= x < p + PGSIZE.

Lemma freelist_valid m h ps p : freelist_repr m h ps -> p ∈ ps -> valid_page p.
Proof.
  revert h. induction ps as [|q ps IH]; intros h Hr Hp; [by apply elem_of_nil in Hp|].
  destruct Hr as (_ & Hv & Hr). apply elem_of_cons in Hp as [->|Hp]; [done|by eapply IH].
Qed.

(** The list only depends on the first words of its pages. *)
Lemma freelist_frame m m' h ps :
  (forall p x, p ∈ ps -> p <= x < p + 4 -> m' x = m x) ->
  freelist_repr m h ps -> freelist_repr m' h ps.
Proof.
  revert h. induction ps as [|q ps IH]; intros h Hm Hr; [done|].
  destruct Hr as (Hq & Hv & Hr). split; [done|]. split; [done|].
  rewrite (load32_ext m m') by (intros x Hx; apply (Hm q); [left|done]).
  apply IH; [|done]. intros p x Hp. apply Hm. by right.
Qed.

Lemma pages_disjoint p q x :
  valid_page p -> valid_page q -> p <> q -> in_page q x -> ~ in_page p x.
Proof. unfold valid_page, in_page, PGSIZE. intros [Hp _] [Hq _] Hne Hx Hy. zsolve. Qed.

Lemma valid_page_guard v :
  valid_page v ->
  truth (v mod PGSIZE) || (v <? kend) || (PHYSTOP <=? V2P v) = false.
Proof.
  unfold valid_page, truth, V2P, PGSIZE, PHYSTOP, KERNBASE. intros (H1 & H2 & H3).
  rewrite H1. rewrite u32_id by lia.
  destruct (Z.ltb_spec v kend); [lia|]. simpl. apply Z.leb_gt. lia.
Qed.

(** The state after [kfree v]. *)
Definition freed (v : Z) (s : kstate) : kstate :=
  set_freelist v (set_mem (store32 (memset (k_mem s) v 1 PGBYTES) v (freelist (k_kmem s))) s).

Lemma kfree_ok v s :
  kmem_lock (k_kmem s) = Unlocked -> valid_page v -> kfree v s = Ok tt (freed v s).
Proof.
  intros Hl Hv. unfold kfree. rewrite (valid_page_guard v Hv).
  destruct s as [m [l u h]]. simpl in *. subst l.
  unfold lock_acquire, lock_release. mred. by destruct u.
Qed.

Lemma kfree_invalid v s : 0 <= v < 4294967296 -> ~ valid_page v -> kfree v s = Panic "kfree".
Proof.
  intros Hr Hv. unfold kfree.
  destruct (truth (v mod PGSIZE) || (v <? kend) || (PHYSTOP <=? V2P v)) eqn:E; [done|].
  exfalso. apply Hv. apply orb_false_iff in E as [E E3]. apply orb_false_iff in E as [E1 E2].
  unfold valid_page, truth, V2P, KERNBASE, PHYSTOP in *.
  apply negb_false_iff, Z.eqb_eq in E1. apply Z.ltb_ge in E2. apply Z.leb_gt in E3. zsolve.
Qed.

Lemma kalloc_ok s :
  kmem_lock (k_kmem s) = Unlocked ->
  kalloc s = Ok (freelist (k_kmem s))
    (if truth (freelist (k_kmem s))
     then set_freelist (load32 (k_mem s) (freelist (k_kmem s))) s else s).
Proof.
  intros Hl. destruct s as [m [l u h]]. simpl in *. subst l.
  unfold kalloc, lock_acquire, lock_release. mred. destruct u; simpl; by destruct (truth h).
Qed.

Lemma freed_mem v s x : ~ in_page v x -> k_mem (freed v s) x = k_mem s x.
Proof.
  unfold in_page, PGSIZE. intros Hx. unfold freed. simpl. rewrite store32_ne by lia.
  rewrite memset_spec, PGBYTES_Z.
  destruct (Z.leb_spec v x), (Z.ltb_spec x (v + 4096)); simpl; try done; lia.
Qed.

Lemma kfree_list v s ps :
  kmem_ok s ps -> valid_page v -> v ∉ ps -> kmem_ok (freed v s) (v :: ps).
Proof.
  intros [Hl Hr Hn] Hv Hnin. split; [done| |by constructor].
  unfold freed. simpl. split; [done|]. split; [done|].
  rewrite load32_store32.
  assert (Hh : u32 (freelist (k_kmem s)) = freelist (k_kmem s)).
  { apply u32_id. destruct ps as [|q ps]; simpl in Hr; [by rewrite Hr|].
    destruct Hr as (-> & (_ & _ & Hq) & _). unfold KERNBASE, PHYSTOP in Hq. lia. }
  rewrite Hh. eapply freelist_frame; [|exact Hr].
  intros p x Hp Hx. apply (freed_mem v s x).
  eapply pages_disjoint; [exact Hv|by eapply freelist_valid| |].
  - intros ->. done.
  - unfold in_page, PGSIZE. lia.
Qed.

Lemma valid_page_nonzero p : valid_page p -> truth p = true.
Proof.
  intros (_ & _ & Hp). unfold truth, KERNBASE in *. destruct (Z.eqb_spec p 0); [lia|done].
Qed.

Lemma kalloc_list s p ps :
  kmem_ok s (p :: ps) ->
  exists s', kalloc s = Ok p s' /\ kmem_ok s' ps /\ k_mem s' = k_mem s.
Proof.
  intros [Hl Hr Hn]. rewrite kalloc_ok by done. destruct Hr as (Hp & Hv & Hr).
  rewrite Hp, (valid_page_nonzero p Hv). eexists. split; [done|]. split; [|done].
  apply NoDup_cons in Hn as [_ Hn]. by split.
Qed.

Lemma kalloc_empty s : kmem_ok s [] -> kalloc s = Ok 0 s.
Proof. intros [Hl Hr _]. rewrite kalloc_ok by done. simpl in Hr. by rewrite Hr. Qed.

(** Writing into a page that is not in the list leaves the list alone. *)
Lemma kmem_ok_write s ps p m' :
  kmem_ok s ps -> valid_page p -> p ∉ ps ->
  (forall x, ~ in_page p x -> m' x = k_mem s x) -> kmem_ok (set_mem m' s) ps.
Proof.
  intros [Hl Hr Hn] Hp Hnin Hm. split; [done| |done]. simpl.
  eapply freelist_frame; [|exact Hr]. intros q y Hq Hy. apply Hm.
  apply (pages_disjoint p q); [done|by eapply freelist_valid|congruence|].
  unfold in_page, PGSIZE. lia.
Qed.

Lemma kmem_ok_head s p ps : kmem_ok s (p :: ps) -> valid_page p /\ p ∉ ps.
Proof. intros [_ (_ & Hv & _) Hn]. apply NoDup_cons in Hn as [Hn _]. done. Qed.

(* ------------------------------------------------------------------ *)
(** * The allocator in use *)

(** [used] are the pages handed out and not yet freed.  Owners write what they
    like into their pages. *)
Inductive kalloc_step : kstate * list Z -> kstate * list Z -> Prop :=
| ks_alloc s used p s' :
    kalloc s = Ok p s' -> p <> 0 -> kalloc_step (s, used) (s', p :: used)
| ks_fail s used s' :
    kalloc s = Ok 0 s' -> kalloc_step (s, used) (s', used)
| ks_free s u1 p u2 s' :
    kfree p s = Ok tt s' -> kalloc_step (s, u1 ++ p :: u2) (s', u1 ++ u2)
| ks_write s used p x b :
    p ∈ used -> in_page p x ->
    kalloc_step (s, used) (set_mem (upd (k_mem s) x b) s, used).

Inductive kalloc_steps : kstate * list Z -> kstate * list Z -> Prop :=
| kss_refl c : kalloc_steps c c
| kss_step c c' c'' : kalloc_steps c c' -> kalloc_step c' c'' -> kalloc_steps c c''.

(** [pool] is the set of all pages; each is either free or in use. *)
Definition pool_ok (pool : list Z) (c : kstate * list Z) : Prop :=
  exists ps, kmem_ok c.1 ps /\ ps ++ c.2 ≡ₚ pool.

Lemma kalloc_step_pool pool c c' :
  NoDup pool -> Forall valid_page pool ->
  pool_ok pool c -> kalloc_step c c' -> pool_ok pool c'.
Proof.
  intros Hnd Hval (ps & Hok & Hperm) Hstep.
  destruct Hstep as [s used p s' Ha Hp|s used s' Ha|s u1 p u2 s' Hf|s used p x b Hp Hx]; simpl in *.
  - destruct ps as [|q ps]; [rewrite (kalloc_empty s Hok) in Ha; congruence|].
    destruct (kalloc_list s q ps Hok) as (s1 & Ha' & Hok' & _). rewrite Ha in Ha'; simplify_eq.
    exists ps. split; [done|]. simpl. rewrite <- Hperm. simpl. by rewrite Permutation_middle.
  - destruct ps as [|q ps]; [rewrite (kalloc_empty s Hok) in Ha; simplify_eq; by exists []|].
    destruct (kalloc_list s q ps Hok) as (s1 & Ha' & _). exfalso.
    destruct Hok as [_ (_ & (_ & _ & Hq) & _) _]. unfold KERNBASE in Hq.
    rewrite Ha in Ha'. simplify_eq. lia.
  - rewrite <- Permutation_middle in Hperm.
    assert (Hpv : valid_page p).
    { rewrite Forall_forall in Hval. apply Hval. rewrite <- Hperm. set_solver. }
    assert (Hnin : p ∉ ps).
    { rewrite <- Hperm, NoDup_app in Hnd. destruct Hnd as (_ & Hd & _).
      intros Hin. apply (Hd p Hin). set_solver. }
    rewrite (kfree_ok p s (kmem_unlocked _ _ Hok) Hpv) in Hf. simplify_eq.
    exists (p :: ps). split; [by apply kfree_list|]. rewrite <- Hperm. simpl.
    by rewrite Permutation_middle.
  - exists ps. split; [|done]. apply (kmem_ok_write s ps p); [done| | |].
    + rewrite Forall_forall in Hval. apply Hval. rewrite <- Hperm. set_solver.
    + intros Hin. rewrite <- Hperm, NoDup_app in Hnd. destruct Hnd as (_ & Hd & _). by apply (Hd p).
    + intros y Hy. apply upd_ne. by intros ->.
Qed.

Lemma kmem_ok_valid s ps : kmem_ok s ps -> Forall valid_page ps.
Proof. intros [_ Hr _]. apply Forall_forall. intros p Hp. by eapply freelist_valid. Qed.

Lemma kalloc_steps_pool pool s0 c :
  kmem_ok s0 pool -> kalloc_steps (s0, []) c -> pool_ok pool c.
Proof.
  intros Hok Hs. remember (s0, []) as c0 eqn:E.
  induction Hs as [|c0 c c' Hs IH Hstep]; subst.
  - exists pool. split; [done|]. simpl. by rewrite app_nil_r.
  - eapply kalloc_step_pool; [by apply Hok|by eapply kmem_ok_valid|by apply IH|done].
Qed.

(** The pages [freerange] frees, in the order it frees them. *)
Definition pages_from (p : Z) (n : nat) : list Z := (fun i => p + PGSIZE * i) <$> seqZ 0 (Z.of_nat n).

Lemma pages_from_S p n : pages_from p (S n) = p :: pages_from (p + PGSIZE) n.
Proof.
  unfold pages_from. rewrite (seqZ_cons 0) by lia. simpl. f_equal; [lia|].
  replace (Z.pred (Z.of_nat (S n))) with (Z.of_nat n) by lia.
  change (Z.succ 0) with (1 + 0). rewrite <- fmap_add_seqZ, <- list_fmap_compose.
  apply list_fmap_ext. intros i x _. simpl. unfold PGSIZE. lia.
Qed.

Lemma freerange_loop_ok n : forall fuel p vend s ps,
  kmem_ok s ps -> p + PGSIZE * Z.of_nat n <= vend < p + PGSIZE * (Z.of_nat n + 1) ->
  (n < fuel)%nat ->
  Forall valid_page (pages_from p n) -> NoDup (pages_from p n ++ ps) ->
  exists s', freerange_loop fuel p vend s = Ok tt s' /\ kmem_ok s' (rev (pages_from p n) ++ ps).
Proof.
  induction n as [|n IH]; intros fuel p vend s ps Hok Hv Hf Hval Hnd;
    (destruct fuel as [|fuel]; [lia|]); simpl freerange_loop.
  - destruct (Z.leb_spec (p + PGSIZE) vend); [lia|]. by exists s.
  - destruct (Z.leb_spec (p + PGSIZE) vend); [|unfold PGSIZE in *; lia].
    rewrite pages_from_S in Hval, Hnd |- *. apply Forall_cons in Hval as [Hp Hval].
    simpl in Hnd. apply NoDup_cons in Hnd as [Hnin Hnd]. apply not_elem_of_app in Hnin as [Hn1 Hn2].
    rewrite (bind_ok _ _ _ _ _ (kfree_ok p s (kmem_unlocked _ _ Hok) Hp)).
    destruct (IH fuel (p + PGSIZE) vend (freed p s) (p :: ps)) as (s' & Hr & Hok').
    + by apply kfree_list.
    + unfold PGSIZE in *. lia.
    + lia.
    + done.
    + rewrite NoDup_app in Hnd |- *. destruct Hnd as (Hnd1 & Hnd2 & Hnd3). repeat split; [done| |by constructor].
      intros x Hx Hx'. apply elem_of_cons in Hx' as [->|Hx']; [done|]. by apply (Hnd2 x).
    + exists s'. split; [done|]. simpl. rewrite <- (assoc_L (++)). done.
Qed.
End kalloc.

(* ------------------------------------------------------------------ *)
(** * Properties *)

(** C7: the page allocator never hands out a page that is in use.  Start with
    the distinct pages [pool] free and take any sequence of allocations, frees
    of pages in use, and writes of the owners into their pages: the pages in
    use are always distinct pages of the pool, what [kalloc] returns next is
    not one of them, it returns 0 only when the whole pool is in use, and
    [kfree] of a page in use never panics. *)
Theorem kalloc_exclusive kend pool s0 s used :
  kmem_ok kend s0 pool -> kalloc_steps kend (s0, []) (s, used) ->
  NoDup used /\ used ⊆ pool /\
  (exists p s', kalloc s = Ok p s' /\ p ∉ used /\ (if decide (p = 0) then used ≡ₚ pool else p ∈ pool)) /\
  (forall p, p ∈ used -> exists s', kfree kend p s = Ok tt s').
Proof.
  intros Hok Hs. destruct (kalloc_steps_pool kend pool s0 _ Hok Hs) as (ps & Hok' & Hperm).
  simpl in *. pose proof (kmem_nodup _ _ _ Hok) as Hnd. pose proof (kmem_ok_valid _ _ _ Hok) as Hval.
  rewrite <- Hperm in Hnd. apply NoDup_app in Hnd as (Hn1 & Hn2 & Hn3).
  assert (Hin : used ⊆ pool) by (intros x Hx; rewrite <- Hperm; set_solver).
  rewrite Forall_forall in Hval. split; [done|]. split; [done|]. split.
  - destruct ps as [|p ps].
    + exists 0, s. split; [by apply (kalloc_empty kend)|]. rewrite decide_True by done. split; [|done].
      intros H0. destruct (Hval 0 (Hin 0 H0)) as (_ & _ & H1). unfold KERNBASE in H1. lia.
    + destruct (kalloc_list kend s p ps Hok') as (s' & Ha & _). exists p, s'.
      split; [done|]. assert (Hp : p ∈ pool) by (rewrite <- Hperm; set_solver).
      destruct (Hval p Hp) as (_ & _ & H1). unfold KERNBASE in H1.
      split; [|by rewrite decide_False by lia]. intros Hu. apply (Hn2 p); [left|done].
  - intros p Hp. eexists. apply kfree_ok; [apply Hok'|]. apply Hval. by apply Hin.
Qed.

(** A machine with three free pages at the start of kernel memory. *)
Definition k3_end : Z := 2148532224.
Definition k3 : kstate :=
  match kinit1 k3_end k3_end (k3_end + 3 * PGSIZE) (Kstate (fun _ => 0) (Kmem HeldElsewhere true 0)) with
  | Ok _ s => s
  | _ => Kstate (fun _ => 0) (Kmem Unlocked true 0)
  end.

(** [freerange] frees every page that lies wholly in the range given to it,
    exactly once, and terminates: the free list afterwards holds those pages in
    front of what it held before. *)
Theorem freerange_frees kend vstart vend s ps n :
  kmem_ok kend s ps -> 0 <= vstart <= vend -> vend <= 4294963200 ->
  n = Z.to_nat ((vend - PGROUNDUP vstart) / PGSIZE) ->
  Forall (valid_page kend) (pages_from (PGROUNDUP vstart) n) ->
  NoDup (pages_from (PGROUNDUP vstart) n ++ ps) ->
  exists s', freerange kend vstart vend s = Ok tt s' /\
    kmem_ok kend s' (rev (pages_from (PGROUNDUP vstart) n) ++ ps).
Proof.
  intros Hok Hv He -> Hval Hnd. unfold freerange.
  assert (Hp : PGROUNDUP vstart = (vstart + 4095) / 4096 * 4096) by (apply PGROUNDUP_eq; lia).
  destruct (decide (PGROUNDUP vstart <= vend)) as [Hle|Hgt].
  - apply freerange_loop_ok; try done; unfold PGSIZE in *; zsolve.
  - replace (Z.to_nat ((vend - PGROUNDUP vstart) / PGSIZE)) with O in * by (unfold PGSIZE in *; zsolve).
    destruct (Z.to_nat (vend / PGSIZE + 1)) as [|f] eqn:Ef; [by exists s|]. simpl.
    destruct (Z.leb_spec (PGROUNDUP vstart + PGSIZE) vend); [unfold PGSIZE in *; lia|]. by exists s.
Qed.

Definition k3_pages : list Z := [k3_end + 8192; k3_end + 4096; k3_end].

Lemma k3_ok : kmem_ok k3_end k3 k3_pages.
Proof.
  split; [vm_compute; reflexivity| |].
  - vm_compute. repeat split; discriminate.
  - apply (bool_decide_unpack _). vm_compute. exact I.
Qed.

Lemma k3_head : freelist (k_kmem k3) = k3_end + 8192.
Proof. vm_compute. reflexivity. Qed.
Lemma k3_next : load32 (k_mem k3) (k3_end + 8192) = k3_end + 4096.
Proof. vm_compute. reflexivity. Qed.

Lemma kalloc_exclusive_witness :
  exists p s', kalloc (set_freelist (k3_end + 4096) k3) = Ok p s' /\ p ∉ [k3_end + 8192].
Proof.
  destruct (kalloc_exclusive k3_end k3_pages k3 (set_freelist (k3_end + 4096) k3) [k3_end + 8192])
    as (_ & _ & (p & s' & H & Hp & _) & _).
  - exact k3_ok.
  - eapply kss_step; [apply kss_refl|]. apply ks_alloc; [|discriminate].
    rewrite kalloc_ok, k3_head, k3_next by apply k3_ok. reflexivity.
  - exists p, s'. split; [exact H|exact Hp].
Defined.

Lemma freerange_frees_witness :
  exists s', freerange k3_end (k3_end + 12288) (k3_end + 20480) k3 = Ok tt s' /\
    kmem_ok k3_end s' ([k3_end + 16384; k3_end + 12288] ++ k3_pages).
Proof.
  apply (freerange_frees k3_end (k3_end + 12288) (k3_end + 20480) k3 k3_pages 2).
  - exact k3_ok.
  - vm_compute. split; discriminate.
  - vm_compute. discriminate.
  - vm_compute. reflexivity.
  - replace (pages_from _ 2) with [k3_end + 12288; k3_end + 16384] by (vm_compute; reflexivity).
    repeat constructor; vm_compute; discriminate.
  - apply (bool_decide_unpack _). vm_compute. exact I.
Defined.
