(* ===== verification/Ptable.v ===== *)
(** The process table and the routines of src/proc.c that work on it alone:
    process slots, atomic state changes with [cas], pid and slot allocation,
    sleep and wakeup, yielding and the scheduler.

    A process is an index into [procs].  The state holds the table, the pid
    counter, the running CPU's [machine] (interrupt nesting and current
    process), the memory with the page allocator, and the two registers a
    context switch loads (the page directory and the kernel stack pointer of
    the task segment).  A call that reaches [swtch] gives up the CPU: it ends in
    [Wait]; what it does when it is resumed is a definition of its own
    ([sched_resume], [sleep_resume], [yield_resume]). *)

From S2P Require Import Prelude StringC Spinlock Kalloc.

(* ------------------------------------------------------------------ *)
(** * Data *)

(* src/param.h:1-1 NPROC *)
Definition NPROC : nat := 64.
(* src/param.h:4-4 NOFILE *)
Definition NOFILE : nat := 16.
(* src/param.h:2-2 KSTACKSIZE *)
Definition KSTACKSIZE : Z := 4096.

(* src/types.h:12-12 SIG_DFL *)
Definition SIG_DFL : Z := 0.
(* src/types.h:13-13 SIG_IGN *)
Definition SIG_IGN : Z := 1.
(* src/types.h:14-14 SIGKILL *)
Definition SIGKILL : Z := 9.
(* src/types.h:15-15 SIGSTOP *)
Definition SIGSTOP : Z := 17.
(* src/types.h:16-16 SIGCONT *)
Definition SIGCONT : Z := 19.

(* src/proc.h:3-36 trapframe *)
Record trapframe := Trapframe {
  tf_edi : Z; tf_esi : Z; tf_ebp : Z; tf_oesp : Z;
  tf_ebx : Z; tf_edx : Z; tf_ecx : Z; tf_eax : Z;
  tf_gs : Z; tf_fs : Z; tf_es : Z; tf_ds : Z; tf_trapno : Z;
  tf_err : Z; tf_eip : Z; tf_cs : Z; tf_eflags : Z;
  tf_esp : Z; tf_ss : Z;
}.

Definition TF_SIZE : Z := 76.
Definition CONTEXT_SIZE : Z := 20.

(** The trap frame stored at address [a]. *)
Definition load_tf (m : memory) (a : Z) : trapframe :=
  let w i := load32 m (a + i) in
  let h i := m (a + i) + 256 * m (a + i + 1) in
  Trapframe (w 0) (w 4) (w 8) (w 12) (w 16) (w 20) (w 24) (w 28)
    (h 32) (h 36) (h 40) (h 44) (w 48) (w 52) (w 56) (h 60) (w 64) (w 68) (h 72).

(* src/proc.h:71-73 procstate *)
Inductive procstate :=
| UNUSED | EMBRYO | SLEEPING | RUNNABLE | RUNNING | ZOMBIE
| NEG_UNUSED | NEG_SLEEPING | NEG_RUNNABLE | NEG_RUNNING | NEG_ZOMBIE.

#[export] Instance procstate_eq_dec : EqDecision procstate.
Proof. solve_decision. Defined.

(** A sleep channel is an address; those of process slots are told apart. *)
Inductive channel := NoChan | ProcChan (p : nat) | Chan (a : Z).

#[export] Instance channel_eq_dec : EqDecision channel.
Proof. solve_decision. Defined.

(* src/proc.h:75-96 proc *)
Record proc := Proc {
  p_sz : Z;                      (* Size of process memory (bytes) *)
  p_pgdir : Z;                   (* Page table *)
  p_kstack : Z;                  (* Bottom of kernel stack for this process *)
  p_state : procstate;           (* Process state *)
  p_pid : Z;                     (* Process ID *)
  p_parent : option nat;         (* Parent process *)
  p_tf : trapframe;              (* Trap frame for current syscall *)
  p_context : Z;                 (* swtch() here to run process *)
  p_chan : channel;              (* If non-zero, sleeping on chan *)
  p_killed : bool;               (* If non-zero, have been killed *)
  p_ofile : list (option nat);   (* Open files *)
  p_cwd : option nat;            (* Current directory *)
  p_name : list Z;               (* Process name (debugging) *)
  p_pending : Z;                 (* pending_signals *)
  p_mask : Z;                    (* signal_mask *)
  p_handlers : list Z;           (* signal_handlers *)
  p_backup : trapframe;          (* Trap frame backup *)
  p_mask_backup : Z;             (* signal_mask_backup *)
}.

Definition set_sz v p := Proc v (p_pgdir p) (p_kstack p) (p_state p) (p_pid p) (p_parent p) (p_tf p) (p_context p) (p_chan p) (p_killed p) (p_ofile p) (p_cwd p) (p_name p) (p_pending p) (p_mask p) (p_handlers p) (p_backup p) (p_mask_backup p).
Definition set_pgdir v p := Proc (p_sz p) v (p_kstack p) (p_state p) (p_pid p) (p_parent p) (p_tf p) (p_context p) (p_chan p) (p_killed p) (p_ofile p) (p_cwd p) (p_name p) (p_pending p) (p_mask p) (p_handlers p) (p_backup p) (p_mask_backup p).
Definition set_kstack v p := Proc (p_sz p) (p_pgdir p) v (p_state p) (p_pid p) (p_parent p) (p_tf p) (p_context p) (p_chan p) (p_killed p) (p_ofile p) (p_cwd p) (p_name p) (p_pending p) (p_mask p) (p_handlers p) (p_backup p) (p_mask_backup p).
Definition set_state v p := Proc (p_sz p) (p_pgdir p) (p_kstack p) v (p_pid p) (p_parent p) (p_tf p) (p_context p) (p_chan p) (p_killed p) (p_ofile p) (p_cwd p) (p_name p) (p_pending p) (p_mask p) (p_handlers p) (p_backup p) (p_mask_backup p).
Definition set_pid v p := Proc (p_sz p) (p_pgdir p) (p_kstack p) (p_state p) v (p_parent p) (p_tf p) (p_context p) (p_chan p) (p_killed p) (p_ofile p) (p_cwd p) (p_name p) (p_pending p) (p_mask p) (p_handlers p) (p_backup p) (p_mask_backup p).
Definition set_parent v p := Proc (p_sz p) (p_pgdir p) (p_kstack p) (p_state p) (p_pid p) v (p_tf p) (p_context p) (p_chan p) (p_killed p) (p_ofile p) (p_cwd p) (p_name p) (p_pending p) (p_mask p) (p_handlers p) (p_backup p) (p_mask_backup p).
Definition set_tf v p := Proc (p_sz p) (p_pgdir p) (p_kstack p) (p_state p) (p_pid p) (p_parent p) v (p_context p) (p_chan p) (p_killed p) (p_ofile p) (p_cwd p) (p_name p) (p_pending p) (p_mask p) (p_handlers p) (p_backup p) (p_mask_backup p).
Definition set_context v p := Proc (p_sz p) (p_pgdir p) (p_kstack p) (p_state p) (p_pid p) (p_parent p) (p_tf p) v (p_chan p) (p_killed p) (p_ofile p) (p_cwd p) (p_name p) (p_pending p) (p_mask p) (p_handlers p) (p_backup p) (p_mask_backup p).
Definition set_chan v p := Proc (p_sz p) (p_pgdir p) (p_kstack p) (p_state p) (p_pid p) (p_parent p) (p_tf p) (p_context p) v (p_killed p) (p_ofile p) (p_cwd p) (p_name p) (p_pending p) (p_mask p) (p_handlers p) (p_backup p) (p_mask_backup p).
Definition set_killed v p := Proc (p_sz p) (p_pgdir p) (p_kstack p) (p_state p) (p_pid p) (p_parent p) (p_tf p) (p_context p) (p_chan p) v (p_ofile p) (p_cwd p) (p_name p) (p_pending p) (p_mask p) (p_handlers p) (p_backup p) (p_mask_backup p).
Definition set_ofile v p := Proc (p_sz p) (p_pgdir p) (p_kstack p) (p_state p) (p_pid p) (p_parent p) (p_tf p) (p_context p) (p_chan p) (p_killed p) v (p_cwd p) (p_name p) (p_pending p) (p_mask p) (p_handlers p) (p_backup p) (p_mask_backup p).
Definition set_cwd v p := Proc (p_sz p) (p_pgdir p) (p_kstack p) (p_state p) (p_pid p) (p_parent p) (p_tf p) (p_context p) (p_chan p) (p_killed p) (p_ofile p) v (p_name p) (p_pending p) (p_mask p) (p_handlers p) (p_backup p) (p_mask_backup p).
Definition set_name v p := Proc (p_sz p) (p_pgdir p) (p_kstack p) (p_state p) (p_pid p) (p_parent p) (p_tf p) (p_context p) (p_chan p) (p_killed p) (p_ofile p) (p_cwd p) v (p_pending p) (p_mask p) (p_handlers p) (p_backup p) (p_mask_backup p).
Definition set_pending v p := Proc (p_sz p) (p_pgdir p) (p_kstack p) (p_state p) (p_pid p) (p_parent p) (p_tf p) (p_context p) (p_chan p) (p_killed p) (p_ofile p) (p_cwd p) (p_name p) v (p_mask p) (p_handlers p) (p_backup p) (p_mask_backup p).
Definition set_mask v p := Proc (p_sz p) (p_pgdir p) (p_kstack p) (p_state p) (p_pid p) (p_parent p) (p_tf p) (p_context p) (p_chan p) (p_killed p) (p_ofile p) (p_cwd p) (p_name p) (p_pending p) v (p_handlers p) (p_backup p) (p_mask_backup p).
Definition set_handlers v p := Proc (p_sz p) (p_pgdir p) (p_kstack p) (p_state p) (p_pid p) (p_parent p) (p_tf p) (p_context p) (p_chan p) (p_killed p) (p_ofile p) (p_cwd p) (p_name p) (p_pending p) (p_mask p) v (p_backup p) (p_mask_backup p).
Definition set_backup v p := Proc (p_sz p) (p_pgdir p) (p_kstack p) (p_state p) (p_pid p) (p_parent p) (p_tf p) (p_context p) (p_chan p) (p_killed p) (p_ofile p) (p_cwd p) (p_name p) (p_pending p) (p_mask p) (p_handlers p) v (p_mask_backup p).
Definition set_mask_backup v p := Proc (p_sz p) (p_pgdir p) (p_kstack p) (p_state p) (p_pid p) (p_parent p) (p_tf p) (p_context p) (p_chan p) (p_killed p) (p_ofile p) (p_cwd p) (p_name p) (p_pending p) (p_mask p) (p_handlers p) (p_backup p) v.

Definition zero_tf : trapframe := Trapframe 0 0 0 0 0 0 0 0 0 0 0 0 0 0 0 0 0 0 0.

(** A slot of the zero-initialised table. *)
Definition unused_proc : proc :=
  Proc 0 0 0 UNUSED 0 None zero_tf 0 NoChan false (replicate NOFILE None) None
       (replicate 16 0) 0 0 (replicate 32 0) zero_tf 0.

(* src/proc.c:12-19 ptable *)
Record pst := Pst {
  procs : list proc;
  nextpid : Z;
  initproc : option nat;
  mach : machine;
  km : kstate;
  cr3 : Z;
  esp0 : Z;
}.

Definition set_procs v s := Pst v (nextpid s) (initproc s) (mach s) (km s) (cr3 s) (esp0 s).
Definition set_nextpid v s := Pst (procs s) v (initproc s) (mach s) (km s) (cr3 s) (esp0 s).
Definition set_initproc v s := Pst (procs s) (nextpid s) v (mach s) (km s) (cr3 s) (esp0 s).
Definition set_mach v s := Pst (procs s) (nextpid s) (initproc s) v (km s) (cr3 s) (esp0 s).
Definition set_km v s := Pst (procs s) (nextpid s) (initproc s) (mach s) v (cr3 s) (esp0 s).
Definition set_mmu c e s := Pst (procs s) (nextpid s) (initproc s) (mach s) (km s) c e.

Definition mach_of : lens pst machine := Lens mach set_mach.
Definition km_of : lens pst kstate := Lens km set_km.

#[export] Instance mach_of_laws : LensLaws mach_of.
Proof. split; intros; by destruct s. Qed.
#[export] Instance km_of_laws : LensLaws km_of.
Proof. split; intros; by destruct s. Qed.

(* ------------------------------------------------------------------ *)
(** * Operations *)

(** [p->f] and [p->f = v] for a slot [p]. *)
Definition proc_at (s : pst) (p : nat) : proc := nth p (procs s) unused_proc.
Definition getp {A} (p : nat) (f : proc -> A) : M pst A := gets (fun s => f (proc_at s p)).
Definition setp (p : nat) (f : proc -> proc) : M pst unit :=
  modify (fun s => set_procs (alter f p (procs s)) s).

(** [cas(&p->state, expected, newval)] *)

(* src/x86.h:147-161 cas *)
Definition cas (p : nat) (expected newval : procstate) : M pst bool :=
  st <- getp p p_state ;;
  if decide (st = expected)
  then setp p (set_state newval) ;; ret true
  else ret false.

(** A [cas] whose result the code ignores. *)
Definition cas_ (p : nat) (expected newval : procstate) : M pst unit :=
  cas p expected newval ;; ret tt.

(** [myproc()], dereferenced: the kernel faults when no process runs. *)
Definition curproc : M pst nat :=
  r <- zoom mach_of myproc ;;
  match r with Some p => ret p | None => panic "null dereference" end.

(** Compare-and-swap on [nextpid]: with no other CPU in between, the first
    attempt succeeds. *)

(* src/proc.c:77-86 allocpid *)
Definition allocpid : M pst Z :=
  old <- gets nextpid ;;
  n <- gets nextpid ;;
  let pid := s32 (n + 1) in
  cur <- gets nextpid ;;
  if cur =? old
  then modify (set_nextpid (s32 (cur + 1))) ;; ret pid
  else wait.

Section ptable.
Variables (kend trapret forkret : Z).

(** The [goto found] loop of [allocproc]: the first slot whose state changes
    from UNUSED to EMBRYO. *)
Definition claim_slot (p : nat) : M pst (option nat) :=
  b <- cas p UNUSED EMBRYO ;; ret (if b then Some p else None).

(** The part of [allocproc] after [found:]. *)

(* src/proc.c:107-145 allocproc *)
Definition init_slot (p : nat) : M pst (option nat) :=
  setp p (set_handlers (replicate 32 SIG_DFL)) ;;
  setp p (set_pending 0) ;;
  setp p (set_mask 0) ;;
  pid <- allocpid ;;
  setp p (set_pid pid) ;;
  (* Allocate kernel stack. *)
  ks <- zoom km_of kalloc ;;
  setp p (set_kstack ks) ;;
  if ks =? 0
  then cas_ p EMBRYO UNUSED ;; ret None
  else
    let sp := ks + KSTACKSIZE - TF_SIZE in
    m <- gets (fun s => k_mem (km s)) ;;
    setp p (set_tf (load_tf m sp)) ;;
    (* new context starts executing at forkret, which returns to trapret *)
    let sp := sp - 4 in
    zoom km_of (modify (fun k => set_mem (store32 (k_mem k) sp trapret) k)) ;;
    let sp := sp - CONTEXT_SIZE in
    setp p (set_context sp) ;;
    zoom km_of (modify (fun k => set_mem (memset (k_mem k) sp 0 20) k)) ;;
    zoom km_of (modify (fun k => set_mem (store32 (k_mem k) (sp + 16) forkret) k)) ;;
    ret (Some p).

(* src/proc.c:88-146 allocproc *)
Definition allocproc : M pst (option nat) :=
  zoom mach_of pushcli ;;
  r <- for_find (seq 0 NPROC) claim_slot ;;
  zoom mach_of popcli ;;
  match r with
  | None => ret None
  | Some p => init_slot p
  end.
End ptable.

(* src/proc.c:553-571 wakeup1 *)
Definition wakeup1 (ch : channel) : M pst unit :=
  for_each (seq 0 NPROC) (fun p =>
    c <- getp p p_chan ;;
    if decide (c = ch) then
      (* while (cas(&p->state, NEG_SLEEPING, NEG_SLEEPING)) {} *)
      b <- cas p NEG_SLEEPING NEG_SLEEPING ;;
      if b then wait else cas_ p SLEEPING RUNNABLE
    else ret tt).

(* src/proc.c:573-579 wakeup *)
Definition wakeup (ch : channel) : M pst unit :=
  zoom mach_of pushcli ;; wakeup1 ch ;; zoom mach_of popcli.

(** [sched] up to its [swtch]: the CPU goes back to its scheduler. *)

(* src/proc.c:420-446 sched *)
Definition sched : M pst unit :=
  p <- curproc ;;
  n <- zoom mach_of (mycpu_get ncli) ;;
  if bool_decide (n <> Some 1) then panic "sched locks"
  else
    st <- getp p p_state ;;
    if decide (st = RUNNING) then panic "sched running"
    else if decide (st = NEG_RUNNING) then panic "sched -running"
    else
      fl <- gets (fun s => iflag (mach s)) ;;
      if fl : bool then panic "sched interruptible" else wait.

(** ... and after it, with the [intena] it saved. *)

(* src/proc.c:447-448 sched *)
Definition sched_resume (saved : bool) : M pst unit :=
  zoom mach_of (mycpu_set (set_intena saved)).

(* src/proc.c:450-460 yield *)
Definition yield : M pst unit :=
  zoom mach_of pushcli ;;
  p <- curproc ;;
  cas_ p RUNNING NEG_RUNNABLE ;;
  sched.

(* src/proc.c:458-458 yield *)
Definition yield_resume (saved : bool) : M pst unit :=
  sched_resume saved ;; zoom mach_of popcli.

(** [sleep(chan, lk)]: the process table is the part [L] of the state, [lk] the
    lock of the caller's component, if any. *)

(* src/proc.c:493-533 sleep *)
Definition sleep {St} (L : lens St pst) (ch : channel) (lk : option (lens St lock_view))
  : M St unit :=
  r <- zoom L (zoom mach_of myproc) ;;
  match r with
  | None => panic "sleep"
  | Some p =>
      match lk with
      | Some l => zoom L (zoom mach_of pushcli) ;; lock_release l
      | None => ret tt
      end ;;
      zoom L (setp p (set_chan ch)) ;;
      zoom L (cas_ p RUNNING NEG_SLEEPING) ;;
      zoom L sched
  end.

(* src/proc.c:534-551 sleep *)
Definition sleep_resume {St} (L : lens St pst) (saved : bool) (lk : option (lens St lock_view))
  : M St unit :=
  zoom L (sched_resume saved) ;;
  p <- zoom L curproc ;;
  zoom L (setp p (set_chan NoChan)) ;;
  match lk with
  | Some l => zoom L (zoom mach_of popcli) ;; lock_acquire l
  | None => ret tt
  end.

(** [sleep] together with what happens until the process runs again: [env] is
    everything the other processes and the scheduler do meanwhile. *)

(* src/proc.c:493-551 sleep *)
Definition sleep_turn {St} (L : lens St pst) (ch : channel) (lk : option (lens St lock_view))
  (env : St -> St) : M St unit := fun s =>
  match sleep L ch lk s with
  | Wait s1 =>
      (saved <- zoom L (zoom mach_of (mycpu_get intena)) ;;
       modify env ;;
       sleep_resume L (default false saved) lk) s1
  | r => r
  end.

(* src/vm.c:155-178 switchuvm *)
Definition switchuvm (p : nat) : M pst unit :=
  ks <- getp p p_kstack ;;
  pg <- getp p p_pgdir ;;
  if ks =? 0 then panic "switchuvm: no kstack"
  else if pg =? 0 then panic "switchuvm: no pgdir"
  else
    zoom mach_of pushcli ;;
    modify (set_mmu (V2P pg) (u32 (ks + KSTACKSIZE))) ;;
    zoom mach_of popcli.

(* src/vm.c:147-153 switchkvm *)
Definition switchkvm (kpgdir : Z) : M pst unit :=
  modify (fun s => set_mmu (V2P kpgdir) (esp0 s) s).

Definition set_cproc (v : option nat) (c : cpu) : cpu := Cpu (apicid c) (ncli c) (intena c) v.

(** One turn of the scheduler's inner loop up to [swtch]: [true] when process
    [p] now runs on this CPU. *)

(* src/proc.c:381-404 scheduler *)
Definition sched_try (p : nat) : M pst bool :=
  st <- getp p p_state ;;
  if decide (st <> RUNNABLE) then ret false
  else
    b <- cas p RUNNABLE NEG_RUNNING ;;
    if negb b then ret false
    else
      zoom mach_of (mycpu_set (set_cproc (Some p))) ;;
      switchuvm p ;;
      b <- cas p NEG_RUNNING RUNNING ;;
      if negb b then panic "scheduler:: assert p->state == -RUNNING violated"
      else ret true.

(** ... and after [p] has switched back to it. *)

(* src/proc.c:405-412 scheduler *)
Definition sched_back (kpgdir : Z) (p : nat) : M pst unit :=
  switchkvm kpgdir ;;
  cas_ p NEG_RUNNABLE RUNNABLE ;;
  cas_ p NEG_SLEEPING SLEEPING ;;
  cas_ p NEG_ZOMBIE ZOMBIE ;;
  zoom mach_of (mycpu_set (set_cproc None)).

(** A scan of the table from slot [from]: the process the CPU switches to, if
    there is one to run. *)

(* src/proc.c:362-418 scheduler *)
Definition scheduler_scan (from : nat) : M pst (option nat) :=
  r <- for_find (seq from (NPROC - from)) (fun p =>
         b <- sched_try p ;; ret (if b then Some p else None)) ;;
  match r with
  | Some p => ret (Some p)
  | None => zoom mach_of popcli ;; ret None
  end.

(* src/proc.c:628-662 procdump *)
Definition state_name (st : procstate) : string :=
  match st with
  | UNUSED => "unused" | EMBRYO => "embryo" | SLEEPING => "sleep "
  | RUNNABLE => "runble" | RUNNING => "run   " | ZOMBIE => "zombie"
  | _ => "???"
  end.

Record dump_line := DumpLine { d_pid : Z; d_state : string; d_name : list Z; d_pcs : list Z }.

(** The loop that prints a sleeping process's call stack stops at a zero. *)
Fixpoint until_zero (l : list Z) : list Z :=
  match l with [] => [] | x :: l' => if x =? 0 then [] else x :: until_zero l' end.

(* src/proc.c:628-662 procdump *)
Definition procdump (s : pst) : list dump_line :=
  omap (fun p =>
    if decide (p_state p = UNUSED) then None
    else Some (DumpLine (p_pid p) (state_name (p_state p)) (p_name p)
      (if decide (p_state p = SLEEPING)
       then until_zero (getcallerpcs (k_mem (km s))
              (u32 (load32 (k_mem (km s)) (p_context p + 12) + 8)))
       else []))) (procs s).

(* ------------------------------------------------------------------ *)
(** * Lemmas on the table *)

Lemma proc_at_lookup s p x : procs s !! p = Some x -> proc_at s p = x.
Proof. intros H. unfold proc_at. by apply nth_lookup_Some. Qed.

Lemma cas_hit s p a b x :
  procs s !! p = Some x -> p_state x = a ->
  cas p a b s = Ok true (set_procs (<[p := set_state b x]> (procs s)) s).
Proof.
  intros Hx Ha. unfold cas, getp, setp. mred. rewrite (proc_at_lookup s p x Hx).
  rewrite decide_True by done. simpl. by rewrite (alter_insert _ _ _ x).
Qed.

Lemma cas_miss s p a b x :
  procs s !! p = Some x -> p_state x <> a -> cas p a b s = Ok false s.
Proof.
  intros Hx Ha. unfold cas, getp. mred. rewrite (proc_at_lookup s p x Hx).
  by rewrite decide_False.
Qed.

Lemma setp_ok s p f x :
  procs s !! p = Some x -> setp p f s = Ok tt (set_procs (<[p := f x]> (procs s)) s).
Proof. intros Hx. unfold setp. mred. by rewrite (alter_insert _ _ _ x). Qed.

(** A loop over the slots [k .. k+n-1] whose body replaces slot [i] by [f] of it. *)
Lemma for_slots (body : nat -> M pst unit) (f : proc -> proc) (Q : proc -> Prop) :
  (forall s i x, procs s !! i = Some x -> Q x ->
     body i s = Ok tt (set_procs (<[i := f x]> (procs s)) s)) ->
  forall n k s, (length (procs s) = k + n)%nat ->
  (forall i x, (k <= i)%nat -> procs s !! i = Some x -> Q x) ->
  for_each (seq k n) body s =
  Ok tt (set_procs (take k (procs s) ++ (f <$> drop k (procs s))) s).
Proof.
  intros Hb n. induction n as [|n IH]; intros k s Hlen HQ; simpl.
  - rewrite drop_ge, take_ge, app_nil_r by lia. by destruct s.
  - destruct (lookup_lt_is_Some_2 (procs s) k) as [x Hx]; [lia|].
    rewrite (bind_ok _ _ _ _ _ (Hb s k x Hx (HQ k x (le_n k) Hx))).
    rewrite IH; simpl.
    + f_equal. unfold set_procs; simpl. f_equal.
      rewrite (take_S_r _ k (f x)) by (rewrite list_lookup_insert_eq by (by eapply lookup_lt_Some); done).
      rewrite take_insert_ge, drop_insert_lt by lia. rewrite (drop_S (procs s) x k) by done.
      simpl. by rewrite <- (assoc_L (++)).
    + rewrite length_insert. lia.
    + intros i y Hi Hy. rewrite list_lookup_insert_ne in Hy by lia. apply (HQ i y); [lia|done].
Qed.

(** What [wakeup1(ch)] makes of a slot. *)
Definition woken (ch : channel) (p : proc) : proc :=
  if decide (p_chan p = ch /\ p_state p = SLEEPING) then set_state RUNNABLE p else p.

Lemma wakeup1_slot ch s i x :
  procs s !! i = Some x -> ~ (p_chan x = ch /\ p_state x = NEG_SLEEPING) ->
  (c <- getp i p_chan ;;
   if decide (c = ch) then
     b <- cas i NEG_SLEEPING NEG_SLEEPING ;;
     if b then wait else cas_ i SLEEPING RUNNABLE
   else ret tt) s = Ok tt (set_procs (<[i := woken ch x]> (procs s)) s).
Proof.
  intros Hx Hn. unfold bind at 1, getp, gets. rewrite (proc_at_lookup s i x Hx). unfold woken.
  destruct (decide (p_chan x = ch)) as [Hc|Hc].
  - rewrite (bind_ok _ _ _ _ _ (cas_miss s i _ _ x Hx ltac:(naive_solver))). unfold cas_.
    destruct (decide (p_state x = SLEEPING)) as [Hs|Hs].
    + rewrite (bind_ok _ _ _ _ _ (cas_hit s i _ _ x Hx Hs)). by rewrite decide_True by done.
    + rewrite (bind_ok _ _ _ _ _ (cas_miss s i _ _ x Hx Hs)). rewrite decide_False by naive_solver.
      rewrite list_insert_id by done. by destruct s.
  - rewrite decide_False by naive_solver. rewrite list_insert_id by done. by destruct s.
Qed.

Lemma wakeup1_ok ch s :
  length (procs s) = NPROC ->
  (forall p, p ∈ procs s -> ~ (p_chan p = ch /\ p_state p = NEG_SLEEPING)) ->
  wakeup1 ch s = Ok tt (set_procs (woken ch <$> procs s) s).
Proof.
  intros Hl Hn. unfold wakeup1.
  rewrite (for_slots _ (woken ch) (fun p => ~ (p_chan p = ch /\ p_state p = NEG_SLEEPING))).
  - rewrite take_0, drop_0. done.
  - intros s' i x Hx Hq. by apply wakeup1_slot.
  - by rewrite Hl.
  - intros i x _ Hx. apply Hn, list_elem_of_lookup. eauto.
Qed.

(** [for_find] with [claim_slot] takes the first UNUSED slot. *)
Lemma claim_first n : forall k s,
  (length (procs s) = k + n)%nat ->
  for_find (seq k n) claim_slot s =
  match list_find (fun p => p_state p = UNUSED) (drop k (procs s)) with
  | Some (i, x) => Ok (Some (k + i)%nat) (set_procs (<[(k + i)%nat := set_state EMBRYO x]> (procs s)) s)
  | None => Ok None s
  end.
Proof.
  induction n as [|n IH]; intros k s Hl; simpl.
  - by rewrite drop_ge by lia.
  - destruct (lookup_lt_is_Some_2 (procs s) k) as [x Hx]; [lia|].
    rewrite (drop_S (procs s) x k Hx). simpl. unfold claim_slot at 1.
    destruct (decide (p_state x = UNUSED)) as [Hu|Hu].
    + rewrite bind_assoc, (bind_ok _ _ _ _ _ (cas_hit s k _ _ x Hx Hu)). mred.
      by rewrite Nat.add_0_r.
    + rewrite bind_assoc, (bind_ok _ _ _ _ _ (cas_miss s k _ _ x Hx Hu)).
      rewrite bind_ret. rewrite IH by lia.
      destruct (list_find _ (drop (S k) (procs s))) as [[i y]|]; simpl; [|done].
      by replace (k + S i)%nat with (S k + i)%nat by lia.
Qed.

(** ** Slot updates *)

Definition putp (p : nat) (x : proc) (s : pst) : pst := set_procs (<[p := x]> (procs s)) s.

Lemma putp_id p x s : procs s !! p = Some x -> putp p x s = s.
Proof. intros H. unfold putp. rewrite list_insert_id by done. by destruct s. Qed.

Lemma putp_putp p x y s : putp p y (putp p x s) = putp p y s.
Proof. unfold putp, set_procs. simpl. by rewrite list_insert_insert_eq. Qed.

Lemma putp_lookup p x s : (p < length (procs s))%nat -> procs (putp p x s) !! p = Some x.
Proof. intros. simpl. by apply list_lookup_insert_eq. Qed.

Lemma bind_setp {A} p f x s (k : M pst A) :
  (p < length (procs s))%nat -> (setp p f ;; k) (putp p x s) = k (putp p (f x) s).
Proof.
  intros Hp. rewrite (bind_ok _ _ _ _ _ (setp_ok _ p f x (putp_lookup p x s Hp))).
  by rewrite <- (putp_putp p x (f x) s).
Qed.

Lemma cas_put_hit p a b x s :
  (p < length (procs s))%nat -> p_state x = a ->
  cas p a b (putp p x s) = Ok true (putp p (set_state b x) s).
Proof.
  intros Hp Ha. rewrite (cas_hit _ p a b x (putp_lookup p x s Hp) Ha).
  by rewrite <- (putp_putp p x (set_state b x) s).
Qed.

Lemma bind_cas_put {A} p a b x s (k : M pst A) :
  (p < length (procs s))%nat ->
  (cas_ p a b ;; k) (putp p x s) = k (putp p (if decide (p_state x = a) then set_state b x else x) s).
Proof.
  intros Hp. unfold cas_. rewrite bind_assoc. case_decide as Ha.
  - by rewrite (bind_ok _ _ _ _ _ (cas_put_hit p a b x s Hp Ha)).
  - by rewrite (bind_ok _ _ _ _ _ (cas_miss _ p a b x (putp_lookup p x s Hp) Ha)).
Qed.

Lemma putp_set_km p x k s : set_km k (putp p x s) = putp p x (set_km k s).
Proof. done. Qed.

(** The context that [allocproc] builds at the top of the kernel stack [ks]. *)
Definition stack_init (trapret forkret ks : Z) (m : memory) : memory :=
  let sp := ks + KSTACKSIZE - TF_SIZE - 4 in
  store32 (memset (store32 m sp trapret) (sp - CONTEXT_SIZE) 0 20) (sp - CONTEXT_SIZE + 16) forkret.

Definition embryo (trapret forkret pid ks : Z) (m : memory) (x : proc) : proc :=
  set_context (ks + KSTACKSIZE - TF_SIZE - 4 - CONTEXT_SIZE)
    (set_tf (load_tf m (ks + KSTACKSIZE - TF_SIZE))
      (set_kstack ks (set_pid pid (set_mask 0 (set_pending 0
        (set_handlers (replicate 32 SIG_DFL) x)))))).

Lemma init_slot_ok trapret forkret s p x :
  (p < length (procs s))%nat -> p_state x = EMBRYO ->
  forall ks k', kalloc (km s) = Ok ks k' ->
  let pid := s32 (nextpid s + 1) in
  init_slot trapret forkret p (putp p x s) =
  if ks =? 0
  then Ok None (putp p (set_state UNUSED (set_kstack 0 (set_pid pid (set_mask 0 (set_pending 0
         (set_handlers (replicate 32 SIG_DFL) x)))))) (set_nextpid pid (set_km k' s)))
  else Ok (Some p) (putp p (embryo trapret forkret pid ks (k_mem k') x)
         (set_nextpid pid (set_km (set_mem (stack_init trapret forkret ks (k_mem k')) k') s))).
Proof.
  intros Hp Hx ks k' Hk pid. unfold init_slot.
  rewrite !bind_setp by done.
  assert (Ha : allocpid (putp p (set_mask 0 (set_pending 0 (set_handlers (replicate 32 SIG_DFL) x))) s) =
    Ok pid (putp p (set_mask 0 (set_pending 0 (set_handlers (replicate 32 SIG_DFL) x))) (set_nextpid pid s))).
  { unfold allocpid. mred. by rewrite Z.eqb_refl. }
  rewrite (bind_ok _ _ _ _ _ Ha), bind_setp by done.
  erewrite bind_ok by (by apply (zoom_ok km_of)). simpl. rewrite putp_set_km, bind_setp by done.
  destruct (Z.eqb_spec ks 0) as [->|Hks].
  - unfold cas_. rewrite bind_assoc.
    erewrite bind_ok by (apply cas_hit; [by apply putp_lookup|exact Hx]).
    f_equal. apply putp_putp.
  - unfold bind at 1, gets. rewrite bind_setp by done.
    erewrite bind_ok by reflexivity. simpl over. rewrite putp_set_km, bind_setp by done.
    erewrite bind_ok by reflexivity. simpl over. rewrite putp_set_km.
    erewrite bind_ok by reflexivity. done.
Qed.

Section stack.
Variables (trapret forkret ks : Z).

Lemma stack_init_frame m x : ~ in_page ks x -> stack_init trapret forkret ks m x = m x.
Proof.
  unfold in_page, PGSIZE, stack_init, KSTACKSIZE, TF_SIZE, CONTEXT_SIZE. intros Hx.
  rewrite store32_ne by lia. rewrite memset_spec.
  destruct (Z.leb_spec (ks + 4096 - 76 - 4 - 20) x), (Z.ltb_spec x (ks + 4096 - 76 - 4 - 20 + Z.of_nat 20));
    simpl; try lia; apply store32_ne; lia.
Qed.

(** [swtch] to the new context returns to [forkret], and that to [trapret]. *)
Lemma stack_init_context m :
  let ctx := ks + KSTACKSIZE - TF_SIZE - 4 - CONTEXT_SIZE in
  load32 (stack_init trapret forkret ks m) (ctx + 16) = u32 forkret /\
  load32 (stack_init trapret forkret ks m) (ctx + 20) = u32 trapret.
Proof.
  unfold stack_init, KSTACKSIZE, TF_SIZE, CONTEXT_SIZE. split; [apply load32_store32|].
  rewrite load32_store32_ne by lia.
  erewrite load32_ext; [apply load32_store32|]. intros x Hx. rewrite memset_spec.
  destruct (Z.leb_spec (ks + 4096 - 76 - 4 - 20) x), (Z.ltb_spec x (ks + 4096 - 76 - 4 - 20 + Z.of_nat 20));
    simpl; try lia; f_equal; lia.
Qed.
End stack.

(** The machine between two system-call level operations: a current CPU whose
    nesting of [pushcli] agrees with the interrupt flag. *)
Definition cpu_ok (k : machine) (i : nat) (c : cpu) : Prop :=
  running k i c /\ 0 <= ncli c /\ (ncli c = 0 \/ iflag k = false).

(** The two machines agree on nesting, interrupt flag and current process. *)
Definition same_cpu (k k' : machine) (i : nat) (c : cpu) : Prop :=
  exists c', cpu_ok k' i c' /\ ncli c' = ncli c /\ cproc c' = cproc c /\ iflag k' = iflag k.

Lemma same_cpu_trans k k' k'' i c c' :
  cpu_ok k' i c' -> ncli c' = ncli c -> cproc c' = cproc c -> iflag k' = iflag k ->
  same_cpu k' k'' i c' -> same_cpu k k'' i c.
Proof. intros _ Hn Hc Hf (c2 & H & ? & ? & ?). exists c2. repeat split; try apply H; congruence. Qed.

(** Steps of the interrupt nesting, in the state of the table. *)
Section cli_steps.
Context (s : pst) (i : nat) (c : cpu) (Hr : running (mach s) i c).

Lemma z_push : exists k,
  zoom mach_of pushcli s = Ok tt (set_mach k s) /\
  running k i (pushed c (iflag (mach s))) /\ iflag k = false.
Proof.
  eexists. split; [apply (zoom_ok mach_of); simpl; by apply pushcli_ok|].
  split; [by apply running_insert with c|done].
Qed.

Context (Hf : iflag (mach s) = false).

Lemma z_pop : 1 <= ncli c -> exists k,
  zoom mach_of popcli s = Ok tt (set_mach k s) /\
  running k i (popped c) /\ iflag k = (ncli c =? 1) && intena c.
Proof.
  intros Hn. eexists. split; [apply (zoom_ok mach_of); simpl; by apply popcli_ok|].
  split; [by apply running_insert with c|done].
Qed.

Lemma z_get {A} (f : cpu -> A) : zoom mach_of (mycpu_get f) s = Ok (Some (f c)) s.
Proof.
  unfold zoom. simpl. rewrite (mycpu_get_ok f _ i c Hr Hf). f_equal. by destruct s.
Qed.

Lemma z_set f : apicid (f c) = apicid c -> exists k,
  zoom mach_of (mycpu_set f) s = Ok tt (set_mach k s) /\ running k i (f c) /\ iflag k = false.
Proof.
  intros Ha. eexists. split; [apply (zoom_ok mach_of); simpl; by apply mycpu_set_ok|].
  split; [by apply running_insert with c|done].
Qed.
End cli_steps.

Lemma myproc_ok s i c :
  cpu_ok (mach s) i c -> exists k,
  zoom mach_of myproc s = Ok (cproc c) (set_mach k s) /\ same_cpu (mach s) k i c.
Proof.
  intros (Hr & Hn & Hf).
  pose proof (pushcli_ok _ i c Hr) as Hpush.
  pose proof (running_insert _ i c (pushed c (iflag (mach s))) false Hr eq_refl) as Hr1.
  destruct (push_pop_pair _ i c Hr Hn Hf) as (k1 & k2 & c2 & H1 & H2 & Hr2 & Hn2 & Hc2 & Hi2).
  rewrite Hpush in H1. simplify_eq. exists k2. split.
  - apply (zoom_ok mach_of). unfold myproc. simpl view.
    rewrite (bind_ok _ _ _ _ _ Hpush), (bind_ok _ _ _ _ _ (mycpu_get_ok cproc _ i _ Hr1 eq_refl)).
    rewrite (bind_ok _ _ _ _ _ H2). simpl. by destruct (cproc c).
  - exists c2. unfold cpu_ok. rewrite Hn2, Hi2. done.
Qed.

Lemma curproc_ok s i c p :
  cpu_ok (mach s) i c -> cproc c = Some p -> exists k,
  curproc s = Ok p (set_mach k s) /\ same_cpu (mach s) k i c.
Proof.
  intros Hc Hp. destruct (myproc_ok s i c Hc) as (k & H & Hs). exists k. split; [|done].
  unfold curproc. rewrite (bind_ok _ _ _ _ _ H), Hp. done.
Qed.

(** With interrupts already off, [myproc] leaves the machine as it is. *)
Lemma myproc_nested s i c :
  running (mach s) i c -> iflag (mach s) = false -> 1 <= ncli c ->
  zoom mach_of myproc s = Ok (cproc c) s.
Proof.
  intros Hr Hf Hn. unfold zoom. simpl. unfold myproc.
  pose proof (push_pop_nested _ i c Hr Hf Hn) as Hpp.
  rewrite (bind_ok _ _ _ _ _ (pushcli_ok _ i c Hr)) in Hpp.
  rewrite (bind_ok _ _ _ _ _ (pushcli_ok _ i c Hr)).
  pose proof (running_insert _ i c (pushed c (iflag (mach s))) false Hr eq_refl) as Hr1.
  rewrite (bind_ok _ _ _ _ _ (mycpu_get_ok cproc _ i _ Hr1 eq_refl)), (bind_ok _ _ _ _ _ Hpp).
  unfold ret. simpl. by destruct (cproc c), s.
Qed.

Lemma curproc_nested s i c p :
  running (mach s) i c -> iflag (mach s) = false -> 1 <= ncli c -> cproc c = Some p ->
  curproc s = Ok p s.
Proof.
  intros Hr Hf Hn Hp. unfold curproc.
  by rewrite (bind_ok _ _ _ _ _ (myproc_nested s i c Hr Hf Hn)), Hp.
Qed.

Lemma switchuvm_nested s i c p x :
  running (mach s) i c -> iflag (mach s) = false -> 1 <= ncli c ->
  procs s !! p = Some x -> p_kstack x <> 0 -> p_pgdir x <> 0 ->
  switchuvm p s = Ok tt (set_mmu (V2P (p_pgdir x)) (u32 (p_kstack x + KSTACKSIZE)) s).
Proof.
  intros Hr Hf Hn Hx Hk Hg. unfold switchuvm, getp, bind at 1 2, gets.
  rewrite (proc_at_lookup s p x Hx).
  destruct (Z.eqb_spec (p_kstack x) 0); [done|]. destruct (Z.eqb_spec (p_pgdir x) 0); [done|].
  pose proof (push_pop_nested _ i c Hr Hf Hn) as Hpp.
  rewrite (bind_ok _ _ _ _ _ (pushcli_ok _ i c Hr)) in Hpp.
  erewrite bind_ok by (apply (zoom_ok mach_of); simpl; by apply pushcli_ok).
  erewrite bind_ok by reflexivity. unfold zoom. simpl. by rewrite Hpp.
Qed.
(** Code between [pushcli] and [popcli] that only changes the table. *)
Lemma pushed_section {A} (f : M pst A) s i c a ps :
  cpu_ok (mach s) i c ->
  (forall k, f (set_mach k s) = Ok a (set_procs ps (set_mach k s))) ->
  exists k1 k2, zoom mach_of pushcli s = Ok tt (set_mach k1 s) /\
    f (set_mach k1 s) = Ok a (set_procs ps (set_mach k1 s)) /\
    zoom mach_of popcli (set_procs ps (set_mach k1 s)) = Ok tt (set_procs ps (set_mach k2 s)) /\
    same_cpu (mach s) k2 i c.
Proof.
  intros (Hr & Hn & Hf) Hstep.
  destruct (push_pop_pair _ i c Hr Hn Hf) as (k1 & k2 & c2 & H1 & H2 & Hr2 & Hn2 & Hc2 & Hi2).
  exists k1, k2. split; [by apply (zoom_ok mach_of)|]. split; [apply Hstep|].
  split; [unfold zoom; simpl; by rewrite H2|].
  exists c2. unfold cpu_ok. rewrite Hn2, Hi2. done.
Qed.

(** What a process [allocproc] returns looks like. *)
Record new_process (trapret forkret pid ks : Z) (m : memory) (x : proc) : Prop := {
  np_state : p_state x = EMBRYO;
  np_pid : p_pid x = pid;
  np_signals : p_pending x = 0 /\ p_mask x = 0 /\ p_handlers x = replicate 32 SIG_DFL;
  np_kstack : p_kstack x = ks;
  np_context : ks <= p_context x /\ p_context x + 24 = ks + KSTACKSIZE - TF_SIZE;
  np_eip : load32 m (p_context x + 16) = u32 forkret;
  np_ret : load32 m (p_context x + 20) = u32 trapret;
}.

Lemma embryo_new trapret forkret pid ks m x :
  p_state x = EMBRYO ->
  new_process trapret forkret pid ks (stack_init trapret forkret ks m)
    (embryo trapret forkret pid ks m x).
Proof.
  intros Hx. destruct (stack_init_context trapret forkret ks m).
  split; try done. unfold embryo. simpl. unfold KSTACKSIZE, TF_SIZE, CONTEXT_SIZE. lia.
Qed.

Definition is_unused (p : proc) : Prop := p_state p = UNUSED.

Lemma alloc_claim {A} s (k : option nat -> M pst A) i c :
  length (procs s) = NPROC -> cpu_ok (mach s) i c ->
  let r := list_find is_unused (procs s) in
  let ps := match r with Some (p, x) => <[p := set_state EMBRYO x]> (procs s) | None => procs s end in
  exists k2, same_cpu (mach s) k2 i c /\
  (zoom mach_of pushcli ;; r <- for_find (seq 0 NPROC) claim_slot ;;
   zoom mach_of popcli ;; k r) s = k (fst <$> r) (set_procs ps (set_mach k2 s)).
Proof.
  intros Hl Hc r ps.
  destruct (pushed_section (for_find (seq 0 NPROC) claim_slot) s i c (fst <$> r) ps Hc)
    as (k1 & k2 & H1 & H2 & H3 & H4).
  { intros k'. rewrite (claim_first NPROC 0) by done. rewrite drop_0. simpl. subst r ps. unfold is_unused.
    by destruct (list_find (fun p => p_state p = UNUSED) (procs s)) as [[p x]|]. }
  exists k2. split; [done|].
  by rewrite (bind_ok _ _ _ _ _ H1), (bind_ok _ _ _ _ _ H2), (bind_ok _ _ _ _ _ H3).
Qed.

(** ** Giving up the CPU and getting it back *)

(** [sleep] gives up the CPU: it never returns at once. *)
Lemma sched_never_ok s a s' : sched s <> Ok a s'.
Proof.
  intros H. unfold sched in H. apply bind_Ok_inv in H as (p & s1 & _ & H).
  apply bind_Ok_inv in H as (n & s2 & _ & H). destruct (bool_decide _); [done|].
  apply bind_Ok_inv in H as (st & s3 & _ & H). repeat (case_decide; [done|]).
  apply bind_Ok_inv in H as (fl & s4 & _ & H). by destruct fl.
Qed.

Lemma sleep_never_ok {St} (L : lens St pst) ch lk s a s' : sleep L ch lk s <> Ok a s'.
Proof.
  intros H. unfold sleep in H. apply bind_Ok_inv in H as (p & s1 & _ & H). destruct p as [p|]; [|done].
  do 3 apply bind_Ok_inv in H as (? & ? & _ & H). apply zoom_Ok_inv in H as (t & H & _).
  by apply sched_never_ok in H.
Qed.

Section switch.
Context (s : pst) (i : nat) (c : cpu) (p : nat).
Context (Hr : running (mach s) i c) (Hf : iflag (mach s) = false).
Context (Hlen : (p < length (procs s))%nat).

Lemma sched_leaves x :
  ncli c = 1 -> cproc c = Some p -> p_state x <> RUNNING -> p_state x <> NEG_RUNNING ->
  sched (putp p x s) = Wait (putp p x s).
Proof.
  intros Hn Hc H1 H2. unfold sched.
  rewrite (bind_ok _ _ _ _ _ (curproc_nested (putp p x s) i c p Hr Hf ltac:(lia) Hc)).
  rewrite (bind_ok _ _ _ _ _ (z_get (putp p x s) i c Hr Hf ncli)), Hn.
  rewrite bool_decide_eq_false_2 by (by intros []).
  unfold bind, getp, gets. rewrite (proc_at_lookup _ p x) by (by apply putp_lookup).
  rewrite !decide_False by done. change (mach (putp p x s)) with (mach s). by rewrite Hf.
Qed.

Lemma sched_try_runs x :
  1 <= ncli c -> p_state x = RUNNABLE -> p_kstack x <> 0 -> p_pgdir x <> 0 ->
  exists k, running k i (set_cproc (Some p) c) /\ iflag k = false /\
  sched_try p (putp p x s) =
    Ok true (putp p (set_state RUNNING x)
      (set_mmu (V2P (p_pgdir x)) (u32 (p_kstack x + KSTACKSIZE)) (set_mach k s))).
Proof.
  intros Hn Hx Hk Hg.
  destruct (z_set (putp p (set_state NEG_RUNNING x) s) i c Hr Hf (set_cproc (Some p)) eq_refl)
    as (k & Hset & Hrk & Hfk).
  exists k. split; [done|]. split; [done|]. unfold sched_try.
  unfold getp at 1, gets, bind at 1. rewrite (proc_at_lookup _ p x) by (by apply putp_lookup).
  rewrite decide_False by (by intros []).
  rewrite (bind_ok _ _ _ _ _ (cas_put_hit p _ _ x s Hlen Hx)). cbn [negb].
  rewrite (bind_ok _ _ _ _ _ Hset).
  erewrite bind_ok by (apply (switchuvm_nested _ i (set_cproc (Some p) c) p (set_state NEG_RUNNING x));
    [done|done|done|exact (putp_lookup p _ s Hlen)|done|done]).
  erewrite bind_ok by (apply cas_hit; [exact (putp_lookup p _ s Hlen)|done]). cbn [negb].
  unfold ret, putp, set_procs. simpl. by rewrite list_insert_insert_eq.
Qed.

Lemma sched_back_ok kpgdir x :
  p_state x = NEG_RUNNABLE -> exists k, running k i (set_cproc None c) /\ iflag k = false /\
  sched_back kpgdir p (putp p x s) =
    Ok tt (putp p (set_state RUNNABLE x) (set_mmu (V2P kpgdir) (esp0 s) (set_mach k s))).
Proof.
  intros Hx.
  destruct (z_set (putp p (set_state RUNNABLE x) (set_mmu (V2P kpgdir) (esp0 s) s)) i c Hr Hf
    (set_cproc None) eq_refl) as (k & Hset & Hrk & Hfk).
  exists k. split; [done|]. split; [done|]. unfold sched_back, switchkvm.
  erewrite bind_ok by reflexivity.
  change (set_mmu (V2P kpgdir) (esp0 (putp p x s)) (putp p x s))
    with (putp p x (set_mmu (V2P kpgdir) (esp0 s) s)).
  rewrite !bind_cas_put by done. rewrite (decide_True _ _ Hx).
  rewrite !decide_False by done. exact Hset.
Qed.
End switch.

Lemma yield_leaves s i c p x :
  cpu_ok (mach s) i c -> ncli c = 0 -> cproc c = Some p ->
  (p < length (procs s))%nat -> p_state x = RUNNING ->
  exists k, running k i (pushed c (iflag (mach s))) /\ iflag k = false /\
  yield (putp p x s) = Wait (putp p (set_state NEG_RUNNABLE x) (set_mach k s)).
Proof.
  intros (Hr & _ & _) Hn Hc Hp Hx.
  destruct (z_push (putp p x s) i c Hr) as (k & Hpush & Hrk & Hfk).
  exists k. split; [done|]. split; [done|]. unfold yield. rewrite (bind_ok _ _ _ _ _ Hpush).
  erewrite bind_ok by (eapply curproc_nested; [exact Hrk|done|simpl; lia|exact Hc]).
  change (set_mach k (putp p x s)) with (putp p x (set_mach k s)).
  rewrite bind_cas_put, (decide_True _ _ Hx) by done.
  eapply sched_leaves; [exact Hrk|done|done|simpl; lia|done|done|done].
Qed.

Lemma yield_resumes s i c p :
  running (mach s) i c -> iflag (mach s) = false -> ncli c = 1 -> cproc c = Some p ->
  forall fl, exists k, yield_resume fl s = Ok tt (set_mach k s) /\
    running k i (Cpu (apicid c) 0 fl (Some p)) /\ iflag k = fl.
Proof.
  intros Hr Hf Hn Hc fl.
  destruct (z_set s i c Hr Hf (set_intena fl) eq_refl) as (k1 & H1 & Hr1 & Hf1).
  destruct (z_pop (set_mach k1 s) i _ Hr1 Hf1) as (k2 & H2 & Hr2 & Hf2); [simpl; lia|].
  exists k2. unfold yield_resume, sched_resume. rewrite (bind_ok _ _ _ _ _ H1), H2.
  split; [done|]. split.
  - destruct c as [a n b q]. unfold popped, set_ncli in Hr2. simpl in *. by subst.
  - rewrite Hf2. simpl. by rewrite Hn.
Qed.

(** ** A quiet table: no process is half-way into [sleep]. *)

Record table_ok (s : pst) (i : nat) (c : cpu) : Prop := {
  to_length : length (procs s) = NPROC;
  to_cpu : cpu_ok (mach s) i c;
  to_quiet : forall x, x ∈ procs s -> p_state x <> NEG_SLEEPING;
}.

Lemma wakeup_runs ch s i c :
  length (procs s) = NPROC -> cpu_ok (mach s) i c ->
  (forall p, p ∈ procs s -> ~ (p_chan p = ch /\ p_state p = NEG_SLEEPING)) ->
  exists k', wakeup ch s = Ok tt (set_procs (woken ch <$> procs s) (set_mach k' s)) /\
    same_cpu (mach s) k' i c.
Proof.
  intros Hl Hc Hq.
  destruct (pushed_section (wakeup1 ch) s i c tt (woken ch <$> procs s) Hc)
    as (k1 & k2 & H1 & H2 & H3 & H4).
  { intros k. by apply (wakeup1_ok ch (set_mach k s)). }
  exists k2. split; [|done]. unfold wakeup.
  by rewrite (bind_ok _ _ _ _ _ H1), (bind_ok _ _ _ _ _ H2).
Qed.

Lemma wakeup_ok ch s i c :
  table_ok s i c -> exists k',
  wakeup ch s = Ok tt (set_procs (woken ch <$> procs s) (set_mach k' s)) /\ same_cpu (mach s) k' i c.
Proof.
  intros [Hl Hc Hq]. apply wakeup_runs; [done..|]. intros x Hx [_ Hn]. by apply (Hq x).
Qed.

Lemma woken_quiet ch (l : list proc) :
  (forall x, x ∈ l -> p_state x <> NEG_SLEEPING) ->
  forall x, x ∈ woken ch <$> l -> p_state x <> NEG_SLEEPING.
Proof.
  intros Hq x Hx. apply list_elem_of_fmap in Hx as (y & -> & Hy). unfold woken.
  case_decide; simpl; [done|by apply Hq].
Qed.

Lemma wakeup_table_ok ch s i c k' :
  table_ok s i c -> same_cpu (mach s) k' i c ->
  exists c', table_ok (set_procs (woken ch <$> procs s) (set_mach k' s)) i c' /\
    ncli c' = ncli c /\ cproc c' = cproc c /\ iflag k' = iflag (mach s).
Proof.
  intros [Hl Hc Hq] (c' & H1 & H2 & H3 & H4). exists c'. split; [|done].
  split; simpl; [by rewrite length_fmap|done|by apply woken_quiet].
Qed.

(** ** Sleeping and being woken *)

(** Process [p], with contents [x], runs in the kernel on CPU [i]. *)
Record cur_ok (s : pst) (i : nat) (c : cpu) (p : nat) (x : proc) : Prop := {
  cu_table : table_ok s i c;
  cu_ncli : ncli c = 0;
  cu_proc : cproc c = Some p;
  cu_slot : procs s !! p = Some x;
  cu_state : p_state x = RUNNING;
}.

(** ... and has just been switched to from inside [sched]. *)
Record resumed_ok (s : pst) (i : nat) (c : cpu) (p : nat) (x : proc) : Prop := {
  ro_running : running (mach s) i c;
  ro_iflag : iflag (mach s) = false;
  ro_ncli : ncli c = 1;
  ro_proc : cproc c = Some p;
  ro_slot : procs s !! p = Some x;
}.

Section sleeping.
Context {St : Type} (L : lens St pst) (l : lens St lock_view).
Context `{!LensLaws L, !LensLaws l, !Indep L l}.

Lemma sleep_waits s ch i c p x :
  cur_ok (view L s) i c p x -> view l s = HeldHere ->
  exists k c2, running k i c2 /\ iflag k = false /\ ncli c2 = 1 /\
    intena c2 = iflag (mach (view L s)) /\ cproc c2 = Some p /\
  sleep L ch (Some l) s =
    Wait (over L (putp p (set_state NEG_SLEEPING (set_chan ch x)) (set_mach k (view L s)))
           (over l Unlocked s)).
Proof.
  intros [[Hl Hc Hq] Hn Hp Hx Hst] Hlk. unfold sleep.
  destruct (myproc_ok _ i c Hc) as (k1 & H1 & c1 & Hc1 & Hn1 & Hp1 & Hf1).
  rewrite (bind_ok _ _ _ _ _ (zoom_ok L _ s _ _ H1)), Hp. rewrite bind_assoc.
  destruct (z_push (set_mach k1 (view L s)) i c1 (proj1 Hc1)) as (k2 & H2 & Hr2 & Hf2).
  erewrite bind_ok by (apply zoom_ok; rewrite view_over; exact H2). rewrite over_over.
  unfold lock_release. rewrite bind_assoc. erewrite bind_ok by reflexivity.
  rewrite view_indep', Hlk. erewrite bind_ok by reflexivity. rewrite over_indep.
  change (set_mach k2 (set_mach k1 (view L s))) with (set_mach k2 (view L s)).
  assert (Hlen : (p < length (procs (view L s)))%nat) by (by eapply lookup_lt_Some).
  assert (Hput : set_mach k2 (view L s) = putp p x (set_mach k2 (view L s))) by (by rewrite putp_id).
  rewrite Hput.
  erewrite bind_ok.
  2:{ apply zoom_ok. rewrite view_over. apply setp_ok. by apply putp_lookup. }
  rewrite over_over.
  change (set_procs _ (putp p x (set_mach k2 (view L s))))
    with (putp p (set_chan ch x) (putp p x (set_mach k2 (view L s)))). rewrite putp_putp.
  erewrite bind_ok.
  2:{ apply zoom_ok. rewrite view_over. unfold cas_.
      erewrite bind_ok by (apply cas_put_hit; [done|exact Hst]). reflexivity. }
  rewrite over_over. exists k2, (pushed c1 (iflag k1)). split; [done|]. split; [done|].
  split; [simpl; lia|]. split; [simpl; by rewrite Hn1, Hn|]. split; [simpl; congruence|].
  unfold zoom. rewrite view_over.
  erewrite sched_leaves; [by rewrite over_over|exact Hr2|done|done|simpl; lia|simpl; congruence|done|done].
Qed.

(** What the environment of a sleeping process has to do: the process is
    switched to again, and the lock is free. *)
Definition wakes (i p : nat) (y : proc) (env : St -> St) (s1 : St) : Prop :=
  view l (env s1) = Unlocked /\ exists c, resumed_ok (view L (env s1)) i c p y.

Lemma sleep_resume_ok s i c p x fl :
  resumed_ok (view L s) i c p x -> view l s = Unlocked ->
  exists k c', running k i c' /\ iflag k = fl /\ ncli c' = 0 /\ cproc c' = Some p /\
  sleep_resume L fl (Some l) s =
    Ok tt (over L (putp p (set_chan NoChan x) (set_mach k (view L s))) (over l HeldHere s)).
Proof.
  intros [Hr Hf Hn Hp Hx] Hlk. unfold sleep_resume, sched_resume.
  destruct (z_set (view L s) i c Hr Hf (set_intena fl) eq_refl) as (k1 & H1 & Hr1 & Hf1).
  rewrite (bind_ok _ _ _ _ _ (zoom_ok L _ s _ _ H1)).
  erewrite bind_ok.
  2:{ apply zoom_ok. rewrite view_over. eapply curproc_nested; [exact Hr1|done|simpl; lia|done]. }
  rewrite over_over.
  erewrite bind_ok.
  2:{ apply zoom_ok. rewrite view_over. by apply setp_ok. }
  rewrite over_over.
  destruct (z_pop (putp p (set_chan NoChan x) (set_mach k1 (view L s))) i _ Hr1 Hf1) as (k2 & H2 & Hr2 & Hf2);
    [simpl; lia|].
  erewrite bind_ok.
  2:{ apply zoom_ok. rewrite view_over. exact H2. }
  rewrite over_over. exists k2. eexists. split; [exact Hr2|]. split.
  { rewrite Hf2. simpl. by rewrite Hn. }
  split; [simpl; lia|]. split; [done|].
  unfold lock_acquire, bind, gets. rewrite view_indep', Hlk. unfold modify. by rewrite over_indep.
Qed.

(** The state [s1] in which the process is asleep, and how it goes on. *)
Lemma sleep_turn_ok s ch env i c p x :
  cur_ok (view L s) i c p x -> view l s = HeldHere ->
  exists s1 k1,
    s1 = over L (putp p (set_state NEG_SLEEPING (set_chan ch x)) (set_mach k1 (view L s))) (over l Unlocked s) /\
  forall y, wakes i p y env s1 ->
  exists k c', running k i c' /\ iflag k = iflag (mach (view L s)) /\ ncli c' = 0 /\ cproc c' = Some p /\
  sleep_turn L ch (Some l) env s =
    Ok tt (over L (putp p (set_chan NoChan y) (set_mach k (view L (env s1)))) (over l HeldHere (env s1))).
Proof.
  intros Hcur Hlk.
  destruct (sleep_waits s ch i c p x Hcur Hlk) as (k1 & c1 & Hr1 & Hf1 & Hn1 & Hi1 & Hp1 & Hs).
  eexists. exists k1. split; [reflexivity|]. intros y (Hl & c2 & Hr2).
  unfold sleep_turn. rewrite Hs. set (s1 := over L _ _) in *.
  destruct (sleep_resume_ok (env s1) i c2 p y (iflag (mach (view L s))) Hr2 Hl)
    as (k & c' & H1 & H2 & H3 & H4 & H5).
  exists k, c'. repeat (split; [done|]).
  erewrite bind_ok.
  2:{ unfold s1. apply zoom_ok. rewrite view_over. eapply z_get; [exact Hr1|done]. }
  rewrite over_over. erewrite bind_ok by reflexivity.
  change (default false (Some (intena c1))) with (intena c1). by rewrite Hi1.
Qed.

(** After the turn the process is the current one again. *)
Lemma cur_after_turn q i p y k c' :
  running k i c' -> ncli c' = 0 -> cproc c' = Some p ->
  procs q !! p = Some y -> p_state y = RUNNING ->
  length (procs q) = NPROC -> (forall z, z ∈ procs q -> p_state z <> NEG_SLEEPING) ->
  cur_ok (putp p (set_chan NoChan y) (set_mach k q)) i c' p (set_chan NoChan y).
Proof.
  intros Hr Hn Hp Hy Hst Hlen Hq. split; [split|done|done| |done].
  - simpl. by rewrite length_insert.
  - split; [done|]. split; [lia|by left].
  - intros z Hz. simpl in Hz. apply list_elem_of_lookup in Hz as [j Hz].
    apply list_lookup_insert_Some in Hz as [(_ & <- & _)|[_ Hz]]; [simpl; by rewrite Hst|].
    apply Hq, list_elem_of_lookup. eauto.
  - apply putp_lookup. by eapply lookup_lt_Some.
Qed.
End sleeping.

(** The current process calls [myproc] or [wakeup] and goes on. *)
Lemma cur_curproc s i c p x :
  cur_ok s i c p x -> exists k c', curproc s = Ok p (set_mach k s) /\ cur_ok (set_mach k s) i c' p x.
Proof.
  intros [[Hl Hc Hq] Hn Hp Hx Hst]. destruct (curproc_ok s i c p Hc Hp) as (k & H & c' & Hc' & Hn' & Hp' & _).
  exists k, c'. split; [done|]. split; [done|congruence|congruence|done|done].
Qed.

Lemma cur_wakeup ch s i c p x :
  cur_ok s i c p x -> exists k c',
  wakeup ch s = Ok tt (set_procs (woken ch <$> procs s) (set_mach k s)) /\
  cur_ok (set_procs (woken ch <$> procs s) (set_mach k s)) i c' p x.
Proof.
  intros [Ht Hn Hp Hx Hst]. destruct (wakeup_ok ch s i c Ht) as (k & H & Hs).
  destruct (wakeup_table_ok ch s i c k Ht Hs) as (c' & Ht' & Hn' & Hp' & _).
  exists k, c'. split; [done|]. split; [done|congruence|congruence| |done].
  simpl. rewrite list_lookup_fmap, Hx. simpl. unfold woken. rewrite decide_False; [done|].
  intros [_ Hs']. congruence.
Qed.

(* ------------------------------------------------------------------ *)
(** * Claims *)

Section claims.
Variables (kend trapret forkret : Z).

(** [allocproc] takes the first UNUSED slot of the table, and no other
    slot changes.  When a page is free the slot becomes an EMBRYO with the next
    pid, default signal handlers, no pending or blocked signal, and a kernel
    stack whose context returns to [forkret] and from there to [trapret], below
    the trap frame; the page is no longer free.  When no page is free the slot
    is UNUSED again and the call returns 0; a full table also gives 0.  In all
    cases the interrupt nesting is as before. *)
Theorem allocproc_spec s i c ps :
  length (procs s) = NPROC -> cpu_ok (mach s) i c -> kmem_ok kend (km s) ps ->
  exists r s', allocproc trapret forkret s = Ok r s' /\ same_cpu (mach s) (mach s') i c /\
  match list_find is_unused (procs s), ps with
  | None, _ => r = None /\ procs s' = procs s /\ km s' = km s
  | Some (p, _), [] =>
      r = None /\ km s' = km s /\
      exists x', procs s' = <[p := x']> (procs s) /\ p_state x' = UNUSED
  | Some (p, _), page :: ps' =>
      r = Some p /\ kmem_ok kend (km s') ps' /\ nextpid s' = s32 (nextpid s + 1) /\
      exists x', procs s' = <[p := x']> (procs s) /\
        new_process trapret forkret (s32 (nextpid s + 1)) page (k_mem (km s')) x'
  end.
Proof.
  intros Hl Hc Hk. unfold allocproc.
  destruct (alloc_claim s (fun r => match r with None => ret None
    | Some p => init_slot trapret forkret p end) i c Hl Hc) as (k2 & Hsame & ->).
  destruct (list_find is_unused (procs s)) as [[p x]|] eqn:Hf; simpl; [|by do 2 eexists].
  apply list_find_Some in Hf as (Hp & _ & _). apply lookup_lt_Some in Hp.
  set (s2 := set_mach k2 s). change (set_procs _ s2) with (putp p (set_state EMBRYO x) s2).
  assert (Hp2 : (p < length (procs s2))%nat) by done.
  destruct ps as [|page ps].
  - rewrite (init_slot_ok trapret forkret s2 p (set_state EMBRYO x) Hp2 eq_refl 0 (km s) (kalloc_empty kend _ Hk)).
    do 2 eexists. split; [done|]. split; [done|]. split; [done|]. split; [done|]. by eexists.
  - destruct (kalloc_list kend _ _ _ Hk) as (k' & Ha & Hk' & Hm).
    destruct (kmem_ok_head kend _ _ _ Hk) as [Hv Hnin].
    rewrite (init_slot_ok trapret forkret s2 p (set_state EMBRYO x) Hp2 eq_refl page k' Ha).
    destruct (Z.eqb_spec page 0) as [->|_]; [by apply valid_page_nonzero in Hv|].
    do 2 eexists. split; [done|]. split; [done|]. split; [done|].
    split; [|split; [done|eexists; split; [done|by apply embryo_new]]].
    apply (kmem_ok_write kend k' ps page); [done..|]. intros y. apply stack_init_frame.
Qed.
End claims.

(** When no sleeper on [ch] is still on its way into [sched], [wakeup(ch)]
    makes exactly the processes that sleep on [ch] runnable, keeps every other
    slot and every other field, and leaves the interrupt nesting as it was. *)
Theorem wakeup_exact ch s i c :
  length (procs s) = NPROC -> cpu_ok (mach s) i c ->
  (forall p, p ∈ procs s -> ~ (p_chan p = ch /\ p_state p = NEG_SLEEPING)) ->
  exists k', wakeup ch s = Ok tt (set_procs (woken ch <$> procs s) (set_mach k' s)) /\
    same_cpu (mach s) k' i c.
Proof.
  intros Hl Hc Hn. by apply wakeup_runs.
Qed.

(** A table with one process sleeping on channel 7, and a free slot. *)
Definition pt3 : pst :=
  Pst (set_state SLEEPING (set_chan (Chan 7) unused_proc) :: replicate 63 unused_proc)
    1 None one_cpu k3 0 0.

Lemma pt3_cpu : cpu_ok (mach pt3) 0 (Cpu 0 0 false None).
Proof. split; [by split|]. simpl. split; [lia|by left]. Qed.

Lemma allocproc_spec_witness :
  exists s', allocproc 5 6 pt3 = Ok (Some 1%nat) s' /\ nextpid s' = 2.
Proof.
  destruct (allocproc_spec k3_end 5 6 pt3 0 (Cpu 0 0 false None) k3_pages) as (r & s' & H & _ & Hr).
  - reflexivity.
  - exact pt3_cpu.
  - exact k3_ok.
  - exists s'. destruct Hr as (Hr & _ & Hn & _). rewrite H, Hr. split; [reflexivity|exact Hn].
Defined.

Lemma wakeup_exact_witness :
  exists k', wakeup (Chan 7) pt3 = Ok tt
    (set_procs (set_state RUNNABLE (set_chan (Chan 7) unused_proc) :: replicate 63 unused_proc)
       (set_mach k' pt3)).
Proof.
  destruct (wakeup_exact (Chan 7) pt3 0 (Cpu 0 0 false None)) as (k' & H & _).
  - reflexivity.
  - exact pt3_cpu.
  - intros p Hp [_ Hs]. apply elem_of_cons in Hp as [->|Hp]; [discriminate|].
    apply elem_of_replicate in Hp as [-> _]. discriminate.
  - exists k'. exact H.
Defined.

(** A table with process [x] in slot 0, running on the only CPU; and the same
    just after a switch back to it in [sched]. *)
Definition run0 (x : proc) : pst :=
  Pst (x :: replicate 63 unused_proc) 2 None (Machine [Cpu 0 0 false (Some 0%nat)] true 0) k3 0 0.
Definition back0 (x : proc) : pst :=
  Pst (x :: replicate 63 unused_proc) 2 None (Machine [Cpu 0 1 true (Some 0%nat)] false 0) k3 0 0.

Lemma run0_quiet x : p_state x = RUNNING ->
  forall y, y ∈ x :: replicate 63 unused_proc -> p_state y <> NEG_SLEEPING.
Proof.
  intros Hx y Hy. apply elem_of_cons in Hy as [->|Hy]; [by rewrite Hx|].
  apply elem_of_replicate in Hy as [-> _]. done.
Qed.

Lemma run0_cur x : p_state x = RUNNING -> cur_ok (run0 x) 0 (Cpu 0 0 false (Some 0%nat)) 0 x.
Proof.
  intros Hx. split; [split|..]; try done.
  - repeat split; simpl; (lia || by left).
  - by apply run0_quiet.
Qed.

Lemma back0_resumed x : resumed_ok (back0 x) 0 (Cpu 0 1 true (Some 0%nat)) 0 x.
Proof. by split. Qed.
