(* ===== verification/SchedSys.v ===== *)
(** The compare-and-swap protocol on process states that replaces the process
    table lock (src/proc.c), under all interleavings of the CPUs.

    [Sched]: each CPU is in its scheduler loop or runs a process; every access
    to a process state is one step.  The scheduler gives a process back with
    three separate [cas] instructions; [sched_race] shows what can happen
    between them, and [sched_exclusive] that nothing else can go wrong.

    [Sleep]: a process that sleeps on a channel under a lock and one that sets
    the condition and wakes it up, with every step of [sleep] and [wakeup1]
    separate.  [sleep] releases the lock before it publishes the channel. *)

From S2P Require Import Prelude Ptable.

(** Functional update of a per-CPU or per-process array. *)
Definition fset {A} (f : nat -> A) (i : nat) (v : A) : nat -> A :=
  fun j => if decide (j = i) then v else f j.

Lemma fset_eq {A} (f : nat -> A) i v : fset f i v i = v.
Proof. unfold fset. by rewrite decide_True. Qed.
Lemma fset_ne {A} (f : nat -> A) i v j : j <> i -> fset f i v j = f j.
Proof. intros. unfold fset. by rewrite decide_False. Qed.

Module Sched.

(** Where a CPU is: scanning the table, between the two [cas] that start a
    process, running process [p], on [p]'s way out through [sched] after it
    changed its own state, or in the scheduler after [swtch] came back, before
    the first, second and third [cas] and before [c->proc = 0]. *)
Inductive cpu_pc :=
| Scan | Picked (p : nat) | Run (p : nat) | Leave (p : nat)
| Back1 (p : nat) | Back2 (p : nat) | Back3 (p : nat) | Back4 (p : nat)
| Panicked.

Record sys := Sys { sst : nat -> procstate; cpc : nat -> cpu_pc }.

(** [cas(&p->state, a, b)] on the shared states. *)
Definition cas_st (f : nat -> procstate) (p : nat) (a b : procstate) : nat -> procstate :=
  if decide (f p = a) then fset f p b else f.

(** The state a process gives itself before it calls [sched]: in [yield],
    [sleep] and [exit]. *)
Definition leaving (st : procstate) : Prop :=
  st = NEG_RUNNABLE \/ st = NEG_SLEEPING \/ st = NEG_ZOMBIE.

(** State changes that running code makes to another slot: [allocproc], its
    failure path, the end of [fork], [wakeup1] and [kill_handler], and the two
    steps of [wait]. *)
Inductive remote_cas : procstate -> procstate -> Prop :=
| rc_alloc : remote_cas UNUSED EMBRYO
| rc_abort : remote_cas EMBRYO UNUSED
| rc_born : remote_cas EMBRYO RUNNABLE
| rc_wake : remote_cas SLEEPING RUNNABLE
| rc_reap : remote_cas ZOMBIE NEG_UNUSED
| rc_freed : remote_cas NEG_UNUSED UNUSED.

(* src/proc.c:380-412 scheduler *)
Inductive sched_step (c : nat) : sys -> sys -> Prop :=
| s_pick s p : cpc s c = Scan -> sst s p = RUNNABLE ->
    sched_step c s (Sys (cas_st (sst s) p RUNNABLE NEG_RUNNING) (fset (cpc s) c (Picked p)))
| s_run s p : cpc s c = Picked p ->
    sched_step c s (Sys (cas_st (sst s) p NEG_RUNNING RUNNING)
      (fset (cpc s) c (if decide (sst s p = NEG_RUNNING) then Run p else Panicked)))
| s_leave s p st : cpc s c = Run p -> leaving st ->
    sched_step c s (Sys (cas_st (sst s) p RUNNING st) (fset (cpc s) c (Leave p)))
| s_remote s q a b : cpc s c <> Panicked -> remote_cas a b ->
    sched_step c s (Sys (cas_st (sst s) q a b) (cpc s))
| s_swtch s p : cpc s c = Leave p ->
    sched_step c s (Sys (sst s) (fset (cpc s) c
      (if decide (sst s p = RUNNING \/ sst s p = NEG_RUNNING) then Panicked else Back1 p)))
| s_back1 s p : cpc s c = Back1 p ->
    sched_step c s (Sys (cas_st (sst s) p NEG_RUNNABLE RUNNABLE) (fset (cpc s) c (Back2 p)))
| s_back2 s p : cpc s c = Back2 p ->
    sched_step c s (Sys (cas_st (sst s) p NEG_SLEEPING SLEEPING) (fset (cpc s) c (Back3 p)))
| s_back3 s p : cpc s c = Back3 p ->
    sched_step c s (Sys (cas_st (sst s) p NEG_ZOMBIE ZOMBIE) (fset (cpc s) c (Back4 p)))
| s_back4 s p : cpc s c = Back4 p ->
    sched_step c s (Sys (sst s) (fset (cpc s) c Scan)).

(** [userinit] has made the first process runnable; every CPU is about to scan. *)
Definition init : sys := Sys (fset (fun _ => UNUSED) 0%nat RUNNABLE) (fun _ => Scan).

Inductive reachable : sys -> Prop :=
| r_init : reachable init
| r_step c s s' : reachable s -> sched_step c s s' -> reachable s'.

(** The CPU executes on [p]'s kernel stack. *)
Definition on_stack (pc : cpu_pc) (p : nat) : Prop := pc = Run p \/ pc = Leave p.

(** The CPU has yet to finish its [cas] instructions after [p] switched back. *)
Definition giving_back (pc : cpu_pc) (p : nat) : Prop :=
  pc = Back1 p \/ pc = Back2 p \/ pc = Back3 p.

(** Executions in which no CPU picks up a process while another one is still
    between its [cas] instructions for it. *)
Inductive quiet : sys -> Prop :=
| q_init : quiet init
| q_step c s s' : quiet s -> sched_step c s s' ->
    (forall p, cpc s c = Scan -> cpc s' c = Picked p -> forall d, ~ giving_back (cpc s d) p) ->
    quiet s'.

(* ------------------------------------------------------------------ *)
(** ** The invariant of quiet executions *)

Definition busy (pc : cpu_pc) (p : nat) : Prop :=
  pc = Picked p \/ on_stack pc p \/ giving_back pc p.

(** What the position of a CPU says about the state of its process. *)
Definition pc_state (pc : cpu_pc) (f : nat -> procstate) : Prop :=
  match pc with
  | Picked p => f p = NEG_RUNNING
  | Run p => f p = RUNNING
  | Leave p | Back1 p => leaving (f p)
  | Back2 p => f p = RUNNABLE \/ f p = NEG_SLEEPING \/ f p = NEG_ZOMBIE
  | Back3 p => f p = RUNNABLE \/ f p = SLEEPING \/ f p = NEG_ZOMBIE
  | Panicked => False
  | _ => True
  end.

Record inv (s : sys) : Prop := {
  inv_unique : forall c d p, busy (cpc s c) p -> busy (cpc s d) p -> c = d;
  inv_state : forall c, pc_state (cpc s c) (sst s);
}.

Lemma cas_st_ne f p a b q : q <> p -> cas_st f p a b q = f q.
Proof. intros. unfold cas_st. case_decide; [by apply fset_ne|done]. Qed.
Lemma cas_st_eq f p a b : cas_st f p a b p = if decide (f p = a) then b else f p.
Proof. unfold cas_st. case_decide; [by apply fset_eq|done]. Qed.

(** The process a position is about. *)
Definition pc_proc (pc : cpu_pc) : option nat :=
  match pc with
  | Picked p | Run p | Leave p | Back1 p | Back2 p | Back3 p => Some p
  | _ => None
  end.

Lemma busy_pc_proc pc p : busy pc p <-> pc_proc pc = Some p.
Proof.
  unfold busy, on_stack, giving_back.
  destruct pc; simpl; split; naive_solver.
Qed.

Lemma pc_state_ext pc f g :
  (forall p, pc_proc pc = Some p -> g p = f p) -> pc_state pc f -> pc_state pc g.
Proof. intros H. destruct pc; simpl in *; try done; by rewrite (H _ eq_refl). Qed.

(** A step of CPU [c] that touches only the state of its own process [p]. *)
Lemma inv_local s c p pc' f' :
  inv s -> pc_proc (cpc s c) = Some p ->
  (pc_proc pc' = Some p \/ pc_proc pc' = None) ->
  (forall q, q <> p -> f' q = sst s q) -> pc_state pc' f' ->
  inv (Sys f' (fset (cpc s) c pc')).
Proof.
  intros [Hu Hs] Hc Hp' Hf Hst. split; simpl.
  - intros d e q. rewrite !busy_pc_proc. intros Hd He.
    assert (Hq : forall d, pc_proc (fset (cpc s) c pc' d) = Some q -> pc_proc (cpc s d) = Some q).
    { intros x Hx. destruct (decide (x = c)) as [->|Hne].
      - rewrite fset_eq in Hx. destruct Hp' as [H'|H']; congruence.
      - by rewrite fset_ne in Hx. }
    apply (Hu d e q); apply busy_pc_proc; auto.
  - intros d. destruct (decide (d = c)) as [->|Hne]; [by rewrite fset_eq|].
    rewrite fset_ne by done. eapply pc_state_ext; [|apply Hs].
    intros q Hq. apply Hf. intros ->. apply Hne.
    apply (Hu d c p); by apply busy_pc_proc.
Qed.

Lemma inv_remote s q a b :
  inv s -> remote_cas a b -> inv (Sys (cas_st (sst s) q a b) (cpc s)).
Proof.
  intros [Hu Hs] Hab. split; [done|]. simpl. intros d. specialize (Hs d).
  destruct (decide (pc_proc (cpc s d) = Some q)) as [Hq|Hq].
  - destruct (cpc s d); simpl in *; try done; simplify_eq; rewrite !cas_st_eq; unfold leaving in *;
      destruct Hab; repeat case_decide; intuition congruence.
  - eapply pc_state_ext; [|exact Hs]. intros p Hp. apply cas_st_ne. congruence.
Qed.

Lemma inv_pick s c p :
  inv s -> cpc s c = Scan -> sst s p = RUNNABLE ->
  (forall d, ~ giving_back (cpc s d) p) ->
  inv (Sys (cas_st (sst s) p RUNNABLE NEG_RUNNING) (fset (cpc s) c (Picked p))).
Proof.
  intros [Hu Hs] Hc Hp Hg.
  assert (Hfree : forall d, pc_proc (cpc s d) <> Some p).
  { intros d Hd. specialize (Hs d). specialize (Hg d). unfold giving_back in Hg.
    destruct (cpc s d); simpl in *; simplify_eq; unfold leaving in *; intuition congruence. }
  split; simpl.
  - intros d e q. rewrite !busy_pc_proc.
    destruct (decide (d = c)) as [->|Hd], (decide (e = c)) as [->|He];
      rewrite ?fset_eq, ?fset_ne by done; simpl; intros H1 H2; simplify_eq; try done.
    + by destruct (Hfree e).
    + by destruct (Hfree d).
    + apply (Hu d e q); by apply busy_pc_proc.
  - intros d. destruct (decide (d = c)) as [->|Hd].
    + rewrite fset_eq. simpl. rewrite cas_st_eq. by rewrite decide_True.
    + rewrite fset_ne by done. eapply pc_state_ext; [|apply Hs].
      intros q Hq. apply cas_st_ne. intros ->. by destruct (Hfree d).
Qed.

Lemma inv_step s s' c :
  inv s -> sched_step c s s' ->
  (forall p, cpc s c = Scan -> cpc s' c = Picked p -> forall d, ~ giving_back (cpc s d) p) ->
  inv s'.
Proof.
  intros Hi Hstep Hquiet. pose proof (inv_state s Hi c) as Hc.
  destruct Hstep as [s p H1 H2|s p H|s p st H Hl|s q a b H Hab|s p H|s p H|s p H|s p H|s p H];
    try (rewrite H in Hc; simpl in Hc).
  - apply inv_pick; try done. apply (Hquiet p); [done|]. simpl. by rewrite fset_eq.
  - rewrite decide_True by done.
    eapply inv_local; [done|by rewrite H|by left|by intros; apply cas_st_ne|].
    simpl. rewrite cas_st_eq. by rewrite decide_True.
  - eapply inv_local; [done|by rewrite H|by left|by intros; apply cas_st_ne|].
    simpl. rewrite cas_st_eq. by rewrite decide_True.
  - by apply inv_remote.
  - rewrite decide_False by (unfold leaving in Hc; intuition congruence).
    eapply inv_local; [done|by rewrite H|by left|done|done].
  - eapply inv_local; [done|by rewrite H|by left|by intros; apply cas_st_ne|].
    simpl. rewrite cas_st_eq. unfold leaving in Hc. case_decide; intuition congruence.
  - eapply inv_local; [done|by rewrite H|by left|by intros; apply cas_st_ne|].
    simpl. rewrite cas_st_eq. case_decide; intuition congruence.
  - eapply inv_local; [done|by rewrite H|by right|by intros; apply cas_st_ne|done].
  - destruct Hi as [Hu Hs]. split; simpl.
    + intros d e q. rewrite !busy_pc_proc. intros Hd He.
      destruct (decide (d = c)) as [->|]; [by rewrite fset_eq in Hd|].
      destruct (decide (e = c)) as [->|]; [by rewrite fset_eq in He|].
      rewrite fset_ne in Hd, He by done. apply (Hu d e q); by apply busy_pc_proc.
    + intros d. destruct (decide (d = c)) as [->|]; [by rewrite fset_eq|by rewrite fset_ne].
Qed.

Lemma quiet_inv s : quiet s -> inv s.
Proof.
  induction 1 as [|c s s' _ IH Hs Hq]; [|by eapply inv_step].
  split; simpl; [|done]. intros c d p. rewrite busy_pc_proc. done.
Qed.

(** ** Executions of two CPUs around process 0 *)

(** Some reachable state has CPU 0 at [a], CPU 1 at [b] and process 0 in [st]. *)
Definition at_pcs (a b : cpu_pc) (st : procstate) : Prop :=
  exists s, reachable s /\ cpc s 0%nat = a /\ cpc s 1%nat = b /\ sst s 0%nat = st.

Lemma at_pcs_init : at_pcs Scan Scan RUNNABLE.
Proof. exists init. split; [apply r_init|done]. Qed.

(** The process's state after [cas(&p->state, x, y)]. *)
Definition cas_val (st x y : procstate) : procstate := if decide (st = x) then y else st.

Lemma at_pcs_0 a a' b st x y :
  (forall s, cpc s 0%nat = a -> sst s 0%nat = st ->
     sched_step 0 s (Sys (cas_st (sst s) 0 x y) (fset (cpc s) 0%nat a'))) ->
  at_pcs a b st -> at_pcs a' b (cas_val st x y).
Proof.
  intros Hs (s & Hr & Ha & Hb & Hst). eexists. split; [eapply r_step; [exact Hr|by apply Hs]|].
  simpl. rewrite fset_eq, fset_ne, cas_st_eq, Hst by done. done.
Qed.

Lemma at_pcs_1 a b b' st x y :
  (forall s, cpc s 1%nat = b -> sst s 0%nat = st ->
     sched_step 1 s (Sys (cas_st (sst s) 0 x y) (fset (cpc s) 1%nat b'))) ->
  at_pcs a b st -> at_pcs a b' (cas_val st x y).
Proof.
  intros Hs (s & Hr & Ha & Hb & Hst). eexists. split; [eapply r_step; [exact Hr|by apply Hs]|].
  simpl. rewrite fset_eq, fset_ne, cas_st_eq, Hst by done. done.
Qed.

Lemma at_pcs_swtch b st :
  leaving st -> at_pcs (Leave 0) b st -> at_pcs (Back1 0) b st.
Proof.
  intros Hl (s & Hr & Ha & Hb & Hst). eexists. split; [eapply r_step; [exact Hr|by apply (s_swtch 0 s 0)]|].
  simpl. rewrite fset_eq, fset_ne, Hst by done.
  rewrite decide_False by (destruct Hl; intuition congruence). done.
Qed.

Lemma at_pcs_back4 b st : at_pcs (Back4 0) b st -> at_pcs Scan b st.
Proof.
  intros (s & Hr & Ha & Hb & Hst). eexists. split; [eapply r_step; [exact Hr|by apply (s_back4 0 s 0)]|].
  simpl. by rewrite fset_eq, fset_ne by done.
Qed.

Lemma at_pcs_remote a b st x y :
  remote_cas x y -> a <> Panicked -> at_pcs a b st -> at_pcs a b (cas_val st x y).
Proof.
  intros Hxy Hp (s & Hr & Ha & Hb & Hst).
  eexists. split; [eapply r_step; [exact Hr|apply (s_remote 0 s 0 x y); [by rewrite Ha|done]]|].
  simpl. by rewrite cas_st_eq, Hst.
Qed.

Lemma at_pcs_run0 b : at_pcs Scan b RUNNABLE -> at_pcs (Run 0) b RUNNING.
Proof.
  intros H. apply (at_pcs_0 Scan (Picked 0) b RUNNABLE RUNNABLE NEG_RUNNING) in H;
    [|intros s H1 H2; by apply s_pick].
  apply (at_pcs_0 (Picked 0) (Run 0) b NEG_RUNNING NEG_RUNNING RUNNING) in H; [done|].
  intros s H1 H2. pose proof (s_run 0 s 0 H1) as Hs. by rewrite decide_True in Hs.
Qed.

Lemma at_pcs_run1 a : at_pcs a Scan RUNNABLE -> at_pcs a (Run 0) RUNNING.
Proof.
  intros H. apply (at_pcs_1 a Scan (Picked 0) RUNNABLE RUNNABLE NEG_RUNNING) in H;
    [|intros s H1 H2; by apply s_pick].
  apply (at_pcs_1 a (Picked 0) (Run 0) NEG_RUNNING NEG_RUNNING RUNNING) in H; [done|].
  intros s H1 H2. pose proof (s_run 1 s 0 H1) as Hs. by rewrite decide_True in Hs.
Qed.

End Sched.

Module Sleep.

(** The sleeper runs [acquire(lk); while(!cond) sleep(chan, lk);] and the waker
    [acquire(lk); cond = 1; wakeup(chan); release(lk);].  The sleeper's
    positions inside [sleep] are those of the source: before [release(lk)],
    before [p->chan = chan], before the [cas] to NEG_SLEEPING, before [swtch],
    and in the scheduler before its [cas] to SLEEPING. *)
Inductive sleeper_pc :=
| S_acquire | S_test | S_rel | S_chan | S_cas | S_swtch | S_back | S_asleep | S_woken | S_done.
Inductive waker_pc := W_acquire | W_set | W_scan | W_spin | W_cas | W_rel | W_done.
Inductive owner := Nobody | Sleeper | Waker.

Record sys := Sys {
  lk : owner; cond : bool; chan_set : bool; sstate : procstate;
  spc : sleeper_pc; wpc : waker_pc }.

#[export] Instance sleeper_pc_eq_dec : EqDecision sleeper_pc.
Proof. solve_decision. Defined.
#[export] Instance waker_pc_eq_dec : EqDecision waker_pc.
Proof. solve_decision. Defined.
#[export] Instance owner_eq_dec : EqDecision owner.
Proof. solve_decision. Defined.
#[export] Instance sys_eq_dec : EqDecision sys.
Proof. solve_decision. Defined.

(** The next step of the sleeper; [None] when it cannot take one. *)

(* src/proc.c:495-551 sleep *)
Definition sleeper_next (s : sys) : option sys :=
  let '(Sys l c ch st p w) := s in
  match p with
  | S_acquire => if decide (l = Nobody) then Some (Sys Sleeper c ch st S_test w) else None
  | S_test => Some (Sys l c ch st (if c then S_done else S_rel) w)
  | S_rel => Some (Sys Nobody c ch st S_chan w)
  | S_chan => Some (Sys l c true st S_cas w)
  | S_cas => Some (Sys l c ch (if decide (st = RUNNING) then NEG_SLEEPING else st) S_swtch w)
  | S_swtch => Some (Sys l c ch st S_back w)
  | S_back => Some (Sys l c ch (if decide (st = NEG_SLEEPING) then SLEEPING else st) S_asleep w)
  | S_asleep => if decide (st = RUNNABLE) then Some (Sys l c ch RUNNING S_woken w) else None
  | S_woken => Some (Sys l c false st S_acquire w)
  | S_done => None
  end.

(** The next step of the waker; it spins while the sleeper is NEG_SLEEPING. *)

(* src/proc.c:553-579 wakeup1 *)
Definition waker_next (s : sys) : option sys :=
  let '(Sys l c ch st p w) := s in
  match w with
  | W_acquire => if decide (l = Nobody) then Some (Sys Waker c ch st p W_set) else None
  | W_set => Some (Sys l true ch st p W_scan)
  | W_scan => Some (Sys l c ch st p (if ch then W_spin else W_rel))
  | W_spin => if decide (st = NEG_SLEEPING) then Some s else Some (Sys l c ch st p W_cas)
  | W_cas => Some (Sys l c ch (if decide (st = SLEEPING) then RUNNABLE else st) p W_rel)
  | W_rel => Some (Sys Nobody c ch st p W_done)
  | W_done => None
  end.

Definition init : sys := Sys Nobody false false RUNNING S_acquire W_acquire.

Inductive reachable : sys -> Prop :=
| r_init : reachable init
| r_sleeper s s' : reachable s -> sleeper_next s = Some s' -> reachable s'
| r_waker s s' : reachable s -> waker_next s = Some s' -> reachable s'.

(** With one CPU, the sleeper's interrupts are off from the [pushcli] of
    [acquire] until the scheduler has put it to sleep, and the waker's while it
    holds the lock: neither is interrupted there. *)
Definition sleeper_off (p : sleeper_pc) : bool :=
  match p with S_test | S_rel | S_chan | S_cas | S_swtch | S_back => true | _ => false end.
Definition waker_off (p : waker_pc) : bool :=
  match p with W_acquire | W_done => false | _ => true end.

(** The sleeper leaves the critical section when it has seen the condition, and
    lets go of the lock. *)
Definition uni_next (s : sys) : list sys :=
  (if waker_off (wpc s) then [] else option_list (sleeper_next s)) ++
  (if sleeper_off (spc s) then [] else option_list (waker_next s)).

Inductive uni_reachable : sys -> Prop :=
| u_init : uni_reachable init
| u_step s s' : uni_reachable s -> s' ∈ uni_next s -> uni_reachable s'.

(** The one-CPU executions have finitely many states; [explore] lists them. *)
Fixpoint explore (fuel : nat) (todo seen : list sys) : list sys :=
  match fuel, todo with
  | S f, s :: todo' =>
      if bool_decide (s ∈ seen) then explore f todo' seen
      else explore f (uni_next s ++ todo') (s :: seen)
  | _, _ => seen
  end.

Definition uni_states : list sys := explore 100 [init] [].

Definition closed (l : list sys) : bool :=
  bool_decide (init ∈ l) && forallb (fun s => forallb (fun s' => bool_decide (s' ∈ l)) (uni_next s)) l.

Lemma uni_states_closed : closed uni_states = true.
Proof. vm_compute. reflexivity. Qed.

Lemma uni_reachable_states s : uni_reachable s -> s ∈ uni_states.
Proof.
  pose proof uni_states_closed as H. unfold closed in H. apply andb_true_iff in H as [H0 H].
  apply bool_decide_eq_true in H0. rewrite forallb_forall in H.
  induction 1 as [|s s' _ IH Hs]; [done|].
  apply list_elem_of_In in IH. specialize (H s IH). rewrite forallb_forall in H.
  apply list_elem_of_In in Hs. specialize (H s' Hs). by apply bool_decide_eq_true in H.
Qed.

Lemma uni_check (f : sys -> bool) :
  forallb f uni_states = true -> forall s, uni_reachable s -> f s = true.
Proof.
  intros Hf s Hs. rewrite forallb_forall in Hf. apply Hf, list_elem_of_In.
  by apply uni_reachable_states.
Qed.

(** Zero or more one-CPU steps. *)
Inductive uni_steps : sys -> sys -> Prop :=
| us_refl s : uni_steps s s
| us_step s s1 s' : s1 ∈ uni_next s -> uni_steps s1 s' -> uni_steps s s'.

Lemma explore_sound fuel : forall todo seen s',
  s' ∈ explore fuel todo seen -> s' ∈ seen \/ exists s, s ∈ todo /\ uni_steps s s'.
Proof.
  induction fuel as [|f IH]; intros todo seen s' H; simpl in H; [by left|].
  destruct todo as [|s todo]; [by left|]. case_bool_decide.
  - destruct (IH _ _ _ H) as [?|(x & Hx & Hs)]; [by left|]. right. exists x. split; [by right|done].
  - destruct (IH _ _ _ H) as [Hin|(x & Hx & Hs)].
    + apply elem_of_cons in Hin as [->|Hin]; [|by left]. right. exists s. split; [left|apply us_refl].
    + right. apply elem_of_app in Hx as [Hx|Hx].
      * exists s. split; [left|by eapply us_step].
      * exists x. split; [by right|done].
Qed.

(** Can the sleeper still see the condition and finish? *)
Definition can_finish (s : sys) : bool :=
  existsb (fun s' => bool_decide (spc s' = S_done)) (explore 100 [s] []).

Lemma can_finish_sound s :
  can_finish s = true -> exists s', uni_steps s s' /\ spc s' = S_done.
Proof.
  unfold can_finish. rewrite existsb_exists. intros (s' & Hin & Hd).
  apply list_elem_of_In in Hin. apply bool_decide_eq_true in Hd.
  destruct (explore_sound _ _ _ _ Hin) as [Hx|(x & Hx & Hs)]; [by apply elem_of_nil in Hx|].
  apply list_elem_of_singleton in Hx as ->. eauto.
Qed.

Definition uni_good (s : sys) : bool :=
  (bool_decide (wpc s <> W_done) || bool_decide (sstate s <> SLEEPING)) && can_finish s.

Lemma uni_good_all : forallb uni_good uni_states = true.
Proof. vm_compute. reflexivity. Qed.

End Sleep.

Module Pid.

(** [allocpid] under interleaving: each of its three reads of [nextpid] and its
    [cas] is a pid_step of its own. *)
Inductive pid_pc :=
| P_start
| P_old (old : Z)                 (* old = nextpid *)
| P_pid (old pid : Z)             (* pid = nextpid + 1 *)
| P_new (old pid new : Z)         (* the argument nextpid + 1 of cas *)
| P_done (pid : Z).

Record sys := Sys { next : Z; issued : list Z; ppc : nat -> pid_pc }.

(* src/proc.c:77-86 allocpid *)
Inductive pid_step (t : nat) : sys -> sys -> Prop :=
| p_old s : ppc s t = P_start ->
    pid_step t s (Sys (next s) (issued s) (fset (ppc s) t (P_old (next s))))
| p_pid s old : ppc s t = P_old old ->
    pid_step t s (Sys (next s) (issued s) (fset (ppc s) t (P_pid old (s32 (next s + 1)))))
| p_new s old pid : ppc s t = P_pid old pid ->
    pid_step t s (Sys (next s) (issued s) (fset (ppc s) t (P_new old pid (s32 (next s + 1)))))
| p_cas_ok s old pid new : ppc s t = P_new old pid new -> next s = old ->
    pid_step t s (Sys new (pid :: issued s) (fset (ppc s) t (P_done pid)))
| p_cas_fail s old pid new : ppc s t = P_new old pid new -> next s <> old ->
    pid_step t s (Sys (next s) (issued s) (fset (ppc s) t P_start))
| p_again s pid : ppc s t = P_done pid ->
    pid_step t s (Sys (next s) (issued s) (fset (ppc s) t P_start)).

Inductive reachable : sys -> Prop :=
| r_init : reachable (Sys 1 [] (fun _ => P_start))
| r_step t s s' : reachable s -> pid_step t s s' -> reachable s'.

Definition pc_ok (n : Z) (pc : pid_pc) : Prop :=
  match pc with
  | P_old old => old <= n
  | P_pid old pid => old <= pid - 1 <= n
  | P_new old pid new => old <= pid - 1 /\ pid - 1 <= new - 1 /\ new - 1 <= n
  | _ => True
  end.

Record inv (s : sys) : Prop := {
  inv_next : next s = 1 + Z.of_nat (length (issued s));
  inv_issued : issued s = rev (seqZ 2 (Z.of_nat (length (issued s))));
  inv_pc : forall t, pc_ok (next s) (ppc s t);
}.

Definition bound : Z := 2147483646.

Lemma pc_ok_mono n n' pc : n <= n' -> pc_ok n pc -> pc_ok n' pc.
Proof. destruct pc; simpl; lia. Qed.

Lemma inv_pcs s t n l pc' :
  (forall d, pc_ok (next s) (ppc s d)) -> next s <= n -> pc_ok n pc' ->
  forall d, pc_ok (next (Sys n l (fset (ppc s) t pc'))) (fset (ppc s) t pc' d).
Proof.
  intros H Hn Hp d. simpl. destruct (decide (d = t)) as [->|]; [by rewrite fset_eq|].
  rewrite fset_ne by done. eapply pc_ok_mono; [done|apply H].
Qed.

Lemma pid_inv_step s s' t :
  inv s -> pid_step t s s' -> Z.of_nat (length (issued s)) < bound -> inv s'.
Proof.
  intros [Hn Hi Hp] Hs Hb. pose proof (Hp t) as Ht. unfold bound in Hb.
  assert (Hw : s32 (next s + 1) = next s + 1) by (apply s32_id; lia).
  destruct Hs as [s H|s old H|s old pid H|s old pid new H He|s old pid new H He|s pid H];
    rewrite H in Ht; simpl in Ht; try (split; [done|done|]; apply inv_pcs; simpl; try done; lia).
  assert (pid = next s + 1) as -> by lia. assert (new = next s + 1) as -> by lia. split.
  - simpl. lia.
  - simpl. rewrite Hi at 1.
    replace (Z.of_nat (S (length (issued s)))) with (Z.of_nat (length (issued s)) + 1) by lia.
    rewrite seqZ_app by lia. rewrite rev_app_distr. simpl. f_equal. lia.
  - apply inv_pcs; simpl; [done|lia|done].
Qed.

Lemma issued_grows s s' t : pid_step t s s' -> (length (issued s) <= length (issued s'))%nat.
Proof. destruct 1; simpl; lia. Qed.

Lemma reachable_inv s : reachable s -> Z.of_nat (length (issued s)) < bound -> inv s.
Proof.
  induction 1 as [|t s s' _ IH Hs]; intros Hb; [by split|].
  pose proof (issued_grows _ _ _ Hs) as Hg. eapply pid_inv_step; [apply IH; lia|done|lia].
Qed.

End Pid.

(* ------------------------------------------------------------------ *)
(** * Properties *)

(** C8: no process runs on two CPUs, as long as no CPU picks a process up
    while another CPU is still between the three [cas] instructions that give
    it back.  In every such execution at most one CPU is on a process's kernel
    stack; a process that a CPU is on is RUNNING or on its way out (so [wait]
    never frees a kernel stack in use); and no scheduler assertion fails. *)
Theorem sched_exclusive s :
  Sched.quiet s ->
  (forall c d p, Sched.on_stack (Sched.cpc s c) p -> Sched.on_stack (Sched.cpc s d) p -> c = d) /\
  (forall c p, Sched.on_stack (Sched.cpc s c) p ->
     Sched.sst s p = RUNNING \/ Sched.leaving (Sched.sst s p)) /\
  (forall c, Sched.cpc s c <> Sched.Panicked).
Proof.
  intros Hq. destruct (Sched.quiet_inv s Hq) as [Hu Hs]. split; [|split].
  - intros c d p Hc Hd. apply (Hu c d p); unfold Sched.busy; auto.
  - intros c p [H|H]; specialize (Hs c); rewrite H in Hs; simpl in Hs; auto.
  - intros c H. specialize (Hs c). by rewrite H in Hs.
Qed.

Lemma sched_exclusive_witness :
  exists s, Sched.quiet s /\ Sched.cpc s 3%nat = Sched.Picked 0 /\
    forall c d p, Sched.on_stack (Sched.cpc s c) p -> Sched.on_stack (Sched.cpc s d) p -> c = d.
Proof.
  assert (H : Sched.quiet (Sched.Sys
    (Sched.cas_st (fset (fun _ => UNUSED) 0%nat RUNNABLE) 0%nat RUNNABLE NEG_RUNNING)
    (fset (fun _ => Sched.Scan) 3%nat (Sched.Picked 0)))).
  { eapply (Sched.q_step 3%nat Sched.init).
    - apply Sched.q_init.
    - by apply (Sched.s_pick 3%nat Sched.init 0%nat).
    - intros p _ _ d [H|[H|H]]; discriminate H. }
  eexists. split; [exact H|]. split; [reflexivity|]. apply (sched_exclusive _ H).
Defined.

(** C35: the race between the three [cas] instructions is real: with two CPUs
    there is an execution of the scheduler that ends with both of them on the
    kernel stack of the same process.  CPU 0 makes the process RUNNABLE with its
    first [cas]; CPU 1 runs it until it is about to sleep; the second [cas] of
    CPU 0 then declares it asleep although it is still executing on CPU 1, and
    a wakeup lets CPU 0 run it too. *)
Theorem sched_race :
  exists s, Sched.reachable s /\
    Sched.on_stack (Sched.cpc s 0%nat) 0%nat /\ Sched.on_stack (Sched.cpc s 1%nat) 0%nat.
Proof.
  pose proof (Sched.at_pcs_run0 _ Sched.at_pcs_init) as H.
  apply (Sched.at_pcs_0 _ (Sched.Leave 0) _ _ RUNNING NEG_RUNNABLE) in H;
    [|intros s H1 H2; apply Sched.s_leave; [done|by left]].
  apply Sched.at_pcs_swtch in H; [|by left].
  apply (Sched.at_pcs_0 _ (Sched.Back2 0) _ _ NEG_RUNNABLE RUNNABLE) in H;
    [|intros s H1 H2; by apply Sched.s_back1].
  apply Sched.at_pcs_run1 in H.
  apply (Sched.at_pcs_1 _ _ (Sched.Leave 0) _ RUNNING NEG_SLEEPING) in H;
    [|intros s H1 H2; apply Sched.s_leave; [done|by right; left]].
  apply (Sched.at_pcs_0 _ (Sched.Back3 0) _ _ NEG_SLEEPING SLEEPING) in H;
    [|intros s H1 H2; by apply Sched.s_back2].
  apply (Sched.at_pcs_0 _ (Sched.Back4 0) _ _ NEG_ZOMBIE ZOMBIE) in H;
    [|intros s H1 H2; by apply Sched.s_back3].
  apply Sched.at_pcs_back4, (Sched.at_pcs_remote _ _ _ SLEEPING RUNNABLE) in H; [|constructor|done].
  apply Sched.at_pcs_run0 in H. destruct H as (s & Hr & H0 & H1 & _).
  exists s. unfold Sched.on_stack. by rewrite H0, H1; auto.
Qed.

(** C36: a wakeup can be lost: [sleep] releases the caller's lock before it
    publishes the channel, so the waker can set the condition, scan the table
    and finish in between.  The execution ends with the condition true and the
    sleeper SLEEPING, and neither side can take another step. *)
Theorem lost_wakeup :
  exists s, Sleep.reachable s /\ Sleep.cond s = true /\ Sleep.sstate s = SLEEPING /\
    Sleep.spc s = Sleep.S_asleep /\ Sleep.sleeper_next s = None /\ Sleep.waker_next s = None.
Proof.
  pose proof Sleep.r_init as H.
  do 3 (eapply Sleep.r_sleeper in H; [|reflexivity]).
  do 4 (eapply Sleep.r_waker in H; [|reflexivity]).
  do 4 (eapply Sleep.r_sleeper in H; [|reflexivity]).
  eexists. split; [exact H|]. done.
Qed.

(** C37: on one CPU no wakeup is lost: once the waker is done the sleeper is
    not SLEEPING, and from every reachable state the sleeper can still go on to
    see the condition and finish. *)
Theorem no_lost_wakeup_one_cpu s :
  Sleep.uni_reachable s ->
  (Sleep.wpc s = Sleep.W_done -> Sleep.sstate s <> SLEEPING) /\
  exists s', Sleep.uni_steps s s' /\ Sleep.spc s' = Sleep.S_done.
Proof.
  intros Hs. pose proof (Sleep.uni_check _ Sleep.uni_good_all s Hs) as H.
  apply andb_true_iff in H as [H1 H2]. split; [|by apply Sleep.can_finish_sound].
  apply orb_true_iff in H1. rewrite !bool_decide_eq_true in H1. naive_solver.
Qed.

Lemma no_lost_wakeup_one_cpu_witness :
  exists s', Sleep.uni_steps (Sleep.Sys Sleep.Sleeper false false RUNNING Sleep.S_test Sleep.W_acquire) s' /\
    Sleep.spc s' = Sleep.S_done.
Proof.
  apply (no_lost_wakeup_one_cpu
    (Sleep.Sys Sleep.Sleeper false false RUNNING Sleep.S_test Sleep.W_acquire)).
  eapply (Sleep.u_step Sleep.init); [apply Sleep.u_init|]. simpl. left.
Defined.

(** [allocpid] never issues a pid twice, however the calls of different
    CPUs interleave, although each attempt reads [nextpid] three times: the pids
    issued so far are exactly 2, 3, ..., in that order (until the 32-bit counter
    wraps). *)
Theorem allocpid_unique s :
  Pid.reachable s -> Z.of_nat (length (Pid.issued s)) < 2147483646 ->
  Pid.issued s = rev (seqZ 2 (Z.of_nat (length (Pid.issued s)))) /\ NoDup (Pid.issued s).
Proof.
  intros Hr Hb. destruct (Pid.reachable_inv s Hr Hb) as [_ Hi _]. split; [done|].
  rewrite Hi, <- Permutation_rev. apply NoDup_seqZ.
Qed.

Lemma allocpid_unique_witness :
  NoDup (Pid.issued (Pid.Sys 1 [] (fset (fun _ => Pid.P_start) 5%nat (Pid.P_old 1)))).
Proof.
  apply allocpid_unique.
  - eapply (Pid.r_step 5%nat); [apply Pid.r_init|].
    exact (Pid.p_old 5%nat (Pid.Sys 1 [] (fun _ => Pid.P_start)) eq_refl).
  - simpl. lia.
Defined.
