(* ===== verification/Signal.v ===== *)
(** Signals (src/proc.c): sending ([kill]), the mask and the handler table
    ([sigprocmask], [sigaction]), what a process does with its pending signals
    on the way back to user mode ([signalsHandler], called from [trapret] in
    src/trapasm.S), and the return from a handler ([sigret]).

    The state is the process table with the memory of the current process's
    address space.  A user pointer that the kernel follows is checked against
    the mapped part of that address space: an access outside it faults, which
    [trap] turns into a panic.  The direct map of physical memory above
    KERNBASE is mapped too, so a user pointer may also reach kernel memory;
    accesses to memory-mapped devices are not modelled (they fault here).

    While a stopped process yields, other processes may send it signals: the
    argument [arrivals] of [signalsHandler] lists the bits that are added during
    each turn, and a process still stopped at its end waits. *)

From S2P Require Import Prelude StringC Spinlock Kalloc Ptable.

(* ------------------------------------------------------------------ *)
(** * State *)

Record ust := Ust { pt : pst; um : memory }.
Definition set_pt v s := Ust v (um s).
Definition set_um v s := Ust (pt s) v.
Definition pt_of : lens ust pst := Lens pt set_pt.

#[export] Instance pt_of_laws : LensLaws pt_of.
Proof. split; intros; by destruct s. Qed.

(** The bytes from [a] to [a + n] are in the user part, or in the kernel part,
    of the current address space. *)
Definition user_mapped (x : proc) (a n : Z) : bool := a + n <=? PGROUNDUP (p_sz x).
Definition kernel_mapped (a n : Z) : bool := (KERNBASE <=? a) && (a + n <=? KERNBASE + PHYSTOP).

(** Loads and stores through a pointer of the current process [p]. *)
Definition as_load32 (p : nat) (a : Z) : M ust Z :=
  s <- get ;;
  if user_mapped (proc_at (pt s) p) a 4 then ret (load32 (um s) a)
  else if kernel_mapped a 4 then ret (load32 (k_mem (km (pt s))) a)
  else panic "trap".

Definition as_modify (p : nat) (a n : Z) (f : memory -> memory) : M ust unit :=
  s <- get ;;
  if user_mapped (proc_at (pt s) p) a n then modify (set_um (f (um s)))
  else if kernel_mapped a n
  then zoom pt_of (zoom km_of (modify (fun k => set_mem (f (k_mem k)) k)))
  else panic "trap".

Definition as_store32 (p : nat) (a v : Z) : M ust unit :=
  as_modify p a 4 (fun m => store32 m a v).

Fixpoint put_bytes (m : memory) (a : Z) (l : list Z) : memory :=
  match l with [] => m | b :: l' => put_bytes (upd m a b) (a + 1) l' end.

(** Fields of the current process. *)
Definition pget {A} (p : nat) (f : proc -> A) : M ust A := zoom pt_of (getp p f).
Definition pset (p : nat) (f : proc -> proc) : M ust unit := zoom pt_of (setp p f).

(* ------------------------------------------------------------------ *)
(** * Sending and configuring *)

(** [1 << i]; the x86 shift takes its count modulo 32. *)
Definition sigbit (i : Z) : Z := Z.shiftl 1 (i mod 32).
Definition has_sig (m i : Z) : bool := truth (Z.land m (sigbit i)).
Definition clear_sig (m i : Z) : Z := Z.land m (Z.lnot (sigbit i)).

(* src/proc.c:581-597 kill *)
Definition kill (pid signum : Z) : M pst Z :=
  if 32 <? signum then ret (-1)
  else
    r <- for_find (seq 0 NPROC) (fun p =>
           q <- getp p p_pid ;;
           if q =? pid
           then setp p (fun x => set_pending (Z.lor (p_pending x) (sigbit signum)) x) ;; ret (Some 0)
           else ret None) ;;
    ret (default (-1) r).

(* src/proc.c:664-669 sigprocmask *)
Definition sigprocmask (sigmask : Z) : M pst Z :=
  p <- curproc ;;
  old_mask <- getp p p_mask ;;
  setp p (set_mask (u32 sigmask)) ;;
  ret old_mask.

(** [signal_handlers[i]]; an index outside the array is undefined behaviour. *)
Definition handler_at (p : nat) (i : Z) : M ust Z :=
  hs <- pget p p_handlers ;;
  if (0 <=? i) && (i <? 32) then ret (nth (Z.to_nat i) hs 0)
  else panic "signal_handlers: index out of bounds".

(* src/proc.c:671-688 sigaction *)
Definition sigaction (signum act oldact : Z) : M ust Z :=
  if (signum =? SIGKILL) || (signum =? SIGSTOP) then ret (-1)
  else
    p <- zoom pt_of curproc ;;
    h <- handler_at p signum ;;
    (if negb (oldact =? 0)
     then
       sa_handler <- as_load32 p h ;;
       sigmask <- as_load32 p (h + 4) ;;
       as_store32 p oldact sa_handler ;;
       as_store32 p (oldact + 4) sigmask
     else ret tt) ;;
    pset p (fun x => set_handlers (<[Z.to_nat signum := act]> (p_handlers x)) x) ;;
    ret 0.

(* ------------------------------------------------------------------ *)
(** * Handling pending signals *)

(* src/proc.c:690-697 is_sigact *)
Definition is_sigact (a : Z) : bool :=
  negb ((a =? 0) || (a =? 1) || (a =? 9) || (a =? 17) || (a =? 19)).

(** [is_sigact(h) && ((struct sigaction * ) h)->sa_handler == v] *)
Definition sa_handler_is (p : nat) (h v : Z) : M ust bool :=
  if is_sigact h then sa <- as_load32 p h ;; ret (sa =? v) else ret false.

(** C's [||] with effects. *)
Definition or_else {St} (a b : M St bool) : M St bool := r <- a ;; if r : bool then ret true else b.

(** The three tests of the first loop's body, for signal [i] with handler [h]:
    does it kill, stop or continue the process? *)

(* src/proc.c:719-735 signalsHandler *)
Definition sig_kills (p : nat) (i h : Z) : M ust bool :=
  if i =? SIGKILL then ret true
  else if ((h =? SIGKILL) || (h =? SIG_DFL)) && (negb (i =? SIGCONT) && negb (i =? SIGSTOP))
  then ret true
  else or_else (sa_handler_is p h SIGKILL) (sa_handler_is p h SIG_DFL).

(* src/proc.c:738-748 signalsHandler *)
Definition sig_stops (p : nat) (i h : Z) : M ust bool :=
  if i =? SIGSTOP then ret true
  else if h =? SIGSTOP then ret true
  else sa_handler_is p h SIGSTOP.

(* src/proc.c:750-760 signalsHandler *)
Definition sig_conts (p : nat) (i h : Z) : M ust bool :=
  if i =? SIGCONT then ret true
  else if h =? SIGCONT then ret true
  else sa_handler_is p h SIGCONT.

Record flags := Flags { is_killed : bool; is_stopped : bool; is_cont : bool }.

Definition clear_pending (p : nat) (i : Z) : M ust unit :=
  pset p (fun x => set_pending (clear_sig (p_pending x) i) x).

(** The signals the mask cannot block. *)
Definition unblockable (i : Z) : bool := (i =? SIGKILL) || (i =? SIGSTOP) || (i =? SIGCONT).

(* src/proc.c:715-763 signalsHandler *)
Fixpoint scan_signals (p : nat) (l : list Z) (fl : flags) : M ust flags :=
  match l with
  | [] => ret fl
  | i :: l' =>
      pending <- pget p p_pending ;;
      mask <- pget p p_mask ;;
      if has_sig pending i && (negb (has_sig mask i) || unblockable i) then
        h <- handler_at p i ;;
        k <- sig_kills p i h ;;
        if k : bool then ret (Flags true false (is_cont fl))
        else
          st <- sig_stops p i h ;;
          when st (clear_pending p i) ;;
          ct <- sig_conts p i h ;;
          when ct (clear_pending p i) ;;
          scan_signals p l' (Flags (is_killed fl) (st || is_stopped fl) (ct || is_cont fl))
      else scan_signals p l' fl
  end.

(** [kill_handler] up to its call of [exit()], which does not return. *)

(* src/proc.c:599-613 kill_handler *)
Definition kill_handler : M ust unit :=
  zoom pt_of (zoom mach_of pushcli) ;;
  p <- zoom pt_of curproc ;;
  pset p (set_killed true) ;;
  p <- zoom pt_of curproc ;;
  zoom pt_of (cas_ p SLEEPING RUNNABLE) ;;
  zoom pt_of (zoom mach_of popcli).

(** [yield()] together with the turn of the scheduler that runs the process
    again: [arrived] are the signals other processes send it meanwhile. *)

(* src/proc.c:450-460 yield *)
Definition yield_turn (kpgdir : Z) (p : nat) (arrived : Z) : M pst unit := fun s =>
  match yield s with
  | Wait s1 =>
      (saved <- zoom mach_of (mycpu_get intena) ;;
       sched_back kpgdir p ;;
       setp p (fun x => set_pending (Z.lor (p_pending x) arrived) x) ;;
       b <- sched_try p ;;
       if b : bool then yield_resume (default false saved) else wait) s1
  | r => r
  end.

(** How [signalsHandler] ends: it returns, or it calls [exit()]. *)
Inductive sig_outcome := Returns | Exits.

(** The do-while loop: [true] when the process is to exit.  Each turn in which
    the process stays stopped uses one element of [arrivals]. *)

(* src/proc.c:707-785 signalsHandler *)
Fixpoint stop_loop (kpgdir : Z) (p : nat) (stopped : bool) (arrivals : list Z) : M ust sig_outcome :=
  fl <- scan_signals p (range 0 32) (Flags false stopped false) ;;
  if is_killed fl then kill_handler ;; ret Exits
  else if is_stopped fl then
    match arrivals with
    | [] => wait
    | a :: arrivals' =>
        zoom pt_of (yield_turn kpgdir p a) ;;
        if is_cont fl then ret Returns
        else stop_loop kpgdir p true arrivals'
    end
  else ret Returns.

(** The code between the labels [call_sigret] and [call_sigret_end]:
    [movl $24,%eax; int $64; ret]. *)

(* src/trapasm.S:37-43 call_sigret *)
Definition call_sigret : list Z := [184; 24; 0; 0; 0; 205; 64; 195].

Definition set_esp v t := Trapframe (tf_edi t) (tf_esi t) (tf_ebp t) (tf_oesp t) (tf_ebx t) (tf_edx t) (tf_ecx t) (tf_eax t) (tf_gs t) (tf_fs t) (tf_es t) (tf_ds t) (tf_trapno t) (tf_err t) (tf_eip t) (tf_cs t) (tf_eflags t) v (tf_ss t).
Definition set_eip v t := Trapframe (tf_edi t) (tf_esi t) (tf_ebp t) (tf_oesp t) (tf_ebx t) (tf_edx t) (tf_ecx t) (tf_eax t) (tf_gs t) (tf_fs t) (tf_es t) (tf_ds t) (tf_trapno t) (tf_err t) v (tf_cs t) (tf_eflags t) (tf_esp t) (tf_ss t).
Definition set_eax v t := Trapframe (tf_edi t) (tf_esi t) (tf_ebp t) (tf_oesp t) (tf_ebx t) (tf_edx t) (tf_ecx t) v (tf_gs t) (tf_fs t) (tf_es t) (tf_ds t) (tf_trapno t) (tf_err t) (tf_eip t) (tf_cs t) (tf_eflags t) (tf_esp t) (tf_ss t).

Definition tf_set (p : nat) (f : trapframe -> trapframe) : M ust unit :=
  pset p (fun x => set_tf (f (p_tf x)) x).

(** Delivery of signal [i]: back up the trap frame and the mask, and make the
    process enter the handler with a frame that returns to [call_sigret]. *)

(* src/proc.c:803-834 signalsHandler *)
Definition deliver (p : nat) (i : Z) : M ust unit :=
  clear_pending p i ;;
  h <- handler_at p i ;;
  func <- as_load32 p h ;;
  pset p (fun x => set_backup (p_tf x) x) ;;
  pset p (fun x => set_mask_backup (p_mask x) x) ;;
  (if is_sigact h
   then sigmask <- as_load32 p (h + 4) ;; pset p (set_mask sigmask)
   else ret tt) ;;
  let code_length := Z.of_nat (length call_sigret) in
  tf_set p (fun t => set_esp (u32 (tf_esp t - (code_length + code_length mod 8))) t) ;;
  call_sigret_add <- pget p (fun x => tf_esp (p_tf x)) ;;
  as_modify p call_sigret_add code_length (fun m => put_bytes m call_sigret_add call_sigret) ;;
  tf_set p (fun t => set_esp (u32 (tf_esp t - 4)) t) ;;
  esp <- pget p (fun x => tf_esp (p_tf x)) ;;
  as_store32 p esp i ;;
  tf_set p (fun t => set_esp (u32 (tf_esp t - 4)) t) ;;
  esp <- pget p (fun x => tf_esp (p_tf x)) ;;
  as_store32 p esp call_sigret_add ;;
  tf_set p (set_eip func).

(** The second loop: deliver the first pending signal that is not ignored;
    discard the ignored ones before it. *)

(* src/proc.c:787-838 signalsHandler *)
Fixpoint dispatch (p : nat) (l : list Z) : M ust unit :=
  match l with
  | [] => ret tt
  | i :: l' =>
      pending <- pget p p_pending ;;
      mask <- pget p p_mask ;;
      h <- handler_at p i ;;
      is_ignored <- (if has_sig mask i then ret true
                     else if h =? SIG_IGN then ret true
                     else sa <- as_load32 p h ;; ret (sa =? SIG_IGN)) ;;
      if has_sig pending i
      then if is_ignored : bool
           then clear_pending p i ;; dispatch p l'
           else deliver p i
      else dispatch p l'
  end.

(** [cs] is the code segment of the trap frame the handler is called with. *)

(* src/proc.c:700-843 signalsHandler *)
Definition signalsHandler (kpgdir : Z) (arrivals : list Z) (cs : Z) : M ust sig_outcome :=
  if negb (Z.land cs 3 =? 3) then ret Returns
  else
    r <- zoom pt_of (zoom mach_of myproc) ;;
    match r with
    | None => ret Returns
    | Some p =>
        o <- stop_loop kpgdir p false arrivals ;;
        match o with
        | Exits => ret Exits
        | Returns => dispatch p (range 0 32) ;; ret Returns
        end
    end.

(* src/proc.c:845-859 sigret *)
Definition sigret : M pst unit :=
  p <- curproc ;;
  setp p (fun x => set_tf (p_backup x) x) ;;
  setp p (fun x => set_mask (p_mask_backup x) x).

(** Sleeping until SIGCONT is no longer pending; no caller in the kernel. *)

(* src/proc.c:615-626 stop_handler *)
Fixpoint stop_handler (kpgdir : Z) (p : nat) (arrivals : list Z) : M pst unit :=
  pending <- getp p p_pending ;;
  if negb (has_sig pending SIGCONT) then ret tt
  else match arrivals with
       | [] => wait
       | a :: arrivals' => yield_turn kpgdir p a ;; stop_handler kpgdir p arrivals'
       end.

(* ------------------------------------------------------------------ *)
(** * Signal sets *)

Lemma has_sig_testbit m i : 0 <= i < 32 -> has_sig m i = Z.testbit m i.
Proof.
  intros Hi. unfold has_sig, sigbit, truth. rewrite Z.mod_small by lia.
  rewrite Z.shiftl_1_l. destruct (Z.testbit m i) eqn:E.
  - destruct (Z.eqb_spec (Z.land m (2 ^ i)) 0) as [H|H]; [|done].
    apply (f_equal (fun z => Z.testbit z i)) in H.
    rewrite Z.land_spec, Z.pow2_bits_true, Z.bits_0, E in H by lia. done.
  - destruct (Z.eqb_spec (Z.land m (2 ^ i)) 0) as [H|H]; [done|]. exfalso. apply H.
    apply Z.bits_inj_0. intros j. rewrite Z.land_spec, Z.pow2_bits_eqb by lia.
    destruct (Z.eqb_spec i j); [subst; by rewrite E|by rewrite andb_false_r].
Qed.

Lemma sigbit_spec i j : 0 <= i < 32 -> 0 <= j -> Z.testbit (sigbit i) j = (i =? j).
Proof.
  intros Hi Hj. unfold sigbit. rewrite Z.mod_small, Z.shiftl_1_l by lia. apply Z.pow2_bits_eqb. lia.
Qed.

Lemma has_clear m i j :
  0 <= i < 32 -> 0 <= j < 32 -> has_sig (clear_sig m i) j = has_sig m j && negb (i =? j).
Proof.
  intros Hi Hj. rewrite !has_sig_testbit by done. unfold clear_sig.
  rewrite Z.land_spec, Z.lnot_spec by lia. by rewrite sigbit_spec by lia.
Qed.

Lemma has_lor m n j : 0 <= j < 32 -> has_sig (Z.lor m n) j = has_sig m j || has_sig n j.
Proof. intros Hj. rewrite !has_sig_testbit by done. apply Z.lor_spec. Qed.

Lemma has_sigbit i j : 0 <= i < 32 -> 0 <= j < 32 -> has_sig (sigbit i) j = (i =? j).
Proof. intros Hi Hj. rewrite has_sig_testbit by done. apply sigbit_spec; lia. Qed.

(* ------------------------------------------------------------------ *)
(** * Running on the current process's slot *)

Definition uput (p : nat) (x : proc) (s : ust) : ust := set_pt (putp p x (pt s)) s.

Section slot.
Context (p : nat) (s : ust).
Context (Hp : (p < length (procs (pt s)))%nat).

Lemma pget_ok {A} (f : proc -> A) x : pget p f (uput p x s) = Ok (f x) (uput p x s).
Proof.
  unfold pget, zoom, getp, gets. simpl.
  rewrite (proc_at_lookup (putp p x (pt s)) p x) by (by apply putp_lookup). done.
Qed.

Lemma bind_pget {A B} (f : proc -> A) x (k : A -> M ust B) :
  bind (pget p f) k (uput p x s) = k (f x) (uput p x s).
Proof. by rewrite (bind_ok _ _ _ _ _ (pget_ok f x)). Qed.

Lemma pset_ok f x : pset p f (uput p x s) = Ok tt (uput p (f x) s).
Proof.
  unfold pset, zoom. change (view pt_of (uput p x s)) with (putp p x (pt s)).
  rewrite (setp_ok (putp p x (pt s)) p f x) by (by apply putp_lookup).
  cbn [over pt_of]. unfold uput at 2. rewrite <- (putp_putp p x (f x) (pt s)). done.
Qed.

Lemma bind_pset {A} f x (k : M ust A) :
  (pset p f ;; k) (uput p x s) = k (uput p (f x) s).
Proof. by rewrite (bind_ok _ _ _ _ _ (pset_ok f x)). Qed.

Lemma as_load32_ok x a :
  user_mapped x a 4 = true -> as_load32 p a (uput p x s) = Ok (load32 (um s) a) (uput p x s).
Proof.
  intros Ha. unfold as_load32. mred.
  rewrite (proc_at_lookup (putp p x (pt s)) p x) by (by apply putp_lookup). by rewrite Ha.
Qed.

Lemma handler_at_ok x i h :
  0 <= i < 32 -> p_handlers x !! Z.to_nat i = Some h ->
  handler_at p i (uput p x s) = Ok h (uput p x s).
Proof.
  intros Hi Hh. unfold handler_at. rewrite bind_pget.
  destruct (Z.leb_spec 0 i), (Z.ltb_spec i 32); try lia. simpl.
  unfold ret. by rewrite (nth_lookup_Some _ _ _ _ Hh).
Qed.
End slot.

Lemma uput_um p x s : um (uput p x s) = um s.
Proof. done. Qed.

(* ------------------------------------------------------------------ *)
(** * What a pending signal does *)

(** The handler table as [sigaction] keeps it: 32 entries, each a small constant
    or the address of a [struct sigaction] in the mapped user memory. *)
Record handlers_ok (x : proc) : Prop := {
  ho_length : length (p_handlers x) = 32%nat;
  ho_mapped : forall h, h ∈ p_handlers x -> user_mapped x h 8 = true;
}.

(** The disposition of signal [i], from the handler table and the memory. *)
Definition handler_of (x : proc) (i : Z) : Z := nth (Z.to_nat i) (p_handlers x) 0.
Definition action_is (u : memory) (h v : Z) : bool := is_sigact h && (load32 u h =? v).

Definition kills (u : memory) (x : proc) (i : Z) : bool :=
  let h := handler_of x i in
  (i =? SIGKILL)
  || ((h =? SIGKILL) || (h =? SIG_DFL)) && (negb (i =? SIGCONT) && negb (i =? SIGSTOP))
  || (action_is u h SIGKILL || action_is u h SIG_DFL).
Definition stops (u : memory) (x : proc) (i : Z) : bool :=
  let h := handler_of x i in (i =? SIGSTOP) || (h =? SIGSTOP) || action_is u h SIGSTOP.
Definition conts (u : memory) (x : proc) (i : Z) : bool :=
  let h := handler_of x i in (i =? SIGCONT) || (h =? SIGCONT) || action_is u h SIGCONT.

(** Pending, and not blocked by the mask. *)
Definition active (x : proc) (i : Z) : bool :=
  has_sig (p_pending x) i && (negb (has_sig (p_mask x) i) || unblockable i).

Lemma handler_lookup x i :
  handlers_ok x -> 0 <= i < 32 -> p_handlers x !! Z.to_nat i = Some (handler_of x i).
Proof.
  intros [Hl _] Hi. unfold handler_of.
  destruct (p_handlers x !! Z.to_nat i) as [h|] eqn:E.
  - by rewrite (nth_lookup_Some _ _ _ _ E).
  - apply lookup_ge_None in E. lia.
Qed.

Lemma handler_mapped x i :
  handlers_ok x -> 0 <= i < 32 -> user_mapped x (handler_of x i) 8 = true.
Proof.
  intros Ho Hi. apply (ho_mapped x Ho), list_elem_of_lookup. eexists. by apply handler_lookup.
Qed.

Lemma mapped_shorter x a n k : k <= n -> user_mapped x a n = true -> user_mapped x a k = true.
Proof. unfold user_mapped. intros ?. rewrite !Z.leb_le. lia. Qed.

Lemma bind_or_else {St A} (a b : M St bool) ra rb s (k : bool -> M St A) :
  a s = Ok ra s -> b s = Ok rb s -> bind (or_else a b) k s = k (ra || rb) s.
Proof.
  intros Ha Hb. unfold or_else. rewrite bind_assoc, (bind_ok _ _ _ _ _ Ha).
  destruct ra; [done|]. by rewrite (bind_ok _ _ _ _ _ Hb).
Qed.

Lemma clear_clear m i : clear_sig (clear_sig m i) i = clear_sig m i.
Proof. unfold clear_sig. by rewrite <- Z.land_assoc, Z.land_diag. Qed.

(** The pending signals that remain after the first loop has run over [l]. *)
Definition settle (u : memory) (x : proc) (l : list Z) (m : Z) : Z :=
  fold_left (fun m i => if active x i && (stops u x i || conts u x i) then clear_sig m i else m) l m.

Lemma settle_has u x l : forall m j,
  Forall (fun i => 0 <= i < 32) l -> 0 <= j < 32 ->
  has_sig (settle u x l m) j =
  has_sig m j && negb (existsb (fun i => (i =? j) && (active x i && (stops u x i || conts u x i))) l).
Proof.
  induction l as [|i l IH]; intros m j Hl Hj; simpl; [by rewrite andb_true_r|].
  apply Forall_cons in Hl as [Hi Hl]. rewrite IH by done.
  destruct (active x i && (stops u x i || conts u x i)) eqn:E; simpl.
  - rewrite has_clear by done. rewrite andb_true_r, negb_orb. by rewrite andb_assoc.
  - by rewrite andb_false_r.
Qed.

Lemma settle_ext u x x' l m :
  (forall i, i ∈ l -> active x' i = active x i) -> p_handlers x' = p_handlers x ->
  settle u x' l m = settle u x l m.
Proof.
  intros Ha Hh. unfold settle, stops, conts, handler_of. rewrite Hh.
  revert m Ha. induction l as [|i l IH]; intros m Ha; [done|]. cbn [fold_left].
  rewrite (Ha i) by left. apply IH. intros j Hj. apply Ha. by right.
Qed.

Lemma existsb_ext_in {A} (f g : A -> bool) l :
  (forall i, i ∈ l -> f i = g i) -> existsb f l = existsb g l.
Proof.
  induction l as [|i l IH]; intros H; [done|]. simpl. rewrite (H i) by left.
  f_equal. apply IH. intros j Hj. apply H. by right.
Qed.

Section scan.
Context (p : nat) (s : ust) (Hp : (p < length (procs (pt s)))%nat).
Local Notation u := (um s).

Lemma sa_handler_is_ok x h v :
  user_mapped x h 8 = true ->
  sa_handler_is p h v (uput p x s) = Ok (action_is u h v) (uput p x s).
Proof.
  intros Hm. unfold sa_handler_is, action_is. destruct (is_sigact h); [|done].
  rewrite (bind_ok _ _ _ _ _ (as_load32_ok p s Hp x h (mapped_shorter x h 8 4 ltac:(lia) Hm))). done.
Qed.

Lemma sig_kills_ok x i :
  handlers_ok x -> 0 <= i < 32 ->
  sig_kills p i (handler_of x i) (uput p x s) = Ok (kills u x i) (uput p x s).
Proof.
  intros Ho Hi. pose proof (handler_mapped x i Ho Hi) as Hm. unfold sig_kills, kills.
  destruct (i =? SIGKILL); [done|]. simpl.
  destruct (((handler_of x i =? SIGKILL) || (handler_of x i =? SIG_DFL))
    && (negb (i =? SIGCONT) && negb (i =? SIGSTOP))); [done|]. simpl.
  unfold or_else. rewrite (bind_ok _ _ _ _ _ (sa_handler_is_ok x _ SIGKILL Hm)).
  destruct (action_is u (handler_of x i) SIGKILL); [done|]. simpl. by apply sa_handler_is_ok.
Qed.

Lemma sig_stops_ok x i :
  handlers_ok x -> 0 <= i < 32 ->
  sig_stops p i (handler_of x i) (uput p x s) = Ok (stops u x i) (uput p x s).
Proof.
  intros Ho Hi. unfold sig_stops, stops. destruct (i =? SIGSTOP); [done|].
  destruct (handler_of x i =? SIGSTOP); [done|]. by apply sa_handler_is_ok, handler_mapped.
Qed.

(** The handler is read once; a cleared pending bit does not change it. *)
Lemma sig_conts_ok x y i :
  handlers_ok x -> 0 <= i < 32 -> p_sz y = p_sz x ->
  sig_conts p i (handler_of x i) (uput p y s) = Ok (conts u x i) (uput p y s).
Proof.
  intros Ho Hi Hz. unfold sig_conts, conts. destruct (i =? SIGCONT); [done|].
  destruct (handler_of x i =? SIGCONT); [done|]. apply sa_handler_is_ok.
  pose proof (handler_mapped x i Ho Hi) as Hm. unfold user_mapped in *. by rewrite Hz.
Qed.

Lemma when_clear {A} x i (b : bool) (k : M ust A) :
  (when b (clear_pending p i) ;; k) (uput p x s) =
  k (uput p (if b then set_pending (clear_sig (p_pending x) i) x else x) s).
Proof. destruct b; [|done]. unfold when, clear_pending. by rewrite bind_pset. Qed.

Definition cleared (x : proc) (i : Z) : proc := set_pending (clear_sig (p_pending x) i) x.

Lemma scan_step x i l fl :
  handlers_ok x -> 0 <= i < 32 ->
  scan_signals p (i :: l) fl (uput p x s) =
  if active x i then
    if kills u x i then Ok (Flags true false (is_cont fl)) (uput p x s)
    else scan_signals p l (Flags (is_killed fl) (stops u x i || is_stopped fl) (conts u x i || is_cont fl))
           (uput p (if stops u x i || conts u x i then cleared x i else x) s)
  else scan_signals p l fl (uput p x s).
Proof.
  intros Ho Hi. cbn [scan_signals]. rewrite !bind_pget by done.
  change (has_sig (p_pending x) i && (negb (has_sig (p_mask x) i) || unblockable i)) with (active x i).
  destruct (active x i); [|done].
  rewrite (bind_ok _ _ _ _ _ (handler_at_ok p s Hp x i _ Hi (handler_lookup x i Ho Hi))).
  rewrite (bind_ok _ _ _ _ _ (sig_kills_ok x i Ho Hi)). destruct (kills u x i); [done|].
  rewrite (bind_ok _ _ _ _ _ (sig_stops_ok x i Ho Hi)), when_clear.
  erewrite bind_ok by (apply sig_conts_ok; [done..|by destruct (stops u x i)]). rewrite when_clear.
  do 2 f_equal. unfold cleared. destruct (stops u x i), (conts u x i); simpl; try done.
  by rewrite clear_clear.
Qed.

Lemma active_cleared x i j :
  0 <= i < 32 -> 0 <= j < 32 -> i <> j -> active (cleared x i) j = active x j.
Proof.
  intros Hi Hj Hne. unfold active, cleared. simpl. rewrite has_clear by done.
  destruct (Z.eqb_spec i j); [done|]. by rewrite andb_true_r.
Qed.

Lemma handlers_ok_pending x m : handlers_ok x -> handlers_ok (set_pending m x).
Proof. intros [H1 H2]. by split. Qed.

(** The first loop: killed if some unblocked pending signal kills; otherwise
    the flags say whether one stops or continues the process, and these are no
    longer pending. *)
Lemma scan_ok l : forall x fl,
  NoDup l -> Forall (fun i => 0 <= i < 32) l -> handlers_ok x ->
  if existsb (fun i => active x i && kills u x i) l
  then exists c m, scan_signals p l fl (uput p x s) = Ok (Flags true false c) (uput p (set_pending m x) s)
  else scan_signals p l fl (uput p x s) =
       Ok (Flags (is_killed fl) (existsb (fun i => active x i && stops u x i) l || is_stopped fl)
             (existsb (fun i => active x i && conts u x i) l || is_cont fl))
          (uput p (set_pending (settle u x l (p_pending x)) x) s).
Proof.
  induction l as [|i l IH]; intros x fl Hnd Hl Ho.
  { simpl. destruct fl, x. done. }
  apply NoDup_cons in Hnd as [Hnin Hnd]. apply Forall_cons in Hl as [Hi Hl].
  rewrite scan_step by done. cbn [existsb settle fold_left].
  destruct (active x i) eqn:Ea; [|exact (IH x fl Hnd Hl Ho)].
  destruct (kills u x i) eqn:Ek.
  { simpl. exists (is_cont fl), (p_pending x). by destruct x. }
  cbn [andb orb].
  set (fl' := Flags _ _ _). set (x' := if stops u x i || conts u x i then cleared x i else x).
  assert (Hact : forall j, j ∈ l -> active x' j = active x j).
  { intros j Hj. subst x'. destruct (stops u x i || conts u x i); [|done].
    rewrite Forall_forall in Hl. apply active_cleared; [done|by apply Hl|by intros ->]. }
  assert (Hh : p_handlers x' = p_handlers x) by (subst x'; by destruct (stops u x i || conts u x i)).
  assert (Hfun : forall f : memory -> proc -> Z -> bool,
    (forall y, p_handlers y = p_handlers x -> f u y = f u x) ->
    existsb (fun j => active x' j && f u x' j) l = existsb (fun j => active x j && f u x j) l).
  { intros f Hf. apply existsb_ext_in. intros j Hj. by rewrite Hact, Hf. }
  assert (Ho' : handlers_ok x') by (subst x'; destruct (stops u x i || conts u x i); [by apply handlers_ok_pending|done]).
  specialize (IH x' fl' Hnd Hl Ho').
  rewrite !Hfun in IH by (intros y Hy; unfold kills, stops, conts, handler_of; by rewrite Hy).
  rewrite (settle_ext u x x') in IH by done.
  assert (Hset : forall m, set_pending m x' = set_pending m x) by (intros m; subst x'; by destruct (stops u x i || conts u x i)).
  destruct (existsb (fun j => active x j && kills u x j) l).
  - destruct IH as (c & m & ->). exists c, m. by rewrite Hset.
  - rewrite IH, Hset. subst fl'. simpl. f_equal.
    + f_equal; by rewrite orb_assoc, (orb_comm (existsb _ l)).
    + do 2 f_equal. unfold settle. subst x'. f_equal. by destruct (stops u x i || conts u x i).
Qed.
End scan.

(* ------------------------------------------------------------------ *)
(** * Yielding and being killed *)

(** The current process [p] runs in the kernel with contents [x], with no
    interrupt disabling in progress. *)
Record in_kernel (s : pst) (i : nat) (c : cpu) (p : nat) (x : proc) : Prop := {
  ik_cpu : cpu_ok (mach s) i c;
  ik_ncli : ncli c = 0;
  ik_proc : cproc c = Some p;
  ik_slot : (p < length (procs s))%nat;
  ik_state : p_state x = RUNNING;
  ik_kstack : p_kstack x <> 0;
  ik_pgdir : p_pgdir x <> 0;
}.

Definition add_pending (a : Z) (x : proc) : proc := set_pending (Z.lor (p_pending x) a) x.

Lemma yield_turn_ok kpgdir s i c p x a :
  in_kernel s i c p x -> exists k cr e,
  yield_turn kpgdir p a (putp p x s) = Ok tt (putp p (add_pending a x) (set_mmu cr e (set_mach k s))) /\
  same_cpu (mach s) k i c.
Proof.
  intros [Hc Hn Hcp Hp Hx Hk Hg].
  destruct (yield_leaves s i c p x Hc Hn Hcp Hp Hx) as (k1 & Hr1 & Hf1 & H1).
  unfold yield_turn. rewrite H1.
  rewrite (bind_ok _ _ _ _ _ (z_get (putp p (set_state NEG_RUNNABLE x) (set_mach k1 s)) i _ Hr1 Hf1 intena)).
  destruct (sched_back_ok (set_mach k1 s) i _ p Hr1 Hf1 Hp kpgdir (set_state NEG_RUNNABLE x) eq_refl)
    as (k2 & Hr2 & Hf2 & H2).
  rewrite (bind_ok _ _ _ _ _ H2), bind_setp by done.
  set (s2 := set_mmu _ _ (set_mach k2 _)). set (x2 := set_pending _ _).
  destruct (sched_try_runs s2 i _ p Hr2 Hf2 Hp x2) as (k3 & Hr3 & Hf3 & H3);
    [simpl; lia|done|done|done|].
  rewrite (bind_ok _ _ _ _ _ H3). set (s3 := putp _ _ _).
  destruct (yield_resumes s3 i _ p Hr3 Hf3 ltac:(simpl; lia) eq_refl (intena (pushed c (iflag (mach s)))))
    as (k4 & H4 & Hr4 & Hf4).
  assert (Hx3 : set_state RUNNING x2 = add_pending a x) by (destruct x; simpl in Hx; by subst).
  exists k4. do 2 eexists. split.
  - etrans; [exact H4|]. subst s3 s2. rewrite Hx3. done.
  - destruct Hc as (Hr & _). eexists. split.
    + split; [exact Hr4|]. simpl. split; [lia|by left].
    + simpl. rewrite Hf4. unfold pushed. rewrite Hn. simpl. done.
Qed.

Lemma kill_handler_ok s i c p x :
  in_kernel (pt s) i c p x -> exists k,
  kill_handler (uput p x s) = Ok tt (uput p (set_killed true x) (set_pt (set_mach k (pt s)) s)).
Proof.
  intros [(Hr & Hc) Hn Hcp Hp Hx _ _].
  destruct (z_push (putp p x (pt s)) i c Hr) as (k1 & H1 & Hr1 & Hf1).
  destruct (z_pop (putp p (set_killed true x) (set_mach k1 (pt s))) i _ Hr1 Hf1) as (k2 & H2 & _);
    [simpl; lia|].
  exists k2. unfold kill_handler. erewrite bind_ok by (apply (zoom_ok pt_of); exact H1).
  change (over pt_of _ (uput p x s)) with (uput p x (set_pt (set_mach k1 (pt s)) s)).
  set (s1 := set_pt (set_mach k1 (pt s)) s).
  assert (Hcur : forall y, zoom pt_of curproc (uput p y s1) = Ok p (uput p y s1)).
  { intros y. unfold zoom. simpl view.
    rewrite (curproc_nested (putp p y (set_mach k1 (pt s))) i _ p Hr1 Hf1 ltac:(simpl; lia) Hcp). done. }
  rewrite (bind_ok _ _ _ _ _ (Hcur x)), bind_pset by done.
  rewrite (bind_ok _ _ _ _ _ (Hcur _)).
  assert (Hcas : zoom pt_of (cas_ p SLEEPING RUNNABLE) (uput p (set_killed true x) s1) =
                 Ok tt (uput p (set_killed true x) s1)).
  { unfold zoom, cas_. change (view pt_of _) with (putp p (set_killed true x) (pt s1)).
    rewrite (bind_ok _ _ _ _ _ (cas_miss _ p SLEEPING RUNNABLE _
      (putp_lookup p (set_killed true x) (pt s1) Hp) ltac:(simpl; by rewrite Hx))). done. }
  rewrite (bind_ok _ _ _ _ _ Hcas).
  exact (zoom_ok pt_of _ (uput p (set_killed true x) s1) tt _ H2).
Qed.

(* ------------------------------------------------------------------ *)
(** * The stop loop *)

Abbreviation signals := (range 0 32) (only parsing).

Lemma signals_range : Forall (fun i => 0 <= i < 32) signals.
Proof. apply Forall_forall. intros i Hi. unfold range in Hi. apply elem_of_seqZ in Hi. lia. Qed.

Lemma signals_nodup : NoDup signals.
Proof. apply NoDup_seqZ. Qed.

Lemma elem_signals i : 0 <= i < 32 -> i ∈ signals.
Proof. intros Hi. unfold range. apply elem_of_seqZ. lia. Qed.

Definition any (f : memory -> proc -> Z -> bool) (u : memory) (x : proc) : bool :=
  existsb (fun i => active x i && f u x i) signals.

(** The process after a turn of the loop that does not kill it. *)
Definition rest (u : memory) (x : proc) : proc :=
  set_pending (settle u x signals (p_pending x)) x.

Lemma any_spec f u x : any f u x = true <-> exists i, 0 <= i < 32 /\ active x i = true /\ f u x i = true.
Proof.
  unfold any. rewrite existsb_exists. split.
  - intros (i & Hi & H). exists i. apply andb_true_iff in H.
    pose proof signals_range as Hr. rewrite List.Forall_forall in Hr. split; [by apply Hr|done].
  - intros (i & Hi & Ha & Hf). exists i. rewrite Ha, Hf. split; [|done].
    by apply list_elem_of_In, elem_signals.
Qed.

Lemma any_false f u x :
  any f u x = false <-> forall i, 0 <= i < 32 -> active x i = true -> f u x i = false.
Proof.
  split.
  - intros H i Hi Ha. destruct (f u x i) eqn:E; [|done].
    assert (any f u x = true) by (apply any_spec; eauto). congruence.
  - intros H. destruct (any f u x) eqn:E; [|done]. apply any_spec in E as (i & Hi & Ha & Hf).
    rewrite H in Hf; congruence.
Qed.

(** A state of the same process on the same CPU, whose memory is [u]. *)
Definition resumed (s s' : ust) (i : nat) (c : cpu) : Prop :=
  exists k cr e, s' = set_pt (set_mmu cr e (set_mach k (pt s))) s /\ same_cpu (mach (pt s)) k i c.

Lemma in_kernel_resumed s s' i c p x :
  in_kernel (pt s) i c p x -> resumed s s' i c ->
  exists c', in_kernel (pt s') i c' p x /\ ncli c' = ncli c /\ cproc c' = cproc c /\
    iflag (mach (pt s')) = iflag (mach (pt s)).
Proof.
  intros [Hc Hn Hcp Hp Hx Hk Hg] (k & cr & e & -> & c' & Hc' & Hn' & Hp' & Hf').
  exists c'. split; [|done]. by split; simpl; try congruence.
Qed.

Lemma in_kernel_proc s i c p x y :
  in_kernel s i c p x -> p_state y = p_state x -> p_kstack y = p_kstack x -> p_pgdir y = p_pgdir x ->
  in_kernel s i c p y.
Proof. intros [] H1 H2 H3. by split; rewrite ?H1, ?H2, ?H3. Qed.

Lemma stop_loop_turn kpgdir s i c p x st arrivals :
  in_kernel (pt s) i c p x -> handlers_ok x ->
  if any kills (um s) x then
    exists s' x', stop_loop kpgdir p st arrivals (uput p x s) = Ok Exits s' /\
      procs (pt s') !! p = Some x' /\ p_killed x' = true
  else if any stops (um s) x || st then
    match arrivals with
    | [] => stop_loop kpgdir p st arrivals (uput p x s) = Wait (uput p (rest (um s) x) s)
    | a :: arrivals' =>
        exists s', resumed s s' i c /\
        stop_loop kpgdir p st arrivals (uput p x s) =
          if any conts (um s) x then Ok Returns (uput p (add_pending a (rest (um s) x)) s')
          else stop_loop kpgdir p true arrivals' (uput p (add_pending a (rest (um s) x)) s')
    end
  else stop_loop kpgdir p st arrivals (uput p x s) = Ok Returns (uput p (rest (um s) x) s).
Proof.
  intros Hk Ho. pose proof (ik_slot _ _ _ _ _ Hk) as Hp.
  pose proof (scan_ok p s Hp signals x (Flags false st false) signals_nodup signals_range Ho) as Hscan.
  unfold any. destruct (existsb (fun i => active x i && kills (um s) x i) signals).
  - destruct Hscan as (ct & m & Hscan).
    destruct (kill_handler_ok s i c p (set_pending m x)) as (k & Hkill).
    { by apply in_kernel_proc with x. }
    do 2 eexists. split.
    + destruct arrivals; cbn [stop_loop]; rewrite (bind_ok _ _ _ _ _ Hscan); cbn [is_killed];
        rewrite (bind_ok _ _ _ _ _ Hkill); done.
    + split; [by apply (putp_lookup p _ (set_mach k (pt s)))|done].
  - assert (Hflags : forall f, existsb (fun i => active x i && f (um s) x i) signals = any f (um s) x) by done.
    rewrite !Hflags, orb_false_r in Hscan. rewrite !Hflags. simpl is_stopped in Hscan.
    destruct (any stops (um s) x || st).
    + destruct arrivals as [|a arrivals].
      { cbn [stop_loop]. rewrite (bind_ok _ _ _ _ _ Hscan). done. }
      destruct (yield_turn_ok kpgdir (pt s) i c p (rest (um s) x) a) as (k & cr & e & Hy & Hs).
      { by apply in_kernel_proc with x. }
      exists (set_pt (set_mmu cr e (set_mach k (pt s))) s). split; [by exists k, cr, e|].
      cbn [stop_loop]. rewrite (bind_ok _ _ _ _ _ Hscan). cbn [is_killed is_stopped is_cont].
      erewrite bind_ok by (apply (zoom_ok pt_of); exact Hy). by destruct (any conts (um s) x).
    + destruct arrivals; cbn [stop_loop]; by rewrite (bind_ok _ _ _ _ _ Hscan).
Qed.

(* ------------------------------------------------------------------ *)
(** * Delivery *)

Lemma clear_absent m i : 0 <= i < 32 -> has_sig m i = false -> clear_sig m i = m.
Proof.
  intros Hi H. rewrite has_sig_testbit in H by done. apply Z.bits_inj'. intros j Hj.
  unfold clear_sig. rewrite Z.land_spec, Z.lnot_spec, sigbit_spec by lia.
  destruct (Z.eqb_spec i j); [subst; by rewrite H|by rewrite andb_true_r].
Qed.

(** Blocked, or with a handler that is [SIG_IGN]. *)
Definition ignored (u : memory) (x : proc) (i : Z) : bool :=
  has_sig (p_mask x) i || (handler_of x i =? SIG_IGN) || (load32 u (handler_of x i) =? SIG_IGN).

Definition clear_all (l : list Z) (m : Z) : Z := fold_left clear_sig l m.

Lemma clear_all_has l : forall m j,
  Forall (fun i => 0 <= i < 32) l -> 0 <= j < 32 ->
  has_sig (clear_all l m) j = has_sig m j && negb (existsb (fun i => i =? j) l).
Proof.
  induction l as [|i l IH]; intros m j Hl Hj; simpl; [by rewrite andb_true_r|].
  apply Forall_cons in Hl as [Hi Hl]. rewrite IH, has_clear by done.
  by rewrite negb_orb, andb_assoc.
Qed.

Section deliver.
Context (p : nat) (s : ust) (Hp : (p < length (procs (pt s)))%nat).
Local Notation u := (um s).

Lemma dispatch_step x i l :
  handlers_ok x -> 0 <= i < 32 ->
  dispatch p (i :: l) (uput p x s) =
  if has_sig (p_pending x) i && negb (ignored u x i) then deliver p i (uput p x s)
  else dispatch p l (uput p (cleared x i) s).
Proof.
  intros Ho Hi. cbn [dispatch]. rewrite !bind_pget by done.
  rewrite (bind_ok _ _ _ _ _ (handler_at_ok p s Hp x i _ Hi (handler_lookup x i Ho Hi))).
  assert (Hig : (if has_sig (p_mask x) i then ret true
                 else if handler_of x i =? SIG_IGN then ret true
                 else sa <- as_load32 p (handler_of x i) ;; ret (sa =? SIG_IGN)) (uput p x s) =
                Ok (ignored u x i) (uput p x s)).
  { unfold ignored. destruct (has_sig (p_mask x) i); [done|].
    destruct (handler_of x i =? SIG_IGN); [done|].
    rewrite (bind_ok _ _ _ _ _ (as_load32_ok p s Hp x _
      (mapped_shorter x _ 8 4 ltac:(lia) (handler_mapped x i Ho Hi)))). done. }
  rewrite (bind_ok _ _ _ _ _ Hig). destruct (has_sig (p_pending x) i) eqn:E; simpl.
  - destruct (ignored u x i); simpl; [|done]. unfold clear_pending. by rewrite bind_pset.
  - unfold cleared. rewrite clear_absent by done. by destruct x.
Qed.

(** Signals that are not pending or are ignored are passed over and cleared. *)
Lemma dispatch_prefix l l' : forall x,
  Forall (fun i => 0 <= i < 32) l -> NoDup l -> handlers_ok x ->
  (forall i, i ∈ l -> has_sig (p_pending x) i = true -> ignored u x i = true) ->
  dispatch p (l ++ l') (uput p x s) =
  dispatch p l' (uput p (set_pending (clear_all l (p_pending x)) x) s).
Proof.
  induction l as [|i l IH]; intros x Hl Hnd Ho Hig; [by destruct x|].
  apply Forall_cons in Hl as [Hi Hl]. apply NoDup_cons in Hnd as [Hnin Hnd].
  rewrite <- app_comm_cons, dispatch_step by done.
  replace (has_sig (p_pending x) i && negb (ignored u x i)) with false.
  2:{ destruct (has_sig (p_pending x) i) eqn:E; [|done]. rewrite Hig; [done|left|done]. }
  rewrite IH; [done|done|done|by apply handlers_ok_pending|].
  intros j Hj Hh. apply Hig; [by right|]. rewrite Forall_forall in Hl.
  unfold cleared in Hh. simpl in Hh. rewrite has_clear in Hh by auto.
  by apply andb_true_iff in Hh as [Hh _].
Qed.

Lemma as_modify_ok x a n f :
  user_mapped x a n = true -> as_modify p a n f (uput p x s) = Ok tt (uput p x (set_um (f u) s)).
Proof.
  intros Ha. unfold as_modify. mred.
  rewrite (proc_at_lookup (putp p x (pt s)) p x) by (by apply putp_lookup). by rewrite Ha.
Qed.
End deliver.

(** The user stack after delivery of signal [i] from stack pointer [esp]. *)
Definition signal_frame (u : memory) (esp i : Z) : memory :=
  store32 (store32 (put_bytes u (esp - 8) call_sigret) (esp - 12) i) (esp - 16) (esp - 8).

(** The process after delivery of signal [i]. *)
Definition delivered (u : memory) (x : proc) (i : Z) : proc :=
  let h := handler_of x i in
  set_tf (set_eip (load32 u h) (set_esp (tf_esp (p_tf x) - 16) (p_tf x)))
    (set_mask (if is_sigact h then load32 u (h + 4) else p_mask x)
      (set_mask_backup (p_mask x) (set_backup (p_tf x)
        (set_pending (clear_sig (p_pending x) i) x)))).

(** The user stack has room for the frame. *)
Definition stack_ok (x : proc) : Prop :=
  16 <= tf_esp (p_tf x) < 4294967296 /\ tf_esp (p_tf x) <= PGROUNDUP (p_sz x).

Lemma deliver_ok p s x i :
  (p < length (procs (pt s)))%nat -> handlers_ok x -> stack_ok x -> 0 <= i < 32 ->
  deliver p i (uput p x s) =
    Ok tt (uput p (delivered (um s) x i) (set_um (signal_frame (um s) (tf_esp (p_tf x)) i) s)).
Proof.
  intros Hp Ho [He1 He2] Hi. unfold deliver, clear_pending, tf_set. rewrite bind_pset by done.
  change (Z.of_nat (length call_sigret)) with 8. change (8 + 8 mod 8) with 8.
  pose proof (handler_mapped x i Ho Hi) as Hm.
  rewrite (bind_ok _ _ _ _ _ (handler_at_ok p s Hp (set_pending (clear_sig (p_pending x) i) x) i
    _ Hi (handler_lookup x i Ho Hi))).
  erewrite bind_ok by (apply as_load32_ok; [done|exact (mapped_shorter x _ 8 4 ltac:(lia) Hm)]).
  rewrite !bind_pset by done.
  set (y := set_mask_backup _ _).
  assert (Hmask : (if is_sigact (handler_of x i)
      then sigmask <- as_load32 p (handler_of x i + 4) ;; pset p (set_mask sigmask) else ret tt) (uput p y s) =
    Ok tt (uput p (set_mask (if is_sigact (handler_of x i) then load32 (um s) (handler_of x i + 4)
      else p_mask x) y) s)).
  { destruct (is_sigact (handler_of x i)); [|by destruct x].
    erewrite bind_ok by (apply as_load32_ok; [done|]; unfold user_mapped in *; simpl;
      apply Z.leb_le; apply Z.leb_le in Hm; lia).
    by rewrite pset_ok. }
  rewrite (bind_ok _ _ _ _ _ Hmask). rewrite bind_pset, bind_pget by done.
  set (esp := tf_esp (p_tf x)) in *. simpl tf_esp. change (tf_esp (p_tf x)) with esp.
  rewrite (u32_id (esp - 8)) by lia.
  assert (Hu : forall y, p_sz y = p_sz x -> forall d n, n <= d -> user_mapped y (esp - d) n = true).
  { intros z Hz d n Hd. unfold user_mapped. rewrite Hz. apply Z.leb_le. lia. }
  erewrite bind_ok by (apply as_modify_ok; [done|by apply Hu]).
  rewrite bind_pset, bind_pget by done. simpl tf_esp.
  rewrite (u32_id (esp - 8 - 4)) by lia. replace (esp - 8 - 4) with (esp - 12) by lia.
  unfold as_store32. erewrite bind_ok by (apply as_modify_ok; [done|by apply Hu]).
  rewrite bind_pset, bind_pget by done. simpl tf_esp.
  rewrite (u32_id (esp - 12 - 4)) by lia. replace (esp - 12 - 4) with (esp - 16) by lia.
  erewrite bind_ok by (apply as_modify_ok; [done|by apply Hu]).
  rewrite pset_ok by done. unfold delivered. by destruct x.
Qed.

(** * Lemmas for the claims *)

Lemma put_bytes_at l : forall m a x,
  put_bytes m a l x =
  if (a <=? x) && (x <? a + Z.of_nat (length l)) then nth (Z.to_nat (x - a)) l 0 else m x.
Proof.
  induction l as [|b l IH]; intros m a x; cbn [put_bytes length].
  { destruct (Z.leb_spec a x), (Z.ltb_spec x (a + Z.of_nat 0)); simpl; done || lia. }
  rewrite IH. destruct (Z.eqb_spec x a) as [->|Hne].
  - destruct (Z.leb_spec (a + 1) a); [lia|]. simpl andb. rewrite upd_eq.
    destruct (Z.leb_spec a a), (Z.ltb_spec a (a + Z.of_nat (S (length l)))); try lia. simpl andb.
    by rewrite Z.sub_diag.
  - rewrite upd_ne by done.
    destruct (Z.leb_spec (a + 1) x), (Z.leb_spec a x), (Z.ltb_spec x (a + 1 + Z.of_nat (length l))),
      (Z.ltb_spec x (a + Z.of_nat (S (length l)))); try lia; try done. simpl andb.
    replace (Z.to_nat (x - a)) with (S (Z.to_nat (x - (a + 1)))) by lia. done.
Qed.

(** The frame: return address, signal number and return code, in that order
    from the new stack pointer up; nothing else of the memory changes. *)
Lemma signal_frame_spec u esp i :
  let u' := signal_frame u esp i in
  16 <= esp < 4294967296 -> 0 <= i < 32 ->
  load32 u' (esp - 16) = esp - 8 /\ load32 u' (esp - 12) = i /\
  (forall k, (k < 8)%nat -> u' (esp - 8 + Z.of_nat k) = nth k call_sigret 0) /\
  (forall a, a < esp - 16 \/ esp <= a -> u' a = u a).
Proof.
  intros u' He Hi. subst u'. unfold signal_frame. repeat split.
  - rewrite load32_store32, u32_id by lia. done.
  - rewrite load32_store32_ne, load32_store32, u32_id by lia. done.
  - intros k Hk. rewrite !store32_ne, put_bytes_at by lia. simpl length.
    destruct (Z.leb_spec (esp - 8) (esp - 8 + Z.of_nat k)),
      (Z.ltb_spec (esp - 8 + Z.of_nat k) (esp - 8 + Z.of_nat 8)); try lia. simpl andb.
    f_equal. lia.
  - intros a Ha. rewrite !store32_ne, put_bytes_at by lia. simpl length.
    destruct (Z.leb_spec (esp - 8) a), (Z.ltb_spec a (esp - 8 + Z.of_nat 8)); try lia; done.
Qed.

Lemma settle_none u x l : forall m,
  (forall i, i ∈ l -> active x i = true -> stops u x i = false /\ conts u x i = false) ->
  settle u x l m = m.
Proof.
  induction l as [|i l IH]; intros m H; [done|]. cbn [settle fold_left].
  replace (active x i && (stops u x i || conts u x i)) with false.
  - apply IH. intros j Hj. apply H. by right.
  - destruct (active x i) eqn:E; [|done]. by destruct (H i ltac:(left) E) as [-> ->].
Qed.

(** Entering the handler from a trap in user mode. *)
Lemma handler_enters kpgdir arrivals cs s i c p x :
  in_kernel (pt s) i c p x -> procs (pt s) !! p = Some x -> Z.land cs 3 = 3 ->
  exists s0, resumed s s0 i c /\ um s0 = um s /\
  signalsHandler kpgdir arrivals cs s =
  (o <- stop_loop kpgdir p false arrivals ;;
   match o with Exits => ret Exits | Returns => dispatch p signals ;; ret Returns end) (uput p x s0).
Proof.
  intros [Hc Hn Hcp Hp Hx Hk Hg] Hl Hcs. unfold signalsHandler. rewrite Hcs. cbn [Z.eqb Pos.eqb negb].
  destruct (myproc_ok (pt s) i c Hc) as (k & Hmy & Hs).
  exists (set_pt (set_mach k (pt s)) s). split; [|split; [done|]].
  { exists k, (cr3 (pt s)), (esp0 (pt s)). split; [|done]. by destruct s as [[] ?]. }
  erewrite bind_ok by (apply (zoom_ok pt_of); exact Hmy). rewrite Hcp.
  change (over pt_of (set_mach k (pt s)) s) with (set_pt (set_mach k (pt s)) s).
  unfold uput. rewrite putp_id by done. done.
Qed.

(** Signals that neither kill nor continue the process: those the mask blocks,
    and those whose disposition does neither. *)
Definition unblocked (x : proc) (j : Z) : bool := negb (has_sig (p_mask x) j) || unblockable j.

Definition spares (u : memory) (x : proc) (m : Z) : Prop :=
  forall j, 0 <= j < 32 -> has_sig m j = true -> unblocked x j = true -> kills u x j = false.
Definition harmless (u : memory) (x : proc) (m : Z) : Prop :=
  spares u x m /\
  forall j, 0 <= j < 32 -> has_sig m j = true -> unblocked x j = true -> conts u x j = false.

Lemma spares_lor u x m n : spares u x m -> spares u x n -> spares u x (Z.lor m n).
Proof. intros H1 H2 j Hj. rewrite has_lor by done. intros [H|H]%orb_true_iff; auto. Qed.

Lemma harmless_lor u x m n : harmless u x m -> harmless u x n -> harmless u x (Z.lor m n).
Proof.
  intros [H1 H1'] [H2 H2']. split; [by apply spares_lor|].
  intros j Hj. rewrite has_lor by done. intros [H|H]%orb_true_iff; auto.
Qed.

Lemma harmless_settle u x m : harmless u x m -> harmless u x (settle u x signals m).
Proof.
  intros [H1 H2]. split; intros j Hj; rewrite settle_has by (done || apply signals_range);
    intros [Hm _]%andb_true_iff; auto.
Qed.

Lemma spares_any u x : spares u x (p_pending x) -> any kills u x = false.
Proof. intros H. apply any_false. intros i Hi [Ha Hb]%andb_true_iff. by apply H. Qed.

Lemma harmless_any u x : harmless u x (p_pending x) -> any kills u x = false /\ any conts u x = false.
Proof.
  intros [H1 H2]. split; [by apply spares_any|].
  apply any_false. intros i Hi [Ha Hb]%andb_true_iff. by apply H2.
Qed.

(** Turns of the loop with harmless arrivals only keep the process stopped. *)
Lemma stop_loop_quiet kpgdir i p l r : forall s c x st,
  in_kernel (pt s) i c p x -> handlers_ok x -> any stops (um s) x || st = true ->
  harmless (um s) x (p_pending x) -> Forall (harmless (um s) x) l ->
  exists s' c' st' m,
    in_kernel (pt s') i c' p (set_pending m x) /\ um s' = um s /\
    any stops (um s) (set_pending m x) || st' = true /\ harmless (um s) x m /\
    stop_loop kpgdir p st (l ++ r) (uput p x s) = stop_loop kpgdir p st' r (uput p (set_pending m x) s').
Proof.
  induction l as [|a l IH]; intros s c x st Hk Ho Hst Hh Hl.
  { exists s, c, st, (p_pending x). replace (set_pending (p_pending x) x) with x by (by destruct x). done. }
  apply Forall_cons in Hl as [Ha Hl]. destruct (harmless_any _ _ Hh) as [Hnk Hnc].
  pose proof (stop_loop_turn kpgdir s i c p x st (a :: l ++ r) Hk Ho) as Hturn.
  rewrite Hnk, Hst, Hnc in Hturn. destruct Hturn as (s1 & Hs1 & Hturn).
  set (x1 := add_pending a (rest (um s) x)) in *.
  destruct (in_kernel_resumed s s1 i c p x Hk Hs1) as (c1 & Hk1 & _).
  assert (Hu : um s1 = um s) by (by destruct Hs1 as (? & ? & ? & -> & _)).
  destruct (IH s1 c1 x1 true) as (s' & c' & st' & m & H1 & H2 & H3 & H4 & H5).
  - by apply in_kernel_proc with x.
  - by do 2 apply handlers_ok_pending.
  - apply orb_true_r.
  - rewrite Hu. exact (harmless_lor (um s) x _ _ (harmless_settle _ _ _ Hh) Ha).
  - by rewrite Hu.
  - rewrite Hu in *. exists s', c', st', m. repeat (split; [done|]).
    cbn [app]. by rewrite Hturn.
Qed.

Lemma sigret_ok s i c p x :
  in_kernel (pt s) i c p x -> exists k,
  zoom pt_of sigret (uput p x s) =
    Ok tt (uput p (set_mask (p_mask_backup x) (set_tf (p_backup x) x)) (set_pt (set_mach k (pt s)) s)) /\
  same_cpu (mach (pt s)) k i c.
Proof.
  intros [Hc Hn Hcp Hp Hx _ _].
  destruct (curproc_ok (putp p x (pt s)) i c p Hc Hcp) as (k & Hcur & Hs). exists k. split; [|done].
  unfold zoom, sigret. change (view pt_of (uput p x s)) with (putp p x (pt s)).
  rewrite (bind_ok _ _ _ _ _ Hcur). change (set_mach k (putp p x (pt s))) with (putp p x (set_mach k (pt s))).
  rewrite bind_setp by done.
  erewrite setp_ok by (apply (putp_lookup p _ (set_mach k (pt s)) Hp)).
  unfold uput, set_pt, putp, set_procs. simpl. by rewrite list_insert_insert_eq.
Qed.

(** No pending signal kills, stops or continues the process. *)
Definition calm (u : memory) (x : proc) : Prop :=
  any kills u x = false /\ any stops u x = false /\ any conts u x = false.

Lemma calm_loop kpgdir s i c p x :
  in_kernel (pt s) i c p x -> handlers_ok x -> calm (um s) x ->
  stop_loop kpgdir p false [] (uput p x s) = Ok Returns (uput p x s).
Proof.
  intros Hk Ho (H1 & H2 & H3). pose proof (stop_loop_turn kpgdir s i c p x false [] Hk Ho) as Ht.
  rewrite H1, H2 in Ht. simpl orb in Ht. rewrite Ht. unfold rest. rewrite settle_none; [by destruct x|].
  intros j Hj Ha. pose proof signals_range as Hr. rewrite Forall_forall in Hr. specialize (Hr j Hj). simpl in Hr.
  rewrite any_false in H2, H3. by rewrite H2, H3.
Qed.

Lemma signals_split j : 0 <= j < 32 -> signals = range 0 (Z.to_nat j) ++ j :: range (j + 1) (Z.to_nat (31 - j)).
Proof.
  intros Hj. unfold range. rewrite !Z2Nat.id by lia. change (Z.of_nat 32) with 32.
  replace 32 with (j + (32 - j)) by lia. rewrite seqZ_app, (seqZ_cons (0 + j)) by lia.
  do 3 f_equal; lia.
Qed.

(** The handler when nothing kills, stops or continues the process, and [sig]
    is the first pending signal that is not ignored. *)
Lemma handler_delivers kpgdir cs s i c p x sig :
  in_kernel (pt s) i c p x -> procs (pt s) !! p = Some x -> handlers_ok x -> Z.land cs 3 = 3 ->
  calm (um s) x -> stack_ok x -> 0 <= sig < 32 ->
  has_sig (p_pending x) sig = true -> ignored (um s) x sig = false ->
  (forall j, 0 <= j < sig -> has_sig (p_pending x) j = true -> ignored (um s) x j = true) ->
  let y := set_pending (clear_all (range 0 (Z.to_nat sig)) (p_pending x)) x in
  exists s0, resumed s s0 i c /\ um s0 = um s /\
  signalsHandler kpgdir [] cs s =
  Ok Returns (uput p (delivered (um s) y sig) (set_um (signal_frame (um s) (tf_esp (p_tf x)) sig) s0)).
Proof.
  intros Hk Hslot Ho Hcs Hcalm Hst Hsig Hpend Hnig Hfirst y.
  destruct (handler_enters kpgdir [] cs s i c p x Hk Hslot Hcs) as (s0 & Hs0 & Hu & ->).
  exists s0. split; [done|]. split; [done|].
  destruct (in_kernel_resumed s s0 i c p x Hk Hs0) as (c0 & Hk0 & _).
  rewrite <- Hu in Hcalm, Hnig, Hfirst |- *. pose proof (ik_slot _ _ _ _ _ Hk0) as Hp.
  rewrite (bind_ok _ _ _ _ _ (calm_loop kpgdir s0 i c0 p x Hk0 Ho Hcalm)), (signals_split sig) by done.
  assert (Hel : forall j, j ∈ range 0 (Z.to_nat sig) -> 0 <= j < sig).
  { intros j Hj. unfold range in Hj. apply elem_of_seqZ in Hj. lia. }
  unfold bind. rewrite (dispatch_prefix p s0 Hp); [| |apply NoDup_seqZ|done|by intros j Hj%Hel; apply Hfirst].
  2:{ apply Forall_forall. intros j Hj%Hel. lia. }
  fold y. assert (Ho' : handlers_ok y) by by apply handlers_ok_pending.
  rewrite dispatch_step by done.
  replace (has_sig (p_pending y) sig && negb (ignored (um s0) y sig)) with true.
  - by rewrite deliver_ok.
  - change (ignored (um s0) y sig) with (ignored (um s0) x sig). rewrite Hnig. symmetry.
    change (p_pending y) with (clear_all (range 0 (Z.to_nat sig)) (p_pending x)).
    rewrite clear_all_has, Hpend by (done || (apply Forall_forall; intros j Hj%Hel; lia)).
    simpl. rewrite andb_true_r. apply negb_true_iff.
    destruct (existsb (fun j => j =? sig) (range 0 (Z.to_nat sig))) eqn:E; [|done].
    apply existsb_exists in E as (j & Hj & Heq%Z.eqb_eq).
    apply list_elem_of_In, Hel in Hj. lia.
Qed.

(* ------------------------------------------------------------------ *)
(** * Claims *)

Section claims.
Context (kpgdir : Z) (s : ust) (i : nat) (c : cpu) (p : nat) (x : proc).
Context (Hk : in_kernel (pt s) i c p x) (Hslot : procs (pt s) !! p = Some x).
Context (Ho : handlers_ok x).

(** C11: SIGKILL cannot be blocked, ignored or caught: whatever the mask and the
    handler table say, and whatever arrives later, a process with SIGKILL
    pending that is about to return to user mode is marked killed and exits. *)
Theorem sigkill_always_kills arrivals cs :
  Z.land cs 3 = 3 -> has_sig (p_pending x) SIGKILL = true ->
  exists s' x', signalsHandler kpgdir arrivals cs s = Ok Exits s' /\
    procs (pt s') !! p = Some x' /\ p_killed x' = true.
Proof.
  intros Hcs Hsig. destruct (handler_enters kpgdir arrivals cs s i c p x Hk Hslot Hcs) as (s0 & Hs0 & Hu & ->).
  destruct (in_kernel_resumed s s0 i c p x Hk Hs0) as (c0 & Hk0 & _).
  pose proof (stop_loop_turn kpgdir s0 i c0 p x false arrivals Hk0 Ho) as Hturn.
  replace (any kills (um s0) x) with true in Hturn.
  - destruct Hturn as (s' & x' & H & Hl & Hx'). exists s', x'. by rewrite (bind_ok _ _ _ _ _ H).
  - symmetry. apply any_spec. exists SIGKILL. unfold active. rewrite Hsig.
    split; [done|]. by destruct (has_sig (p_mask x) SIGKILL).
Qed.

(** A process with SIGSTOP pending does not return to user mode while the
    signals that arrive neither kill nor continue it, whatever its mask. *)
Theorem sigstop_stops arrivals cs :
  Z.land cs 3 = 3 -> has_sig (p_pending x) SIGSTOP = true ->
  harmless (um s) x (p_pending x) -> Forall (harmless (um s) x) arrivals ->
  exists s', signalsHandler kpgdir arrivals cs s = Wait s'.
Proof.
  intros Hcs Hsig Hh Hl. destruct (handler_enters kpgdir arrivals cs s i c p x Hk Hslot Hcs) as (s0 & Hs0 & Hu & ->).
  destruct (in_kernel_resumed s s0 i c p x Hk Hs0) as (c0 & Hk0 & _). rewrite <- Hu in *.
  destruct (stop_loop_quiet kpgdir i p arrivals [] s0 c0 x false Hk0 Ho) as (s' & c' & st' & m & H1 & H2 & H3 & H4 & H5);
    [|done|done|].
  { apply orb_true_iff. left. apply any_spec. exists SIGSTOP. unfold active. rewrite Hsig.
    split; [done|]. by destruct (has_sig (p_mask x) SIGSTOP). }
  rewrite app_nil_r in H5.
  pose proof (stop_loop_turn kpgdir s' i c' p (set_pending m x) st' [] H1 (handlers_ok_pending _ _ Ho)) as Hturn.
  rewrite H2 in Hturn. destruct (harmless_any (um s0) (set_pending m x) H4) as [Hnk _].
  rewrite Hnk, H3 in Hturn. eexists. unfold bind. rewrite H5, Hturn. done.
Qed.

(** A stopped process is continued by SIGCONT: when, after any number of
    harmless turns, a turn brings SIGCONT and nothing that kills, the loop ends
    after the next turn, whatever else arrives. *)
Theorem sigcont_resumes l a b l' :
  has_sig (p_pending x) SIGSTOP = true -> harmless (um s) x (p_pending x) ->
  Forall (harmless (um s) x) l -> has_sig a SIGCONT = true -> spares (um s) x a ->
  exists s', stop_loop kpgdir p false (l ++ a :: b :: l') (uput p x s) = Ok Returns s'.
Proof.
  intros Hsig Hh Hl Hcont Hsp.
  destruct (stop_loop_quiet kpgdir i p l (a :: b :: l') s c x false Hk Ho)
    as (s1 & c1 & st1 & m & H1 & H2 & H3 & H4 & ->); [|done|done|].
  { apply orb_true_iff. left. apply any_spec. exists SIGSTOP. unfold active. rewrite Hsig.
    split; [done|]. by destruct (has_sig (p_mask x) SIGSTOP). }
  pose proof (stop_loop_turn kpgdir s1 i c1 p (set_pending m x) st1 (a :: b :: l') H1
    (handlers_ok_pending _ _ Ho)) as Hturn.
  rewrite H2 in Hturn. destruct (harmless_any (um s) (set_pending m x) H4) as [Hnk Hnc].
  rewrite Hnk, H3, Hnc in Hturn. destruct Hturn as (s2 & Hs2 & ->).
  destruct (in_kernel_resumed s1 s2 i c1 p _ H1 Hs2) as (c2 & Hk2 & _).
  assert (Hu : um s2 = um s) by (by destruct Hs2 as (? & ? & ? & -> & _)).
  set (y := add_pending a (rest (um s) (set_pending m x))).
  pose proof (stop_loop_turn kpgdir s2 i c2 p y true (b :: l')
    ltac:(by apply in_kernel_proc with (set_pending m x))
    ltac:(by repeat apply handlers_ok_pending)) as Hturn.
  rewrite Hu, (spares_any (um s) y) in Hturn.
  2:{ exact (spares_lor (um s) x _ _ (proj1 (harmless_settle _ (set_pending m x) _ H4)) Hsp). }
  rewrite orb_true_r in Hturn. destruct Hturn as (s3 & _ & ->).
  replace (any conts (um s) y) with true; [by eexists|].
  symmetry. apply any_spec. exists SIGCONT. split; [done|]. unfold active, y. cbn [add_pending set_pending p_pending p_mask].
  rewrite has_lor, Hcont, orb_true_r by done. change (unblockable SIGCONT) with true.
  by rewrite orb_true_r.
Qed.


(** C40: [sigret] undoes delivery: whatever the handler did to the registers
    (the frame [t] with which it enters the kernel), [sigret] brings back the
    interrupted trap frame and the mask in force before the delivery. *)
Theorem sigret_restores cs sig t :
  Z.land cs 3 = 3 -> calm (um s) x -> stack_ok x -> 0 <= sig < 32 ->
  has_sig (p_pending x) sig = true -> ignored (um s) x sig = false ->
  (forall j, 0 <= j < sig -> has_sig (p_pending x) j = true -> ignored (um s) x j = true) ->
  exists s' x' s'' x'', signalsHandler kpgdir [] cs s = Ok Returns s' /\ procs (pt s') !! p = Some x' /\
    zoom pt_of sigret (uput p (set_tf t x') s') = Ok tt s'' /\ procs (pt s'') !! p = Some x'' /\
    p_tf x'' = p_tf x /\ p_mask x'' = p_mask x.
Proof.
  intros Hcs Hcalm Hst Hsig Hpend Hnig Hfirst.
  destruct (handler_delivers kpgdir cs s i c p x sig Hk Hslot Ho Hcs Hcalm Hst Hsig Hpend Hnig Hfirst)
    as (s0 & Hs0 & Hu & H).
  destruct (in_kernel_resumed s s0 i c p x Hk Hs0) as (c0 & Hk0 & _).
  set (y := delivered _ _ _) in H. set (s' := uput p y _) in H.
  destruct (sigret_ok (set_um (um s') s0) i c0 p (set_tf t y)) as (k & Hret & _).
  { by apply in_kernel_proc with x. }
  pose proof (ik_slot _ _ _ _ _ Hk0) as Hp.
  exists s', y. do 2 eexists. split; [exact H|]. split; [by apply (putp_lookup p y (pt s0))|].
  split.
  { etrans; [|exact Hret]. f_equal. subst s'. unfold uput, set_um, set_pt. simpl. by rewrite putp_putp. }
  split; [by apply (putp_lookup p _ (set_mach k (pt s0)))|done].
Qed.
End claims.

(** [kill(pid, signum)] refuses [signum] above 32; otherwise it makes the
    signal pending in the first slot of the table with that pid, and only
    there, or returns -1 when no slot has it. *)
Theorem kill_spec pid signum s :
  length (procs s) = NPROC ->
  kill pid signum s =
  if 32 <? signum then Ok (-1) s
  else match list_find (fun x => p_pid x = pid) (procs s) with
       | Some (q, x) => Ok 0 (set_procs (<[q := add_pending (sigbit signum) x]> (procs s)) s)
       | None => Ok (-1) s
       end.
Proof.
  intros Hl. unfold kill. destruct (32 <? signum); [done|].
  assert (Hloop : forall n k, (length (procs s) = k + n)%nat ->
    for_find (seq k n) (fun p => q <- getp p p_pid ;;
      if q =? pid then setp p (fun x => set_pending (Z.lor (p_pending x) (sigbit signum)) x) ;; ret (Some 0)
      else ret None) s =
    match list_find (fun x => p_pid x = pid) (drop k (procs s)) with
    | Some (q, x) => Ok (Some 0) (set_procs (<[(k + q)%nat := add_pending (sigbit signum) x]> (procs s)) s)
    | None => Ok None s
    end).
  { induction n as [|n IH]; intros k Hk; simpl for_find.
    { rewrite drop_ge by lia. done. }
    destruct (lookup_lt_is_Some_2 (procs s) k ltac:(lia)) as [x Hx].
    rewrite (drop_S _ x) by done. simpl list_find. rewrite bind_assoc.
    unfold getp at 1, gets, bind at 1. rewrite (proc_at_lookup s k x Hx).
    case_decide as Hpid.
    - rewrite Hpid, Z.eqb_refl, bind_assoc, (bind_ok _ _ _ _ _ (setp_ok s k _ x Hx)). mred.
      by rewrite Nat.add_0_r.
    - destruct (Z.eqb_spec (p_pid x) pid); [done|]. rewrite bind_ret, IH by lia.
      destruct (list_find _ (drop (S k) (procs s))) as [[q y]|]; simpl; [|done].
      by rewrite Nat.add_succ_r. }
  unfold bind at 1. rewrite (Hloop NPROC 0%nat) by done. rewrite drop_0. simpl.
  by destruct (list_find _ (procs s)) as [[q x]|].
Qed.

(** A second signal that is delivered while a handler runs overwrites the
    one backup of the trap frame: after both handlers have returned, the process
    is back at the entry of the first handler, not at the interrupted code, and
    stays there however often [sigret] is called. *)
Theorem nested_delivery_loses_frame s i c p x sig1 sig2 :
  in_kernel (pt s) i c p x -> handlers_ok x -> stack_ok x -> 32 <= tf_esp (p_tf x) ->
  0 <= sig1 < 32 -> 0 <= sig2 < 32 ->
  exists s' x',
    (deliver p sig1 ;; deliver p sig2 ;; zoom pt_of sigret ;; zoom pt_of sigret) (uput p x s) = Ok tt s' /\
    procs (pt s') !! p = Some x' /\ p_backup x' = p_tf x' /\
    tf_eip (p_tf x') = load32 (um s) (handler_of x sig1) /\
    tf_esp (p_tf x') = tf_esp (p_tf x) - 16.
Proof.
  intros Hk Ho [He1 He2] He Hs1 Hs2. pose proof (ik_slot _ _ _ _ _ Hk) as Hp.
  rewrite (bind_ok _ _ _ _ _ (deliver_ok p s x sig1 Hp Ho (conj He1 He2) Hs1)).
  set (x1 := delivered _ x sig1). set (s1 := set_um _ s).
  assert (Ho1 : handlers_ok x1) by (destruct Ho; by split).
  assert (Hst1 : stack_ok x1) by (unfold stack_ok; simpl; lia).
  rewrite (bind_ok _ _ _ _ _ (deliver_ok p s1 x1 sig2 Hp Ho1 Hst1 Hs2)).
  set (x2 := delivered _ x1 sig2). set (s2 := set_um _ s1).
  destruct (sigret_ok s2 i c p x2) as (k & Hret & Hc); [by apply in_kernel_proc with x|].
  rewrite (bind_ok _ _ _ _ _ Hret). set (x3 := set_mask _ _). set (s3 := set_pt _ s2).
  destruct Hc as (c3 & Hc3 & Hn3 & Hp3 & _).
  destruct (sigret_ok s3 i c3 p x3) as (k' & Hret' & _).
  { destruct Hk. split; simpl; try done; congruence. }
  do 2 eexists. split; [exact Hret'|]. split; [by apply (putp_lookup p _ (set_mach k' (pt s3)))|done].
Qed.

(** A blocked signal does not stay pending: the loop that looks for a signal
    to deliver discards it as if it were ignored, so it is lost even when the
    process unblocks it afterwards. *)
Theorem blocked_signal_lost kpgdir cs s i c p x sig :
  in_kernel (pt s) i c p x -> procs (pt s) !! p = Some x -> handlers_ok x -> Z.land cs 3 = 3 ->
  0 <= sig < 32 -> unblockable sig = false ->
  p_pending x = sigbit sig -> has_sig (p_mask x) sig = true ->
  exists s' x', signalsHandler kpgdir [] cs s = Ok Returns s' /\ procs (pt s') !! p = Some x' /\
    has_sig (p_pending x') sig = false /\ p_tf x' = p_tf x /\ p_mask x' = p_mask x.
Proof.
  intros Hk Hslot Ho Hcs Hsig Hun Hpend Hmask.
  destruct (handler_enters kpgdir [] cs s i c p x Hk Hslot Hcs) as (s0 & Hs0 & Hu & ->).
  destruct (in_kernel_resumed s s0 i c p x Hk Hs0) as (c0 & Hk0 & _).
  assert (Honly : forall j, 0 <= j < 32 -> has_sig (p_pending x) j = true -> sig = j).
  { intros j Hj. rewrite Hpend, has_sigbit by done. apply Z.eqb_eq. }
  assert (Hcalm : forall f, any f (um s0) x = false).
  { intros f. apply any_false. intros j Hj [Hb Hm]%andb_true_iff.
    apply Honly in Hb; [|done]. subst j. by rewrite Hmask, Hun in Hm. }
  rewrite (bind_ok _ _ _ _ _ (calm_loop kpgdir s0 i c0 p x Hk0 Ho ltac:(by repeat split))).
  pose proof (ik_slot _ _ _ _ _ Hk0) as Hp. unfold bind.
  rewrite <- (app_nil_r signals), (dispatch_prefix p s0 Hp);
    [|apply signals_range|apply signals_nodup|done|].
  - do 2 eexists. split; [done|]. split; [by apply putp_lookup|]. split; [|done].
    change (has_sig (clear_all signals (p_pending x)) sig = false).
    rewrite clear_all_has by (done || apply signals_range).
    replace (existsb _ signals) with true; [apply andb_false_r|]. symmetry. apply existsb_exists.
    exists sig. split; [by apply list_elem_of_In, elem_signals|apply Z.eqb_refl].
  - intros j Hj Hb. pose proof signals_range as Hr. rewrite Forall_forall in Hr.
    apply Honly in Hb; [|by apply Hr]. subst j. unfold ignored. by rewrite Hmask.
Qed.

Lemma handlers_ok_insert x n act :
  handlers_ok x -> user_mapped x act 8 = true ->
  handlers_ok (set_handlers (<[n := act]> (p_handlers x)) x).
Proof.
  intros [Hl Hm] Ha. split; simpl; [by rewrite length_insert|].
  intros h Hh. apply list_elem_of_lookup in Hh as [k Hh].
  apply list_lookup_insert_Some in Hh as [(_ & <- & _)|[_ Hh]]; [done|].
  apply Hm, list_elem_of_lookup. eauto.
Qed.

(** [sigaction] refuses SIGKILL and SIGSTOP; for any other signal of the
    table it stores the previous action at [oldact], if that is not null, and
    makes [act] the handler, and the handler table stays well formed.  With
    [sigkill_always_kills] and [sigstop_stops]: no call changes what these two
    signals do. *)
Theorem sigaction_spec s i c p x signum act oldact :
  in_kernel (pt s) i c p x -> procs (pt s) !! p = Some x -> handlers_ok x ->
  0 <= signum < 32 -> user_mapped x act 8 = true -> user_mapped x oldact 8 = true ->
  let h := handler_of x signum in
  if (signum =? SIGKILL) || (signum =? SIGSTOP) then sigaction signum act oldact s = Ok (-1) s
  else exists s' x', sigaction signum act oldact s = Ok 0 s' /\
    procs (pt s') !! p = Some x' /\ handlers_ok x' /\
    x' = set_handlers (<[Z.to_nat signum := act]> (p_handlers x)) x /\
    um s' = if oldact =? 0 then um s
            else store32 (store32 (um s) oldact (load32 (um s) h)) (oldact + 4) (load32 (um s) (h + 4)).
Proof.
  intros Hk Hslot Ho Hsig Hact Hold h. unfold sigaction. destruct (_ || _) eqn:E; [done|].
  destruct Hk as [Hc Hn Hcp Hp Hx _ _].
  destruct (curproc_ok (pt s) i c p Hc Hcp) as (k & Hcur & _).
  erewrite bind_ok by (apply (zoom_ok pt_of); exact Hcur).
  set (s0 := set_pt (set_mach k (pt s)) s).
  assert (Hs0 : over pt_of (set_mach k (pt s)) s = uput p x s0).
  { unfold uput. rewrite putp_id by done. done. }
  rewrite Hs0, (bind_ok _ _ _ _ _ (handler_at_ok p s0 Hp x signum h Hsig (handler_lookup x signum Ho Hsig))).
  pose proof (handler_mapped x signum Ho Hsig) as Hm. change (handler_of x signum) with h in Hm.
  assert (H4 : forall a, user_mapped x a 8 = true -> user_mapped x a 4 = true /\ user_mapped x (a + 4) 4 = true).
  { intros a. unfold user_mapped. rewrite !Z.leb_le. lia. }
  destruct (H4 h Hm) as [Hh1 Hh2]. destruct (H4 oldact Hold) as [Ho1 Ho2].
  exists (uput p (set_handlers (<[Z.to_nat signum := act]> (p_handlers x)) x)
    (if oldact =? 0 then s0 else set_um (store32 (store32 (um s) oldact (load32 (um s) h)) (oldact + 4)
       (load32 (um s) (h + 4))) s0)). eexists. split.
  - destruct (Z.eqb_spec oldact 0); cbn [negb].
    + rewrite bind_ret, bind_pset by done. done.
    + rewrite !bind_assoc, (bind_ok _ _ _ _ _ (as_load32_ok p s0 Hp x h Hh1)).
      rewrite !bind_assoc, (bind_ok _ _ _ _ _ (as_load32_ok p s0 Hp x (h + 4) Hh2)).
      unfold as_store32. rewrite !bind_assoc, (bind_ok _ _ _ _ _ (as_modify_ok p s0 Hp x oldact 4 _ Ho1)).
      erewrite bind_ok by (apply as_modify_ok; [done|exact Ho2]). by rewrite bind_pset.
  - split; [destruct (oldact =? 0); by apply (putp_lookup p _ (pt s0))|].
    split; [by apply handlers_ok_insert|]. split; [done|]. by destruct (oldact =? 0).
Qed.

(* ------------------------------------------------------------------ *)
(** * Witnesses *)

(** A process with 8192 bytes of memory and an action registered for signal 3
    at address 4096 (function at 100, empty mask). *)
Definition w_mem : memory := store32 (store32 (fun _ => 0) 4096 100) 4100 0.
Definition w_proc (pending mask : Z) : proc :=
  set_state RUNNING (set_kstack 1 (set_pgdir 1 (set_sz 8192 (set_pending pending (set_mask mask
    (set_handlers (<[3%nat := 4096]> (replicate 32 0)) (set_tf (set_esp 8000 zero_tf) unused_proc))))))).
Definition w_state (x : proc) : ust :=
  Ust (Pst (x :: replicate 63 unused_proc) 2 None (Machine [Cpu 0 0 false (Some 0%nat)] true 0) k3 0 0) w_mem.
Definition w_cpu : cpu := Cpu 0 0 false (Some 0%nat).

Lemma w_kernel pending mask :
  in_kernel (pt (w_state (w_proc pending mask))) 0 w_cpu 0 (w_proc pending mask).
Proof. split; simpl; try done; [repeat split; simpl; (lia || by left)|lia]. Qed.

Lemma w_handlers pending mask : handlers_ok (w_proc pending mask).
Proof.
  split; [done|]. intros h Hh.
  assert (H : Forall (fun h => user_mapped (w_proc pending mask) h 8 = true)
                (p_handlers (w_proc pending mask))).
  { simpl p_handlers. repeat constructor. }
  rewrite Forall_forall in H. by apply H.
Qed.

Lemma sigkill_always_kills_witness :
  exists s', signalsHandler 0 [] 27 (w_state (w_proc (sigbit 9) 4294967295)) = Ok Exits s'.
Proof.
  destruct (sigkill_always_kills 0 (w_state (w_proc (sigbit 9) 4294967295)) 0 w_cpu 0
    (w_proc (sigbit 9) 4294967295) (w_kernel _ _) eq_refl (w_handlers _ _) [] 27)
    as (s' & x' & H & _); [reflexivity|reflexivity|]. exists s'. exact H.
Defined.

Lemma w_harmless pending mask sig :
  0 <= sig < 32 -> kills w_mem (w_proc pending mask) sig = false ->
  conts w_mem (w_proc pending mask) sig = false -> harmless w_mem (w_proc pending mask) (sigbit sig).
Proof.
  intros Hs H1 H2. split; intros j Hj; rewrite has_sigbit by done; intros <-%Z.eqb_eq _; done.
Qed.

Lemma sigstop_stops_witness :
  exists s', signalsHandler 0 [sigbit 3] 27 (w_state (w_proc (sigbit 17) 0)) = Wait s'.
Proof.
  apply (sigstop_stops 0 (w_state (w_proc (sigbit 17) 0)) 0 w_cpu 0 (w_proc (sigbit 17) 0)
    (w_kernel _ _) eq_refl (w_handlers _ _)).
  - reflexivity.
  - reflexivity.
  - apply w_harmless; [lia|reflexivity..].
  - repeat constructor; apply w_harmless; (lia || reflexivity).
Defined.

Lemma sigcont_resumes_witness :
  exists s', stop_loop 0 0 false [sigbit 3; sigbit 19; 0]
    (uput 0 (w_proc (sigbit 17) 0) (w_state (w_proc (sigbit 17) 0))) = Ok Returns s'.
Proof.
  apply (sigcont_resumes 0 (w_state (w_proc (sigbit 17) 0)) 0 w_cpu 0 (w_proc (sigbit 17) 0)
    (w_kernel _ _) (w_handlers _ _) [sigbit 3] (sigbit 19) 0 []).
  - reflexivity.
  - apply w_harmless; [lia|reflexivity..].
  - repeat constructor; apply w_harmless; (lia || reflexivity).
  - reflexivity.
  - intros j Hj. rewrite has_sigbit by (done || lia). intros <-%Z.eqb_eq _. reflexivity.
Defined.

Lemma w_calm : calm w_mem (w_proc (sigbit 3) 0).
Proof. repeat split; vm_compute; reflexivity. Qed.

Lemma w_first j : 0 <= j < 3 -> has_sig (sigbit 3) j = true -> ignored w_mem (w_proc (sigbit 3) 0) j = true.
Proof. intros Hj. rewrite has_sigbit by lia. intros <-%Z.eqb_eq. lia. Qed.


Lemma sigret_restores_witness :
  exists s' x' s'' x'', signalsHandler 0 [] 27 (w_state (w_proc (sigbit 3) 0)) = Ok Returns s' /\
    zoom pt_of sigret (uput 0 (set_tf zero_tf x') s') = Ok tt s'' /\
    procs (pt s'') !! 0%nat = Some x'' /\ p_tf x'' = set_esp 8000 zero_tf.
Proof.
  destruct (sigret_restores 0 (w_state (w_proc (sigbit 3) 0)) 0 w_cpu 0 (w_proc (sigbit 3) 0)
    (w_kernel _ _) eq_refl (w_handlers _ _) 27 3 zero_tf)
    as (s' & x' & s'' & x'' & H1 & _ & H2 & H3 & H4 & _).
  - reflexivity.
  - exact w_calm.
  - split; vm_compute; intuition discriminate.
  - lia.
  - reflexivity.
  - reflexivity.
  - exact w_first.
  - exists s', x', s'', x''. repeat split; assumption.
Defined.

Lemma kill_spec_witness :
  kill 7 9 (pt (w_state (set_pid 7 (w_proc 0 0)))) =
  Ok 0 (pt (w_state (set_pid 7 (w_proc 512 0)))).
Proof. rewrite (kill_spec 7 9 (pt (w_state (set_pid 7 (w_proc 0 0)))) eq_refl). reflexivity. Defined.

Lemma nested_delivery_loses_frame_witness :
  exists s' x',
    (deliver 0 3 ;; deliver 0 3 ;; zoom pt_of sigret ;; zoom pt_of sigret)
      (uput 0 (w_proc (sigbit 3) 0) (w_state (w_proc (sigbit 3) 0))) = Ok tt s' /\
    procs (pt s') !! 0%nat = Some x' /\ tf_esp (p_tf x') = 7984.
Proof.
  destruct (nested_delivery_loses_frame (w_state (w_proc (sigbit 3) 0)) 0 w_cpu 0 (w_proc (sigbit 3) 0) 3 3
    (w_kernel _ _) (w_handlers _ _)) as (s' & x' & H & Hl & _ & _ & He).
  - split; vm_compute; intuition discriminate.
  - vm_compute. discriminate.
  - lia.
  - lia.
  - exists s', x'. repeat split; assumption.
Defined.

Lemma blocked_signal_lost_witness :
  exists s', signalsHandler 0 [] 27 (w_state (w_proc (sigbit 3) (sigbit 3))) = Ok Returns s'.
Proof.
  destruct (blocked_signal_lost 0 27 (w_state (w_proc (sigbit 3) (sigbit 3))) 0 w_cpu 0
    (w_proc (sigbit 3) (sigbit 3)) 3 (w_kernel _ _) eq_refl (w_handlers _ _)) as (s' & x' & H & _).
  - reflexivity.
  - lia.
  - reflexivity.
  - reflexivity.
  - reflexivity.
  - exists s'. exact H.
Defined.

Lemma sigaction_spec_witness :
  exists s', sigaction 5 4096 4200 (w_state (w_proc 0 0)) = Ok 0 s' /\ load32 (um s') 4200 = 0.
Proof.
  destruct (sigaction_spec (w_state (w_proc 0 0)) 0 w_cpu 0 (w_proc 0 0) 5 4096 4200
    (w_kernel _ _) eq_refl (w_handlers _ _)) as (s' & x' & H & _ & _ & _ & Hm).
  - lia.
  - reflexivity.
  - reflexivity.
  - exists s'. split; [exact H|]. rewrite Hm. reflexivity.
Defined.
