(* ===== verification/Ports.v ===== *)
(** Input and output: the ports and the memory-mapped registers of the devices,
    the interrupt controllers (src/picirq.c, src/ioapic.c) and the serial line
    (src/uart.c).

    The devices are hardware: their state [D] and what a port does are a
    parameter, the class [Ports].  What the drivers rely on is stated by the
    class [PcDev]: the registers of the display controller, the serial line and
    the keyboard controller that the ports reach.  [pc_dev] is a machine that
    has them. *)

From S2P Require Import Prelude.

(** The instructions [inb] and [outb] on a port, and 32-bit loads and stores at
    the address of a register. *)
Class Ports (D : Type) := {
  inb : Z -> D -> Z * D;
  outb : Z -> Z -> D -> D;
  mmio_read : Z -> D -> Z * D;
  mmio_write : Z -> Z -> D -> D;
}.

Section io.
Context {D : Type} `{Ports D}.

Definition port_in (port : Z) : M D Z := fun d => let '(v, d) := inb port d in Ok v d.
Definition port_out (port v : Z) : M D unit := modify (outb port (u8 v)).

(* src/picirq.c:9-16 picinit *)
Definition picinit : M D unit := port_out (32 + 1) 255 ;; port_out (160 + 1) 255.

(** ** The I/O APIC *)

(* src/ioapic.c:9-9 IOAPIC *)
Definition IOAPIC : Z := 4273995776.
(* src/ioapic.c:13-13 REG_TABLE *)
Definition REG_TABLE : Z := 16.

(* src/ioapic.c:34-39 ioapicread *)
Definition ioapicread (reg : Z) : M D Z :=
  modify (mmio_write IOAPIC reg) ;; (fun d => let '(v, d) := mmio_read (IOAPIC + 16) d in Ok v d).

(* src/ioapic.c:41-46 ioapicwrite *)
Definition ioapicwrite (reg data : Z) : M D unit :=
  modify (mmio_write IOAPIC reg) ;; modify (mmio_write (IOAPIC + 16) (u32 data)).

(** The message about a wrong identifier is the value returned. *)

(* src/ioapic.c:48-65 ioapicinit *)
Definition ioapicinit (ioapicid : Z) : M D bool :=
  ver <- ioapicread 1 ;;
  let maxintr := Z.land (Z.shiftr ver 16) 255 in
  idreg <- ioapicread 0 ;;
  let id := Z.shiftr idreg 24 in
  for_each (range 0 (Z.to_nat (maxintr + 1))) (fun i =>
    ioapicwrite (REG_TABLE + 2 * i) (Z.lor 65536 (32 + i)) ;;
    ioapicwrite (REG_TABLE + 2 * i + 1) 0) ;;
  ret (negb (id =? ioapicid)).

(* src/ioapic.c:67-75 ioapicenable *)
Definition ioapicenable (irq cpunum : Z) : M D unit :=
  ioapicwrite (REG_TABLE + 2 * irq) (32 + irq) ;;
  ioapicwrite (REG_TABLE + 2 * irq + 1) (Z.shiftl cpunum 24).

(** ** The serial line; [uart] tells whether there is one *)

(* src/uart.c:15-15 COM1 *)
Definition COM1 : Z := 1016.

(** The wait for the transmitter: at most 128 looks at the status.
    [microdelay] does nothing. *)

(* src/uart.c:58-59 uartputc *)
Fixpoint uart_wait (n : nat) : M D unit :=
  match n with
  | O => ret tt
  | S n' => st <- port_in (COM1 + 5) ;; if Z.land st 32 =? 0 then uart_wait n' else ret tt
  end.

(* src/uart.c:51-61 uartputc *)
Definition uartputc (uart c : Z) : M D unit :=
  if uart =? 0 then ret tt else uart_wait 128 ;; port_out COM1 c.

(* src/uart.c:63-71 uartgetc *)
Definition uartgetc (uart : Z) : M D Z :=
  if uart =? 0 then ret (-1)
  else
    st <- port_in (COM1 + 5) ;;
    if Z.land st 1 =? 0 then ret (-1) else port_in COM1.

(** [uartinit] returns the value of [uart]; the text is "xv6..." and a newline. *)

(* src/uart.c:19-49 uartinit *)
Definition uartinit : M D Z :=
  port_out (COM1 + 2) 0 ;;       (* Turn off the FIFO *)
  port_out (COM1 + 3) 128 ;;     (* Unlock divisor *)
  port_out (COM1 + 0) 12 ;;
  port_out (COM1 + 1) 0 ;;
  port_out (COM1 + 3) 3 ;;       (* Lock divisor, 8 data bits. *)
  port_out (COM1 + 4) 0 ;;
  port_out (COM1 + 1) 1 ;;       (* Enable receive interrupts. *)
  st <- port_in (COM1 + 5) ;;
  if st =? 255 then ret 0        (* If status is 0xFF, no serial port. *)
  else
    port_in (COM1 + 2) ;;
    port_in (COM1 + 0) ;;
    ioapicenable 4 0 ;;
    for_each [120; 118; 54; 46; 46; 46; 10] (uartputc 1) ;;
    ret 1.
End io.

(* ------------------------------------------------------------------ *)
(** * What the drivers rely on *)

(** The registers: the display controller's register number and registers, the
    bytes sent and received on the serial line, and the scan codes that wait in
    the keyboard controller. *)
Record devregs := Devregs { crt_sel : Z; crt_reg : Z -> Z; sent : list Z; received : list Z; scancodes : list Z }.

Definition set_crt_sel v r := Devregs v (crt_reg r) (sent r) (received r) (scancodes r).
Definition set_crt_reg v r := Devregs (crt_sel r) v (sent r) (received r) (scancodes r).
Definition set_sent v r := Devregs (crt_sel r) (crt_reg r) v (received r) (scancodes r).
Definition set_received v r := Devregs (crt_sel r) (crt_reg r) (sent r) v (scancodes r).
Definition set_scancodes v r := Devregs (crt_sel r) (crt_reg r) (sent r) (received r) v.

Definition is_byte (c : Z) : Prop := 0 <= c < 256.

(** A port read returns [v] and leaves the registers at [r]. *)
Definition reads_reg {D} (regs : D -> devregs) (x : Z * D) (v : Z) (r : devregs) : Prop := fst x = v /\ regs (snd x) = r.

Class PcDev (D : Type) `{Ports D} := {
  regs : D -> devregs;
  regs_byte : forall d r, is_byte (crt_reg (regs d) r);
  received_byte : forall d, Forall is_byte (received (regs d));
  scancodes_byte : forall d, Forall is_byte (scancodes (regs d));
  crt_select : forall v d, regs (outb 980 v d) = set_crt_sel v (regs d);
  crt_write : forall v d, is_byte v -> regs (outb 981 v d) = set_crt_reg (upd (crt_reg (regs d)) (crt_sel (regs d)) v) (regs d);
  crt_read : forall d, reads_reg regs (inb 981 d) (crt_reg (regs d) (crt_sel (regs d))) (regs d);
  serial_send : forall v d, regs (outb COM1 v d) = set_sent (sent (regs d) ++ [v]) (regs d);
  serial_status : forall d, exists v, reads_reg regs (inb (COM1 + 5) d) v (regs d) /\
    (Z.land v 1 = 0 <-> received (regs d) = []);
  serial_recv : forall c l d, received (regs d) = c :: l -> reads_reg regs (inb COM1 d) c (set_received l (regs d));
  kbd_status : forall d, exists v, reads_reg regs (inb 100 d) v (regs d) /\ (Z.land v 1 = 0 <-> scancodes (regs d) = []);
  kbd_data : forall c l d, scancodes (regs d) = c :: l -> reads_reg regs (inb 96 d) c (set_scancodes l (regs d));
}.

(** ** Such a machine *)

Record regs_ok (r : devregs) : Prop := {
  ro_reg : forall i, is_byte (crt_reg r i);
  ro_received : Forall is_byte (received r);
  ro_scancodes : Forall is_byte (scancodes r);
}.

Record pc := Pc { pc_regs : devregs; pc_ok : regs_ok pc_regs }.

Lemma u8_is_byte v : is_byte (u8 v).
Proof. apply u8_range. Qed.

Lemma ok_sel v r : regs_ok r -> regs_ok (set_crt_sel v r).
Proof. by intros []. Qed.
Lemma ok_reg v r : regs_ok r -> regs_ok (set_crt_reg (upd (crt_reg r) (crt_sel r) (u8 v)) r).
Proof. intros []. split; [|done..]. intros i. unfold upd. simpl. unfold upd. case_match; [apply u8_is_byte|done]. Qed.
Lemma ok_sent v r : regs_ok r -> regs_ok (set_sent v r).
Proof. by intros []. Qed.
Lemma ok_received r : regs_ok r -> regs_ok (set_received (tl (received r)) r).
Proof. intros [H1 H2 H3]. split; [done| |done]. simpl. by destruct H2. Qed.
Lemma ok_scancodes r : regs_ok r -> regs_ok (set_scancodes (tl (scancodes r)) r).
Proof. intros [H1 H2 H3]. split; [done|done|]. simpl. by destruct H3. Qed.

(** The serial line is always ready to send. *)
#[export] Instance pc_ports : Ports pc := {|
  inb p d :=
    let r := pc_regs d in
    if p =? 981 then (crt_reg r (crt_sel r), d)
    else if p =? COM1 + 5 then (if decide (received r = []) then 32 else 33, d)
    else if p =? COM1 then (hd 0 (received r), Pc _ (ok_received r (pc_ok d)))
    else if p =? 100 then (if decide (scancodes r = []) then 0 else 1, d)
    else if p =? 96 then (hd 0 (scancodes r), Pc _ (ok_scancodes r (pc_ok d)))
    else (0, d);
  outb p v d :=
    let r := pc_regs d in
    if p =? 980 then Pc _ (ok_sel v r (pc_ok d))
    else if p =? 981 then Pc _ (ok_reg v r (pc_ok d))
    else if p =? COM1 then Pc _ (ok_sent (sent r ++ [v]) r (pc_ok d))
    else d;
  mmio_read _ d := (0, d);
  mmio_write _ _ d := d;
|}.

#[export] Instance pc_dev : PcDev pc.
Proof.
  refine {| regs := pc_regs |}; unfold reads_reg; simpl.
  - intros d. apply pc_ok.
  - intros d. apply pc_ok.
  - intros d. apply pc_ok.
  - done.
  - intros v d Hv. by rewrite u8_id.
  - done.
  - done.
  - intros d. eexists. split; [done|]. by case_decide.
  - intros c l d E. by rewrite E.
  - intros d. eexists. split; [done|]. by case_decide.
  - intros c l d E. by rewrite E.
Defined.
