(* ===== verification/Sleeplock.v ===== *)
(** Sleep locks (src/sleeplock.c): locks that a process may hold while it
    sleeps.

    [slst] is one sleep lock with the process table; its own spin lock is seen
    through [lock_view].  [sleep_view] is what one process sees of a sleep lock
    (free, its own, another's): the lock that the buffer cache and the file
    system use.  [acquiresleep_view], [releasesleep_view] and
    [holdingsleep_view] relate the two. *)

From S2P Require Import Prelude StringC Spinlock Kalloc Ptable.

(* src/sleeplock.h:2-9 sleeplock *)
Record sleeplock := Sleeplock {
  sl_locked : Z;              (* Is the lock held? *)
  sl_lk : lock_view;          (* spinlock protecting this sleep lock *)
  sl_name : string;           (* Name of lock. *)
  sl_pid : Z;                 (* Process holding lock *)
}.

Record slst := Slst { sl : sleeplock; sl_pt : pst }.

Definition set_sl v s := Slst v (sl_pt s).
Definition set_sl_pt v s := Slst (sl s) v.
Definition sl_pt_of : lens slst pst := Lens sl_pt set_sl_pt.
Definition sl_lk_of : lens slst lock_view :=
  Lens (fun s => sl_lk (sl s))
       (fun v s => set_sl (Sleeplock (sl_locked (sl s)) v (sl_name (sl s)) (sl_pid (sl s))) s).
Definition own (locked pid : Z) (s : slst) : slst :=
  set_sl (Sleeplock locked (sl_lk (sl s)) (sl_name (sl s)) pid) s.

(* src/sleeplock.c:13-20 initsleeplock *)
Definition initsleeplock (name : string) : sleeplock := Sleeplock 0 Unlocked name 0.

(** [ch] is the address of the lock, the channel its waiters sleep on. *)
Section sleeplock.
Variable ch : channel.

Definition mypid : M slst Z :=
  p <- zoom sl_pt_of curproc ;; zoom sl_pt_of (getp p p_pid).

(** The loop [while (lk->locked) sleep(lk, &lk->lk)]: each turn asleep uses one
    element of [envs]; with none left the process is still asleep. *)

(* src/sleeplock.c:26-28 acquiresleep *)
Fixpoint wait_unlocked (envs : list (slst -> slst)) : M slst unit :=
  l <- gets (fun s => sl_locked (sl s)) ;;
  if truth l then
    match envs with
    | [] => sleep sl_pt_of ch (Some sl_lk_of)
    | e :: envs' => sleep_turn sl_pt_of ch (Some sl_lk_of) e ;; wait_unlocked envs'
    end
  else ret tt.

(* src/sleeplock.c:22-32 acquiresleep *)
Definition acquiresleep (envs : list (slst -> slst)) : M slst unit :=
  lock_acquire sl_lk_of ;;
  wait_unlocked envs ;;
  modify (fun s => own 1 (sl_pid (sl s)) s) ;;
  pid <- mypid ;;
  modify (fun s => own (sl_locked (sl s)) pid s) ;;
  lock_release sl_lk_of.

(* src/sleeplock.c:34-42 releasesleep *)
Definition releasesleep : M slst unit :=
  lock_acquire sl_lk_of ;;
  modify (fun s => own 0 (sl_pid (sl s)) s) ;;
  modify (fun s => own (sl_locked (sl s)) 0 s) ;;
  zoom sl_pt_of (wakeup ch) ;;
  lock_release sl_lk_of.

(* src/sleeplock.c:44-53 holdingsleep *)
Definition holdingsleep : M slst bool :=
  lock_acquire sl_lk_of ;;
  l <- gets (fun s => sl_locked (sl s)) ;;
  r <- (if truth l
        then q <- gets (fun s => sl_pid (sl s)) ;; me <- mypid ;; ret (q =? me)
        else ret false) ;;
  lock_release sl_lk_of ;;
  ret r.
End sleeplock.

(* ------------------------------------------------------------------ *)
(** * The view of one process *)

Inductive sleep_view := SFree | SMine | SOther.

#[export] Instance sleep_view_eq_dec : EqDecision sleep_view.
Proof. solve_decision. Defined.

Definition view_sleep (me : Z) (l : sleeplock) : sleep_view :=
  if truth (sl_locked l) then if sl_pid l =? me then SMine else SOther else SFree.

(** The operations on a sleep lock of a component's state, as the process that
    runs the component sees it.  A process that acquires a lock it holds itself
    sleeps for ever. *)
Definition sleep_acquire {St} (l : lens St sleep_view) : M St unit :=
  v <- gets (view l) ;;
  match v with SFree => modify (over l SMine) | _ => wait end.

Definition sleep_release {St} (l : lens St sleep_view) : M St unit := modify (over l SFree).

Definition sleep_holding {St} (l : lens St sleep_view) : M St bool :=
  v <- gets (view l) ;; ret (bool_decide (v = SMine)).

(* ------------------------------------------------------------------ *)
(** * Lemmas *)

#[export] Instance sl_pt_of_laws : LensLaws sl_pt_of.
Proof. split; intros; by destruct s. Qed.
#[export] Instance sl_lk_of_laws : LensLaws sl_lk_of.
Proof. split; intros; by destruct s as [[] ?]. Qed.
#[export] Instance sl_indep : Indep sl_pt_of sl_lk_of.
Proof. by split. Qed.

(** A process that can use the lock: it runs in the kernel, and the lock's spin
    lock is free. *)
Record sl_ready (s : slst) (i : nat) (c : cpu) (p : nat) (x : proc) : Prop := {
  sr_cur : cur_ok (sl_pt s) i c p x;
  sr_lk : sl_lk (sl s) = Unlocked;
}.

Lemma mypid_ok s i c p x :
  cur_ok (sl_pt s) i c p x -> exists k,
  mypid s = Ok (p_pid x) (set_sl_pt (set_mach k (sl_pt s)) s) /\ same_cpu (mach (sl_pt s)) k i c.
Proof.
  intros [[_ Hc _] _ Hp Hx _]. destruct (curproc_ok _ i c p Hc Hp) as (k & Hcur & Hs).
  exists k. split; [|done]. unfold mypid. rewrite (bind_ok _ _ _ _ _ (zoom_ok sl_pt_of _ _ _ _ Hcur)).
  unfold zoom, getp, gets. cbn [view over sl_pt_of sl_pt set_sl_pt].
  by rewrite (proc_at_lookup _ p x).
Qed.

Lemma view_sleep_free me l : view_sleep me l = SFree <-> truth (sl_locked l) = false.
Proof. unfold view_sleep. destruct (truth (sl_locked l)), (sl_pid l =? me); naive_solver. Qed.

Section spec.
Context (ch : channel) (s : slst) (i : nat) (c : cpu) (p : nat) (x : proc).
Context (Hready : sl_ready s i c p x).

Lemma acquiresleep_free :
  truth (sl_locked (sl s)) = false -> exists k,
  acquiresleep ch [] s =
    Ok tt (Slst (Sleeplock 1 Unlocked (sl_name (sl s)) (p_pid x)) (set_mach k (sl_pt s))) /\
  same_cpu (mach (sl_pt s)) k i c.
Proof.
  destruct Hready as [Hcur Hlk]. intros Hfree. destruct s as [[lo lk na pi] q]. simpl in *. subst lk.
  set (s1 := Slst (Sleeplock 1 HeldHere na pi) q).
  destruct (mypid_ok s1 i c p x Hcur) as (k & Hpid & Hs). exists k. split; [|done].
  unfold acquiresleep. erewrite bind_ok by reflexivity.
  erewrite bind_ok by (simpl; unfold bind, gets; simpl; rewrite Hfree; reflexivity).
  erewrite bind_ok by reflexivity.
  etrans; [exact (bind_ok _ _ _ _ _ Hpid)|]. reflexivity.
Qed.

Lemma acquiresleep_held :
  truth (sl_locked (sl s)) = true -> exists k,
  acquiresleep ch [] s =
    Wait (Slst (sl s) (putp p (set_state NEG_SLEEPING (set_chan ch x)) (set_mach k (sl_pt s)))).
Proof.
  destruct Hready as [Hcur Hlk]. intros Hheld. destruct s as [[lo lk na pi] q]. simpl in *. subst lk.
  set (s1 := Slst (Sleeplock lo HeldHere na pi) q).
  destruct (sleep_waits sl_pt_of sl_lk_of s1 ch i c p x Hcur eq_refl) as (k & c2 & _ & _ & _ & _ & _ & Hs).
  exists k. unfold acquiresleep. erewrite bind_ok by reflexivity. simpl wait_unlocked.
  unfold bind at 1 2. unfold gets. change (over sl_lk_of HeldHere _) with s1.
  change (sl_locked (sl s1)) with lo. rewrite Hheld, Hs. done.
Qed.

Lemma releasesleep_ok : exists k,
  releasesleep ch s = Ok tt (Slst (Sleeplock 0 Unlocked (sl_name (sl s)) 0)
    (set_procs (woken ch <$> procs (sl_pt s)) (set_mach k (sl_pt s)))) /\
  same_cpu (mach (sl_pt s)) k i c.
Proof.
  destruct Hready as [[Ht _ _ _ _] Hlk]. destruct (wakeup_ok ch _ i c Ht) as (k & Hw & Hs).
  exists k. split; [|done]. destruct s as [[lo lk na pi] q]. simpl in *. subst lk.
  unfold releasesleep. do 3 erewrite bind_ok by reflexivity.
  erewrite bind_ok by (apply zoom_ok; exact Hw). reflexivity.
Qed.

Lemma holdingsleep_ok : exists k,
  holdingsleep s = Ok (bool_decide (view_sleep (p_pid x) (sl s) = SMine))
    (set_sl_pt (set_mach k (sl_pt s)) s) /\ same_cpu (mach (sl_pt s)) k i c.
Proof.
  destruct Hready as [Hcur Hlk]. destruct s as [[lo lk na pi] q]. simpl in *. subst lk.
  unfold view_sleep. cbn [sl_locked sl_pid].
  set (s1 := Slst (Sleeplock lo HeldHere na pi) q).
  destruct (mypid_ok s1 i c p x Hcur) as (k & Hpid & Hs).
  unfold holdingsleep. destruct (truth lo) eqn:El.
  - exists k. split; [|done].
    erewrite bind_ok by reflexivity. erewrite bind_ok by reflexivity. cbn [sl_locked sl over sl_lk_of set_sl].
    rewrite El, bind_assoc. erewrite bind_ok by reflexivity. rewrite bind_assoc.
    etrans; [exact (bind_ok _ _ _ _ _ Hpid)|]. rewrite bind_ret.
    erewrite bind_ok by reflexivity. simpl. by destruct (pi =? p_pid x).
  - exists (mach q). split; [|].
    + erewrite bind_ok by reflexivity. erewrite bind_ok by reflexivity. cbn [sl_locked sl over sl_lk_of set_sl].
      rewrite El. by destruct q.
    + destruct Hcur as [[_ Hc _] _ _ _ _]. by exists c.
Qed.
End spec.

(* ------------------------------------------------------------------ *)
(** * Claims *)

(** A sleep lock behaves as the view says.  [acquiresleep] takes a free lock
    for the calling process; when the lock is held the caller ends up asleep on
    the lock's channel, with the lock and its spin lock untouched.
    [releasesleep] frees the lock and makes exactly the processes asleep on it
    runnable.  [holdingsleep] tells whether the caller holds it. *)
Theorem sleeplock_refines_view ch s i c p x :
  sl_ready s i c p x ->
  let me := p_pid x in
  match view_sleep me (sl s) with
  | SFree => exists s', acquiresleep ch [] s = Ok tt s' /\ view_sleep me (sl s') = SMine /\
      sl_lk (sl s') = Unlocked /\ procs (sl_pt s') = procs (sl_pt s)
  | _ => exists s', acquiresleep ch [] s = Wait s' /\ sl s' = sl s /\
      procs (sl_pt s') = <[p := set_state NEG_SLEEPING (set_chan ch x)]> (procs (sl_pt s))
  end /\
  (exists s', releasesleep ch s = Ok tt s' /\ view_sleep me (sl s') = SFree /\
     sl_lk (sl s') = Unlocked /\ procs (sl_pt s') = woken ch <$> procs (sl_pt s)) /\
  (exists s', holdingsleep s = Ok (bool_decide (view_sleep me (sl s) = SMine)) s' /\ sl s' = sl s /\
     procs (sl_pt s') = procs (sl_pt s)).
Proof.
  intros Hr me. split; [|split].
  - destruct (view_sleep me (sl s)) eqn:E.
    + apply view_sleep_free in E. destruct (acquiresleep_free ch s i c p x Hr E) as (k & H & _).
      eexists. split; [exact H|]. split; [|done].
      unfold view_sleep, me. simpl. by rewrite Z.eqb_refl.
    + destruct (acquiresleep_held ch s i c p x Hr) as (k & H);
        [unfold view_sleep in E; by destruct (truth (sl_locked (sl s)))|by eexists].
    + destruct (acquiresleep_held ch s i c p x Hr) as (k & H);
        [unfold view_sleep in E; by destruct (truth (sl_locked (sl s)))|by eexists].
  - destruct (releasesleep_ok ch s i c p x Hr) as (k & H & _). by eexists.
  - destruct (holdingsleep_ok s i c p x Hr) as (k & H & _). by eexists.
Qed.

(** A waiter gets the lock: when a process asleep in [acquiresleep] is
    resumed in a state where the lock and its spin lock are free, it returns as
    the holder. *)
Theorem acquiresleep_after_wakeup ch s i c p x y env l' :
  sl_ready s i c p x -> truth (sl_locked (sl s)) = true ->
  (forall s1, wakes sl_pt_of sl_lk_of i p y env s1) ->
  (forall s1, sl (env s1) = l' /\ truth (sl_locked l') = false) ->
  (forall s1, (forall z, z ∈ procs (sl_pt (env s1)) -> p_state z <> NEG_SLEEPING) /\
     length (procs (sl_pt (env s1))) = NPROC /\ p_state y = RUNNING) ->
  exists s', acquiresleep ch [env] s = Ok tt s' /\ view_sleep (p_pid y) (sl s') = SMine /\
    sl_lk (sl s') = Unlocked.
Proof.
  intros [Hcur Hlk] Hheld Hw Hfree Hq. destruct s as [[lo lk na pi] q]. simpl in *. subst lk.
  set (s1 := Slst (Sleeplock lo HeldHere na pi) q).
  destruct (sleep_turn_ok sl_pt_of sl_lk_of s1 ch env i c p x Hcur eq_refl) as (s2 & k1 & _ & Hgo).
  destruct (Hgo y (Hw s2)) as (k & c' & Hr & Hf & Hn & Hp & Hturn).
  destruct (Hfree s2) as [Hl2 Hf2]. destruct (Hq s2) as (Hq2 & Hlen & Hy).
  destruct (Hw s2) as (_ & c2 & [_ _ _ _ Hslot]).
  set (q2 := putp p (set_chan NoChan y) (set_mach k (sl_pt (env s2)))).
  set (s3 := Slst (Sleeplock 1 HeldHere (sl_name l') (sl_pid l')) q2).
  assert (Hcur3 : cur_ok q2 i c' p (set_chan NoChan y)) by by apply cur_after_turn.
  destruct (mypid_ok s3 i c' p _ Hcur3) as (k3 & Hpid & _).
  eexists. split.
  - unfold acquiresleep. erewrite bind_ok by reflexivity. change (over sl_lk_of HeldHere _) with s1.
    erewrite bind_ok.
    2:{ cbn [wait_unlocked]. unfold bind at 1. unfold gets. change (sl_locked (sl s1)) with lo.
        rewrite Hheld. rewrite (bind_ok _ _ _ _ _ Hturn). cbn [wait_unlocked]. unfold bind, gets.
        cbn [over sl_pt_of sl_lk_of sl set_sl set_sl_pt sl_locked]. rewrite Hl2, Hf2. reflexivity. }
    erewrite bind_ok by reflexivity. etrans; [exact (bind_ok _ _ _ _ _ Hpid)|]. reflexivity.
  - split; [|done]. unfold view_sleep. simpl. by rewrite Z.eqb_refl.
Qed.

(* ------------------------------------------------------------------ *)
(** * Witnesses *)

Definition w_user : proc := set_state RUNNING (set_pid 5 unused_proc).
Definition w_lock (locked pid : Z) : slst := Slst (Sleeplock locked Unlocked "buffer" pid) (run0 w_user).

Lemma sleeplock_refines_view_witness :
  (exists s', acquiresleep (Chan 3) [] (w_lock 0 0) = Ok tt s' /\ view_sleep 5 (sl s') = SMine) /\
  (exists s', acquiresleep (Chan 3) [] (w_lock 1 8) = Wait s').
Proof.
  split.
  - destruct (sleeplock_refines_view (Chan 3) (w_lock 0 0) 0 (Cpu 0 0 false (Some 0%nat)) 0 w_user)
      as [(s' & H & Hv & _) _].
    + split; [by apply run0_cur|reflexivity].
    + exists s'. split; [exact H|exact Hv].
  - destruct (sleeplock_refines_view (Chan 3) (w_lock 1 8) 0 (Cpu 0 0 false (Some 0%nat)) 0 w_user)
      as [(s' & H & _) _].
    + split; [by apply run0_cur|reflexivity].
    + exists s'. exact H.
Defined.

Lemma acquiresleep_after_wakeup_witness :
  exists s', acquiresleep (Chan 3) [fun _ => Slst (Sleeplock 0 Unlocked "buffer" 0) (back0 w_user)] (w_lock 1 8)
    = Ok tt s' /\ view_sleep 5 (sl s') = SMine.
Proof.
  destruct (acquiresleep_after_wakeup (Chan 3) (w_lock 1 8) 0 (Cpu 0 0 false (Some 0%nat)) 0 w_user w_user
    (fun _ => Slst (Sleeplock 0 Unlocked "buffer" 0) (back0 w_user)) (Sleeplock 0 Unlocked "buffer" 0))
    as (s' & H & Hv & _).
  - split; [by apply run0_cur|reflexivity].
  - reflexivity.
  - intros s1. split; [reflexivity|]. eexists. apply back0_resumed.
  - intros s1. split; reflexivity.
  - intros s1. split; [by apply run0_quiet|split; reflexivity].
  - exists s'. split; [exact H|exact Hv].
Defined.
