(* ===== verification/Pipe.v ===== *)
(** Pipes (src/pipe.c): a ring buffer of 512 bytes between a writer and a
    reader, with two free-running 32-bit counters.

    [pipest] is one pipe with the process table and the memory of the current
    process; [pa] is the address of the page that holds the pipe.  [pipewrite]
    and [piperead] sleep when the pipe is full or empty: the argument [envs]
    lists what the other processes do during each turn asleep.  [contents] is
    the abstract state, the list of bytes in transit.  [pipealloc] is in the
    file layer, with the file table it allocates from. *)

From S2P Require Import Prelude StringC Spinlock Kalloc Ptable.

(* src/pipe.c:11-11 PIPESIZE *)
Definition PIPESIZE : Z := 512.

(* src/pipe.c:11-20 pipe *)
Record pipe := Pipe {
  pp_lock : lock_view;
  pp_data : list Z;
  nread : Z;       (* number of bytes read *)
  nwrite : Z;      (* number of bytes written *)
  readopen : Z;    (* read fd is still open *)
  writeopen : Z;   (* write fd is still open *)
}.

Record pipest := Pist { pi_pt : pst; pi_um : memory; pi : pipe }.

Definition set_pi_pt v s := Pist v (pi_um s) (pi s).
Definition set_pi_um v s := Pist (pi_pt s) v (pi s).
Definition set_pi v s := Pist (pi_pt s) (pi_um s) v.
Definition pi_pt_of : lens pipest pst := Lens pi_pt set_pi_pt.
Definition set_pp_lock v p := Pipe v (pp_data p) (nread p) (nwrite p) (readopen p) (writeopen p).
Definition pi_lock_of : lens pipest lock_view :=
  Lens (fun s => pp_lock (pi s)) (fun v s => set_pi (set_pp_lock v (pi s)) s).
Definition pi_km_of : lens pipest kstate := compose pi_pt_of km_of.

Section pipe.
Variables (kend pa : Z).

(** The channels [&p->nread] and [&p->nwrite]. *)
Definition nread_chan : channel := Chan (pa + 564).
Definition nwrite_chan : channel := Chan (pa + 568).

(** The initialisation of the page in [pipealloc]. *)

(* src/pipe.c:31-37 pipealloc *)
Definition pipeinit (old : pipe) : pipe := Pipe Unlocked (pp_data old) 0 0 1 1.

(* src/pipe.c:59-75 pipeclose *)
Definition pipeclose (writable : bool) : M pipest unit :=
  lock_acquire pi_lock_of ;;
  (if writable
   then modify (fun s => let p := pi s in
          set_pi (Pipe (pp_lock p) (pp_data p) (nread p) (nwrite p) (readopen p) 0) s) ;;
        zoom pi_pt_of (wakeup nread_chan)
   else modify (fun s => let p := pi s in
          set_pi (Pipe (pp_lock p) (pp_data p) (nread p) (nwrite p) 0 (writeopen p)) s) ;;
        zoom pi_pt_of (wakeup nwrite_chan)) ;;
  b <- gets (fun s => (readopen (pi s) =? 0) && (writeopen (pi s) =? 0)) ;;
  if b : bool
  then lock_release pi_lock_of ;; zoom pi_km_of (kfree kend pa)
  else lock_release pi_lock_of.

Definition mykilled : M pipest bool :=
  p <- zoom pi_pt_of curproc ;; zoom pi_pt_of (getp p p_killed).

(** The loop [while (p->nwrite == p->nread + PIPESIZE)]: [None] when the call
    is to return -1 (the lock has been released). *)

(* src/pipe.c:85-92 pipewrite *)
Fixpoint wait_room (envs : list (pipest -> pipest)) : M pipest (option (list (pipest -> pipest))) :=
  full <- gets (fun s => nwrite (pi s) =? u32 (nread (pi s) + PIPESIZE)) ;;
  if full : bool then
    ro <- gets (fun s => readopen (pi s)) ;;
    stop <- (if ro =? 0 then ret true else mykilled) ;;
    if stop : bool then lock_release pi_lock_of ;; ret None
    else
      zoom pi_pt_of (wakeup nread_chan) ;;
      match envs with
      | [] => sleep pi_pt_of nwrite_chan (Some pi_lock_of) ;; ret None
      | e :: envs' => sleep_turn pi_pt_of nwrite_chan (Some pi_lock_of) e ;; wait_room envs'
      end
  else ret (Some envs).

Definition push (b : Z) (p : pipe) : pipe :=
  Pipe (pp_lock p) (<[Z.to_nat (nwrite p mod PIPESIZE) := b]> (pp_data p))
       (nread p) (u32 (nwrite p + 1)) (readopen p) (writeopen p).

(* src/pipe.c:84-94 pipewrite *)
Fixpoint write_loop (addr : Z) (n : nat) (envs : list (pipest -> pipest)) : M pipest bool :=
  match n with
  | O => ret true
  | S n' =>
      r <- wait_room envs ;;
      match r with
      | None => ret false
      | Some envs' =>
          modify (fun s => set_pi (push (pi_um s addr) (pi s)) s) ;;
          write_loop (addr + 1) n' envs'
      end
  end.

(* src/pipe.c:77-98 pipewrite *)
Definition pipewrite (addr n : Z) (envs : list (pipest -> pipest)) : M pipest Z :=
  lock_acquire pi_lock_of ;;
  done <- write_loop addr (Z.to_nat n) envs ;;
  if done : bool
  then zoom pi_pt_of (wakeup nread_chan) ;; lock_release pi_lock_of ;; ret n
  else ret (-1).

(** The loop [while (p->nread == p->nwrite && p->writeopen)]: [false] when the
    call is to return -1. *)

(* src/pipe.c:106-112 piperead *)
Fixpoint wait_data (envs : list (pipest -> pipest)) : M pipest bool :=
  empty <- gets (fun s => (nread (pi s) =? nwrite (pi s)) && truth (writeopen (pi s))) ;;
  if empty : bool then
    stop <- mykilled ;;
    if stop : bool then lock_release pi_lock_of ;; ret false
    else match envs with
         | [] => sleep pi_pt_of nread_chan (Some pi_lock_of) ;; ret false
         | e :: envs' => sleep_turn pi_pt_of nread_chan (Some pi_lock_of) e ;; wait_data envs'
         end
  else ret true.

(** The next byte to read, and the pipe after it is read. *)
Definition front (p : pipe) : Z := nth (Z.to_nat (nread p mod PIPESIZE)) (pp_data p) 0.
Definition pop (p : pipe) : pipe :=
  Pipe (pp_lock p) (pp_data p) (u32 (nread p + 1)) (nwrite p) (readopen p) (writeopen p).

(* src/pipe.c:113-117 piperead *)
Fixpoint read_loop (addr : Z) (n : nat) (i : Z) : M pipest Z :=
  match n with
  | O => ret i
  | S n' =>
      empty <- gets (fun s => nread (pi s) =? nwrite (pi s)) ;;
      if empty : bool then ret i
      else
        modify (fun s => set_pi_um (upd (pi_um s) (addr + i) (front (pi s))) (set_pi (pop (pi s)) s)) ;;
        read_loop addr n' (i + 1)
  end.

(* src/pipe.c:100-121 piperead *)
Definition piperead (addr n : Z) (envs : list (pipest -> pipest)) : M pipest Z :=
  lock_acquire pi_lock_of ;;
  go <- wait_data envs ;;
  if go : bool
  then
    i <- read_loop addr (Z.to_nat n) 0 ;;
    zoom pi_pt_of (wakeup nwrite_chan) ;;
    lock_release pi_lock_of ;;
    ret i
  else ret (-1).
End pipe.

(* ------------------------------------------------------------------ *)
(** * The bytes in transit *)

Definition count (p : pipe) : Z := u32 (nwrite p - nread p).

Definition contents (p : pipe) : list Z :=
  (fun k => nth (Z.to_nat ((nread p + k) mod PIPESIZE)) (pp_data p) 0) <$> seqZ 0 (count p).

Record pipe_ok (p : pipe) : Prop := {
  pk_data : length (pp_data p) = 512%nat;
  pk_nread : 0 <= nread p < 4294967296;
  pk_nwrite : 0 <= nwrite p < 4294967296;
  pk_count : count p <= PIPESIZE;
}.

Lemma contents_length p : Z.of_nat (length (contents p)) = count p.
Proof.
  unfold contents. rewrite length_fmap, length_seqZ. pose proof (u32_range (nwrite p - nread p)).
  unfold count. lia.
Qed.

Lemma full_count p : pipe_ok p -> (nwrite p =? u32 (nread p + PIPESIZE)) = (count p =? PIPESIZE).
Proof.
  intros [_ Hr Hw Hc]. unfold count, PIPESIZE in *.
  destruct (Z.eqb_spec (nwrite p) (u32 (nread p + 512))), (Z.eqb_spec (u32 (nwrite p - nread p)) 512);
    try done; zsolve.
Qed.

Lemma empty_count p : pipe_ok p -> (nread p =? nwrite p) = (count p =? 0).
Proof.
  intros [_ Hr Hw Hc]. unfold count, PIPESIZE in *.
  destruct (Z.eqb_spec (nread p) (nwrite p)), (Z.eqb_spec (u32 (nwrite p - nread p)) 0);
    try done; zsolve.
Qed.

Lemma push_spec b p :
  pipe_ok p -> count p < PIPESIZE ->
  pipe_ok (push b p) /\ contents (push b p) = contents p ++ [b].
Proof.
  intros [Hd Hr Hw Hc] Hlt. unfold PIPESIZE in *.
  assert (Hcount : count (push b p) = count p + 1).
  { unfold count, push in *. simpl. zsolve. }
  split.
  - split; simpl; [by rewrite length_insert|done|apply u32_range|rewrite Hcount; unfold PIPESIZE; lia].
  - unfold contents. rewrite Hcount. pose proof (u32_range (nwrite p - nread p)) as Hpos.
    fold (count p) in Hpos. rewrite seqZ_app, fmap_app by lia.
    rewrite (seqZ_cons (0 + count p)) by lia. simpl. f_equal.
    + apply list_fmap_ext. intros i k Hk. apply lookup_seqZ in Hk as [-> Hi]. simpl.
      rewrite !nth_lookup, list_lookup_insert_ne; [done|].
      unfold count, PIPESIZE in *. intros Heq. apply Z2Nat.inj in Heq; zsolve.
    + unfold push, PIPESIZE. simpl. do 1 f_equal. rewrite nth_lookup.
      replace (Z.to_nat ((nread p + (0 + count p)) mod 512)) with (Z.to_nat (nwrite p mod 512))
        by (unfold count; f_equal; zsolve).
      rewrite list_lookup_insert_eq by (rewrite Hd; zsolve). done.
Qed.

Lemma pop_spec p :
  pipe_ok p -> 0 < count p ->
  pipe_ok (pop p) /\ contents p = front p :: contents (pop p).
Proof.
  intros [Hd Hr Hw Hc] Hlt. unfold PIPESIZE in *.
  assert (Hcount : count (pop p) = count p - 1).
  { unfold count, pop in *. simpl. zsolve. }
  split.
  - split; simpl; [done|apply u32_range|done|rewrite Hcount; unfold PIPESIZE; lia].
  - unfold contents. rewrite Hcount, (seqZ_cons 0) by lia. simpl. f_equal.
    + unfold front. by rewrite Z.add_0_r.
    + change (Z.succ 0) with (1 + 0). rewrite <- fmap_add_seqZ, <- list_fmap_compose.
      replace (Z.pred (count p)) with (count p - 1) by lia.
      apply list_fmap_ext. intros i k Hk. simpl. unfold pop, PIPESIZE. simpl.
      do 2 f_equal. zsolve.
Qed.

(* ------------------------------------------------------------------ *)
(** * Running the loops *)

#[export] Instance pi_pt_of_laws : LensLaws pi_pt_of.
Proof. split; intros; by destruct s. Qed.
#[export] Instance pi_indep : Indep pi_pt_of pi_lock_of.
Proof. by split. Qed.

(** Bytes [addr], ..., [addr + n - 1] of a memory. *)
Definition bytes (m : memory) (addr : Z) (n : nat) : list Z := m <$> seqZ addr (Z.of_nat n).

Lemma bytes_S m addr n : bytes m addr (S n) = m addr :: bytes m (addr + 1) n.
Proof.
  unfold bytes. rewrite (seqZ_cons addr) by lia. simpl fmap.
  replace (Z.pred (Z.of_nat (S n))) with (Z.of_nat n) by lia. done.
Qed.

Section run.
Context (pa : Z) (i p : nat).

(** The current process, not killed, with the pipe's lock in state [v]. *)
Definition ready (v : lock_view) (s : pipest) : Prop :=
  (exists c x, cur_ok (pi_pt s) i c p x /\ p_killed x = false) /\ pp_lock (pi s) = v /\ pipe_ok (pi s).

Lemma ready_pi v s q : ready v s -> pp_lock q = v -> pipe_ok q -> ready v (set_pi q s).
Proof. by intros (H & _ & _) ? ?. Qed.

Lemma run_killed v s : ready v s -> exists s', mykilled s = Ok false s' /\
  pi s' = pi s /\ pi_um s' = pi_um s /\ ready v s'.
Proof.
  intros ((c & x & Hcur & Hk) & Hl & Hok). destruct (cur_curproc _ i c p x Hcur) as (k & c' & H & Hcur').
  exists (set_pi_pt (set_mach k (pi_pt s)) s). split; [|split; [done|split; [done|by split; [exists c', x|]]]].
  unfold mykilled. rewrite (bind_ok _ _ _ _ _ (zoom_ok pi_pt_of _ s _ _ H)).
  unfold zoom, getp, gets. cbn [view over pi_pt_of set_pi_pt pi_pt].
  rewrite (proc_at_lookup _ p x) by apply Hcur'. by rewrite Hk.
Qed.

Lemma run_wakeup ch v s : ready v s -> exists s', zoom pi_pt_of (wakeup ch) s = Ok tt s' /\
  pi s' = pi s /\ pi_um s' = pi_um s /\ ready v s' /\
  procs (pi_pt s') = woken ch <$> procs (pi_pt s).
Proof.
  intros ((c & x & Hcur & Hk) & Hl & Hok). destruct (cur_wakeup ch _ i c p x Hcur) as (k & c' & H & Hcur').
  eexists. split; [apply (zoom_ok pi_pt_of), H|]. do 2 (split; [done|]).
  split; [|done]. by split; [exists c', x|].
Qed.

(** What a reader does to the pipe while the writer sleeps: it takes at least
    one byte from the front, and lets the writer run again. *)
Definition reads (e : pipest -> pipest) : Prop := forall s1,
  pipe_ok (pi s1) -> pp_lock (pi s1) = Unlocked -> 0 < count (pi s1) -> readopen (pi s1) <> 0 ->
  exists y k,
    wakes pi_pt_of pi_lock_of i p y e s1 /\ p_state y = RUNNING /\ p_killed y = false /\
    length (procs (pi_pt (e s1))) = NPROC /\
    (forall z, z ∈ procs (pi_pt (e s1)) -> p_state z <> NEG_SLEEPING) /\
    pi_um (e s1) = pi_um s1 /\ pipe_ok (pi (e s1)) /\ readopen (pi (e s1)) <> 0 /\
    (1 <= k <= length (contents (pi s1)))%nat /\ contents (pi (e s1)) = drop k (contents (pi s1)).

Lemma run_sleep e s :
  ready HeldHere s -> reads e -> 0 < count (pi s) -> readopen (pi s) <> 0 -> exists s' k,
  sleep_turn pi_pt_of (nwrite_chan pa) (Some pi_lock_of) e s = Ok tt s' /\ ready HeldHere s' /\
  pi_um s' = pi_um s /\ readopen (pi s') <> 0 /\ (1 <= k <= length (contents (pi s)))%nat /\
  contents (pi s') = drop k (contents (pi s)).
Proof.
  intros ((c & x & Hcur & Hk) & Hl & Hok) He Hc Hro.
  destruct (sleep_turn_ok pi_pt_of pi_lock_of s (nwrite_chan pa) e i c p x Hcur Hl) as (s1 & k1 & Hs1 & Hgo).
  destruct (He s1) as (y & k & Hw & Hy & Hyk & Hlen & Hq & Hum & Hok' & Hro' & Hk2 & Hcon);
    [subst s1; destruct Hok; by split|by subst s1..|].
  destruct (Hgo y Hw) as (k2 & c' & Hr & _ & Hn & Hp & Hturn).
  destruct Hw as (_ & c2 & [_ _ _ _ Hslot]).
  eexists. exists k. split; [exact Hturn|]. split.
  { split; [|split; [done|]]; [|destruct Hok'; by split].
    exists c', (set_chan NoChan y). split; [|done]. by apply cur_after_turn. }
  subst s1. by repeat (split; [done|]).
Qed.

Definition room (q : pipe) : Z := PIPESIZE - count q.

Lemma wait_room_ok envs s :
  ready HeldHere s -> Forall reads envs -> readopen (pi s) <> 0 ->
  0 < room (pi s) + Z.of_nat (length envs) ->
  exists s' envs' k, wait_room pa envs s = Ok (Some envs') s' /\ ready HeldHere s' /\
    Forall reads envs' /\ readopen (pi s') <> 0 /\ pi_um s' = pi_um s /\ 0 < room (pi s') /\
    room (pi s) + Z.of_nat (length envs) <= room (pi s') + Z.of_nat (length envs') /\
    (k <= length (contents (pi s)))%nat /\ contents (pi s') = drop k (contents (pi s)) /\
    (envs = [] -> k = 0%nat /\ envs' = [] /\ pi_pt s' = pi_pt s).
Proof.
  intros Hr Hel Hro Hroom. pose proof Hr as (_ & _ & Hok). pose proof (pk_count _ Hok).
  destruct (Z.eqb_spec (count (pi s)) PIPESIZE) as [Hfull|Hfull].
  2:{ exists s, envs, 0%nat. repeat (split; [done|]). unfold room in *.
      destruct envs; cbn [wait_room]; unfold bind at 1, gets; rewrite full_count by done;
        (destruct (Z.eqb_spec (count (pi s)) PIPESIZE); [done|]);
        repeat (split; [done || lia|]); done. }
  destruct envs as [|e envs]; [unfold room in Hroom; simpl in Hroom; lia|].
  apply Forall_cons in Hel as [He Hel].
  destruct (run_killed _ s Hr) as (s1 & H1 & Hpi1 & Hum1 & Hr1).
  destruct (run_wakeup (nread_chan pa) _ s1 Hr1) as (s2 & H2 & Hpi2 & Hum2 & Hr2 & _).
  rewrite Hpi1 in Hpi2. rewrite Hum1 in Hum2.
  destruct (run_sleep e s2 Hr2 He) as (s3 & k & H3 & Hr3 & Hum3 & Hro3 & Hk & Hcon);
    [rewrite Hpi2, Hfull; done|by rewrite Hpi2|]. rewrite Hpi2 in Hk, Hcon. rewrite Hum2 in Hum3.
  pose proof (contents_length (pi s)). pose proof (contents_length (pi s3)) as Hlen3.
  rewrite Hcon, length_drop in Hlen3.
  exists s3, envs, k. split.
  - cbn [wait_room]. unfold bind at 1, gets. rewrite full_count by done.
    destruct (Z.eqb_spec (count (pi s)) PIPESIZE); [|done].
    unfold bind at 1, gets. destruct (Z.eqb_spec (readopen (pi s)) 0); [done|].
    rewrite (bind_ok _ _ _ _ _ H1), (bind_ok _ _ _ _ _ H2), (bind_ok _ _ _ _ _ H3).
    pose proof Hr3 as (_ & _ & Hok3).
    destruct envs; cbn [wait_room]; unfold bind at 1, gets; rewrite full_count by done;
      (destruct (Z.eqb_spec (count (pi s3)) PIPESIZE); [unfold PIPESIZE in *; lia|done]).
  - unfold room, PIPESIZE in *. simpl length. repeat (split; [done || lia|]). done.
Qed.

Lemma write_loop_ok n : forall addr envs s,
  ready HeldHere s -> Forall reads envs -> readopen (pi s) <> 0 ->
  Z.of_nat n <= room (pi s) + Z.of_nat (length envs) ->
  exists s' k, write_loop pa addr n envs s = Ok true s' /\ ready HeldHere s' /\
    readopen (pi s') <> 0 /\ pi_um s' = pi_um s /\
    (k <= length (contents (pi s)) + n)%nat /\
    contents (pi s') = drop k (contents (pi s) ++ bytes (pi_um s) addr n) /\
    (envs = [] -> k = 0%nat /\ pi_pt s' = pi_pt s).
Proof.
  induction n as [|n IH]; intros addr envs s Hr Hel Hro Hn.
  { exists s, 0%nat. unfold bytes. simpl. rewrite app_nil_r. repeat (split; [done || lia|]). done. }
  destruct (wait_room_ok envs s Hr Hel Hro) as
    (s1 & envs1 & k1 & H1 & Hr1 & Hel1 & Hro1 & Hum1 & Hroom1 & Hle1 & Hk1 & Hcon1 & Hnil1); [lia|].
  pose proof Hr1 as (_ & Hl1 & Hok1).
  destruct (push_spec (pi_um s1 addr) (pi s1) Hok1) as [Hok2 Hcon2]; [unfold room in Hroom1; lia|].
  set (s2 := set_pi (push (pi_um s1 addr) (pi s1)) s1).
  pose proof (contents_length (pi s1)) as Hc1. pose proof (contents_length (pi s2)) as Hc2.
  change (pi s2) with (push (pi_um s1 addr) (pi s1)) in Hc2. rewrite Hcon2, length_app in Hc2. simpl in Hc2.
  destruct (IH (addr + 1) envs1 s2) as (s' & k & H & Hr' & Hro' & Hum' & Hk & Hcon & Hnil).
  - by apply ready_pi.
  - done.
  - done.
  - unfold room in *. change (pi s2) with (push (pi_um s1 addr) (pi s1)). lia.
  - exists s', (k1 + k)%nat. cbn [write_loop]. rewrite (bind_ok _ _ _ _ _ H1).
    erewrite bind_ok by reflexivity. split; [exact H|]. split; [done|]. split; [done|].
    split; [change (pi_um s2) with (pi_um s1) in Hum'; congruence|].
    change (pi s2) with (push (pi_um s1 addr) (pi s1)) in Hk, Hcon. rewrite Hcon2 in Hk, Hcon.
    change (pi_um s2) with (pi_um s1) in Hcon. rewrite Hcon1, Hum1 in Hcon. rewrite Hcon1 in Hk.
    rewrite length_app, length_drop in Hk. simpl in Hk. split; [lia|]. split.
    + rewrite Hcon, bytes_S, <- app_assoc. simpl. rewrite <- drop_drop. f_equal.
      rewrite drop_app_le by lia. done.
    + intros ->. destruct (Hnil1 eq_refl) as (-> & -> & Hpt). destruct (Hnil eq_refl) as (-> & Hpt').
      split; [done|]. by rewrite Hpt'.
Qed.

(** Reading: the bytes are taken from the front, as many as there are. *)
Lemma read_loop_ok n : forall addr j s,
  ready HeldHere s ->
  let k := Nat.min n (length (contents (pi s))) in
  exists s', read_loop addr n j s = Ok (j + Z.of_nat k) s' /\ ready HeldHere s' /\
    pi_pt s' = pi_pt s /\ contents (pi s') = drop k (contents (pi s)) /\
    bytes (pi_um s') (addr + j) k = take k (contents (pi s)) /\
    (forall a, a < addr + j \/ addr + j + Z.of_nat k <= a -> pi_um s' a = pi_um s a) /\
    writeopen (pi s') = writeopen (pi s).
Proof.
  induction n as [|n IH]; intros addr j s Hr; cbn [read_loop].
  { exists s. simpl. rewrite Z.add_0_r. repeat (split; [done|]). done. }
  pose proof Hr as (_ & Hl & Hok). pose proof (contents_length (pi s)) as Hc.
  unfold bind at 1, gets. rewrite empty_count by done.
  destruct (Z.eqb_spec (count (pi s)) 0) as [Hz|Hz].
  { assert (length (contents (pi s)) = 0%nat) as -> by lia. exists s. rewrite Nat.min_0_r.
    simpl. rewrite Z.add_0_r. repeat (split; [done|]). done. }
  pose proof (u32_range (nwrite (pi s) - nread (pi s))) as Hpos. fold (count (pi s)) in Hpos.
  destruct (pop_spec (pi s) Hok) as [Hok1 Hcon1]; [lia|].
  set (s1 := set_pi_um (upd (pi_um s) (addr + j) (front (pi s))) (set_pi (pop (pi s)) s)).
  destruct (IH addr (j + 1) s1) as (s' & H & Hr' & Hpt & Hcon & Hby & Hfr & Hwo).
  { destruct Hr as (Hcur & _ & _). by split. }
  change (pi s1) with (pop (pi s)) in *. rewrite Hcon1. simpl length. simpl Nat.min.
  set (k := Nat.min n (length (contents (pop (pi s))))) in *.
  exists s'. erewrite bind_ok by reflexivity. split; [|split; [done|split; [done|split; [done|split]]]].
  - etrans; [exact H|]. f_equal. lia.
  - rewrite bytes_S. simpl. f_equal.
    + rewrite Hfr by lia. simpl. apply upd_eq.
    + by rewrite <- Z.add_assoc.
  - split; [|done]. intros a Ha. rewrite Hfr by lia. simpl. apply upd_ne. lia.
Qed.
End run.

Lemma pipewrite_ok pa i p addr n envs s :
  ready i p Unlocked s -> Forall (reads i p) envs -> readopen (pi s) <> 0 ->
  0 <= n <= room (pi s) + Z.of_nat (length envs) ->
  exists s' k, pipewrite pa addr n envs s = Ok n s' /\ ready i p Unlocked s' /\
    readopen (pi s') <> 0 /\ pi_um s' = pi_um s /\
    contents (pi s') = drop k (contents (pi s) ++ bytes (pi_um s) addr (Z.to_nat n)) /\
    (envs = [] -> k = 0%nat).
Proof.
  intros (Hcur & Hl & Hok) Hel Hro Hn. set (s1 := over pi_lock_of HeldHere s).
  assert (Hr1 : ready i p HeldHere s1) by (split; [done|split; [done|destruct Hok; by split]]).
  destruct (write_loop_ok pa i p (Z.to_nat n) addr envs s1 Hr1 Hel Hro) as
    (s2 & k & H2 & Hr2 & Hro2 & Hum2 & Hk & Hcon & Hnil).
  { rewrite Z2Nat.id by lia. apply Hn. }
  destruct (run_wakeup i p (nread_chan pa) _ s2 Hr2) as (s3 & H3 & Hpi3 & Hum3 & Hr3 & _).
  pose proof Hr3 as (Hcur3 & Hl3 & Hok3).
  exists (over pi_lock_of Unlocked s3), k. split; [|split; [|split; [|split; [|split]]]].
  - unfold pipewrite. rewrite bind_acquire by done. fold s1.
    by rewrite (bind_ok _ _ _ _ _ H2), (bind_ok _ _ _ _ _ H3), bind_release.
  - split; [done|split; [done|destruct Hok3; by split]].
  - simpl. by rewrite Hpi3.
  - simpl. by rewrite Hum3.
  - change (contents (pi (over pi_lock_of Unlocked s3))) with (contents (pi s3)). by rewrite Hpi3, Hcon.
  - intros Henv. by destruct (Hnil Henv).
Qed.

Lemma piperead_ok pa i p addr n s :
  ready i p Unlocked s -> 0 < count (pi s) \/ writeopen (pi s) = 0 -> 0 <= n ->
  let k := Nat.min (Z.to_nat n) (length (contents (pi s))) in
  exists s', piperead pa addr n [] s = Ok (Z.of_nat k) s' /\ ready i p Unlocked s' /\
    contents (pi s') = drop k (contents (pi s)) /\
    bytes (pi_um s') addr k = take k (contents (pi s)) /\
    (forall a, a < addr \/ addr + Z.of_nat k <= a -> pi_um s' a = pi_um s a).
Proof.
  intros (Hcur & Hl & Hok) Hdata Hn k. set (s1 := over pi_lock_of HeldHere s).
  assert (Hr1 : ready i p HeldHere s1) by (split; [done|split; [done|destruct Hok; by split]]).
  destruct (read_loop_ok i p (Z.to_nat n) addr 0 s1 Hr1) as (s2 & H2 & Hr2 & _ & Hcon & Hby & Hfr & _).
  change (contents (pi s1)) with (contents (pi s)) in *. fold k in H2, Hcon, Hby, Hfr.
  destruct (run_wakeup i p (nwrite_chan pa) _ s2 Hr2) as (s3 & H3 & Hpi3 & Hum3 & Hr3 & _).
  pose proof Hr3 as (Hcur3 & Hl3 & Hok3).
  exists (over pi_lock_of Unlocked s3). split; [|split; [|split; [|split]]].
  - unfold piperead. rewrite bind_acquire by done. fold s1.
    assert (Hgo : wait_data pa [] s1 = Ok true s1).
    { cbn [wait_data]. unfold bind at 1, gets. rewrite empty_count by (destruct Hok; by split).
      change (count (pi s1)) with (count (pi s)). change (writeopen (pi s1)) with (writeopen (pi s)).
      destruct Hdata as [Hd|Hd].
      - destruct (Z.eqb_spec (count (pi s)) 0); [lia|done].
      - rewrite Hd. by rewrite andb_false_r. }
    by rewrite (bind_ok _ _ _ _ _ Hgo), (bind_ok _ _ _ _ _ H2), (bind_ok _ _ _ _ _ H3), bind_release.
  - split; [done|split; [done|destruct Hok3; by split]].
  - change (contents (pi (over pi_lock_of Unlocked s3))) with (contents (pi s3)). by rewrite Hpi3, Hcon.
  - simpl. rewrite Hum3, <- Hby. by rewrite Z.add_0_r.
  - intros a Ha. simpl. rewrite Hum3. apply Hfr. lia.
Qed.

(** A full pipe whose read end is closed: the write fails. *)
Lemma pipewrite_broken pa i p addr n envs s :
  ready i p Unlocked s -> readopen (pi s) = 0 -> count (pi s) = PIPESIZE -> 0 < n ->
  exists s', pipewrite pa addr n envs s = Ok (-1) s' /\ pi s' = pi s.
Proof.
  intros (Hcur & Hl & Hok) Hro Hfull Hn. set (s1 := over pi_lock_of HeldHere s).
  exists (over pi_lock_of Unlocked s1). split; [|unfold s1; destruct s as [? ? []]; simpl in *; by subst].
  unfold pipewrite. rewrite bind_acquire by done. fold s1.
  replace (Z.to_nat n) with (S (Z.to_nat (n - 1))) by lia. cbn [write_loop]. rewrite bind_assoc.
  assert (Hw : wait_room pa envs s1 = Ok None (over pi_lock_of Unlocked s1)).
  { destruct envs; cbn [wait_room]; unfold bind at 1, gets; rewrite full_count by (destruct Hok; by split);
      change (count (pi s1)) with (count (pi s)); rewrite Hfull; cbn;
      unfold bind, gets; change (readopen (pi s1)) with (readopen (pi s)); by rewrite Hro. }
  by rewrite (bind_ok _ _ _ _ _ Hw).
Qed.

(* ------------------------------------------------------------------ *)
(** * Claims *)

(** C12: a pipe is a FIFO.  [pipewrite] of [n] bytes, blocking as often as the
    pipe is full while readers take bytes from the front, returns [n] and leaves
    in the pipe the old bytes followed by the [n] new ones in order, less those
    that readers took from the front; the counters stay consistent across the
    32-bit wrap-around.  A write that fits loses nothing. *)
Theorem pipewrite_fifo pa i p addr n envs s :
  ready i p Unlocked s -> Forall (reads i p) envs -> readopen (pi s) <> 0 ->
  0 <= n <= room (pi s) + Z.of_nat (length envs) ->
  exists s' k, pipewrite pa addr n envs s = Ok n s' /\ pipe_ok (pi s') /\ pp_lock (pi s') = Unlocked /\
    contents (pi s') = drop k (contents (pi s) ++ bytes (pi_um s) addr (Z.to_nat n)) /\
    (envs = [] -> k = 0%nat).
Proof.
  intros Hr Hel Hro Hn.
  destruct (pipewrite_ok pa i p addr n envs s Hr Hel Hro Hn) as (s' & k & H & (_ & Hl & Hok) & _ & _ & Hc & Hnil).
  exists s', k. done.
Qed.

(** [piperead] returns the [min n (bytes in the pipe)] oldest bytes, in
    order, in the caller's buffer, removes exactly these from the pipe, and
    writes nothing else; on an empty pipe without a writer it returns 0. *)
Theorem piperead_fifo pa i p addr n s :
  ready i p Unlocked s -> 0 < count (pi s) \/ writeopen (pi s) = 0 -> 0 <= n ->
  let k := Nat.min (Z.to_nat n) (length (contents (pi s))) in
  exists s', piperead pa addr n [] s = Ok (Z.of_nat k) s' /\ pipe_ok (pi s') /\ pp_lock (pi s') = Unlocked /\
    contents (pi s') = drop k (contents (pi s)) /\
    bytes (pi_um s') addr k = take k (contents (pi s)) /\
    (forall a, a < addr \/ addr + Z.of_nat k <= a -> pi_um s' a = pi_um s a).
Proof.
  intros Hr Hd Hn k. destruct (piperead_ok pa i p addr n s Hr Hd Hn) as (s' & H & (_ & Hl & Hok) & H1 & H2 & H3).
  exists s'. done.
Qed.

(** What is written is read back: on an empty pipe, [n] bytes written from
    [src] and read to [dst] arrive unchanged, for any [n] up to the size of the
    pipe and any position of the counters. *)
Theorem pipe_roundtrip pa i p src dst n s :
  ready i p Unlocked s -> readopen (pi s) <> 0 -> count (pi s) = 0 -> 0 < n <= PIPESIZE ->
  exists s', (pipewrite pa src n [] ;; piperead pa dst n []) s = Ok n s' /\
    bytes (pi_um s') dst (Z.to_nat n) = bytes (pi_um s) src (Z.to_nat n) /\ contents (pi s') = [].
Proof.
  intros Hr Hro Hc Hn.
  destruct (pipewrite_ok pa i p src n [] s Hr) as (s1 & k & H1 & Hr1 & _ & Hum & Hcon & Hnil);
    [done|done|unfold room; simpl; lia|].
  assert (Hnil0 : contents (pi s) = []).
  { apply nil_length_inv. pose proof (contents_length (pi s)). lia. }
  rewrite Hnil, Hnil0, drop_0 in Hcon by done. simpl in Hcon.
  assert (Hlen : length (contents (pi s1)) = Z.to_nat n).
  { rewrite Hcon. unfold bytes. rewrite length_fmap, length_seqZ. lia. }
  pose proof (contents_length (pi s1)).
  destruct (piperead_ok pa i p dst n s1 Hr1) as (s2 & H2 & _ & Hcon2 & Hby & _); [lia|lia|].
  rewrite Hlen, Nat.min_id in H2, Hcon2, Hby. exists s2.
  rewrite (bind_ok _ _ _ _ _ H1), H2, Z2Nat.id by lia. split; [done|].
  rewrite Hby, Hcon2, <- Hcon, <- Hlen, firstn_all, drop_all. done.
Qed.

(** [pipeclose] closes one end and wakes exactly the processes that wait
    for the other end; the page goes back to the allocator when, and only when,
    the other end is already closed. *)
Theorem pipeclose_frees kend pa i p (writable : bool) s ps :
  ready i p Unlocked s -> kmem_ok kend (km (pi_pt s)) ps -> valid_page kend pa -> pa ∉ ps ->
  let other := if writable then readopen (pi s) else writeopen (pi s) in
  exists s', pipeclose kend pa writable s = Ok tt s' /\
    (readopen (pi s'), writeopen (pi s')) = (if writable then (readopen (pi s), 0) else (0, writeopen (pi s))) /\
    procs (pi_pt s') = woken (if writable then nread_chan pa else nwrite_chan pa) <$> procs (pi_pt s) /\
    kmem_ok kend (km (pi_pt s')) (if other =? 0 then pa :: ps else ps).
Proof.
  intros (Hcur & Hl & Hok) Hk Hv Hnin other.
  set (q := if writable then Pipe HeldHere (pp_data (pi s)) (nread (pi s)) (nwrite (pi s)) (readopen (pi s)) 0
            else Pipe HeldHere (pp_data (pi s)) (nread (pi s)) (nwrite (pi s)) 0 (writeopen (pi s))).
  set (ch := if writable then nread_chan pa else nwrite_chan pa).
  destruct Hcur as (c & x & Hcur & _). destruct (cur_wakeup ch _ i c p x Hcur) as (k & c' & Hw & _).
  set (t := set_procs (woken ch <$> procs (pi_pt s)) (set_mach k (pi_pt s))) in Hw.
  set (s1 := Pist t (pi_um s) q).
  assert (Hstart : pipeclose kend pa writable s =
    (if other =? 0 then lock_release pi_lock_of ;; zoom pi_km_of (kfree kend pa)
     else lock_release pi_lock_of) s1).
  { unfold pipeclose. rewrite bind_acquire by done. subst s1 q ch other.
    destruct writable; rewrite bind_assoc; erewrite bind_ok by reflexivity;
      (erewrite bind_ok by (apply zoom_ok; exact Hw)); unfold bind at 1, gets.
    - cbn [pi readopen writeopen over pi_pt_of set_pi_pt set_pi pi_lock_of set_pp_lock].
      rewrite Z.eqb_refl, andb_true_r. done.
    - done. }
  assert (Hq : view pi_lock_of s1 = HeldHere) by (subst s1 q; by destruct writable).
  rewrite Hstart. destruct (other =? 0).
  - rewrite bind_release by done. set (s2 := over pi_lock_of Unlocked s1).
    pose proof (kfree_ok kend pa (km t) (kmem_unlocked _ _ _ Hk) Hv) as Hfree.
    eexists. split; [exact (zoom_ok pi_km_of _ s2 _ _ Hfree)|].
    split; [subst s2 s1 q; by destruct writable|]. split; [done|].
    by apply kfree_list.
  - eexists. split; [by apply release_held|]. split; [subst s1 q; by destruct writable|]. done.
Qed.

(* ------------------------------------------------------------------ *)
(** * Witnesses *)

(** A pipe whose counters are about to wrap, holding one byte. *)
Definition w_writer : proc := set_state RUNNING unused_proc.
Definition w_pipe (cnt : Z) : pipe :=
  Pipe Unlocked (replicate 512 7) 4294967295 (u32 (4294967295 + cnt)) 1 1.
Definition w_pi (cnt : Z) : pipest := Pist (run0 w_writer) (fun a => a mod 256) (w_pipe cnt).

Lemma w_ready cnt : 0 <= cnt <= 512 -> ready 0 0 Unlocked (w_pi cnt).
Proof.
  intros Hc. split.
  - exists (Cpu 0 0 false (Some 0%nat)), w_writer. split; [by apply run0_cur|done].
  - split; [done|]. split; [done|simpl; lia|apply u32_range|unfold count, PIPESIZE; simpl; zsolve].
Qed.

(** A reader that takes one byte and hands the CPU back. *)
Definition w_read1 (s : pipest) : pipest := Pist (back0 w_writer) (pi_um s) (pop (pi s)).

Lemma w_reads : reads 0 0 w_read1.
Proof.
  intros s1 Hok Hl Hc Hro. exists w_writer, 1%nat.
  destruct (pop_spec (pi s1) Hok Hc) as [Hok1 Hcon]. split.
  { split; [done|]. eexists. apply back0_resumed. }
  repeat (split; [done|]). split; [by apply run0_quiet|]. repeat (split; [done|]).
  rewrite Hcon. simpl. split; [lia|]. by rewrite drop_0.
Qed.

Lemma pipewrite_fifo_witness :
  exists s' k, pipewrite 4096 100 3 [w_read1; w_read1; w_read1] (w_pi 512) = Ok 3 s' /\
    contents (pi s') = drop k (contents (w_pipe 512) ++ [100; 101; 102]).
Proof.
  destruct (pipewrite_fifo 4096 0 0 100 3 [w_read1; w_read1; w_read1] (w_pi 512))
    as (s' & k & H & _ & _ & Hc & _).
  - apply w_ready. lia.
  - repeat constructor; apply w_reads.
  - vm_compute. discriminate.
  - vm_compute. split; discriminate.
  - exists s', k. split; [exact H|exact Hc].
Defined.

Lemma piperead_fifo_witness :
  exists s', piperead 4096 50 3 [] (w_pi 1) = Ok 1 s' /\ bytes (pi_um s') 50 1 = [7].
Proof.
  destruct (piperead_fifo 4096 0 0 50 3 (w_pi 1)) as (s' & H & _ & _ & _ & Hb & _).
  - apply w_ready. lia.
  - left. vm_compute. reflexivity.
  - lia.
  - exists s'. split; [exact H|exact Hb].
Defined.

Lemma pipe_roundtrip_witness :
  exists s', (pipewrite 4096 100 3 [] ;; piperead 4096 50 3 []) (w_pi 0) = Ok 3 s' /\
    bytes (pi_um s') 50 3 = [100; 101; 102].
Proof.
  destruct (pipe_roundtrip 4096 0 0 100 50 3 (w_pi 0)) as (s' & H & Hb & _).
  - apply w_ready. lia.
  - vm_compute. discriminate.
  - reflexivity.
  - unfold PIPESIZE. lia.
  - exists s'. split; [exact H|exact Hb].
Defined.

Lemma pipeclose_frees_witness :
  exists s', pipeclose k3_end (k3_end + 12288) true (w_pi 1) = Ok tt s' /\ writeopen (pi s') = 0.
Proof.
  destruct (pipeclose_frees k3_end (k3_end + 12288) 0 0 true (w_pi 1) k3_pages) as (s' & H & Hc & _).
  - apply w_ready. lia.
  - exact k3_ok.
  - vm_compute. intuition discriminate.
  - vm_compute. intros Hin. repeat (apply elem_of_cons in Hin as [?|Hin]; [discriminate|]).
    by apply elem_of_nil in Hin.
  - exists s'. split; [exact H|]. by injection Hc.
Defined.
