(* ===== verification/Block.v ===== *)
(** Disk blocks as lists of bytes: little-endian fields at byte offsets, as the
    C code accesses them through casts of [bp->data], and copies of byte ranges.
    Shared by the buffer cache, the log and the file system. *)

From S2P Require Import Prelude.

(* src/fs.h:6-6 BSIZE *)
Definition BSIZE : Z := 512.

Abbreviation block := (list Z).

Definition get8 (d : block) (o : Z) : Z := nth (Z.to_nat o) d 0.
Definition put8 (d : block) (o v : Z) : block := <[Z.to_nat o := u8 v]> d.

Definition get16 (d : block) (o : Z) : Z := get8 d o + 256 * get8 d (o + 1).
Definition put16 (d : block) (o v : Z) : block := put8 (put8 d o v) (o + 1) (v / 256).

Definition get32 (d : block) (o : Z) : Z :=
  get8 d o + 256 * get8 d (o + 1) + 65536 * get8 d (o + 2) + 16777216 * get8 d (o + 3).
Definition put32 (d : block) (o v : Z) : block :=
  put8 (put8 (put8 (put8 d o v) (o + 1) (v / 256)) (o + 2) (v / 65536)) (o + 3) (v / 16777216).

(** [n] bytes from offset [o]; and [l] copied over the bytes from offset [o]. *)
Definition slice (d : block) (o n : Z) : list Z := take (Z.to_nat n) (drop (Z.to_nat o) d).
Definition splice (d : block) (o : Z) (l : list Z) : block :=
  take (Z.to_nat o) d ++ l ++ drop (Z.to_nat o + length l) d.

Definition bytes_in (d : list Z) : Prop := Forall (fun b => 0 <= b < 256) d.

(** A block of the disk: 512 bytes. *)
Record block_ok (d : block) : Prop := {
  bo_length : length d = 512%nat;
  bo_bytes : bytes_in d;
}.

Definition zero_block : block := replicate 512 0.

(* ------------------------------------------------------------------ *)
(** * Lemmas *)

Lemma get8_put8 d o v : 0 <= o < Z.of_nat (length d) -> get8 (put8 d o v) o = u8 v.
Proof. intros Ho. unfold get8, put8. rewrite nth_lookup, list_lookup_insert_eq by lia. done. Qed.

Lemma get8_put8_ne d o v o' : 0 <= o -> 0 <= o' -> o <> o' -> get8 (put8 d o v) o' = get8 d o'.
Proof.
  intros. unfold get8, put8. rewrite !nth_lookup, list_lookup_insert_ne by lia. done.
Qed.

Lemma put8_length d o v : length (put8 d o v) = length d.
Proof. apply length_insert. Qed.
Lemma put16_length d o v : length (put16 d o v) = length d.
Proof. unfold put16. by rewrite !put8_length. Qed.
Lemma put32_length d o v : length (put32 d o v) = length d.
Proof. unfold put32. by rewrite !put8_length. Qed.

(** [get8_solve]: reads after writes, by comparison of the offsets. *)
Ltac get8_solve :=
  repeat match goal with
  | |- context [get8 (put8 _ ?o _) ?o'] =>
      first [ rewrite (get8_put8_ne _ o _ o') by lia
            | replace o' with o by lia; rewrite get8_put8 by (rewrite ?put8_length; lia) ]
  end.

Lemma get32_put32 d o v : 0 <= o -> o + 4 <= Z.of_nat (length d) -> get32 (put32 d o v) o = u32 v.
Proof. intros Ho Hl. unfold get32, put32. get8_solve. zsolve. Qed.

Lemma get32_put32_ne d o v o' :
  0 <= o -> 0 <= o' -> o + 4 <= o' \/ o' + 4 <= o -> get32 (put32 d o v) o' = get32 d o'.
Proof. intros Ho Ho' Hd. unfold get32, put32. get8_solve. done. Qed.

Lemma get16_put16 d o v : 0 <= o -> o + 2 <= Z.of_nat (length d) -> get16 (put16 d o v) o = u16 v.
Proof. intros Ho Hl. unfold get16, put16. get8_solve. zsolve. Qed.

Lemma get16_put16_ne d o v o' :
  0 <= o -> 0 <= o' -> o + 2 <= o' \/ o' + 2 <= o -> get16 (put16 d o v) o' = get16 d o'.
Proof. intros Ho Ho' Hd. unfold get16, put16. get8_solve. done. Qed.

Lemma get32_put16_ne d o v o' :
  0 <= o -> 0 <= o' -> o + 2 <= o' \/ o' + 4 <= o -> get32 (put16 d o v) o' = get32 d o'.
Proof. intros Ho Ho' Hd. unfold get32, put16. get8_solve. done. Qed.

Lemma get16_put32_ne d o v o' :
  0 <= o -> 0 <= o' -> o + 4 <= o' \/ o' + 2 <= o -> get16 (put32 d o v) o' = get16 d o'.
Proof. intros Ho Ho' Hd. unfold get16, put32. get8_solve. done. Qed.

Lemma get8_put32_ne d o v o' :
  0 <= o -> 0 <= o' -> o + 4 <= o' \/ o' < o -> get8 (put32 d o v) o' = get8 d o'.
Proof. intros Ho Ho' Hd. unfold put32. get8_solve. done. Qed.

Lemma get8_range d o : bytes_in d -> 0 <= get8 d o < 256.
Proof.
  intros Hd. unfold get8. rewrite nth_lookup. destruct (d !! Z.to_nat o) as [b|] eqn:E; simpl; [|lia].
  by apply (Forall_lookup_1 _ _ _ _ Hd E).
Qed.

Lemma get16_range d o : bytes_in d -> 0 <= get16 d o < 65536.
Proof. intros Hd. unfold get16. pose proof (get8_range d o Hd). pose proof (get8_range d (o+1) Hd). lia. Qed.

Lemma get32_range d o : bytes_in d -> 0 <= get32 d o < 4294967296.
Proof.
  intros Hd. unfold get32. pose proof (get8_range d o Hd). pose proof (get8_range d (o+1) Hd).
  pose proof (get8_range d (o+2) Hd). pose proof (get8_range d (o+3) Hd). lia.
Qed.

Lemma put8_bytes d o v : bytes_in d -> bytes_in (put8 d o v).
Proof. intros Hd. apply Forall_insert; [done|apply u8_range]. Qed.
Lemma put16_bytes d o v : bytes_in d -> bytes_in (put16 d o v).
Proof. intros. by do 2 apply put8_bytes. Qed.
Lemma put32_bytes d o v : bytes_in d -> bytes_in (put32 d o v).
Proof. intros. by do 4 apply put8_bytes. Qed.

Lemma put8_ok d o v : block_ok d -> block_ok (put8 d o v).
Proof. intros []. split; [by rewrite put8_length|by apply put8_bytes]. Qed.
Lemma put16_ok d o v : block_ok d -> block_ok (put16 d o v).
Proof. intros []. split; [by rewrite put16_length|by apply put16_bytes]. Qed.
Lemma put32_ok d o v : block_ok d -> block_ok (put32 d o v).
Proof. intros []. split; [by rewrite put32_length|by apply put32_bytes]. Qed.

Lemma zero_block_ok : block_ok zero_block.
Proof. split; [done|]. apply Forall_replicate. lia. Qed.

Lemma slice_length d o n :
  0 <= o -> 0 <= n -> o + n <= Z.of_nat (length d) -> Z.of_nat (length (slice d o n)) = n.
Proof. intros. unfold slice. rewrite length_take, length_drop. lia. Qed.

Lemma splice_length d o l :
  0 <= o -> o + Z.of_nat (length l) <= Z.of_nat (length d) -> length (splice d o l) = length d.
Proof. intros. unfold splice. rewrite !length_app, length_take, length_drop. lia. Qed.

Lemma slice_bytes d o n : bytes_in d -> bytes_in (slice d o n).
Proof. intros. by apply Forall_take, Forall_drop. Qed.

Lemma splice_ok d o l :
  0 <= o -> o + Z.of_nat (length l) <= 512 -> block_ok d -> bytes_in l -> block_ok (splice d o l).
Proof.
  intros Ho Hl [Hd Hb] Hlb. split; [rewrite splice_length by lia; done|].
  unfold splice. apply Forall_app. split; [by apply Forall_take|]. apply Forall_app.
  split; [done|by apply Forall_drop].
Qed.

Lemma splice_lookup d o l i :
  0 <= o -> o + Z.of_nat (length l) <= Z.of_nat (length d) ->
  splice d o l !! i =
  if (o <=? Z.of_nat i) && (Z.of_nat i <? o + Z.of_nat (length l))
  then l !! (i - Z.to_nat o)%nat else d !! i.
Proof.
  intros Ho Hl. unfold splice.
  destruct (Z.leb_spec o (Z.of_nat i)), (Z.ltb_spec (Z.of_nat i) (o + Z.of_nat (length l))); simpl.
  - rewrite lookup_app_r, length_take by (rewrite length_take; lia).
    rewrite lookup_app_l by lia. f_equal. lia.
  - rewrite lookup_app_r, length_take by (rewrite length_take; lia).
    rewrite lookup_app_r by lia. rewrite lookup_drop. f_equal. lia.
  - rewrite lookup_app_l by (rewrite length_take; lia). rewrite lookup_take_lt by lia. done.
  - rewrite lookup_app_l by (rewrite length_take; lia). rewrite lookup_take_lt by lia. done.
Qed.

Lemma slice_splice d o l :
  0 <= o -> o + Z.of_nat (length l) <= Z.of_nat (length d) ->
  slice (splice d o l) o (Z.of_nat (length l)) = l.
Proof.
  intros Ho Hl. unfold slice, splice. rewrite Nat2Z.id.
  rewrite drop_app_length' by (rewrite length_take; lia). by rewrite take_app_length.
Qed.

(** The bytes of a slice, by offset; and the bytes after a splice. *)
Lemma slice_range d o n : 0 <= o -> 0 <= n -> o + n <= Z.of_nat (length d) -> slice d o n = get8 d <$> range o (Z.to_nat n).
Proof.
  intros Ho Hn Hl. apply list_eq. intros i. unfold slice. destruct (decide (i < Z.to_nat n)%nat) as [Hi|Hi].
  - rewrite lookup_take_lt, lookup_drop, list_lookup_fmap, range_lookup by done. simpl. unfold get8.
    replace (Z.to_nat (o + Z.of_nat i)) with (Z.to_nat o + i)%nat by lia. rewrite nth_lookup.
    destruct (lookup_lt_is_Some_2 d (Z.to_nat o + i)%nat) as [v Hv]; [lia|]. by rewrite Hv.
  - rewrite lookup_take_ge by lia. symmetry. apply lookup_ge_None_2. rewrite length_fmap, range_length. lia.
Qed.

Lemma get8_splice d o l k : 0 <= o -> o + Z.of_nat (length l) <= Z.of_nat (length d) -> 0 <= k ->
  get8 (splice d o l) k =
  if (o <=? k) && (k <? o + Z.of_nat (length l)) then nth (Z.to_nat (k - o)) l 0 else get8 d k.
Proof.
  intros Ho Hl Hk. unfold get8. rewrite !nth_lookup, splice_lookup by done. rewrite Z2Nat.id by done.
  destruct (Z.leb_spec o k); simpl; [|done].
  replace (Z.to_nat (k - o)) with (Z.to_nat k - Z.to_nat o)%nat by lia. by destruct (k <? o + Z.of_nat (length l)).
Qed.

(** A sequence of 32-bit stores [v i] at [o + 4 i]. *)
Lemma fold_put32_length o v l : forall d, length (fold_left (fun d i => put32 d (o + 4 * i) (v i)) l d) = length d.
Proof. induction l as [|i l IH]; intros d; simpl; [done|]. by rewrite IH, put32_length. Qed.

Lemma fold_put32_ok o v l : forall d, block_ok d -> block_ok (fold_left (fun d i => put32 d (o + 4 * i) (v i)) l d).
Proof. induction l as [|i l IH]; intros d Hd; simpl; [done|]. by apply IH, put32_ok. Qed.

Lemma fold_put32 o n (v : Z -> Z) l : forall d j,
  0 <= o -> o + 4 * n <= Z.of_nat (length d) -> Forall (fun i => 0 <= i < n) l -> 0 <= j < n ->
  get32 (fold_left (fun d i => put32 d (o + 4 * i) (v i)) l d) (o + 4 * j) =
  if decide (j ∈ l) then u32 (v j) else get32 d (o + 4 * j).
Proof.
  induction l as [|i l IH]; intros d j Ho Hd Hl Hj; cbn [fold_left].
  { rewrite decide_False by (by intros ?%elem_of_nil). done. }
  apply Forall_cons in Hl as [Hi Hl]. rewrite IH by (done || by rewrite put32_length).
  destruct (decide (j ∈ l)) as [Hin|Hnin]; [rewrite decide_True by (by right); done|].
  destruct (decide (j = i)) as [->|Hne].
  - rewrite decide_True by left. apply get32_put32; lia.
  - rewrite decide_False by (rewrite elem_of_cons; naive_solver). apply get32_put32_ne; lia.
Qed.

Lemma fold_put32_outside o (v : Z -> Z) l : forall d p,
  0 <= p -> Forall (fun i => 0 <= o + 4 * i /\ (p < o + 4 * i \/ o + 4 * i + 4 <= p)) l ->
  get8 (fold_left (fun d i => put32 d (o + 4 * i) (v i)) l d) p = get8 d p.
Proof.
  induction l as [|i l IH]; intros d p Hp Hl; [done|]. apply Forall_cons in Hl as [Hi Hl]. cbn [fold_left].
  rewrite IH by done. apply get8_put32_ne; lia.
Qed.

#[export] Hint Resolve put8_ok put16_ok put32_ok zero_block_ok splice_ok slice_bytes : mem.
