(* ===== verification/Bio.v ===== *)
(** The buffer cache (src/bio.c) over the memory disk driver (src/memide.c).

    Buffers are indices into [bufs]; the [prev] and [next] pointers of the
    buffers and of the list head are the arrays [prevs] and [nexts], in which
    index [HEAD] is the head.  The sleep lock of a buffer is seen by the process
    that runs the code ([sleep_view]).  The disk is a list of blocks; [writes]
    records the blocks written to it, oldest first (the log's crash argument
    needs the order).

    [dll] relates the pointers to the list of buffers in most-recently-used
    order; [bio_inv] is the invariant of the cache, with the buffers that the
    caller holds; [lc] is the logical contents of a block: the cached copy if
    there is one, else the copy on disk. *)

From S2P Require Import Prelude Spinlock Kalloc Ptable Sleeplock Block.

(* src/param.h:12-12 NBUF *)
Definition NBUF : nat := 30.
Definition HEAD : nat := NBUF.

(* src/buf.h:12-12 B_VALID *)
Definition B_VALID : Z := 2.  (* buffer has been read from disk *)
(* src/buf.h:13-13 B_DIRTY *)
Definition B_DIRTY : Z := 4.  (* buffer needs to be written to disk *)

(* src/buf.h:1-13 buf *)
Record buf := Buf {
  b_flags : Z;
  b_dev : Z;
  b_blockno : Z;
  b_lock : sleep_view;
  b_refcnt : Z;
  b_data : block;
}.

Definition set_b_flags v b := Buf v (b_dev b) (b_blockno b) (b_lock b) (b_refcnt b) (b_data b).
Definition set_b_lock v b := Buf (b_flags b) (b_dev b) (b_blockno b) v (b_refcnt b) (b_data b).
Definition set_b_refcnt v b := Buf (b_flags b) (b_dev b) (b_blockno b) (b_lock b) v (b_data b).
Definition set_b_data v b := Buf (b_flags b) (b_dev b) (b_blockno b) (b_lock b) (b_refcnt b) v.

Definition buf0 : buf := Buf 0 0 0 SFree 0 zero_block.

(* src/bio.c:29-36 bcache *)
Record bio := Bio {
  bc_lock : lock_view;
  bufs : list buf;
  nexts : list nat;
  prevs : list nat;
  disk : list block;
  writes : list (Z * block);
}.

Definition set_bc_lock v s := Bio v (bufs s) (nexts s) (prevs s) (disk s) (writes s).
Definition set_bufs v s := Bio (bc_lock s) v (nexts s) (prevs s) (disk s) (writes s).
Definition set_nexts v s := Bio (bc_lock s) (bufs s) v (prevs s) (disk s) (writes s).
Definition set_prevs v s := Bio (bc_lock s) (bufs s) (nexts s) v (disk s) (writes s).
Definition set_disk d w s := Bio (bc_lock s) (bufs s) (nexts s) (prevs s) d w.

Definition bc_lock_of : lens bio lock_view := Lens bc_lock set_bc_lock.

Definition buf_at (s : bio) (b : nat) : buf := nth b (bufs s) buf0.
Definition getb {A} (b : nat) (f : buf -> A) : M bio A := gets (fun s => f (buf_at s b)).
Definition setb (b : nat) (f : buf -> buf) : M bio unit :=
  modify (fun s => set_bufs (alter f b (bufs s)) s).
Definition buf_lock_of (b : nat) : lens bio sleep_view :=
  Lens (fun s => b_lock (buf_at s b)) (fun v s => set_bufs (alter (set_b_lock v) b (bufs s)) s).

(** [b->next], [b->prev], and the assignments to them. *)
Definition next_of (b : nat) : M bio nat := gets (fun s => nth b (nexts s) 0%nat).
Definition prev_of (b : nat) : M bio nat := gets (fun s => nth b (prevs s) 0%nat).
Definition set_next (b v : nat) : M bio unit := modify (fun s => set_nexts (<[b := v]> (nexts s)) s).
Definition set_prev (b v : nat) : M bio unit := modify (fun s => set_prevs (<[b := v]> (prevs s)) s).

(** Insertion of [b] at the head of the list. *)
Definition push_front (b : nat) : M bio unit :=
  n <- next_of HEAD ;;
  set_next b n ;;
  set_prev b HEAD ;;
  n <- next_of HEAD ;;
  set_prev n b ;;
  set_next HEAD b.

(* src/bio.c:38-55 binit *)
Definition binit : M bio unit :=
  modify (set_bc_lock Unlocked) ;;
  set_prev HEAD HEAD ;;
  set_next HEAD HEAD ;;
  for_each (seq 0 NBUF) (fun b => setb b (set_b_lock SFree) ;; push_front b).

(** The loops of [bget] over the list: follow [links] from [b] to the head. *)
Fixpoint walk (links : list nat) (test : nat -> bool) (b : nat) (fuel : nat) : option nat :=
  match fuel with
  | O => None
  | S fuel' =>
      if decide (b = HEAD) then None
      else if test b then Some b
      else walk links test (nth b links 0%nat) fuel'
  end.

(* src/bio.c:57-91 bget *)
Definition bget (dev blockno : Z) : M bio nat :=
  lock_acquire bc_lock_of ;;
  s <- get ;;
  match walk (nexts s) (fun b => (b_dev (buf_at s b) =? dev) && (b_blockno (buf_at s b) =? blockno))
             (nth HEAD (nexts s) 0%nat) (S NBUF) with
  | Some b =>
      setb b (fun x => set_b_refcnt (u32 (b_refcnt x + 1)) x) ;;
      lock_release bc_lock_of ;;
      sleep_acquire (buf_lock_of b) ;;
      ret b
  | None =>
      match walk (prevs s) (fun b => (b_refcnt (buf_at s b) =? 0) &&
                                     (Z.land (b_flags (buf_at s b)) B_DIRTY =? 0))
                 (nth HEAD (prevs s) 0%nat) (S NBUF) with
      | Some b =>
          setb b (fun x => Buf 0 dev blockno (b_lock x) 1 (b_data x)) ;;
          lock_release bc_lock_of ;;
          sleep_acquire (buf_lock_of b) ;;
          ret b
      | None => panic "bget: no buffers"
      end
  end.

(* src/memide.c:35-60 iderw *)
Definition iderw (b : nat) : M bio unit :=
  h <- sleep_holding (buf_lock_of b) ;;
  if negb h then panic "iderw: buf not locked"
  else
    fl <- getb b b_flags ;;
    if Z.land fl (Z.lor B_VALID B_DIRTY) =? B_VALID then panic "iderw: nothing to do"
    else
      dev <- getb b b_dev ;;
      if negb (dev =? 1) then panic "iderw: request not for disk 1"
      else
        bn <- getb b b_blockno ;;
        disksize <- gets (fun s => Z.of_nat (length (disk s))) ;;
        if disksize <=? bn then panic "iderw: block out of range"
        else
          (if truth (Z.land fl B_DIRTY)
           then
             setb b (fun x => set_b_flags (Z.land (b_flags x) (Z.lnot B_DIRTY)) x) ;;
             d <- getb b b_data ;;
             modify (fun s => set_disk (<[Z.to_nat bn := d]> (disk s)) (writes s ++ [(bn, d)]) s)
           else
             d <- gets (fun s => nth (Z.to_nat bn) (disk s) zero_block) ;;
             setb b (set_b_data d)) ;;
          setb b (fun x => set_b_flags (Z.lor (b_flags x) B_VALID) x).

(* src/bio.c:93-103 bread *)
Definition bread (dev blockno : Z) : M bio nat :=
  b <- bget dev blockno ;;
  fl <- getb b b_flags ;;
  when (Z.land fl B_VALID =? 0) (iderw b) ;;
  ret b.

(* src/bio.c:105-112 bwrite *)
Definition bwrite (b : nat) : M bio unit :=
  h <- sleep_holding (buf_lock_of b) ;;
  if negb h then panic "bwrite"
  else
    setb b (fun x => set_b_flags (Z.lor (b_flags x) B_DIRTY) x) ;;
    iderw b.

(* src/bio.c:114-136 brelse *)
Definition brelse (b : nat) : M bio unit :=
  h <- sleep_holding (buf_lock_of b) ;;
  if negb h then panic "brelse"
  else
    sleep_release (buf_lock_of b) ;;
    lock_acquire bc_lock_of ;;
    setb b (fun x => set_b_refcnt (u32 (b_refcnt x - 1)) x) ;;
    r <- getb b b_refcnt ;;
    (if r =? 0
     then
       (* no one is waiting for it. *)
       n <- next_of b ;;
       p <- prev_of b ;;
       set_prev n p ;;
       p <- prev_of b ;;
       n <- next_of b ;;
       set_next p n ;;
       push_front b
     else ret tt) ;;
    lock_release bc_lock_of.

(* ------------------------------------------------------------------ *)
(** * The doubly linked list *)

Section chain.
Implicit Types (nx : list nat) (l : list nat).

(** From [a], following [nx] visits the nodes [l] and then [z]. *)
Fixpoint chain nx (a : nat) l (z : nat) : Prop :=
  match l with
  | [] => nx !! a = Some z
  | x :: l' => nx !! a = Some x /\ chain nx x l' z
  end.

Lemma chain_app nx l1 : forall a x l2 z,
  chain nx a (l1 ++ x :: l2) z <-> chain nx a l1 x /\ chain nx x l2 z.
Proof. induction l1 as [|y l1 IH]; intros a x l2 z; simpl; [done|]. rewrite IH. naive_solver. Qed.

Lemma chain_insert nx l : forall a z n v, n ∉ a :: l -> chain nx a l z -> chain (<[n := v]> nx) a l z.
Proof.
  induction l as [|y l IH]; intros a z n v Hn Hc; simpl in *.
  - rewrite list_lookup_insert_ne; [done|]. set_solver.
  - destruct Hc as [Ha Hc]. rewrite list_lookup_insert_ne by set_solver. split; [done|].
    apply IH; [set_solver|done].
Qed.

Lemma chain_first nx a l z n : chain nx a l z -> nx !! a = Some n -> n = hd z l.
Proof. destruct l; simpl; intros; [congruence|]. naive_solver congruence. Qed.

(** Taking [b] out of the chain: its predecessor [p] now points past it. *)
Lemma chain_skip nx l2 z b n p l1 : forall a,
  NoDup (a :: l1 ++ b :: l2) -> chain nx a (l1 ++ b :: l2) z ->
  nx !! b = Some n -> nx !! p = Some b -> p ∈ a :: l1 -> chain (<[p := n]> nx) a (l1 ++ l2) z.
Proof.
  induction l1 as [|y l1 IH]; intros a Hnd Hc Hn Hp Hin; simpl in *.
  - destruct Hc as [Ha Hc]. apply list_elem_of_singleton in Hin as ->.
    assert (Hl : (a < length nx)%nat) by (by eapply lookup_lt_Some).
    apply NoDup_cons in Hnd as [Hna Hnd]. pose proof (chain_first _ _ _ _ _ Hc Hn) as ->.
    destruct l2 as [|w l2]; simpl in *; [by rewrite list_lookup_insert_eq|].
    rewrite list_lookup_insert_eq by done. split; [done|]. apply chain_insert; [set_solver|]. apply Hc.
  - destruct Hc as [Ha Hc]. apply NoDup_cons in Hnd as [Hna Hnd].
    assert (Hpa : p <> a).
    { intros ->. rewrite Ha in Hp. simplify_eq. apply NoDup_cons in Hnd as [Hnb _]. set_solver. }
    rewrite list_lookup_insert_ne by done. split; [done|]. apply IH; try done. set_solver.
Qed.

Lemma chain_push nx a o z b n :
  chain nx a o z -> NoDup (a :: o) -> b ∉ a :: o -> (b < length nx)%nat -> nx !! a = Some n ->
  chain (<[a := b]> (<[b := n]> nx)) a (b :: o) z.
Proof.
  intros Hc Hnd Hb Hl Ha. pose proof (chain_first _ _ _ _ _ Hc Ha) as ->.
  assert (Hla : (a < length nx)%nat) by (by eapply lookup_lt_Some).
  simpl. rewrite list_lookup_insert_eq by (by rewrite length_insert). split; [done|].
  assert (Hbn : <[a := b]> (<[b := hd z o]> nx) !! b = Some (hd z o)).
  { rewrite list_lookup_insert_ne by set_solver. by apply list_lookup_insert_eq. }
  destruct o as [|x o]; simpl in *; [done|]. split; [done|]. destruct Hc as [_ Hc].
  apply NoDup_cons in Hnd as [Hna _]. do 2 (apply chain_insert; [set_solver|]). done.
Qed.

(** The same insertion seen from the other direction: [b] becomes the last. *)
Lemma chain_push_last pv a o z b :
  chain pv a (rev o) z -> NoDup (a :: o) -> b ∉ a :: o -> (b < length pv)%nat -> (a < length pv)%nat ->
  z = a -> chain (<[hd a o := b]> (<[b := a]> pv)) a (rev (b :: o)) a.
Proof.
  intros Hc Hnd Hb Hl Hla ->. simpl. rewrite chain_app.
  assert (Hne : hd a o <> b) by (destruct o; simpl; set_solver).
  split; [|simpl; rewrite list_lookup_insert_ne by done; by apply list_lookup_insert_eq].
  destruct o as [|x o]; simpl in *.
  { apply list_lookup_insert_eq. by rewrite length_insert. }
  rewrite chain_app in Hc |- *. destruct Hc as [Hc Hx]. simpl in Hx.
  assert (Hlx : (x < length pv)%nat) by (by eapply lookup_lt_Some).
  split; [|simpl; apply list_lookup_insert_eq; by rewrite length_insert].
  apply NoDup_cons in Hnd as [Hna Hnd]. apply NoDup_cons in Hnd as [Hnx _].
  assert (Hin : forall y, y ∈ a :: rev o -> y = a \/ y ∈ o).
  { intros y Hy. apply elem_of_cons in Hy as [->|Hy]; [by left|right].
    by rewrite <- Permutation_rev in Hy. }
  do 2 (apply chain_insert; [intros Hi%Hin; set_solver|]). done.
Qed.

Lemma walk_chain nx test l : forall a fuel,
  chain nx a l HEAD -> HEAD ∉ l -> (length l < fuel)%nat ->
  forall s0, nx !! a = Some s0 -> walk nx test s0 fuel = List.find test l.
Proof.
  induction l as [|x l IH]; intros a fuel Hc Hh Hf s0 Hs; (destruct fuel as [|fuel]; [simpl in Hf; lia|]); simpl in *.
  - rewrite Hc in Hs. simplify_eq. by rewrite decide_True.
  - destruct Hc as [Ha Hc]. rewrite Ha in Hs. simplify_eq.
    rewrite decide_False by set_solver. destruct (test s0); [done|].
    destruct (nx !! s0) as [y|] eqn:Ey.
    + rewrite (nth_lookup_Some _ _ _ _ Ey). apply (IH s0); [done|set_solver|lia|done].
    + destruct l as [|w l]; simpl in Hc; [by rewrite Ey in Hc|]. destruct Hc as [Hc _]. by rewrite Ey in Hc.
Qed.

(** The buffers in list order, most recently used first. *)
Record dll (nx pv l : list nat) : Prop := {
  dll_next : chain nx HEAD l HEAD;
  dll_prev : chain pv HEAD (rev l) HEAD;
  dll_nodup : NoDup (HEAD :: l);
  dll_len : length nx = S NBUF /\ length pv = S NBUF;
}.

Lemma rev_split (l1 l2 : list nat) b : rev (l1 ++ b :: l2) = rev l2 ++ b :: rev l1.
Proof. rewrite rev_app_distr. simpl. by rewrite <- app_assoc. Qed.

(** The neighbours of [b]. *)
Lemma dll_pred nx pv l1 b l2 :
  dll nx pv (l1 ++ b :: l2) -> exists p, pv !! b = Some p /\ nx !! p = Some b /\ p ∈ HEAD :: l1.
Proof.
  intros [Hn Hp _ _]. rewrite rev_split, chain_app in Hp. destruct Hp as [_ Hp].
  destruct l1 as [|p l1 _] using rev_ind.
  - exists HEAD. simpl in *. split; [done|]. split; [apply Hn|left].
  - exists p. rewrite <- app_assoc in Hn. simpl in Hn. rewrite chain_app in Hn.
    rewrite rev_app_distr in Hp. simpl in *. split; [apply Hp|]. split; [apply Hn|set_solver].
Qed.

Lemma dll_flip nx pv l : dll nx pv l -> dll pv nx (rev l).
Proof.
  intros [Hn Hp Hd [H1 H2]]. split; [done|by rewrite rev_involutive| |done].
  apply NoDup_cons in Hd as [Hh Hd]. apply NoDup_cons. rewrite <- Permutation_rev. done.
Qed.

Lemma dll_succ nx pv l1 b l2 :
  dll nx pv (l1 ++ b :: l2) -> exists n, nx !! b = Some n /\ pv !! n = Some b /\ n ∈ HEAD :: rev l2.
Proof. intros H%dll_flip. rewrite rev_split in H. by apply dll_pred in H. Qed.

Lemma dll_unlink nx pv l1 b l2 n p :
  dll nx pv (l1 ++ b :: l2) -> nx !! b = Some n -> pv !! b = Some p ->
  dll (<[p := n]> nx) (<[n := p]> pv) (l1 ++ l2).
Proof.
  intros H Hn Hp.
  destruct (dll_pred _ _ _ _ _ H) as (p' & Hp' & Hnp & Hinp). rewrite Hp in Hp'. simplify_eq.
  destruct (dll_succ _ _ _ _ _ H) as (n' & Hn' & Hpn & Hinn). rewrite Hn in Hn'. simplify_eq.
  destruct (dll_flip _ _ _ H) as [_ _ Hdr _]. destruct H as [H1 H2 Hd [L1 L2]].
  rewrite rev_split in H2, Hdr. split.
  - by apply (chain_skip nx l2 HEAD b).
  - rewrite rev_app_distr. by apply (chain_skip pv (rev l1) HEAD b).
  - apply NoDup_cons in Hd as [Hh Hd]. apply NoDup_cons. split; [set_solver|].
    rewrite <- Permutation_middle in Hd. by apply NoDup_cons in Hd as [_ Hd].
  - by rewrite !length_insert.
Qed.

Lemma dll_push nx pv l b n :
  dll nx pv l -> b ∉ HEAD :: l -> (b < NBUF)%nat -> nx !! HEAD = Some n ->
  dll (<[HEAD := b]> (<[b := n]> nx)) (<[n := b]> (<[b := HEAD]> pv)) (b :: l).
Proof.
  intros [H1 H2 Hd [L1 L2]] Hb Hlt Hn. pose proof (chain_first _ _ _ _ _ H1 Hn) as ->. split.
  - apply chain_push; try done. lia.
  - apply chain_push_last with HEAD; try done; unfold HEAD; lia.
  - apply NoDup_cons in Hd as [Hh Hd]. apply not_elem_of_cons in Hb as [Hb1 Hb2].
    do 2 (apply NoDup_cons; split; [set_solver|]). done.
  - by rewrite !length_insert.
Qed.
End chain.

(* ------------------------------------------------------------------ *)
(** * The invariant of the cache *)

(** A buffer between two calls.  [mine]: the caller holds it. *)
Record buf_ok (d : list block) (mine : bool) (x : buf) : Prop := {
  bf_data : block_ok (b_data x);
  bf_used : (b_dev x = 0 /\ b_flags x = 0 /\ mine = false) \/
            (b_dev x = 1 /\ (b_flags x = 2 \/ b_flags x = 6) /\ 0 <= b_blockno x < Z.of_nat (length d));
  bf_lock : if mine then b_lock x = SMine /\ b_refcnt x = 1 else b_lock x = SFree /\ b_refcnt x = 0;
  bf_clean : mine = false -> b_flags x = 2 -> d !! Z.to_nat (b_blockno x) = Some (b_data x);
}.

(** [l] is the list order, [held] are the buffers the caller holds. *)
Record bio_inv (s : bio) (l : list nat) (held : gset nat) : Prop := {
  bi_lock : bc_lock s = Unlocked;
  bi_dll : dll (nexts s) (prevs s) l;
  bi_order : l ≡ₚ seq 0 NBUF;
  bi_length : length (bufs s) = NBUF;
  bi_bufs : forall i x, bufs s !! i = Some x -> buf_ok (disk s) (bool_decide (i ∈ held)) x;
  bi_held : forall i, i ∈ held -> (i < NBUF)%nat;
  bi_unique : forall i j x y, bufs s !! i = Some x -> bufs s !! j = Some y ->
    b_dev x = 1 -> b_dev y = 1 -> b_blockno x = b_blockno y -> i = j;
  bi_disk : Forall block_ok (disk s);
}.

(** The copy of block [b] in the cache, and the logical contents of [b]. *)
Definition caches (b : Z) (x : buf) : Prop := b_dev x = 1 /\ b_blockno x = b.
#[export] Instance caches_dec b x : Decision (caches b x).
Proof. unfold caches. apply _. Defined.

Definition on_disk (d : list block) (b : Z) : block :=
  if 0 <=? b then nth (Z.to_nat b) d zero_block else zero_block.

Definition lc (s : bio) (b : Z) : block :=
  match list_find (caches b) (bufs s) with
  | Some (_, x) => b_data x
  | None => on_disk (disk s) b
  end.

(** Buffers that cannot be recycled: held, or pinned by the log. *)
Definition busy (x : buf) : bool := negb (b_refcnt x =? 0) || (b_flags x =? 6).
Definition nbusy (s : bio) : nat := length (List.filter busy (bufs s)).

Lemma on_disk_lookup d b x : 0 <= b -> d !! Z.to_nat b = Some x -> on_disk d b = x.
Proof.
  intros Hb Hx. unfold on_disk. destruct (Z.leb_spec 0 b); [|lia]. by rewrite (nth_lookup_Some _ _ _ _ Hx).
Qed.

Lemma on_disk_nth d b : 0 <= b -> nth (Z.to_nat b) d zero_block = on_disk d b.
Proof. intros Hb. unfold on_disk. by destruct (Z.leb_spec 0 b); [|lia]. Qed.

Lemma on_disk_insert d b b' x :
  0 <= b < Z.of_nat (length d) ->
  on_disk (<[Z.to_nat b := x]> d) b' = if decide (b' = b) then x else on_disk d b'.
Proof.
  intros Hb. unfold on_disk. destruct (Z.leb_spec 0 b') as [Hb'|Hb'].
  - rewrite !nth_lookup. case_decide as Heq; [subst; by rewrite list_lookup_insert_eq by lia|].
    rewrite list_lookup_insert_ne by lia. done.
  - case_decide; [lia|done].
Qed.

Lemma buf_at_lookup s b x : bufs s !! b = Some x -> buf_at s b = x.
Proof. intros H. unfold buf_at. by apply nth_lookup_Some. Qed.

Lemma setb_ok s b f x : bufs s !! b = Some x -> setb b f s = Ok tt (set_bufs (<[b := f x]> (bufs s)) s).
Proof. intros H. unfold setb, modify. by rewrite (alter_insert _ _ _ x). Qed.

Lemma lc_cached s l held i x :
  bio_inv s l held -> bufs s !! i = Some x -> b_dev x = 1 -> lc s (b_blockno x) = b_data x.
Proof.
  intros Hi Hx Hd. unfold lc.
  destruct (list_find (caches (b_blockno x)) (bufs s)) as [[j y]|] eqn:E.
  - apply list_find_Some in E as (Hy & [Hyd Hyb] & _).
    rewrite (bi_unique _ _ _ Hi i j x y) in Hx; [by simplify_eq|done..].
  - apply list_find_None in E. rewrite Forall_forall in E. exfalso.
    apply (E x); [|done]. apply list_elem_of_lookup. eauto.
Qed.

Lemma lc_uncached s b :
  (forall i x, bufs s !! i = Some x -> ~ caches b x) -> lc s b = on_disk (disk s) b.
Proof.
  intros H. unfold lc. destruct (list_find (caches b) (bufs s)) as [[j y]|] eqn:E; [|done].
  apply list_find_Some in E as (Hy & Hc & _). by apply H in Hy.
Qed.

Lemma count_insert {A} (f : A -> bool) (l : list A) i x y :
  l !! i = Some x ->
  (length (List.filter f (<[i := y]> l)) + (if f x then 1 else 0) =
   length (List.filter f l) + (if f y then 1 else 0))%nat.
Proof.
  revert i. induction l as [|z l IH]; intros i Hi; [done|]. destruct i as [|i]; simpl in *.
  - simplify_eq. destruct (f x), (f y); simpl; lia.
  - specialize (IH i Hi). destruct (f z); simpl; lia.
Qed.

Lemma find_some_split {A} (f : A -> bool) l x :
  List.find f l = Some x -> x ∈ l /\ f x = true.
Proof. intros H. apply find_some in H as [H1 H2]. split; [by apply list_elem_of_In|done]. Qed.

(** With a buffer to spare, the second loop of [bget] finds one. *)
Lemma spare_exists s l held :
  bio_inv s l held -> (nbusy s < NBUF)%nat ->
  exists i, List.find (fun b => (b_refcnt (buf_at s b) =? 0) && (Z.land (b_flags (buf_at s b)) B_DIRTY =? 0))
    (rev l) = Some i.
Proof.
  intros Hi Hb.
  destruct (List.find _ (rev l)) as [i|] eqn:E; [by exists i|]. exfalso.
  assert (Hall : List.filter busy (bufs s) = bufs s).
  { assert (Forall (fun x => busy x = true) (bufs s)) as Hf.
    { apply Forall_lookup. intros i x Hx. pose proof (bi_bufs _ _ _ Hi i x Hx) as Hok.
      assert (Hin : In i (rev l)).
      { apply list_elem_of_In. rewrite <- Permutation_rev, (bi_order _ _ _ Hi). apply elem_of_seq.
        apply lookup_lt_Some in Hx. rewrite (bi_length _ _ _ Hi) in Hx. lia. }
      apply (find_none _ _ E) in Hin. rewrite (buf_at_lookup s i x Hx) in Hin. unfold busy.
      apply andb_false_iff in Hin as [Hin|Hin]; [by rewrite Hin|].
      destruct (bf_used _ _ _ Hok) as [(_ & Hf & _)|(_ & [Hf|Hf] & _)]; rewrite Hf in Hin |- *; try done.
      apply orb_true_r. }
    clear -Hf. induction Hf as [|x l Hx Hf IH]; simpl; [done|]. by rewrite Hx, IH. }
  unfold nbusy in Hb. rewrite Hall, (bi_length _ _ _ Hi) in Hb. lia.
Qed.

(* ------------------------------------------------------------------ *)
(** * The operations on the invariant *)

Lemma bufs_lookup s l held i : bio_inv s l held -> i ∈ l -> exists x, bufs s !! i = Some x.
Proof.
  intros Hi Hin. apply lookup_lt_is_Some_2. rewrite (bi_length _ _ _ Hi).
  rewrite (bi_order _ _ _ Hi), elem_of_seq in Hin. lia.
Qed.

Lemma lookup_order s l held i x : bio_inv s l held -> bufs s !! i = Some x -> i ∈ l.
Proof.
  intros Hi Hx. rewrite (bi_order _ _ _ Hi). apply elem_of_seq.
  apply lookup_lt_Some in Hx. rewrite (bi_length _ _ _ Hi) in Hx. lia.
Qed.

(** Both loops of [bget] see the buffers in list order. *)
Lemma walk_order s l held test :
  bio_inv s l held ->
  walk (nexts s) test (nth HEAD (nexts s) 0%nat) (S NBUF) = List.find test l /\
  walk (prevs s) test (nth HEAD (prevs s) 0%nat) (S NBUF) = List.find test (rev l).
Proof.
  intros Hi. pose proof (bi_dll _ _ _ Hi) as Hd.
  assert (Hlen : length l = NBUF) by (by rewrite (bi_order _ _ _ Hi), length_seq).
  assert (Hgo : forall nx l', chain nx HEAD l' HEAD -> HEAD ∉ l' -> length l' = NBUF ->
    walk nx test (nth HEAD nx 0%nat) (S NBUF) = List.find test l').
  { intros nx l' Hc Hh Hl. destruct (nx !! HEAD) as [a|] eqn:Ea.
    - rewrite (nth_lookup_Some _ _ _ _ Ea). apply (walk_chain nx test l' HEAD); [done|done|lia|done].
    - destruct l' as [|w l']; simpl in Hc; [|destruct Hc as [Hc _]]; by rewrite Ea in Hc. }
  pose proof (dll_nodup _ _ _ Hd) as Hnd. apply NoDup_cons in Hnd as [Hh _].
  split; apply Hgo; try apply Hd; try done.
  - by rewrite <- Permutation_rev.
  - by rewrite length_rev.
Qed.

(** Replacing buffer [i]. *)
Lemma bio_inv_insert s l held i x y (mine : bool) :
  bio_inv s l held -> bufs s !! i = Some x -> buf_ok (disk s) mine y ->
  (b_dev y = 1 -> forall j z, j <> i -> bufs s !! j = Some z -> ~ caches (b_blockno y) z) ->
  bio_inv (set_bufs (<[i := y]> (bufs s)) s) l (if mine then {[i]} ∪ held else held ∖ {[i]}).
Proof.
  intros [H1 H2 H3 H4 H5 H6 H7 H8] Hx Hy Hu.
  assert (Hlt : (i < NBUF)%nat) by (apply lookup_lt_Some in Hx; lia).
  split; simpl; try done.
  - by rewrite length_insert.
  - intros j z Hz. destruct (decide (j = i)) as [->|Hne].
    + rewrite list_lookup_insert_eq in Hz by lia. simplify_eq.
      destruct mine; [rewrite bool_decide_eq_true_2 by set_solver|rewrite bool_decide_eq_false_2 by set_solver]; done.
    + rewrite list_lookup_insert_ne in Hz by done. specialize (H5 j z Hz).
      replace (bool_decide (j ∈ if mine then {[i]} ∪ held else held ∖ {[i]})) with (bool_decide (j ∈ held)); [done|].
      apply bool_decide_ext. destruct mine; set_solver.
  - intros j Hj. destruct (decide (j = i)) as [->|]; [done|]. apply H6. destruct mine; set_solver.
  - intros j k z w Hz Hw Hdz Hdw Hb.
    destruct (decide (j = i)) as [->|Hj], (decide (k = i)) as [->|Hk]; [done| | |].
    + rewrite list_lookup_insert_eq in Hz by lia. rewrite list_lookup_insert_ne in Hw by done. simplify_eq.
      exfalso. by apply (Hu Hdz k w).
    + rewrite list_lookup_insert_eq in Hw by lia. rewrite list_lookup_insert_ne in Hz by done. simplify_eq.
      exfalso. by apply (Hu Hdw j z).
    + rewrite list_lookup_insert_ne in Hz, Hw by done. by apply (H7 j k z w).
Qed.

Lemma lc_insert s l held l' held' i x y b :
  bio_inv s l held -> bio_inv (set_bufs (<[i := y]> (bufs s)) s) l' held' -> bufs s !! i = Some x ->
  lc (set_bufs (<[i := y]> (bufs s)) s) b =
  if decide (caches b y) then b_data y
  else if decide (caches b x) then on_disk (disk s) b
  else lc s b.
Proof.
  intros Hi Hi' Hx. set (s' := set_bufs _ s) in *.
  assert (Hlt : (i < length (bufs s))%nat) by (by eapply lookup_lt_Some).
  assert (Hy : bufs s' !! i = Some y) by (simpl; by apply list_lookup_insert_eq).
  case_decide as Hc; [destruct Hc as [Hd <-]; by apply (lc_cached s' l' held' i)|].
  destruct (list_find (caches b) (bufs s')) as [[j z]|] eqn:E.
  - apply list_find_Some in E as (Hz & [Hzd <-] & _).
    rewrite (lc_cached s' l' held' j z) by done.
    assert (Hji : j <> i) by (intros ->; rewrite Hy in Hz; simplify_eq; by apply Hc).
    simpl in Hz. rewrite list_lookup_insert_ne in Hz by done.
    case_decide as Hcx; [|by rewrite (lc_cached s l held j z)].
    destruct Hcx as [Hxd Hxb]. exfalso. apply Hji. by apply (bi_unique _ _ _ Hi j i z x).
  - apply list_find_None in E. rewrite Forall_forall in E.
    assert (Hno : forall j z, bufs s' !! j = Some z -> ~ caches b z).
    { intros j z Hz. apply E, list_elem_of_lookup. eauto. }
    rewrite (lc_uncached s' b Hno). case_decide as Hcx; [done|].
    rewrite (lc_uncached s b); [done|]. intros j z Hz. destruct (decide (j = i)) as [->|Hne]; [by simplify_eq|].
    apply (Hno j). simpl. by rewrite list_lookup_insert_ne.
Qed.

(** The blocks pinned in the cache by the log. *)
Definition pinned (s : bio) (b : Z) : Prop :=
  exists i x, bufs s !! i = Some x /\ caches b x /\ b_flags x = 6.

Lemma pinned_insert s i x y b :
  bufs s !! i = Some x ->
  (caches b y /\ b_flags y = 6 <-> caches b x /\ b_flags x = 6) ->
  pinned (set_bufs (<[i := y]> (bufs s)) s) b <-> pinned s b.
Proof.
  intros Hx Hxy. assert (Hlt : (i < length (bufs s))%nat) by (by eapply lookup_lt_Some).
  split; intros (j & z & Hz & Hc); destruct (decide (j = i)) as [->|Hne].
  - simpl in Hz. rewrite list_lookup_insert_eq in Hz by done. simplify_eq.
    exists i, x. split; [done|by apply Hxy].
  - simpl in Hz. rewrite list_lookup_insert_ne in Hz by done. by exists j, z.
  - simplify_eq. exists i, y. simpl. rewrite list_lookup_insert_eq by done. split; [done|by apply Hxy].
  - exists j, z. simpl. by rewrite list_lookup_insert_ne.
Qed.

(** What stays the same when the cache only moves blocks in and out. *)
Record same_blocks (s s' : bio) : Prop := {
  sb_disk : disk s' = disk s;
  sb_writes : writes s' = writes s;
  sb_lc : forall b, lc s' b = lc s b;
  sb_pinned : forall b, pinned s' b <-> pinned s b;
}.

Definition mine (x : buf) : buf := set_b_lock SMine (set_b_refcnt 1 x).

(** The result of [bread]: buffer [i], locked by the caller, with block [b]. *)
Record bread_post (s : bio) (l : list nat) (held : gset nat) (b : Z) (i : nat) (s' : bio) : Prop := {
  bp_inv : bio_inv s' l ({[i]} ∪ held);
  bp_new : i ∉ held;
  bp_same : same_blocks s s';
  bp_buf : exists y, bufs s' !! i = Some y /\ caches b y /\ b_data y = lc s b /\
    (b_flags y = 6 \/ on_disk (disk s) b = b_data y) /\ (b_flags y = 6 <-> pinned s b) /\
    nbusy s' = (nbusy s + if (b_flags y =? 6)%Z then 0 else 1)%nat;
  bp_other : forall j, j <> i -> bufs s' !! j = bufs s !! j;
}.

Lemma bget_locks s i x f y :
  bc_lock s = HeldHere -> bufs s !! i = Some x -> f x = y -> b_lock y = SFree ->
  (setb i f ;; lock_release bc_lock_of ;; sleep_acquire (buf_lock_of i) ;; ret i) s =
  Ok i (set_bc_lock Unlocked (set_bufs (<[i := set_b_lock SMine y]> (bufs s)) s)).
Proof.
  intros Hl Hx Hf Hlk. rewrite (bind_ok _ _ _ _ _ (setb_ok s i f x Hx)), Hf.
  rewrite bind_release by done.
  assert (Hlt : (i < length (bufs s))%nat) by (by eapply lookup_lt_Some).
  set (s1 := over bc_lock_of Unlocked _).
  assert (Hy : bufs s1 !! i = Some y) by (simpl; by apply list_lookup_insert_eq).
  unfold sleep_acquire. rewrite bind_assoc. unfold bind at 1, gets. simpl view.
  rewrite (buf_at_lookup s1 i y Hy), Hlk. unfold bind, modify, ret. simpl over.
  rewrite (alter_insert _ _ _ y) by done. simpl. by rewrite list_insert_insert_eq.
Qed.

Lemma bread_hit s l held b i x :
  bio_inv s l held -> bufs s !! i = Some x -> caches b x -> i ∉ held ->
  List.find (fun j => (b_dev (buf_at s j) =? 1) && (b_blockno (buf_at s j) =? b)) l = Some i ->
  bread 1 b s = Ok i (set_bufs (<[i := mine x]> (bufs s)) s).
Proof.
  intros Hi Hx [Hd Hb] Hnh Hfind. unfold bread, bget.
  set (s1 := over bc_lock_of HeldHere s).
  destruct (walk_order s l held (fun j => (b_dev (buf_at s j) =? 1) && (b_blockno (buf_at s j) =? b)) Hi) as [Hw _].
  pose proof (bi_bufs _ _ _ Hi i x Hx) as Hok. rewrite bool_decide_eq_false_2 in Hok by done.
  destruct (bf_lock _ _ _ Hok) as [Hlk Hrc].
  erewrite bind_ok.
  2:{ rewrite bind_acquire by apply Hi. fold s1. unfold bind at 1, get.
      change (nexts s1) with (nexts s). change (buf_at s1) with (buf_at s). rewrite Hw, Hfind.
      eapply bget_locks; [done|exact Hx|reflexivity|done]. }
  rewrite Hrc. change (u32 (0 + 1)) with 1. set (s2 := set_bc_lock _ _).
  assert (Hy : bufs s2 !! i = Some (mine x)).
  { simpl. apply list_lookup_insert_eq. by eapply lookup_lt_Some. }
  unfold getb, bind at 1, gets. rewrite (buf_at_lookup s2 i _ Hy).
  replace (Z.land (b_flags (mine x)) B_VALID =? 0) with false.
  2:{ simpl. destruct (bf_used _ _ _ Hok) as [(H0 & _)|(_ & [->| ->] & _)]; [congruence|done|done]. }
  unfold when, bind, ret. f_equal. unfold s2, s1. destruct s as [lk ? ? ? ? ?]. simpl.
  destruct Hi as [H1 _ _ _ _ _ _ _]. simpl in H1. by subst.
Qed.

(** [iderw] on a locked buffer: a clean, invalid buffer is read, ... *)
Lemma iderw_read s i x :
  bufs s !! i = Some x -> b_lock x = SMine -> b_flags x = 0 -> b_dev x = 1 ->
  0 <= b_blockno x < Z.of_nat (length (disk s)) ->
  iderw i s = Ok tt (set_bufs (<[i := Buf 2 1 (b_blockno x) SMine (b_refcnt x)
    (nth (Z.to_nat (b_blockno x)) (disk s) zero_block)]> (bufs s)) s).
Proof.
  intros Hx Hl Hf Hd Hb. unfold iderw, sleep_holding, getb.
  unfold bind at 1 2, gets. simpl view. rewrite (buf_at_lookup s i x Hx), Hl. simpl.
  unfold bind at 1. rewrite (buf_at_lookup s i x Hx), Hf. simpl.
  unfold bind at 1. rewrite (buf_at_lookup s i x Hx), Hd. simpl.
  unfold bind at 1 2. rewrite (buf_at_lookup s i x Hx).
  destruct (Z.leb_spec (Z.of_nat (length (disk s))) (b_blockno x)); [lia|].
  unfold bind at 1 2. rewrite (setb_ok s i _ x Hx).
  erewrite setb_ok by (simpl; apply list_lookup_insert_eq; by eapply lookup_lt_Some).
  simpl. rewrite list_insert_insert_eq. destruct x; simpl in *; by subst.
Qed.

(** ... a dirty one is written. *)
Lemma iderw_write s i x :
  bufs s !! i = Some x -> b_lock x = SMine -> b_flags x = 6 -> b_dev x = 1 ->
  0 <= b_blockno x < Z.of_nat (length (disk s)) ->
  iderw i s = Ok tt (set_disk (<[Z.to_nat (b_blockno x) := b_data x]> (disk s))
    (writes s ++ [(b_blockno x, b_data x)]) (set_bufs (<[i := set_b_flags 2 x]> (bufs s)) s)).
Proof.
  intros Hx Hl Hf Hd Hb. unfold iderw, sleep_holding, getb.
  unfold bind at 1 2, gets. simpl view. rewrite (buf_at_lookup s i x Hx), Hl. simpl.
  unfold bind at 1. rewrite (buf_at_lookup s i x Hx), Hf. simpl.
  unfold bind at 1. rewrite (buf_at_lookup s i x Hx), Hd. simpl.
  unfold bind at 1 2. rewrite (buf_at_lookup s i x Hx).
  destruct (Z.leb_spec (Z.of_nat (length (disk s))) (b_blockno x)); [lia|].
  assert (Hlt : (i < length (bufs s))%nat) by (by eapply lookup_lt_Some).
  unfold bind at 1 2. rewrite (setb_ok s i _ x Hx), Hf. change (Z.land 6 (Z.lnot B_DIRTY)) with 2.
  set (s1 := set_bufs _ s). assert (Hx1 : bufs s1 !! i = Some (set_b_flags 2 x))
    by (simpl; by apply list_lookup_insert_eq).
  unfold bind at 1. rewrite (buf_at_lookup s1 i _ Hx1). unfold modify.
  erewrite setb_ok by exact Hx1. simpl. by rewrite list_insert_insert_eq.
Qed.

Lemma bread_miss s l held b i x :
  bio_inv s l held -> bufs s !! i = Some x -> i ∉ held -> 0 <= b < Z.of_nat (length (disk s)) ->
  List.find (fun j => (b_dev (buf_at s j) =? 1) && (b_blockno (buf_at s j) =? b)) l = None ->
  List.find (fun j => (b_refcnt (buf_at s j) =? 0) && (Z.land (b_flags (buf_at s j)) B_DIRTY =? 0)) (rev l) = Some i ->
  bread 1 b s = Ok i (set_bufs (<[i := Buf 2 1 b SMine 1 (on_disk (disk s) b)]> (bufs s)) s).
Proof.
  intros Hi Hx Hnh Hb Hnone Hfind. unfold bread, bget.
  set (s1 := over bc_lock_of HeldHere s).
  destruct (walk_order s l held (fun j => (b_dev (buf_at s j) =? 1) && (b_blockno (buf_at s j) =? b)) Hi) as [Hw _].
  destruct (walk_order s l held (fun j => (b_refcnt (buf_at s j) =? 0) &&
    (Z.land (b_flags (buf_at s j)) B_DIRTY =? 0)) Hi) as [_ Hw'].
  pose proof (bi_bufs _ _ _ Hi i x Hx) as Hok. rewrite bool_decide_eq_false_2 in Hok by done.
  destruct (bf_lock _ _ _ Hok) as [Hlk Hrc].
  erewrite bind_ok.
  2:{ rewrite bind_acquire by apply Hi. fold s1. unfold bind at 1, get.
      change (nexts s1) with (nexts s). change (prevs s1) with (prevs s).
      change (buf_at s1) with (buf_at s). rewrite Hw, Hnone, Hw', Hfind.
      eapply bget_locks; [done|exact Hx|reflexivity|done]. }
  set (s2 := set_bc_lock _ _).
  assert (Hlt : (i < length (bufs s))%nat) by (by eapply lookup_lt_Some).
  assert (Hy : bufs s2 !! i = Some (Buf 0 1 b SMine 1 (b_data x))).
  { simpl. by apply list_lookup_insert_eq. }
  unfold getb, bind at 1, gets. rewrite (buf_at_lookup s2 i _ Hy). simpl Z.eqb. unfold when.
  rewrite (bind_ok _ _ _ _ _ (iderw_read s2 i _ Hy eq_refl eq_refl eq_refl Hb)).
  unfold ret. simpl. rewrite list_insert_insert_eq. rewrite on_disk_nth by lia. f_equal. unfold s2, s1. simpl.
  destruct Hi as [H1 _ _ _ _ _ _ _]. destruct s as [lk ? ? ? ? ?]. simpl in *. by subst.
Qed.

Lemma disk_block s l held b :
  bio_inv s l held -> 0 <= b < Z.of_nat (length (disk s)) ->
  disk s !! Z.to_nat b = Some (on_disk (disk s) b) /\ block_ok (on_disk (disk s) b).
Proof.
  intros Hi Hb. destruct (lookup_lt_is_Some_2 (disk s) (Z.to_nat b)) as [d Hd]; [lia|].
  rewrite (on_disk_lookup _ _ d) by (done || lia). split; [done|].
  by apply (Forall_lookup_1 _ _ _ _ (bi_disk _ _ _ Hi) Hd).
Qed.

Lemma busy_free d x : buf_ok d false x -> busy x = (b_flags x =? 6).
Proof. intros H. destruct (bf_lock _ _ _ H) as [_ Hr]. unfold busy. by rewrite Hr. Qed.

Lemma bread_hit_post s l held b i x :
  bio_inv s l held -> bufs s !! i = Some x -> caches b x -> i ∉ held ->
  bread_post s l held b i (set_bufs (<[i := mine x]> (bufs s)) s).
Proof.
  intros Hi Hx Hc Hnh. pose proof (bi_bufs _ _ _ Hi i x Hx) as Hok.
  rewrite bool_decide_eq_false_2 in Hok by done.
  assert (Hlt : (i < length (bufs s))%nat) by (by eapply lookup_lt_Some).
  assert (Hinv : bio_inv (set_bufs (<[i := mine x]> (bufs s)) s) l ({[i]} ∪ held)).
  { apply (bio_inv_insert s l held i x (mine x) true Hi Hx).
    - destruct Hok as [H1 H2 H3 H4]. split; simpl; try done. right. destruct H2 as [(H2 & _)|H2]; [|done].
      destruct Hc. congruence.
    - simpl. intros Hd j z Hne Hz [Hzd Hzb]. apply Hne. by apply (bi_unique _ _ _ Hi j i z x). }
  split; try done.
  - split; [done|done| |].
    + intros b'. rewrite (lc_insert s l held l ({[i]} ∪ held) i x) by done.
      case_decide as Hd; [destruct Hd as [Hd <-]; symmetry; by apply (lc_cached s l held i x)|].
      case_decide as Hd'; [|done]. exfalso. by apply Hd.
    + intros b'. by apply pinned_insert with x.
  - exists (mine x). simpl. rewrite list_lookup_insert_eq by done. split; [done|]. split; [done|].
    destruct Hc as [Hd <-]. split; [symmetry; by apply (lc_cached s l held i x)|]. split; [|split].
    + destruct (bf_used _ _ _ Hok) as [(H0 & _)|(_ & [Hf|Hf] & Hr)]; [congruence|right|by left].
      apply on_disk_lookup; [lia|by apply (bf_clean _ _ _ Hok)].
    + split; [intros Hf; by exists i, x|]. intros (j & z & Hz & [Hzd Hzb] & Hzf).
      assert (j = i) as -> by (by apply (bi_unique _ _ _ Hi j i z x)). by simplify_eq.
    + pose proof (count_insert busy (bufs s) i x (mine x) Hx) as Hcount. unfold nbusy. simpl bufs.
      rewrite (busy_free _ _ Hok) in Hcount. change (busy (mine x)) with true in Hcount.
      destruct (b_flags x =? 6); lia.
  - intros j Hj. simpl. by rewrite list_lookup_insert_ne.
Qed.

Lemma bread_miss_post s l held b i x :
  bio_inv s l held -> bufs s !! i = Some x -> i ∉ held -> 0 <= b < Z.of_nat (length (disk s)) ->
  (forall j z, bufs s !! j = Some z -> ~ caches b z) -> b_flags x <> 6 ->
  bread_post s l held b i
    (set_bufs (<[i := Buf 2 1 b SMine 1 (on_disk (disk s) b)]> (bufs s)) s).
Proof.
  intros Hi Hx Hnh Hb Hno Hfl. set (y := Buf _ _ _ _ _ _).
  pose proof (bi_bufs _ _ _ Hi i x Hx) as Hok. rewrite bool_decide_eq_false_2 in Hok by done.
  assert (Hlt : (i < length (bufs s))%nat) by (by eapply lookup_lt_Some).
  destruct (disk_block s l held b Hi Hb) as [Hdb Hdok].
  assert (Hinv : bio_inv (set_bufs (<[i := y]> (bufs s)) s) l ({[i]} ∪ held)).
  { apply (bio_inv_insert s l held i x y true Hi Hx).
    - split; simpl; try done. right. split; [done|]. split; [by left|done].
    - simpl. intros _ j z _. apply Hno. }
  split; try done.
  - split; [done|done| |].
    + intros b'. rewrite (lc_insert s l held l ({[i]} ∪ held) i x) by done.
      case_decide as Hd; [destruct Hd as [_ <-]; simpl; by rewrite lc_uncached|].
      case_decide as Hd'; [|done]. destruct Hd' as [Hd1 <-].
      rewrite (lc_cached s l held i x) by done.
      destruct (bf_used _ _ _ Hok) as [(H0 & _)|(_ & [Hf|Hf] & Hr)]; [congruence| |congruence].
      apply on_disk_lookup; [lia|by apply (bf_clean _ _ _ Hok)].
    + intros b'. apply pinned_insert with x; [done|]. simpl. naive_solver.
  - exists y. simpl. rewrite list_lookup_insert_eq by done. split; [done|]. split; [done|].
    split; [by rewrite lc_uncached|]. split; [by right|]. split.
    + split; [done|]. intros (j & z & Hz & Hc & _). by apply Hno in Hz.
    + pose proof (count_insert busy (bufs s) i x y Hx) as Hcount. unfold nbusy. simpl bufs.
      rewrite (busy_free _ _ Hok) in Hcount. change (busy y) with true in Hcount.
      destruct (Z.eqb_spec (b_flags x) 6); [done|]. lia.
  - intros j Hj. simpl. by rewrite list_lookup_insert_ne.
Qed.

(** [bread] of a block that the caller does not hold, with a buffer to spare or
    the block pinned in the cache. *)
Lemma bread_ok s l held b :
  bio_inv s l held -> 0 <= b < Z.of_nat (length (disk s)) ->
  (forall i x, i ∈ held -> bufs s !! i = Some x -> b_blockno x <> b) ->
  (nbusy s < NBUF)%nat \/ pinned s b ->
  exists i s', bread 1 b s = Ok i s' /\ bread_post s l held b i s'.
Proof.
  intros Hi Hb Hnh Hspare.
  destruct (List.find (fun j => (b_dev (buf_at s j) =? 1) && (b_blockno (buf_at s j) =? b)) l) as [i|] eqn:E.
  - pose proof (find_some_split _ _ _ E) as [Hin Ht]. destruct (bufs_lookup _ _ _ _ Hi Hin) as [x Hx].
    rewrite (buf_at_lookup s i x Hx) in Ht. apply andb_true_iff in Ht as [Hd%Z.eqb_eq Hbn%Z.eqb_eq].
    assert (Hni : i ∉ held) by (intros Hh; by apply (Hnh i x)).
    exists i. eexists. split; [by apply (bread_hit s l held b i x)|by apply bread_hit_post].
  - assert (Hno : forall j z, bufs s !! j = Some z -> ~ caches b z).
    { intros j z Hz [Hzd Hzb].
      assert (Hj : In j l) by (apply list_elem_of_In; by apply (lookup_order s l held j z)).
      apply (find_none _ _ E) in Hj. by rewrite (buf_at_lookup s j z Hz), Hzd, Hzb, !Z.eqb_refl in Hj. }
    destruct Hspare as [Hspare|(j & z & Hz & Hc & _)]; [|by apply Hno in Hz].
    destruct (spare_exists s l held Hi Hspare) as [i Hf].
    pose proof (find_some_split _ _ _ Hf) as [Hin Ht]. rewrite <- Permutation_rev in Hin.
    destruct (bufs_lookup _ _ _ _ Hi Hin) as [x Hx]. rewrite (buf_at_lookup s i x Hx) in Ht.
    apply andb_true_iff in Ht as [Hr%Z.eqb_eq Hfl%Z.eqb_eq].
    assert (Hni : i ∉ held).
    { intros Hh. pose proof (bi_bufs _ _ _ Hi i x Hx) as Hok. rewrite bool_decide_eq_true_2 in Hok by done.
      destruct (bf_lock _ _ _ Hok) as [_ H1]. congruence. }
    exists i. eexists. split; [by apply (bread_miss s l held b i x)|]. apply (bread_miss_post _ _ _ _ _ x); try done.
    intros H6. by rewrite H6 in Hfl.
Qed.

Definition set_links nx pv s := set_prevs pv (set_nexts nx s).

Lemma push_front_ok s l b :
  dll (nexts s) (prevs s) l -> b ∉ HEAD :: l -> (b < NBUF)%nat ->
  exists nx pv, push_front b s = Ok tt (set_links nx pv s) /\ dll nx pv (b :: l).
Proof.
  intros Hd Hb Hlt.
  destruct (lookup_lt_is_Some_2 (nexts s) HEAD) as [n Hn];
    [destruct (dll_len _ _ _ Hd) as [-> _]; unfold HEAD; lia|].
  do 2 eexists. split; [|exact (dll_push _ _ _ _ _ Hd Hb Hlt Hn)].
  unfold push_front, next_of, set_next, set_prev. mred.
  rewrite (nth_lookup_Some _ _ _ _ Hn).
  assert (HEAD <> b) by set_solver.
  rewrite !nth_lookup, list_lookup_insert_ne, Hn by done. done.
Qed.

Lemma relink_ok s l1 b l2 :
  dll (nexts s) (prevs s) (l1 ++ b :: l2) -> (b < NBUF)%nat ->
  exists nx pv,
    (n <- next_of b ;; p <- prev_of b ;; set_prev n p ;;
     p <- prev_of b ;; n <- next_of b ;; set_next p n ;; push_front b) s = Ok tt (set_links nx pv s) /\
    dll nx pv (b :: l1 ++ l2).
Proof.
  intros Hd Hlt. destruct (dll_pred _ _ _ _ _ Hd) as (p & Hp & Hnp & Hinp).
  destruct (dll_succ _ _ _ _ _ Hd) as (n & Hn & Hpn & Hinn).
  pose proof (dll_nodup _ _ _ Hd) as Hnd.
  assert (Hnb : n <> b /\ b ∉ HEAD :: l1 ++ l2).
  { apply NoDup_cons in Hnd as [Hh Hnd]. rewrite <- Permutation_middle in Hnd. apply NoDup_cons in Hnd as [Hb _].
    assert (Hr : n ∈ rev l2 -> n ∈ l2) by (by rewrite <- Permutation_rev). set_solver. }
  destruct Hnb as [Hnb Hbl].
  set (s1 := set_links (<[p := n]> (nexts s)) (<[n := p]> (prevs s)) s).
  destruct (push_front_ok s1 (l1 ++ l2) b) as (nx & pv & Hpush & Hd');
    [by apply (dll_unlink _ _ l1 b l2)|done|done|].
  exists nx, pv. split; [|done].
  unfold next_of, prev_of, set_next, set_prev. unfold bind at 1 2 3 4 5 6, gets, modify. simpl prevs. simpl nexts.
  rewrite (nth_lookup_Some _ _ _ _ Hn), (nth_lookup_Some _ _ _ _ Hp).
  rewrite nth_lookup, list_lookup_insert_ne, Hp by done. simpl default.
  etrans; [exact Hpush|]. done.
Qed.

Section held.
Context (s : bio) (l : list nat) (held : gset nat) (i : nat) (x : buf).
Context (Hi : bio_inv s l held) (Hx : bufs s !! i = Some x) (Hh : i ∈ held).

Lemma held_ok : buf_ok (disk s) true x.
Proof. pose proof (bi_bufs _ _ _ Hi i x Hx) as H. by rewrite bool_decide_eq_true_2 in H. Qed.

Lemma held_dev : b_dev x = 1 /\ (b_flags x = 2 \/ b_flags x = 6) /\ 0 <= b_blockno x < Z.of_nat (length (disk s)).
Proof. destruct (bf_used _ _ _ held_ok) as [(_ & _ & H)|H]; done. Qed.

Lemma held_same : {[i]} ∪ held = held.
Proof. set_solver. Qed.

(** A change of the data or the dirty flag of a held buffer. *)
Lemma held_insert y :
  buf_ok (disk s) true y -> b_blockno y = b_blockno x -> b_dev y = 1 ->
  bio_inv (set_bufs (<[i := y]> (bufs s)) s) l held /\
  (forall b, lc (set_bufs (<[i := y]> (bufs s)) s) b = if decide (b = b_blockno x) then b_data y else lc s b) /\
  nbusy (set_bufs (<[i := y]> (bufs s)) s) = nbusy s.
Proof.
  intros Hy Hb Hd. destruct held_dev as [Hdx _].
  assert (Hinv : bio_inv (set_bufs (<[i := y]> (bufs s)) s) l held).
  { rewrite <- held_same. apply (bio_inv_insert s l held i x y true Hi Hx Hy).
    intros _ j z Hne Hz [Hzd Hzb]. apply Hne. apply (bi_unique _ _ _ Hi j i z x); congruence. }
  split; [done|]. split.
  - intros b. rewrite (lc_insert s l held l held i x) by done.
    repeat case_decide; unfold caches in *; try done; naive_solver congruence.
  - pose proof (count_insert busy (bufs s) i x y Hx) as Hc. unfold nbusy. simpl bufs.
    destruct (bf_lock _ _ _ held_ok) as [_ H1]. destruct (bf_lock _ _ _ Hy) as [_ H2].
    unfold busy in Hc at 2 4. rewrite H1, H2 in Hc. simpl in Hc. lia.
Qed.

Lemma set_data_ok d : block_ok d ->
  bio_inv (set_bufs (<[i := set_b_data d x]> (bufs s)) s) l held /\
  (forall b, lc (set_bufs (<[i := set_b_data d x]> (bufs s)) s) b =
     if decide (b = b_blockno x) then d else lc s b) /\
  nbusy (set_bufs (<[i := set_b_data d x]> (bufs s)) s) = nbusy s.
Proof.
  intros Hd. destruct held_dev as [Hdx _]. apply held_insert; [|done|done].
  destruct held_ok as [H1 H2 H3 H4]. by split.
Qed.

Lemma mark_dirty_ok :
  bio_inv (set_bufs (<[i := set_b_flags 6 x]> (bufs s)) s) l held /\
  (forall b, lc (set_bufs (<[i := set_b_flags 6 x]> (bufs s)) s) b = lc s b) /\
  nbusy (set_bufs (<[i := set_b_flags 6 x]> (bufs s)) s) = nbusy s /\
  (forall b, pinned (set_bufs (<[i := set_b_flags 6 x]> (bufs s)) s) b <-> b = b_blockno x \/ pinned s b).
Proof.
  destruct held_dev as (Hdx & Hfx & Hr). destruct (held_insert (set_b_flags 6 x)) as (H1 & H2 & H3); [|done|done|].
  { destruct held_ok as [H1 H2 H3 H4]. split; try done. right. split; [done|]. split; [by right|done]. }
  assert (Hlt : (i < length (bufs s))%nat) by (by eapply lookup_lt_Some).
  split; [done|]. split; [|split; [done|]].
  - intros b. rewrite H2. case_decide as Hb; [|done]. subst. symmetry. by apply (lc_cached s l held i x).
  - intros b. split.
    + intros (j & z & Hz & Hc & Hf). simpl in Hz. destruct (decide (j = i)) as [->|Hne].
      * rewrite list_lookup_insert_eq in Hz by done. simplify_eq. left. by destruct Hc.
      * rewrite list_lookup_insert_ne in Hz by done. right. by exists j, z.
    + intros [->|(j & z & Hz & Hc & Hf)].
      * exists i, (set_b_flags 6 x). simpl. by rewrite list_lookup_insert_eq.
      * destruct (decide (j = i)) as [->|Hne].
        -- simplify_eq. exists i, (set_b_flags 6 x). simpl. by rewrite list_lookup_insert_eq.
        -- exists j, z. simpl. by rewrite list_lookup_insert_ne.
Qed.

Definition after_write : bio :=
  set_disk (<[Z.to_nat (b_blockno x) := b_data x]> (disk s)) (writes s ++ [(b_blockno x, b_data x)])
    (set_bufs (<[i := set_b_flags 2 x]> (bufs s)) s).

Lemma bwrite_runs : bwrite i s = Ok tt after_write.
Proof.
  destruct held_dev as (Hdx & Hfx & Hr). destruct (bf_lock _ _ _ held_ok) as [Hl _].
  assert (Hlt : (i < length (bufs s))%nat) by (by eapply lookup_lt_Some).
  unfold bwrite, sleep_holding. unfold bind at 1 2, gets. simpl view.
  rewrite (buf_at_lookup s i x Hx), Hl. simpl bool_decide. cbn [negb ret].
  rewrite (bind_ok _ _ _ _ _ (setb_ok s i _ x Hx)).
  replace (Z.lor (b_flags x) B_DIRTY) with 6 by (destruct Hfx as [-> | ->]; done).
  set (s1 := set_bufs _ s).
  assert (Hx1 : bufs s1 !! i = Some (set_b_flags 6 x)) by (simpl; by apply list_lookup_insert_eq).
  rewrite (iderw_write s1 i _ Hx1) by done. unfold after_write. simpl. by rewrite list_insert_insert_eq.
Qed.

Lemma bwrite_ok :
  bio_inv after_write l held /\ (forall b, lc after_write b = lc s b) /\ nbusy after_write = nbusy s /\
  (forall b, pinned after_write b -> pinned s b) /\ ~ pinned after_write (b_blockno x) /\
  (forall b, b <> b_blockno x -> pinned s b -> pinned after_write b).
Proof.
  destruct held_dev as (Hdx & Hfx & Hr). pose proof held_ok as Hok.
  assert (Hlt : (i < length (bufs s))%nat) by (by eapply lookup_lt_Some).
  destruct (held_insert (set_b_flags 2 x)) as (H1 & H2 & H3); [|done|done|].
  { destruct Hok as [G1 G2 G3 G4]. split; try done. right. split; [done|]. split; [by left|done]. }
  set (s1 := set_bufs (<[i := set_b_flags 2 x]> (bufs s)) s) in *.
  assert (Hbd : forall d, length (<[Z.to_nat (b_blockno x) := d]> (disk s)) = length (disk s))
    by (intros d; apply length_insert).
  assert (Hinv : bio_inv after_write l held).
  { destruct H1 as [G1 G2 G3 G4 G5 G6 G7 G8]. split; try done.
    - intros j z Hz. destruct (G5 j z Hz) as [F1 F2 F3 F4]. split; try done; [by simpl; rewrite Hbd|].
      intros Hm Hf. specialize (F4 Hm Hf). simpl. rewrite list_lookup_insert_ne; [done|].
      intros Heq. apply Z2Nat.inj in Heq; [|lia|].
      + assert (Hji : j = i).
        { apply (G7 j i z (set_b_flags 2 x)); try done; [simpl; by apply list_lookup_insert_eq|].
          destruct F2 as [(_ & Hf0 & _)|(Hdz & _)]; [congruence|done]. }
        subst j. apply bool_decide_eq_false in Hm. done.
      + destruct F2 as [(_ & Hf0 & _)|(_ & _ & F2)]; [congruence|]. change (disk s1) with (disk s) in F2. lia.
    - simpl. apply Forall_insert; [apply Hi|apply Hok]. }
  split; [done|]. split; [|split; [done|]].
  - intros b. assert (Hs1 : lc s1 b = lc s b).
    { rewrite H2. case_decide as Hb; [|done]. subst. symmetry. by apply (lc_cached s l held i x). }
    rewrite <- Hs1. unfold lc. change (bufs after_write) with (bufs s1).
    destruct (list_find (caches b) (bufs s1)) as [[j z]|] eqn:E; [done|].
    simpl. rewrite on_disk_insert by done. case_decide as Hb; [|done]. exfalso.
    apply list_find_None in E. rewrite Forall_forall in E. apply (E (set_b_flags 2 x)); [|by subst].
    apply list_elem_of_lookup. exists i. simpl. by apply list_lookup_insert_eq.
  - split; [|split].
    + intros b (j & z & Hz & Hc & Hf). simpl in Hz. destruct (decide (j = i)) as [->|Hne].
      * rewrite list_lookup_insert_eq in Hz by done. by simplify_eq.
      * rewrite list_lookup_insert_ne in Hz by done. by exists j, z.
    + intros (j & z & Hz & Hc & Hf). pose proof Hz as Hz'. simpl in Hz. destruct (decide (j = i)) as [->|Hne].
      * rewrite list_lookup_insert_eq in Hz by done. by simplify_eq.
      * rewrite list_lookup_insert_ne in Hz by done. apply Hne.
        destruct Hc as [Hd Hb]. by apply (bi_unique _ _ _ Hi j i z x).
    + intros b Hb (j & z & Hz & Hc & Hf). exists j, z. split; [|done]. simpl.
      rewrite list_lookup_insert_ne; [done|]. intros <-. simplify_eq. by destruct Hc.
Qed.

Definition released : buf := set_b_refcnt 0 (set_b_lock SFree x).

Lemma brelse_runs : exists l1 l2 nx pv,
  brelse i s = Ok tt (set_links nx pv (set_bufs (<[i := released]> (bufs s)) s)) /\
  l = l1 ++ i :: l2 /\ dll nx pv (i :: l1 ++ l2).
Proof.
  destruct (bf_lock _ _ _ held_ok) as [Hl Hrc].
  assert (Hlt : (i < length (bufs s))%nat) by (by eapply lookup_lt_Some).
  pose proof (lookup_order s l held i x Hi Hx) as Hin. apply list_elem_of_split in Hin as (l1 & l2 & Hsplit).
  set (s2 := set_bc_lock HeldHere (set_bufs (<[i := released]> (bufs s)) s)).
  destruct (relink_ok s2 l1 i l2) as (nx & pv & Hre & Hd).
  { rewrite <- Hsplit. apply Hi. }
  { by apply (bi_held _ _ _ Hi). }
  exists l1, l2, nx, pv. split; [|done].
  unfold brelse, sleep_holding. unfold bind at 1 2, gets at 1. simpl view.
  rewrite (buf_at_lookup s i x Hx), Hl. simpl bool_decide. cbn [negb ret].
  unfold sleep_release. unfold bind at 1, modify at 1. simpl over.
  rewrite (alter_insert _ _ _ x) by done.
  rewrite bind_acquire by apply Hi. set (s1 := over bc_lock_of HeldHere _).
  assert (Hx1 : bufs s1 !! i = Some (set_b_lock SFree x)) by (simpl; by apply list_lookup_insert_eq).
  rewrite (bind_ok _ _ _ _ _ (setb_ok s1 i _ _ Hx1)). simpl b_refcnt. rewrite Hrc. change (u32 (1 - 1)) with 0.
  simpl bufs. rewrite list_insert_insert_eq. change (set_bufs _ s1) with s2.
  unfold getb at 1. unfold bind at 1, gets at 1.
  rewrite (buf_at_lookup s2 i released) by (simpl; by apply list_lookup_insert_eq). simpl Z.eqb.
  cbn iota. rewrite (bind_ok _ _ _ _ _ Hre). rewrite release_held by done. f_equal.
  destruct Hi as [H1 _ _ _ _ _ _ _]. unfold s2, set_links. destruct s as [lk ? ? ? ? ?]. simpl in *. by subst.
Qed.

Lemma brelse_ok :
  b_flags x = 6 \/ on_disk (disk s) (b_blockno x) = b_data x ->
  exists s' l1 l2, brelse i s = Ok tt s' /\ l = l1 ++ i :: l2 /\
    bio_inv s' (i :: l1 ++ l2) (held ∖ {[i]}) /\ same_blocks s s' /\
    (nbusy s' + (if (b_flags x =? 6)%Z then 0 else 1) = nbusy s)%nat /\
    (forall j, j <> i -> bufs s' !! j = bufs s !! j).
Proof.
  intros Hclean. destruct brelse_runs as (l1 & l2 & nx & pv & Hrun & Hsplit & Hd).
  destruct held_dev as (Hdx & Hfx & Hr). pose proof held_ok as Hok.
  assert (Hrel : buf_ok (disk s) false released).
  { destruct Hok as [H1 H2 H3 H4]. split; simpl; try done; [by right|].
    intros _ Hf. destruct Hclean as [Hc|Hc]; [congruence|]. rewrite <- Hc.
    by apply (disk_block s l held). }
  set (s1 := set_bufs (<[i := released]> (bufs s)) s) in *.
  assert (Hi1 : bio_inv s1 l (held ∖ {[i]})).
  { apply (bio_inv_insert s l held i x released false Hi Hx Hrel).
    intros _ j z Hne Hz [Hzd Hzb]. apply Hne. by apply (bi_unique _ _ _ Hi j i z x). }
  exists (set_links nx pv s1), l1, l2. split; [done|]. split; [done|]. split.
  { destruct Hi1 as [H1 H2 H3 H4 H5 H6 H7 H8]. split; try done.
    by rewrite Permutation_middle, <- Hsplit. }
  split; [|split].
  - split; [done|done| |].
    + intros b. change (lc (set_links nx pv s1) b) with (lc s1 b).
      unfold s1. rewrite (lc_insert s l held l (held ∖ {[i]}) i x) by done.
      case_decide as Hc; [destruct Hc as [_ <-]; symmetry; by apply (lc_cached s l held i x)|].
      case_decide as Hc'; [|done]. exfalso. apply Hc. destruct Hc'. by split.
    + intros b. change (pinned (set_links nx pv s1) b) with (pinned s1 b). by apply pinned_insert with x.
  - pose proof (count_insert busy (bufs s) i x released Hx) as Hc.
    change (nbusy (set_links nx pv s1)) with (length (List.filter busy (<[i := released]> (bufs s)))).
    fold (nbusy s) in Hc. unfold busy in Hc at 2 3. destruct (bf_lock _ _ _ Hok) as [_ H1].
    rewrite H1 in Hc. simpl in Hc. destruct (b_flags x =? 6); lia.
  - intros j Hj. simpl. by rewrite list_lookup_insert_ne.
Qed.
End held.

(* ------------------------------------------------------------------ *)
(** * Initialisation *)

Lemma binit_loop d n : forall k s l,
  dll (nexts s) (prevs s) l -> (forall b, b ∈ l <-> (b < k)%nat) -> (k + n = NBUF)%nat ->
  disk s = d -> bc_lock s = Unlocked -> bufs s = replicate NBUF buf0 ->
  exists s' l', for_each (seq k n) (fun b => setb b (set_b_lock SFree) ;; push_front b) s = Ok tt s' /\
    dll (nexts s') (prevs s') l' /\ (forall b, b ∈ l' <-> (b < NBUF)%nat) /\
    disk s' = d /\ bc_lock s' = Unlocked /\ bufs s' = replicate NBUF buf0 /\ writes s' = writes s.
Proof.
  induction n as [|n IH]; intros k s l Hd Hl Hk Hdisk Hlk Hb; cbn [seq for_each].
  { exists s, l. replace k with NBUF in Hl by lia. done. }
  assert (Hbk : bufs s !! k = Some buf0) by (rewrite Hb; apply lookup_replicate_2; lia).
  assert (Hset : setb k (set_b_lock SFree) s = Ok tt s).
  { rewrite (setb_ok s k _ _ Hbk). rewrite list_insert_id by done. by destruct s. }
  destruct (push_front_ok s l k Hd) as (nx & pv & Hpush & Hd'); [|lia|].
  { intros Hin. apply elem_of_cons in Hin as [->|Hin]; [unfold HEAD in Hk; lia|]. apply Hl in Hin. lia. }
  destruct (IH (S k) (set_links nx pv s) (k :: l)) as (s' & l' & H & Hrest); try done; [|lia|].
  { intros b. rewrite elem_of_cons, Hl. lia. }
  exists s', l'. split; [|done]. unfold bind at 1. rewrite (bind_ok _ _ _ _ _ Hset), Hpush. done.
Qed.

(** The cache right after boot: no buffer is in use. *)
Definition bio0 (d : list block) : bio :=
  Bio Unlocked (replicate NBUF buf0) (replicate (S NBUF) 0%nat) (replicate (S NBUF) 0%nat) d [].

Lemma binit_ok d :
  Forall block_ok d -> exists s' l, binit (bio0 d) = Ok tt s' /\ bio_inv s' l ∅ /\
    disk s' = d /\ writes s' = [] /\ bufs s' = replicate NBUF buf0.
Proof.
  intros Hd.
  set (s1 := set_links (<[HEAD := HEAD]> (replicate (S NBUF) 0%nat)) (<[HEAD := HEAD]> (replicate (S NBUF) 0%nat)) (bio0 d)).
  destruct (binit_loop d NBUF 0 s1 []) as (s' & l & H & Hdll & Hl & Hdisk & Hlk & Hb & Hw);
    [|by intros b; rewrite elem_of_nil; lia|done..|].
  { assert (HEAD < length (replicate (S NBUF) 0%nat))%nat by (rewrite length_replicate; unfold HEAD; lia).
    split; [by apply list_lookup_insert_eq|by apply list_lookup_insert_eq|apply NoDup_singleton|].
    unfold s1, set_links, set_prevs, set_nexts. cbn [nexts prevs]. by rewrite !length_insert. }
  exists s', l. split.
  { unfold binit. do 3 erewrite bind_ok by reflexivity.
    match goal with |- for_each _ _ ?a = _ => assert (a = s1) as -> by reflexivity end. exact H. }
  clear H. change (writes s1) with (@nil (Z * block)) in Hw. split; [|done].
  assert (Hbuf : forall i x, bufs s' !! i = Some x -> x = buf0).
  { intros i x Hx. rewrite Hb in Hx. by apply lookup_replicate in Hx as [-> _]. }
  split; [done|done| | | | | |by rewrite Hdisk].
  - apply NoDup_Permutation; [|apply NoDup_seq|].
    + pose proof (dll_nodup _ _ _ Hdll) as Hn. by apply NoDup_cons in Hn as [_ Hn].
    + intros b. rewrite Hl, elem_of_seq. lia.
  - by rewrite Hb.
  - intros i x Hx. rewrite bool_decide_eq_false_2 by set_solver. rewrite (Hbuf i x Hx).
    split; simpl; try done; [apply zero_block_ok|by left].
  - intros i Hi. set_solver.
  - intros i j x y Hx _ Hdx. rewrite (Hbuf i x Hx) in Hdx. done.
Qed.

#[global] Opaque binit.

Lemma fresh_nbusy s : bufs s = replicate NBUF buf0 -> nbusy s = 0%nat.
Proof. intros Hb. unfold nbusy. by rewrite Hb. Qed.

(* ------------------------------------------------------------------ *)
(** * Claims *)

(** C9: reading through the cache.  While a buffer is left that is neither held
    nor pinned, [bread] of any block of the disk that the caller does not hold
    returns a buffer that is locked by the caller and holds the block's logical
    contents, whether the block is cached or a buffer has to be recycled;
    recycling loses nothing: the logical contents of every block, the disk and
    the set of pinned blocks are as before, and the invariant of the cache (at
    most one buffer per block, consistent links, clean buffers equal to the
    disk) is kept. *)
Theorem bread_returns_contents s l held b :
  bio_inv s l held -> 0 <= b < Z.of_nat (length (disk s)) ->
  (forall i x, i ∈ held -> bufs s !! i = Some x -> b_blockno x <> b) -> (nbusy s < NBUF)%nat ->
  exists i s' y, bread 1 b s = Ok i s' /\ bio_inv s' l ({[i]} ∪ held) /\ i ∉ held /\
    bufs s' !! i = Some y /\ b_lock y = SMine /\ caches b y /\ b_data y = lc s b /\
    disk s' = disk s /\ (forall b', lc s' b' = lc s b') /\ (forall b', pinned s' b' <-> pinned s b').
Proof.
  intros Hi Hb Hnh Hsp. destruct (bread_ok s l held b Hi Hb Hnh (or_introl Hsp)) as (i & s' & H & [H1 H2 [H3 _ H4 H5] (y & H6 & H7 & H8 & _) _]).
  exists i, s', y. repeat (split; [done|]). split; [|done].
  destruct (held_ok s' l ({[i]} ∪ held) i y H1 H6) as [_ _ [Hl _] _]; [set_solver|done].
Qed.

(** Writing through the cache.  [bwrite] of a held buffer puts its data on
    the disk as one block write; [brelse] then unlocks it and makes it the most
    recently used one: the pointers represent the same list with the buffer
    moved to the front.  The logical contents of all blocks stay the same and
    the block is no longer pinned. *)
Theorem bwrite_brelse_through s l held i x :
  bio_inv s l held -> bufs s !! i = Some x -> i ∈ held ->
  exists s' l1 l2, (bwrite i ;; brelse i) s = Ok tt s' /\ l = l1 ++ i :: l2 /\
    bio_inv s' (i :: l1 ++ l2) (held ∖ {[i]}) /\
    disk s' = <[Z.to_nat (b_blockno x) := b_data x]> (disk s) /\
    writes s' = writes s ++ [(b_blockno x, b_data x)] /\
    (forall b, lc s' b = lc s b) /\ ~ pinned s' (b_blockno x).
Proof.
  intros Hi Hx Hh. pose proof (held_dev s l held i x Hi Hx Hh) as (_ & _ & Hr).
  destruct (bwrite_ok s l held i x Hi Hx Hh) as (Hi1 & Hlc & _ & _ & Hpin & _).
  set (s1 := after_write s i x) in *.
  assert (Hx1 : bufs s1 !! i = Some (set_b_flags 2 x)).
  { simpl. apply list_lookup_insert_eq. by eapply lookup_lt_Some. }
  destruct (brelse_ok s1 l held i _ Hi1 Hx1 Hh) as (s' & l1 & l2 & Hrel & Hl & Hi2 & [Hd Hw Hlc2 Hp2] & _).
  { right. simpl. rewrite on_disk_insert by done. by rewrite decide_True. }
  exists s', l1, l2. rewrite (bind_ok _ _ _ _ _ (bwrite_runs s l held i x Hi Hx Hh)).
  split; [exact Hrel|]. split; [done|]. split; [done|]. split; [done|]. split; [done|]. split.
  - intros b. by rewrite Hlc2, Hlc.
  - by rewrite Hp2.
Qed.

(* ------------------------------------------------------------------ *)
(** * Witnesses *)

Definition w_disk : list block := replicate 4 zero_block.

Lemma w_disk_ok : Forall block_ok w_disk.
Proof. apply Forall_replicate, zero_block_ok. Qed.

(** The cache after boot. *)
Lemma w_boot : exists s l, bio_inv s l ∅ /\ disk s = w_disk /\ nbusy s = 0%nat.
Proof.
  destruct (binit_ok w_disk w_disk_ok) as (s & l & _ & Hi & Hd & _ & Hb).
  exists s, l. split; [exact Hi|]. split; [exact Hd|exact (fresh_nbusy s Hb)].
Qed.

Lemma bread_returns_contents_witness :
  exists s i s', disk s = w_disk /\ bread 1 2 s = Ok i s'.
Proof.
  destruct w_boot as (s & l & Hi & Hd & Hb).
  destruct (bread_returns_contents s l ∅ 2 Hi) as (i & s' & y & Hr & _).
  - rewrite Hd. simpl. lia.
  - intros i x Hin. by apply not_elem_of_empty in Hin.
  - rewrite Hb. unfold NBUF. lia.
  - exists s, i, s'. split; [exact Hd|exact Hr].
Defined.

Lemma bwrite_brelse_through_witness :
  exists s i s1 s2, disk s = w_disk /\ bread 1 2 s = Ok i s1 /\ (bwrite i ;; brelse i) s1 = Ok tt s2.
Proof.
  destruct w_boot as (s & l & Hi & Hd & Hb).
  destruct (bread_ok s l ∅ 2 Hi) as (i & s1 & Hr & [H1 _ _ (y & Hy & _) _]).
  - rewrite Hd. simpl. lia.
  - intros i x Hin. by apply not_elem_of_empty in Hin.
  - left. rewrite Hb. unfold NBUF. lia.
  - destruct (bwrite_brelse_through s1 l ({[i]} ∪ ∅) i y H1 Hy) as (s2 & _ & _ & Hw & _); [set_solver|].
    exists s, i, s1, s2. split; [exact Hd|]. split; [exact Hr|exact Hw].
Defined.
