(* ===== verification/Ide.v ===== *)
(** The disk driver (src/ide.c): a queue of buffers, linked through their [qnext]
    fields, whose first one is being read or written by the controller.

    The controller is a parameter, by the ports of [Ports] and the string
    instructions of [StringPorts]; [AtaDev] states what the driver relies on: two
    drives of sectors, the registers that select a sector, and commands.  A
    buffer's address, the channel on which its process sleeps, is [baddr].
    [envs] is what happens during each turn asleep. *)

From S2P Require Import Prelude Spinlock Kalloc Ptable Ports Sleeplock Block Bio.

(* src/ide.c:17-17 IDE_BSY *)
Definition IDE_BSY : Z := 128.
(* src/ide.c:18-18 IDE_DRDY *)
Definition IDE_DRDY : Z := 64.
(* src/ide.c:19-19 IDE_DF *)
Definition IDE_DF : Z := 32.
(* src/ide.c:20-20 IDE_ERR *)
Definition IDE_ERR : Z := 1.
(* src/ide.c:22-22 IDE_CMD_READ *)
Definition IDE_CMD_READ : Z := 32.
(* src/ide.c:23-23 IDE_CMD_WRITE *)
Definition IDE_CMD_WRITE : Z := 48.
(* src/param.h:13-13 FSSIZE *)
Definition FSSIZE : Z := 1000.

(** [insl] and [outsl] on the data port, of [cnt] words. *)
Class StringPorts (D : Type) := {
  insl : Z -> Z -> D -> list Z * D;
  outsl : Z -> list Z -> Z -> D -> D;
}.

(* src/ide.c:31-35 idequeue *)
Record ide (D : Type) := Ide {
  id_pt : pst;
  id_lock : lock_view;
  idequeue : option nat;
  qnext : list (option nat);
  id_bufs : list buf;
  havedisk1 : Z;
  id_dev : D;
}.
Arguments Ide {D} _ _ _ _ _ _ _.
Arguments id_pt {D} _.
Arguments id_lock {D} _.
Arguments idequeue {D} _.
Arguments qnext {D} _.
Arguments id_bufs {D} _.
Arguments havedisk1 {D} _.
Arguments id_dev {D} _.

Section ide.
Context {D : Type} `{Ports D} `{StringPorts D}.
Variable (baddr : nat -> Z).
Local Abbreviation I := (M (ide D)).

Definition set_id_pt (v : pst) (s : ide D) : ide D := Ide v (id_lock s) (idequeue s) (qnext s) (id_bufs s) (havedisk1 s) (id_dev s).
Definition set_id_lock (v : lock_view) (s : ide D) : ide D := Ide (id_pt s) v (idequeue s) (qnext s) (id_bufs s) (havedisk1 s) (id_dev s).
Definition set_idequeue (v : option nat) (s : ide D) : ide D := Ide (id_pt s) (id_lock s) v (qnext s) (id_bufs s) (havedisk1 s) (id_dev s).
Definition set_qnext (v : list (option nat)) (s : ide D) : ide D := Ide (id_pt s) (id_lock s) (idequeue s) v (id_bufs s) (havedisk1 s) (id_dev s).
Definition set_id_bufs (v : list buf) (s : ide D) : ide D := Ide (id_pt s) (id_lock s) (idequeue s) (qnext s) v (havedisk1 s) (id_dev s).
Definition set_havedisk1 (v : Z) (s : ide D) : ide D := Ide (id_pt s) (id_lock s) (idequeue s) (qnext s) (id_bufs s) v (id_dev s).
Definition set_id_dev (v : D) (s : ide D) : ide D := Ide (id_pt s) (id_lock s) (idequeue s) (qnext s) (id_bufs s) (havedisk1 s) v.

Definition id_pt_of : lens (ide D) pst := Lens id_pt set_id_pt.
Definition id_lock_of : lens (ide D) lock_view := Lens id_lock set_id_lock.
Definition id_dev_of : lens (ide D) D := Lens id_dev set_id_dev.

Definition ibuf_at (s : ide D) (b : nat) : buf := nth b (id_bufs s) buf0.
Definition igetb {A} (b : nat) (f : buf -> A) : I A := gets (fun s => f (ibuf_at s b)).
Definition isetb (b : nat) (f : buf -> buf) : I unit := modify (fun s => set_id_bufs (alter f b (id_bufs s)) s).
Definition ibuf_lock_of (b : nat) : lens (ide D) sleep_view :=
  Lens (fun s => b_lock (ibuf_at s b)) (fun v s => set_id_bufs (alter (set_b_lock v) b (id_bufs s)) s).
Definition out (port v : Z) : I unit := zoom id_dev_of (port_out port v).

(** The loop on the status register has to end within [fuel] looks. *)

(* src/ide.c:37-48 idewait *)
Fixpoint idewait (fuel : nat) (checkerr : bool) : M D Z :=
  match fuel with
  | O => wait
  | S fuel' =>
      r <- port_in 503 ;;
      if negb (Z.land r (Z.lor IDE_BSY IDE_DRDY) =? IDE_DRDY) then idewait fuel' checkerr
      else if checkerr && negb (Z.land r (Z.lor IDE_DF IDE_ERR) =? 0) then ret (-1)
      else ret 0
  end.

(** The look at disk 1. *)

(* src/ide.c:61-66 ideinit *)
Fixpoint find_disk1 (n : nat) : M D bool :=
  match n with
  | O => ret false
  | S n' => r <- port_in 503 ;; if negb (r =? 0) then ret true else find_disk1 n'
  end.

(* src/ide.c:50-70 ideinit *)
Definition ideinit (fuel : nat) (ncpu : Z) : I unit :=
  modify (set_id_lock Unlocked) ;;
  zoom id_dev_of (ioapicenable 14 (ncpu - 1)) ;;
  zoom id_dev_of (idewait fuel false) ;;
  (* Check if disk 1 is present *)
  out 502 (Z.lor 224 (Z.shiftl 1 4)) ;;
  b <- zoom id_dev_of (find_disk1 1000) ;;
  when b (modify (set_havedisk1 1)) ;;
  (* Switch back to disk 0. *)
  out 502 (Z.lor 224 (Z.shiftl 0 4)).

(** A block is one sector, so the commands are those for one sector. *)

(* src/ide.c:72-100 idestart *)
Definition idestart (fuel : nat) (b : nat) : I unit :=
  bn <- igetb b b_blockno ;;
  if FSSIZE <=? bn then panic "incorrect blockno"
  else
    let sector_per_block := BSIZE / 512 in
    let sector := bn * sector_per_block in
    zoom id_dev_of (idewait fuel false) ;;
    out 1014 0 ;;                                (* generate interrupt *)
    out 498 sector_per_block ;;                  (* number of sectors *)
    out 499 (Z.land sector 255) ;;
    out 500 (Z.land (Z.shiftr sector 8) 255) ;;
    out 501 (Z.land (Z.shiftr sector 16) 255) ;;
    dev <- igetb b b_dev ;;
    out 502 (Z.lor (Z.lor 224 (Z.shiftl (Z.land dev 1) 4)) (Z.land (Z.shiftr sector 24) 15)) ;;
    fl <- igetb b b_flags ;;
    if truth (Z.land fl B_DIRTY) then
      out 503 IDE_CMD_WRITE ;;
      d <- igetb b b_data ;;
      zoom id_dev_of (modify (outsl 496 d (BSIZE / 4)))
    else out 503 IDE_CMD_READ.

(* src/ide.c:102-131 ideintr *)
Definition ideintr (fuel : nat) : I unit :=
  (* First queued buffer is the active request. *)
  lock_acquire id_lock_of ;;
  q <- gets idequeue ;;
  match q with
  | None => lock_release id_lock_of
  | Some b =>
      n <- gets (fun s => nth b (qnext s) None) ;;
      modify (set_idequeue n) ;;
      (* Read data if needed. *)
      fl <- igetb b b_flags ;;
      (if Z.land fl B_DIRTY =? 0 then
         r <- zoom id_dev_of (idewait fuel true) ;;
         if 0 <=? r then
           d <- zoom id_dev_of (fun d => let '(l, d) := insl 496 (BSIZE / 4) d in Ok l d) ;;
           isetb b (set_b_data d)
         else ret tt
       else ret tt) ;;
      (* Wake process waiting for this buf. *)
      isetb b (fun x => set_b_flags (Z.lor (b_flags x) B_VALID) x) ;;
      isetb b (fun x => set_b_flags (Z.land (b_flags x) (Z.lnot B_DIRTY)) x) ;;
      zoom id_pt_of (wakeup (Chan (baddr b))) ;;
      (* Start disk on next buf in queue. *)
      q <- gets idequeue ;;
      match q with Some b' => idestart fuel b' | None => ret tt end ;;
      lock_release id_lock_of
  end.

(** [*pp = b] at the end of the queue: [pp] is [&idequeue], or the [qnext] field
    of a buffer that is followed. *)

(* src/ide.c:151-153 iderw *)
Fixpoint append (fuel : nat) (pp : option nat) (b : nat) : I unit :=
  match fuel with
  | O => wait
  | S fuel' =>
      x <- gets (fun s => match pp with None => idequeue s | Some c => nth c (qnext s) None end) ;;
      match x with
      | Some c => append fuel' (Some c) b
      | None =>
          match pp with
          | None => modify (set_idequeue (Some b))
          | Some c => modify (fun s => set_qnext (<[c := Some b]> (qnext s)) s)
          end
      end
  end.

(* src/ide.c:159-162 iderw *)
Fixpoint ide_sleep (b : nat) (envs : list (ide D -> ide D)) : I unit :=
  fl <- igetb b b_flags ;;
  if negb (Z.land fl (Z.lor B_VALID B_DIRTY) =? B_VALID) then
    match envs with
    | [] => sleep id_pt_of (Chan (baddr b)) (Some id_lock_of)
    | e :: envs' => sleep_turn id_pt_of (Chan (baddr b)) (Some id_lock_of) e ;; ide_sleep b envs'
    end
  else ret tt.

(** The queue has at most one entry for each buffer, so the loop that looks for
    its end takes at most [NBUF + 1] steps. *)

(* src/ide.c:133-168 iderw *)
Definition iderw (fuel : nat) (b : nat) (envs : list (ide D -> ide D)) : I unit :=
  h <- sleep_holding (ibuf_lock_of b) ;;
  if negb h then panic "iderw: buf not locked"
  else
    fl <- igetb b b_flags ;;
    if Z.land fl (Z.lor B_VALID B_DIRTY) =? B_VALID then panic "iderw: nothing to do"
    else
      dev <- igetb b b_dev ;;
      have <- gets havedisk1 ;;
      if negb (dev =? 0) && (have =? 0) then panic "iderw: ide disk 1 not present"
      else
        lock_acquire id_lock_of ;;
        (* Append b to idequeue. *)
        modify (fun s => set_qnext (<[b := None]> (qnext s)) s) ;;
        append (S (S NBUF)) None b ;;
        (* Start disk if necessary. *)
        q <- gets idequeue ;;
        (if decide (q = Some b) then idestart fuel b else ret tt) ;;
        (* Wait for request to finish. *)
        ide_sleep b envs ;;
        lock_release id_lock_of.
End ide.
