(* ===== verification/IdeSpec.v ===== *)
(** The disk driver serves requests in order, and does to a buffer and the disk
    what the memory disk of [Bio] does. *)

From S2P Require Import Prelude Spinlock Kalloc Ptable Ports Sleeplock Block Bio Ide.

(** ** The controller *)

(** Sectors by drive and number, the registers by port, and the last command. *)
Record ata := Ata { a_disk : Z -> Z -> block; a_reg : Z -> Z; a_cmd : Z }.

Definition a_drive (a : ata) : Z := a_reg a 502 / 16 mod 2.
Definition a_lba (a : ata) : Z := a_reg a 499 + 256 * a_reg a 500 + 65536 * a_reg a 501 + 16777216 * (a_reg a 502 mod 16).

Definition put_sector (f : Z -> Z -> block) (drive n : Z) (d : block) : Z -> Z -> block :=
  fun x y => if (x =? drive) && (y =? n) then d else f x y.

(** The controller is ready after at most [polls] looks at its status, fewer
    than [bound]; it reports no errors. *)
Class AtaDev (D : Type) `{Ports D} `{StringPorts D} (bound : nat) := {
  ata_of : D -> ata;
  polls : D -> nat;
  polls_bound : forall d, (polls d < bound)%nat;
  ata_status : forall d, exists v d', inb 503 d = (v, d') /\ ata_of d' = ata_of d /\
    match polls d with
    | O => Z.land v 192 = 64 /\ Z.land v 33 = 0
    | S n => Z.land v 192 <> 64 /\ polls d' = n
    end;
  ata_control : forall d, ata_of (outb 1014 0 d) = ata_of d;
  ata_register : forall p v d, 498 <= p <= 502 -> is_byte v ->
    ata_of (outb p v d) = Ata (a_disk (ata_of d)) (upd (a_reg (ata_of d)) p v) (a_cmd (ata_of d));
  ata_command : forall v d, is_byte v -> ata_of (outb 503 v d) = Ata (a_disk (ata_of d)) (a_reg (ata_of d)) v;
  ata_write : forall l d, a_cmd (ata_of d) = IDE_CMD_WRITE -> length l = 512%nat ->
    ata_of (outsl 496 l 128 d) =
    Ata (put_sector (a_disk (ata_of d)) (a_drive (ata_of d)) (a_lba (ata_of d)) l) (a_reg (ata_of d)) (a_cmd (ata_of d));
  ata_read : forall d, a_cmd (ata_of d) = IDE_CMD_READ ->
    exists d', insl 496 128 d = (a_disk (ata_of d) (a_drive (ata_of d)) (a_lba (ata_of d)), d') /\ ata_of d' = ata_of d;
}.

Section ide.
Context {D : Type} {HP : Ports D} {HS : StringPorts D} {bound : nat} {HA : AtaDev D bound}.
Context (fuel : nat) (Hfuel : (bound <= fuel)%nat).

Lemma idewait_ok n chk d : (polls d < n)%nat -> exists d', idewait n chk d = Ok 0 d' /\ ata_of d' = ata_of d.
Proof.
  revert d. induction n as [|n IH]; intros d Hn; [lia|]. cbn [idewait]. unfold bind, port_in.
  destruct (ata_status d) as (v & d' & -> & Ha & Hp). change (Z.lor IDE_BSY IDE_DRDY) with 192. change (Z.lor IDE_DF IDE_ERR) with 33.
  unfold IDE_DRDY. destruct (polls d) as [|m] eqn:Ep.
  - destruct Hp as [-> ->]. exists d'. by rewrite andb_false_r.
  - destruct Hp as [Hv Hm]. replace (Z.land v 192 =? 64) with false by (symmetry; by apply Z.eqb_neq). cbn [negb]. cbv iota.
    destruct (IH d') as (d2 & E & Ha2); [lia|]. exists d2. by rewrite E, Ha2.
Qed.

Lemma zoom_idewait chk (s : ide D) : exists d, zoom id_dev_of (idewait fuel chk) s = Ok 0 (set_id_dev d s) /\ ata_of d = ata_of (id_dev s).
Proof using Hfuel.
  destruct (idewait_ok fuel chk (id_dev s)) as (d & E & Ha); [pose proof (polls_bound (id_dev s)); lia|].
  exists d. split; [|done]. by apply (zoom_ok id_dev_of).
Qed.

(** A write to a register. *)
Lemma out_reg p v (s : ide D) : 498 <= p <= 502 -> exists d, out p v s = Ok tt (set_id_dev d s) /\
  ata_of d = Ata (a_disk (ata_of (id_dev s))) (upd (a_reg (ata_of (id_dev s))) p (u8 v)) (a_cmd (ata_of (id_dev s))).
Proof. intros Hp. eexists. split; [reflexivity|]. simpl. apply ata_register; [done|apply u8_is_byte]. Qed.

(** The controller works on the request of buffer [x]. *)
Definition dirty (x : buf) : bool := truth (Z.land (b_flags x) B_DIRTY).
Record started (x : buf) (a : ata) : Prop := {
  sa_drive : a_drive a = b_dev x mod 2;
  sa_lba : a_lba a = b_blockno x;
  sa_cmd : a_cmd a = if dirty x then IDE_CMD_WRITE else IDE_CMD_READ;
}.

(** The sectors once the request of [x] has started: a write has taken place. *)
Definition after_start (x : buf) (f : Z -> Z -> block) : Z -> Z -> block :=
  if dirty x then put_sector f (b_dev x mod 2) (b_blockno x) (b_data x) else f.

(** The registers that [idestart] sets, for a block of the file system. *)
Lemma sector_regs dev bn : 0 <= bn < 1000 ->
  let r := Z.lor (Z.lor 224 (Z.shiftl (Z.land dev 1) 4)) (Z.land (Z.shiftr (bn * (BSIZE / 512)) 24) 15) in
  let sec := bn * (BSIZE / 512) in
  u8 (Z.land sec 255) + 256 * u8 (Z.land (Z.shiftr sec 8) 255) + 65536 * u8 (Z.land (Z.shiftr sec 16) 255) + 16777216 * (u8 r mod 16) = bn /\
  u8 r / 16 mod 2 = dev mod 2.
Proof.
  intros Hb. change (BSIZE / 512) with 1. rewrite Z.mul_1_r. cbv zeta.
  rewrite (Z.shiftr_div_pow2 bn 24), (Z.shiftr_div_pow2 bn 16), (Z.shiftr_div_pow2 bn 8) by lia.
  change (2 ^ 24) with 16777216. change (2 ^ 16) with 65536. change (2 ^ 8) with 256.
  rewrite (Z.div_small bn 16777216), (Z.div_small bn 65536) by lia. rewrite Z.land_0_l, Z.lor_0_r. change 255 with (Z.ones 8).
  rewrite !Z.land_ones, (Z.land_ones dev 1 ltac:(lia) : Z.land dev 1 = _) by lia. change (2 ^ 8) with 256. change (2 ^ 1) with 2.
  assert (Hd : dev mod 2 = 0 \/ dev mod 2 = 1) by (pose proof (Z.mod_pos_bound dev 2); lia).
  destruct Hd as [-> | ->]; vm_compute (Z.lor _ _); split; zsolve.
Qed.

Lemma idestart_ok b x (s : ide D) : id_bufs s !! b = Some x -> 0 <= b_blockno x < 1000 -> length (b_data x) = 512%nat ->
  exists d, idestart fuel b s = Ok tt (set_id_dev d s) /\ started x (ata_of d) /\
    a_disk (ata_of d) = after_start x (a_disk (ata_of (id_dev s))).
Proof using Hfuel.
  intros Hx Hb Hlen. unfold idestart, igetb, ibuf_at. unfold bind at 1, gets. rewrite (nth_lookup_Some _ _ _ _ Hx).
  replace (FSSIZE <=? b_blockno x) with false by (symmetry; apply Z.leb_gt; unfold FSSIZE; lia). cbv zeta.
  destruct (zoom_idewait false s) as (d0 & E0 & A0). rewrite (bind_ok _ _ _ _ _ E0).
  assert (E1 : out 1014 0 (set_id_dev d0 s) = Ok tt (set_id_dev (outb 1014 0 d0) s)) by done.
  rewrite (bind_ok _ _ _ _ _ E1). pose proof (ata_control d0) as A1. set (d1 := outb 1014 0 d0) in *.
  destruct (out_reg 498 (BSIZE / 512) (set_id_dev d1 s)) as (d2 & E2 & A2); [lia|]. rewrite (bind_ok _ _ _ _ _ E2).
  edestruct (out_reg 499) as (d3 & E3 & A3); [lia|]. rewrite (bind_ok _ _ _ _ _ E3).
  edestruct (out_reg 500) as (d4 & E4 & A4); [lia|]. rewrite (bind_ok _ _ _ _ _ E4).
  edestruct (out_reg 501) as (d5 & E5 & A5); [lia|]. rewrite (bind_ok _ _ _ _ _ E5).
  unfold bind at 1. cbn [id_bufs set_id_dev]. rewrite (nth_lookup_Some _ _ _ _ Hx).
  edestruct (out_reg 502) as (d6 & E6 & A6); [lia|]. rewrite (bind_ok _ _ _ _ _ E6).
  cbn [id_dev set_id_dev] in *. rewrite A5, A4, A3, A2, A1, A0 in A6. simpl in A6.
  destruct (sector_regs (b_dev x) (b_blockno x) Hb) as [Hlba Hdrv]. cbv zeta in Hlba, Hdrv.
  assert (Hl6 : a_lba (ata_of d6) = b_blockno x) by (rewrite A6; unfold a_lba; simpl; mem_cases; exact Hlba).
  assert (Hd6 : a_drive (ata_of d6) = b_dev x mod 2) by (rewrite A6; unfold a_drive; simpl; mem_cases; exact Hdrv).
  assert (Hk6 : a_disk (ata_of d6) = a_disk (ata_of (id_dev s))) by (by rewrite A6).
  clear - Hx Hlen Hl6 Hd6 Hk6. unfold bind at 1. cbn [id_bufs set_id_dev]. rewrite (nth_lookup_Some _ _ _ _ Hx). fold (dirty x).
  destruct (dirty x) eqn:Hdt.
  - pose proof (ata_command IDE_CMD_WRITE d6) as A7. erewrite bind_ok by reflexivity. unfold bind at 1. cbn [id_bufs set_id_dev id_dev over id_dev_of].
    rewrite (nth_lookup_Some _ _ _ _ Hx). change (u8 IDE_CMD_WRITE) with IDE_CMD_WRITE. set (d7 := outb 503 IDE_CMD_WRITE d6) in *.
    specialize (A7 ltac:(by unfold is_byte, IDE_CMD_WRITE)). pose proof (ata_write (b_data x) d7) as A8. rewrite A7 in A8.
    specialize (A8 eq_refl Hlen). exists (outsl 496 (b_data x) 128 d7). split; [done|]. rewrite A8. split; [split; simpl; [done|done|by rewrite Hdt]|]. unfold after_start. rewrite Hdt. simpl. by rewrite <- Hd6, <- Hl6, <- Hk6.
  - pose proof (ata_command IDE_CMD_READ d6) as A7. specialize (A7 ltac:(by unfold is_byte, IDE_CMD_READ)).
    exists (outb 503 IDE_CMD_READ d6). split; [done|]. rewrite A7. split; [split; simpl; [done|done|by rewrite Hdt]|]. unfold after_start. by rewrite Hdt.
Qed.

(** ** The queue *)

(** The pointers from [h] spell the list [q]. *)
Fixpoint chain (qn : list (option nat)) (h : option nat) (q : list nat) : Prop :=
  match q with
  | [] => h = None
  | b :: q => h = Some b /\ (b < length qn)%nat /\ chain qn (nth b qn None) q
  end.

Lemma queue_insert qn h q c v : c ∉ q -> chain qn h q -> chain (<[c := v]> qn) h q.
Proof.
  revert h. induction q as [|b q IH]; intros h Hc; simpl; [done|]. intros (H1 & H2 & H3). split; [done|].
  rewrite length_insert. split; [done|]. rewrite nth_lookup, list_lookup_insert_ne by set_solver. rewrite <- nth_lookup.
  apply IH; [set_solver|done].
Qed.

(** The field that points to the rest [q2]. *)
Definition field (qn : list (option nat)) (h : option nat) (pp : option nat) : option nat :=
  match pp with None => h | Some c => nth c qn None end.

Lemma chain_field qn h q1 q2 : chain qn h (q1 ++ q2) -> field qn h (last q1) = head q2.
Proof.
  revert h. induction q1 as [|c q1 IH]; intros h; simpl.
  - destruct q2; simpl; [done|]. by intros [-> _].
  - intros (-> & _ & Hc). specialize (IH _ Hc). destruct q1 as [|c' q1]; [done|].
    change (last (c :: c' :: q1)) with (last (c' :: q1)). destruct (last (c' :: q1)) eqn:E; [done|]. by apply last_None in E.
Qed.

Lemma chain_snoc qn h q b : NoDup q -> b ∉ q -> (b < length qn)%nat -> nth b qn None = None -> chain qn h q ->
  match last q with None => h = None /\ chain qn (Some b) [b] | Some c => chain (<[c := Some b]> qn) h (q ++ [b]) end.
Proof.
  revert h. induction q as [|c q IH]; intros h Hnd Hb Hlt Hn; simpl; [done|].
  apply NoDup_cons in Hnd as [Hc Hnd]. intros (-> & H1 & H2). specialize (IH _ Hnd ltac:(set_solver) Hlt Hn H2).
  destruct q as [|c' q]; simpl.
  - rewrite length_insert, !nth_lookup, list_lookup_insert_eq, list_lookup_insert_ne by (done || set_solver).
    rewrite <- nth_lookup. done.
  - assert (Hl : exists z, last (c' :: q) = Some z /\ z ∈ c' :: q).
    { destruct (last (c' :: q)) as [z|] eqn:E; [|by apply last_None in E]. exists z. split; [done|].
      apply last_Some in E as [l' ->]. set_solver. }
    destruct Hl as (z & Hz & Hin). simpl in Hz. rewrite Hz in IH |- *. rewrite length_insert. split; [done|]. split; [done|].
    rewrite (nth_lookup _ c), list_lookup_insert_ne, <- nth_lookup by (intros ->; by apply Hc).
    simpl in IH. by rewrite length_insert in IH.
Qed.

(** [append] from the pointer [pp], which points to the rest [q2] of the queue. *)
Lemma append_ok n q2 : forall q1 b (s : ide D), (length q2 < n)%nat -> NoDup (q1 ++ q2) -> b ∉ q1 ++ q2 ->
  (b < length (qnext s))%nat -> nth b (qnext s) None = None -> chain (qnext s) (idequeue s) (q1 ++ q2) ->
  exists h qn, append n (last q1) b s = Ok tt (set_idequeue h (set_qnext qn s)) /\ chain qn h (q1 ++ q2 ++ [b]) /\
    length qn = length (qnext s).
Proof.
  revert n. induction q2 as [|c q2 IH]; intros n q1 b s Hn Hnd Hb Hlt Hz Hc; (destruct n as [|n]; [lia|]); cbn [append];
    unfold bind at 1, gets; fold (field (qnext s) (idequeue s) (last q1)); rewrite (chain_field _ _ _ _ Hc); simpl head.
  - rewrite app_nil_r in *. pose proof (chain_snoc _ _ _ _ Hnd Hb Hlt Hz Hc) as Hs. destruct (last q1) as [c|] eqn:E.
    + exists (idequeue s), (<[c := Some b]> (qnext s)). split; [by destruct s|]. split; [done|apply length_insert].
    + apply last_None in E as ->. exists (Some b), (qnext s). split; [by destruct s|]. split; [apply Hs|done].
  - destruct (IH n (q1 ++ [c]) b s) as (h & qn & E & H1 & H2); rewrite <- ?app_assoc; try done; [simpl in Hn; lia|].
    rewrite last_snoc in E. rewrite <- app_assoc in H1. by exists h, qn.
Qed.

(** ** The driver between two steps *)

(** A buffer that has a request: to be read, or to be written. *)
Record request (x : buf) : Prop := {
  rq_flags : b_flags x = 0 \/ b_flags x = 4 \/ b_flags x = 6;
  rq_block : 0 <= b_blockno x < 1000;
  rq_data : length (b_data x) = 512%nat;
}.

(** The buffers of [q] wait in this order, and the controller works on the
    first. *)
Record ide_ok (s : ide D) (q : list nat) : Prop := {
  ik_bufs : length (id_bufs s) = NBUF;
  ik_qnext : length (qnext s) = NBUF;
  ik_nodup : NoDup q;
  ik_chain : chain (qnext s) (idequeue s) q;
  ik_req : forall b, b ∈ q -> exists x, id_bufs s !! b = Some x /\ request x;
  ik_started : forall b x, head q = Some b -> id_bufs s !! b = Some x -> started x (ata_of (id_dev s));
}.

(** The buffer when its request is done. *)
Definition completed (x : buf) (f : Z -> Z -> block) : buf :=
  set_b_flags 2 (if dirty x then x else set_b_data (f (b_dev x mod 2) (b_blockno x)) x).

(** The sectors after the next request, if there is one, has started. *)
Definition next_start (bs : list buf) (q : list nat) (f : Z -> Z -> block) : Z -> Z -> block :=
  match q with [] => f | b :: _ => match bs !! b with Some x => after_start x f | None => f end end.

Lemma queue_short s q : ide_ok s q -> (length q <= NBUF)%nat.
Proof.
  intros [Hb _ Hnd _ Hreq _]. assert (H : q ⊆+ seq 0 NBUF).
  { apply NoDup_submseteq; [done|]. intros b Hq. apply Hreq in Hq as (x & Hx & _). apply lookup_lt_Some in Hx. apply elem_of_seq. lia. }
  apply submseteq_length in H. by rewrite length_seq in H.
Qed.

(** The state with buffer [b] at [y]. *)
Definition putb (b : nat) (y : buf) (s : ide D) : ide D := set_id_bufs (<[b := y]> (id_bufs s)) s.

Lemma putb_id b x (s : ide D) : id_bufs s !! b = Some x -> putb b x s = s.
Proof. intros Hx. unfold putb. rewrite list_insert_id by done. by destruct s. Qed.

Lemma isetb_ok b y f (s : ide D) : (b < length (id_bufs s))%nat -> isetb b f (putb b y s) = Ok tt (putb b (f y) s).
Proof.
  intros Hb. unfold isetb, modify, putb. simpl. rewrite (alter_insert _ _ _ y) by (by apply list_lookup_insert_eq).
  by rewrite list_insert_insert_eq.
Qed.

(** The part of [ideintr] that finishes the request of [b]. *)
Lemma finish_ok {A} b x (k : M (ide D) A) (s : ide D) :
  id_bufs s !! b = Some x -> request x -> started x (ata_of (id_dev s)) -> exists d,
  (fl <- igetb b b_flags ;;
   (if Z.land fl B_DIRTY =? 0 then
      r <- zoom id_dev_of (idewait fuel true) ;;
      if 0 <=? r then
        d <- zoom id_dev_of (fun d => let '(l, d) := insl 496 (BSIZE / 4) d in Ok l d) ;;
        isetb b (set_b_data d)
      else ret tt
    else ret tt) ;;
   isetb b (fun x => set_b_flags (Z.lor (b_flags x) B_VALID) x) ;;
   isetb b (fun x => set_b_flags (Z.land (b_flags x) (Z.lnot B_DIRTY)) x) ;; k) s =
  k (putb b (completed x (a_disk (ata_of (id_dev s)))) (set_id_dev d s)) /\
  ata_of d = ata_of (id_dev s).
Proof using Hfuel.
  intros Hx [Hfl _ _] [Hdrv Hlba Hcmd]. assert (Hb : (b < length (id_bufs s))%nat) by (by eapply lookup_lt_Some).
  unfold igetb at 1, ibuf_at. unfold bind at 1, gets. rewrite (nth_lookup_Some _ _ _ _ Hx).
  assert (Hd : (Z.land (b_flags x) B_DIRTY =? 0) = negb (dirty x)) by (unfold dirty, truth; by rewrite negb_involutive). rewrite Hd.
  unfold completed. destruct (dirty x) eqn:Hdt; cbn [negb]; cbv iota.
  - exists (id_dev s). split; [|done]. rewrite bind_ret. rewrite <- (putb_id b x s Hx) at 1.
    rewrite !(bind_ok _ _ _ _ _ (isetb_ok _ _ _ _ Hb)). f_equal. unfold putb. destruct s, x. simpl in *.
    do 2 f_equal. by destruct Hfl as [-> | [-> | ->]].
  - rewrite bind_assoc. destruct (zoom_idewait true s) as (d1 & E1 & A1). rewrite (bind_ok _ _ _ _ _ E1). cbv iota.
    change (0 <=? 0) with true. cbv iota. rewrite bind_assoc.
    destruct (ata_read d1) as (d2 & E2 & A2); [by rewrite A1, Hcmd|]. rewrite A1, Hdrv, Hlba in E2.
    erewrite bind_ok by (apply (zoom_ok id_dev_of); simpl; change (BSIZE / 4) with 128; rewrite E2; reflexivity).
    set (s2 := over id_dev_of d2 (set_id_dev d1 s)). rewrite <- (putb_id b x s2 Hx).
    rewrite !(bind_ok _ _ _ _ _ (isetb_ok _ _ _ s2 Hb)).
    exists d2. split; [|congruence]. f_equal. unfold putb, s2. simpl. do 2 f_equal. unfold set_b_data, set_b_flags. simpl.
    f_equal. by destruct Hfl as [-> | [-> | ->]].
Qed.

Variable (baddr : nat -> Z).

(** The state after an interrupt, with [q] left in the queue. *)
Definition served (b : nat) (x : buf) (q : list nat) (d : D) (p : pst) (s : ide D) : ide D :=
  Ide p (id_lock s) (nth b (qnext s) None) (qnext s) (<[b := completed x (a_disk (ata_of (id_dev s)))]> (id_bufs s)) (havedisk1 s) d.

Lemma served_ok b x q d p (s : ide D) : ide_ok s (b :: q) ->
  (forall b' x', head q = Some b' -> id_bufs s !! b' = Some x' -> started x' (ata_of d)) -> ide_ok (served b x q d p s) q.
Proof.
  intros [Hb Hqn Hnd Hch Hreq Hst] Hd. apply NoDup_cons in Hnd as [Hin Hnd]. destruct Hch as (_ & _ & Hch).
  split; simpl; [by rewrite length_insert|done|done|done| |].
  - intros b' Hb'. destruct (Hreq b') as (x' & Hx' & Hr); [set_solver|]. exists x'. split; [|done].
    rewrite list_lookup_insert_ne by (intros ->; done). done.
  - intros b' x' Hh Hx'. apply (Hd b'); [done|]. rewrite list_lookup_insert_ne in Hx'; [done|]. intros ->.
    apply Hin. destruct q; [done|]. simplify_eq/=. set_solver.
Qed.

Lemma ideintr_ok b x q (s : ide D) i c : ide_ok s (b :: q) -> id_lock s = Unlocked -> id_bufs s !! b = Some x -> table_ok (id_pt s) i c ->
  exists d k, ideintr baddr fuel s = Ok tt (served b x q d (set_procs (woken (Chan (baddr b)) <$> procs (id_pt s)) (set_mach k (id_pt s))) s) /\
    ide_ok (served b x q d (set_procs (woken (Chan (baddr b)) <$> procs (id_pt s)) (set_mach k (id_pt s))) s) q /\
    same_cpu (mach (id_pt s)) k i c /\ a_disk (ata_of d) = next_start (id_bufs s) q (a_disk (ata_of (id_dev s))).
Proof using Hfuel.
  intros Hok Hl Hx Ht. pose proof Hok as [Hlb Hqn Hnd Hch Hreq Hst]. apply NoDup_cons in Hnd as [Hin Hnd].
  pose proof Hch as (Hh & _ & Hch'). destruct (Hreq b) as (x0 & Hx0 & Hr); [set_solver|]. rewrite Hx in Hx0. injection Hx0 as <-.
  unfold ideintr. rewrite bind_acquire by done. erewrite bind_ok by reflexivity. cbn [idequeue over id_lock_of set_id_lock]. rewrite Hh.
  erewrite bind_ok by reflexivity. erewrite bind_ok by reflexivity. cbn [qnext over id_lock_of set_id_lock].
  set (s1 := set_idequeue _ _). destruct (finish_ok b x (zoom id_pt_of (wakeup (Chan (baddr b))) ;;
    q <- gets idequeue ;; match q with Some b' => idestart fuel b' | None => ret tt end ;; lock_release id_lock_of) s1 Hx Hr)
    as (d1 & E1 & A1); [by apply (Hst b)|]. rewrite E1. clear E1.
  destruct (wakeup_ok (Chan (baddr b)) (id_pt s) i c Ht) as (k & Hw & Hk).
  erewrite bind_ok by (apply (zoom_ok id_pt_of); exact Hw). set (p' := set_procs _ _).
  erewrite bind_ok by reflexivity. cbn [idequeue over id_pt_of set_id_pt putb set_id_bufs set_id_dev s1 set_idequeue set_id_lock id_lock_of].
  destruct q as [|b' q]; cbn [chain] in Hch'.
  - rewrite Hch', bind_ret. exists d1, k. unfold p'. split; [unfold lock_release, served, bind, gets, modify; simpl; by rewrite Hl|].
    split; [by apply served_ok|]. split; [done|]. simpl. by rewrite A1.
  - destruct Hch' as (Hh' & _). rewrite Hh'. destruct (Hreq b') as (x' & Hx' & [_ Hbn Hdl]); [set_solver|].
    assert (Hne : b <> b') by set_solver.
    destruct (idestart_ok b' x' (over id_pt_of p' (putb b (completed x (a_disk (ata_of (id_dev s1)))) (set_id_dev d1 s1)))) as (d2 & E2 & Hst2 & Hd2);
      [simpl; by rewrite list_lookup_insert_ne|done|done|].
    rewrite (bind_ok _ _ _ _ _ E2). exists d2, k. unfold p' in *. split; [unfold lock_release, served, bind, gets, modify; simpl; by rewrite Hl|].
    split; [apply served_ok; [done|]|].
    + intros b2 x2 Hb2 Hx2. by simplify_eq/=.
    + split; [done|]. rewrite Hd2. simpl. by rewrite Hx', A1.
Qed.

(** ** A request *)

Lemma bind_igetb {A C} b x (f : buf -> A) (k : A -> M (ide D) C) s : id_bufs s !! b = Some x -> (v <- igetb b f ;; k v) s = k (f x) s.
Proof. intros Hx. unfold bind, igetb, gets, ibuf_at. by rewrite (nth_lookup_Some _ _ _ _ Hx). Qed.

Lemma request_flags x : request x -> (Z.land (b_flags x) (Z.lor B_VALID B_DIRTY) =? B_VALID) = false.
Proof. by intros [[-> | [-> | ->]] _ _]. Qed.

(** [iderw] up to its sleep: the buffer is the last of the queue, and its request
    has started when it is also the first. *)
Lemma enqueue_ok b x q envs (s : ide D) : ide_ok s q -> b ∉ q -> id_bufs s !! b = Some x -> request x -> b_lock x = SMine ->
  b_dev x = 0 \/ havedisk1 s <> 0 -> id_lock s = Unlocked -> exists h qn d,
  let s1 := Ide (id_pt s) HeldHere h qn (id_bufs s) (havedisk1 s) d in
  iderw baddr fuel b envs s = (ide_sleep baddr b envs ;; lock_release id_lock_of) s1 /\
  ide_ok s1 (q ++ [b]) /\
  a_disk (ata_of d) = match q with [] => after_start x (a_disk (ata_of (id_dev s))) | _ => a_disk (ata_of (id_dev s)) end.
Proof using Hfuel.
  intros Hok Hb Hx Hr Hmine Hdev Hl. pose proof Hr as [Hfl Hbn Hdl]. pose proof Hok as [Hlb Hqn Hnd Hch Hreq Hst].
  assert (Hlt : (b < NBUF)%nat) by (rewrite <- Hlb; by eapply lookup_lt_Some).
  assert (Eh : sleep_holding (ibuf_lock_of b) s = Ok true s).
  { unfold sleep_holding, bind, gets, ret. simpl. unfold ibuf_at. by rewrite (nth_lookup_Some _ _ _ _ Hx), Hmine. }
  unfold iderw. rewrite (bind_ok _ _ _ _ _ Eh). cbn [negb]. cbv iota.
  rewrite (bind_igetb b x) by done. rewrite request_flags by done. rewrite (bind_igetb b x) by done. erewrite bind_ok by reflexivity.
  replace (negb (b_dev x =? 0) && (havedisk1 s =? 0)) with false.
  2:{ destruct Hdev as [-> |Hd]; [done|]. apply Z.eqb_neq in Hd. by rewrite Hd, andb_false_r. }
  rewrite bind_acquire by done. erewrite bind_ok by reflexivity. cbn [qnext over id_lock_of set_id_lock].
  set (s1 := set_qnext _ _).
  destruct (append_ok (S (S NBUF)) q [] b s1) as (h & qn & E & Hch' & Hlen); simpl app; try done.
  { pose proof (queue_short s q Hok). lia. }
  { simpl. rewrite length_insert. lia. }
  { simpl. rewrite nth_lookup, list_lookup_insert_eq by lia. done. }
  { simpl. by apply queue_insert. }
  rewrite (bind_ok _ _ _ _ _ E). erewrite bind_ok by reflexivity. cbn [idequeue set_idequeue]. set (s2 := set_idequeue h _).
  simpl in Hlen. rewrite length_insert in Hlen. assert (Hnd' : NoDup (q ++ [b])) by (apply NoDup_app; set_solver by eauto using NoDup_singleton).
  assert (Hall : forall d, (forall b' x', head (q ++ [b]) = Some b' -> id_bufs s !! b' = Some x' -> started x' (ata_of d)) ->
    ide_ok (Ide (id_pt s) HeldHere h qn (id_bufs s) (havedisk1 s) d) (q ++ [b])).
  { intros d Hd. split; simpl; [done|lia|done|done| |done]. intros b' Hb'. apply elem_of_app in Hb' as [Hb'|Hb']; [by apply Hreq|].
    apply list_elem_of_singleton in Hb' as ->. by exists x. }
  destruct q as [|b' q].
  - destruct Hch' as (-> & _). rewrite decide_True by done.
    destruct (idestart_ok b x s2 Hx Hbn Hdl) as (d & E2 & Hs2 & Hd2). rewrite (bind_ok _ _ _ _ _ E2). exists (Some b), qn, d.
    split; [done|]. split; [|done]. apply Hall. intros b' x' Hh Hx'. by simplify_eq/=.
  - destruct Hch' as (-> & _). rewrite decide_False by set_solver. rewrite bind_ret. exists (Some b'), qn, (id_dev s).
    split; [done|]. split; [|done]. apply Hall. intros b2 x2 Hh Hx2. by apply (Hst b2).
Qed.

(** The wait for the interrupt: while the process sleeps the interrupt handler
    runs, at a time when the process has been taken off the CPU, and then the
    process gets the CPU back. *)
Definition interrupted (i p : nat) (s1 s' : ide D) : Prop :=
  exists pt1 c1 s2 pt2 c2 y, table_ok pt1 i c1 /\ ideintr baddr fuel (set_id_pt pt1 s1) = Ok tt s2 /\ s' = set_id_pt pt2 s2 /\
    resumed_ok pt2 i c2 p y /\ p_state y = RUNNING /\ length (procs pt2) = NPROC /\
    (forall z, z ∈ procs pt2 -> p_state z <> NEG_SLEEPING).

#[export] Instance id_pt_of_laws : LensLaws (id_pt_of (D := D)).
Proof. split; intros; by destruct s. Qed.
#[export] Instance id_lock_of_laws : LensLaws (id_lock_of (D := D)).
Proof. split; intros; by destruct s. Qed.
#[export] Instance id_indep : Indep (id_pt_of (D := D)) id_lock_of.
Proof. by split. Qed.

(** A request with no other in the queue. *)
Lemma iderw_alone b x e (s : ide D) i c p y : ide_ok s [] -> id_bufs s !! b = Some x -> request x -> b_lock x = SMine ->
  b_dev x = 0 \/ havedisk1 s <> 0 -> id_lock s = Unlocked -> cur_ok (id_pt s) i c p y ->
  (forall s1, ide_ok s1 [b] -> id_lock s1 = Unlocked -> interrupted i p s1 (e s1)) ->
  exists s', iderw baddr fuel b [e] s = Ok tt s' /\ ide_ok s' [] /\ id_lock s' = Unlocked /\
    id_bufs s' = <[b := completed x (a_disk (ata_of (id_dev s)))]> (id_bufs s) /\
    a_disk (ata_of (id_dev s')) = after_start x (a_disk (ata_of (id_dev s))) /\
    exists c' y', cur_ok (id_pt s') i c' p y'.
Proof using Hfuel.
  intros Hok Hx Hr Hmine Hdev Hl Hcur He.
  destruct (enqueue_ok b x [] [e] s Hok) as (h & qn & d & E & Hok1 & Hdk); [set_solver|done..|]. rewrite E. clear E.
  set (s1 := Ide _ _ _ _ _ _ _) in *. cbn [ide_sleep]. rewrite bind_assoc, (bind_igetb b x) by done.
  rewrite request_flags by done. cbn [negb]. cbv iota.
  destruct (sleep_turn_ok id_pt_of id_lock_of s1 (Chan (baddr b)) e i c p y Hcur eq_refl) as (s2 & k2 & Hs2 & Hgo).
  assert (Hok2 : ide_ok s2 [b]) by (subst s2; by destruct Hok1).
  destruct (He s2 Hok2) as (pt1 & c1 & s3 & pt2 & c2 & y2 & Ht1 & E3 & E4 & Hres & Hrun & Hlen & Hq); [by subst s2|].
  destruct (ideintr_ok b x [] (set_id_pt pt1 s2) i c1) as (d3 & k3 & E3' & Hok3 & _ & Hdk3);
    [by destruct Hok2|by subst s2|by subst s2|done|]. rewrite E3 in E3'. injection E3' as ->.
  destruct (Hgo y2) as (k4 & c4 & Hr4 & _ & Hn4 & Hp4 & Hturn).
  { unfold wakes. rewrite E4. split; [by subst s2|by exists c2]. }
  rewrite bind_assoc, (bind_ok _ _ _ _ _ Hturn), E4. clear Hgo Hturn He E3.
  assert (Hb : (b < length (id_bufs s))%nat) by (by eapply lookup_lt_Some).
  assert (Ec : completed x (a_disk (ata_of d)) = completed x (a_disk (ata_of (id_dev s)))).
  { unfold completed, after_start in *. simpl in Hdk. rewrite Hdk. by destruct (dirty x). }
  set (s5 := over id_pt_of _ _). cbn [ide_sleep].
  assert (Hx5 : id_bufs s5 !! b = Some (completed x (a_disk (ata_of d)))) by (subst s2; simpl; by apply list_lookup_insert_eq).
  rewrite bind_assoc, (bind_igetb b _ _ _ _ Hx5). cbn [completed set_b_flags b_flags].
  change (negb (Z.land 2 (Z.lor B_VALID B_DIRTY) =? B_VALID)) with false. cbv iota. rewrite bind_ret.
  eexists. split; [reflexivity|]. simpl. split; [by destruct Hok3|]. split; [done|]. split; [subst s2; simpl; by rewrite Ec|].
  split; [rewrite Hdk3; subst s2; exact Hdk|].
  eexists c4, _. destruct Hres as [_ _ _ _ Hslot]. by apply cur_after_turn.
Qed.

(* ------------------------------------------------------------------ *)
(** * Claims *)

(** The driver serves requests in the order in which they were made.  A
    request goes to the end of the queue and its process to sleep on the buffer;
    the controller is started at once when the queue was empty. *)
Theorem iderw_enqueues b x q (s : ide D) i c p y : ide_ok s q -> b ∉ q -> id_bufs s !! b = Some x -> request x -> b_lock x = SMine ->
  b_dev x = 0 \/ havedisk1 s <> 0 -> id_lock s = Unlocked -> cur_ok (id_pt s) i c p y ->
  exists s', iderw baddr fuel b [] s = Wait s' /\ ide_ok s' (q ++ [b]) /\ id_lock s' = Unlocked /\ id_bufs s' = id_bufs s /\
    procs (id_pt s') !! p = Some (set_state NEG_SLEEPING (set_chan (Chan (baddr b)) y)) /\
    a_disk (ata_of (id_dev s')) = match q with [] => after_start x (a_disk (ata_of (id_dev s))) | _ => a_disk (ata_of (id_dev s)) end.
Proof using Hfuel.
  intros Hok Hb Hx Hr Hmine Hdev Hl Hcur.
  destruct (enqueue_ok b x q [] s Hok) as (h & qn & d & E & Hok1 & Hdk); [done..|]. rewrite E. clear E.
  set (s1 := Ide _ _ _ _ _ _ _) in *. cbn [ide_sleep]. rewrite bind_assoc, (bind_igetb b x) by done.
  rewrite request_flags by done. cbn [negb]. cbv iota.
  destruct (sleep_waits id_pt_of id_lock_of s1 (Chan (baddr b)) i c p y Hcur eq_refl) as (k & c2 & _ & _ & _ & _ & _ & Hs).
  unfold bind. rewrite Hs. eexists. split; [reflexivity|]. split; [by destruct Hok1|]. split; [done|]. split; [done|]. split; [|done].
  simpl. apply list_lookup_insert_eq. eapply lookup_lt_Some, Hcur.
Qed.

(** An interrupt completes the request at the head of the queue: a buffer
    that was to be read has the contents of its sector, one that was to be
    written is clean, both are valid; its process is woken; the next request is
    started, and no other buffer changes. *)
Theorem ideintr_serves b x q (s : ide D) i c : ide_ok s (b :: q) -> id_lock s = Unlocked -> id_bufs s !! b = Some x -> table_ok (id_pt s) i c ->
  exists s' k, ideintr baddr fuel s = Ok tt s' /\ ide_ok s' q /\ id_lock s' = Unlocked /\
    id_bufs s' = <[b := set_b_flags 2 (if dirty x then x else set_b_data (a_disk (ata_of (id_dev s)) (b_dev x mod 2) (b_blockno x)) x)]> (id_bufs s) /\
    id_pt s' = set_procs (woken (Chan (baddr b)) <$> procs (id_pt s)) (set_mach k (id_pt s)) /\ same_cpu (mach (id_pt s)) k i c /\
    a_disk (ata_of (id_dev s')) = next_start (id_bufs s) q (a_disk (ata_of (id_dev s))).
Proof using Hfuel.
  intros Hok Hl Hx Ht. destruct (ideintr_ok b x q s i c Hok Hl Hx Ht) as (d & k & E & Hok' & Hk & Hd).
  eexists _, k. split; [exact E|]. by repeat (split; [done|]).
Qed.

(** C26: the disk driver and the memory disk do the same: after [iderw] of a
    buffer, with the interrupt of the controller during the sleep, the buffers
    and the sectors are those that [iderw] of the memory disk gives. *)
Theorem iderw_matches_memdisk b x e (s : ide D) (m : bio) i c p y : ide_ok s [] -> id_bufs s !! b = Some x ->
  b_flags x = 0 \/ b_flags x = 6 -> 0 <= b_blockno x < 1000 -> length (b_data x) = 512%nat -> b_lock x = SMine -> b_dev x = 1 ->
  havedisk1 s <> 0 -> id_lock s = Unlocked -> cur_ok (id_pt s) i c p y ->
  (forall s1, ide_ok s1 [b] -> id_lock s1 = Unlocked -> interrupted i p s1 (e s1)) ->
  bufs m = id_bufs s -> b_blockno x < Z.of_nat (length (disk m)) ->
  (forall n, 0 <= n < Z.of_nat (length (disk m)) -> a_disk (ata_of (id_dev s)) 1 n = nth (Z.to_nat n) (disk m) zero_block) ->
  exists s' m', iderw baddr fuel b [e] s = Ok tt s' /\ Bio.iderw b m = Ok tt m' /\ ide_ok s' [] /\ id_bufs s' = bufs m' /\
    forall n, 0 <= n < Z.of_nat (length (disk m')) -> a_disk (ata_of (id_dev s')) 1 n = nth (Z.to_nat n) (disk m') zero_block.
Proof using Hfuel.
  intros Hok Hx Hf Hbn Hdl Hmine Hdev Hhave Hl Hcur He Hbufs Hlt Hdisk.
  assert (Hr : request x) by (split; [tauto|done|done]).
  destruct (iderw_alone b x e s i c p y) as (s' & E & Hok' & _ & Hb' & Hd' & _); [tauto..|].
  rewrite <- Hbufs in Hx. unfold completed in Hb'. unfold after_start in Hd'. rewrite Hdev in Hb', Hd'. change (1 mod 2) with 1 in *.
  destruct Hf as [Hf|Hf]; unfold dirty in *; rewrite Hf in Hb', Hd'; cbn in Hb', Hd'.
  - pose proof (iderw_read m b x Hx Hmine Hf Hdev (conj (proj1 Hbn) Hlt)) as Em. eexists s', _. split; [done|]. split; [exact Em|].
    split; [done|]. simpl. rewrite Hb', Hbufs, Hdisk, Hd' by lia. split; [|done]. destruct x. simpl in *. by subst.
  - pose proof (iderw_write m b x Hx Hmine Hf Hdev (conj (proj1 Hbn) Hlt)) as Em. eexists s', _. split; [done|]. split; [exact Em|].
    split; [done|]. simpl. rewrite Hb', Hbufs, Hd'. split; [done|]. intros n Hn. rewrite length_insert in Hn. unfold put_sector.
    rewrite nth_lookup. destruct (Z.eqb_spec n (b_blockno x)) as [->|Hne]; simpl.
    + by rewrite list_lookup_insert_eq, Z.eqb_refl by lia.
    + rewrite list_lookup_insert_ne by lia. apply Z.eqb_neq in Hne. rewrite ?Hne. rewrite <- nth_lookup. by apply Hdisk.
Qed.
End ide.

(** ** The hypotheses can hold: a controller that is busy for one look at its
    status after each command *)

Definition sim : Type := ata * bool.

#[export] Instance sim_ports : Ports sim := {|
  inb p (d : sim) := if p =? 503 then (if snd d then 128 else 64, (fst d, false)) else (0, d);
  outb p v (d : sim) :=
    let a := fst d in
    if p =? 503 then (Ata (a_disk a) (a_reg a) v, true)
    else if (498 <=? p) && (p <=? 502) then (Ata (a_disk a) (upd (a_reg a) p v) (a_cmd a), snd d)
    else d;
  mmio_read _ d := (0, d);
  mmio_write _ _ d := d;
|}.

#[export] Instance sim_string_ports : StringPorts sim := {|
  insl _ _ (d : sim) := (a_disk (fst d) (a_drive (fst d)) (a_lba (fst d)), d);
  outsl _ l _ (d : sim) := (Ata (put_sector (a_disk (fst d)) (a_drive (fst d)) (a_lba (fst d)) l) (a_reg (fst d)) (a_cmd (fst d)), snd d);
|}.

#[export] Instance sim_ata : AtaDev sim 2.
Proof.
  refine {| ata_of := fst; polls (d : sim) := if snd d then 1%nat else 0%nat |}; simpl.
  - intros [a []]; simpl; lia.
  - intros [a []]; do 2 eexists; (split; [reflexivity|]); (split; [done|]); simpl; split; done.
  - done.
  - intros p v [a busy] Hp Hv. replace (p =? 503) with false by (symmetry; apply Z.eqb_neq; lia).
    replace ((498 <=? p) && (p <=? 502)) with true; [done|]. symmetry. apply andb_true_iff. split; apply Z.leb_le; lia.
  - done.
  - done.
  - intros d _. by exists d.
Defined.

Definition w_data : block := replicate 512 5.
Definition w_dirty : buf := Buf 6 1 3 SMine 1 w_data.
Definition w_clean : buf := Buf 0 1 7 SMine 1 zero_block.
Definition w_ibufs : list buf := w_dirty :: w_clean :: replicate 28 buf0.
Definition w_proc : proc := set_state RUNNING unused_proc.
Definition w_ata : sim := (Ata (fun _ n => replicate 512 n) (fun _ => 0) 0, false).

(** No request yet; and the write of buffer 0, started, before the read of
    buffer 1. *)
Definition w_idle : ide sim := Ide (run0 w_proc) Unlocked None (replicate 30 None) w_ibufs 1 w_ata.
Definition w_busy : ide sim :=
  Ide (run0 w_proc) Unlocked (Some 0%nat) (Some 1%nat :: replicate 29 None) w_ibufs 1
    (Ata (put_sector (fun _ n => replicate 512 n) 1 3 w_data) (fun p => if p =? 502 then 240 else if p =? 499 then 3 else 0) 48, true).

Lemma w_idle_ok : ide_ok w_idle [].
Proof. split; [done..|constructor|done|set_solver|done]. Qed.

Lemma w_request b x : w_ibufs !! b = Some x -> (b < 2)%nat -> request x.
Proof. intros Hx Hb. destruct b as [|[|b]]; [| |lia]; injection Hx as <-; (split; [simpl; tauto|simpl; lia|done]). Qed.

Lemma w_busy_ok : ide_ok w_busy [0%nat; 1%nat].
Proof.
  split; [done|done| | | |].
  - repeat constructor; set_solver.
  - simpl. repeat split; lia.
  - intros b Hb. assert (Hb2 : (b < 2)%nat) by (repeat (apply elem_of_cons in Hb as [->|Hb]; [lia|]); by apply elem_of_nil in Hb).
    destruct (lookup_lt_is_Some_2 w_ibufs b) as [x Hx]; [simpl; lia|]. exists x. split; [done|]. by eapply w_request.
  - intros b x [= <-] [= <-]. by split.
Qed.

Lemma w_pt_ok : table_ok (run0 w_proc) 0 (Cpu 0 0 false (Some 0%nat)).
Proof. by apply (run0_cur w_proc). Qed.

Lemma iderw_enqueues_witness : exists s', iderw (fun b => Z.of_nat b) 2 0 [] w_idle = Wait s' /\ ide_ok s' [0%nat] /\
  a_disk (fst (id_dev s')) 1 3 = w_data.
Proof.
  destruct (iderw_enqueues (bound := 2) 2 ltac:(lia) (fun b => Z.of_nat b) 0 w_dirty [] w_idle 0 (Cpu 0 0 false (Some 0%nat)) 0 w_proc)
    as (s' & E & Hok & _ & _ & _ & Hd).
  - exact w_idle_ok.
  - apply not_elem_of_nil.
  - reflexivity.
  - apply (w_request 0); [reflexivity|lia].
  - reflexivity.
  - right. done.
  - reflexivity.
  - by apply run0_cur.
  - exists s'. split; [exact E|]. split; [exact Hok|]. by change (fst (id_dev s')) with (ata_of (bound := 2) (id_dev s')); rewrite Hd.
Defined.

Lemma ideintr_serves_witness : exists s', ideintr (fun b => Z.of_nat b) 2 w_busy = Ok tt s' /\ ide_ok s' [1%nat] /\
  id_bufs s' !! 0%nat = Some (set_b_flags 2 w_dirty).
Proof.
  destruct (ideintr_serves (bound := 2) 2 ltac:(lia) (fun b => Z.of_nat b) 0 w_dirty [1%nat] w_busy 0 (Cpu 0 0 false (Some 0%nat)))
    as (s' & k & E & Hok & _ & Hb & _).
  - exact w_busy_ok.
  - reflexivity.
  - reflexivity.
  - exact w_pt_ok.
  - exists s'. split; [exact E|]. split; [exact Hok|]. rewrite Hb. reflexivity.
Defined.

(** The interrupt comes, and the process is switched to. *)
Definition w_interrupt (s : ide sim) : ide sim :=
  match ideintr (fun b => Z.of_nat b) 2 (set_id_pt (run0 w_proc) s) with Ok _ s2 => set_id_pt (back0 w_proc) s2 | _ => s end.

Lemma w_interrupted b s1 : ide_ok s1 [b] -> id_lock s1 = Unlocked -> interrupted 2 (fun b => Z.of_nat b) 0 0 s1 (w_interrupt s1).
Proof.
  intros Hok Hl. destruct (ik_req _ _ Hok b) as (x & Hx & _); [set_solver|].
  destruct (ideintr_ok (bound := 2) 2 ltac:(lia) (fun b => Z.of_nat b) b x [] (set_id_pt (run0 w_proc) s1) 0 (Cpu 0 0 false (Some 0%nat)))
    as (d & k & E & _); [by destruct Hok|done|done|exact w_pt_ok|].
  eexists _, _, _, (back0 w_proc), _, w_proc. split; [exact w_pt_ok|]. split; [exact E|]. split; [unfold w_interrupt; by rewrite E|].
  split; [apply back0_resumed|]. split; [done|]. split; [done|by apply run0_quiet].
Qed.

Definition w_memdisk : bio := Bio Unlocked w_ibufs [] [] ((fun n => replicate 512 (Z.of_nat n)) <$> seq 0 10) [].

Lemma iderw_matches_memdisk_witness : exists s', iderw (fun b => Z.of_nat b) 2 1 [w_interrupt] w_idle = Ok tt s' /\
  id_bufs s' !! 1%nat = Some (Buf 2 1 7 SMine 1 (replicate 512 7)).
Proof.
  destruct (iderw_matches_memdisk (bound := 2) 2 ltac:(lia) (fun b => Z.of_nat b) 1 w_clean w_interrupt w_idle w_memdisk 0
    (Cpu 0 0 false (Some 0%nat)) 0 w_proc) as (s' & m' & E & Em & _ & Hb & _).
  - exact w_idle_ok.
  - reflexivity.
  - left. reflexivity.
  - simpl. lia.
  - reflexivity.
  - reflexivity.
  - reflexivity.
  - discriminate.
  - reflexivity.
  - by apply run0_cur.
  - apply w_interrupted.
  - reflexivity.
  - simpl. lia.
  - intros n Hn. unfold w_memdisk in *. cbn [disk] in *. rewrite length_fmap, length_seq in Hn.
    rewrite nth_lookup, list_lookup_fmap, lookup_seq_lt by lia. simpl. by rewrite Z2Nat.id by lia.
  - exists s'. split; [exact E|]. rewrite Hb. vm_compute in Em. injection Em as <-. reflexivity.
Defined.
