(* ===== verification/Log.v ===== *)
(** The write-ahead log of the file system (src/log.c): transactions, commit
    and recovery.

    The state holds the in-memory log, the buffer cache with the disk, and the
    process table (for [sleep] and [wakeup] on the log).  A crash is a prefix of
    the block writes of a commit (each block write is atomic, as the disk
    promises); the machine then restarts with an empty cache and runs
    [recover_from_log]. *)

From S2P Require Import Prelude Spinlock Kalloc Ptable Sleeplock Block Bio.

(* src/param.h:10-10 MAXOPBLOCKS *)
Definition MAXOPBLOCKS : Z := 10.
(* src/param.h:11-11 LOGSIZE *)
Definition LOGSIZE : Z := 30.
(* src/param.h:8-8 ROOTDEV *)
Definition ROOTDEV : Z := 1.

(* src/log.c:34-48 log *)
Record log := Log {
  lg_lock : lock_view;
  lg_start : Z;
  lg_size : Z;
  lg_outstanding : Z;   (* how many FS sys calls are executing. *)
  lg_committing : bool; (* in commit(), please wait. *)
  lg_dev : Z;
  lh_n : Z;
  lh_block : list Z;
}.

Definition set_lg_lock v g := Log v (lg_start g) (lg_size g) (lg_outstanding g) (lg_committing g) (lg_dev g) (lh_n g) (lh_block g).
Definition set_outstanding v g := Log (lg_lock g) (lg_start g) (lg_size g) v (lg_committing g) (lg_dev g) (lh_n g) (lh_block g).
Definition set_committing v g := Log (lg_lock g) (lg_start g) (lg_size g) (lg_outstanding g) v (lg_dev g) (lh_n g) (lh_block g).
Definition set_lh n bs g := Log (lg_lock g) (lg_start g) (lg_size g) (lg_outstanding g) (lg_committing g) (lg_dev g) n bs.

Record logst := Logst { lg : log; lb : bio; lpt : pst }.
Definition set_lg v s := Logst v (lb s) (lpt s).
Definition set_lb v s := Logst (lg s) v (lpt s).
Definition set_lpt v s := Logst (lg s) (lb s) v.
Definition lb_of : lens logst bio := Lens lb set_lb.
Definition lpt_of : lens logst pst := Lens lpt set_lpt.
Definition lg_lock_of : lens logst lock_view :=
  Lens (fun s => lg_lock (lg s)) (fun v s => set_lg (set_lg_lock v (lg s)) s).

(** The channel [&log]. *)
Definition log_chan : channel := Chan (-1).

(* src/fs.h:14-22 superblock *)
Record superblock := Superblock {
  sb_size : Z;         (* Size of file system image (blocks) *)
  sb_nblocks : Z;      (* Number of data blocks *)
  sb_ninodes : Z;      (* Number of inodes. *)
  sb_nlog : Z;         (* Number of log blocks *)
  sb_logstart : Z;     (* Block number of first log block *)
  sb_inodestart : Z;   (* Block number of first inode block *)
  sb_bmapstart : Z;    (* Block number of first free map block *)
}.

Definition decode_sb (d : block) : superblock :=
  Superblock (get32 d 0) (get32 d 4) (get32 d 8) (get32 d 12) (get32 d 16) (get32 d 20) (get32 d 24).

(* src/fs.c:32-41 readsb *)
Definition readsb (dev : Z) : M bio superblock :=
  bp <- bread dev 1 ;;
  d <- getb bp b_data ;;
  brelse bp ;;
  ret (decode_sb d).

(** One turn of the loop of [install_trans]: log block to its home. *)

(* src/log.c:74-80 install_trans *)
Definition install_one (g : log) (tail : Z) : M bio unit :=
  lbuf <- bread (lg_dev g) (lg_start g + tail + 1) ;;              (* read log block *)
  dbuf <- bread (lg_dev g) (nth (Z.to_nat tail) (lh_block g) 0) ;; (* read dst *)
  d <- getb lbuf b_data ;;
  setb dbuf (set_b_data d) ;;                                      (* copy block to dst *)
  bwrite dbuf ;;                                                   (* write dst to disk *)
  brelse lbuf ;;
  brelse dbuf.

(* src/log.c:68-82 install_trans *)
Definition install_trans : M logst unit :=
  g <- gets lg ;;
  zoom lb_of (for_each (range 0 (Z.to_nat (lh_n g))) (install_one g)).

(** The on-disk header: the count, then the block numbers. *)
Definition head_n (d : block) : Z := s32 (get32 d 0).
Definition head_block (d : block) (i : Z) : Z := s32 (get32 d (4 + 4 * i)).

(* src/log.c:84-96 read_head *)
Definition read_head : M logst unit :=
  g <- gets lg ;;
  buf <- zoom lb_of (bread (lg_dev g) (lg_start g)) ;;
  d <- zoom lb_of (getb buf b_data) ;;
  let n := head_n d in
  modify (fun s => set_lg (set_lh n (fold_left (fun bs i => <[Z.to_nat i := head_block d i]> bs)
    (range 0 (Z.to_nat n)) (lh_block (lg s))) (lg s)) s) ;;
  zoom lb_of (brelse buf).

(** The header block [d] after the in-memory header is copied into it. *)
Definition put_head (n : Z) (bs : list Z) (d : block) : block :=
  fold_left (fun d i => put32 d (4 + 4 * i) (nth (Z.to_nat i) bs 0)) (range 0 (Z.to_nat n)) (put32 d 0 n).

(* src/log.c:98-113 write_head *)
Definition write_head : M logst unit :=
  g <- gets lg ;;
  zoom lb_of (
    buf <- bread (lg_dev g) (lg_start g) ;;
    setb buf (fun x => set_b_data (put_head (lh_n g) (lh_block g) (b_data x)) x) ;;
    bwrite buf ;;
    brelse buf).

(* src/log.c:115-122 recover_from_log *)
Definition recover_from_log : M logst unit :=
  read_head ;;
  install_trans ;; (* if committed, copy from log to disk *)
  modify (fun s => set_lg (set_lh 0 (lh_block (lg s)) (lg s)) s) ;;
  write_head. (* clear the log *)

(* src/log.c:53-66 initlog *)
Definition initlog (dev : Z) : M logst unit :=
  modify (fun s => set_lg (set_lg_lock Unlocked (lg s)) s) ;;
  sb <- zoom lb_of (readsb dev) ;;
  modify (fun s => let g := lg s in
    set_lg (Log (lg_lock g) (s32 (sb_logstart sb)) (s32 (sb_nlog sb)) (lg_outstanding g) (lg_committing g)
              dev (lh_n g) (lh_block g)) s) ;;
  recover_from_log.

(** One turn of the loop of [write_log]: cached block to the log. *)

(* src/log.c:182-188 write_log *)
Definition write_log_one (g : log) (tail : Z) : M bio unit :=
  to <- bread (lg_dev g) (lg_start g + tail + 1) ;;                (* log block *)
  from <- bread (lg_dev g) (nth (Z.to_nat tail) (lh_block g) 0) ;; (* cache block *)
  d <- getb from b_data ;;
  setb to (set_b_data d) ;;
  bwrite to ;;                                                     (* write the log *)
  brelse from ;;
  brelse to.

(* src/log.c:176-190 write_log *)
Definition write_log : M logst unit :=
  g <- gets lg ;;
  zoom lb_of (for_each (range 0 (Z.to_nat (lh_n g))) (write_log_one g)).

(* src/log.c:192-202 commit *)
Definition commit : M logst unit :=
  n <- gets (fun s => lh_n (lg s)) ;;
  if 0 <? n then
    write_log ;;     (* Write modified blocks from cache to log *)
    write_head ;;    (* Write header to disk -- the real commit *)
    install_trans ;; (* Now install writes to home locations *)
    modify (fun s => set_lg (set_lh 0 (lh_block (lg s)) (lg s)) s) ;;
    write_head       (* Erase the transaction from the log *)
  else ret tt.

(** [begin_op]: each turn asleep on the log uses one element of [envs]. *)

(* src/log.c:124-141 begin_op *)
Fixpoint begin_op_loop (envs : list (logst -> logst)) : M logst unit :=
  g <- gets lg ;;
  if lg_committing g || (LOGSIZE <? lh_n g + (lg_outstanding g + 1) * MAXOPBLOCKS)
  then
    match envs with
    | [] => sleep lpt_of log_chan (Some lg_lock_of)
    | e :: envs' => sleep_turn lpt_of log_chan (Some lg_lock_of) e ;; begin_op_loop envs'
    end
  else
    modify (fun s => set_lg (set_outstanding (lg_outstanding (lg s) + 1) (lg s)) s) ;;
    lock_release lg_lock_of.

(* src/log.c:124-141 begin_op *)
Definition begin_op (envs : list (logst -> logst)) : M logst unit :=
  lock_acquire lg_lock_of ;;
  begin_op_loop envs.

(* src/log.c:143-174 end_op *)
Definition end_op : M logst unit :=
  lock_acquire lg_lock_of ;;
  modify (fun s => set_lg (set_outstanding (lg_outstanding (lg s) - 1) (lg s)) s) ;;
  g <- gets lg ;;
  if lg_committing g then panic "log.committing"
  else
    let do_commit := lg_outstanding g =? 0 in
    (if do_commit
     then modify (fun s => set_lg (set_committing true (lg s)) s)
     else zoom lpt_of (wakeup log_chan)) ;;
    lock_release lg_lock_of ;;
    if do_commit then
      commit ;;
      lock_acquire lg_lock_of ;;
      modify (fun s => set_lg (set_committing false (lg s)) s) ;;
      zoom lpt_of (wakeup log_chan) ;;
      lock_release lg_lock_of
    else ret tt.

(** The loop of [log_write]: the first entry equal to [b], or [n]. *)
Fixpoint find_logged (bs : list Z) (n : nat) (b : Z) (i : Z) : Z :=
  match n, bs with
  | S n', b' :: bs' => if b' =? b then i else find_logged bs' n' b (i + 1)
  | _, _ => i
  end.

(* src/log.c:204-233 log_write *)
Definition log_write (b : nat) : M logst unit :=
  g <- gets lg ;;
  if (LOGSIZE <=? lh_n g) || (lg_size g - 1 <=? lh_n g) then panic "too big a transaction"
  else if lg_outstanding g <? 1 then panic "log_write outside of trans"
  else
    lock_acquire lg_lock_of ;;
    bn <- zoom lb_of (getb b b_blockno) ;;
    modify (fun s =>
      let g := lg s in
      let i := find_logged (lh_block g) (Z.to_nat (lh_n g)) bn 0 in  (* log absorbtion *)
      set_lg (set_lh (if i =? lh_n g then lh_n g + 1 else lh_n g)
                     (<[Z.to_nat i := bn]> (lh_block g)) g) s) ;;
    zoom lb_of (setb b (fun x => set_b_flags (Z.lor (b_flags x) B_DIRTY) x)) ;; (* prevent eviction *)
    lock_release lg_lock_of.

(* ------------------------------------------------------------------ *)
(** * Copying a block through the cache *)

(** The effect of writing [d] to block [dst]: on the disk, in the trace of
    writes and on the logical contents; no buffer stays held. *)
Record wrote (s s' : bio) (dst : Z) (d : block) : Prop := {
  wr_inv : exists l, bio_inv s' l ∅;
  wr_disk : disk s' = <[Z.to_nat dst := d]> (disk s);
  wr_writes : writes s' = writes s ++ [(dst, d)];
  wr_lc : forall b, lc s' b = if decide (b = dst) then d else lc s b;
  wr_pinned : forall b, pinned s' b <-> pinned s b /\ b <> dst;
  wr_busy : (nbusy s' <= nbusy s)%nat;
}.

(** After both buffers are read: copy, write, release. *)
Lemma copy_tail_ok s l si di xs xd :
  bio_inv s l {[si; di]} -> si <> di -> bufs s !! si = Some xs -> bufs s !! di = Some xd ->
  b_flags xs = 6 \/ on_disk (disk s) (b_blockno xs) = b_data xs ->
  exists s' l',
    (d <- getb si b_data ;; setb di (set_b_data d) ;; bwrite di ;; brelse si ;; brelse di) s = Ok tt s' /\
    bio_inv s' l' ∅ /\ disk s' = <[Z.to_nat (b_blockno xd) := b_data xs]> (disk s) /\
    writes s' = writes s ++ [(b_blockno xd, b_data xs)] /\
    (forall b, lc s' b = if decide (b = b_blockno xd) then b_data xs else lc s b) /\
    (forall b, pinned s' b <-> pinned s b /\ b <> b_blockno xd) /\
    nbusy s = (nbusy s' + 1 + if (b_flags xs =? 6)%Z then 0 else 1)%nat.
Proof.
  intros Hi Hne Hs Hd Hcl.
  assert (Hhs : si ∈ ({[si; di]} : gset nat)) by set_solver.
  assert (Hhd : di ∈ ({[si; di]} : gset nat)) by set_solver.
  pose proof (held_ok s l _ si xs Hi Hs Hhs) as Hoks.
  destruct (held_dev s l _ si xs Hi Hs Hhs) as (Hds & _ & Hrs).
  destruct (held_dev s l _ di xd Hi Hd Hhd) as (Hdd & _ & Hrd).
  assert (Hbne : b_blockno xs <> b_blockno xd).
  { intros Heq. apply Hne. by apply (bi_unique _ _ _ Hi si di xs xd). }
  destruct (set_data_ok s l _ di xd Hi Hd Hhd (b_data xs) (bf_data _ _ _ Hoks)) as (Hi1 & Hlc1 & Hn1).
  set (s1 := set_bufs _ s) in *.
  assert (Hd1 : bufs s1 !! di = Some (set_b_data (b_data xs) xd)).
  { simpl. apply list_lookup_insert_eq. by eapply lookup_lt_Some. }
  assert (Hs1 : bufs s1 !! si = Some xs) by (simpl; by rewrite list_lookup_insert_ne).
  assert (Hpin1 : forall b, pinned s1 b <-> pinned s b) by (intros b; by apply pinned_insert with xd).
  destruct (bwrite_ok s1 l _ di _ Hi1 Hd1 Hhd) as (Hi2 & Hlc2 & Hn2 & Hp2a & Hp2b & Hp2c).
  pose proof (bwrite_runs s1 l _ di _ Hi1 Hd1 Hhd) as Hrun2. set (s2 := after_write _ _ _) in *.
  assert (Hs2 : bufs s2 !! si = Some xs) by (simpl; rewrite list_lookup_insert_ne by done; done).
  assert (Hd2 : bufs s2 !! di = Some (set_b_flags 2 (set_b_data (b_data xs) xd))).
  { simpl. apply list_lookup_insert_eq. by eapply lookup_lt_Some. }
  destruct (brelse_ok s2 l _ si xs Hi2 Hs2 Hhs) as (s3 & l1 & l2 & Hrun3 & _ & Hi3 & [Hd3 Hw3 Hlc3 Hp3] & Hn3 & Ho3).
  { destruct Hcl as [Hcl|Hcl]; [by left|right]. simpl. rewrite on_disk_insert by done. by rewrite decide_False. }
  assert (Hd3' : bufs s3 !! di = Some (set_b_flags 2 (set_b_data (b_data xs) xd))) by (by rewrite Ho3).
  destruct (brelse_ok s3 _ _ di _ Hi3 Hd3') as (s4 & l3 & l4 & Hrun4 & _ & Hi4 & [Hd4 Hw4 Hlc4 Hp4] & Hn4 & _).
  { set_solver. }
  { right. rewrite Hd3. simpl. rewrite on_disk_insert by done. by rewrite decide_True. }
  exists s4. eexists. split; [|split].
  - unfold getb at 1. unfold bind at 1, gets. rewrite (buf_at_lookup s si xs Hs).
    rewrite (bind_ok _ _ _ _ _ (setb_ok s di _ xd Hd)). fold s1.
    by rewrite (bind_ok _ _ _ _ _ Hrun2), (bind_ok _ _ _ _ _ Hrun3).
  - replace (∅ : gset nat) with (({[si; di]} : gset nat) ∖ {[si]} ∖ {[di]}) by set_solver. exact Hi4.
  - split; [by rewrite Hd4, Hd3|]. split; [by rewrite Hw4, Hw3|]. split; [|split].
    + intros b. by rewrite Hlc4, Hlc3, Hlc2, Hlc1.
    + intros b. rewrite Hp4, Hp3, <- Hpin1. split.
      * intros Hb. split; [by apply Hp2a|]. intros ->. by apply Hp2b.
      * intros [Hb Hbd]. by apply Hp2c.
    + simpl in Hn4. rewrite <- Hn1, <- Hn2. lia.
Qed.

(** The loop bodies of [install_trans] and [write_log]: they differ in the
    order in which they read the two blocks. *)
Section copy.
Context (s : bio) (l : list nat) (src dst : Z).
Context (Hi : bio_inv s l ∅) (Hsrc : 0 <= src < Z.of_nat (length (disk s)))
  (Hdst : 0 <= dst < Z.of_nat (length (disk s))) (Hne : src <> dst).

(** Two buffers to spare, or one and the second block is pinned. *)
Definition room (b : Z) : Prop := (nbusy s + 2 <= NBUF)%nat \/ ((nbusy s < NBUF)%nat /\ pinned s b).

Lemma copy_src_first : room dst -> exists s',
  (si <- bread 1 src ;; di <- bread 1 dst ;;
   d <- getb si b_data ;; setb di (set_b_data d) ;; bwrite di ;; brelse si ;; brelse di) s = Ok tt s' /\
  wrote s s' dst (lc s src).
Proof.
  intros Hroom. destruct (bread_ok s l ∅ src Hi Hsrc) as (si & s1 & H1 & [Hi1 Hn1 [Hd1 Hw1 Hl1 Hp1] (xs & Hx1 & Hc1 & Hda1 & Hcl1 & Hf1 & Hb1) Ho1]);
    [set_solver|left; destruct Hroom; lia|].
  destruct (bread_ok s1 l _ dst Hi1) as (di & s2 & H2 & [Hi2 Hn2 [Hd2 Hw2 Hl2 Hp2] (xd & Hx2 & Hc2 & Hda2 & Hcl2 & Hf2 & Hb2) Ho2]).
  { by rewrite Hd1. }
  { intros i x Hin Hx. assert (i = si) as -> by set_solver. rewrite Hx1 in Hx. simplify_eq. destruct Hc1; congruence. }
  { destruct Hroom as [Hroom|[_ Hroom]]; [left|right; by apply Hp1]. destruct (b_flags xs =? 6); lia. }
  assert (Hdne : si <> di) by set_solver.
  assert (Hx1' : bufs s2 !! si = Some xs) by (by rewrite Ho2).
  destruct (copy_tail_ok s2 l si di xs xd) as (s3 & l3 & H3 & Hi3 & Hd3 & Hw3 & Hl3 & Hp3 & Hb3); try done.
  { replace ({[si; di]} : gset nat) with ({[di]} ∪ ({[si]} ∪ ∅) : gset nat) by set_solver. done. }
  { destruct Hcl1 as [Hcl1|Hcl1]; [by left|right]. destruct Hc1 as [_ ->]. by rewrite Hd2, Hd1. }
  exists s3. split; [by rewrite (bind_ok _ _ _ _ _ H1), (bind_ok _ _ _ _ _ H2)|].
  destruct Hc2 as [_ Hbd]. rewrite Hbd, Hda1 in *. split.
  - by exists l3.
  - by rewrite Hd3, Hd2, Hd1.
  - by rewrite Hw3, Hw2, Hw1.
  - intros b. by rewrite Hl3, Hl2, Hl1.
  - intros b. by rewrite Hp3, Hp2, Hp1.
  - destruct (b_flags xs =? 6), (b_flags xd =? 6); lia.
Qed.

Lemma copy_dst_first : room src -> exists s',
  (di <- bread 1 dst ;; si <- bread 1 src ;;
   d <- getb si b_data ;; setb di (set_b_data d) ;; bwrite di ;; brelse si ;; brelse di) s = Ok tt s' /\
  wrote s s' dst (lc s src).
Proof.
  intros Hroom. destruct (bread_ok s l ∅ dst Hi Hdst) as (di & s1 & H1 & [Hi1 Hn1 [Hd1 Hw1 Hl1 Hp1] (xd & Hx1 & Hc1 & Hda1 & Hcl1 & Hf1 & Hb1) Ho1]);
    [set_solver|left; destruct Hroom; lia|].
  destruct (bread_ok s1 l _ src Hi1) as (si & s2 & H2 & [Hi2 Hn2 [Hd2 Hw2 Hl2 Hp2] (xs & Hx2 & Hc2 & Hda2 & Hcl2 & Hf2 & Hb2) Ho2]).
  { by rewrite Hd1. }
  { intros i x Hin Hx. assert (i = di) as -> by set_solver. rewrite Hx1 in Hx. simplify_eq. destruct Hc1; congruence. }
  { destruct Hroom as [Hroom|[_ Hroom]]; [left|right; by apply Hp1]. destruct (b_flags xd =? 6); lia. }
  assert (Hdne : si <> di) by set_solver.
  assert (Hx1' : bufs s2 !! di = Some xd) by (by rewrite Ho2).
  destruct (copy_tail_ok s2 l si di xs xd) as (s3 & l3 & H3 & Hi3 & Hd3 & Hw3 & Hl3 & Hp3 & Hb3); try done.
  { replace ({[si; di]} : gset nat) with ({[si]} ∪ ({[di]} ∪ ∅) : gset nat) by set_solver. done. }
  { destruct Hcl2 as [Hcl2|Hcl2]; [by left|right]. destruct Hc2 as [_ ->]. by rewrite Hd2. }
  exists s3. split; [by rewrite (bind_ok _ _ _ _ _ H1), (bind_ok _ _ _ _ _ H2)|].
  destruct Hc1 as [_ Hbd]. rewrite Hbd, Hda2, Hl1 in *. split.
  - by exists l3.
  - by rewrite Hd3, Hd2, Hd1.
  - by rewrite Hw3, Hw2, Hw1.
  - intros b. by rewrite Hl3, Hl2, Hl1.
  - intros b. by rewrite Hp3, Hp2, Hp1.
  - destruct (b_flags xs =? 6), (b_flags xd =? 6); lia.
Qed.
End copy.

(* ------------------------------------------------------------------ *)
(** * Sequences of block writes *)

Abbreviation trace := (list (Z * block)).

(** The disk after a sequence of writes; and the contents of the blocks, as a
    function of the block number. *)
Definition apply_writes (w : trace) (d : list block) : list block :=
  fold_left (fun d '(b, x) => <[Z.to_nat b := x]> d) w d.
Definition written (w : trace) (f : Z -> block) : Z -> block :=
  fold_left (fun f '(b, x) => fun b' => if decide (b' = b) then x else f b') w f.

Definition in_range (n : nat) (w : trace) : Prop := Forall (fun '(b, _) => 0 <= b < Z.of_nat n) w.

Lemma apply_writes_length w : forall d, length (apply_writes w d) = length d.
Proof.
  induction w as [|[b x] w IH]; intros d; [done|].
  change (apply_writes ((b, x) :: w) d) with (apply_writes w (<[Z.to_nat b := x]> d)).
  by rewrite IH, length_insert.
Qed.

Lemma written_ext w : forall f g b, f b = g b -> written w f b = written w g b.
Proof.
  induction w as [|[b' x] w IH]; intros f g b Hfg; simpl; [done|].
  apply IH. by case_decide.
Qed.

Lemma written_app w w' f : written (w ++ w') f = written w' (written w f).
Proof. apply fold_left_app. Qed.

Lemma written_notin w : forall f b, b ∉ w.*1 -> written w f b = f b.
Proof.
  induction w as [|[b' x] w IH]; intros f b Hb; simpl in *; [done|].
  apply not_elem_of_cons in Hb as [Hb1 Hb2]. rewrite IH by done. by rewrite decide_False.
Qed.

Lemma written_in w : forall f b x, NoDup w.*1 -> (b, x) ∈ w -> written w f b = x.
Proof.
  induction w as [|[b' x'] w IH]; intros f b x Hnd Hin; [by apply elem_of_nil in Hin|].
  simpl in *. apply NoDup_cons in Hnd as [Hb Hnd]. apply elem_of_cons in Hin as [Hin|Hin].
  - simplify_eq. rewrite written_notin by done. by rewrite decide_True.
  - by apply IH.
Qed.

Lemma on_disk_writes w : forall d b,
  in_range (length d) w -> on_disk (apply_writes w d) b = written w (on_disk d) b.
Proof.
  induction w as [|[b' x] w IH]; intros d b Hr; [done|]. apply Forall_cons in Hr as [Hb Hr].
  change (apply_writes ((b', x) :: w) d) with (apply_writes w (<[Z.to_nat b' := x]> d)).
  rewrite IH by (unfold in_range; rewrite length_insert; exact Hr). simpl. apply written_ext.
  by apply on_disk_insert.
Qed.

(** The effect of a sequence of writes through the cache. *)
Record wrote_all (s s' : bio) (w : trace) : Prop := {
  wa_inv : exists l, bio_inv s' l ∅;
  wa_disk : disk s' = apply_writes w (disk s);
  wa_writes : writes s' = writes s ++ w;
  wa_lc : forall b, lc s' b = written w (lc s) b;
  wa_pinned : forall b, pinned s' b <-> pinned s b /\ b ∉ w.*1;
  wa_busy : (nbusy s' <= nbusy s)%nat;
}.

Lemma wrote_all_nil s l : bio_inv s l ∅ -> wrote_all s s [].
Proof. split; simpl; try done; [by exists l|by rewrite app_nil_r|set_solver]. Qed.

Lemma wrote_all_one s s' b d : wrote s s' b d -> wrote_all s s' [(b, d)].
Proof.
  intros [H1 H2 H3 H4 H5 H6]. split; simpl; try done. intros b'. rewrite H5. set_solver.
Qed.

Lemma wrote_all_app s1 s2 s3 w w' :
  wrote_all s1 s2 w -> wrote_all s2 s3 w' -> wrote_all s1 s3 (w ++ w').
Proof.
  intros [H1 H2 H3 H4 H5 H6] [G1 G2 G3 G4 G5 G6]. split; [done| | | | |lia].
  - rewrite G2, H2. unfold apply_writes. by rewrite fold_left_app.
  - by rewrite G3, H3, app_assoc.
  - intros b. rewrite G4, written_app. by apply written_ext.
  - intros b. rewrite G5, H5, fmap_app. set_solver.
Qed.

(** A loop of copies from [src i] to [dst i], none of whose sources is
    overwritten by the loop; [pin i] is the second block that turn [i] reads. *)
Definition room_for (s : bio) (l : list Z) : Prop :=
  (nbusy s + 2 <= NBUF)%nat \/ ((nbusy s < NBUF)%nat /\ forall b, b ∈ l -> pinned s b).

Lemma room_for_one s l b : room_for s l -> b ∈ l -> room s b.
Proof. intros [H|[H1 H2]] Hb; [by left|right; auto]. Qed.

Lemma copy_loop (f : Z -> M bio unit) (src dst pin : Z -> Z) (N : nat) il : forall s l,
  (forall i, i ∈ il -> forall s l, bio_inv s l ∅ -> length (disk s) = N -> room s (pin i) ->
     exists s', f i s = Ok tt s' /\ wrote s s' (dst i) (lc s (src i))) ->
  (forall i j, i ∈ il -> j ∈ il -> src i <> dst j) ->
  (forall i j, i ∈ il -> j ∈ il -> i <> j -> pin i <> dst j) -> NoDup il ->
  bio_inv s l ∅ -> length (disk s) = N -> room_for s (pin <$> il) ->
  exists s', for_each il f s = Ok tt s' /\ wrote_all s s' ((fun i => (dst i, lc s (src i))) <$> il).
Proof.
  induction il as [|i il IH]; intros s l Hf Hsd Hpd Hnd Hi HN Hb.
  { exists s. split; [done|]. by apply wrote_all_nil with l. }
  apply NoDup_cons in Hnd as [Hnin Hnd].
  destruct (Hf i ltac:(left) s l Hi HN) as (s1 & H1 & Hw1); [by apply (room_for_one _ _ _ Hb); left|].
  destruct (wr_inv _ _ _ _ Hw1) as [l1 Hi1].
  destruct (IH s1 l1) as (s' & H2 & Hw2).
  - intros j Hj. apply Hf. by right.
  - intros j k Hj Hk. apply Hsd; by right.
  - intros j k Hj Hk. apply Hpd; by right.
  - done.
  - done.
  - by rewrite (wr_disk _ _ _ _ Hw1), length_insert.
  - pose proof (wr_busy _ _ _ _ Hw1). destruct Hb as [Hb|[Hb1 Hb2]]; [left; lia|right; split; [lia|]].
    intros b Hbin. apply (wr_pinned _ _ _ _ Hw1). split; [apply Hb2; by right|].
    apply list_elem_of_fmap in Hbin as (j & -> & Hj). apply Hpd; [by right|left|]. by intros ->.
  - exists s'. simpl for_each. rewrite (bind_ok _ _ _ _ _ H1). split; [done|].
    rewrite fmap_cons. change (?x :: ?y) with ([x] ++ y).
    apply wrote_all_app with s1; [by apply wrote_all_one|].
    erewrite list_fmap_ext; [exact Hw2|]. intros k j Hj. simpl. f_equal.
    rewrite (wr_lc _ _ _ _ Hw1), decide_False; [done|].
    apply Hsd; [right; apply list_elem_of_lookup; eauto|left].
Qed.

Lemma lc_ok s l held b :
  bio_inv s l held -> 0 <= b < Z.of_nat (length (disk s)) -> block_ok (lc s b).
Proof.
  intros Hi Hb. unfold lc. destruct (list_find (caches b) (bufs s)) as [[j x]|] eqn:E.
  - apply list_find_Some in E as (Hx & _). apply (bi_bufs _ _ _ Hi j x Hx).
  - by apply (disk_block s l held).
Qed.

Lemma put_head_ok n bs d : block_ok d -> block_ok (put_head n bs d).
Proof.
  intros Hd. unfold put_head. by apply (fold_put32_ok 4), put32_ok.
Qed.

(** Reading a block, changing it with [h], writing and releasing it. *)
Lemma modify_block_ok s l b h :
  bio_inv s l ∅ -> 0 <= b < Z.of_nat (length (disk s)) -> (nbusy s < NBUF)%nat ->
  block_ok (h (lc s b)) -> exists s',
  (buf <- bread 1 b ;; setb buf (fun x => set_b_data (h (b_data x)) x) ;; bwrite buf ;; brelse buf) s = Ok tt s' /\
  wrote s s' b (h (lc s b)).
Proof.
  intros Hi Hb Hroom Hh.
  destruct (bread_ok s l ∅ b Hi Hb) as (i & s1 & H1 & [Hi1 Hn1 [Hd1 Hw1 Hl1 Hp1] (x & Hx1 & Hc1 & Hda1 & _ & _ & Hb1) _]);
    [set_solver|by left|]. destruct Hc1 as [Hdev Hbn].
  assert (Hin : i ∈ ({[i]} ∪ ∅ : gset nat)) by set_solver.
  destruct (set_data_ok s1 l _ i x Hi1 Hx1 Hin (h (b_data x))) as (Hi2 & Hl2 & Hn2); [by rewrite Hda1|].
  pose proof (pinned_insert s1 i x (set_b_data (h (b_data x)) x)) as Hp2.
  set (s2 := set_bufs _ s1) in *. set (x2 := set_b_data (h (b_data x)) x) in *.
  assert (Hx2 : bufs s2 !! i = Some x2) by (simpl; apply list_lookup_insert_eq; by eapply lookup_lt_Some).
  destruct (bwrite_ok s2 l _ i x2 Hi2 Hx2 Hin) as (Hi3 & Hl3 & Hn3 & Hp3a & Hp3b & Hp3c).
  pose proof (bwrite_runs s2 l _ i x2 Hi2 Hx2 Hin) as Hrun3. set (s3 := after_write _ _ _) in *.
  assert (Hx3 : bufs s3 !! i = Some (set_b_flags 2 x2)) by (simpl; apply list_lookup_insert_eq; by eapply lookup_lt_Some).
  destruct (held_dev s2 l _ i x2 Hi2 Hx2 Hin) as (_ & _ & Hr2).
  destruct (brelse_ok s3 l _ i _ Hi3 Hx3 Hin) as (s4 & l1 & l2 & Hrun4 & _ & Hi4 & [Hd4 Hw4 Hl4 Hp4] & Hn4 & _).
  { right. simpl. rewrite on_disk_insert by done. by rewrite decide_True. }
  exists s4. split.
  { rewrite (bind_ok _ _ _ _ _ H1), (bind_ok _ _ _ _ _ (setb_ok s1 i _ x Hx1)).
    by rewrite (bind_ok _ _ _ _ _ Hrun3). }
  simpl in Hn4. rewrite <- Hda1. split.
  - eexists. replace (∅ : gset nat) with (({[i]} ∪ ∅ : gset nat) ∖ {[i]}) by set_solver. exact Hi4.
  - rewrite Hd4. simpl. by rewrite Hbn, Hd1.
  - rewrite Hw4. simpl. by rewrite Hbn, Hw1.
  - intros b'. rewrite Hl4, Hl3, Hl2, Hbn. by rewrite Hl1.
  - intros b'. rewrite Hp4, <- Hp1. split.
    + intros H. split; [apply Hp2; [done|done|by apply Hp3a]|]. intros ->. apply Hp3b. simpl. by rewrite Hbn.
    + intros [H Hne]. apply Hp3c; [simpl; by rewrite Hbn|]. by apply Hp2.
  - destruct (b_flags x =? 6); lia.
Qed.

(* ------------------------------------------------------------------ *)
(** * Commit *)

(** The transaction [bs] in the in-memory log, on a disk of [N] blocks. *)
Record txn (g : log) (N : nat) (bs : list Z) : Prop := {
  tx_dev : lg_dev g = 1;
  tx_n : lh_n g = Z.of_nat (length bs);
  tx_blocks : take (length bs) (lh_block g) = bs;
  tx_nodup : NoDup bs;
  tx_home : forall b, b ∈ bs -> 0 <= b < Z.of_nat N /\ ~ (lg_start g <= b < lg_start g + lg_size g);
  tx_room : Z.of_nat (length bs) < lg_size g;
  tx_start : 0 <= lg_start g;
  tx_area : lg_start g + lg_size g <= Z.of_nat N;
  tx_max : (length bs <= 30)%nat;
}.

Section commit.
Context (g : log) (N : nat) (bs : list Z) (Ht : txn g N bs).
Local Notation st := (lg_start g).
Local Notation home i := (nth (Z.to_nat i) (lh_block g) 0).
Local Notation slots := (range 0 (Z.to_nat (lh_n g))).

Lemma slot_range i : i ∈ slots -> 0 <= i < Z.of_nat (length bs).
Proof. intros Hi. unfold range in Hi. apply elem_of_seqZ in Hi. rewrite (tx_n _ _ _ Ht) in Hi. lia. Qed.

Lemma home_lookup i : i ∈ slots -> bs !! Z.to_nat i = Some (home i).
Proof.
  intros Hi. pose proof (slot_range i Hi). destruct (lookup_lt_is_Some_2 bs (Z.to_nat i)) as [b Hb]; [lia|].
  rewrite Hb. f_equal. symmetry. apply nth_lookup_Some. rewrite <- (tx_blocks _ _ _ Ht) in Hb.
  rewrite lookup_take_Some in Hb. apply Hb.
Qed.

Lemma home_ok i : i ∈ slots -> 0 <= home i < Z.of_nat N /\ ~ (st <= home i < st + lg_size g).
Proof.
  intros Hi. apply (tx_home _ _ _ Ht), list_elem_of_lookup. eexists. by apply home_lookup.
Qed.

Lemma log_slot_ok i : i ∈ slots -> 0 <= st + i + 1 < Z.of_nat N /\ st < st + i + 1 < st + lg_size g.
Proof.
  intros Hi. pose proof (slot_range i Hi). pose proof (tx_room _ _ _ Ht). pose proof (tx_area _ _ _ Ht).
  pose proof (tx_start _ _ _ Ht). lia.
Qed.

Definition to_log (f : Z -> block) : trace := (fun i => (st + i + 1, f (home i))) <$> slots.
Definition to_home (f : Z -> block) : trace := (fun i => (home i, f (st + i + 1))) <$> slots.

Lemma home_inj i j : i ∈ slots -> j ∈ slots -> home i = home j -> i = j.
Proof.
  intros Hi Hj Heq. pose proof (home_lookup i Hi) as H1. pose proof (home_lookup j Hj) as H2.
  rewrite Heq, <- H2 in H1. pose proof (slot_range i Hi). pose proof (slot_range j Hj).
  apply Z2Nat.inj; [lia|lia|]. apply (NoDup_lookup bs _ _ (home j) (tx_nodup _ _ _ Ht)); congruence.
Qed.

Lemma homes_pinned s : (forall b, b ∈ bs -> pinned s b) -> forall b, b ∈ (fun i => home i) <$> slots -> pinned s b.
Proof.
  intros Hp b Hb. apply list_elem_of_fmap in Hb as (i & -> & Hi). apply Hp, list_elem_of_lookup.
  eexists. by apply home_lookup.
Qed.

(** Two buffers to spare; or one, and the transaction is pinned in the cache. *)
Definition log_room (s : bio) : Prop :=
  (nbusy s + 2 <= NBUF)%nat \/ ((nbusy s < NBUF)%nat /\ forall b, b ∈ bs -> pinned s b).

Lemma log_room_for s : log_room s -> room_for s ((fun i => home i) <$> slots).
Proof. intros [H|[H1 H2]]; [by left|right]. split; [done|by apply homes_pinned]. Qed.

Lemma write_log_ok s l :
  bio_inv (lb s) l ∅ -> lg s = g -> length (disk (lb s)) = N -> log_room (lb s) ->
  exists s', write_log s = Ok tt (set_lb s' s) /\ wrote_all (lb s) s' (to_log (lc (lb s))).
Proof.
  intros Hi Hg HN Hb.
  destruct (copy_loop (write_log_one g) (fun i => home i) (fun i => st + i + 1) (fun i => home i) N slots (lb s) l)
    as (s' & H & Hw); [| | |apply NoDup_seqZ|done|done|by apply log_room_for|].
  - intros i Hin s0 l0 Hi0 HN0 Hb0. pose proof (home_ok i Hin). pose proof (log_slot_ok i Hin).
    unfold write_log_one. rewrite (tx_dev _ _ _ Ht).
    apply (copy_dst_first s0 l0 (home i) (st + i + 1)); (done || lia).
  - intros i j Hin Hjn. pose proof (home_ok i Hin). pose proof (log_slot_ok j Hjn). lia.
  - intros i j Hin Hjn _. pose proof (home_ok i Hin). pose proof (log_slot_ok j Hjn). lia.
  - exists s'. split; [|done]. unfold write_log. erewrite bind_ok by reflexivity. rewrite Hg.
    by rewrite (zoom_ok lb_of _ s _ _ H).
Qed.

Lemma install_ok s l :
  bio_inv (lb s) l ∅ -> lg s = g -> length (disk (lb s)) = N -> log_room (lb s) ->
  exists s', install_trans s = Ok tt (set_lb s' s) /\ wrote_all (lb s) s' (to_home (lc (lb s))).
Proof.
  intros Hi Hg HN Hb.
  destruct (copy_loop (install_one g) (fun i => st + i + 1) (fun i => home i) (fun i => home i) N slots (lb s) l)
    as (s' & H & Hw); [| | |apply NoDup_seqZ|done|done|by apply log_room_for|].
  - intros i Hin s0 l0 Hi0 HN0 Hb0. pose proof (home_ok i Hin). pose proof (log_slot_ok i Hin).
    unfold install_one. rewrite (tx_dev _ _ _ Ht).
    apply (copy_src_first s0 l0 (st + i + 1) (home i)); (done || lia).
  - intros i j Hin Hjn. pose proof (home_ok j Hjn). pose proof (log_slot_ok i Hin). lia.
  - intros i j Hin Hjn Hne Heq. apply Hne. by apply home_inj.
  - exists s'. split; [|done]. unfold install_trans. erewrite bind_ok by reflexivity. rewrite Hg.
    by rewrite (zoom_ok lb_of _ s _ _ H).
Qed.
End commit.

(** The installed blocks depend on the transaction, not on how the log holds it. *)
Lemma to_home_ext g g' N bs f f' :
  txn g N bs -> txn g' N bs -> lg_start g = lg_start g' -> (forall b, f b = f' b) -> to_home g f = to_home g' f'.
Proof.
  intros Ht Ht' Hst Hf. unfold to_home. rewrite (tx_n _ _ _ Ht), (tx_n _ _ _ Ht').
  apply list_fmap_ext. intros k i Hk.
  assert (Hin : i ∈ range 0 (Z.to_nat (Z.of_nat (length bs)))) by (apply list_elem_of_lookup; eauto).
  pose proof (home_lookup g N bs Ht i) as H1. pose proof (home_lookup g' N bs Ht' i) as H2.
  rewrite (tx_n _ _ _ Ht) in H1. rewrite (tx_n _ _ _ Ht') in H2. specialize (H1 Hin). specialize (H2 Hin).
  rewrite H1 in H2. injection H2 as H2. by rewrite H2, Hst, Hf.
Qed.

Lemma write_head_ok s l g :
  bio_inv (lb s) l ∅ -> lg s = g -> lg_dev g = 1 -> 0 <= lg_start g < Z.of_nat (length (disk (lb s))) ->
  (nbusy (lb s) < NBUF)%nat ->
  exists s', write_head s = Ok tt (set_lb s' s) /\
    wrote (lb s) s' (lg_start g) (put_head (lh_n g) (lh_block g) (lc (lb s) (lg_start g))).
Proof.
  intros Hi Hg Hdev Hst Hb.
  destruct (modify_block_ok (lb s) l (lg_start g) (put_head (lh_n g) (lh_block g)) Hi Hst Hb) as (s' & H & Hw).
  { apply put_head_ok. by apply (lc_ok (lb s) l ∅). }
  exists s'. split; [|done]. unfold write_head. erewrite bind_ok by reflexivity. rewrite Hg, Hdev.
  by rewrite (zoom_ok lb_of _ s _ _ H).
Qed.

(** The writes of a commit, in order. *)
Definition head_on (g : log) (f : Z -> block) : block := put_head (lh_n g) (lh_block g) (f (lg_start g)).
Definition install_writes (g : log) (f : Z -> block) : trace :=
  (fun i => let b := nth (Z.to_nat i) (lh_block g) 0 in (b, f b)) <$> range 0 (Z.to_nat (lh_n g)).
Definition commit_writes (g : log) (f : Z -> block) : trace :=
  to_log g f ++ (lg_start g, head_on g f) :: install_writes g f
    ++ [(lg_start g, put_head 0 (lh_block g) (head_on g f))].

Section commit_ok.
Context (g : log) (N : nat) (bs : list Z) (Ht : txn g N bs).
Local Notation st := (lg_start g).

Lemma to_log_dst f b : b ∈ (to_log g f).*1 -> st < b < st + lg_size g.
Proof.
  unfold to_log. rewrite <- list_fmap_compose. intros Hb. apply list_elem_of_fmap in Hb as (i & -> & Hi).
  by apply (log_slot_ok g N bs Ht).
Qed.

Lemma install_dst f b : b ∈ (install_writes g f).*1 -> b ∈ bs.
Proof.
  unfold install_writes. rewrite <- list_fmap_compose. intros Hb. apply list_elem_of_fmap in Hb as (i & -> & Hi).
  simpl. apply list_elem_of_lookup. eexists. by apply (home_lookup g N bs Ht).
Qed.

Lemma to_log_nodup f : NoDup (to_log g f).*1.
Proof.
  unfold to_log. rewrite <- list_fmap_compose. apply NoDup_fmap_2_strong; [|apply NoDup_seqZ].
  simpl. intros. lia.
Qed.

Lemma install_nodup f : NoDup (install_writes g f).*1.
Proof.
  unfold install_writes. rewrite <- list_fmap_compose. apply NoDup_fmap_2_strong; [|apply NoDup_seqZ].
  simpl. intros i j Hi Hj. by apply (home_inj g N bs Ht).
Qed.

Lemma bs_outside b : b ∈ bs -> ~ (st <= b < st + lg_size g).
Proof. apply (tx_home _ _ _ Ht). Qed.

Lemma to_log_read f f0 i : i ∈ range 0 (Z.to_nat (lh_n g)) ->
  written (to_log g f) f0 (st + i + 1) = f (nth (Z.to_nat i) (lh_block g) 0).
Proof.
  intros Hi. apply written_in; [apply to_log_nodup|]. unfold to_log. apply list_elem_of_fmap. by exists i.
Qed.

Lemma install_read f f0 b : b ∈ bs -> written (install_writes g f) f0 b = f b.
Proof.
  intros Hb. apply written_in; [apply install_nodup|]. apply list_elem_of_lookup in Hb as [k Hk].
  unfold install_writes. apply list_elem_of_fmap. exists (Z.of_nat k).
  assert (Hs : Z.of_nat k ∈ range 0 (Z.to_nat (lh_n g))).
  { unfold range. apply elem_of_seqZ. apply lookup_lt_Some in Hk. rewrite (tx_n _ _ _ Ht). lia. }
  split; [|done]. pose proof (home_lookup g N bs Ht _ Hs) as Hl. rewrite Nat2Z.id in Hl.
  rewrite Hk in Hl. simplify_eq. simpl. by rewrite Nat2Z.id.
Qed.

Lemma commit_ok s l :
  bio_inv (lb s) l ∅ -> lg s = g -> length (disk (lb s)) = N -> log_room bs (lb s) -> bs <> [] ->
  exists s', commit s = Ok tt s' /\ wrote_all (lb s) (lb s') (commit_writes g (lc (lb s))) /\
    lg s' = set_lh 0 (lh_block g) g /\ lpt s' = lpt s.
Proof.
  intros Hi Hg HN Hroom Hne.
  assert (Hst : 0 <= st < Z.of_nat N).
  { pose proof (tx_start _ _ _ Ht). pose proof (tx_room _ _ _ Ht). pose proof (tx_area _ _ _ Ht). lia. }
  destruct (write_log_ok g N bs Ht s l Hi Hg HN Hroom) as (b1 & H1 & Hw1).
  destruct (wa_inv _ _ _ Hw1) as [l1 Hi1].
  assert (HN1 : length (disk b1) = N) by (by rewrite (wa_disk _ _ _ Hw1), apply_writes_length).
  assert (Hnb : (nbusy (lb s) < NBUF)%nat) by (destruct Hroom; lia).
  pose proof (wa_busy _ _ _ Hw1) as Hb1.
  destruct (write_head_ok (set_lb b1 s) l1 g Hi1 Hg (tx_dev _ _ _ Ht)) as (b2 & H2 & Hw2);
    [by simpl; rewrite HN1|simpl; lia|].
  pose proof (wrote_all_app _ _ _ _ _ Hw1 (wrote_all_one _ _ _ _ Hw2)) as Hw12. simpl lb in Hw12.
  assert (Hhead : put_head (lh_n g) (lh_block g) (lc b1 st) = head_on g (lc (lb s))).
  { unfold head_on. f_equal. rewrite (wa_lc _ _ _ Hw1). apply written_notin. intros Hin%to_log_dst. lia. }
  rewrite Hhead in Hw12. destruct (wa_inv _ _ _ Hw12) as [l2 Hi2].
  assert (HN2 : length (disk b2) = N) by (by rewrite (wa_disk _ _ _ Hw12), apply_writes_length).
  pose proof (wa_busy _ _ _ Hw12) as Hb2.
  destruct (install_ok g N bs Ht (set_lb b2 s) l2 Hi2 Hg HN2) as (b3 & H3 & Hw3).
  { simpl. destruct Hroom as [Hroom|[Hr1 Hr2]]; [left; lia|right; split; [lia|]]. intros b Hb.
    apply (wa_pinned _ _ _ Hw12). split; [by apply Hr2|]. rewrite fmap_app. intros Hin.
    pose proof (bs_outside b Hb). apply elem_of_app in Hin as [Hin%to_log_dst|Hin]; [lia|].
    simpl in Hin. apply list_elem_of_singleton in Hin. pose proof (tx_room _ _ _ Ht). lia. }
  assert (Hinst : to_home g (lc b2) = install_writes g (lc (lb s))).
  { unfold to_home, install_writes. apply list_fmap_ext. intros k i Hk. simpl. f_equal.
    assert (Hin : i ∈ range 0 (Z.to_nat (lh_n g))) by (apply list_elem_of_lookup; eauto).
    pose proof (log_slot_ok g N bs Ht i Hin).
    rewrite (wa_lc _ _ _ Hw12), written_app, written_notin by (simpl; rewrite list_elem_of_singleton; lia).
    by apply to_log_read. }
  simpl lb in Hw3. rewrite Hinst in Hw3. pose proof (wrote_all_app _ _ _ _ _ Hw12 Hw3) as Hw123.
  destruct (wa_inv _ _ _ Hw123) as [l3 Hi3].
  assert (HN3 : length (disk b3) = N) by (by rewrite (wa_disk _ _ _ Hw123), apply_writes_length).
  pose proof (wa_busy _ _ _ Hw123) as Hb3.
  set (s3 := set_lg (set_lh 0 (lh_block g) g) (set_lb b3 s)).
  destruct (write_head_ok s3 l3 (set_lh 0 (lh_block g) g) Hi3 eq_refl (tx_dev _ _ _ Ht)) as (b4 & H4 & Hw4);
    [by simpl; rewrite HN3|simpl; lia|].
  exists (set_lb b4 s3). split; [|split; [|done]].
  - unfold commit. unfold bind at 1, gets. rewrite Hg.
    destruct (Z.ltb_spec 0 (lh_n g)) as [_|Hz].
    + rewrite (bind_ok _ _ _ _ _ H1), (bind_ok _ _ _ _ _ H2).
      change (set_lb b2 (set_lb b1 s)) with (set_lb b2 s). rewrite (bind_ok _ _ _ _ _ H3).
      erewrite bind_ok by reflexivity. change (set_lb b3 (set_lb b2 s)) with (set_lb b3 s).
      simpl lg. rewrite Hg. exact H4.
    + rewrite (tx_n _ _ _ Ht) in Hz. destruct bs; simpl in *; [done|lia].
  - pose proof (wrote_all_app _ _ _ _ _ Hw123 (wrote_all_one _ _ _ _ Hw4)) as Hw. simpl lb in Hw.
    unfold commit_writes. rewrite <- !app_assoc in Hw. simpl in Hw.
    assert (Hh : lc b3 st = head_on g (lc (lb s))).
    { rewrite (wa_lc _ _ _ Hw3), written_notin, (wa_lc _ _ _ Hw12), written_app; [simpl; by rewrite decide_True|].
      intros Hin%install_dst. pose proof (bs_outside _ Hin). pose proof (tx_room _ _ _ Ht). lia. }
    by rewrite Hh in Hw.
Qed.
End commit_ok.

(* ------------------------------------------------------------------ *)
(** * The header on disk *)

Lemma range_bounds n : Forall (fun i => 0 <= i < Z.of_nat n) (range 0 n).
Proof. apply Forall_forall. intros i Hi. unfold range in Hi. apply elem_of_seqZ in Hi. lia. Qed.

Lemma put_head_n n bs d :
  length d = 512%nat -> 0 <= n <= 126 -> head_n (put_head n bs d) = n.
Proof.
  intros Hd Hn. unfold head_n, put_head.
  assert (Hout : forall p, 0 <= p < 4 -> Forall (fun i => 0 <= 4 + 4 * i /\ (p < 4 + 4 * i \/ 4 + 4 * i + 4 <= p)) (range 0 (Z.to_nat n))).
  { intros p Hp. eapply Forall_impl; [apply range_bounds|]. simpl. lia. }
  unfold get32. rewrite !(fold_put32_outside 4) by (lia || (apply Hout; lia)). fold (get32 (put32 d 0 n) 0).
  rewrite get32_put32 by lia. by rewrite s32_u32, s32_id by lia.
Qed.

Lemma put_head_block n bs d i :
  length d = 512%nat -> 0 <= n <= 126 -> 0 <= i < n -> 0 <= nth (Z.to_nat i) bs 0 < 2147483648 ->
  head_block (put_head n bs d) i = nth (Z.to_nat i) bs 0.
Proof.
  intros Hd Hn Hi Hb. unfold head_block, put_head. rewrite (fold_put32 4 127).
  - rewrite decide_True by (unfold range; apply elem_of_seqZ; lia).
    by rewrite s32_u32, s32_id by lia.
  - lia.
  - rewrite put32_length. lia.
  - eapply Forall_impl; [apply range_bounds|]. simpl. lia.
  - lia.
Qed.

(** The in-memory copy of the header that [read_head] makes. *)
Definition copied (d : block) (l : list Z) (bs : list Z) : list Z :=
  fold_left (fun bs i => <[Z.to_nat i := head_block d i]> bs) l bs.

Lemma copied_length d l : forall bs, length (copied d l bs) = length bs.
Proof.
  induction l as [|i l IH]; intros bs; [done|]. unfold copied in *. simpl. by rewrite IH, length_insert.
Qed.

Lemma copied_lookup d l : forall bs j,
  Forall (fun i => 0 <= i) l -> 0 <= j -> (Z.to_nat j < length bs)%nat ->
  copied d l bs !! Z.to_nat j = if decide (j ∈ l) then Some (head_block d j) else bs !! Z.to_nat j.
Proof.
  induction l as [|i l IH]; intros bs j Hl Hj Hlt; unfold copied in *; cbn [fold_left].
  { rewrite decide_False by (by intros ?%elem_of_nil). done. }
  apply Forall_cons in Hl as [Hi Hl]. rewrite IH by (done || by rewrite length_insert).
  destruct (decide (j ∈ l)) as [Hin|Hnin]; [rewrite decide_True by (by right); done|].
  destruct (decide (j = i)) as [->|Hne].
  - rewrite decide_True by left. by apply list_lookup_insert_eq.
  - rewrite decide_False by (rewrite elem_of_cons; naive_solver). apply list_lookup_insert_ne. lia.
Qed.

(** What [read_head] reads back from a header that [write_head] wrote. *)
Lemma copied_head n bs0 d bs :
  length d = 512%nat -> (n <= length bs)%nat -> (n <= 30)%nat -> (n <= length bs0)%nat ->
  Forall (fun b => 0 <= b < 2147483648) (take n bs0) ->
  take n (copied (put_head (Z.of_nat n) bs0 d) (range 0 n) bs) = take n bs0.
Proof.
  intros Hd Hn Hn30 Hn0 Hb. apply list_eq. intros k. destruct (decide (k < n)%nat) as [Hk|Hk].
  - rewrite !lookup_take_lt by done. rewrite <- (Nat2Z.id k) at 1.
    rewrite copied_lookup; [| |lia|rewrite Nat2Z.id; lia].
    2:{ eapply Forall_impl; [apply range_bounds|]. simpl. lia. }
    rewrite decide_True by (unfold range; apply elem_of_seqZ; lia).
    destruct (lookup_lt_is_Some_2 bs0 k) as [b Hbk]; [lia|].
    assert (Hbr : 0 <= b < 2147483648).
    { rewrite Forall_lookup in Hb. apply (Hb k). by rewrite lookup_take_lt. }
    rewrite put_head_block; rewrite ?Nat2Z.id, ?(nth_lookup_Some _ _ _ _ Hbk); (done || lia).
  - rewrite !lookup_take_ge by lia. done.
Qed.

(* ------------------------------------------------------------------ *)
(** * Recovery *)

(** Reading a block and releasing it changes nothing. *)
Lemma read_block_ok s l b :
  bio_inv s l ∅ -> 0 <= b < Z.of_nat (length (disk s)) -> (nbusy s < NBUF)%nat ->
  exists i s1 s2 l2, bread 1 b s = Ok i s1 /\ getb i b_data s1 = Ok (lc s b) s1 /\ brelse i s1 = Ok tt s2 /\
    bio_inv s2 l2 ∅ /\ same_blocks s s2 /\ nbusy s2 = nbusy s.
Proof.
  intros Hi Hb Hroom.
  destruct (bread_ok s l ∅ b Hi Hb) as (i & s1 & H1 & [Hi1 Hn1 [Hd1 Hw1 Hl1 Hp1] (x & Hx1 & [Hdx Hbx] & Hda1 & Hcl & _ & Hb1) _]);
    [set_solver|by left|].
  destruct (brelse_ok s1 l _ i x Hi1 Hx1) as (s2 & l1 & l2 & Hrun & _ & Hi2 & [Hd2 Hw2 Hl2 Hp2] & Hn2 & _).
  { set_solver. }
  { destruct Hcl as [Hcl|Hcl]; [by left|right]. by rewrite Hbx, Hd1. }
  exists i, s1, s2. eexists. split; [done|]. split.
  { unfold getb, gets. rewrite (buf_at_lookup s1 i x Hx1). by rewrite Hda1. }
  split; [done|]. split.
  { replace (∅ : gset nat) with (({[i]} ∪ ∅ : gset nat) ∖ {[i]}) by set_solver. exact Hi2. }
  split; [|destruct (b_flags x =? 6); lia].
  split; [congruence|congruence| |].
  - intros b'. by rewrite Hl2, Hl1.
  - intros b'. by rewrite Hp2, Hp1.
Qed.

Lemma read_head_ok s l :
  bio_inv (lb s) l ∅ -> lg_dev (lg s) = 1 ->
  0 <= lg_start (lg s) < Z.of_nat (length (disk (lb s))) -> (nbusy (lb s) < NBUF)%nat ->
  let d := lc (lb s) (lg_start (lg s)) in
  exists s2 l2, read_head s = Ok tt (Logst
      (set_lh (head_n d) (copied d (range 0 (Z.to_nat (head_n d))) (lh_block (lg s))) (lg s)) s2 (lpt s)) /\
    bio_inv s2 l2 ∅ /\ same_blocks (lb s) s2 /\ nbusy s2 = nbusy (lb s).
Proof.
  intros Hi Hdev Hst Hroom d.
  destruct (read_block_ok (lb s) l _ Hi Hst Hroom) as (i & s1 & s2 & l2 & H1 & H2 & H3 & Hi2 & Hs & Hn).
  exists s2, l2. split; [|done]. unfold read_head. erewrite bind_ok by reflexivity. rewrite Hdev.
  rewrite (bind_ok _ _ _ _ _ (zoom_ok lb_of _ s _ _ H1)).
  erewrite bind_ok by (apply (zoom_ok lb_of); exact H2).
  erewrite bind_ok by reflexivity. unfold zoom. simpl view. rewrite H3. done.
Qed.

(** The machine after a restart with disk [d]: an empty cache. *)
Record booted (r : logst) (d : list block) : Prop := {
  bt_inv : exists l, bio_inv (lb r) l ∅;
  bt_disk : disk (lb r) = d;
  bt_lc : forall b, lc (lb r) b = on_disk d b;
  bt_busy : nbusy (lb r) = 0%nat;
  bt_dev : lg_dev (lg r) = 1;
  bt_lh : length (lh_block (lg r)) = 30%nat;
}.

Section recover.
Context (r : logst) (d : list block) (st : Z).
Context (Hr : booted r d) (Hstart : lg_start (lg r) = st) (Hst : 0 <= st < Z.of_nat (length d)).

(** With an empty log on disk nothing but the header block is written. *)
Lemma recover_empty : head_n (on_disk d st) = 0 ->
  exists r' x, recover_from_log r = Ok tt r' /\ disk (lb r') = <[Z.to_nat st := x]> d /\ head_n x = 0.
Proof.
  intros Hn. destruct Hr as [[l Hi] Hd Hlc Hb Hdev Hlh].
  destruct (read_head_ok r l Hi Hdev) as (s2 & l2 & H1 & Hi2 & Hs2 & Hn2);
    [by rewrite Hstart, Hd|rewrite Hb; unfold NBUF; lia|].
  rewrite Hstart, Hlc, Hn in H1. set (g1 := set_lh _ _ _) in H1. set (r1 := Logst g1 s2 (lpt r)) in H1.
  assert (Hinst : install_trans r1 = Ok tt r1) by done.
  set (g2 := set_lh 0 (lh_block g1) g1). set (r2 := set_lg g2 r1).
  destruct (write_head_ok r2 l2 g2 Hi2 eq_refl Hdev) as (s3 & H3 & Hw3).
  { simpl. by rewrite Hstart, (sb_disk _ _ Hs2), Hd. }
  { simpl. rewrite Hn2, Hb. unfold NBUF. lia. }
  exists (set_lb s3 r2). eexists. split; [|split].
  - unfold recover_from_log. rewrite (bind_ok _ _ _ _ _ H1), (bind_ok _ _ _ _ _ Hinst).
    erewrite bind_ok by reflexivity. exact H3.
  - simpl. rewrite (wr_disk _ _ _ _ Hw3). simpl. by rewrite Hstart, (sb_disk _ _ Hs2), Hd.
  - simpl. apply put_head_n; [|lia]. apply (lc_ok s2 l2 ∅ _ Hi2).
    by rewrite ?Hstart, (sb_disk _ _ Hs2), Hd.
Qed.

(** With a committed transaction [bs] every logged block is copied home. *)
Lemma recover_full g bs x :
  txn g (length d) bs -> lg_start g = st -> lg_size (lg r) = lg_size g -> length x = 512%nat ->
  Z.of_nat (length d) < 2147483648 ->
  on_disk d st = put_head (lh_n g) (lh_block g) x ->
  exists r' h, recover_from_log r = Ok tt r' /\ head_n h = 0 /\
    disk (lb r') = apply_writes (to_home g (on_disk d) ++ [(st, h)]) d.
Proof.
  intros Ht Hgst Hsz Hx HN Hhead. destruct Hr as [[l Hi] Hd Hlc Hb Hdev Hlh].
  pose proof (tx_max _ _ _ Ht) as Hmax. pose proof (tx_n _ _ _ Ht) as Hgn.
  destruct (read_head_ok r l Hi Hdev) as (s2 & l2 & H1 & Hi2 & Hs2 & Hn2);
    [by rewrite Hstart, Hd|rewrite Hb; unfold NBUF; lia|].
  rewrite Hstart, Hlc, Hhead in H1.
  rewrite put_head_n in H1 by (done || lia).
  set (g1 := set_lh _ _ _) in H1. set (r1 := Logst g1 s2 (lpt r)) in H1.
  assert (Hlen : (length bs <= length (lh_block g))%nat).
  { rewrite <- (tx_blocks _ _ _ Ht) at 1. rewrite length_take. lia. }
  assert (Htake : take (length bs) (lh_block g1) = bs).
  { subst g1. simpl. rewrite Hgn, Nat2Z.id. rewrite copied_head; try (done || lia).
    - by apply (tx_blocks _ _ _ Ht).
    - rewrite (tx_blocks _ _ _ Ht). apply Forall_forall. intros b Hbin.
      pose proof (tx_home _ _ _ Ht b Hbin). lia. }
  assert (Ht1 : txn g1 (length d) bs).
  { destruct Ht as [T1 T2 T3 T4 T5 T6 T7 T8 T9]. split; simpl; try done; rewrite ?Hstart, ?Hsz, <- ?Hgst; done. }
  destruct (install_ok g1 (length d) bs Ht1 r1 l2 Hi2 eq_refl) as (s3 & H3 & Hw3).
  { simpl. by rewrite (sb_disk _ _ Hs2), Hd. }
  { left. simpl. rewrite Hn2, Hb. unfold NBUF. lia. }
  destruct (wa_inv _ _ _ Hw3) as [l3 Hi3].
  set (g2 := set_lh 0 (lh_block g1) g1). set (r2 := set_lg g2 (set_lb s3 r1)).
  assert (HN3 : length (disk s3) = length d).
  { rewrite (wa_disk _ _ _ Hw3), apply_writes_length. simpl. by rewrite (sb_disk _ _ Hs2), Hd. }
  destruct (write_head_ok r2 l3 g2 Hi3 eq_refl Hdev) as (s4 & H4 & Hw4).
  { simpl. by rewrite Hstart, HN3. }
  { pose proof (wa_busy _ _ _ Hw3) as Hb3. simpl in Hb3 |- *. unfold NBUF in *. lia. }
  exists (set_lb s4 r2). eexists. split; [|split].
  - unfold recover_from_log. rewrite (bind_ok _ _ _ _ _ H1), (bind_ok _ _ _ _ _ H3).
    erewrite bind_ok by reflexivity. exact H4.
  - apply (put_head_n 0 (lh_block g2)); [|lia]. apply (lc_ok s3 l3 ∅ (lg_start (lg r)) Hi3). by rewrite Hstart, HN3.
  - simpl. rewrite (wr_disk _ _ _ _ Hw4). simpl. rewrite (wa_disk _ _ _ Hw3). simpl.
    rewrite (sb_disk _ _ Hs2), Hd, Hstart. unfold apply_writes at 2. rewrite fold_left_app. simpl.
    rewrite (to_home_ext g1 g (length d) bs (lc s2) (on_disk d)); try done.
    + simpl. congruence.
    + intros b. by rewrite (sb_lc _ _ Hs2), Hlc.
Qed.
End recover.

(* ------------------------------------------------------------------ *)
(** * A crash during a commit *)

Section crash.
Context (g : log) (N : nat) (bs : list Z) (Ht : txn g N bs).
Context (f : Z -> block) (D0 : list block) (HN : length D0 = N) (Hmax : Z.of_nat N < 2147483648).
Context (Hfst : block_ok (f (lg_start g))) (Hempty : head_n (on_disk D0 (lg_start g)) = 0).
Local Notation st := (lg_start g).

Lemma to_log_length : length (to_log g f) = length bs.
Proof. unfold to_log, range. rewrite length_fmap, length_seqZ, (tx_n _ _ _ Ht). lia. Qed.

(** The three places a crash can fall in the sequence of writes. *)
Lemma commit_writes_split W1 W2 : commit_writes g f = W1 ++ W2 ->
  ((length W1 <= length bs)%nat /\ exists T, to_log g f = W1 ++ T) \/
  ((length bs < length W1)%nat /\
    ((exists P T, W1 = to_log g f ++ (st, head_on g f) :: P /\ install_writes g f = P ++ T) \/
     W1 = commit_writes g f)).
Proof.
  intros H. pose proof to_log_length as Hl. unfold commit_writes in H.
  apply app_eq_inv in H as [(k & H1 & H2)|(k & -> & H2)].
  - left. split; [|by exists k]. apply (f_equal length) in H1. rewrite length_app in H1. lia.
  - destruct k as [|w k].
    { left. rewrite app_nil_r. split; [lia|]. exists []. by rewrite app_nil_r. }
    right. split; [rewrite length_app; simpl; lia|]. injection H2 as <- H2.
    apply app_eq_inv in H2 as [(k' & H2 & _)|(k' & -> & H2)]; [left; eauto|].
    destruct k' as [|w' k']; [left; exists (install_writes g f), []; by rewrite !app_nil_r|].
    right. injection H2 as <- H2. symmetry in H2. apply app_nil in H2 as [-> _]. done.
Qed.

Lemma commit_writes_dst b : b ∈ (commit_writes g f).*1 -> st <= b < st + lg_size g \/ b ∈ bs.
Proof.
  pose proof (tx_room _ _ _ Ht). unfold commit_writes. rewrite fmap_app, fmap_cons, fmap_app. simpl.
  rewrite elem_of_app, elem_of_cons, elem_of_app, list_elem_of_singleton.
  intros [H1|[-> | [H1| -> ] ] ]; [left; apply (to_log_dst g N bs Ht) in H1; lia|left; lia| |left; lia].
  right. by apply (install_dst g N bs Ht) in H1.
Qed.

Lemma commit_writes_range : in_range N (commit_writes g f).
Proof.
  pose proof (tx_start _ _ _ Ht). pose proof (tx_area _ _ _ Ht).
  apply Forall_forall. intros [b x] Hin%(list_elem_of_fmap_2 fst).
  apply commit_writes_dst in Hin as [Hin|Hin]; simpl in Hin; [lia|]. apply (tx_home _ _ _ Ht) in Hin. lia.
Qed.

(** The contents after the transaction. *)
Definition after_txn (b : Z) : block := if decide (b ∈ bs) then f b else on_disk D0 b.

Lemma log_prefix_dst W1 T b : to_log g f = W1 ++ T -> b ∈ W1.*1 -> st < b < st + lg_size g.
Proof.
  intros H Hin. apply (to_log_dst g N bs Ht f). rewrite H, fmap_app. apply elem_of_app. by left.
Qed.

Lemma install_prefix_dst P T b : install_writes g f = P ++ T -> b ∈ P.*1 -> b ∈ bs.
Proof.
  intros H Hin. apply (install_dst g N bs Ht f). rewrite H, fmap_app. apply elem_of_app. by left.
Qed.

(** What the blocks hold after all the installs, header aside. *)
Lemma installed_blocks P T h b : install_writes g f = P ++ T -> ~ (st <= b < st + lg_size g) ->
  written ((to_log g f ++ (st, h) :: P) ++ install_writes g f) (on_disk D0) b = after_txn b.
Proof.
  intros HP Hb. pose proof (tx_room _ _ _ Ht). unfold after_txn. rewrite written_app. case_decide as Hin.
  - by apply (install_read g N bs Ht).
  - rewrite written_notin by (by intros ?%(install_dst g N bs Ht)).
    apply written_notin. rewrite fmap_app. simpl. rewrite elem_of_app, elem_of_cons.
    intros [H1%(to_log_dst g N bs Ht)|[H1|H1]]; [lia|lia|]. by apply (install_prefix_dst _ _ _ HP) in H1.
Qed.

(** The header as it is on disk between the commit point and the end. *)
Lemma committed_head P T : install_writes g f = P ++ T ->
  written (to_log g f ++ (st, head_on g f) :: P) (on_disk D0) st = head_on g f.
Proof.
  intros HP. rewrite written_app. change ((st, head_on g f) :: P) with ([(st, head_on g f)] ++ P).
  rewrite written_app, written_notin; [simpl; by rewrite decide_True|].
  intros H%(install_prefix_dst _ _ _ HP)%(bs_outside g N bs Ht). pose proof (tx_room _ _ _ Ht). lia.
Qed.

(** The log area as it is on disk after the commit point. *)
Lemma committed_log P T i : install_writes g f = P ++ T -> i ∈ range 0 (Z.to_nat (lh_n g)) ->
  written (to_log g f ++ (st, head_on g f) :: P) (on_disk D0) (st + i + 1) = f (nth (Z.to_nat i) (lh_block g) 0).
Proof.
  intros HP Hi. pose proof (log_slot_ok g N bs Ht i Hi). rewrite written_app.
  rewrite written_notin; [by apply to_log_read|]. simpl. rewrite elem_of_cons.
  intros [H1|H1]; [lia|]. apply (install_prefix_dst _ _ _ HP), (bs_outside g N bs Ht) in H1. lia.
Qed.

Section rebooted.
Context (W1 W2 : trace) (Hw : commit_writes g f = W1 ++ W2) (r : logst).
Context (Hr : booted r (apply_writes W1 D0)) (Hrst : lg_start (lg r) = st) (Hrsz : lg_size (lg r) = lg_size g).

Lemma crash_range : in_range (length D0) W1.
Proof. rewrite HN. pose proof commit_writes_range as H. rewrite Hw in H. by apply Forall_app in H as [H _]. Qed.

Lemma crash_st : 0 <= st < Z.of_nat (length (apply_writes W1 D0)).
Proof.
  rewrite apply_writes_length, HN. pose proof (tx_start _ _ _ Ht). pose proof (tx_room _ _ _ Ht).
  pose proof (tx_area _ _ _ Ht). lia.
Qed.

(** Recovery from a disk whose header is empty leaves the blocks as they are. *)
Lemma recover_nothing : head_n (written W1 (on_disk D0) st) = 0 ->
  exists r', recover_from_log r = Ok tt r' /\ head_n (on_disk (disk (lb r')) st) = 0 /\
    forall b, ~ (st <= b < st + lg_size g) -> on_disk (disk (lb r')) b = written W1 (on_disk D0) b.
Proof.
  intros H0. rewrite <- on_disk_writes in H0 by exact crash_range.
  destruct (recover_empty r _ st Hr Hrst crash_st H0) as (r' & x & Hrun & Hd & Hx).
  pose proof crash_st as Hs. exists r'. split; [done|]. rewrite Hd. split.
  - rewrite on_disk_insert by done. by rewrite decide_True.
  - intros b Hb. pose proof (tx_room _ _ _ Ht). rewrite on_disk_insert by done.
    rewrite decide_False by lia. apply on_disk_writes, crash_range.
Qed.

(** Recovery after the commit point installs the transaction. *)
Lemma recover_installs P T :
  W1 = to_log g f ++ (st, head_on g f) :: P -> install_writes g f = P ++ T ->
  exists r', recover_from_log r = Ok tt r' /\ head_n (on_disk (disk (lb r')) st) = 0 /\
    forall b, ~ (st <= b < st + lg_size g) -> on_disk (disk (lb r')) b = after_txn b.
Proof.
  intros HW HP. pose proof crash_st as Hs. pose proof (tx_room _ _ _ Ht).
  assert (HtD : txn g (length (apply_writes W1 D0)) bs) by (by rewrite apply_writes_length, HN).
  destruct (recover_full r _ st Hr Hrst Hs g bs (f st) HtD eq_refl Hrsz (bo_length _ Hfst)) as (r' & h & Hrun & Hh & Hd).
  { by rewrite apply_writes_length, HN. }
  { rewrite on_disk_writes by exact crash_range. rewrite HW. by apply (committed_head P T). }
  assert (Hhome : to_home g (on_disk (apply_writes W1 D0)) = install_writes g f).
  { unfold to_home, install_writes. apply list_fmap_ext. intros k i Hk. simpl. f_equal.
    rewrite on_disk_writes by exact crash_range. rewrite HW. apply (committed_log P T); [done|].
    apply list_elem_of_lookup; eauto. }
  rewrite Hhome in Hd.
  assert (Hall : disk (lb r') = apply_writes ((W1 ++ install_writes g f) ++ [(st, h)]) D0).
  { rewrite Hd. unfold apply_writes. by rewrite <- fold_left_app, app_assoc. }
  assert (Hrange : in_range (length D0) ((W1 ++ install_writes g f) ++ [(st, h)])).
  { rewrite apply_writes_length in Hs. pose proof commit_writes_range as Hc. unfold commit_writes in Hc.
    apply Forall_app in Hc as [_ Hc]. apply Forall_cons in Hc as [_ Hc]. apply Forall_app in Hc as [Hc _].
    rewrite <- HN in Hc. apply Forall_app_2; [apply Forall_app_2; [exact crash_range|exact Hc]|by apply Forall_singleton]. }
  exists r'. split; [done|]. rewrite Hall. split.
  - rewrite on_disk_writes, written_app by done. simpl. by rewrite decide_True.
  - intros b Hb. rewrite on_disk_writes, written_app by done. simpl. rewrite decide_False by lia.
    rewrite HW. by apply (installed_blocks P T).
Qed.

Lemma crash_recovery :
  exists r', recover_from_log r = Ok tt r' /\ head_n (on_disk (disk (lb r')) st) = 0 /\
    forall b, ~ (st <= b < st + lg_size g) ->
      on_disk (disk (lb r')) b = if decide (length W1 <= length bs)%nat then on_disk D0 b else after_txn b.
Proof.
  pose proof (tx_room _ _ _ Ht).
  destruct (commit_writes_split W1 W2 Hw) as [(Hl & T & HT)|(Hl & [(P & T & HW & HP)|HW])].
  - assert (Hno : forall b, ~ (st < b < st + lg_size g) -> written W1 (on_disk D0) b = on_disk D0 b).
    { intros b Hb. apply written_notin. by intros ?%(log_prefix_dst _ _ _ HT). }
    destruct recover_nothing as (r' & Hrun & Hh & Hb); [rewrite Hno by lia; done|].
    exists r'. do 2 (split; [done|]). intros b Hout. rewrite decide_True by done. rewrite Hb by done.
    apply Hno. lia.
  - destruct (decide (length W1 <= length bs)%nat) as [|_]; [lia|]. by apply (recover_installs P T).
  - destruct (decide (length W1 <= length bs)%nat) as [|_]; [lia|].
    assert (Hfull : forall b, written W1 (on_disk D0) b =
      if decide (b = st) then put_head 0 (lh_block g) (head_on g f)
      else written ((to_log g f ++ (st, head_on g f) :: install_writes g f)) (on_disk D0) b).
    { intros b. rewrite HW. unfold commit_writes. rewrite app_comm_cons, app_assoc, written_app. done. }
    destruct recover_nothing as (r' & Hrun & Hh & Hb).
    { rewrite Hfull, decide_True by done. apply put_head_n; [|lia]. by apply put_head_ok. }
    exists r'. do 2 (split; [done|]). intros b Hout. rewrite Hb, Hfull, decide_False by (done || lia).
    rewrite <- (installed_blocks [] (install_writes g f) (head_on g f) b) by done.
    by rewrite <- app_assoc.
Qed.
End rebooted.
End crash.

(** The disk of a file system with an empty log, as [initlog] reads it. *)
Record log_disk (g : log) (bs : list Z) (d : list block) : Prop := {
  ld_start : s32 (sb_logstart (decode_sb (on_disk d 1))) = lg_start g;
  ld_size : s32 (sb_nlog (decode_sb (on_disk d 1))) = lg_size g;
  ld_sb : 1 ∉ bs /\ ~ (lg_start g <= 1 < lg_start g + lg_size g) /\ (1 < length d)%nat;
  ld_empty : head_n (on_disk d (lg_start g)) = 0;
  ld_max : Z.of_nat (length d) < 2147483648;
}.

Lemma apply_writes_ok w : forall d, Forall block_ok d -> Forall (fun e => block_ok e.2) w -> Forall block_ok (apply_writes w d).
Proof.
  induction w as [|[b x] w IH]; intros d Hd Hw; [done|]. apply Forall_cons in Hw as [Hx Hw].
  apply IH; [by apply Forall_insert|done].
Qed.

Lemma commit_writes_ok g N bs f : txn g N bs -> (forall b, 0 <= b < Z.of_nat N -> block_ok (f b)) ->
  Forall (fun e => block_ok e.2) (commit_writes g f).
Proof.
  intros Ht Hf. pose proof (tx_start _ _ _ Ht). pose proof (tx_room _ _ _ Ht). pose proof (tx_area _ _ _ Ht).
  assert (Hh : block_ok (head_on g f)) by (apply put_head_ok, Hf; lia).
  assert (Hi : forall i, i ∈ range 0 (Z.to_nat (lh_n g)) -> block_ok (f (nth (Z.to_nat i) (lh_block g) 0))).
  { intros i Hi. apply Hf, (home_ok g N bs Ht i Hi). }
  unfold commit_writes. apply Forall_app_2; [|apply Forall_cons; split; [done|apply Forall_app_2]].
  - apply Forall_fmap, Forall_forall. intros i Hin. simpl. by apply Hi.
  - apply Forall_fmap, Forall_forall. intros i Hin. simpl. by apply Hi.
  - apply Forall_singleton. by apply put_head_ok.
Qed.

(** [initlog] after a restart: it finds the log and runs the recovery. *)
Lemma initlog_boot d b l g0 pt :
  bio_inv b l ∅ -> disk b = d -> bufs b = replicate NBUF buf0 -> (1 < length d)%nat ->
  length (lh_block g0) = 30%nat ->
  exists r, initlog 1 (Logst g0 b pt) = recover_from_log r /\ booted r d /\
    lg_start (lg r) = s32 (sb_logstart (decode_sb (on_disk d 1))) /\
    lg_size (lg r) = s32 (sb_nlog (decode_sb (on_disk d 1))).
Proof.
  intros Hi Hd Hb H1 Hg. pose proof (fresh_nbusy b Hb) as Hn.
  assert (Hlc : forall k, lc b k = on_disk d k).
  { intros k. rewrite <- Hd. apply lc_uncached. intros i x Hx [Hdev _]. rewrite Hb in Hx.
    apply lookup_replicate in Hx as [-> _]. done. }
  destruct (read_block_ok b l 1 Hi) as (i & s1 & s2 & l2 & R1 & R2 & R3 & Hi2 & Hs & Hn2);
    [rewrite Hd; lia|rewrite Hn; unfold NBUF; lia|].
  eexists. split; [|split; [split|split]].
  - unfold initlog. erewrite bind_ok by reflexivity.
    erewrite bind_ok.
    2:{ apply (zoom_ok lb_of). unfold readsb. cbn [lb_of view lb set_lg].
        rewrite (bind_ok _ _ _ _ _ R1), (bind_ok _ _ _ _ _ R2), (bind_ok _ _ _ _ _ R3). reflexivity. }
    erewrite bind_ok by reflexivity. reflexivity.
  - eexists. exact Hi2.
  - simpl. by rewrite (sb_disk _ _ Hs).
  - intros k. simpl. by rewrite (sb_lc _ _ Hs).
  - simpl. by rewrite Hn2.
  - done.
  - done.
  - simpl. by rewrite Hlc.
  - simpl. by rewrite Hlc.
Qed.

(** The whole restart with disk [d]. *)
Lemma reboot_ok d g0 pt :
  Forall block_ok d -> (1 < length d)%nat -> length (lh_block g0) = 30%nat ->
  exists b r, binit (bio0 d) = Ok tt b /\ initlog 1 (Logst g0 b pt) = recover_from_log r /\ booted r d /\
    lg_start (lg r) = s32 (sb_logstart (decode_sb (on_disk d 1))) /\
    lg_size (lg r) = s32 (sb_nlog (decode_sb (on_disk d 1))).
Proof.
  intros Hd H1 Hg. destruct (binit_ok d Hd) as (b & l & Hboot & Hib & Hdb & _ & Hbufs).
  destruct (initlog_boot d b l g0 pt Hib Hdb Hbufs H1 Hg) as (r & Hr).
  exists b, r. split; [exact Hboot|exact Hr].
Qed.

(** C1: transactions are atomic under crashes.  [commit] issues a sequence of
    block writes; stop the machine after any prefix [W1] of it, restart with
    what is on the disk, and run [binit] and [initlog].  The recovery returns,
    the log on disk is empty again, and the blocks outside the log hold, all
    of them, the contents from before the transaction when the header had not
    been written (at most one write per block of the transaction), and the
    contents the transaction gave them otherwise. *)
Theorem commit_crash_atomic s l bs :
  bio_inv (lb s) l ∅ -> txn (lg s) (length (disk (lb s))) bs -> bs <> [] -> log_room bs (lb s) ->
  log_disk (lg s) bs (disk (lb s)) ->
  exists s', commit s = Ok tt s' /\
    forall W1 W2 g0 pt, writes (lb s') = writes (lb s) ++ W1 ++ W2 -> length (lh_block g0) = 30%nat ->
      let st := lg_start (lg s) in
      exists b r, binit (bio0 (apply_writes W1 (disk (lb s)))) = Ok tt b /\
        initlog 1 (Logst g0 b pt) = Ok tt r /\
        head_n (on_disk (disk (lb r)) st) = 0 /\
        forall k, ~ (st <= k < st + lg_size (lg s)) ->
          on_disk (disk (lb r)) k =
            if decide (length W1 <= length bs)%nat then on_disk (disk (lb s)) k
            else after_txn bs (lc (lb s)) (disk (lb s)) k.
Proof.
  intros Hi Ht Hne Hroom Hld. set (g := lg s) in *. set (D0 := disk (lb s)) in *. set (f := lc (lb s)).
  destruct (commit_ok g (length D0) bs Ht s l Hi eq_refl eq_refl Hroom Hne) as (s' & Hrun & Hw & _).
  exists s'. split; [done|]. intros W1 W2 g0 pt Htr Hg0 st. rewrite (wa_writes _ _ _ Hw) in Htr.
  apply app_inv_head in Htr. fold g f in Htr.
  pose proof (tx_start _ _ _ Ht) as Hst0. pose proof (tx_room _ _ _ Ht). pose proof (tx_area _ _ _ Ht).
  assert (Hfok : forall b, 0 <= b < Z.of_nat (length D0) -> block_ok (f b)) by (intros b Hb; by apply (lc_ok (lb s) l ∅)).
  pose proof (commit_writes_ok g _ bs f Ht Hfok) as Hwok. rewrite Htr in Hwok. apply Forall_app in Hwok as [Hwok _].
  destruct (ld_sb _ _ _ Hld) as (Hsb1 & Hsb2 & Hsb3).
  assert (Hsb : on_disk (apply_writes W1 D0) 1 = on_disk D0 1).
  { rewrite on_disk_writes by (by apply (crash_range g (length D0) bs Ht f D0 eq_refl W1 W2)).
    apply written_notin. intros Hin.
    assert (Hc : 1 ∈ (commit_writes g f).*1) by (rewrite Htr, fmap_app; apply elem_of_app; by left).
    apply (commit_writes_dst g (length D0) bs Ht f D0) in Hc; [|done]. destruct Hc as [Hc|Hc]; [lia|done]. }
  assert (Hlen : (1 < length (apply_writes W1 D0))%nat) by (by rewrite apply_writes_length).
  pose proof (Hfok st ltac:(lia)) as Hfst.
  destruct (reboot_ok (apply_writes W1 D0) g0 pt (apply_writes_ok W1 D0 (bi_disk _ _ _ Hi) Hwok) Hlen Hg0)
    as (b & r & Hboot & Hinit & Hbt & Hrst & Hrsz).
  rewrite Hsb, (ld_start _ _ _ Hld) in Hrst. rewrite Hsb, (ld_size _ _ _ Hld) in Hrsz.
  destruct (crash_recovery g (length D0) bs Ht f D0 eq_refl (ld_max _ _ _ Hld) Hfst
    (ld_empty _ _ _ Hld) W1 W2 Htr r Hbt Hrst Hrsz) as (r' & Hrec & Hk).
  exists b, r'. split; [exact Hboot|]. split; [rewrite Hinit; exact Hrec|exact Hk].
Qed.

(* ------------------------------------------------------------------ *)
(** * Logging a block *)

Lemma find_logged_shift bs : forall n b i, find_logged bs n b i = i + find_logged bs n b 0.
Proof.
  induction bs as [|b' bs IH]; intros [|n] b i; simpl; try lia.
  destruct (b' =? b); [lia|]. rewrite (IH n b (i + 1)), (IH n b (0 + 1)). lia.
Qed.

(** The loop of [log_write] finds the entry of [b], or the end. *)
Lemma find_logged_spec bs : forall n b, (n <= length bs)%nat ->
  (exists i, find_logged bs n b 0 = Z.of_nat i /\ (i < n)%nat /\ bs !! i = Some b) \/
  (find_logged bs n b 0 = Z.of_nat n /\ b ∉ take n bs).
Proof.
  induction bs as [|b' bs IH]; intros [|n] b Hn; simpl in *; try (right; split; [done|apply not_elem_of_nil]); [lia|].
  destruct (Z.eqb_spec b' b) as [->|Hne]; [left; exists 0%nat; split; [done|split; [lia|done]]|].
  rewrite find_logged_shift. destruct (IH n b) as [(i & -> & Hi & Hb)|[-> Hb]]; [lia|left|right].
  - exists (S i). split; [lia|]. split; [lia|done].
  - split; [lia|]. apply not_elem_of_cons. split; [by intros ->|done].
Qed.

(** The blocks of the transaction in the in-memory log. *)
Definition logged (g : log) : list Z := take (Z.to_nat (lh_n g)) (lh_block g).
Definition log_add (b : Z) (bs : list Z) : list Z := if decide (b ∈ bs) then bs else bs ++ [b].

(** The log and its array are within bounds. *)
Record log_ok (g : log) : Prop := {
  lo_lock : lg_lock g = Unlocked;
  lo_array : length (lh_block g) = 30%nat;
  lo_n : 0 <= lh_n g <= 30;
  lo_nodup : NoDup (logged g);
}.

Definition log_put (b : Z) (g : log) : log :=
  let i := find_logged (lh_block g) (Z.to_nat (lh_n g)) b 0 in
  set_lh (if i =? lh_n g then lh_n g + 1 else lh_n g) (<[Z.to_nat i := b]> (lh_block g)) g.

Lemma logged_length g : log_ok g -> length (logged g) = Z.to_nat (lh_n g).
Proof. intros [_ Ha Hn _]. unfold logged. rewrite length_take. lia. Qed.

Lemma log_put_ok b g : log_ok g -> lh_n g < 30 ->
  log_ok (log_put b g) /\ logged (log_put b g) = log_add b (logged g) /\ lh_n g <= lh_n (log_put b g) <= lh_n g + 1.
Proof.
  intros [Hl Ha Hn Hnd] Hlt. unfold log_put.
  destruct (find_logged_spec (lh_block g) (Z.to_nat (lh_n g)) b) as [(i & Hf & Hi & Hb)|[Hf Hb]]; [lia| |]; rewrite Hf.
  - destruct (Z.eqb_spec (Z.of_nat i) (lh_n g)) as [?|_]; [lia|].
    rewrite Nat2Z.id, list_insert_id by done.
    assert (Hin : b ∈ logged g).
    { apply list_elem_of_lookup. exists i. unfold logged. by rewrite lookup_take_lt. }
    split; [by split|]. split; [|simpl; lia]. unfold log_add. by rewrite decide_True.
  - destruct (Z.eqb_spec (Z.of_nat (Z.to_nat (lh_n g))) (lh_n g)) as [_|?]; [|lia]. rewrite Nat2Z.id.
    assert (Hlg : logged (set_lh (lh_n g + 1) (<[Z.to_nat (lh_n g) := b]> (lh_block g)) g) = logged g ++ [b]).
    { unfold logged. simpl. rewrite Z2Nat.inj_add, Nat.add_1_r by lia.
      erewrite take_S_r by (apply list_lookup_insert_eq; lia). by rewrite take_insert_ge by lia. }
    split; [split; simpl; [done|by rewrite length_insert|lia|]|].
    + rewrite Hlg. apply NoDup_app. split; [done|]. split; [|apply NoDup_singleton].
      intros x Hx ->%list_elem_of_singleton. done.
    + rewrite Hlg. unfold log_add. rewrite decide_False by done. split; [done|simpl; lia].
Qed.

Lemma log_write_runs s b x :
  lg_lock (lg s) = Unlocked -> bufs (lb s) !! b = Some x -> 1 <= lg_outstanding (lg s) ->
  lh_n (lg s) < 30 -> lh_n (lg s) < lg_size (lg s) - 1 ->
  log_write b s = Ok tt (set_lg (log_put (b_blockno x) (lg s))
    (set_lb (set_bufs (<[b := set_b_flags (Z.lor (b_flags x) B_DIRTY) x]> (bufs (lb s))) (lb s)) s)).
Proof.
  intros Hl Hx Ho Hn Hsz. unfold log_write. erewrite bind_ok by reflexivity.
  destruct (Z.leb_spec LOGSIZE (lh_n (lg s))) as [H|_]; [unfold LOGSIZE in H; lia|].
  destruct (Z.leb_spec (lg_size (lg s) - 1) (lh_n (lg s))) as [H|_]; [lia|]. change (false || false) with false.
  destruct (Z.ltb_spec (lg_outstanding (lg s)) 1) as [H|_]; [lia|].
  lazy beta iota. rewrite bind_acquire by done.
  erewrite bind_ok.
  2:{ apply (zoom_ok lb_of). unfold getb, gets. rewrite (buf_at_lookup _ b x) by exact Hx. reflexivity. }
  erewrite bind_ok by reflexivity. erewrite bind_ok.
  2:{ apply (zoom_ok lb_of). apply setb_ok. exact Hx. }
  rewrite release_held by done. f_equal. destruct s as [[] [] ?]. simpl in *. by subst.
Qed.

(* ------------------------------------------------------------------ *)
(** * Reservation of log space

    File-system operations in any interleaving.  Each operation between its
    [begin_op] and its [end_op] may log [MAXOPBLOCKS] blocks; the ghost list
    holds what is left of each budget. *)

Inductive opact := ABegin | AWrite (i b : nat) | AEnd (i : nat).

Definition run_act (a : opact) (c : logst * list Z) : option (logst * list Z) :=
  let '(s, ops) := c in
  match a with
  | ABegin => match begin_op [] s with Ok _ s' => Some (s', MAXOPBLOCKS :: ops) | _ => None end
  | AWrite i b =>
      match ops !! i, bufs (lb s) !! b, log_write b s with
      | Some k, Some _, Ok _ s' => if 0 <? k then Some (s', <[i := k - 1]> ops) else None
      | _, _, _ => None
      end
  | AEnd i =>
      match ops !! i, end_op s with
      | Some _, Ok _ s' => Some (s', delete i ops)
      | _, _ => None
      end
  end.

Fixpoint run_acts (l : list opact) (c : logst * list Z) : option (logst * list Z) :=
  match l with
  | [] => Some c
  | a :: l' => match run_act a c with Some c' => run_acts l' c' | None => None end
  end.

Definition budget (ops : list Z) : Z := foldr Z.add 0 ops.

Record ops_ok (c : logst * list Z) : Prop := {
  oo_log : log_ok (lg c.1);
  oo_idle : lg_committing (lg c.1) = false;
  oo_count : lg_outstanding (lg c.1) = Z.of_nat (length c.2);
  oo_each : Forall (fun k => 0 <= k <= MAXOPBLOCKS) c.2;
  oo_room : lh_n (lg c.1) + budget c.2 <= LOGSIZE;
}.

Lemma budget_bounds ops : Forall (fun k => 0 <= k <= MAXOPBLOCKS) ops -> 0 <= budget ops <= MAXOPBLOCKS * Z.of_nat (length ops).
Proof. induction 1 as [|k ops Hk _ IH]; unfold MAXOPBLOCKS in *; simpl in *; lia. Qed.

Lemma budget_insert ops : forall i k, ops !! i = Some k -> budget (<[i := k - 1]> ops) = budget ops - 1.
Proof.
  induction ops as [|k' ops IH]; intros [|i] k Hk; simpl in *; try done; [simplify_eq; lia|].
  rewrite (IH i k Hk). lia.
Qed.

Lemma budget_delete ops : forall i k, ops !! i = Some k -> budget (delete i ops) = budget ops - k.
Proof.
  induction ops as [|k' ops IH]; intros [|i] k Hk; simpl in *; try done; [simplify_eq; lia|].
  rewrite (IH i k Hk). lia.
Qed.

Lemma begin_op_now s : lg_lock (lg s) = Unlocked ->
  lg_committing (lg s) || (LOGSIZE <? lh_n (lg s) + (lg_outstanding (lg s) + 1) * MAXOPBLOCKS) = false ->
  begin_op [] s = Ok tt (set_lg (set_outstanding (lg_outstanding (lg s) + 1) (lg s)) s).
Proof.
  intros Hl Hc. unfold begin_op. rewrite bind_acquire by done. simpl. unfold bind at 1, gets. simpl. rewrite Hc.
  unfold bind, modify. rewrite release_held by done. f_equal. destruct s as [[] ? ?]. simpl in *. by subst.
Qed.

(** What keeps the in-memory log as it is. *)
Definition keeps_log {A} (m : M logst A) : Prop := forall s a s', m s = Ok a s' -> lg s' = lg s.

Lemma keeps_log_lb {A} (m : M bio A) : keeps_log (zoom lb_of m).
Proof. intros s a s' H. by apply zoom_Ok_inv in H as (t & _ & ->). Qed.
Lemma keeps_log_lpt {A} (m : M pst A) : keeps_log (zoom lpt_of m).
Proof. intros s a s' H. by apply zoom_Ok_inv in H as (t & _ & ->). Qed.
Lemma keeps_log_gets {A B} (f : logst -> A) (k : A -> M logst B) :
  (forall a, keeps_log (k a)) -> keeps_log (bind (gets f) k).
Proof. intros Hk s a s' H. by apply (Hk (f s)) in H. Qed.

Lemma commit_log s a s' : commit s = Ok a s' -> lg s' = lg s \/ lg s' = set_lh 0 (lh_block (lg s)) (lg s).
Proof.
  intros H. unfold commit in H. unfold bind at 1, gets in H.
  destruct (0 <? lh_n (lg s)); [right|injection H as <- <-; by left].
  apply bind_Ok_inv in H as (u1 & s1 & H1 & H). apply bind_Ok_inv in H as (u2 & s2 & H2 & H).
  apply bind_Ok_inv in H as (u3 & s3 & H3 & H). unfold bind at 1, modify in H.
  assert (K1 : keeps_log write_log) by (apply keeps_log_gets; intros; apply keeps_log_lb).
  assert (K2 : keeps_log write_head) by (apply keeps_log_gets; intros; apply keeps_log_lb).
  assert (K3 : keeps_log install_trans) by (apply keeps_log_gets; intros; apply keeps_log_lb).
  rewrite (K2 _ _ _ H). simpl. by rewrite (K3 _ _ _ H3), (K2 _ _ _ H2), (K1 _ _ _ H1).
Qed.

(** The log after [end_op]: the transaction is gone when it was the last. *)
Lemma end_op_log s a s' : end_op s = Ok a s' -> lg_lock (lg s) = Unlocked -> log_ok (lg s) ->
  lg s' = set_outstanding (lg_outstanding (lg s) - 1) (lg s) \/
  (lg_outstanding (lg s) = 1 /\ log_ok (lg s') /\ lh_n (lg s') <= lh_n (lg s) /\
   lg_committing (lg s') = false /\ lg_outstanding (lg s') = 0).
Proof.
  intros H Hl [Hlk Ha Hn Hnd]. unfold end_op in H. rewrite bind_acquire in H by done.
  unfold bind at 1 2, modify, gets in H. simpl in H.
  destruct (lg_committing (lg s)) eqn:Ec; [done|].
  destruct (Z.eqb_spec (lg_outstanding (lg s) - 1) 0) as [E|E]; apply bind_Ok_inv in H as (u1 & s1 & H1 & H).
  - right. injection H1 as _ <-. rewrite bind_release in H by done.
    apply bind_Ok_inv in H as (u2 & s2 & H2 & H).
    assert (Hlk2 : lg_lock (lg s2) = Unlocked) by (by destruct (commit_log _ _ _ H2) as [-> | ->]).
    rewrite bind_acquire in H by done. unfold bind at 1, modify in H.
    apply bind_Ok_inv in H as (u3 & s3 & H3 & H). apply keeps_log_lpt in H3.
    assert (Hlk3 : lg_lock (lg s3) = HeldHere) by (by rewrite H3).
    rewrite release_held in H by done. injection H as _ <-. simpl. rewrite H3. simpl.
    split; [lia|]. split; [|destruct (commit_log _ _ _ H2) as [-> | ->]; simpl; (split; [lia|done])].
    destruct (commit_log _ _ _ H2) as [-> | ->]; split; simpl; try (done || lia). constructor.
  - left. apply keeps_log_lpt in H1.
    assert (Hlk1 : lg_lock (lg s1) = HeldHere) by (by rewrite H1).
    rewrite bind_release in H by done. injection H as _ <-. simpl. rewrite H1.
    destruct s as [[] ? ?]. simpl in *. by subst.
Qed.

Lemma log_write_inv s b a s' x :
  log_write b s = Ok a s' -> log_ok (lg s) -> bufs (lb s) !! b = Some x ->
  lh_n (lg s) < 30 /\ lg s' = log_put (b_blockno x) (lg s).
Proof.
  intros H Ho Hx.
  assert (Hg : lh_n (lg s) < 30 /\ lh_n (lg s) < lg_size (lg s) - 1 /\ 1 <= lg_outstanding (lg s)).
  { unfold log_write in H. unfold bind at 1, gets in H.
    destruct (Z.leb_spec LOGSIZE (lh_n (lg s))); [done|].
    destruct (Z.leb_spec (lg_size (lg s) - 1) (lh_n (lg s))); [done|]. change (false || false) with false in H.
    destruct (Z.ltb_spec (lg_outstanding (lg s)) 1); [done|]. unfold LOGSIZE in *. lia. }
  destruct Hg as (Hn & Hs & Hout). split; [done|].
  rewrite (log_write_runs s b x) in H; [|by apply lo_lock|done..]. by injection H as _ <-.
Qed.

Lemma log_put_fields b g : lg_committing (log_put b g) = lg_committing g /\
  lg_outstanding (log_put b g) = lg_outstanding g /\ lg_size (log_put b g) = lg_size g.
Proof. done. Qed.

Lemma run_act_ok a c c' : ops_ok c -> run_act a c = Some c' -> ops_ok c'.
Proof.
  destruct c as [s ops]. intros [Hl Hi Hc He Hr] H. simpl in *. pose proof (budget_bounds ops He) as Hb.
  unfold LOGSIZE, MAXOPBLOCKS in *. destruct a as [|i b|i]; simpl in H.
  - destruct (begin_op [] s) as [u s'| |] eqn:E; [|done..]. injection H as <-.
    destruct (lg_committing (lg s) || (LOGSIZE <? lh_n (lg s) + (lg_outstanding (lg s) + 1) * MAXOPBLOCKS)) eqn:Ea.
    { unfold begin_op in E. rewrite bind_acquire in E by (by apply lo_lock).
      unfold begin_op_loop in E. unfold bind at 1, gets in E. simpl in E. rewrite Ea in E. by apply sleep_never_ok in E. }
    rewrite begin_op_now in E by (done || by apply lo_lock). injection E as _ <-.
    apply orb_false_iff in Ea as [_ Ea]. unfold LOGSIZE, MAXOPBLOCKS in Ea. apply Z.ltb_ge in Ea.
    destruct Hl as [L1 L2 L3 L4]. split; simpl; [by split|done|lia|constructor; [unfold MAXOPBLOCKS; lia|done]|].
    unfold LOGSIZE, MAXOPBLOCKS. lia.
  - destruct (ops !! i) as [k|] eqn:Ek; [|done]. destruct (bufs (lb s) !! b) as [x|] eqn:Ex; [|done].
    destruct (log_write b s) as [u s'| |] eqn:E; [|done..]. destruct (Z.ltb_spec 0 k) as [Hk|]; [|done].
    injection H as <-. destruct (log_write_inv s b u s' x E Hl Ex) as [Hn Hg].
    destruct (log_put_ok (b_blockno x) (lg s) Hl Hn) as (Ho' & _ & Hn').
    split; simpl; rewrite ?Hg; simpl; [done|done|by rewrite length_insert| |].
    + apply Forall_insert; [done|]. apply Forall_lookup_1 with (1 := He) in Ek. unfold MAXOPBLOCKS in *. lia.
    + rewrite (budget_insert ops i k Ek). unfold LOGSIZE. simpl in Hn'. lia.
  - destruct (ops !! i) as [k|] eqn:Ek; [|done]. destruct (end_op s) as [u s'| |] eqn:E; [|done..].
    injection H as <-. pose proof (length_delete ops i ltac:(eauto)) as Hlen.
    pose proof (lookup_lt_Some _ _ _ Ek) as Hlt.
    assert (Hk : 0 <= k) by (apply Forall_lookup_1 with (1 := He) in Ek; lia).
    pose proof (budget_delete ops i k Ek) as Hd. pose proof (Forall_delete _ ops i He) as Hed.
    destruct (end_op_log s u s' E (lo_lock _ Hl) Hl) as [Hg|(H1 & Ho & Hn & Hcm & Hz)].
    + destruct Hl as [L1 L2 L3 L4]. split; simpl; rewrite ?Hg; simpl; [by split|done|lia|done|unfold LOGSIZE; lia].
    + split; simpl; [done|done|lia|done|unfold LOGSIZE; lia].
Qed.

Lemma run_acts_ok l : forall c c', ops_ok c -> run_acts l c = Some c' -> ops_ok c'.
Proof.
  induction l as [|a l IH]; intros c c' Hc H; simpl in H; [by simplify_eq|].
  destruct (run_act a c) as [c1|] eqn:E; [|done]. by eapply IH; [eapply run_act_ok|].
Qed.


(** Three operations log ten blocks each on the log that mkfs makes (30 blocks,
    one of them the header). *)
Definition w_buf (i : nat) : buf := Buf 2 1 (Z.of_nat (100 + i)) SMine 1 zero_block.
Definition w_bio : bio := Bio Unlocked (w_buf <$> seq 0 30) [] [] [] [].
Definition w_log : log := Log Unlocked 2 30 0 false 1 0 (replicate 30 0).
Definition w_acts : list opact :=
  [ABegin; ABegin; ABegin] ++ ((fun i => AWrite (i / 10) i) <$> seq 0 29).


(* ------------------------------------------------------------------ *)
(** * Witnesses *)

(** A disk of 64 blocks whose super block has the log at 2..31. *)
Definition w_ldisk : list block := <[1%nat := put32 (put32 zero_block 12 30) 16 2]> (replicate 64 zero_block).
Definition w_txn : log := Log Unlocked 2 30 0 true 1 2 (40 :: 41 :: replicate 28 0).

Lemma w_ldisk_ok : Forall block_ok w_ldisk.
Proof.
  apply Forall_insert; [apply Forall_replicate, zero_block_ok|]. apply put32_ok, put32_ok, zero_block_ok.
Qed.

Lemma w_ldisk_length : length w_ldisk = 64%nat.
Proof. unfold w_ldisk. by rewrite length_insert, length_replicate. Qed.

Lemma w_ldisk_log : log_disk w_txn [40; 41] w_ldisk.
Proof.
  assert (E : forall b, b <> 1 -> 0 <= b < 64 -> on_disk w_ldisk b = zero_block).
  { intros b H1 Hb. unfold w_ldisk. change 1%nat with (Z.to_nat 1). rewrite on_disk_insert, decide_False by (simpl; lia || done).
    apply on_disk_lookup; [lia|]. apply lookup_replicate. split; [done|lia]. }
  split; [vm_compute; reflexivity|vm_compute; reflexivity| |rewrite E by (simpl; lia); vm_compute; reflexivity|].
  - cbn [lg_start lg_size w_txn]. split; [intros H; rewrite !elem_of_cons, elem_of_nil in H; lia|]. split; [lia|]. rewrite w_ldisk_length. lia.
  - rewrite w_ldisk_length. lia.
Qed.

Lemma w_txn_ok : txn w_txn 64 [40; 41].
Proof.
  split; try (done || (simpl; lia)).
  - apply NoDup_cons. split; [intros H; rewrite list_elem_of_singleton in H; lia|apply NoDup_singleton].
  - intros b Hb. rewrite !elem_of_cons, elem_of_nil in Hb. simpl. lia.
Qed.

Lemma w_log_boot : exists s l, bio_inv s l ∅ /\ disk s = w_ldisk /\ nbusy s = 0%nat.
Proof.
  destruct (binit_ok w_ldisk w_ldisk_ok) as (s & l & _ & Hi & Hd & _ & Hb).
  exists s, l. split; [exact Hi|]. split; [exact Hd|exact (fresh_nbusy s Hb)].
Qed.

Lemma commit_crash_atomic_witness : exists s s', disk (lb s) = w_ldisk /\ commit s = Ok tt s'.
Proof.
  destruct w_log_boot as (b & l & Hi & Hd & Hb).
  destruct (commit_crash_atomic (Logst w_txn b (run0 w_user)) l [40; 41]) as (s' & Hc & _).
  - exact Hi.
  - simpl. rewrite Hd, w_ldisk_length. exact w_txn_ok.
  - done.
  - left. simpl. rewrite Hb. unfold NBUF. lia.
  - simpl. rewrite Hd. exact w_ldisk_log.
  - exists (Logst w_txn b (run0 w_user)), s'. split; [exact Hd|exact Hc].
Defined.

