(* ===== verification/Layer.v ===== *)
(** The interface between the file system and the layers below it.

    [BlockOps] has the calls that src/fs.c makes: [bread], the data of a locked
    buffer, [log_write] and [brelse].  [BlockLayer] states what the buffer cache
    and the log promise about them, in terms of the contents of the blocks, the
    buffers that are held and the set of blocks in the transaction.  The file
    system is proved against the class; the last sections give two
    implementations: the buffer cache and log of the kernel (src/bio.c and
    src/log.c), and blocks in memory. *)

From S2P Require Import Prelude Spinlock Kalloc Ptable Sleeplock Block Bio Log.

Class BlockOps (B : Type) := {
  bl_read : Z -> Z -> M B nat;                    (* bread(dev, blockno) *)
  bl_data : nat -> M B block;                     (* b->data *)
  bl_set : nat -> (block -> block) -> M B unit;   (* stores to b->data *)
  bl_log : nat -> M B unit;                       (* log_write(b) *)
  bl_release : nat -> M B unit;                   (* brelse(b) *)
}.

(** The buffers a process holds at a time. *)
Definition MAXHELD : nat := 3.

(** [H] maps the held buffers to their blocks. *)
Class BlockLayer (B : Type) `{BlockOps B} := {
  contents : B -> Z -> block;
  nblocks : B -> Z;
  in_log : B -> gset Z;
  log_cap : nat;
  layer_ok : B -> gmap nat Z -> Prop;
  law_block : forall s H b, layer_ok s H -> 0 <= b < nblocks s -> block_ok (contents s b);
  law_read : forall s H b, layer_ok s H -> 0 <= b < nblocks s ->
    (forall i, H !! i <> Some b) -> (size H < MAXHELD)%nat ->
    exists i s', bl_read 1 b s = Ok i s' /\ H !! i = None /\ layer_ok s' (<[i := b]> H) /\
      (forall b', contents s' b' = contents s b') /\ nblocks s' = nblocks s /\ in_log s' = in_log s;
  law_data : forall s H i b, layer_ok s H -> H !! i = Some b -> bl_data i s = Ok (contents s b) s;
  law_update : forall s H i b f, layer_ok s H -> H !! i = Some b -> block_ok (f (contents s b)) ->
    (size ({[b]} ∪ in_log s) <= log_cap)%nat ->
    exists s', (bl_set i f ;; bl_log i) s = Ok tt s' /\ layer_ok s' H /\
      (forall b', contents s' b' = if decide (b' = b) then f (contents s b) else contents s b') /\
      nblocks s' = nblocks s /\ in_log s' = {[b]} ∪ in_log s;
  law_release : forall s H i b, layer_ok s H -> H !! i = Some b ->
    exists s', bl_release i s = Ok tt s' /\ layer_ok s' (delete i H) /\
      (forall b', contents s' b' = contents s b') /\ nblocks s' = nblocks s /\ in_log s' = in_log s;
}.

(** The same blocks and the same transaction. *)
Record same_layer {B} `{BlockLayer B} (s s' : B) : Prop := {
  sl_contents : forall b, contents s' b = contents s b;
  sl_nblocks : nblocks s' = nblocks s;
  sl_in_log : in_log s' = in_log s;
}.

#[export] Instance same_layer_refl {B} `{BlockLayer B} : Reflexive same_layer.
Proof. intros s. by split. Qed.
#[export] Instance same_layer_trans {B} `{BlockLayer B} : Transitive same_layer.
Proof. intros s1 s2 s3 [A1 A2 A3] [B1 B2 B3]. split; [intros b; by rewrite B1|congruence..]. Qed.

(* ------------------------------------------------------------------ *)
(** * The buffer cache and the log *)

#[export] Instance log_ops : BlockOps logst := {
  bl_read dev b := zoom lb_of (bread dev b);
  bl_data i := zoom lb_of (getb i b_data);
  bl_set i f := zoom lb_of (setb i (fun x => set_b_data (f (b_data x)) x));
  bl_log := log_write;
  bl_release i := zoom lb_of (brelse i);
}.

(** The transaction as a set of blocks, and the held buffers that are not in it. *)
Definition logged_set (s : logst) : gset Z := list_to_set (logged (lg s)).
Definition unlogged (L : gset Z) (H : gmap nat Z) : gmap nat Z := filter (fun e => e.2 ∉ L) H.

(** The transaction leaves three buffers of the cache free. *)
Definition LOGCAP : nat := 27.

Record bl_inv (s : logst) (H : gmap nat Z) : Prop := {
  bv_bio : exists l, bio_inv (lb s) l (dom H);
  bv_held : forall i b, H !! i = Some b -> exists x, bufs (lb s) !! i = Some x /\ caches b x /\
    (b_flags x = 6 \/ b_data x = on_disk (disk (lb s)) b);
  bv_log : log_ok (lg s);
  bv_open : 1 <= lg_outstanding (lg s);
  bv_size : 29 <= lg_size (lg s);
  bv_pinned : forall b, pinned (lb s) b <-> b ∈ logged (lg s);
  bv_busy : (nbusy (lb s) <= length (logged (lg s)) + size (unlogged (logged_set s) H))%nat;
  bv_cap : (length (logged (lg s)) <= LOGCAP)%nat;
}.

Lemma size_logged s : log_ok (lg s) -> size (logged_set s) = length (logged (lg s)).
Proof. intros Ho. apply size_list_to_set, (lo_nodup _ Ho). Qed.

Lemma unlogged_le L H : (size (unlogged L H) <= size H)%nat.
Proof. apply map_size_filter. Qed.

Lemma elem_logged_set s b : b ∈ logged_set s <-> b ∈ logged (lg s).
Proof. unfold logged_set. apply elem_of_list_to_set. Qed.

Lemma unlogged_insert L H i b : H !! i = None ->
  size (unlogged L (<[i := b]> H)) = (size (unlogged L H) + if decide (b ∈ L) then 0 else 1)%nat.
Proof.
  intros Hi. unfold unlogged. case_decide as Hb.
  - rewrite map_filter_insert_False by (simpl; tauto). rewrite delete_id by done. lia.
  - rewrite map_filter_insert_True by done. rewrite map_size_insert_None.
    + lia.
    + apply map_lookup_filter_None. by left.
Qed.

Lemma unlogged_delete L H i b : H !! i = Some b ->
  (size (unlogged L (delete i H)) + (if decide (b ∈ L) then 0 else 1))%nat = size (unlogged L H).
Proof.
  intros Hi. rewrite <- (insert_delete_id H i b Hi) at 2. rewrite unlogged_insert by apply lookup_delete_eq. done.
Qed.

(** A held block enters the transaction. *)
Lemma unlogged_add L H i b : H !! i = Some b -> (forall j, H !! j = Some b -> j = i) -> b ∉ L ->
  (size (unlogged ({[b]} ∪ L) H) + 1 = size (unlogged L H))%nat.
Proof.
  intros Hi Hu Hb. rewrite <- (unlogged_delete L H i b Hi), <- (unlogged_delete ({[b]} ∪ L) H i b Hi).
  rewrite decide_True, decide_False by set_solver. f_equal.
  unfold unlogged. rewrite Nat.add_0_r. f_equal. apply map_filter_ext. intros j b' Hj. simpl.
  apply lookup_delete_Some in Hj as [Hne Hj]. assert (b' <> b) by (intros ->; by apply Hne, eq_sym, Hu). set_solver.
Qed.

Section log_layer.
Context (s : logst) (H : gmap nat Z) (Hv : bl_inv s H).

Lemma bl_length_set : size (logged_set s) = length (logged (lg s)).
Proof. apply size_logged, (bv_log _ _ Hv). Qed.

Lemma held_unique i j b : H !! i = Some b -> H !! j = Some b -> i = j.
Proof.
  intros Hi Hj. destruct (bv_bio _ _ Hv) as [l Hl].
  destruct (bv_held _ _ Hv i b Hi) as (x & Hx & [Dx Bx] & _). destruct (bv_held _ _ Hv j b Hj) as (y & Hy & [Dy By] & _).
  apply (bi_unique _ _ _ Hl i j x y); congruence.
Qed.

Lemma log_read_ok b : 0 <= b < Z.of_nat (length (disk (lb s))) ->
  (forall i, H !! i <> Some b) -> (size H < MAXHELD)%nat ->
  exists i s', bread 1 b (lb s) = Ok i s' /\ H !! i = None /\ bl_inv (set_lb s' s) (<[i := b]> H) /\ same_blocks (lb s) s'.
Proof.
  intros Hb Hnh Hsz. destruct (bv_bio _ _ Hv) as [l Hl].
  destruct (bread_ok (lb s) l (dom H) b Hl Hb) as (i & s' & Hr & [Hi Hnew Hsame (y & Hy & Hc & Hd & Hcl & Hp & Hn) Ho]).
  - intros i x Hin Hx Heq. apply elem_of_dom in Hin as [b' Hb'].
    destruct (bv_held _ _ Hv i b' Hb') as (x' & Hx' & [_ Hbn] & _). simplify_eq. by apply (Hnh i).
  - left. pose proof (bv_busy _ _ Hv). pose proof (bv_cap _ _ Hv). pose proof (unlogged_le (logged_set s) H).
    unfold NBUF, LOGCAP, MAXHELD in *. lia.
  - assert (Hfresh : H !! i = None) by (by apply not_elem_of_dom).
    exists i, s'. split; [done|]. split; [done|]. split; [|done].
    destruct Hsame as [S1 S2 S3 S4]. destruct Hv as [V1 V2 V3 V4 V5 V6 V7 V8]. split; simpl; try done.
    + exists l. by rewrite dom_insert_L.
    + intros j b' Hj. rewrite S1. apply lookup_insert_Some in Hj as [[<- <-]|[Hne Hj]].
      * exists y. split; [done|]. split; [done|]. destruct Hcl as [?|Hcl]; [by left|right; by rewrite Hcl].
      * rewrite Ho by done. by apply V2.
    + intros b'. by rewrite S4.
    + unfold logged_set. simpl. fold (logged_set s). rewrite unlogged_insert by done. rewrite Hn.
      destruct (Z.eqb_spec (b_flags y) 6) as [E|E].
      * rewrite decide_True by (apply elem_logged_set, V6, Hp, E). lia.
      * rewrite decide_False by (intros Hin%elem_logged_set%V6%Hp; done). lia.
Qed.

Lemma log_data_ok i b : H !! i = Some b -> getb i b_data (lb s) = Ok (lc (lb s) b) (lb s).
Proof.
  intros Hi. destruct (bv_bio _ _ Hv) as [l Hl]. destruct (bv_held _ _ Hv i b Hi) as (x & Hx & [Hdev Hbn] & _).
  unfold getb, gets. rewrite (buf_at_lookup _ i x Hx), <- Hbn. by rewrite (lc_cached (lb s) l (dom H) i x Hl Hx Hdev).
Qed.

Lemma log_release_ok i b : H !! i = Some b ->
  exists s', brelse i (lb s) = Ok tt s' /\ bl_inv (set_lb s' s) (delete i H) /\ same_blocks (lb s) s'.
Proof.
  intros Hi. destruct (bv_bio _ _ Hv) as [l Hl]. destruct (bv_held _ _ Hv i b Hi) as (x & Hx & [Hdev Hbn] & Hcl).
  assert (Hin : i ∈ dom H) by (by eapply elem_of_dom_2).
  destruct (brelse_ok (lb s) l (dom H) i x Hl Hx Hin) as (s' & l1 & l2 & Hr & _ & Hi' & [S1 S2 S3 S4] & Hn & Ho).
  { destruct Hcl as [?|Hcl]; [by left|right; by rewrite Hbn, Hcl]. }
  exists s'. split; [done|]. split; [|by split]. destruct Hv as [V1 V2 V3 V4 V5 V6 V7 V8]. split; simpl; try done.
  - eexists. rewrite dom_delete_L. exact Hi'.
  - intros j b' Hj. apply lookup_delete_Some in Hj as [Hne Hj]. rewrite S1, Ho by done. by apply V2.
  - intros b'. by rewrite S4.
  - unfold logged_set. simpl. fold (logged_set s). pose proof (unlogged_delete (logged_set s) H i b Hi) as Hu.
    destruct (Z.eqb_spec (b_flags x) 6) as [E|E].
    + rewrite decide_True in Hu by (apply elem_logged_set, V6; by exists i, x). lia.
    + rewrite decide_False in Hu; [lia|]. intros Hin'%elem_logged_set%V6.
      destruct Hin' as (j & y & Hy & [Hyd Hyb] & Hf). apply E.
      assert (j = i) as -> by (apply (bi_unique _ _ _ Hl j i y x); congruence). congruence.
Qed.

Lemma log_cap_room b : (size ({[b]} ∪ logged_set s) <= LOGCAP)%nat ->
  b ∈ logged (lg s) \/ (b ∉ logged (lg s) /\ (length (logged (lg s)) < LOGCAP)%nat).
Proof.
  intros Hc. destruct (decide (b ∈ logged (lg s))) as [|Hb]; [by left|right]. split; [done|].
  rewrite size_union, size_singleton, bl_length_set in Hc; [lia|].
  rewrite <- elem_logged_set in Hb. set_solver.
Qed.

Lemma log_update_ok i b f : H !! i = Some b -> block_ok (f (lc (lb s) b)) ->
  (size ({[b]} ∪ logged_set s) <= LOGCAP)%nat ->
  exists s', (bl_set i f ;; bl_log i) s = Ok tt s' /\ bl_inv s' H /\
    (forall b', lc (lb s') b' = if decide (b' = b) then f (lc (lb s) b) else lc (lb s) b') /\
    length (disk (lb s')) = length (disk (lb s)) /\ logged (lg s') = log_add b (logged (lg s)).
Proof.
  intros Hi Hok Hcap. destruct (bv_bio _ _ Hv) as [l Hl]. destruct (bv_held _ _ Hv i b Hi) as (x & Hx & [Hdev Hbn] & Hcl).
  assert (Hin : i ∈ dom H) by (by eapply elem_of_dom_2).
  pose proof (lc_cached (lb s) l (dom H) i x Hl Hx Hdev) as Hlc. rewrite Hbn in Hlc. rewrite Hlc in Hok.
  destruct (set_data_ok (lb s) l (dom H) i x Hl Hx Hin _ Hok) as (Hl1 & Hlc1 & Hn1).
  set (x1 := set_b_data (f (b_data x)) x) in *. set (b1 := set_bufs _ (lb s)) in *.
  assert (Hlt : (i < length (bufs (lb s)))%nat) by (by eapply lookup_lt_Some).
  assert (Hx1 : bufs b1 !! i = Some x1) by (by apply list_lookup_insert_eq).
  destruct (held_dev (lb s) l (dom H) i x Hl Hx Hin) as (_ & Hfx & _).
  destruct (mark_dirty_ok b1 l (dom H) i x1 Hl1 Hx1 Hin) as (Hl2 & Hlc2 & Hn2 & Hp2).
  assert (Hp1 : forall b', pinned b1 b' <-> pinned (lb s) b') by (intros b'; by apply (pinned_insert (lb s) i x)).
  pose proof (lo_n _ (bv_log _ _ Hv)) as Hn0. pose proof (logged_length _ (bv_log _ _ Hv)) as Hlen.
  pose proof (bv_cap _ _ Hv) as Hcap0. pose proof (bv_size _ _ Hv) as Hsz. unfold LOGCAP in *.
  assert (Hlg : lh_n (lg s) < 30) by lia.
  destruct (log_put_ok b (lg s) (bv_log _ _ Hv) Hlg) as (Ho & Hadd & _).
  pose proof (log_write_runs (set_lb b1 s) i x1 (lo_lock _ (bv_log _ _ Hv)) Hx1 (bv_open _ _ Hv) Hlg ltac:(simpl; lia)) as Hw.
  assert (Hfl : set_b_flags (Z.lor (b_flags x1) B_DIRTY) x1 = set_b_flags 6 x1) by (by destruct Hfx as [Hf|Hf]; simpl; rewrite Hf).
  rewrite Hfl in Hw. change (b_blockno x1) with (b_blockno x) in Hw, Hp2. rewrite Hbn in Hw, Hp2.
  set (s' := set_lg _ _) in Hw. exists s'. split.
  { refine (eq_trans (bind_ok (bl_set i f) (fun _ => bl_log i) s tt (set_lb b1 s) _) Hw). apply (zoom_ok lb_of). rewrite (setb_ok _ i _ x) by exact Hx. done. }
  split; [|split; [|done]].
  - destruct Hv as [V1 V2 V3 V4 V5 V6 V7 V8]. split; simpl; try done.
    + by exists l.
    + intros j b' Hj. destruct (decide (j = i)) as [->|Hne].
      * simplify_eq. eexists. split; [by apply list_lookup_insert_eq; rewrite length_insert|]. split; [done|by left].
      * rewrite !list_lookup_insert_ne by done. by apply V2.
    + intros b'. rewrite Hadd. transitivity (b' = b \/ pinned (lb s) b'); [rewrite <- Hp1; exact (Hp2 b')|rewrite V6]. unfold log_add. case_decide; [naive_solver|].
      rewrite elem_of_app, list_elem_of_singleton. tauto.
    + rewrite Hadd. unfold log_add. assert (Hnb : nbusy (lb s') = nbusy (lb s)) by (etrans; [exact Hn2|exact Hn1]).
      match goal with |- (?n <= _)%nat => change n with (nbusy (lb s')) end. rewrite Hnb.
      unfold logged_set. simpl lg. rewrite Hadd. unfold log_add. destruct (log_cap_room b Hcap) as [Hb|[Hb Hr]].
      * rewrite decide_True by done. exact V7.
      * rewrite decide_False by done. rewrite length_app. simpl.
        replace (list_to_set (logged (lg s) ++ [b]) : gset Z) with ({[b]} ∪ logged_set s) by (unfold logged_set; set_solver).
        rewrite <- elem_logged_set in Hb.
        pose proof (unlogged_add (logged_set s) H i b Hi (fun j Hj => held_unique j i b Hj Hi) Hb). lia.
    + rewrite Hadd. unfold log_add. destruct (log_cap_room b Hcap) as [Hb|[Hb Hr]].
      * by rewrite decide_True.
      * rewrite decide_False by done. rewrite length_app. simpl. unfold LOGCAP in *. lia.
  - intros b'. etrans; [apply Hlc2|]. rewrite Hlc1, Hlc. change (b_blockno x) with (b_blockno x). by rewrite Hbn.
Qed.
End log_layer.

#[export] Program Instance log_layer : BlockLayer logst := {
  contents s := lc (lb s);
  nblocks s := Z.of_nat (length (disk (lb s)));
  in_log := logged_set;
  log_cap := LOGCAP;
  layer_ok := bl_inv;
}.
Next Obligation. intros s H b Hv Hb. destruct (bv_bio _ _ Hv) as [l Hl]. by apply (lc_ok (lb s) l (dom H)). Qed.
Next Obligation.
  intros s H b Hv Hb Hnh Hsz. simpl in *. destruct (log_read_ok s H Hv b Hb Hnh Hsz) as (i & s' & Hr & Hi & Hv' & [S1 S2 S3 S4]).
  exists i, (set_lb s' s). split; [by apply (zoom_ok lb_of)|]. simpl. by rewrite S1.
Qed.
Next Obligation.
  intros s H i b Hv Hi. simpl. rewrite (zoom_ok lb_of _ s _ _ (log_data_ok s H Hv i b Hi)). by destruct s.
Qed.
Next Obligation.
  intros s H i b f Hv Hi Hok Hcap. destruct (log_update_ok s H Hv i b f Hi Hok Hcap) as (s' & Hr & Hv' & Hc & Hd & Hl).
  exists s'. split; [done|]. split; [done|]. split; [done|]. rewrite Hd. split; [done|].
  unfold logged_set. rewrite Hl. unfold log_add. case_decide as Hb; set_solver.
Qed.
Next Obligation.
  intros s H i b Hv Hi. simpl in *. destruct (log_release_ok s H Hv i b Hi) as (s' & Hr & Hv' & [S1 S2 S3 S4]).
  exists (set_lb s' s). split; [by apply (zoom_ok lb_of)|]. simpl. by rewrite S1.
Qed.

(* ------------------------------------------------------------------ *)
(** * Blocks in memory

    The reference implementation: no cache, no disk; a buffer is a block. *)

Record memb := Memb { mb_blocks : list block; mb_held : list Z; mb_log : list Z }.

Definition mb_read (dev b : Z) : M memb nat := fun s =>
  if (dev =? 1) && (0 <=? b) && (b <? Z.of_nat (length (mb_blocks s))) then
    if decide (b ∈ mb_held s) then Wait s
    else Ok (Z.to_nat b) (Memb (mb_blocks s) (b :: mb_held s) (mb_log s))
  else Panic "no such block".
Definition mb_data (i : nat) : M memb block := gets (fun s => nth i (mb_blocks s) zero_block).
Definition mb_set (i : nat) (f : block -> block) : M memb unit :=
  modify (fun s => Memb (alter f i (mb_blocks s)) (mb_held s) (mb_log s)).
Definition mb_log_write (i : nat) : M memb unit := fun s =>
  let l := log_add (Z.of_nat i) (mb_log s) in
  if (LOGCAP <? length l)%nat then Panic "too big a transaction" else Ok tt (Memb (mb_blocks s) (mb_held s) l).
Definition mb_release (i : nat) : M memb unit :=
  modify (fun s => Memb (mb_blocks s) (filter (fun b => b <> Z.of_nat i) (mb_held s)) (mb_log s)).

#[export] Instance mem_ops : BlockOps memb := {
  bl_read := mb_read; bl_data := mb_data; bl_set := mb_set; bl_log := mb_log_write; bl_release := mb_release;
}.

Record memb_inv (s : memb) (H : gmap nat Z) : Prop := {
  mi_blocks : Forall block_ok (mb_blocks s);
  mi_held : forall i b, H !! i = Some b -> b = Z.of_nat i /\ (i < length (mb_blocks s))%nat;
  mi_locks : forall b, b ∈ mb_held s -> H !! Z.to_nat b = Some b;
  mi_log : NoDup (mb_log s);
  mi_cap : (length (mb_log s) <= LOGCAP)%nat;
}.

Lemma log_add_set b l : (list_to_set (log_add b l) : gset Z) = {[b]} ∪ list_to_set l.
Proof. unfold log_add. case_decide; set_solver. Qed.

Lemma log_add_nodup b l : NoDup l -> NoDup (log_add b l).
Proof.
  intros Hl. unfold log_add. case_decide; [done|]. apply NoDup_app. split; [done|].
  split; [|apply NoDup_singleton]. by intros x Hx ->%list_elem_of_singleton.
Qed.

#[export] Program Instance mem_layer : BlockLayer memb := {
  contents s b := on_disk (mb_blocks s) b;
  nblocks s := Z.of_nat (length (mb_blocks s));
  in_log s := list_to_set (mb_log s);
  log_cap := LOGCAP;
  layer_ok := memb_inv;
}.
Next Obligation.
  intros s H b [Hb _ _ _ _] Hr. simpl in *. destruct (lookup_lt_is_Some_2 (mb_blocks s) (Z.to_nat b)) as [x Hx]; [lia|].
  rewrite (on_disk_lookup _ b x) by (done || lia). by apply (Forall_lookup_1 _ _ _ _ Hb Hx).
Qed.
Next Obligation.
  intros s H b [M1 M2 M3 M4 M5] Hb Hnh _. simpl in *. exists (Z.to_nat b). eexists. split.
  { unfold mb_read. destruct (Z.leb_spec 0 b); [|lia]. destruct (Z.ltb_spec b (Z.of_nat (length (mb_blocks s)))); [|lia].
    simpl. rewrite decide_False; [done|]. intros Hin. by apply (Hnh (Z.to_nat b)), M3. }
  assert (Hf : H !! Z.to_nat b = None).
  { destruct (H !! Z.to_nat b) as [b'|] eqn:E; [|done]. exfalso. apply (Hnh (Z.to_nat b)).
    destruct (M2 _ _ E) as [-> _]. rewrite E. f_equal. lia. }
  split; [done|]. split; [|done]. split; simpl; try done.
  - intros i b' Hi. apply lookup_insert_Some in Hi as [[<- <-]|[_ Hi]]; [lia|by apply M2].
  - intros b' Hin. destruct (decide (b' = b)) as [->|Hne]; [by rewrite lookup_insert_eq|].
    apply elem_of_cons in Hin as [?|Hin]; [done|]. apply M3 in Hin. rewrite lookup_insert_ne; [done|]. intros E. congruence.
Qed.
Next Obligation.
  intros s H i b [M1 M2 M3 M4 M5] Hi. simpl. unfold mb_data, gets. f_equal.
  destruct (M2 i b Hi) as [-> Hlt]. unfold on_disk. destruct (Z.leb_spec 0 (Z.of_nat i)); [|lia]. by rewrite Nat2Z.id.
Qed.
Next Obligation.
  intros s H i b f [M1 M2 M3 M4 M5] Hi Hok Hcap. simpl in *. destruct (M2 i b Hi) as [-> Hlt].
  rewrite <- log_add_set, size_list_to_set in Hcap by (by apply log_add_nodup).
  destruct (lookup_lt_is_Some_2 _ _ Hlt) as [x Hx].
  assert (Hd : on_disk (mb_blocks s) (Z.of_nat i) = x) by (apply on_disk_lookup; [lia|by rewrite Nat2Z.id]).
  rewrite Hd in *. eexists. split.
  { unfold bind, mb_set, modify, mb_log_write. simpl. destruct (Nat.ltb_spec LOGCAP (length (log_add (Z.of_nat i) (mb_log s)))); [lia|].
    rewrite (alter_insert _ _ _ x Hx). done. }
  simpl. rewrite length_insert. split; [|split; [|split; [done|apply log_add_set]]].
  - split; simpl; [by apply Forall_insert|by rewrite length_insert|done|by apply log_add_nodup|done].
  - intros b'. rewrite <- (Nat2Z.id i) at 1. apply on_disk_insert. lia.
Qed.
Next Obligation.
  intros s H i b [M1 M2 M3 M4 M5] Hi. simpl in *. eexists. split; [done|]. split; [|done]. split; simpl; try done.
  - intros j b' Hj. apply lookup_delete_Some in Hj as [_ Hj]. by apply M2.
  - intros b' Hin. apply list_elem_of_filter in Hin as [Hne Hin]. apply M3 in Hin as Hin'.
    rewrite lookup_delete_ne; [done|]. intros E. apply Hne. subst i. apply M2 in Hin' as [E' _]. lia.
Qed.
