(* ===== verification/Fs.v ===== *)
(** The file system (src/fs.c): the block allocator, inodes and their cache,
    file contents, directories and paths.

    The state has the layer of blocks below (any implementation of [BlockOps]),
    the super block and the inode cache.  The file system is proved against
    the [BlockLayer] laws.  [readi] returns the bytes it copies to [dst];
    [writei] takes the bytes at [src].  A path is the list of its bytes. *)

From S2P Require Import Prelude StringC Spinlock Sleeplock Block Bio Log Layer.

(* src/param.h:6-6 NINODE *)
Definition NINODE : nat := 50.
(* src/param.h:7-7 NDEV *)
Definition NDEV : Z := 10.

(* src/fs.h:24-24 NDIRECT *)
Definition NDIRECT : Z := 12.
(* src/fs.h:25-25 NINDIRECT *)
Definition NINDIRECT : Z := 128.
(* src/fs.h:26-26 MAXFILE *)
Definition MAXFILE : Z := NDIRECT + NINDIRECT.

(* src/stat.h:1-1 T_DIR *)
Definition T_DIR : Z := 1.
(* src/stat.h:2-2 T_FILE *)
Definition T_FILE : Z := 2.
(* src/stat.h:3-3 T_DEV *)
Definition T_DEV : Z := 3.

(* src/fs.h:5-5 ROOTINO *)
Definition ROOTINO : Z := 1.

(* src/fs.h:39-39 IPB *)
Definition IPB : Z := 8.
(* src/fs.h:42-42 IBLOCK *)
Definition IBLOCK (i : Z) (sb : superblock) : Z := u32 (i / IPB + sb_inodestart sb).
(* src/fs.h:45-45 BPB *)
Definition BPB : Z := BSIZE * 8.
(* src/fs.h:48-48 BBLOCK *)
Definition BBLOCK (b : Z) (sb : superblock) : Z := u32 (b / BPB + sb_bmapstart sb).

(* src/file.h:13-26 inode *)
Record inode := Inode {
  i_dev : Z;          (* Device number *)
  i_inum : Z;         (* Inode number *)
  i_ref : Z;          (* Reference count *)
  i_lock : sleep_view;
  i_valid : Z;        (* inode has been read from disk? *)
  i_type : Z;         (* copy of disk inode *)
  i_major : Z;
  i_minor : Z;
  i_nlink : Z;
  i_size : Z;
  i_addrs : list Z;
}.

Definition inode0 : inode := Inode 0 0 0 SFree 0 0 0 0 0 0 (replicate 13 0).

Definition set_i_id dev inum ref valid ip :=
  Inode dev inum ref (i_lock ip) valid (i_type ip) (i_major ip) (i_minor ip) (i_nlink ip) (i_size ip) (i_addrs ip).
Definition set_i_ref v ip := set_i_id (i_dev ip) (i_inum ip) v (i_valid ip) ip.
Definition set_i_valid v ip := set_i_id (i_dev ip) (i_inum ip) (i_ref ip) v ip.
Definition set_i_lock v ip :=
  Inode (i_dev ip) (i_inum ip) (i_ref ip) v (i_valid ip) (i_type ip) (i_major ip) (i_minor ip) (i_nlink ip) (i_size ip) (i_addrs ip).
Definition set_i_meta ty mj mn nl sz ad ip :=
  Inode (i_dev ip) (i_inum ip) (i_ref ip) (i_lock ip) (i_valid ip) ty mj mn nl sz ad.
Definition set_i_type v ip := set_i_meta v (i_major ip) (i_minor ip) (i_nlink ip) (i_size ip) (i_addrs ip) ip.
Definition set_i_nlink v ip := set_i_meta (i_type ip) (i_major ip) (i_minor ip) v (i_size ip) (i_addrs ip) ip.
Definition set_i_majmin mj mn ip := set_i_meta (i_type ip) mj mn (i_nlink ip) (i_size ip) (i_addrs ip) ip.
Definition set_i_size v ip := set_i_meta (i_type ip) (i_major ip) (i_minor ip) (i_nlink ip) v (i_addrs ip) ip.
Definition set_i_addrs v ip := set_i_meta (i_type ip) (i_major ip) (i_minor ip) (i_nlink ip) (i_size ip) v ip.
Definition addr_of (ip : inode) (k : Z) : Z := nth (Z.to_nat k) (i_addrs ip) 0.
Definition set_addr (k v : Z) (ip : inode) : inode := set_i_addrs (<[Z.to_nat k := v]> (i_addrs ip)) ip.

(* src/fs.c:165-168 icache *)
Record fsst (B : Type) := Fsst {
  fb : B;
  sb : superblock;
  ic_lock : lock_view;
  inodes : list inode;
}.
Arguments Fsst {B} _ _ _ _.
Arguments fb {B} _.
Arguments sb {B} _.
Arguments ic_lock {B} _.
Arguments inodes {B} _.

Definition set_fb {B} (v : B) (s : fsst B) := Fsst v (sb s) (ic_lock s) (inodes s).
Definition set_sb {B} v (s : fsst B) := Fsst (fb s) v (ic_lock s) (inodes s).
Definition set_ic_lock {B} v (s : fsst B) := Fsst (fb s) (sb s) v (inodes s).
Definition set_inodes {B} v (s : fsst B) := Fsst (fb s) (sb s) (ic_lock s) v.
Definition fb_of {B} : lens (fsst B) B := Lens fb set_fb.
Definition ic_lock_of {B} : lens (fsst B) lock_view := Lens ic_lock set_ic_lock.

Definition inode_at {B} (s : fsst B) (i : nat) : inode := nth i (inodes s) inode0.
Definition geti {B A} (i : nat) (f : inode -> A) : M (fsst B) A := gets (fun s => f (inode_at s i)).
Definition seti {B} (i : nat) (f : inode -> inode) : M (fsst B) unit :=
  modify (fun s => set_inodes (alter f i (inodes s)) s).
Definition i_lock_of {B} (i : nat) : lens (fsst B) sleep_view :=
  Lens (fun s => i_lock (inode_at s i)) (fun v s => set_inodes (alter (set_i_lock v) i (inodes s)) s).

(** The bits of the free map: [data\[bi/8\] & (1 << bi%8)]. *)
Definition bit_mask (bi : Z) : Z := Z.shiftl 1 (bi mod 8).
Definition bit_set (d : block) (bi : Z) : bool := negb (Z.land (get8 d (bi / 8)) (bit_mask bi) =? 0).
Definition mark_bit (bi : Z) (d : block) : block := put8 d (bi / 8) (Z.lor (get8 d (bi / 8)) (bit_mask bi)).
Definition clear_bit (bi : Z) (d : block) : block :=
  put8 d (bi / 8) (Z.land (get8 d (bi / 8)) (Z.lnot (bit_mask bi))).

(** The inner loop of [balloc]: the first clear bit of the map block of [b]. *)
Definition find_clear (d : block) (b size : Z) : option Z :=
  List.find (fun bi => (b + bi <? size) && negb (bit_set d bi)) (range 0 (Z.to_nat BPB)).

(** On-disk inodes: the fields at their offsets. *)

(* src/fs.h:29-36 dinode *)
Record dinode := Dinode {
  d_type : Z; d_major : Z; d_minor : Z; d_nlink : Z; d_size : Z; d_addrs : list Z;
}.
Definition dinode_off (inum : Z) : Z := inum mod IPB * 64.
Definition get_dinode (d : block) (o : Z) : dinode :=
  Dinode (s16 (get16 d o)) (s16 (get16 d (o + 2))) (s16 (get16 d (o + 4))) (s16 (get16 d (o + 6)))
         (get32 d (o + 8)) ((fun k => get32 d (o + 12 + 4 * k)) <$> range 0 13).
Definition put_dinode (di : dinode) (o : Z) (d : block) : block :=
  fold_left (fun d k => put32 d (o + 12 + 4 * k) (nth (Z.to_nat k) (d_addrs di) 0)) (range 0 13)
    (put32 (put16 (put16 (put16 (put16 d o (d_type di)) (o + 2) (d_major di)) (o + 4) (d_minor di))
             (o + 6) (d_nlink di)) (o + 8) (d_size di)).
Definition dinode_of (ip : inode) : dinode :=
  Dinode (i_type ip) (i_major ip) (i_minor ip) (i_nlink ip) (i_size ip) (i_addrs ip).
Definition load_dinode (di : dinode) (ip : inode) : inode :=
  set_i_meta (d_type di) (d_major di) (d_minor di) (d_nlink di) (d_size di) (d_addrs di) ip.

Section fs.
Context {B : Type} {OB : BlockOps B}.
Local Abbreviation F := (M (fsst B)).

(** Calls into the block layer; [log_update] is a store to the buffer followed
    by [log_write]. *)
Definition bread_ (dev b : Z) : F nat := zoom fb_of (bl_read dev b).
Definition bdata (bp : nat) : F block := zoom fb_of (bl_data bp).
Definition brelse_ (bp : nat) : F unit := zoom fb_of (bl_release bp).
Definition log_update (bp : nat) (f : block -> block) : F unit := zoom fb_of (bl_set bp f ;; bl_log bp).

(* src/fs.c:32-41 readsb *)
Definition fs_readsb (dev : Z) : F unit :=
  bp <- bread_ dev 1 ;;
  d <- bdata bp ;;
  modify (set_sb (decode_sb d)) ;;
  brelse_ bp.

(* src/fs.c:43-52 bzero *)
Definition bzero (dev bno : Z) : F unit :=
  bp <- bread_ dev bno ;;
  log_update bp (fun _ => zero_block) ;;
  brelse_ bp.

(** One turn of the outer loop of [balloc]: the map block of block [b]. *)

(* src/fs.c:62-76 balloc *)
Definition balloc_at (dev b : Z) : F (option Z) :=
  s <- gets sb ;;
  bp <- bread_ dev (BBLOCK b s) ;;
  d <- bdata bp ;;
  match find_clear d b (sb_size s) with
  | Some bi =>                         (* Is block free? *)
      log_update bp (mark_bit bi) ;;   (* Mark block in use. *)
      brelse_ bp ;;
      bzero dev (b + bi) ;;
      ret (Some (b + bi))
  | None => brelse_ bp ;; ret None
  end.

(* src/fs.c:56-78 balloc *)
Definition balloc (dev : Z) : F Z :=
  s <- gets sb ;;
  r <- for_find ((fun k => k * BPB) <$> range 0 (Z.to_nat ((sb_size s + BPB - 1) / BPB))) (balloc_at dev) ;;
  match r with Some b => ret b | None => panic "balloc: out of blocks" end.

(* src/fs.c:80-94 bfree *)
Definition bfree (dev b : Z) : F unit :=
  s <- gets sb ;;
  bp <- bread_ dev (BBLOCK b s) ;;
  let bi := b mod BPB in
  d <- bdata bp ;;
  if negb (bit_set d bi) then panic "freeing free block"
  else log_update bp (clear_bit bi) ;; brelse_ bp.

(* src/fs.c:170-184 iinit *)
Definition iinit (dev : Z) : F unit :=
  modify (set_ic_lock Unlocked) ;;
  for_each (seq 0 NINODE) (fun i => seti i (set_i_lock SFree)) ;;
  fs_readsb dev.

(** The two scans of the loop of [iget]. *)
Definition icached (dev inum : Z) (ip : inode) : bool :=
  (0 <? i_ref ip) && (i_dev ip =? dev) && (i_inum ip =? inum).
Definition ifree (ip : inode) : bool := i_ref ip =? 0.

(* src/fs.c:234-267 iget *)
Definition iget (dev inum : Z) : F nat :=
  lock_acquire ic_lock_of ;;
  l <- gets inodes ;;
  match list_find (fun ip => icached dev inum ip = true) l with
  | Some (i, _) =>
      seti i (fun ip => set_i_ref (s32 (i_ref ip + 1)) ip) ;;
      lock_release ic_lock_of ;;
      ret i
  | None =>
      match list_find (fun ip => ifree ip = true) l with
      | None => panic "iget: no inodes"
      | Some (i, _) =>
          seti i (set_i_id dev inum 1 0) ;;
          lock_release ic_lock_of ;;
          ret i
      end
  end.

(** One turn of the loop of [ialloc]. *)

(* src/fs.c:194-209 ialloc *)
Definition ialloc_at (dev type inum : Z) : F (option nat) :=
  s <- gets sb ;;
  bp <- bread_ dev (IBLOCK inum s) ;;
  d <- bdata bp ;;
  if d_type (get_dinode d (dinode_off inum)) =? 0 then   (* a free inode *)
    log_update bp (fun d => put16 (splice d (dinode_off inum) (replicate 64 0)) (dinode_off inum) type) ;;
    brelse_ bp ;;
    i <- iget dev inum ;;
    ret (Some i)
  else brelse_ bp ;; ret None.

(* src/fs.c:188-211 ialloc *)
Definition ialloc (dev type : Z) : F nat :=
  s <- gets sb ;;
  r <- for_find (range 1 (Z.to_nat (sb_ninodes s - 1))) (ialloc_at dev type) ;;
  match r with Some i => ret i | None => panic "ialloc: no inodes" end.

(* src/fs.c:213-232 iupdate *)
Definition iupdate (ip : nat) : F unit :=
  x <- geti ip id ;;
  s <- gets sb ;;
  bp <- bread_ (i_dev x) (IBLOCK (i_inum x) s) ;;
  log_update bp (put_dinode (dinode_of x) (dinode_off (i_inum x))) ;;
  brelse_ bp.

(* src/fs.c:269-277 idup *)
Definition idup (ip : nat) : F nat :=
  lock_acquire ic_lock_of ;;
  seti ip (fun x => set_i_ref (s32 (i_ref x + 1)) x) ;;
  lock_release ic_lock_of ;;
  ret ip.

(* src/fs.c:279-305 ilock *)
Definition ilock (ip : nat) : F unit :=
  r <- geti ip i_ref ;;
  if r <? 1 then panic "ilock"
  else
    sleep_acquire (i_lock_of ip) ;;
    v <- geti ip i_valid ;;
    if v =? 0 then
      x <- geti ip id ;;
      s <- gets sb ;;
      bp <- bread_ (i_dev x) (IBLOCK (i_inum x) s) ;;
      d <- bdata bp ;;
      seti ip (load_dinode (get_dinode d (dinode_off (i_inum x)))) ;;
      brelse_ bp ;;
      seti ip (set_i_valid 1) ;;
      t <- geti ip i_type ;;
      if t =? 0 then panic "ilock: no type" else ret tt
    else ret tt.

(* src/fs.c:307-314 iunlock *)
Definition iunlock (ip : nat) : F unit :=
  h <- sleep_holding (i_lock_of ip) ;;
  r <- geti ip i_ref ;;
  if negb h || (r <? 1) then panic "iunlock"
  else sleep_release (i_lock_of ip).

(* src/fs.c:360-389 bmap *)
Definition bmap (ip : nat) (bn : Z) : F Z :=
  x <- geti ip id ;;
  if bn <? NDIRECT then
    let addr := addr_of x bn in
    if addr =? 0 then
      addr <- balloc (i_dev x) ;;
      seti ip (set_addr bn addr) ;;
      ret addr
    else ret addr
  else
    let bn := bn - NDIRECT in
    if bn <? NINDIRECT then
      (* Load indirect block, allocating if necessary. *)
      addr <- (if addr_of x NDIRECT =? 0 then
                 addr <- balloc (i_dev x) ;;
                 seti ip (set_addr NDIRECT addr) ;;
                 ret addr
               else ret (addr_of x NDIRECT)) ;;
      bp <- bread_ (i_dev x) addr ;;
      d <- bdata bp ;;
      let addr := get32 d (4 * bn) in
      if addr =? 0 then
        addr <- balloc (i_dev x) ;;
        log_update bp (fun d => put32 d (4 * bn) addr) ;;
        brelse_ bp ;;
        ret addr
      else brelse_ bp ;; ret addr
    else panic "bmap: out of range".

(* src/fs.c:391-423 itrunc *)
Definition itrunc (ip : nat) : F unit :=
  dev <- geti ip i_dev ;;
  for_each (range 0 (Z.to_nat NDIRECT)) (fun i =>
    a <- geti ip (fun x => addr_of x i) ;;
    if a =? 0 then ret tt
    else bfree dev a ;; seti ip (set_addr i 0)) ;;
  ind <- geti ip (fun x => addr_of x NDIRECT) ;;
  (if ind =? 0 then ret tt
   else
     bp <- bread_ dev ind ;;
     for_each (range 0 (Z.to_nat NINDIRECT)) (fun j =>
       d <- bdata bp ;;
       let a := get32 d (4 * j) in
       if a =? 0 then ret tt else bfree dev a) ;;
     brelse_ bp ;;
     bfree dev ind ;;
     seti ip (set_addr NDIRECT 0)) ;;
  seti ip (set_i_size 0) ;;
  iupdate ip.

(* src/fs.c:316-343 iput *)
Definition iput (ip : nat) : F unit :=
  sleep_acquire (i_lock_of ip) ;;
  x <- geti ip id ;;
  (if negb (i_valid x =? 0) && (i_nlink x =? 0) then
     lock_acquire ic_lock_of ;;
     r <- geti ip i_ref ;;
     lock_release ic_lock_of ;;
     if r =? 1 then
       (* inode has no links and no other references: truncate and free. *)
       itrunc ip ;;
       seti ip (set_i_type 0) ;;
       iupdate ip ;;
       seti ip (set_i_valid 0)
     else ret tt
   else ret tt) ;;
  sleep_release (i_lock_of ip) ;;
  lock_acquire ic_lock_of ;;
  seti ip (fun x => set_i_ref (i_ref x - 1) x) ;;
  lock_release ic_lock_of.

(* src/fs.c:345-350 iunlockput *)
Definition iunlockput (ip : nat) : F unit := iunlock ip ;; iput ip.

(* src/stat.h:5-11 stat *)
Record stat := Stat { st_type : Z; st_dev : Z; st_ino : Z; st_nlink : Z; st_size : Z }.

(* src/fs.c:425-434 stati *)
Definition stati (ip : nat) : F stat :=
  geti ip (fun x => Stat (i_type x) (s32 (i_dev x)) (i_inum x) (i_nlink x) (i_size x)).

(** The device switch: the functions registered for a major number.  A read
    returns its value and the bytes it stored. *)
Context (devsw_read : Z -> option (nat -> Z -> F (Z * list Z))).
Context (devsw_write : Z -> option (nat -> list Z -> Z -> F Z)).

Definition dev_fun {A} (devsw : Z -> option A) (major : Z) : option A :=
  if (major <? 0) || (NDEV <=? major) then None else devsw major.

(** The loop of [readi]: [n] bytes are left to copy from offset [off]. *)

(* src/fs.c:455-460 readi *)
Fixpoint readi_loop (fuel : nat) (ip : nat) (off n : Z) : F (list Z) :=
  match fuel with
  | O => ret []
  | S fuel' =>
      if 0 <? n then
        dev <- geti ip i_dev ;;
        b <- bmap ip (off / BSIZE) ;;
        bp <- bread_ dev b ;;
        let m := Z.min n (BSIZE - off mod BSIZE) in
        d <- bdata bp ;;
        brelse_ bp ;;
        rest <- readi_loop fuel' ip (off + m) (n - m) ;;
        ret (slice d (off mod BSIZE) m ++ rest)
      else ret []
  end.

(* src/fs.c:436-462 readi *)
Definition readi (ip : nat) (off n : Z) : F (Z * list Z) :=
  x <- geti ip id ;;
  if i_type x =? T_DEV then
    match dev_fun devsw_read (i_major x) with
    | None => ret (-1, [])
    | Some rd => rd ip (s32 n)
    end
  else if (i_size x <? off) || (u32 (off + n) <? off) then ret (-1, [])
  else
    let n := if i_size x <? u32 (off + n) then i_size x - off else n in
    bs <- readi_loop (Z.to_nat n) ip off n ;;
    ret (s32 n, bs).

(** The loop of [writei]; returns the final offset. *)

(* src/fs.c:483-489 writei *)
Fixpoint writei_loop (fuel : nat) (ip : nat) (src : list Z) (off n : Z) : F Z :=
  match fuel with
  | O => ret off
  | S fuel' =>
      if 0 <? n then
        dev <- geti ip i_dev ;;
        b <- bmap ip (off / BSIZE) ;;
        bp <- bread_ dev b ;;
        let m := Z.min n (BSIZE - off mod BSIZE) in
        log_update bp (fun d => splice d (off mod BSIZE) (take (Z.to_nat m) src)) ;;
        brelse_ bp ;;
        writei_loop fuel' ip (drop (Z.to_nat m) src) (off + m) (n - m)
      else ret off
  end.

(* src/fs.c:464-496 writei *)
Definition writei (ip : nat) (src : list Z) (off n : Z) : F Z :=
  x <- geti ip id ;;
  if i_type x =? T_DEV then
    match dev_fun devsw_write (i_major x) with
    | None => ret (-1)
    | Some wr => wr ip src (s32 n)
    end
  else if (i_size x <? off) || (u32 (off + n) <? off) then ret (-1)
  else if MAXFILE * BSIZE <? u32 (off + n) then ret (-1)
  else
    off <- writei_loop (Z.to_nat n) ip src off n ;;
    size <- geti ip i_size ;;
    (if (0 <? n) && (size <? off) then
       seti ip (set_i_size off) ;;
       iupdate ip
     else ret tt) ;;
    ret (s32 n).

(* src/fs.h:51-51 DIRSIZ *)
Definition DIRSIZ : nat := 14.
Definition de_inum (de : list Z) : Z := get16 de 0.
Definition de_name (de : list Z) : list Z := slice de 2 14.

(* src/fs.c:501-504 namecmp *)
Definition namecmp (s t : list Z) : Z := strncmp (arr s) 0 (arr t) 0 DIRSIZ.

(** The offsets of the entries of a directory of [size] bytes. *)
Definition de_offs (size : Z) : list Z := (fun k => 16 * k) <$> range 0 (Z.to_nat ((size + 15) / 16)).

(** One turn of the loop of [dirlookup]. *)

(* src/fs.c:515-528 dirlookup *)
Definition dirlookup_at (dp : nat) (name : list Z) (off : Z) : F (option (nat * Z)) :=
  r <- readi dp off 16 ;;
  let '(n, de) := r in
  if negb (n =? 16) then panic "dirlookup read"
  else if de_inum de =? 0 then ret None
  else if namecmp name (de_name de) =? 0 then
    (* entry matches path element *)
    dev <- geti dp i_dev ;;
    i <- iget dev (de_inum de) ;;
    ret (Some (i, off))
  else ret None.

(* src/fs.c:506-531 dirlookup *)
Definition dirlookup (dp : nat) (name : list Z) : F (option (nat * Z)) :=
  x <- geti dp id ;;
  if negb (i_type x =? T_DIR) then panic "dirlookup not DIR"
  else for_find (de_offs (i_size x)) (dirlookup_at dp name).

(** The name field after [strncpy(de.name, name, DIRSIZ)]. *)
Definition de_copy_name (old name : list Z) : list Z :=
  let m := fun a => if a <? 1000 then arr old a else arr name (a - 1000) in
  strncpy m 0 1000 DIRSIZ <$> range 0 DIRSIZ.

(* src/fs.c:545-551 dirlink *)
Definition dirlink_slot (dp : nat) (off : Z) : F (option (Z * list Z)) :=
  r <- readi dp off 16 ;;
  let '(n, de) := r in
  if negb (n =? 16) then panic "dirlink read"
  else if de_inum de =? 0 then ret (Some (off, de))
  else ret None.

(* src/fs.c:533-560 dirlink *)
Definition dirlink (dp : nat) (name : list Z) (inum : Z) : F Z :=
  r <- dirlookup dp name ;;
  match r with
  | Some (ip, _) => iput ip ;; ret (-1)   (* Check that name is not present. *)
  | None =>
      size <- geti dp i_size ;;
      slot <- for_find (de_offs size) (dirlink_slot dp) ;;   (* Look for an empty dirent. *)
      let '(off, old) := default (16 * ((size + 15) / 16), []) slot in
      let de := put16 [0; 0] 0 inum ++ de_copy_name (de_name old) name in
      n <- writei dp de off 16 ;;
      if negb (n =? 16) then panic "dirlink" else ret 0
  end.

(** [skipelem] on the bytes of a path (47 is the slash): the element, cut to
    [DIRSIZ] bytes, and the rest of the path. *)
Fixpoint skip_slashes (path : list Z) : list Z :=
  match path with
  | c :: path' => if c =? 47 then skip_slashes path' else path
  | [] => []
  end.
Fixpoint take_elem (path : list Z) : list Z * list Z :=
  match path with
  | c :: path' => if c =? 47 then ([], path) else let '(e, r) := take_elem path' in (c :: e, r)
  | [] => ([], [])
  end.

(* src/fs.c:565-599 skipelem *)
Definition skipelem (path : list Z) : option (list Z * list Z) :=
  match skip_slashes path with
  | [] => None
  | path =>
      let '(e, path) := take_elem path in
      Some (take DIRSIZ e, skip_slashes path)
  end.

(** The loop of [namex]; [fuel] bounds the number of path elements. *)

(* src/fs.c:614-631 namex *)
Fixpoint namex_loop (fuel : nat) (ip : nat) (path : list Z) (nameiparent : bool) (name : list Z)
  : F (option nat * list Z) :=
  match fuel with
  | O => panic "fuel"
  | S fuel' =>
      match skipelem path with
      | Some (name, path) =>
          ilock ip ;;
          ty <- geti ip i_type ;;
          if negb (ty =? T_DIR) then iunlockput ip ;; ret (None, name)
          else if nameiparent && bool_decide (path = []) then
            (* Stop one level early. *)
            iunlock ip ;; ret (Some ip, name)
          else
            next <- dirlookup ip name ;;
            match next with
            | None => iunlockput ip ;; ret (None, name)
            | Some (next, _) => iunlockput ip ;; namex_loop fuel' next path nameiparent name
            end
      | None =>
          if nameiparent then iput ip ;; ret (None, name)
          else ret (Some ip, name)
      end
  end.

(* src/fs.c:601-637 namex *)
Definition namex (cwd : nat) (path : list Z) (nameiparent : bool) : F (option nat * list Z) :=
  ip <- (if bool_decide (head path = Some 47) then iget ROOTDEV ROOTINO else idup cwd) ;;
  namex_loop (S (length path)) ip path nameiparent [].

(* src/fs.c:639-643 namei *)
Definition namei (cwd : nat) (path : list Z) : F (option nat) :=
  r <- namex cwd path false ;; ret (fst r).

(* src/fs.c:645-648 nameiparent *)
Definition nameiparent (cwd : nat) (path : list Z) : F (option nat * list Z) :=
  namex cwd path true.
End fs.
