(* ===== verification/FsBlocks.v ===== *)
(** The block allocator of the file system: [balloc], [bfree] and [bzero]
    against the laws of the block layer. *)

From S2P Require Import Prelude StringC Spinlock Sleeplock Block Bio Log Layer Fs.

(** The disk layout mkfs computes: log, inode blocks, free map, data blocks. *)
Record sb_ok (sb : superblock) : Prop := {
  so_size : 0 < sb_size sb < 2147483648;
  so_ninodes : 0 < sb_ninodes sb < 2147483648;
  so_inodes : 1 < sb_inodestart sb /\ sb_inodestart sb + (sb_ninodes sb - 1) / IPB < sb_bmapstart sb;
  so_bmap : sb_bmapstart sb + (sb_size sb - 1) / BPB < sb_size sb;
}.

(** The first block after the free map. *)
Definition data_start (sb : superblock) : Z := sb_bmapstart sb + (sb_size sb - 1) / BPB + 1.
Definition is_data (sb : superblock) (b : Z) : Prop := data_start sb <= b < sb_size sb.

(* ------------------------------------------------------------------ *)
(** * Bits of the free map *)

Lemma land_pow2 x k : 0 <= k -> Z.land x (Z.shiftl 1 k) = if Z.testbit x k then Z.shiftl 1 k else 0.
Proof.
  intros Hk. rewrite Z.shiftl_1_l. apply Z.bits_inj'. intros n Hn. rewrite Z.land_spec, Z.pow2_bits_eqb by done.
  destruct (Z.eqb_spec k n) as [->|Hne].
  - destruct (Z.testbit x n) eqn:E; simpl; [by rewrite Z.pow2_bits_true|by rewrite Z.bits_0].
  - rewrite andb_false_r. destruct (Z.testbit x k); [by rewrite Z.pow2_bits_false|by rewrite Z.bits_0].
Qed.

Lemma bit_set_testbit d bi : bit_set d bi = Z.testbit (get8 d (bi / 8)) (bi mod 8).
Proof.
  assert (Hk : 0 <= bi mod 8) by (apply Z.mod_pos_bound; lia).
  unfold bit_set, bit_mask. rewrite land_pow2 by done. destruct (Z.testbit _ _); [|done].
  rewrite Z.shiftl_1_l. destruct (Z.eqb_spec (2 ^ (bi mod 8)) 0) as [E|]; [|done].
  assert (0 < 2 ^ (bi mod 8)) by (apply Z.pow_pos_nonneg; lia). lia.
Qed.

Lemma testbit_u8 x k : 0 <= k < 8 -> Z.testbit (u8 x) k = Z.testbit x k.
Proof. intros Hk. unfold u8. change 256 with (2 ^ 8). apply Z.mod_pow2_bits_low. lia. Qed.

(** Two bits of a block are the same bit when byte and offset agree. *)
Lemma bit_eq bi bi' : bi / 8 = bi' / 8 -> bi mod 8 = bi' mod 8 -> bi = bi'.
Proof. intros H1 H2. rewrite (Z.div_mod bi 8), (Z.div_mod bi' 8) by lia. congruence. Qed.

Section bits.
Context (d : block) (Hd : length d = 512%nat) (bi bi' : Z) (Hb : 0 <= bi < BPB) (Hb' : 0 <= bi' < BPB).

Lemma bit_put g :
  (forall k, 0 <= k < 8 -> k <> bi mod 8 -> Z.testbit (g (get8 d (bi / 8))) k = Z.testbit (get8 d (bi / 8)) k) ->
  bit_set (put8 d (bi / 8) (g (get8 d (bi / 8)))) bi' =
  if bool_decide (bi' = bi) then Z.testbit (g (get8 d (bi / 8))) (bi mod 8) else bit_set d bi'.
Proof.
  intros Hg. rewrite !bit_set_testbit. unfold BPB, BSIZE in *.
  assert (0 <= bi / 8 < 512 /\ 0 <= bi' / 8) by (split; [split|]; zsolve).
  assert (Hm : 0 <= bi mod 8 < 8) by (apply Z.mod_pos_bound; lia).
  assert (Hm' : 0 <= bi' mod 8 < 8) by (apply Z.mod_pos_bound; lia).
  destruct (decide (bi' / 8 = bi / 8)) as [E|E].
  - rewrite E, get8_put8, testbit_u8 by lia. case_bool_decide as Heq; [by subst|].
    apply Hg; [lia|]. intros E2. apply Heq, bit_eq; congruence.
  - rewrite get8_put8_ne by lia. rewrite bool_decide_false; [done|]. congruence.
Qed.

Lemma bit_set_mark : bit_set (mark_bit bi d) bi' = bool_decide (bi' = bi) || bit_set d bi'.
Proof.
  assert (Hm : 0 <= bi mod 8 < 8) by (apply Z.mod_pos_bound; lia).
  unfold mark_bit. rewrite (bit_put (fun v => Z.lor v (bit_mask bi))).
  - case_bool_decide; [|done]. unfold bit_mask. rewrite Z.shiftl_1_l, Z.lor_spec, Z.pow2_bits_true by lia.
    by rewrite orb_true_r.
  - intros k Hk Hne. unfold bit_mask. rewrite Z.shiftl_1_l, Z.lor_spec, Z.pow2_bits_false by lia. apply orb_false_r.
Qed.

Lemma bit_set_clear : bit_set (clear_bit bi d) bi' = negb (bool_decide (bi' = bi)) && bit_set d bi'.
Proof.
  assert (Hm : 0 <= bi mod 8 < 8) by (apply Z.mod_pos_bound; lia).
  unfold clear_bit. rewrite (bit_put (fun v => Z.land v (Z.lnot (bit_mask bi)))).
  - case_bool_decide; [|done]. unfold bit_mask. rewrite Z.shiftl_1_l, Z.land_spec, Z.lnot_spec, Z.pow2_bits_true by lia.
    apply andb_false_r.
  - intros k Hk Hne. unfold bit_mask. rewrite Z.shiftl_1_l, Z.land_spec, Z.lnot_spec, Z.pow2_bits_false by lia.
    apply andb_true_r.
Qed.
End bits.

Lemma BPB_nat : Z.of_nat (Z.to_nat BPB) = BPB.
Proof. apply Z2Nat.id. unfold BPB, BSIZE. lia. Qed.

Lemma find_clear_some d b size bi : find_clear d b size = Some bi ->
  0 <= bi < BPB /\ b + bi < size /\ bit_set d bi = false /\ forall bi', 0 <= bi' < bi -> bit_set d bi' = true.
Proof.
  unfold find_clear. intros Hf. apply find_range_some in Hf as (Hr & Ht & Hm). rewrite BPB_nat in Hr. apply andb_true_iff in Ht as [Ht1 Ht2].
  apply Z.ltb_lt in Ht1. apply negb_true_iff in Ht2. split; [lia|]. split; [done|]. split; [done|].
  intros bi' Hb. specialize (Hm bi' Hb). cbv beta in Hm. rewrite (proj2 (Z.ltb_lt (b + bi') size)) in Hm by lia. by destruct (bit_set d bi').
Qed.

Lemma find_clear_none d b size bi : find_clear d b size = None -> 0 <= bi < BPB -> b + bi < size -> bit_set d bi = true.
Proof.
  unfold find_clear. intros Hf Hb Hs. apply (find_range_none _ _ _ bi) in Hf; [|rewrite BPB_nat; lia].
  cbv beta in Hf. rewrite (proj2 (Z.ltb_lt _ _) Hs) in Hf. by destruct (bit_set d bi).
Qed.

Lemma size_add (b : Z) (X : gset Z) : (size ({[b]} ∪ X) <= S (size X))%nat.
Proof.
  rewrite size_union_alt, size_singleton. pose proof (subseteq_size (X ∖ {[b]}) X ltac:(set_solver)). lia.
Qed.

Section blocks.
Context {B : Type} {OB : BlockOps B} {LB : BlockLayer B}.
Implicit Types (s : fsst B) (H : gmap nat Z).

Definition blk (s : fsst B) (b : Z) : block := contents (fb s) b.
Definition used (s : fsst B) (b : Z) : bool := bit_set (blk s (BBLOCK b (sb s))) (b mod BPB).

(** The layer below, the super block, and a free map that has every block
    outside the data area marked. *)
Record fs_ok (s : fsst B) (H : gmap nat Z) : Prop := {
  fo_layer : layer_ok (fb s) H;
  fo_sb : sb_ok (sb s);
  fo_size : nblocks (fb s) = sb_size (sb s);
  fo_meta : forall b, 0 <= b < data_start (sb s) -> used s b = true;
  fo_iclock : ic_lock s = Unlocked;
}.

(* ---------------- the calls into the layer ---------------- *)

Lemma bread_ok_ s H b : layer_ok (fb s) H -> 0 <= b < nblocks (fb s) ->
  (forall i, H !! i <> Some b) -> (size H < MAXHELD)%nat ->
  exists i f, bread_ 1 b s = Ok i (set_fb f s) /\ H !! i = None /\ layer_ok f (<[i := b]> H) /\ same_layer (fb s) f.
Proof.
  intros Hl Hb Hh Hs. destruct (law_read (fb s) H b Hl Hb Hh Hs) as (i & f & Hr & Hi & Hl' & Hc & Hn & Hg).
  exists i, f. split; [by apply (zoom_ok fb_of)|]. split; [done|]. split; [done|by split].
Qed.

Lemma bdata_ok_ s H i b : layer_ok (fb s) H -> H !! i = Some b -> bdata i s = Ok (blk s b) s.
Proof.
  intros Hl Hi. unfold bdata. rewrite (zoom_ok fb_of _ s _ _ (law_data (fb s) H i b Hl Hi)). by destruct s.
Qed.

Lemma brelse_ok_ s H i b : layer_ok (fb s) H -> H !! i = Some b ->
  exists f, brelse_ i s = Ok tt (set_fb f s) /\ layer_ok f (delete i H) /\ same_layer (fb s) f.
Proof.
  intros Hl Hi. destruct (law_release (fb s) H i b Hl Hi) as (f & Hr & Hl' & Hc & Hn & Hg).
  exists f. split; [by apply (zoom_ok fb_of)|]. split; [done|by split].
Qed.

(** The layer after a store of [d] to block [b]. *)
Record put_layer (f f' : B) (b : Z) (d : block) : Prop := {
  pl_contents : forall b', contents f' b' = if decide (b' = b) then d else contents f b';
  pl_nblocks : nblocks f' = nblocks f;
  pl_log : in_log f' = {[b]} ∪ in_log f;
}.

Lemma log_update_ok_ s H i b g : layer_ok (fb s) H -> H !! i = Some b -> block_ok (g (blk s b)) ->
  (size ({[b]} ∪ in_log (fb s)) <= log_cap)%nat ->
  exists f, log_update i g s = Ok tt (set_fb f s) /\ layer_ok f H /\ put_layer (fb s) f b (g (blk s b)).
Proof.
  intros Hl Hi Hg Hc. destruct (law_update (fb s) H i b g Hl Hi Hg Hc) as (f & Hr & Hl' & Hc' & Hn & Hg').
  exists f. split; [by apply (zoom_ok fb_of)|]. split; [done|by split].
Qed.

(** Read a block, change it, log it and let it go. *)
Lemma update_block s H b g : layer_ok (fb s) H -> 0 <= b < nblocks (fb s) ->
  (forall i, H !! i <> Some b) -> (size H < MAXHELD)%nat -> block_ok (g (blk s b)) ->
  (size ({[b]} ∪ in_log (fb s)) <= log_cap)%nat ->
  exists f, (bp <- bread_ 1 b ;; log_update bp g ;; brelse_ bp) s = Ok tt (set_fb f s) /\
    layer_ok f H /\ put_layer (fb s) f b (g (blk s b)).
Proof.
  intros Hl Hb Hh Hs Hg Hc. destruct (bread_ok_ s H b Hl Hb Hh Hs) as (i & f1 & H1 & Hi & Hl1 & [C1 N1 L1]).
  assert (E1 : blk (set_fb f1 s) b = blk s b) by apply C1.
  destruct (log_update_ok_ (set_fb f1 s) (<[i := b]> H) i b g Hl1) as (f2 & H2 & Hl2 & [C2 N2 L2]);
    [by apply lookup_insert_eq|by rewrite E1|simpl; by rewrite L1|].
  destruct (brelse_ok_ (set_fb f2 (set_fb f1 s)) (<[i := b]> H) i b Hl2) as (f3 & H3 & Hl3 & [C3 N3 L3]);
    [by apply lookup_insert_eq|].
  exists f3. split; [|split].
  - by rewrite (bind_ok _ _ _ _ _ H1), (bind_ok _ _ _ _ _ H2).
  - by rewrite delete_insert_id in Hl3 by done.
  - simpl in *. split; [|congruence|congruence]. intros b'. rewrite C3, C2, E1. case_decide; [done|apply C1].
Qed.

(** Read a block and let it go. *)
Lemma read_block s H b : layer_ok (fb s) H -> 0 <= b < nblocks (fb s) ->
  (forall i, H !! i <> Some b) -> (size H < MAXHELD)%nat ->
  exists i f f', bread_ 1 b s = Ok i (set_fb f s) /\ H !! i = None /\ layer_ok f (<[i := b]> H) /\ same_layer (fb s) f /\
    bdata i (set_fb f s) = Ok (blk s b) (set_fb f s) /\
    brelse_ i (set_fb f s) = Ok tt (set_fb f' s) /\ layer_ok f' H /\ same_layer (fb s) f'.
Proof.
  intros Hl Hb Hh Hs. destruct (bread_ok_ s H b Hl Hb Hh Hs) as (i & f & H1 & Hi & Hl1 & Hs1).
  destruct (brelse_ok_ (set_fb f s) (<[i := b]> H) i b Hl1) as (f' & H3 & Hl3 & Hs3); [by apply lookup_insert_eq|].
  rewrite delete_insert_id in Hl3 by done. exists i, f, f'. do 4 (split; [done|]). split.
  { rewrite (bdata_ok_ (set_fb f s) (<[i := b]> H) i b Hl1 (lookup_insert_eq _ _ _)).
    unfold blk. simpl. by rewrite (sl_contents _ _ Hs1). }
  do 2 (split; [done|]). by etrans.
Qed.

Lemma BBLOCK_eq sb b : sb_ok sb -> 0 <= b < sb_size sb -> BBLOCK b sb = sb_bmapstart sb + b / BPB.
Proof.
  intros [S1 S2 S3 S4] Hb. unfold BBLOCK. rewrite u32_id; [lia|]. change BPB with 4096 in *. change IPB with 8 in *.
  assert (b / 4096 <= (sb_size sb - 1) / 4096) by (apply Z.div_le_mono; lia).
  assert (0 <= b / 4096) by (apply Z.div_pos; lia).
  assert (0 <= (sb_ninodes sb - 1) / 8) by (apply Z.div_pos; lia). lia.
Qed.

(** The free map lies between the inodes and the data. *)
Lemma BBLOCK_range sb b : sb_ok sb -> 0 <= b < sb_size sb ->
  sb_bmapstart sb <= BBLOCK b sb < data_start sb /\ 0 < BBLOCK b sb < sb_size sb.
Proof.
  intros Hok Hb. rewrite BBLOCK_eq by done. destruct Hok as [S1 S2 S3 S4]. unfold data_start. change BPB with 4096 in *. change IPB with 8 in *.
  assert (b / 4096 <= (sb_size sb - 1) / 4096) by (apply Z.div_le_mono; lia).
  assert (0 <= b / 4096) by (apply Z.div_pos; lia).
  assert (0 <= (sb_ninodes sb - 1) / 8) by (apply Z.div_pos; lia). lia.
Qed.

Lemma BBLOCK_mult sb b bi : sb_ok sb -> 0 <= b -> b mod BPB = 0 -> 0 <= bi < BPB -> b + bi < sb_size sb ->
  BBLOCK (b + bi) sb = BBLOCK b sb /\ (b + bi) mod BPB = bi.
Proof.
  intros Hok Hb Hm Hbi Hs. rewrite !BBLOCK_eq by (done || lia). unfold BPB, BSIZE in *. zsolve.
Qed.

Lemma fs_ok_same s f H H' : fs_ok s H -> layer_ok f H' -> same_layer (fb s) f -> fs_ok (set_fb f s) H'.
Proof.
  intros [F1 F2 F3 F4 F5] Hl [C N L]. split; simpl; try done; [congruence|].
  intros b Hb. rewrite <- (F4 b) by done. unfold used, blk. simpl. by rewrite C.
Qed.

(** No block of the free map is among the held ones, and the held data blocks
    are in use. *)
Definition held_ok (s : fsst B) (H : gmap nat Z) : Prop :=
  (size H < MAXHELD)%nat /\ forall i b, H !! i = Some b -> is_data (sb s) b /\ used s b = true.

Lemma held_not_map s H b i : fs_ok s H -> held_ok s H -> 0 <= b < sb_size (sb s) -> H !! i <> Some (BBLOCK b (sb s)).
Proof.
  intros Hf [_ Hh] Hb Hi. destruct (Hh _ _ Hi) as [Hd _]. pose proof (BBLOCK_range _ b (fo_sb _ _ Hf) Hb).
  unfold is_data in Hd. lia.
Qed.

Lemma bzero_ok s H b : layer_ok (fb s) H -> 0 <= b < nblocks (fb s) ->
  (forall i, H !! i <> Some b) -> (size H < MAXHELD)%nat -> (size ({[b]} ∪ in_log (fb s)) <= log_cap)%nat ->
  exists f, bzero 1 b s = Ok tt (set_fb f s) /\ layer_ok f H /\ put_layer (fb s) f b zero_block.
Proof. intros. apply (update_block s H b (fun _ => zero_block)); try done. apply zero_block_ok. Qed.

(** The layer after the allocation of block [b]. *)
Record alloc_layer (s : fsst B) (f : B) (b : Z) : Prop := {
  al_contents : forall b', contents f b' =
    if decide (b' = b) then zero_block
    else if decide (b' = BBLOCK b (sb s)) then mark_bit (b mod BPB) (blk s b') else blk s b';
  al_nblocks : nblocks f = nblocks (fb s);
  al_log : in_log f = {[b]} ∪ ({[BBLOCK b (sb s)]} ∪ in_log (fb s));
}.

Section at_block.
Context (s : fsst B) (H : gmap nat Z) (Hf : fs_ok s H) (Hh : held_ok s H).
Context (b : Z) (Hb : 0 <= b < sb_size (sb s)) (Hm : b mod BPB = 0).
Local Notation map_block := (BBLOCK b (sb s)).

Lemma balloc_at_none : find_clear (blk s map_block) b (sb_size (sb s)) = None ->
  exists f, balloc_at 1 b s = Ok None (set_fb f s) /\ layer_ok f H /\ same_layer (fb s) f.
Proof.
  intros Hn. pose proof (BBLOCK_range _ b (fo_sb _ _ Hf) Hb).
  destruct (read_block s H map_block) as (i & f & f' & H1 & Hi & Hl1 & Hs1 & H2 & H3 & Hl3 & Hs3);
    [apply Hf|rewrite (fo_size _ _ Hf); lia|intros i; by apply held_not_map|apply Hh|].
  exists f'. split; [|done]. unfold balloc_at. erewrite bind_ok by reflexivity.
  rewrite (bind_ok _ _ _ _ _ H1), (bind_ok _ _ _ _ _ H2), Hn. by rewrite (bind_ok _ _ _ _ _ H3).
Qed.

Lemma balloc_at_some bi : find_clear (blk s map_block) b (sb_size (sb s)) = Some bi ->
  (size (in_log (fb s)) + 2 <= log_cap)%nat ->
  exists f, balloc_at 1 b s = Ok (Some (b + bi)) (set_fb f s) /\ layer_ok f H /\ alloc_layer s f (b + bi).
Proof.
  intros Hs Hcap. pose proof (BBLOCK_range _ b (fo_sb _ _ Hf) Hb) as Hr.
  destruct (find_clear_some _ _ _ _ Hs) as (Hbi & Hlt & Hclear & _).
  destruct (BBLOCK_mult _ b bi (fo_sb _ _ Hf) ltac:(lia) Hm Hbi Hlt) as [Emap Emod].
  assert (Hu : used s (b + bi) = false) by (unfold used; by rewrite Emap, Emod).
  assert (Hdata : data_start (sb s) <= b + bi).
  { destruct (Z.le_gt_cases (data_start (sb s)) (b + bi)) as [|Hc]; [done|]. rewrite (fo_meta _ _ Hf) in Hu by lia. done. }
  destruct (read_block s H map_block) as (i & f1 & f1' & H1 & Hi & Hl1 & [C1 N1 L1] & H2 & _);
    [apply Hf|rewrite (fo_size _ _ Hf); lia|intros i; by apply held_not_map|apply Hh|].
  assert (E1 : blk (set_fb f1 s) map_block = blk s map_block) by apply C1.
  pose proof (law_block (fb s) H map_block (fo_layer _ _ Hf) ltac:(rewrite (fo_size _ _ Hf); lia)) as Hbok.
  pose proof (size_add map_block (in_log (fb s))) as Hsz.
  destruct (log_update_ok_ (set_fb f1 s) (<[i := map_block]> H) i map_block (mark_bit bi) Hl1) as (f2 & U2 & Hl2 & [C2 N2 L2]);
    [by apply lookup_insert_eq|rewrite E1; by apply put8_ok|simpl; rewrite L1; lia|].
  destruct (brelse_ok_ (set_fb f2 (set_fb f1 s)) _ i map_block Hl2) as (f3 & U3 & Hl3 & [C3 N3 L3]); [by apply lookup_insert_eq|].
  rewrite delete_insert_id in Hl3 by done. simpl in *.
  destruct (bzero_ok (set_fb f3 s) H (b + bi) Hl3) as (f4 & U4 & Hl4 & [C4 N4 L4]).
  { simpl. rewrite N3, N2, N1, (fo_size _ _ Hf). lia. }
  { intros j Hj. destruct (proj2 Hh _ _ Hj) as [_ Hu']. congruence. }
  { apply Hh. }
  { simpl. rewrite L3, L2, L1. pose proof (size_add (b + bi) ({[map_block]} ∪ in_log (fb s))). lia. }
  exists f4. split; [|split; [done|]].
  - unfold balloc_at. erewrite bind_ok by reflexivity.
    rewrite (bind_ok _ _ _ _ _ H1), (bind_ok _ _ _ _ _ H2), Hs, (bind_ok _ _ _ _ _ U2), (bind_ok _ _ _ _ _ U3).
    change (set_fb f3 (set_fb f2 (set_fb f1 s))) with (set_fb f3 s). by rewrite (bind_ok _ _ _ _ _ U4).
  - simpl in *. split; rewrite ?Emap, ?Emod; [|congruence|congruence].
    intros b'. rewrite C4. case_decide; [done|]. rewrite C3, C2, E1. case_decide; [by subst|apply C1].
Qed.
End at_block.

Lemma alloc_layer_same s f f' b : same_layer (fb s) f -> alloc_layer (set_fb f s) f' b -> alloc_layer s f' b.
Proof.
  intros [C N L] [A1 A2 A3]. unfold blk in *. simpl in *. split; simpl in *; [|congruence|congruence].
  intros b'. by rewrite A1, C.
Qed.

Lemma held_ok_same s f H : same_layer (fb s) f -> held_ok s H -> held_ok (set_fb f s) H.
Proof.
  intros [C N L] [H1 H2]. split; [done|]. intros i b Hi. destruct (H2 i b Hi) as [Hd Hu]. split; [done|].
  rewrite <- Hu. unfold used, blk. simpl. by rewrite C.
Qed.

Definition map_start (s : fsst B) (b : Z) : Prop := 0 <= b < sb_size (sb s) /\ b mod BPB = 0.

Lemma balloc_loop H l : forall s, fs_ok s H -> held_ok s H -> Forall (map_start s) l ->
  (size (in_log (fb s)) + 2 <= log_cap)%nat ->
  (exists b, b ∈ l /\ is_Some (find_clear (blk s (BBLOCK b (sb s))) b (sb_size (sb s)))) ->
  exists b f, for_find l (balloc_at 1) s = Ok (Some b) (set_fb f s) /\ layer_ok f H /\ alloc_layer s f b /\
    0 <= b < sb_size (sb s) /\ used s b = false.
Proof.
  induction l as [|b l IH]; intros s Hf Hh Hl Hcap (b0 & Hin & bi0 & Hb0); [by apply elem_of_nil in Hin|].
  apply Forall_cons in Hl as [[Hb Hm] Hl]. simpl.
  destruct (find_clear (blk s (BBLOCK b (sb s))) b (sb_size (sb s))) as [bi|] eqn:E.
  - destruct (balloc_at_some s H Hf Hh b Hb Hm bi E Hcap) as (f & Hr & Hlf & Ha).
    exists (b + bi), f. rewrite (bind_ok _ _ _ _ _ Hr). split; [done|]. split; [done|]. split; [done|].
    destruct (find_clear_some _ _ _ _ E) as (Hbi & Hlt & Hc & _). split; [lia|].
    destruct (BBLOCK_mult _ b bi (fo_sb _ _ Hf) ltac:(lia) Hm Hbi Hlt) as [Emap Emod].
    unfold used. by rewrite Emap, Emod.
  - destruct (balloc_at_none s H Hf Hh b Hb E) as (f & Hr & Hlf & Hs).
    destruct (IH (set_fb f s)) as (b' & f' & Hr' & Hlf' & Ha & Hb' & Hu);
      [by eapply fs_ok_same|by eapply held_ok_same|done|simpl; by rewrite (sl_in_log _ _ Hs)| |].
    { exists b0. apply elem_of_cons in Hin as [->|Hin]; [by rewrite E in Hb0|]. split; [done|].
      exists bi0. unfold blk. simpl. by rewrite (sl_contents _ _ Hs). }
    exists b', f'. rewrite (bind_ok _ _ _ _ _ Hr). split; [done|]. split; [done|].
    split; [by eapply alloc_layer_same|]. split; [done|]. rewrite <- Hu. unfold used, blk. simpl.
    by rewrite (sl_contents _ _ Hs).
Qed.

(** The map blocks the loop of [balloc] visits cover every block. *)
Definition map_starts (size : Z) : list Z := (fun k => k * BPB) <$> range 0 (Z.to_nat ((size + BPB - 1) / BPB)).

Lemma map_starts_ok s : 0 < sb_size (sb s) -> Forall (map_start s) (map_starts (sb_size (sb s))).
Proof.
  intros Hs. apply Forall_fmap, Forall_forall. intros k Hk. apply elem_of_range in Hk. unfold map_start. simpl.
  change BPB with 4096 in *. zsolve.
Qed.

Lemma map_starts_cover size b : 0 <= b < size -> b - b mod BPB ∈ map_starts size.
Proof.
  intros Hb. apply list_elem_of_fmap. exists (b / BPB). change BPB with 4096 in *. split; [zsolve|].
  apply elem_of_range. zsolve.
Qed.

Lemma used_of_start s b : sb_ok (sb s) -> 0 <= b < sb_size (sb s) ->
  used s b = bit_set (blk s (BBLOCK (b - b mod BPB) (sb s))) (b mod BPB) /\ 0 <= b - b mod BPB < sb_size (sb s) /\
  0 <= b mod BPB < BPB.
Proof.
  intros Hok Hb. assert (Hm : 0 <= b mod BPB < BPB) by (change BPB with 4096; apply Z.mod_pos_bound; lia).
  assert (Hr : 0 <= b - b mod BPB) by (change BPB with 4096 in *; zsolve).
  split; [|lia]. unfold used. do 2 f_equal.
  destruct (BBLOCK_mult (sb s) (b - b mod BPB) (b mod BPB) Hok) as [<- _]; try lia.
  - change BPB with 4096 in *. zsolve.
  - f_equal. lia.
Qed.

(** The bit of [b'] after the bit of [b] is set in its map block. *)
Lemma mark_used s H b b' : fs_ok s H -> 0 <= b < sb_size (sb s) -> 0 <= b' < sb_size (sb s) ->
  bit_set (if decide (BBLOCK b' (sb s) = BBLOCK b (sb s)) then mark_bit (b mod BPB) (blk s (BBLOCK b' (sb s)))
           else blk s (BBLOCK b' (sb s))) (b' mod BPB) = bool_decide (b' = b) || used s b'.
Proof.
  intros Hf Hb Hb'. pose proof (BBLOCK_range _ b' (fo_sb _ _ Hf) Hb') as Hr'.
  assert (Hbok : block_ok (blk s (BBLOCK b' (sb s)))).
  { apply (law_block _ H _ (fo_layer _ _ Hf)). rewrite (fo_size _ _ Hf). lia. }
  assert (Hmod : forall z, 0 <= z mod BPB < BPB) by (intros z; change BPB with 4096; apply Z.mod_pos_bound; lia).
  case_decide as Hc.
  - rewrite bit_set_mark by (apply Hmod || apply Hbok). f_equal. apply bool_decide_ext.
    split; [|by intros ->]. intros Hmm. rewrite !BBLOCK_eq in Hc by (apply Hf || lia).
    rewrite (Z.div_mod b' BPB), (Z.div_mod b BPB) by (change BPB with 4096; lia). replace (b' / BPB) with (b / BPB) by lia. by rewrite Hmm.
  - rewrite bool_decide_false; [done|]. by intros ->.
Qed.

(** [used] after an allocation. *)
Lemma used_alloc s H f b b' : fs_ok s H -> is_data (sb s) b -> alloc_layer s f b -> 0 <= b' < sb_size (sb s) ->
  used (set_fb f s) b' = bool_decide (b' = b) || used s b'.
Proof.
  intros Hf Hd [A1 A2 A3] Hb'. unfold is_data in Hd. pose proof (BBLOCK_range _ b' (fo_sb _ _ Hf) Hb') as Hr'.
  unfold used at 1, blk at 1. simpl. rewrite A1, decide_False by lia. apply (mark_used s H); [done|lia|done].
Qed.

Lemma fs_ok_alloc s H f b : fs_ok s H -> is_data (sb s) b -> alloc_layer s f b -> layer_ok f H -> fs_ok (set_fb f s) H.
Proof.
  intros Hf Hd Ha Hl. destruct Hf as [F1 F2 F3 F4 F5]. split; simpl; try done.
  - by rewrite (al_nblocks _ _ _ Ha).
  - intros b' Hb'. rewrite (used_alloc s H f b) by (done || unfold is_data in *; (done || lia)). rewrite F4 by done. apply orb_true_r.
Qed.

Lemma balloc_ok s H : fs_ok s H -> held_ok s H -> (size (in_log (fb s)) + 2 <= log_cap)%nat ->
  (exists b, 0 <= b < sb_size (sb s) /\ used s b = false) ->
  exists b f, balloc 1 s = Ok b (set_fb f s) /\ is_data (sb s) b /\ used s b = false /\ layer_ok f H /\ alloc_layer s f b.
Proof.
  intros Hf Hh Hcap (b0 & Hb0 & Hu0). pose proof (so_size _ (fo_sb _ _ Hf)) as Hsz.
  destruct (balloc_loop H (map_starts (sb_size (sb s))) s Hf Hh) as (b & f & Hr & Hl & Ha & Hb & Hu);
    [apply map_starts_ok; lia|done| |].
  { exists (b0 - b0 mod BPB). split; [by apply map_starts_cover|].
    destruct (used_of_start s b0 (fo_sb _ _ Hf) Hb0) as (Hue & Hr & Hm). rewrite Hue in Hu0.
    destruct (find_clear _ _ _) eqn:E; [done|]. exfalso.
    rewrite (find_clear_none _ _ _ (b0 mod BPB) E) in Hu0 by lia. done. }
  exists b, f. split; [|split; [|done]].
  - unfold balloc. erewrite bind_ok by reflexivity. by rewrite (bind_ok _ _ _ _ _ Hr).
  - split; [|lia]. destruct (Z.le_gt_cases (data_start (sb s)) b) as [|Hc]; [done|].
    rewrite (fo_meta _ _ Hf) in Hu by lia. done.
Qed.

(** When every block is in use the allocation panics. *)
Lemma balloc_full s H : fs_ok s H -> held_ok s H -> (forall b, 0 <= b < sb_size (sb s) -> used s b = true) ->
  balloc 1 s = Panic "balloc: out of blocks".
Proof.
  intros Hf Hh Hall. pose proof (so_size _ (fo_sb _ _ Hf)) as Hsz.
  assert (Hloop : forall l s', fs_ok s' H -> held_ok s' H -> Forall (map_start s') l ->
    (forall b, 0 <= b < sb_size (sb s') -> used s' b = true) -> exists s2, for_find l (balloc_at 1) s' = Ok None s2).
  { clear. induction l as [|b l IH]; intros s Hf Hh Hl Hall; [by eexists|]. apply Forall_cons in Hl as [[Hb Hm] Hl].
    destruct (find_clear (blk s (BBLOCK b (sb s))) b (sb_size (sb s))) as [bi|] eqn:E.
    { destruct (find_clear_some _ _ _ _ E) as (Hbi & Hlt & Hc & _).
      destruct (BBLOCK_mult _ b bi (fo_sb _ _ Hf) ltac:(lia) Hm Hbi Hlt) as [Emap Emod].
      specialize (Hall (b + bi) ltac:(lia)). unfold used in Hall. rewrite Emap, Emod in Hall. congruence. }
    destruct (balloc_at_none s H Hf Hh b Hb E) as (f & Hr & Hlf & Hs). simpl. rewrite (bind_ok _ _ _ _ _ Hr).
    apply IH; [by eapply fs_ok_same|by eapply held_ok_same|done|]. intros b' Hb'. rewrite <- (Hall b') by done.
    unfold used, blk. simpl. by rewrite (sl_contents _ _ Hs). }
  destruct (Hloop (map_starts (sb_size (sb s))) s Hf Hh) as [s2 Hr]; [apply map_starts_ok; lia|done|].
  unfold balloc. erewrite bind_ok by reflexivity. by rewrite (bind_ok _ _ _ _ _ Hr).
Qed.

(** [bfree] clears the bit of a block in use, and nothing else. *)
Lemma bfree_ok s H b : fs_ok s H -> held_ok s H -> is_data (sb s) b -> used s b = true ->
  (size ({[BBLOCK b (sb s)]} ∪ in_log (fb s)) <= log_cap)%nat ->
  exists f, bfree 1 b s = Ok tt (set_fb f s) /\ layer_ok f H /\
    put_layer (fb s) f (BBLOCK b (sb s)) (clear_bit (b mod BPB) (blk s (BBLOCK b (sb s)))).
Proof.
  intros Hf Hh Hd Hu Hcap. pose proof (so_size _ (fo_sb _ _ Hf)) as Hsz.
  assert (Hb : 0 <= b < sb_size (sb s)).
  { unfold is_data in Hd. pose proof (BBLOCK_range _ 0 (fo_sb _ _ Hf) ltac:(lia)). lia. }
  pose proof (BBLOCK_range _ b (fo_sb _ _ Hf) Hb) as Hr. set (mb := BBLOCK b (sb s)) in *.
  destruct (read_block s H mb) as (i & f1 & f1' & H1 & Hi & Hl1 & [C1 N1 L1] & H2 & _);
    [apply Hf|rewrite (fo_size _ _ Hf); lia|intros i; by apply held_not_map|apply Hh|].
  assert (E1 : blk (set_fb f1 s) mb = blk s mb) by apply C1.
  pose proof (law_block (fb s) H mb (fo_layer _ _ Hf) ltac:(rewrite (fo_size _ _ Hf); lia)) as Hbok.
  destruct (log_update_ok_ (set_fb f1 s) (<[i := mb]> H) i mb (clear_bit (b mod BPB)) Hl1) as (f2 & U2 & Hl2 & [C2 N2 L2]);
    [by apply lookup_insert_eq|rewrite E1; by apply put8_ok|simpl; by rewrite L1|].
  destruct (brelse_ok_ (set_fb f2 (set_fb f1 s)) _ i mb Hl2) as (f3 & U3 & Hl3 & [C3 N3 L3]); [by apply lookup_insert_eq|].
  rewrite delete_insert_id in Hl3 by done. simpl in *.
  exists f3. split; [|split; [done|]].
  - unfold bfree. erewrite bind_ok by reflexivity. fold mb. rewrite (bind_ok _ _ _ _ _ H1). cbv zeta.
    rewrite (bind_ok _ _ _ _ _ H2). change (bit_set (blk s mb) (b mod BPB)) with (used s b). rewrite Hu. simpl.
    by rewrite (bind_ok _ _ _ _ _ U2).
  - split; [|congruence|congruence]. intros b'. rewrite C3, C2, E1. case_decide; [done|apply C1].
Qed.
End blocks.
