(* ===== verification/FsFile.v ===== *)
(** File contents: [bmap], [readi] and [writei] of src/fs.c against an abstract
    file, the map from block index to disk block and the bytes of the file. *)

From S2P Require Import Prelude StringC Spinlock Sleeplock Block Bio Log Layer Fs FsBlocks.

Section file.
Context {B : Type} {OB : BlockOps B} {LB : BlockLayer B}.
Implicit Types (s : fsst B) (x : inode).

(** The disk block that holds block [bn] of the file; 0 when there is none. *)
Definition file_blk (s : fsst B) (x : inode) (bn : Z) : Z :=
  if bn <? NDIRECT then addr_of x bn
  else if addr_of x NDIRECT =? 0 then 0 else get32 (blk s (addr_of x NDIRECT)) (4 * (bn - NDIRECT)).

(** The byte of the file at offset [o]; 0 where the file has no block. *)
Definition file_byte (s : fsst B) (x : inode) (o : Z) : Z :=
  if file_blk s x (o / BSIZE) =? 0 then 0 else get8 (blk s (file_blk s x (o / BSIZE))) (o mod BSIZE).

Definition in_use (s : fsst B) (b : Z) : Prop := is_data (sb s) b /\ used s b = true.

(** The blocks of a file are data blocks in use, all of them different. *)
Record file_ok (s : fsst B) (x : inode) : Prop := {
  fk_dev : i_dev x = 1;
  fk_len : length (i_addrs x) = 13%nat;
  fk_ind : addr_of x NDIRECT <> 0 -> in_use s (addr_of x NDIRECT);
  fk_blk : forall bn, 0 <= bn < MAXFILE -> file_blk s x bn <> 0 -> in_use s (file_blk s x bn);
  fk_inj : forall bn bn', 0 <= bn < MAXFILE -> 0 <= bn' < MAXFILE ->
    file_blk s x bn = file_blk s x bn' -> file_blk s x bn <> 0 -> bn = bn';
  fk_sep : forall bn, 0 <= bn < MAXFILE -> file_blk s x bn <> 0 -> file_blk s x bn <> addr_of x NDIRECT;
}.

(** The state with the layer [f] and the inode [x] in slot [ip]. *)
Definition ist (s : fsst B) (f : B) (ip : nat) (x : inode) : fsst B :=
  Fsst f (sb s) (ic_lock s) (<[ip := x]> (inodes s)).

Lemma ist_id s ip x : inodes s !! ip = Some x -> ist s (fb s) ip x = s.
Proof. intros Hx. unfold ist. rewrite list_insert_id by done. by destruct s. Qed.

Lemma ist_ist s f f' ip x x' : ist (ist s f ip x) f' ip x' = ist s f' ip x'.
Proof. unfold ist. simpl. by rewrite list_insert_insert_eq. Qed.

Lemma fs_ok_ist s f H ip x : fs_ok (set_fb f s) H -> fs_ok (ist s f ip x) H.
Proof. intros [F1 F2 F3 F4 F5]. by split. Qed.

Lemma ist_lookup s f ip x y : inodes s !! ip = Some y -> inodes (ist s f ip x) !! ip = Some x.
Proof. intros Hy. simpl. apply list_lookup_insert_eq. by eapply lookup_lt_Some. Qed.

Lemma set_fb_ist s f f' ip x : set_fb f' (ist s f ip x) = ist s f' ip x.
Proof. done. Qed.

Lemma geti_ok {A} s ip x (f : inode -> A) : inodes s !! ip = Some x -> geti ip f s = Ok (f x) s.
Proof. intros Hx. unfold geti, gets, inode_at. by rewrite (nth_lookup_Some _ _ _ _ Hx). Qed.

Lemma seti_ok s ip x g : inodes s !! ip = Some x -> seti ip g s = Ok tt (ist s (fb s) ip (g x)).
Proof. intros Hx. unfold seti, modify. by rewrite (alter_insert _ _ _ x). Qed.

(** The number of blocks that are free. *)
Definition nfree (s : fsst B) : nat := length (filter (fun b => used s b = false) (range 0 (Z.to_nat (sb_size (sb s))))).

Lemma nfree_some s : (0 < nfree s)%nat -> exists b, 0 <= b < sb_size (sb s) /\ used s b = false.
Proof.
  intros Hn. unfold nfree in Hn. destruct (filter _ _) as [|b l] eqn:E; simpl in Hn; [lia|].
  assert (Hin : b ∈ filter (fun b => used s b = false) (range 0 (Z.to_nat (sb_size (sb s))))) by (rewrite E; apply elem_of_cons; by left).
  apply list_elem_of_filter in Hin as [Hu Hin]. apply elem_of_range in Hin. exists b. split; [lia|done].
Qed.

Lemma nfree_none s : nfree s = 0%nat -> forall b, 0 <= b < sb_size (sb s) -> used s b = true.
Proof.
  intros Hn b Hb. unfold nfree in Hn. apply nil_length_inv in Hn. destruct (used s b) eqn:E; [done|]. exfalso.
  assert (Hin : b ∈ filter (fun b => used s b = false) (range 0 (Z.to_nat (sb_size (sb s))))).
  { apply list_elem_of_filter. split; [done|]. apply elem_of_range. lia. }
  rewrite Hn in Hin. by apply elem_of_nil in Hin.
Qed.

Lemma filter_same (P Q : Z -> Prop) `{forall z, Decision (P z)} `{forall z, Decision (Q z)} (l : list Z) :
  (forall z, z ∈ l -> P z <-> Q z) -> filter P l = filter Q l.
Proof.
  induction l as [|a l IH]; intros Hl; [done|]. rewrite !filter_cons, IH by set_solver.
  pose proof (Hl a ltac:(set_solver)). repeat case_decide; tauto.
Qed.

Lemma filter_one (P Q : Z -> Prop) `{forall z, Decision (P z)} `{forall z, Decision (Q z)} b (l : list Z) :
  NoDup l -> b ∈ l -> P b -> ~ Q b -> (forall z, z <> b -> P z <-> Q z) -> length (filter P l) = S (length (filter Q l)).
Proof.
  intros Hnd Hin Hp Hq Hx. induction l as [|a l IH]; [by apply elem_of_nil in Hin|].
  apply NoDup_cons in Hnd as [Ha Hnd]. rewrite !filter_cons. apply elem_of_cons in Hin as [<-|Hin].
  - rewrite decide_True, decide_False by done. simpl. f_equal. f_equal. apply filter_same. intros y Hy. apply Hx. by intros ->.
  - assert (a <> b) by (by intros ->). destruct (decide (P a)) as [E|E], (decide (Q a)) as [E'|E']; simpl;
      rewrite ?IH by done; try done; exfalso; naive_solver.
Qed.

Lemma nfree_alloc_gen s s' b : sb s' = sb s -> 0 <= b < sb_size (sb s) -> used s b = false ->
  (forall b', 0 <= b' < sb_size (sb s) -> used s' b' = bool_decide (b' = b) || used s b') -> nfree s = S (nfree s').
Proof.
  intros Hsb Hb Hu Hu'. unfold nfree. rewrite Hsb.
  transitivity (S (length (filter (fun b' => b' <> b /\ used s b' = false) (range 0 (Z.to_nat (sb_size (sb s))))))).
  - apply (filter_one _ _ b); [apply NoDup_seqZ|apply elem_of_range; lia|done|tauto|tauto].
  - do 2 f_equal. apply filter_same. intros b' Hb'. apply elem_of_range in Hb'. rewrite Hu' by lia.
    case_bool_decide; simpl; naive_solver.
Qed.

Lemma nfree_alloc s H f b : fs_ok s H -> is_data (sb s) b -> used s b = false -> alloc_layer s f b ->
  nfree s = S (nfree (set_fb f s)).
Proof.
  intros Hf Hd Hu Ha. apply (nfree_alloc_gen s (set_fb f s) b); [done| |done|].
  - pose proof (so_size _ (fo_sb _ _ Hf)). pose proof (BBLOCK_range _ 0 (fo_sb _ _ Hf) ltac:(lia)). unfold is_data in Hd. lia.
  - intros b' Hb'. by apply (used_alloc s H f b).
Qed.

(** Blocks of the free map, the only ones outside the data area that the file
    operations write besides the inode. *)
Definition is_map (s : fsst B) (b : Z) : Prop := sb_bmapstart (sb s) <= b < data_start (sb s).

(** What allocation leaves alone: blocks in use, other than [ind]. *)
Record keeps (ind : Z) (s s' : fsst B) : Prop := {
  kp_sb : sb s' = sb s;
  kp_used : forall b, 0 <= b < sb_size (sb s) -> used s b = true -> used s' b = true;
  kp_blk : forall b, in_use s b -> b <> ind -> blk s' b = blk s b;
  kp_low : forall b, b < sb_bmapstart (sb s) -> blk s' b = blk s b;
  kp_inodes : length (inodes s') = length (inodes s);
}.

Lemma keeps_refl ind s : keeps ind s s.
Proof. by split. Qed.

Lemma data_in_disk s H b : fs_ok s H -> is_data (sb s) b -> 0 < b < sb_size (sb s).
Proof.
  intros Hf Hd. pose proof (so_size _ (fo_sb _ _ Hf)). pose proof (BBLOCK_range _ 0 (fo_sb _ _ Hf) ltac:(lia)).
  unfold is_data in Hd. lia.
Qed.

Lemma keeps_trans ind s1 s2 s3 H : fs_ok s1 H -> keeps ind s1 s2 -> keeps ind s2 s3 -> keeps ind s1 s3.
Proof.
  intros Hf [A1 A2 A3 A4 A5] [B1 B2 B3 B4 B5]. split; [congruence| | | |congruence].
  - intros b Hb Hu. apply B2; [by rewrite A1|by apply A2].
  - intros b [Hd Hu] Hne. rewrite B3; [by apply A3|split; [by rewrite A1|]|done].
    apply A2; [|done]. pose proof (data_in_disk _ _ _ Hf Hd). lia.
  - intros b Hb. rewrite B4 by (by rewrite A1). by apply A4.
Qed.

Lemma keeps_weaken s s' ind ind' : keeps ind s s' -> ~ in_use s ind -> keeps ind' s s'.
Proof.
  intros [K1 K2 K3 K4 K5] Hn. split; try done. intros b Hb _. apply K3; [done|]. by intros ->.
Qed.

Lemma keeps_alloc s H f b ip x y ind : fs_ok s H -> inodes s !! ip = Some y -> is_data (sb s) b -> used s b = false ->
  alloc_layer s f b -> keeps ind s (ist s f ip x).
Proof.
  intros Hf Hy Hd Hu Ha. pose proof (data_in_disk _ _ _ Hf Hd) as Hbr.
  pose proof (BBLOCK_range _ b (fo_sb _ _ Hf) ltac:(lia)) as Hr. split; simpl.
  - done.
  - intros b' Hb' Hu'. change (used (ist s f ip x) b') with (used (set_fb f s) b').
    rewrite (used_alloc s H f b) by done. by rewrite Hu', orb_true_r.
  - intros b' [Hd' Hu'] _. unfold blk. simpl. rewrite (al_contents _ _ _ Ha).
    rewrite decide_False by congruence. rewrite decide_False; [done|]. unfold is_data in Hd'. lia.
  - intros b' Hb'. unfold blk. simpl. rewrite (al_contents _ _ _ Ha).
    unfold is_data in Hd. rewrite decide_False by (unfold data_start in *; lia). by rewrite decide_False by lia.
  - by rewrite length_insert.
Qed.

(** [file_blk] depends on the addresses and the indirect block. *)
Lemma file_blk_same s s' x x' bn : i_addrs x' = i_addrs x ->
  (addr_of x NDIRECT <> 0 -> blk s' (addr_of x NDIRECT) = blk s (addr_of x NDIRECT)) ->
  file_blk s' x' bn = file_blk s x bn.
Proof.
  intros Ha Hb. unfold file_blk, addr_of in *. rewrite Ha. destruct (bn <? NDIRECT); [done|].
  destruct (Z.eqb_spec (nth (Z.to_nat NDIRECT) (i_addrs x) 0) 0); [done|]. by rewrite Hb.
Qed.

Lemma addr_set x k v j : length (i_addrs x) = 13%nat -> 0 <= k <= NDIRECT -> 0 <= j ->
  addr_of (set_addr k v x) j = if decide (j = k) then v else addr_of x j.
Proof.
  intros Hl Hk Hj. unfold addr_of, set_addr, NDIRECT in *. simpl. rewrite !nth_lookup. case_decide as E.
  - subst. rewrite list_lookup_insert_eq by lia. done.
  - rewrite list_lookup_insert_ne by lia. done.
Qed.

Lemma get8_zero k : get8 zero_block k = 0.
Proof.
  unfold get8, zero_block. rewrite nth_lookup. destruct (replicate 512 0 !! Z.to_nat k) as [v|] eqn:E; [|done].
  apply lookup_replicate in E as [-> _]. done.
Qed.

Lemma get32_zero o : get32 zero_block o = 0.
Proof. unfold get32. by rewrite !get8_zero. Qed.

(** A block newly put in the address field [k] of the inode: block [k] of the
    file, or the indirect block with no entry. *)
Section fresh_addr.
Context (s : fsst B) (H : gmap nat Z) (ip : nat) (x y : inode) (f : B) (k b : Z).
Context (Hf : fs_ok s H) (Hx : file_ok s x) (Hip : inodes s !! ip = Some y).
Context (Hk : 0 <= k <= NDIRECT) (Hz : addr_of x k = 0).
Context (Hd : is_data (sb s) b) (Hu : used s b = false) (Ha : alloc_layer s f b).
Let x' := set_addr k b x.
Let s' := ist s f ip x'.

Lemma fresh_blk bn : 0 <= bn < MAXFILE -> file_blk s' x' bn = if decide (bn = k /\ k <> NDIRECT) then b else file_blk s x bn.
Proof.
  intros Hbn. pose proof (fk_len _ _ Hx) as Hl. pose proof (data_in_disk _ _ _ Hf Hd) as Hbd.
  unfold file_blk, x'. destruct (Z.ltb_spec bn NDIRECT) as [Hlt|Hge].
  - rewrite addr_set by (done || lia). case_decide as E; [subst|].
    + rewrite decide_True by lia. done.
    + by rewrite decide_False by tauto.
  - rewrite addr_set by (done || unfold NDIRECT; lia). rewrite (decide_False (P := bn = k /\ _)) by lia.
    case_decide as E.
    + subst k. destruct (Z.eqb_spec b 0); [lia|]. rewrite Hz. simpl. unfold blk. simpl.
      rewrite (al_contents _ _ _ Ha), decide_True by done. apply get32_zero.
    + destruct (Z.eqb_spec (addr_of x NDIRECT) 0) as [|Hne]; [done|].
      f_equal. apply (kp_blk 0 s s'); [exact (keeps_alloc s H f b ip x' y 0 Hf Hip Hd Hu Ha)|by apply (fk_ind _ _ Hx)|done].
Qed.

Lemma fresh_in_use b' : in_use s b' -> in_use s' b'.
Proof.
  intros [Hd' Hu']. split; [done|]. pose proof (data_in_disk _ _ _ Hf Hd').
  apply (kp_used 0 s s'); [exact (keeps_alloc s H f b ip x' y 0 Hf Hip Hd Hu Ha)|lia|done].
Qed.

Lemma fresh_used : in_use s' b.
Proof.
  pose proof (data_in_disk _ _ _ Hf Hd) as Hbd. split; [done|].
  change (used s' b) with (used (set_fb f s) b). rewrite (used_alloc s H f b) by (done || lia). by rewrite bool_decide_true.
Qed.

Lemma fresh_ne b' : in_use s b' -> b' <> b.
Proof. intros [_ Hu'] ->. congruence. Qed.

Lemma fresh_ind : addr_of x' NDIRECT = if decide (NDIRECT = k) then b else addr_of x NDIRECT.
Proof. apply addr_set; [apply (fk_len _ _ Hx)|done|unfold NDIRECT; lia]. Qed.

Lemma fresh_file_ok : file_ok s' x'.
Proof.
  pose proof (fk_len _ _ Hx) as Hl. pose proof (data_in_disk _ _ _ Hf Hd) as Hbd.
  split.
  - apply Hx.
  - unfold x', set_addr. simpl. by rewrite length_insert.
  - rewrite fresh_ind. case_decide; intros Hne; [apply fresh_used|]. by apply fresh_in_use, (fk_ind _ _ Hx).
  - intros bn Hbn. rewrite fresh_blk by done. case_decide; intros Hne; [apply fresh_used|]. by apply fresh_in_use, (fk_blk _ _ Hx).
  - intros bn bn' Hbn Hbn'. rewrite !fresh_blk by done. repeat case_decide; intros Heq Hne; try lia.
    + exfalso. apply (fresh_ne (file_blk s x bn')); [apply (fk_blk _ _ Hx); [done|lia]|done].
    + exfalso. apply (fresh_ne (file_blk s x bn)); [by apply (fk_blk _ _ Hx)|done].
    + by apply (fk_inj _ _ Hx).
  - intros bn Hbn. rewrite fresh_blk, fresh_ind by done. repeat case_decide; intros Hne Heq; try lia.
    + apply (fresh_ne (addr_of x NDIRECT)); [apply (fk_ind _ _ Hx); lia|done].
    + apply (fresh_ne (file_blk s x bn)); [by apply (fk_blk _ _ Hx)|done].
    + by apply (fk_sep _ _ Hx bn).
Qed.
End fresh_addr.

(** The layer after block [b] is allocated and entered in the indirect block
    at offset [o]. *)
Record entry_layer (s : fsst B) (f : B) (ind o b : Z) : Prop := {
  el_contents : forall b', contents f b' =
    if decide (b' = ind) then put32 (blk s ind) o b
    else if decide (b' = b) then zero_block
    else if decide (b' = BBLOCK b (sb s)) then mark_bit (b mod BPB) (blk s b') else blk s b';
  el_nblocks : nblocks f = nblocks (fb s);
}.

Section fresh_entry.
Context (s : fsst B) (H : gmap nat Z) (ip : nat) (x : inode) (f : B) (bn b : Z).
Context (Hf : fs_ok s H) (Hx : file_ok s x) (Hip : inodes s !! ip = Some x).
Context (Hbn : NDIRECT <= bn < MAXFILE) (Hi : addr_of x NDIRECT <> 0) (Hz : file_blk s x bn = 0).
Context (Hd : is_data (sb s) b) (Hu : used s b = false).
Context (Ha : entry_layer s f (addr_of x NDIRECT) (4 * (bn - NDIRECT)) b).
Let s' := ist s f ip x.
Local Notation ind := (addr_of x NDIRECT).

Lemma entry_ind : in_use s ind /\ ind <> b.
Proof. pose proof (fk_ind _ _ Hx Hi) as Hin. split; [done|]. intros E. destruct Hin as [_ Hin]. congruence. Qed.

Lemma entry_used b' : 0 <= b' < sb_size (sb s) -> used s' b' = bool_decide (b' = b) || used s b'.
Proof.
  intros Hb'. pose proof entry_ind as [[Hid _] Hne]. pose proof (BBLOCK_range _ b' (fo_sb _ _ Hf) Hb') as Hr.
  unfold is_data in Hid. unfold used at 1, blk at 1. simpl. rewrite (el_contents _ _ _ _ _ Ha), decide_False by lia.
  unfold is_data in Hd. rewrite decide_False by lia. pose proof (data_in_disk _ _ _ Hf Hd).
  apply (mark_used s H); [done|lia|done].
Qed.

Lemma entry_keeps : keeps ind s s'.
Proof.
  pose proof entry_ind as [[Hid _] Hne]. pose proof (data_in_disk _ _ _ Hf Hd) as Hbr.
  pose proof (BBLOCK_range _ b (fo_sb _ _ Hf) ltac:(lia)) as Hr. unfold is_data in *. split; simpl.
  - done.
  - intros b' Hb' Hu'. rewrite entry_used by done. by rewrite Hu', orb_true_r.
  - intros b' [Hd' Hu'] Hne'. unfold blk. simpl. rewrite (el_contents _ _ _ _ _ Ha), decide_False by done.
    rewrite decide_False by congruence. rewrite decide_False; [done|]. unfold is_data in Hd'. lia.
  - intros b' Hb'. unfold blk. simpl. rewrite (el_contents _ _ _ _ _ Ha). unfold data_start in *.
    by rewrite !decide_False by lia.
  - by rewrite length_insert.
Qed.

Lemma entry_blk bn' : 0 <= bn' < MAXFILE -> file_blk s' x bn' = if decide (bn' = bn) then b else file_blk s x bn'.
Proof.
  intros Hbn'. pose proof (data_in_disk _ _ _ Hf Hd) as Hbr. pose proof (so_size _ (fo_sb _ _ Hf)).
  assert (Hbok : block_ok (blk s ind)).
  { pose proof entry_ind as [[Hid _] _]. pose proof (data_in_disk _ _ _ Hf Hid).
    apply (law_block _ H _ (fo_layer _ _ Hf)). rewrite (fo_size _ _ Hf). lia. }
  pose proof (bo_length _ Hbok) as Hlen. unfold file_blk. unfold MAXFILE, NINDIRECT, NDIRECT in *.
  destruct (Z.ltb_spec bn' 12); [by rewrite decide_False by lia|].
  destruct (Z.eqb_spec (addr_of x 12) 0); [done|]. unfold blk at 1. simpl.
  rewrite (el_contents _ _ _ _ _ Ha), decide_True by done. case_decide.
  - subst. rewrite get32_put32 by lia. apply u32_id. lia.
  - by rewrite get32_put32_ne by lia.
Qed.

Lemma entry_in_use b' : in_use s b' -> in_use s' b'.
Proof. intros [Hd' Hu']. split; [done|]. pose proof (data_in_disk _ _ _ Hf Hd'). apply (kp_used _ _ _ entry_keeps); [lia|done]. Qed.

Lemma entry_fresh : in_use s' b.
Proof. pose proof (data_in_disk _ _ _ Hf Hd). split; [done|]. rewrite entry_used by lia. by rewrite bool_decide_true. Qed.

Lemma entry_file_ok : file_ok s' x.
Proof.
  pose proof entry_ind as [Hin Hne]. assert (Hfr : forall b', in_use s b' -> b' <> b) by (intros b' [_ Hu'] ->; congruence).
  split; try apply Hx.
  - intros _. by apply entry_in_use.
  - intros bn' Hbn'. rewrite entry_blk by done. case_decide; intros Hz'; [apply entry_fresh|]. by apply entry_in_use, (fk_blk _ _ Hx).
  - intros bn1 bn2 H1 H2. rewrite !entry_blk by done. repeat case_decide; intros Heq Hz'; subst; try done.
    + exfalso. apply (Hfr (file_blk s x bn2)); [apply (fk_blk _ _ Hx); [done|congruence]|done].
    + exfalso. by apply (Hfr (file_blk s x bn1)); [apply (fk_blk _ _ Hx)|].
    + by apply (fk_inj _ _ Hx).
  - intros bn' Hbn'. rewrite entry_blk by done. case_decide; intros Hz' Heq; [congruence|]. by apply (fk_sep _ _ Hx bn').
Qed.

Lemma entry_fs_ok H' : layer_ok f H' -> fs_ok s' H'.
Proof.
  intros Hl. pose proof Hf as [F1 F2 F3 F4 F5]. split; simpl; try done.
  - by rewrite (el_nblocks _ _ _ _ _ Ha).
  - intros b' Hb'. rewrite entry_used; [rewrite F4 by done; apply orb_true_r|].
    destruct F2 as [? ? ? S4]. unfold data_start in Hb'. lia.
Qed.
End fresh_entry.

(** What [bmap] does: block [bn] of the file is block [a] of the disk, newly
    allocated and zero if the file had none; the rest of the file, and every
    block in use but the indirect block, are as before. *)
Record bmap_post (s : fsst B) (ip : nat) (x : inode) (bn a : Z) (f : B) (x' : inode) : Prop := {
  bm_fs : fs_ok (ist s f ip x') ∅;
  bm_file : file_ok (ist s f ip x') x';
  bm_meta : x' = set_i_addrs (i_addrs x') x;
  bm_this : file_blk (ist s f ip x') x' bn = a /\ a <> 0;
  bm_other : forall bn', 0 <= bn' < MAXFILE -> bn' <> bn -> file_blk (ist s f ip x') x' bn' = file_blk s x bn';
  bm_old : file_blk s x bn <> 0 -> a = file_blk s x bn /\ x' = x;
  bm_new : file_blk s x bn = 0 -> blk (ist s f ip x') a = zero_block /\ ~ in_use s a;
  bm_keeps : keeps (addr_of x NDIRECT) s (ist s f ip x');
  bm_ind : addr_of x' NDIRECT = addr_of x NDIRECT \/ (addr_of x NDIRECT = 0 /\ ~ in_use s (addr_of x' NDIRECT));
  bm_log : forall b, b ∈ in_log f -> b ∈ in_log (fb s) \/ is_map s b \/ (b = addr_of x' NDIRECT /\ b <> 0) \/ b = a;
  bm_size : (size (in_log f) <= size (in_log (fb s)) + 4)%nat;
  bm_free : (nfree s <= nfree (ist s f ip x') + 2)%nat;
}.

Lemma held_ok_empty s : held_ok s ∅.
Proof. split; [rewrite map_size_empty; unfold MAXHELD; lia|]. intros i b Hi. by rewrite lookup_empty in Hi. Qed.

Lemma set_addr_meta k v x : set_addr k v x = set_i_addrs (i_addrs (set_addr k v x)) x.
Proof. done. Qed.

(** Get the address field [k], allocating if necessary. *)
Definition addr_alloc (ip : nat) (x : inode) (k : Z) : M (fsst B) Z :=
  if addr_of x k =? 0 then
    addr <- balloc (i_dev x) ;;
    seti ip (set_addr k addr) ;;
    ret addr
  else ret (addr_of x k).

Lemma alloc_log_size s f a : alloc_layer s f a -> (size (in_log f) <= size (in_log (fb s)) + 2)%nat.
Proof.
  intros Ha. rewrite (al_log _ _ _ Ha). pose proof (size_add a ({[BBLOCK a (sb s)]} ∪ in_log (fb s))).
  pose proof (size_add (BBLOCK a (sb s)) (in_log (fb s))). lia.
Qed.

Lemma alloc_log_in s H f a b : fs_ok s H -> is_data (sb s) a -> alloc_layer s f a -> b ∈ in_log f ->
  b ∈ in_log (fb s) \/ is_map s b \/ b = a.
Proof.
  intros Hf Hd Ha Hb. rewrite (al_log _ _ _ Ha), !elem_of_union, !elem_of_singleton in Hb.
  destruct Hb as [->|[->|Hb]]; [by right; right|right; left|by left].
  pose proof (data_in_disk _ _ _ Hf Hd). apply (BBLOCK_range _ a (fo_sb _ _ Hf)). lia.
Qed.

Section bmap.
Context (s : fsst B) (ip : nat) (x : inode) (bn : Z).
Context (Hf : fs_ok s ∅) (Hx : file_ok s x) (Hip : inodes s !! ip = Some x).
Context (Hcap : (size (in_log (fb s)) + 4 <= log_cap)%nat) (Hfree : (2 <= nfree s)%nat).

Lemma addr_alloc_ok k : 0 <= k <= NDIRECT ->
  (addr_of x k <> 0 /\ addr_alloc ip x k s = Ok (addr_of x k) s) \/
  (addr_of x k = 0 /\ exists a f, addr_alloc ip x k s = Ok a (ist s f ip (set_addr k a x)) /\
     is_data (sb s) a /\ used s a = false /\ layer_ok f ∅ /\ alloc_layer s f a).
Proof.
  intros Hk. unfold addr_alloc. destruct (Z.eqb_spec (addr_of x k) 0) as [E|E]; [right|by left].
  split; [done|]. destruct (balloc_ok s ∅ Hf (held_ok_empty s)) as (a & f & Hr & Hd & Hu & Hl & Ha);
    [lia|apply nfree_some; lia|].
  exists a, f. split; [|done]. rewrite (fk_dev _ _ Hx), (bind_ok _ _ _ _ _ Hr).
  by rewrite (bind_ok _ _ _ _ _ (seti_ok (set_fb f s) ip x _ Hip)).
Qed.

Lemma bmap_direct : 0 <= bn < NDIRECT -> exists a f x', bmap ip bn s = Ok a (ist s f ip x') /\ bmap_post s ip x bn a f x'.
Proof.
  intros Hbn. assert (Hb : file_blk s x bn = addr_of x bn) by (unfold file_blk; destruct (Z.ltb_spec bn NDIRECT); [done|lia]).
  assert (Hm : 0 <= bn < MAXFILE) by (unfold MAXFILE, NDIRECT, NINDIRECT in *; lia).
  assert (Hrun : bmap ip bn s = addr_alloc ip x bn s).
  { unfold bmap. rewrite (bind_ok _ _ _ _ _ (geti_ok s ip x id Hip)). simpl. destruct (Z.ltb_spec bn NDIRECT); [done|lia]. }
  rewrite Hrun. destruct (addr_alloc_ok bn ltac:(lia)) as [[E Hr]|(E & a & f & Hr & Hd & Hu & Hl & Ha)].
  - exists (addr_of x bn), (fb s), x. rewrite ist_id by done. split; [done|]. split; rewrite ?ist_id by done; try done.
    + by destruct x.
    + by rewrite Hb.
    + by left.
    + intros b. by left.
    + lia.
    + lia.
  - exists a, f, (set_addr bn a x). split; [done|]. pose proof (data_in_disk _ _ _ Hf Hd) as Hbr.
    assert (Hblk := fresh_blk s ∅ ip x x f bn a Hf Hx Hip ltac:(lia) E Hd Hu Ha).
    split.
    + by apply fs_ok_ist, (fs_ok_alloc s ∅ f a).
    + apply (fresh_file_ok s ∅ ip x x f bn a); (done || lia).
    + done.
    + rewrite Hblk by done. rewrite decide_True by (unfold NDIRECT in *; lia). split; [done|lia].
    + intros bn' Hbn' Hne. rewrite Hblk by done. by rewrite decide_False by lia.
    + rewrite Hb. done.
    + intros _. unfold blk. simpl. rewrite (al_contents _ _ _ Ha), decide_True by done. split; [done|]. intros [_ Hu']. congruence.
    + by apply (keeps_alloc s ∅ f a ip _ x).
    + left. rewrite (fresh_ind s x bn a Hx ltac:(lia)). by rewrite decide_False by lia.
    + intros b Hin. destruct (alloc_log_in s ∅ f a b Hf Hd Ha Hin) as [?|[?|?]]; auto.
    + pose proof (alloc_log_size s f a Ha). lia.
    + pose proof (nfree_alloc s ∅ f a Hf Hd Hu Ha). change (nfree (ist s f ip (set_addr bn a x))) with (nfree (set_fb f s)). lia.
Qed.
End bmap.

Lemma used_blk s s' : sb s' = sb s -> (forall b, blk s' b = blk s b) -> forall b, used s' b = used s b.
Proof. intros Hsb Hb b. unfold used. by rewrite Hsb, Hb. Qed.

Lemma file_ok_same s x s' x' : file_ok s x -> sb s' = sb s -> i_addrs x' = i_addrs x -> i_dev x' = i_dev x ->
  (forall b, blk s' b = blk s b) -> file_ok s' x'.
Proof.
  intros [K1 K2 K3 K4 K5 K6] Hsb Had Hdev Hb.
  assert (E : forall k, file_blk s' x' k = file_blk s x k) by (intros k; apply file_blk_same; [done|intros; apply Hb]).
  assert (U : forall b, in_use s b -> in_use s' b).
  { intros b [H1 H2]. split; [by rewrite Hsb|]. by rewrite (used_blk s s' Hsb Hb). }
  assert (A : addr_of x' NDIRECT = addr_of x NDIRECT) by (unfold addr_of; by rewrite Had).
  split; rewrite ?A; [congruence|congruence|naive_solver|..]; intros *; rewrite ?E; naive_solver.
Qed.

(** The entry of an indirect block that is there. *)
Section indirect.
Context (s : fsst B) (ip : nat) (x : inode) (bn : Z).
Context (Hf : fs_ok s ∅) (Hx : file_ok s x) (Hip : inodes s !! ip = Some x) (Hbn : NDIRECT <= bn < MAXFILE).
Context (Hi : addr_of x NDIRECT <> 0).
Context (Hcap : (size ({[addr_of x NDIRECT]} ∪ in_log (fb s)) + 2 <= log_cap)%nat) (Hfree : (1 <= nfree s)%nat).
Local Notation ind := (addr_of x NDIRECT).
Local Notation o := (4 * (bn - NDIRECT)).

Definition entry_alloc : M (fsst B) Z :=
  bp <- bread_ (i_dev x) ind ;;
  d <- bdata bp ;;
  let addr := get32 d o in
  if addr =? 0 then
    addr <- balloc (i_dev x) ;;
    log_update bp (fun d => put32 d o addr) ;;
    brelse_ bp ;;
    ret addr
  else brelse_ bp ;; ret addr.

Lemma ind_blk : file_blk s x bn = get32 (blk s ind) o.
Proof. clear Hcap Hfree Hip Hx. unfold file_blk. destruct (Z.ltb_spec bn NDIRECT); [lia|]. by destruct (Z.eqb_spec ind 0). Qed.

Lemma entry_alloc_old : file_blk s x bn <> 0 ->
  exists f, entry_alloc s = Ok (file_blk s x bn) (ist s f ip x) /\ layer_ok f ∅ /\ same_layer (fb s) f.
Proof.
  clear Hcap Hfree. intros Hz. pose proof (fk_ind _ _ Hx Hi) as [Hid Hiu]. pose proof (data_in_disk _ _ _ Hf Hid).
  destruct (read_block s ∅ ind) as (i & f1 & f2 & H1 & _ & _ & _ & H2 & H3 & Hl & Hs);
    [apply Hf|rewrite (fo_size _ _ Hf); lia|by intros i; rewrite lookup_empty|apply (held_ok_empty s)|].
  exists f2. split; [|done]. unfold entry_alloc. rewrite (fk_dev _ _ Hx), (bind_ok _ _ _ _ _ H1), (bind_ok _ _ _ _ _ H2).
  cbv zeta. rewrite <- ind_blk. destruct (Z.eqb_spec (file_blk s x bn) 0); [done|].
  rewrite (bind_ok _ _ _ _ _ H3). unfold ret. f_equal. unfold set_fb, ist. by rewrite list_insert_id.
Qed.

Lemma entry_alloc_new : file_blk s x bn = 0 ->
  exists b f, entry_alloc s = Ok b (ist s f ip x) /\ layer_ok f ∅ /\ is_data (sb s) b /\ used s b = false /\
    entry_layer s f ind o b /\ in_log f = {[ind]} ∪ ({[b]} ∪ ({[BBLOCK b (sb s)]} ∪ in_log (fb s))).
Proof.
  intros Hz. pose proof (fk_ind _ _ Hx Hi) as [Hid Hiu]. pose proof (data_in_disk _ _ _ Hf Hid) as Hir.
  destruct (read_block s ∅ ind) as (i & f1 & f2 & H1 & _ & Hl1 & Hs1 & H2 & _);
    [apply Hf|rewrite (fo_size _ _ Hf); lia|by intros i; rewrite lookup_empty|apply (held_ok_empty s)|].
  rewrite insert_empty in Hl1. set (H := {[i := ind]} : gmap nat Z) in *.
  assert (Hf1 : fs_ok (set_fb f1 s) H) by (by eapply fs_ok_same).
  assert (Eu : forall b, used (set_fb f1 s) b = used s b) by (intros b; unfold used, blk; simpl; by rewrite (sl_contents _ _ Hs1)).
  assert (Hh1 : held_ok (set_fb f1 s) H).
  { split; [unfold H; rewrite map_size_singleton; unfold MAXHELD; lia|]. intros j b Hj.
    apply lookup_singleton_Some in Hj as [<- <-]. by rewrite Eu. }
  destruct (balloc_ok (set_fb f1 s) H Hf1 Hh1) as (b & f3 & H3 & Hd & Hu & Hl3 & Ha).
  { simpl. rewrite (sl_in_log _ _ Hs1). pose proof (subseteq_size (in_log (fb s)) ({[ind]} ∪ in_log (fb s)) ltac:(set_solver)). lia. }
  { destruct (nfree_some s) as (b & Hb & Hub); [lia|]. exists b. by rewrite Eu. }
  apply (alloc_layer_same s f1 f3 b Hs1) in Ha. rewrite Eu in Hu. simpl in Hd.
  pose proof (data_in_disk _ _ _ Hf Hd) as Hbr. pose proof (BBLOCK_range _ b (fo_sb _ _ Hf) ltac:(lia)) as Hbb.
  assert (Eind : blk (set_fb f3 s) ind = blk s ind).
  { unfold blk. simpl. rewrite (al_contents _ _ _ Ha). rewrite decide_False by congruence.
    unfold is_data in Hid. by rewrite decide_False by lia. }
  destruct (log_update_ok_ (set_fb f3 s) H i ind (fun d => put32 d o b) Hl3) as (f4 & H4 & Hl4 & [C4 N4 L4]).
  { apply lookup_singleton_eq. }
  { rewrite Eind. apply put32_ok, (law_block _ ∅ _ (fo_layer _ _ Hf)). rewrite (fo_size _ _ Hf). lia. }
  { simpl. rewrite (al_log _ _ _ Ha). pose proof (size_add b ({[BBLOCK b (sb s)]} ∪ ({[ind]} ∪ in_log (fb s)))).
    pose proof (size_add (BBLOCK b (sb s)) ({[ind]} ∪ in_log (fb s))).
    replace ({[ind]} ∪ ({[b]} ∪ ({[BBLOCK b (sb s)]} ∪ in_log (fb s)))) with ({[b]} ∪ ({[BBLOCK b (sb s)]} ∪ ({[ind]} ∪ in_log (fb s)))) by set_solver.
    lia. }
  destruct (brelse_ok_ (set_fb f4 (set_fb f3 s)) H i ind Hl4) as (f5 & H5 & Hl5 & [C5 N5 L5]); [apply lookup_singleton_eq|].
  unfold H in Hl5. rewrite delete_singleton_eq in Hl5. exists b, f5. split; [|split; [done|]].
  - unfold entry_alloc. rewrite (fk_dev _ _ Hx), (bind_ok _ _ _ _ _ H1), (bind_ok _ _ _ _ _ H2).
    cbv zeta. rewrite <- ind_blk, Hz. simpl. rewrite (bind_ok _ _ _ _ _ H3). change (set_fb f3 (set_fb f1 s)) with (set_fb f3 s).
    rewrite (bind_ok _ _ _ _ _ H4), (bind_ok _ _ _ _ _ H5). unfold ret. f_equal. unfold set_fb, ist. simpl. by rewrite list_insert_id.
  - split; [done|]. split; [done|]. simpl in *. split; [split|by rewrite L5, L4, (al_log _ _ _ Ha)].
    + intros b'. rewrite C5, C4, Eind. case_decide; [done|]. apply (al_contents _ _ _ Ha).
    + rewrite N5, N4. apply (al_nblocks _ _ _ Ha).
Qed.

Lemma entry_alloc_post : exists a f, entry_alloc s = Ok a (ist s f ip x) /\ bmap_post s ip x bn a f x /\
  (size (in_log f) <= size ({[ind]} ∪ in_log (fb s)) + 2)%nat /\ (nfree s <= nfree (ist s f ip x) + 1)%nat.
Proof.
  assert (Hm : 0 <= bn < MAXFILE) by (unfold NDIRECT in *; lia).
  pose proof (size_add ind (in_log (fb s))) as Hs1.
  pose proof (subseteq_size (in_log (fb s)) ({[ind]} ∪ in_log (fb s)) ltac:(set_solver)) as Hs2.
  destruct (decide (file_blk s x bn = 0)) as [Hz|Hz].
  - destruct (entry_alloc_new Hz) as (b & f & Hr & Hl & Hd & Hu & He & Hlog).
    pose proof (data_in_disk _ _ _ Hf Hd) as Hbr. pose proof (BBLOCK_range _ b (fo_sb _ _ Hf) ltac:(lia)) as [Hbb _].
    pose proof (entry_ind s x b Hx Hi Hu) as [Hin Hne].
    assert (Hsize : (size (in_log f) <= size ({[ind]} ∪ in_log (fb s)) + 2)%nat).
    { rewrite Hlog. pose proof (size_add b ({[BBLOCK b (sb s)]} ∪ ({[ind]} ∪ in_log (fb s)))).
      pose proof (size_add (BBLOCK b (sb s)) ({[ind]} ∪ in_log (fb s))).
      replace ({[ind]} ∪ ({[b]} ∪ ({[BBLOCK b (sb s)]} ∪ in_log (fb s)))) with ({[b]} ∪ ({[BBLOCK b (sb s)]} ∪ ({[ind]} ∪ in_log (fb s)))) by set_solver.
      lia. }
    assert (Hfr : nfree s = S (nfree (ist s f ip x))).
    { apply (nfree_alloc_gen s (ist s f ip x) b); [done|lia|done|]. intros b' Hb'. by apply (entry_used s ∅ ip x f bn b). }
    exists b, f. split; [done|]. split; [split|lia].
    + by apply (entry_fs_ok s ∅ ip x f bn b).
    + by apply (entry_file_ok s ∅ ip x f bn b).
    + by destruct x.
    + rewrite (entry_blk s ∅ ip x f bn b) by done. rewrite decide_True by done. split; [done|lia].
    + intros bn' Hbn' Hne'. rewrite (entry_blk s ∅ ip x f bn b) by done. by rewrite decide_False.
    + done.
    + intros _. unfold blk. simpl. rewrite (el_contents _ _ _ _ _ He), decide_False, decide_True by done. split; [done|].
      intros [_ Hu']. congruence.
    + by apply (entry_keeps s ∅ ip x f bn b).
    + by left.
    + intros b' Hb'. rewrite Hlog, !elem_of_union, !elem_of_singleton in Hb'. unfold is_map. destruct Hb' as [->|[->|[->|Hb']]]; auto.
    + lia.
    + lia.
  - destruct (entry_alloc_old Hz) as (f & Hr & Hl & [C N L]).
    assert (Hb : forall b, blk (ist s f ip x) b = blk s b) by (intros b; apply C).
    assert (Hfree' : nfree (ist s f ip x) = nfree s).
    { unfold nfree. f_equal. apply filter_same. intros b' _. by rewrite (used_blk s (ist s f ip x)). }
    exists (file_blk s x bn), f. split; [done|]. split; [split|rewrite L, Hfree'; lia]; try done.
    + apply fs_ok_ist. by eapply fs_ok_same.
    + by apply (file_ok_same s x).
    + by destruct x.
    + split; [|done]. by apply file_blk_same.
    + intros bn' _ _. by apply file_blk_same.
    + split; simpl; try done; [|by rewrite length_insert]. intros b' _ Hu. by rewrite (used_blk s (ist s f ip x)).
    + by left.
    + intros b'. rewrite L. by left.
    + rewrite L. lia.
    + lia.
Qed.
End indirect.

(** Keeping through two steps whose indirect blocks differ. *)
Lemma keeps_trans_fresh ind a s1 s2 s3 H : fs_ok s1 H -> keeps ind s1 s2 -> keeps a s2 s3 -> ~ in_use s1 a -> keeps ind s1 s3.
Proof.
  intros Hf [A1 A2 A3 A4 A5] [B1 B2 B3 B4 B5] Hn. split; [congruence| | | |congruence].
  - intros b Hb Hu. apply B2; [by rewrite A1|by apply A2].
  - intros b Hin Hne. assert (b <> a) by (by intros ->). destruct Hin as [Hd Hu].
    rewrite B3; [by apply A3|split; [by rewrite A1|]|done].
    apply A2; [|done]. pose proof (data_in_disk _ _ _ Hf Hd). lia.
  - intros b Hb. rewrite B4 by (by rewrite A1). by apply A4.
Qed.

Lemma bmap_indirect_run s ip x bn : inodes s !! ip = Some x -> NDIRECT <= bn < MAXFILE ->
  bmap ip bn s = (addr <- addr_alloc ip x NDIRECT ;;
    bp <- bread_ (i_dev x) addr ;;
    d <- bdata bp ;;
    let addr := get32 d (4 * (bn - NDIRECT)) in
    if addr =? 0 then
      addr <- balloc (i_dev x) ;;
      log_update bp (fun d => put32 d (4 * (bn - NDIRECT)) addr) ;;
      brelse_ bp ;;
      ret addr
    else brelse_ bp ;; ret addr) s.
Proof.
  intros Hip Hbn. unfold bmap. rewrite (bind_ok _ _ _ _ _ (geti_ok s ip x id Hip)). simpl.
  destruct (Z.ltb_spec bn NDIRECT); [lia|].
  destruct (Z.ltb_spec (bn - NDIRECT) NINDIRECT); [done|]. unfold MAXFILE in Hbn. lia.
Qed.

Lemma bmap_ok s ip x bn : fs_ok s ∅ -> file_ok s x -> inodes s !! ip = Some x -> 0 <= bn < MAXFILE ->
  (size (in_log (fb s)) + 4 <= log_cap)%nat -> (2 <= nfree s)%nat ->
  exists a f x', bmap ip bn s = Ok a (ist s f ip x') /\ bmap_post s ip x bn a f x'.
Proof.
  intros Hf Hx Hip Hbn Hcap Hfree. destruct (decide (bn < NDIRECT)) as [Hd|Hd]; [apply bmap_direct; (done || lia)|].
  assert (Hbn' : NDIRECT <= bn < MAXFILE) by lia. rewrite (bmap_indirect_run s ip x) by done.
  destruct (addr_alloc_ok s ip x Hf Hx Hip Hcap Hfree NDIRECT) as [[Hi Hr]|(Hi & a1 & f1 & Hr & Hd1 & Hu1 & Hl1 & Ha1)];
    [unfold NDIRECT; lia| |].
  - pose proof (size_add (addr_of x NDIRECT) (in_log (fb s))).
    destruct (entry_alloc_post s ip x bn Hf Hx Hip Hbn' Hi) as (a & f & Hr2 & Hp & _); [lia|lia|].
    exists a, f, x. rewrite (bind_ok _ _ _ _ _ Hr). done.
  - set (x1 := set_addr NDIRECT a1 x) in *. set (s1 := ist s f1 ip x1) in *.
    pose proof (data_in_disk _ _ _ Hf Hd1) as Hbr1.
    assert (Hnd : 0 <= NDIRECT <= NDIRECT) by (unfold NDIRECT; lia).
    assert (Hf1 : fs_ok s1 ∅) by (by apply fs_ok_ist, (fs_ok_alloc s ∅ f1 a1)).
    assert (Hx1 : file_ok s1 x1) by (by apply (fresh_file_ok s ∅ ip x x f1 NDIRECT a1)).
    assert (Hip1 : inodes s1 !! ip = Some x1) by (by eapply ist_lookup).
    assert (Hb1 : forall bn', 0 <= bn' < MAXFILE -> file_blk s1 x1 bn' = file_blk s x bn').
    { intros bn' Hb. unfold s1, x1. rewrite (fresh_blk s ∅ ip x x f1 NDIRECT a1) by done. by rewrite decide_False by tauto. }
    assert (Hi1 : addr_of x1 NDIRECT = a1).
    { unfold x1. rewrite (fresh_ind s x NDIRECT a1 Hx Hnd). by rewrite decide_True. }
    assert (Hlog1 : a1 ∈ in_log f1 /\ (size (in_log f1) <= size (in_log (fb s)) + 2)%nat).
    { split; [rewrite (al_log _ _ _ Ha1); set_solver|by apply (alloc_log_size s f1 a1)]. }
    assert (Hfr1 : nfree s = S (nfree s1)) by (by apply (nfree_alloc s ∅ f1 a1)).
    assert (Hun : {[a1]} ∪ in_log (fb s1) = in_log f1) by (simpl; set_solver).
    destruct (entry_alloc_post s1 ip x1 bn Hf1 Hx1 Hip1 Hbn') as (a & f & Hr2 & Hp & Hsz & Hfr);
      [rewrite Hi1; lia|rewrite Hi1, Hun; lia|lia|]. rewrite Hi1, Hun in Hsz.
    assert (Hz : file_blk s x bn = 0).
    { unfold file_blk. destruct (Z.ltb_spec bn NDIRECT); [lia|]. by rewrite Hi. }
    destruct Hp as [P1 P2 P3 P4 P5 P6 P7 P8 _ P9 P10 P11]. unfold s1 in *. rewrite ist_ist in *.
    assert (Hnew : ~ in_use s a1) by (intros [_ Hu']; congruence).
    exists a, f, x1. split; [|split; try done].
    + rewrite (bind_ok _ _ _ _ _ Hr). unfold entry_alloc in Hr2. rewrite Hi1 in Hr2. exact Hr2.
    + intros bn' Hb Hne. rewrite P5 by done. by apply Hb1.
    + intros _. destruct P7 as [P7 P7']; [rewrite Hb1 by done; done|]. split; [done|].
      intros Hin. apply P7'. by apply (fresh_in_use s ∅ ip x x f1 NDIRECT a1).
    + rewrite Hi1 in P8. apply (keeps_trans_fresh _ a1 s (ist s f1 ip x1) _ ∅); try done. by apply (keeps_alloc s ∅ f1 a1 ip _ x).
    + right. by rewrite Hi1.
    + intros b Hb. destruct (P9 b Hb) as [Hb'|[Hb'|Hb']]; [|by right; left|by right; right].
      destruct (alloc_log_in s ∅ f1 a1 b Hf Hd1 Ha1 Hb') as [?|[?|?]]; [by left|by right; left|right; right; left; split; [congruence|lia]].
    + lia.
    + lia.
Qed.

(* ------------------------------------------------------------------ *)
(** * Reading *)

(** A file without holes: every block below its size is there. *)
Record full_file (s : fsst B) (x : inode) : Prop := {
  ff_ok : file_ok s x;
  ff_size : 0 <= i_size x <= MAXFILE * BSIZE;
  ff_full : forall bn, 0 <= bn -> bn * BSIZE < i_size x -> file_blk s x bn <> 0;
}.

Lemma bmap_hit s ip x bn : fs_ok s ∅ -> file_ok s x -> inodes s !! ip = Some x -> 0 <= bn < MAXFILE -> file_blk s x bn <> 0 ->
  exists f, bmap ip bn s = Ok (file_blk s x bn) (set_fb f s) /\ layer_ok f ∅ /\ same_layer (fb s) f.
Proof.
  intros Hf Hx Hip Hbn Hz. destruct (decide (bn < NDIRECT)) as [Hd|Hd].
  - exists (fb s). assert (Hb : file_blk s x bn = addr_of x bn) by (unfold file_blk; destruct (Z.ltb_spec bn NDIRECT); [done|lia]).
    split; [|split; [apply Hf|done]]. unfold bmap. rewrite (bind_ok _ _ _ _ _ (geti_ok s ip x id Hip)). simpl.
    destruct (Z.ltb_spec bn NDIRECT); [|lia]. rewrite Hb in *. destruct (Z.eqb_spec (addr_of x bn) 0); [done|]. by destruct s.
  - assert (Hbn' : NDIRECT <= bn < MAXFILE) by lia.
    assert (Hi : addr_of x NDIRECT <> 0).
    { intros E. apply Hz. unfold file_blk. destruct (Z.ltb_spec bn NDIRECT); [lia|]. by rewrite E. }
    rewrite (bmap_indirect_run s ip x) by done.
    destruct (entry_alloc_old s ip x bn Hf Hx Hip Hbn' Hi Hz) as (f & Hr & Hl & Hs). exists f. split; [|done].
    assert (Ha : addr_alloc ip x NDIRECT s = Ok (addr_of x NDIRECT) s) by (unfold addr_alloc; by destruct (Z.eqb_spec (addr_of x NDIRECT) 0)).
    rewrite (bind_ok _ _ _ _ _ Ha). etrans; [exact Hr|]. f_equal. unfold ist, set_fb. by rewrite list_insert_id.
Qed.

Lemma same_blk s f : same_layer (fb s) f -> forall b, blk (set_fb f s) b = blk s b.
Proof. intros Hs b. apply (sl_contents _ _ Hs). Qed.

Lemma file_ok_set_fb s f x : file_ok s x -> same_layer (fb s) f -> file_ok (set_fb f s) x.
Proof. intros Hx Hs. apply (file_ok_same s x); try done. by apply same_blk. Qed.

Lemma file_blk_set_fb s f x bn : same_layer (fb s) f -> file_blk (set_fb f s) x bn = file_blk s x bn.
Proof. intros Hs. apply file_blk_same; [done|]. intros _. by apply same_blk. Qed.

Lemma file_byte_set_fb s f x o : same_layer (fb s) f -> file_byte (set_fb f s) x o = file_byte s x o.
Proof. intros Hs. unfold file_byte. by rewrite file_blk_set_fb, same_blk. Qed.

(** The bytes of one turn of the loops lie in one block. *)
Lemma chunk_bytes s x off m k : 0 <= off -> m <= BSIZE - off mod BSIZE -> 0 <= k < m -> file_blk s x (off / BSIZE) <> 0 ->
  file_byte s x (off + k) = get8 (blk s (file_blk s x (off / BSIZE))) (off mod BSIZE + k).
Proof.
  intros Ho Hm Hk Hz. unfold file_byte. change BSIZE with 512 in *.
  assert (E : (off + k) / 512 = off / 512 /\ (off + k) mod 512 = off mod 512 + k) by (split; zsolve).
  destruct E as [-> ->]. by destruct (Z.eqb_spec (file_blk s x (off / 512)) 0).
Qed.

Lemma file_chunk s x off m : 0 <= off -> 0 <= m <= BSIZE - off mod BSIZE -> file_blk s x (off / BSIZE) <> 0 ->
  length (blk s (file_blk s x (off / BSIZE))) = 512%nat ->
  slice (blk s (file_blk s x (off / BSIZE))) (off mod BSIZE) m = file_byte s x <$> range off (Z.to_nat m).
Proof.
  intros Ho Hm Hz Hl. assert (Hmod : 0 <= off mod BSIZE < BSIZE) by (apply Z.mod_pos_bound; done).
  rewrite slice_range by (change BSIZE with 512 in *; lia). apply list_eq. intros i. rewrite !list_lookup_fmap.
  destruct (decide (i < Z.to_nat m)%nat) as [Hi|Hi].
  - rewrite !range_lookup by done. simpl. f_equal. symmetry. apply (chunk_bytes s x off m); (done || lia).
  - by rewrite !lookup_ge_None_2 by (rewrite range_length; lia).
Qed.

Lemma readi_loop_ok ip x fuel : forall s off n, fs_ok s ∅ -> full_file s x -> inodes s !! ip = Some x ->
  0 <= off -> off + n <= i_size x -> 0 <= n <= Z.of_nat fuel ->
  exists f, readi_loop fuel ip off n s = Ok (file_byte s x <$> range off (Z.to_nat n)) (set_fb f s) /\
    layer_ok f ∅ /\ same_layer (fb s) f.
Proof.
  induction fuel as [|fuel IH]; intros s off n Hf Hx Hip Ho Hend Hn.
  { exists (fb s). assert (n = 0) as -> by lia. split; [by destruct s|]. split; [apply Hf|done]. }
  simpl. destruct (Z.ltb_spec 0 n) as [Hpos|Hz].
  2:{ exists (fb s). assert (n = 0) as -> by lia. split; [by destruct s|]. split; [apply Hf|done]. }
  pose proof (ff_size _ _ Hx) as Hsz. pose proof (fk_dev _ _ (ff_ok _ _ Hx)) as Hdev.
  set (m := Z.min n (BSIZE - off mod BSIZE)).
  assert (Hmod : 0 <= off mod BSIZE < BSIZE) by (apply Z.mod_pos_bound; done).
  assert (Hm : 0 < m <= n /\ m <= BSIZE - off mod BSIZE) by lia.
  assert (Hbn : 0 <= off / BSIZE < MAXFILE /\ off / BSIZE * BSIZE < i_size x).
  { change BSIZE with 512 in *. split; [|zsolve]. zsolve. }
  pose proof (ff_full _ _ Hx (off / BSIZE) ltac:(lia) ltac:(lia)) as Hz.
  destruct (bmap_hit s ip x (off / BSIZE) Hf (ff_ok _ _ Hx) Hip ltac:(lia) Hz) as (f1 & H1 & Hl1 & Hs1).
  pose proof (fk_blk _ _ (ff_ok _ _ Hx) (off / BSIZE) ltac:(lia) Hz) as [Hd _]. pose proof (data_in_disk _ _ _ Hf Hd) as Hr.
  destruct (read_block (set_fb f1 s) ∅ (file_blk s x (off / BSIZE))) as (i & f2 & f3 & H2 & _ & _ & _ & H3 & H4 & Hl4 & Hs4);
    [done|simpl; rewrite (sl_nblocks _ _ Hs1), (fo_size _ _ Hf); lia|by intros j; rewrite lookup_empty|apply (held_ok_empty s)|].
  change (set_fb f2 (set_fb f1 s)) with (set_fb f2 s) in *. change (set_fb f3 (set_fb f1 s)) with (set_fb f3 s) in *.
  assert (Hs : same_layer (fb s) f3) by (by etrans). rewrite same_blk in H3 by done.
  assert (Hbok : block_ok (blk s (file_blk s x (off / BSIZE)))).
  { apply (law_block _ ∅ _ (fo_layer _ _ Hf)). rewrite (fo_size _ _ Hf). lia. }
  destruct (IH (set_fb f3 s) (off + m) (n - m)) as (f & Hr' & Hl & Hs'); try lia; [by eapply fs_ok_same| |done|].
  { destruct Hx as [X1 X2 X3]. split; [by apply file_ok_set_fb|done|]. intros bn' Hb Hb'. rewrite file_blk_set_fb by done. by apply X3. }
  exists f. split; [|split; [done|by etrans]].
  rewrite (bind_ok _ _ _ _ _ (geti_ok s ip x i_dev Hip)), Hdev, (bind_ok _ _ _ _ _ H1), (bind_ok _ _ _ _ _ H2). cbv zeta.
  rewrite (bind_ok _ _ _ _ _ H3), (bind_ok _ _ _ _ _ H4). fold m. rewrite (bind_ok _ _ _ _ _ Hr').
  unfold ret. f_equal. rewrite file_chunk by (apply Hbok || done || lia).
  replace (Z.to_nat n) with (Z.to_nat m + Z.to_nat (n - m))%nat by lia. rewrite range_app, fmap_app. f_equal.
  rewrite Z2Nat.id by lia. apply list_fmap_ext. intros k v _. by apply file_byte_set_fb.
Qed.
End file.
