(* ===== verification/FsWrite.v ===== *)
(** Writing files: [writei] of src/fs.c changes exactly the bytes it is given
    to write, and what it adds to the transaction is bounded; reading them
    back.  [iupdate] and [ilock] as a round trip through the disk inode. *)

From S2P Require Import Prelude StringC Spinlock Sleeplock Block Bio Log Layer Fs FsBlocks FsFile.

Section write.
Context {B : Type} {OB : BlockOps B} {LB : BlockLayer B}.
Implicit Types (s : fsst B) (x : inode).

(** Every block in use that is not of the file [x] keeps its contents. *)
Record keeps_file (x : inode) (s s' : fsst B) : Prop := {
  kf_sb : sb s' = sb s;
  kf_used : forall b, 0 <= b < sb_size (sb s) -> used s b = true -> used s' b = true;
  kf_blk : forall b, in_use s b -> b <> addr_of x NDIRECT ->
    (forall bn, 0 <= bn < MAXFILE -> file_blk s x bn <> b) -> blk s' b = blk s b;
  kf_low : forall b, b < sb_bmapstart (sb s) -> blk s' b = blk s b;
}.

Lemma keeps_file_of x s s' : keeps (addr_of x NDIRECT) s s' -> keeps_file x s s'.
Proof. intros [K1 K2 K3 K4 K5]. split; try done. intros b Hb Hne _. by apply K3. Qed.

(** The blocks of the file that overlap the bytes [off .. off+len). *)
Definition overlaps (off len bn : Z) : Prop := 0 <= bn < MAXFILE /\ 0 < len /\ off < (bn + 1) * BSIZE /\ bn * BSIZE < off + len.

(** The effect of writing [src] at [off], in [k] turns of the loop. *)
Record wpost (k : nat) (s : fsst B) (ip : nat) (x : inode) (off : Z) (src : list Z) (f : B) (x' : inode) : Prop := {
  wp_fs : fs_ok (ist s f ip x') ∅;
  wp_file : file_ok (ist s f ip x') x';
  wp_meta : x' = set_i_addrs (i_addrs x') x;
  wp_byte : forall o, 0 <= o < MAXFILE * BSIZE -> file_byte (ist s f ip x') x' o =
    if (off <=? o) && (o <? off + Z.of_nat (length src)) then nth (Z.to_nat (o - off)) src 0 else file_byte s x o;
  wp_old : forall bn, 0 <= bn < MAXFILE -> file_blk s x bn <> 0 -> file_blk (ist s f ip x') x' bn = file_blk s x bn;
  wp_same : (forall bn, overlaps off (Z.of_nat (length src)) bn -> file_blk s x bn <> 0) -> x' = x;
  wp_new : forall bn, 0 <= bn < MAXFILE -> file_blk s x bn = 0 -> ~ in_use s (file_blk (ist s f ip x') x' bn);
  wp_here : forall bn, overlaps off (Z.of_nat (length src)) bn -> file_blk (ist s f ip x') x' bn <> 0;
  wp_ind : addr_of x' NDIRECT = addr_of x NDIRECT \/ (addr_of x NDIRECT = 0 /\ ~ in_use s (addr_of x' NDIRECT));
  wp_keeps : keeps_file x s (ist s f ip x');
  wp_log : forall b, b ∈ in_log f -> b ∈ in_log (fb s) \/ is_map s b \/ (b = addr_of x' NDIRECT /\ b <> 0) \/
    exists bn, overlaps off (Z.of_nat (length src)) bn /\ b = file_blk (ist s f ip x') x' bn;
  wp_size : (size (in_log f) <= size (in_log (fb s)) + 5 * k)%nat;
  wp_free : (nfree s <= nfree (ist s f ip x') + 2 * k)%nat;
}.

Lemma not_used_0 s H : fs_ok s H -> ~ in_use s 0.
Proof. intros Hf [Hd _]. pose proof (data_in_disk _ _ _ Hf Hd). lia. Qed.

Lemma keeps_file_trans x x' s1 s2 s3 H : fs_ok s1 H -> keeps_file x s1 s2 -> keeps_file x' s2 s3 ->
  (addr_of x' NDIRECT = addr_of x NDIRECT \/ ~ in_use s1 (addr_of x' NDIRECT)) ->
  (forall bn, 0 <= bn < MAXFILE -> file_blk s2 x' bn = file_blk s1 x bn \/ ~ in_use s1 (file_blk s2 x' bn)) ->
  keeps_file x s1 s3.
Proof.
  intros Hf [A1 A2 A3 A4] [B1 B2 B3 B4] Hi Hb. split; [congruence| | |].
  - intros b Hr Hu. apply B2; [by rewrite A1|by apply A2].
  - intros b Hin Hne Hno. pose proof Hin as [Hd Hu]. rewrite B3; [by apply A3| | |].
    + split; [by rewrite A1|]. apply A2; [|done]. pose proof (data_in_disk _ _ _ Hf Hd). lia.
    + intros ->. by destruct Hi as [Hi|Hi]; [rewrite Hi in Hne|].
    + intros bn Hbn E. destruct (Hb bn Hbn) as [E'|E']; [apply (Hno bn Hbn); congruence|by rewrite E in E'].
  - intros b Hr. rewrite B4 by (by rewrite A1). by apply A4.
Qed.

(** Two writes, one after the other. *)
Lemma wpost_app k1 k2 s ip x off l1 l2 f1 x1 f2 x2 : inodes s !! ip = Some x -> fs_ok s ∅ -> 0 <= off ->
  wpost k1 s ip x off l1 f1 x1 ->
  wpost k2 (ist s f1 ip x1) ip x1 (off + Z.of_nat (length l1)) l2 f2 x2 ->
  wpost (k1 + k2) s ip x off (l1 ++ l2) f2 x2.
Proof.
  intros Hip Hf Hoff [A1 A2 A3 A4 A5 As A6 A7 A8 A9 A10 A11 A12] [B1 B2 B3 B4 B5 Bs B6 B7 B8 B9 B10 B11 B12].
  rewrite ist_ist in *. set (s1 := ist s f1 ip x1) in *. set (s2 := ist s f2 ip x2) in *.
  assert (Hmono : forall b, in_use s b -> in_use s1 b).
  { intros b [Hd Hu]. split; [done|]. apply (kf_used _ _ _ A9); [|done]. pose proof (data_in_disk _ _ _ Hf Hd). lia. }
  assert (Hov : forall bn, overlaps off (Z.of_nat (length (l1 ++ l2))) bn ->
    overlaps off (Z.of_nat (length l1)) bn \/ overlaps (off + Z.of_nat (length l1)) (Z.of_nat (length l2)) bn).
  { intros bn [H1 H2]. rewrite length_app in H2. unfold overlaps. change BSIZE with 512 in *. lia. }
  assert (Hov1 : forall bn, overlaps off (Z.of_nat (length l1)) bn -> overlaps off (Z.of_nat (length (l1 ++ l2))) bn)
    by (intros bn [H1 H2]; rewrite length_app; unfold overlaps; lia).
  assert (Hov2 : forall bn, overlaps (off + Z.of_nat (length l1)) (Z.of_nat (length l2)) bn -> overlaps off (Z.of_nat (length (l1 ++ l2))) bn)
    by (intros bn [H1 H2]; rewrite length_app; unfold overlaps; lia).
  split; try done.
  - rewrite B3 at 1. rewrite A3. done.
  - intros o Ho. rewrite B4, A4, length_app by done. clear - Hoff Ho.
    destruct (Z.leb_spec off o), (Z.ltb_spec o (off + Z.of_nat (length l1))), (Z.leb_spec (off + Z.of_nat (length l1)) o),
      (Z.ltb_spec o (off + Z.of_nat (length l1) + Z.of_nat (length l2))), (Z.ltb_spec o (off + Z.of_nat (length l1 + length l2)));
      simpl; try lia; try done.
    + rewrite app_nth1 by lia. done.
    + rewrite app_nth2 by lia. f_equal. lia.
  - intros bn Hbn Hz. rewrite B5; [by apply A5|done|]. by rewrite A5.
  - intros Hall. rewrite <- As by (intros bn Hbn; by apply Hall, Hov1). apply Bs. intros bn Hbn.
    rewrite A5; [by apply Hall, Hov2|apply Hbn|by apply Hall, Hov2].
  - intros bn Hbn Hz. destruct (decide (file_blk s1 x1 bn = 0)) as [E|E].
    + intros Hin. by apply (B6 bn Hbn E), Hmono.
    + rewrite B5 by done. by apply A6.
  - intros bn Hbn. destruct (Hov bn Hbn) as [Hb|Hb]; [|by apply B7]. rewrite B5; [by apply A7|apply Hbn|by apply A7].
  - destruct B8 as [->|[E1 E2]]; [done|]. right. split; [|intros Hin; by apply E2, Hmono].
    destruct A8 as [E|[E _]]; congruence.
  - apply (keeps_file_trans x x1 s s1 s2 ∅); try done.
    + destruct A8 as [->|[_ ?]]; auto.
    + intros bn Hbn. destruct (decide (file_blk s x bn = 0)) as [E|E]; [right; by apply A6|left; by apply A5].
  - intros b Hb. destruct (B10 b Hb) as [Hb1|[Hb1|[Hb1|(bn & Hbn & Hb1)]]].
    + destruct (A10 b Hb1) as [Hb2|[Hb2|[Hb2|(bn & Hbn & Hb2)]]]; [by left|by right; left| |].
      * destruct B8 as [E|[E _]]; [right; right; left; naive_solver congruence|]. destruct Hb2. congruence.
      * right. right. right. exists bn. split; [by apply Hov1|]. rewrite B5; [done|apply Hbn|by apply A7].
    + right. by left.
    + by right; right; left.
    + right. right. right. exists bn. split; [by apply Hov2|done].
  - simpl in B11. lia.
  - fold s2. lia.
Qed.

(** [s'] differs from [s] in the contents of block [a], which is not in the
    free map. *)
Record put_state (s s' : fsst B) (a : Z) (d : block) : Prop := {
  ps_sb : sb s' = sb s;
  ps_blk : forall b, blk s' b = if decide (b = a) then d else blk s b;
  ps_map : ~ is_map s a;
}.

Lemma put_state_ist s f ip x a d : ~ is_map s a -> put_layer (fb s) f a d -> put_state s (ist s f ip x) a d.
Proof. intros Ha Hput. split; [done| |done]. apply (pl_contents _ _ _ _ Hput). Qed.

Section put_block.
Context (s s' : fsst B) (H : gmap nat Z) (a : Z) (d : block).
Context (Hf : fs_ok s H) (Hp : put_state s s' a d).

Lemma put_used b : 0 <= b < sb_size (sb s) -> used s' b = used s b.
Proof.
  intros Hb. unfold used. rewrite (ps_sb _ _ _ _ Hp), (ps_blk _ _ _ _ Hp), decide_False; [done|].
  pose proof (BBLOCK_range _ b (fo_sb _ _ Hf) Hb) as [Hr _]. intros E. apply (ps_map _ _ _ _ Hp). rewrite <- E. exact Hr.
Qed.

Lemma put_in_use b : in_use s b <-> in_use s' b.
Proof.
  unfold in_use. rewrite (ps_sb _ _ _ _ Hp). split; intros [Hd Hu]; (split; [done|]); pose proof (data_in_disk _ _ _ Hf Hd);
    [rewrite put_used by lia; done|rewrite put_used in Hu by lia; done].
Qed.

Lemma put_nfree : nfree s' = nfree s.
Proof.
  unfold nfree. rewrite (ps_sb _ _ _ _ Hp). f_equal. apply filter_same. intros b Hb. apply elem_of_range in Hb.
  by rewrite put_used by lia.
Qed.

Lemma put_fs_ok H' : layer_ok (fb s') H' -> nblocks (fb s') = nblocks (fb s) -> ic_lock s' = ic_lock s -> fs_ok s' H'.
Proof.
  intros Hl Hn Hi. pose proof Hf as [F1 F2 F3 F4 F5]. pose proof (ps_sb _ _ _ _ Hp) as Hsb. split; rewrite ?Hsb; try congruence.
  intros b Hb. rewrite put_used; [by apply F4|]. destruct F2 as [? ? ? S4]. unfold data_start in Hb. lia.
Qed.

Section put_file.
Context (x : inode) (Hx : file_ok s x) (Hai : addr_of x NDIRECT <> 0 -> a <> addr_of x NDIRECT).

Lemma put_file_blk bn : file_blk s' x bn = file_blk s x bn.
Proof.
  apply file_blk_same; [done|]. intros Hz. rewrite (ps_blk _ _ _ _ Hp), decide_False; [done|]. intros E. by apply (Hai Hz).
Qed.

Lemma put_file_ok : file_ok s' x.
Proof.
  destruct Hx as [K1 K2 K3 K4 K5 K6]. split; try done.
  - intros Hz. by apply put_in_use, K3.
  - intros bn Hbn. rewrite put_file_blk. intros Hz. by apply put_in_use, K4.
  - intros bn bn' Hbn Hbn'. rewrite !put_file_blk. by apply K5.
  - intros bn Hbn. rewrite !put_file_blk. by apply K6.
Qed.

Lemma put_file_byte o : 0 <= o < MAXFILE * BSIZE -> a <> file_blk s x (o / BSIZE) -> file_byte s' x o = file_byte s x o.
Proof.
  intros Ho Hne. unfold file_byte. rewrite put_file_blk.
  destruct (Z.eqb_spec (file_blk s x (o / BSIZE)) 0) as [|Hz]; [done|]. f_equal.
  by rewrite (ps_blk _ _ _ _ Hp), decide_False.
Qed.
End put_file.
End put_block.

Lemma div_maxfile o : 0 <= o < MAXFILE * BSIZE -> 0 <= o / BSIZE < MAXFILE.
Proof. change BSIZE with 512. change MAXFILE with 140. zsolve. Qed.

Lemma set_i_addrs_idem x l : set_i_addrs (i_addrs (set_i_addrs l x)) x = set_i_addrs l x.
Proof. done. Qed.

(** One turn of the loop of [writei]. *)
Definition write_chunk (ip : nat) (src : list Z) (off m : Z) : M (fsst B) unit :=
  dev <- geti ip i_dev ;;
  b <- bmap ip (off / BSIZE) ;;
  bp <- bread_ dev b ;;
  log_update bp (fun d => splice d (off mod BSIZE) (take (Z.to_nat m) src)) ;;
  brelse_ bp.

Section chunk.
Context (s : fsst B) (ip : nat) (x : inode) (off : Z) (l : list Z).
Context (Hf : fs_ok s ∅) (Hx : file_ok s x) (Hip : inodes s !! ip = Some x) (Hoff : 0 <= off).
Context (Hl : 0 < Z.of_nat (length l) <= BSIZE - off mod BSIZE) (Hlb : bytes_in l).
Context (Hend : off + Z.of_nat (length l) <= MAXFILE * BSIZE).
Context (Hcap : (size (in_log (fb s)) + 5 <= log_cap)%nat) (Hfree : (2 <= nfree s)%nat).

Lemma chunk_mod : 0 <= off mod BSIZE < BSIZE /\ 0 <= off / BSIZE < MAXFILE.
Proof.
  clear Hcap Hfree. change BSIZE with 512 in *. change MAXFILE with 140 in *. split; [apply Z.mod_pos_bound; lia|]. zsolve.
Qed.

(** The offsets of the chunk, by block. *)
Lemma chunk_offset o : 0 <= o -> o / BSIZE = off / BSIZE ->
  ((off <=? o) && (o <? off + Z.of_nat (length l))) =
  ((off mod BSIZE <=? o mod BSIZE) && (o mod BSIZE <? off mod BSIZE + Z.of_nat (length l))) /\
  o - off = o mod BSIZE - off mod BSIZE.
Proof.
  clear - Hoff. intros Ho E. change BSIZE with 512 in *.
  assert (Hd : o - off = o mod 512 - off mod 512) by zsolve. split; [|done].
  destruct (Z.leb_spec off o), (Z.leb_spec (off mod 512) (o mod 512)), (Z.ltb_spec o (off + Z.of_nat (length l))),
    (Z.ltb_spec (o mod 512) (off mod 512 + Z.of_nat (length l))); simpl; try done; lia.
Qed.

Lemma chunk_outside o : 0 <= o -> o / BSIZE <> off / BSIZE -> (off <=? o) && (o <? off + Z.of_nat (length l)) = false.
Proof.
  clear - Hoff Hl. intros Ho E. change BSIZE with 512 in *.
  destruct (Z.leb_spec off o), (Z.ltb_spec o (off + Z.of_nat (length l))); simpl; try done. exfalso. apply E. zsolve.
Qed.

Lemma chunk_overlap bn : overlaps off (Z.of_nat (length l)) bn <-> bn = off / BSIZE.
Proof.
  clear Hcap Hfree. unfold overlaps. change BSIZE with 512 in *. change MAXFILE with 140 in *. split; [zsolve|intros ->; zsolve].
Qed.

Section effect.
Context (a : Z) (f1 f2 : B) (x1 : inode) (Hp : bmap_post s ip x (off / BSIZE) a f1 x1).
Local Notation s1 := (ist s f1 ip x1).
Local Notation s2 := (ist s f2 ip x1).
Context (Hps : put_state s1 s2 a (splice (blk s1 a) (off mod BSIZE) l)).

Lemma chunk_here : in_use s1 a /\ (addr_of x1 NDIRECT <> 0 -> a <> addr_of x1 NDIRECT) /\ length (blk s1 a) = 512%nat.
Proof.
  clear Hcap Hfree Hps. destruct chunk_mod as [_ Hbn]. destruct Hp as [P1 P2 _ [P4 P4z] _ _ _ _ _ _ _ _].
  assert (Hau : in_use s1 a) by (rewrite <- P4; apply (fk_blk _ _ P2); [done|by rewrite P4]).
  split; [done|]. split; [intros _; rewrite <- P4; apply (fk_sep _ _ P2); [done|by rewrite P4]|].
  pose proof (data_in_disk _ _ _ P1 (proj1 Hau)). apply (law_block _ ∅ _ (fo_layer _ _ P1)). rewrite (fo_size _ _ P1). lia.
Qed.

Lemma chunk_blk bn : file_blk s2 x1 bn = file_blk s1 x1 bn.
Proof. clear Hcap Hfree. apply (put_file_blk s1 s2 a _ Hps), chunk_here. Qed.

Lemma chunk_byte o : 0 <= o < MAXFILE * BSIZE -> file_byte s2 x1 o =
  if (off <=? o) && (o <? off + Z.of_nat (length l)) then nth (Z.to_nat (o - off)) l 0 else file_byte s x o.
Proof.
  clear Hcap Hfree. intros Ho. pose proof (div_maxfile o Ho) as Hobn. destruct chunk_mod as [Hmod Hbn]. destruct chunk_here as (_ & _ & Hlen).
  assert (Hom : 0 <= o mod BSIZE < BSIZE) by (apply Z.mod_pos_bound; done).
  destruct Hp as [P1 P2 P3 [P4 P4z] P5 P6 P7 P8 _ _ _ _]. unfold file_byte. rewrite !chunk_blk.
  destruct (decide (o / BSIZE = off / BSIZE)) as [E|E].
  - destruct (chunk_offset o ltac:(lia) E) as [-> ->]. rewrite E, P4. destruct (Z.eqb_spec a 0); [done|].
    rewrite (ps_blk _ _ _ _ Hps), decide_True by done. rewrite get8_splice by (rewrite ?Hlen; change BSIZE with 512 in *; lia).
    destruct (_ && _); [done|]. destruct (Z.eqb_spec (file_blk s x (off / BSIZE)) 0) as [Hz|Hz].
    + destruct (P7 Hz) as [-> _]. apply get8_zero.
    + destruct (P6 Hz) as [Ea _]. rewrite <- Ea. f_equal. rewrite Ea. apply (kp_blk _ _ _ P8); [by apply (fk_blk _ _ Hx)|by apply (fk_sep _ _ Hx)].
  - rewrite chunk_outside by (done || lia). rewrite P5 by done. destruct (Z.eqb_spec (file_blk s x (o / BSIZE)) 0) as [|Hz]; [done|].
    rewrite (ps_blk _ _ _ _ Hps), decide_False.
    + f_equal. apply (kp_blk _ _ _ P8); [by apply (fk_blk _ _ Hx)|by apply (fk_sep _ _ Hx)].
    + rewrite <- P4, <- P5 by done. intros E'. apply E. apply (fk_inj _ _ P2); try done. by rewrite P5.
Qed.

Lemma chunk_keeps : keeps_file x s s2.
Proof.
  clear Hcap Hfree. destruct chunk_mod as [_ Hbn]. destruct chunk_here as ([Hd Hu] & _). destruct Hp as [P1 P2 _ _ _ P6 P7 P8 _ _ _ _].
  apply keeps_file_of in P8 as [K1 K2 K3 K4]. split.
  - done.
  - intros b Hb Hu'. rewrite (put_used s1 s2 ∅ a _ P1 Hps) by done. by apply K2.
  - intros b Hb Hne Hno. rewrite (ps_blk _ _ _ _ Hps), decide_False; [by apply K3|].
    intros ->. destruct (decide (file_blk s x (off / BSIZE) = 0)) as [Hz|Hz]; [by apply (P7 Hz)|].
    destruct (P6 Hz) as [Ea _]. by apply (Hno (off / BSIZE) Hbn).
  - intros b Hb. rewrite (ps_blk _ _ _ _ Hps), decide_False; [by apply K4|].
    pose proof (BBLOCK_range _ 0 (fo_sb _ _ Hf)). pose proof (so_size _ (fo_sb _ _ Hf)). unfold is_data in Hd. simpl in Hd. lia.
Qed.
End effect.

Lemma write_chunk_ok src m : take (Z.to_nat m) src = l ->
  exists f x', write_chunk ip src off m s = Ok tt (ist s f ip x') /\ wpost 1 s ip x off l f x'.
Proof.
  intros Htake. destruct chunk_mod as [Hmod Hbn].
  destruct (bmap_ok s ip x (off / BSIZE) Hf Hx Hip Hbn) as (a & f1 & x1 & H1 & Hp); [lia|lia|].
  destruct (chunk_here a f1 x1 Hp) as (Hau & Hai & Hlen). pose proof Hp as [P1 P2 P3 [P4 P4z] P5 P6 P7 P8 Pi P9 P10 P11].
  set (s1 := ist s f1 ip x1) in *. pose proof (data_in_disk _ _ _ P1 (proj1 Hau)) as Har. simpl in Har.
  assert (Ham : ~ is_map s1 a) by (destruct Hau as [Hd _]; unfold is_map, is_data in *; lia).
  destruct (update_block s1 ∅ a (fun d => splice d (off mod BSIZE) l) (fo_layer _ _ P1)) as (f2 & H2 & Hl2 & Hput).
  { rewrite (fo_size _ _ P1). simpl. lia. }
  { intros i. by rewrite lookup_empty. }
  { apply (held_ok_empty s). }
  { apply splice_ok; try done; try (change BSIZE with 512 in *; lia).
    apply (law_block _ ∅ _ (fo_layer _ _ P1)). rewrite (fo_size _ _ P1). simpl. lia. }
  { simpl. pose proof (size_add a (in_log f1)). lia. }
  assert (Hps : put_state s1 (ist s f2 ip x1) a (splice (blk s1 a) (off mod BSIZE) l)).
  { split; [done| |done]. apply (pl_contents _ _ _ _ Hput). }
  pose proof (chunk_blk a f1 f2 x1 Hp Hps) as Hblk. fold s1 in Hblk. exists f2, x1. split.
  { unfold write_chunk. rewrite (bind_ok _ _ _ _ _ (geti_ok s ip x i_dev Hip)), (fk_dev _ _ Hx), (bind_ok _ _ _ _ _ H1), Htake. exact H2. }
  split; try done.
  - apply (put_fs_ok s1 (ist s f2 ip x1) ∅ a _ P1 Hps); try done. apply (pl_nblocks _ _ _ _ Hput).
  - by apply (put_file_ok s1 (ist s f2 ip x1) ∅ a _ P1 Hps).
  - by apply (chunk_byte a f1 f2 x1 Hp Hps).
  - intros bn Hb Hz. rewrite Hblk. destruct (decide (bn = off / BSIZE)) as [->|Hne]; [|by apply P5]. rewrite P4. by apply P6.
  - intros Hall. apply P6, Hall. by apply chunk_overlap.
  - intros bn Hb Hz. rewrite Hblk. destruct (decide (bn = off / BSIZE)) as [->|Hne]; [rewrite P4; apply P7, Hz|].
    rewrite P5, Hz by done. by apply (not_used_0 s ∅).
  - intros bn ->%chunk_overlap. by rewrite Hblk, P4.
  - by apply (chunk_keeps a f1 f2 x1 Hp Hps).
  - intros b Hb. rewrite (pl_log _ _ _ _ Hput), elem_of_union, elem_of_singleton in Hb.
    assert (Hthis : exists bn, overlaps off (Z.of_nat (length l)) bn /\ a = file_blk (ist s f2 ip x1) x1 bn).
    { exists (off / BSIZE). split; [by apply chunk_overlap|]. by rewrite Hblk. }
    destruct Hb as [->|Hb]; [by right; right; right|]. destruct (P9 b Hb) as [?|[?|[?| -> ] ] ]; auto.
  - rewrite (pl_log _ _ _ _ Hput). pose proof (size_add a (in_log (fb s1))). simpl in *. lia.
  - rewrite (put_nfree s1 (ist s f2 ip x1) ∅ a _ P1 Hps). lia.
Qed.
End chunk.

(** The turns of the loop for [n] bytes at [off]. *)
Definition nchunks (off n : Z) : nat := if 0 <? n then Z.to_nat ((off mod BSIZE + n - 1) / BSIZE + 1) else 0.

Lemma nchunks_step off n : 0 <= off -> 0 < n -> let m := Z.min n (BSIZE - off mod BSIZE) in
  nchunks off n = S (nchunks (off + m) (n - m)).
Proof.
  intros Ho Hn m. unfold nchunks, m. change BSIZE with 512 in *. destruct (Z.ltb_spec 0 n); [|lia].
  destruct (Z.ltb_spec 0 (n - Z.min n (512 - off mod 512))) as [Hm|Hm].
  - assert (E : Z.min n (512 - off mod 512) = 512 - off mod 512) by lia. rewrite E.
    replace ((off + (512 - off mod 512)) mod 512) with 0 by zsolve. zsolve.
  - replace ((off mod 512 + n - 1) / 512) with 0; [done|]. zsolve.
Qed.

Lemma wpost_nil s ip x off : fs_ok s ∅ -> file_ok s x -> inodes s !! ip = Some x -> wpost 0 s ip x off [] (fb s) x.
Proof.
  intros Hf Hx Hip. split; rewrite ?ist_id by done; try done.
  - by destruct x.
  - intros o Ho. change (Z.of_nat (@length Z [])) with 0. destruct (Z.leb_spec off o), (Z.ltb_spec o (off + 0)); simpl; try done; lia.
  - intros bn Hbn ->. by apply (not_used_0 s ∅).
  - intros bn Hbn. unfold overlaps in Hbn. simpl in Hbn. lia.
  - by left.
  - intros b Hb. by left.
  - lia.
  - lia.
Qed.

Lemma writei_loop_step fuel ip src off n s : 0 < n ->
  writei_loop (S fuel) ip src off n s =
  (let m := Z.min n (BSIZE - off mod BSIZE) in
   write_chunk ip src off m ;; writei_loop fuel ip (drop (Z.to_nat m) src) (off + m) (n - m)) s.
Proof.
  intros Hn. cbv zeta. unfold write_chunk. simpl. destruct (Z.ltb_spec 0 n); [|lia].
  rewrite !bind_assoc. apply bind_ext. intros dev s1. rewrite !bind_assoc. apply bind_ext. intros b s2.
  rewrite !bind_assoc. apply bind_ext. intros bp s3. by rewrite !bind_assoc.
Qed.

Lemma writei_loop_ok ip fuel : forall s x off src, fs_ok s ∅ -> file_ok s x -> inodes s !! ip = Some x -> 0 <= off ->
  bytes_in src -> off + Z.of_nat (length src) <= MAXFILE * BSIZE -> (length src <= fuel)%nat ->
  (size (in_log (fb s)) + 5 * nchunks off (Z.of_nat (length src)) <= log_cap)%nat ->
  (2 * nchunks off (Z.of_nat (length src)) <= nfree s)%nat ->
  exists f x', writei_loop fuel ip src off (Z.of_nat (length src)) s = Ok (off + Z.of_nat (length src)) (ist s f ip x') /\
    wpost (nchunks off (Z.of_nat (length src))) s ip x off src f x'.
Proof.
  induction fuel as [|fuel IH]; intros s x off src Hf Hx Hip Hoff Hb Hend Hfuel Hcap Hfree.
  { destruct src; simpl in Hfuel; [|lia]. exists (fb s), x. rewrite ist_id by done. simpl. rewrite Z.add_0_r.
    split; [done|]. by apply wpost_nil. }
  set (n := Z.of_nat (length src)) in *. destruct (decide (n = 0)) as [Hn|Hn].
  { destruct src; simpl in n; [|lia]. exists (fb s), x. rewrite ist_id by done. simpl. rewrite Z.add_0_r.
    split; [done|]. by apply wpost_nil. }
  rewrite writei_loop_step by lia. cbv zeta. set (m := Z.min n (BSIZE - off mod BSIZE)).
  assert (Hmod : 0 <= off mod BSIZE < BSIZE) by (apply Z.mod_pos_bound; done).
  assert (Hm : 0 < m <= n /\ m <= BSIZE - off mod BSIZE) by lia.
  pose proof (nchunks_step off n Hoff ltac:(lia)) as Hk. cbv zeta in Hk. fold m in Hk. rewrite Hk in Hcap, Hfree |- *.
  set (l1 := take (Z.to_nat m) src). set (l2 := drop (Z.to_nat m) src).
  assert (Hl1 : Z.of_nat (length l1) = m) by (unfold l1; rewrite length_take; lia).
  assert (Hl2 : Z.of_nat (length l2) = n - m) by (unfold l2; rewrite length_drop; lia).
  destruct (write_chunk_ok s ip x off l1 Hf Hx Hip Hoff) with (src := src) (m := m) as (f1 & x1 & H1 & W1); try (done || lia).
  { by apply Forall_take. }
  pose proof (wp_size _ _ _ _ _ _ _ _ W1) as Hs1. pose proof (wp_free _ _ _ _ _ _ _ _ W1) as Hf1.
  destruct (IH (ist s f1 ip x1) x1 (off + m) l2) as (f2 & x2 & H2 & W2).
  { apply W1. } { apply W1. } { by eapply ist_lookup. } { lia. } { by apply Forall_drop. } { lia. } { unfold l2. rewrite length_drop. lia. }
  { simpl. rewrite Hl2. lia. } { rewrite Hl2. lia. }
  rewrite Hl2, ist_ist in H2. exists f2, x2. split.
  - rewrite (bind_ok _ _ _ _ _ H1). fold l2. rewrite H2. f_equal. lia.
  - rewrite <- (take_drop (Z.to_nat m) src). fold l1 l2. rewrite Hl2, <- Hl1 in W2.
    rewrite Hl1 in W2 at 2. apply (wpost_app 1 _ s ip x off l1 l2 f1 x1); try done. by rewrite Hl1 in W2 |- *.
Qed.
End write.
