(* ===== verification/FsInode.v ===== *)
(** Inodes: the on-disk record and its round trip, [iupdate] and [ilock], and
    the specifications of [readi] and [writei] as operations on a file. *)

From S2P Require Import Prelude StringC Spinlock Sleeplock Block Bio Log Layer Fs FsBlocks FsFile FsWrite.

(* ------------------------------------------------------------------ *)
(** * The on-disk inode *)

Definition short (z : Z) : Prop := -32768 <= z < 32768.

(** The fields of an inode fit the on-disk record. *)
Record dinode_ok (di : dinode) : Prop := {
  dk_type : short (d_type di);
  dk_major : short (d_major di);
  dk_minor : short (d_minor di);
  dk_nlink : short (d_nlink di);
  dk_size : 0 <= d_size di < 4294967296;
  dk_len : length (d_addrs di) = 13%nat;
  dk_addrs : Forall (fun a => 0 <= a < 4294967296) (d_addrs di);
}.

Lemma s16_u16 z : short z -> s16 (u16 z) = z.
Proof. unfold short. zsolve. Qed.

Section dinode_at.
Context (di : dinode) (o : Z) (d : block) (Hd : block_ok d) (Ho : 0 <= o /\ o + 64 <= 512).

Lemma put_dinode_ok : block_ok (put_dinode di o d).
Proof. unfold put_dinode. apply (fold_put32_ok (o + 12)). auto 10 with mem. Qed.

Lemma put_dinode_outside p : 0 <= p -> p < o \/ o + 64 <= p -> get8 (put_dinode di o d) p = get8 d p.
Proof.
  clear Hd. intros Hp Hout. unfold put_dinode. rewrite (fold_put32_outside (o + 12)).
  - rewrite get8_put32_ne by lia. unfold put16. get8_solve. done.
  - done.
  - apply Forall_forall. intros i Hi. apply elem_of_range in Hi. lia.
Qed.

(** The fields before the addresses. *)
Lemma put_dinode_head p : o <= p < o + 12 ->
  get8 (put_dinode di o d) p =
  get8 (put32 (put16 (put16 (put16 (put16 d o (d_type di)) (o + 2) (d_major di)) (o + 4) (d_minor di))
             (o + 6) (d_nlink di)) (o + 8) (d_size di)) p.
Proof.
  clear Hd. intros Hp. unfold put_dinode. apply (fold_put32_outside (o + 12)); [lia|].
  apply Forall_forall. intros i Hi. apply elem_of_range in Hi. lia.
Qed.

Lemma put_dinode_16 k v : (k = 0 /\ v = d_type di) \/ (k = 2 /\ v = d_major di) \/ (k = 4 /\ v = d_minor di) \/ (k = 6 /\ v = d_nlink di) ->
  get16 (put_dinode di o d) (o + k) = u16 v.
Proof.
  intros Hk. pose proof (bo_length _ Hd) as Hl. unfold get16. rewrite !put_dinode_head by lia.
  match goal with |- context [get8 ?w (o + k) + 256 * get8 ?w (o + k + 1)] => change (get8 w (o + k) + 256 * get8 w (o + k + 1)) with (get16 w (o + k)) end.
  rewrite get16_put32_ne by lia.
  destruct Hk as [[-> ->]|[[-> ->]|[[-> ->]|[-> ->]]]]; rewrite ?Z.add_0_r;
    repeat (rewrite get16_put16_ne by lia); rewrite get16_put16 by (rewrite ?put16_length; lia); done.
Qed.

Lemma put_dinode_size : get32 (put_dinode di o d) (o + 8) = u32 (d_size di).
Proof.
  pose proof (bo_length _ Hd) as Hl. unfold get32. rewrite !put_dinode_head by lia.
  match goal with |- get8 ?w _ + _ + _ + _ = _ => fold (get32 w (o + 8)) end.
  apply get32_put32; rewrite ?put16_length; lia.
Qed.

(** What is stored in the record is read back. *)
Lemma get_put_dinode : dinode_ok di -> get_dinode (put_dinode di o d) o = di.
Proof.
  intros [K1 K2 K3 K4 K5 K6 K7]. pose proof (bo_length _ Hd) as Hl. unfold get_dinode.
  pose proof (put_dinode_16 0 (d_type di) ltac:(auto)) as E0. rewrite Z.add_0_r in E0.
  rewrite E0, (put_dinode_16 2 (d_major di)), (put_dinode_16 4 (d_minor di)), (put_dinode_16 6 (d_nlink di)) by tauto.
  rewrite put_dinode_size, !s16_u16, u32_id by done.
  replace ((fun k => get32 (put_dinode di o d) (o + 12 + 4 * k)) <$> range 0 13) with (d_addrs di); [by destruct di|].
  apply list_eq. intros i. rewrite list_lookup_fmap. destruct (decide (i < 13)%nat) as [Hi|Hi].
  - rewrite range_lookup by done. cbn [fmap option_fmap option_map]. rewrite Z.add_0_l. unfold put_dinode.
    rewrite (fold_put32 (o + 12) 13); try lia.
    + rewrite decide_True by (apply elem_of_range; lia). rewrite Nat2Z.id.
      destruct (lookup_lt_is_Some_2 (d_addrs di) i) as [a Ha]; [lia|]. rewrite Ha, (nth_lookup_Some _ _ _ _ Ha).
      by rewrite u32_id by (apply (Forall_lookup_1 _ _ _ _ K7 Ha)).
    + rewrite put32_length, !put16_length. lia.
    + apply Forall_forall. intros k Hk. apply elem_of_range in Hk. lia.
  - rewrite !lookup_ge_None_2; [done|rewrite range_length; lia|lia].
Qed.

(** The other records of the block are as before. *)
Lemma get_put_dinode_ne o' : 0 <= o' -> o' + 64 <= o \/ o + 64 <= o' ->
  get_dinode (put_dinode di o d) o' = get_dinode d o'.
Proof.
  intros Ho' Hout. unfold get_dinode, get16, get32. rewrite !put_dinode_outside by lia. f_equal.
  apply list_fmap_ext. intros k i Hi. apply list_elem_of_lookup_2, elem_of_range in Hi.
  by rewrite !put_dinode_outside by lia.
Qed.
End dinode_at.

Lemma dinode_off_range inum : 0 <= dinode_off inum /\ dinode_off inum + 64 <= 512.
Proof. unfold dinode_off, IPB. zsolve. Qed.

Lemma IBLOCK_eq sb i : sb_ok sb -> 0 <= i < sb_ninodes sb -> IBLOCK i sb = sb_inodestart sb + i / IPB.
Proof.
  intros [S1 S2 S3 S4] Hi. unfold IBLOCK. rewrite u32_id; [lia|].
  assert (i / IPB <= (sb_ninodes sb - 1) / IPB) by (apply Z.div_le_mono; unfold IPB; lia).
  assert (0 <= i / IPB) by (apply Z.div_pos; unfold IPB; lia).
  assert (0 <= (sb_size sb - 1) / BPB) by (apply Z.div_pos; change BPB with 4096; lia). lia.
Qed.

Lemma IBLOCK_range sb i : sb_ok sb -> 0 <= i < sb_ninodes sb -> 1 < IBLOCK i sb < sb_bmapstart sb /\ IBLOCK i sb < sb_size sb.
Proof.
  intros Hok Hi. rewrite IBLOCK_eq by done. destruct Hok as [S1 S2 S3 S4].
  assert (i / IPB <= (sb_ninodes sb - 1) / IPB) by (apply Z.div_le_mono; unfold IPB; lia).
  assert (0 <= i / IPB) by (apply Z.div_pos; unfold IPB; lia).
  assert (0 <= (sb_size sb - 1) / BPB) by (apply Z.div_pos; change BPB with 4096; lia). lia.
Qed.

(** Different inodes have different blocks or different offsets. *)
Lemma dinode_place sb i j : sb_ok sb -> 0 <= i < sb_ninodes sb -> 0 <= j < sb_ninodes sb -> i <> j ->
  IBLOCK i sb <> IBLOCK j sb \/ dinode_off i + 64 <= dinode_off j \/ dinode_off j + 64 <= dinode_off i.
Proof.
  intros Hok Hi Hj Hne. rewrite !IBLOCK_eq by done. unfold dinode_off, IPB. zsolve.
Qed.

Section inodes.
Context {B : Type} {OB : BlockOps B} {LB : BlockLayer B}.
Implicit Types (s : fsst B) (x : inode).

Definition inode_on_disk (s : fsst B) (inum : Z) : dinode := get_dinode (blk s (IBLOCK inum (sb s))) (dinode_off inum).

(** A cached inode of the file system. *)
Record inode_ok (s : fsst B) (x : inode) : Prop := {
  io_dev : i_dev x = 1;
  io_inum : 0 <= i_inum x < sb_ninodes (sb s);
  io_fields : dinode_ok (dinode_of x);
}.

(** The copy on disk is current ("i-node cache is write-through"). *)
Definition synced (s : fsst B) (x : inode) : Prop := inode_on_disk s (i_inum x) = dinode_of x.

Lemma iblock_in_disk s H i : fs_ok s H -> 0 <= i < sb_ninodes (sb s) -> 0 <= IBLOCK i (sb s) < nblocks (fb s).
Proof. intros Hf Hi. rewrite (fo_size _ _ Hf). pose proof (IBLOCK_range _ i (fo_sb _ _ Hf) Hi). lia. Qed.

Lemma iupdate_ok s ip x : fs_ok s ∅ -> inodes s !! ip = Some x -> inode_ok s x ->
  (size ({[IBLOCK (i_inum x) (sb s)]} ∪ in_log (fb s)) <= log_cap)%nat ->
  exists f, iupdate ip s = Ok tt (set_fb f s) /\ layer_ok f ∅ /\
    put_layer (fb s) f (IBLOCK (i_inum x) (sb s))
      (put_dinode (dinode_of x) (dinode_off (i_inum x)) (blk s (IBLOCK (i_inum x) (sb s)))).
Proof.
  intros Hf Hip [X1 X2 X3] Hcap. pose proof (iblock_in_disk s ∅ _ Hf X2) as Hr.
  destruct (update_block s ∅ (IBLOCK (i_inum x) (sb s)) (put_dinode (dinode_of x) (dinode_off (i_inum x))) (fo_layer _ _ Hf) Hr)
    as (f & Hrun & Hl & Hput); try done.
  { apply (held_ok_empty s). }
  { apply put_dinode_ok. by apply (law_block _ ∅ _ (fo_layer _ _ Hf)). }
  exists f. split; [|done]. unfold iupdate. rewrite (bind_ok _ _ _ _ _ (geti_ok s ip x id Hip)).
  erewrite bind_ok by reflexivity. simpl. rewrite X1. exact Hrun.
Qed.

(** After [iupdate] the disk has this inode, and the other inodes as before. *)
Lemma iupdate_on_disk s H f x j : fs_ok s H -> inode_ok s x -> 0 <= j < sb_ninodes (sb s) ->
  put_layer (fb s) f (IBLOCK (i_inum x) (sb s))
    (put_dinode (dinode_of x) (dinode_off (i_inum x)) (blk s (IBLOCK (i_inum x) (sb s)))) ->
  inode_on_disk (set_fb f s) j = if decide (j = i_inum x) then dinode_of x else inode_on_disk s j.
Proof.
  intros Hf [X1 X2 X3] Hj Hput. unfold inode_on_disk, blk. simpl. rewrite (pl_contents _ _ _ _ Hput).
  assert (Hbok : block_ok (blk s (IBLOCK (i_inum x) (sb s)))).
  { apply (law_block _ H _ (fo_layer _ _ Hf)). by apply (iblock_in_disk s H). }
  destruct (decide (j = i_inum x)) as [->|Hne].
  - rewrite decide_True by done. apply get_put_dinode; [done|apply dinode_off_range|done].
  - destruct (dinode_place _ _ _ (fo_sb _ _ Hf) X2 Hj ltac:(done)) as [E|E].
    + by rewrite decide_False by done.
    + case_decide as E'; [|done]. rewrite E'. pose proof (dinode_off_range j). pose proof (dinode_off_range (i_inum x)).
      apply get_put_dinode_ne; try done; lia.
Qed.

Lemma sleep_acquire_ok s ip x : inodes s !! ip = Some x -> i_lock x = SFree ->
  sleep_acquire (i_lock_of ip) s = Ok tt (ist s (fb s) ip (set_i_lock SMine x)).
Proof.
  intros Hip Hl. unfold sleep_acquire, bind, gets, i_lock_of. simpl. unfold inode_at.
  rewrite (nth_lookup_Some _ _ _ _ Hip), Hl. unfold modify. simpl. by rewrite (alter_insert _ _ _ x).
Qed.

(** [ilock] of an inode that has been read. *)
Lemma ilock_valid s ip x : inodes s !! ip = Some x -> 1 <= i_ref x -> i_lock x = SFree -> i_valid x <> 0 ->
  ilock ip s = Ok tt (ist s (fb s) ip (set_i_lock SMine x)).
Proof.
  intros Hip Hr Hl Hv. unfold ilock. rewrite (bind_ok _ _ _ _ _ (geti_ok s ip x i_ref Hip)).
  destruct (Z.ltb_spec (i_ref x) 1); [lia|]. rewrite (bind_ok _ _ _ _ _ (sleep_acquire_ok s ip x Hip Hl)).
  erewrite bind_ok by (apply geti_ok; by eapply ist_lookup). simpl. by destruct (Z.eqb_spec (i_valid x) 0).
Qed.

(** [ilock] of an inode that has not: it is loaded from the disk. *)
Lemma ilock_load s ip x : fs_ok s ∅ -> inodes s !! ip = Some x -> 1 <= i_ref x -> i_lock x = SFree -> i_valid x = 0 ->
  i_dev x = 1 -> 0 <= i_inum x < sb_ninodes (sb s) -> d_type (inode_on_disk s (i_inum x)) <> 0 ->
  exists f, ilock ip s = Ok tt (ist s f ip (set_i_valid 1 (load_dinode (inode_on_disk s (i_inum x)) (set_i_lock SMine x)))) /\
    layer_ok f ∅ /\ same_layer (fb s) f.
Proof.
  intros Hf Hip Hr Hl Hv Hdev Hi Ht. set (x1 := set_i_lock SMine x). set (s1 := ist s (fb s) ip x1).
  assert (Hip1 : inodes s1 !! ip = Some x1) by (by eapply ist_lookup).
  destruct (read_block s1 ∅ (IBLOCK (i_inum x) (sb s))) as (i & f & f' & H1 & _ & _ & _ & H2 & H3 & Hl3 & Hs3);
    [apply Hf|by apply (iblock_in_disk s ∅)|by intros i; rewrite lookup_empty|apply (held_ok_empty s)|].
  exists f'. split; [|done]. unfold ilock. rewrite (bind_ok _ _ _ _ _ (geti_ok s ip x i_ref Hip)).
  destruct (Z.ltb_spec (i_ref x) 1); [lia|]. rewrite (bind_ok _ _ _ _ _ (sleep_acquire_ok s ip x Hip Hl)). fold x1 s1.
  rewrite (bind_ok _ _ _ _ _ (geti_ok s1 ip x1 i_valid Hip1)). change (i_valid x1) with (i_valid x). rewrite Hv. change (0 =? 0) with true. cbv iota.
  rewrite (bind_ok _ _ _ _ _ (geti_ok s1 ip x1 id Hip1)). erewrite bind_ok by reflexivity.
  change (i_dev (id x1)) with (i_dev x). change (i_inum (id x1)) with (i_inum x). change (sb s1) with (sb s). rewrite Hdev.
  rewrite (bind_ok _ _ _ _ _ H1), (bind_ok _ _ _ _ _ H2).
  change (get_dinode (blk s1 (IBLOCK (i_inum x) (sb s))) (dinode_off (i_inum x))) with (inode_on_disk s (i_inum x)).
  erewrite bind_ok by (apply (seti_ok (set_fb f s1) ip x1); exact Hip1). simpl.
  set (x2 := load_dinode _ x1). assert (Hrel : brelse_ i (ist (set_fb f s1) f ip x2) = Ok tt (ist s f' ip x2)).
  { pose proof H3 as H3'. unfold brelse_, zoom in H3' |- *. simpl in H3' |- *. destruct (bl_release i f); [|done..].
    injection H3' as -> ->. f_equal. unfold s1, ist, set_fb. simpl. by rewrite list_insert_insert_eq. }
  rewrite (bind_ok _ _ _ _ _ Hrel).
  erewrite bind_ok by (apply (seti_ok _ ip x2); by eapply ist_lookup). rewrite ist_ist.
  erewrite bind_ok by (apply geti_ok; by eapply ist_lookup).
  change (i_type (set_i_valid 1 x2)) with (d_type (inode_on_disk s (i_inum x))).
  by destruct (Z.eqb_spec (d_type (inode_on_disk s (i_inum x))) 0).
Qed.

Lemma iunlock_ok s ip x : inodes s !! ip = Some x -> 1 <= i_ref x -> i_lock x = SMine ->
  iunlock ip s = Ok tt (ist s (fb s) ip (set_i_lock SFree x)).
Proof.
  intros Hip Hr Hl. unfold iunlock, sleep_holding, bind, gets, geti, ret. simpl. unfold inode_at.
  rewrite (nth_lookup_Some _ _ _ _ Hip), Hl, bool_decide_true by done. destruct (Z.ltb_spec (i_ref x) 1); [lia|].
  unfold sleep_release, modify. simpl. by rewrite (alter_insert _ _ _ x).
Qed.

(** The blocks of a file, the indirect block among them; files that share none. *)
Definition belongs (s : fsst B) (x : inode) (b : Z) : Prop :=
  b <> 0 /\ (b = addr_of x NDIRECT \/ exists bn, 0 <= bn < MAXFILE /\ b = file_blk s x bn).
Definition disjoint_files (s : fsst B) (x y : inode) : Prop := forall b, belongs s x b -> belongs s y b -> False.

(** A file that shares no block with [x] keeps its blocks and its contents
    when [x] is written. *)
Section other_file.
Context (s s' : fsst B) (H : gmap nat Z) (x y : inode).
Context (Hf : fs_ok s H) (Hk : keeps_file x s s') (Hy : file_ok s y) (Hdis : disjoint_files s x y).

Lemma other_keep b : in_use s b -> belongs s y b -> blk s' b = blk s b.
Proof.
  intros Hu Hb. apply (kf_blk _ _ _ Hk); [done| |].
  - intros ->. apply (Hdis (addr_of x NDIRECT)); [|done]. split; [apply Hb|by left].
  - intros bn Hb' E. apply (Hdis b); [|done]. split; [apply Hb|right]. by exists bn.
Qed.

Lemma other_blk bn : file_blk s' y bn = file_blk s y bn.
Proof.
  apply file_blk_same; [done|]. intros Hz. apply other_keep; [by apply (fk_ind _ _ Hy)|]. split; [done|by left].
Qed.

Lemma other_ok : file_ok s' y.
Proof.
  assert (Hu : forall b, in_use s b -> in_use s' b).
  { intros b [Hd Hu]. split; [by rewrite (kf_sb _ _ _ Hk)|]. apply (kf_used _ _ _ Hk); [|done].
    pose proof (data_in_disk _ _ _ Hf Hd). lia. }
  destruct Hy as [K1 K2 K3 K4 K5 K6].
  split; [done|done|naive_solver|..]; intros *; rewrite ?other_blk; naive_solver.
Qed.

Lemma other_byte o : 0 <= o < MAXFILE * BSIZE -> file_byte s' y o = file_byte s y o.
Proof.
  intros Ho. pose proof (div_maxfile o Ho). unfold file_byte. rewrite other_blk.
  destruct (Z.eqb_spec (file_blk s y (o / BSIZE)) 0) as [|Hz]; [done|]. f_equal.
  apply other_keep; [by apply (fk_blk _ _ Hy)|]. split; [done|right]. by exists (o / BSIZE).
Qed.
End other_file.

(** A store to an inode block leaves every file alone. *)
Section inode_store.
Context (s s' : fsst B) (H : gmap nat Z) (i : Z) (d : block).
Context (Hf : fs_ok s H) (Hi : 0 <= i < sb_ninodes (sb s)).

Lemma iblock_not_map : ~ is_map s (IBLOCK i (sb s)).
Proof. pose proof (IBLOCK_range _ i (fo_sb _ _ Hf) Hi) as [Hr _]. unfold is_map. lia. Qed.

Lemma iblock_not_data b : is_data (sb s) b -> IBLOCK i (sb s) <> b.
Proof.
  intros Hd E. pose proof (IBLOCK_range _ i (fo_sb _ _ Hf) Hi) as [Hr _]. pose proof (so_size _ (fo_sb _ _ Hf)).
  pose proof (BBLOCK_range _ 0 (fo_sb _ _ Hf) ltac:(lia)). unfold is_data in Hd. lia.
Qed.

Context (Hp : put_state s s' (IBLOCK i (sb s)) d) (y : inode) (Hy : file_ok s y).

Lemma istore_ind : addr_of y NDIRECT <> 0 -> IBLOCK i (sb s) <> addr_of y NDIRECT.
Proof. intros Hz. apply iblock_not_data, (fk_ind _ _ Hy Hz). Qed.

Lemma istore_byte o : 0 <= o < MAXFILE * BSIZE -> file_byte s' y o = file_byte s y o.
Proof.
  intros Ho. pose proof (div_maxfile o Ho) as Hbn. destruct (decide (file_blk s y (o / BSIZE) = 0)) as [E|E].
  - unfold file_byte. by rewrite (put_file_blk s s' _ d Hp y istore_ind), E.
  - apply (put_file_byte s s' _ d Hp y istore_ind); [done|]. by apply iblock_not_data, (fk_blk _ _ Hy).
Qed.
End inode_store.

Section reading.
Context (devsw_read : Z -> option (nat -> Z -> M (fsst B) (Z * list Z))).

Lemma readi_ok s ip x off n : fs_ok s ∅ -> full_file s x -> inodes s !! ip = Some x -> i_type x <> T_DEV ->
  0 <= off <= i_size x -> 0 <= n -> off + n < 4294967296 ->
  let m := Z.min n (i_size x - off) in
  exists f, readi devsw_read ip off n s = Ok (m, file_byte s x <$> range off (Z.to_nat m)) (set_fb f s) /\
    layer_ok f ∅ /\ same_layer (fb s) f.
Proof.
  intros Hf Hx Hip Ht Hoff Hn Hov m. pose proof (ff_size _ _ Hx) as Hsz. change (MAXFILE * BSIZE) with 71680 in Hsz.
  destruct (readi_loop_ok ip x (Z.to_nat m) s off m Hf Hx Hip) as (f & Hr & Hl & Hs); try lia.
  exists f. split; [|done]. unfold readi. rewrite (bind_ok _ _ _ _ _ (geti_ok s ip x id Hip)).
  change (id x) with x. destruct (Z.eqb_spec (i_type x) T_DEV); [done|]. rewrite u32_id by lia.
  destruct (Z.ltb_spec (i_size x) off); [lia|]. destruct (Z.ltb_spec (off + n) off); [lia|].
  change (false || false) with false. cbv zeta iota.
  assert (Hm : (if i_size x <? off + n then i_size x - off else n) = m) by (unfold m; destruct (Z.ltb_spec (i_size x) (off + n)); lia).
  rewrite Hm, (bind_ok _ _ _ _ _ Hr). unfold ret. by rewrite s32_id by lia.
Qed.

Lemma readi_error s ip x off n : inodes s !! ip = Some x -> i_type x <> T_DEV ->
  0 <= off < 4294967296 -> 0 <= n < 4294967296 -> i_size x < off \/ 4294967296 <= off + n ->
  readi devsw_read ip off n s = Ok (-1, []) s.
Proof.
  intros Hip Ht Hoff Hn Herr. unfold readi. rewrite (bind_ok _ _ _ _ _ (geti_ok s ip x id Hip)).
  change (id x) with x. destruct (Z.eqb_spec (i_type x) T_DEV); [done|].
  destruct (Z.ltb_spec (i_size x) off); [done|]. destruct (Z.ltb_spec (u32 (off + n)) off) as [|Hge]; [done|].
  exfalso. assert (u32 (off + n) = off + n - 4294967296) by zsolve. lia.
Qed.

End reading.

Context (devsw_write : Z -> option (nat -> list Z -> Z -> M (fsst B) Z)).

Lemma writei_error s ip x off src : inodes s !! ip = Some x -> i_type x <> T_DEV ->
  0 <= off < 4294967296 -> Z.of_nat (length src) < 4294967296 ->
  i_size x < off \/ MAXFILE * BSIZE < off + Z.of_nat (length src) ->
  writei devsw_write ip src off (Z.of_nat (length src)) s = Ok (-1) s.
Proof.
  intros Hip Ht Hoff Hn Herr. unfold writei. rewrite (bind_ok _ _ _ _ _ (geti_ok s ip x id Hip)).
  change (id x) with x. destruct (Z.eqb_spec (i_type x) T_DEV); [done|].
  destruct (Z.ltb_spec (i_size x) off); [done|]. change (MAXFILE * BSIZE) with 71680 in *.
  destruct (Z.ltb_spec (u32 (off + Z.of_nat (length src))) off) as [|Hge]; [done|].
  destruct (Z.ltb_spec 71680 (u32 (off + Z.of_nat (length src)))) as [|Hle]; [done|]. exfalso.
  destruct (Z.le_gt_cases 4294967296 (off + Z.of_nat (length src))).
  - assert (u32 (off + Z.of_nat (length src)) = off + Z.of_nat (length src) - 4294967296) by zsolve. lia.
  - rewrite u32_id in Hle by lia. lia.
Qed.

(** What a write of [src] at [off] leaves behind. *)
Record written_file (s s' : fsst B) (x x' : inode) (off : Z) (src : list Z) : Prop := {
  wf_fs : fs_ok s' ∅;
  wf_file : full_file s' x';
  wf_inode : inode_ok s' x' /\ synced s' x';
  wf_meta : i_type x' = i_type x /\ i_inum x' = i_inum x /\ i_nlink x' = i_nlink x /\ i_ref x' = i_ref x /\ i_lock x' = i_lock x;
  wf_size : i_size x' = if decide (src = []) then i_size x else Z.max (i_size x) (off + Z.of_nat (length src));
  wf_byte : forall o, 0 <= o < MAXFILE * BSIZE -> file_byte s' x' o =
    if (off <=? o) && (o <? off + Z.of_nat (length src)) then nth (Z.to_nat (o - off)) src 0 else file_byte s x o;
  wf_others : forall y, file_ok s y -> disjoint_files s x y -> forall o, 0 <= o < MAXFILE * BSIZE -> file_byte s' y o = file_byte s y o;
  wf_inodes : forall j, 0 <= j < sb_ninodes (sb s) -> j <> i_inum x -> inode_on_disk s' j = inode_on_disk s j;
  wf_log : forall b, b ∈ in_log (fb s') -> b ∈ in_log (fb s) \/ is_map s b \/ b = addr_of x' NDIRECT \/ b = IBLOCK (i_inum x) (sb s) \/
    exists bn, overlaps off (Z.of_nat (length src)) bn /\ b = file_blk s' x' bn;
}.

Lemma inode_ok_size s s' x v : inode_ok s x -> sb s' = sb s -> 0 <= v < 4294967296 -> inode_ok s' (set_i_size v x).
Proof. intros [X1 X2 [K1 K2 K3 K4 K5 K6 K7]] Hsb Hv. split; [done|by rewrite Hsb|]. by split. Qed.

(** The addresses in an inode fit their fields. *)
Lemma file_addrs s H x : fs_ok s H -> file_ok s x -> Forall (fun a => 0 <= a < 4294967296) (i_addrs x).
Proof.
  intros Hf Hx. apply Forall_lookup. intros k a Ha. pose proof (fk_len _ _ Hx) as Hl.
  pose proof (lookup_lt_Some _ _ _ Ha) as Hk. destruct (decide (a = 0)) as [->|Hz]; [lia|].
  assert (Hu : in_use s a).
  { assert (Ea : addr_of x (Z.of_nat k) = a) by (unfold addr_of; rewrite Nat2Z.id; by apply nth_lookup_Some).
    destruct (decide (k = 12)%nat) as [->|Hne].
    - change (Z.of_nat 12) with NDIRECT in Ea. rewrite <- Ea in Hz |- *. by apply (fk_ind _ _ Hx).
    - assert (Eb : file_blk s x (Z.of_nat k) = a).
      { unfold file_blk. destruct (Z.ltb_spec (Z.of_nat k) NDIRECT); [done|]. unfold NDIRECT in *. lia. }
      rewrite <- Eb. apply (fk_blk _ _ Hx); [unfold MAXFILE, NDIRECT, NINDIRECT; lia|by rewrite Eb]. }
  destruct Hu as [Hd _]. pose proof (data_in_disk _ _ _ Hf Hd). pose proof (so_size _ (fo_sb _ _ Hf)). lia.
Qed.

Lemma inode_ok_addrs s s' H x x' : inode_ok s x -> fs_ok s' H -> file_ok s' x' -> sb s' = sb s -> x' = set_i_addrs (i_addrs x') x ->
  inode_ok s' x'.
Proof.
  intros [X1 X2 [K1 K2 K3 K4 K5 K6 K7]] Hf Hx' Hsb E. pose proof (file_addrs s' H x' Hf Hx') as Hadr.
  pose proof (fk_len _ _ Hx') as Hlen. rewrite E in *. split; [done|by rewrite Hsb|]. by split.
Qed.

Lemma inode_low s s' x j : keeps_file x s s' -> sb_ok (sb s) -> 0 <= j < sb_ninodes (sb s) -> inode_on_disk s' j = inode_on_disk s j.
Proof.
  intros Hk Hsb Hj. unfold inode_on_disk. rewrite (kf_sb _ _ _ Hk). rewrite (kf_low _ _ _ Hk); [done|].
  apply (IBLOCK_range _ j Hsb Hj).
Qed.

(** A write that does not make the file longer. *)
Lemma written_same_size k s ip x off src f x' : fs_ok s ∅ -> full_file s x -> inode_ok s x -> synced s x -> 0 <= off ->
  off + Z.of_nat (length src) <= i_size x \/ src = [] ->
  wpost k s ip x off src f x' -> written_file s (ist s f ip x') x x' off src.
Proof.
  intros Hf Hx Hio Hsy Hoff Hend W. pose proof (ff_size _ _ Hx) as Hsz.
  assert (E : x' = x).
  { apply (wp_same _ _ _ _ _ _ _ _ W). intros bn (Hbn & Hpos & H1 & H2). destruct Hend as [Hend|Hnil].
    - apply (ff_full _ _ Hx); lia.
    - rewrite Hnil in Hpos. simpl in Hpos. lia. }
  subst x'. destruct W as [W1 W2 W3 W4 W5 _ W6 W7 W8 W9 W10 W11 W12]. split; try done.
  - split; [done|done|]. intros bn Hb Hb'. rewrite W5; [by apply (ff_full _ _ Hx)| |by apply (ff_full _ _ Hx)].
    change BSIZE with 512 in *. change MAXFILE with 140 in *. lia.
  - split; [by destruct Hio|]. unfold synced. rewrite (inode_low s _ x) by (done || apply Hf || apply Hio). exact Hsy.
  - case_decide as Hnil; [done|]. destruct Hend as [Hend|]; [lia|done].
  - intros y Hy Hdis o Ho. by apply (other_byte s _ x).
  - intros j Hj _. apply (inode_low s _ x); [done|apply Hf|done].
  - intros b Hb. destruct (W10 b Hb) as [?|[?|[[? _]|?]]]; auto.
Qed.

(** A write that does: the new size goes to the disk with [iupdate]. *)
Lemma written_grows k s ip x off src f x' : fs_ok s ∅ -> full_file s x -> inode_ok s x -> inodes s !! ip = Some x ->
  0 <= off <= i_size x -> off + Z.of_nat (length src) <= MAXFILE * BSIZE -> i_size x < off + Z.of_nat (length src) ->
  (size (in_log f) + 1 <= log_cap)%nat ->
  wpost k s ip x off src f x' ->
  let x2 := set_i_size (off + Z.of_nat (length src)) x' in
  exists f2, iupdate ip (ist s f ip x2) = Ok tt (ist s f2 ip x2) /\ written_file s (ist s f2 ip x2) x x2 off src.
Proof.
  intros Hf Hx Hio Hip Hoff Hmax Hgrow Hcap W x2. destruct W as [W1 W2 W3 W4 W5 _ W6 W7 W8 W9 W10 W11 W12].
  set (s1 := ist s f ip x') in *. set (s2 := ist s f ip x2). change (MAXFILE * BSIZE) with 71680 in Hmax.
  assert (Hip2 : inodes s2 !! ip = Some x2) by (by eapply ist_lookup).
  assert (Hf2 : fs_ok s2 ∅) by (destruct W1 as [F1 F2 F3 F4 F5]; by split).
  assert (Hx2 : file_ok s2 x2) by (by apply (file_ok_same s1 x')).
  assert (Hio2 : inode_ok s2 x2).
  { apply (inode_ok_size s1); [|done|lia]. by apply (inode_ok_addrs s s1 ∅ x). }
  assert (Hinum : i_inum x2 = i_inum x) by (unfold x2; simpl; by rewrite W3).
  pose proof (io_inum _ _ Hio2) as Hir. pose proof (size_add (IBLOCK (i_inum x2) (sb s2)) (in_log f)) as Hsa.
  destruct (iupdate_ok s2 ip x2 Hf2 Hip2 Hio2) as (f2 & Hrun & Hl2 & Hput); [simpl in *; lia|].
  set (a := IBLOCK (i_inum x2) (sb s2)) in *.
  assert (Es : ist s f2 ip x2 = ist s2 f2 ip x2) by (unfold s2; by rewrite ist_ist).
  exists f2. split; [exact Hrun|]. rewrite Es. set (s3 := ist s2 f2 ip x2).
  assert (Hps : put_state s2 s3 a (put_dinode (dinode_of x2) (dinode_off (i_inum x2)) (blk s2 a))).
  { apply put_state_ist; [|done]. by apply (iblock_not_map s2 ∅). }
  pose proof (istore_ind s2 ∅ (i_inum x2) Hf2 Hir x2 Hx2) as Hni.
  pose proof (put_file_blk s2 s3 a _ Hps x2 Hni) as Hblk.
  split.
  - apply (put_fs_ok s2 s3 ∅ a _ Hf2 Hps); try done. apply (pl_nblocks _ _ _ _ Hput).
  - split; [by apply (put_file_ok s2 s3 ∅ a _ Hf2 Hps)|simpl; change (MAXFILE * BSIZE) with 71680; lia|].
    intros bn Hb Hb'. simpl in Hb'. rewrite Hblk. change (file_blk s2 x2 bn) with (file_blk s1 x' bn).
    destruct (Z.lt_ge_cases (bn * BSIZE) (i_size x)) as [Hlt|Hge].
    + rewrite W5; [by apply (ff_full _ _ Hx)| |by apply (ff_full _ _ Hx)]. change BSIZE with 512 in *. change MAXFILE with 140 in *. lia.
    + apply W7. unfold overlaps. change BSIZE with 512 in *. change MAXFILE with 140 in *. lia.
  - split; [by destruct Hio2|]. unfold synced. pose proof (iupdate_on_disk s2 ∅ f2 x2 (i_inum x2) Hf2 Hio2 Hir Hput) as E.
    rewrite decide_True in E by done. exact E.
  - unfold x2. rewrite W3. done.
  - simpl. rewrite decide_False; [lia|]. intros ->. simpl in *. lia.
  - intros o Ho. rewrite <- W4 by done. exact (istore_byte s2 s3 ∅ (i_inum x2) _ Hf2 Hir Hps x2 Hx2 o Ho).
  - intros y Hy Hdis o Ho. rewrite <- (other_byte s s1 x y W9 Hy Hdis o Ho).
    apply (istore_byte s2 s3 ∅ (i_inum x2) _ Hf2 Hir Hps); [|done].
    pose proof (other_ok s s1 ∅ x y Hf W9 Hy Hdis). by apply (file_ok_same s1 y).
  - intros j Hj Hne. pose proof (iupdate_on_disk s2 ∅ f2 x2 j Hf2 Hio2 Hj Hput) as E. rewrite decide_False in E by (by rewrite Hinum).
    etrans; [exact E|]. change (inode_on_disk s2 j) with (inode_on_disk s1 j). apply (inode_low s _ x); [done|apply Hf|done].
  - intros b Hb. simpl in Hb. rewrite (pl_log _ _ _ _ Hput), elem_of_union, elem_of_singleton in Hb. destruct Hb as [->|Hb].
    + right. right. right. left. unfold a. by rewrite Hinum.
    + destruct (W10 b Hb) as [?|[?|[[? _]|(bn & Hbn & ->)]]]; auto. right. right. right. right. exists bn. split; [done|].
      by rewrite Hblk.
Qed.

Lemma writei_ok s ip x off src : fs_ok s ∅ -> full_file s x -> inode_ok s x -> synced s x -> inodes s !! ip = Some x ->
  i_type x <> T_DEV -> bytes_in src -> 0 <= off <= i_size x -> off + Z.of_nat (length src) <= MAXFILE * BSIZE ->
  (size (in_log (fb s)) + 5 * nchunks off (Z.of_nat (length src)) + 1 <= log_cap)%nat ->
  (2 * nchunks off (Z.of_nat (length src)) <= nfree s)%nat ->
  exists f x', writei devsw_write ip src off (Z.of_nat (length src)) s = Ok (Z.of_nat (length src)) (ist s f ip x') /\
    written_file s (ist s f ip x') x x' off src.
Proof.
  intros Hf Hx Hio Hsy Hip Ht Hb Hoff Hmax Hcap Hfree. set (n := Z.of_nat (length src)) in *.
  destruct (writei_loop_ok ip (Z.to_nat n) s x off src) as (f & x' & Hr & W);
    [done|apply (ff_ok _ _ Hx)|done|lia|done|exact Hmax|lia|fold n; lia|exact Hfree|].
  fold n in Hr, W. pose proof (wp_size _ _ _ _ _ _ _ _ W) as Hs. pose proof (wp_meta _ _ _ _ _ _ _ _ W) as Hm.
  change (MAXFILE * BSIZE) with 71680 in Hmax. pose proof (ff_size _ _ Hx) as Hsz.
  assert (Hip' : inodes (ist s f ip x') !! ip = Some x') by (by eapply ist_lookup).
  assert (Hsize : i_size x' = i_size x) by (by rewrite Hm).
  assert (Hrun : writei devsw_write ip src off n s =
    ((if (0 <? n) && (i_size x <? off + n) then seti ip (set_i_size (off + n)) ;; iupdate ip else ret tt) ;; ret n) (ist s f ip x')).
  { unfold writei. rewrite (bind_ok _ _ _ _ _ (geti_ok s ip x id Hip)). change (id x) with x.
    destruct (Z.eqb_spec (i_type x) T_DEV); [done|]. rewrite u32_id by lia.
    destruct (Z.ltb_spec (i_size x) off); [lia|]. destruct (Z.ltb_spec (off + n) off); [lia|].
    change (false || false) with false. change (MAXFILE * BSIZE) with 71680. destruct (Z.ltb_spec 71680 (off + n)); [lia|].
    rewrite (bind_ok _ _ _ _ _ Hr), (bind_ok _ _ _ _ _ (geti_ok _ ip x' i_size Hip')), Hsize. by rewrite s32_id by lia. }
  rewrite Hrun. destruct (Z.ltb_spec 0 n) as [Hn|Hn], (Z.ltb_spec (i_size x) (off + n)) as [Hg|Hg]; simpl.
  - destruct (written_grows (nchunks off n) s ip x off src f x' Hf Hx Hio Hip) as (f2 & Hu & Hw); try (done || lia).
    rewrite !bind_assoc. erewrite bind_ok by (apply (seti_ok _ ip x' _ Hip')). rewrite ist_ist. simpl fb.
    rewrite (bind_ok _ _ _ _ _ Hu). eauto.
  - exists f, x'. split; [done|]. eapply written_same_size; try done; [lia|]. left. lia.
  - exists f, x'. split; [done|]. eapply written_same_size; try done; [lia|]. right. destruct src; [done|]. simpl in n. lia.
  - exists f, x'. split; [done|]. eapply written_same_size; try done; [lia|]. right. destruct src; [done|]. simpl in n. lia.
Qed.
End inodes.
