(* ===== verification/FsClaims.v ===== *)
(** The correctness of the lower half of the file system: allocation, file
    contents and inodes, for every implementation of the block layer. *)

From S2P Require Import Prelude StringC Spinlock Sleeplock Block Bio Log Layer Fs FsBlocks FsFile FsWrite FsInode.

Section bounds.
Context {B : Type} {OB : BlockOps B} {LB : BlockLayer B}.
Implicit Types (s : fsst B).

Lemma list_set_size (l : list Z) : (size (list_to_set l : gset Z) <= length l)%nat.
Proof. induction l as [|b l IH]; [done|]. simpl. pose proof (size_add b (list_to_set l)). lia. Qed.

(** The blocks a write of at most 1536 bytes touches. *)
Lemma overlap_list off n bn : 0 <= off -> 0 <= n <= 1536 -> overlaps off n bn -> bn ∈ range (off / BSIZE) 4.
Proof. unfold overlaps. change BSIZE with 512. intros Ho Hn Hb. apply elem_of_range. zsolve. Qed.

Lemma one_map s b : sb_ok (sb s) -> sb_size (sb s) <= BPB -> is_map s b -> b = sb_bmapstart (sb s).
Proof.
  intros [S1 S2 S3 S4] Hs Hb. unfold is_map, data_start in Hb.
  assert ((sb_size (sb s) - 1) / BPB = 0) by (apply Z.div_small; lia). lia.
Qed.
End bounds.

Section claims.
Context {B : Type} {OB : BlockOps B} {LB : BlockLayer B}.
Context (devsw_read : Z -> option (nat -> Z -> M (fsst B) (Z * list Z))).
Context (devsw_write : Z -> option (nat -> list Z -> Z -> M (fsst B) Z)).
Implicit Types (s : fsst B) (x : inode).

(** [balloc] hands out a block only when it is free.  The block is in the
    data area and its bit in the free map is clear before; afterwards the bit
    is set, the block is zero, no other bit has changed, and no block in use
    has changed its contents.  When no bit is clear it panics. *)
Theorem balloc_exclusive s : fs_ok s ∅ -> (size (in_log (fb s)) + 2 <= log_cap)%nat ->
  (exists b f, let s' := set_fb f s in
     balloc 1 s = Ok b s' /\ fs_ok s' ∅ /\ is_data (sb s) b /\ used s b = false /\ blk s' b = zero_block /\
     (forall b', 0 <= b' < sb_size (sb s) -> used s' b' = bool_decide (b' = b) || used s b') /\
     (forall b', in_use s b' -> blk s' b' = blk s b')) \/
  (balloc 1 s = Panic "balloc: out of blocks" /\ forall b, 0 <= b < sb_size (sb s) -> used s b = true).
Proof.
  intros Hf Hcap. destruct (decide (nfree s = 0%nat)) as [Hn|Hn].
  - right. assert (Hall : forall b, 0 <= b < sb_size (sb s) -> used s b = true) by (by apply nfree_none).
    split; [|done]. by apply (balloc_full s ∅ Hf (held_ok_empty s)).
  - left. destruct (balloc_ok s ∅ Hf (held_ok_empty s) Hcap) as (b & f & Hr & Hd & Hu & Hl & Ha); [apply nfree_some; lia|].
    exists b, f. cbv zeta. split; [done|]. split; [by apply (fs_ok_alloc s ∅ f b)|]. split; [done|]. split; [done|].
    split; [unfold blk; simpl; rewrite (al_contents _ _ _ Ha); by rewrite decide_True|].
    split; [intros b' Hb'; by apply (used_alloc s ∅ f b)|]. intros b' [Hd' Hu']. unfold blk. simpl.
    rewrite (al_contents _ _ _ Ha). rewrite decide_False by congruence. rewrite decide_False; [done|].
    pose proof (data_in_disk _ _ _ Hf Hd). pose proof (BBLOCK_range _ b (fo_sb _ _ Hf) ltac:(lia)). unfold is_data in Hd'. lia.
Qed.

(** [readi] of a file without holes returns the bytes of the file from
    [off], as many as there are up to [n], and changes nothing; an offset past
    the end, or one that overflows with [n], is refused with -1. *)
Theorem readi_spec s ip x off n : fs_ok s ∅ -> full_file s x -> inodes s !! ip = Some x -> i_type x <> T_DEV ->
  0 <= off < 4294967296 -> 0 <= n < 4294967296 ->
  if (i_size x <? off) || (4294967296 <=? off + n) then readi devsw_read ip off n s = Ok (-1, []) s
  else exists f, let m := Z.min n (i_size x - off) in
    readi devsw_read ip off n s = Ok (m, file_byte s x <$> range off (Z.to_nat m)) (set_fb f s) /\
    layer_ok f ∅ /\ same_layer (fb s) f.
Proof.
  intros Hf Hx Hip Ht Hoff Hn. destruct (Z.ltb_spec (i_size x) off), (Z.leb_spec 4294967296 (off + n)); simpl;
    [by apply (readi_error devsw_read s ip x); auto..|]. apply (readi_ok devsw_read s ip x off n); (done || lia).
Qed.

(** C5: [writei] writes exactly the bytes it is given.  Within the bounds it
    returns their number; the file then has them at [off], every other byte as
    before, and the size the write requires; the inode on disk is current; no
    other file and no other inode has changed.  An offset past the end, or a
    write past the largest file, is refused with -1 and changes nothing. *)
Theorem writei_spec s ip x off src : fs_ok s ∅ -> full_file s x -> inode_ok s x -> synced s x -> inodes s !! ip = Some x ->
  i_type x <> T_DEV -> bytes_in src -> 0 <= off < 4294967296 -> Z.of_nat (length src) < 4294967296 ->
  (size (in_log (fb s)) + 5 * nchunks off (Z.of_nat (length src)) + 1 <= log_cap)%nat ->
  (2 * nchunks off (Z.of_nat (length src)) <= nfree s)%nat ->
  let n := Z.of_nat (length src) in
  if (i_size x <? off) || (MAXFILE * BSIZE <? off + n) then writei devsw_write ip src off n s = Ok (-1) s
  else exists f x', writei devsw_write ip src off n s = Ok n (ist s f ip x') /\ written_file s (ist s f ip x') x x' off src.
Proof.
  intros Hf Hx Hio Hsy Hip Ht Hb Hoff Hn Hcap Hfree n.
  destruct (Z.ltb_spec (i_size x) off), (Z.ltb_spec (MAXFILE * BSIZE) (off + n)); simpl;
    [by apply (writei_error devsw_write s ip x); auto..|]. apply writei_ok; (done || lia).
Qed.

(** What is written is read back: [writei] followed by [readi] of the same
    range returns the bytes that were written. *)
Theorem write_read_roundtrip s ip x off src : fs_ok s ∅ -> full_file s x -> inode_ok s x -> synced s x -> inodes s !! ip = Some x ->
  i_type x <> T_DEV -> bytes_in src -> src <> [] -> 0 <= off <= i_size x -> off + Z.of_nat (length src) <= MAXFILE * BSIZE ->
  (size (in_log (fb s)) + 5 * nchunks off (Z.of_nat (length src)) + 1 <= log_cap)%nat ->
  (2 * nchunks off (Z.of_nat (length src)) <= nfree s)%nat ->
  exists s', (writei devsw_write ip src off (Z.of_nat (length src)) ;;
              readi devsw_read ip off (Z.of_nat (length src))) s = Ok (Z.of_nat (length src), src) s'.
Proof.
  intros Hf Hx Hio Hsy Hip Ht Hb Hne Hoff Hmax Hcap Hfree.
  destruct (writei_ok devsw_write s ip x off src) as (f & x' & Hw & [W1 W2 _ (W3 & _) W4 W5 _ _ _]); try done.
  rewrite decide_False in W4 by done. assert (Hip' : inodes (ist s f ip x') !! ip = Some x') by (by eapply ist_lookup).
  set (n := Z.of_nat (length src)) in *. pose proof (ff_size _ _ W2) as Hsz. change (MAXFILE * BSIZE) with 71680 in *.
  destruct (readi_ok devsw_read (ist s f ip x') ip x' off n) as (f2 & Hr & _);
    [done|done|done|by rewrite W3|lia|lia|lia|].
  assert (Hm : Z.min n (i_size x' - off) = n) by lia. cbv zeta in Hr. rewrite Hm in Hr.
  exists (set_fb f2 (ist s f ip x')). rewrite (bind_ok _ _ _ _ _ Hw), Hr. do 2 f_equal.
  apply list_eq. intros i. rewrite list_lookup_fmap. destruct (decide (i < length src)%nat) as [Hi|Hi].
  - rewrite range_lookup by lia. simpl. rewrite W5 by lia. destruct (lookup_lt_is_Some_2 src i Hi) as [v Hv].
    destruct (Z.leb_spec off (off + Z.of_nat i)); [|lia]. destruct (Z.ltb_spec (off + Z.of_nat i) (off + n)); [|lia]. simpl.
    replace (Z.to_nat (off + Z.of_nat i - off)) with i by lia. by rewrite Hv, (nth_lookup_Some _ _ _ _ Hv).
  - rewrite !lookup_ge_None_2; [done|lia|rewrite range_length; lia].
Qed.

(** An inode survives the trip to the disk.  [iupdate] writes the cached
    inode; when later some cache slot is given to the same inode number and
    locked, [ilock] loads the very same type, device numbers, link count, size
    and block addresses; every other inode on the disk is as before. *)
Theorem iupdate_ilock_roundtrip s ip x jp y : fs_ok s ∅ -> inodes s !! ip = Some x -> inode_ok s x -> i_type x <> 0 ->
  (size (in_log (fb s)) + 1 <= log_cap)%nat ->
  inodes s !! jp = Some y -> 1 <= i_ref y -> i_lock y = SFree -> i_valid y = 0 -> i_dev y = 1 -> i_inum y = i_inum x ->
  exists f f', iupdate ip s = Ok tt (set_fb f s) /\
    ilock jp (set_fb f s) = Ok tt (ist s f' jp (set_i_valid 1 (load_dinode (dinode_of x) (set_i_lock SMine y)))) /\
    forall j, 0 <= j < sb_ninodes (sb s) -> j <> i_inum x -> inode_on_disk (set_fb f s) j = inode_on_disk s j.
Proof.
  intros Hf Hip Hio Ht Hcap Hjp Hr Hl Hv Hd Hn. pose proof (io_inum _ _ Hio) as Hi.
  pose proof (size_add (IBLOCK (i_inum x) (sb s)) (in_log (fb s))) as Hsz.
  destruct (iupdate_ok s ip x Hf Hip Hio) as (f & Hu & Hlf & Hput); [lia|].
  assert (Hf' : fs_ok (set_fb f s) ∅).
  { apply (put_fs_ok s (set_fb f s) ∅ (IBLOCK (i_inum x) (sb s)) (put_dinode (dinode_of x) (dinode_off (i_inum x)) (blk s (IBLOCK (i_inum x) (sb s))))); try done.
    - split; [done|apply (pl_contents _ _ _ _ Hput)|by apply (iblock_not_map s ∅)].
    - apply (pl_nblocks _ _ _ _ Hput). }
  pose proof (iupdate_on_disk s ∅ f x (i_inum x) Hf Hio Hi Hput) as Eon. rewrite decide_True in Eon by done.
  destruct (ilock_load (set_fb f s) jp y Hf' Hjp Hr Hl Hv Hd) as (f' & Hil & _); [by rewrite Hn|by rewrite Hn, Eon|].
  exists f, f'. split; [done|]. split; [rewrite Hn, Eon in Hil; exact Hil|].
  intros j Hj Hne. rewrite (iupdate_on_disk s ∅ f x j Hf Hio Hj Hput). by rewrite decide_False.
Qed.

(** C34: a system call's write fits the log.  The chunk size of [filewrite],
    ((MAXOPBLOCKS-1-1-2)/2)*512 bytes, is right: on a disk with one map block a
    transaction that starts empty has at most seven blocks after a [writei] of
    that many bytes at any offset, aligned or not, within [MAXOPBLOCKS]. *)
Theorem write_fits_transaction s ip x off src : fs_ok s ∅ -> full_file s x -> inode_ok s x -> synced s x -> inodes s !! ip = Some x ->
  i_type x <> T_DEV -> bytes_in src -> 0 <= off <= i_size x -> off + Z.of_nat (length src) <= MAXFILE * BSIZE ->
  Z.of_nat (length src) <= (MAXOPBLOCKS - 1 - 1 - 2) / 2 * 512 -> sb_size (sb s) <= BPB -> in_log (fb s) = ∅ ->
  (21 <= log_cap)%nat -> (8 <= nfree s)%nat ->
  exists s', writei devsw_write ip src off (Z.of_nat (length src)) s = Ok (Z.of_nat (length src)) s' /\
    (size (in_log (fb s')) <= 7)%nat /\ 7 <= MAXOPBLOCKS.
Proof.
  clear devsw_read. intros Hf Hx Hio Hsy Hip Ht Hb Hoff Hmax Hlen Hsz Hlog Hcap Hfree. change ((MAXOPBLOCKS - 1 - 1 - 2) / 2 * 512) with 1536 in Hlen.
  assert (Hk : (nchunks off (Z.of_nat (length src)) <= 4)%nat).
  { unfold nchunks. change BSIZE with 512. pose proof (Z.mod_pos_bound off 512 eq_refl).
    pose proof (Z.div_lt_upper_bound (off mod 512 + Z.of_nat (length src) - 1) 512 4 eq_refl). destruct (0 <? _); lia. }
  destruct (writei_ok devsw_write s ip x off src) as (f & x' & Hw & W); try done; [rewrite Hlog, size_empty; lia|lia|].
  eexists. split; [exact Hw|]. split; [|done]. set (s' := ist s f ip x') in *.
  set (L := list_to_set (file_blk s' x' <$> range (off / BSIZE) 4) : gset Z).
  assert (Hsub : in_log (fb s') ⊆ {[sb_bmapstart (sb s)]} ∪ ({[addr_of x' NDIRECT]} ∪ ({[IBLOCK (i_inum x) (sb s)]} ∪ L))).
  { intros b Hin. apply (wf_log _ _ _ _ _ _ W) in Hin. rewrite Hlog in Hin. unfold L.
    rewrite !elem_of_union, !elem_of_singleton, elem_of_list_to_set.
    destruct Hin as [Hin|[Hin|[Hin|[Hin|(bn & Hbn & ->)]]]]; [by apply not_elem_of_empty in Hin|left|auto..|].
    - by apply one_map; [apply Hf|..].
    - right. right. right. apply list_elem_of_fmap. exists bn. split; [done|]. eapply overlap_list; [..|exact Hbn]; lia. }
  apply subseteq_size in Hsub.
  assert (H4 : (size L <= 4)%nat) by (etrans; [apply list_set_size|by rewrite length_fmap, range_length]).
  pose proof (size_add (sb_bmapstart (sb s)) ({[addr_of x' NDIRECT]} ∪ ({[IBLOCK (i_inum x) (sb s)]} ∪ L))).
  pose proof (size_add (addr_of x' NDIRECT) ({[IBLOCK (i_inum x) (sb s)]} ∪ L)).
  pose proof (size_add (IBLOCK (i_inum x) (sb s)) L). lia.
Qed.
End claims.

(* ------------------------------------------------------------------ *)
(** * Witnesses: a file system of 20 blocks in memory *)

Definition w_sb : superblock := Superblock 20 15 16 0 2 2 4.
Definition w_file : inode := Inode 1 3 1 SMine 1 T_FILE 0 0 1 5 (5 :: replicate 12 0).
Definition w_fblocks : list block :=
  <[2%nat := put_dinode (dinode_of w_file) (dinode_off 3) zero_block]>
  (<[4%nat := put8 zero_block 0 63]> (<[5%nat := put8 zero_block 1 72]> (replicate 20 zero_block))).
Definition w_fs : fsst memb :=
  Fsst (Memb w_fblocks [] []) w_sb Unlocked [w_file; Inode 1 3 1 SFree 0 0 0 0 0 0 (replicate 13 0)].
Definition no_dev {A : Type} (major : Z) : option A := None.

Lemma w_dinode : dinode_ok (dinode_of w_file).
Proof. split; simpl; unfold short, T_FILE; (lia || done || idtac). repeat (constructor; [lia|]). constructor. Qed.

Lemma w_fs_ok : fs_ok w_fs ∅.
Proof.
  split.
  - split; simpl.
    + unfold w_fblocks. repeat apply Forall_insert; [apply Forall_replicate, zero_block_ok|..].
      * apply put8_ok, zero_block_ok.
      * apply put8_ok, zero_block_ok.
      * apply put_dinode_ok, zero_block_ok.
    + intros i b Hi. by rewrite lookup_empty in Hi.
    + intros b Hb. by apply elem_of_nil in Hb.
    + constructor.
    + unfold LOGCAP. lia.
  - split; vm_compute; repeat split; intros; discriminate.
  - reflexivity.
  - intros b Hb. assert (E : data_start (sb w_fs) = 5) by reflexivity. rewrite E in Hb.
    assert (Hc : b = 0 \/ b = 1 \/ b = 2 \/ b = 3 \/ b = 4) by lia.
    destruct Hc as [->|[->|[->|[->| -> ]]]]; vm_compute; reflexivity.
  - reflexivity.
Qed.

Lemma w_blk bn : 0 <= bn < MAXFILE -> file_blk w_fs w_file bn = if bn =? 0 then 5 else 0.
Proof.
  intros Hb. change MAXFILE with 140 in Hb. unfold file_blk. simpl. change NDIRECT with 12. destruct (Z.ltb_spec bn 12) as [H|H].
  - assert (Hc : bn ∈ range 0 12) by (apply elem_of_range; lia). repeat (apply elem_of_cons in Hc as [->|Hc]; [reflexivity|]).
    by apply elem_of_nil in Hc.
  - destruct (Z.eqb_spec bn 0); [lia|reflexivity].
Qed.

Lemma w_file_full : full_file w_fs w_file.
Proof.
  assert (H5 : in_use w_fs 5) by (split; [vm_compute; split; congruence|vm_compute; reflexivity]).
  split; [split|..].
  - done.
  - done.
  - done.
  - intros bn Hb. rewrite (w_blk bn Hb). by destruct (bn =? 0).
  - intros bn bn' Hb Hb'. rewrite (w_blk bn Hb), (w_blk bn' Hb'). destruct (Z.eqb_spec bn 0), (Z.eqb_spec bn' 0); (lia || congruence).
  - intros bn Hb. rewrite (w_blk bn Hb). by destruct (bn =? 0).
  - vm_compute. split; congruence.
  - change BSIZE with 512. simpl. intros bn Hb Hs. by assert (bn = 0) as -> by lia.
Qed.

Lemma w_inode_ok : inode_ok w_fs w_file.
Proof. split; [done|simpl; lia|apply w_dinode]. Qed.

Lemma w_synced : synced w_fs w_file.
Proof. vm_compute. reflexivity. Qed.

Lemma w_nfree : nfree w_fs = 14%nat.
Proof. vm_compute. reflexivity. Qed.

Lemma w_bytes : bytes_in [104; 105].
Proof. repeat constructor; lia. Qed.

#[local] Hint Resolve w_fs_ok w_file_full w_inode_ok w_synced w_bytes : witness.

Lemma balloc_exclusive_witness : exists b f, balloc 1 w_fs = Ok b (set_fb f w_fs) /\ used w_fs b = false.
Proof.
  destruct (balloc_exclusive w_fs) as [(b & f & H1 & _ & _ & H2 & _)|[H1 _]];
    [auto with witness|vm_compute; lia|by exists b, f|]. exfalso. vm_compute in H1. discriminate.
Defined.

Lemma readi_spec_witness : exists f, readi no_dev 0 1 10 w_fs = Ok (4, [72; 0; 0; 0]) (set_fb f w_fs).
Proof.
  destruct (readi_spec no_dev w_fs 0 w_file 1 10) as (f & H & _); [auto with witness..|done|done|lia|lia|].
  exists f. exact H.
Defined.

Lemma writei_spec_witness : exists f x', writei no_dev 0 [104; 105] 4 2 w_fs = Ok 2 (ist w_fs f 0 x') /\ i_size x' = 6.
Proof.
  destruct (writei_spec no_dev w_fs 0 w_file 4 [104; 105]) as (f & x' & H & W);
    [auto with witness..|done|done|auto with witness|lia|simpl; lia|vm_compute; lia|rewrite w_nfree; vm_compute; lia|].
  exists f, x'. split; [exact H|]. exact (wf_size _ _ _ _ _ _ W).
Defined.

Lemma write_read_roundtrip_witness : exists s', (writei no_dev 0 [104; 105] 4 2 ;; readi no_dev 0 4 2) w_fs = Ok (2, [104; 105]) s'.
Proof.
  destruct (write_read_roundtrip no_dev no_dev w_fs 0 w_file 4 [104; 105]) as (s' & H);
    [auto with witness..|done|done|auto with witness|done|simpl; lia|vm_compute; congruence|vm_compute; lia|rewrite w_nfree; vm_compute; lia|].
  exists s'. exact H.
Defined.

Lemma iupdate_ilock_roundtrip_witness : exists f f' y, iupdate 0 w_fs = Ok tt (set_fb f w_fs) /\
  ilock 1 (set_fb f w_fs) = Ok tt (ist w_fs f' 1 y) /\ dinode_of y = dinode_of w_file.
Proof.
  destruct (iupdate_ilock_roundtrip w_fs 0 w_file 1 (Inode 1 3 1 SFree 0 0 0 0 0 0 (replicate 13 0))) as (f & f' & H1 & H2 & _);
    [auto with witness|done|auto with witness|done|vm_compute; lia|done|simpl; lia|done..|].
  eexists f, f', _. split; [exact H1|]. split; [exact H2|]. reflexivity.
Defined.

Lemma write_fits_transaction_witness : exists s', writei no_dev 0 [104; 105] 4 2 w_fs = Ok 2 s' /\ (size (in_log (fb s')) <= 7)%nat.
Proof.
  destruct (write_fits_transaction no_dev w_fs 0 w_file 4 [104; 105]) as (s' & H & H7 & _);
    [auto with witness..|done|done|auto with witness|simpl; lia|vm_compute; congruence|vm_compute; congruence|vm_compute; congruence|done|vm_compute; lia|rewrite w_nfree; lia|].
  by exists s'.
Defined.
