(* ===== verification/FsDir.v ===== *)
(** Directories: [dirlookup] and [dirlink] make the entries of a directory a map
    from names to inode numbers. *)

From S2P Require Import Prelude StringC Spinlock Sleeplock Block Bio Log Layer Fs FsBlocks FsFile FsWrite FsInode FsClaims.

#[local] Opaque range.

(* ------------------------------------------------------------------ *)
(** * Names *)

(** The characters of a name: the bytes up to a NUL, at most [n] of them. *)
Fixpoint chars (m : memory) (p : Z) (n : nat) : list Z :=
  match n with
  | O => []
  | S n' => if m p =? 0 then [] else m p :: chars m (p + 1) n'
  end.
Definition fname (l : list Z) : list Z := chars (arr l) 0 DIRSIZ.

Lemma arr_bytes l : bytes_in l -> bytes_ok (arr l).
Proof.
  intros Hl a. unfold arr. destruct (Z.ltb_spec a 0); [lia|].
  destruct (decide (Z.to_nat a < length l)%nat) as [Hlt|Hge].
  - destruct (lookup_lt_is_Some_2 l _ Hlt) as [v Hv]. rewrite (nth_lookup_Some _ _ _ _ Hv).
    unfold bytes_in in Hl. rewrite Forall_lookup in Hl. by apply (Hl _ _ Hv).
  - rewrite nth_overflow by lia. lia.
Qed.

Lemma strncmp_chars n : forall mp p mq q, bytes_ok mp -> bytes_ok mq ->
  strncmp mp p mq q n = 0 <-> chars mp p n = chars mq q n.
Proof.
  induction n as [|n IH]; intros mp p mq q Hp Hq; [done|]. cbn [strncmp chars]. pose proof (Hp p) as Hp'. pose proof (Hq q) as Hq'. rewrite !u8_id by done.
  destruct (Z.eqb_spec (mp p) 0) as [E|E], (Z.eqb_spec (mq q) 0) as [E'|E'], (Z.eqb_spec (mp p) (mq q)) as [E''|E'']; simpl; try lia; try tauto.
  - rewrite E, E'. done.
  - split; [lia|done].
  - split; [lia|done].
  - rewrite IH, E'' by done. split; [by intros ->|by intros [= ->]].
  - split; [lia|]. intros [= ? _]. done.
Qed.

Lemma namecmp_fname a b : bytes_in a -> bytes_in b -> namecmp a b = 0 <-> fname a = fname b.
Proof. intros Ha Hb. apply strncmp_chars; by apply arr_bytes. Qed.

Lemma has_nul_false m t n : (forall j, 0 <= j < Z.of_nat n -> m (t + j) <> 0) -> has_nul m t n = false.
Proof.
  revert t. induction n as [|n IH]; intros t H; [done|]. simpl. apply orb_false_iff. split.
  - apply Z.eqb_neq. rewrite <- (Z.add_0_r t). apply H. lia.
  - apply IH. intros j Hj. replace (t + 1 + j) with (t + (j + 1)) by lia. apply H. lia.
Qed.

(** [strncpy] into a directory entry keeps the characters of the name. *)
Lemma copy_name_length old name : length (de_copy_name old name) = DIRSIZ.
Proof. unfold de_copy_name. by rewrite length_fmap, range_length. Qed.

Lemma copy_name_at old name i : 0 <= i < 14 -> arr (de_copy_name old name) i = if has_nul (arr name) 0 (Z.to_nat i) then 0 else arr name i.
Proof.
  intros Hi. unfold arr at 1. destruct (Z.ltb_spec i 0); [lia|]. unfold de_copy_name.
  erewrite nth_lookup_Some by (rewrite list_lookup_fmap, range_lookup by (unfold DIRSIZ; lia); reflexivity).
  rewrite strncpy_spec by (unfold DIRSIZ; lia). rewrite Z.add_0_l, Z2Nat.id by lia.
  destruct (Z.leb_spec 0 i); [|lia]. destruct (Z.ltb_spec i (0 + Z.of_nat DIRSIZ)); [|unfold DIRSIZ in *; lia]. cbn [andb].
  rewrite Z.sub_0_r. destruct (Z.ltb_spec (1000 + i) 1000); [lia|]. replace (1000 + i - 1000) with i by lia.
  assert (E : forall n t, 0 <= t -> has_nul (fun a => if a <? 1000 then arr old a else arr name (a - 1000)) (1000 + t) n = has_nul (arr name) t n).
  { intros n. induction n as [|n IH]; intros t Ht; [done|]. cbn [has_nul]. destruct (Z.ltb_spec (1000 + t) 1000); [lia|].
    replace (1000 + t - 1000) with t by lia. replace (1000 + t + 1) with (1000 + (t + 1)) by lia. by rewrite IH by lia. }
  pose proof (E (Z.to_nat i) 0 ltac:(lia)) as E0. rewrite Z.add_0_r in E0. by rewrite E0.
Qed.

Lemma copy_name_bytes old name : bytes_in name -> bytes_in (de_copy_name old name).
Proof.
  intros Hn. pose proof (arr_bytes name Hn) as Hb. apply Forall_lookup. intros i v Hv.
  pose proof (lookup_lt_Some _ _ _ Hv) as Hi. rewrite copy_name_length in Hi. unfold DIRSIZ in Hi.
  pose proof (copy_name_at old name (Z.of_nat i) ltac:(lia)) as E. unfold arr at 1 in E.
  destruct (Z.ltb_spec (Z.of_nat i) 0); [lia|]. rewrite Nat2Z.id, (nth_lookup_Some _ _ _ _ Hv) in E. rewrite E.
  destruct (has_nul _ _ _); [lia|apply Hb].
Qed.

Lemma fname_copy old name : bytes_in name -> fname (de_copy_name old name) = fname name.
Proof.
  intros Hn. symmetry. apply namecmp_fname; [done|by apply copy_name_bytes|].
  apply strncmp_zero; [by apply arr_bytes|by apply arr_bytes, copy_name_bytes|].
  intros i Hi Hj. rewrite !Z.add_0_l in *. change (Z.of_nat DIRSIZ) with 14 in Hi. rewrite copy_name_at by done.
  rewrite has_nul_false; [done|]. intros j Hj'. rewrite Z.add_0_l. specialize (Hj j). rewrite Z.add_0_l in Hj. apply Hj. lia.
Qed.

(* ------------------------------------------------------------------ *)
(** * Looking through the entries *)

Section dir.
Context {B : Type} {OB : BlockOps B} {LB : BlockLayer B}.
Context (devsw_read : Z -> option (nat -> Z -> M (fsst B) (Z * list Z))).
Context (devsw_write : Z -> option (nat -> list Z -> Z -> M (fsst B) Z)).
Implicit Types (s : fsst B) (x : inode).

(** The bytes of entry [k]. *)
Definition dentry s x (k : Z) : list Z := file_byte s x <$> range (16 * k) 16.

(** A directory: a file of whole entries. *)
Record is_dir s x : Prop := {
  id_file : full_file s x;
  id_type : i_type x = T_DIR;
  id_size : i_size x mod 16 = 0;
}.

Definition nentries x : Z := i_size x / 16.

(** Entry [k] is in use under the name. *)
Definition hit s x (name : list Z) (k : Z) : bool :=
  negb (de_inum (dentry s x k) =? 0) && (namecmp name (de_name (dentry s x k)) =? 0).

(** The directory as a map: the first entry of that name, and its inode number. *)
Definition dir_find s x (name : list Z) : option Z := List.find (hit s x name) (range 0 (Z.to_nat (nentries x))).
Definition dir_map s x (name : list Z) : option Z := (fun k => de_inum (dentry s x k)) <$> dir_find s x name.

Lemma same_layer_fb s f f' : same_layer (fb s) f -> same_layer (fb (set_fb f s)) f' -> same_layer (fb s) f'.
Proof. intros H1 H2. by etrans. Qed.

Lemma full_file_set_fb s f x : full_file s x -> same_layer (fb s) f -> full_file (set_fb f s) x.
Proof.
  intros [H1 H2 H3] Hs. split; [by apply file_ok_set_fb|done|]. intros bn Hb Hlt. rewrite file_blk_set_fb by done. by apply H3.
Qed.

Lemma dentry_set_fb s f x k : same_layer (fb s) f -> dentry (set_fb f s) x k = dentry s x k.
Proof. intros Hs. unfold dentry. apply list_fmap_ext. intros j o _. by apply file_byte_set_fb. Qed.

(** Reading an entry. *)
Lemma read_entry s ip x k : fs_ok s ∅ -> is_dir s x -> inodes s !! ip = Some x -> 0 <= k < nentries x ->
  exists f, readi devsw_read ip (16 * k) 16 s = Ok (16, dentry s x k) (set_fb f s) /\ layer_ok f ∅ /\ same_layer (fb s) f.
Proof.
  intros Hf [Hx Ht Hm] Hip Hk. unfold nentries in Hk. pose proof (ff_size _ _ Hx) as Hsz. change (MAXFILE * BSIZE) with 71680 in Hsz.
  assert (Hend : 16 * k + 16 <= i_size x) by zsolve.
  destruct (readi_ok devsw_read s ip x (16 * k) 16) as (f & Hr & H); [done|done|done|by rewrite Ht|lia|lia|lia|].
  exists f. split; [|done]. cbv zeta in Hr. replace (Z.min 16 (i_size x - 16 * k)) with 16 in Hr by lia. exact Hr.
Qed.

(** A loop over the entries that only reads until it finds one. *)
Lemma for_find_scan {C} (body : Z -> M (fsst B) (option C)) (p : Z -> bool) s (l : list Z) :
  layer_ok (fb s) ∅ ->
  (forall k f, k ∈ l -> layer_ok f ∅ -> same_layer (fb s) f -> p k = false ->
     exists f', body (16 * k) (set_fb f s) = Ok None (set_fb f' s) /\ layer_ok f' ∅ /\ same_layer (fb s) f') ->
  forall f, layer_ok f ∅ -> same_layer (fb s) f ->
  exists f', layer_ok f' ∅ /\ same_layer (fb s) f' /\
  match List.find p l with
  | None => for_find ((fun k => 16 * k) <$> l) body (set_fb f s) = Ok None (set_fb f' s)
  | Some k => forall c s', body (16 * k) (set_fb f' s) = Ok (Some c) s' ->
      for_find ((fun k => 16 * k) <$> l) body (set_fb f s) = Ok (Some c) s'
  end.
Proof.
  intros Hl. induction l as [|k l IH]; intros Hmiss f Hf Hs.
  { exists f. done. }
  rewrite fmap_cons. cbn [for_find List.find]. destruct (p k) eqn:Hp.
  - exists f. split; [done|]. split; [done|]. intros c s' H. by rewrite (bind_ok _ _ _ _ _ H).
  - destruct (Hmiss k f ltac:(by left) Hf Hs Hp) as (f1 & H1 & Hl1 & Hs1).
    destruct (IH ltac:(intros; apply Hmiss; [by right|done..]) f1 Hl1 Hs1) as (f2 & Hl2 & Hs2 & H2).
    exists f2. split; [done|]. split; [done|]. destruct (List.find p l) as [k'|].
    + intros c s' Hc. rewrite (bind_ok _ _ _ _ _ H1). by apply H2.
    + by rewrite (bind_ok _ _ _ _ _ H1).
Qed.

Lemma de_offs_dir x : i_size x mod 16 = 0 -> 0 <= i_size x -> de_offs (i_size x) = (fun k => 16 * k) <$> range 0 (Z.to_nat (nentries x)).
Proof. intros H H0. unfold de_offs, nentries. by replace ((i_size x + 15) / 16) with (i_size x / 16) by zsolve. Qed.

Lemma bind_geti {A C} s ip x (g : inode -> A) (k : A -> M (fsst B) C) : inodes s !! ip = Some x -> bind (geti ip g) k s = k (g x) s.
Proof. intros H. unfold geti, gets, bind, inode_at. by rewrite (nth_lookup_Some _ _ _ _ H). Qed.

(** [iget]: the slot that caches the inode, or a free one. *)
Definition iget_slot (l : list inode) (dev inum : Z) : option (nat * list inode) :=
  match list_find (fun ip => icached dev inum ip = true) l with
  | Some (i, y) => Some (i, <[i := set_i_ref (s32 (i_ref y + 1)) y]> l)
  | None =>
      match list_find (fun ip => ifree ip = true) l with
      | Some (i, y) => Some (i, <[i := set_i_id dev inum 1 0 y]> l)
      | None => None
      end
  end.

Lemma alter_as_insert {A} (g : A -> A) i y (l : list A) : l !! i = Some y -> alter g i l = <[i := g y]> l.
Proof. revert i. induction l as [|z l IH]; intros [|i] H; simplify_eq/=; [done|]. f_equal. by apply IH. Qed.

Lemma iget_ok s dev inum i l' : ic_lock s = Unlocked -> iget_slot (inodes s) dev inum = Some (i, l') ->
  iget dev inum s = Ok i (set_inodes l' s).
Proof.
  intros Hl H. unfold iget_slot in H. unfold iget. rewrite bind_acquire by done. unfold bind at 1, gets at 1.
  change (inodes (over ic_lock_of HeldHere s)) with (inodes s).
  assert (Hrel : forall j y g, inodes s !! j = Some y ->
    (seti j g ;; lock_release ic_lock_of ;; ret j) (over ic_lock_of HeldHere s) = Ok j (set_inodes (<[j := g y]> (inodes s)) s)).
  { intros j y g Hj. unfold seti, bind at 1, modify. rewrite bind_release by done. unfold ret. f_equal.
    destruct s; simpl in *. subst. by rewrite (alter_as_insert g j y). }
  destruct (list_find _ (inodes s)) as [[j y]|] eqn:E1.
  - simplify_eq. apply list_find_Some in E1 as (Hj & _ & _). by rewrite (Hrel i y).
  - destruct (list_find (fun ip => ifree ip = true) (inodes s)) as [[j y]|] eqn:E2; [|done].
    simplify_eq. apply list_find_Some in E2 as (Hj & _ & _). by rewrite (Hrel i y).
Qed.

Section lookup.
Context (s : fsst B) (dp : nat) (x : inode) (name : list Z).
Hypothesis Hf : fs_ok s ∅.
Hypothesis Hd : is_dir s x.
Hypothesis Hip : inodes s !! dp = Some x.

Lemma is_dir_set_fb f : same_layer (fb s) f -> is_dir (set_fb f s) x.
Proof. intros Hs. destruct Hd as [H1 H2 H3]. split; [by apply full_file_set_fb|done|done]. Qed.

Lemma read_entry_fb f k : layer_ok f ∅ -> same_layer (fb s) f -> 0 <= k < nentries x ->
  exists f', readi devsw_read dp (16 * k) 16 (set_fb f s) = Ok (16, dentry s x k) (set_fb f' s) /\ layer_ok f' ∅ /\ same_layer (fb s) f'.
Proof.
  intros Hl Hs Hk.
  destruct (read_entry (set_fb f s) dp x k) as (f' & Hr & Hl' & Hs'); [by apply (fs_ok_same s f ∅)|by apply is_dir_set_fb|done|done|].
  exists f'. rewrite dentry_set_fb in Hr by done. split; [exact Hr|]. split; [done|by etrans].
Qed.

Lemma lookup_miss f k : layer_ok f ∅ -> same_layer (fb s) f -> 0 <= k < nentries x -> hit s x name k = false ->
  exists f', dirlookup_at devsw_read dp name (16 * k) (set_fb f s) = Ok None (set_fb f' s) /\ layer_ok f' ∅ /\ same_layer (fb s) f'.
Proof.
  intros Hl Hs Hk Hh. destruct (read_entry_fb f k Hl Hs Hk) as (f' & Hr & H'). exists f'. split; [|done].
  unfold dirlookup_at. rewrite (bind_ok _ _ _ _ _ Hr). cbv beta iota. change (negb (16 =? 16)) with false. cbv iota.
  unfold hit in Hh. destruct (de_inum (dentry s x k) =? 0); [done|]. simpl in Hh. by rewrite Hh.
Qed.

Lemma dirlookup_ok : exists f, layer_ok f ∅ /\ same_layer (fb s) f /\
  match dir_find s x name with
  | None => dirlookup devsw_read dp name s = Ok None (set_fb f s)
  | Some k => forall i l', iget_slot (inodes s) 1 (de_inum (dentry s x k)) = Some (i, l') ->
      dirlookup devsw_read dp name s = Ok (Some (i, 16 * k)) (set_inodes l' (set_fb f s))
  end.
Proof.
  pose proof Hd as [Hx Ht Hm]. pose proof (ff_size _ _ Hx) as Hsz.
  assert (Hr : forall k, k ∈ range 0 (Z.to_nat (nentries x)) -> 0 <= k < nentries x).
  { intros k Hk. apply elem_of_range in Hk. lia. }
  destruct (for_find_scan (dirlookup_at devsw_read dp name) (hit s x name) s (range 0 (Z.to_nat (nentries x))) (fo_layer _ _ Hf)
    (fun k f Hk Hl Hs Hh => lookup_miss f k Hl Hs (Hr k Hk) Hh) (fb s) (fo_layer _ _ Hf)) as (f & Hl & Hs & H); [done|].
  rewrite <- (de_offs_dir x) in H by (done || lia).
  assert (Hid : set_fb (fb s) s = s) by (by destruct s). rewrite Hid in H.
  assert (E : dirlookup devsw_read dp name s = for_find (de_offs (i_size x)) (dirlookup_at devsw_read dp name) s).
  { unfold dirlookup. rewrite (bind_geti s dp x) by done. unfold id. by rewrite Ht. }
  unfold dir_find. destruct (List.find (hit s x name) _) as [k|] eqn:Hfind.
  - apply find_range_some in Hfind as (Hk & Hhit & _). unfold hit in Hhit. apply andb_true_iff in Hhit as [H1 H2].
    destruct (read_entry_fb f k Hl Hs ltac:(lia)) as (f' & Hr' & Hl' & Hs'). exists f'. split; [done|]. split; [done|].
    intros i l' Hget. rewrite E. apply H. unfold dirlookup_at. rewrite (bind_ok _ _ _ _ _ Hr'). cbv beta iota.
    change (negb (16 =? 16)) with false. cbv iota. apply negb_true_iff in H1. rewrite H1, H2.
    rewrite (bind_geti (set_fb f' s) dp x) by done. rewrite (fk_dev _ _ (ff_ok _ _ Hx)).
    erewrite bind_ok by (apply iget_ok; [apply (fo_iclock _ _ Hf)|exact Hget]). done.
  - exists f. split; [done|]. split; [done|]. by rewrite E.
Qed.
End lookup.

(* ------------------------------------------------------------------ *)
(** * Adding an entry *)

(** The entry that [dirlink] writes. *)
Definition new_entry (old name : list Z) (inum : Z) : list Z := put16 [0; 0] 0 inum ++ de_copy_name (de_name old) name.

Lemma new_entry_ok old name inum : bytes_in name -> 0 < inum < 65536 ->
  length (new_entry old name inum) = 16%nat /\ bytes_in (new_entry old name inum) /\
  de_inum (new_entry old name inum) = inum /\ de_name (new_entry old name inum) = de_copy_name (de_name old) name.
Proof.
  intros Hn Hi. pose proof (copy_name_length (de_name old) name) as Hl. unfold DIRSIZ in Hl. unfold new_entry.
  assert (Hp : length (put16 [0; 0] 0 inum) = 2%nat) by (by rewrite put16_length).
  split; [rewrite length_app; lia|]. split; [apply Forall_app; split; [apply put16_bytes; repeat constructor; lia|by apply copy_name_bytes]|].
  split.
  - unfold de_inum. assert (Hu : u16 inum = inum) by zsolve. rewrite <- Hu at 2. rewrite <- (get16_put16 [0; 0] 0 inum) by (simpl; lia).
    unfold get16, get8. change (Z.to_nat 0) with 0%nat. change (Z.to_nat (0 + 1)) with 1%nat. rewrite !app_nth1 by lia. done.
  - set (c := de_copy_name _ _) in *. clearbody c. unfold de_name, slice. change (Z.to_nat 14) with 14%nat. change (Z.to_nat 2) with 2%nat.
    rewrite drop_app_length' by done. by rewrite take_ge by lia.
Qed.

(** The free entry that [dirlink] takes, or the end. *)
Definition free_entry s x (k : Z) : bool := de_inum (dentry s x k) =? 0.
Definition link_slot s x : Z := default (nentries x) (List.find (free_entry s x) (range 0 (Z.to_nat (nentries x)))).

(** Reading changes nothing that a write starts from. *)
Section reads.
Context (s : fsst B) (f : B).
Hypothesis Hs : same_layer (fb s) f.

Lemma used_set_fb b : used (set_fb f s) b = used s b.
Proof. unfold used. by rewrite same_blk. Qed.

Lemma nfree_set_fb : nfree (set_fb f s) = nfree s.
Proof. unfold nfree. f_equal. apply list_filter_iff. intros b. by rewrite used_set_fb. Qed.

Lemma on_disk_set_fb j : inode_on_disk (set_fb f s) j = inode_on_disk s j.
Proof. unfold inode_on_disk. by rewrite same_blk. Qed.

Lemma written_file_set_fb s' x x' off src : written_file (set_fb f s) s' x x' off src -> written_file s s' x x' off src.
Proof.
  intros [W1 W2 W3 W4 W5 W6 W7 W8 W9]. split; try done.
  - intros o Ho. rewrite W6 by done. by rewrite file_byte_set_fb.
  - intros y Hy Hdis o Ho. rewrite W7; [by apply file_byte_set_fb|by apply file_ok_set_fb| |done].
    intros b Hb Hb'. apply (Hdis b); unfold belongs in *; setoid_rewrite file_blk_set_fb in Hb; setoid_rewrite file_blk_set_fb in Hb'; done.
  - intros j Hj Hne. rewrite W8 by done. by rewrite on_disk_set_fb.
  - intros b Hb. apply W9 in Hb. simpl in Hb. by rewrite (sl_in_log _ _ Hs) in Hb.
Qed.
End reads.

Section link.
Context (s : fsst B) (dp : nat) (x : inode) (name : list Z) (inum : Z).
Hypothesis Hf : fs_ok s ∅.
Hypothesis Hd : is_dir s x.
Hypothesis Hip : inodes s !! dp = Some x.
Hypothesis Hio : inode_ok s x.
Hypothesis Hsy : synced s x.
Hypothesis Hname : bytes_in name.
Hypothesis Hinum : 0 < inum < 65536.

Lemma slot_range_ : 0 <= link_slot s x <= nentries x /\ (link_slot s x < nentries x -> free_entry s x (link_slot s x) = true).
Proof.
  pose proof (ff_size _ _ (id_file _ _ Hd)) as Hsz. assert (0 <= nentries x) by (unfold nentries; zsolve).
  unfold link_slot. destruct (List.find _ _) as [k|] eqn:E; simpl; [|lia].
  apply find_range_some in E as (Hk & Hfr & _). split; [lia|done].
Qed.

Lemma slot_miss f k : layer_ok f ∅ -> same_layer (fb s) f -> 0 <= k < nentries x -> free_entry s x k = false ->
  exists f', dirlink_slot devsw_read dp (16 * k) (set_fb f s) = Ok None (set_fb f' s) /\ layer_ok f' ∅ /\ same_layer (fb s) f'.
Proof.
  intros Hl Hs Hk Hh. destruct (read_entry_fb s dp x Hf Hd Hip f k Hl Hs Hk) as (f' & Hr & H'). exists f'. split; [|done].
  unfold dirlink_slot. rewrite (bind_ok _ _ _ _ _ Hr). cbv beta iota. change (negb (16 =? 16)) with false. cbv iota.
  unfold free_entry in Hh. by rewrite Hh.
Qed.

(** The search for a free entry. *)
Lemma find_slot_ok f : layer_ok f ∅ -> same_layer (fb s) f -> exists f' r, layer_ok f' ∅ /\ same_layer (fb s) f' /\
  for_find (de_offs (i_size x)) (dirlink_slot devsw_read dp) (set_fb f s) = Ok r (set_fb f' s) /\
  exists old, default (16 * ((i_size x + 15) / 16), []) r = (16 * link_slot s x, old).
Proof.
  intros Hl Hs. pose proof Hd as [Hx Ht Hm]. pose proof (ff_size _ _ Hx) as Hsz.
  assert (Hr : forall k, k ∈ range 0 (Z.to_nat (nentries x)) -> 0 <= k < nentries x) by (intros k Hk; apply elem_of_range in Hk; lia).
  destruct (for_find_scan (dirlink_slot devsw_read dp) (free_entry s x) s (range 0 (Z.to_nat (nentries x))) (fo_layer _ _ Hf)
    (fun k f Hk Hl Hs Hh => slot_miss f k Hl Hs (Hr k Hk) Hh) f Hl Hs) as (f1 & Hl1 & Hs1 & H).
  rewrite <- (de_offs_dir x) in H by (done || lia). unfold link_slot.
  destruct (List.find (free_entry s x) _) as [k|] eqn:Hfind; simpl.
  - apply find_range_some in Hfind as (Hk & Hhit & _).
    destruct (read_entry_fb s dp x Hf Hd Hip f1 k Hl1 Hs1 ltac:(lia)) as (f2 & Hr2 & Hl2 & Hs2).
    exists f2, (Some (16 * k, dentry s x k)). split; [done|]. split; [done|]. split; [|by eexists]. apply H.
    unfold dirlink_slot. rewrite (bind_ok _ _ _ _ _ Hr2). cbv beta iota. change (negb (16 =? 16)) with false. cbv iota.
    unfold free_entry in Hhit. by rewrite Hhit.
  - exists f1, None. split; [done|]. split; [done|]. split; [done|]. exists []. unfold nentries. simpl.
    by replace ((i_size x + 15) / 16) with (i_size x / 16) by zsolve.
Qed.

(** The directory after the write. *)
Section after.
Context (s' : fsst B) (x' : inode) (de : list Z).
Hypothesis Hw : written_file s s' x x' (16 * link_slot s x) de.
Hypothesis Hde : length de = 16%nat.
Hypothesis Hdi : de_inum de = inum.
Hypothesis Hdn : fname (de_name de) = fname name.
Hypothesis Hdb : bytes_in (de_name de).

Lemma link_entries : nentries x' = Z.max (nentries x) (link_slot s x + 1) /\ is_dir s' x' /\
  forall k, 0 <= k < nentries x' -> dentry s' x' k = if decide (k = link_slot s x) then de else dentry s x k.
Proof.
  pose proof (wf_size _ _ _ _ _ _ Hw) as Hsz. rewrite decide_False, Hde in Hsz by (by intros ->).
  pose proof slot_range_ as [Hr _]. pose proof Hd as [Hx Ht Hm].
  assert (Hn : nentries x' = Z.max (nentries x) (link_slot s x + 1)) by (unfold nentries in *; rewrite Hsz; zsolve).
  split; [done|]. split.
  { split; [apply Hw|by rewrite (proj1 (wf_meta _ _ _ _ _ _ Hw))|unfold nentries in *; rewrite Hsz; zsolve]. }
  pose proof (ff_size _ _ (wf_file _ _ _ _ _ _ Hw)) as Hsz'. intros k Hk.
  assert (Hks : 16 * k + 16 <= i_size x') by (unfold nentries in Hk; zsolve).
  apply list_eq. intros j. unfold dentry. destruct (decide (j < 16)%nat) as [Hj|Hj].
  2:{ rewrite lookup_ge_None_2 by (rewrite length_fmap, range_length; lia).
      destruct (decide _); by rewrite lookup_ge_None_2 by (rewrite ?length_fmap, ?range_length; lia). }
  rewrite list_lookup_fmap, range_lookup by done. simpl. rewrite (wf_byte _ _ _ _ _ _ Hw) by lia. rewrite Hde.
  destruct (decide (k = link_slot s x)) as [->|Hne].
  - destruct (Z.leb_spec (16 * link_slot s x) (16 * link_slot s x + Z.of_nat j)); [|lia].
    destruct (Z.ltb_spec (16 * link_slot s x + Z.of_nat j) (16 * link_slot s x + Z.of_nat 16)); [|lia]. simpl.
    replace (Z.to_nat (16 * link_slot s x + Z.of_nat j - 16 * link_slot s x)) with j by lia.
    destruct (lookup_lt_is_Some_2 de j) as [v Hv]; [lia|]. by rewrite Hv, (nth_lookup_Some _ _ _ _ Hv).
  - rewrite list_lookup_fmap, range_lookup by done. simpl.
    destruct (Z.leb_spec (16 * link_slot s x) (16 * k + Z.of_nat j)), (Z.ltb_spec (16 * k + Z.of_nat j) (16 * link_slot s x + Z.of_nat 16)); try lia; done.
Qed.

Lemma link_hits nm k : bytes_in nm -> 0 <= k < nentries x' ->
  hit s' x' nm k = if decide (k = link_slot s x) then bool_decide (fname nm = fname name) else hit s x nm k.
Proof.
  intros Hnm Hk. destruct link_entries as (_ & _ & He). unfold hit. rewrite (He k Hk). destruct (decide (k = link_slot s x)); [|done].
  rewrite Hdi, (proj2 (Z.eqb_neq inum 0)) by lia. simpl. destruct (Z.eqb_spec (namecmp nm (de_name de)) 0) as [E|E].
  - rewrite namecmp_fname in E by done. symmetry. apply bool_decide_eq_true. congruence.
  - rewrite namecmp_fname in E by done. symmetry. apply bool_decide_eq_false. congruence.
Qed.

Lemma link_slot_miss nm : link_slot s x < nentries x -> hit s x nm (link_slot s x) = false.
Proof. intros H. destruct slot_range_ as [_ Hfr]. specialize (Hfr H). unfold free_entry in Hfr. unfold hit. by rewrite Hfr. Qed.

Lemma link_find nm : bytes_in nm -> (forall k, 0 <= k < nentries x -> hit s x name k = false) ->
  (forall k, 0 <= k < nentries x -> fname nm = fname name -> hit s x nm k = hit s x name k) ->
  dir_find s' x' nm = if decide (fname nm = fname name) then Some (link_slot s x) else dir_find s x nm.
Proof.
  intros Hnm Hnone Hsame. destruct link_entries as (Hn & _ & _). pose proof slot_range_ as [Hr _].
  unfold dir_find. case_decide as Hfn.
  - apply find_range_first; [lia| |].
    + rewrite link_hits, decide_True by (done || lia). by apply bool_decide_eq_true.
    + intros k Hk. rewrite link_hits, decide_False by (done || lia). rewrite Hsame by (done || lia). apply Hnone. lia.
  - destruct (List.find (hit s x nm) _) as [k|] eqn:E.
    + apply find_range_some in E as (Hk & Hh & Hb). rewrite Z2Nat.id in Hk by (unfold nentries in *; lia).
      assert (Hne : k <> link_slot s x) by (intros ->; by rewrite link_slot_miss in Hh by lia).
      apply find_range_first; [lia|by rewrite link_hits, decide_False by (done || lia)|].
      intros j Hj. rewrite link_hits by (done || lia). destruct (decide _); [by apply bool_decide_eq_false|by apply Hb].
    + destruct (List.find (hit s' x' nm) _) as [k|] eqn:E'; [|done].
      apply find_range_some in E' as (Hk & Hh & _). rewrite link_hits in Hh by (done || lia). destruct (decide (k = link_slot s x)) as [->|Hne].
      * by apply bool_decide_eq_true in Hh.
      * by rewrite (find_range_none _ _ _ k E) in Hh by lia.
Qed.

(** The map after the write. *)
Lemma link_map nm : bytes_in nm -> (forall k, 0 <= k < nentries x -> hit s x name k = false) ->
  (forall k, 0 <= k < nentries x -> fname nm = fname name -> hit s x nm k = hit s x name k) ->
  dir_map s' x' nm = if decide (fname nm = fname name) then Some inum else dir_map s x nm.
Proof.
  intros Hnm Hnone Hsame. destruct link_entries as (Hn & _ & He). pose proof slot_range_ as [Hr _].
  unfold dir_map. rewrite link_find by done. case_decide as Hfn; simpl.
  - rewrite He, decide_True by (done || lia). by rewrite Hdi.
  - destruct (dir_find s x nm) as [k|] eqn:E; simpl; [|done]. unfold dir_find in E.
    apply find_range_some in E as (Hk & Hh & _). rewrite Z2Nat.id in Hk by (unfold nentries in *; lia).
    rewrite He, decide_False; [done| |lia]. intros ->. by rewrite link_slot_miss in Hh by lia.
Qed.
End after.

(** The bytes of an entry. *)
Lemma file_byte_range o : 0 <= o < MAXFILE * BSIZE -> 0 <= file_byte s x o < 256.
Proof.
  intros Ho. unfold file_byte. destruct (Z.eqb_spec (file_blk s x (o / BSIZE)) 0) as [|Hz]; [lia|].
  change BSIZE with 512 in *. change MAXFILE with 140 in *.
  destruct (fk_blk _ _ (ff_ok _ _ (id_file _ _ Hd)) (o / 512)) as [Hda _]; [change MAXFILE with 140; zsolve|done|].
  apply get8_range. apply (law_block (fb s) ∅); [apply Hf|]. rewrite (fo_size _ _ Hf). apply (data_in_disk s ∅ _ Hf) in Hda. lia.
Qed.

Lemma dentry_bytes k : 0 <= k < nentries x -> bytes_in (de_name (dentry s x k)).
Proof.
  intros Hk. apply slice_bytes. apply Forall_fmap, Forall_forall. intros o Ho. apply elem_of_range in Ho. simpl.
  apply file_byte_range. pose proof (ff_size _ _ (id_file _ _ Hd)). unfold nentries in Hk. zsolve.
Qed.

Lemma hit_fname nm k : bytes_in nm -> 0 <= k < nentries x -> fname nm = fname name -> hit s x nm k = hit s x name k.
Proof.
  intros Hnm Hk Hfn. pose proof (dentry_bytes k Hk) as Hb. unfold hit. f_equal. apply eq_true_iff_eq.
  rewrite !Z.eqb_eq, !namecmp_fname by done. by rewrite Hfn.
Qed.

Lemma dirlink_ok : dir_find s x name = None -> 16 * link_slot s x + 16 <= MAXFILE * BSIZE ->
  (size (in_log (fb s)) + 6 <= log_cap)%nat -> (2 <= nfree s)%nat ->
  exists f x', dirlink devsw_read devsw_write dp name inum s = Ok 0 (ist s f dp x') /\
    (exists de, written_file s (ist s f dp x') x x' (16 * link_slot s x) de) /\ is_dir (ist s f dp x') x' /\
    forall nm, bytes_in nm -> dir_map (ist s f dp x') x' nm = if decide (fname nm = fname name) then Some inum else dir_map s x nm.
Proof.
  intros Hnone Hroom Hcap Hfree. destruct (dirlookup_ok s dp x name Hf Hd Hip) as (f1 & Hl1 & Hs1 & H1). rewrite Hnone in H1.
  destruct (find_slot_ok f1 Hl1 Hs1) as (f2 & r & Hl2 & Hs2 & Hfind & old & Hr).
  destruct (new_entry_ok old name inum Hname Hinum) as (Le & Be & Ei & En). set (de := new_entry old name inum) in *.
  pose proof slot_range_ as [Hsl _]. pose proof Hd as [Hx Ht Hm]. pose proof (ff_size _ _ Hx) as Hsz.
  assert (Hch : nchunks (16 * link_slot s x) (Z.of_nat (length de)) = 1%nat).
  { rewrite Le. unfold nchunks. change BSIZE with 512. simpl. replace ((16 * link_slot s x) mod 512 + 16 - 1) with ((16 * link_slot s x) mod 512 + 15) by lia.
    rewrite Z.div_small by zsolve. done. }
  destruct (writei_ok devsw_write (set_fb f2 s) dp x (16 * link_slot s x) de) as (f3 & x' & Hw & W).
  - by apply (fs_ok_same s f2 ∅).
  - by apply full_file_set_fb.
  - destruct Hio as [I1 I2 I3]. by split.
  - unfold synced. by rewrite on_disk_set_fb.
  - done.
  - by rewrite Ht.
  - done.
  - unfold nentries in Hsl. zsolve.
  - rewrite Le. exact Hroom.
  - rewrite Hch. simpl fb. rewrite (sl_in_log _ _ Hs2). lia.
  - rewrite Hch, nfree_set_fb by done. lia.
  - apply written_file_set_fb in W; [|done]. change (ist (set_fb f2 s) f3 dp x') with (ist s f3 dp x') in *.
    assert (En1 : fname (de_name de) = fname name) by (by rewrite En, fname_copy).
    assert (En2 : bytes_in (de_name de)) by (rewrite En; by apply copy_name_bytes).
    exists f3, x'. split; [|split; [by exists de|split]].
    + unfold dirlink. rewrite (bind_ok _ _ _ _ _ H1). rewrite (bind_geti (set_fb f1 s) dp x) by done.
      rewrite (bind_ok _ _ _ _ _ Hfind). rewrite Hr. cbv beta iota. rewrite Le in Hw. fold de. rewrite (bind_ok _ _ _ _ _ Hw). done.
    + by destruct (link_entries (ist s f3 dp x') x' de W Le Ei En1) as (_ & H & _).
    + intros nm Hnm. assert (Hmiss : forall k, 0 <= k < nentries x -> hit s x name k = false).
      { intros k Hk. apply (find_range_none _ _ _ k Hnone). lia. }
      apply (link_map (ist s f3 dp x') x' de W Le Ei En1 En2); try done.
      intros k Hk Hfn. by apply hit_fname.
Qed.
End link.

(** [dirlookup] in terms of the map. *)
Lemma dirlookup_map s dp x nm : fs_ok s ∅ -> is_dir s x -> inodes s !! dp = Some x ->
  match dir_map s x nm with
  | None => exists f, dirlookup devsw_read dp nm s = Ok None (set_fb f s)
  | Some j => forall i l', iget_slot (inodes s) 1 j = Some (i, l') ->
      exists off f, dirlookup devsw_read dp nm s = Ok (Some (i, off)) (set_inodes l' (set_fb f s))
  end.
Proof.
  intros Hf Hd Hip. destruct (dirlookup_ok s dp x nm Hf Hd Hip) as (f & _ & _ & H). unfold dir_map.
  destruct (dir_find s x nm) as [k|]; simpl; [|by exists f]. intros i l' Hg. exists (16 * k), f. by apply H.
Qed.

(** C16: a directory is a map from names to inode numbers.  [dirlink] of a name
    that is not there inserts it and changes no other name, in the first free
    entry or at the end, and no other file; [dirlookup] returns the inode of the
    number that the map has for the name, as [iget] gives it, or 0.  Names are
    the same when their first fourteen bytes are, up to a NUL. *)
Theorem dirlink_dirlookup s dp x name inum : fs_ok s ∅ -> is_dir s x -> inodes s !! dp = Some x -> inode_ok s x -> synced s x ->
  bytes_in name -> 0 < inum < 65536 -> dir_map s x name = None -> 16 * link_slot s x + 16 <= MAXFILE * BSIZE ->
  (size (in_log (fb s)) + 6 <= log_cap)%nat -> (2 <= nfree s)%nat ->
  exists f x', let s' := ist s f dp x' in
    dirlink devsw_read devsw_write dp name inum s = Ok 0 s' /\ is_dir s' x' /\
    (forall y, file_ok s y -> disjoint_files s x y -> forall o, 0 <= o < MAXFILE * BSIZE -> file_byte s' y o = file_byte s y o) /\
    (forall nm, bytes_in nm -> dir_map s' x' nm = if decide (fname nm = fname name) then Some inum else dir_map s x nm) /\
    forall nm, match dir_map s' x' nm with
      | None => exists f', dirlookup devsw_read dp nm s' = Ok None (set_fb f' s')
      | Some j => forall i l', iget_slot (inodes s') 1 j = Some (i, l') ->
          exists off f', dirlookup devsw_read dp nm s' = Ok (Some (i, off)) (set_inodes l' (set_fb f' s'))
      end.
Proof.
  intros Hf Hd Hip Hio Hsy Hn Hi Hnone Hroom Hcap Hfree.
  assert (Hfind : dir_find s x name = None) by (unfold dir_map in Hnone; by destruct (dir_find s x name)).
  destruct (dirlink_ok s dp x name inum Hf Hd Hip Hio Hsy Hn Hi Hfind Hroom Hcap Hfree) as (f & x' & H & (de & W) & Hd' & Hmap).
  exists f, x'. cbv zeta. split; [exact H|]. split; [done|]. split; [apply (wf_others _ _ _ _ _ _ W)|]. split; [done|].
  intros nm. apply dirlookup_map; [apply (wf_fs _ _ _ _ _ _ W)|done|by eapply ist_lookup].
Qed.
End dir.

(** ** The hypotheses can hold: an empty directory *)

Definition w_dir : inode := Inode 1 3 1 SMine 1 T_DIR 0 0 1 0 (5 :: replicate 12 0).
Definition w_dblocks : list block :=
  <[2%nat := put_dinode (dinode_of w_dir) (dinode_off 3) zero_block]>
  (<[4%nat := put8 zero_block 0 63]> (replicate 20 zero_block)).
Definition w_dirfs : fsst memb := Fsst (Memb w_dblocks [] []) w_sb Unlocked [w_dir; Inode 0 0 0 SFree 0 0 0 0 0 0 (replicate 13 0)].

Lemma w_dirfs_ok : fs_ok w_dirfs ∅.
Proof.
  split.
  - split; simpl.
    + unfold w_dblocks. repeat apply Forall_insert; [apply Forall_replicate, zero_block_ok|apply put8_ok, zero_block_ok|apply put_dinode_ok, zero_block_ok].
    + intros i b Hi. by rewrite lookup_empty in Hi.
    + intros b Hb. by apply elem_of_nil in Hb.
    + constructor.
    + unfold LOGCAP. lia.
  - split; vm_compute; repeat split; intros; discriminate.
  - reflexivity.
  - intros b Hb. assert (E : data_start (sb w_dirfs) = 5) by reflexivity. rewrite E in Hb.
    assert (Hc : b = 0 \/ b = 1 \/ b = 2 \/ b = 3 \/ b = 4) by lia.
    destruct Hc as [->|[->|[->|[->| -> ]]]]; vm_compute; reflexivity.
  - reflexivity.
Qed.

Lemma w_dir_blk bn : 0 <= bn < MAXFILE -> file_blk w_dirfs w_dir bn = if bn =? 0 then 5 else 0.
Proof.
  intros Hb. change MAXFILE with 140 in Hb. unfold file_blk. simpl. change NDIRECT with 12. destruct (Z.ltb_spec bn 12) as [H|H].
  - assert (Hc : bn ∈ seqZ 0 12) by (apply elem_of_seqZ; lia). repeat (apply elem_of_cons in Hc as [->|Hc]; [reflexivity|]).
    by apply elem_of_nil in Hc.
  - destruct (Z.eqb_spec bn 0); [lia|reflexivity].
Qed.

Lemma w_is_dir : is_dir w_dirfs w_dir.
Proof.
  assert (H5 : in_use w_dirfs 5) by (split; [vm_compute; split; congruence|vm_compute; reflexivity]).
  split; [split; [split|..]|reflexivity|reflexivity].
  - done.
  - done.
  - done.
  - intros bn Hb. rewrite (w_dir_blk bn Hb). by destruct (bn =? 0).
  - intros bn bn' Hb Hb'. rewrite (w_dir_blk bn Hb), (w_dir_blk bn' Hb'). destruct (Z.eqb_spec bn 0), (Z.eqb_spec bn' 0); (lia || congruence).
  - intros bn Hb. rewrite (w_dir_blk bn Hb). by destruct (bn =? 0).
  - vm_compute. split; congruence.
  - change BSIZE with 512. simpl. intros bn Hb Hs. lia.
Qed.

Lemma dirlink_dirlookup_witness : exists f x', dirlink no_dev no_dev 0 [97; 98] 7 w_dirfs = Ok 0 (ist w_dirfs f 0 x') /\
  dir_map (ist w_dirfs f 0 x') x' [97; 98] = Some 7.
Proof.
  assert (Hb : bytes_in [97; 98]) by (repeat constructor; lia).
  destruct (dirlink_dirlookup no_dev no_dev w_dirfs 0 w_dir [97; 98] 7 w_dirfs_ok w_is_dir) as (f & x' & H & _ & _ & Hm & _).
  - reflexivity.
  - split; [done|simpl; lia|]. split; simpl; unfold short, T_DIR; (lia || done || idtac). repeat (constructor; [lia|]). constructor.
  - vm_compute. reflexivity.
  - exact Hb.
  - lia.
  - vm_compute. reflexivity.
  - vm_compute. congruence.
  - vm_compute. lia.
  - vm_compute. lia.
  - exists f, x'. split; [exact H|]. rewrite (Hm [97; 98] Hb). by rewrite decide_True.
Defined.
