(* ===== verification/FsPath.v ===== *)
(** Path names: [skipelem] takes a path apart at its slashes, and [namex] is the
    walk along the elements, with no bound on its length. *)

From S2P Require Import Prelude StringC Spinlock Sleeplock Block Bio Log Layer Fs.

(** ** The elements of a path *)

(** The pieces between the separators, the empty ones included. *)
Fixpoint split_on (c : Z) (l : list Z) : list (list Z) :=
  match l with
  | [] => [[]]
  | x :: l' =>
      if x =? c then [] :: split_on c l'
      else match split_on c l' with [] => [[x]] | h :: t => (x :: h) :: t end
  end.

(** The elements: the pieces between slashes that are not empty. *)
Definition elements (path : list Z) : list (list Z) := filter (fun e => e <> []) (split_on 47 path).

Lemma split_on_cons c x l : x <> c ->
  split_on c (x :: l) = (x :: hd [] (split_on c l)) :: tl (split_on c l).
Proof. intros H. simpl. destruct (Z.eqb_spec x c); [done|]. by destruct (split_on c l). Qed.

Lemma elements_skip path : elements (skip_slashes path) = elements path.
Proof.
  induction path as [|c path IH]; [done|]. simpl. destruct (Z.eqb_spec c 47) as [->|]; [|done].
  rewrite IH. unfold elements. simpl. by rewrite filter_cons_False by (intros H; by apply H).
Qed.

Lemma skip_slashes_shape path : skip_slashes path = [] \/ exists c r, skip_slashes path = c :: r /\ c <> 47.
Proof. induction path as [|c path IH]; simpl; [by left|]. destruct (Z.eqb_spec c 47); [done|right; eauto]. Qed.

Lemma skip_slashes_length path : (length (skip_slashes path) <= length path)%nat.
Proof. induction path as [|c path IH]; simpl; [lia|]. destruct (c =? 47); simpl; lia. Qed.

(** The element taken is the first piece; what follows has the other pieces. *)
Lemma take_elem_split path :
  let '(e, r) := take_elem path in
  split_on 47 path = e :: tl (split_on 47 path) /\ elements r = filter (fun e => e <> []) (tl (split_on 47 path)) /\
  length path = (length e + length r)%nat.
Proof.
  induction path as [|c path IH]; simpl; [done|]. destruct (Z.eqb_spec c 47) as [->|n].
  - split; [done|]. split; [|done]. unfold elements. simpl. by rewrite filter_cons_False by (intros H; by apply H).
  - destruct (take_elem path) as [e r]. destruct IH as (H1 & H2 & H3). rewrite H1. simpl. split; [done|]. split; [done|lia].
Qed.

(** [skipelem] finds the first element of the path, cut to fourteen bytes, and
    leaves a path of the others that does not begin with a slash: it is empty
    exactly when the element was the last one, and always shorter. *)
Lemma skipelem_elements path :
  match elements path with
  | [] => skipelem path = None
  | e :: es => exists rest, skipelem path = Some (take DIRSIZ e, rest) /\ elements rest = es /\
      (rest = [] <-> es = []) /\ (length rest < length path)%nat
  end.
Proof.
  unfold skipelem. rewrite <- (elements_skip path). pose proof (skip_slashes_length path) as Hl.
  destruct (skip_slashes_shape path) as [E|(c & r & E & Hc)]; [by rewrite E|].
  rewrite E in *. pose proof (take_elem_split (c :: r)) as H.
  assert (He : exists e, fst (take_elem (c :: r)) = c :: e).
  { simpl. destruct (Z.eqb_spec c 47); [done|]. destruct (take_elem r); simpl; eauto. }
  destruct (take_elem (c :: r)) as [e r']. destruct He as [e' He]. simpl in He. subst e. destruct H as (H1 & H2 & H3).
  unfold elements at 1. rewrite H1, filter_cons_True, <- H2 by done.
  exists (skip_slashes r'). split; [done|]. rewrite elements_skip. split; [done|]. split.
  - split; [intros E'; by rewrite <- elements_skip, E'|]. intros E'. rewrite <- elements_skip in E'.
    destruct (skip_slashes_shape r') as [->|(d & q & E2 & Hd)]; [done|]. exfalso. rewrite E2 in E'. unfold elements in E'.
    rewrite split_on_cons in E' by done. by rewrite filter_cons_True in E' by done.
  - pose proof (skip_slashes_length r'). simpl in *. lia.
Qed.

(** ** The walk *)
Section walk.
Context {B : Type} {OB : BlockOps B}.
Context (devsw_read : Z -> option (nat -> Z -> M (fsst B) (Z * list Z))).

(** The walk along a list of elements, by recursion on the list. *)
Fixpoint walk (ip : nat) (es : list (list Z)) (parent : bool) (name : list Z) : M (fsst B) (option nat * list Z) :=
  match es with
  | [] => if parent then iput ip ;; ret (None, name) else ret (Some ip, name)
  | e :: es' =>
      let name := take DIRSIZ e in
      ilock ip ;;
      ty <- geti ip i_type ;;
      if negb (ty =? T_DIR) then iunlockput ip ;; ret (None, name)
      else if parent && bool_decide (es' = []) then iunlock ip ;; ret (Some ip, name)
      else
        next <- dirlookup devsw_read ip name ;;
        match next with
        | None => iunlockput ip ;; ret (None, name)
        | Some (next, _) => iunlockput ip ;; walk next es' parent name
        end
  end.

(** Fuel above the length of the path is enough. *)
Lemma namex_loop_walk fuel ip path parent name s : (length path < fuel)%nat ->
  namex_loop devsw_read fuel ip path parent name s = walk ip (elements path) parent name s.
Proof.
  revert ip path name s. induction fuel as [|fuel IH]; intros ip path name s Hf; [lia|].
  pose proof (skipelem_elements path) as H. simpl namex_loop. destruct (elements path) as [|e es]; [by rewrite H|].
  destruct H as (rest & -> & <- & He & Hl). cbn [walk]. apply bind_ext. intros _ s1. apply bind_ext. intros ty s2.
  destruct (negb (ty =? T_DIR)); [done|].
  rewrite (bool_decide_ext (rest = []) (elements rest = []) He).
  destruct (parent && _); [done|]. apply bind_ext. intros [[next off]|] s3; [|done].
  apply bind_ext. intros _ s4. apply IH. lia.
Qed.

(** C20: [namex] is the walk along the elements of the path, from the root when the
    path begins with a slash and from the current directory when it does not:
    the loop over the path stops for every path, after at most one round for
    each element, whatever the file system holds (links that lead back to a
    directory already passed included). *)
Theorem namex_walks cwd path parent s :
  namex devsw_read cwd path parent s =
  (ip <- (if bool_decide (head path = Some 47) then iget ROOTDEV ROOTINO else idup cwd) ;; walk ip (elements path) parent []) s.
Proof. unfold namex. apply bind_ext. intros ip s1. apply namex_loop_walk. lia. Qed.
End walk.
