(* ===== verification/Mkfs.v ===== *)
(** The builder of file system images (src/mkfs.c), which runs on the host.

    The image is the list of its blocks; numbers are stored little-endian, which
    is what [xshort] and [xint] are for.  A failed assertion, and an exit with an
    error, are the outcome [Panic].  The files are given by their names and by
    what the reads of their contents return, block by block. *)

From S2P Require Import Prelude StringC Spinlock Sleeplock Block Bio Log Layer Fs.

(* src/mkfs.c:18-18 NINODES *)
Definition NINODES : Z := 200.

(* src/param.h:13-13 FSSIZE *)
Definition FSSIZE : Z := 1000.

(* src/mkfs.c:23-23 nbitmap *)
Definition nbitmap : Z := FSSIZE / (BSIZE * 8) + 1.
(* src/mkfs.c:24-24 ninodeblocks *)
Definition ninodeblocks : Z := NINODES / IPB + 1.
(* src/mkfs.c:25-25 nlog *)
Definition nlog : Z := LOGSIZE.
(* src/mkfs.c:94-94 main *)
Definition nmeta : Z := 2 + nlog + ninodeblocks + nbitmap.

(* src/mkfs.c:95-103 main *)
Definition mk_sb : superblock :=
  Superblock FSSIZE (FSSIZE - nmeta) NINODES nlog 2 (2 + nlog) (2 + nlog + ninodeblocks).

(* src/mkfs.c:29-33 freeinode *)
Record mkfs := Mkfs { img : list block; freeinode : Z; freeblock : Z }.

Definition set_img v s := Mkfs v (freeinode s) (freeblock s).
Definition set_freeinode v s := Mkfs (img s) v (freeblock s).
Definition set_freeblock v s := Mkfs (img s) (freeinode s) v.

(** [b++], for the next free block. *)
Definition next_block : M mkfs Z := b <- gets freeblock ;; modify (set_freeblock (b + 1)) ;; ret b.

(** A write beyond the end makes the image longer. *)

(* src/mkfs.c:170-181 wsect *)
Definition wsect (sec : Z) (d : block) : M mkfs unit :=
  modify (fun s => let i := Z.to_nat sec in set_img (<[i := d]> (img s ++ replicate (S i - length (img s)) zero_block)) s).

(* src/mkfs.c:210-221 rsect *)
Definition rsect (sec : Z) : M mkfs block :=
  i <- gets img ;;
  match i !! Z.to_nat sec with Some d => ret d | None => panic "read" end.

(* src/mkfs.c:183-195 winode *)
Definition winode (inum : Z) (di : dinode) : M mkfs unit :=
  let bn := IBLOCK inum mk_sb in
  d <- rsect bn ;;
  wsect bn (put_dinode di (dinode_off inum) d).

(* src/mkfs.c:197-208 rinode *)
Definition rinode (inum : Z) : M mkfs dinode :=
  d <- rsect (IBLOCK inum mk_sb) ;;
  ret (get_dinode d (dinode_off inum)).

(* src/mkfs.c:223-235 ialloc *)
Definition mk_ialloc (type : Z) : M mkfs Z :=
  inum <- gets freeinode ;;
  modify (set_freeinode (inum + 1)) ;;
  winode inum (Dinode type 0 0 1 0 (replicate 13 0)) ;;
  ret inum.

(* src/mkfs.c:237-251 balloc *)
Definition mk_balloc (used : Z) : M mkfs unit :=
  if negb (used <? BSIZE * 8) then panic "assert"
  else wsect (sb_bmapstart mk_sb) (fold_left (fun d i => mark_bit i d) (range 0 (Z.to_nat used)) zero_block).

Definition set_daddr (k v : Z) (di : dinode) : dinode :=
  Dinode (d_type di) (d_major di) (d_minor di) (d_nlink di) (d_size di) (<[Z.to_nat k := v]> (d_addrs di)).
Definition set_dsize (v : Z) (di : dinode) : dinode :=
  Dinode (d_type di) (d_major di) (d_minor di) (d_nlink di) v (d_addrs di).
Definition daddr (di : dinode) (k : Z) : Z := nth (Z.to_nat k) (d_addrs di) 0.

(** The block [fbn] of the file, allocated when it is not there: the inode, and
    the block. *)

(* src/mkfs.c:271-286 iappend *)
Definition file_block (din : dinode) (fbn : Z) : M mkfs (dinode * Z) :=
  if fbn <? NDIRECT then
    if daddr din fbn =? 0 then b <- next_block ;; ret (set_daddr fbn b din, b)
    else ret (din, daddr din fbn)
  else
    din <- (if daddr din NDIRECT =? 0 then b <- next_block ;; ret (set_daddr NDIRECT b din) else ret din) ;;
    ind <- rsect (daddr din NDIRECT) ;;
    let o := 4 * (fbn - NDIRECT) in
    if get32 ind o =? 0 then
      b <- next_block ;;
      wsect (daddr din NDIRECT) (put32 ind o b) ;;
      ret (din, b)
    else ret (din, get32 ind o).

(** [n] is the number of bytes of [p]. *)

(* src/mkfs.c:268-294 iappend *)
Fixpoint iappend_loop (fuel : nat) (din : dinode) (off : Z) (p : list Z) : M mkfs (dinode * Z) :=
  match fuel with
  | O => wait
  | S fuel' =>
      let n := Z.of_nat (length p) in
      if negb (0 <? n) then ret (din, off)
      else
        let fbn := off / BSIZE in
        if negb (fbn <? MAXFILE) then panic "assert"
        else
          r <- file_block din fbn ;;
          let '(din, x) := r in
          let n1 := Z.min n ((fbn + 1) * BSIZE - off) in
          d <- rsect x ;;
          wsect x (splice d (off - fbn * BSIZE) (take (Z.to_nat n1) p)) ;;
          iappend_loop fuel' din (off + n1) (drop (Z.to_nat n1) p)
  end.

(* src/mkfs.c:255-297 iappend *)
Definition iappend (inum : Z) (p : list Z) : M mkfs unit :=
  din <- rinode inum ;;
  r <- iappend_loop (S (length p)) din (d_size din) p ;;
  let '(din, off) := r in
  winode inum (set_dsize off din).

(** A directory entry: [bzero], the inode number, and [strcpy] or [strncpy] of
    the name. *)
Definition de_blank (inum : Z) : list Z := put16 (replicate 16 0) 0 inum.
Definition de_strcpy (inum : Z) (name : list Z) : list Z := splice (de_blank inum) 2 (name ++ [0]).
Definition de_strncpy (inum : Z) (name : list Z) : list Z := splice (de_blank inum) 2 (de_copy_name (replicate 14 0) name).

(** The underscore at the start of a name is skipped. *)
Definition file_name (arg : list Z) : list Z := match arg with c :: r => if c =? 95 then r else arg | [] => [] end.

Fixpoint append_all (inum : Z) (chunks : list (list Z)) : M mkfs unit :=
  match chunks with [] => ret tt | c :: chunks => iappend inum c ;; append_all inum chunks end.

(* src/mkfs.c:130-156 main *)
Fixpoint add_files (rootino : Z) (files : list (list Z * list (list Z))) : M mkfs unit :=
  match files with
  | [] => ret tt
  | (arg, chunks) :: files =>
      if existsb (Z.eqb 47) arg then panic "assert"
      else
        inum <- mk_ialloc T_FILE ;;
        iappend rootino (de_strncpy inum (file_name arg)) ;;
        append_all inum chunks ;;
        add_files rootino files
  end.

Fixpoint zero_all (l : list Z) : M mkfs unit := match l with [] => ret tt | i :: l => wsect i zero_block ;; zero_all l end.

(** The block with the super block. *)
Definition encode_sb (sb : superblock) : block :=
  put32 (put32 (put32 (put32 (put32 (put32 (put32 zero_block 0 (sb_size sb)) 4 (sb_nblocks sb)) 8 (sb_ninodes sb)) 12 (sb_nlog sb))
    16 (sb_logstart sb)) 20 (sb_inodestart sb)) 24 (sb_bmapstart sb).

(* src/mkfs.c:67-168 main *)
Definition mkfs_main (files : list (list Z * list (list Z))) : M mkfs unit :=
  modify (set_freeblock nmeta) ;;
  zero_all (range 0 (Z.to_nat FSSIZE)) ;;
  wsect 1 (encode_sb mk_sb) ;;
  rootino <- mk_ialloc T_DIR ;;
  if negb (rootino =? ROOTINO) then panic "assert"
  else
    iappend rootino (de_strcpy rootino [46]) ;;
    iappend rootino (de_strcpy rootino [46; 46]) ;;
    add_files rootino files ;;
    (* fix size of root inode dir *)
    din <- rinode rootino ;;
    winode rootino (set_dsize ((d_size din / BSIZE + 1) * BSIZE) din) ;;
    fb <- gets freeblock ;;
    mk_balloc fb.
