(* ===== verification/MkfsSpec.v ===== *)
(** The image that mkfs builds (src/mkfs.c), block by block: the blocks of each
    file are its own, they hold its bytes, and blocks are taken in order from the
    first one after the free map. *)

From S2P Require Import Prelude StringC Spinlock Sleeplock Block Bio Log Layer Fs FsBlocks FsFile FsWrite FsInode Mkfs.

#[local] Opaque range zero_block.

(* ------------------------------------------------------------------ *)
(** * Sectors *)

(** Who owns a block: the inode number, and the block of the file; 140 for the
    block of addresses. *)
Abbreviation owners := (gmap Z (Z * Z)).

Record disk_inv (i : list block) (own : owners) (fb : Z) : Prop := {
  di_len : length i = 1000%nat;
  di_ok : Forall block_ok i;
  di_own : forall b x, own !! b = Some x -> 59 <= b < fb;
  di_free : forall b, fb <= b < 1000 -> on_disk i b = zero_block;
  di_low : 59 <= fb <= 1000;
}.

Lemma on_disk_ok i own fb b : disk_inv i own fb -> block_ok (on_disk i b).
Proof.
  intros H. unfold on_disk. destruct (0 <=? b); [|apply zero_block_ok]. rewrite nth_lookup. destruct (i !! Z.to_nat b) as [d|] eqn:E; [|apply zero_block_ok].
  exact (Forall_lookup_1 _ _ _ _ (di_ok _ _ _ H) E).
Qed.

Lemma rsect_ok s own fb b : disk_inv (img s) own fb -> 0 <= b < 1000 -> rsect b s = Ok (on_disk (img s) b) s.
Proof.
  intros H Hb. unfold rsect. erewrite bind_ok by reflexivity. destruct (lookup_lt_is_Some_2 (img s) (Z.to_nat b)) as [d Hd]; [rewrite (di_len _ _ _ H); lia|].
  rewrite Hd. by rewrite (on_disk_lookup _ b d) by (lia || done).
Qed.

Lemma wsect_ok s own fb b d : disk_inv (img s) own fb -> 0 <= b < 1000 -> wsect b d s = Ok tt (set_img (<[Z.to_nat b := d]> (img s)) s).
Proof.
  intros H Hb. unfold wsect, modify. cbv zeta. replace (S (Z.to_nat b) - length (img s))%nat with 0%nat by (rewrite (di_len _ _ _ H); lia).
  simpl. by rewrite app_nil_r.
Qed.

(** A block in use is written. *)
Lemma disk_inv_write i own fb b d : disk_inv i own fb -> 0 <= b < fb -> block_ok d ->
  disk_inv (<[Z.to_nat b := d]> i) own fb /\ forall b', on_disk (<[Z.to_nat b := d]> i) b' = if decide (b' = b) then d else on_disk i b'.
Proof.
  intros [H1 H2 H3 H4 H5] Hb Hd. assert (E : forall b', on_disk (<[Z.to_nat b := d]> i) b' = if decide (b' = b) then d else on_disk i b') by (intros b'; apply on_disk_insert; lia).
  split; [|done]. split; [by rewrite length_insert|by apply Forall_insert|done| |done].
  intros b' Hb'. rewrite E, decide_False by lia. by apply H4.
Qed.

(** The next free block is taken. *)
Lemma disk_inv_alloc i own fb x : disk_inv i own fb -> fb < 1000 -> disk_inv i (<[fb := x]> own) (fb + 1) /\ own !! fb = None.
Proof.
  intros [H1 H2 H3 H4 H5] Hb. split; [|destruct (own !! fb) as [y|] eqn:E; [apply H3 in E; lia|done]]. split; [done|done| | |lia].
  - intros b y Hy. apply lookup_insert_Some in Hy as [[<- _]|[_ Hy]]; [lia|apply H3 in Hy; lia].
  - intros b Hb'. apply H4. lia.
Qed.

(* ------------------------------------------------------------------ *)
(** * A file of the image *)

(** The disk block of block [bn] of the file, 0 when there is none. *)
Definition fblk (i : list block) (di : dinode) (bn : Z) : Z :=
  if bn <? 12 then daddr di bn else if daddr di 12 =? 0 then 0 else get32 (on_disk i (daddr di 12)) (4 * (bn - 12)).

(** The file [n] has [K] blocks, and a block of addresses if [I]; they hold the
    bytes [c], and zeros after them. *)
Record grown (i : list block) (own : owners) (n : Z) (di : dinode) (K : Z) (I : bool) (c : list Z) : Prop := {
  gr_len : length (d_addrs di) = 13%nat;
  gr_K : 0 <= K <= 140;
  gr_blk : forall bn, 0 <= bn < K -> own !! fblk i di bn = Some (n, bn);
  gr_none : forall bn, K <= bn < 140 -> fblk i di bn = 0;
  gr_ind : if I then own !! daddr di 12 = Some (n, 140) else daddr di 12 = 0;
  gr_indK : 12 < K -> I = true;
  gr_bytes : forall o, 0 <= o < K * 512 -> get8 (on_disk i (fblk i di (o / 512))) (o mod 512) = nth (Z.to_nat o) c 0;
  gr_fit : Z.of_nat (length c) <= K * 512;
}.

(** Only the addresses of the inode matter. *)
Lemma grown_addrs_eq i own n di di' K I c : d_addrs di' = d_addrs di -> grown i own n di K I c -> grown i own n di' K I c.
Proof.
  intros E [H1 H2 H3 H4 H5 H6 H7 H8]. assert (Ea : forall k, daddr di' k = daddr di k) by (intros k; unfold daddr; by rewrite E).
  assert (Eb : forall bn, fblk i di' bn = fblk i di bn) by (intros bn; unfold fblk; by rewrite !Ea).
  split; [by rewrite E|done|intros bn; rewrite Eb; apply H3|intros bn; rewrite Eb; apply H4|by rewrite Ea|done|intros o; rewrite Eb; apply H7|done].
Qed.

(** What is done to other files and elsewhere does not matter to it. *)
Lemma grown_frame i own i' own' n di K I c : grown i own n di K I c ->
  (forall b k, own !! b = Some (n, k) -> on_disk i' b = on_disk i b /\ own' !! b = Some (n, k)) -> grown i' own' n di K I c.
Proof.
  intros [H1 H2 H3 H4 H5 H6 H7 H8] Hf. assert (E : forall bn, fblk i' di bn = fblk i di bn).
  { intros bn. unfold fblk. destruct (bn <? 12); [done|]. destruct (daddr di 12 =? 0) eqn:E0; [done|]. destruct I; [by rewrite (proj1 (Hf _ _ H5))|].
    rewrite H5 in E0. done. }
  split; try done.
  - intros bn Hb. rewrite E. by apply Hf, H3.
  - intros bn Hb. rewrite E. by apply H4.
  - destruct I; [|done]. by apply Hf.
  - intros o Ho. rewrite E, (proj1 (Hf _ _ (H3 (o / 512) ltac:(zsolve)))). by apply H7.
Qed.

Lemma daddr_set k v di k' : length (d_addrs di) = 13%nat -> 0 <= k < 13 -> 0 <= k' -> daddr (set_daddr k v di) k' = if decide (k' = k) then v else daddr di k'.
Proof.
  intros Hl Hk Hk'. unfold daddr, set_daddr. cbn [d_addrs]. rewrite !nth_lookup. case_decide as E; [subst; by rewrite list_lookup_insert_eq by lia|].
  by rewrite list_lookup_insert_ne by lia.
Qed.

Lemma set_daddr_len k v di : length (d_addrs (set_daddr k v di)) = length (d_addrs di).
Proof. apply length_insert. Qed.

Section grow.
Context (i : list block) (own : owners) (fb n : Z) (di : dinode) (K : Z) (I : bool) (c : list Z).
Context (Hd : disk_inv i own fb) (Hg : grown i own n di K I c) (Hfb : fb < 1000).

(** The next block has no owner and holds zeros. *)
Lemma fresh : own !! fb = None /\ on_disk i fb = zero_block.
Proof using Hd Hfb. split; [by apply (disk_inv_alloc i own fb (0, 0) Hd)|]. apply (di_free _ _ _ Hd). lia. Qed.

Lemma own_ne b x : own !! b = Some x -> b <> fb.
Proof using Hd Hfb. intros Hb ->. by rewrite (proj1 fresh) in Hb. Qed.

Lemma fb_pos : fb <> 0.
Proof using Hd. pose proof (di_low _ _ _ Hd). lia. Qed.

(** A further block, named by [di'] and the blocks [i'], which is zero. *)
Lemma grow_block i' di' : K < 140 -> length (d_addrs di') = 13%nat -> daddr di' 12 = daddr di 12 -> (12 <= K -> I = true) ->
  (forall bn, 0 <= bn < 140 -> fblk i' di' bn = if decide (bn = K) then fb else fblk i di bn) ->
  (forall b k, own !! b = Some (n, k) -> k < 140 -> on_disk i' b = on_disk i b) -> on_disk i' fb = zero_block ->
  grown i' (<[fb := (n, K)]> own) n di' (K + 1) I c.
Proof using Hd Hg Hfb.
  destruct Hg as [H1 H2 H3 H4 H5 H6 H7 H8]. intros HK Hl H12 HI Hbl Hsame Hz. split; [done|lia| | | | | |lia].
  - intros bn Hb. rewrite Hbl by lia. case_decide as E; [subst; by rewrite lookup_insert_eq|].
    pose proof (H3 bn ltac:(lia)) as Ho. rewrite lookup_insert_ne; [done|]. intros E'. by apply (own_ne _ _ Ho).
  - intros bn Hb. rewrite Hbl, decide_False by lia. apply H4. lia.
  - rewrite H12. destruct I; [|done]. rewrite lookup_insert_ne; [done|]. intros E. by apply (own_ne _ _ H5).
  - intros Hlt. apply HI. lia.
  - intros o Ho. rewrite Hbl by zsolve. case_decide as E.
    + rewrite Hz, get8_zero. rewrite nth_overflow; [done|]. assert (K * 512 <= o) by zsolve. lia.
    + rewrite (Hsame _ (o / 512) (H3 (o / 512) ltac:(zsolve))) by zsolve. apply H7. zsolve.
Qed.

(** A block whose address is in the inode. *)
Lemma grow_direct : K < 12 -> grown i (<[fb := (n, K)]> own) n (set_daddr K fb di) (K + 1) I c /\ fblk i (set_daddr K fb di) K = fb.
Proof using Hd Hg Hfb.
  intros HK. pose proof (gr_len _ _ _ _ _ _ _ Hg) as Hl. pose proof (gr_K _ _ _ _ _ _ _ Hg).
  assert (Hbl : forall bn, 0 <= bn < 140 -> fblk i (set_daddr K fb di) bn = if decide (bn = K) then fb else fblk i di bn).
  { intros bn Hb. unfold fblk. rewrite !daddr_set by lia. destruct (Z.ltb_spec bn 12); [done|]. rewrite !(decide_False (P := 12 = K)), decide_False by lia. done. }
  split; [|by rewrite Hbl, decide_True by lia]. apply grow_block; [lia|by rewrite set_daddr_len|by rewrite daddr_set, decide_False by lia|lia|done|done|apply fresh].
Qed.

(** The block of addresses. *)
Lemma grow_indirect : I = false -> 12 <= K -> grown i (<[fb := (n, 140)]> own) n (set_daddr 12 fb di) K true c /\ daddr (set_daddr 12 fb di) 12 = fb.
Proof using Hd Hg Hfb.
  intros HI HK. pose proof Hg as [H1 H2 H3 H4 H5 H6 H7 H8]. rewrite HI in H5. assert (K = 12) as EK by (destruct (Z.lt_trichotomy K 12) as [|[|Hlt]]; [lia|done|]; rewrite HI in H6; by apply H6 in Hlt).
  assert (E12 : daddr (set_daddr 12 fb di) 12 = fb) by (by rewrite daddr_set, decide_True by lia). split; [|done].
  assert (Hbl : forall bn, 0 <= bn < 140 -> fblk i (set_daddr 12 fb di) bn = fblk i di bn).
  { intros bn Hb. unfold fblk. rewrite E12. destruct (Z.ltb_spec bn 12); [by rewrite daddr_set, decide_False by lia|]. rewrite H5. simpl.
    rewrite (proj2 (Z.eqb_neq _ _) fb_pos), (proj2 fresh). apply get32_zero. }
  split; [by rewrite set_daddr_len|done| | | |done| |done].
  - intros bn Hb. rewrite Hbl by lia. pose proof (H3 bn Hb) as Ho. rewrite lookup_insert_ne; [done|]. intros E'. by apply (own_ne _ _ Ho).
  - intros bn Hb. rewrite Hbl by lia. by apply H4.
  - rewrite E12. by rewrite lookup_insert_eq.
  - intros o Ho. rewrite Hbl by zsolve. by apply H7.
Qed.

(** A block whose address is in the block of addresses. *)
Lemma grow_entry : I = true -> 12 <= K < 140 -> let ind := daddr di 12 in
  let i' := <[Z.to_nat ind := put32 (on_disk i ind) (4 * (K - 12)) fb]> i in
  disk_inv i' own fb /\ (forall b, b <> ind -> on_disk i' b = on_disk i b) /\ grown i' (<[fb := (n, K)]> own) n di (K + 1) I c /\ fblk i' di K = fb.
Proof using Hd Hg Hfb.
  intros HI HK ind i'. pose proof Hg as [H1 H2 H3 H4 H5 H6 H7 H8]. rewrite HI in H5. fold ind in H5. pose proof (di_own _ _ _ Hd _ _ H5) as Hind.
  destruct (disk_inv_write i own fb ind (put32 (on_disk i ind) (4 * (K - 12)) fb) Hd ltac:(lia)) as [Hd' Hi']; [apply put32_ok; by eapply on_disk_ok|]. fold i' in Hd', Hi'.
  assert (Hbl : forall bn, 0 <= bn < 140 -> fblk i' di bn = if decide (bn = K) then fb else fblk i di bn).
  { intros bn Hb. unfold fblk. fold ind. destruct (Z.ltb_spec bn 12); [by rewrite decide_False by lia|]. rewrite (proj2 (Z.eqb_neq ind 0)) by lia.
    rewrite Hi', decide_True by done. pose proof (bo_length _ (on_disk_ok i own fb ind Hd)) as Hlen. case_decide as E.
    - subst. rewrite get32_put32 by lia. apply u32_id. lia.
    - apply get32_put32_ne; lia. }
  split; [done|]. split; [intros b Hb; by rewrite Hi', decide_False|]. split; [|by rewrite Hbl, decide_True by lia].
  apply grow_block; [lia|done|done|done|done| |rewrite Hi', decide_False; [apply fresh|lia]].
  intros b k Hb Hk. rewrite Hi', decide_False; [done|]. intros ->. rewrite H5 in Hb. injection Hb as <-. lia.
Qed.
End grow.

(* ------------------------------------------------------------------ *)
(** * Appending *)

(** What work on the file [n] leaves alone. *)
Record ext (n : Z) (s : mkfs) (own : owners) (s' : mkfs) (own' : owners) : Prop := {
  ex_inode : freeinode s' = freeinode s;
  ex_own : own ⊆ own';
  ex_low : forall b, b < 59 -> on_disk (img s') b = on_disk (img s) b;
  ex_other : forall b m k, own !! b = Some (m, k) -> m <> n -> on_disk (img s') b = on_disk (img s) b;
}.

Lemma ext_refl n s own : ext n s own s own.
Proof. by split. Qed.

Lemma ext_trans n s own s1 own1 s2 own2 : ext n s own s1 own1 -> ext n s1 own1 s2 own2 -> ext n s own s2 own2.
Proof.
  intros [A1 A2 A3 A4] [B1 B2 B3 B4]. split; [congruence|by etransitivity| |].
  - intros b Hb. rewrite B3 by done. by apply A3.
  - intros b m k Hb Hm. rewrite (B4 b m k); [by apply (A4 b m k)|by eapply lookup_weaken|done].
Qed.

(** The blocks of a file of [K] blocks. *)
Definition cost (K : Z) (I : bool) : Z := K + if I then 1 else 0.

(** The fields of an inode but its size and addresses. *)
Definition same_meta (di di' : dinode) : Prop :=
  d_type di' = d_type di /\ d_major di' = d_major di /\ d_minor di' = d_minor di /\ d_nlink di' = d_nlink di /\ d_size di' = d_size di.

Lemma next_block_ok s : next_block s = Ok (freeblock s) (set_freeblock (freeblock s + 1) s).
Proof. done. Qed.

Lemma insert_ext n s own x b v : own !! b = None -> ext n s own (set_freeblock v s) (<[b := x]> own).
Proof. intros Hb. split; [done|by apply insert_subseteq|done|done]. Qed.

(** The block of addresses is there, or allocated. *)
Lemma indirect_ok s own n di K I c : disk_inv (img s) own (freeblock s) -> grown (img s) own n di K I c -> 12 <= K -> freeblock s + (if I then 0 else 1) <= 1000 ->
  exists di' s' own', (if daddr di 12 =? 0 then b <- next_block ;; ret (set_daddr 12 b di) else ret di) s = Ok di' s' /\
    disk_inv (img s') own' (freeblock s') /\ grown (img s') own' n di' K true c /\ same_meta di di' /\ ext n s own s' own' /\ freeblock s' = freeblock s + if I then 0 else 1.
Proof.
  intros Hd Hg HK Hroom. pose proof (gr_ind _ _ _ _ _ _ _ Hg) as Hi. destruct I.
  - pose proof (di_own _ _ _ Hd _ _ Hi). rewrite (proj2 (Z.eqb_neq _ _)) by lia. exists di, s, own. split; [done|]. split; [done|]. split; [done|]. split; [done|]. split; [apply ext_refl|lia].
  - rewrite Hi. cbn [Z.eqb]. destruct (grow_indirect _ _ _ _ _ _ _ _ Hd Hg ltac:(lia) eq_refl HK) as [Hg' _]. destruct (disk_inv_alloc _ _ _ (n, 140) Hd ltac:(lia)) as [Hd' Hn].
    eexists _, (set_freeblock (freeblock s + 1) s), _. split; [rewrite (bind_ok _ _ _ _ _ (next_block_ok s)); reflexivity|]. split; [exact Hd'|]. split; [exact Hg'|]. split; [done|]. split; [by apply insert_ext|done].
Qed.

Lemma file_block_ok s own n di K I c fbn : disk_inv (img s) own (freeblock s) -> grown (img s) own n di K I c -> 0 <= fbn < 140 -> fbn <= K ->
  (fbn < K \/ fbn = K) -> let K' := Z.max K (fbn + 1) in let I' := I || (12 <=? fbn) in freeblock s + (cost K' I' - cost K I) <= 1000 ->
  exists di' x s' own', file_block di fbn s = Ok (di', x) s' /\ disk_inv (img s') own' (freeblock s') /\ grown (img s') own' n di' K' I' c /\
    x = fblk (img s') di' fbn /\ same_meta di di' /\ ext n s own s' own' /\ freeblock s' = freeblock s + (cost K' I' - cost K I).
Proof.
  intros Hd Hg Hf HK _ K' I' Hroom. pose proof Hg as [H1 H2 H3 H4 H5 H6 H7 H8]. unfold file_block. change NDIRECT with 12.
  assert (Hz : (fblk (img s) di fbn =? 0) = negb (fbn <? K)).
  { destruct (Z.ltb_spec fbn K); simpl; [|by rewrite H4 by lia]. apply Z.eqb_neq. pose proof (di_own _ _ _ Hd _ _ (H3 fbn ltac:(lia))). lia. }
  destruct (Z.ltb_spec fbn 12) as [Hlt|Hge].
  - assert (EI : I' = I) by (unfold I'; rewrite (proj2 (Z.leb_gt 12 fbn)) by lia; apply orb_false_r).
    assert (Eb : daddr di fbn = fblk (img s) di fbn) by (unfold fblk; by rewrite (proj2 (Z.ltb_lt _ _) Hlt)). rewrite Eb, Hz. destruct (Z.ltb_spec fbn K) as [HlK|HgK]; cbn [negb].
    + assert (K' = K) as EK by lia. exists di, (fblk (img s) di fbn), s, own. rewrite EI, EK. split; [done|]. split; [done|]. split; [done|]. split; [done|]. split; [done|]. split; [apply ext_refl|lia].
    + assert (fbn = K) as -> by lia. assert (K' = K + 1) as EK by lia. rewrite EI, EK in *. unfold cost in Hroom.
      destruct (grow_direct _ _ _ _ _ _ _ _ Hd Hg ltac:(lia) Hlt) as [Hg' Ex]. destruct (disk_inv_alloc _ _ _ (n, K) Hd ltac:(lia)) as [Hd' Hn].
      eexists _, _, (set_freeblock (freeblock s + 1) s), _. split; [rewrite (bind_ok _ _ _ _ _ (next_block_ok s)); reflexivity|]. split; [exact Hd'|]. split; [exact Hg'|]. split; [by rewrite <- Ex at 1|].
      split; [done|]. split; [by apply insert_ext|unfold cost; simpl; lia].
  - assert (EI : I' = true) by (unfold I'; rewrite (proj2 (Z.leb_le 12 fbn)) by lia; apply orb_true_r). rewrite EI in *.
    assert (Hroom1 : freeblock s + (if I then 0 else 1) <= 1000) by (unfold cost in Hroom; destruct I; lia).
    destruct (indirect_ok s own n di K I c Hd Hg ltac:(lia) Hroom1) as (di1 & s1 & own1 & R1 & Hd1 & Hg1 & M1 & X1 & F1). rewrite (bind_ok _ _ _ _ _ R1).
    pose proof (gr_ind _ _ _ _ _ _ _ Hg1) as Hi1. cbv iota in Hi1. pose proof (di_own _ _ _ Hd1 _ _ Hi1) as Hir. pose proof (di_low _ _ _ Hd1) as Hlo1.
    rewrite (bind_ok _ _ _ _ _ (rsect_ok s1 own1 _ (daddr di1 12) Hd1 ltac:(lia))). cbv zeta.
    assert (Eb : get32 (on_disk (img s1) (daddr di1 12)) (4 * (fbn - 12)) = fblk (img s1) di1 fbn).
    { unfold fblk. rewrite (proj2 (Z.ltb_ge _ _) Hge). by rewrite (proj2 (Z.eqb_neq _ _)) by lia. }
    rewrite Eb. destruct (Z.ltb_spec fbn K) as [HlK|HgK].
    + pose proof (di_own _ _ _ Hd1 _ _ (gr_blk _ _ _ _ _ _ _ Hg1 fbn ltac:(lia))). rewrite (proj2 (Z.eqb_neq _ _)) by lia. assert (K' = K) as EK by lia. rewrite EK in *.
      exists di1, (fblk (img s1) di1 fbn), s1, own1. split; [done|]. split; [done|]. split; [done|]. split; [done|]. split; [done|]. split; [done|]. unfold cost. destruct I; lia.
    + rewrite (gr_none _ _ _ _ _ _ _ Hg1) by lia. cbn [Z.eqb]. assert (fbn = K) as -> by lia. assert (K' = K + 1) as EK by lia. rewrite EK in *. unfold cost in Hroom.
      assert (Hr1 : freeblock s1 < 1000) by (destruct I; lia). destruct (grow_entry _ _ _ _ _ _ _ _ Hd1 Hg1 Hr1 eq_refl ltac:(lia)) as (Hd2 & Hs2 & Hg2 & Ex).
      set (i2 := <[_ := _]> (img s1)) in *. rewrite (bind_ok _ _ _ _ _ (next_block_ok s1)).
      destruct (disk_inv_alloc _ _ _ (n, K) Hd2 Hr1) as [Hd3 Hn]. rewrite (bind_ok _ _ _ _ _ (wsect_ok (set_freeblock (freeblock s1 + 1) s1) own1 (freeblock s1) (daddr di1 12) _ Hd1 ltac:(lia))).
      eexists di1, _, (Mkfs i2 (freeinode s1) (freeblock s1 + 1)), _. split; [reflexivity|]. split; [exact Hd3|]. split; [exact Hg2|]. split; [by rewrite <- Ex at 1|]. split; [done|].
      split; [|unfold cost; cbn [freeblock]; destruct I; lia]. eapply ext_trans; [exact X1|]. split; [done|by apply insert_subseteq| |].
      * intros b Hb. apply Hs2. lia.
      * intros b k j Hb Hk. apply Hs2. intros ->. rewrite Hi1 in Hb. injection Hb as <- <-. done.
Qed.

(** The bytes go to the end of the file. *)
Lemma write_tail i own fb n di K I c p : disk_inv i own fb -> grown i own n di K I c -> let off := Z.of_nat (length c) in let fbn := off / 512 in
  fbn < K -> Z.of_nat (length p) <= (fbn + 1) * 512 - off -> bytes_in p ->
  let x := fblk i di fbn in let i' := <[Z.to_nat x := splice (on_disk i x) (off - fbn * 512) p]> i in
  disk_inv i' own fb /\ grown i' own n di K I (c ++ p) /\ forall b, b <> x -> on_disk i' b = on_disk i b.
Proof.
  intros Hd Hg off fbn HK Hp Hbp x i'. pose proof Hg as [H1 H2 H3 H4 H5 H6 H7 H8].
  assert (Hq : 0 <= fbn /\ fbn * 512 <= off < fbn * 512 + 512) by (pose proof (Z.div_mod off 512); pose proof (Z.mod_pos_bound off 512); unfold fbn; lia).
  assert (Eoff : off = Z.of_nat (length c)) by done. clearbody fbn. clearbody off. pose proof (H3 fbn ltac:(lia)) as Hx. fold x in Hx.
  pose proof (di_own _ _ _ Hd _ _ Hx) as Hxr. pose proof (on_disk_ok i own fb x Hd) as Hok. pose proof (bo_length _ Hok) as Hl.
  destruct (disk_inv_write i own fb x (splice (on_disk i x) (off - fbn * 512) p) Hd ltac:(lia)) as [Hd' Hi']; [apply splice_ok; (done || lia)|]. fold i' in Hd', Hi'.
  assert (Hne : forall b, b <> x -> on_disk i' b = on_disk i b) by (intros b Hb; by rewrite Hi', decide_False). split; [done|]. split; [|done].
  assert (Hbl : forall bn, fblk i' di bn = fblk i di bn).
  { intros bn. unfold fblk. destruct (bn <? 12); [done|]. destruct (daddr di 12 =? 0) eqn:E0; [done|]. destruct I; [|by rewrite H5 in E0]. rewrite Hne; [done|]. intros E. rewrite E, Hx in H5. injection H5 as ->. lia. }
  split; [done|done|intros bn; rewrite Hbl; apply H3|intros bn; rewrite Hbl; apply H4|done|done| |rewrite length_app; lia].
  intros o Ho. rewrite Hbl. pose proof (H7 o Ho) as Hold. pose proof (Z.div_mod o 512 ltac:(lia)) as Hdm. pose proof (Z.mod_pos_bound o 512 ltac:(lia)) as Hm.
  assert (Hnth : nth (Z.to_nat o) (c ++ p) 0 = if decide (off <= o < off + Z.of_nat (length p)) then nth (Z.to_nat (o - off)) p 0 else nth (Z.to_nat o) c 0).
  { case_decide as Hin; [rewrite app_nth2 by lia; f_equal; lia|]. destruct (decide (o < off)); [by rewrite app_nth1 by lia|]. rewrite !nth_overflow; [done|lia|rewrite length_app; lia]. }
  rewrite Hnth. destruct (decide (o / 512 = fbn)) as [E|E].
  - rewrite E in *. fold x in Hold |- *. rewrite Hi', decide_True, get8_splice by (done || lia). rewrite Hold.
    case_decide as Hin.
    + rewrite (proj2 (Z.leb_le _ _)), (proj2 (Z.ltb_lt _ _)) by lia. cbn [andb]. f_equal. lia.
    + destruct (Z.leb_spec (off - fbn * 512) (o mod 512)), (Z.ltb_spec (o mod 512) (off - fbn * 512 + Z.of_nat (length p))); cbn [andb]; (done || lia).
  - rewrite decide_False by (intros Hin; apply E; symmetry; apply (Z.div_unique o 512 fbn (o - fbn * 512)); lia). rewrite Hne; [done|]. intros Ex.
    pose proof (H3 (o / 512) ltac:(lia)) as Hb. rewrite Ex, Hx in Hb. injection Hb as ->. done.
Qed.

(** The blocks of [l] bytes, and all the blocks of such a file. *)
Definition nblk (l : Z) : Z := (l + 511) / 512.
Definition fcost (l : Z) : Z := cost (nblk l) (12 <? nblk l).

Lemma nblk_range l : nblk l * 512 - 512 < l <= nblk l * 512.
Proof. unfold nblk. pose proof (Z.div_mod (l + 511) 512). pose proof (Z.mod_pos_bound (l + 511) 512). lia. Qed.

Lemma nblk_unique l k : k * 512 - 512 < l <= k * 512 -> nblk l = k.
Proof. pose proof (nblk_range l). lia. Qed.

Lemma fcost_mono l l' : l <= l' -> fcost l <= fcost l'.
Proof.
  intros H. unfold fcost, cost. pose proof (nblk_range l). pose proof (nblk_range l').
  destruct (Z.ltb_spec 12 (nblk l)), (Z.ltb_spec 12 (nblk l')); lia.
Qed.

Abbreviation zlen c := (Z.of_nat (length c)).

(** The file [n] holds [c]. *)
Definition file_is (i : list block) (own : owners) (n : Z) (di : dinode) (c : list Z) : Prop :=
  grown i own n di (nblk (zlen c)) (12 <? nblk (zlen c)) c.

Lemma append_step s own n di c p : disk_inv (img s) own (freeblock s) -> file_is (img s) own n di c -> bytes_in p -> p <> [] -> zlen c + zlen p <= 140 * 512 ->
  let fbn := zlen c / 512 in let n1 := Z.min (zlen p) ((fbn + 1) * 512 - zlen c) in let p1 := take (Z.to_nat n1) p in
  freeblock s + (fcost (zlen (c ++ p1)) - fcost (zlen c)) <= 1000 ->
  exists di' x s1 s' own', file_block di fbn s = Ok (di', x) s1 /\ rsect x s1 = Ok (on_disk (img s1) x) s1 /\
    wsect x (splice (on_disk (img s1) x) (zlen c - fbn * 512) p1) s1 = Ok tt s' /\
    disk_inv (img s') own' (freeblock s') /\ file_is (img s') own' n di' (c ++ p1) /\ same_meta di di' /\ ext n s own s' own' /\
    freeblock s' = freeblock s + (fcost (zlen (c ++ p1)) - fcost (zlen c)) /\ zlen p1 = n1 /\ 0 < n1 /\ zlen c + n1 = zlen (c ++ p1).
Proof.
  intros Hd Hg Hb Hne Hmax fbn n1 p1 Hroom. assert (Hp : 0 < zlen p) by (destruct p; [done|simpl; lia]).
  pose proof (Z.div_mod (zlen c) 512 ltac:(lia)) as Hdm. pose proof (Z.mod_pos_bound (zlen c) 512 ltac:(lia)) as Hm. fold fbn in Hdm.
  assert (Hn1 : zlen p1 = n1 /\ 0 < n1). { unfold p1. rewrite length_take. unfold n1. lia. } destruct Hn1 as [Hn1 Hn1p].
  assert (Hlen : zlen c + n1 = zlen (c ++ p1)) by (rewrite length_app; lia). pose proof (nblk_range (zlen c)) as HK.
  assert (EK : Z.max (nblk (zlen c)) (fbn + 1) = nblk (zlen (c ++ p1))) by (symmetry; apply nblk_unique; rewrite <- Hlen; unfold n1; lia).
  assert (EI : (12 <? nblk (zlen c)) || (12 <=? fbn) = (12 <? nblk (zlen (c ++ p1)))).
  { rewrite <- EK. destruct (Z.ltb_spec 12 (nblk (zlen c))), (Z.leb_spec 12 fbn), (Z.ltb_spec 12 (Z.max (nblk (zlen c)) (fbn + 1))); simpl; (done || lia). }
  destruct (file_block_ok s own n di _ _ c fbn Hd Hg ltac:(lia) ltac:(lia) ltac:(lia)) as (di' & x & s1 & own' & R & Hd1 & Hg1 & Ex & M & X & F); [rewrite EK, EI; exact Hroom|].
  rewrite EK, EI in Hg1, F. pose proof (gr_blk _ _ _ _ _ _ _ Hg1 fbn ltac:(lia)) as Hx. rewrite <- Ex in Hx. pose proof (di_own _ _ _ Hd1 _ _ Hx) as Hxr. pose proof (di_low _ _ _ Hd1).
  destruct (write_tail _ _ _ _ _ _ _ _ p1 Hd1 Hg1) as (Hd2 & Hg2 & Hs2); [fold fbn; lia|fold fbn; rewrite Hn1; unfold n1; lia|by apply Forall_take|]. fold fbn in Hd2, Hg2, Hs2. rewrite <- Ex in Hd2, Hg2, Hs2.
  exists di', x, s1. eexists _, own'. split; [done|]. split; [apply (rsect_ok s1 own' _ x Hd1); lia|]. split; [apply (wsect_ok s1 own' _ x _ Hd1); lia|].
  split; [exact Hd2|]. split; [exact Hg2|]. split; [done|]. split; [|done]. eapply ext_trans; [exact X|]. split; [done|done| |].
  - intros b Hb'. apply Hs2. lia.
  - intros b k j Hb' Hk. apply Hs2. intros ->. rewrite Hx in Hb'. injection Hb' as <- <-. done.
Qed.

Lemma iappend_loop_ok n fuel : forall s own di c p, disk_inv (img s) own (freeblock s) -> file_is (img s) own n di c -> bytes_in p -> zlen c + zlen p <= 140 * 512 ->
  (length p < fuel)%nat -> freeblock s + (fcost (zlen (c ++ p)) - fcost (zlen c)) <= 1000 ->
  exists di' s' own', iappend_loop fuel di (zlen c) p s = Ok (di', zlen (c ++ p)) s' /\ disk_inv (img s') own' (freeblock s') /\ file_is (img s') own' n di' (c ++ p) /\
    same_meta di di' /\ ext n s own s' own' /\ freeblock s' = freeblock s + (fcost (zlen (c ++ p)) - fcost (zlen c)).
Proof.
  induction fuel as [|fuel IH]; intros s own di c p Hd Hg Hb Hmax Hf Hroom; [lia|]. cbn [iappend_loop]. cbv zeta.
  destruct p as [|b0 p0]; [rewrite app_nil_r; exists di, s, own; cbn [length]; split; [done|]; split; [done|]; split; [done|]; split; [done|]; split; [apply ext_refl|lia]|].
  set (p := b0 :: p0) in *. assert (Hp : 0 < zlen p) by (simpl; lia). rewrite (proj2 (Z.ltb_lt _ _) Hp). cbn [negb]. change BSIZE with 512. change MAXFILE with 140.
  rewrite (proj2 (Z.ltb_lt (zlen c / 512) 140)) by (apply Z.div_lt_upper_bound; lia). cbn [negb].
  set (n1 := Z.min (zlen p) ((zlen c / 512 + 1) * 512 - zlen c)). set (p1 := take (Z.to_nat n1) p). set (p2 := drop (Z.to_nat n1) p).
  assert (Ep : (c ++ p1) ++ p2 = c ++ p) by (unfold p1, p2; by rewrite <- app_assoc, take_drop).
  assert (Hmono : fcost (zlen (c ++ p1)) <= fcost (zlen (c ++ p))) by (apply fcost_mono; rewrite <- Ep, (length_app (c ++ p1)); lia).
  destruct (append_step s own n di c p Hd Hg Hb ltac:(done) Hmax ltac:(fold n1; fold p1; lia)) as (di1 & x & s1 & s2 & own1 & R1 & R2 & R3 & Hd2 & Hg2 & M2 & X2 & F2 & L1 & L2 & L3).
  fold n1 in L1, L2, L3. fold n1 p1 in R3, Hg2, F2, L1, L3. rewrite (bind_ok _ _ _ _ _ R1), (bind_ok _ _ _ _ _ R2), (bind_ok _ _ _ _ _ R3). rewrite L3.
  assert (L4 : zlen (c ++ p1) + zlen p2 = zlen c + zlen p) by (rewrite !length_app; unfold p1, p2; rewrite length_take, length_drop; lia).
  destruct (IH s2 own1 di1 (c ++ p1) p2 Hd2 Hg2) as (di3 & s3 & own3 & R4 & Hd3 & Hg3 & M3 & X3 & F3); [by apply Forall_drop|lia| |rewrite Ep; lia|].
  { unfold p2. rewrite length_drop. lia. }
  rewrite Ep in *. exists di3, s3, own3. split; [exact R4|]. split; [done|]. split; [done|]. split; [|split; [by eapply ext_trans|lia]].
  destruct M2 as (A1 & A2 & A3 & A4 & A5), M3 as (B1 & B2 & B3 & B4 & B5). repeat split; congruence.
Qed.

(* ------------------------------------------------------------------ *)
(** * Inodes *)

Lemma mk_sb_ok : sb_ok mk_sb.
Proof. split; vm_compute; repeat split; intros; discriminate. Qed.

Definition dino (i : list block) (n : Z) : dinode := get_dinode (on_disk i (IBLOCK n mk_sb)) (dinode_off n).

Lemma IBLOCK_mk n : 0 <= n < 200 -> 32 <= IBLOCK n mk_sb < 58.
Proof. intros Hn. pose proof (IBLOCK_eq mk_sb n mk_sb_ok Hn) as E. rewrite E. change (sb_inodestart mk_sb) with 32. unfold IPB. zsolve. Qed.

Lemma rinode_ok s own fb n : disk_inv (img s) own fb -> 0 <= n < 200 -> rinode n s = Ok (dino (img s) n) s.
Proof. intros Hd Hn. pose proof (IBLOCK_mk n Hn). unfold rinode. by rewrite (bind_ok _ _ _ _ _ (rsect_ok s own fb (IBLOCK n mk_sb) Hd ltac:(lia))). Qed.

Lemma winode_ok s own fb n di : disk_inv (img s) own fb -> 0 <= n < 200 -> dinode_ok di ->
  exists i', winode n di s = Ok tt (set_img i' s) /\ disk_inv i' own fb /\ dino i' n = di /\ (forall m, 0 <= m < 200 -> m <> n -> dino i' m = dino (img s) m) /\
    forall b, b < 32 \/ 58 <= b -> on_disk i' b = on_disk (img s) b.
Proof.
  intros Hd Hn Hok. pose proof (IBLOCK_mk n Hn) as Hib. pose proof (di_low _ _ _ Hd). pose proof (on_disk_ok _ _ _ (IBLOCK n mk_sb) Hd) as Hb. pose proof (dinode_off_range n) as Hor.
  destruct (disk_inv_write (img s) own fb (IBLOCK n mk_sb) (put_dinode di (dinode_off n) (on_disk (img s) (IBLOCK n mk_sb))) Hd ltac:(lia)) as [Hd' Hi']; [by apply put_dinode_ok|].
  eexists. split; [|split; [exact Hd'|split; [|split]]].
  - unfold winode. cbv zeta. rewrite (bind_ok _ _ _ _ _ (rsect_ok s own fb (IBLOCK n mk_sb) Hd ltac:(lia))). by apply (wsect_ok s own fb); [|lia].
  - unfold dino. rewrite Hi', decide_True by done. by apply get_put_dinode.
  - intros m Hm Hne. unfold dino. rewrite Hi'. case_decide as E; [|done]. destruct (dinode_place mk_sb n m mk_sb_ok Hn Hm ltac:(done)) as [Hp|Hp]; [congruence|].
    rewrite get_put_dinode_ne; [by rewrite E|done|apply dinode_off_range|lia].
  - intros b Hb'. rewrite Hi', decide_False by lia. done.
Qed.

Lemma grown_addrs i own fb n di K I c : disk_inv i own fb -> grown i own n di K I c -> Forall (fun a => 0 <= a < 4294967296) (d_addrs di).
Proof.
  intros Hd [H1 H2 H3 H4 H5 _ _ _]. apply Forall_lookup. intros k a Ha. pose proof (lookup_lt_Some _ _ _ Ha) as Hk. rewrite H1 in Hk. pose proof (di_low _ _ _ Hd).
  assert (Hown : forall b x, own !! b = Some x -> 0 <= b < 4294967296) by (intros b x Hb; apply (di_own _ _ _ Hd) in Hb; lia).
  assert (E : daddr di (Z.of_nat k) = a) by (unfold daddr; rewrite Nat2Z.id; by apply nth_lookup_Some).
  destruct (decide (k = 12)%nat) as [->|Hne].
  - change (Z.of_nat 12) with 12 in E. rewrite E in H5. destruct I; [by apply Hown in H5|lia].
  - assert (Eb : fblk i di (Z.of_nat k) = a) by (unfold fblk; by rewrite (proj2 (Z.ltb_lt _ _)) by lia).
    destruct (decide (Z.of_nat k < K)); [pose proof (H3 (Z.of_nat k) ltac:(lia)) as Hb; rewrite Eb in Hb; by apply Hown in Hb|].
    pose proof (H4 (Z.of_nat k) ltac:(lia)). lia.
Qed.

(** The inode of a file with the type [t] and the bytes [c]. *)
Record is_file (i : list block) (own : owners) (n t : Z) (c : list Z) : Prop := {
  if_meta : d_type (dino i n) = t /\ d_major (dino i n) = 0 /\ d_minor (dino i n) = 0 /\ d_nlink (dino i n) = 1;
  if_size : d_size (dino i n) = zlen c;
  if_type : short t;
  if_blocks : file_is i own n (dino i n) c;
}.

Definition total_cost (fs : list (Z * list Z)) : Z := fold_right (fun f s => fcost (zlen (snd f)) + s) 0 fs.

Lemma total_cost_insert fs k t c c' : fs !! k = Some (t, c) -> total_cost (<[k := (t, c')]> fs) = total_cost fs + (fcost (zlen c') - fcost (zlen c)).
Proof.
  revert k. induction fs as [|[t0 c0] fs IH]; intros [|k] Hk; try done; simpl in *; [injection Hk as -> ->; simpl; lia|]. rewrite (IH k) by done. lia.
Qed.

Lemma total_cost_app fs gs : total_cost (fs ++ gs) = total_cost fs + total_cost gs.
Proof. induction fs as [|f fs IH]; simpl; [done|]. rewrite IH. lia. Qed.

(** The image with the files [fs], the first one the inode 1. *)
Record image (s : mkfs) (own : owners) (fs : list (Z * list Z)) : Prop := {
  im_disk : disk_inv (img s) own (freeblock s);
  im_next : freeinode s = 1 + zlen fs;
  im_count : zlen fs < 200;
  im_files : forall k t c, fs !! k = Some (t, c) -> is_file (img s) own (1 + Z.of_nat k) t c;
  im_free : forall n, zlen fs < n < 200 -> d_type (dino (img s) n) = 0;
  im_sb : on_disk (img s) 1 = encode_sb mk_sb;
  im_log : forall b, 2 <= b < 32 -> on_disk (img s) b = zero_block;
  im_cost : freeblock s = 59 + total_cost fs;
}.

Lemma image_append s own fs k t c p : image s own fs -> fs !! k = Some (t, c) -> bytes_in p -> zlen c + zlen p <= 140 * 512 ->
  59 + total_cost (<[k := (t, c ++ p)]> fs) <= 1000 -> exists s' own', iappend (1 + Z.of_nat k) p s = Ok tt s' /\ image s' own' (<[k := (t, c ++ p)]> fs).
Proof.
  intros [I1 I2 I3 I4 I5 I6 I7 I8] Hk Hb Hmax Hroom. pose proof (lookup_lt_Some _ _ _ Hk) as Hlt. destruct (I4 k t c Hk) as [M1 M2 M3 M4]. set (n := 1 + Z.of_nat k) in *. assert (Hn : 0 <= n < 200) by lia.
  rewrite (total_cost_insert fs k t c (c ++ p) Hk) in Hroom.
  destruct (iappend_loop_ok n (S (length p)) s own (dino (img s) n) c p I1 M4 Hb Hmax ltac:(lia) ltac:(lia)) as (di & s1 & own1 & R1 & Hd1 & Hg1 & E1 & X1 & F1).
  destruct X1 as [X1 X2 X3 X4]. destruct M1 as (T1 & T2 & T3 & T4). destruct E1 as (E1 & E2 & E3 & E4 & E5).
  assert (Hok : dinode_ok (set_dsize (zlen (c ++ p)) di)).
  { split; cbn [set_dsize d_type d_major d_minor d_nlink d_size d_addrs]; rewrite ?E1, ?E2, ?E3, ?E4, ?T1, ?T2, ?T3, ?T4; try (unfold short; lia); [done| |apply Hg1|by eapply grown_addrs].
    rewrite length_app. lia. }
  destruct (winode_ok s1 own1 _ n _ Hd1 Hn Hok) as (i2 & R2 & Hd2 & D2 & O2 & B2).
  assert (Hdino : forall m, 0 <= m < 200 -> dino (img s1) m = dino (img s) m) by (intros m Hm; unfold dino; rewrite X3; [done|pose proof (IBLOCK_mk m Hm); lia]).
  exists (set_img i2 s1), own1. split.
  { unfold iappend. rewrite (bind_ok _ _ _ _ _ (rinode_ok s own _ n I1 Hn)), M2. by rewrite (bind_ok _ _ _ _ _ R1). }
  split; cbn [img set_img freeinode freeblock]; [exact Hd2|by rewrite length_insert, X1|by rewrite length_insert| | | | |rewrite (total_cost_insert fs k t c (c ++ p) Hk); lia].
  - intros j t' c' Hj. apply list_lookup_insert_Some in Hj as [(<- & [= <- <-] & _)|(Hne & Hj)].
    + fold n. split; rewrite ?D2; cbn [set_dsize d_type d_major d_minor d_nlink d_size]; [by rewrite E1, E2, E3, E4|done|done|]. eapply (grown_addrs_eq _ _ _ di); [done|]. eapply grown_frame; [exact Hg1|].
      intros b x Hbx. split; [|done]. apply B2. pose proof (di_own _ _ _ Hd1 _ _ Hbx). lia.
    + pose proof (lookup_lt_Some _ _ _ Hj). destruct (I4 j t' c' Hj) as [N1 N2 N3 N4]. assert (Em : dino i2 (1 + Z.of_nat j) = dino (img s) (1 + Z.of_nat j)) by (rewrite O2, Hdino by lia; done).
      split; rewrite ?Em; [done|done|done|]. unfold file_is. eapply grown_frame; [exact N4|]. intros b x Hbx. pose proof (di_own _ _ _ I1 _ _ Hbx).
      split; [rewrite B2 by lia; eapply X4; [exact Hbx|lia]|by eapply lookup_weaken].
  - rewrite length_insert. intros m Hm. rewrite O2, Hdino by lia. by apply I5.
  - rewrite B2, X3 by lia. done.
  - intros b Hb'. rewrite B2, X3 by lia. by apply I7.
Qed.
