(* ===== verification/MkfsImage.v ===== *)
(** The image that mkfs builds is a file system for the kernel, with the files
    and the root directory it was given. *)

From S2P Require Import Prelude StringC Spinlock Sleeplock Block Bio Log Layer Fs FsBlocks FsFile FsWrite FsInode FsClaims FsDir Mkfs MkfsSpec.

#[local] Opaque range zero_block.

(* ------------------------------------------------------------------ *)
(** * Building it *)

Lemma fcost_nonneg l : 0 <= l -> 0 <= fcost l.
Proof. intros H. unfold fcost, cost. pose proof (nblk_range l). destruct (12 <? nblk l); lia. Qed.

Lemma total_cost_nonneg fs : 0 <= total_cost fs.
Proof. induction fs as [|f fs IH]; simpl; [done|]. pose proof (fcost_nonneg (zlen (snd f)) ltac:(lia)). lia. Qed.

Lemma daddr_none t k : 0 <= k -> daddr (Dinode t 0 0 1 0 (replicate 13 0)) k = 0.
Proof. intros Hk. unfold daddr. cbn [d_addrs]. rewrite nth_lookup. destruct (replicate 13 0 !! Z.to_nat k) as [a|] eqn:E; [|done]. by apply lookup_replicate in E as [-> _]. Qed.

Lemma empty_file i own n t : file_is i own n (Dinode t 0 0 1 0 (replicate 13 0)) [].
Proof.
  assert (E : forall bn, 0 <= bn -> fblk i (Dinode t 0 0 1 0 (replicate 13 0)) bn = 0). { intros bn Hb. unfold fblk. rewrite !daddr_none by lia. by destruct (bn <? 12). }
  unfold file_is. change (nblk (zlen [])) with 0. split; [done|lia|intros; lia|intros bn Hb; apply E; lia|by apply daddr_none|intros; lia|intros; lia|simpl; lia].
Qed.

Lemma image_ialloc s own fs t : image s own fs -> zlen fs + 1 < 200 -> short t ->
  exists s', mk_ialloc t s = Ok (1 + zlen fs) s' /\ image s' own (fs ++ [(t, [])]).
Proof.
  intros [I1 I2 I3 I4 I5 I6 I7 I8] Hn Ht. set (n := 1 + zlen fs) in *. assert (Hnr : 0 <= n < 200) by lia.
  assert (Hok : dinode_ok (Dinode t 0 0 1 0 (replicate 13 0))). { split; cbn [d_type d_major d_minor d_nlink d_size d_addrs]; try (unfold short in *; lia); [done|]. apply Forall_replicate. lia. }
  destruct (winode_ok (set_freeinode (n + 1) s) own _ n _ I1 Hnr Hok) as (i2 & R2 & Hd2 & D2 & O2 & B2). cbn [img set_freeinode] in O2, B2.
  exists (set_img i2 (set_freeinode (n + 1) s)). split.
  { unfold mk_ialloc. erewrite bind_ok by reflexivity. rewrite I2. erewrite bind_ok by reflexivity. by rewrite (bind_ok _ _ _ _ _ R2). }
  split; cbn [img set_img freeinode set_freeinode freeblock]; [exact Hd2|rewrite length_app; simpl; lia|rewrite length_app; simpl; lia| | | | |rewrite total_cost_app; change (total_cost [(t, [])]) with 0; lia].
  - intros k t' c' Hk. apply lookup_app_Some in Hk as [Hk|[Hge Hk]].
    + pose proof (lookup_lt_Some _ _ _ Hk). destruct (I4 k t' c' Hk) as [M1 M2 M3 M4]. assert (Em : dino i2 (1 + Z.of_nat k) = dino (img s) (1 + Z.of_nat k)) by (apply O2; lia).
      split; rewrite ?Em; [done|done|done|]. eapply grown_frame; [exact M4|]. intros b x Hb. split; [|done]. apply B2. pose proof (di_own _ _ _ I1 _ _ Hb). lia.
    + destruct (k - length fs)%nat as [|j] eqn:Ej; [|done]. injection Hk as <- <-. assert (k = length fs) as -> by lia. fold n. split; rewrite ?D2; [done|done|done|apply empty_file].
  - intros m Hm. rewrite length_app in Hm. cbn [length] in Hm. rewrite O2 by lia. apply I5. lia.
  - rewrite B2 by lia. done.
  - intros b Hb. rewrite B2 by lia. by apply I7.
Qed.

(** The empty image. *)
Lemma zero_all_ok n : forall k fi fb, zero_all (range (Z.of_nat k) n) (Mkfs (replicate k zero_block) fi fb) = Ok tt (Mkfs (replicate (k + n) zero_block) fi fb).
Proof.
  induction n as [|n IH]; intros k fi fb; [by rewrite Nat.add_0_r|]. rewrite range_cons. cbn [zero_all].
  assert (E : wsect (Z.of_nat k) zero_block (Mkfs (replicate k zero_block) fi fb) = Ok tt (Mkfs (replicate (S k) zero_block) fi fb)).
  { unfold wsect, modify. cbv zeta. cbn [img set_img freeinode freeblock]. rewrite Nat2Z.id, length_replicate. replace (S k - k)%nat with 1%nat by lia.
    do 2 f_equal. rewrite <- replicate_add, Nat.add_1_r. unfold set_img. cbn [freeinode freeblock]. f_equal. apply insert_replicate. }
  rewrite (bind_ok _ _ _ _ _ E). replace (Z.of_nat k + 1) with (Z.of_nat (S k)) by lia. rewrite IH. by replace (S k + n)%nat with (k + S n)%nat by lia.
Qed.

Lemma on_disk_zeros n b : on_disk (replicate n zero_block) b = zero_block.
Proof. unfold on_disk. destruct (0 <=? b); [|done]. rewrite nth_lookup. destruct (replicate n zero_block !! Z.to_nat b) as [d|] eqn:E; [|done]. by apply lookup_replicate in E as [-> _]. Qed.

Lemma encode_sb_ok : block_ok (encode_sb mk_sb).
Proof. unfold encode_sb. auto 10 with mem. Qed.

Lemma start_ok : exists t s, zero_all (range 0 (Z.to_nat FSSIZE)) (Mkfs [] 1 nmeta) = Ok tt t /\ wsect 1 (encode_sb mk_sb) t = Ok tt s /\ image s ∅ [].
Proof.
  change (Z.to_nat FSSIZE) with 1000%nat. change nmeta with 59. eexists _, _. split; [exact (zero_all_ok 1000 0 1 59)|]. change (0 + 1000)%nat with 1000%nat.
  assert (Hd : disk_inv (replicate 1000 zero_block) ∅ 59).
  { split; [by rewrite length_replicate|apply Forall_replicate, zero_block_ok|intros b x Hx; by rewrite lookup_empty in Hx|intros b _; apply on_disk_zeros|lia]. }
  destruct (disk_inv_write _ _ _ 1 (encode_sb mk_sb) Hd ltac:(lia) encode_sb_ok) as [Hd' Hi'].
  split; [apply (wsect_ok (Mkfs (replicate 1000 zero_block) 1 59) ∅ 59 1 _ Hd); lia|]. set (i' := <[_ := _]> _) in *.
  split; cbn [img set_img freeinode freeblock]; [exact Hd'|done|simpl; lia|by intros k t c Hk| |by rewrite Hi', decide_True| |done].
  - intros n Hn. simpl in Hn. pose proof (IBLOCK_mk n ltac:(lia)). unfold dino. rewrite Hi', decide_False, on_disk_zeros by lia.
    unfold get_dinode, get16. cbn [d_type]. by rewrite !get8_zero.
  - intros b Hb. rewrite Hi', decide_False by lia. apply on_disk_zeros.
Qed.

Lemma append_all_ok k t chunks : forall s own fs c, image s own fs -> fs !! k = Some (t, c) -> Forall bytes_in chunks -> zlen c + zlen (concat chunks) <= 140 * 512 ->
  59 + total_cost (<[k := (t, c ++ concat chunks)]> fs) <= 1000 ->
  exists s' own', append_all (1 + Z.of_nat k) chunks s = Ok tt s' /\ image s' own' (<[k := (t, c ++ concat chunks)]> fs).
Proof.
  induction chunks as [|p chunks IH]; intros s own fs c Hi Hk Hc Hmax Hroom.
  { exists s, own. simpl in *. rewrite app_nil_r, list_insert_id by done. done. }
  apply Forall_cons in Hc as [Hp Hc]. cbn [concat append_all] in *. rewrite length_app in Hmax. pose proof (lookup_lt_Some _ _ _ Hk) as Hlt.
  assert (Hroom1 : 59 + total_cost (<[k := (t, c ++ p)]> fs) <= 1000).
  { rewrite !(total_cost_insert fs k t c) in * by done. pose proof (fcost_mono (zlen (c ++ p)) (zlen (c ++ p ++ concat chunks))). rewrite !length_app in *. lia. }
  destruct (image_append s own fs k t c p Hi Hk Hp ltac:(lia) Hroom1) as (s1 & own1 & R1 & I1). rewrite (bind_ok _ _ _ _ _ R1).
  rewrite app_assoc in *. rewrite <- (list_insert_insert_eq fs k (t, (c ++ p) ++ concat chunks) (t, c ++ p)) in *.
  apply (IH s1 own1); [done|by apply list_lookup_insert_eq|done|rewrite length_app; lia|done].
Qed.

(** The entries of the files in the root directory, from the inode [n] on, and
    the files. *)
Fixpoint entries (n : Z) (files : list (list Z * list (list Z))) : list (list Z) :=
  match files with [] => [] | (arg, _) :: files => de_strncpy n (file_name arg) :: entries (n + 1) files end.
Definition file_list (files : list (list Z * list (list Z))) : list (Z * list Z) := (fun f => (T_FILE, concat (snd f))) <$> files.

(** A file that can be put in an image: a C string without a slash for its
    name, and contents that an inode can have. *)
Record good_file (f : list Z * list (list Z)) : Prop := {
  gf_name : Forall (fun c => 0 < c < 256 /\ c <> 47) (fst f);
  gf_bytes : Forall bytes_in (snd f);
  gf_size : zlen (concat (snd f)) <= 140 * 512;
}.

Lemma good_name f : good_file f -> bytes_in (file_name (fst f)).
Proof.
  intros [H _ _]. assert (Hb : bytes_in (fst f)) by (eapply Forall_impl; [exact H|]; simpl; lia).
  unfold file_name. destruct (fst f) as [|c r]; [done|]. destruct (c =? 95); [by apply Forall_cons in Hb as [_ Hb]|done].
Qed.

Lemma no_slash f : good_file f -> existsb (Z.eqb 47) (fst f) = false.
Proof.
  intros [H _ _]. apply not_true_iff_false. rewrite existsb_exists. intros (x & Hx & E). apply Z.eqb_eq in E as <-. apply list_elem_of_In in Hx.
  rewrite Forall_forall in H. by apply H in Hx as [_ Hx].
Qed.

(** A directory entry for the inode [n] under a name. *)
Record entry_is (e : list Z) (n : Z) (name : list Z) : Prop := {
  en_len : length e = 16%nat;
  en_bytes : bytes_in e;
  en_inum : de_inum e = n;
  en_name : fname (de_name e) = fname name;
}.

Lemma de_strncpy_ok n name : bytes_in name -> 0 < n < 65536 -> entry_is (de_strncpy n name) n name.
Proof.
  intros Hb Hn. assert (E : de_strncpy n name = new_entry (replicate 16 0) name n).
  { unfold de_strncpy, new_entry, splice. rewrite copy_name_length. change (de_name (replicate 16 0)) with (replicate 14 0). by f_equal. }
  rewrite E. destruct (new_entry_ok (B := memb) (fun _ => None) (fun _ => None) (replicate 16 0) name n Hb Hn) as (H1 & H2 & H3 & H4). split; [done|done|done|]. rewrite H4. by apply fname_copy.
Qed.

Lemma add_files_ok files : forall s own r done, image s own ((T_DIR, r) :: done) -> Forall good_file files ->
  zlen r + 16 * zlen files <= 140 * 512 -> 1 + zlen done + zlen files < 200 ->
  let fs := (T_DIR, r ++ concat (entries (2 + zlen done) files)) :: done ++ file_list files in 59 + total_cost fs <= 1000 ->
  exists s' own', add_files 1 files s = Ok tt s' /\ image s' own' fs.
Proof.
  induction files as [|[arg chunks] files IH]; intros s own r dn Hi Hg Hmax Hn fs Hroom.
  { exists s, own. subst fs. cbn [entries concat file_list fmap list_fmap]. by rewrite !app_nil_r. }
  apply Forall_cons in Hg as [Hf Hg]. cbn [length] in *. cbn [add_files]. rewrite (no_slash _ Hf : existsb (Z.eqb 47) arg = false).
  destruct (image_ialloc s own _ T_FILE Hi) as (s1 & R1 & I1); [cbn [length]; lia|done|]. rewrite (bind_ok _ _ _ _ _ R1). cbn [length app] in I1 |- *.
  replace (1 + Z.of_nat (S (length dn))) with (2 + zlen dn) by lia. set (e := de_strncpy (2 + zlen dn) (file_name arg)).
  assert (He : entry_is e (2 + zlen dn) (file_name arg)) by (apply de_strncpy_ok; [exact (good_name _ Hf)|lia]).
  assert (Hcost : total_cost fs = fcost (zlen (r ++ e ++ concat (entries (3 + zlen dn) files))) + (total_cost dn + (fcost (zlen (concat chunks)) + total_cost (file_list files)))).
  { subst fs. cbn [entries concat]. replace (2 + zlen dn + 1) with (3 + zlen dn) by lia. cbn [total_cost fold_right snd]. by rewrite total_cost_app. }
  pose proof (fcost_nonneg (zlen (concat chunks)) ltac:(lia)). pose proof (total_cost_nonneg (file_list files)) as Hnn. pose proof (en_len _ _ _ He) as Hlen.
  pose proof (fcost_mono (zlen (r ++ e)) (zlen (r ++ e ++ concat (entries (3 + zlen dn) files))) ltac:(rewrite !length_app; lia)) as Hmono.
  destruct (image_append s1 own ((T_DIR, r) :: dn ++ [(T_FILE, [])]) 0 T_DIR r e I1 eq_refl (en_bytes _ _ _ He) ltac:(lia)) as (s2 & own2 & R2 & I2).
  { cbn [insert list_insert total_cost fold_right snd]. fold total_cost. rewrite total_cost_app. change (total_cost [(T_FILE, [])]) with 0. lia. }
  cbn [insert list_insert] in I2. change (1 + Z.of_nat 0) with 1 in R2. rewrite (bind_ok _ _ _ _ _ R2).
  destruct (append_all_ok (S (length dn)) T_FILE chunks s2 own2 _ [] I2) as (s3 & own3 & R3 & I3).
  { rewrite lookup_cons_ne_0 by done. cbn [pred]. by apply list_lookup_middle. }
  { apply Hf. }
  { simpl. apply (gf_size _ Hf). }
  { rewrite (total_cost_insert _ _ T_FILE []); [|rewrite lookup_cons_ne_0 by done; by apply list_lookup_middle]. cbn [total_cost fold_right snd app]. fold total_cost.
    rewrite total_cost_app. change (total_cost [(T_FILE, [])]) with 0. change (fcost (zlen [])) with 0. lia. }
  replace (1 + Z.of_nat (S (length dn))) with (2 + zlen dn) in R3 by lia. rewrite (bind_ok _ _ _ _ _ R3).
  assert (Ei : forall (a x y : Z * list Z), <[S (length dn) := x]> (a :: dn ++ [y]) = a :: dn ++ [x]) by (intros a x y; simpl; f_equal; rewrite <- (Nat.add_0_r (length dn)); exact (insert_app_r dn [y] 0 x)).
  rewrite Ei in I3.
  destruct (IH s3 own3 (r ++ e) (dn ++ [(T_FILE, concat chunks)]) I3 Hg) as (s4 & own4 & R4 & I4); rewrite ?length_app; cbn [length]; rewrite ?length_app; try lia.
  { simpl. rewrite !total_cost_app. simpl. replace (2 + Z.of_nat (length dn + 1)) with (3 + zlen dn) by lia. rewrite <- app_assoc. lia. }
  exists s4, own4. split; [done|]. subst fs. cbn [entries concat]. replace (2 + zlen dn + 1) with (2 + zlen (dn ++ [(T_FILE, concat chunks)])) by (rewrite length_app; simpl; lia).
  cbn zeta in I4. by rewrite <- !app_assoc in I4.
Qed.

Lemma marks_ok n : (n <= 4096)%nat -> let d := fold_left (fun d i => mark_bit i d) (range 0 n) zero_block in
  block_ok d /\ forall b, 0 <= b < 4096 -> bit_set d b = (b <? Z.of_nat n).
Proof.
  induction n as [|n IH]; intros Hn d.
  { split; [apply zero_block_ok|]. intros b Hb. subst d. change (range 0 0) with (@nil Z). rewrite bit_set_testbit. cbn [fold_left]. rewrite get8_zero, Z.testbit_0_l. symmetry. apply Z.ltb_ge. lia. }
  destruct (IH ltac:(lia)) as [Hd Hbit]. subst d. replace (S n) with (n + 1)%nat by lia. rewrite range_app, fold_left_app. set (d := fold_left _ (range 0 n) _) in *.
  change (range (0 + Z.of_nat n) 1) with [Z.of_nat n]. cbn [fold_left]. split; [unfold mark_bit; auto with mem|].
  intros b Hb. rewrite bit_set_mark by (apply Hd || (unfold BPB, BSIZE; lia)). rewrite Hbit by done. case_bool_decide; destruct (Z.ltb_spec b (Z.of_nat n)), (Z.ltb_spec b (Z.of_nat (n + 1))); simpl; (done || lia).
Qed.

(** What the blocks of the files hold does not depend on the blocks before the
    data. *)
Lemma file_is_low i i' own fb n di c : disk_inv i own fb -> (forall b, 59 <= b -> on_disk i' b = on_disk i b) -> file_is i own n di c -> file_is i' own n di c.
Proof. intros Hd Hb Hf. eapply grown_frame; [exact Hf|]. intros b k Hk. split; [|done]. apply Hb. apply (di_own _ _ _ Hd) in Hk. lia. Qed.

(** The image at the end: [root] is in the root directory, [fs] are the other
    files from the inode 2 on. *)
Record final_image (i : list block) (own : owners) (fb : Z) (root : list Z) (fs : list (Z * list Z)) : Prop := {
  fi_disk : disk_inv i own fb;
  fi_meta : d_type (dino i 1) = T_DIR /\ d_major (dino i 1) = 0 /\ d_minor (dino i 1) = 0 /\ d_nlink (dino i 1) = 1;
  fi_size : d_size (dino i 1) = (zlen root / 512 + 1) * 512;
  fi_root : file_is i own 1 (dino i 1) root;
  fi_files : forall k t c, fs !! k = Some (t, c) -> is_file i own (2 + Z.of_nat k) t c;
  fi_free : forall n, 1 + zlen fs < n < 200 -> d_type (dino i n) = 0;
  fi_sb : on_disk i 1 = encode_sb mk_sb;
  fi_log : forall b, 2 <= b < 32 -> on_disk i b = zero_block;
  fi_bits : forall b, 0 <= b < 4096 -> bit_set (on_disk i 58) b = (b <? fb);
}.

Lemma mk_finish_ok s own root fs : image s own ((T_DIR, root) :: fs) -> 59 + total_cost ((T_DIR, root) :: fs) <= 1000 -> zlen root <= 140 * 512 ->
  exists i, (din <- rinode 1 ;; winode 1 (set_dsize ((d_size din / BSIZE + 1) * BSIZE) din) ;; fb <- gets freeblock ;; mk_balloc fb) s = Ok tt (set_img i s) /\
    final_image i own (freeblock s) root fs.
Proof.
  intros [I1 I2 I3 I4 I5 I6 I7 I8] Hroom Hmax. destruct (I4 0%nat T_DIR root eq_refl) as [(T1 & T2 & T3 & T4) M2 M3 M4]. change (1 + Z.of_nat 0) with 1 in *. cbn [length] in *.
  rewrite (bind_ok _ _ _ _ _ (rinode_ok s own _ 1 I1 ltac:(lia))), M2. change BSIZE with 512. set (sz := (zlen root / 512 + 1) * 512).
  assert (Hsz : 0 <= sz < 4294967296) by (subst sz; zsolve). pose proof (di_low _ _ _ I1) as Hfb.
  assert (Hok : dinode_ok (set_dsize sz (dino (img s) 1))).
  { split; cbn [set_dsize d_type d_major d_minor d_nlink d_size d_addrs]; rewrite ?T1, ?T2, ?T3, ?T4; try (unfold short; lia); [done|apply M4|by eapply grown_addrs]. }
  destruct (winode_ok s own _ 1 _ I1 ltac:(lia) Hok) as (i2 & R2 & Hd2 & D2 & O2 & B2). rewrite (bind_ok _ _ _ _ _ R2). erewrite bind_ok by reflexivity. cbn [freeblock set_img].
  destruct (marks_ok (Z.to_nat (freeblock s)) ltac:(lia)) as [Hmb Hbits]. unfold mk_balloc. change (BSIZE * 8) with 4096. rewrite (proj2 (Z.ltb_lt _ _)) by lia. cbn [negb].
  change (sb_bmapstart mk_sb) with 58. rewrite (wsect_ok (set_img i2 s) own (freeblock s) 58 _ Hd2 ltac:(lia)). set (bm := fold_left _ _ _) in *.
  destruct (disk_inv_write i2 own (freeblock s) 58 bm Hd2 ltac:(lia) Hmb) as [Hd3 B3]. cbn [img set_img] in *. eexists. split; [reflexivity|]. set (i3 := <[_ := _]> i2) in *.
  assert (D3 : forall n, 0 <= n < 200 -> dino i3 n = dino i2 n). { intros n Hn. pose proof (IBLOCK_mk n Hn). unfold dino. rewrite B3, decide_False by lia. done. }
  assert (Hhi : forall b, 59 <= b -> on_disk i3 b = on_disk (img s) b) by (intros b Hb; rewrite B3, decide_False, B2 by lia; done).
  split; rewrite ?D3, ?D2 by lia; cbn [set_dsize d_type d_major d_minor d_nlink d_size]; [exact Hd3|by rewrite T1, T2, T3, T4|reflexivity| | | | | |].
  - eapply grown_addrs_eq; [|eapply file_is_low; [exact I1|exact Hhi|exact M4]]. done.
  - intros k t c Hk. pose proof (lookup_lt_Some _ _ _ Hk). destruct (I4 (S k) t c Hk) as [N1 N2 N3 N4]. replace (1 + Z.of_nat (S k)) with (2 + Z.of_nat k) in * by lia.
    assert (Ed : dino i3 (2 + Z.of_nat k) = dino (img s) (2 + Z.of_nat k)) by (rewrite D3, O2 by lia; done). split; rewrite ?Ed; [done|done|done|]. exact (file_is_low _ _ _ _ _ _ _ I1 Hhi N4).
  - intros n Hn. rewrite D3, O2 by lia. apply I5. lia.
  - by rewrite B3, decide_False, B2 by lia.
  - intros b Hb. rewrite B3, decide_False, B2 by lia. by apply I7.
  - intros b Hb. rewrite B3, decide_True by done. rewrite Hbits by done. by rewrite Z2Nat.id by lia.
Qed.

(** The root directory and the whole tree. *)
Definition root_list (files : list (list Z * list (list Z))) : list (list Z) := de_strcpy 1 [46] :: de_strcpy 1 [46; 46] :: entries 2 files.
Definition tree (files : list (list Z * list (list Z))) : list (Z * list Z) := (T_DIR, concat (root_list files)) :: file_list files.

(** What fits: 198 files, and the blocks they take. *)
Record fits (files : list (list Z * list (list Z))) : Prop := {
  ft_good : Forall good_file files;
  ft_count : zlen files < 199;
  ft_blocks : 59 + total_cost (tree files) <= 1000;
}.

Lemma entries_length n files : length (entries n files) = length files.
Proof. revert n. induction files as [|[arg chunks] files IH]; intros n; simpl; [done|]. by rewrite IH. Qed.

Lemma entries_ok files n k f : Forall good_file files -> files !! k = Some f -> 0 < n -> n + zlen files < 65536 ->
  exists e, entries n files !! k = Some e /\ entry_is e (n + Z.of_nat k) (file_name (fst f)).
Proof.
  revert n k. induction files as [|[arg chunks] files IH]; intros n [|k] Hg Hk Hn Hm; try done; apply Forall_cons in Hg as [Hf Hg]; cbn [length] in Hm.
  - injection Hk as <-. eexists. split; [reflexivity|]. rewrite Z.add_0_r. apply de_strncpy_ok; [exact (good_name _ Hf)|lia].
  - destruct (IH (n + 1) k Hg Hk ltac:(lia) ltac:(lia)) as (e & He & Hi). exists e. split; [done|]. by replace (n + Z.of_nat (S k)) with (n + 1 + Z.of_nat k) by lia.
Qed.

Lemma dots_ok name : name = [46] \/ name = [46; 46] -> entry_is (de_strcpy 1 name) 1 name.
Proof. intros [-> | ->]; (split; [reflexivity|apply (bool_decide_unpack _); by vm_compute|reflexivity|reflexivity]). Qed.

(** Every entry of the root directory, with its inode and name. *)
Definition root_names (files : list (list Z * list (list Z))) : list (list Z) := [46] :: [46; 46] :: (file_name ∘ fst <$> files).
Definition root_inum (k : Z) : Z := if k <? 2 then 1 else k.

Lemma root_entry files k name : fits files -> root_names files !! k = Some name ->
  exists e, root_list files !! k = Some e /\ entry_is e (root_inum (Z.of_nat k)) name.
Proof.
  intros [Hg Hn _] Hk. destruct k as [|[|k]]; [injection Hk as <-|injection Hk as <-|].
  1,2: eexists; split; [reflexivity|apply dots_ok; tauto].
  apply list_lookup_fmap_Some in Hk as (f & -> & Hf). destruct (entries_ok files 2 k f Hg Hf ltac:(lia) ltac:(lia)) as (e & He & Hi). exists e. split; [done|].
  unfold root_inum. destruct (Z.ltb_spec (Z.of_nat (S (S k))) 2); [lia|]. by replace (Z.of_nat (S (S k))) with (2 + Z.of_nat k) by lia.
Qed.

Lemma root_sizes files : fits files -> Forall (fun e => length e = 16%nat) (root_list files).
Proof.
  intros Hf. apply Forall_lookup. intros k e Hk. assert (Hlen : length (root_names files) = length (root_list files)) by (unfold root_names, root_list; cbn [length]; by rewrite length_fmap, entries_length).
  pose proof (lookup_lt_Some _ _ _ Hk) as Hlt. rewrite <- Hlen in Hlt. destruct (lookup_lt_is_Some_2 _ _ Hlt) as [nm Hnm].
  destruct (root_entry files k nm Hf Hnm) as (e' & He & [E _ _ _]). rewrite Hk in He. by injection He as <-.
Qed.

Lemma root_length files : fits files -> zlen (concat (root_list files)) = 16 * (2 + zlen files).
Proof.
  intros Hf. pose proof (root_sizes files Hf) as Hl. assert (E : forall l : list (list Z), Forall (fun e => length e = 16%nat) l -> zlen (concat l) = 16 * zlen l).
  { clear. induction 1 as [|e l He _ IH]; [done|]. cbn [concat length]. rewrite length_app. lia. }
  rewrite (E _ Hl). unfold root_list. cbn [length]. rewrite entries_length. lia.
Qed.

Lemma mkfs_main_ok files : fits files -> exists s own, mkfs_main files (Mkfs [] 1 0) = Ok tt s /\ freeblock s = 59 + total_cost (tree files) /\
  final_image (img s) own (freeblock s) (concat (root_list files)) (file_list files).
Proof.
  intros Hfit. pose proof Hfit as [Hg Hn Hroom]. unfold mkfs_main. destruct start_ok as (t0 & s0 & R1 & R2 & I0). erewrite bind_ok by reflexivity.
  rewrite (bind_ok _ _ _ _ _ R1), (bind_ok _ _ _ _ _ R2).
  destruct (image_ialloc s0 ∅ [] T_DIR I0) as (s1 & R3 & I1); [simpl; lia|done|]. rewrite (bind_ok _ _ _ _ _ R3). change (1 + zlen []) with 1. change (negb (1 =? ROOTINO)) with false. cbv iota.
  assert (Hc : forall c, zlen c <= zlen (concat (root_list files)) -> 59 + total_cost [(T_DIR, c)] <= 1000).
  { intros c Hc. change (total_cost (tree files)) with (fcost (zlen (concat (root_list files))) + total_cost (file_list files)) in Hroom.
    change (total_cost [(T_DIR, c)]) with (fcost (zlen c) + 0). pose proof (fcost_mono _ _ Hc). pose proof (total_cost_nonneg (file_list files)). lia. }
  destruct (image_append s1 ∅ [(T_DIR, [])] 0 T_DIR [] (de_strcpy 1 [46]) I1 eq_refl) as (s2 & own2 & R4 & I2); [apply dots_ok; tauto|vm_compute; discriminate|apply Hc; unfold root_list; cbn [concat]; rewrite !length_app; cbn [length]; lia|].
  change (1 + Z.of_nat 0) with 1 in R4. rewrite (bind_ok _ _ _ _ _ R4). cbn [insert list_insert app] in I2.
  destruct (image_append s2 own2 _ 0 T_DIR _ (de_strcpy 1 [46; 46]) I2 eq_refl) as (s3 & own3 & R5 & I3); [apply dots_ok; tauto|vm_compute; discriminate|apply Hc; unfold root_list; cbn [concat]; rewrite !length_app; cbn [length]; lia|].
  change (1 + Z.of_nat 0) with 1 in R5. rewrite (bind_ok _ _ _ _ _ R5). cbn [insert list_insert] in I3.
  assert (Etree : (T_DIR, (de_strcpy 1 [46] ++ de_strcpy 1 [46; 46]) ++ concat (entries 2 files)) :: [] ++ file_list files = tree files).
  { unfold tree, root_list. cbn [concat app]. by rewrite <- app_assoc. }
  destruct (add_files_ok files s3 own3 _ [] I3 Hg) as (s4 & own4 & R6 & I4); [change (length (_ ++ _)) with 32%nat; lia|simpl; lia|by rewrite <- Etree in Hroom|].
  rewrite (bind_ok _ _ _ _ _ R6). cbv zeta in I4. change (2 + zlen _) with 2 in I4. rewrite Etree in I4.
  destruct (mk_finish_ok s4 own4 (concat (root_list files)) (file_list files) I4 Hroom) as (i & R7 & Hfin).
  { rewrite (root_length _ Hfit). lia. }
  rewrite R7. exists (set_img i s4), own4. split; [done|]. split; [apply (im_cost _ _ _ I4)|done].
Qed.

(* ------------------------------------------------------------------ *)
(** * The kernel's view of it *)

(** The file system on the image, with the super block that [readsb] finds. *)
Definition mounted (i : list block) : fsst memb := Fsst (Memb i [] []) (decode_sb (on_disk i 1)) Unlocked [].

(** [x] is the inode [n], as [ilock] loads it. *)
Definition of_disk (m : fsst memb) (n : Z) (x : inode) : Prop := i_dev x = 1 /\ i_inum x = n /\ dinode_of x = inode_on_disk m n.

Section mounted.
Context (i : list block) (own : owners) (fb : Z) (root : list Z) (fs : list (Z * list Z)) (Hf : final_image i own fb root fs).
Local Abbreviation m := (mounted i).

Lemma mounted_sb : sb m = mk_sb.
Proof using Hf. cbn [mounted sb]. rewrite (fi_sb _ _ _ _ _ Hf). by vm_compute. Qed.

Lemma mounted_used b : 0 <= b < 1000 -> used m b = (b <? fb).
Proof using Hf.
  intros Hb. unfold used. rewrite mounted_sb, (BBLOCK_eq mk_sb b mk_sb_ok Hb). change (sb_bmapstart mk_sb) with 58. change BPB with 4096.
  rewrite Z.div_small, Z.mod_small, Z.add_0_r by lia. apply (fi_bits _ _ _ _ _ Hf). lia.
Qed.

Lemma mounted_ok : fs_ok m ∅.
Proof using Hf.
  pose proof (fi_disk _ _ _ _ _ Hf) as Hd. pose proof (di_low _ _ _ Hd). split; rewrite ?mounted_sb; [|exact mk_sb_ok| | |done].
  - split; [apply Hd|intros k b Hk; by rewrite lookup_empty in Hk|by intros b ?%elem_of_nil|constructor|simpl; lia].
  - cbn. by rewrite (di_len _ _ _ Hd).
  - change (data_start mk_sb) with 59. intros b Hb. rewrite mounted_used by lia. apply Z.ltb_lt. lia.
Qed.

Section file.
Context (n : Z) (x : inode) (c : list Z) (Hx : of_disk m n x) (Hc : file_is i own n (dino i n) c).

Lemma of_disk_fields : dinode_of x = dino i n.
Proof using Hf Hx. destruct Hx as (_ & _ & ->). unfold inode_on_disk. by rewrite mounted_sb. Qed.

Lemma of_disk_addr k : addr_of x k = daddr (dino i n) k.
Proof using Hf Hx. by rewrite <- of_disk_fields. Qed.

Lemma of_disk_blk bn : file_blk m x bn = fblk i (dino i n) bn.
Proof using Hf Hx. unfold file_blk. rewrite !of_disk_addr. done. Qed.

Lemma own_in_use b y : own !! b = Some y -> in_use m b.
Proof using Hf.
  pose proof (fi_disk _ _ _ _ _ Hf) as Hd. pose proof (di_low _ _ _ Hd). intros Hb. apply (di_own _ _ _ Hd) in Hb. unfold in_use, is_data. rewrite mounted_sb, mounted_used by lia.
  change (data_start mk_sb) with 59. change (sb_size mk_sb) with 1000. split; [lia|]. apply Z.ltb_lt. lia.
Qed.

(** Which blocks the file has: the owner says so. *)
Lemma of_disk_own bn : 0 <= bn < 140 -> file_blk m x bn <> 0 -> own !! file_blk m x bn = Some (n, bn) /\ bn < nblk (zlen c).
Proof using Hf Hx Hc.
  rewrite of_disk_blk. intros Hb Hz. destruct (Z.lt_ge_cases bn (nblk (zlen c))) as [Hlt|Hge]; [split; [apply (gr_blk _ _ _ _ _ _ _ Hc); lia|done]|].
  by rewrite (gr_none _ _ _ _ _ _ _ Hc) in Hz by lia.
Qed.

Lemma of_disk_file : file_ok m x.
Proof using Hf Hx Hc.
  assert (Hi : addr_of x 12 <> 0 -> own !! addr_of x 12 = Some (n, 140)).
  { rewrite of_disk_addr. pose proof (gr_ind _ _ _ _ _ _ _ Hc) as Hi. by destruct (12 <? _). }
  split; [apply Hx| |by intros H; eapply own_in_use, Hi| | |].
  - change (length (d_addrs (dinode_of x)) = 13%nat). rewrite of_disk_fields. apply Hc.
  - intros bn Hb Hz. eapply own_in_use, of_disk_own; done.
  - intros bn bn' Hb Hb' E Hz. destruct (of_disk_own bn Hb Hz) as [H1 _]. rewrite E in Hz, H1. destruct (of_disk_own bn' Hb' Hz) as [H2 _]. congruence.
  - intros bn Hb Hz E. destruct (of_disk_own bn Hb Hz) as [H1 _]. rewrite E in Hz, H1. change NDIRECT with 12 in *. rewrite Hi in H1 by done. injection H1 as H1. change MAXFILE with 140 in Hb. lia.
Qed.

Lemma of_disk_byte o : 0 <= o < nblk (zlen c) * 512 -> file_blk m x (o / 512) <> 0 /\ file_byte m x o = nth (Z.to_nat o) c 0.
Proof using Hf Hx Hc.
  intros Ho. pose proof (gr_blk _ _ _ _ _ _ _ Hc (o / 512) ltac:(zsolve)) as Hown. pose proof (di_own _ _ _ (fi_disk _ _ _ _ _ Hf) _ _ Hown).
  unfold file_byte. change BSIZE with 512. rewrite of_disk_blk. split; [lia|]. destruct (Z.eqb_spec (fblk i (dino i n) (o / 512)) 0); [lia|]. by apply (gr_bytes _ _ _ _ _ _ _ Hc).
Qed.
End file.

Lemma of_disk_is n x t c : of_disk m n x -> is_file i own n t c ->
  full_file m x /\ i_type x = t /\ i_nlink x = 1 /\ i_size x = zlen c /\ forall o, 0 <= o < i_size x -> file_byte m x o = nth (Z.to_nat o) c 0.
Proof using Hf.
  intros Hx [(T1 & _ & _ & T4) M2 _ M4]. pose proof (of_disk_fields n x Hx) as E. pose proof (gr_K _ _ _ _ _ _ _ M4). pose proof (nblk_range (zlen c)).
  assert (Et : i_type x = t) by (rewrite <- T1, <- E; done). assert (En : i_nlink x = 1) by (rewrite <- T4, <- E; done). assert (Es : i_size x = zlen c) by (rewrite <- M2, <- E; done).
  split; [|split; [done|split; [done|split; [done|]]]].
  - split; [by eapply of_disk_file|rewrite Es; change (MAXFILE * BSIZE) with (140 * 512); lia|]. change BSIZE with 512. rewrite Es. intros bn Hb Hlt.
    destruct (of_disk_byte n x c Hx M4 (bn * 512) ltac:(lia)) as [Hz _]. by rewrite Z.div_mul in Hz.
  - intros o Ho. rewrite Es in Ho. apply (of_disk_byte n x c Hx M4). lia.
Qed.

(** The root directory: its size is that of whole blocks, and the entries after
    the last are free. *)
Lemma of_disk_root x : of_disk m 1 x -> zlen root mod 512 <> 0 -> full_file m x /\ i_type x = T_DIR /\ i_size x = nblk (zlen root) * 512 /\
  forall o, 0 <= o < i_size x -> file_byte m x o = nth (Z.to_nat o) root 0.
Proof using Hf.
  intros Hx Hmod. pose proof (of_disk_fields 1 x Hx) as E. pose proof (fi_root _ _ _ _ _ Hf) as Hr. pose proof (gr_K _ _ _ _ _ _ _ Hr).
  assert (Et : i_type x = T_DIR) by (rewrite <- (proj1 (fi_meta _ _ _ _ _ Hf)), <- E; done).
  assert (Es : i_size x = nblk (zlen root) * 512).
  { transitivity (d_size (dino i 1)); [by rewrite <- E|]. rewrite (fi_size _ _ _ _ _ Hf). unfold nblk. zsolve. }
  split; [|split; [done|split; [done|]]].
  - split; [by eapply of_disk_file|rewrite Es; change (MAXFILE * BSIZE) with (140 * 512); lia|]. change BSIZE with 512. rewrite Es. intros bn Hb Hlt.
    destruct (of_disk_byte 1 x root Hx Hr (bn * 512) ltac:(lia)) as [Hz _]. by rewrite Z.div_mul in Hz.
  - intros o Ho. rewrite Es in Ho. by apply (of_disk_byte 1 x root Hx Hr).
Qed.

Lemma of_disk_link x : of_disk m 1 x -> i_type x = T_DIR /\ i_nlink x = 1.
Proof using Hf. intros Hx. pose proof (of_disk_fields 1 x Hx) as E. destruct (fi_meta _ _ _ _ _ Hf) as (H1 & _ & _ & H2). rewrite <- E in H1, H2. done. Qed.

(** When the entries fill their blocks, the size covers a block more than there
    is. *)
Lemma root_hole x : of_disk m 1 x -> zlen root mod 512 = 0 -> zlen root < 140 * 512 ->
  file_blk m x (zlen root / 512) = 0 /\ zlen root / 512 * 512 < i_size x.
Proof using Hf.
  intros Hx Hmod Hmax. pose proof (of_disk_fields 1 x Hx) as E. pose proof (fi_root _ _ _ _ _ Hf) as Hr. split.
  - rewrite (of_disk_blk 1 x Hx). apply (gr_none _ _ _ _ _ _ _ Hr). unfold nblk. zsolve.
  - assert (i_size x = d_size (dino i 1)) as -> by (by rewrite <- E). rewrite (fi_size _ _ _ _ _ Hf). lia.
Qed.
End mounted.

Lemma concat_entry es k e : Forall (fun e => length e = 16%nat) es -> es !! k = Some e ->
  (fun o => nth (Z.to_nat o) (concat es) 0) <$> range (16 * Z.of_nat k) 16 = e.
Proof.
  intros Hl. revert k. induction Hl as [|e0 es He Hes IH]; intros [|k] Hk; try done.
  - injection Hk as ->. apply list_eq. intros j. rewrite list_lookup_fmap. destruct (decide (j < 16)%nat) as [Hj|Hj].
    + rewrite range_lookup by lia. destruct (lookup_lt_is_Some_2 e j ltac:(lia)) as [v Hv]. rewrite Hv. simpl. f_equal. replace (Z.to_nat _) with j by lia.
      rewrite app_nth1 by lia. by apply nth_lookup_Some.
    + rewrite !lookup_ge_None_2; [done|lia|by rewrite range_length; lia].
  - rewrite <- (IH k Hk). apply list_eq. intros j. rewrite !list_lookup_fmap. destruct (decide (j < 16)%nat) as [Hj|Hj].
    + rewrite !range_lookup by lia. simpl. f_equal. rewrite app_nth2 by lia. f_equal. lia.
    + by rewrite !lookup_ge_None_2 by (rewrite range_length; lia).
Qed.

(** The search of the entries is a search of the names. *)
Lemma find_names {A} (P : Z -> bool) (Q : A -> Prop) `{forall a, Decision (Q a)} (l : list A) : forall a n, (length l <= n)%nat ->
  (forall k nm, l !! k = Some nm -> P (a + Z.of_nat k) = bool_decide (Q nm)) -> (forall k, a + zlen l <= k < a + Z.of_nat n -> P k = false) ->
  List.find P (range a n) = (fun r => a + Z.of_nat (fst r)) <$> list_find Q l.
Proof.
  induction l as [|nm l IH]; intros a n Hn HP Hfree.
  { destruct (List.find P (range a n)) as [k|] eqn:E; [|done]. apply find_some in E as [Hin Hk]. apply list_elem_of_In, elem_of_range in Hin. simpl in Hfree. rewrite Hfree in Hk by lia. done. }
  destruct n as [|n]; [simpl in Hn; lia|]. rewrite range_cons. cbn [List.find list_find length] in *. pose proof (HP 0%nat nm eq_refl) as H0. rewrite Z.add_0_r in H0. rewrite H0.
  case_bool_decide as Hq; [by rewrite decide_True by done; simpl; rewrite Z.add_0_r|]. rewrite decide_False by done.
  rewrite (IH (a + 1) n); [|lia| |].
  - destruct (list_find Q l) as [[k y]|]; simpl; [|done]. f_equal. lia.
  - intros k y Hk. rewrite <- (HP (S k) y Hk). f_equal. lia.
  - intros k Hk. apply Hfree. lia.
Qed.

(** The inode number of a name in the root directory. *)
Definition root_lookup (files : list (list Z * list (list Z))) (name : list Z) : option Z :=
  (fun r => root_inum (Z.of_nat (fst r))) <$> list_find (fun nm => fname name = fname nm) (root_names files).

Lemma root_is_dir i own fb files x : fits files -> final_image i own fb (concat (root_list files)) (file_list files) -> of_disk (mounted i) 1 x -> (2 + zlen files) mod 32 <> 0 ->
  is_dir (mounted i) x /\ forall name, bytes_in name -> dir_map (mounted i) x name = root_lookup files name.
Proof.
  intros Hfit Hf Hx Hmod. pose proof (root_length files Hfit) as Hlen. destruct (of_disk_root _ _ _ _ _ Hf x Hx) as (Hfull & Ht & Hs & Hb); [rewrite Hlen; zsolve|].
  split; [split; [done|done|rewrite Hs; zsolve]|]. intros name Hname. set (root := concat (root_list files)) in *.
  assert (Hln : length (root_names files) = (2 + length files)%nat) by (unfold root_names; cbn [length]; by rewrite length_fmap).
  assert (Hne : nentries x = 32 * nblk (zlen root)) by (unfold nentries; rewrite Hs; zsolve). pose proof (nblk_range (zlen root)) as Hnb.
  assert (Hent : forall k, 0 <= k < nentries x -> dentry (mounted i) x k = (fun o => nth (Z.to_nat o) root 0) <$> range (16 * k) 16).
  { intros k Hk. apply list_fmap_ext. intros j o Ho. apply list_elem_of_lookup_2, elem_of_range in Ho. apply Hb. lia. }
  assert (Hat : forall k nm, root_names files !! k = Some nm -> entry_is (dentry (mounted i) x (Z.of_nat k)) (root_inum (Z.of_nat k)) nm).
  { intros k nm Hk. pose proof (lookup_lt_Some _ _ _ Hk). rewrite Hent by lia. destruct (root_entry files k nm Hfit Hk) as (e & He & Hi). subst root.
    by rewrite (concat_entry _ _ e (root_sizes _ Hfit) He). }
  unfold dir_map, dir_find, root_lookup. rewrite (find_names _ (fun nm => fname name = fname nm) (root_names files) 0).
  - destruct (list_find _ _) as [[k nm]|] eqn:E; [|done]. apply list_find_Some in E as (Hk & _ & _). cbn [fmap option_fmap option_map fst]. rewrite Z.add_0_l. by rewrite (en_inum _ _ _ (Hat _ _ Hk)).
  - lia.
  - intros k nm Hk. destruct (Hat k nm Hk) as [E1 E2 E3 E4]. rewrite Z.add_0_l. unfold hit. rewrite E3.
    assert (Hz : root_inum (Z.of_nat k) <> 0) by (unfold root_inum; destruct (Z.ltb_spec (Z.of_nat k) 2); lia). apply Z.eqb_neq in Hz as ->. cbn [negb andb].
    apply eq_true_iff_eq. rewrite Z.eqb_eq, bool_decide_eq_true, namecmp_fname, E4; [done|done|]. by apply slice_bytes.
  - intros k Hk. unfold hit. rewrite Hent by lia. replace (de_inum _) with 0; [done|]. unfold de_inum, get16, get8.
    rewrite !nth_lookup, !list_lookup_fmap, !range_lookup by lia. cbn [fmap option_fmap option_map default from_option id]. rewrite !nth_overflow by lia. done.
Qed.

Lemma final_file i own fb root fs n : final_image i own fb root fs -> 1 <= n <= 1 + zlen fs -> exists c, file_is i own n (dino i n) c.
Proof.
  intros Hf Hn. destruct (decide (n = 1)) as [->|Hne]; [eexists; apply (fi_root _ _ _ _ _ Hf)|].
  destruct (lookup_lt_is_Some_2 fs (Z.to_nat (n - 2)) ltac:(lia)) as [[t c] Hk]. exists c. destruct (fi_files _ _ _ _ _ Hf _ _ _ Hk) as [_ _ _ H].
  by replace (2 + Z.of_nat (Z.to_nat (n - 2))) with n in H by lia.
Qed.

(** The file system [m] is sound and has just these files in its root. *)
Record serves (m : fsst memb) (files : list (list Z * list (list Z))) : Prop := {
  sv_sb : sb m = mk_sb;
  sv_fs : fs_ok m ∅;
  sv_log : get32 (blk m (sb_logstart mk_sb)) 0 = 0;
  sv_used : forall b, 0 <= b < FSSIZE -> used m b = (b <? nmeta + total_cost (tree files));
  sv_file : forall k f x, files !! k = Some f -> of_disk m (2 + Z.of_nat k) x ->
    full_file m x /\ i_type x = T_FILE /\ i_nlink x = 1 /\ i_size x = zlen (concat (snd f)) /\
    forall o, 0 <= o < i_size x -> file_byte m x o = nth (Z.to_nat o) (concat (snd f)) 0;
  sv_root : forall x, of_disk m ROOTINO x -> (2 + zlen files) mod 32 <> 0 ->
    is_dir m x /\ forall name, bytes_in name -> dir_map m x name = root_lookup files name;
  sv_link : forall x, of_disk m ROOTINO x -> i_type x = T_DIR /\ i_nlink x = 1;
  sv_disjoint : forall n n' x x' bn bn', 1 <= n <= 1 + zlen files -> 1 <= n' <= 1 + zlen files -> n <> n' ->
    of_disk m n x -> of_disk m n' x' -> 0 <= bn < MAXFILE -> 0 <= bn' < MAXFILE -> file_blk m x bn <> 0 -> file_blk m x bn <> file_blk m x' bn';
  sv_free : forall n, 1 + zlen files < n < NINODES -> d_type (inode_on_disk m n) = 0;
}.

Lemma final_serves i own fb files : fits files -> fb = 59 + total_cost (tree files) -> final_image i own fb (concat (root_list files)) (file_list files) -> serves (mounted i) files.
Proof.
  intros Hfit Hfb Hf. assert (Hlen : length (file_list files) = length files) by apply length_fmap. split.
  - by eapply mounted_sb.
  - by eapply mounted_ok.
  - change (sb_logstart mk_sb) with 2. unfold blk. simpl. rewrite (fi_log _ _ _ _ _ Hf) by lia. apply get32_zero.
  - intros b Hb. change nmeta with 59. rewrite <- Hfb. by eapply mounted_used.
  - intros k f x Hk Hx. eapply of_disk_is; [done|done|]. apply (fi_files _ _ _ _ _ Hf). unfold file_list. by rewrite list_lookup_fmap, Hk.
  - intros x Hx Hmod. by eapply root_is_dir.
  - intros x Hx. by eapply of_disk_link.
  - intros n n' x x' bn bn' Hn Hn' Hne Hx Hx' Hb Hb' Hz E. rewrite <- Hlen in Hn, Hn'.
    destruct (final_file _ _ _ _ _ n Hf Hn) as [c Hc], (final_file _ _ _ _ _ n' Hf Hn') as [c' Hc'].
    destruct (of_disk_own _ _ _ _ _ Hf n x c Hx Hc bn Hb Hz) as [O1 _]. rewrite E in O1, Hz. destruct (of_disk_own _ _ _ _ _ Hf n' x' c' Hx' Hc' bn' Hb' Hz) as [O2 _]. congruence.
  - intros n Hn. unfold inode_on_disk. rewrite (mounted_sb _ _ _ _ _ Hf). apply (fi_free _ _ _ _ _ Hf). rewrite Hlen. unfold NINODES in Hn. lia.
Qed.


(** A [README], and [_cat] in two reads. *)
Definition demo_files : list (list Z * list (list Z)) :=
  [([82; 69; 65; 68; 77; 69], [[104; 105; 10]]); ([95; 99; 97; 116], [replicate 512 7; [8; 9]])].

Lemma demo_fits : fits demo_files.
Proof.
  split; [|vm_compute; reflexivity|vm_compute; discriminate].
  repeat constructor; simpl; try lia; try (vm_compute; discriminate). all: apply (bool_decide_unpack _); by vm_compute.
Qed.

