(* ===== verification/FsBoot.v ===== *)
(** The kernel on the image that mkfs makes: the mount, the lookup of a file by its
    path and the read of its contents, over any implementation of the block
    layer. *)

From S2P Require Import Prelude StringC Spinlock Sleeplock Block Bio Log Layer Fs FsBlocks FsFile FsWrite FsInode FsDir FsPath Mkfs MkfsSpec MkfsImage.

(* ------------------------------------------------------------------ *)
(** * The same disk under another layer *)

(** What the file system holds depends only on its super block and its blocks. *)
Section view.
Context {B1 B2 : Type} {O1 : BlockOps B1} {L1 : BlockLayer B1} {O2 : BlockOps B2} {L2 : BlockLayer B2}.
Context (s1 : fsst B1) (s2 : fsst B2) (Hsb : sb s2 = sb s1) (Hblk : forall b, blk s2 b = blk s1 b).

Lemma used_view b : used s2 b = used s1 b.
Proof using Hsb Hblk. unfold used. by rewrite Hsb, Hblk. Qed.

Lemma in_use_view b : in_use s2 b <-> in_use s1 b.
Proof using Hsb Hblk. unfold in_use. by rewrite Hsb, used_view. Qed.

Lemma file_blk_view x bn : file_blk s2 x bn = file_blk s1 x bn.
Proof using Hblk. unfold file_blk. by rewrite Hblk. Qed.

Lemma file_byte_view x o : file_byte s2 x o = file_byte s1 x o.
Proof using Hblk. unfold file_byte. by rewrite file_blk_view, Hblk. Qed.

Lemma full_file_view x : full_file s1 x -> full_file s2 x.
Proof using Hsb Hblk.
  intros [[F1 F2 F3 F4 F5 F6] G2 G3]. split; [split|done|]; try done.
  - intros Hz. by apply in_use_view, F3.
  - intros bn Hb. rewrite file_blk_view. intros Hz. by apply in_use_view, F4.
  - intros bn bn' Hb Hb'. rewrite !file_blk_view. by apply F5.
  - intros bn Hb. rewrite file_blk_view. by apply F6.
  - intros bn Hb Hs. rewrite file_blk_view. by apply G3.
Qed.

Lemma is_dir_view x : is_dir s1 x -> is_dir s2 x.
Proof using Hsb Hblk. intros [D1 D2 D3]. split; [by apply full_file_view|done|done]. Qed.

Lemma dentry_view x k : dentry s2 x k = dentry s1 x k.
Proof using Hblk. unfold dentry. apply list_fmap_ext. intros j o _. apply file_byte_view. Qed.

Lemma dir_map_view x nm : dir_map s2 x nm = dir_map s1 x nm.
Proof using Hblk.
  unfold dir_map. assert (E : dir_find s2 x nm = dir_find s1 x nm).
  { unfold dir_find. induction (range 0 _) as [|k l IH]; [done|]. cbn [List.find]. unfold hit at 1 3. by rewrite dentry_view, IH. }
  rewrite E. destruct (dir_find s1 x nm); [|done]. cbn. by rewrite dentry_view.
Qed.

Lemma on_disk_view n : inode_on_disk s2 n = inode_on_disk s1 n.
Proof using Hsb Hblk. unfold inode_on_disk. by rewrite Hsb, Hblk. Qed.

Lemma fs_ok_view H : fs_ok s1 H -> layer_ok (fb s2) ∅ -> nblocks (fb s2) = nblocks (fb s1) -> ic_lock s2 = Unlocked -> fs_ok s2 ∅.
Proof using Hsb Hblk. intros [F1 F2 F3 F4 F5] Hl Hn Hu. split; rewrite ?Hsb; [done|done|congruence| |done]. intros b Hb. rewrite used_view. by apply F4. Qed.
End view.

(* ------------------------------------------------------------------ *)
(** * Giving an inode back *)

Section put.
Context {B : Type} {OB : BlockOps B} {LB : BlockLayer B}.
Implicit Types (s : fsst B) (x : inode).

Lemma sleep_release_ok s ip x : inodes s !! ip = Some x -> sleep_release (i_lock_of ip) s = Ok tt (ist s (fb s) ip (set_i_lock SFree x)).
Proof. intros Hip. unfold sleep_release, modify. simpl. by rewrite (alter_insert _ _ _ x). Qed.

(** [iput] of an inode that has links. *)
Lemma iput_linked s ip x : inodes s !! ip = Some x -> ic_lock s = Unlocked -> i_lock x = SFree -> i_nlink x <> 0 ->
  iput ip s = Ok tt (ist s (fb s) ip (set_i_ref (i_ref x - 1) x)).
Proof.
  intros Hip Hu Hl Hn. unfold iput. rewrite (bind_ok _ _ _ _ _ (sleep_acquire_ok s ip x Hip Hl)). set (s1 := ist s _ _ _). assert (H1 : inodes s1 !! ip = Some (set_i_lock SMine x)) by (by eapply ist_lookup).
  rewrite (bind_ok _ _ _ _ _ (geti_ok s1 ip _ id H1)). change (i_nlink (id (set_i_lock SMine x))) with (i_nlink x). apply Z.eqb_neq in Hn as ->. rewrite andb_false_r, bind_ret.
  rewrite (bind_ok _ _ _ _ _ (sleep_release_ok s1 ip _ H1)). unfold s1. rewrite ist_ist. replace (set_i_lock SFree (set_i_lock SMine x)) with x by (destruct x; simpl in *; by subst). cbn [ist fb].
  change (Fsst (fb s) (sb s) (ic_lock s) _) with (ist s (fb s) ip x). rewrite ist_id by done. rewrite bind_acquire by done.
  erewrite bind_ok by (apply seti_ok; exact Hip). unfold lock_release. cbn [lock_release]. destruct s; simpl in *; subst; done.
Qed.

Lemma iunlockput_linked s ip x : inodes s !! ip = Some x -> ic_lock s = Unlocked -> 1 <= i_ref x -> i_lock x = SMine -> i_nlink x <> 0 ->
  iunlockput ip s = Ok tt (ist s (fb s) ip (set_i_ref (i_ref x - 1) (set_i_lock SFree x))).
Proof.
  intros Hip Hu Hr Hl Hn. unfold iunlockput. rewrite (bind_ok _ _ _ _ _ (iunlock_ok s ip x Hip Hr Hl)).
  rewrite (iput_linked _ ip (set_i_lock SFree x)) by (by eapply ist_lookup || done). by rewrite ist_ist.
Qed.
End put.

(* ------------------------------------------------------------------ *)
(** * The mount *)

Section boot.
Context {B : Type} {OB : BlockOps B} {LB : BlockLayer B}.
Implicit Types (s : fsst B) (x : inode).

(** The inode cache of a kernel that starts. *)
Definition icache0 : list inode := replicate NINODE inode0.

Lemma inits_ok (d : B) sb0 : for_each (seq 0 NINODE) (fun i => seti i (set_i_lock SFree)) (Fsst d sb0 Unlocked icache0) = Ok tt (Fsst d sb0 Unlocked icache0).
Proof.
  assert (E : forall l, for_each l (fun i => seti i (set_i_lock SFree)) (Fsst d sb0 Unlocked icache0) = Ok tt (Fsst d sb0 Unlocked icache0)); [|apply E].
  induction l as [|i l IH]; [done|]. cbn [for_each]. assert (Ei : seti i (set_i_lock SFree) (Fsst d sb0 Unlocked icache0) = Ok tt (Fsst d sb0 Unlocked icache0)); [|by rewrite (bind_ok _ _ _ _ _ Ei)].
  assert (Ea : forall n i, alter (set_i_lock SFree) i (replicate n inode0) = replicate n inode0) by (clear; induction n as [|n IHn]; intros [|j]; [done..|]; exact (f_equal (cons inode0) (IHn j))).
  unfold seti, modify, icache0. cbn [inodes set_inodes]. by rewrite Ea.
Qed.

Lemma iinit_ok (d : B) sb0 lk : layer_ok d ∅ -> 1 < nblocks d ->
  exists f, iinit 1 (Fsst d sb0 lk icache0) = Ok tt (Fsst f (decode_sb (contents d 1)) Unlocked icache0) /\ layer_ok f ∅ /\ same_layer d f.
Proof.
  intros Hl Hn. set (s := Fsst d sb0 Unlocked icache0). destruct (read_block s ∅ 1) as (i & f & f' & H1 & _ & _ & _ & H2 & H3 & Hl3 & Hs3);
    [done|done|by intros i; rewrite lookup_empty|apply (held_ok_empty s)|]. exists f'. split; [|done]. unfold iinit. erewrite bind_ok by reflexivity. rewrite (bind_ok _ _ _ _ _ (inits_ok d sb0)).
  change (fs_readsb 1 s = Ok tt (Fsst f' (decode_sb (contents d 1)) Unlocked icache0)). unfold fs_readsb. rewrite (bind_ok _ _ _ _ _ H1), (bind_ok _ _ _ _ _ H2). erewrite bind_ok by reflexivity.
  unfold brelse_, zoom in H3 |- *. simpl in H3 |- *. destruct (bl_release i f); [|done..]. by injection H3 as -> ->.
Qed.

(** ** Paths of one element *)

Lemma elements_one name : name <> [] -> 47 ∉ name -> elements (47 :: name) = [name].
Proof.
  intros Hne Hs. unfold elements. change (split_on 47 (47 :: name)) with ([] :: split_on 47 name). rewrite filter_cons_False by (intros E; by apply E).
  assert (E : split_on 47 name = [name]).
  { clear Hne. induction name as [|c l IH]; [done|]. apply not_elem_of_cons in Hs as [Hc Hl]. rewrite split_on_cons by done. by rewrite IH. }
  rewrite E. by rewrite filter_cons_True.
Qed.

Lemma fname_take name : fname (take DIRSIZ name) = fname name.
Proof.
  unfold fname. assert (E : forall n p, 0 <= p -> p + Z.of_nat n <= 14 -> chars (arr (take DIRSIZ name)) p n = chars (arr name) p n).
  { induction n as [|n IH]; intros p Hp Hn; [done|]. cbn [chars]. assert (arr (take DIRSIZ name) p = arr name p) as ->; [|by rewrite IH by lia].
    unfold arr. destruct (Z.ltb_spec p 0); [lia|]. rewrite !nth_lookup, lookup_take_lt; [done|]. unfold DIRSIZ. lia. }
  by apply E.
Qed.

Lemma iget_first n : iget_slot icache0 1 n = Some (0%nat, <[0%nat := set_i_id 1 n 1 0 inode0]> icache0).
Proof. reflexivity. Qed.

Lemma iget_second x n : i_ref x = 1 -> i_inum x <> n ->
  iget_slot (<[0%nat := x]> icache0) 1 n = Some (1%nat, <[1%nat := set_i_id 1 n 1 0 inode0]> (<[0%nat := x]> icache0)).
Proof.
  intros Hr Hn. assert (Hc : icached 1 n x = false) by (unfold icached; rewrite (proj2 (Z.eqb_neq _ _) Hn); by rewrite andb_false_r). assert (Hf : ifree x = false) by (unfold ifree; by rewrite Hr).
  change (<[0%nat := x]> icache0) with (x :: replicate 49 inode0). unfold iget_slot. cbn [list_find]. rewrite Hc. rewrite decide_False by done.
  change (list_find (fun ip => icached 1 n ip = true) (replicate 49 inode0)) with (@None (nat * inode)). cbn [fmap option_fmap option_map prod_map]. rewrite Hf, decide_False by done. reflexivity.
Qed.

(** ** A lookup in the root *)

Context (devsw_read : Z -> option (nat -> Z -> M (fsst B) (Z * list Z))).
Context (m : fsst memb) (files : list (list Z * list (list Z))) (Hm : serves m files) (Hmod : (2 + zlen files) mod 32 <> 0).

(** The layer [f] holds the blocks of the image. *)
Record holds (f : B) : Prop := {
  ho_ok : layer_ok f ∅;
  ho_size : nblocks f = nblocks (fb m);
  ho_blocks : forall b, contents f b = blk m b;
}.

Lemma holds_same f f' : holds f -> layer_ok f' ∅ -> same_layer f f' -> holds f'.
Proof. intros [H1 H2 H3] Hl [S1 S2 S3]. split; [done|congruence|]. intros b. by rewrite S1. Qed.

Lemma holds_fs f l : holds f -> fs_ok (Fsst f (sb m) Unlocked l) ∅.
Proof using Hm. intros [H1 H2 H3]. apply (fs_ok_view m (Fsst f (sb m) Unlocked l) eq_refl H3 ∅); [apply Hm|done|done|done]. Qed.

(** The inode [n], read into a slot. *)
Definition read_in (n : Z) : inode := set_i_valid 1 (load_dinode (inode_on_disk m n) (set_i_lock SMine (set_i_id 1 n 1 0 inode0))).

Lemma read_in_of n : of_disk m n (read_in n).
Proof. split; [done|split; [done|]]. unfold read_in. by destruct (inode_on_disk m n). Qed.

Lemma ilock_read f l ip n : holds f -> l !! ip = Some (set_i_id 1 n 1 0 inode0) -> 0 <= n < sb_ninodes (sb m) -> i_type (read_in n) <> 0 ->
  exists f', ilock ip (Fsst f (sb m) Unlocked l) = Ok tt (Fsst f' (sb m) Unlocked (<[ip := read_in n]> l)) /\ holds f'.
Proof using Hm.
  intros Hf Hip Hn Ht. set (s := Fsst f (sb m) Unlocked l). assert (Ed : forall n, inode_on_disk s n = inode_on_disk m n) by (intros; apply on_disk_view; [done|apply Hf]).
  destruct (ilock_load s ip _ (holds_fs f l Hf) Hip) as (f' & E & Hl & Hs); [done|done|done|done|done|rewrite Ed; exact Ht|].
  exists f'. split; [|by eapply holds_same]. change (i_inum (set_i_id 1 n 1 0 inode0)) with n in E. rewrite Ed in E. exact E.
Qed.

Lemma root_dir f l : holds f -> is_dir (Fsst f (sb m) Unlocked l) (read_in 1) /\
  forall nm, bytes_in nm -> dir_map (Fsst f (sb m) Unlocked l) (read_in 1) nm = root_lookup files nm.
Proof using Hm Hmod.
  intros Hf. destruct (sv_root _ _ Hm _ (read_in_of 1) Hmod) as [D1 D2]. split; [apply (is_dir_view m (Fsst f (sb m) Unlocked l) eq_refl (ho_blocks _ Hf)); done|].
  intros nm Hnm. rewrite (dir_map_view m (Fsst f (sb m) Unlocked l) (ho_blocks _ Hf)). by apply D2.
Qed.

Lemma root_lookup_take name : root_lookup files (take DIRSIZ name) = root_lookup files name.
Proof. unfold root_lookup. by rewrite fname_take. Qed.

(** The cache after the walk: the root given back, and the inode found. *)
Definition put_root : inode := set_i_ref 0 (set_i_lock SFree (read_in 1)).

Lemma walk_root d name : holds d -> bytes_in name ->
  let s := Fsst d (sb m) Unlocked (<[0%nat := set_i_id 1 1 1 0 inode0]> icache0) in
  match root_lookup files name with
  | None => exists s', walk devsw_read 0 [name] false [] s = Ok (None, take DIRSIZ name) s'
  | Some n => n <> 1 -> exists f, holds f /\ walk devsw_read 0 [name] false [] s =
      Ok (Some 1%nat, take DIRSIZ name) (Fsst f (sb m) Unlocked (<[0%nat := put_root]> (<[1%nat := set_i_id 1 n 1 0 inode0]> (<[0%nat := read_in 1]> icache0))))
  end.
Proof using Hm Hmod.
  intros Hd Hb s. destruct (sv_link _ _ Hm _ (read_in_of 1)) as [Ht Hnl]. change ROOTINO with 1 in *.
  destruct (ilock_read d (inodes s) 0 1 Hd eq_refl) as (f1 & E1 & Hf1); [rewrite (sv_sb _ _ Hm); vm_compute; split; congruence|rewrite Ht; done|].
  cbn [inodes s] in E1. rewrite list_insert_insert_eq in E1. set (l1 := <[0%nat := read_in 1]> icache0) in *. assert (Hip : l1 !! 0%nat = Some (read_in 1)) by done.
  set (s1 := Fsst f1 (sb m) Unlocked l1) in *. destruct (root_dir f1 l1 Hf1) as [Hdir Hmap]. fold s1 in Hdir, Hmap.
  destruct (dirlookup_ok devsw_read (fun _ => None) s1 0 (read_in 1) (take DIRSIZ name) (holds_fs f1 l1 Hf1) Hdir Hip) as (f2 & Hl2 & Hs2 & Hlook). pose proof (holds_same _ _ Hf1 Hl2 Hs2) as Hf2.
  specialize (Hmap (take DIRSIZ name) ltac:(by apply Forall_take)). rewrite root_lookup_take in Hmap. unfold dir_map in Hmap. rewrite <- Hmap. clear Hmap.
  assert (Hgo : forall r, walk devsw_read 0 [name] false [] s = r <-> (next <- dirlookup devsw_read 0 (take DIRSIZ name) ;;
    match next with None => iunlockput 0 ;; ret (None, take DIRSIZ name) | Some (next, _) => iunlockput 0 ;; ret (Some next, take DIRSIZ name) end) s1 = r).
  { intros r. cbn [walk]. rewrite (bind_ok _ _ _ _ _ E1), (bind_ok _ _ _ _ _ (geti_ok s1 0 _ i_type Hip)), Ht. done. }
  destruct (dir_find s1 (read_in 1) (take DIRSIZ name)) as [k|]; cbn [fmap option_fmap option_map].
  - intros Hn. specialize (Hlook _ _ (iget_second (read_in 1) (de_inum (dentry s1 (read_in 1) k)) eq_refl ltac:(intros E; by apply Hn))). exists f2. split; [done|]. apply Hgo.
    rewrite (bind_ok _ _ _ _ _ Hlook). erewrite bind_ok by (apply (iunlockput_linked _ 0 (read_in 1)); [done|done|done|done|by rewrite Hnl]). done.
  - eexists. apply Hgo. rewrite (bind_ok _ _ _ _ _ Hlook). erewrite bind_ok by (apply (iunlockput_linked _ 0 (read_in 1)); [done|done|done|done|by rewrite Hnl]). reflexivity.
Qed.

Lemma namei_root d name : holds d -> bytes_in name -> name <> [] -> 47 ∉ name ->
  let s := Fsst d (sb m) Unlocked icache0 in
  match root_lookup files name with
  | None => exists s', namei devsw_read 0 (47 :: name) s = Ok None s'
  | Some n => n <> 1 -> exists f, holds f /\ namei devsw_read 0 (47 :: name) s =
      Ok (Some 1%nat) (Fsst f (sb m) Unlocked (<[1%nat := set_i_id 1 n 1 0 inode0]> (<[0%nat := put_root]> icache0)))
  end.
Proof using Hm Hmod.
  intros Hd Hb Hne Hsl s. pose proof (walk_root d name Hd Hb) as Hw. cbv zeta in Hw.
  assert (E : forall r t, walk devsw_read 0 [name] false [] (Fsst d (sb m) Unlocked (<[0%nat := set_i_id 1 1 1 0 inode0]> icache0)) = Ok r t -> namei devsw_read 0 (47 :: name) s = Ok (fst r) t).
  { intros r t Hr. unfold namei, namex. rewrite bool_decide_eq_true_2 by done. rewrite bind_assoc, (bind_ok _ _ _ _ _ (iget_ok s ROOTDEV ROOTINO _ _ eq_refl (iget_first 1))).
    erewrite bind_ok; [reflexivity|]. rewrite namex_loop_walk, elements_one by (done || simpl; lia). exact Hr. }
  destruct (root_lookup files name) as [n|]; [|destruct Hw as [s' Hw]; exists s'; exact (E _ _ Hw)]. intros Hn. destruct (Hw Hn) as (f & Hf & Hr). exists f. split; [done|]. exact (E _ _ Hr).
Qed.
(** A file found and read. *)
Lemma read_found f l k g n : holds f -> l !! 1%nat = Some (set_i_id 1 (2 + Z.of_nat k) 1 0 inode0) -> files !! k = Some g -> zlen files < 199 -> 0 <= n < 2147483648 ->
  let c := take (Z.to_nat n) (concat (snd g)) in
  exists s', (ilock 1 ;; readi devsw_read 1 0 n) (Fsst f (sb m) Unlocked l) = Ok (zlen c, c) s'.
Proof using Hm.
  intros Hf Hip Hk Hlen Hn c. pose proof (lookup_lt_Some _ _ _ Hk). pose proof (lookup_lt_Some _ _ _ Hip) as Hlt. destruct (sv_file _ _ Hm k g _ Hk (read_in_of _)) as (Hfull & Ht & _ & Hs & Hb).
  destruct (ilock_read f l 1 _ Hf Hip) as (f1 & E1 & Hf1); [rewrite (sv_sb _ _ Hm); change (sb_ninodes mk_sb) with 200; lia|by rewrite Ht|]. rewrite (bind_ok _ _ _ _ _ E1).
  set (x := read_in _) in *. set (s1 := Fsst f1 _ _ _). pose proof (full_file_view m s1 eq_refl (ho_blocks _ Hf1) x Hfull) as Hfull1. pose proof (ff_size _ _ Hfull) as Hsz. change (MAXFILE * BSIZE) with 71680 in Hsz.
  destruct (readi_ok devsw_read s1 1 x 0 n (holds_fs f1 _ Hf1) Hfull1) as (f2 & E2 & _); [by apply list_lookup_insert_eq|by rewrite Ht|lia|lia|lia|].
  eexists. rewrite E2. rewrite Z.sub_0_r in *. assert (Ec : zlen c = Z.min n (i_size x)) by (unfold c; rewrite length_take, Hs; lia). rewrite Ec. f_equal. f_equal.
  apply list_eq. intros j. unfold c. destruct (decide (Z.of_nat j < Z.min n (i_size x))) as [Hj|Hj].
  - rewrite list_lookup_fmap, range_lookup, lookup_take_lt by lia. cbn [fmap option_fmap option_map]. rewrite (file_byte_view m s1 (ho_blocks _ Hf1)), Hb by lia.
    rewrite Z.add_0_l, Nat2Z.id, nth_lookup. destruct (lookup_lt_is_Some_2 (concat (snd g)) j) as [y ->]; [lia|done].
  - rewrite !lookup_ge_None_2; [done|rewrite length_take; lia|rewrite length_fmap, range_length; lia].
Qed.
End boot.

(* ------------------------------------------------------------------ *)
(** * Reading a file *)

(** The mount and then what [open] and [read] of a path do. *)
Definition boot_read {B} `{BlockOps B} (devsw_read : Z -> option (nat -> Z -> M (fsst B) (Z * list Z))) (path : list Z) (n : Z) : M (fsst B) (option (Z * list Z)) :=
  iinit ROOTDEV ;;
  ip <- namei devsw_read 0 path ;;
  match ip with
  | None => ret None
  | Some ip => ilock ip ;; r <- readi devsw_read ip 0 n ;; ret (Some r)
  end.


