(* ===== verification/Mp.v ===== *)
(** The detection of the processors (src/mp.c): the search of the BIOS memory for
    the floating pointer structure, the checks of the configuration table, and
    the loop over its entries.

    The memory [m] is only read.  [D] are the devices, for the two ports that
    take the machine out of PIC mode. *)

From S2P Require Import Prelude Spinlock Kalloc Ports.

(* src/param.h:3-3 NCPU *)
Definition NCPU : Z := 8.

(* ------------------------------------------------------------------ *)
(** * The structures *)

Definition bytes_at (m : memory) (p : Z) (n : nat) : list Z := m <$> range p n.
Definition load16 (m : memory) (p : Z) : Z := m p + 256 * m (p + 1).

(* src/mp.h:3-12 mp *)
Definition MP_SIZE : Z := 16.
(* src/mp.h:4-4 mp *)
Definition mp_signature (m : memory) (p : Z) : list Z := bytes_at m p 4.
(* src/mp.h:5-5 mp *)
Definition mp_physaddr (m : memory) (p : Z) : Z := load32 m (p + 4).
(* src/mp.h:10-10 mp *)
Definition mp_imcrp (m : memory) (p : Z) : Z := m (p + 12).

(* src/mp.h:14-27 mpconf *)
Definition MPCONF_SIZE : Z := 44.
(* src/mp.h:15-15 mpconf *)
Definition mpconf_signature (m : memory) (p : Z) : list Z := bytes_at m p 4.
(* src/mp.h:16-16 mpconf *)
Definition mpconf_length (m : memory) (p : Z) : Z := load16 m (p + 4).
(* src/mp.h:17-17 mpconf *)
Definition mpconf_version (m : memory) (p : Z) : Z := m (p + 6).
(* src/mp.h:23-23 mpconf *)
Definition mpconf_lapicaddr (m : memory) (p : Z) : Z := load32 m (p + 36).

(* src/mp.h:29-38 mpproc *)
Definition MPPROC_SIZE : Z := 20.
(* src/mp.h:31-31 mpproc *)
Definition mpproc_apicid (m : memory) (p : Z) : Z := m (p + 1).

(* src/mp.h:40-46 mpioapic *)
Definition MPIOAPIC_SIZE : Z := 8.
(* src/mp.h:42-42 mpioapic *)
Definition mpioapic_apicno (m : memory) (p : Z) : Z := m (p + 1).

(* src/mp.h:49-49 MPPROC *)
Definition MPPROC : Z := 0.
(* src/mp.h:50-50 MPBUS *)
Definition MPBUS : Z := 1.
(* src/mp.h:51-51 MPIOAPIC *)
Definition MPIOAPIC : Z := 2.
(* src/mp.h:52-52 MPIOINTR *)
Definition MPIOINTR : Z := 3.
(* src/mp.h:53-53 MPLINTR *)
Definition MPLINTR : Z := 4.

(** "_MP_" and "PCMP". *)
Definition SIG_MP : list Z := [95; 77; 80; 95].
Definition SIG_PCMP : list Z := [80; 67; 77; 80].

(* ------------------------------------------------------------------ *)
(** * The search *)

(* src/mp.c:18-27 sum *)
Definition sum (m : memory) (addr : Z) (len : nat) : Z := u8 (fold_left (fun s i => s + m (addr + i)) (range 0 len) 0).

(** Each turn of the loop goes 16 bytes on. *)

(* src/mp.c:37-39 mpsearch1 *)
Fixpoint mpsearch1_loop (fuel : nat) (m : memory) (p e : Z) : Z :=
  match fuel with
  | O => 0
  | S fuel' =>
      if p <? e then
        if bool_decide (mp_signature m p = SIG_MP) && (sum m p (Z.to_nat MP_SIZE) =? 0) then p
        else mpsearch1_loop fuel' m (p + MP_SIZE) e
      else 0
  end.

(* src/mp.c:30-41 mpsearch1 *)
Definition mpsearch1 (m : memory) (a len : Z) : Z :=
  let addr := P2V a in
  mpsearch1_loop (S (Z.to_nat len)) m addr (addr + len).

(* src/mp.c:48-65 mpsearch *)
Definition mpsearch (m : memory) : Z :=
  let bda := P2V 1024 in
  let p := Z.shiftl (Z.lor (Z.shiftl (m (bda + 15)) 8) (m (bda + 14))) 4 in
  let first :=
    if truth p then mpsearch1 m p 1024
    else
      let p := Z.lor (Z.shiftl (m (bda + 20)) 8) (m (bda + 19)) * 1024 in
      mpsearch1 m (u32 (p - 1024)) 1024 in
  if truth first then first else mpsearch1 m 983040 65536.

(** The pointers to the structure and to the table. *)

(* src/mp.c:72-89 mpconfig *)
Definition mpconfig (m : memory) : option (Z * Z) :=
  let mp := mpsearch m in
  if (mp =? 0) || (mp_physaddr m mp =? 0) then None
  else
    let conf := P2V (mp_physaddr m mp) in
    if negb (bool_decide (mpconf_signature m conf = SIG_PCMP)) then None
    else if negb (mpconf_version m conf =? 1) && negb (mpconf_version m conf =? 4) then None
    else if negb (sum m conf (Z.to_nat (mpconf_length m conf)) =? 0) then None
    else Some (mp, conf).

(* ------------------------------------------------------------------ *)
(** * The entries *)

(** [apicids] are the fields [apicid] of the array [cpus]. *)

(* src/mp.c:14-16 cpus *)
Record mpst (D : Type) := Mpst { lapic : Z; ncpu : Z; apicids : list Z; ioapicid : Z; mp_dev : D }.
Arguments Mpst {D} _ _ _ _ _.
Arguments lapic {D} _.
Arguments ncpu {D} _.
Arguments apicids {D} _.
Arguments ioapicid {D} _.
Arguments mp_dev {D} _.

Section mp.
Context {D : Type} `{Ports D}.
Local Abbreviation St := (mpst D).

Definition set_lapic v (s : St) : St := Mpst v (ncpu s) (apicids s) (ioapicid s) (mp_dev s).
Definition set_ioapicid v (s : St) : St := Mpst (lapic s) (ncpu s) (apicids s) v (mp_dev s).
Definition set_mp_dev v (s : St) : St := Mpst (lapic s) (ncpu s) (apicids s) (ioapicid s) v.
Definition mp_dev_of : lens St D := Lens mp_dev set_mp_dev.

(* src/mp.c:109-112 mpinit *)
Definition add_cpu (id : Z) (s : St) : St :=
  if ncpu s <? NCPU then Mpst (lapic s) (ncpu s + 1) (<[Z.to_nat (ncpu s) := id]> (apicids s)) (ioapicid s) (mp_dev s) else s.

(** The [break] of the default case leaves the [switch], not the loop. *)

(* src/mp.c:105-129 mpinit *)
Fixpoint mpinit_loop (fuel : nat) (m : memory) (p e : Z) (ismp : bool) : M St bool :=
  match fuel with
  | O => wait
  | S fuel' =>
      if negb (p <? e) then ret ismp
      else
        let t := m p in
        if t =? MPPROC then
          modify (add_cpu (mpproc_apicid m p)) ;;
          mpinit_loop fuel' m (p + MPPROC_SIZE) e ismp
        else if t =? MPIOAPIC then
          modify (set_ioapicid (mpioapic_apicno m p)) ;;
          mpinit_loop fuel' m (p + MPIOAPIC_SIZE) e ismp
        else if (t =? MPBUS) || (t =? MPIOINTR) || (t =? MPLINTR) then mpinit_loop fuel' m (p + 8) e ismp
        else mpinit_loop fuel' m p e false
  end.

(* src/mp.c:91-139 mpinit *)
Definition mpinit (fuel : nat) (m : memory) : M St unit :=
  match mpconfig m with
  | None => panic "Expect to run on an SMP"
  | Some (mp, conf) =>
      modify (set_lapic (mpconf_lapicaddr m conf)) ;;
      ismp <- mpinit_loop fuel m (conf + MPCONF_SIZE) (conf + mpconf_length m conf) true ;;
      if negb ismp then panic "Didn't find a suitable machine"
      else
        if truth (mp_imcrp m mp) then
          zoom mp_dev_of (port_out 34 112 ;;                          (* Select IMCR *)
                          v <- port_in 35 ;; port_out 35 (Z.lor v 1)) (* Mask external interrupts. *)
        else ret tt
  end.
End mp.

(* ------------------------------------------------------------------ *)
(** * What it finds *)

Definition valid_mp (m : memory) (p : Z) : bool := bool_decide (mp_signature m p = SIG_MP) && (sum m p 16 =? 0).

(** The addresses of an area where a structure may be: every 16 bytes. *)
Definition area (a : Z) (n : nat) : list Z := (fun k => a + 16 * k) <$> range 0 n.

(** The first kilobyte of the extended BIOS data area, or the last one of the
    base memory when there is none; then the ROM from 0xF0000 on. *)
Definition ebda (m : memory) : Z := 16 * (256 * m (P2V 1039) + m (P2V 1038)).
Definition base_end (m : memory) : Z := 1024 * (256 * m (P2V 1044) + m (P2V 1043)).
Definition candidates (m : memory) : list Z :=
  area (if ebda m =? 0 then P2V (u32 (base_end m - 1024)) else P2V (ebda m)) 64 ++ area (P2V 983040) 4096.

Lemma area_cons a n : area a (S n) = a :: area (a + 16) n.
Proof.
  unfold area. rewrite range_cons, fmap_cons. f_equal; [lia|]. apply list_eq. intros i. rewrite !list_lookup_fmap.
  destruct (decide (i < n)%nat) as [Hi|Hi]; [rewrite !range_lookup by done; simpl; f_equal; lia|]. by rewrite !lookup_ge_None_2 by (rewrite range_length; lia).
Qed.

Lemma mpsearch1_loop_ok m n : forall fuel p, (n < fuel)%nat -> mpsearch1_loop fuel m p (p + 16 * Z.of_nat n) = default 0 (List.find (valid_mp m) (area p n)).
Proof.
  induction n as [|n IH]; intros [|fuel] p Hf; try lia; cbn [mpsearch1_loop].
  - by rewrite (proj2 (Z.ltb_ge _ _)) by lia.
  - rewrite (proj2 (Z.ltb_lt _ _)) by lia. rewrite area_cons. cbn [List.find]. change (Z.to_nat MP_SIZE) with 16%nat. fold (valid_mp m p).
    destruct (valid_mp m p); [done|]. unfold MP_SIZE. replace (p + 16 * Z.of_nat (S n)) with (p + 16 + 16 * Z.of_nat n) by lia. apply IH. lia.
Qed.

Lemma mpsearch1_ok m a n : mpsearch1 m a (16 * Z.of_nat n) = default 0 (List.find (valid_mp m) (area (P2V a) n)).
Proof. unfold mpsearch1. apply mpsearch1_loop_ok. lia. Qed.

Lemma area_pos a n p : 0 < a -> p ∈ area a n -> p <> 0.
Proof. intros Ha Hp. apply list_elem_of_fmap in Hp as (k & -> & Hk). apply elem_of_range in Hk. lia. Qed.

(** A 16-bit number from its bytes. *)
Lemma word_eq m a : bytes_ok m -> Z.lor (Z.shiftl (m (a + 1)) 8) (m a) = 256 * m (a + 1) + m a.
Proof. intros Hb. pose proof (Hb a). rewrite Z.shiftl_mul_pow2 by lia. rewrite lor_low by (change (2 ^ 8) with 256; lia). lia. Qed.

Lemma find_first (f : Z -> bool) l k : List.find f (l ++ k) = match List.find f l with Some x => Some x | None => List.find f k end.
Proof. induction l as [|x l IH]; simpl; [done|]. by destruct (f x). Qed.

Lemma default_find_app (f : Z -> bool) l k : (forall p, p ∈ l -> p <> 0) ->
  (if truth (default 0 (List.find f l)) then default 0 (List.find f l) else default 0 (List.find f k)) = default 0 (List.find f (l ++ k)).
Proof.
  intros Hl. rewrite find_first. destruct (List.find f l) as [p|] eqn:E; [|done]. apply find_some in E as [Hin _]. apply list_elem_of_In, Hl in Hin.
  apply Z.eqb_neq in Hin. unfold truth. cbn. by rewrite Hin.
Qed.

(** No structure is at the address 0, which stands for "not found". *)
Lemma candidates_pos m p : bytes_ok m -> p ∈ candidates m -> p <> 0.
Proof.
  intros Hb. pose proof (Hb (P2V 1039)). pose proof (Hb (P2V 1038)). pose proof (Hb (P2V 1044)). pose proof (Hb (P2V 1043)).
  assert (He : 0 <= ebda m < 1048576) by (unfold ebda; lia). assert (Hbe : 0 <= base_end m < 67108864) by (unfold base_end; lia).
  unfold candidates. rewrite elem_of_app. intros [Hp|Hp]; revert Hp; apply area_pos; [|by vm_compute]. destruct (Z.eqb_spec (ebda m) 0); unfold P2V, KERNBASE; zsolve.
Qed.

Lemma mpsearch_ok m : bytes_ok m -> mpsearch m = default 0 (List.find (valid_mp m) (candidates m)).
Proof.
  intros Hb. pose proof (fun p H => candidates_pos m p Hb (proj2 (elem_of_app _ _ p) (or_introl H))) as Hpos. unfold mpsearch, candidates. cbv zeta.
  change (P2V 1024 + 15) with (P2V 1038 + 1). change (P2V 1024 + 14) with (P2V 1038). change (P2V 1024 + 20) with (P2V 1043 + 1). change (P2V 1024 + 19) with (P2V 1043).
  rewrite !word_eq by done. change (P2V 1038 + 1) with (P2V 1039). change (P2V 1043 + 1) with (P2V 1044). rewrite Z.shiftl_mul_pow2 by lia. change (2 ^ 4) with 16.
  rewrite (Z.mul_comm _ 16). fold (ebda m). rewrite (Z.mul_comm _ 1024). fold (base_end m).
  rewrite !(fun a => mpsearch1_ok m a 64 : mpsearch1 m a 1024 = _), (mpsearch1_ok m 983040 4096 : mpsearch1 m 983040 65536 = _).
  replace (truth (ebda m)) with (negb (ebda m =? 0)) by done. destruct (ebda m =? 0); cbn [negb]; apply default_find_app, Hpos.
Qed.

(** The entries of a table, from [p] to its end [e]. *)
Inductive entry := EProc (apicid : Z) | EIoapic (apicno : Z) | EOther.

Inductive table (m : memory) (e : Z) : Z -> list entry -> Prop :=
| table_end p : e <= p -> table m e p []
| table_proc p es : p < e -> m p = MPPROC -> table m e (p + MPPROC_SIZE) es -> table m e p (EProc (mpproc_apicid m p) :: es)
| table_ioapic p es : p < e -> m p = MPIOAPIC -> table m e (p + MPIOAPIC_SIZE) es -> table m e p (EIoapic (mpioapic_apicno m p) :: es)
| table_other p es : p < e -> m p ∈ [MPBUS; MPIOINTR; MPLINTR] -> table m e (p + 8) es -> table m e p (EOther :: es).

Definition procs (es : list entry) : list Z := omap (fun x => match x with EProc i => Some i | _ => None end) es.
Definition ioapics (es : list entry) : list Z := omap (fun x => match x with EIoapic i => Some i | _ => None end) es.

Section proofs.
Context {D : Type} `{Ports D}.
Implicit Types s : mpst D.

(** The effect of the entries. *)
Definition apply_entry s (x : entry) : mpst D := match x with EProc i => add_cpu i s | EIoapic i => set_ioapicid i s | EOther => s end.

Lemma mpinit_loop_ok m e p es : table m e p es -> forall fuel s, (Z.to_nat (e - p) < fuel)%nat -> mpinit_loop fuel m p e true s = Ok true (fold_left apply_entry es s).
Proof.
  induction 1 as [p Hp|p es Hp Ht _ IH|p es Hp Ht _ IH|p es Hp Ht _ IH]; intros [|fuel] s Hf; try lia; cbn [mpinit_loop].
  - by rewrite (proj2 (Z.ltb_ge _ _)) by lia.
  - rewrite (proj2 (Z.ltb_lt _ _)) by lia. rewrite Ht. apply IH. unfold MPPROC_SIZE. lia.
  - rewrite (proj2 (Z.ltb_lt _ _)) by lia. rewrite Ht. apply IH. unfold MPIOAPIC_SIZE. lia.
  - rewrite (proj2 (Z.ltb_lt _ _)) by lia. replace (m p =? MPPROC) with false; [replace (m p =? MPIOAPIC) with false|].
    2,3: symmetry; apply Z.eqb_neq; intros E; rewrite E in Ht; set_solver.
    replace ((m p =? MPBUS) || (m p =? MPIOINTR) || (m p =? MPLINTR)) with true; [apply IH; lia|].
    symmetry. rewrite !orb_true_iff, !Z.eqb_eq. rewrite !elem_of_cons, elem_of_nil in Ht. tauto.
Qed.

(** An entry of another type: the loop never ends, and the check of [ismp] after
    it is never reached. *)
Lemma mpinit_loop_stuck m p e : p < e -> ~ (0 <= m p <= 4) -> forall fuel ismp s, mpinit_loop fuel m p e ismp s = Wait s.
Proof.
  intros Hp Ht. induction fuel as [|fuel IH]; intros ismp s; [done|]. cbn [mpinit_loop]. rewrite (proj2 (Z.ltb_lt _ _)) by lia. cbn [negb]. cbv zeta.
  unfold MPPROC, MPIOAPIC, MPBUS, MPIOINTR, MPLINTR. rewrite !(proj2 (Z.eqb_neq _ _)) by lia. apply IH.
Qed.

Lemma last_head (x d : Z) l : List.last (x :: l) d = List.last l x.
Proof. revert x d. induction l as [|y l IH]; intros x d; [done|]. change (List.last (x :: y :: l) d) with (List.last (y :: l) d). by rewrite !IH. Qed.

Lemma fold_entries es : forall s, 0 <= ncpu s <= NCPU -> length (apicids s) = Z.to_nat NCPU ->
  fold_left apply_entry es s =
  Mpst (lapic s) (Z.min NCPU (ncpu s + Z.of_nat (length (procs es))))
    (take (Z.to_nat (ncpu s)) (apicids s) ++ take (Z.to_nat (NCPU - ncpu s)) (procs es) ++ drop (Z.to_nat (ncpu s) + length (procs es)) (apicids s))
    (List.last (ioapics es) (ioapicid s)) (mp_dev s).
Proof.
  induction es as [|x es IH]; intros s Hn Hl; cbn [fold_left].
  { cbn [procs ioapics omap list_omap length List.last]. rewrite Z.add_0_r, Z.min_r, take_nil, Nat.add_0_r by lia. cbn [app]. rewrite take_drop. by destruct s. }
  change NCPU with 8 in *. destruct x as [i|i|]; cbn [apply_entry].
  - change (procs (EProc i :: es)) with (i :: procs es). change (ioapics (EProc i :: es)) with (ioapics es). cbn [length]. unfold add_cpu. change NCPU with 8. destruct (Z.ltb_spec (ncpu s) 8).
    + rewrite IH by (cbn [ncpu apicids]; rewrite ?length_insert; done || lia). cbn [ncpu apicids lapic ioapicid mp_dev]. f_equal; [lia|].
      replace (Z.to_nat (ncpu s + 1)) with (S (Z.to_nat (ncpu s))) by lia. replace (Z.to_nat (8 - ncpu s)) with (S (Z.to_nat (8 - (ncpu s + 1)))) by lia. cbn [take].
      rewrite (take_S_r _ _ i), take_insert_ge, drop_insert_lt by (lia || (apply list_lookup_insert_eq; lia)). rewrite <- app_assoc. cbn [app]. do 4 f_equal. lia.
    + assert (ncpu s = 8) as En by lia. rewrite (IH s Hn Hl). rewrite En. change (Z.to_nat (8 - 8)) with 0%nat. cbn [take app]. f_equal; [lia|]. by rewrite !drop_ge by lia.
  - rewrite (IH (set_ioapicid i s) Hn Hl). cbn [ncpu apicids lapic ioapicid mp_dev set_ioapicid]. change (procs (EIoapic i :: es)) with (procs es). change (ioapics (EIoapic i :: es)) with (i :: ioapics es).
    f_equal. symmetry. apply last_head.
  - by rewrite IH.
Qed.
End proofs.

(** A configuration table that [mpinit] accepts. *)
Record valid_conf (m : memory) (conf : Z) : Prop := {
  vc_signature : mpconf_signature m conf = SIG_PCMP;
  vc_version : mpconf_version m conf = 1 \/ mpconf_version m conf = 4;
  vc_sum : sum m conf (Z.to_nat (mpconf_length m conf)) = 0;
}.

Lemma mpconfig_ok m mp : bytes_ok m -> List.find (valid_mp m) (candidates m) = Some mp -> mp_physaddr m mp <> 0 ->
  valid_conf m (P2V (mp_physaddr m mp)) -> mpconfig m = Some (mp, P2V (mp_physaddr m mp)).
Proof.
  intros Hb Hf Hp [V1 V2 V3]. assert (mp <> 0) by (apply find_some in Hf as [Hin _]; by apply list_elem_of_In, (candidates_pos m) in Hin). unfold mpconfig. rewrite mpsearch_ok, Hf by done. cbn [default from_option id]. rewrite !(proj2 (Z.eqb_neq _ _)) by done. cbn [orb].
  rewrite V1, bool_decide_true, V3 by done. cbn [negb Z.eqb]. destruct V2 as [-> | ->]; done.
Qed.

(** What the devices are told: the machine leaves PIC mode if it has the
    register for it. *)
Definition imcr {D} `{Ports D} (m : memory) (mp : Z) (d : D) : D :=
  if truth (mp_imcrp m mp) then let '(v, d) := inb 35 (outb 34 112 d) in outb 35 (u8 (Z.lor v 1)) d else d.

(** C28: on a machine whose first MP structure in the places searched (every 16
    bytes of the first kilobyte of the extended BIOS data area, or of the last
    one of the base memory if there is none, then of the ROM) names a valid
    configuration table with entries [es] of the known types, [mpinit] ends: the
    table [cpus] gets the APIC identifiers of the first [NCPU] processors in
    order, [ncpu] is their number, [ioapicid] that of the last I/O APIC, [lapic]
    the address in the table. *)
Theorem mpinit_finds_processors {D} `{Ports D} (m : memory) (mp : Z) (es : list entry) (s : mpst D) (fuel : nat)
  (Hb : bytes_ok m) (Hmp : List.find (valid_mp m) (candidates m) = Some mp) (Hp : mp_physaddr m mp <> 0) :
  let conf := P2V (mp_physaddr m mp) in
  valid_conf m conf -> table m (conf + mpconf_length m conf) (conf + MPCONF_SIZE) es -> (Z.to_nat (mpconf_length m conf) < fuel)%nat ->
  ncpu s = 0 -> length (apicids s) = Z.to_nat NCPU ->
  mpinit fuel m s = Ok tt (Mpst (mpconf_lapicaddr m conf) (Z.min NCPU (Z.of_nat (length (procs es))))
    (take (Z.to_nat NCPU) (procs es) ++ drop (length (procs es)) (apicids s)) (List.last (ioapics es) (ioapicid s)) (imcr m mp (mp_dev s))).
Proof.
  intros conf Hv Ht Hf Hn Hl. unfold mpinit. rewrite (mpconfig_ok m mp Hb Hmp Hp Hv). fold conf. erewrite bind_ok by reflexivity.
  rewrite (bind_ok _ _ _ _ _ (mpinit_loop_ok _ _ _ _ Ht fuel _ ltac:(unfold MPCONF_SIZE; lia))). rewrite fold_entries by (cbn [set_lapic ncpu apicids]; unfold NCPU in *; done || lia).
  cbn [set_lapic ncpu apicids lapic ioapicid mp_dev negb]. rewrite Hn. cbn [take app Z.to_nat Nat.add]. unfold imcr. destruct (truth (mp_imcrp m mp)); [|done].
  unfold zoom, bind, port_in, port_out, modify. cbn [mp_dev_of view over mp_dev]. by destruct (inb 35 _).
Qed.

(** A machine with two processors: the structure is at the beginning of the ROM,
    the table at 0xF1000. *)
Definition demo_mp : list Z := [95; 77; 80; 95; 0; 16; 15; 0; 1; 4; 129; 0; 0; 0; 0; 0].
Definition demo_conf : list Z :=
  [80; 67; 77; 80; 100; 0; 4; 132] ++ replicate 28 0 ++ [0; 0; 224; 254; 0; 0; 0; 0] ++
  (0 :: 0 :: replicate 18 0) ++ (0 :: 1 :: replicate 18 0) ++ (1 :: replicate 7 0) ++ (2 :: 2 :: replicate 6 0).
Definition demo_mem : memory := fun a =>
  let o := a - P2V 983040 in
  if (0 <=? o) && (o <? 16) then nth (Z.to_nat o) demo_mp 0
  else if (4096 <=? o) && (o <? 4196) then nth (Z.to_nat (o - 4096)) demo_conf 0
  else 0.

Lemma nth_bytes l k : forallb (fun b => (0 <=? b) && (b <? 256)) l = true -> 0 <= nth k l 0 < 256.
Proof.
  intros Hl. rewrite nth_lookup. destruct (l !! k) as [b|] eqn:E; [|simpl; lia]. rewrite forallb_forall in Hl. specialize (Hl b (proj1 (list_elem_of_In _ _) (list_elem_of_lookup_2 _ _ _ E))). simpl. lia.
Qed.

Lemma demo_mem_ok : bytes_ok demo_mem.
Proof. intros a. unfold demo_mem. cbv zeta. repeat case_match; [by apply nth_bytes|by apply nth_bytes|lia]. Qed.

Lemma demo_regs_ok : regs_ok (Devregs 0 (fun _ => 0) [] [] []).
Proof. split; [intros i; unfold is_byte; simpl; lia|constructor..]. Qed.
Definition demo_pc : pc := Pc _ demo_regs_ok.

Lemma mpinit_finds_processors_witness :
  mpinit 101 demo_mem (Mpst 0 0 (replicate 8 0) 0 demo_pc) =
  Ok tt (Mpst 4276092928 2 [0; 1; 0; 0; 0; 0; 0; 0] 2 demo_pc).
Proof.
  etrans; [apply (mpinit_finds_processors demo_mem (P2V 983040) [EProc 0; EProc 1; EOther; EIoapic 2])|].
  - exact demo_mem_ok.
  - vm_compute. reflexivity.
  - vm_compute. discriminate.
  - split; [vm_compute; reflexivity|right; vm_compute; reflexivity|vm_compute; reflexivity].
  - apply table_proc; [vm_compute; reflexivity|vm_compute; reflexivity|]. apply table_proc; [vm_compute; reflexivity|vm_compute; reflexivity|].
    apply table_other; [vm_compute; reflexivity|apply list_elem_of_here|]. apply table_ioapic; [vm_compute; reflexivity|vm_compute; reflexivity|].
    apply table_end. vm_compute. discriminate.
  - vm_compute. lia.
  - reflexivity.
  - reflexivity.
  - vm_compute. reflexivity.
Defined.
