(* ===== verification/Lapic.v ===== *)
(** The local interrupt controller and the real-time clock (src/lapic.c).

    The registers are those of the devices [D], through [Ports]; [lapic] is the
    address of the controller's registers, 0 if there is none.  [RtcDev] states
    what [cmostime] relies on: a clock that changes its registers in steps, far
    apart, and announces them. *)

From S2P Require Import Prelude Spinlock Kalloc Ports.

(* src/lapic.c:14-14 ID *)
Definition ID : Z := 32 / 4.
(* src/lapic.c:15-15 VER *)
Definition VER : Z := 48 / 4.
(* src/lapic.c:16-16 TPR *)
Definition TPR : Z := 128 / 4.
(* src/lapic.c:17-17 EOI *)
Definition EOI : Z := 176 / 4.
(* src/lapic.c:18-18 SVR *)
Definition SVR : Z := 240 / 4.
(* src/lapic.c:19-19 ENABLE *)
Definition ENABLE : Z := 256.
(* src/lapic.c:20-20 ESR *)
Definition ESR : Z := 640 / 4.
(* src/lapic.c:21-21 ICRLO *)
Definition ICRLO : Z := 768 / 4.
(* src/lapic.c:22-22 INIT *)
Definition INIT : Z := 1280.
(* src/lapic.c:23-23 STARTUP *)
Definition STARTUP : Z := 1536.
(* src/lapic.c:24-24 DELIVS *)
Definition DELIVS : Z := 4096.
(* src/lapic.c:25-25 ASSERT *)
Definition ASSERT : Z := 16384.
(* src/lapic.c:27-27 LEVEL *)
Definition LEVEL : Z := 32768.
(* src/lapic.c:28-28 BCAST *)
Definition BCAST : Z := 524288.
(* src/lapic.c:31-31 ICRHI *)
Definition ICRHI : Z := 784 / 4.
(* src/lapic.c:32-32 TIMER *)
Definition TIMER : Z := 800 / 4.
(* src/lapic.c:33-33 X1 *)
Definition X1 : Z := 11.
(* src/lapic.c:34-34 PERIODIC *)
Definition PERIODIC : Z := 131072.
(* src/lapic.c:35-35 PCINT *)
Definition PCINT : Z := 832 / 4.
(* src/lapic.c:36-36 LINT0 *)
Definition LINT0 : Z := 848 / 4.
(* src/lapic.c:37-37 LINT1 *)
Definition LINT1 : Z := 864 / 4.
(* src/lapic.c:38-38 ERROR *)
Definition ERROR : Z := 880 / 4.
(* src/lapic.c:39-39 MASKED *)
Definition MASKED : Z := 65536.
(* src/lapic.c:40-40 TICR *)
Definition TICR : Z := 896 / 4.
(* src/lapic.c:42-42 TDCR *)
Definition TDCR : Z := 992 / 4.

(* src/traps.h:30-30 T_IRQ0 *)
Definition T_IRQ0 : Z := 32.
(* src/traps.h:32-32 IRQ_TIMER *)
Definition IRQ_TIMER : Z := 0.
(* src/traps.h:36-36 IRQ_ERROR *)
Definition IRQ_ERROR : Z := 19.
(* src/traps.h:37-37 IRQ_SPURIOUS *)
Definition IRQ_SPURIOUS : Z := 31.

(* src/lapic.c:123-123 CMOS_PORT *)
Definition CMOS_PORT : Z := 112.
(* src/lapic.c:124-124 CMOS_RETURN *)
Definition CMOS_RETURN : Z := 113.

(* src/lapic.c:163-163 CMOS_STATA *)
Definition CMOS_STATA : Z := 10.
(* src/lapic.c:164-164 CMOS_STATB *)
Definition CMOS_STATB : Z := 11.
(* src/lapic.c:165-165 CMOS_UIP *)
Definition CMOS_UIP : Z := 128.
(* src/lapic.c:167-167 SECS *)
Definition SECS : Z := 0.
(* src/lapic.c:168-168 MINS *)
Definition MINS : Z := 2.
(* src/lapic.c:169-169 HOURS *)
Definition HOURS : Z := 4.
(* src/lapic.c:170-170 DAY *)
Definition DAY : Z := 7.
(* src/lapic.c:171-171 MONTH *)
Definition MONTH : Z := 8.
(* src/lapic.c:172-172 YEAR *)
Definition YEAR : Z := 9.

(* src/date.h:1-8 rtcdate *)
Record rtcdate := Rtcdate { second : Z; minute : Z; hour : Z; day : Z; month : Z; year : Z }.

#[export] Instance rtcdate_eq : EqDecision rtcdate.
Proof. solve_decision. Defined.

(** Memory and devices. *)
Record lapst (D : Type) := Lapst { l_mem : memory; l_dev : D }.
Arguments Lapst {D} _ _.
Arguments l_mem {D} _.
Arguments l_dev {D} _.

Section lapic.
Context {D : Type} `{Ports D}.
Variable lapic : Z.

Definition lapicr (index : Z) : M D Z := fun d => let '(v, d) := mmio_read (lapic + 4 * index) d in Ok v d.

(* src/lapic.c:47-52 lapicw *)
Definition lapicw (index value : Z) : M D unit :=
  modify (mmio_write (lapic + 4 * index) (u32 value)) ;;
  lapicr ID ;;   (* wait for write to finish, by reading *)
  ret tt.

(* src/lapic.c:93-94 lapicinit *)
Fixpoint icr_wait (fuel : nat) : M D unit :=
  match fuel with
  | O => wait
  | S fuel' => v <- lapicr ICRLO ;; if truth (Z.land v DELIVS) then icr_wait fuel' else ret tt
  end.

(* src/lapic.c:54-98 lapicinit *)
Definition lapicinit (fuel : nat) : M D unit :=
  if lapic =? 0 then ret tt
  else
    (* Enable local APIC; set spurious interrupt vector. *)
    lapicw SVR (Z.lor ENABLE (T_IRQ0 + IRQ_SPURIOUS)) ;;
    lapicw TDCR X1 ;;
    lapicw TIMER (Z.lor PERIODIC (T_IRQ0 + IRQ_TIMER)) ;;
    lapicw TICR 10000000 ;;
    (* Disable logical interrupt lines. *)
    lapicw LINT0 MASKED ;;
    lapicw LINT1 MASKED ;;
    v <- lapicr VER ;;
    when (4 <=? Z.land (Z.shiftr v 16) 255) (lapicw PCINT MASKED) ;;
    (* Map error interrupt to IRQ_ERROR. *)
    lapicw ERROR (T_IRQ0 + IRQ_ERROR) ;;
    (* Clear error status register (requires back-to-back writes). *)
    lapicw ESR 0 ;;
    lapicw ESR 0 ;;
    (* Ack any outstanding interrupts. *)
    lapicw EOI 0 ;;
    (* Send an Init Level De-Assert to synchronise arbitration ID's. *)
    lapicw ICRHI 0 ;;
    lapicw ICRLO (Z.lor (Z.lor BCAST INIT) LEVEL) ;;
    icr_wait fuel ;;
    (* Enable interrupts on the APIC (but not on the processor). *)
    lapicw TPR 0.

(* src/lapic.c:100-106 lapicid *)
Definition lapicid : M D Z :=
  if lapic =? 0 then ret 0 else v <- lapicr ID ;; ret (Z.shiftr v 24).

(* src/lapic.c:109-114 lapiceoi *)
Definition lapiceoi : M D unit := if lapic =? 0 then ret tt else lapicw EOI 0.

(** [microdelay] does nothing.  A 16-bit store. *)
Definition store16 (m : memory) (a v : Z) : memory := upd (upd m a (v mod 256)) (a + 1) (v / 256 mod 256).
Definition l_dev_of : lens (lapst D) D := Lens l_dev (fun d s => Lapst (l_mem s) d).

(* src/lapic.c:128-161 lapicstartap *)
Definition lapicstartap (apicid addr : Z) : M (lapst D) unit :=
  zoom l_dev_of (port_out CMOS_PORT 15 ;; port_out (CMOS_PORT + 1) 10) ;;
  let wrv := P2V (Z.lor (Z.shiftl 64 4) 103) in   (* Warm reset vector *)
  modify (fun s => Lapst (store16 (l_mem s) wrv 0) (l_dev s)) ;;
  modify (fun s => Lapst (store16 (l_mem s) (wrv + 2) (Z.shiftr addr 4)) (l_dev s)) ;;
  zoom l_dev_of (
    lapicw ICRHI (Z.shiftl apicid 24) ;;
    lapicw ICRLO (Z.lor (Z.lor INIT LEVEL) ASSERT) ;;
    lapicw ICRLO (Z.lor INIT LEVEL) ;;
    for_each [0; 1] (fun _ =>
      lapicw ICRHI (Z.shiftl apicid 24) ;;
      lapicw ICRLO (Z.lor STARTUP (Z.shiftr addr 12)))).

(** ** The clock *)

(* src/lapic.c:174-181 cmos_read *)
Definition cmos_read (reg : Z) : M D Z := port_out CMOS_PORT reg ;; port_in CMOS_RETURN.

(* src/lapic.c:183-192 fill_rtcdate *)
Definition fill_rtcdate : M D rtcdate :=
  s <- cmos_read SECS ;;
  mi <- cmos_read MINS ;;
  h <- cmos_read HOURS ;;
  d <- cmos_read DAY ;;
  mo <- cmos_read MONTH ;;
  y <- cmos_read YEAR ;;
  ret (Rtcdate s mi h d mo y).

(** The two dates are compared byte by byte. *)

(* src/lapic.c:206-213 cmostime *)
Fixpoint cmostime_loop (fuel : nat) : M D rtcdate :=
  match fuel with
  | O => wait
  | S fuel' =>
      t1 <- fill_rtcdate ;;
      a <- cmos_read CMOS_STATA ;;
      if truth (Z.land a CMOS_UIP) then cmostime_loop fuel'
      else
        t2 <- fill_rtcdate ;;
        if decide (t1 = t2) then ret t1 else cmostime_loop fuel'
  end.

(* src/lapic.c:217-217 CONV *)
Definition CONV (x : Z) : Z := Z.shiftr x 4 * 10 + Z.land x 15.

(* src/lapic.c:195-229 cmostime *)
Definition cmostime (fuel : nat) : M D rtcdate :=
  sb <- cmos_read CMOS_STATB ;;
  let bcd := Z.land sb (Z.shiftl 1 2) =? 0 in
  t1 <- cmostime_loop fuel ;;
  let t1 := if bcd then Rtcdate (CONV (second t1)) (CONV (minute t1)) (CONV (hour t1)) (CONV (day t1)) (CONV (month t1)) (CONV (year t1)) else t1 in
  ret (Rtcdate (second t1) (minute t1) (hour t1) (day t1) (month t1) (u32 (year t1 + 2000))).
End lapic.

(* ------------------------------------------------------------------ *)
(** * What [cmostime] relies on *)

(** The digits of a number below 100 in a byte. *)
Definition bcd_of (v : Z) : Z := 16 * (v / 10) + v mod 10.

(** A date whose fields have two digits, as the registers have them. *)
Definition two_digits (v : Z) : Prop := 0 <= v < 100.
Record date_ok (t : rtcdate) : Prop := {
  dt_second : two_digits (second t); dt_minute : two_digits (minute t); dt_hour : two_digits (hour t);
  dt_day : two_digits (day t); dt_month : two_digits (month t); dt_year : two_digits (year t);
}.

Definition map_date (f : Z -> Z) (t : rtcdate) : rtcdate :=
  Rtcdate (f (second t)) (f (minute t)) (f (hour t)) (f (day t)) (f (month t)) (f (year t)).

(** The field that a register shows. *)
Definition date_field (t : rtcdate) (reg : Z) : Z :=
  if reg =? SECS then second t else if reg =? MINS then minute t else if reg =? HOURS then hour t
  else if reg =? DAY then day t else if reg =? MONTH then month t else year t.

(** A clock.  Time goes by with the accesses to it: [now] is their number,
    [updates n] how often the date has changed by then, [rtc_date k] the date
    after [k] changes.  Two changes are at least 40 accesses apart, and a change
    follows within 8 accesses when the flag [updating] is up.  [binary] tells the
    format of the registers. *)
Class RtcDev (D : Type) `{Ports D} := {
  now : D -> nat;
  updates : nat -> nat;
  updating : nat -> bool;
  binary : bool;
  rtc_date : nat -> rtcdate;
  rtc_date_ok : forall k, date_ok (rtc_date k);
  updates_mono : forall a b, (a <= b)%nat -> (updates a <= updates b)%nat;
  updates_rare : forall n, (updates (n + 40) <= updates n + 1)%nat;
  updating_soon : forall n, updating n = true -> (updates n < updates (n + 8))%nat;
  rtc_read : forall r d, 0 <= r < 12 -> exists v d', inb CMOS_RETURN (outb CMOS_PORT r d) = (v, d') /\ now d' = S (now d) /\
    (r = CMOS_STATA -> truth (Z.land v CMOS_UIP) = updating (now d)) /\
    (r = CMOS_STATB -> (Z.land v 4 =? 0) = negb binary) /\
    (r ∈ [SECS; MINS; HOURS; DAY; MONTH; YEAR] ->
       v = (if binary then fun x => x else bcd_of) (date_field (rtc_date (updates (now d))) r));
}.

Section cmostime.
Context {D : Type} `{RtcDev D}.

(** The date in the registers after [k] changes. *)
Definition raw (k : nat) : rtcdate := map_date (if binary then fun x => x else bcd_of) (rtc_date k).

Lemma cmos_read_ok r d : 0 <= r < 12 -> exists v d', cmos_read r d = Ok v d' /\ now d' = S (now d) /\
  (r = CMOS_STATA -> truth (Z.land v CMOS_UIP) = updating (now d)) /\ (r = CMOS_STATB -> (Z.land v 4 =? 0) = negb binary) /\
  (r ∈ [SECS; MINS; HOURS; DAY; MONTH; YEAR] -> v = date_field (raw (updates (now d))) r).
Proof.
  intros Hr. destruct (rtc_read r d Hr) as (v & d' & E & Hn & HA & HB & HT). exists v, d'. unfold cmos_read, port_out, port_in, bind, modify. rewrite u8_id by lia. rewrite E.
  split; [done|]. split; [done|]. split; [done|]. split; [done|]. intros Hin. rewrite (HT Hin). unfold raw, map_date, date_field. repeat case_match; done.
Qed.

(** A date read while the clock runs: field by field. *)
Lemma fill_ok d : exists d', fill_rtcdate d = Ok (Rtcdate (second (raw (updates (now d)))) (minute (raw (updates (now d + 1)))) (hour (raw (updates (now d + 2))))
  (day (raw (updates (now d + 3)))) (month (raw (updates (now d + 4)))) (year (raw (updates (now d + 5))))) d' /\ now d' = (now d + 6)%nat.
Proof.
  assert (R : forall r d, 0 <= r < 12 -> r ∈ [SECS; MINS; HOURS; DAY; MONTH; YEAR] -> exists d', cmos_read r d = Ok (date_field (raw (updates (now d))) r) d' /\ now d' = S (now d)).
  { intros r d0 Hr Hin. destruct (cmos_read_ok r d0 Hr) as (v & d' & E & Hn & _ & _ & HT). exists d'. by rewrite <- (HT Hin). }
  destruct (R SECS d) as (d1 & E1 & N1); [done|set_solver|]. destruct (R MINS d1) as (d2 & E2 & N2); [done|set_solver|]. destruct (R HOURS d2) as (d3 & E3 & N3); [done|set_solver|].
  destruct (R DAY d3) as (d4 & E4 & N4); [done|set_solver|]. destruct (R MONTH d4) as (d5 & E5 & N5); [done|set_solver|]. destruct (R YEAR d5) as (d6 & E6 & N6); [done|set_solver|].
  exists d6. split; [|lia]. unfold fill_rtcdate. rewrite (bind_ok _ _ _ _ _ E1), (bind_ok _ _ _ _ _ E2), (bind_ok _ _ _ _ _ E3), (bind_ok _ _ _ _ _ E4), (bind_ok _ _ _ _ _ E5), (bind_ok _ _ _ _ _ E6).
  replace (now d5) with (now d + 5)%nat by lia. replace (now d4) with (now d + 4)%nat by lia. replace (now d3) with (now d + 3)%nat by lia.
  replace (now d2) with (now d + 2)%nat by lia. by replace (now d1) with (now d + 1)%nat by lia.
Qed.

(** The date in the registers over a time without changes. *)
Lemma fill_quiet d k : updates (now d) = k -> updates (now d + 5) = k -> exists d', fill_rtcdate d = Ok (raw k) d' /\ now d' = (now d + 6)%nat.
Proof.
  intros H1 H2. destruct (fill_ok d) as (d' & E & Hn). exists d'. split; [|done]. rewrite E.
  assert (Hk : forall j, (j <= 5)%nat -> updates (now d + j) = k). { intros j Hj. pose proof (updates_mono (now d) (now d + j)). pose proof (updates_mono (now d + j) (now d + 5)). lia. }
  rewrite H1, !Hk by lia. by destruct (raw k).
Qed.

(** One turn of the loop.  It ends with a date that the clock had, if it ends. *)
Lemma turn_date d : let n := now d in forall t1 d1 t2 d2 d3, fill_rtcdate d = Ok t1 d1 -> now d2 = S (now d1) -> fill_rtcdate d2 = Ok t2 d3 -> t1 = t2 ->
  exists k, t1 = raw k /\ (updates n <= k <= updates (n + 12))%nat.
Proof.
  intros n t1 d1 t2 d2 d3 E1 Hn E2 Ht. pose proof (updates_mono n (n + 5)). pose proof (updates_mono (n + 5) (n + 7)). pose proof (updates_mono (n + 7) (n + 12)). pose proof (updates_mono (n + 12) (n + 40)).
  pose proof (updates_rare n). destruct (decide (updates (n + 5) = updates n)) as [Hq|Hq].
  - destruct (fill_quiet d (updates n) eq_refl Hq) as (d' & E & _). rewrite E in E1. injection E1 as <- <-. exists (updates n). split; [done|lia].
  - destruct (fill_ok d) as (d' & E & N). rewrite E in E1. injection E1 as _ <-. fold n in N. assert (En : now d2 = (n + 7)%nat) by lia.
    destruct (fill_quiet d2 (updates (n + 12))) as (d'' & E' & _); [rewrite En; lia|rewrite En; replace (n + 7 + 5)%nat with (n + 12)%nat by lia; done|].
    rewrite E' in E2. injection E2 as <- _. exists (updates (n + 12)). split; [done|lia].
Qed.

(** A turn that fails saw a change, or the flag. *)
Lemma turn_ok d fuel : let n := now d in
  (exists k d', cmostime_loop (S fuel) d = Ok (raw k) d' /\ (updates n <= k <= updates (now d'))%nat) \/
  (exists d', cmostime_loop (S fuel) d = cmostime_loop fuel d' /\ (now d' = n + 7 \/ now d' = n + 13)%nat /\ (updates n < updates (n + 14))%nat).
Proof.
  intros n. destruct (fill_ok d) as (d1 & E1 & N1). fold n in N1. destruct (cmos_read_ok CMOS_STATA d1) as (a & d2 & E2 & N2 & Ha & _ & _); [done|]. specialize (Ha eq_refl).
  destruct (fill_ok d2) as (d3 & E3 & N3). cbn [cmostime_loop]. rewrite (bind_ok _ _ _ _ _ E1), (bind_ok _ _ _ _ _ E2), Ha.
  destruct (updating (now d1)) eqn:Eu.
  { right. exists d2. split; [done|]. split; [lia|]. apply updating_soon in Eu. rewrite N1 in Eu. pose proof (updates_mono n (n + 6)). replace (n + 6 + 8)%nat with (n + 14)%nat in Eu by lia. lia. }
  rewrite (bind_ok _ _ _ _ _ E3). case_decide as Ht.
  - left. destruct (turn_date d _ _ _ _ _ E1 N2 E3 Ht) as (k & -> & Hk). exists k, d3. split; [done|]. fold n in Hk. replace (now d3) with (n + 13)%nat by lia. pose proof (updates_mono (n + 12) (n + 13)). lia.
  - right. exists d3. split; [done|]. split; [lia|]. pose proof (updates_mono n (n + 12)). pose proof (updates_mono (n + 12) (n + 14)).
    destruct (decide (updates (n + 12) = updates n)) as [Hq|]; [|lia]. exfalso. apply Ht.
    assert (Hj : forall j, (j <= 12)%nat -> updates (n + j) = updates n). { intros j Hj. pose proof (updates_mono n (n + j)). pose proof (updates_mono (n + j) (n + 12)). lia. }
    destruct (fill_quiet d (updates n) eq_refl (Hj 5%nat ltac:(lia))) as (? & Q1 & _). rewrite Q1 in E1. apply Ok_inj in E1 as [<- _].
    destruct (fill_quiet d2 (updates n)) as (? & Q2 & _); [replace (now d2) with (n + 7)%nat by lia; apply Hj; lia|replace (now d2 + 5)%nat with (n + 12)%nat by lia; apply Hj; lia|].
    rewrite Q2 in E3. by apply Ok_inj in E3 as [<- _].
Qed.

Lemma cmostime_loop_ok d fuel : exists k d', cmostime_loop (S (S (S fuel))) d = Ok (raw k) d' /\ (updates (now d) <= k <= updates (now d'))%nat.
Proof.
  destruct (turn_ok d (S (S fuel))) as [|(d1 & -> & N1 & U1)]; [done|]. pose proof (updates_mono (now d) (now d1)).
  destruct (turn_ok d1 (S fuel)) as [(k & d' & E & Hk)|(d2 & -> & N2 & _)]; [exists k, d'; split; [done|lia]|]. pose proof (updates_mono (now d) (now d2)).
  destruct (turn_ok d2 fuel) as [(k & d' & E & Hk)|(d3 & _ & _ & U3)]; [exists k, d'; split; [done|lia]|]. exfalso.
  pose proof (updates_rare (now d)). pose proof (updates_mono (now d + 14) (now d2)). pose proof (updates_mono (now d2 + 14) (now d + 40)). lia.
Qed.

Lemma CONV_bcd v : two_digits v -> CONV (bcd_of v) = v.
Proof.
  intros Hv. unfold two_digits in Hv. unfold CONV, bcd_of. rewrite Z.shiftr_div_pow2 by lia. change 15 with (Z.ones 4). rewrite Z.land_ones by lia. change (2 ^ 4) with 16. zsolve.
Qed.
End cmostime.


(** A clock that changes every 64 accesses, in the decimal format. *)
Record clock := Clock { c_reg : Z; c_now : nat }.

Definition clock_date (k : nat) : rtcdate := Rtcdate (Z.of_nat k mod 60) 59 23 31 12 19.
Definition clock_value (c : clock) : Z :=
  if c_reg c =? CMOS_STATA then (if (56 <=? c_now c mod 64)%nat then 128 else 0)
  else if c_reg c =? CMOS_STATB then 2
  else bcd_of (date_field (clock_date (c_now c / 64)) (c_reg c)).

#[export] Instance clock_ports : Ports clock := {
  inb p c := if p =? CMOS_RETURN then (clock_value c, Clock (c_reg c) (S (c_now c))) else (0, c);
  outb p v c := if p =? CMOS_PORT then Clock v (c_now c) else c;
  mmio_read _ c := (0, c);
  mmio_write _ _ c := c;
}.

#[export] Instance clock_rtc : RtcDev clock.
Proof.
  refine {| now := c_now; updates n := (n / 64)%nat; updating n := (56 <=? n mod 64)%nat; binary := false; rtc_date := clock_date |}.
  - intros k. split; unfold two_digits; cbn; zsolve.
  - intros a b Hab. apply Nat.Div0.div_le_mono. done.
  - intros n. pose proof (Nat.div_mod n 64). pose proof (Nat.div_mod (n + 40) 64). pose proof (Nat.mod_upper_bound n 64). pose proof (Nat.mod_upper_bound (n + 40) 64). lia.
  - intros n Hn. apply Nat.leb_le in Hn. pose proof (Nat.div_mod n 64). pose proof (Nat.div_mod (n + 8) 64). pose proof (Nat.mod_upper_bound n 64). pose proof (Nat.mod_upper_bound (n + 8) 64). lia.
  - intros r d Hr. do 2 eexists. split; [reflexivity|]. split; [done|]. split; [|split].
    + intros ->. change (truth (Z.land (if (56 <=? c_now d mod 64)%nat then 128 else 0) 128) = (56 <=? c_now d mod 64)%nat). by destruct (56 <=? c_now d mod 64)%nat.
    + intros ->. done.
    + intros Hin. unfold clock_value. change (outb CMOS_PORT r d) with (Clock r (c_now d)). cbn [c_reg c_now]. destruct (Z.eqb_spec r CMOS_STATA) as [->|]; [set_solver|]. destruct (Z.eqb_spec r CMOS_STATB) as [->|]; [set_solver|]. done.
Defined.

