(* ===== verification/Bootmain.v ===== *)
(** The boot loader (src/bootmain.c), which loads the kernel from the disk: the
    ELF header in the first page, then each segment, by whole sectors.

    The disk controller is the one of [Ide]; the state is the physical memory and
    the devices.  Addresses are unbounded here; the theorem has the bounds that
    keep them in 32 bits. *)

From Stdlib Require Import Sorting.Sorted.
From S2P Require Import Prelude StringC Spinlock Kalloc Ptable Ports Sleeplock Block Bio Ide IdeSpec.

(* src/bootmain.c:13-13 SECTSIZE *)
Definition SECTSIZE : Z := 512.
(* src/elf.h:3-3 ELF_MAGIC *)
Definition ELF_MAGIC : Z := 1179403647.

(** The fields of the ELF header and of a program header in memory. *)

(* src/elf.h:6-22 elfhdr *)
Record elfhdr := Elfhdr { magic : Z; entry : Z; phoff : Z; phnum : Z }.
Definition elf_at (m : memory) (p : Z) : elfhdr :=
  Elfhdr (load32 m p) (load32 m (p + 24)) (load32 m (p + 28)) (m (p + 44) + 256 * m (p + 45)).

(* src/elf.h:25-34 proghdr *)
Record proghdr := Proghdr { off : Z; paddr : Z; filesz : Z; memsz : Z }.
Definition PROGHDR_SIZE : Z := 32.
Definition ph_at (m : memory) (p : Z) : proghdr := Proghdr (load32 m (p + 4)) (load32 m (p + 12)) (load32 m (p + 16)) (load32 m (p + 20)).

(** Memory with the bytes [l] at [a]. *)
Definition put_bytes (a : Z) (l : list Z) (m : memory) : memory :=
  fun x => if (a <=? x) && (x <? a + Z.of_nat (length l)) then nth (Z.to_nat (x - a)) l 0 else m x.

Record boot (D : Type) := Boot { bt_mem : memory; bt_dev : D }.
Arguments Boot {D} _ _.
Arguments bt_mem {D} _.
Arguments bt_dev {D} _.

Section boot.
Context {D : Type} `{Ports D} `{StringPorts D}.

Definition bt_dev_of : lens (boot D) D := Lens bt_dev (fun d s => Boot (bt_mem s) d).

(* src/bootmain.c:50-56 waitdisk *)
Fixpoint waitdisk (fuel : nat) : M D unit :=
  match fuel with
  | O => wait
  | S fuel' => v <- port_in 503 ;; if negb (Z.land v 192 =? 64) then waitdisk fuel' else ret tt
  end.

(* src/bootmain.c:58-74 readsect *)
Definition readsect (fuel : nat) (dst offset : Z) : M (boot D) unit :=
  l <- zoom bt_dev_of (
    (* Issue command. *)
    waitdisk fuel ;;
    port_out 498 1 ;;   (* count = 1 *)
    port_out 499 offset ;;
    port_out 500 (Z.shiftr offset 8) ;;
    port_out 501 (Z.shiftr offset 16) ;;
    port_out 502 (Z.lor (Z.shiftr offset 24) 224) ;;
    port_out 503 32 ;;  (* cmd 0x20 - read sectors *)
    (* Read data. *)
    waitdisk fuel ;;
    (fun d => let '(l, d) := insl 496 (SECTSIZE / 4) d in Ok l d)) ;;
  modify (fun s => Boot (put_bytes dst l (bt_mem s)) (bt_dev s)).

(* src/bootmain.c:94-95 readseg *)
Fixpoint readseg_loop (n fuel : nat) (pa epa offset : Z) : M (boot D) unit :=
  match n with
  | O => wait
  | S n' =>
      if pa <? epa then readsect fuel pa offset ;; readseg_loop n' fuel (pa + SECTSIZE) epa (offset + 1)
      else ret tt
  end.

(** A turn for each sector: the bytes asked for and those before them in the
    first sector are enough turns. *)

(* src/bootmain.c:77-96 readseg *)
Definition readseg (fuel : nat) (pa count offset : Z) : M (boot D) unit :=
  let epa := pa + count in
  let pa := pa - offset mod SECTSIZE in              (* Round down to sector boundary. *)
  let offset := offset / SECTSIZE + 1 in             (* kernel starts at sector 1. *)
  readseg_loop (S (Z.to_nat (epa - pa))) fuel pa epa offset.

(* src/bootmain.c:37-42 bootmain *)
Fixpoint load_segs (n fuel : nat) (ph : Z) : M (boot D) unit :=
  match n with
  | O => ret tt
  | S n' =>
      h <- gets (fun s => ph_at (bt_mem s) ph) ;;
      let pa := paddr h in
      readseg fuel pa (filesz h) (off h) ;;
      h <- gets (fun s => ph_at (bt_mem s) ph) ;;
      (if filesz h <? memsz h then modify (fun s => Boot (stosb (bt_mem s) (pa + filesz h) 0 (Z.to_nat (memsz h - filesz h))) (bt_dev s)) else ret tt) ;;
      load_segs n' fuel (ph + PROGHDR_SIZE)
  end.

(** The entry point that is called, if any. *)

(* src/bootmain.c:17-48 bootmain *)
Definition bootmain (fuel : nat) : M (boot D) (option Z) :=
  let elf := 65536 in                                (* scratch space *)
  readseg fuel elf 4096 0 ;;                         (* Read 1st page off disk *)
  h <- gets (fun s => elf_at (bt_mem s) elf) ;;
  if negb (magic h =? ELF_MAGIC) then ret None       (* let bootasm.S handle error *)
  else
    load_segs (Z.to_nat (phnum h)) fuel (elf + phoff h) ;;
    h <- gets (fun s => elf_at (bt_mem s) elf) ;;
    ret (Some (entry h)).
End boot.

(* ------------------------------------------------------------------ *)
(** * What is loaded *)

(** Byte [o] of the kernel file, which starts at sector 1 of the first drive. *)
Definition file_at (a : ata) (o : Z) : Z := nth (Z.to_nat (o mod 512)) (a_disk a 0 (1 + o / 512)) 0.

Section proofs.
Context {D : Type} {HP : Ports D} {HS : StringPorts D} {bound : nat} {HA : AtaDev D bound}.
Context (fuel : nat) (Hfuel : (bound <= fuel)%nat).
Implicit Types (s : boot D) (d : D).

Lemma waitdisk_ok d : exists d', waitdisk fuel d = Ok tt d' /\ ata_of d' = ata_of d.
Proof using Hfuel.
  assert (Hw : forall n d, (polls d < n)%nat -> exists d', waitdisk n d = Ok tt d' /\ ata_of d' = ata_of d).
  { clear. induction n as [|n IH]; intros d Hn; [lia|]. cbn [waitdisk]. unfold bind, port_in. destruct (ata_status d) as (v & d' & -> & Ha & Hp). destruct (polls d) as [|k] eqn:Ep.
    - destruct Hp as [-> _]. by exists d'.
    - destruct Hp as [Hv Hk]. apply Z.eqb_neq in Hv as ->. cbn [negb]. destruct (IH d') as (d2 & E & Ha2); [lia|]. exists d2. by rewrite E, Ha2. }
  apply Hw. pose proof (polls_bound d). lia.
Qed.

(** The sector is the one of the registers. *)
Lemma readsect_ok dst n s : 0 <= n < 268435456 ->
  exists d, readsect fuel dst n s = Ok tt (Boot (put_bytes dst (a_disk (ata_of (bt_dev s)) 0 n) (bt_mem s)) d) /\ a_disk (ata_of d) = a_disk (ata_of (bt_dev s)).
Proof using Hfuel.
  intros Hn. destruct (waitdisk_ok (bt_dev s)) as (d1 & E1 & A1).
  set (d6 := outb 503 (u8 32) (outb 502 (u8 (Z.lor (Z.shiftr n 24) 224)) (outb 501 (u8 (Z.shiftr n 16)) (outb 500 (u8 (Z.shiftr n 8)) (outb 499 (u8 n) (outb 498 (u8 1) d1)))))).
  destruct (waitdisk_ok d6) as (d7 & E7 & A7).
  assert (A6 : ata_of d6 = Ata (a_disk (ata_of d1)) (upd (upd (upd (upd (upd (a_reg (ata_of d1)) 498 (u8 1)) 499 (u8 n)) 500 (u8 (Z.shiftr n 8))) 501 (u8 (Z.shiftr n 16))) 502 (u8 (Z.lor (Z.shiftr n 24) 224))) 32).
  { unfold d6. rewrite ata_command by (unfold is_byte; zsolve). rewrite !ata_register by (lia || apply u8_range). done. }
  assert (Hhi : Z.lor (Z.shiftr n 24) 224 = n / 16777216 + 224).
  { rewrite Z.shiftr_div_pow2, Z.lor_comm by lia. change 224 with (14 * 2 ^ 4) at 1. rewrite lor_low; [change (2 ^ 24) with 16777216; lia|lia|]. change (2 ^ 24) with 16777216. change (2 ^ 4) with 16. zsolve. }
  destruct (ata_read d7) as (d8 & E8 & A8); [by rewrite A7, A6|].
  assert (Hl : a_lba (ata_of d7) = n). { rewrite A7, A6. unfold a_lba. cbn [a_reg]. mem_cases. rewrite Hhi, !Z.shiftr_div_pow2 by lia. change (2 ^ 8) with 256. change (2 ^ 16) with 65536. zsolve. }
  assert (Hd : a_drive (ata_of d7) = 0). { rewrite A7, A6. unfold a_drive. cbn [a_reg]. mem_cases. rewrite Hhi. zsolve. }
  exists d8. split; [|by rewrite A8, A7, A6, A1]. unfold readsect. erewrite bind_ok.
  2:{ apply (zoom_ok bt_dev_of). cbn [bt_dev_of view]. rewrite (bind_ok _ _ _ _ _ E1). do 6 (erewrite bind_ok by reflexivity). fold d6. rewrite (bind_ok _ _ _ _ _ E7). change (SECTSIZE / 4) with 128. rewrite E8. reflexivity. }
  rewrite Hl, Hd. unfold modify. cbn. by rewrite A7, A6, A1.
Qed.

(** The disk does not change while it is read; its sectors have 512 bytes. *)
Context (disk : ata) (Hdisk : forall n, length (a_disk disk 0 n) = 512%nat).
Definition on_disk_of s : Prop := a_disk (ata_of (bt_dev s)) = a_disk disk.

Lemma put_bytes_in a l m x : a <= x < a + Z.of_nat (length l) -> put_bytes a l m x = nth (Z.to_nat (x - a)) l 0.
Proof. intros Hx. unfold put_bytes. by rewrite (proj2 (Z.leb_le _ _)), (proj2 (Z.ltb_lt _ _)) by lia. Qed.

Lemma put_bytes_below a l m x : x < a -> put_bytes a l m x = m x.
Proof. intros Hx. unfold put_bytes. by rewrite (proj2 (Z.leb_gt _ _)) by lia. Qed.

Lemma readseg_loop_ok n : forall pa epa sec s, on_disk_of s -> (Z.to_nat (epa - pa) < n)%nat -> 0 <= sec -> sec * 512 + (epa - pa) < 8590000000 ->
  exists s', readseg_loop n fuel pa epa sec s = Ok tt s' /\ on_disk_of s' /\ (forall x, x < pa -> bt_mem s' x = bt_mem s x) /\
    forall x, pa <= x < epa -> bt_mem s' x = nth (Z.to_nat ((x - pa) mod 512)) (a_disk disk 0 (sec + (x - pa) / 512)) 0.
Proof using Hfuel Hdisk.
  induction n as [|n IH]; intros pa epa sec s Hs Hn Hsec Hmax; [lia|]. cbn [readseg_loop]. destruct (Z.ltb_spec pa epa) as [Hlt|Hge].
  2:{ exists s. split; [done|]. split; [done|]. split; [done|]. lia. }
  destruct (readsect_ok pa sec s ltac:(lia)) as (d & E & Hd). rewrite (bind_ok _ _ _ _ _ E). rewrite Hs in Hd |- *. unfold SECTSIZE.
  destruct (IH (pa + 512) epa (sec + 1) (Boot (put_bytes pa (a_disk disk 0 sec) (bt_mem s)) d)) as (s' & R & Hs' & Hlo & Hin); [done|lia|lia|lia|].
  exists s'. split; [done|]. split; [done|]. split; intros x Hx.
  - rewrite Hlo by lia. by apply put_bytes_below.
  - destruct (Z.lt_ge_cases x (pa + 512)) as [H1|H1].
    + rewrite Hlo by lia. cbn [bt_mem]. rewrite put_bytes_in by (rewrite Hdisk; lia). by rewrite Z.mod_small, Z.div_small, Z.add_0_r by lia.
    + rewrite Hin by lia. replace ((x - pa) mod 512) with ((x - (pa + 512)) mod 512) by zsolve. by replace (sec + (x - pa) / 512) with (sec + 1 + (x - (pa + 512)) / 512) by zsolve.
Qed.

(** [readseg] brings the bytes asked for, and touches nothing below the first
    sector. *)
Lemma readseg_ok pa count o s : on_disk_of s -> 0 <= o -> 0 <= count -> o + count < 4294967296 ->
  exists s', readseg fuel pa count o s = Ok tt s' /\ on_disk_of s' /\ (forall x, x < pa - o mod 512 -> bt_mem s' x = bt_mem s x) /\
    forall x, pa <= x < pa + count -> bt_mem s' x = file_at disk (o + (x - pa)).
Proof using Hfuel Hdisk.
  intros Hs Ho Hc Hmax. unfold readseg, SECTSIZE. cbv zeta.
  destruct (readseg_loop_ok (S (Z.to_nat (pa + count - (pa - o mod 512)))) (pa - o mod 512) (pa + count) (o / 512 + 1) s Hs) as (s' & R & Hs' & Hlo & Hin); [lia|zsolve..|].
  exists s'. split; [done|]. split; [done|]. split; [done|]. intros x Hx. rewrite Hin by zsolve. unfold file_at.
  replace ((x - (pa - o mod 512)) mod 512) with ((o + (x - pa)) mod 512) by zsolve. by replace (o / 512 + 1 + (x - (pa - o mod 512)) / 512) with (1 + (o + (x - pa)) / 512) by zsolve.
Qed.

(** The first page of the file is in the scratch space. *)
Definition scratch : memory := fun x => file_at disk (x - 65536).
Definition headers_in (m : memory) : Prop := forall x, 65536 <= x < 69632 -> m x = scratch x.

(** A segment the loader can load without touching the headers. *)
Record good_seg (h : proghdr) : Prop := {
  gs_off : 0 <= off h;
  gs_filesz : 0 <= filesz h;
  gs_memsz : 0 <= memsz h;
  gs_file : off h + filesz h < 4294967296;
  gs_above : 69632 <= paddr h - off h mod 512;
  gs_below : paddr h + filesz h + 512 <= 4294967296 /\ paddr h + memsz h <= 4294967296;
}.

(** The segment is in memory: the bytes of the file, then zeros. *)
Definition loaded (m : memory) (h : proghdr) : Prop :=
  forall x, paddr h <= x < paddr h + memsz h -> m x = if x - paddr h <? filesz h then file_at disk (off h + (x - paddr h)) else 0.

(** In increasing order: the sectors of a segment begin after the segments
    before it. *)
Definition before (h h' : proghdr) : Prop := paddr h + memsz h <= paddr h' - off h' mod 512.

Lemma load_seg_ok p h s : on_disk_of s -> headers_in (bt_mem s) -> 65536 <= p -> p + 32 <= 69632 -> ph_at scratch p = h -> good_seg h -> forall n,
  exists s', load_segs (S n) fuel p s = load_segs n fuel (p + 32) s' /\ on_disk_of s' /\ headers_in (bt_mem s') /\ loaded (bt_mem s') h /\
    forall x, x < paddr h - off h mod 512 -> bt_mem s' x = bt_mem s x.
Proof using Hfuel Hdisk.
  intros Hs Hh Hp Hp' Hph [G1 G2 G3 G4 G5 G6] n. cbn [load_segs]. erewrite bind_ok by reflexivity.
  assert (Eh : forall m, headers_in m -> ph_at m p = h). { intros m Hm. rewrite <- Hph. unfold ph_at. rewrite !(load32_ext scratch m) by (intros x Hx; apply Hm; lia). done. }
  rewrite (Eh _ Hh). cbv zeta. destruct (readseg_ok (paddr h) (filesz h) (off h) s Hs G1 G2 G4) as (s1 & R1 & Hs1 & Hlo & Hin). rewrite (bind_ok _ _ _ _ _ R1).
  assert (Hh1 : headers_in (bt_mem s1)) by (intros x Hx; rewrite Hlo by lia; by apply Hh). erewrite bind_ok by reflexivity. rewrite (Eh _ Hh1).
  destruct (Z.ltb_spec (filesz h) (memsz h)) as [Hlt|Hge].
  - erewrite bind_ok by reflexivity. eexists. split; [reflexivity|]. cbn [bt_mem]. split; [done|].
    assert (Hz : forall x, stosb (bt_mem s1) (paddr h + filesz h) 0 (Z.to_nat (memsz h - filesz h)) x = if (paddr h + filesz h <=? x) && (x <? paddr h + memsz h) then 0 else bt_mem s1 x).
    { intros x. rewrite stosb_spec. rewrite Z2Nat.id by lia. by replace (paddr h + filesz h + (memsz h - filesz h)) with (paddr h + memsz h) by lia. }
    assert (Hb : forall x, x < paddr h + filesz h -> stosb (bt_mem s1) (paddr h + filesz h) 0 (Z.to_nat (memsz h - filesz h)) x = bt_mem s1 x) by (intros x Hx; rewrite Hz; by rewrite (proj2 (Z.leb_gt _ _)) by lia).
    assert (0 <= off h mod 512) by zsolve. split; [intros x Hx; rewrite Hb by lia; by apply Hh1|]. split; [|intros x Hx; rewrite Hb by lia; by apply Hlo].
    intros x Hx. destruct (Z.ltb_spec (x - paddr h) (filesz h)); [rewrite Hb by lia; apply Hin; lia|]. rewrite Hz. by rewrite (proj2 (Z.leb_le _ _)), (proj2 (Z.ltb_lt _ _)) by lia.
  - erewrite bind_ok by reflexivity. exists s1. split; [done|]. split; [done|]. split; [done|]. split; [|done]. intros x Hx. rewrite (proj2 (Z.ltb_lt _ _)) by lia. apply Hin. lia.
Qed.

Lemma load_segs_ok phs : forall p s, on_disk_of s -> headers_in (bt_mem s) -> 65536 <= p -> p + 32 * Z.of_nat (length phs) <= 69632 ->
  (forall k h, phs !! k = Some h -> ph_at scratch (p + 32 * Z.of_nat k) = h) -> Forall good_seg phs -> StronglySorted before phs ->
  exists s', load_segs (length phs) fuel p s = Ok tt s' /\ on_disk_of s' /\ headers_in (bt_mem s') /\ Forall (loaded (bt_mem s')) phs /\
    forall x, Forall (fun h => x < paddr h - off h mod 512) phs -> bt_mem s' x = bt_mem s x.
Proof using Hfuel Hdisk.
  induction phs as [|h phs IH]; intros p s Hs Hh Hp Hp' Hat Hg Hsort; [exists s; repeat (split; [done|]); done|].
  apply Forall_cons in Hg as [Hgh Hg]. inversion Hsort as [|? ? Hsort' Hbef]; subst. cbn [length] in *. pose proof (Hat 0%nat h eq_refl) as H0. rewrite Z.add_0_r in H0.
  destruct (load_seg_ok p h s Hs Hh Hp ltac:(lia) H0 Hgh (length phs)) as (s1 & -> & Hs1 & Hh1 & Hl1 & Hlo1).
  destruct (IH (p + 32) s1 Hs1 Hh1) as (s' & R & Hs' & Hh' & Hl' & Hlo'); [lia|lia| |done|done|].
  { intros k h' Hk. rewrite <- (Hat (S k) h' Hk). f_equal. lia. }
  exists s'. split; [done|]. split; [done|]. split; [done|]. split.
  - constructor; [|done]. intros x Hx. rewrite Hlo'; [by apply Hl1|]. eapply Forall_impl; [exact Hbef|]. unfold before. intros h' Hb. lia.
  - intros x Hx. apply Forall_cons in Hx as [Hx0 Hx]. rewrite Hlo' by done. by apply Hlo1.
Qed.
End proofs.

(** C18: for a kernel file on the disk with an ELF header whose program headers lie
    in the first page, and segments that are loaded in increasing order above
    the scratch space, the boot loader ends and calls the entry point of the
    header; each segment is then in memory at its physical address, the bytes
    of the file and zeros up to its size, although whole sectors are read. *)
Theorem bootmain_loads_kernel {D} `{AtaDev D bound} (fuel : nat) (s : boot D) (phs : list proghdr) (Hfuel : (bound <= fuel)%nat) :
  let disk := ata_of (bt_dev s) in let h := elf_at (scratch disk) 65536 in
  (forall n, length (a_disk disk 0 n) = 512%nat) -> magic h = ELF_MAGIC -> 0 <= phoff h -> phoff h + 32 * phnum h <= 4096 -> phnum h = Z.of_nat (length phs) ->
  (forall k p, phs !! k = Some p -> ph_at (scratch disk) (65536 + phoff h + 32 * Z.of_nat k) = p) -> Forall good_seg phs -> StronglySorted before phs ->
  exists s', bootmain fuel s = Ok (Some (entry h)) s' /\ Forall (loaded disk (bt_mem s')) phs.
Proof.
  intros disk h Hlen Hmagic Hoff Hmax Hnum Hat Hg Hsort. unfold bootmain. cbv zeta.
  destruct (readseg_ok fuel Hfuel disk Hlen 65536 4096 0 s) as (s1 & R1 & Hs1 & _ & Hin); [done|lia|lia|lia|]. rewrite (bind_ok _ _ _ _ _ R1). erewrite bind_ok by reflexivity.
  assert (Hh1 : headers_in disk (bt_mem s1)) by (intros x Hx; unfold scratch; rewrite Hin by lia; f_equal; lia).
  assert (Eh : forall m, headers_in disk m -> elf_at m 65536 = h).
  { intros m Hm. subst h. unfold elf_at. rewrite !(load32_ext (scratch disk) m) by (intros x Hx; apply Hm; lia). by rewrite !Hm by lia. }
  rewrite (Eh _ Hh1), Hmagic. change (negb (ELF_MAGIC =? ELF_MAGIC)) with false. cbv iota. rewrite Hnum, Nat2Z.id.
  destruct (load_segs_ok fuel Hfuel disk Hlen phs (65536 + phoff h) s1 Hs1 Hh1) as (s2 & R2 & _ & Hh2 & Hl & _); [lia|lia|done|done|done|].
  rewrite (bind_ok _ _ _ _ _ R2). erewrite bind_ok by reflexivity. rewrite (Eh _ Hh2). by exists s2.
Qed.

(** A kernel of two segments, the second one not at the beginning of a sector;
    the sectors after the first are filled with their number. *)
Definition le32 (v : Z) : list Z := [v mod 256; v / 256 mod 256; v / 65536 mod 256; v / 16777216 mod 256].
Definition ph_bytes (h : proghdr) : list Z := le32 1 ++ le32 (off h) ++ le32 0 ++ le32 (paddr h) ++ le32 (filesz h) ++ le32 (memsz h) ++ replicate 8 0.
Definition demo_phs : list proghdr := [Proghdr 4096 1048576 600 700; Proghdr 5000 1052672 10 20].
Definition demo_sector : block :=
  le32 ELF_MAGIC ++ replicate 20 0 ++ le32 1048588 ++ le32 52 ++ replicate 12 0 ++ [2; 0] ++ replicate 6 0 ++ concat (ph_bytes <$> demo_phs) ++ replicate 396 0.
Definition demo_boot : boot sim := Boot (fun _ => 0) (Ata (fun _ n => if n =? 1 then demo_sector else replicate 512 n) (fun _ => 0) 0, false).

Lemma bootmain_loads_kernel_witness :
  exists s', bootmain 2 demo_boot = Ok (Some 1048588) s' /\ Forall (loaded (ata_of (bt_dev demo_boot)) (bt_mem s')) demo_phs.
Proof.
  assert (He : entry (elf_at (scratch (ata_of (bt_dev demo_boot))) 65536) = 1048588) by (vm_compute; reflexivity). rewrite <- He.
  apply (bootmain_loads_kernel 2 demo_boot demo_phs); [lia|..].
  - intros n. simpl. destruct (n =? 1); [reflexivity|reflexivity].
  - vm_compute. reflexivity.
  - vm_compute. discriminate.
  - vm_compute. discriminate.
  - vm_compute. reflexivity.
  - intros k p Hk. destruct k as [|[|k]]; [| |discriminate Hk]; injection Hk as <-; vm_compute; reflexivity.
  - apply Forall_cons. split; [split; vm_compute; intuition discriminate|]. apply Forall_cons. split; [split; vm_compute; intuition discriminate|]. apply Forall_nil. exact I.
  - apply SSorted_cons; [apply SSorted_cons; [apply SSorted_nil|apply Forall_nil; exact I]|]. apply Forall_cons. split; [vm_compute; discriminate|apply Forall_nil; exact I].
Defined.
