(* ===== verification/Console.v ===== *)
(** The console (src/console.c): the screen, the serial line, formatted output,
    and the line editor between the keyboard and the readers.

    [con] is the state of the console with the devices behind it; [const] adds
    the process table and the file system, for the calls that wake and put to
    sleep and that lock the console's inode.  Format strings are their bytes up
    to the NUL.  An argument of [cprintf] is a word or a pointer to a string;
    a conversion that takes the other kind is undefined in C and panics here. *)

From S2P Require Import Prelude StringC Spinlock Kalloc Ptable Ports Sleeplock Block Bio Log Layer Fs.

(* src/console.c:181-181 INPUT_BUF *)
Definition INPUT_BUF : Z := 128.
(* src/console.c:127-127 BACKSPACE *)
Definition BACKSPACE : Z := 256.
(* src/console.c:128-128 CRTPORT *)
Definition CRTPORT : Z := 980.
(* src/console.c:129-129 crt *)
Definition CRT : Z := 2148237312.
(* src/console.c:189-189 C *)
Definition ctl (x : Z) : Z := x - 64.

(* src/console.c:182-187 input *)
Record inbuf := Inbuf { in_buf : list Z; in_r : Z; in_w : Z; in_e : Z }.

Record con (D : Type) := Con {
  cn_lock : lock_view;
  cn_locking : Z;
  panicked : Z;
  input : inbuf;
  crt : memory;      (* the memory of the display *)
  uart : Z;          (* is there a uart? *)
  shift : Z;         (* the modifier keys that are down or on *)
  dev : D;
}.
Arguments Con {D} _ _ _ _ _ _ _ _.
Arguments cn_lock {D} _.
Arguments cn_locking {D} _.
Arguments panicked {D} _.
Arguments input {D} _.
Arguments crt {D} _.
Arguments uart {D} _.
Arguments shift {D} _.
Arguments dev {D} _.

Section con.
Context {D : Type} `{Ports D}.
Local Abbreviation C := (M (con D)).

Definition set_cn_lock (v : lock_view) (s : con D) : con D := Con v (cn_locking s) (panicked s) (input s) (crt s) (uart s) (shift s) (dev s).
Definition set_cn_locking (v : Z) (s : con D) : con D := Con (cn_lock s) v (panicked s) (input s) (crt s) (uart s) (shift s) (dev s).
Definition set_panicked (v : Z) (s : con D) : con D := Con (cn_lock s) (cn_locking s) v (input s) (crt s) (uart s) (shift s) (dev s).
Definition set_input (v : inbuf) (s : con D) : con D := Con (cn_lock s) (cn_locking s) (panicked s) v (crt s) (uart s) (shift s) (dev s).
Definition set_crt (v : memory) (s : con D) : con D := Con (cn_lock s) (cn_locking s) (panicked s) (input s) v (uart s) (shift s) (dev s).
Definition set_uart (v : Z) (s : con D) : con D := Con (cn_lock s) (cn_locking s) (panicked s) (input s) (crt s) v (shift s) (dev s).
Definition set_shift (v : Z) (s : con D) : con D := Con (cn_lock s) (cn_locking s) (panicked s) (input s) (crt s) (uart s) v (dev s).
Definition set_dev (v : D) (s : con D) : con D := Con (cn_lock s) (cn_locking s) (panicked s) (input s) (crt s) (uart s) (shift s) v.
Definition cn_lock_of : lens (con D) lock_view := Lens cn_lock set_cn_lock.
Definition dev_of : lens (con D) D := Lens dev set_dev.

(** ** Characters on the screen and the serial line *)

(** The store [crt[pos] = v] of a [ushort]. *)
Definition put_cell (pos v : Z) : C unit :=
  modify (fun s => set_crt (upd (upd (crt s) (CRT + 2 * pos) (v mod 256)) (CRT + 2 * pos + 1) (v / 256 mod 256)) s).

(* src/console.c:131-163 cgaputc *)
Definition cgaputc (c : Z) : C unit :=
  (* Cursor position: col + 80*row. *)
  zoom dev_of (port_out CRTPORT 14) ;;
  hi <- zoom dev_of (port_in (CRTPORT + 1)) ;;
  zoom dev_of (port_out CRTPORT 15) ;;
  lo <- zoom dev_of (port_in (CRTPORT + 1)) ;;
  let pos := Z.lor (Z.shiftl hi 8) lo in
  pos <- (if c =? 10 then ret (pos + (80 - Z.rem pos 80))
          else if c =? BACKSPACE then ret (if 0 <? pos then pos - 1 else pos)
          else put_cell pos (Z.lor (Z.land c 255) 1792) ;; ret (pos + 1)) ;;
  if (pos <? 0) || (25 * 80 <? pos) then panic "pos under/overflow"
  else
    pos <- (if 24 <=? Z.quot pos 80 then
              (* Scroll up. *)
              modify (fun s => set_crt (memmove (crt s) CRT (CRT + 160) (Z.to_nat (2 * 23 * 80))) s) ;;
              let pos := pos - 80 in
              modify (fun s => set_crt (memset (crt s) (CRT + 2 * pos) 0 (Z.to_nat (2 * (24 * 80 - pos)))) s) ;;
              ret pos
            else ret pos) ;;
    zoom dev_of (port_out CRTPORT 14) ;;
    zoom dev_of (port_out (CRTPORT + 1) (Z.shiftr pos 8)) ;;
    zoom dev_of (port_out CRTPORT 15) ;;
    zoom dev_of (port_out (CRTPORT + 1) pos) ;;
    put_cell pos (Z.lor 32 1792).

Definition con_uartputc (c : Z) : C unit := u <- gets uart ;; zoom dev_of (uartputc u c).

(** After a panic the other CPUs stop here. *)

(* src/console.c:165-179 consputc *)
Definition consputc (c : Z) : C unit :=
  p <- gets panicked ;;
  if truth p then wait
  else
    (if c =? BACKSPACE then con_uartputc 8 ;; con_uartputc 32 ;; con_uartputc 8
     else con_uartputc c) ;;
    cgaputc c.

(** ** Formatted output *)

(** The bytes of a string constant. *)
Definition str (x : string) : list Z := (fun c => Z.of_nat (Ascii.nat_of_ascii c)) <$> String.list_ascii_of_string x.

Inductive carg := Word (z : Z) | Ptr (s : list Z).

(* src/console.c:30-30 digits *)
Definition digits : list Z := [48; 49; 50; 51; 52; 53; 54; 55; 56; 57; 97; 98; 99; 100; 101; 102].

(** The loop that fills [buf] with digits, the lowest first.  A 32-bit number
    has at most 32 digits in any base. *)

(* src/console.c:41-43 printint *)
Fixpoint digit_loop (digits : list Z) (fuel : nat) (x base : Z) : list Z :=
  match fuel with
  | O => []
  | S fuel' =>
      nth (Z.to_nat (x mod base)) digits 0 ::
      (let x := x / base in if x =? 0 then [] else digit_loop digits fuel' x base)
  end.

(** The characters that [printint] puts, in order. *)
Definition int_chars (digits : list Z) (xx base : Z) (sign : bool) : list Z :=
  let neg := sign && (s32 xx <? 0) in
  let x := if neg then u32 (- xx) else u32 xx in
  rev (digit_loop digits 32 x base ++ (if neg then [45] else [])).

(* src/console.c:27-50 printint *)
Definition printint (xx base : Z) (sign : bool) : C unit :=
  for_each (int_chars digits xx base sign) consputc.

(* src/console.c:53-104 cprintf *)
Fixpoint cprintf_loop (fmt : list Z) (args : list carg) : C unit :=
  match fmt with
  | [] => ret tt
  | c :: fmt =>
      if negb (c =? 37) then consputc c ;; cprintf_loop fmt args
      else
        match fmt with
        | [] => ret tt
        | c :: fmt =>
            if c =? 100 then
              match args with
              | Word z :: args => printint z 10 true ;; cprintf_loop fmt args
              | _ => panic "argument"
              end
            else if (c =? 120) || (c =? 112) then
              match args with
              | Word z :: args => printint z 16 false ;; cprintf_loop fmt args
              | _ => panic "argument"
              end
            else if c =? 115 then
              match args with
              | Ptr s :: args => for_each s consputc ;; cprintf_loop fmt args
              | Word z :: args =>
                  if z =? 0 then for_each (str "(null)") consputc ;; cprintf_loop fmt args else panic "argument"
              | [] => panic "argument"
              end
            else if c =? 37 then consputc 37 ;; cprintf_loop fmt args
            else
              (* Print unknown % sequence to draw attention. *)
              consputc 37 ;; consputc c ;; cprintf_loop fmt args
        end
  end.

(* src/console.c:53-104 cprintf *)
Definition cprintf (fmt : list Z) (args : list carg) : C unit :=
  locking <- gets cn_locking ;;
  (if truth locking then lock_acquire cn_lock_of else ret tt) ;;
  cprintf_loop fmt args ;;
  (if truth locking then lock_release cn_lock_of else ret tt).

(** The text that [panic] leaves on the console, before all CPUs stop: [pcs] are
    the return addresses that [getcallerpcs] finds. *)

(* src/console.c:106-124 panic *)
Definition kpanic (lapicid : Z) (s : list Z) (pcs : list Z) : C unit :=
  modify (set_cn_locking 0) ;;
  cprintf (str "lapicid %d: panic: ") [Word lapicid] ;;
  cprintf s [] ;;
  cprintf [10] [] ;;
  for_each (take 10 pcs) (fun pc => cprintf (str " %p") [Word pc]) ;;
  modify (set_panicked 1) ;;
  wait.

(** The printing of [procdump], one line for each process in use. *)

(* src/proc.c:653-660 procdump *)
Definition print_dump (l : dump_line) : C unit :=
  cprintf (str "%d %s %s") [Word (d_pid l); Ptr (str (d_state l)); Ptr (until_zero (d_name l))] ;;
  for_each (d_pcs l) (fun pc => cprintf (str " %p") [Word pc]) ;;
  cprintf [10] [].
End con.

(* ------------------------------------------------------------------ *)
(** * Input *)

Local Abbreviation C_ D := (M (con D)).

Record const (B D : Type) := Const { ct_pt : pst; ct_con : con D; ct_fs : fsst B }.
Arguments Const {B D} _ _ _.
Arguments ct_pt {B D} _.
Arguments ct_con {B D} _.
Arguments ct_fs {B D} _.

Section input.
Context {B D : Type} {OB : BlockOps B} `{Ports D}.
Variable input_addr : Z.
Local Abbreviation S := (M (const B D)).

Definition set_ct_pt (v : pst) (s : const B D) : const B D := Const v (ct_con s) (ct_fs s).
Definition set_ct_con (v : con D) (s : const B D) : const B D := Const (ct_pt s) v (ct_fs s).
Definition set_ct_fs (v : fsst B) (s : const B D) : const B D := Const (ct_pt s) (ct_con s) v.
Definition ct_pt_of : lens (const B D) pst := Lens ct_pt set_ct_pt.
Definition ct_con_of : lens (const B D) (con D) := Lens ct_con set_ct_con.
Definition ct_fs_of : lens (const B D) (fsst B) := Lens ct_fs set_ct_fs.
Definition ct_lock_of : lens (const B D) lock_view := compose ct_con_of cn_lock_of.

(** The channel [&input.r]. *)
Definition input_chan : channel := Chan (input_addr + 128).

Definition inp (f : inbuf -> inbuf) : C_ D unit := modify (fun s => set_input (f (input s)) s).
Definition set_r v i := Inbuf (in_buf i) v (in_w i) (in_e i).
Definition set_w v i := Inbuf (in_buf i) (in_r i) v (in_e i).
Definition set_e v i := Inbuf (in_buf i) (in_r i) (in_w i) v.
Definition slot_of (i : inbuf) (k : Z) : Z := nth (Z.to_nat (u32 k mod INPUT_BUF)) (in_buf i) 0.

(** Back over one character. *)
Definition rubout : C_ D unit := inp (fun i => set_e (u32 (in_e i - 1)) i) ;; consputc BACKSPACE.

(** The loop of [C('U')]: it stops at the latest when [input.e] is [input.w]. *)

(* src/console.c:204-209 consoleintr *)
Fixpoint kill_line (fuel : nat) : C_ D unit :=
  match fuel with
  | O => ret tt
  | Datatypes.S fuel' =>
      i <- gets input ;;
      if negb (in_e i =? in_w i) && negb (slot_of i (in_e i - 1) =? 10)
      then rubout ;; kill_line fuel'
      else ret tt
  end.

(** One character: the flag [doprocdump]. *)

(* src/console.c:197-228 consoleintr *)
Definition edit (c : Z) : S bool :=
  if c =? ctl 80 then ret true
  else if c =? ctl 85 then
    i <- gets (fun s => input (ct_con s)) ;;
    zoom ct_con_of (kill_line (Z.to_nat (u32 (in_e i - in_w i)))) ;; ret false
  else if (c =? ctl 72) || (c =? 127) then
    i <- gets (fun s => input (ct_con s)) ;;
    (if negb (in_e i =? in_w i) then zoom ct_con_of rubout else ret tt) ;; ret false
  else
    i <- gets (fun s => input (ct_con s)) ;;
    (if negb (c =? 0) && (u32 (in_e i - in_r i) <? INPUT_BUF) then
       let c := if c =? 13 then 10 else c in
       zoom ct_con_of (inp (fun i =>
         Inbuf (<[Z.to_nat (in_e i mod INPUT_BUF) := u8 c]> (in_buf i)) (in_r i) (in_w i) (u32 (in_e i + 1)))) ;;
       zoom ct_con_of (consputc c) ;;
       i <- gets (fun s => input (ct_con s)) ;;
       if (c =? 10) || (c =? ctl 68) || (in_e i =? u32 (in_r i + INPUT_BUF)) then
         zoom ct_con_of (inp (fun i => set_w (in_e i) i)) ;;
         zoom ct_pt_of (wakeup input_chan)
       else ret tt
     else ret tt) ;;
    ret false.

(** The loop over the characters that are there; it has to end within [fuel]
    characters. *)

(* src/console.c:196-228 consoleintr *)
Fixpoint intr_loop (fuel : nat) (getc : C_ D Z) (doprocdump : bool) : S bool :=
  match fuel with
  | O => wait
  | Datatypes.S fuel' =>
      c <- zoom ct_con_of getc ;;
      if 0 <=? c then d <- edit c ;; intr_loop fuel' getc (doprocdump || d)
      else ret doprocdump
  end.

(* src/console.c:191-233 consoleintr *)
Definition consoleintr (fuel : nat) (getc : C_ D Z) : S unit :=
  lock_acquire ct_lock_of ;;
  doprocdump <- intr_loop fuel getc false ;;
  lock_release ct_lock_of ;;
  if doprocdump : bool then
    l <- gets (fun s => procdump (ct_pt s)) ;;
    zoom ct_con_of (for_each l print_dump)
  else ret tt.

(** ** Reading and writing; [envs] is what happens during each turn asleep *)

(** The loop that waits for input: [None] when the process has been killed. *)

(* src/console.c:244-251 consoleread *)
Fixpoint cread_wait (ip : nat) (envs : list (const B D -> const B D)) : S (option (list (const B D -> const B D))) :=
  i <- gets (fun s => input (ct_con s)) ;;
  if in_r i =? in_w i then
    p <- zoom ct_pt_of curproc ;;
    killed <- zoom ct_pt_of (getp p p_killed) ;;
    if killed : bool then
      lock_release ct_lock_of ;; zoom ct_fs_of (ilock ip) ;; ret None
    else
      match envs with
      | [] => sleep ct_pt_of input_chan (Some ct_lock_of) ;; ret None
      | e :: envs' => sleep_turn ct_pt_of input_chan (Some ct_lock_of) e ;; cread_wait ip envs'
      end
  else ret (Some envs).

(** The result is what is left of [n], and the bytes stored. *)

(* src/console.c:243-265 consoleread *)
Fixpoint cread_loop (ip : nat) (n : nat) (target : Z) (dst : list Z) (envs : list (const B D -> const B D))
  : S (option (nat * list Z)) :=
  match n with
  | O => ret (Some (O, dst))
  | Datatypes.S n' =>
      r <- cread_wait ip envs ;;
      match r with
      | None => ret None
      | Some envs' =>
          i <- gets (fun s => input (ct_con s)) ;;
          let c := slot_of i (in_r i) in
          zoom ct_con_of (inp (fun i => set_r (u32 (in_r i + 1)) i)) ;;
          if c =? ctl 68 then (* EOF *)
            (* Save ^D for next time, to make sure caller gets a 0-byte result. *)
            (if Z.of_nat n <? target then zoom ct_con_of (inp (fun i => set_r (u32 (in_r i - 1)) i)) else ret tt) ;;
            ret (Some (n, dst))
          else if c =? 10 then ret (Some (n', dst ++ [c]))
          else cread_loop ip n' target (dst ++ [c]) envs'
      end
  end.

(* src/console.c:235-271 consoleread *)
Definition consoleread (ip : nat) (n : Z) (envs : list (const B D -> const B D)) : S (Z * list Z) :=
  zoom ct_fs_of (iunlock ip) ;;
  let target := n in
  lock_acquire ct_lock_of ;;
  r <- cread_loop ip (Z.to_nat n) target [] envs ;;
  match r with
  | None => ret (-1, [])
  | Some (k, dst) =>
      lock_release ct_lock_of ;;
      zoom ct_fs_of (ilock ip) ;;
      ret (target - (if 0 <? n then Z.of_nat k else n), dst)
  end.

(* src/console.c:273-286 consolewrite *)
Definition consolewrite (ip : nat) (buf : list Z) (n : Z) : S Z :=
  zoom ct_fs_of (iunlock ip) ;;
  lock_acquire ct_lock_of ;;
  for_each (take (Z.to_nat n) buf) (fun b => zoom ct_con_of (consputc (Z.land b 255))) ;;
  lock_release ct_lock_of ;;
  zoom ct_fs_of (ilock ip) ;;
  ret n.

(** The entries of the device switch are set where the switch is used. *)

(* src/console.c:288-298 consoleinit *)
Definition consoleinit : C_ D unit :=
  modify (set_cn_lock Unlocked) ;;
  modify (set_cn_locking 1) ;;
  zoom dev_of (ioapicenable 1 0).

(* src/uart.c:73-77 uartintr *)
Definition uartintr (fuel : nat) : S unit :=
  consoleintr fuel (u <- gets uart ;; zoom dev_of (uartgetc u)).
End input.
