(* ===== verification/Kbd.v ===== *)
(** The keyboard (src/kbd.c, src/kbd.h): scan codes to characters.

    [kbdgetc] reads one scan code; [shift] remembers the modifier keys.  [key]
    is the same as a function of the modifiers and the code. *)

From S2P Require Import Prelude StringC Spinlock Kalloc Ptable Ports Sleeplock Block Bio Log Layer Fs Console.

(** An array of 256 bytes: the first elements, then single ones by index. *)
Definition table (init : list Z) (sets : list (Z * Z)) : list Z :=
  foldl (fun t '(i, v) => <[Z.to_nat i := v]> t) (init ++ replicate (256 - length init) 0) sets.

(* src/kbd.h:9-9 SHIFT *)
Definition SHIFT : Z := 1.
(* src/kbd.h:10-10 CTL *)
Definition CTL : Z := 2.
(* src/kbd.h:11-11 ALT *)
Definition ALT : Z := 4.
(* src/kbd.h:13-13 CAPSLOCK *)
Definition CAPSLOCK : Z := 8.
(* src/kbd.h:14-14 NUMLOCK *)
Definition NUMLOCK : Z := 16.
(* src/kbd.h:15-15 SCROLLLOCK *)
Definition SCROLLLOCK : Z := 32.
(* src/kbd.h:17-17 E0ESC *)
Definition E0ESC : Z := 64.

(* src/kbd.h:34-42 shiftcode *)
Definition shiftcode : list Z := table [] [(29, CTL); (42, SHIFT); (54, SHIFT); (56, ALT); (157, CTL); (184, ALT)].

(* src/kbd.h:44-49 togglecode *)
Definition togglecode : list Z := table [] [(58, CAPSLOCK); (69, NUMLOCK); (70, SCROLLLOCK)].

(* src/kbd.h:51-71 normalmap *)
Definition normalmap : list Z := table
  [0; 27; 49; 50; 51; 52; 53; 54; 55; 56; 57; 48; 45; 61; 8; 9;
   113; 119; 101; 114; 116; 121; 117; 105; 111; 112; 91; 93; 10; 0; 97; 115;
   100; 102; 103; 104; 106; 107; 108; 59; 39; 96; 0; 92; 122; 120; 99; 118;
   98; 110; 109; 44; 46; 47; 0; 42; 0; 32; 0; 0; 0; 0; 0; 0;
   0; 0; 0; 0; 0; 0; 0; 55; 56; 57; 45; 52; 53; 54; 43; 49;
   50; 51; 48; 46; 0; 0; 0; 0]
  [(156, 10); (181, 47); (200, 226); (208, 227); (201, 230); (209, 231); (203, 228); (205, 229); (151, 224); (207, 225); (210, 232); (211, 233)].

(* src/kbd.h:73-93 shiftmap *)
Definition shiftmap : list Z := table
  [0; 27; 33; 64; 35; 36; 37; 94; 38; 42; 40; 41; 95; 43; 8; 9;
   81; 87; 69; 82; 84; 89; 85; 73; 79; 80; 123; 125; 10; 0; 65; 83;
   68; 70; 71; 72; 74; 75; 76; 58; 34; 126; 0; 124; 90; 88; 67; 86;
   66; 78; 77; 60; 62; 63; 0; 42; 0; 32; 0; 0; 0; 0; 0; 0;
   0; 0; 0; 0; 0; 0; 0; 55; 56; 57; 45; 52; 53; 54; 43; 49;
   50; 51; 48; 46; 0; 0; 0; 0]
  [(156, 10); (181, 47); (200, 226); (208, 227); (201, 230); (209, 231); (203, 228); (205, 229); (151, 224); (207, 225); (210, 232); (211, 233)].

(* src/kbd.h:95-111 ctlmap *)
Definition ctlmap : list Z := table
  [0; 0; 0; 0; 0; 0; 0; 0; 0; 0; 0; 0; 0; 0; 0; 0;
   17; 23; 5; 18; 20; 25; 21; 9; 15; 16; 0; 0; 13; 0; 1; 19;
   4; 6; 7; 8; 10; 11; 12; 0; 0; 0; 0; 28; 26; 24; 3; 22;
   2; 14; 13; 0; 0; 239; 0; 0]
  [(156, 13); (181, 239); (200, 226); (208, 227); (201, 230); (209, 231); (203, 228); (205, 229); (151, 224); (207, 225); (210, 232); (211, 233)].

(* src/kbd.c:10-12 charcode *)
Definition charcode : list (list Z) := [normalmap; shiftmap; ctlmap; ctlmap].

Definition at_ (t : list Z) (i : Z) : Z := nth (Z.to_nat i) t 0.

Section kbd.
Context {D : Type} `{Ports D}.

(* src/kbd.c:6-44 kbdgetc *)
Definition kbdgetc : M (con D) Z :=
  st <- zoom dev_of (port_in 100) ;;
  if Z.land st 1 =? 0 then ret (-1)
  else
    data <- zoom dev_of (port_in 96) ;;
    sh <- gets shift ;;
    if data =? 224 then modify (set_shift (Z.lor sh E0ESC)) ;; ret 0
    else if negb (Z.land data 128 =? 0) then
      (* Key released *)
      let data := if negb (Z.land sh E0ESC =? 0) then data else Z.land data 127 in
      modify (set_shift (Z.ldiff sh (Z.lor (at_ shiftcode data) E0ESC))) ;; ret 0
    else
      (* Last character was an E0 escape; or with 0x80 *)
      let '(data, sh) := if negb (Z.land sh E0ESC =? 0) then (Z.lor data 128, Z.ldiff sh E0ESC) else (data, sh) in
      let sh := Z.lor sh (at_ shiftcode data) in
      let sh := Z.lxor sh (at_ togglecode data) in
      modify (set_shift sh) ;;
      let c := at_ (nth (Z.to_nat (Z.land sh (Z.lor CTL SHIFT))) charcode []) data in
      ret (if negb (Z.land sh CAPSLOCK =? 0) then
             if (97 <=? c) && (c <=? 122) then c + (65 - 97)
             else if (65 <=? c) && (c <=? 90) then c + (97 - 65)
             else c
           else c).

Context {B : Type} {OB : BlockOps B}.
Variable input_addr : Z.

(* src/kbd.c:46-50 kbdintr *)
Definition kbdintr (fuel : nat) : M (const B D) unit := consoleintr input_addr fuel kbdgetc.
End kbd.
