(* ===== verification/ConsoleScreen.v ===== *)
(** Output on the console: [consputc] drives a terminal of 24 rows of 80 cells,
    and [cprintf] puts exactly the characters that its format describes. *)

From S2P Require Import Prelude StringC Spinlock Kalloc Ptable Ports Console.

(** ** The terminal *)

Record term := Term { t_pos : Z; t_cell : Z -> Z }.

(** Two terminals that look the same: the cells outside the screen do not
    matter. *)
Definition term_eq (t t' : term) : Prop :=
  t_pos t = t_pos t' /\ forall i, 0 <= i < 1920 -> t_cell t i = t_cell t' i.

#[export] Instance term_eq_equivalence : Equivalence term_eq.
Proof.
  split.
  - by intros t.
  - intros t t' [H1 H2]. split; [done|]. intros i Hi. by rewrite H2.
  - intros t t' t'' [H1 H2] [H3 H4]. split; [congruence|]. intros i Hi. by rewrite H2, H4.
Qed.

(** A blank cell, black on white, and a cell with a character. *)
Definition blank : Z := 1824.
Definition char_cell (c : Z) : Z := 1792 + u8 c.

(** One character.  The last row stays free: when the cursor gets there the
    rows move up. *)
Definition term_put (t : term) (c : Z) : term :=
  let '(pos, cells) :=
    if c =? 10 then (80 * (t_pos t / 80 + 1), t_cell t)
    else if c =? BACKSPACE then (Z.max 0 (t_pos t - 1), t_cell t)
    else (t_pos t + 1, upd (t_cell t) (t_pos t) (char_cell c)) in
  if pos <? 1920 then Term pos (upd cells pos blank)
  else Term (pos - 80) (upd (fun i => if i <? 1840 then cells (i + 80) else 0) (pos - 80) blank).

#[export] Instance term_put_proper : Proper (term_eq ==> eq ==> term_eq) term_put.
Proof.
  intros t t' [Hp Hc] c ? <-. unfold term_put. rewrite Hp. destruct (c =? 10); [|destruct (c =? BACKSPACE)]; cbv zeta beta iota;
    (case_match; (split; [done|]); intros i Hi; unfold upd; simpl;
    repeat (case_match; try done); apply Hc; lia).
Qed.

(** The cursor of a terminal in use. *)
Definition term_ok (t : term) : Prop := 0 <= t_pos t < 1920.

Lemma term_put_ok t c : term_ok t -> term_ok (term_put t c).
Proof.
  unfold term_ok, term_put. intros Hp.
  destruct (c =? 10); [|destruct (c =? BACKSPACE)]; (case_match; simpl; zsolve).
Qed.

(** ** Ports *)

Section out.
Context {D : Type} `{PcDev D}.

(** The registers of the devices, and the screen. *)
Definition cregs (s : con D) : devregs := regs (dev s).
Definition cursor (r : devregs) : Z := 256 * crt_reg r 14 + crt_reg r 15.
Definition cell (m : memory) (i : Z) : Z := m (CRT + 2 * i) + 256 * m (CRT + 2 * i + 1).
Definition screen (s : con D) : term := Term (cursor (cregs s)) (cell (crt s)).

Lemma con_out p v s r' : regs (outb p (u8 v) (dev s)) = r' ->
  exists d, zoom dev_of (port_out p v) s = Ok tt (set_dev d s) /\ regs d = r'.
Proof. by eexists. Qed.

Lemma con_in p s v r' : reads_reg regs (inb p (dev s)) v r' ->
  exists d, zoom dev_of (port_in p) s = Ok v (set_dev d s) /\ regs d = r'.
Proof. intros [Hv Hr]. unfold zoom, port_in. simpl. destruct (inb p (dev s)) as [v' d]. simpl in *. subst. by exists d. Qed.

(** Selecting register [r] of the display controller, then reading it. *)
Lemma crt_get r s : is_byte r -> exists d,
  (zoom dev_of (port_out CRTPORT r) ;; zoom dev_of (port_in (CRTPORT + 1))) s = Ok (crt_reg (cregs s) r) (set_dev d s) /\
  regs d = set_crt_sel r (cregs s).
Proof.
  intros Hr. destruct (con_out CRTPORT r s (set_crt_sel r (cregs s))) as (d1 & E1 & R1).
  { rewrite u8_id by done. apply crt_select. }
  destruct (con_in (CRTPORT + 1) (set_dev d1 s) (crt_reg (cregs s) r) (regs d1)) as (d2 & E2 & R2).
  { pose proof (crt_read d1) as E. by rewrite R1 in E at 1 2. }
  exists d2. rewrite (bind_ok _ _ _ _ _ E1), R2, R1. done.
Qed.

(** ... then writing it. *)
Lemma crt_set r v s : is_byte r -> exists d,
  (zoom dev_of (port_out CRTPORT r) ;; zoom dev_of (port_out (CRTPORT + 1) v)) s = Ok tt (set_dev d s) /\
  regs d = set_crt_sel r (set_crt_reg (upd (crt_reg (cregs s)) r (u8 v)) (cregs s)).
Proof.
  intros Hr. destruct (con_out CRTPORT r s (set_crt_sel r (cregs s))) as (d1 & E1 & R1).
  { rewrite u8_id by done. apply crt_select. }
  edestruct (con_out (CRTPORT + 1) v (set_dev d1 s)) as (d2 & E2 & R2).
  { apply crt_write, u8_is_byte. }
  simpl in R2. rewrite R1 in R2. exists d2. rewrite (bind_ok _ _ _ _ _ E1). done.
Qed.

(** ** The memory of the display *)

Definition crt_store (m : memory) (pos v : Z) : memory :=
  upd (upd m (CRT + 2 * pos) (v mod 256)) (CRT + 2 * pos + 1) (v / 256 mod 256).

(** Outside the cells of the screen a memory has not changed. *)
Definition off_screen (m m' : memory) : Prop := forall a, a < CRT \/ CRT + 2 * 1920 <= a -> m' a = m a.

Lemma cell_store m pos v i : 0 <= v < 65536 -> cell (crt_store m pos v) i = upd (cell m) pos v i.
Proof.
  intros Hv. unfold cell, crt_store, upd. destruct (Z.eqb_spec i pos) as [->|n].
  - rewrite Z.eqb_refl. repeat case_match; zsolve.
  - repeat case_match; lia || done.
Qed.

Lemma store_off_screen m pos v : 0 <= pos < 1920 -> off_screen m (crt_store m pos v).
Proof. intros Hp a Ha. unfold crt_store. by rewrite !upd_ne by lia. Qed.

Definition crt_scroll (m : memory) (pos : Z) : memory :=
  memset (memmove m CRT (CRT + 160) (Z.to_nat (2 * 23 * 80))) (CRT + 2 * pos) 0 (Z.to_nat (2 * (24 * 80 - pos))).

Lemma cell_scroll m i : 0 <= i < 1920 -> cell (crt_scroll m 1840) i = if i <? 1840 then cell m (i + 80) else 0.
Proof.
  intros Hi. unfold cell, crt_scroll. rewrite !memset_spec, !memmove_at, !Z2Nat.id by lia. unfold u8.
  repeat case_match; try lia; rewrite ?Z.mod_0_l by lia; try done. f_equal; [|f_equal]; f_equal; lia.
Qed.

Lemma scroll_off_screen m : off_screen m (crt_scroll m 1840).
Proof.
  intros a Ha. unfold crt_scroll. rewrite memset_spec, memmove_at, !Z2Nat.id by lia. repeat case_match; lia || done.
Qed.

#[export] Instance off_screen_preorder : PreOrder off_screen.
Proof. split; [by intros m a|]. intros m m' m'' H1 H2 a Ha. by rewrite H2, H1. Qed.

(** ** [cgaputc] *)

Lemma char_cell_lor c : Z.lor (Z.land c 255) 1792 = char_cell c.
Proof.
  rewrite Z.lor_comm. change 255 with (Z.ones 8). rewrite Z.land_ones by lia. apply (lor_low 8 7); [lia|].
  apply Z.mod_pos_bound. lia.
Qed.

(** The character's own part of [cgaputc], and the scrolling. *)
Definition char_step (c pos : Z) (m : memory) : Z * memory :=
  if c =? 10 then (pos + (80 - Z.rem pos 80), m)
  else if c =? BACKSPACE then (if 0 <? pos then pos - 1 else pos, m)
  else (pos + 1, crt_store m pos (char_cell c)).

Definition scroll_step (pos : Z) (m : memory) : Z * memory :=
  if 24 <=? Z.quot pos 80 then (pos - 80, crt_scroll m (pos - 80)) else (pos, m).

(** The cells after the character's own part. *)
Definition char_cells (c pos : Z) (cells : Z -> Z) : Z -> Z :=
  if c =? 10 then cells else if c =? BACKSPACE then cells else upd cells pos (char_cell c).

Lemma char_step_term c pos m p1 m1 : 0 <= pos < 1920 -> char_step c pos m = (p1, m1) ->
  0 <= p1 <= 1920 /\ off_screen m m1 /\ (forall i, cell m1 i = char_cells c pos (cell m) i) /\
  term_put (Term pos (cell m)) c =
  if p1 <? 1920 then Term p1 (upd (char_cells c pos (cell m)) p1 blank)
  else Term (p1 - 80) (upd (fun i => if i <? 1840 then char_cells c pos (cell m) (i + 80) else 0) (p1 - 80) blank).
Proof.
  intros Hp H1. unfold char_step in H1. unfold term_put, char_cells. simpl t_pos. simpl t_cell.
  destruct (c =? 10); [|destruct (c =? BACKSPACE)]; simplify_eq/=.
  - replace (pos + (80 - Z.rem pos 80)) with (80 * (pos / 80 + 1)) by (rewrite Z.rem_mod_nonneg by lia; zsolve).
    split; [zsolve|done].
  - replace (if 0 <? pos then pos - 1 else pos) with (Z.max 0 (pos - 1)) by (case_match; lia). split; [lia|done].
  - split; [lia|]. split; [by apply store_off_screen|]. split; [|done]. intros i. apply cell_store.
    unfold char_cell. pose proof (u8_range c). lia.
Qed.

Lemma steps_term c pos m p1 m1 p2 m2 : 0 <= pos < 1920 -> char_step c pos m = (p1, m1) -> scroll_step p1 m1 = (p2, m2) ->
  0 <= p1 <= 1920 /\ 0 <= p2 < 1920 /\ off_screen m (crt_store m2 p2 blank) /\
  term_eq (Term p2 (cell (crt_store m2 p2 blank))) (term_put (Term pos (cell m)) c).
Proof.
  intros Hp H1 H2. destruct (char_step_term c pos m p1 m1 Hp H1) as (Hp1 & Ho & Hc & ->). split; [done|].
  unfold scroll_step in H2. rewrite Z.quot_div_nonneg in H2 by lia.
  destruct (Z.leb_spec 24 (p1 / 80)), (Z.ltb_spec p1 1920); simplify_eq/=; try (exfalso; zsolve).
  - assert (p1 = 1920) as -> by zsolve. split; [lia|]. split.
    { etrans; [done|]. etrans; [apply scroll_off_screen|]. apply store_off_screen. lia. }
    split; [done|]. simpl. intros i Hi. rewrite cell_store by done. unfold upd. case_match; [done|].
    rewrite cell_scroll by lia. by rewrite Hc.
  - split; [lia|]. split; [etrans; [done|]; apply store_off_screen; lia|]. split; [done|]. simpl. intros i Hi.
    rewrite cell_store by done. unfold upd. case_match; [done|]. by rewrite Hc.
Qed.

Lemma cursor_lor (s : con D) : Z.lor (Z.shiftl (crt_reg (cregs s) 14) 8) (crt_reg (cregs s) 15) = cursor (cregs s).
Proof.
  rewrite Z.shiftl_mul_pow2 by lia. rewrite lor_low by (lia || apply regs_byte). unfold cursor. lia.
Qed.

Lemma char_part c pos (s : con D) :
  (if c =? 10 then ret (pos + (80 - Z.rem pos 80))
   else if c =? BACKSPACE then ret (if 0 <? pos then pos - 1 else pos)
   else put_cell pos (Z.lor (Z.land c 255) 1792) ;; ret (pos + 1)) s =
  Ok (fst (char_step c pos (crt s))) (set_crt (snd (char_step c pos (crt s))) s).
Proof.
  unfold char_step. destruct (c =? 10); [by destruct s|]. destruct (c =? BACKSPACE); [by destruct s|].
  by rewrite char_cell_lor.
Qed.

Lemma scroll_part pos (s : con D) :
  (if 24 <=? Z.quot pos 80 then
     modify (fun s => set_crt (memmove (crt s) CRT (CRT + 160) (Z.to_nat (2 * 23 * 80))) s) ;;
     modify (fun s => set_crt (memset (crt s) (CRT + 2 * (pos - 80)) 0 (Z.to_nat (2 * (24 * 80 - (pos - 80))))) s) ;;
     ret (pos - 80)
   else ret pos) s =
  Ok (fst (scroll_step pos (crt s))) (set_crt (snd (scroll_step pos (crt s))) s).
Proof. unfold scroll_step. destruct (24 <=? Z.quot pos 80); [done|by destruct s]. Qed.

(** The two registers of the cursor. *)
Lemma set_cursor {A} pos (k : M (con D) A) s : 0 <= pos < 65536 -> exists d,
  (zoom dev_of (port_out CRTPORT 14) ;;
   zoom dev_of (port_out (CRTPORT + 1) (Z.shiftr pos 8)) ;;
   zoom dev_of (port_out CRTPORT 15) ;;
   zoom dev_of (port_out (CRTPORT + 1) pos) ;; k) s = k (set_dev d s) /\
  cursor (regs d) = pos /\ regs d = set_crt_sel (crt_sel (regs d)) (set_crt_reg (crt_reg (regs d)) (cregs s)).
Proof.
  intros Hp. destruct (crt_set 14 (Z.shiftr pos 8) s) as (d1 & E1 & R1); [done|].
  destruct (crt_set 15 pos (set_dev d1 s)) as (d2 & E2 & R2); [done|].
  unfold cregs in R2. simpl dev in R2. rewrite R1 in R2. exists d2.
  rewrite <- bind_assoc, (bind_ok _ _ _ _ _ E1), <- bind_assoc, (bind_ok _ _ _ _ _ E2).
  rewrite R2. split; [done|]. split; [|done]. unfold cursor. simpl. mem_cases. rewrite Z.shiftr_div_pow2 by lia. zsolve.
Qed.

Lemma cgaputc_ok c s : term_ok (screen s) -> exists d m,
  cgaputc c s = Ok tt (set_crt m (set_dev d s)) /\ off_screen (crt s) m /\
  term_eq (Term (cursor (regs d)) (cell m)) (term_put (screen s) c) /\
  regs d = set_crt_sel (crt_sel (regs d)) (set_crt_reg (crt_reg (regs d)) (cregs s)).
Proof.
  intros Hok. destruct (crt_get 14 s) as (d1 & E1 & R1); [done|].
  destruct (crt_get 15 (set_dev d1 s)) as (d2 & E2 & R2); [done|].
  unfold cregs in R2, E2. simpl dev in R2, E2. rewrite R1 in R2, E2. simpl crt_reg in E2.
  unfold cgaputc. cbv zeta. rewrite <- bind_assoc, (bind_ok _ _ _ _ _ E1), <- bind_assoc, (bind_ok _ _ _ _ _ E2).
  rewrite !cursor_lor.
  rewrite (bind_ok _ _ _ _ _ (char_part _ _ _)). change (crt (set_dev d2 (set_dev d1 s))) with (crt s).
  destruct (char_step c (cursor (cregs s)) (crt s)) as [p1 m1] eqn:H1.
  destruct (scroll_step p1 m1) as [p2 m2] eqn:H2.
  destruct (steps_term c _ _ _ _ _ _ Hok H1 H2) as (Hp1 & Hp2 & Ho & Ht). cbn [fst snd].
  replace ((p1 <? 0) || (25 * 80 <? p1)) with false by (repeat case_match; lia || done). cbv iota.
  rewrite (bind_ok _ _ _ _ _ (scroll_part _ _)).
  change (crt (set_crt m1 (set_dev d2 (set_dev d1 s)))) with m1. rewrite H2. cbn [fst snd].
  destruct (set_cursor p2 (put_cell p2 (Z.lor 32 1792)) (set_crt m2 (set_crt m1 (set_dev d2 (set_dev d1 s))))) as (d & E & Hc & Hr); [lia|].
  exists d, (crt_store m2 p2 blank). rewrite E. split; [done|]. split; [done|]. split; [by rewrite Hc|].
  rewrite Hr. unfold cregs at 1. simpl. by rewrite R2.
Qed.

(** What output does to the console: the state of the display and of the serial
    line, and nothing else. *)
Record shows (cs : list Z) (s s' : con D) : Prop := {
  sh_same : s' = set_crt (crt s') (set_dev (dev s') s);
  sh_screen : term_eq (screen s') (foldl term_put (screen s) cs);
  sh_off : off_screen (crt s) (crt s');
  sh_in : received (cregs s') = received (cregs s) /\ scancodes (cregs s') = scancodes (cregs s);
  sh_sent : sent (cregs s') = sent (cregs s) ++
    (if uart s =? 0 then [] else cs ≫= (fun c => if c =? BACKSPACE then [8; 32; 8] else [u8 c]));
}.

Lemma shows_nil s : shows [] s s.
Proof. split; [by destruct s|done|done|done|]. by destruct (uart s =? 0); rewrite app_nil_r. Qed.

Lemma foldl_term_proper cs t t' : term_eq t t' -> term_eq (foldl term_put t cs) (foldl term_put t' cs).
Proof. revert t t'. induction cs as [|c cs IH]; intros t t' E; [done|]. simpl. apply IH. by rewrite E. Qed.

Lemma shows_app cs cs' s s' s'' : shows cs s s' -> shows cs' s' s'' -> shows (cs ++ cs') s s''.
Proof.
  intros [E1 S1 O1 [R1 K1] N1] [E2 S2 O2 [R2 K2] N2]. split.
  - rewrite E2 at 1. rewrite E1 at 1. done.
  - rewrite S2, foldl_app. by apply foldl_term_proper.
  - by etrans.
  - split; congruence.
  - rewrite N2, N1, E1. simpl. rewrite bind_app, <- app_assoc. by destruct (uart s =? 0).
Qed.

Lemma shows_ok cs s s' : shows cs s s' -> term_ok (screen s) -> term_ok (screen s').
Proof.
  intros [_ [H1 _] _ _ _] Hok. unfold term_ok. rewrite H1. clear H1. revert Hok. generalize (screen s).
  induction cs as [|c cs IH]; intros t Ht; [done|]. simpl. by apply IH, term_put_ok.
Qed.

(** The serial line: the character is sent when there is one. *)
Lemma uart_wait_ok n d : exists d', uart_wait n d = Ok tt d' /\ regs d' = regs d.
Proof.
  revert d. induction n as [|n IH]; intros d; [by exists d|]. cbn [uart_wait].
  destruct (serial_status d) as (v & [H1 H2] & _). unfold bind, port_in. destruct (inb (COM1 + 5) d) as [v' d1]. simpl in *.
  destruct (Z.land v' 32 =? 0); [|by exists d1]. destruct (IH d1) as (d2 & -> & R). exists d2. by rewrite R.
Qed.

Lemma con_uartputc_ok c s : exists d, con_uartputc c s = Ok tt (set_dev d s) /\
  regs d = set_sent (sent (cregs s) ++ if uart s =? 0 then [] else [u8 c]) (cregs s).
Proof.
  unfold con_uartputc. unfold bind at 1, gets, uartputc. destruct (uart s =? 0).
  - exists (dev s). rewrite app_nil_r. split; [by destruct s|]. by unfold cregs; destruct (regs (dev s)).
  - destruct (uart_wait_ok 128 (dev s)) as (d & E & R). exists (outb COM1 (u8 c) d). split.
    + apply (zoom_ok dev_of). by rewrite (bind_ok _ _ _ _ _ E).
    + by rewrite serial_send, R.
Qed.

Lemma consputc_ok c s : panicked s = 0 -> term_ok (screen s) -> exists s', consputc c s = Ok tt s' /\ shows [c] s s'.
Proof.
  intros Hp Hok. unfold consputc. unfold bind at 1, gets. rewrite Hp. change (truth 0) with false. cbv iota.
  assert (Hu : exists d, (if c =? BACKSPACE then con_uartputc 8 ;; con_uartputc 32 ;; con_uartputc 8 else con_uartputc c) s =
    Ok tt (set_dev d s) /\ regs d = set_sent (sent (cregs s) ++ if uart s =? 0 then [] else
      [c] ≫= (fun c => if c =? BACKSPACE then [8; 32; 8] else [u8 c])) (cregs s)).
  { simpl. destruct (c =? BACKSPACE); [|apply con_uartputc_ok].
    destruct (con_uartputc_ok 8 s) as (d1 & E1 & R1). rewrite (bind_ok _ _ _ _ _ E1).
    destruct (con_uartputc_ok 32 (set_dev d1 s)) as (d2 & E2 & R2). rewrite (bind_ok _ _ _ _ _ E2).
    destruct (con_uartputc_ok 8 (set_dev d2 (set_dev d1 s))) as (d3 & E3 & R3). exists d3. rewrite E3. split; [done|].
    unfold cregs in R2, R3. simpl in R2, R3. rewrite R3, R2, R1. simpl.
    destruct (uart s =? 0); simpl; [by rewrite !app_nil_r|]. by rewrite <- !app_assoc. }
  destruct Hu as (d & E & R). rewrite (bind_ok _ _ _ _ _ E).
  assert (Hs : screen (set_dev d s) = screen s) by (unfold screen, cregs; simpl; by rewrite R).
  destruct (cgaputc_ok c (set_dev d s)) as (d' & m & E' & Ho & Ht & R'); [by rewrite Hs|].
  unfold cregs in R' at 1. simpl dev in R'. rewrite R in R'.
  eexists. split; [exact E'|]. split; simpl.
  - done.
  - by rewrite <- Hs.
  - done.
  - unfold cregs. simpl. by rewrite R'.
  - unfold cregs at 1. simpl. by rewrite R'.
Qed.

Lemma puts_ok cs s : panicked s = 0 -> term_ok (screen s) -> exists s', for_each cs consputc s = Ok tt s' /\ shows cs s s'.
Proof.
  revert s. induction cs as [|c cs IH]; intros s Hp Hok; [exists s; split; [done|apply shows_nil]|].
  destruct (consputc_ok c s Hp Hok) as (s1 & E1 & S1). cbn [for_each]. rewrite (bind_ok _ _ _ _ _ E1).
  destruct (IH s1) as (s2 & E2 & S2); [by rewrite (sh_same _ _ _ S1)|by eapply shows_ok|].
  exists s2. split; [done|]. apply (shows_app [c] cs _ _ _ S1 S2).
Qed.
End out.

(** ** Formatted output *)

(** A format is a sequence of characters and conversions; a percent sign at the
    end stands for nothing. *)
Inductive piece := Lit (c : Z) | Conv (c : Z).

Fixpoint pieces (fmt : list Z) : list piece :=
  match fmt with
  | [] => []
  | c :: fmt => if negb (c =? 37) then Lit c :: pieces fmt else match fmt with [] => [] | c :: fmt => Conv c :: pieces fmt end
  end.

(** The characters of one conversion, and the arguments that are left. *)
Definition convert (digits : list Z) (c : Z) (args : list carg) : option (list Z * list carg) :=
  if c =? 100 then match args with Word z :: args => Some (int_chars digits z 10 true, args) | _ => None end
  else if (c =? 120) || (c =? 112) then match args with Word z :: args => Some (int_chars digits z 16 false, args) | _ => None end
  else if c =? 115 then
    match args with
    | Ptr s :: args => Some (s, args)
    | Word z :: args => if z =? 0 then Some (str "(null)", args) else None
    | [] => None
    end
  else if c =? 37 then Some ([37], args)
  else Some ([37; c], args).

Fixpoint render (conv : Z -> list carg -> option (list Z * list carg)) (ps : list piece) (args : list carg) : option (list Z) :=
  match ps with
  | [] => Some []
  | Lit c :: ps => cons c <$> render conv ps args
  | Conv c :: ps => '(l, args) ← conv c args; app l <$> render conv ps args
  end.

Definition ktext (fmt : list Z) (args : list carg) : option (list Z) := render (convert digits) (pieces fmt) args.

#[local] Opaque str.
Section fmt.
Context {D : Type} `{PcDev D}.

(** Output in two parts. *)
Lemma shows_bind cs cs' (m : M (con D) unit) (k : M (con D) unit) s :
  (exists s', m s = Ok tt s' /\ shows cs s s') -> panicked s = 0 -> term_ok (screen s) ->
  (forall s', panicked s' = 0 -> term_ok (screen s') -> exists s'', k s' = Ok tt s'' /\ shows cs' s' s'') ->
  exists s'', (m ;; k) s = Ok tt s'' /\ shows (cs ++ cs') s s''.
Proof.
  intros (s1 & E1 & S1) Hp Hok Hk. rewrite (bind_ok _ _ _ _ _ E1).
  destruct (Hk s1) as (s2 & E2 & S2); [by rewrite (sh_same _ _ _ S1)|by eapply shows_ok|].
  exists s2. split; [done|]. by eapply shows_app.
Qed.

Lemma cprintf_loop_ok n : forall fmt args txt s, (length fmt <= n)%nat -> ktext fmt args = Some txt ->
  panicked s = 0 -> term_ok (screen s) -> exists s', cprintf_loop fmt args s = Ok tt s' /\ shows txt s s'.
Proof.
  induction n as [|n IH]; intros fmt args txt s Hn Ht Hp Hok;
    (destruct fmt as [|c fmt]; [injection Ht as <-; exists s; split; [done|apply shows_nil]|]; simpl in Hn); [lia|].
  unfold ktext in Ht. cbn [pieces cprintf_loop] in *. destruct (negb (c =? 37)).
  - simpl in Ht. apply fmap_Some in Ht as (l & Hl & ->). apply (shows_bind [c] l); try done; [by apply consputc_ok|].
    intros s' Hp' Hok'. eapply IH; [lia|done..].
  - destruct fmt as [|d fmt]; [injection Ht as <-; exists s; split; [done|apply shows_nil]|]. simpl in Hn.
    cbn [render] in Ht. apply bind_Some in Ht as ([l args'] & Hc & Ht). apply fmap_Some in Ht as (l' & Hl & ->).
    assert (Hk : forall s', panicked s' = 0 -> term_ok (screen s') ->
      exists s'', cprintf_loop fmt args' s' = Ok tt s'' /\ shows l' s' s'') by (intros; eapply IH; [lia|done..]).
    unfold convert in Hc. destruct (d =? 100); [|destruct ((d =? 120) || (d =? 112)); [|destruct (d =? 115); [|destruct (d =? 37)]]].
    + destruct args as [|[z|?] args]; simplify_eq/=. apply shows_bind; try done. by apply puts_ok.
    + destruct args as [|[z|?] args]; simplify_eq/=. apply shows_bind; try done. by apply puts_ok.
    + destruct args as [|[z|?] args]; simplify_eq/=; [destruct (z =? 0); simplify_eq/=|];
        (apply shows_bind; try done; by apply puts_ok).
    + simplify_eq/=. apply (shows_bind [37] l'); try done. by apply consputc_ok.
    + simplify_eq/=. apply (shows_bind [37] (d :: l')); try done; [by apply consputc_ok|].
      intros s' Hp' Hok'. apply (shows_bind [d] l'); try done. by apply consputc_ok.
Qed.

Lemma cprintf_ok fmt args txt (s : con D) : ktext fmt args = Some txt -> panicked s = 0 -> term_ok (screen s) ->
  (cn_locking s <> 0 -> cn_lock s = Unlocked) -> exists s', cprintf fmt args s = Ok tt s' /\ shows txt s s'.
Proof.
  intros Ht Hp Hok Hl. unfold cprintf. unfold bind at 1, gets. unfold truth. destruct (Z.eqb_spec (cn_locking s) 0) as [E|n]; cbn [negb]; cbv iota.
  - rewrite bind_ret. destruct (cprintf_loop_ok _ fmt args txt s (Nat.le_refl _) Ht Hp Hok) as (s1 & E1 & S1).
    rewrite (bind_ok _ _ _ _ _ E1). by exists s1.
  - rewrite bind_acquire by (simpl; auto).
    destruct (cprintf_loop_ok _ fmt args txt (over cn_lock_of HeldHere s) (Nat.le_refl _) Ht Hp Hok) as (s1 & E1 & S1).
    rewrite (bind_ok _ _ _ _ _ E1). pose proof (sh_same _ _ _ S1) as Es. unfold lock_release. unfold bind at 1, gets.
    rewrite Es. simpl. eexists. split; [reflexivity|]. destruct S1 as [_ S2 S3 S4 S5]. split; try done.
    simpl. by rewrite <- (Hl n); destruct s.
Qed.
End fmt.

(** ** Numbers *)

(** The value of a digit in an alphabet, and of digits with the highest first. *)
Definition digit_value (alphabet : list Z) (c : Z) : Z :=
  match list_find (eq c) alphabet with Some (i, _) => Z.of_nat i | None => 0 end.
Definition number (alphabet : list Z) (base : Z) (l : list Z) : Z :=
  foldl (fun n c => base * n + digit_value alphabet c) 0 l.

(** A sign and a number. *)
Definition signed_number (alphabet : list Z) (base : Z) (l : list Z) : Z :=
  match l with 45 :: l => - number alphabet base l | _ => number alphabet base l end.

Section digits.
Context (alphabet : list Z) (base : Z).
Hypothesis (Hnd : NoDup alphabet) (Hb : 2 <= base <= Z.of_nat (length alphabet)).

Lemma digit_value_nth i : 0 <= i < Z.of_nat (length alphabet) -> digit_value alphabet (nth (Z.to_nat i) alphabet 0) = i.
Proof using Hnd.
  clear Hb. intros Hi. unfold digit_value.
  destruct (lookup_lt_is_Some_2 alphabet (Z.to_nat i)) as [c Hc]; [lia|]. rewrite (nth_lookup_Some _ _ _ _ Hc).
  assert (E : list_find (eq c) alphabet = Some (Z.to_nat i, c)) by (apply list_find_Some; split; [done|]; split; [done|];
    intros j y Hj Hlt <-; pose proof (NoDup_lookup _ _ _ _ Hnd Hc Hj); lia).
  rewrite E. lia.
Qed.

(** The digits of a number below [base ^ k], for [k] at least one: at most [k]
    digits, all of the alphabet, with the value of the number. *)
Lemma digit_loop_value fuel x : 0 <= x < 2 ^ Z.of_nat fuel -> (0 < fuel)%nat ->
  number alphabet base (rev (digit_loop alphabet fuel x base)) = x /\
  Forall (fun c => c ∈ alphabet) (digit_loop alphabet fuel x base).
Proof using Hnd Hb.
  revert x. induction fuel as [|fuel IH]; intros x Hx Hf; [lia|]. cbn [digit_loop]. cbv zeta.
  assert (Hd : 0 <= x mod base < base) by (apply Z.mod_pos_bound; lia).
  assert (Hin : nth (Z.to_nat (x mod base)) alphabet 0 ∈ alphabet).
  { apply list_elem_of_In, nth_In. lia. }
  rewrite Nat2Z.inj_succ, Z.pow_succ_r in Hx by lia.
  pose proof (Z.div_mod x base ltac:(lia)) as Hdm.
  destruct (Z.eqb_spec (x / base) 0) as [E|n].
  - split; [|by constructor]. unfold number. simpl. rewrite digit_value_nth by lia. lia.
  - assert (Hq : 0 <= x / base < 2 ^ Z.of_nat fuel).
    { split; [apply Z.div_pos; lia|]. apply Z.div_lt_upper_bound; [lia|]. nia. }
    destruct (IH (x / base) Hq) as [Hv Hall]; [destruct fuel; [simpl in Hq; lia|lia]|].
    split; [|by constructor]. simpl rev. unfold number in *. rewrite foldl_app, Hv. simpl.
    rewrite digit_value_nth by lia. lia.
Qed.

Lemma digit_loop_length fuel k x : 0 <= x < base ^ Z.of_nat k -> (0 < k)%nat -> (length (digit_loop alphabet fuel x base) <= k)%nat.
Proof using Hb.
  revert k x. induction fuel as [|fuel IH]; intros k x Hx Hk; [simpl; lia|]. cbn [digit_loop length]. cbv zeta.
  destruct (Z.eqb_spec (x / base) 0) as [E|n]; [simpl; lia|]. destruct k as [|k]; [lia|].
  rewrite Nat2Z.inj_succ, Z.pow_succ_r in Hx by lia.
  assert (Hq : 0 <= x / base < base ^ Z.of_nat k).
  { split; [apply Z.div_pos; lia|]. apply Z.div_lt_upper_bound; lia. }
  specialize (IH k (x / base) Hq). destruct k; [simpl in Hq; lia|]. lia.
Qed.

Lemma int_chars_value xx sign : base = 10 \/ base = 16 -> 45 ∉ alphabet ->
  signed_number alphabet base (int_chars alphabet xx base sign) = (if sign then s32 xx else u32 xx) /\
  (length (int_chars alphabet xx base sign) <= 11)%nat.
Proof using Hnd Hb.
  intros Hbase Hm. unfold int_chars. set (neg := sign && (s32 xx <? 0)). set (x := if neg then u32 (- xx) else u32 xx).
  assert (Hx : 0 <= x < 2 ^ Z.of_nat 32) by (unfold x; change (2 ^ Z.of_nat 32) with 4294967296; case_match; apply u32_range).
  destruct (digit_loop_value 32 x Hx) as [Hv Hall]; [lia|].
  assert (Hl : (length (digit_loop alphabet 32 x base) <= 10)%nat).
  { apply digit_loop_length; [|lia]. change (2 ^ Z.of_nat 32) with 4294967296 in Hx.
    destruct Hbase as [-> | ->]; change (Z.of_nat 10) with 10; [change (10 ^ 10) with 10000000000|change (16 ^ 10) with 1099511627776]; lia. }
  revert Hv Hall Hl. generalize (digit_loop alphabet 32 x base). intros ds Hv Hall Hl. split.
  - assert (Hs : signed_number alphabet base (rev (ds ++ if neg then [45] else [])) = if neg then - x else x).
    { rewrite rev_app_distr. destruct neg; [by simpl; rewrite Hv|]. simpl app. unfold signed_number.
      destruct (rev ds) as [|c l] eqn:E; [done|].
      assert (Hc : c ∈ alphabet).
      { apply (proj1 (Forall_forall _ _) Hall). apply list_elem_of_In, in_rev. rewrite E. by left. }
      rewrite <- Hv. repeat (case_match; try done). }
    rewrite Hs. unfold x, neg. destruct sign; [|done]. simpl. destruct (Z.ltb_spec (s32 xx) 0); zsolve.
  - rewrite length_rev, length_app. destruct neg; simpl; lia.
Qed.
End digits.

(* ------------------------------------------------------------------ *)
(** * Claims *)

(** [cprintf] puts exactly the characters that the format and its arguments
    describe, in order, on the screen and on the serial line: the cursor never
    leaves the screen, so [cgaputc] never panics, no byte of memory outside the
    screen changes, and nothing but the display and the serial output changes.
    The digits put for a number are its digits in the base, with its sign, and
    they fit the buffer of [printint]. *)
Theorem cprintf_spec {D} `{PcDev D} fmt args txt (s : con D) :
  ktext fmt args = Some txt -> panicked s = 0 -> term_ok (screen s) -> (cn_locking s <> 0 -> cn_lock s = Unlocked) ->
  (exists s', cprintf fmt args s = Ok tt s' /\ shows txt s s' /\ term_ok (screen s')) /\
  forall xx base sign, base = 10 \/ base = 16 ->
    signed_number digits base (int_chars digits xx base sign) = (if sign then s32 xx else u32 xx) /\
    (length (int_chars digits xx base sign) <= 16)%nat.
Proof.
  intros Ht Hp Hok Hl. split.
  - destruct (cprintf_ok fmt args txt s Ht Hp Hok Hl) as (s' & E & S). exists s'. repeat (split; [done|]). by eapply shows_ok.
  - intros xx base sign Hb. destruct (int_chars_value digits base) with (xx := xx) (sign := sign) as [H1 H2].
    + by apply (bool_decide_unpack (NoDup digits)); vm_compute.
    + simpl. lia.
    + done.
    + by apply (bool_decide_unpack (45 ∉ digits)); vm_compute.
    + split; [done|lia].
Qed.

(** A console on a machine with a serial line. *)
Lemma w_regs_ok : regs_ok (Devregs 0 (fun r => if r =? 14 then 7 else 127) [] [] []).
Proof. split; [|done..]. intros r. unfold is_byte. simpl. case_match; lia. Qed.
Definition w_pc : pc := Pc _ w_regs_ok.
Definition w_con : con pc := Con Unlocked 1 0 (Inbuf (replicate 128 0) 0 0 0) (fun _ => 0) 1 0 w_pc.

Lemma cprintf_spec_witness : exists s', cprintf (str "%d %s") [Word (-12); Ptr [97]] w_con = Ok tt s' /\
  shows [45; 49; 50; 32; 97] w_con s' /\ t_pos (screen w_con) = 1919.
Proof.
  destruct (cprintf_spec (str "%d %s") [Word (-12); Ptr [97]] [45; 49; 50; 32; 97] w_con) as [(s' & E & S & _) _].
  - vm_compute. reflexivity.
  - reflexivity.
  - vm_compute. split; congruence.
  - reflexivity.
  - exists s'. split; [exact E|]. split; [exact S|reflexivity].
Defined.
