(* ===== verification/ConsoleInput.v ===== *)
(** Input on the console: the interrupt handler implements a line editor, and
    [consoleread] takes lines from it.

    The abstract state is a pair of lists, the characters that readers can take
    and the line that is being typed; [feed] is one character typed. *)

From S2P Require Import Prelude StringC Spinlock Kalloc Ptable Ports Sleeplock Block Bio Log Layer Fs Console Kbd ConsoleScreen.

(** The formats of [procdump]. *)
Lemma dump_text pid st nm :
  ktext (str "%d %s %s") [Word pid; Ptr st; Ptr nm] = Some (int_chars digits pid 10 true ++ [32] ++ st ++ [32] ++ nm).
Proof. unfold ktext. simpl. by rewrite app_nil_r. Qed.
Lemma dump_pc_text pc : ktext (str " %p") [Word pc] = Some (32 :: int_chars digits pc 16 false).
Proof. unfold ktext. simpl. by rewrite app_nil_r. Qed.

#[local] Opaque str.

(** ** The ring *)

Definition ring (buf : list Z) (a n : Z) : list Z := (fun k => nth (Z.to_nat (u32 (a + k) mod INPUT_BUF)) buf 0) <$> seqZ 0 n.

Lemma ring_nil buf a : ring buf a 0 = [].
Proof. done. Qed.

Lemma ring_length buf a n : 0 <= n -> Z.of_nat (length (ring buf a n)) = n.
Proof. intros H. unfold ring. rewrite length_fmap, length_seqZ. lia. Qed.

Lemma ring_app buf a n m : 0 <= n -> 0 <= m -> ring buf a (n + m) = ring buf a n ++ ring buf (u32 (a + n)) m.
Proof.
  intros Hn Hm. unfold ring. rewrite seqZ_app, fmap_app by done. f_equal.
  replace (0 + n) with (n + 0) by lia. rewrite <- fmap_add_seqZ, <- list_fmap_compose.
  apply list_fmap_ext. intros i k Hk. simpl. do 3 f_equal. zsolve.
Qed.

Lemma ring_one buf a : ring buf a 1 = [nth (Z.to_nat (u32 a mod INPUT_BUF)) buf 0].
Proof. unfold ring. simpl. by rewrite Z.add_0_r. Qed.

(** A store in a slot that is not one of the [n] slots from [a]. *)
Lemma ring_insert buf a n j v : 0 <= n -> 0 <= u32 (j - a) -> n <= u32 (j - a) < INPUT_BUF ->
  ring (<[Z.to_nat (u32 j mod INPUT_BUF) := v]> buf) a n = ring buf a n.
Proof.
  intros Hn _ Hj. unfold ring. apply list_fmap_ext. intros i k Hk. apply lookup_seqZ in Hk as [-> Hi].
  rewrite !nth_lookup, list_lookup_insert_ne; [done|]. unfold INPUT_BUF in *. intros E. apply Z2Nat.inj in E; zsolve.
Qed.

Definition committed (i : inbuf) : list Z := ring (in_buf i) (in_r i) (u32 (in_w i - in_r i)).
Definition editing (i : inbuf) : list Z := ring (in_buf i) (in_w i) (u32 (in_e i - in_w i)).

Definition u32_in (z : Z) : Prop := 0 <= z < 4294967296.

(** The indices are in order, at most a buffer apart; the line that is being
    typed has no newline. *)
Record input_ok (i : inbuf) : Prop := {
  io_len : length (in_buf i) = 128%nat;
  io_r : u32_in (in_r i);
  io_w : u32_in (in_w i);
  io_e : u32_in (in_e i);
  io_fit : u32 (in_w i - in_r i) + u32 (in_e i - in_w i) <= INPUT_BUF;
  io_line : 10 ∉ editing i;
}.

(** What is free in the buffer. *)
Lemma input_room i : input_ok i ->
  u32 (in_e i - in_r i) = Z.of_nat (length (committed i) + length (editing i)).
Proof.
  intros [_ Hr Hw He Hf _]. rewrite Nat2Z.inj_add. unfold committed, editing. rewrite !ring_length by apply u32_range.
  unfold u32_in, INPUT_BUF in *. zsolve.
Qed.

Lemma editing_nil i : input_ok i -> (in_e i =? in_w i) = bool_decide (editing i = []).
Proof.
  intros [_ Hr Hw He Hf _]. pose proof (ring_length (in_buf i) (in_w i) (u32 (in_e i - in_w i)) (proj1 (u32_range _))) as Hl.
  fold (editing i) in Hl. unfold u32_in in *. destruct (Z.eqb_spec (in_e i) (in_w i)) as [E|n]; case_bool_decide as Hd; try done.
  - exfalso. apply Hd, length_zero_iff_nil. zsolve.
  - rewrite Hd in Hl. simpl in Hl. exfalso. zsolve.
Qed.

Lemma committed_nil i : input_ok i -> (in_r i =? in_w i) = bool_decide (committed i = []).
Proof.
  intros [_ Hr Hw He Hf _]. pose proof (ring_length (in_buf i) (in_r i) (u32 (in_w i - in_r i)) (proj1 (u32_range _))) as Hl.
  fold (committed i) in Hl. unfold u32_in in *. destruct (Z.eqb_spec (in_r i) (in_w i)) as [E|n]; case_bool_decide as Hd; try done.
  - exfalso. apply Hd, length_zero_iff_nil. zsolve.
  - rewrite Hd in Hl. simpl in Hl. exfalso. zsolve.
Qed.

(** ** The buffer under each operation *)

Definition pushed_char (c : Z) (i : inbuf) : inbuf :=
  Inbuf (<[Z.to_nat (in_e i mod INPUT_BUF) := u8 c]> (in_buf i)) (in_r i) (in_w i) (u32 (in_e i + 1)).

(** A character at the end of the line, before it is known whether it ends the
    line. *)
Lemma push_lists c i : input_ok i -> (length (committed i) + length (editing i) < 128)%nat -> is_byte c ->
  committed (pushed_char c i) = committed i /\ editing (pushed_char c i) = editing i ++ [c] /\
  u32 (in_e (pushed_char c i) - in_w i) = u32 (in_e i - in_w i) + 1.
Proof.
  intros Hok Hroom Hc. pose proof (input_room i Hok) as Hsum. destruct Hok as [Hl Hr Hw He Hf _].
  unfold committed, editing, u32_in, INPUT_BUF in *. simpl.
  assert (E : in_e i mod INPUT_BUF = u32 (in_e i) mod INPUT_BUF) by (by rewrite u32_id).
  assert (E1 : u32 (u32 (in_e i + 1) - in_w i) = u32 (in_e i - in_w i) + 1) by zsolve.
  split; [|split; [|done]].
  - rewrite E. apply ring_insert; unfold INPUT_BUF; zsolve.
  - rewrite E1, ring_app by zsolve. f_equal; [rewrite E; apply ring_insert; unfold INPUT_BUF; zsolve|].
    rewrite ring_one, nth_lookup. replace (u32 (u32 (in_w i + u32 (in_e i - in_w i)))) with (u32 (in_e i)) by zsolve.
    rewrite E, list_lookup_insert_eq; [by rewrite u8_id|]. rewrite Hl. unfold INPUT_BUF. zsolve.
Qed.

Lemma push_ok c i : input_ok i -> (length (committed i) + length (editing i) < 128)%nat -> is_byte c -> c <> 10 ->
  input_ok (pushed_char c i).
Proof.
  intros Hok Hroom Hc Hn. pose proof (input_room i Hok) as Hsum.
  destruct (push_lists c i Hok Hroom Hc) as (E1 & E2 & E3). destruct Hok as [Hl Hr Hw He Hf Hline].
  split; simpl; [by rewrite length_insert|done|done|apply u32_range| |].
  - simpl in E3. rewrite E3. unfold u32_in, INPUT_BUF in *. zsolve.
  - rewrite E2. set_solver.
Qed.

(** The line, with the character, handed to the readers. *)
Lemma push_commit_ok c i : input_ok i -> (length (committed i) + length (editing i) < 128)%nat -> is_byte c ->
  let i' := set_w (in_e (pushed_char c i)) (pushed_char c i) in
  input_ok i' /\ committed i' = committed i ++ editing i ++ [c] /\ editing i' = [].
Proof.
  intros Hok Hroom Hc i'. pose proof (input_room i Hok) as Hsum.
  destruct (push_lists c i Hok Hroom Hc) as (E1 & E2 & E3). destruct Hok as [Hl Hr Hw He Hf Hline].
  assert (Hed : editing i' = []).
  { unfold editing, i'. simpl. rewrite Z.sub_diag. apply ring_nil. }
  assert (Hlen : u32 (in_w i' - in_r i') = u32 (in_w i - in_r i) + u32 (in_e (pushed_char c i) - in_w i)).
  { unfold i'. simpl in *. unfold u32_in, INPUT_BUF in *. zsolve. }
  assert (Hcm : committed i' = committed i ++ editing i ++ [c]).
  { rewrite <- E1, <- E2. unfold committed, editing. rewrite Hlen. simpl. rewrite ring_app by apply u32_range. f_equal.
    f_equal. unfold u32_in in *. zsolve. }
  split; [|done]. split; unfold i'; simpl; [by rewrite length_insert|done|apply u32_range|apply u32_range| |].
  - rewrite Z.sub_diag. simpl in Hlen, E3. rewrite E3 in Hlen. change (u32 0) with 0. unfold u32_in, INPUT_BUF in *. zsolve.
  - change (10 ∉ editing i'). rewrite Hed. set_solver.
Qed.

Definition rubbed (i : inbuf) : inbuf := set_e (u32 (in_e i - 1)) i.

Lemma rub_ok i : input_ok i -> editing i <> [] ->
  input_ok (rubbed i) /\ committed (rubbed i) = committed i /\ exists c, editing i = editing (rubbed i) ++ [c] /\ slot_of i (in_e i - 1) = c.
Proof.
  intros Hok Hne. pose proof (editing_nil i Hok) as Hn. rewrite bool_decide_false in Hn by done. apply Z.eqb_neq in Hn.
  destruct Hok as [Hl Hr Hw He Hf Hline]. unfold u32_in in *.
  assert (E : u32 (in_e i - in_w i) = u32 (u32 (in_e i - 1) - in_w i) + 1) by zsolve.
  assert (Hed : editing i = editing (rubbed i) ++ [slot_of i (in_e i - 1)]).
  { unfold editing. rewrite E, ring_app by zsolve. f_equal. rewrite ring_one. unfold slot_of.
    by replace (u32 (u32 (in_w i + u32 (u32 (in_e i - 1) - in_w i)))) with (u32 (in_e i - 1)) by zsolve. }
  split; [|split; [done|eauto]]. split; simpl; [done|done|done|apply u32_range| |].
  - unfold INPUT_BUF in *. zsolve.
  - rewrite Hed in Hline. set_solver.
Qed.

Definition popped_char (i : inbuf) : inbuf := set_r (u32 (in_r i + 1)) i.

Lemma take_ok i : input_ok i -> committed i <> [] ->
  input_ok (popped_char i) /\ editing (popped_char i) = editing i /\ committed i = slot_of i (in_r i) :: committed (popped_char i) /\
  set_r (u32 (in_r (popped_char i) - 1)) (popped_char i) = i.
Proof.
  intros Hok Hne. pose proof (committed_nil i Hok) as Hn. rewrite bool_decide_false in Hn by done. apply Z.eqb_neq in Hn.
  destruct Hok as [Hl Hr Hw He Hf Hline]. unfold u32_in in *.
  assert (E : u32 (in_w i - in_r i) = 1 + u32 (in_w i - u32 (in_r i + 1))) by zsolve.
  split; [|split; [done|split]].
  - split; simpl; [done|apply u32_range|done|done| |done]. unfold INPUT_BUF in *. zsolve.
  - unfold committed. rewrite E, ring_app by zsolve. rewrite ring_one. done.
  - unfold popped_char, set_r. destruct i as [b r w e]. simpl in *. f_equal. zsolve.
Qed.

(** ** The line editor *)

Definition line_state : Type := list Z * list Z.
Definition lines (i : inbuf) : line_state := (committed i, editing i).

(** A character that goes into the line, as it is stored; [None] for the
    editing keys, and when the buffer is full. *)
Definition accepted (st : line_state) (c : Z) : option Z :=
  if bool_decide (c ∈ [16; 21; 8; 127; 0]) then None
  else if (length (fst st) + length (snd st) <? 128)%nat then Some (if c =? 13 then 10 else c) else None.

(** A newline and control-D end the line, and so does a full buffer. *)
Definition commits (st : line_state) (c : Z) : bool :=
  match accepted st c with
  | Some c => (c =? 10) || (c =? 4) || (length (fst st) + length (snd st) + 1 =? 128)%nat
  | None => false
  end.

Definition feed (st : line_state) (c : Z) : line_state :=
  match accepted st c with
  | Some c' => if commits st c then (fst st ++ snd st ++ [c'], []) else (fst st, snd st ++ [c'])
  | None =>
      if c =? 21 then (fst st, [])
      else if (c =? 8) || (c =? 127) then (fst st, take (length (snd st) - 1) (snd st))
      else st
  end.

(** What appears on the console. *)
Definition echo (st : line_state) (c : Z) : list Z :=
  match accepted st c with
  | Some c' => [c']
  | None =>
      if c =? 21 then replicate (length (snd st)) BACKSPACE
      else if (c =? 8) || (c =? 127) then replicate (Nat.min 1 (length (snd st))) BACKSPACE
      else []
  end.

Section edit.
Context {D : Type} `{PcDev D}.

Lemma shows_set_input cs (a b : con D) i : shows cs a b -> shows cs (set_input i a) (set_input i b).
Proof. intros [E S O I N]. split; [by rewrite E|done|done|done|done]. Qed.

(** Output by an operation that also leaves the buffer at [i]. *)
Lemma rubout_ok (s : con D) : panicked s = 0 -> term_ok (screen s) ->
  exists s', rubout s = Ok tt s' /\ shows [BACKSPACE] (set_input (rubbed (input s)) s) s'.
Proof. intros Hp Hok. by apply (consputc_ok BACKSPACE (set_input (rubbed (input s)) s)). Qed.

(** [kill_line] takes the whole line away. *)
Lemma kill_line_ok n : forall s : con D, panicked s = 0 -> term_ok (screen s) -> input_ok (input s) -> length (editing (input s)) = n ->
  exists s', kill_line n s = Ok tt s' /\ shows (replicate n BACKSPACE) (set_input (input s') s) s' /\
    input_ok (input s') /\ committed (input s') = committed (input s) /\ editing (input s') = [].
Proof.
  induction n as [|n IH]; intros s Hp Hok Hi Hn.
  - exists s. split; [done|]. split; [by destruct s; apply shows_nil|]. split; [done|]. split; [done|by apply length_zero_iff_nil].
  - assert (Hne : editing (input s) <> []) by (intros E; by rewrite E in Hn).
    destruct (rub_ok (input s) Hi Hne) as (Hi1 & Hc1 & c & Hed & Hsl).
    destruct (rubout_ok s Hp Hok) as (s1 & E1 & S1). pose proof (sh_same _ _ _ S1) as Es1.
    assert (Hin : input s1 = rubbed (input s)) by (by rewrite Es1).
    destruct (IH s1) as (s2 & E2 & S2 & Hi2 & Hc2 & He2).
    + by rewrite Es1.
    + eapply shows_ok; [exact S1|done].
    + by rewrite Hin.
    + rewrite Hin. rewrite Hed, length_app in Hn. simpl in Hn. lia.
    + exists s2. split; [|split; [|split; [done|split; [by rewrite Hc2, Hin|done]]]].
      * cbn [kill_line]. unfold bind at 1, gets. rewrite editing_nil by done. rewrite bool_decide_false by done. rewrite Hsl.
        replace (c =? 10) with false; [cbn [negb andb]; cbv iota; by rewrite (bind_ok _ _ _ _ _ E1)|].
        symmetry. apply Z.eqb_neq. intros ->. apply (io_line _ Hi). rewrite Hed. set_solver.
      * simpl replicate. apply (shows_app [BACKSPACE] _ _ (set_input (input s2) s1)); [|done].
        apply (shows_set_input _ _ _ (input s2)) in S1. done.
Qed.
End edit.

(** ** Where the characters come from *)

(** What the handler needs from [getc]: it returns the characters that are
    [pending] one after the other, and -1 when there are none; output does not
    interfere. *)
Class Getc {D} `{PcDev D} (getc : M (con D) Z) (pending : con D -> list Z) := {
  getc_none : forall s, pending s = [] -> exists d, getc s = Ok (-1) (set_dev d s) /\ regs d = cregs s;
  getc_some : forall s x l, pending s = x :: l -> is_byte x /\ exists d sh,
    getc s = Ok x (set_dev d (set_shift sh s)) /\ pending (set_dev d (set_shift sh s)) = l /\
    crt_reg (regs d) = crt_reg (cregs s) /\ sent (regs d) = sent (cregs s);
  pending_ext : forall s s', uart s = uart s' -> shift s = shift s' -> received (cregs s) = received (cregs s') ->
    scancodes (cregs s) = scancodes (cregs s') -> pending s = pending s';
}.

Section intr.
Context {B D : Type} {OB : BlockOps B} `{PcDev D}.
Variable input_addr : Z.
Context (i : nat).
Local Abbreviation ch := (input_chan input_addr).

(** The process table after a turn of the handler: the readers are woken when a
    line is complete, and the CPU is as it was. *)
Definition woken_if (b : bool) (c : cpu) (p p' : pst) : Prop :=
  exists k, p' = set_procs (if b then woken ch <$> procs p else procs p) (set_mach k p) /\ same_cpu (mach p) k i c.

Lemma woken_if_false c p : table_ok p i c -> woken_if false c p p.
Proof. intros [_ Hc _]. exists (mach p). split; [by destruct p|by exists c]. Qed.

Lemma woken_table b c p p' : woken_if b c p p' -> table_ok p i c ->
  exists c', table_ok p' i c' /\ ncli c' = ncli c /\ cproc c' = cproc c /\ iflag (mach p') = iflag (mach p).
Proof.
  intros (k & -> & Hk) Ht. destruct b; [by apply wakeup_table_ok|].
  destruct Hk as (c' & H1 & H2 & H3 & H4). exists c'. split; [|done]. destruct Ht. by split.
Qed.

Lemma woken_twice (l : list proc) : woken ch <$> (woken ch <$> l) = woken ch <$> l.
Proof.
  rewrite <- list_fmap_compose. apply list_fmap_ext. intros j x _. simpl. unfold woken.
  repeat case_decide; simpl in *; naive_solver.
Qed.

Lemma woken_if_trans b b' c p p' p'' : table_ok p i c -> woken_if b c p p' ->
  (forall c', table_ok p' i c' -> woken_if b' c' p' p'') -> woken_if (b || b') c p p''.
Proof.
  intros Ht W1 W2. pose proof (woken_table _ _ _ _ W1 Ht) as (c' & Ht' & Hn & Hp & Hi).
  destruct (W2 c' Ht') as (k' & -> & Hk'). destruct W1 as (k & -> & _). exists k'. split.
  - destruct b, b'; simpl; rewrite ?woken_twice; done.
  - eapply same_cpu_trans; [apply Ht'|done|done|exact Hi|done].
Qed.

(** The console between two characters: not frozen by a panic, the cursor on the
    screen, the buffer and the process table in order. *)
Record con_ready (s : const B D) (c : cpu) : Prop := {
  cr_panicked : panicked (ct_con s) = 0;
  cr_screen : term_ok (screen (ct_con s));
  cr_input : input_ok (input (ct_con s));
  cr_table : table_ok (ct_pt s) i c;
}.

(** One character [x]: the line editor's step, its echo, and the wake-up. *)
Record edited (x : Z) (c : cpu) (s s' : const B D) : Prop := {
  ed_input : input_ok (input (ct_con s'));
  ed_lines : lines (input (ct_con s')) = feed (lines (input (ct_con s))) x;
  ed_shows : shows (echo (lines (input (ct_con s))) x) (set_input (input (ct_con s')) (ct_con s)) (ct_con s');
  ed_table : woken_if (commits (lines (input (ct_con s))) x) c (ct_pt s) (ct_pt s');
  ed_fs : ct_fs s' = ct_fs s;
}.

(** A character that changes nothing. *)
Lemma edited_same x c s : con_ready s c -> feed (lines (input (ct_con s))) x = lines (input (ct_con s)) ->
  echo (lines (input (ct_con s))) x = [] -> commits (lines (input (ct_con s))) x = false -> edited x c s s.
Proof.
  intros [Hp Hs Hi Ht] E1 E2 E3. split; [done|done| | |done].
  - rewrite E2. destruct s as [p [] f]. apply shows_nil.
  - rewrite E3. by apply woken_if_false.
Qed.

(** An operation on the console alone. *)
Lemma edited_con x c s con' : con_ready s c -> input_ok (input con') ->
  lines (input con') = feed (lines (input (ct_con s))) x ->
  shows (echo (lines (input (ct_con s))) x) (set_input (input con') (ct_con s)) con' ->
  commits (lines (input (ct_con s))) x = false -> edited x c s (set_ct_con con' s).
Proof. intros Hr Hi Hl Hs Hc. split; [done|done|done| |done]. rewrite Hc. apply woken_if_false, Hr. Qed.

Lemma edit_kill c s : con_ready s c -> exists s', edit input_addr 21 s = Ok false s' /\ edited 21 c s s'.
Proof.
  intros Hr. pose proof Hr as [Hp Hs Hi Ht].
  assert (Hn : length (editing (input (ct_con s))) = Z.to_nat (u32 (in_e (input (ct_con s)) - in_w (input (ct_con s))))).
  { unfold editing, ring. rewrite length_fmap, length_seqZ. done. }
  destruct (kill_line_ok _ (ct_con s) Hp Hs Hi Hn) as (c1 & E1 & S1 & Hi1 & Hc1 & He1).
  exists (set_ct_con c1 s). split.
  - unfold edit. change (21 =? ctl 80) with false. change (21 =? ctl 85) with true. cbv iota. unfold bind at 1, gets.
    by rewrite (bind_ok _ _ _ _ _ (zoom_ok ct_con_of _ s _ _ E1)).
  - apply edited_con; [done|done| | |done]; [unfold lines; by rewrite Hc1, He1|]. unfold echo. simpl. by rewrite Hn.
Qed.

Lemma edit_rub x c s : con_ready s c -> x = 8 \/ x = 127 -> exists s', edit input_addr x s = Ok false s' /\ edited x c s s'.
Proof.
  intros Hr Hx. pose proof Hr as [Hp Hs Hi Ht].
  assert (Ha : accepted (lines (input (ct_con s))) x = None) by (by destruct Hx as [-> | ->]).
  assert (Hf : (x =? ctl 80) = false /\ (x =? ctl 85) = false /\ ((x =? ctl 72) || (x =? 127)) = true) by (by destruct Hx as [-> | ->]).
  destruct Hf as (F1 & F2 & F3). change (ctl 72) with 8 in F3. change (ctl 85) with 21 in F2.
  unfold edit. rewrite F1. change (ctl 85) with 21. change (ctl 72) with 8. rewrite F2, F3. unfold bind at 1, gets.
  rewrite editing_nil by done. case_bool_decide as He; cbn [negb]; cbv iota.
  - exists s. split; [done|]. apply edited_same; [done|..]; unfold feed, echo, commits; rewrite Ha, ?F2, ?F3; unfold lines; simpl; by rewrite ?He.
  - destruct (rub_ok _ Hi He) as (Hi1 & Hc1 & ch1 & Hed & _). destruct (rubout_ok (ct_con s) Hp Hs) as (c1 & E1 & S1).
    assert (Hin : input c1 = rubbed (input (ct_con s))) by (by rewrite (sh_same _ _ _ S1)).
    exists (set_ct_con c1 s). split; [by rewrite (bind_ok _ _ _ _ _ (zoom_ok ct_con_of _ s _ _ E1))|].
    apply edited_con; [done|by rewrite Hin| | |by unfold commits; rewrite Ha]; rewrite Hin; unfold feed, echo; rewrite Ha, F2, F3; unfold lines; cbn [fst snd].
    + rewrite Hc1. f_equal. rewrite Hed at 1 2. rewrite length_app. simpl. rewrite take_app_le by lia.
      by rewrite firstn_all2 by lia.
    + by replace (Nat.min 1 (length (editing (input (ct_con s))))) with 1%nat by (rewrite Hed, length_app; cbn [length]; lia).
Qed.

(** The buffer is full after the character. *)
Lemma push_full x j : input_ok j -> (length (committed j) + length (editing j) < 128)%nat ->
  (in_e (pushed_char x j) =? u32 (in_r (pushed_char x j) + INPUT_BUF)) = (length (committed j) + length (editing j) + 1 =? 128)%nat.
Proof.
  intros Hi Hroom. pose proof (input_room j Hi) as Hr. destruct Hi as [_ H1 H2 H3 _ _]. simpl. unfold u32_in, INPUT_BUF in *.
  destruct (Nat.eqb_spec (length (committed j) + length (editing j) + 1) 128), (Z.eqb_spec (u32 (in_e j + 1)) (u32 (in_r j + 128)));
    try done; exfalso; zsolve.
Qed.

(** The character is stored and echoed; a line that is complete is handed over. *)
Lemma edit_store x x' c s : con_ready s c -> accepted (lines (input (ct_con s))) x = Some x' -> is_byte x' ->
  exists s', (zoom ct_con_of (inp (pushed_char x')) ;;
    zoom ct_con_of (consputc x') ;;
    i <- gets (fun s => input (ct_con s)) ;;
    if (x' =? 10) || (x' =? ctl 68) || (in_e i =? u32 (in_r i + INPUT_BUF)) then
      zoom ct_con_of (inp (fun i => set_w (in_e i) i)) ;;
      zoom ct_pt_of (wakeup ch)
    else ret tt) s = Ok tt s' /\ edited x c s s'.
Proof.
  intros Hr Ha Hb. pose proof Hr as [Hp Hs Hi Ht]. set (j := input (ct_con s)) in *.
  assert (Hroom : (length (committed j) + length (editing j) < 128)%nat).
  { unfold accepted, lines in Ha. simpl in Ha. repeat (case_match; try done); by apply Nat.ltb_lt. }
  destruct (consputc_ok x' (set_input (pushed_char x' j) (ct_con s)) Hp Hs) as (c1 & E1 & S1).
  assert (Hin : input c1 = pushed_char x' j) by (by rewrite (sh_same _ _ _ S1)).
  erewrite bind_ok by reflexivity. erewrite bind_ok by (apply (zoom_ok ct_con_of); exact E1).
  unfold bind at 1, gets. cbn [ct_con over set_ct_con ct_con_of view]. rewrite Hin, push_full by done.
  assert (Hcom : commits (lines j) x = (x' =? 10) || (x' =? ctl 68) || (length (committed j) + length (editing j) + 1 =? 128)%nat)
    by (unfold commits; rewrite Ha; done).
  rewrite <- Hcom. destruct (commits (lines j) x) eqn:Hc.
  - erewrite bind_ok by reflexivity. cbn [ct_con over set_ct_con ct_con_of view].
    destruct (wakeup_ok ch (ct_pt s) i c Ht) as (k & Hw & Hk). eexists. split; [apply (zoom_ok ct_pt_of); exact Hw|].
    destruct (push_commit_ok x' j Hi Hroom Hb) as (Hi' & Hcm & Hed).
    split; simpl; rewrite ?Hin; fold j; [done| | |by rewrite Hc; exists k|done].
    + unfold lines at 1. rewrite Hcm, Hed. unfold feed. by rewrite Ha, Hc.
    + unfold echo. rewrite Ha. apply (shows_set_input _ _ _ (set_w (in_e (pushed_char x' j)) (pushed_char x' j))) in S1. done.
  - exists (set_ct_con c1 s). split; [done|]. destruct (push_lists x' j Hi Hroom Hb) as (H1 & H2 & _).
    assert (Hn : x' <> 10) by (intros ->; by rewrite Hcom in Hc).
    apply edited_con; rewrite ?Hin; [done|by apply push_ok| | |done].
    + unfold lines at 1. rewrite H1, H2. unfold feed. fold j. by rewrite Ha, Hc.
    + unfold echo. fold j. by rewrite Ha.
Qed.

Lemma edit_ok x c s : con_ready s c -> is_byte x -> exists s', edit input_addr x s = Ok (x =? 16) s' /\ edited x c s s'.
Proof.
  intros Hr Hb. destruct (decide (x = 16)) as [->|n16].
  { exists s. split; [done|]. by apply edited_same. }
  destruct (decide (x = 21)) as [->|n21]; [by apply edit_kill|].
  replace (x =? 16) with false by (symmetry; by apply Z.eqb_neq).
  destruct (decide (x = 8 \/ x = 127)) as [Hx|nx]; [by apply edit_rub|].
  pose proof Hr as [Hp Hs Hi Ht]. unfold edit. change (ctl 80) with 16. change (ctl 85) with 21. change (ctl 72) with 8.
  replace (x =? 16) with false by (symmetry; by apply Z.eqb_neq). replace (x =? 21) with false by (symmetry; by apply Z.eqb_neq).
  replace ((x =? 8) || (x =? 127)) with false by (symmetry; apply orb_false_iff; split; apply Z.eqb_neq; lia). cbv iota.
  unfold bind at 1, gets. rewrite input_room by done.
  assert (Ha : accepted (lines (input (ct_con s))) x =
    if negb (x =? 0) && (Z.of_nat (length (committed (input (ct_con s))) + length (editing (input (ct_con s)))) <? INPUT_BUF)
    then Some (if x =? 13 then 10 else x) else None).
  { unfold accepted, lines, INPUT_BUF. cbn [fst snd]. case_bool_decide as Hd.
    - assert (x = 0) as -> by set_solver. done.
    - replace (negb (x =? 0)) with true; [rewrite andb_true_l; destruct (Nat.ltb_spec (length (committed (input (ct_con s))) + length (editing (input (ct_con s)))) 128), (Z.ltb_spec (Z.of_nat (length (committed (input (ct_con s))) + length (editing (input (ct_con s))))) 128); done || lia|].
      symmetry. apply negb_true_iff, Z.eqb_neq. intros ->. set_solver. }
  destruct (negb (x =? 0) && _) eqn:E.
  - destruct (edit_store x _ c s Hr Ha) as (s' & E' & Hed); [unfold is_byte in *; case_match; lia|].
    exists s'. split; [|done]. cbv zeta. by rewrite (bind_ok _ _ _ _ _ E').
  - exists s. split; [done|]. apply edited_same; [done|..]; unfold feed, echo, commits; rewrite Ha; try done;
      (replace (x =? 21) with false by (symmetry; by apply Z.eqb_neq));
      by replace ((x =? 8) || (x =? 127)) with false by (symmetry; apply orb_false_iff; split; apply Z.eqb_neq; lia).
Qed.

(** ** A sequence of characters *)

Fixpoint echoes (st : line_state) (cs : list Z) : list Z :=
  match cs with [] => [] | x :: cs => echo st x ++ echoes (feed st x) cs end.
Fixpoint completes (st : line_state) (cs : list Z) : bool :=
  match cs with [] => false | x :: cs => commits st x || completes (feed st x) cs end.

(** The console after characters were typed: besides the input and the output,
    the handler takes the characters from the device. *)
Record typed (cs : list Z) (c : cpu) (s s' : const B D) : Prop := {
  ty_input : input_ok (input (ct_con s'));
  ty_lines : lines (input (ct_con s')) = foldl feed (lines (input (ct_con s))) cs;
  ty_locks : cn_lock (ct_con s') = cn_lock (ct_con s) /\ cn_locking (ct_con s') = cn_locking (ct_con s);
  ty_uart : uart (ct_con s') = uart (ct_con s) /\ panicked (ct_con s') = panicked (ct_con s);
  ty_screen : term_eq (screen (ct_con s')) (foldl term_put (screen (ct_con s)) (echoes (lines (input (ct_con s))) cs));
  ty_off : off_screen (crt (ct_con s)) (crt (ct_con s'));
  ty_sent : sent (cregs (ct_con s')) = sent (cregs (ct_con s)) ++ if uart (ct_con s) =? 0 then []
    else echoes (lines (input (ct_con s))) cs ≫= (fun c => if c =? BACKSPACE then [8; 32; 8] else [u8 c]);
  ty_table : woken_if (completes (lines (input (ct_con s))) cs) c (ct_pt s) (ct_pt s');
  ty_fs : ct_fs s' = ct_fs s;
}.

Lemma foldl_term_ok cs t : term_ok t -> term_ok (foldl term_put t cs).
Proof. revert t. induction cs as [|x cs IH]; intros t Ht; [done|]. simpl. by apply IH, term_put_ok. Qed.

Lemma typed_ready cs c s s' : typed cs c s s' -> con_ready s c -> exists c', con_ready s' c'.
Proof.
  intros T [Hp Hs Hi Ht]. destruct (woken_table _ _ _ _ (ty_table _ _ _ _ T) Ht) as (c' & Ht' & _).
  exists c'. split; [by rewrite (proj2 (ty_uart _ _ _ _ T))| |apply T|done].
  destruct (ty_screen _ _ _ _ T) as [E _]. unfold term_ok. rewrite E. by apply foldl_term_ok.
Qed.

Lemma typed_nil c s : con_ready s c -> typed [] c s s.
Proof.
  intros [Hp Hs Hi Ht]. split; try done; simpl; [|by apply woken_if_false]. by destruct (uart (ct_con s) =? 0); rewrite app_nil_r.
Qed.

Lemma typed_cons x cs c s s1 s' : con_ready s c -> edited x c s s1 -> (forall c', con_ready s1 c' -> typed cs c' s1 s') ->
  (exists c', con_ready s1 c') -> typed (x :: cs) c s s'.
Proof.
  intros Hr [Hi1 Hl1 S1 W1 F1] HT [c1 Hr1]. pose proof (HT c1 Hr1) as [Hi2 Hl2 [K1 K2] [U1 U2] Sc2 O2 N2 W2 F2].
  destruct S1 as [E1 Sc1 O1 I1 N1]. rewrite Hl1 in *. split.
  - done.
  - done.
  - rewrite K1, K2, E1. done.
  - rewrite U1, U2, E1. done.
  - rewrite Sc2. simpl. rewrite foldl_app. by apply foldl_term_proper.
  - etrans; [exact O1|done].
  - rewrite N2, N1, E1. simpl. rewrite bind_app, <- app_assoc. by destruct (uart (ct_con s) =? 0).
  - simpl. eapply woken_if_trans; [apply Hr|exact W1|]. intros c' Hc'.
    assert (Hr' : con_ready s1 c') by (by destruct Hr1). pose proof (ty_table _ _ _ _ (HT c' Hr')) as W. by rewrite Hl1 in W.
  - congruence.
Qed.

Lemma edited_ready x c s s' : edited x c s s' -> con_ready s c -> exists c', con_ready s' c'.
Proof.
  intros [Hi Hl S W F] [Hp Hs Hi0 Ht]. destruct (woken_table _ _ _ _ W Ht) as (c' & Ht' & _). exists c'.
  split; [by rewrite (sh_same _ _ _ S)|by eapply shows_ok|done|done].
Qed.

(** The character has been taken from the device. *)
Lemma typed_taken cs c s s' d sh : let s1 := set_ct_con (set_dev d (set_shift sh (ct_con s))) s in
  crt_reg (regs d) = crt_reg (cregs (ct_con s)) -> sent (regs d) = sent (cregs (ct_con s)) -> typed cs c s1 s' -> typed cs c s s'.
Proof.
  intros s1 Hc Hn [Hi Hl K U Sc O N W F].
  assert (E : screen (ct_con s1) = screen (ct_con s)) by (unfold screen, cursor, cregs; simpl; by rewrite Hc).
  rewrite E in Sc. unfold cregs in N. simpl in N. rewrite Hn in N. by split.
Qed.

Lemma intr_loop_ok getc pending `{!Getc getc pending} cs : forall fuel dump c s,
  (length cs < fuel)%nat -> pending (ct_con s) = cs -> con_ready s c ->
  exists s', intr_loop input_addr fuel getc dump s = Ok (dump || existsb (Z.eqb 16) cs) s' /\ typed cs c s s' /\ pending (ct_con s') = [].
Proof.
  induction cs as [|x cs IH]; intros fuel dump c s Hf Hp Hr; (destruct fuel as [|fuel]; [simpl in Hf; lia|]); cbn [intr_loop].
  - destruct (getc_none (ct_con s) Hp) as (d & E & R). rewrite (bind_ok _ _ _ _ _ (zoom_ok ct_con_of _ s _ _ E)).
    eexists. split; [by simpl; rewrite orb_false_r|]. split.
    + destruct (typed_nil c s Hr) as [H1 H2 H3 H4 H5 H6 H7 H8 H9].
      assert (E' : screen (set_dev d (ct_con s)) = screen (ct_con s)) by (unfold screen, cregs; simpl; by rewrite R).
      split; try done; simpl; [by rewrite E'|]. unfold cregs at 1. simpl. by rewrite R.
    + simpl. rewrite <- Hp. apply pending_ext; try done; unfold cregs; simpl; by rewrite R.
  - destruct (getc_some (ct_con s) x cs Hp) as (Hx & d & sh & E & Hp1 & Hc & Hn).
    rewrite (bind_ok _ _ _ _ _ (zoom_ok ct_con_of _ s _ _ E)). set (s1 := over ct_con_of _ s).
    replace (0 <=? x) with true by (symmetry; apply Z.leb_le, Hx).
    assert (Hr1 : con_ready s1 c).
    { destruct Hr as [R1 R2 R3 R4]. split; try done. unfold term_ok, screen, cursor, cregs in *. simpl in *. by rewrite Hc. }
    destruct (edit_ok x c s1 Hr1 Hx) as (s2 & E2 & Hed). rewrite (bind_ok _ _ _ _ _ E2).
    destruct (edited_ready x c s1 s2 Hed Hr1) as [c2 Hr2].
    assert (Hp2 : pending (ct_con s2) = cs).
    { rewrite <- Hp1. destruct (ed_shows _ _ _ _ Hed) as [Es _ _ [I1 I2] _]. apply pending_ext; try done; by rewrite Es. }
    destruct (IH fuel (dump || (x =? 16)) c2 s2) as (s' & E' & T' & P'); [simpl in Hf; lia|done|done|].
    exists s'. split; [|split; [|done]].
    + rewrite E'. cbn [existsb]. by rewrite orb_assoc, (Z.eqb_sym 16).
    + apply (typed_taken _ _ _ _ d sh Hc Hn). eapply typed_cons; [exact Hr1|exact Hed| |eauto].
      intros c3 Hr3. destruct (IH fuel (dump || (x =? 16)) c3 s2) as (s3 & E3 & T3 & _); [simpl in Hf; lia|done|done|].
      rewrite E' in E3. by injection E3 as <-.
Qed.
End intr.

(** ** The listing of the processes *)

Definition dump_chars (l : dump_line) : list Z :=
  int_chars digits (d_pid l) 10 true ++ [32] ++ str (d_state l) ++ [32] ++ until_zero (d_name l) ++
  (d_pcs l ≫= fun pc => 32 :: int_chars digits pc 16 false) ++ [10].

Section dump.
Context {D : Type} `{PcDev D}.

(** The console can print: [cprintf] finds its lock free. *)
Definition can_print (s : con D) : Prop := panicked s = 0 /\ term_ok (screen s) /\ (cn_locking s <> 0 -> cn_lock s = Unlocked).

Lemma shows_can_print cs s s' : shows cs s s' -> can_print s -> can_print s'.
Proof.
  intros S (Hp & Hok & Hl). split; [by rewrite (sh_same _ _ _ S)|]. split; [by eapply shows_ok|]. by rewrite (sh_same _ _ _ S).
Qed.

Lemma shows_seq cs cs' (m k : M (con D) unit) s : can_print s ->
  (can_print s -> exists s', m s = Ok tt s' /\ shows cs s s') ->
  (forall s', can_print s' -> exists s'', k s' = Ok tt s'' /\ shows cs' s' s'') ->
  exists s'', (m ;; k) s = Ok tt s'' /\ shows (cs ++ cs') s s''.
Proof.
  intros Hc Hm Hk. destruct (Hm Hc) as (s1 & E1 & S1). rewrite (bind_ok _ _ _ _ _ E1).
  destruct (Hk s1) as (s2 & E2 & S2); [by eapply shows_can_print|]. exists s2. split; [done|]. by eapply shows_app.
Qed.

Lemma shows_each {A} (l : list A) (f : A -> M (con D) unit) (g : A -> list Z) s : can_print s ->
  (forall x s, can_print s -> exists s', f x s = Ok tt s' /\ shows (g x) s s') ->
  exists s', for_each l f s = Ok tt s' /\ shows (l ≫= g) s s'.
Proof.
  revert s. induction l as [|x l IH]; intros s Hc Hf; [exists s; split; [done|apply shows_nil]|].
  cbn [for_each]. apply (shows_seq (g x)); [done|by apply Hf|]. intros s' Hc'. by apply IH.
Qed.

Lemma can_cprintf fmt args txt s : ktext fmt args = Some txt -> can_print s -> exists s', cprintf fmt args s = Ok tt s' /\ shows txt s s'.
Proof. intros Ht (Hp & Hok & Hl). by apply cprintf_ok. Qed.

Lemma print_dump_ok l s : can_print s -> exists s', print_dump l s = Ok tt s' /\ shows (dump_chars l) s s'.
Proof.
  intros Hc. unfold print_dump, dump_chars.
  replace (int_chars digits (d_pid l) 10 true ++ _) with ((int_chars digits (d_pid l) 10 true ++ [32] ++ str (d_state l) ++
    [32] ++ until_zero (d_name l)) ++ (d_pcs l ≫= fun pc => 32 :: int_chars digits pc 16 false) ++ [10]) by (by rewrite <- !app_assoc).
  apply shows_seq; [done|apply can_cprintf, dump_text|].
  intros s1 Hc1. apply shows_seq; [done| |].
  - intros _. apply shows_each; [done|]. intros pc s2 Hc2. by apply can_cprintf; [apply dump_pc_text|].
  - intros s2 Hc2. by apply can_cprintf.
Qed.
End dump.
