(* ===== verification/ConsoleClaims.v ===== *)
(** The serial line and the keyboard as sources of characters, and the claims on
    the input of the console. *)

From S2P Require Import Prelude StringC Spinlock Kalloc Ptable Ports Sleeplock Block Bio Log Layer Fs FsBlocks FsFile FsWrite FsInode FsClaims Console Kbd ConsoleScreen ConsoleInput.

(** ** The keyboard as a machine on scan codes *)

(** The modifiers and the character for one scan code: 0 for a key that is
    released, and for an escape. *)
Definition key (sh data : Z) : Z * Z :=
  if data =? 224 then (Z.lor sh E0ESC, 0)
  else
    let esc := negb (Z.land sh E0ESC =? 0) in
    if negb (Z.land data 128 =? 0) then
      (Z.ldiff sh (Z.lor (at_ shiftcode (if esc then data else Z.land data 127)) E0ESC), 0)
    else
      let data := if esc then Z.lor data 128 else data in
      let sh := Z.lxor (Z.lor (if esc then Z.ldiff sh E0ESC else sh) (at_ shiftcode data)) (at_ togglecode data) in
      let c := at_ (nth (Z.to_nat (Z.land sh (Z.lor CTL SHIFT))) charcode []) data in
      (sh, if negb (Z.land sh CAPSLOCK =? 0) then
             if (97 <=? c) && (c <=? 122) then c + (65 - 97) else if (65 <=? c) && (c <=? 90) then c + (97 - 65) else c
           else c).

Fixpoint keys (sh : Z) (codes : list Z) : list Z :=
  match codes with [] => [] | d :: codes => snd (key sh d) :: keys (fst (key sh d)) codes end.

Lemma tables_byte : forallb (forallb (fun x => (0 <=? x) && (x <? 256))) charcode = true.
Proof. vm_compute. reflexivity. Qed.

Lemma charcode_byte i j : is_byte (at_ (nth i charcode []) j).
Proof.
  unfold at_, is_byte. destruct (nth_in_or_default i charcode []) as [Hi| ->].
  - destruct (nth_in_or_default (Z.to_nat j) (nth i charcode []) 0) as [Hj| ->]; [|lia].
    pose proof (proj1 (forallb_forall _ _) tables_byte _ Hi) as H. pose proof (proj1 (forallb_forall _ _) H _ Hj) as H'. cbv beta in H'. apply andb_true_iff in H' as [H1 H2]. apply Z.leb_le in H1. apply Z.ltb_lt in H2. lia.
  - destruct (Z.to_nat j); simpl; lia.
Qed.

Lemma key_byte sh data : is_byte (snd (key sh data)).
Proof.
  unfold key. destruct (data =? 224); [done|]. cbv zeta. destruct (negb (Z.land data 128 =? 0)); [done|]. cbn [snd].
  match goal with |- context [at_ (nth ?i charcode []) ?j] => pose proof (charcode_byte i j) as H; set (c := at_ _ _) in * end.
  clearbody c. unfold is_byte in *. repeat (case_match; try lia).
Qed.

Section sources.
Context {D : Type} `{PcDev D}.

Definition kbd_pending (s : con D) : list Z := keys (shift s) (scancodes (cregs s)).
Definition uart_pending (s : con D) : list Z := if uart s =? 0 then [] else received (cregs s).
Definition con_uartgetc : M (con D) Z := u <- gets uart ;; zoom dev_of (uartgetc u).

(** One scan code. *)
Lemma kbdgetc_key s data l : scancodes (cregs s) = data :: l -> exists d,
  kbdgetc s = Ok (snd (key (shift s) data)) (set_dev d (set_shift (fst (key (shift s) data)) s)) /\
  regs d = set_scancodes l (cregs s).
Proof.
  intros Hs. destruct (kbd_status (dev s)) as (v & Hv & Hz). destruct (con_in 100 s v (cregs s) Hv) as (d1 & E1 & R1).
  pose proof (kbd_data data l d1) as Hd. rewrite R1 in Hd. specialize (Hd Hs).
  destruct (con_in 96 (set_dev d1 s) data (set_scancodes l (cregs s)) Hd) as (d2 & E2 & R2). exists d2. split; [|done].
  unfold kbdgetc. rewrite (bind_ok _ _ _ _ _ E1).
  replace (Z.land v 1 =? 0) with false by (symmetry; apply Z.eqb_neq; intros E; apply Hz in E; unfold cregs in Hs; congruence).
  rewrite (bind_ok _ _ _ _ _ E2). unfold bind at 1, gets. change (shift (set_dev d2 (set_dev d1 s))) with (shift s). unfold key.
  destruct (data =? 224); [done|]. cbv zeta. destruct (negb (Z.land data 128 =? 0)); [done|].
  by destruct (negb (Z.land (shift s) E0ESC =? 0)).
Qed.

#[export] Instance kbd_getc : Getc kbdgetc kbd_pending.
Proof.
  split.
  - intros s Hp. assert (Hs : scancodes (cregs s) = []) by (unfold kbd_pending in Hp; by destruct (scancodes (cregs s))).
    destruct (kbd_status (dev s)) as (v & Hv & Hz). destruct (con_in 100 s v (cregs s) Hv) as (d1 & E1 & R1).
    exists d1. split; [|done]. unfold kbdgetc. rewrite (bind_ok _ _ _ _ _ E1).
    by replace (Z.land v 1 =? 0) with true by (symmetry; by apply Z.eqb_eq, Hz).
  - intros s x l Hp. unfold kbd_pending in Hp. destruct (scancodes (cregs s)) as [|data codes] eqn:Hs; [done|].
    injection Hp as <- <-. split; [apply key_byte|]. destruct (kbdgetc_key s data codes Hs) as (d & E & R).
    exists d, (fst (key (shift s) data)). split; [done|]. rewrite R. split; [|done].
    unfold kbd_pending, cregs. simpl. by rewrite R.
  - intros s s' _ H1 _ H2. unfold kbd_pending. by rewrite H1, H2.
Qed.

#[export] Instance uart_getc : Getc con_uartgetc uart_pending.
Proof.
  split.
  - intros s Hp. unfold con_uartgetc. unfold bind at 1, gets, uartgetc. unfold uart_pending in Hp.
    destruct (uart s =? 0); [exists (dev s); by destruct s|].
    destruct (serial_status (dev s)) as (v & Hv & Hz). destruct (inb (COM1 + 5) (dev s)) as [v' d] eqn:Ei. destruct Hv as [<- Hr].
    exists d. split; [|done]. apply (zoom_ok dev_of). unfold bind, port_in. simpl. rewrite Ei.
    by replace (Z.land v' 1 =? 0) with true by (symmetry; by apply Z.eqb_eq, Hz).
  - intros s x l Hp. unfold uart_pending in Hp. destruct (uart s =? 0) eqn:Hu; [done|].
    pose proof (received_byte (dev s)) as Hb. fold (cregs s) in Hb. rewrite Hp in Hb. apply Forall_cons in Hb as [Hx _]. split; [done|].
    destruct (serial_status (dev s)) as (v & Hv & Hz). destruct (inb (COM1 + 5) (dev s)) as [v' d] eqn:Ei. destruct Hv as [<- Hr].
    simpl in Hr, Hz. pose proof (serial_recv x l d) as Hd. rewrite Hr in Hd. specialize (Hd Hp).
    destruct (inb COM1 d) as [x' d'] eqn:Ej. destruct Hd as [Hx' Hr']. simpl in Hx', Hr'. subst x'.
    exists d', (shift s). split; [|split; [|by rewrite Hr']].
    + unfold con_uartgetc. unfold bind at 1, gets, uartgetc. rewrite Hu. unfold zoom, bind, port_in. simpl. rewrite Ei.
      replace (Z.land v' 1 =? 0) with false; [rewrite Ej; by destruct s|].
      symmetry. apply Z.eqb_neq. intros E. apply Hz in E. unfold cregs in Hp. congruence.
    + unfold uart_pending, cregs. simpl. by rewrite Hu, Hr'.
  - intros s s' H1 _ H2 _. unfold uart_pending. by rewrite H1, H2.
Qed.
End sources.

(* ------------------------------------------------------------------ *)
(** * Reading *)

(** The bytes that a read of [n] takes from the queue [q], and what stays: up
    to a newline, or up to control-D, which is taken only by a read that has got
    nothing ([first]).  [None]: the queue ends before the read does. *)
Fixpoint take_line (first : bool) (n : nat) (q : list Z) : option (list Z * list Z) :=
  match n, q with
  | O, _ => Some ([], q)
  | S _, [] => None
  | S n', c :: q' =>
      if c =? 4 then Some ([], if first then q' else q)
      else if c =? 10 then Some ([c], q')
      else '(l, r) ← take_line false n' q'; Some (c :: l, r)
  end.

Section read.
Context {B D : Type} {OB : BlockOps B} {LB : BlockLayer B} `{PcDev D}.
Variable input_addr : Z.
Context (i p ip : nat).
Local Abbreviation st := (const B D).

#[export] Instance ct_pt_of_laws : LensLaws (ct_pt_of (B := B) (D := D)).
Proof. split; intros; by destruct s. Qed.
#[export] Instance ct_lock_of_laws : LensLaws (ct_lock_of (B := B) (D := D)).
Proof. split; intros; by destruct s as [? [] ?]. Qed.
#[export] Instance ct_indep : Indep (ct_pt_of (B := B) (D := D)) ct_lock_of.
Proof. by split. Qed.

(** The inode of the console, unlocked. *)
Definition con_inode (s : st) : Prop :=
  exists x, inodes (ct_fs s) !! ip = Some x /\ 1 <= i_ref x /\ i_lock x = SFree /\ i_valid x <> 0.

Record cr_ready (v : lock_view) (s : st) : Prop := {
  rr_cur : exists c x, cur_ok (ct_pt s) i c p x /\ p_killed x = false;
  rr_lock : cn_lock (ct_con s) = v;
  rr_input : input_ok (input (ct_con s));
  rr_inode : con_inode s;
}.

(** What happens while the reader is asleep: the characters [l] arrive, and the
    reader runs again. *)
Definition arrives (l : list Z) (e : st -> st) : Prop := forall s1,
  input_ok (input (ct_con s1)) -> committed (input (ct_con s1)) = [] -> cn_lock (ct_con s1) = Unlocked -> con_inode s1 ->
  exists y, wakes ct_pt_of ct_lock_of i p y e s1 /\ p_state y = RUNNING /\ p_killed y = false /\
    length (procs (ct_pt (e s1))) = NPROC /\ (forall z, z ∈ procs (ct_pt (e s1)) -> p_state z <> NEG_SLEEPING) /\
    input_ok (input (ct_con (e s1))) /\ committed (input (ct_con (e s1))) = l /\ con_inode (e s1).

Lemma cread_sleep e l s : cr_ready HeldHere s -> committed (input (ct_con s)) = [] -> arrives l e -> exists s',
  sleep_turn ct_pt_of (input_chan input_addr) (Some ct_lock_of) e s = Ok tt s' /\ cr_ready HeldHere s' /\
  committed (input (ct_con s')) = l.
Proof.
  intros [(c & x & Hcur & Hk) Hl Hi Hd] Hc He.
  destruct (sleep_turn_ok ct_pt_of ct_lock_of s (input_chan input_addr) e i c p x Hcur Hl) as (s1 & k1 & Hs1 & Hgo).
  destruct (He s1) as (y & Hw & Hy & Hyk & Hlen & Hq & Hi' & Hc' & Hd'); [by subst s1..|].
  destruct (Hgo y Hw) as (k2 & c' & Hr & _ & Hn & Hp & Hturn). destruct Hw as (_ & c2 & [_ _ _ _ Hslot]).
  eexists. split; [exact Hturn|]. split; [|done].
  split; [|done|done|done]. exists c', (set_chan NoChan y). split; [|done]. by apply cur_after_turn.
Qed.

Lemma cread_killed s : cr_ready HeldHere s -> exists s', zoom ct_pt_of curproc s = Ok p s' /\ cr_ready HeldHere s' /\
  ct_con s' = ct_con s /\ zoom ct_pt_of (getp p p_killed) s' = Ok false s'.
Proof.
  intros [(c & x & Hcur & Hk) Hl Hi Hd]. destruct (cur_curproc _ i c p x Hcur) as (k & c' & H1 & Hcur').
  eexists. split; [apply (zoom_ok ct_pt_of), H1|]. split; [split; [by exists c', x|done..]|]. split; [done|].
  unfold zoom, getp, gets. cbn [view over ct_pt_of set_ct_pt ct_pt]. rewrite (proc_at_lookup _ p x) by apply Hcur'. by rewrite Hk.
Qed.

(** The wait ends with the first arrival. *)
Lemma cread_wait_ok envs s : cr_ready HeldHere s ->
  (committed (input (ct_con s)) <> [] -> cread_wait input_addr ip envs s = Ok (Some envs) s) /\
  (committed (input (ct_con s)) = [] -> forall e l envs', envs = e :: envs' -> arrives l e -> l <> [] ->
    exists s', cread_wait input_addr ip envs s = Ok (Some envs') s' /\ cr_ready HeldHere s' /\ committed (input (ct_con s')) = l).
Proof.
  intros Hr. split.
  - intros Hc. destruct envs; cbn [cread_wait]; unfold bind at 1, gets; rewrite committed_nil by apply Hr; by rewrite bool_decide_false.
  - intros Hc e l envs' -> He Hl. destruct (cread_killed s Hr) as (s1 & E1 & Hr1 & Hs1 & E2).
    destruct (cread_sleep e l s1 Hr1) as (s2 & E3 & Hr2 & Hc2); [by rewrite Hs1|done|].
    exists s2. split; [|done]. cbn [cread_wait]. unfold bind at 1, gets. rewrite committed_nil by apply Hr.
    rewrite bool_decide_true by done. rewrite (bind_ok _ _ _ _ _ E1), (bind_ok _ _ _ _ _ E2). cbv iota.
    rewrite (bind_ok _ _ _ _ _ E3).
    destruct envs'; cbn [cread_wait]; unfold bind at 1, gets; rewrite committed_nil by apply Hr2; by rewrite bool_decide_false by congruence.
Qed.

(** Taking a character. *)
Lemma cr_take s : cr_ready HeldHere s -> committed (input (ct_con s)) <> [] ->
  let s' := set_ct_con (set_input (popped_char (input (ct_con s))) (ct_con s)) s in
  cr_ready HeldHere s' /\
  committed (input (ct_con s)) = slot_of (input (ct_con s)) (in_r (input (ct_con s))) :: committed (input (ct_con s')).
Proof.
  intros [Hcur Hl Hi Hd] Hc s'. destruct (take_ok _ Hi Hc) as (Hi' & _ & Hcm & _). split; [by split|done].
Qed.

(** The loop: [ls] are the characters that arrive during the turns asleep, as
    many as the read needs. *)
Lemma cread_loop_ok n : forall target dst envs ls s out rest, cr_ready HeldHere s -> (Z.of_nat n <= target) ->
  Forall2 arrives ls envs -> Forall (fun l => l <> []) ls ->
  take_line (Z.of_nat n =? target) n (committed (input (ct_con s)) ++ concat ls) = Some (out, rest) ->
  exists s' k j, cread_loop input_addr ip n target dst envs s = Ok (Some (k, dst ++ out)) s' /\ cr_ready HeldHere s' /\
    Z.of_nat n - Z.of_nat k = Z.of_nat (length out) /\ rest = committed (input (ct_con s')) ++ concat (drop j ls).
Proof.
  induction n as [|n IH]; intros target dst envs ls s out rest Hr Hn Ha Hls Ht.
  { simpl in Ht. injection Ht as <- <-. exists s, 0%nat, 0%nat. rewrite app_nil_r. done. }
  (* wait for a character *)
  assert (Hw : exists s1 envs1 j1, cread_wait input_addr ip envs s = Ok (Some envs1) s1 /\ cr_ready HeldHere s1 /\
    committed (input (ct_con s1)) <> [] /\ Forall2 arrives (drop j1 ls) envs1 /\
    committed (input (ct_con s)) ++ concat ls = committed (input (ct_con s1)) ++ concat (drop j1 ls)).
  { destruct (cread_wait_ok envs s Hr) as [H1 H2]. destruct (decide (committed (input (ct_con s)) = [])) as [E|n1].
    - destruct Ha as [|l e ls envs He Ha]; [by rewrite E in Ht|]. apply Forall_cons in Hls as [Hl Hls].
      destruct (H2 E e l envs eq_refl He Hl) as (s1 & E1 & Hr1 & Hc1). exists s1, envs, 1%nat. simpl. rewrite E, Hc1. by rewrite drop_0.
    - exists s, envs, 0%nat. by rewrite drop_0, H1. }
  destruct Hw as (s1 & envs1 & j1 & E1 & Hr1 & Hne & Ha1 & Hq). cbn [cread_loop]. rewrite (bind_ok _ _ _ _ _ E1).
  unfold bind at 1, gets. cbv zeta. destruct (cr_take s1 Hr1 Hne) as [Hr2 Hcm]. set (s2 := set_ct_con _ s1) in *.
  erewrite bind_ok by reflexivity. fold s2. rewrite Hq, Hcm in Ht. cbn [take_line app] in Ht. change (ctl 68) with 4.
  destruct (slot_of (input (ct_con s1)) (in_r (input (ct_con s1))) =? 4) eqn:E4.
  - rewrite (Z.eqb_sym (Z.of_nat (S n)) target) in Ht. injection Ht as <- Ht.
    destruct (Z.ltb_spec (Z.of_nat (S n)) target).
    + eexists s1, (S n), j1. rewrite app_nil_r. split; [|split; [done|split; [simpl; lia|]]].
      * unfold bind, zoom, inp, modify, ret. simpl. do 2 f_equal. destruct (take_ok _ (rr_input _ _ Hr1) Hne) as (_ & _ & _ & Hb).
        unfold s2. destruct s1 as [a [] f]. simpl in *. unfold set_ct_con, set_input. simpl. do 2 f_equal. exact Hb.
      * rewrite <- Ht, Hcm. destruct (Z.eqb_spec target (Z.of_nat (S n))); [lia|done].
    + exists s2, (S n), j1. rewrite app_nil_r. split; [done|]. split; [done|]. split; [simpl; lia|].
      rewrite <- Ht. by destruct (Z.eqb_spec target (Z.of_nat (S n))); [|lia].
  - destruct (slot_of (input (ct_con s1)) (in_r (input (ct_con s1))) =? 10) eqn:E10.
    + injection Ht as <- <-. exists s2, n, j1. split; [done|]. split; [done|]. split; [simpl; lia|done].
    + apply bind_Some in Ht as ([l r] & Ht & E). injection E as <- <-.
      destruct (IH target (dst ++ [slot_of (input (ct_con s1)) (in_r (input (ct_con s1)))]) envs1 (drop j1 ls) s2 l r)
        as (s' & k & j & E' & Hr' & Hk & Hrest); [done|lia|done|by apply Forall_drop| |].
      * by replace (Z.of_nat n =? target) with false by (symmetry; apply Z.eqb_neq; lia).
      * exists s', k, (j1 + j)%nat. rewrite <- drop_drop. split; [etrans; [exact E'|by rewrite <- app_assoc]|].
        split; [done|]. split; [simpl length; lia|done].
Qed.

Lemma consoleread_ok n envs ls s out rest : cr_ready Unlocked s -> 0 <= n -> Forall2 arrives ls envs -> Forall (fun l => l <> []) ls ->
  take_line true (Z.to_nat n) (committed (input (ct_con s)) ++ concat ls) = Some (out, rest) ->
  forall x fs0, inodes fs0 !! ip = Some x -> ist fs0 (fb fs0) ip (set_i_lock SFree x) = ct_fs s -> 1 <= i_ref x -> i_lock x = SMine ->
  exists s' j, consoleread input_addr ip n envs (set_ct_fs fs0 s) = Ok (Z.of_nat (length out), out) s' /\
    cn_lock (ct_con s') = Unlocked /\ input_ok (input (ct_con s')) /\
    (exists y, inodes (ct_fs s') !! ip = Some y /\ i_lock y = SMine) /\
    rest = committed (input (ct_con s')) ++ concat (drop j ls).
Proof.
  intros Hr Hn Ha Hls Ht x fs0 Hx Hfs Href Hmine. unfold consoleread.
  erewrite bind_ok by (apply (zoom_ok ct_fs_of); exact (iunlock_ok fs0 ip x Hx Href Hmine)).
  cbn [over ct_fs_of set_ct_fs]. rewrite Hfs. replace (set_ct_fs (ct_fs s) (set_ct_fs fs0 s)) with s by (by destruct s).
  rewrite bind_acquire by apply Hr. set (s1 := over ct_lock_of HeldHere s).
  assert (Hr1 : cr_ready HeldHere s1) by (destruct Hr as [R1 R2 R3 R4]; by split).
  destruct (cread_loop_ok (Z.to_nat n) n [] envs ls s1 out rest Hr1) as (s2 & k & j & E2 & Hr2 & Hk & Hrest); [lia|done|done| |].
  { rewrite Z2Nat.id, Z.eqb_refl by done. exact Ht. }
  rewrite (bind_ok _ _ _ _ _ E2), bind_release by apply Hr2.
  destruct (rr_inode _ _ Hr2) as (y & Hy & H1 & H2 & H3).
  erewrite bind_ok by (apply (zoom_ok ct_fs_of); exact (ilock_valid _ ip y Hy H1 H2 H3)).
  eexists _, j. split.
  - unfold ret. do 2 f_equal. destruct (Z.ltb_spec 0 n); simpl; [lia|]. assert (n = 0) as -> by lia. simpl in *. lia.
  - split; [done|]. split; [apply (rr_input _ _ Hr2)|]. split; [|done].
    exists (set_i_lock SMine y). split; [|done]. by eapply ist_lookup.
Qed.
End read.

(* ------------------------------------------------------------------ *)
(** * Claims *)

Section claims.
Context {B D : Type} {OB : BlockOps B} {LB : BlockLayer B} `{PcDev D}.
Variable input_addr : Z.

(** C25: [consoleintr] implements a line editor.  Whatever characters are pending
    at the keyboard or the serial line, the handler returns with all of them
    taken; the ring buffer then holds the lines and the unfinished line of the
    abstract editor [feed]; each key was echoed, backspaces and killed lines
    wiped out; the readers were woken exactly when a line was completed; and
    control-P printed the process listing afterwards, with the lock free. *)
Theorem consoleintr_refines i getc pending `{!Getc getc pending} fuel c (s : const B D) :
  let cs := pending (ct_con s) in let st := lines (input (ct_con s)) in
  con_ready i s c -> cn_lock (ct_con s) = Unlocked -> (length cs < fuel)%nat ->
  exists s', consoleintr input_addr fuel getc s = Ok tt s' /\
    input_ok (input (ct_con s')) /\ lines (input (ct_con s')) = foldl feed st cs /\
    cn_lock (ct_con s') = Unlocked /\ pending (ct_con s') = [] /\ ct_fs s' = ct_fs s /\
    woken_if input_addr i (completes st cs) c (ct_pt s) (ct_pt s') /\
    off_screen (crt (ct_con s)) (crt (ct_con s')) /\
    term_eq (screen (ct_con s')) (foldl term_put (screen (ct_con s))
      (echoes st cs ++ if existsb (Z.eqb 16) cs then procdump (ct_pt s') ≫= dump_chars else [])).
Proof.
  intros cs st Hr Hl Hf. unfold consoleintr. rewrite bind_acquire by done. set (s1 := over ct_lock_of HeldHere s).
  assert (Hr1 : con_ready i s1 c) by (destruct Hr; by split).
  assert (Hp1 : pending (ct_con s1) = cs) by (by apply pending_ext).
  destruct (intr_loop_ok input_addr i getc pending cs fuel false c s1 Hf Hp1 Hr1) as (s2 & E2 & T & P2).
  pose proof T as [Ti Tl [K1 K2] [U1 U2] Sc O N W F].
  rewrite (bind_ok _ _ _ _ _ E2), bind_release by (simpl; by rewrite K1). set (s3 := over ct_lock_of Unlocked s2).
  assert (P3 : pending (ct_con s3) = []) by (rewrite <- P2; by apply pending_ext).
  cbn [orb]. destruct (existsb (Z.eqb 16) cs).
  - destruct (typed_ready _ _ _ _ _ _ T Hr1) as (c2 & [Q1 Q2 Q3 Q4]).
    destruct (shows_each (procdump (ct_pt s3)) print_dump dump_chars (ct_con s3)) as (c4 & E4 & S4); [by split|apply print_dump_ok|].
    exists (set_ct_con c4 s3). unfold bind at 1, gets. split; [by apply (zoom_ok ct_con_of)|]. simpl.
    pose proof (sh_same _ _ _ S4) as Es. assert (Ein : input c4 = input (ct_con s2)) by (by rewrite Es).
    rewrite Ein. split; [done|]. split; [done|]. split; [by rewrite Es|]. split.
    { rewrite <- P3. destruct (sh_in _ _ _ S4) as [I1 I2]. apply pending_ext; [by rewrite Es|by rewrite Es|done|done]. }
    split; [done|]. split; [done|]. split; [etrans; [exact O|apply S4]|].
    rewrite foldl_app. etrans; [apply S4|]. apply foldl_term_proper. exact Sc.
  - exists s3. rewrite app_nil_r. repeat (split; [done|]). done.
Qed.

(** [consoleread] returns the next line: the characters up to a newline, or
    up to control-D, or [n] of them, in the order in which they were typed,
    whether they were there before the call or arrive while it sleeps.  A
    control-D is consumed by the read that returns no bytes.  What was not
    returned stays for the next read, and the inode is locked again. *)
Theorem consoleread_lines i p ip n envs ls (s : const B D) cp xp x out rest :
  cur_ok (ct_pt s) i cp p xp -> p_killed xp = false -> cn_lock (ct_con s) = Unlocked -> input_ok (input (ct_con s)) ->
  inodes (ct_fs s) !! ip = Some x -> 1 <= i_ref x -> i_lock x = SMine -> i_valid x <> 0 -> 0 <= n ->
  Forall2 (arrives i p ip) ls envs -> Forall (fun l => l <> []) ls ->
  take_line true (Z.to_nat n) (committed (input (ct_con s)) ++ concat ls) = Some (out, rest) ->
  exists s' j, consoleread input_addr ip n envs s = Ok (Z.of_nat (length out), out) s' /\
    cn_lock (ct_con s') = Unlocked /\ input_ok (input (ct_con s')) /\
    (exists y, inodes (ct_fs s') !! ip = Some y /\ i_lock y = SMine) /\
    rest = committed (input (ct_con s')) ++ concat (drop j ls).
Proof.
  intros Hcur Hk Hl Hi Hx Href Hmine Hv Hn Ha Hls Ht.
  set (s0 := set_ct_fs (ist (ct_fs s) (fb (ct_fs s)) ip (set_i_lock SFree x)) s).
  assert (Hr : cr_ready i p ip Unlocked s0).
  { split; [by exists cp, xp|done|done|]. exists (set_i_lock SFree x). split; [by eapply ist_lookup|done]. }
  destruct (consoleread_ok input_addr i p ip n envs ls s0 out rest Hr Hn Ha Hls Ht x (ct_fs s) Hx eq_refl Href Hmine) as (s' & j & E & Hs').
  exists s', j. split; [|done]. rewrite <- E. by destruct s.
Qed.
End claims.

(** ** The hypotheses can hold *)

Definition w_user : proc := set_state RUNNING unused_proc.
Definition w_console (codes buf : list Z) (w : Z) (H : regs_ok (Devregs 0 (fun _ => 0) [] [] codes)) : const memb pc :=
  Const (run0 w_user) (Con Unlocked 1 0 (Inbuf buf 0 w w) (fun _ => 0) 1 0 (Pc _ H)) w_fs.

Lemma w_codes_ok codes : Forall is_byte codes -> regs_ok (Devregs 0 (fun _ => 0) [] [] codes).
Proof. intros Hc. split; [done|done|done]. Qed.

(** The keys a, shift with b, backspace, enter. *)
Definition w_codes : list Z := [30; 42; 48; 170; 14; 28].
Lemma w_codes_byte : Forall is_byte w_codes.
Proof. repeat (constructor; [unfold is_byte; lia|]). constructor. Qed.
Definition w_typing : const memb pc := w_console w_codes (replicate 128 0) 0 (w_codes_ok _ w_codes_byte).

Lemma w_typing_ready : con_ready 0 w_typing (Cpu 0 0 false (Some 0%nat)).
Proof.
  split; [done|vm_compute; split; congruence| |by apply run0_cur].
  split; [done|done..|vm_compute; congruence|]. apply not_elem_of_nil.
Qed.

Lemma consoleintr_refines_witness :
  kbd_pending (ct_con w_typing) = [97; 0; 66; 0; 8; 10] /\
  exists s', consoleintr 4096 7 kbdgetc w_typing = Ok tt s' /\ lines (input (ct_con s')) = ([97; 10], []).
Proof.
  destruct (consoleintr_refines 4096 0 kbdgetc kbd_pending 7 (Cpu 0 0 false (Some 0%nat)) w_typing) as (s' & E & _ & Hl & _).
  - exact w_typing_ready.
  - reflexivity.
  - vm_compute. lia.
  - split; [vm_compute; reflexivity|]. exists s'. split; [exact E|]. rewrite Hl. vm_compute. reflexivity.
Defined.

(** A line that arrives while the reader is asleep. *)
Definition w_line : inbuf := Inbuf ([104; 105; 10] ++ replicate 125 0) 0 3 3.
Definition w_arrival (s : const memb pc) : const memb pc := Const (back0 w_user) (set_input w_line (ct_con s)) (ct_fs s).

Lemma w_line_ok : input_ok w_line.
Proof. split; [done|done..|vm_compute; congruence|]. apply not_elem_of_nil. Qed.

Lemma w_arrives : arrives 0 0 0 [104; 105; 10] w_arrival.
Proof.
  intros s1 Hi Hc Hl Hd. exists w_user. split; [split; [done|eexists; apply back0_resumed]|].
  repeat (split; [done|]). split; [by apply run0_quiet|]. split; [exact w_line_ok|]. done.
Qed.

Lemma consoleread_lines_witness :
  exists s', consoleread 4096 0 2 [w_arrival] w_typing = Ok (2, [104; 105]) s' /\ committed (input (ct_con s')) = [10].
Proof.
  destruct (consoleread_lines 4096 0 0 0 2 [w_arrival] [[104; 105; 10]] w_typing (Cpu 0 0 false (Some 0%nat)) w_user w_file [104; 105] [10])
    as (s' & j & E & _ & _ & _ & Hr).
  - by apply run0_cur.
  - reflexivity.
  - reflexivity.
  - apply w_typing_ready.
  - reflexivity.
  - simpl. lia.
  - reflexivity.
  - simpl. lia.
  - lia.
  - constructor; [exact w_arrives|constructor].
  - constructor; [discriminate|constructor].
  - reflexivity.
  - exists s'. split; [exact E|].
    destruct j as [|j]; simpl in Hr; [|by rewrite ?drop_nil, app_nil_r in Hr].
    exfalso. apply (f_equal length) in Hr. rewrite length_app in Hr. simpl in Hr. lia.
Defined.
