(* ===== verification/Pages.v ===== *)
(** Lists of pages as multisets: permutations, absence of duplicates and
    membership decided by counting ([cnt_solve]), and what it means that memory
    changed only inside some pages. *)

From S2P Require Import Prelude StringC Spinlock Kalloc.

Definition cnt (x : Z) (l : list Z) : nat := count_occ Z.eq_dec l x.

Lemma cnt_nil x : cnt x [] = 0%nat.
Proof. reflexivity. Qed.
Lemma cnt_cons x y l : cnt x (y :: l) = ((if decide (y = x) then 1 else 0) + cnt x l)%nat.
Proof. unfold cnt. simpl. destruct (Z.eq_dec y x), (decide (y = x)); (lia || done). Qed.
Lemma cnt_app x l k : cnt x (l ++ k) = (cnt x l + cnt x k)%nat.
Proof. apply count_occ_app. Qed.

Lemma perm_cnt l k : l ≡ₚ k <-> forall x, cnt x l = cnt x k.
Proof. apply (Permutation_count_occ Z.eq_dec). Qed.
Lemma nodup_cnt l : NoDup l <-> forall x, (cnt x l <= 1)%nat.
Proof. rewrite NoDup_ListNoDup. apply (NoDup_count_occ Z.eq_dec). Qed.
Lemma elem_cnt x l : x ∈ l <-> (1 <= cnt x l)%nat.
Proof. rewrite list_elem_of_In. rewrite (count_occ_In Z.eq_dec). unfold cnt. lia. Qed.
Lemma not_elem_cnt x l : x ∉ l <-> cnt x l = 0%nat.
Proof. rewrite elem_cnt. lia. Qed.

Lemma ne_cnt x y : cnt x [y] = 0%nat -> x <> y.
Proof. intros H ->. rewrite cnt_cons, decide_True in H by done. lia. Qed.

Lemma Forall_two {A} (P : A -> Prop) a b : P a -> P b -> Forall P [a; b].
Proof. by repeat constructor. Qed.

Create Rewrite HintDb cnt.
#[export] Hint Rewrite cnt_nil cnt_cons cnt_app : cnt.

(** [cnt_at x]: what the hypotheses say about the number of times [x] occurs. *)
Ltac cnt_at x :=
  repeat match goal with
  | H : Permutation _ _ |- _ => let H' := fresh H in pose proof (proj1 (perm_cnt _ _) H x) as H'; clear H
  | H : NoDup _ |- _ => let H' := fresh H in pose proof (proj1 (nodup_cnt _) H x) as H'; clear H
  | H : not (elem_of _ _) |- _ => apply not_elem_cnt in H
  | H : elem_of _ _ |- _ => apply elem_cnt in H
  end;
  autorewrite with cnt in *;
  repeat match goal with
  | |- context [decide (?a = ?b)] => destruct (decide (a = b)); subst
  | H : context [decide (?a = ?b)] |- _ => destruct (decide (a = b)); subst
  end; try congruence;
  repeat match goal with
  | H : context [cnt ?a ?l] |- _ => let n := fresh "n" in set (n := cnt a l) in *; clearbody n
  | |- context [cnt ?a ?l] => let n := fresh "n" in set (n := cnt a l) in *; clearbody n
  end; try lia.

Ltac cnt_solve :=
  lazymatch goal with
  | |- _ ≡ₚ _ => apply perm_cnt; let x := fresh "x" in intros x; cnt_at x
  | |- NoDup _ => apply nodup_cnt; let x := fresh "x" in intros x; cnt_at x
  | |- ?x ∉ _ => apply not_elem_cnt; cnt_at x
  | |- ?x ∈ _ => apply elem_cnt; cnt_at x
  | |- ?x <> _ => apply ne_cnt; cnt_at x
  end.

(** The values of a partial function on the elements of a list. *)
Lemma omap_cons_eq (f : Z -> option Z) a (l : list Z) :
  omap f (a :: l) = match f a with Some b => b :: omap f l | None => omap f l end.
Proof. reflexivity. Qed.

Lemma omap_same (f g : Z -> option Z) (l : list Z) : (forall y, y ∈ l -> g y = f y) -> omap g l = omap f l.
Proof.
  induction l as [|a l IH]; intros Hg; [done|]. rewrite !omap_cons_eq, Hg by (by left).
  by rewrite IH by (intros; apply Hg; by right).
Qed.

(** ... where one of them changes. *)
Lemma omap_insert (f g : Z -> option Z) (l : list Z) x b : NoDup l -> x ∈ l ->
  (forall y, y ∈ l -> y <> x -> g y = f y) -> f x = None -> g x = Some b -> omap g l ≡ₚ b :: omap f l.
Proof.
  induction l as [|a l IH]; intros Hn Hx Hg Hf Hb; [by apply elem_of_nil in Hx|]. apply NoDup_cons in Hn as [Ha Hn].
  rewrite !omap_cons_eq. destruct (decide (a = x)) as [->|Hne].
  - rewrite Hf, Hb. rewrite (omap_same f g); [done|]. intros y Hy. apply Hg; [by right|congruence].
  - rewrite (Hg a) by (done || by left). apply elem_of_cons in Hx as [|Hx]; [congruence|].
    pose proof (IH Hn Hx ltac:(intros; apply Hg; [by right|done]) Hf Hb) as IH'.
    destruct (f a); rewrite IH'; [apply Permutation_swap|done].
Qed.

(** Memory changed only inside the pages [l]. *)
Definition outside (l : list Z) (m m' : memory) : Prop :=
  forall x, (forall p, p ∈ l -> ~ in_page p x) -> m' x = m x.

Lemma outside_refl l m : outside l m m.
Proof. by intros x _. Qed.

Lemma outside_trans l l' m m' m'' : outside l m m' -> outside l' m' m'' -> (forall p, p ∈ l' -> p ∈ l) -> outside l m m''.
Proof. intros H1 H2 Hl x Hx. rewrite H2 by (intros p Hp; apply Hx, Hl, Hp). by apply H1. Qed.

Lemma outside_sub l l' m m' : outside l m m' -> (forall p, p ∈ l -> p ∈ l') -> outside l' m m'.
Proof. intros H Hl x Hx. apply H. intros p Hp. apply Hx, Hl, Hp. Qed.

(** A page that is not among them is as it was. *)
Lemma outside_page kend l m m' q x : outside l m m' -> Forall (valid_page kend) l -> valid_page kend q -> q ∉ l ->
  in_page q x -> m' x = m x.
Proof.
  intros H Hl Hq Hnin Hx. apply H. intros p Hp. rewrite Forall_forall in Hl.
  apply (pages_disjoint kend p q); [by apply Hl|done|congruence|done].
Qed.

Lemma freed_outside v s : outside [v] (k_mem s) (k_mem (freed v s)).
Proof. intros x Hx. apply freed_mem, Hx. by left. Qed.

Lemma omap_elem (f : Z -> option Z) (l : list Z) x b : x ∈ l -> f x = Some b -> b ∈ omap f l.
Proof. intros Hx Hf. apply list_elem_of_omap. by exists x. Qed.

Lemma omap_inj (f : Z -> option Z) (l : list Z) i j b : NoDup (omap f l) -> i ∈ l -> j ∈ l -> f i = Some b -> f j = Some b -> i = j.
Proof.
  induction l as [|a l IH]; intros Hn Hi Hj Hfi Hfj; [by apply elem_of_nil in Hi|]. rewrite omap_cons_eq in Hn.
  apply elem_of_cons in Hi as [->|Hi], Hj as [->|Hj]; [done|..].
  - rewrite Hfi in Hn. apply NoDup_cons in Hn as [Hn _]. destruct Hn. by eapply omap_elem.
  - rewrite Hfj in Hn. apply NoDup_cons in Hn as [Hn _]. destruct Hn. by eapply omap_elem.
  - apply IH; try done. destruct (f a); [by apply NoDup_cons in Hn as [_ Hn]|done].
Qed.

Lemma range_nodup a n : NoDup (range a n).
Proof. apply NoDup_seqZ. Qed.

(** Pages of memory filled with zeros. *)
Lemma memset_zero m p : forall x, in_page p x -> memset m p 0 PGBYTES x = 0.
Proof.
  unfold in_page, PGSIZE. intros x Hx. rewrite memset_spec, PGBYTES_Z.
  destruct (Z.leb_spec p x), (Z.ltb_spec x (p + 4096)); simpl; (done || lia).
Qed.

Lemma memset_outside m p c : outside [p] m (memset m p c PGBYTES).
Proof.
  intros x Hx. specialize (Hx p ltac:(by left)). unfold in_page, PGSIZE in Hx. rewrite memset_spec, PGBYTES_Z.
  destruct (Z.leb_spec p x), (Z.ltb_spec x (p + 4096)); simpl; (done || lia).
Qed.

Lemma store32_outside m p o v : 0 <= o -> o + 4 <= 4096 -> outside [p] m (store32 m (p + o) v).
Proof. intros H1 H2 x Hx. specialize (Hx p ltac:(by left)). unfold in_page, PGSIZE in Hx. apply store32_ne. lia. Qed.

Lemma load32_zero m a : (forall x, a <= x < a + 4 -> m x = 0) -> load32 m a = 0.
Proof. intros H. unfold load32. by rewrite !H by lia. Qed.

Lemma kmem_ok_outside kend s ps l m' : kmem_ok kend s ps -> outside l (k_mem s) m' -> Forall (valid_page kend) l ->
  (forall p, p ∈ l -> p ∉ ps) -> kmem_ok kend (set_mem m' s) ps.
Proof.
  intros [Hl Hr Hn] Ho Hv Hd. split; [done| |done]. simpl. eapply freelist_frame; [|exact Hr]. intros q y Hq Hy.
  eapply (outside_page kend l); [done|done|by eapply freelist_valid| |unfold in_page, PGSIZE; lia]. intros Hin. by apply (Hd q).
Qed.
