(* ===== verification/Vm.v ===== *)
(** Page tables (src/vm.c): the two-level tables in kernel memory, and the
    operations that build, extend, copy, shrink and free an address space.

    A page directory is a page of 1024 words in the memory of the page
    allocator; [kdata] is the address [data] that the linker script gives the
    kernel's data.  [loaduvm], which reads from a file, is in the file on
    [exec].  The loops take as many turns as there are pages in their range;
    the lemmas show that this is enough. *)

From S2P Require Import Prelude StringC Spinlock Kalloc.

(* src/memlayout.h:3-3 EXTMEM *)
Definition EXTMEM : Z := 1048576.
(* src/memlayout.h:5-5 DEVSPACE *)
Definition DEVSPACE : Z := 4261412864.
(* src/memlayout.h:9-9 KERNLINK *)
Definition KERNLINK : Z := KERNBASE + EXTMEM.
(* src/mmu.h:83-83 NPDENTRIES *)
Definition NPDENTRIES : Z := 1024.
(* src/mmu.h:94-94 PTE_P *)
Definition PTE_P : Z := 1.
(* src/mmu.h:95-95 PTE_W *)
Definition PTE_W : Z := 2.
(* src/mmu.h:96-96 PTE_U *)
Definition PTE_U : Z := 4.

(* src/mmu.h:74-74 PDX *)
Definition PDX (va : Z) : Z := Z.land (Z.shiftr (u32 va) 22) 1023.
(* src/mmu.h:77-77 PTX *)
Definition PTX (va : Z) : Z := Z.land (Z.shiftr (u32 va) 12) 1023.
(* src/mmu.h:80-80 PGADDR *)
Definition PGADDR (d t o : Z) : Z := u32 (Z.lor (Z.lor (Z.shiftl d 22) (Z.shiftl t 12)) o).
(* src/mmu.h:100-100 PTE_ADDR *)
Definition PTE_ADDR (pte : Z) : Z := Z.land (u32 pte) 4294963200.
(* src/mmu.h:101-101 PTE_FLAGS *)
Definition PTE_FLAGS (pte : Z) : Z := Z.land (u32 pte) 4095.

Definition ld (a : Z) : M kstate Z := gets (fun s => load32 (k_mem s) a).
Definition st (a v : Z) : M kstate unit := modify (fun s => set_mem (store32 (k_mem s) a v) s).
Definition fill (a c : Z) (n : nat) : M kstate unit := modify (fun s => set_mem (memset (k_mem s) a c n) s).
Definition move (d a : Z) (n : nat) : M kstate unit := modify (fun s => set_mem (memmove (k_mem s) d a n) s).

Definition present (e : Z) : bool := truth (Z.land e PTE_P).

(* src/vm.c:32-55 walkpgdir *)
Definition walkpgdir (pgdir va : Z) (alloc : bool) : M kstate Z :=
  let pde := pgdir + 4 * PDX va in
  e <- ld pde ;;
  if present e then ret (P2V (PTE_ADDR e) + 4 * PTX va)
  else if negb alloc then ret 0
  else
    pgtab <- kalloc ;;
    if pgtab =? 0 then ret 0
    else
      (* Make sure all those PTE_P bits are zero. *)
      fill pgtab 0 PGBYTES ;;
      st pde (Z.lor (Z.lor (Z.lor (V2P pgtab) PTE_P) PTE_W) PTE_U) ;;
      ret (pgtab + 4 * PTX va).

Fixpoint mappages_loop (fuel : nat) (pgdir a last pa perm : Z) : M kstate Z :=
  match fuel with
  | O => panic "fuel"
  | S f =>
      pte <- walkpgdir pgdir a true ;;
      if pte =? 0 then ret (-1)
      else
        e <- ld pte ;;
        if present e then panic "remap"
        else
          st pte (Z.lor (Z.lor pa perm) PTE_P) ;;
          if a =? last then ret 0
          else mappages_loop f pgdir (u32 (a + PGSIZE)) last (u32 (pa + PGSIZE)) perm
  end.

(* src/vm.c:57-80 mappages *)
Definition mappages (pgdir va size pa perm : Z) : M kstate Z :=
  let a := PGROUNDDOWN va in
  let last := PGROUNDDOWN (u32 (va + size - 1)) in
  mappages_loop (S (Z.to_nat (u32 (last - a) / PGSIZE))) pgdir a last pa perm.

Section vm.
Variable kend kdata : Z.

Fixpoint deallocuvm_loop (fuel : nat) (pgdir a oldsz : Z) : M kstate unit :=
  match fuel with
  | O => panic "fuel"
  | S f =>
      if a <? oldsz then
        pte <- walkpgdir pgdir a false ;;
        if pte =? 0 then
          deallocuvm_loop f pgdir (u32 (u32 (PGADDR (PDX a + 1) 0 0 - PGSIZE) + PGSIZE)) oldsz
        else
          e <- ld pte ;;
          (if present e then
             let pa := PTE_ADDR e in
             if pa =? 0 then panic "kfree"
             else kfree kend (P2V pa) ;; st pte 0
           else ret tt) ;;
          deallocuvm_loop f pgdir (u32 (a + PGSIZE)) oldsz
      else ret tt
  end.

(* src/vm.c:251-279 deallocuvm *)
Definition deallocuvm (pgdir oldsz newsz : Z) : M kstate Z :=
  if oldsz <=? newsz then ret oldsz
  else
    deallocuvm_loop (S (Z.to_nat (oldsz / PGSIZE + 1))) pgdir (PGROUNDUP newsz) oldsz ;;
    ret newsz.

(* src/vm.c:281-298 freevm *)
Definition freevm (pgdir : Z) : M kstate unit :=
  if pgdir =? 0 then panic "freevm: no pgdir"
  else
    deallocuvm pgdir KERNBASE 0 ;;
    for_each (range 0 (Z.to_nat NPDENTRIES)) (fun i =>
      e <- ld (pgdir + 4 * i) ;;
      if present e then kfree kend (P2V (PTE_ADDR e)) else ret tt) ;;
    kfree kend pgdir.

Fixpoint allocuvm_loop (fuel : nat) (pgdir a oldsz newsz : Z) : M kstate Z :=
  match fuel with
  | O => panic "fuel"
  | S f =>
      if a <? newsz then
        mem <- kalloc ;;
        if mem =? 0 then deallocuvm pgdir newsz oldsz ;; ret 0
        else
          fill mem 0 PGBYTES ;;
          r <- mappages pgdir a PGSIZE (V2P mem) (Z.lor PTE_W PTE_U) ;;
          if r <? 0 then deallocuvm pgdir newsz oldsz ;; kfree kend mem ;; ret 0
          else allocuvm_loop f pgdir (u32 (a + PGSIZE)) oldsz newsz
      else ret newsz
  end.

(** The messages [allocuvm] prints when it fails are not part of the state. *)

(* src/vm.c:219-249 allocuvm *)
Definition allocuvm (pgdir oldsz newsz : Z) : M kstate Z :=
  if KERNBASE <=? newsz then ret 0
  else if newsz <? oldsz then ret oldsz
  else allocuvm_loop (S (Z.to_nat (newsz / PGSIZE + 1))) pgdir (PGROUNDUP oldsz) oldsz newsz.

(* src/vm.c:105-110 kmap *)
Record kmap := Kmap { k_virt : Z; phys_start : Z; phys_end : Z; k_perm : Z }.

(* src/vm.c:110-115 kmap *)
Definition kmap_table : list kmap := [
  Kmap KERNBASE 0 EXTMEM PTE_W;                    (* I/O space *)
  Kmap KERNLINK (V2P KERNLINK) (V2P kdata) 0;      (* kern text+rodata *)
  Kmap kdata (V2P kdata) PHYSTOP PTE_W;            (* kern data+memory *)
  Kmap DEVSPACE DEVSPACE 0 PTE_W                   (* more devices *)
].

Fixpoint setupkvm_loop (pgdir : Z) (l : list kmap) : M kstate Z :=
  match l with
  | [] => ret pgdir
  | k :: l' =>
      r <- mappages pgdir (k_virt k) (u32 (phys_end k - phys_start k)) (phys_start k) (k_perm k) ;;
      if r <? 0 then freevm pgdir ;; ret 0 else setupkvm_loop pgdir l'
  end.

(* src/vm.c:117-136 setupkvm *)
Definition setupkvm : M kstate Z :=
  pgdir <- kalloc ;;
  if pgdir =? 0 then ret 0
  else
    fill pgdir 0 PGBYTES ;;
    if DEVSPACE <? P2V PHYSTOP then panic "PHYSTOP too high"
    else setupkvm_loop pgdir kmap_table.

(** [init] is the image of initcode in kernel memory. *)

(* src/vm.c:180-193 inituvm *)
Definition inituvm (pgdir init sz : Z) : M kstate unit :=
  if PGSIZE <=? sz then panic "inituvm: more than a page"
  else
    mem <- kalloc ;;
    fill mem 0 PGBYTES ;;
    mappages pgdir 0 PGSIZE (V2P mem) (Z.lor PTE_W PTE_U) ;;
    move mem init (Z.to_nat sz).

(* src/vm.c:300-311 clearpteu *)
Definition clearpteu (pgdir uva : Z) : M kstate unit :=
  pte <- walkpgdir pgdir uva false ;;
  if pte =? 0 then panic "clearpteu"
  else e <- ld pte ;; st pte (Z.ldiff e PTE_U).

Fixpoint copyuvm_loop (fuel : nat) (pgdir d i sz : Z) : M kstate Z :=
  match fuel with
  | O => panic "fuel"
  | S f =>
      if i <? sz then
        pte <- walkpgdir pgdir i false ;;
        if pte =? 0 then panic "copyuvm: pte should exist"
        else
          e <- ld pte ;;
          if negb (present e) then panic "copyuvm: page not present"
          else
            let pa := PTE_ADDR e in
            let flags := PTE_FLAGS e in
            mem <- kalloc ;;
            if mem =? 0 then freevm d ;; ret 0
            else
              move mem (P2V pa) PGBYTES ;;
              r <- mappages d i PGSIZE (V2P mem) flags ;;
              if r <? 0 then kfree kend mem ;; freevm d ;; ret 0
              else copyuvm_loop f pgdir d (u32 (i + PGSIZE)) sz
      else ret d
  end.

(* src/vm.c:313-345 copyuvm *)
Definition copyuvm (pgdir sz : Z) : M kstate Z :=
  d <- setupkvm ;;
  if d =? 0 then ret 0
  else copyuvm_loop (S (Z.to_nat (sz / PGSIZE + 1))) pgdir d 0 sz.

(** [uva2ka] does not test the pointer that [walkpgdir] returns; a null
    pointer is followed into the user part of the current address space, which
    is outside this state: the model stops there. *)

(* src/vm.c:347-360 uva2ka *)
Definition uva2ka (pgdir uva : Z) : M kstate Z :=
  pte <- walkpgdir pgdir uva false ;;
  if pte =? 0 then panic "uva2ka: null pte"
  else
    e <- ld pte ;;
    if Z.land e PTE_P =? 0 then ret 0
    else if Z.land e PTE_U =? 0 then ret 0
    else ret (P2V (PTE_ADDR e)).

(** Copying the bytes of [buf] to the address [a]. *)
Definition put_buf (a : Z) (buf : list Z) : M kstate unit :=
  modify (fun s => set_mem (fun x => if (a <=? x) && (x <? a + Z.of_nat (length buf))
                                     then nth (Z.to_nat (x - a)) buf 0 else k_mem s x) s).

Fixpoint copyout_loop (fuel : nat) (pgdir va : Z) (buf : list Z) (len : Z) : M kstate Z :=
  match fuel with
  | O => panic "fuel"
  | S f =>
      if 0 <? len then
        let va0 := PGROUNDDOWN va in
        pa0 <- uva2ka pgdir va0 ;;
        if pa0 =? 0 then ret (-1)
        else
          let n := Z.min (PGSIZE - (va - va0)) len in
          put_buf (pa0 + (va - va0)) (take (Z.to_nat n) buf) ;;
          copyout_loop f pgdir (u32 (va0 + PGSIZE)) (drop (Z.to_nat n) buf) (len - n)
      else ret 0
  end.

(** [buf] holds the [len] bytes to copy. *)

(* src/vm.c:362-386 copyout *)
Definition copyout (pgdir va : Z) (buf : list Z) (len : Z) : M kstate Z :=
  copyout_loop (S (Z.to_nat len)) pgdir va buf len.
End vm.
