(* ===== verification/VmSpec.v ===== *)
(** The address space that a page directory describes, and the lemmas on the
    operations of Vm that read and extend it.

    Page [v] of the virtual address space is the 4096 bytes from [4096 * v];
    [pte m pg v] is the entry the hardware finds for it.  An operation works on
    the pages of its directory [pg] and on the free pages [ps], and leaves
    alone the pages [R] that belong to others: [dir_ok] says that all of these
    are different pages. *)

From S2P Require Import Prelude StringC Spinlock Kalloc Pages Vm.

(** The number of pages, and of pages below [KERNBASE]; sealed, so that the
    lists below are never computed. *)
Lemma NPAGES_seal : {n : Z | n = 1048576}.
Proof. by eexists. Qed.
Lemma NUSER_seal : {n : Z | n = 524288}.
Proof. by eexists. Qed.
Definition NPAGES : Z := proj1_sig NPAGES_seal.
Definition NUSER : Z := proj1_sig NUSER_seal.
Lemma NPAGES_eq : NPAGES = 1048576.
Proof. apply (proj2_sig NPAGES_seal). Qed.
Lemma NUSER_eq : NUSER = 524288.
Proof. apply (proj2_sig NUSER_seal). Qed.

Definition pde (m : memory) (pg d : Z) : Z := load32 m (pg + 4 * d).
Definition frame_of (e : Z) : Z := P2V (PTE_ADDR e).
Definition table (m : memory) (pg d : Z) : Z := frame_of (pde m pg d).
Definition pte (m : memory) (pg v : Z) : Z :=
  if present (pde m pg (v / 1024)) then load32 m (table m pg (v / 1024) + 4 * (v mod 1024)) else 0.

(** The frames of the present entries among [f v], [v] in a list. *)
Definition frame (f : Z -> Z) (v : Z) : option Z := if present (f v) then Some (frame_of (f v)) else None.
Definition frames (f : Z -> Z) (l : list Z) : list Z := omap (frame f) l.
Definition tables (m : memory) (pg : Z) : list Z := frames (pde m pg) (range 0 1024).
Definition upages (m : memory) (pg : Z) : list Z := frames (pte m pg) (range 0 (Z.to_nat NUSER)).
Definition owned (m : memory) (pg : Z) : list Z := pg :: tables m pg ++ upages m pg.

#[local] Opaque range.

(* ------------------------------------------------------------------ *)
(** * Addresses and entries *)

Lemma land_1023 x : Z.land x 1023 = x mod 1024.
Proof. change 1023 with (Z.ones 10). by rewrite Z.land_ones. Qed.

Lemma PDX_page v o : 0 <= v < NPAGES -> 0 <= o < 4096 -> PDX (v * 4096 + o) = v / 1024.
Proof.
  rewrite NPAGES_eq. intros Hv Ho. unfold PDX. rewrite u32_id by lia. rewrite Z.shiftr_div_pow2 by lia.
  change (2 ^ 22) with 4194304. rewrite land_1023. zsolve.
Qed.

Lemma PTX_page v o : 0 <= v < NPAGES -> 0 <= o < 4096 -> PTX (v * 4096 + o) = v mod 1024.
Proof.
  rewrite NPAGES_eq. intros Hv Ho. unfold PTX. rewrite u32_id by lia. rewrite Z.shiftr_div_pow2 by lia.
  change (2 ^ 12) with 4096. rewrite land_1023. zsolve.
Qed.

Lemma PTE_ADDR_eq e : 0 <= e < 4294967296 -> PTE_ADDR e = e / 4096 * 4096.
Proof. intros He. unfold PTE_ADDR. rewrite u32_id by lia. by apply land_page. Qed.

Lemma PTE_FLAGS_eq e : 0 <= e < 4294967296 -> PTE_FLAGS e = e mod 4096.
Proof. intros He. unfold PTE_FLAGS. rewrite u32_id by lia. change 4095 with (Z.ones 12). by rewrite Z.land_ones. Qed.

Lemma present_odd e : present e = Z.odd e.
Proof.
  unfold present, truth, PTE_P. change 1 with (Z.ones 1). rewrite Z.land_ones by lia. change (2 ^ 1) with 2.
  rewrite Zmod_odd. by destruct (Z.odd e).
Qed.

(** An entry made from a page-aligned address and flags. *)
Lemma lor_page a f : a mod 4096 = 0 -> 0 <= f < 4096 -> Z.lor a f = a + f.
Proof.
  intros Ha Hf. assert (E : a = (a / 4096) * 2 ^ 12) by (change (2 ^ 12) with 4096; zsolve). rewrite E. by apply lor_low.
Qed.

Lemma lor_flags f : 0 <= f < 4096 -> 0 <= Z.lor f 1 < 4096 /\ Z.odd (Z.lor f 1) = true.
Proof.
  intros Hf. split.
  - split; [apply Z.lor_nonneg; lia|]. destruct (decide (Z.lor f 1 = 0)) as [->|Hz]; [lia|].
    apply Z.log2_lt_cancel. rewrite Z.log2_lor by lia. change (Z.log2 4096) with 12. change (Z.log2 1) with 0.
    apply Z.max_lub_lt; [|lia]. destruct (decide (f = 0)) as [->|]; [done|]. apply Z.log2_lt_pow2; [lia|]. change (2 ^ 12) with 4096. lia.
  - rewrite <- Z.bit0_odd, Z.lor_spec. apply orb_true_r.
Qed.

Record entry_of (e pa f : Z) : Prop := {
  en_range : 0 <= e < 4294967296;
  en_addr : PTE_ADDR e = pa;
  en_flags : PTE_FLAGS e = Z.lor f 1;
  en_present : present e = true;
}.

Lemma entry_ok pa f : pa mod 4096 = 0 -> 0 <= pa < 4294967296 -> 0 <= f < 4096 -> entry_of (Z.lor (Z.lor pa f) 1) pa f.
Proof.
  intros Ha Hr Hf. destruct (lor_flags f Hf) as [H1 H2]. rewrite <- Z.lor_assoc, lor_page by done.
  split.
  - zsolve.
  - rewrite PTE_ADDR_eq by zsolve. zsolve.
  - rewrite PTE_FLAGS_eq by zsolve. zsolve.
  - rewrite present_odd, Z.odd_add, H2. assert (E : pa = 2 * (pa / 2)) by zsolve. rewrite E, Z.odd_mul. done.
Qed.

Section spec.
Variable kend : Z.
Abbreviation valid := (valid_page kend).

Lemma V2P_valid p : valid p -> V2P p mod 4096 = 0 /\ 0 <= V2P p < 4294967296 /\ P2V (V2P p) = p /\ p <> 0.
Proof. unfold valid_page, V2P, P2V, PGSIZE, PHYSTOP, KERNBASE. intros (H1 & _ & H2). zsolve. Qed.

Lemma frame_entry e p f : valid p -> entry_of e (V2P p) f -> frame_of e = p.
Proof. intros Hp [_ He _ _]. unfold frame_of. rewrite He. apply V2P_valid, Hp. Qed.

(** The directory entry [walkpgdir] makes for the table [p]. *)
Lemma dir_entry p : valid p -> let e := Z.lor (Z.lor (Z.lor (V2P p) PTE_P) PTE_W) PTE_U in
  0 <= e < 4294967296 /\ present e = true /\ frame_of e = p.
Proof.
  intros Hp e. destruct (V2P_valid p Hp) as (H1 & H2 & H3 & _).
  assert (E : e = Z.lor (Z.lor (V2P p) 6) 1) by (unfold e, PTE_P, PTE_W, PTE_U; rewrite <- !Z.lor_assoc; done).
  rewrite E. pose proof (entry_ok (V2P p) 6 H1 H2 ltac:(lia)) as He. split; [apply He|]. split; [apply He|by apply (frame_entry _ p 6)].
Qed.

Lemma pde_ext m m' pg d : 0 <= d < 1024 -> (forall x, in_page pg x -> m' x = m x) -> pde m' pg d = pde m pg d.
Proof. intros Hd Hm. apply load32_ext. intros x Hx. apply Hm. unfold in_page, PGSIZE. lia. Qed.

Lemma table_elem m pg d : 0 <= d < 1024 -> present (pde m pg d) = true -> table m pg d ∈ tables m pg.
Proof. intros Hd Hp. unfold tables, frames. eapply omap_elem; [apply elem_of_range; exact Hd|]. unfold frame. by rewrite Hp. Qed.

Lemma table_inj m pg d d' : NoDup (tables m pg) -> 0 <= d < 1024 -> 0 <= d' < 1024 ->
  present (pde m pg d) = true -> present (pde m pg d') = true -> table m pg d = table m pg d' -> d = d'.
Proof.
  unfold tables, frames. intros Hn Hd Hd' Hp Hp' E. apply (omap_inj (frame (pde m pg)) (range 0 1024) d d' (table m pg d)).
  - exact Hn.
  - apply elem_of_range, Hd.
  - apply elem_of_range, Hd'.
  - unfold frame. by rewrite Hp.
  - unfold frame. rewrite Hp'. by rewrite E.
Qed.

Lemma pte_ext m m' pg v : 0 <= v < NPAGES -> (forall x, in_page pg x -> m' x = m x) ->
  (forall x, present (pde m pg (v / 1024)) = true -> in_page (table m pg (v / 1024)) x -> m' x = m x) ->
  pte m' pg v = pte m pg v.
Proof.
  rewrite NPAGES_eq. intros Hv Hpg Ht. unfold pte, table. rewrite (pde_ext m m') by (done || zsolve).
  destruct (present _) eqn:E; [|done]. apply load32_ext. intros x Hx. apply Ht; [done|]. unfold in_page, PGSIZE, table. zsolve.
Qed.

Lemma frames_ext f g l : (forall v, v ∈ l -> g v = f v) -> frames g l = frames f l.
Proof. intros H. unfold frames. apply omap_same. intros v Hv. unfold frame. by rewrite H. Qed.

(** Writing elsewhere does not change what the directory says. *)
Lemma dir_same m m' pg : (forall q x, q ∈ pg :: tables m pg -> in_page q x -> m' x = m x) ->
  (forall d, 0 <= d < 1024 -> pde m' pg d = pde m pg d) /\ (forall v, 0 <= v < NPAGES -> pte m' pg v = pte m pg v) /\
  tables m' pg = tables m pg /\ upages m' pg = upages m pg.
Proof.
  intros Hm. assert (Hd : forall d, 0 <= d < 1024 -> pde m' pg d = pde m pg d).
  { intros d Hd. apply pde_ext; [done|]. intros x. apply Hm. by left. }
  assert (Hp : forall v, 0 <= v < NPAGES -> pte m' pg v = pte m pg v).
  { intros v Hv. apply pte_ext; [done|intros x; apply Hm; by left|]. intros x E. apply Hm. right.
    apply table_elem; [|done]. rewrite NPAGES_eq in Hv. zsolve. }
  split; [done|]. split; [done|]. split; apply frames_ext; intros v Hv; apply elem_of_range in Hv; [apply Hd; lia|].
  apply Hp. rewrite NPAGES_eq. rewrite NUSER_eq in Hv. lia.
Qed.

(** The pages of the directory [pg], the free pages [ps] and the pages [R] of
    others are different pages. *)
Record dir_ok (s : kstate) (ps : list Z) (pg : Z) (R : list Z) : Prop := {
  do_kmem : kmem_ok kend s ps;
  do_nodup : NoDup (R ++ pg :: ps ++ tables (k_mem s) pg);
  do_valid : Forall valid (R ++ pg :: ps ++ tables (k_mem s) pg);
}.

Lemma dir_ok_perm s ps pg R s' ps' R' : dir_ok s ps pg R -> kmem_ok kend s' ps' ->
  R' ++ ps' ++ tables (k_mem s') pg ≡ₚ R ++ ps ++ tables (k_mem s) pg -> dir_ok s' ps' pg R'.
Proof.
  intros [H1 H2 H3] Hk Hp.
  assert (E : R' ++ pg :: ps' ++ tables (k_mem s') pg ≡ₚ R ++ pg :: ps ++ tables (k_mem s) pg)  by (clear - Hp; cnt_solve).
  split; [done|by rewrite E|by rewrite E].
Qed.

(** The effect of an operation on the directory: [f] are the new entries. *)
Record dir_step (s : kstate) (ps : list Z) (pg : Z) (f : Z -> Z) (s' : kstate) (ps' : list Z) : Prop := {
  ds_kmem : kmem_ok kend s' ps';
  ds_perm : ps' ++ tables (k_mem s') pg ≡ₚ ps ++ tables (k_mem s) pg;
  ds_pte : forall v, 0 <= v < NPAGES -> pte (k_mem s') pg v = f v;
  ds_out : outside (pg :: ps ++ tables (k_mem s) pg) (k_mem s) (k_mem s');
}.

Lemma dir_step_ok s ps pg R f s' ps' : dir_ok s ps pg R -> dir_step s ps pg f s' ps' -> dir_ok s' ps' pg R.
Proof. intros Hd [H1 H2 _ _]. apply (dir_ok_perm s ps pg R); [done|done|]. by rewrite H2. Qed.

Lemma dir_step_refl s ps pg R : dir_ok s ps pg R -> dir_step s ps pg (pte (k_mem s) pg) s ps.
Proof. intros [H _ _]. split; [done|done|done|apply outside_refl]. Qed.

Lemma dir_step_trans s ps pg f s1 ps1 f' s2 ps2 : dir_step s ps pg f s1 ps1 -> dir_step s1 ps1 pg f' s2 ps2 -> dir_step s ps pg f' s2 ps2.
Proof.
  intros [A1 A2 A3 A4] [B1 B2 B3 B4]. split; [done|by rewrite B2|done|]. eapply outside_trans; [exact A4|exact B4|].
  intros p Hp. clear - A2 Hp. apply elem_cnt in Hp. apply elem_cnt. cnt_at p.
Qed.

(** The pages of others are untouched. *)
Lemma dir_step_frame s ps pg R f s' ps' q x : dir_ok s ps pg R -> dir_step s ps pg f s' ps' -> q ∈ R -> in_page q x ->
  k_mem s' x = k_mem s x.
Proof.
  intros [_ H2 H3] [_ _ _ H4] Hq Hx. rewrite Forall_app in H3. destruct H3 as [V1 V2].
  eapply outside_page; [exact H4|exact V2|rewrite Forall_forall in V1; by apply V1| |exact Hx].
  clear - H2 Hq. cnt_solve.
Qed.

Lemma PDX_page0 v : 0 <= v < NPAGES -> PDX (v * 4096) = v / 1024.
Proof. intros Hv. rewrite <- (Z.add_0_r (v * 4096)). apply PDX_page; [done|lia]. Qed.
Lemma PTX_page0 v : 0 <= v < NPAGES -> PTX (v * 4096) = v mod 1024.
Proof. intros Hv. rewrite <- (Z.add_0_r (v * 4096)). apply PTX_page; [done|lia]. Qed.

Lemma page_index v : 0 <= v < NPAGES -> 0 <= v / 1024 < 1024 /\ 0 <= v mod 1024 < 1024.
Proof. rewrite NPAGES_eq. zsolve. Qed.

Lemma dir_valid s ps pg R p : dir_ok s ps pg R -> p ∈ R ++ pg :: ps ++ tables (k_mem s) pg -> valid p.
Proof. intros [_ _ H]. rewrite Forall_forall in H. apply H. Qed.

(** The address of the entry for page [v], once its table is there. *)
Definition slot (m : memory) (pg v : Z) : Z := table m pg (v / 1024) + 4 * (v mod 1024).

Lemma walk_found s pg v alloc : 0 <= v < NPAGES -> present (pde (k_mem s) pg (v / 1024)) = true ->
  walkpgdir pg (v * 4096) alloc s = Ok (slot (k_mem s) pg v) s.
Proof. intros Hv Hp. unfold walkpgdir, ld, bind, gets. rewrite PDX_page0, PTX_page0 by done. fold (pde (k_mem s) pg (v / 1024)). by rewrite Hp. Qed.

Lemma walk_missing s pg v : 0 <= v < NPAGES -> present (pde (k_mem s) pg (v / 1024)) = false ->
  walkpgdir pg (v * 4096) false s = Ok 0 s.
Proof. intros Hv Hp. unfold walkpgdir, ld, bind, gets. rewrite PDX_page0 by done. fold (pde (k_mem s) pg (v / 1024)). by rewrite Hp. Qed.

Lemma slot_nonzero s ps pg R v : dir_ok s ps pg R -> 0 <= v < NPAGES -> present (pde (k_mem s) pg (v / 1024)) = true ->
  slot (k_mem s) pg v <> 0.
Proof.
  intros Hd Hv Hp. destruct (page_index v Hv) as [H1 H2]. pose proof (table_elem _ _ _ H1 Hp) as Ht.
  assert (V : valid (table (k_mem s) pg (v / 1024))) by (apply (dir_valid s ps pg R); [done|cnt_solve]).
  destruct V as (_ & _ & V). unfold slot. unfold KERNBASE in V. lia.
Qed.

(** A new page table: the directory entry [d] now refers to the zeroed page [p]. *)
Lemma new_table m m' pg d p e : 0 <= d < 1024 -> present (pde m pg d) = false -> valid pg -> valid p -> p <> pg ->
  Forall valid (tables m pg) -> p ∉ tables m pg -> pg ∉ tables m pg ->
  0 <= e < 4294967296 -> present e = true -> frame_of e = p ->
  m' = store32 (memset m p 0 PGBYTES) (pg + 4 * d) e ->
  pde m' pg d = e /\ tables m' pg ≡ₚ p :: tables m pg /\ (forall v, 0 <= v < NPAGES -> pte m' pg v = pte m pg v) /\ outside [pg; p] m m'.
Proof.
  intros Hd Hnp Vg Vp Hne Vt Ht Htg He Hpe Hfe Hm'.
  assert (Ho : outside [pg; p] m m').
  { rewrite Hm'. intros x Hx. rewrite (store32_outside _ pg (4 * d)) by (lia || (intros q ->%list_elem_of_singleton; apply Hx; by left)).
    apply memset_outside. intros q ->%list_elem_of_singleton. apply Hx. right. by left. }
  assert (Hsame : forall q x, valid q -> q <> pg -> q <> p -> in_page q x -> m' x = m x).
  { intros q x Vq H1 H2. apply (outside_page kend [pg; p]); [done|by apply Forall_two|done|]. cnt_solve. }
  assert (Hz : forall x, in_page p x -> m' x = 0).
  { intros x Hx. rewrite Hm'. rewrite (store32_outside _ pg (4 * d)) by (lia || (intros q ->%list_elem_of_singleton; by apply (pages_disjoint kend pg p))).
    by apply memset_zero. }
  assert (Hd1 : pde m' pg d = e) by (unfold pde; rewrite Hm', load32_store32; by apply u32_id).
  assert (Hd2 : forall d', 0 <= d' < 1024 -> d' <> d -> pde m' pg d' = pde m pg d').
  { intros d' H1 H2. unfold pde. rewrite Hm', load32_store32_ne by lia. apply load32_ext. intros x Hx. apply memset_outside.
    intros q ->%list_elem_of_singleton. apply (pages_disjoint kend p pg); [done|done|done|]. unfold in_page, PGSIZE. lia. }
  split; [done|]. split; [|split; [|done]].
  - unfold tables, frames. apply (omap_insert _ _ _ d); [apply range_nodup|by apply elem_of_range|..].
    + intros y Hy Hyd. unfold frame. rewrite Hd2; [done|apply elem_of_range in Hy; lia|done].
    + unfold frame. by rewrite Hnp.
    + unfold frame. by rewrite Hd1, Hpe, Hfe.
  - intros v Hv. destruct (page_index v Hv) as [H1 H2]. unfold pte, table. destruct (decide (v / 1024 = d)) as [->|Hvd].
    + rewrite Hd1, Hpe, Hnp, Hfe. apply load32_zero. intros x Hx. apply Hz. unfold in_page, PGSIZE. lia.
    + rewrite Hd2 by done. destruct (present (pde m pg (v / 1024))) eqn:E; [|done].
      pose proof (table_elem _ _ _ H1 E) as Hin. rewrite Forall_forall in Vt.
      apply load32_ext. intros x Hx. apply (Hsame (table m pg (v / 1024))); [by apply Vt|congruence|congruence|].
      unfold in_page, PGSIZE, table. lia.
Qed.

Lemma walk_new s pg v : 0 <= v < NPAGES -> present (pde (k_mem s) pg (v / 1024)) = false ->
  walkpgdir pg (v * 4096) true s =
  (pgtab <- kalloc ;;
   if pgtab =? 0 then ret 0
   else fill pgtab 0 PGBYTES ;;
        st (pg + 4 * (v / 1024)) (Z.lor (Z.lor (Z.lor (V2P pgtab) PTE_P) PTE_W) PTE_U) ;;
        ret (pgtab + 4 * (v mod 1024))) s.
Proof.
  intros Hv Hp. unfold walkpgdir, ld. rewrite PDX_page0, PTX_page0 by done. etrans; [by apply bind_ok|]. unfold pde in Hp. by rewrite Hp.
Qed.

(** [walkpgdir] with [alloc]: the entry's table is there afterwards, unless
    one was missing and no page is free. *)
Lemma walk_alloc s ps pg R v : dir_ok s ps pg R -> 0 <= v < NPAGES ->
  (walkpgdir pg (v * 4096) true s = Ok 0 s /\ ps = []) \/
  exists s' ps', walkpgdir pg (v * 4096) true s = Ok (slot (k_mem s') pg v) s' /\
    present (pde (k_mem s') pg (v / 1024)) = true /\ dir_step s ps pg (pte (k_mem s) pg) s' ps'.
Proof.
  intros Hd Hv. destruct (present (pde (k_mem s) pg (v / 1024))) eqn:E.
  { right. exists s, ps. split; [by apply walk_found|]. split; [done|by eapply dir_step_refl]. }
  destruct (page_index v Hv) as [H1 H2]. rewrite (walk_new s pg v Hv E). destruct ps as [|p ps].
  { left. split; [|done]. by rewrite (bind_ok _ _ _ _ _ (kalloc_empty kend s (do_kmem _ _ _ _ Hd))). }
  right. destruct (kalloc_list kend s p ps (do_kmem _ _ _ _ Hd)) as (s1 & Hk & Hk1 & Hm).
  assert (Hal : forall q, q ∈ R ++ pg :: (p :: ps) ++ tables (k_mem s) pg -> valid q) by (intros q; by apply (dir_valid s _ pg R)).
  assert (Vp : valid p) by (apply Hal; cnt_solve). assert (Vg : valid pg) by (apply Hal; cnt_solve).
  pose proof (do_nodup _ _ _ _ Hd) as Hnd. destruct (dir_entry p Vp) as (E1 & E2 & E3).
  rewrite (bind_ok _ _ _ _ _ Hk). destruct (V2P_valid p Vp) as (_ & _ & _ & Hp0). rewrite (proj2 (Z.eqb_neq p 0) Hp0).
  unfold fill, st, bind, modify, ret. simpl. rewrite Hm. set (e := Z.lor _ PTE_U) in *.
  set (m' := store32 (memset (k_mem s) p 0 PGBYTES) (pg + 4 * (v / 1024)) e).
  destruct (new_table (k_mem s) m' pg (v / 1024) p e H1 E Vg Vp) as (N1 & N2 & N3 & N4); try done.
  - clear - Hnd. cnt_solve.
  - apply Forall_forall. intros q Hq. apply Hal. cnt_solve.
  - clear - Hnd. cnt_solve.
  - clear - Hnd. cnt_solve.
  - exists (set_mem m' s1), ps. unfold slot, table. simpl. rewrite N1, E3.
    split; [done|]. split; [done|]. split; simpl.
    + apply (kmem_ok_outside kend s1 ps [pg; p]); [done|by rewrite Hm|by apply Forall_two|].
      intros q Hq. clear - Hnd Hq. cnt_solve.
    + rewrite N2. clear. cnt_solve.
    + done.
    + eapply outside_sub; [exact N4|]. intros q Hq. clear - Hq. cnt_solve.
Qed.

Definition put (f : Z -> Z) (v e : Z) : Z -> Z := fun v' => if decide (v' = v) then e else f v'.

(** Writing the entry for page [v]. *)
Lemma set_pte s ps pg R v e : dir_ok s ps pg R -> 0 <= v < NPAGES -> present (pde (k_mem s) pg (v / 1024)) = true -> 0 <= e < 4294967296 ->
  let s' := set_mem (store32 (k_mem s) (slot (k_mem s) pg v) e) s in
  dir_step s ps pg (put (pte (k_mem s) pg) v e) s' ps /\ tables (k_mem s') pg = tables (k_mem s) pg /\
  forall d, 0 <= d < 1024 -> pde (k_mem s') pg d = pde (k_mem s) pg d.
Proof.
  intros Hd Hv Hp He s'. destruct (page_index v Hv) as [H1 H2]. pose proof (table_elem _ _ _ H1 Hp) as Ht.
  set (t := table (k_mem s) pg (v / 1024)) in *. pose proof (do_nodup _ _ _ _ Hd) as Hnd.
  assert (Hal : forall q, q ∈ R ++ pg :: ps ++ tables (k_mem s) pg -> valid q) by (intros q; by apply (dir_valid s _ pg R)).
  assert (Vt : valid t) by (apply Hal; cnt_solve). assert (Vg : valid pg) by (apply Hal; cnt_solve).
  assert (Hne : t <> pg) by (clear - Hnd Ht; cnt_solve).
  assert (Ho : outside [t] (k_mem s) (k_mem s')) by (apply store32_outside; lia).
  assert (Hsame : forall q x, valid q -> q <> t -> in_page q x -> k_mem s' x = k_mem s x).
  { intros q x Vq Hq. apply (outside_page kend [t]); [done|by constructor|done|]. by rewrite list_elem_of_singleton. }
  assert (Hpd : forall d, 0 <= d < 1024 -> pde (k_mem s') pg d = pde (k_mem s) pg d).
  { intros d Hd1. apply pde_ext; [done|]. intros x. by apply Hsame. }
  assert (Htab : tables (k_mem s') pg = tables (k_mem s) pg).
  { apply frames_ext. intros d Hd1. apply Hpd. apply elem_of_range in Hd1. lia. }
  split; [split|done].
  - apply (kmem_ok_outside kend s ps [t]); [apply Hd|done|by constructor|].
    intros q ->%list_elem_of_singleton. clear - Hnd Ht. cnt_solve.
  - by rewrite Htab.
  - intros v' Hv'. destruct (page_index v' Hv') as [H3 H4]. unfold put, pte, table. rewrite Hpd by done.
    destruct (present (pde (k_mem s) pg (v' / 1024))) eqn:E; [|case_decide; [congruence|done]].
    destruct (decide (v' / 1024 = v / 1024)) as [Eq|Hneq].
    + rewrite Eq. fold (table (k_mem s) pg (v / 1024)). fold t. simpl. unfold slot. fold t. case_decide as Hc.
      * subst v'. rewrite load32_store32. by apply u32_id.
      * rewrite load32_store32_ne; [done|]. assert (v' mod 1024 <> v mod 1024) by (clear - Eq Hc; zsolve). lia.
    + rewrite decide_False by congruence. apply load32_ext. intros x Hx. apply (Hsame (table (k_mem s) pg (v' / 1024))).
      * pose proof (table_elem _ _ _ H3 E). apply Hal. cnt_solve.
      * intros Et. apply Hneq. apply (table_inj (k_mem s) pg); try done. clear - Hnd. cnt_solve.
      * unfold in_page, PGSIZE, table. lia.
  - eapply outside_sub; [exact Ho|]. intros q ->%list_elem_of_singleton. cnt_solve.
Qed.

Lemma pte_slot m pg v : present (pde m pg (v / 1024)) = true -> load32 m (slot m pg v) = pte m pg v.
Proof. intros H. unfold pte. by rewrite H. Qed.

(** One turn of [mappages]. *)
Lemma map_turn s ps pg R v fuel last pa perm : dir_ok s ps pg R -> 0 <= v < NPAGES -> present (pte (k_mem s) pg v) = false ->
  pa mod 4096 = 0 -> 0 <= pa < 4294967296 -> 0 <= perm < 4096 ->
  (mappages_loop (S fuel) pg (v * 4096) last pa perm s = Ok (-1) s /\ ps = []) \/
  exists s' ps', dir_step s ps pg (put (pte (k_mem s) pg) v (Z.lor (Z.lor pa perm) 1)) s' ps' /\
    mappages_loop (S fuel) pg (v * 4096) last pa perm s =
    (if v * 4096 =? last then Ok 0 s' else mappages_loop fuel pg (u32 (v * 4096 + PGSIZE)) last (u32 (pa + PGSIZE)) perm s').
Proof.
  intros Hd Hv Hnp Hpa Hpar Hperm. cbn [mappages_loop].
  destruct (walk_alloc s ps pg R v Hd Hv) as [[Hw ->]|(s1 & ps1 & Hw & Hp & Hst)].
  { left. split; [|done]. by rewrite (bind_ok _ _ _ _ _ Hw). }
  right. pose proof (dir_step_ok _ _ _ _ _ _ _ Hd Hst) as Hd1. pose proof (entry_ok pa perm Hpa Hpar Hperm) as He.
  destruct (set_pte s1 ps1 pg R v _ Hd1 Hv Hp (en_range _ _ _ He)) as (Hset & _).
  exists (set_mem (store32 (k_mem s1) (slot (k_mem s1) pg v) (Z.lor (Z.lor pa perm) 1)) s1), ps1. split.
  - eapply dir_step_trans; [exact Hst|]. destruct Hset as [S1 S2 S3 S4]. split; [done|done| |done].
    intros v' Hv'. rewrite S3 by done. unfold put. case_decide; [done|]. by apply (ds_pte _ _ _ _ _ _ Hst).
  - rewrite (bind_ok _ _ _ _ _ Hw). rewrite (proj2 (Z.eqb_neq _ 0) (slot_nonzero _ _ _ _ _ Hd1 Hv Hp)).
    unfold ld, st, bind, gets, modify. rewrite (pte_slot _ _ _ Hp), (ds_pte _ _ _ _ _ _ Hst v Hv), Hnp.
    by destruct (v * 4096 =? last).
Qed.

Lemma dir_step_ext s ps pg f g s' ps' : dir_step s ps pg f s' ps' -> (forall v, 0 <= v < NPAGES -> f v = g v) -> dir_step s ps pg g s' ps'.
Proof. intros [H1 H2 H3 H4] Hg. split; [done|done| |done]. intros v Hv. rewrite H3 by done. by apply Hg. Qed.

(** The entries after [k] pages from page [v] have been mapped to [pa]. *)
Definition mapped (f : Z -> Z) (v k pa perm : Z) : Z -> Z :=
  fun v' => if (v <=? v') && (v' <? v + k) then Z.lor (Z.lor (pa + (v' - v) * 4096) perm) 1 else f v'.

Lemma mapped_0 f v pa perm v' : mapped f v 0 pa perm v' = f v'.
Proof. unfold mapped. destruct (Z.leb_spec v v'), (Z.ltb_spec v' (v + 0)); simpl; (done || lia). Qed.

Lemma mapped_S f v k pa perm v' : 0 <= k ->
  mapped (put f v (Z.lor (Z.lor pa perm) 1)) (v + 1) k (pa + 4096) perm v' = mapped f v (k + 1) pa perm v'.
Proof.
  intros Hk. unfold mapped, put. destruct (decide (v' = v)) as [->|Hne].
  - destruct (Z.leb_spec (v + 1) v); [lia|]. destruct (Z.leb_spec v v); [|lia]. destruct (Z.ltb_spec v (v + (k + 1))); [|lia].
    simpl. do 2 f_equal. lia.
  - destruct (Z.leb_spec (v + 1) v'), (Z.leb_spec v v'); try lia; [|done]. destruct (Z.ltb_spec v' (v + 1 + k)), (Z.ltb_spec v' (v + (k + 1))); try lia; [|done].
    simpl. do 2 f_equal. lia.
Qed.

Lemma mappages_loop_ok perm pg R n : forall s ps v pa, dir_ok s ps pg R -> 0 <= v -> v + Z.of_nat n < NPAGES ->
  (forall v', v <= v' <= v + Z.of_nat n -> present (pte (k_mem s) pg v') = false) ->
  pa mod 4096 = 0 -> 0 <= pa -> pa + (Z.of_nat n + 1) * 4096 <= 4294967296 -> 0 <= perm < 4096 ->
  exists r s' ps' k, mappages_loop (S n) pg (v * 4096) ((v + Z.of_nat n) * 4096) pa perm s = Ok r s' /\
    dir_step s ps pg (mapped (pte (k_mem s) pg) v k pa perm) s' ps' /\ 0 <= k <= Z.of_nat n + 1 /\
    (r = 0 /\ k = Z.of_nat n + 1 \/ r = -1 /\ ps' = [] /\ k <= Z.of_nat n).
Proof.
  induction n as [|n IH]; intros s ps v pa Hd Hv Hvn Hnp Hpa Hpa0 Hpan Hperm.
  - destruct (map_turn s ps pg R v 0 ((v + 0) * 4096) pa perm Hd) as [[E ->]|(s1 & ps1 & Hst & E)]; [lia|apply Hnp; lia|done|lia|done|..].
    + exists (-1), s, [], 0. split; [exact E|]. split; [|split; [lia|right; split; [done|]; split; [done|lia]]].
      eapply dir_step_ext; [by eapply dir_step_refl|]. intros v' _. symmetry. apply mapped_0.
    + exists 0, s1, ps1, 1. rewrite Z.add_0_r, Z.eqb_refl in E. rewrite Z.add_0_r. split; [exact E|]. split; [|split; [lia|by left]].
      eapply dir_step_ext; [exact Hst|]. intros v' _. rewrite <- (mapped_S _ v 0) by lia. symmetry. apply mapped_0.
  - destruct (map_turn s ps pg R v (S n) ((v + Z.of_nat (S n)) * 4096) pa perm Hd) as [[E ->]|(s1 & ps1 & Hst & E)]; [lia|apply Hnp; lia|done|lia|done|..].
    { exists (-1), s, [], 0. split; [exact E|]. split; [|split; [lia|right; split; [done|]; split; [done|lia]]].
      eapply dir_step_ext; [by eapply dir_step_refl|]. intros v' _. symmetry. apply mapped_0. }
    destruct (IH s1 ps1 (v + 1) (pa + 4096)) as (r & s' & ps' & k & Hr & Hst' & Hk & Hres); [by eapply dir_step_ok|lia|lia| |zsolve|lia|lia|done|].
    { intros v' Hv'. rewrite (ds_pte _ _ _ _ _ _ Hst) by lia. unfold put. rewrite decide_False by lia. apply Hnp. lia. }
    exists r, s', ps', (k + 1). split; [|split; [|split; [lia|]]].
    + rewrite E. destruct (Z.eqb_spec (v * 4096) ((v + Z.of_nat (S n)) * 4096)); [lia|]. rewrite <- Hr. unfold PGSIZE.
      rewrite NPAGES_eq in Hvn. rewrite !u32_id by lia. do 2 f_equal; lia.
    + eapply dir_step_ext; [by eapply dir_step_trans|]. intros v' Hv'. rewrite <- mapped_S by lia. unfold mapped. simpl.
      destruct (_ && _); [done|]. by apply (ds_pte _ _ _ _ _ _ Hst).
    + destruct Hres as [[-> ->]|(-> & -> & H)]; [left; split; [done|lia]|right; split; [done|]; split; [done|lia]].
Qed.

(** [mappages] of [n] pages from page [v] that are not mapped: all of them are
    mapped, or memory ran out. *)
Lemma mappages_ok s ps pg R v n pa perm : dir_ok s ps pg R -> 0 <= v -> 1 <= n -> v + n <= NPAGES ->
  (forall v', v <= v' < v + n -> present (pte (k_mem s) pg v') = false) ->
  pa mod 4096 = 0 -> 0 <= pa -> pa + n * 4096 <= 4294967296 -> 0 <= perm < 4096 ->
  exists r s' ps' k, mappages pg (v * 4096) (u32 (n * 4096)) pa perm s = Ok r s' /\
    dir_step s ps pg (mapped (pte (k_mem s) pg) v k pa perm) s' ps' /\ 0 <= k <= n /\
    (r = 0 /\ k = n \/ r = -1 /\ ps' = [] /\ k < n).
Proof.
  intros Hd Hv Hn Hvn Hnp Hpa Hpa0 Hpan Hperm. rewrite NPAGES_eq in Hvn.
  destruct (mappages_loop_ok perm pg R (Z.to_nat (n - 1)) s ps v pa) as (r & s' & ps' & k & Hr & H); try done; try (rewrite ?NPAGES_eq; lia).
  { intros v' Hv'. apply Hnp. lia. }
  exists r, s', ps', k. rewrite Z2Nat.id in Hr, H by lia. replace (n - 1 + 1) with n in H by lia.
  split; [|destruct H as (H1 & H2 & [H3|(H3 & H4 & H5)]); (split; [done|]; split; [lia|]); [by left|right; split; [done|]; split; [done|lia]]]. rewrite <- Hr. unfold mappages.
  assert (E1 : PGROUNDDOWN (v * 4096) = v * 4096) by (rewrite PGROUNDDOWN_eq; zsolve).
  assert (E2 : PGROUNDDOWN (u32 (v * 4096 + u32 (n * 4096) - 1)) = (v + (n - 1)) * 4096).
  { assert (E : u32 (v * 4096 + u32 (n * 4096) - 1) = (v + n) * 4096 - 1) by zsolve. rewrite E, PGROUNDDOWN_eq by lia. zsolve. }
  rewrite E1, E2. do 2 f_equal. unfold PGSIZE. rewrite u32_id by lia. f_equal. zsolve.
Qed.
End spec.
