(* ===== verification/VmFree.v ===== *)
(** Taking address spaces apart: [deallocuvm] and [freevm] give every page of
    the range, and every page of the address space, back to the allocator. *)

From S2P Require Import Prelude StringC Spinlock Kalloc Pages Vm VmSpec.

#[local] Opaque range.

Definition upto (a b : Z) : list Z := range a (Z.to_nat (b - a)).

Lemma elem_of_upto a b v : v ∈ upto a b <-> a <= v < b.
Proof. unfold upto. rewrite elem_of_range. lia. Qed.
Lemma upto_nil a b : b <= a -> upto a b = [].
Proof. intros H. unfold upto. by replace (Z.to_nat (b - a)) with 0%nat by lia. Qed.
Lemma upto_cons a b : a < b -> upto a b = a :: upto (a + 1) b.
Proof. intros H. unfold upto. replace (Z.to_nat (b - a)) with (S (Z.to_nat (b - (a + 1)))) by lia. apply range_cons. Qed.
Lemma upto_app a c b : a <= c <= b -> upto a b = upto a c ++ upto c b.
Proof. intros H. unfold upto. replace (Z.to_nat (b - a)) with (Z.to_nat (c - a) + Z.to_nat (b - c))%nat by lia. rewrite range_app. do 2 f_equal. lia. Qed.

Lemma frames_cons f a l : frames f (a :: l) = if present (f a) then frame_of (f a) :: frames f l else frames f l.
Proof. unfold frames. rewrite omap_cons_eq. unfold frame. by destruct (present (f a)). Qed.
Lemma frames_app f l k : frames f (l ++ k) = frames f l ++ frames f k.
Proof. apply omap_app. Qed.
Lemma frames_length f l : (length (frames f l) <= length l)%nat.
Proof. induction l as [|a l IH]; [done|]. rewrite frames_cons. destruct (present (f a)); simpl; lia. Qed.
Lemma tables_length m pg : (length (tables m pg) <= 1024)%nat.
Proof. pose proof (frames_length (pde m pg) (range 0 1024)) as H. by rewrite range_length in H. Qed.
Lemma frames_none f l : (forall v, v ∈ l -> present (f v) = false) -> frames f l = [].
Proof.
  induction l as [|a l IH]; intros H; [done|]. rewrite frames_cons, (H a) by (by left). apply IH. intros v Hv. apply H. by right.
Qed.
Lemma frames_skip f a a' b : a <= a' -> (forall v, a <= v < a' -> present (f v) = false) -> frames f (upto a b) = frames f (upto a' b).
Proof.
  intros Ha Hf. destruct (decide (a' <= b)) as [H|H].
  - rewrite (upto_app a a' b), frames_app, (frames_none f (upto a a')) by (lia || (intros v Hv; apply elem_of_upto in Hv; apply Hf; lia)). done.
  - rewrite (upto_nil a' b), frames_none by (lia || (intros v Hv; apply elem_of_upto in Hv; apply Hf; lia)). done.
Qed.

(** The entries after the pages from [a] to [b] have been taken away. *)
Definition cleared (f : Z -> Z) (a b : Z) : Z -> Z :=
  fun v => if (a <=? v) && (v <? b) && present (f v) then 0 else f v.

Section free.
Variable kend : Z.
Hypothesis Hend : KERNBASE < kend.
Abbreviation valid := (valid_page kend).
Abbreviation dir_ok := (dir_ok kend).

(** Freeing a page that belongs to nobody else. *)
Lemma free_page s ps pg q R : dir_ok s ps pg (q :: R) ->
  kfree kend q s = Ok tt (freed q s) /\ dir_ok (freed q s) (q :: ps) pg R /\
  (forall d, 0 <= d < 1024 -> pde (k_mem (freed q s)) pg d = pde (k_mem s) pg d) /\
  (forall v, 0 <= v < NPAGES -> pte (k_mem (freed q s)) pg v = pte (k_mem s) pg v) /\
  tables (k_mem (freed q s)) pg = tables (k_mem s) pg.
Proof.
  intros Hd. pose proof (do_nodup _ _ _ _ _ Hd) as Hnd.
  assert (Hal : forall p, p ∈ (q :: R) ++ pg :: ps ++ tables (k_mem s) pg -> valid p) by (intros p; by apply (dir_valid kend s ps)).
  assert (Vq : valid q) by (apply Hal; by left). split; [by apply kfree_ok; [apply Hd|]|].
  assert (Hk : kmem_ok kend (freed q s) (q :: ps)) by (apply kfree_list; [apply Hd|done|clear - Hnd; cnt_solve]).
  destruct (dir_same (k_mem s) (k_mem (freed q s)) pg) as (H1 & H2 & H3 & _).
  { intros p x Hp. apply (outside_page kend [q]); [apply freed_outside|by constructor| |].
    - apply Hal. cnt_solve.
    - clear - Hnd Hp. cnt_solve. }
  split; [|done]. apply (dir_ok_perm kend s ps pg (q :: R)); [done|done|]. rewrite H3. clear. cnt_solve.
Qed.

(** What [deallocuvm] does to the pages from [a] to [b]. *)
Record dealt (s : kstate) (ps : list Z) (pg a b : Z) (s' : kstate) (ps' : list Z) : Prop := {
  dl_kmem : kmem_ok kend s' ps';
  dl_perm : ps' ≡ₚ frames (pte (k_mem s) pg) (upto a b) ++ ps;
  dl_tables : tables (k_mem s') pg = tables (k_mem s) pg;
  dl_pde : forall d, 0 <= d < 1024 -> pde (k_mem s') pg d = pde (k_mem s) pg d;
  dl_pte : forall v, 0 <= v < NPAGES -> pte (k_mem s') pg v = cleared (pte (k_mem s) pg) a b v;
  dl_out : outside (frames (pte (k_mem s) pg) (upto a b) ++ pg :: ps ++ tables (k_mem s) pg) (k_mem s) (k_mem s');
}.

Lemma cleared_none f a b v : (a <= v < b -> present (f v) = false) -> cleared f a b v = f v.
Proof.
  intros H. unfold cleared. destruct (Z.leb_spec a v), (Z.ltb_spec v b); simpl; try done. by rewrite H.
Qed.

Lemma dealt_refl s ps pg a b : kmem_ok kend s ps -> (forall v, a <= v < b -> present (pte (k_mem s) pg v) = false) -> dealt s ps pg a b s ps.
Proof.
  intros Hk Hn. assert (E : frames (pte (k_mem s) pg) (upto a b) = []) by (apply frames_none; intros v Hv; by apply Hn, elem_of_upto).
  split; try done; [by rewrite E|]. intros v Hv. symmetry. apply cleared_none, Hn.
Qed.

(** Pages without entries can be skipped. *)
Lemma dealt_skip s ps pg a a' b s' ps' : a <= a' -> (forall v, a <= v < a' -> present (pte (k_mem s) pg v) = false) ->
  dealt s ps pg a' b s' ps' -> dealt s ps pg a b s' ps'.
Proof.
  intros Ha Hn [H1 H2 H3 H4 H5 H6]. rewrite <- (frames_skip _ a a' b Ha Hn) in H2, H6. split; try done.
  intros v Hv. rewrite H5 by done. unfold cleared. specialize (Hn v).
  destruct (Z.leb_spec a' v), (Z.leb_spec a v), (Z.ltb_spec v b); simpl; try done; try lia. by rewrite Hn by lia.
Qed.

Lemma frame_present f a b v : a <= v < b -> present (f v) = true -> frame_of (f v) ∈ frames f (upto a b).
Proof. intros Hv Hp. unfold frames. apply (omap_elem _ _ v); [by apply elem_of_upto|]. unfold frame. by rewrite Hp. Qed.

(** One present entry is freed and cleared. *)
Lemma clear_one s ps pg q R a : dir_ok s ps pg (q :: R) -> 0 <= a < NPAGES ->
  present (pte (k_mem s) pg a) = true -> frame_of (pte (k_mem s) pg a) = q ->
  exists s', (kfree kend q ;; st (slot (k_mem s) pg a) 0) s = Ok tt s' /\ dir_ok s' (q :: ps) pg R /\
    tables (k_mem s') pg = tables (k_mem s) pg /\
    (forall d, 0 <= d < 1024 -> pde (k_mem s') pg d = pde (k_mem s) pg d) /\
    (forall v, 0 <= v < NPAGES -> pte (k_mem s') pg v = put (pte (k_mem s) pg) a 0 v) /\
    outside (q :: pg :: ps ++ tables (k_mem s) pg) (k_mem s) (k_mem s').
Proof.
  intros Hd Ha Hp Hq. destruct (free_page s ps pg q R Hd) as (Hf & Hd1 & F1 & F2 & F3). destruct (page_index a Ha) as [H1 H2].
  assert (Hpd : present (pde (k_mem s) pg (a / 1024)) = true) by (unfold pte in Hp; by destruct (present (pde _ _ _))).
  assert (Es : slot (k_mem (freed q s)) pg a = slot (k_mem s) pg a) by (unfold slot, table; by rewrite F1).
  destruct (set_pte kend (freed q s) (q :: ps) pg R a 0 Hd1 Ha) as (Hst & T1 & T2); [by rewrite F1|lia|].
  rewrite Es in Hst, T1, T2. eexists. split; [by rewrite (bind_ok _ _ _ _ _ Hf)|].
  split; [by eapply dir_step_ok|]. split; [by rewrite T1|]. split; [intros d Hd2; by rewrite T2, F1|]. split.
  - intros v Hv. rewrite (ds_pte _ _ _ _ _ _ _ Hst) by done. unfold put. case_decide; [done|by apply F2].
  - eapply outside_trans; [|exact (ds_out _ _ _ _ _ _ _ Hst)|].
    + eapply outside_sub; [apply (freed_outside q)|]. intros p ->%list_elem_of_singleton. by left.
    + rewrite F3. intros p Hin. clear - Hin. cnt_solve.
Qed.

Lemma dealt_cons s ps pg q a b s1 s' ps' : present (pte (k_mem s) pg a) = true -> frame_of (pte (k_mem s) pg a) = q -> 0 <= a < b ->
  tables (k_mem s1) pg = tables (k_mem s) pg -> b <= NPAGES ->
  (forall d, 0 <= d < 1024 -> pde (k_mem s1) pg d = pde (k_mem s) pg d) ->
  (forall v, 0 <= v < NPAGES -> pte (k_mem s1) pg v = put (pte (k_mem s) pg) a 0 v) ->
  outside (q :: pg :: ps ++ tables (k_mem s) pg) (k_mem s) (k_mem s1) ->
  dealt s1 (q :: ps) pg (a + 1) b s' ps' -> dealt s ps pg a b s' ps'.
Proof.
  intros Hp Hq Ha T Hb P1 P2 O [H1 H2 H3 H4 H5 H6].
  assert (E : frames (pte (k_mem s1) pg) (upto (a + 1) b) = frames (pte (k_mem s) pg) (upto (a + 1) b)).
  { apply frames_ext. intros v Hv. apply elem_of_upto in Hv. rewrite P2 by lia. unfold put. by rewrite decide_False by lia. }
  rewrite E in H2, H6. rewrite T in H3, H6.
  assert (F : frames (pte (k_mem s) pg) (upto a b) = q :: frames (pte (k_mem s) pg) (upto (a + 1) b)).
  { rewrite upto_cons by lia. by rewrite frames_cons, Hp, Hq. }
  split; [done|rewrite F; clear - H2; cnt_solve|done|intros d Hd; by rewrite H4, P1|..].
  - intros v Hv. rewrite H5 by done. unfold cleared. rewrite P2 by done. unfold put. case_decide as Hc.
    + subst v. rewrite Hp. destruct (Z.leb_spec (a + 1) a); [lia|]. destruct (Z.leb_spec a a); [|lia]. by destruct (Z.ltb_spec a b); [|lia].
    + destruct (Z.leb_spec (a + 1) v), (Z.leb_spec a v); (done || lia).
  - rewrite F. eapply outside_trans; [|exact H6|].
    + eapply outside_sub; [exact O|]. intros p Hin. clear - Hin. cnt_solve.
    + intros p Hin. clear - Hin. cnt_solve.
Qed.

Lemma next_dir a : 0 <= a < NUSER -> u32 (u32 (PGADDR (PDX (a * 4096) + 1) 0 0 - PGSIZE) + PGSIZE) = (a / 1024 + 1) * 1024 * 4096.
Proof.
  rewrite NUSER_eq. intros Ha. rewrite PDX_page0 by (rewrite NPAGES_eq; lia). unfold PGADDR, PGSIZE.
  rewrite Z.shiftl_0_l, !Z.lor_0_r, Z.shiftl_mul_pow2 by lia. change (2 ^ 22) with 4194304. zsolve.
Qed.

Lemma missing_table m pg a v : present (pde m pg (a / 1024)) = false -> a / 1024 = v / 1024 -> present (pte m pg v) = false.
Proof. intros H E. unfold pte. by rewrite <- E, H. Qed.

Lemma dealloc_loop_ok pg b oldsz R fuel : (b - 1) * 4096 < oldsz <= b * 4096 -> b <= NUSER -> forall s ps a,
  dir_ok s ps pg (frames (pte (k_mem s) pg) (upto a b) ++ R) -> 0 <= a -> b - a < Z.of_nat fuel -> (1 <= fuel)%nat ->
  exists s' ps', deallocuvm_loop kend fuel pg (a * 4096) oldsz s = Ok tt s' /\ dealt s ps pg a b s' ps'.
Proof.
  intros Hsz Hb. induction fuel as [|fuel IH]; intros s ps a Hd Ha Hf Hf1; [lia|]. cbn [deallocuvm_loop].
  destruct (Z.ltb_spec (a * 4096) oldsz) as [Hlt|Hge].
  2: { exists s, ps. split; [done|]. apply dealt_refl; [apply Hd|]. intros v Hv. lia. }
  assert (Hab : a < b) by lia. rewrite NUSER_eq in Hb. assert (Hap : 0 <= a < NPAGES) by (rewrite NPAGES_eq; lia).
  destruct (present (pde (k_mem s) pg (a / 1024))) eqn:Ed.
  - rewrite (bind_ok _ _ _ _ _ (walk_found s pg a false Hap Ed)).
    rewrite (proj2 (Z.eqb_neq _ 0) (slot_nonzero _ _ _ _ _ _ Hd Hap Ed)).
    unfold ld. rewrite (bind_ok (gets _) _ s (pte (k_mem s) pg a) s) by (unfold gets; by rewrite (pte_slot _ _ _ Ed)).
    assert (En : u32 (a * 4096 + PGSIZE) = (a + 1) * 4096) by (unfold PGSIZE; rewrite u32_id by lia; lia). rewrite En.
    destruct (present (pte (k_mem s) pg a)) eqn:Ep.
    + set (q := frame_of (pte (k_mem s) pg a)). rewrite upto_cons, frames_cons, Ep in Hd by done. simpl in Hd. fold q in Hd.
      destruct (clear_one s ps pg q _ a Hd Hap Ep eq_refl) as (s1 & E1 & Hd1 & T1 & P1 & P2 & O1).
      assert (Hq : PTE_ADDR (pte (k_mem s) pg a) <> 0).
      { assert (V : valid q) by (apply (dir_valid _ _ _ _ _ _ Hd); by left). intros Ez. unfold q, frame_of in V. rewrite Ez in V.
        destruct V as (_ & V & _). change (P2V 0) with KERNBASE in V. lia. }
      rewrite (proj2 (Z.eqb_neq _ 0) Hq). fold (frame_of (pte (k_mem s) pg a)). fold q. rewrite (bind_ok _ _ _ _ _ E1).
      assert (EF : frames (pte (k_mem s1) pg) (upto (a + 1) b) = frames (pte (k_mem s) pg) (upto (a + 1) b)).
      { apply frames_ext. intros v Hv. apply elem_of_upto in Hv. rewrite P2 by (rewrite NPAGES_eq; lia). unfold put. by rewrite decide_False by lia. }
      destruct (IH s1 (q :: ps) (a + 1)) as (s' & ps' & Hr & Hdl); [by rewrite EF|lia|lia|lia|]. exists s', ps'. split; [done|].
      eapply dealt_cons; [done|reflexivity|lia|done|rewrite NPAGES_eq; lia|done|done|done|done].
    + rewrite bind_ret. destruct (IH s ps (a + 1)) as (s' & ps' & Hr & Hdl); [|lia|lia|lia|].
      * by rewrite upto_cons, frames_cons, Ep in Hd by done.
      * exists s', ps'. split; [done|]. apply (dealt_skip s ps pg a (a + 1)); [lia| |done]. intros v Hv. by replace v with a by lia.
  - rewrite (bind_ok _ _ _ _ _ (walk_missing s pg a Hap Ed)). simpl. rewrite next_dir by (rewrite NUSER_eq; lia).
    assert (Hn : forall v, a <= v < (a / 1024 + 1) * 1024 -> present (pte (k_mem s) pg v) = false).
    { intros v Hv. apply (missing_table _ _ a); [done|]. zsolve. }
    assert (Hle : a <= (a / 1024 + 1) * 1024) by zsolve.
    assert (Hgt : a < (a / 1024 + 1) * 1024) by zsolve.
    destruct (IH s ps ((a / 1024 + 1) * 1024)) as (s' & ps' & Hr & Hdl); [by rewrite <- (frames_skip _ a)|lia|lia|lia|].
    exists s', ps'. split; [done|]. by apply (dealt_skip s ps pg a ((a / 1024 + 1) * 1024)).
Qed.

(** The number of pages of [sz] bytes. *)
Definition npages (sz : Z) : Z := (sz + 4095) / 4096.

Lemma PGROUNDUP_pages sz : 0 <= sz <= KERNBASE -> PGROUNDUP sz = npages sz * 4096.
Proof. unfold KERNBASE. intros H. rewrite PGROUNDUP_eq by lia. done. Qed.

Lemma npages_bound sz : 0 <= sz <= KERNBASE -> 0 <= npages sz <= NUSER /\ (0 < sz -> (npages sz - 1) * 4096 < sz <= npages sz * 4096).
Proof. rewrite NUSER_eq. unfold npages, KERNBASE. intros H. zsolve. Qed.

Lemma deallocuvm_ok s ps pg R oldsz newsz : 0 <= newsz < oldsz -> oldsz <= KERNBASE ->
  dir_ok s ps pg (frames (pte (k_mem s) pg) (upto (npages newsz) (npages oldsz)) ++ R) ->
  exists s' ps', deallocuvm kend pg oldsz newsz s = Ok newsz s' /\ dealt s ps pg (npages newsz) (npages oldsz) s' ps'.
Proof.
  intros Hn Ho Hd. unfold deallocuvm. destruct (Z.leb_spec oldsz newsz); [lia|]. rewrite PGROUNDUP_pages by lia.
  destruct (npages_bound oldsz) as [B1 B2]; [lia|]. destruct (npages_bound newsz) as [B3 _]; [lia|].
  destruct (dealloc_loop_ok pg (npages oldsz) oldsz R (S (Z.to_nat (oldsz / PGSIZE + 1))) ltac:(lia) ltac:(lia) s ps (npages newsz) Hd)
    as (s' & ps' & Hr & Hdl); [lia|unfold npages, PGSIZE in *; zsolve|lia|].
  exists s', ps'. split; [|done]. by rewrite (bind_ok _ _ _ _ _ Hr).
Qed.

(** The loop of [freevm] over the page tables. *)
Lemma free_tables pg n : forall s ps d, 0 <= d -> d + Z.of_nat n <= 1024 -> kmem_ok kend s ps ->
  NoDup (pg :: frames (pde (k_mem s) pg) (range d n) ++ ps) -> Forall valid (pg :: frames (pde (k_mem s) pg) (range d n)) ->
  exists s' ps', for_each (range d n) (fun i => e <- ld (pg + 4 * i) ;;
      if present e then kfree kend (P2V (PTE_ADDR e)) else ret tt) s = Ok tt s' /\
    kmem_ok kend s' ps' /\ ps' ≡ₚ frames (pde (k_mem s) pg) (range d n) ++ ps /\
    outside (frames (pde (k_mem s) pg) (range d n)) (k_mem s) (k_mem s').
Proof.
  induction n as [|n IH]; intros s ps d Hd Hn Hk Hnd Hv.
  { exists s, ps. split; [done|]. split; [done|]. split; [done|apply outside_refl]. }
  rewrite range_cons in *. rewrite frames_cons in *. cbn [for_each]. unfold ld.
  rewrite bind_assoc. rewrite (bind_ok (gets _) _ s (pde (k_mem s) pg d) s) by done.
  destruct (present (pde (k_mem s) pg d)) eqn:E; [|by rewrite bind_ret; apply IH; try done; lia].
  fold (frame_of (pde (k_mem s) pg d)). set (q := frame_of (pde (k_mem s) pg d)) in *.
  apply Forall_cons in Hv as [Vg Hv]. apply Forall_cons in Hv as [Vq Hv].
  rewrite (bind_ok _ _ _ _ _ (kfree_ok kend q s (kmem_unlocked _ _ _ Hk) Vq)).
  assert (EF : frames (pde (k_mem (freed q s)) pg) (range (d + 1) n) = frames (pde (k_mem s) pg) (range (d + 1) n)).
  { apply frames_ext. intros i Hi. apply elem_of_range in Hi. apply pde_ext; [lia|]. intros x.
    apply (outside_page kend [q]); [apply freed_outside|by constructor|done|]. clear - Hnd. cnt_solve. }
  destruct (IH (freed q s) (q :: ps) (d + 1)) as (s' & ps' & Hr & Hk' & Hp & Ho); [lia|lia|..].
  - apply kfree_list; [done|done|]. clear - Hnd. cnt_solve.
  - rewrite EF. clear - Hnd. cnt_solve.
  - rewrite EF. by constructor.
  - rewrite EF in Hp, Ho. exists s', ps'. split; [exact Hr|]. split; [done|]. split; [clear - Hp; cnt_solve|].
    eapply outside_trans; [eapply outside_sub; [apply (freed_outside q)|]|exact Ho|].
    + intros p ->%list_elem_of_singleton. by left.
    + intros p Hin. by right.
Qed.

Lemma upages_upto m pg : upages m pg = frames (pte m pg) (upto (npages 0) (npages KERNBASE)).
Proof. unfold upages, upto. change (npages 0) with 0. change (npages KERNBASE) with 524288. by rewrite NUSER_eq. Qed.

(** [freevm] gives every page of the address space back. *)
Lemma freevm_ok s ps pg R : dir_ok s ps pg (upages (k_mem s) pg ++ R) ->
  exists s' ps', freevm kend pg s = Ok tt s' /\ kmem_ok kend s' ps' /\ ps' ≡ₚ owned (k_mem s) pg ++ ps /\
    outside (owned (k_mem s) pg ++ ps) (k_mem s) (k_mem s').
Proof.
  intros Hd. unfold freevm. pose proof (do_nodup _ _ _ _ _ Hd) as Hnd.
  assert (Hal : forall p, p ∈ (upages (k_mem s) pg ++ R) ++ pg :: ps ++ tables (k_mem s) pg -> valid p) by (intros p; by apply (dir_valid kend s ps)).
  assert (Vg : valid pg) by (apply Hal; cnt_solve). destruct (V2P_valid kend pg Vg) as (_ & _ & _ & Hg0).
  rewrite (proj2 (Z.eqb_neq pg 0) Hg0). rewrite upages_upto in Hd.
  destruct (deallocuvm_ok s ps pg R KERNBASE 0) as (s1 & ps1 & H1 & [D1 D2 D3 D4 D5 D6]); [unfold KERNBASE; lia|done|done|].
  rewrite <- upages_upto in D2, D6. rewrite (bind_ok _ _ _ _ _ H1).
  assert (ET : frames (pde (k_mem s1) pg) (range 0 (Z.to_nat NPDENTRIES)) = tables (k_mem s) pg) by (rewrite <- D3; done).
  destruct (free_tables pg (Z.to_nat NPDENTRIES) s1 ps1 0) as (s2 & ps2 & H2 & K2 & P2 & O2); [lia|done|done|..].
  - rewrite ET. clear - Hnd D2. cnt_solve.
  - rewrite ET. apply Forall_forall. intros p Hp. apply Hal. cnt_solve.
  - rewrite ET in P2, O2. rewrite (bind_ok _ _ _ _ _ H2). exists (freed pg s2), (pg :: ps2).
    split; [by apply kfree_ok; [apply K2|]|]. split; [apply kfree_list; [done|done|clear - Hnd D2 P2; cnt_solve]|].
    unfold owned. split; [clear - D2 P2; cnt_solve|].
    eapply outside_trans; [eapply outside_sub; [exact D6|]|eapply outside_trans; [eapply outside_sub; [exact O2|]|apply (freed_outside pg)|]|];
      [..|done]; intros p Hp; cnt_solve.
Qed.
End free.
