(* ===== verification/VmOps.v ===== *)
(** Building address spaces: [setupkvm], [allocuvm], [copyuvm] and [copyout]
    on the pages of the allocator. *)

From S2P Require Import Prelude StringC Spinlock Kalloc Pages Vm VmSpec VmFree.

#[local] Opaque range.

Section pages.
Variable kend : Z.
Abbreviation valid := (valid_page kend).
Abbreviation dir_ok := (dir_ok kend).
Abbreviation dir_step := (dir_step kend).

Lemma mapped_outside f v n pa perm v' : ~ (v <= v' < v + n) -> mapped f v n pa perm v' = f v'.
Proof. intros H. unfold mapped. destruct (Z.leb_spec v v'), (Z.ltb_spec v' (v + n)); simpl; (done || lia). Qed.

Lemma mapped_inside f v n pa perm v' : v <= v' < v + n -> mapped f v n pa perm v' = Z.lor (Z.lor (pa + (v' - v) * 4096) perm) 1.
Proof. intros H. unfold mapped. destruct (Z.leb_spec v v'), (Z.ltb_spec v' (v + n)); simpl; (done || lia). Qed.

Lemma no_upages m pg : (forall v, 0 <= v < NUSER -> present (pte m pg v) = false) -> upages m pg = [].
Proof. intros H. apply frames_none. intros v Hv. apply elem_of_range in Hv. apply H. rewrite NUSER_eq in *. lia. Qed.

(** A zeroed page is an empty directory. *)
Lemma empty_dir m pg : (forall x, in_page pg x -> m x = 0) -> (forall v, 0 <= v < NPAGES -> pte m pg v = 0) /\ tables m pg = [].
Proof.
  intros Hz. assert (Hd : forall d, 0 <= d < 1024 -> pde m pg d = 0).
  { intros d Hd. apply load32_zero. intros x Hx. apply Hz. unfold in_page, PGSIZE. lia. }
  split.
  - intros v Hv. unfold pte. rewrite Hd by (by apply page_index). done.
  - apply frames_none. intros d Hd1. apply elem_of_range in Hd1. by rewrite Hd by lia.
Qed.

(** Mapping one page [q] in hand at a free page [v] of the user part. *)
Lemma map_user s ps pg R q v perm : dir_ok s ps pg (q :: R) -> 0 <= v < NUSER -> present (pte (k_mem s) pg v) = false -> 0 <= perm < 4096 ->
  (mappages pg (v * 4096) PGSIZE (V2P q) perm s = Ok (-1) s /\ ps = []) \/
  exists s' ps' e, mappages pg (v * 4096) PGSIZE (V2P q) perm s = Ok 0 s' /\ entry_of e (V2P q) perm /\ frame_of e = q /\
    dir_step s ps pg (put (pte (k_mem s) pg) v e) s' ps'.
Proof.
  intros Hd Hv Hnp Hperm. rewrite NUSER_eq in Hv. assert (Hvp : 0 <= v < NPAGES) by (rewrite NPAGES_eq; lia).
  assert (Vq : valid q) by (apply (dir_valid _ _ _ _ _ _ Hd); by left). destruct (V2P_valid kend q Vq) as (A1 & A2 & _).
  pose proof (entry_ok (V2P q) perm A1 A2 Hperm) as He.
  destruct (map_turn kend s ps pg (q :: R) v 0 (v * 4096) (V2P q) perm Hd Hvp Hnp A1 A2 Hperm) as [[E ->]|(s' & ps' & Hst & E)].
  all: assert (EM : mappages pg (v * 4096) PGSIZE (V2P q) perm s = mappages_loop 1 pg (v * 4096) (v * 4096) (V2P q) perm s)
    by (unfold mappages, PGSIZE; rewrite (u32_id (v * 4096 + 4096 - 1)) by lia; rewrite !PGROUNDDOWN_eq by lia;
        replace ((v * 4096 + 4096 - 1) / 4096) with v by zsolve; replace (v * 4096 / 4096) with v by zsolve; by rewrite Z.sub_diag).
  - left. by rewrite EM.
  - right. exists s', ps', (Z.lor (Z.lor (V2P q) perm) 1). rewrite EM, E, Z.eqb_refl. split; [done|]. split; [done|].
    split; [by apply (frame_entry kend _ q perm)|done].
Qed.

(** A user page full of zeros that its process may read and write. *)
Record zero_page (m : memory) (e : Z) : Prop := {
  zp_present : present e = true;
  zp_flags : PTE_FLAGS e = 7;
  zp_zero : forall x, in_page (frame_of e) x -> m x = 0;
}.

Lemma frames_snoc f a v e : a <= v -> present e = true -> frames (put f v e) (upto a (v + 1)) ≡ₚ frame_of e :: frames f (upto a v).
Proof.
  intros Ha He. rewrite (upto_app a v (v + 1)), frames_app by lia. rewrite (upto_cons v), (upto_nil (v + 1) (v + 1)) by lia.
  rewrite (frames_ext f (put f v e) (upto a v)).
  - rewrite frames_cons. unfold put. rewrite decide_True, He by done. cnt_solve.
  - intros v' Hv'. apply elem_of_upto in Hv'. unfold put. by rewrite decide_False by lia.
Qed.

(** Taking a free page and writing to it. *)
Lemma take_page s q ps pg R : dir_ok s (q :: ps) pg R ->
  exists s1, kalloc s = Ok q s1 /\ k_mem s1 = k_mem s /\ q <> 0 /\ forall m', outside [q] (k_mem s) m' ->
    dir_ok (set_mem m' s1) ps pg (q :: R) /\ tables m' pg = tables (k_mem s) pg /\
    (forall v, 0 <= v < NPAGES -> pte m' pg v = pte (k_mem s) pg v).
Proof.
  intros Hd. destruct (kalloc_list kend s q ps (do_kmem _ _ _ _ _ Hd)) as (s1 & E1 & K1 & M1). exists s1. split; [done|]. split; [done|].
  pose proof (do_nodup _ _ _ _ _ Hd) as Hnd.
  assert (Hal : forall p, p ∈ R ++ pg :: (q :: ps) ++ tables (k_mem s) pg -> valid p) by (intros p; by apply (dir_valid kend s (q :: ps))).
  assert (Vq : valid q) by (apply Hal; cnt_solve). split; [by apply (V2P_valid kend)|]. intros m' Hm.
  destruct (dir_same (k_mem s) m' pg) as (_ & H2 & H3 & _).
  { intros p x Hp. apply (outside_page kend [q]); [done|by constructor| |].
    - apply Hal. cnt_solve.
    - clear - Hnd Hp. cnt_solve. }
  split; [|done]. apply (dir_ok_perm kend s (q :: ps) pg R); [done| |].
  - apply (kmem_ok_outside kend s1 ps [q]); [done|by rewrite M1|by constructor|]. intros p ->%list_elem_of_singleton. clear - Hnd. cnt_solve.
  - simpl. rewrite H3. clear. cnt_solve.
Qed.

Lemma zero_kept s ps pg R f s' ps' e : dir_ok s ps pg R -> dir_step s ps pg f s' ps' -> frame_of e ∈ R ->
  zero_page (k_mem s) e -> zero_page (k_mem s') e.
Proof.
  intros Hd Hst Hin [Z1 Z2 Z3]. split; [done|done|]. intros x Hx. rewrite <- (Z3 x Hx).
  by eapply (dir_step_frame kend s ps pg R f s' ps').
Qed.

Lemma zero_outside s l m' e : zero_page (k_mem s) e -> outside l (k_mem s) m' -> Forall valid l -> frame_of e ∉ l -> valid (frame_of e) ->
  zero_page m' e.
Proof.
  intros [Z1 Z2 Z3] Ho Hl Hin Hv. split; [done|done|]. intros x Hx. rewrite <- (Z3 x Hx). by apply (outside_page kend l _ _ (frame_of e)).
Qed.
End pages.

Section grow.
Variable kend : Z.
Abbreviation at_hand s ps pg a v := (frames (pte (k_mem s) pg) (upto a v) ++ ps ++ tables (k_mem s) pg).
Hypothesis Hend : KERNBASE < kend.
Abbreviation valid := (valid_page kend).
Abbreviation dir_ok := (dir_ok kend).
Abbreviation dir_step := (dir_step kend).

(** [F] are the pages at hand: the free ones, the tables, and those mapped so
    far between [a] and [b]. *)
Record grown (s : kstate) (F : list Z) (pg a b : Z) (s' : kstate) (ps' : list Z) : Prop := {
  gr_kmem : kmem_ok kend s' ps';
  gr_perm : frames (pte (k_mem s') pg) (upto a b) ++ ps' ++ tables (k_mem s') pg ≡ₚ F;
  gr_pte : forall v, 0 <= v < NPAGES -> ~ (a <= v < b) -> pte (k_mem s') pg v = pte (k_mem s) pg v;
  gr_zero : forall v, a <= v < b -> zero_page (k_mem s') (pte (k_mem s') pg v);
  gr_out : outside (pg :: F) (k_mem s) (k_mem s');
}.

Record not_grown (s : kstate) (F : list Z) (pg a b : Z) (s' : kstate) (ps' : list Z) : Prop := {
  ng_kmem : kmem_ok kend s' ps';
  ng_perm : ps' ++ tables (k_mem s') pg ≡ₚ F;
  ng_pte : forall v, 0 <= v < NPAGES -> ~ (a <= v < b) -> pte (k_mem s') pg v = pte (k_mem s) pg v;
  ng_none : forall v, 0 <= v < NPAGES -> a <= v < b -> present (pte (k_mem s') pg v) = false;
  ng_out : outside (pg :: F) (k_mem s) (k_mem s');
}.

(** The pages mapped from [a] to [v], and the tables. *)
Lemma mapped_length m pg a v : a <= v -> Z.of_nat (length (frames (pte m pg) (upto a v))) + Z.of_nat (length (tables m pg)) <= v - a + 1024.
Proof. intros Hv. pose proof (frames_length (pte m pg) (upto a v)) as H. pose proof (tables_length m pg). unfold upto in H at 2. rewrite range_length in H. lia. Qed.

(** The clean-up of [allocuvm] when it fails at page [v]. *)
Lemma undo_alloc s ps pg R v oldsz newsz : 0 <= oldsz < newsz -> newsz < KERNBASE -> npages oldsz <= v <= npages newsz ->
  dir_ok s ps pg (frames (pte (k_mem s) pg) (upto (npages oldsz) v) ++ R) ->
  (forall v', v <= v' < npages newsz -> present (pte (k_mem s) pg v') = false) ->
  exists s' ps', deallocuvm kend pg newsz oldsz s = Ok oldsz s' /\ dir_ok s' ps' pg R /\
    not_grown s (at_hand s ps pg (npages oldsz) v) pg (npages oldsz) (npages newsz) s' ps'.
Proof.
  intros Ho Hn Hv Hd Hnp.
  assert (EF : frames (pte (k_mem s) pg) (upto (npages oldsz) (npages newsz)) = frames (pte (k_mem s) pg) (upto (npages oldsz) v)).
  { rewrite (upto_app _ v) by lia. rewrite frames_app, (frames_none _ (upto v _)), app_nil_r; [done|].
    intros v' Hv'. apply Hnp. by apply elem_of_upto. }
  destruct (deallocuvm_ok kend Hend s ps pg R newsz oldsz) as (s' & ps' & E & [D1 D2 D3 D4 D5 D6]); [lia|lia|by rewrite EF|].
  rewrite EF in D2, D6. exists s', ps'. split; [done|]. split.
  - apply (dir_ok_perm kend s ps pg (frames (pte (k_mem s) pg) (upto (npages oldsz) v) ++ R)); [done|done|]. rewrite D3. clear - D2. cnt_solve.
  - split; [done|rewrite D3; clear - D2; cnt_solve|..].
    + intros v' Hv' Hne. rewrite D5 by done. apply cleared_none. intros H. lia.
    + intros v' Hv' Hin. rewrite D5 by done. unfold cleared. destruct (Z.leb_spec (npages oldsz) v'); [|lia]. destruct (Z.ltb_spec v' (npages newsz)); [|lia].
      simpl. by destruct (present (pte (k_mem s) pg v')) eqn:E1.
    + eapply outside_sub; [exact D6|]. intros p Hp. clear - Hp. cnt_solve.
Qed.

(** Freeing the page in hand after the clean-up. *)
Lemma not_grown_free s F pg a b q s1 ps1 R : dir_ok s1 ps1 pg (q :: R) -> not_grown s F pg a b s1 ps1 -> q ∉ F -> a <= b ->
  kfree kend q s1 = Ok tt (freed q s1) /\ not_grown s (q :: F) pg a b (freed q s1) (q :: ps1).
Proof.
  intros Hd [N1 N2 N3 N4 N5] Hq Hab. destruct (free_page kend s1 ps1 pg q R Hd) as (Hf & Hd1 & F1 & F2 & F3). split; [done|]. split.
  - apply Hd1.
  - rewrite F3. clear - N2. cnt_solve.
  - intros v Hv Hn. rewrite F2 by done. by apply N3.
  - intros v Hv Hn. rewrite F2 by done. by apply N4.
  - eapply outside_trans; [eapply outside_sub; [exact N5|]|apply (freed_outside q)|].
    + intros p Hp. clear - Hp. cnt_solve.
    + intros p ->%list_elem_of_singleton. right. by left.
Qed.

Lemma grown_after s F pg a b s1 F1 s' ps' : outside (pg :: F) (k_mem s) (k_mem s1) -> F1 ≡ₚ F ->
  (forall v, 0 <= v < NPAGES -> ~ (a <= v < b) -> pte (k_mem s1) pg v = pte (k_mem s) pg v) ->
  (grown s1 F1 pg a b s' ps' -> grown s F pg a b s' ps') /\ (not_grown s1 F1 pg a b s' ps' -> not_grown s F pg a b s' ps').
Proof.
  intros Ho Hp Hpte. assert (Ho' : forall m', outside (pg :: F1) (k_mem s1) m' -> outside (pg :: F) (k_mem s) m').
  { intros m' H. eapply outside_trans; [exact Ho|exact H|]. intros p Hin. clear - Hin Hp. cnt_solve. }
  split; intros [G1 G2 G3 G4 G5]; (split; [done|by rewrite G2|intros v Hv Hn; by rewrite G3, Hpte|done|by apply Ho']).
Qed.

(** One turn of [allocuvm]: a zeroed page is mapped at [v], or everything is undone. *)
Lemma alloc_turn s ps pg R oldsz newsz v fuel : 0 <= oldsz -> newsz < KERNBASE -> v * 4096 < newsz ->
  let a := npages oldsz in let b := npages newsz in
  dir_ok s ps pg (frames (pte (k_mem s) pg) (upto a v) ++ R) -> a <= v < b ->
  (forall v', v <= v' < b -> present (pte (k_mem s) pg v') = false) -> (forall v', a <= v' < v -> zero_page (k_mem s) (pte (k_mem s) pg v')) ->
  (exists s' ps', allocuvm_loop kend (S fuel) pg (v * 4096) oldsz newsz s = Ok 0 s' /\ not_grown s (at_hand s ps pg a v) pg a b s' ps' /\
     Z.of_nat (length (at_hand s ps pg a v)) <= b - a + 1024) \/
  exists s1 ps1, allocuvm_loop kend (S fuel) pg (v * 4096) oldsz newsz s = allocuvm_loop kend fuel pg ((v + 1) * 4096) oldsz newsz s1 /\
    dir_ok s1 ps1 pg (frames (pte (k_mem s1) pg) (upto a (v + 1)) ++ R) /\ at_hand s1 ps1 pg a (v + 1) ≡ₚ at_hand s ps pg a v /\
    outside (pg :: at_hand s ps pg a v) (k_mem s) (k_mem s1) /\
    (forall v', 0 <= v' < NPAGES -> v' <> v -> pte (k_mem s1) pg v' = pte (k_mem s) pg v') /\
    (forall v', a <= v' <= v -> zero_page (k_mem s1) (pte (k_mem s1) pg v')).
Proof.
  intros Ho Hn Hvn a b Hd Hav Hnp Hz. cbn [allocuvm_loop]. rewrite (proj2 (Z.ltb_lt _ _) Hvn).
  assert (Hon : 0 <= oldsz < newsz) by (unfold a, npages in Hav; clear - Hav Ho Hvn; zsolve).
  destruct (npages_bound oldsz) as [Bo _]; [lia|]. destruct (npages_bound newsz) as [Bn _]; [lia|].
  fold a in Bo. fold b in Bn. rewrite NUSER_eq in Bn.
  assert (Hvp : 0 <= v < NPAGES) by (rewrite NPAGES_eq; lia). destruct ps as [|q ps].
  { left. rewrite (bind_ok _ _ _ _ _ (kalloc_empty kend s (do_kmem _ _ _ _ _ Hd))).
    destruct (undo_alloc s [] pg R v oldsz newsz Hon Hn ltac:(fold a b; lia) Hd Hnp) as (s' & ps' & E & _ & N).
    exists s', ps'. simpl. rewrite (bind_ok _ _ _ _ _ E). split; [done|]. split; [done|]. rewrite length_app. pose proof (mapped_length (k_mem s) pg a v). lia. }
  destruct (take_page kend s q ps pg _ Hd) as (s1 & E1 & M1 & Hq0 & Htake). rewrite (bind_ok _ _ _ _ _ E1), (proj2 (Z.eqb_neq q 0) Hq0).
  unfold fill. erewrite bind_ok by reflexivity. rewrite M1. pose proof (memset_outside (k_mem s) q 0) as O1.
  set (m2 := memset (k_mem s) q 0 PGBYTES) in *. destruct (Htake m2 O1) as (Hd2 & T2 & P2). set (s2 := set_mem m2 s1) in *.
  assert (EF : frames (pte m2 pg) (upto a v) = frames (pte (k_mem s) pg) (upto a v)).
  { apply frames_ext. intros v' Hv'. apply elem_of_upto in Hv'. apply P2. rewrite NPAGES_eq. lia. }
  assert (Onew : outside (pg :: at_hand s (q :: ps) pg a v) (k_mem s) m2).
  { eapply outside_sub; [exact O1|]. intros p ->%list_elem_of_singleton. clear. cnt_solve. }
  pose proof (do_nodup _ _ _ _ _ Hd) as Hnd.
  destruct (map_user kend s2 ps pg (frames (pte (k_mem s) pg) (upto a v) ++ R) q v (Z.lor PTE_W PTE_U) Hd2) as [[E ->]|(s3 & ps3 & e & E & He & Hfe & Hst)];
    [rewrite NUSER_eq; lia|simpl; rewrite P2 by done; apply Hnp; lia|change (Z.lor PTE_W PTE_U) with 6; lia|..].
  - left. rewrite (bind_ok _ _ _ _ _ E). simpl.
    destruct (undo_alloc s2 [] pg (q :: R) v oldsz newsz Hon Hn ltac:(fold a b; lia)) as (s' & ps' & E3 & Hd3 & N).
    { fold a. simpl. rewrite EF. eapply dir_ok_perm; [exact Hd2|apply Hd2|]. clear. cnt_solve. }
    { intros v' Hv'. simpl. rewrite P2 by (rewrite NPAGES_eq; fold b in Hv'; lia). apply Hnp. fold b in Hv'. lia. }
    rewrite (bind_ok _ _ _ _ _ E3). fold a b in N. simpl in N. rewrite EF, T2 in N.
    destruct (not_grown_free s2 _ pg a b q s' ps' R Hd3 N) as [E4 N4]; [clear - Hnd; cnt_solve|lia|].
    rewrite (bind_ok _ _ _ _ _ E4). exists (freed q s'), (q :: ps'). split; [done|].
    apply (grown_after s _ pg a b s2 _ _ _ Onew) in N4; [|clear; cnt_solve|intros v' Hv' _; by apply P2]. split; [done|].
    rewrite length_app. cbn [app length]. pose proof (mapped_length (k_mem s) pg a v). lia.
  - right. rewrite (bind_ok _ _ _ _ _ E). destruct (Hst) as [S1 S2 S3 S4]. simpl in S2, S3, S4. rewrite T2 in S2, S4. exists s3, ps3.
    assert (EN : u32 (v * 4096 + PGSIZE) = (v + 1) * 4096) by (unfold PGSIZE; rewrite u32_id by lia; lia). rewrite EN. split; [done|].
    assert (Hpe : present e = true) by apply He.
    assert (EF3 : frames (pte (k_mem s3) pg) (upto a (v + 1)) ≡ₚ q :: frames (pte (k_mem s) pg) (upto a v)).
    { rewrite <- Hfe, <- (frames_snoc (pte (k_mem s) pg) a v e) by (lia || done). rewrite (frames_ext (put (pte (k_mem s) pg) v e)); [done|].
      intros v' Hv'. apply elem_of_upto in Hv'. assert (Hp : 0 <= v' < NPAGES) by (rewrite NPAGES_eq; lia).
      rewrite S3 by done. unfold put. case_decide; [done|by apply P2]. }
    split; [|split; [|split; [|split]]].
    + apply (dir_ok_perm kend s (q :: ps) pg (frames (pte (k_mem s) pg) (upto a v) ++ R)); [done|done|]. clear - EF3 S2. cnt_solve.
    + clear - EF3 S2. cnt_solve.
    + eapply outside_trans; [exact Onew|exact S4|]. intros p Hp. clear - Hp. cnt_solve.
    + intros v' Hv' Hne. rewrite S3 by done. unfold put. rewrite decide_False by done. by apply P2.
    + intros v' Hv'. assert (Hp : 0 <= v' < NPAGES) by (rewrite NPAGES_eq; lia). rewrite S3 by done. unfold put. case_decide as Hc.
      * apply (zero_kept kend s2 ps pg _ _ s3 ps3 e Hd2 Hst); [rewrite Hfe; by left|]. split; [done|by rewrite (en_flags _ _ _ He)|].
        rewrite Hfe. intros x. apply memset_zero.
      * rewrite P2 by done. pose proof (Hz v' ltac:(lia)) as Hz'.
        assert (Hin : frame_of (pte (k_mem s) pg v') ∈ frames (pte (k_mem s) pg) (upto a v)) by (apply frame_present; [lia|apply Hz']).
        apply (zero_kept kend s2 ps pg _ _ s3 ps3 _ Hd2 Hst); [clear - Hin; cnt_solve|].
        apply (zero_outside kend s [q]); [done|done|..]; [|clear - Hin Hnd; cnt_solve| ].
        -- constructor; [|done]. apply (dir_valid _ _ _ _ _ _ Hd2). by left.
        -- apply (dir_valid _ _ _ _ _ _ Hd2). clear - Hin. cnt_solve.
Qed.

Lemma alloc_loop_ok pg R oldsz newsz fuel : 0 <= oldsz -> newsz < KERNBASE -> forall s ps v,
  let a := npages oldsz in let b := npages newsz in
  dir_ok s ps pg (frames (pte (k_mem s) pg) (upto a v) ++ R) -> a <= v <= b -> b - v < Z.of_nat fuel ->
  (forall v', v <= v' < b -> present (pte (k_mem s) pg v') = false) -> (forall v', a <= v' < v -> zero_page (k_mem s) (pte (k_mem s) pg v')) ->
  exists s' ps', (allocuvm_loop kend fuel pg (v * 4096) oldsz newsz s = Ok newsz s' /\ grown s (at_hand s ps pg a v) pg a b s' ps') \/
    (allocuvm_loop kend fuel pg (v * 4096) oldsz newsz s = Ok 0 s' /\ not_grown s (at_hand s ps pg a v) pg a b s' ps' /\
     Z.of_nat (length (at_hand s ps pg a v)) <= b - a + 1024).
Proof.
  intros Ho Hn. induction fuel as [|fuel IH]; intros s ps v a b Hd Hv Hf Hnp Hz; [lia|].
  destruct (Z.ltb_spec (v * 4096) newsz) as [Hlt|Hge].
  2: { exists s, ps. left. assert (v = b) as -> by (unfold b, npages in *; zsolve). cbn [allocuvm_loop].
    rewrite (proj2 (Z.ltb_ge _ _) Hge). split; [done|]. split; [apply Hd|done|done|done|apply outside_refl]. }
  assert (Hvb : v < b) by (unfold b, npages in *; zsolve).
  destruct (alloc_turn s ps pg R oldsz newsz v fuel Ho Hn Hlt Hd ltac:(fold a b; lia) Hnp Hz) as [(s' & ps' & E & N)|(s1 & ps1 & -> & A1 & A2 & A3 & A4 & A5)].
  { exists s', ps'. right. by split. }
  destruct (IH s1 ps1 (v + 1) A1 ltac:(fold a b; lia) ltac:(fold b; lia)) as (s' & ps' & H).
  - fold b. intros v' Hv'. destruct (npages_bound oldsz) as [Bo _]; [unfold a, b, npages in *; zsolve|].
    destruct (npages_bound newsz) as [Bn _]; [unfold a, b, npages in *; zsolve|]. fold a in Bo. fold b in Bn. rewrite NUSER_eq in Bn.
    rewrite A4 by (rewrite ?NPAGES_eq; lia). apply Hnp. lia.
  - intros v' Hv'. apply A5. fold a in Hv'. lia.
  - exists s', ps'. fold a b in H. destruct (grown_after s (at_hand s ps pg a v) pg a b s1 _ s' ps' A3 A2) as [G1 G2].
    { intros v' Hv' Hne. apply A4; [done|]. intros ->. apply Hne. lia. }
    destruct H as [[E G]|(E & G & L)]; [left|right]; (split; [exact E|]); [by apply G1|]. split; [by apply G2|]. pose proof (Permutation_length A2) as Hl. fold a in Hl. lia.
Qed.

(** [allocuvm]: the address space has grown by zeroed pages, or it is as it
    was and no page is lost. *)
Lemma allocuvm_ok s ps pg R oldsz newsz : 0 <= oldsz <= newsz -> newsz < KERNBASE -> dir_ok s ps pg R ->
  let a := npages oldsz in let b := npages newsz in
  (forall v, a <= v < b -> present (pte (k_mem s) pg v) = false) ->
  exists s' ps', (allocuvm kend pg oldsz newsz s = Ok newsz s' /\ grown s (ps ++ tables (k_mem s) pg) pg a b s' ps') \/
    (allocuvm kend pg oldsz newsz s = Ok 0 s' /\ not_grown s (ps ++ tables (k_mem s) pg) pg a b s' ps' /\
     Z.of_nat (length (ps ++ tables (k_mem s) pg)) <= b - a + 1024).
Proof.
  intros Ho Hn Hd a b Hnp. unfold allocuvm. destruct (Z.leb_spec KERNBASE newsz); [lia|]. destruct (Z.ltb_spec newsz oldsz); [lia|].
  rewrite PGROUNDUP_pages by lia. fold a.
  assert (E0 : frames (pte (k_mem s) pg) (upto a a) = []) by (by rewrite upto_nil by lia).
  assert (Hab : a <= b) by (unfold a, b, npages; zsolve).
  destruct (alloc_loop_ok pg R oldsz newsz (S (Z.to_nat (newsz / PGSIZE + 1))) ltac:(lia) Hn s ps a) as (s' & ps' & Hr).
  - fold a. by rewrite E0.
  - fold a b. lia.
  - fold b. unfold a, b, npages, PGSIZE. zsolve.
  - done.
  - fold a. lia.
  - fold a b in Hr. rewrite E0, app_nil_l in Hr. exists s', ps'. exact Hr.
Qed.
End grow.

Section setup.
Variable kend kdata : Z.
Hypothesis Hend : KERNBASE < kend.
Hypothesis Hdata : kdata mod 4096 = 0 /\ KERNLINK < kdata < KERNBASE + PHYSTOP.
Abbreviation valid := (valid_page kend).
Abbreviation dir_ok := (dir_ok kend).
Abbreviation dir_step := (dir_step kend).


(** The kernel's part of every address space. *)
Definition kernel_pte : Z -> Z :=
  mapped (mapped (mapped (mapped (fun _ => 0)
    524288 256 0 PTE_W)
    524544 ((kdata - KERNLINK) / 4096) EXTMEM 0)
    (kdata / 4096) ((KERNBASE + PHYSTOP - kdata) / 4096) (kdata - KERNBASE) PTE_W)
    1040384 8192 DEVSPACE PTE_W.

(** One turn of the loop of [setupkvm]: the pages are mapped, or memory ran
    out and everything has been given back. *)
Lemma setup_turn s ps pg R f k l v n : dir_ok s ps pg R -> (forall v, 0 <= v < NPAGES -> pte (k_mem s) pg v = f v) ->
  (forall v, 0 <= v < NUSER -> present (f v) = false) ->
  k_virt k = v * 4096 -> u32 (phys_end k - phys_start k) = u32 (n * 4096) -> NUSER <= v -> 1 <= n -> v + n <= NPAGES ->
  (forall v', v <= v' < v + n -> present (f v') = false) ->
  phys_start k mod 4096 = 0 -> 0 <= phys_start k -> phys_start k + n * 4096 <= 4294967296 -> 0 <= k_perm k < 4096 ->
  (exists s' ps', setupkvm_loop kend pg (k :: l) s = Ok 0 s' /\ kmem_ok kend s' ps' /\ ps' ≡ₚ pg :: ps ++ tables (k_mem s) pg /\
     outside (pg :: ps ++ tables (k_mem s) pg) (k_mem s) (k_mem s') /\ (length (ps ++ tables (k_mem s) pg) <= 1024)%nat) \/
  exists s1 ps1, setupkvm_loop kend pg (k :: l) s = setupkvm_loop kend pg l s1 /\
    dir_step s ps pg (mapped f v n (phys_start k) (k_perm k)) s1 ps1.
Proof.
  intros Hd Hf Hu Hk1 Hk2 Hv Hn Hvn Hnp H1 H2 H3 H4. rewrite NUSER_eq in Hv. cbn [setupkvm_loop]. rewrite Hk1, Hk2.
  destruct (mappages_ok kend s ps pg R v n (phys_start k) (k_perm k)) as (r & s1 & ps1 & j & Hr & Hst & Hj & Hres); try (done || lia).
  { intros v' Hv'. rewrite Hf by lia. by apply Hnp. }
  rewrite (bind_ok _ _ _ _ _ Hr). destruct Hres as [[-> ->]|(-> & -> & _)].
  - right. exists s1, ps1. split; [done|]. eapply dir_step_ext; [exact Hst|]. intros v' Hv'. unfold mapped. destruct (_ && _); [done|by apply Hf].
  - left. simpl. pose proof (dir_step_ok _ _ _ _ _ _ _ _ Hd Hst) as Hd1.
    assert (Eu : upages (k_mem s1) pg = []).
    { apply no_upages. intros v' Hv'. rewrite (ds_pte _ _ _ _ _ _ _ Hst), mapped_outside by (rewrite ?NPAGES_eq; rewrite NUSER_eq in Hv'; lia).
      rewrite Hf by (rewrite NPAGES_eq; rewrite NUSER_eq in Hv'; lia). by apply Hu. }
    destruct (freevm_ok kend Hend s1 [] pg R) as (s' & ps' & Hfr & K & P & O); [by rewrite Eu|].
    exists s', ps'. rewrite (bind_ok _ _ _ _ _ Hfr). unfold owned in P, O. rewrite Eu, !app_nil_r in P, O.
    pose proof (ds_perm _ _ _ _ _ _ _ Hst) as Hp. simpl in Hp. split; [done|]. split; [done|]. split; [by rewrite P, Hp|].
    split; [|rewrite <- Hp; apply tables_length]. eapply outside_trans; [exact (ds_out _ _ _ _ _ _ _ Hst)|exact O|]. intros p Hin. clear - Hin Hp. cnt_solve.
Qed.

(** The address space [setupkvm] returns. *)
Record fresh_space (s : kstate) (ps : list Z) (pg : Z) (s' : kstate) (ps' : list Z) : Prop := {
  fs_kmem : kmem_ok kend s' ps';
  fs_perm : ps' ++ pg :: tables (k_mem s') pg ≡ₚ ps;
  fs_pte : forall v, 0 <= v < NPAGES -> pte (k_mem s') pg v = kernel_pte v;
  fs_out : outside ps (k_mem s) (k_mem s');
}.

(** The kernel mappings of a table fit: they lie above [KERNBASE], are page
    aligned and do not overlap; [f] are the entries before, [g] after. *)
Inductive fits : (Z -> Z) -> list kmap -> (Z -> Z) -> Prop :=
| fits_nil f : fits f [] f
| fits_cons f k l g v n : k_virt k = v * 4096 -> u32 (phys_end k - phys_start k) = u32 (n * 4096) ->
    NUSER <= v -> 1 <= n -> v + n <= NPAGES -> (forall v', v <= v' < v + n -> f v' = 0) ->
    phys_start k mod 4096 = 0 -> 0 <= phys_start k -> phys_start k + n * 4096 <= 4294967296 -> 0 <= k_perm k < 4096 ->
    fits (mapped f v n (phys_start k) (k_perm k)) l g -> fits f (k :: l) g.

Lemma setup_loop_ok pg R f l g : fits f l g -> forall s ps, dir_ok s ps pg R ->
  (forall v, 0 <= v < NPAGES -> pte (k_mem s) pg v = f v) -> (forall v, 0 <= v < NUSER -> f v = 0) ->
  (exists s' ps', setupkvm_loop kend pg l s = Ok 0 s' /\ kmem_ok kend s' ps' /\ ps' ≡ₚ pg :: ps ++ tables (k_mem s) pg /\
     outside (pg :: ps ++ tables (k_mem s) pg) (k_mem s) (k_mem s') /\ (length (ps ++ tables (k_mem s) pg) <= 1024)%nat) \/
  exists s' ps', setupkvm_loop kend pg l s = Ok pg s' /\ dir_step s ps pg g s' ps'.
Proof.
  induction 1 as [f|f k l g v n H1 H2 H3 H4 H5 H6 H7 H8 H9 H10 Hl IH]; intros s ps Hd Hf Hu.
  { right. exists s, ps. split; [done|]. eapply dir_step_ext; [by eapply dir_step_refl|done]. }
  destruct (setup_turn s ps pg R f k l v n) as [Hfail|(s1 & ps1 & -> & S1)]; try done.
  { intros v' Hv'. by rewrite Hu. }
  { intros v' Hv'. by rewrite H6. }
  { by left. }
  destruct (IH s1 ps1) as [(s' & ps' & E & K & P & O & L)|(s' & ps' & E & S2)].
  - by eapply dir_step_ok.
  - apply S1.
  - intros v' Hv'. rewrite mapped_outside by lia. by apply Hu.
  - left. pose proof (ds_perm _ _ _ _ _ _ _ S1) as Hp. exists s', ps'. split; [done|]. split; [done|]. split; [by rewrite P, Hp|].
    split; [|by rewrite Hp in L]. eapply outside_trans; [exact (ds_out _ _ _ _ _ _ _ S1)|exact O|]. intros p Hin. clear - Hin Hp. cnt_solve.
  - right. exists s', ps'. split; [done|]. by eapply dir_step_trans.
Qed.

Lemma kmap_fits : fits (fun _ => 0) (kmap_table kdata) kernel_pte.
Proof.
  destruct Hdata as [HD1 HD2]. unfold KERNLINK, KERNBASE, EXTMEM, PHYSTOP in HD2.
  assert (HV : V2P kdata = kdata - KERNBASE) by (unfold V2P, KERNBASE; rewrite u32_id by lia; done).
  unfold kmap_table, kernel_pte. rewrite HV. change (V2P KERNLINK) with 1048576.
  unfold KERNLINK, KERNBASE, PHYSTOP, EXTMEM, DEVSPACE, PTE_W.
  eapply (fits_cons _ _ _ _ 524288 256); try done; try (rewrite ?NUSER_eq, ?NPAGES_eq; done).
  eapply (fits_cons _ _ _ _ 524544 ((kdata - 2148532224) / 4096)); simpl; try (rewrite ?NUSER_eq, ?NPAGES_eq; zsolve).
  { intros v Hv. by rewrite mapped_outside by zsolve. }
  eapply (fits_cons _ _ _ _ (kdata / 4096) ((2382364672 - kdata) / 4096)); simpl; try (rewrite ?NUSER_eq, ?NPAGES_eq; zsolve).
  { intros v Hv. by rewrite !mapped_outside by zsolve. }
  eapply (fits_cons _ _ _ _ 1040384 8192); simpl; try done; try (rewrite ?NUSER_eq, ?NPAGES_eq; done).
  { intros v Hv. by rewrite !mapped_outside by zsolve. }
  apply fits_nil.
Qed.

Lemma kernel_pte_user v : 0 <= v < NUSER -> kernel_pte v = 0.
Proof.
  rewrite NUSER_eq. intros Hv. destruct Hdata as [_ HD]. unfold kernel_pte, KERNLINK, KERNBASE, EXTMEM in *. by rewrite !mapped_outside by zsolve.
Qed.

(** [setupkvm]: an address space with the kernel's mappings and no user page,
    or 0 with all pages given back. *)
Lemma setupkvm_ok s ps R : kmem_ok kend s ps -> NoDup (R ++ ps) -> Forall valid R ->
  (exists s' ps', setupkvm kend kdata s = Ok 0 s' /\ kmem_ok kend s' ps' /\ ps' ≡ₚ ps /\ outside ps (k_mem s) (k_mem s') /\ (length ps <= 1025)%nat) \/
  exists pg s' ps', setupkvm kend kdata s = Ok pg s' /\ pg <> 0 /\ dir_ok s' ps' pg R /\ fresh_space s ps pg s' ps'.
Proof.
  intros Hk Hnd Hv. unfold setupkvm. destruct ps as [|p ps].
  { left. exists s, []. rewrite (bind_ok _ _ _ _ _ (kalloc_empty kend s Hk)). do 3 (split; [done|]). split; [done|simpl; lia]. }
  destruct (kalloc_list kend s p ps Hk) as (s1 & E1 & K1 & M1). rewrite (bind_ok _ _ _ _ _ E1).
  pose proof (kmem_ok_valid kend s (p :: ps) Hk) as Vps. destruct (proj1 (Forall_cons _ _ _) Vps) as [Vp Vps'].
  destruct (V2P_valid kend p Vp) as (_ & _ & _ & Hp0). rewrite (proj2 (Z.eqb_neq p 0) Hp0).
  unfold fill. erewrite bind_ok by reflexivity. change (DEVSPACE <? P2V PHYSTOP) with false. cbv iota.
  set (m1 := memset (k_mem s1) p 0 PGBYTES). destruct (empty_dir m1 p (memset_zero _ p)) as [Ep Et].
  assert (O1 : outside [p] (k_mem s) m1) by (unfold m1; rewrite M1; apply memset_outside).
  assert (Hd : dir_ok (set_mem m1 s1) ps p R).
  { split; simpl; rewrite ?Et, ?app_nil_r.
    - apply (kmem_ok_outside kend s1 ps [p]); [done|by rewrite M1|by constructor|]. intros q ->%list_elem_of_singleton. clear - Hnd. cnt_solve.
    - done.
    - apply Forall_app. by split. }
  destruct (setup_loop_ok p R _ _ _ kmap_fits _ _ Hd) as [(s' & ps' & E & K & P & O & L)|(s' & ps' & E & [S1 S2 S3 S4])]; simpl in *; try done.
  - left. exists s', ps'. rewrite Et, app_nil_r in P, O, L. split; [done|]. split; [done|]. split; [done|]. split; [|lia].
    eapply outside_trans; [eapply outside_sub; [exact O1|]|exact O|done]. intros q ->%list_elem_of_singleton. by left.
  - right. rewrite Et, app_nil_r in S2, S4. exists p, s', ps'. split; [done|]. split; [done|]. split; [eapply dir_ok_perm; [exact Hd|done|]; simpl; by rewrite Et, app_nil_r, S2|].
    split; [done| |done|].
    + clear - S2. cnt_solve.
    + eapply outside_trans; [eapply outside_sub; [exact O1|]|exact S4|done]. intros q ->%list_elem_of_singleton. by left.
Qed.
End setup.
