(* ===== verification/VmCopy.v ===== *)
(** [copyuvm]: the child's address space is a copy of the parent's in pages of
    its own; and [copyout], which writes through a page table. *)

From S2P Require Import Prelude StringC Spinlock Kalloc Pages Vm VmSpec VmFree VmOps.

#[local] Opaque range.

Lemma flags_odd e : present e = true -> Z.lor (PTE_FLAGS e) 1 = PTE_FLAGS e /\ 0 <= PTE_FLAGS e < 4096.
Proof.
  intros Hp. assert (E : PTE_FLAGS e = u32 e mod 4096) by (unfold PTE_FLAGS; change 4095 with (Z.ones 12); by rewrite Z.land_ones).
  rewrite present_odd in Hp. assert (Hr : 0 <= PTE_FLAGS e < 4096) by (rewrite E; zsolve). split; [|done].
  assert (Ho : Z.odd (PTE_FLAGS e) = true).
  { rewrite Zodd_mod in Hp |- *. apply Z.eqb_eq in Hp. apply Z.eqb_eq. rewrite E. zsolve. }
  apply Z.bits_inj'. intros i Hi. rewrite Z.lor_spec. destruct (decide (i = 0)) as [->|Hne].
  - by rewrite !Z.bit0_odd, Ho.
  - change 1 with (2 ^ 0). rewrite Z.pow2_bits_false by lia. apply orb_false_r.
Qed.

(** Page [v] of [d] is a copy of page [v] of [pg]. *)
Record copied (m : memory) (pg d v : Z) : Prop := {
  cp_present : present (pte m d v) = true;
  cp_flags : PTE_FLAGS (pte m d v) = PTE_FLAGS (pte m pg v);
  cp_bytes : forall o, 0 <= o < 4096 -> m (frame_of (pte m d v) + o) = m (frame_of (pte m pg v) + o);
}.

(** The first [n] pages of [pg] are mapped, to pages among [R]. *)
Record parent_ok (m : memory) (pg n : Z) (R : list Z) : Prop := {
  pa_tables : forall p, p ∈ pg :: tables m pg -> p ∈ R;
  pa_pages : forall v, 0 <= v < n -> present (pte m pg v) = true /\ frame_of (pte m pg v) ∈ R;
}.

(** Memory in the pages [R] is the same. *)
Definition kept (R : list Z) (m m' : memory) : Prop := forall q x, q ∈ R -> in_page q x -> m' x = m x.

Lemma kept_pte m m' pg n R v : parent_ok m pg n R -> kept R m m' -> 0 <= v < NPAGES -> pte m' pg v = pte m pg v.
Proof. intros [H _] Hk. destruct (dir_same m m' pg) as (_ & H2 & _); [|apply H2]. intros q x Hq. apply Hk. by apply H. Qed.

Lemma kept_parent m m' pg n R : n <= NPAGES -> parent_ok m pg n R -> kept R m m' -> parent_ok m' pg n R.
Proof.
  intros Hn [H1 H2] Hk. destruct (dir_same m m' pg) as (_ & E1 & E2 & _); [intros q x Hq; apply Hk; by apply H1|].
  split; [by rewrite E2|]. intros v Hv. rewrite E1 by lia. by apply H2.
Qed.

Lemma kept_copied m m' pg d n R v : parent_ok m pg n R -> kept R m m' -> 0 <= v < n -> n <= NPAGES ->
  pte m' d v = pte m d v -> frame_of (pte m d v) ∈ R -> copied m pg d v -> copied m' pg d v.
Proof.
  intros Hp Hk Hv Hn Hd Hin [C1 C2 C3]. split; rewrite Hd, ?(kept_pte m m' pg n R) by (done || lia); [done|done|].
  intros o Ho. rewrite (Hk (frame_of (pte m d v))), (Hk (frame_of (pte m pg v))); [by apply C3|..].
  - apply (pa_pages _ _ _ _ Hp v Hv).
  - unfold in_page, PGSIZE. lia.
  - done.
  - unfold in_page, PGSIZE. lia.
Qed.

Section copy.
Variable kend kdata : Z.
Hypothesis Hend : KERNBASE < kend.
Abbreviation valid := (valid_page kend).
Abbreviation dir_ok := (dir_ok kend).
Abbreviation dir_step := (dir_step kend).
Abbreviation at_hand s ps pg a v := (frames (pte (k_mem s) pg) (upto a v) ++ ps ++ tables (k_mem s) pg).

Lemma upages_copy m d v : 0 <= v <= NUSER -> (forall v', v <= v' < NUSER -> present (pte m d v') = false) -> upages m d = frames (pte m d) (upto 0 v).
Proof.
  intros Hv Hn. unfold upages. replace (range 0 (Z.to_nat NUSER)) with (upto 0 NUSER) by (unfold upto; by rewrite Z.sub_0_r).
  rewrite (upto_app 0 v) by lia. rewrite frames_app, (frames_none _ (upto v NUSER)), app_nil_r; [done|].
  intros v' Hv'. apply Hn. by apply elem_of_upto.
Qed.

(** Everything given back. *)
Record undone (s : kstate) (F : list Z) (s' : kstate) (ps' : list Z) : Prop := {
  un_kmem : kmem_ok kend s' ps';
  un_perm : ps' ≡ₚ F;
  un_out : outside F (k_mem s) (k_mem s');
}.

Lemma undo_copy s ps d R v : 0 <= v <= NUSER -> (forall v', v <= v' < NUSER -> present (pte (k_mem s) d v') = false) ->
  dir_ok s ps d (frames (pte (k_mem s) d) (upto 0 v) ++ R) ->
  exists s' ps', freevm kend d s = Ok tt s' /\ undone s (d :: at_hand s ps d 0 v) s' ps'.
Proof.
  intros Hv Hn Hd. rewrite <- (upages_copy (k_mem s) d v Hv Hn) in Hd |- *.
  destruct (freevm_ok kend Hend s ps d R Hd) as (s' & ps' & E & K & P & O). exists s', ps'. split; [done|]. unfold owned in P, O.
  split; [done|rewrite P; clear; cnt_solve|]. eapply outside_sub; [exact O|]. intros p Hp. clear - Hp. cnt_solve.
Qed.

Lemma parent_slot m pg n R v : parent_ok m pg n R -> Forall valid R -> 0 <= v < NPAGES -> present (pde m pg (v / 1024)) = true -> slot m pg v <> 0.
Proof.
  intros Hp VR Hv Hpd. destruct (page_index v Hv) as [H1 H2]. pose proof (table_elem _ _ _ H1 Hpd) as Ht.
  rewrite Forall_forall in VR. destruct (VR (table m pg (v / 1024))) as (_ & _ & V); [apply (pa_tables _ _ _ _ Hp); by right|].
  unfold slot. unfold KERNBASE in V. lia.
Qed.

Lemma move_outside m q q0 : outside [q] m (memmove m q q0 PGBYTES).
Proof.
  intros x Hx. specialize (Hx q ltac:(by left)). unfold in_page, PGSIZE in Hx. rewrite memmove_at, PGBYTES_Z.
  destruct (Z.leb_spec q x), (Z.ltb_spec x (q + 4096)); simpl; (done || lia).
Qed.

Lemma move_bytes m q q0 o : 0 <= o < 4096 -> memmove m q q0 PGBYTES (q + o) = m (q0 + o).
Proof.
  intros Ho. rewrite memmove_at, PGBYTES_Z. destruct (Z.leb_spec q (q + o)); [|lia]. destruct (Z.ltb_spec (q + o) (q + 4096)); [|lia].
  simpl. f_equal. lia.
Qed.

(** The pages copied so far, after page [v] has been copied to [q] and mapped. *)
Lemma copied_turn s s3 ps pg d R v n q e s2 ps3 :
  let q0 := frame_of (pte (k_mem s) pg v) in
  dir_ok s (q :: ps) d (frames (pte (k_mem s) d) (upto 0 v) ++ R) -> parent_ok (k_mem s) pg n R -> 0 <= v < n -> n <= NPAGES ->
  k_mem s2 = memmove (k_mem s) q q0 PGBYTES -> dir_ok s2 ps d (q :: frames (pte (k_mem s) d) (upto 0 v) ++ R) ->
  dir_step s2 ps d (put (pte (k_mem s2) d) v e) s3 ps3 -> entry_of e (V2P q) (PTE_FLAGS (pte (k_mem s) pg v)) -> frame_of e = q ->
  (forall v', 0 <= v' < NPAGES -> pte (k_mem s2) d v' = pte (k_mem s) d v') ->
  (forall v', 0 <= v' < v -> copied (k_mem s) pg d v') -> forall v', 0 <= v' <= v -> copied (k_mem s3) pg d v'.
Proof.
  intros q0 Hd Hp Hv Hn M2 Hd2 Hst He Hfe P3 Hc v' Hv'. destruct (pa_pages _ _ _ _ Hp v Hv) as [P1 P2]. pose proof (do_nodup _ _ _ _ _ Hd) as Hnd.
  set (U := frames (pte (k_mem s) d) (upto 0 v)) in *.
  assert (Hall : forall p, p ∈ (q :: U ++ R) ++ d :: ps ++ tables (k_mem s2) d -> valid p) by (intros p; by apply (dir_valid kend s2)).
  assert (K2 : kept (U ++ R) (k_mem s) (k_mem s2)).
  { intros p x Hin. rewrite M2. apply (outside_page kend [q]); [apply move_outside|constructor; [apply Hall; by left|done]|apply Hall; clear - Hin; cnt_solve|].
    clear - Hin Hnd. cnt_solve. }
  assert (K3 : kept (q :: U ++ R) (k_mem s2) (k_mem s3)) by (intros p x; by eapply dir_step_frame).
  assert (K : kept (U ++ R) (k_mem s) (k_mem s3)).
  { intros p x Hin Hx. rewrite (K3 p x) by (done || by right). by apply (K2 p x). }
  assert (Hp' : parent_ok (k_mem s) pg n (U ++ R)).
  { split; [intros p Hin; apply elem_of_app; right; by apply Hp|]. intros w Hw. destruct (pa_pages _ _ _ _ Hp w Hw). split; [done|]. apply elem_of_app. by right. }
  destruct (decide (v' = v)) as [->|Hne].
  - assert (E3 : pte (k_mem s3) d v = e) by (rewrite (ds_pte _ _ _ _ _ _ _ Hst) by lia; unfold put; by rewrite decide_True).
    split; rewrite E3, ?(kept_pte (k_mem s) (k_mem s3) pg n (U ++ R)) by (done || lia); [apply He|rewrite (en_flags _ _ _ He); by apply flags_odd|].
    intros o Ho. rewrite Hfe. fold q0. rewrite (K3 q) by (by left || (unfold in_page, PGSIZE; lia)). rewrite M2, move_bytes by done. symmetry.
    apply (K q0); [apply elem_of_app; by right|unfold in_page, PGSIZE; lia].
  - assert (Ev : pte (k_mem s3) d v' = pte (k_mem s) d v').
    { rewrite (ds_pte _ _ _ _ _ _ _ Hst) by lia. unfold put. rewrite decide_False by done. apply P3. lia. }
    apply (kept_copied (k_mem s) _ pg d n (U ++ R)); [done|done|lia|done|done| |apply Hc; lia].
    apply elem_of_app. left. apply frame_present; [lia|]. apply Hc. lia.
Qed.

(** One turn of the loop of [copyuvm]. *)
Lemma copy_turn s ps pg d R v n sz fuel : v * 4096 < sz -> 0 <= v < n -> n <= NUSER ->
  dir_ok s ps d (frames (pte (k_mem s) d) (upto 0 v) ++ R) -> parent_ok (k_mem s) pg n R -> Forall valid R ->
  (forall v', v <= v' < NUSER -> present (pte (k_mem s) d v') = false) -> (forall v', 0 <= v' < v -> copied (k_mem s) pg d v') ->
  (exists s' ps', copyuvm_loop kend (S fuel) pg d (v * 4096) sz s = Ok 0 s' /\ undone s (d :: at_hand s ps d 0 v) s' ps' /\
     Z.of_nat (length (at_hand s ps d 0 v)) <= n + 1024) \/
  exists s1 ps1, copyuvm_loop kend (S fuel) pg d (v * 4096) sz s = copyuvm_loop kend fuel pg d ((v + 1) * 4096) sz s1 /\
    dir_ok s1 ps1 d (frames (pte (k_mem s1) d) (upto 0 (v + 1)) ++ R) /\ at_hand s1 ps1 d 0 (v + 1) ≡ₚ at_hand s ps d 0 v /\
    outside (d :: at_hand s ps d 0 v) (k_mem s) (k_mem s1) /\
    (forall v', 0 <= v' < NPAGES -> v' <> v -> pte (k_mem s1) d v' = pte (k_mem s) d v') /\
    (forall v', 0 <= v' <= v -> copied (k_mem s1) pg d v').
Proof.
  intros Hsz Hv Hn Hd Hp VR Hnp Hc. cbn [copyuvm_loop]. rewrite (proj2 (Z.ltb_lt _ _) Hsz). rewrite NUSER_eq in Hn.
  assert (Hvp : 0 <= v < NPAGES) by (rewrite NPAGES_eq; lia). destruct (pa_pages _ _ _ _ Hp v Hv) as [P1 P2].
  set (e0 := pte (k_mem s) pg v) in *. set (q0 := frame_of e0) in *.
  assert (Hpd : present (pde (k_mem s) pg (v / 1024)) = true) by (unfold e0, pte in P1; by destruct (present (pde _ _ _))).
  rewrite (bind_ok _ _ _ _ _ (walk_found s pg v false Hvp Hpd)), (proj2 (Z.eqb_neq _ 0) (parent_slot _ _ _ _ _ Hp VR Hvp Hpd)).
  unfold ld. rewrite (bind_ok (gets _) _ s e0 s) by (unfold gets; by rewrite (pte_slot _ _ _ Hpd)). rewrite P1. change (negb true) with false. cbv beta iota zeta.
  fold (frame_of e0). fold q0. destruct (flags_odd e0 P1) as [Hfl Hflr]. destruct ps as [|q ps].
  { left. rewrite (bind_ok _ _ _ _ _ (kalloc_empty kend s (do_kmem _ _ _ _ _ Hd))). simpl.
    destruct (undo_copy s [] d R v ltac:(rewrite NUSER_eq; lia) Hnp Hd) as (s' & ps' & E & U). exists s', ps'. rewrite (bind_ok _ _ _ _ _ E).
    split; [done|]. split; [done|]. rewrite length_app. pose proof (mapped_length (k_mem s) d 0 v). cbn [app]. lia. }
  destruct (take_page kend s q ps d _ Hd) as (s1 & E1 & M1 & Hq0 & Htake). rewrite (bind_ok _ _ _ _ _ E1), (proj2 (Z.eqb_neq q 0) Hq0).
  unfold move. erewrite bind_ok by reflexivity. rewrite M1. pose proof (move_outside (k_mem s) q q0) as O1.
  set (m2 := memmove (k_mem s) q q0 PGBYTES) in *. destruct (Htake m2 O1) as (Hd2 & T2 & P3). set (s2 := set_mem m2 s1) in *.
  assert (EF : frames (pte m2 d) (upto 0 v) = frames (pte (k_mem s) d) (upto 0 v)).
  { apply frames_ext. intros v' Hv'. apply elem_of_upto in Hv'. apply P3. rewrite NPAGES_eq. lia. }
  assert (Onew : outside (d :: at_hand s (q :: ps) d 0 v) (k_mem s) m2).
  { eapply outside_sub; [exact O1|]. intros p ->%list_elem_of_singleton. clear. cnt_solve. }
  destruct (map_user kend s2 ps d (frames (pte (k_mem s) d) (upto 0 v) ++ R) q v (PTE_FLAGS e0) Hd2) as [[E ->]|(s3 & ps3 & e & E & He & Hfe & Hst)];
    [rewrite NUSER_eq; lia|simpl; rewrite P3 by done; apply Hnp; rewrite NUSER_eq; lia|done|..].
  - left. rewrite (bind_ok _ _ _ _ _ E). simpl.
    destruct (free_page kend s2 [] d q _ Hd2) as (Hf & Hd3 & F1 & F2 & F3). rewrite (bind_ok _ _ _ _ _ Hf).
    assert (EF3 : frames (pte (k_mem (freed q s2)) d) (upto 0 v) = frames (pte (k_mem s) d) (upto 0 v)).
    { rewrite <- EF. apply frames_ext. intros v' Hv'. apply elem_of_upto in Hv'. apply F2. rewrite NPAGES_eq. lia. }
    destruct (undo_copy (freed q s2) [q] d R v ltac:(rewrite NUSER_eq; lia)) as (s' & ps' & E3 & [U1 U2 U3]).
    { intros v' Hv'. assert (0 <= v' < NPAGES) by (rewrite NPAGES_eq; rewrite NUSER_eq in Hv'; lia). rewrite F2 by done. simpl. rewrite P3 by done. by apply Hnp. }
    { by rewrite EF3. }
    rewrite (bind_ok _ _ _ _ _ E3). rewrite EF3, F3 in U2, U3. simpl in U2, U3. rewrite T2 in U2, U3. exists s', ps'. split; [done|].
    split; [|rewrite length_app; cbn [app length]; pose proof (mapped_length (k_mem s) d 0 v); lia]. split; [done|done|]. eapply outside_trans; [exact Onew|eapply outside_trans; [eapply outside_sub; [apply (freed_outside q s2)|]|exact U3|done]|done].
    intros p ->%list_elem_of_singleton. clear. cnt_solve.
  - right. rewrite (bind_ok _ _ _ _ _ E). exists s3, ps3.
    assert (EN : u32 (v * 4096 + PGSIZE) = (v + 1) * 4096) by (unfold PGSIZE; rewrite u32_id by lia; lia). rewrite EN. split; [done|].
    pose proof (do_nodup _ _ _ _ _ Hd) as Hnd. destruct (Hst) as [S1 S2 S3 S4]. simpl in S2, S3, S4. rewrite T2 in S2, S4.
    assert (EF3 : frames (pte (k_mem s3) d) (upto 0 (v + 1)) ≡ₚ q :: frames (pte (k_mem s) d) (upto 0 v)).
    { rewrite <- Hfe, <- (frames_snoc (pte (k_mem s) d) 0 v e) by (lia || apply He). rewrite (frames_ext (put (pte (k_mem s) d) v e)); [done|].
      intros v' Hv'. apply elem_of_upto in Hv'. assert (0 <= v' < NPAGES) by (rewrite NPAGES_eq; lia).
      rewrite S3 by done. unfold put. case_decide; [done|by apply P3]. }
    assert (S5 : forall v', 0 <= v' < NPAGES -> v' <> v -> pte (k_mem s3) d v' = pte (k_mem s) d v').
    { intros v' Hv' Hne. rewrite S3 by done. unfold put. rewrite decide_False by done. by apply P3. }
    split; [|split; [|split; [|split]]]; [..|done|].
    + apply (dir_ok_perm kend s (q :: ps) d (frames (pte (k_mem s) d) (upto 0 v) ++ R)); [done|done|]. clear - EF3 S2. cnt_solve.
    + clear - EF3 S2. cnt_solve.
    + eapply outside_trans; [exact Onew|exact S4|]. intros p Hin. clear - Hin. cnt_solve.
    + apply (copied_turn s s3 ps pg d R v n q e s2 ps3); try done. rewrite NPAGES_eq. lia.
Qed.

(** The first [n] pages of [d] are copies of those of [pg]. *)
Record copy_of (s : kstate) (F : list Z) (pg d n : Z) (s' : kstate) (ps' : list Z) : Prop := {
  co_kmem : kmem_ok kend s' ps';
  co_perm : at_hand s' ps' d 0 n ≡ₚ F;
  co_pages : forall v, 0 <= v < n -> copied (k_mem s') pg d v;
  co_rest : forall v, n <= v < NPAGES -> pte (k_mem s') d v = pte (k_mem s) d v;
  co_out : outside (d :: F) (k_mem s) (k_mem s');
}.

Lemma copy_after s F pg d n s1 F1 s' ps' : outside (d :: F) (k_mem s) (k_mem s1) -> F1 ≡ₚ F ->
  (forall v, n <= v < NPAGES -> pte (k_mem s1) d v = pte (k_mem s) d v) ->
  (copy_of s1 F1 pg d n s' ps' -> copy_of s F pg d n s' ps') /\ (undone s1 (d :: F1) s' ps' -> undone s (d :: F) s' ps').
Proof.
  intros Ho Hp Hpte. assert (Ho' : forall m', outside (d :: F1) (k_mem s1) m' -> outside (d :: F) (k_mem s) m').
  { intros m' H. eapply outside_trans; [exact Ho|exact H|]. intros p Hin. clear - Hin Hp. cnt_solve. }
  split; [intros [C1 C2 C3 C4 C5]|intros [U1 U2 U3]].
  - split; [done|by rewrite C2|done|intros v Hv; by rewrite C4, Hpte|by apply Ho'].
  - split; [done|by rewrite U2, Hp|by apply Ho'].
Qed.

Lemma outside_kept l R m m' : outside l m m' -> Forall valid l -> Forall valid R -> (forall p, p ∈ R -> p ∉ l) -> kept R m m'.
Proof.
  intros Ho Hl HR Hd q x Hq. rewrite Forall_forall in HR. apply (outside_page kend l); [done|done|by apply HR|by apply Hd].
Qed.

Lemma copy_loop_ok pg d R sz fuel : sz <= KERNBASE -> Forall valid R -> forall s ps v,
  let n := npages sz in
  dir_ok s ps d (frames (pte (k_mem s) d) (upto 0 v) ++ R) -> parent_ok (k_mem s) pg n R -> 0 <= v <= n -> n - v < Z.of_nat fuel ->
  (forall v', v <= v' < NUSER -> present (pte (k_mem s) d v') = false) -> (forall v', 0 <= v' < v -> copied (k_mem s) pg d v') ->
  exists s' ps', (copyuvm_loop kend fuel pg d (v * 4096) sz s = Ok d s' /\ copy_of s (at_hand s ps d 0 v) pg d n s' ps') \/
    (copyuvm_loop kend fuel pg d (v * 4096) sz s = Ok 0 s' /\ undone s (d :: at_hand s ps d 0 v) s' ps' /\
     Z.of_nat (length (at_hand s ps d 0 v)) <= n + 1024).
Proof.
  intros Hsz VR. induction fuel as [|fuel IH]; intros s ps v n Hd Hp Hv Hf Hnp Hc; [lia|].
  assert (Hn : n <= NUSER) by (rewrite NUSER_eq; unfold n, npages, KERNBASE in *; clear - Hsz; zsolve).
  destruct (Z.ltb_spec (v * 4096) sz) as [Hlt|Hge].
  2: { exists s, ps. left. assert (v = n) as -> by (unfold n, npages in *; zsolve). cbn [copyuvm_loop].
    rewrite (proj2 (Z.ltb_ge _ _) Hge). split; [done|]. split; [apply Hd|done|done|done|apply outside_refl]. }
  assert (Hvn : 0 <= v < n) by (unfold n, npages in *; zsolve).
  destruct (copy_turn s ps pg d R v n sz fuel Hlt Hvn Hn Hd Hp VR Hnp Hc) as [(s' & ps' & E & N)|(s1 & ps1 & -> & A1 & A2 & A3 & A4 & A5)].
  { exists s', ps'. right. by split. }
  rewrite NUSER_eq in Hn. pose proof (do_nodup _ _ _ _ _ Hd) as Hnd.
  assert (K : kept R (k_mem s) (k_mem s1)).
  { apply (outside_kept _ _ _ _ A3); [|done|intros p Hin; clear - Hin Hnd; cnt_solve].
    apply Forall_forall. intros p Hin. apply (dir_valid _ _ _ _ _ _ Hd). clear - Hin. cnt_solve. }
  destruct (IH s1 ps1 (v + 1) A1) as (s' & ps' & H).
  - apply (kept_parent (k_mem s)); [rewrite NPAGES_eq; fold n; lia|done|done].
  - fold n. lia.
  - fold n. lia.
  - intros v' Hv'. rewrite A4 by (rewrite ?NPAGES_eq; rewrite NUSER_eq in Hv'; lia). apply Hnp. lia.
  - intros v' Hv'. apply A5. lia.
  - exists s', ps'. fold n in H. destruct (copy_after s (at_hand s ps d 0 v) pg d n s1 _ s' ps' A3 A2) as [G1 G2].
    { intros v' Hv'. apply A4; lia. }
    destruct H as [[E G]|(E & G & L)]; [left|right]; (split; [exact E|]); [by apply G1|]. split; [by apply G2|]. pose proof (Permutation_length A2). lia.
Qed.

Hypothesis Hdata : kdata mod 4096 = 0 /\ KERNLINK < kdata < KERNBASE + PHYSTOP.

(** [copyuvm]: a new directory whose first pages are copies in fresh pages, or
    0 with every page given back.  The pages [R], the parent's among them, are
    as they were. *)
Lemma copyuvm_ok s ps pg sz R : kmem_ok kend s ps -> NoDup (R ++ ps) -> Forall valid R -> 0 <= sz <= KERNBASE ->
  parent_ok (k_mem s) pg (npages sz) R ->
  (exists s' ps', copyuvm kend kdata pg sz s = Ok 0 s' /\ undone s ps s' ps' /\ Z.of_nat (length ps) <= npages sz + 1025) \/
  exists d s' ps', copyuvm kend kdata pg sz s = Ok d s' /\ d <> 0 /\ kmem_ok kend s' ps' /\ d :: at_hand s' ps' d 0 (npages sz) ≡ₚ ps /\
    (forall v, 0 <= v < npages sz -> copied (k_mem s') pg d v) /\
    (forall v, npages sz <= v < NPAGES -> pte (k_mem s') d v = kernel_pte kdata v) /\ outside ps (k_mem s) (k_mem s').
Proof.
  intros Hk Hnd VR Hsz Hp. unfold copyuvm. destruct (npages_bound sz Hsz) as [Hb _].
  destruct (setupkvm_ok kend kdata Hend Hdata s ps R Hk Hnd VR) as [(s' & ps' & E & K & P & O & L)|(d & s1 & ps1 & E & Hd0 & Hd & [F1 F2 F3 F4])].
  { left. exists s', ps'. rewrite (bind_ok _ _ _ _ _ E). split; [done|]. split; [by split|lia]. }
  rewrite (bind_ok _ _ _ _ _ E), (proj2 (Z.eqb_neq d 0) Hd0).
  assert (E0 : frames (pte (k_mem s1) d) (upto 0 0) = []) by (by rewrite upto_nil by lia).
  assert (Hpte : forall v, 0 <= v < NUSER -> pte (k_mem s1) d v = 0).
  { intros v Hv. rewrite F3 by (rewrite NPAGES_eq; rewrite NUSER_eq in Hv; lia). by apply (kernel_pte_user kdata Hdata). }
  assert (K : kept R (k_mem s) (k_mem s1)).
  { apply (outside_kept ps _ _ _ F4); [by apply (kmem_ok_valid kend s)|done|]. intros p Hin. clear - Hin Hnd. cnt_solve. }
  destruct (copy_loop_ok pg d R sz (S (Z.to_nat (sz / PGSIZE + 1))) ltac:(lia) VR s1 ps1 0) as (s' & ps' & H).
  - by rewrite E0.
  - apply (kept_parent (k_mem s)); [rewrite NPAGES_eq; rewrite NUSER_eq in Hb; lia|done|done].
  - lia.
  - unfold npages, PGSIZE. zsolve.
  - intros v Hv. by rewrite Hpte.
  - lia.
  - rewrite E0, app_nil_l in H. destruct H as [[H [C1 C2 C3 C4 C5]]|(H & [U1 U2 U3] & L)]; [right; exists d, s', ps'|left; exists s', ps'].
    + split; [exact H|]. split; [done|]. split; [done|]. split; [clear - C2 F2; cnt_solve|]. split; [done|]. split; [intros v Hv; by rewrite C4, F3 by lia|].
      eapply outside_trans; [exact F4|exact C5|]. intros p Hin. clear - Hin F2. cnt_solve.
    + split; [exact H|]. split; [|rewrite <- F2, length_app; rewrite length_app in L; cbn [length]; lia]. split; [done|clear - U2 F2; cnt_solve|].
      eapply outside_trans; [exact F4|exact U3|]. intros p Hin. clear - Hin F2. cnt_solve.
Qed.
End copy.

(* ------------------------------------------------------------------ *)
(** * Writing through a page table *)

(** The byte at the user address [va]. *)
Definition ubyte (m : memory) (pg va : Z) : Z := m (frame_of (pte m pg (va / 4096)) + va mod 4096).

(** Page [v] may be accessed by the process. *)
Definition user_page (m : memory) (pg v : Z) : bool := present (pte m pg v) && truth (Z.land (pte m pg v) PTE_U).

Section copyout.
Variable kend : Z.
Abbreviation valid := (valid_page kend).

Definition splice_at (a : Z) (buf : list Z) (m : memory) : memory :=
  fun x => if (a <=? x) && (x <? a + Z.of_nat (length buf)) then nth (Z.to_nat (x - a)) buf 0 else m x.

Lemma splice_in a buf m x : a <= x < a + Z.of_nat (length buf) -> splice_at a buf m x = nth (Z.to_nat (x - a)) buf 0.
Proof. intros H. unfold splice_at. destruct (Z.leb_spec a x), (Z.ltb_spec x (a + Z.of_nat (length buf))); simpl; (done || lia). Qed.
Lemma splice_out a buf m x : ~ (a <= x < a + Z.of_nat (length buf)) -> splice_at a buf m x = m x.
Proof. intros H. unfold splice_at. destruct (Z.leb_spec a x), (Z.ltb_spec x (a + Z.of_nat (length buf))); simpl; (done || lia). Qed.

Lemma user_frame m pg v : 0 <= v < NUSER -> present (pte m pg v) = true -> frame_of (pte m pg v) ∈ upages m pg.
Proof.
  intros Hv Hp. unfold upages, frames. apply (omap_elem _ _ v); [apply elem_of_range; rewrite NUSER_eq in *; lia|]. unfold frame. by rewrite Hp.
Qed.

Lemma user_frame_inj m pg v v' : NoDup (upages m pg) -> 0 <= v < NUSER -> 0 <= v' < NUSER -> present (pte m pg v) = true -> present (pte m pg v') = true ->
  frame_of (pte m pg v) = frame_of (pte m pg v') -> v = v'.
Proof.
  unfold upages, frames. intros Hn Hv Hv' H H' E. rewrite NUSER_eq in Hv, Hv'. apply (omap_inj (frame (pte m pg)) (range 0 (Z.to_nat NUSER)) v v' (frame_of (pte m pg v))).
  - exact Hn.
  - apply elem_of_range. rewrite NUSER_eq. lia.
  - apply elem_of_range. rewrite NUSER_eq. lia.
  - unfold frame. by rewrite H.
  - unfold frame. rewrite H'. by rewrite E.
Qed.

(** Writing [buf] at offset [o] of user page [v] changes these bytes of the
    user memory and no others. *)
Lemma write_user s ps pg R v o buf : dir_ok kend s ps pg (upages (k_mem s) pg ++ R) -> 0 <= v < NUSER -> present (pte (k_mem s) pg v) = true ->
  0 <= o -> o + Z.of_nat (length buf) <= 4096 ->
  let m' := splice_at (frame_of (pte (k_mem s) pg v) + o) buf (k_mem s) in
  dir_ok kend (set_mem m' s) ps pg (upages m' pg ++ R) /\ (forall v', 0 <= v' < NPAGES -> pte m' pg v' = pte (k_mem s) pg v') /\
  outside (upages (k_mem s) pg) (k_mem s) m' /\ upages m' pg = upages (k_mem s) pg /\
  forall va, 0 <= va < KERNBASE -> present (pte (k_mem s) pg (va / 4096)) = true ->
    ubyte m' pg va = if (v * 4096 + o <=? va) && (va <? v * 4096 + o + Z.of_nat (length buf)) then nth (Z.to_nat (va - (v * 4096 + o))) buf 0 else ubyte (k_mem s) pg va.
Proof.
  intros Hd Hv Hp Ho Hlen m'. pose proof (do_nodup _ _ _ _ _ Hd) as Hnd. set (q := frame_of (pte (k_mem s) pg v)) in *.
  pose proof (user_frame _ _ _ Hv Hp) as Hq. fold q in Hq.
  assert (Hall : forall p, p ∈ (upages (k_mem s) pg ++ R) ++ pg :: ps ++ tables (k_mem s) pg -> valid p) by (intros p; by apply (dir_valid kend s)).
  assert (O1 : outside [q] (k_mem s) m').
  { intros x Hx. apply splice_out. specialize (Hx q ltac:(by left)). unfold in_page, PGSIZE in Hx. lia. }
  destruct (dir_same (k_mem s) m' pg) as (_ & H2 & H3 & H4).
  { intros p x Hin. apply (outside_page kend [q]); [done|constructor; [apply Hall; clear - Hq; cnt_solve|done]|apply Hall; clear - Hin; cnt_solve|].
    clear - Hnd Hq Hin. cnt_solve. }
  split; [|split; [done|split; [|split; [done|]]]].
  - apply (dir_ok_perm kend s ps pg (upages (k_mem s) pg ++ R)); [done| |simpl; by rewrite H3, H4].
    apply (kmem_ok_outside kend s ps [q]); [apply Hd|done|constructor; [apply Hall; clear - Hq; cnt_solve|done]|].
    intros p ->%list_elem_of_singleton. clear - Hnd Hq. cnt_solve.
  - eapply outside_sub; [exact O1|]. by intros p ->%list_elem_of_singleton.
  - intros va Hva Hpv. unfold KERNBASE in Hva. assert (Hvp : 0 <= va / 4096 < NUSER) by (rewrite NUSER_eq; zsolve).
    unfold ubyte. rewrite H2 by (rewrite NPAGES_eq; rewrite NUSER_eq in Hvp; lia).
    destruct (decide (va / 4096 = v)) as [Ev|Hne].
    + rewrite Ev. fold q. assert (va = v * 4096 + va mod 4096) by zsolve.
      destruct (Z.leb_spec (v * 4096 + o) va), (Z.ltb_spec va (v * 4096 + o + Z.of_nat (length buf))); simpl;
        [unfold m'; rewrite splice_in by lia; f_equal; lia|unfold m'; apply splice_out; lia..].
    + assert (Hb : (v * 4096 + o <=? va) && (va <? v * 4096 + o + Z.of_nat (length buf)) = false).
      { apply andb_false_iff. destruct (Z.leb_spec (v * 4096 + o) va); [right|by left]. apply Z.ltb_ge. zsolve. }
      rewrite Hb. apply (outside_page kend [q] _ _ (frame_of (pte (k_mem s) pg (va / 4096)))); [done|constructor; [apply Hall; clear - Hq; cnt_solve|done]|..].
      * pose proof (user_frame _ _ _ Hvp Hpv) as Hin. apply Hall. clear - Hin. cnt_solve.
      * intros Eq%list_elem_of_singleton. apply Hne. apply (user_frame_inj (k_mem s) pg); try done. clear - Hnd. cnt_solve.
      * unfold in_page, PGSIZE. zsolve.
Qed.

Lemma uva2ka_ok s ps pg R v : dir_ok kend s ps pg (upages (k_mem s) pg ++ R) -> 0 <= v < NUSER -> present (pde (k_mem s) pg (v / 1024)) = true ->
  uva2ka pg (v * 4096) s = Ok (if user_page (k_mem s) pg v then frame_of (pte (k_mem s) pg v) else 0) s.
Proof.
  intros Hd Hv Hp. assert (Hvp : 0 <= v < NPAGES) by (rewrite NPAGES_eq; rewrite NUSER_eq in Hv; lia). unfold uva2ka.
  rewrite (bind_ok _ _ _ _ _ (walk_found s pg v false Hvp Hp)), (proj2 (Z.eqb_neq _ 0) (slot_nonzero _ _ _ _ _ _ Hd Hvp Hp)).
  unfold ld. rewrite (bind_ok (gets _) _ s (pte (k_mem s) pg v) s) by (unfold gets; by rewrite (pte_slot _ _ _ Hp)).
  unfold user_page, present, truth. destruct (Z.land (pte (k_mem s) pg v) PTE_P =? 0); [done|]. by destruct (Z.land (pte (k_mem s) pg v) PTE_U =? 0).
Qed.

Lemma user_pde m pg v : user_page m pg v = true -> present (pte m pg v) = true /\ present (pde m pg (v / 1024)) = true.
Proof.
  unfold user_page. intros H. apply andb_true_iff in H as [H _]. split; [done|]. unfold pte in H. by destruct (present (pde m pg (v / 1024))).
Qed.

(** What [copyout] of [buf] to the user address [va] does. *)
Record wrote (s : kstate) (pg va : Z) (buf : list Z) (s' : kstate) : Prop := {
  wr_kmem : k_kmem s' = k_kmem s;
  wr_pte : forall v, 0 <= v < NPAGES -> pte (k_mem s') pg v = pte (k_mem s) pg v;
  wr_out : outside (upages (k_mem s) pg) (k_mem s) (k_mem s');
  wr_byte : forall x, 0 <= x < KERNBASE -> present (pte (k_mem s) pg (x / 4096)) = true ->
    ubyte (k_mem s') pg x = if (va <=? x) && (x <? va + Z.of_nat (length buf)) then nth (Z.to_nat (x - va)) buf 0 else ubyte (k_mem s) pg x;
}.

Lemma copyout_loop_ok pg ps R fuel : forall s va buf, dir_ok kend s ps pg (upages (k_mem s) pg ++ R) -> 0 <= va -> va + Z.of_nat (length buf) <= KERNBASE ->
  (forall x, va <= x < va + Z.of_nat (length buf) -> user_page (k_mem s) pg (x / 4096) = true) -> (length buf < fuel)%nat ->
  exists s', copyout_loop fuel pg va buf (Z.of_nat (length buf)) s = Ok 0 s' /\ wrote s pg va buf s'.
Proof.
  induction fuel as [|fuel IH]; intros s va buf Hd Hva Hlen Hu Hf; [lia|]. cbn [copyout_loop].
  destruct (Z.ltb_spec 0 (Z.of_nat (length buf))) as [Hpos|Hz].
  2: { exists s. split; [done|]. split; [done|done|apply outside_refl|]. intros x Hx _.
    destruct (Z.leb_spec va x), (Z.ltb_spec x (va + Z.of_nat (length buf))); simpl; (done || lia). }
  unfold KERNBASE in Hlen. set (v := va / 4096). set (o := va mod 4096). assert (Eva : va = v * 4096 + o) by (unfold v, o; zsolve).
  assert (Ho : 0 <= o < 4096) by (unfold o; zsolve). assert (Hv : 0 <= v < NUSER) by (rewrite NUSER_eq; unfold v; zsolve).
  assert (E0 : PGROUNDDOWN va = v * 4096) by (rewrite PGROUNDDOWN_eq by lia; done). rewrite E0.
  pose proof (Hu va ltac:(lia)) as Huv. fold v in Huv. destruct (user_pde _ _ _ Huv) as [Hp Hpd].
  rewrite (bind_ok _ _ _ _ _ (uva2ka_ok s ps pg R v Hd Hv Hpd)), Huv.
  assert (Hq : frame_of (pte (k_mem s) pg v) <> 0).
  { apply (V2P_valid kend). apply (dir_valid _ _ _ _ _ _ Hd). pose proof (user_frame _ _ _ Hv Hp) as Hin. clear - Hin. cnt_solve. }
  rewrite (proj2 (Z.eqb_neq _ 0) Hq). unfold PGSIZE. replace (va - v * 4096) with o by lia.
  set (n := Z.min (4096 - o) (Z.of_nat (length buf))). assert (Hn : 0 < n <= Z.of_nat (length buf)) by lia.
  assert (Elen : length (take (Z.to_nat n) buf) = Z.to_nat n) by (rewrite length_take; lia).
  assert (Edrop : Z.of_nat (length buf) - n = Z.of_nat (length (drop (Z.to_nat n) buf))) by (rewrite length_drop; lia).
  destruct (write_user s ps pg R v o (take (Z.to_nat n) buf) Hd Hv Hp) as (Hd1 & P1 & O1 & U1 & B1); [lia|rewrite Elen; lia|].
  set (m1 := splice_at _ _ _) in *. rewrite (bind_ok (put_buf _ _) _ s tt (set_mem m1 s)) by done. rewrite Edrop. rewrite Elen in B1.
  rewrite u32_id by lia. destruct (decide (o + Z.of_nat (length buf) <= 4096)) as [Hlast|Hmore].
  - assert (Hnil : drop (Z.to_nat n) buf = []) by (apply nil_length_inv; rewrite length_drop; lia). rewrite Hnil.
    destruct fuel as [|fuel]; [lia|]. exists (set_mem m1 s). split; [done|]. split; [done|done|done|]. intros x Hx Hpx. cbn [k_mem set_mem].
    rewrite B1, Eva by done. replace (Z.of_nat (Z.to_nat n)) with (Z.of_nat (length buf)) by lia. by rewrite take_ge by lia.
  - assert (En : n = 4096 - o) by lia.
    destruct (IH (set_mem m1 s) (v * 4096 + 4096) (drop (Z.to_nat n) buf)) as (s' & E & [W1 W2 W3 W4]); [done|lia|unfold KERNBASE; lia| |rewrite length_drop; lia|].
    { intros x Hx. unfold user_page. cbn [k_mem set_mem]. rewrite P1 by (rewrite NPAGES_eq; zsolve). apply Hu. lia. }
    cbn [k_mem k_kmem set_mem] in W1, W2, W3, W4. exists s'. split; [done|]. split; [done|intros w Hw; by rewrite W2, P1|..].
    + eapply outside_trans; [exact O1|exact W3|by rewrite U1].
    + intros x Hx Hpx. unfold KERNBASE in Hx. rewrite W4 by (done || rewrite P1 by (rewrite NPAGES_eq; zsolve); done). rewrite B1 by done. rewrite <- Edrop.
      destruct (Z.leb_spec (v * 4096 + 4096) x), (Z.leb_spec va x); simpl; try lia.
      * destruct (Z.ltb_spec x (v * 4096 + 4096 + (Z.of_nat (length buf) - n))), (Z.ltb_spec x (va + Z.of_nat (length buf))); try lia.
        -- rewrite nth_skipn. f_equal. lia.
        -- destruct (Z.leb_spec (v * 4096 + o) x), (Z.ltb_spec x (v * 4096 + o + Z.of_nat (Z.to_nat n))); simpl; (done || lia).
      * destruct (Z.ltb_spec x (va + Z.of_nat (length buf))); [|lia]. destruct (Z.leb_spec (v * 4096 + o) x); [|lia].
        destruct (Z.ltb_spec x (v * 4096 + o + Z.of_nat (Z.to_nat n))); [|lia]. simpl. rewrite <- Eva. rewrite nth_firstn. by destruct (Nat.ltb_spec (Z.to_nat (x - va)) (Z.to_nat n)); [|lia].
      * destruct (Z.leb_spec (v * 4096 + o) x); [lia|]. done.
Qed.
End copyout.
