(* ===== verification/VmClaims.v ===== *)
(** The correctness of the address spaces of vm.c. *)

From S2P Require Import Prelude StringC Spinlock Kalloc Pages Vm VmSpec VmFree VmOps VmCopy.

#[local] Opaque range.

Section claims.
Variable kend kdata : Z.
Hypothesis Hend : KERNBASE < kend.

(** C15: [freevm] loses nothing and frees nothing twice.  Every page of the
    address space (the directory, its page tables and the user pages below
    [KERNBASE]) goes back to the allocator, which then holds exactly these and
    the pages it held before; the pages [R] that belong to others keep their
    contents, and the call never panics. *)
Theorem freevm_returns_all s ps pg R : dir_ok kend s ps pg (upages (k_mem s) pg ++ R) ->
  exists s' ps', freevm kend pg s = Ok tt s' /\ kmem_ok kend s' ps' /\ ps' ≡ₚ owned (k_mem s) pg ++ ps /\
    forall q x, q ∈ R -> in_page q x -> k_mem s' x = k_mem s x.
Proof.
  intros Hd. destruct (freevm_ok kend Hend s ps pg R Hd) as (s' & ps' & E & K & P & O). exists s', ps'. split; [done|]. split; [done|]. split; [done|].
  pose proof (do_nodup _ _ _ _ _ Hd) as Hnd. pose proof (do_valid _ _ _ _ _ Hd) as Hv. unfold owned in O. rewrite Forall_forall in Hv.
  apply (outside_kept kend _ _ _ _ O); [apply Forall_forall; intros p Hp; apply Hv; clear - Hp; cnt_solve|..].
  - apply Forall_forall. intros p Hp. apply Hv. clear - Hp. cnt_solve.
  - intros p Hp. clear - Hp Hnd. cnt_solve.
Qed.

(** [allocuvm] grows an address space or leaves it as it was.  On success
    every new page is a zeroed page of its own, readable and writable by the
    process; on failure, at whatever page memory ran out, nothing is mapped in
    the range and every page taken for it has gone back (only page tables stay,
    with the directory).  All other entries, and the pages of others, are as
    before; a size beyond [KERNBASE] gives 0 and a smaller size changes nothing. *)
Theorem allocuvm_spec s ps pg R oldsz newsz : 0 <= oldsz -> 0 <= newsz -> dir_ok kend s ps pg R ->
  (forall v, npages oldsz <= v < npages newsz -> present (pte (k_mem s) pg v) = false) ->
  if KERNBASE <=? newsz then allocuvm kend pg oldsz newsz s = Ok 0 s
  else if newsz <? oldsz then allocuvm kend pg oldsz newsz s = Ok oldsz s
  else exists r s' ps', allocuvm kend pg oldsz newsz s = Ok r s' /\
    (r = newsz /\ grown kend s (ps ++ tables (k_mem s) pg) pg (npages oldsz) (npages newsz) s' ps' \/
     r = 0 /\ not_grown kend s (ps ++ tables (k_mem s) pg) pg (npages oldsz) (npages newsz) s' ps' /\
       Z.of_nat (length ps) <= npages newsz - npages oldsz + 1024) /\
    forall q x, q ∈ R -> in_page q x -> k_mem s' x = k_mem s x.
Proof.
  intros Ho Hn Hd Hnp. unfold allocuvm at 1 2. destruct (Z.leb_spec KERNBASE newsz) as [Hk|Hk]; [done|].
  destruct (Z.ltb_spec newsz oldsz) as [Hlt|Hge]; [done|].
  destruct (allocuvm_ok kend Hend s ps pg R oldsz newsz ltac:(lia) Hk Hd Hnp) as (s' & ps' & H).
  assert (Hout : outside (pg :: ps ++ tables (k_mem s) pg) (k_mem s) (k_mem s') -> forall q x, q ∈ R -> in_page q x -> k_mem s' x = k_mem s x).
  { intros O. pose proof (do_nodup _ _ _ _ _ Hd) as Hnd. pose proof (do_valid _ _ _ _ _ Hd) as Hv. apply Forall_app in Hv as [V1 V2].
    apply (outside_kept kend _ _ _ _ O V2 V1). intros p Hp. clear - Hp Hnd. cnt_solve. }
  destruct H as [[E G]|(E & G & L)]; eexists _, s', ps'; (split; [exact E|]); (split; [|apply Hout, G]); [by left|right].
  split; [done|]. split; [done|]. rewrite length_app in L. lia.
Qed.

Hypothesis Hdata : kdata mod 4096 = 0 /\ KERNLINK < kdata < KERNBASE + PHYSTOP.

(** C14: [copyuvm], the heart of [fork].  On success every page of the parent's
    first [sz] bytes has a copy with the same contents and permissions in a
    page taken from the allocator, the rest of the child's address space is the
    kernel's mappings; parent and child share no page, and the parent's memory
    is unchanged.  When memory runs out, at any point, the call returns 0 and
    the allocator has all its pages back; this happens only with fewer free pages
    than the copy, a directory and its tables can need. *)
Theorem copyuvm_spec s ps pg sz R : kmem_ok kend s ps -> NoDup (R ++ ps) -> Forall (valid_page kend) R -> 0 <= sz <= KERNBASE ->
  parent_ok (k_mem s) pg (npages sz) R ->
  exists d s' ps', copyuvm kend kdata pg sz s = Ok d s' /\ kmem_ok kend s' ps' /\
    (forall q x, q ∈ R -> in_page q x -> k_mem s' x = k_mem s x) /\
    if d =? 0 then ps' ≡ₚ ps /\ Z.of_nat (length ps) <= npages sz + 1025
    else d :: frames (pte (k_mem s') d) (upto 0 (npages sz)) ++ ps' ++ tables (k_mem s') d ≡ₚ ps /\
      (forall v, 0 <= v < npages sz -> copied (k_mem s') pg d v) /\
      (forall v, npages sz <= v < NPAGES -> pte (k_mem s') d v = kernel_pte kdata v).
Proof.
  intros Hk Hnd VR Hsz Hp.
  assert (Hout : forall m', outside ps (k_mem s) m' -> kept R (k_mem s) m').
  { intros m' O. apply (outside_kept kend _ _ _ _ O (kmem_ok_valid kend s ps Hk) VR). intros p Hin. clear - Hin Hnd. cnt_solve. }
  destruct (copyuvm_ok kend kdata Hend Hdata s ps pg sz R Hk Hnd VR Hsz Hp) as [(s' & ps' & E & [U1 U2 U3] & L)|(d & s' & ps' & E & Hd0 & K & P & C & Q & O)].
  - exists 0, s', ps'. split; [done|]. split; [done|]. split; [by apply Hout|done].
  - exists d, s', ps'. split; [done|]. split; [done|]. split; [by apply Hout|]. by rewrite (proj2 (Z.eqb_neq d 0) Hd0).
Qed.

(** [copyout] writes exactly the given bytes at the user address, across
    page boundaries, through the page table it is given; no other byte of the
    user memory and no entry changes. *)
Theorem copyout_spec s ps pg R va buf : dir_ok kend s ps pg (upages (k_mem s) pg ++ R) -> 0 <= va -> va + Z.of_nat (length buf) <= KERNBASE ->
  (forall x, va <= x < va + Z.of_nat (length buf) -> user_page (k_mem s) pg (x / 4096) = true) ->
  exists s', copyout pg va buf (Z.of_nat (length buf)) s = Ok 0 s' /\ wrote s pg va buf s'.
Proof. intros Hd Hva Hlen Hu. apply (copyout_loop_ok kend pg ps R); try done. lia. Qed.
End claims.

(* ------------------------------------------------------------------ *)
(** * Witnesses: one user page, two free pages *)

Definition w_end : Z := 2148532224.
Definition w_data : Z := 2148597760.
Definition w_pg : Z := w_end.
Definition w_tab : Z := w_end + 4096.
Definition w_page : Z := w_end + 8192.
Definition w_free : list Z := [w_end + 12288; w_end + 16384].
Definition w_mem : memory :=
  store32 (store32 (store32 (fun _ => 0) w_pg (V2P w_tab + 7)) w_tab (V2P w_page + 7)) (w_end + 12288) (w_end + 16384).
Definition w_vm : kstate := Kstate w_mem (Kmem Unlocked true (w_end + 12288)).

Lemma w_kmem : kmem_ok w_end w_vm w_free.
Proof.
  split; [done| |apply (bool_decide_unpack _); vm_compute; exact I]. vm_compute. repeat split; discriminate.
Qed.

Lemma w_tables : tables w_mem w_pg = [w_tab].
Proof. vm_compute. reflexivity. Qed.

Lemma w_pte v : 0 <= v < NPAGES -> pte w_mem w_pg v = if v =? 0 then V2P w_page + 7 else 0.
Proof.
  intros Hv. destruct (page_index v Hv) as [H1 _]. destruct (decide (v < 1024)) as [Hs|Hb].
  - assert (Hall : forallb (fun v => pte w_mem w_pg v =? if v =? 0 then V2P w_page + 7 else 0) (range 0 1024) = true) by (vm_compute; reflexivity).
    rewrite forallb_forall in Hall. apply Z.eqb_eq, Hall, list_elem_of_In, elem_of_range. lia.
  - assert (Hall : forallb (fun d => (d =? 0) || negb (present (pde w_mem w_pg d))) (range 0 1024) = true) by (vm_compute; reflexivity).
    rewrite forallb_forall in Hall. specialize (Hall (v / 1024) ltac:(apply list_elem_of_In, elem_of_range; lia)). unfold pte.
    assert (0 < v / 1024) by zsolve. destruct (Z.eqb_spec (v / 1024) 0); [lia|]. destruct (Z.eqb_spec v 0); [lia|].
    by destruct (present (pde w_mem w_pg (v / 1024))).
Qed.

Lemma w_frame : present (V2P w_page + 7) = true /\ frame_of (V2P w_page + 7) = w_page.
Proof. split; vm_compute; reflexivity. Qed.

Lemma w_upages : upages w_mem w_pg = [w_page].
Proof.
  rewrite upages_upto, upto_cons by (unfold npages, KERNBASE; reflexivity). change (npages 0) with 0.
  rewrite frames_cons. rewrite w_pte by (rewrite NPAGES_eq; lia).
  change (0 =? 0) with true. cbv iota. destruct w_frame as [-> ->]. rewrite frames_none; [reflexivity|].
  intros v Hv. apply elem_of_upto in Hv. change (npages KERNBASE) with 524288 in Hv. rewrite w_pte by (rewrite NPAGES_eq; lia).
  by destruct (Z.eqb_spec v 0); [lia|].
Qed.

Lemma w_pages_ok : Forall (valid_page w_end) [w_page; w_pg; w_end + 12288; w_end + 16384; w_tab].
Proof. repeat constructor; vm_compute; congruence. Qed.

Lemma w_dir : dir_ok w_end w_vm w_free w_pg (upages (k_mem w_vm) w_pg ++ []).
Proof.
  split; [apply w_kmem|..]; simpl k_mem; rewrite w_upages, w_tables; simpl.
  - apply (bool_decide_unpack _). vm_compute. exact I.
  - apply w_pages_ok.
Qed.

Lemma w_end_ok : KERNBASE < w_end.
Proof. reflexivity. Qed.

Lemma freevm_returns_all_witness : exists s' ps', freevm w_end w_pg w_vm = Ok tt s' /\ kmem_ok w_end s' ps' /\
  ps' ≡ₚ [w_pg; w_tab; w_page; w_end + 12288; w_end + 16384].
Proof.
  destruct (freevm_returns_all w_end w_end_ok w_vm w_free w_pg [] w_dir) as (s' & ps' & E & K & P & _). exists s', ps'.
  split; [exact E|]. split; [exact K|]. unfold owned in P. simpl k_mem in P. rewrite w_upages, w_tables in P. exact P.
Defined.

Lemma allocuvm_spec_witness : exists r s', allocuvm w_end w_pg 4096 8000 w_vm = Ok r s'.
Proof.
  destruct (allocuvm_spec w_end w_end_ok w_vm w_free w_pg (upages (k_mem w_vm) w_pg ++ []) 4096 8000) as (r & s' & ps' & E & _);
    [lia|lia|exact w_dir| |exists r, s'; exact E].
  intros v Hv. change (npages 4096) with 1 in Hv. change (npages 8000) with 2 in Hv. simpl k_mem. rewrite w_pte by (rewrite NPAGES_eq; lia).
  by destruct (Z.eqb_spec v 0); [lia|].
Defined.

Lemma copyuvm_spec_witness : exists d s' ps', copyuvm w_end w_data w_pg 100 w_vm = Ok d s' /\ kmem_ok w_end s' ps'.
Proof.
  destruct (copyuvm_spec w_end w_data w_end_ok ltac:(split; [reflexivity|split; reflexivity]) w_vm w_free w_pg 100 [w_page; w_pg; w_tab])
    as (d & s' & ps' & E & K & _); [exact w_kmem| | | | |exists d, s', ps'; by split].
  - apply (bool_decide_unpack _). vm_compute. exact I.
  - repeat constructor; vm_compute; congruence.
  - vm_compute. split; congruence.
  - split.
    + simpl k_mem. rewrite w_tables. intros p Hp. cnt_solve.
    + intros v Hv. change (npages 100) with 1 in Hv. assert (v = 0) as -> by lia. simpl k_mem. rewrite w_pte by (rewrite NPAGES_eq; lia).
      change (0 =? 0) with true. cbv iota. destruct w_frame as [-> ->]. split; [done|by left].
Defined.

Lemma copyout_spec_witness : exists s', copyout w_pg 4090 [104; 105] 2 w_vm = Ok 0 s' /\ ubyte (k_mem s') w_pg 4091 = 105.
Proof.
  assert (P0 : pte (k_mem w_vm) w_pg 0 = V2P w_page + 7) by (simpl k_mem; by rewrite w_pte by (rewrite NPAGES_eq; lia)).
  destruct (copyout_spec w_end w_vm w_free w_pg [] 4090 [104; 105] w_dir) as (s' & E & W); [lia|vm_compute; congruence| |].
  - intros x Hx. simpl in Hx. assert (x / 4096 = 0) as -> by zsolve. unfold user_page. rewrite P0. vm_compute. reflexivity.
  - exists s'. split; [exact E|]. rewrite (wr_byte _ _ _ _ _ W 4091); [reflexivity|vm_compute; split; congruence|].
    change (4091 / 4096) with 0. rewrite P0. apply w_frame.
Defined.
