(* ===== verification/Startup.v ===== *)
(** Starting the machine: the segment descriptors and the kernel's page table of a
    CPU (src/vm.c), the page table in use before it, and the start of the other
    CPUs (src/main.c, and the loads of src/entryother.S).

    The code of entryother.S that a CPU runs is [ap_boot]: the page table, the
    stack and the entry point that it finds below its code.  [mpenter] and
    [entrypgdir] are addresses that the linker gives. *)

From S2P Require Import Prelude StringC Spinlock Kalloc Ptable Ports Lapic Pages Vm VmSpec VmOps VmClaims.

(* ------------------------------------------------------------------ *)
(** * Segments *)

(* src/mmu.h:26-40 segdesc *)
Record segdesc := Segdesc {
  lim_15_0 : Z; base_15_0 : Z; base_23_16 : Z; sd_type : Z; sd_s : Z; sd_dpl : Z; sd_p : Z;
  lim_19_16 : Z; avl : Z; rsv1 : Z; db : Z; sd_g : Z; base_31_24 : Z;
}.

(* src/mmu.h:43-46 SEG *)
Definition SEG (type base lim dpl : Z) : segdesc :=
  Segdesc (Z.land (Z.shiftr lim 12) 65535) (Z.land (u32 base) 65535) (Z.land (Z.shiftr (u32 base) 16) 255) type 1 dpl 1
    (Z.shiftr (u32 lim) 28) 0 0 1 1 (Z.shiftr (u32 base) 24).

(* src/mmu.h:15-15 SEG_KCODE *)
Definition SEG_KCODE : Z := 1.
(* src/mmu.h:16-16 SEG_KDATA *)
Definition SEG_KDATA : Z := 2.
(* src/mmu.h:17-17 SEG_UCODE *)
Definition SEG_UCODE : Z := 3.
(* src/mmu.h:18-18 SEG_UDATA *)
Definition SEG_UDATA : Z := 4.
(* src/mmu.h:53-53 DPL_USER *)
Definition DPL_USER : Z := 3.
(* src/mmu.h:56-56 STA_X *)
Definition STA_X : Z := 8.
(* src/mmu.h:57-57 STA_W *)
Definition STA_W : Z := 2.
(* src/mmu.h:58-58 STA_R *)
Definition STA_R : Z := 2.

(** On the table [gdt] of the CPU; [lgdt] makes the CPU use it. *)

(* src/vm.c:15-30 seginit *)
Definition seginit (gdt : list segdesc) : list segdesc :=
  let gdt := <[Z.to_nat SEG_KCODE := SEG (Z.lor STA_X STA_R) 0 4294967295 0]> gdt in
  let gdt := <[Z.to_nat SEG_KDATA := SEG STA_W 0 4294967295 0]> gdt in
  let gdt := <[Z.to_nat SEG_UCODE := SEG (Z.lor STA_X STA_R) 0 4294967295 DPL_USER]> gdt in
  <[Z.to_nat SEG_UDATA := SEG STA_W 0 4294967295 DPL_USER]> gdt.

(** How the CPU reads a descriptor. *)
Definition seg_base (d : segdesc) : Z := base_15_0 d + 65536 * base_23_16 d + 16777216 * base_31_24 d.
Definition seg_limit (d : segdesc) : Z :=
  let l := lim_15_0 d + 65536 * lim_19_16 d in if sd_g d =? 1 then 4096 * l + 4095 else l.

(** A descriptor says what [SEG] was given, the limit up to its last 12 bits. *)
Lemma SEG_decode type base lim dpl : 0 <= base < 4294967296 -> 0 <= lim < 4294967296 ->
  let d := SEG type base lim dpl in seg_base d = base /\ seg_limit d = 4096 * (lim / 4096) + 4095 /\ sd_dpl d = dpl /\ sd_type d = type /\ sd_p d = 1.
Proof.
  intros Hb Hl d. unfold d, seg_base, seg_limit, SEG. cbn. rewrite !u32_id by done. change 65535 with (Z.ones 16). change 255 with (Z.ones 8).
  rewrite !Z.land_ones, !Z.shiftr_div_pow2 by lia. change (2 ^ 12) with 4096. change (2 ^ 16) with 65536. change (2 ^ 8) with 256. change (2 ^ 28) with 268435456. change (2 ^ 24) with 16777216.
  split; [zsolve|]. split; [zsolve|done].
Qed.

(** After [seginit] every segment of the kernel and of user programs covers all
    addresses without translation; those of the kernel are closed to programs,
    those of programs have their privilege level. *)
Theorem seginit_flat (gdt : list segdesc) (k : Z) : length gdt = 6%nat -> SEG_KCODE <= k <= SEG_UDATA ->
  exists d, seginit gdt !! Z.to_nat k = Some d /\ seg_base d = 0 /\ seg_limit d = 4294967295 /\ sd_p d = 1 /\
    sd_dpl d = (if k <=? SEG_KDATA then 0 else DPL_USER) /\ sd_type d = (if (k =? SEG_KCODE) || (k =? SEG_UCODE) then Z.lor STA_X STA_R else STA_W).
Proof.
  intros Hl Hk. unfold SEG_KCODE, SEG_UDATA in Hk. do 6 (destruct gdt as [|? gdt]; [done|]). destruct gdt; [|done].
  assert (k = 1 \/ k = 2 \/ k = 3 \/ k = 4) as [-> | [-> | [-> | ->]]] by lia; (eexists; split; [reflexivity|]; vm_compute; done).
Qed.

Lemma seginit_flat_witness : exists d, seginit (replicate 6 (SEG 0 0 0 0)) !! 3%nat = Some d /\ seg_base d = 0 /\ seg_limit d = 4294967295 /\ sd_p d = 1 /\
  sd_dpl d = (if 3 <=? SEG_KDATA then 0 else DPL_USER) /\ sd_type d = (if (3 =? SEG_KCODE) || (3 =? SEG_UCODE) then Z.lor STA_X STA_R else STA_W).
Proof. apply (seginit_flat (replicate 6 (SEG 0 0 0 0)) 3); [reflexivity|unfold SEG_KCODE, SEG_UDATA; lia]. Defined.

(* ------------------------------------------------------------------ *)
(** * The first page tables *)

(** Pages of 4 megabytes. *)

(* src/mmu.h:97-97 PTE_PS *)
Definition PTE_PS : Z := 128.

(* src/main.c:99-105 entrypgdir *)
Definition entrypgdir : list Z :=
  let e := Z.lor (Z.lor (Z.lor 0 PTE_P) PTE_W) PTE_PS in
  <[Z.to_nat (Z.shiftr KERNBASE 22) := e]> (<[0%nat := e]> (replicate (Z.to_nat NPDENTRIES) 0)).

(** The physical address under a directory of such pages. *)
Definition translate_4m (dir : list Z) (va : Z) : option Z :=
  let e := nth (Z.to_nat (va / 4194304)) dir 0 in
  if present e && truth (Z.land e PTE_PS) then Some (e / 4194304 * 4194304 + va mod 4194304) else None.

(** The physical address under a directory in memory. *)
Definition translate (m : memory) (pg va : Z) : option Z :=
  let e := pte m pg (va / 4096) in if present e then Some (PTE_ADDR e + va mod 4096) else None.

(** [kpgdir] is the value stored; [switchkvm] loads it. *)

(* src/vm.c:138-145 kvmalloc *)
Definition kvmalloc (kend kdata : Z) : M pst Z :=
  kpgdir <- zoom km_of (setupkvm kend kdata) ;;
  switchkvm kpgdir ;;
  ret kpgdir.

Lemma entry_addr pa perm : pa mod 4096 = 0 -> 0 <= pa < 4294967296 -> perm = 0 \/ perm = 2 ->
  present (Z.lor (Z.lor pa perm) 1) = true /\ PTE_ADDR (Z.lor (Z.lor pa perm) 1) = pa.
Proof.
  intros Hm Hr Hp. assert (E : Z.lor (Z.lor pa perm) 1 = pa + Z.lor perm 1).
  { rewrite <- Z.lor_assoc. replace pa with (pa / 4096 * 2 ^ 12) at 1 by (change (2 ^ 12) with 4096; zsolve). rewrite lor_low; [change (2 ^ 12) with 4096; zsolve|lia|]. change (2 ^ 12) with 4096. destruct Hp as [-> | ->]; done. }
  rewrite E. assert (Hl : Z.lor perm 1 = perm + 1) by (by destruct Hp as [-> | ->]). rewrite Hl. split.
  - unfold present, truth, PTE_P. change 1 with (Z.ones 1) at 2. rewrite Z.land_ones by lia. change (2 ^ 1) with 2. apply negb_true_iff, Z.eqb_neq. zsolve.
  - unfold PTE_ADDR. rewrite u32_id by zsolve. rewrite land_page by zsolve. zsolve.
Qed.

(** The kernel's entries map the first 4 megabytes as the first table does. *)
Lemma kernel_low kdata v : kdata mod 4096 = 0 /\ KERNLINK < kdata < KERNBASE + PHYSTOP -> 524288 <= v < 525312 ->
  present (kernel_pte kdata v) = true /\ PTE_ADDR (kernel_pte kdata v) = (v - 524288) * 4096.
Proof.
  intros [HD1 HD2] Hv. unfold KERNLINK, KERNBASE, EXTMEM, PHYSTOP in HD2. unfold kernel_pte, mapped, KERNLINK, KERNBASE, EXTMEM, PHYSTOP.
  rewrite (proj2 (Z.leb_gt 1040384 v)) by lia. cbn [andb].
  destruct (Z.leb_spec (kdata / 4096) v) as [H1|H1].
  - rewrite (proj2 (Z.ltb_lt v _)) by zsolve. cbn [andb]. replace (kdata - 2147483648 + (v - kdata / 4096) * 4096) with ((v - 524288) * 4096) by zsolve. apply entry_addr; [zsolve|lia|by right].
  - cbn [andb]. destruct (Z.leb_spec 524544 v) as [H2|H2].
    + rewrite (proj2 (Z.ltb_lt v _)) by zsolve. cbn [andb]. replace (1048576 + (v - 524544) * 4096) with ((v - 524288) * 4096) by lia. apply entry_addr; [zsolve|lia|by left].
    + cbn [andb]. rewrite (proj2 (Z.leb_le _ _)), (proj2 (Z.ltb_lt v _)) by lia. cbn [andb]. rewrite Z.add_0_l. apply entry_addr; [zsolve|lia|by right].
Qed.

Lemma entrypgdir_kernel va : KERNBASE <= va < KERNBASE + 4194304 -> translate_4m entrypgdir va = Some (va - KERNBASE).
Proof.
  unfold KERNBASE. intros Hv. unfold translate_4m. replace (va / 4194304) with 512 by zsolve. change (nth (Z.to_nat 512) entrypgdir 0) with 131. change (present 131 && truth (Z.land 131 PTE_PS)) with true. cbv iota zeta.
  f_equal. change (131 / 4194304) with 0. zsolve.
Qed.

(** [kvmalloc] with a page table made moves the CPU to it, and every address of
    the kernel in the first 4 megabytes keeps the translation it had under the
    first table; when there is no memory for the table (1025 free pages or
    fewer) every page is given back. *)
Theorem kvmalloc_keeps_kernel (kend kdata : Z) (s : pst) (ps : list Z) (Hend : KERNBASE < kend) (Hdata : kdata mod 4096 = 0 /\ KERNLINK < kdata < KERNBASE + PHYSTOP)
  (Hk : kmem_ok kend (km s) ps) :
  (exists s' ps', kvmalloc kend kdata s = Ok 0 s' /\ kmem_ok kend (km s') ps' /\ ps' ≡ₚ ps /\ (length ps <= 1025)%nat) \/
  exists pg s', kvmalloc kend kdata s = Ok pg s' /\ pg <> 0 /\ cr3 s' = V2P pg /\
    forall va, KERNBASE <= va < KERNBASE + 4194304 -> translate (k_mem (km s')) pg va = translate_4m entrypgdir va.
Proof.
  destruct (setupkvm_ok kend kdata Hend Hdata (km s) ps [] Hk) as [(s' & ps' & E & K & P & _ & L)|(pg & s' & ps' & E & Hpg & _ & [F1 F2 F3 F4])]; [apply Hk|constructor|left|right].
  - eexists _, ps'. split; [unfold kvmalloc; rewrite (bind_ok _ _ _ _ _ (zoom_ok km_of _ s _ _ E)); erewrite bind_ok by reflexivity; reflexivity|done].
  - eexists pg, _. split; [unfold kvmalloc; rewrite (bind_ok _ _ _ _ _ (zoom_ok km_of _ s _ _ E)); erewrite bind_ok by reflexivity; reflexivity|]. split; [done|]. split; [done|].
    intros va Hva. rewrite (entrypgdir_kernel va Hva). unfold KERNBASE in Hva. change (translate (k_mem s') pg va = Some (va - KERNBASE)). unfold translate. rewrite F3 by (rewrite NPAGES_eq; zsolve).
    destruct (kernel_low kdata (va / 4096) Hdata ltac:(zsolve)) as [-> ->]. unfold KERNBASE. f_equal. zsolve.
Qed.

(* ------------------------------------------------------------------ *)
(** * The other CPUs *)

(** The registers with which a CPU enters the kernel. *)
Record ap := Ap { ap_cr3 : Z; ap_esp : Z; ap_eip : Z }.

(** The memory and its pages, the devices, and for each CPU its entry and the
    field [started]. *)
Record smp (D : Type) := Smp { x_k : kstate; x_dev : D; x_aps : list (option ap); x_started : list Z }.
Arguments Smp {D} _ _ _ _.
Arguments x_k {D} _.
Arguments x_dev {D} _.
Arguments x_aps {D} _.
Arguments x_started {D} _.

(** The address of the code for the other CPUs. *)
Definition AP_CODE : Z := P2V 28672.

Section startothers.
Context {D : Type} `{Ports D}.
Variables (lapic mpenter entrypgdir_ entry_start : Z) (entry_size : nat).
Local Abbreviation S_ := (M (smp D)).

Definition x_k_of : lens (smp D) kstate := Lens x_k (fun k s => Smp k (x_dev s) (x_aps s) (x_started s)).
Definition x_lap_of : lens (smp D) (lapst D) :=
  Lens (fun s => Lapst (k_mem (x_k s)) (x_dev s)) (fun l s => Smp (set_mem (l_mem l) (x_k s)) (l_dev l) (x_aps s) (x_started s)).

(** What CPU [c] does once it is told to: it takes its page table, its stack and
    its entry point from the words below its code, and [mpmain] sets
    [started]. *)

(* src/entryother.S:62-73 start32 *)
Definition ap_boot (c : nat) (s : smp D) : smp D :=
  let m := k_mem (x_k s) in
  Smp (x_k s) (x_dev s) (<[c := Some (Ap (load32 m (AP_CODE - 12)) (load32 m (AP_CODE - 4)) (load32 m (AP_CODE - 8)))]> (x_aps s)) (<[c := 1]> (x_started s)).

(** The loop on [started]: the other CPU runs meanwhile. *)

(* src/main.c:89-90 startothers *)
Definition wait_started (c : nat) : S_ unit :=
  st <- gets (fun s => nth c (x_started s) 0) ;;
  if negb (st =? 0) then ret tt
  else
    modify (ap_boot c) ;;
    st <- gets (fun s => nth c (x_started s) 0) ;;
    if st =? 0 then wait else ret tt.

(* src/main.c:75-91 startothers *)
Fixpoint start_cpus (me c : nat) (apicids : list Z) : S_ unit :=
  match apicids with
  | [] => ret tt
  | id :: apicids =>
      (if decide (c = me) then ret tt   (* We've started already. *)
       else
         stack <- zoom x_k_of kalloc ;;
         zoom x_k_of (st (AP_CODE - 4) (stack + KSTACKSIZE)) ;;
         zoom x_k_of (st (AP_CODE - 8) mpenter) ;;
         zoom x_k_of (st (AP_CODE - 12) (V2P entrypgdir_)) ;;
         zoom x_lap_of (lapicstartap lapic id (V2P AP_CODE)) ;;
         wait_started c) ;;
      start_cpus me (S c) apicids
  end.

(** [apicids] are those of the CPUs found, [me] is the CPU that runs this. *)

(* src/main.c:61-92 startothers *)
Definition startothers (me : nat) (apicids : list Z) : S_ unit :=
  zoom x_k_of (move AP_CODE entry_start entry_size) ;;
  start_cpus me 0 apicids.

(** ** Correctness *)

Lemma lapicw_total i v (d : D) : exists d', lapicw lapic i v d = Ok tt d'.
Proof. unfold lapicw, lapicr. unfold bind at 1, modify. unfold bind. destruct (mmio_read _ _) as [x d']. by exists d'. Qed.

(** Starting a CPU writes the warm reset vector and nothing else. *)
Lemma lapicstartap_ok id addr (l : lapst D) : exists l', lapicstartap lapic id addr l = Ok tt l' /\ forall x, x < KERNBASE + 1127 \/ KERNBASE + 1131 <= x -> l_mem l' x = l_mem l x.
Proof.
  unfold lapicstartap. erewrite bind_ok by reflexivity. cbv zeta. erewrite bind_ok by reflexivity. erewrite bind_ok by reflexivity. cbn [l_mem l_dev l_dev_of over]. set (m := store16 _ _ _). set (d := outb _ _ _).
  assert (Hm : forall x, x < KERNBASE + 1127 \/ KERNBASE + 1131 <= x -> m x = l_mem l x).
  { intros x Hx. unfold m, store16. change (P2V (Z.lor (Z.shiftl 64 4) 103)) with (KERNBASE + 1127). by rewrite !upd_ne by lia. }
  clearbody m d. destruct (lapicw_total ICRHI (Z.shiftl id 24) d) as [d1 E1]. destruct (lapicw_total ICRLO (Z.lor (Z.lor INIT LEVEL) ASSERT) d1) as [d2 E2].
  destruct (lapicw_total ICRLO (Z.lor INIT LEVEL) d2) as [d3 E3]. destruct (lapicw_total ICRHI (Z.shiftl id 24) d3) as [d4 E4].
  destruct (lapicw_total ICRLO (Z.lor STARTUP (Z.shiftr addr 12)) d4) as [d5 E5]. destruct (lapicw_total ICRHI (Z.shiftl id 24) d5) as [d6 E6].
  destruct (lapicw_total ICRLO (Z.lor STARTUP (Z.shiftr addr 12)) d6) as [d7 E7].
  exists (Lapst m d7). split; [|done]. apply (zoom_ok l_dev_of _ (Lapst m d) tt d7). cbn [view l_dev_of l_dev]. rewrite (bind_ok _ _ _ _ _ E1), (bind_ok _ _ _ _ _ E2), (bind_ok _ _ _ _ _ E3). cbn [for_each].
  rewrite bind_assoc, (bind_ok _ _ _ _ _ E4), (bind_ok _ _ _ _ _ E5), bind_assoc, (bind_ok _ _ _ _ _ E6), (bind_ok _ _ _ _ _ E7). done.
Qed.

Context (kend : Z) (Hend : KERNLINK <= kend) (Hmp : 0 <= mpenter < 4294967296).

(** The pages do not depend on the memory below the kernel. *)
Lemma kmem_low k ps m : kmem_ok kend k ps -> (forall x, KERNLINK <= x -> m x = k_mem k x) -> kmem_ok kend (set_mem m k) ps.
Proof using Hend.
  intros [K1 K2 K3] Hm. split; [done| |done]. cbn [set_mem k_mem k_kmem]. eapply freelist_frame; [|exact K2]. intros p x Hp Hx. apply Hm. destruct (freelist_valid kend _ _ _ p K2 Hp) as (_ & ? & _). lia.
Qed.

(** The registers that a CPU gets with the page [stack]. *)
Definition ap_of (stack : Z) : ap := Ap (V2P entrypgdir_) (stack + 4096) mpenter.

Lemma start_one me c aid ids s p ps : c <> me -> kmem_ok kend (x_k s) (p :: ps) -> nth c (x_started s) 0 = 0 -> (c < length (x_started s))%nat ->
  exists s', start_cpus me c (aid :: ids) s = start_cpus me (S c) ids s' /\ kmem_ok kend (x_k s') ps /\
    x_aps s' = <[c := Some (ap_of p)]> (x_aps s) /\ x_started s' = <[c := 1]> (x_started s) /\ forall x, AP_CODE <= x -> k_mem (x_k s') x = k_mem (x_k s) x.
Proof using Hend Hmp.
  intros Hne Hk Hz Hc. cbn [start_cpus]. rewrite decide_False by done. destruct (kalloc_list kend (x_k s) p ps Hk) as (k1 & E1 & K1 & M1).
  rewrite !bind_assoc, (bind_ok _ _ _ _ _ (zoom_ok x_k_of _ s _ _ E1)). do 3 (rewrite bind_assoc; erewrite bind_ok by reflexivity). cbn [over x_k_of x_k x_dev x_aps x_started view k_mem set_mem].
  set (m := store32 _ _ _). set (k3 := set_mem m k1). destruct (lapicstartap_ok aid (V2P AP_CODE) (Lapst m (x_dev s))) as (l' & E2 & Hl').
  rewrite bind_assoc, (bind_ok _ _ _ _ _ (zoom_ok x_lap_of _ (Smp k3 (x_dev s) (x_aps s) (x_started s)) _ _ E2)). cbn [over x_lap_of x_k x_dev x_aps x_started]. cbn [l_mem] in Hl'.
  assert (Hcode : forall o, 4 <= o <= 12 -> load32 (l_mem l') (AP_CODE - o) = load32 m (AP_CODE - o)).
  { intros o Ho. apply load32_ext. intros x Hx. apply Hl'. change AP_CODE with (KERNBASE + 28672) in Hx. lia. }
  unfold wait_started. rewrite bind_assoc. erewrite bind_ok by reflexivity. cbn [x_started]. rewrite Hz. change (negb (0 =? 0)) with false. cbv iota. rewrite bind_assoc. erewrite bind_ok by reflexivity. rewrite bind_assoc. erewrite bind_ok by reflexivity.
  cbn [ap_boot x_started x_aps x_k x_dev k_mem set_mem]. rewrite nth_lookup, list_lookup_insert_eq by done. cbn [default from_option id]. change (1 =? 0) with false. cbv iota. rewrite bind_ret.
  assert (Hall : forall x, AP_CODE <= x -> l_mem l' x = k_mem k1 x).
  { intros x Hx. change AP_CODE with (KERNBASE + 28672) in *. rewrite Hl' by lia. unfold m. rewrite !store32_ne by (change AP_CODE with (KERNBASE + 28672); lia). done. }
  eexists. split; [reflexivity|]. cbn [x_k x_aps x_started]. split; [|split; [|split; [done|]]].
  - exact (kmem_low k1 ps (l_mem l') K1 (fun x Hx => Hall x ltac:(change KERNLINK with (KERNBASE + 1048576) in Hx; change AP_CODE with (KERNBASE + 28672); lia))).
  - cbv zeta delta [ap_boot]. cbn [x_aps x_k k_mem set_mem]. rewrite (Hcode 12), (Hcode 4), (Hcode 8) by lia. do 2 f_equal. unfold m, ap_of. pose proof (freelist_valid kend _ _ _ p (kmem_repr _ _ _ Hk) ltac:(left)) as (_ & _ & Hv). unfold KERNBASE, PHYSTOP in Hv.
    rewrite load32_store32, (load32_store32_ne _ (AP_CODE - 12)), (load32_store32_ne _ (AP_CODE - 8)), load32_store32, (load32_store32_ne _ (AP_CODE - 12)), load32_store32 by lia.
    unfold KSTACKSIZE. rewrite (u32_id mpenter), (u32_id (p + 4096)) by lia. f_equal. unfold V2P. apply u32_id, u32_range.
  - intros x Hx. rewrite <- M1. apply (Hall x Hx).
Qed.

(** The CPUs from [c] on that another one starts. *)
Definition others (me c n : nat) : list nat := filter (fun i => i <> me) (seq c n).

Lemma others_length me c n : (length (others me c n) <= n)%nat.
Proof. unfold others. rewrite length_filter. by rewrite length_seq. Qed.

Lemma others_lookup me n c : (c < n)%nat -> c <> me -> others me 0 n !! length (others me 0 c) = Some c.
Proof.
  intros Hc Hne. unfold others. replace n with (c + S (n - S c))%nat by lia. rewrite seq_app, filter_app. cbn [seq plus]. rewrite filter_cons_True by done. apply list_lookup_middle. done.
Qed.

Lemma start_cpus_ok me ids : forall c s ps, kmem_ok kend (x_k s) ps -> (length (others me c (length ids)) <= length ps)%nat ->
  (c + length ids <= length (x_started s))%nat -> length (x_aps s) = length (x_started s) -> (forall i, (c <= i)%nat -> i <> me -> nth i (x_started s) 0 = 0) ->
  exists s', start_cpus me c ids s = Ok tt s' /\ kmem_ok kend (x_k s') (drop (length (others me c (length ids))) ps) /\
    (forall j i p, others me c (length ids) !! j = Some i -> ps !! j = Some p -> x_aps s' !! i = Some (Some (ap_of p)) /\ x_started s' !! i = Some 1) /\
    (forall i, (i < c)%nat -> x_aps s' !! i = x_aps s !! i /\ x_started s' !! i = x_started s !! i) /\
    forall x, AP_CODE <= x -> k_mem (x_k s') x = k_mem (x_k s) x.
Proof using Hend Hmp.
  induction ids as [|aid ids IH]; intros c s ps Hk Hlen Hc Hl Hz.
  { exists s. split; [done|]. split; [by rewrite drop_0|]. split; [|done]. intros j i p Hj. done. }
  cbn [length] in *. unfold others in *. cbn [seq] in *. destruct (decide (c = me)) as [->|Hne].
  - rewrite filter_cons_False in * by (intros Hx; by apply Hx). destruct (IH (S me) s ps Hk Hlen ltac:(lia) Hl) as (s' & E & K & A & B & F); [intros i Hi; apply Hz; lia|]. exists s'.
    split; [cbn [start_cpus]; rewrite decide_True by done; by rewrite bind_ret|]. split; [exact K|]. split; [exact A|]. split; [|exact F]. intros i Hi. apply B. lia.
  - rewrite filter_cons_True in * by done. destruct ps as [|p ps]; [cbn [length] in Hlen; lia|]. cbn [length] in Hlen.
    destruct (start_one me c aid ids s p ps Hne Hk (Hz c ltac:(lia) Hne) ltac:(lia)) as (s1 & E1 & K1 & A1 & B1 & F1).
    destruct (IH (S c) s1 ps K1) as (s' & E & K & A & B & F); [lia|rewrite B1, length_insert; lia|by rewrite A1, B1, !length_insert|intros i Hi; rewrite B1, nth_lookup, list_lookup_insert_ne, <- nth_lookup by lia; apply Hz; lia|].
    exists s'. split; [by rewrite E1|]. split; [exact K|]. split; [|split].
    + intros [|j] i q Hj Hq; [|exact (A j i q Hj Hq)]. injection Hj as <-. injection Hq as <-. destruct (B c ltac:(lia)) as [-> ->]. rewrite A1, B1, !list_lookup_insert_eq by lia. done.
    + intros i Hi. destruct (B i ltac:(lia)) as [-> ->]. rewrite A1, B1, !list_lookup_insert_ne by lia. done.
    + intros x Hx. by rewrite F, F1.
Qed.
End startothers.


