(* ===== verification/ProcMem.v ===== *)
(** Who owns which page.  A process that is not UNUSED owns its kernel stack, its
    page directory, its page tables and its user pages; the allocator owns the
    free pages; [R] are the pages of the rest of the kernel.  No page has two
    owners, and what one process does leaves the pages of the others alone. *)

From S2P Require Import Prelude StringC Spinlock Kalloc Ptable Pages Vm VmSpec VmFree VmOps VmCopy.

#[local] Opaque range.

Definition proc_pages (m : memory) (x : proc) : list Z :=
  if decide (p_state x = UNUSED) then [] else p_kstack x :: owned m (p_pgdir x).

Definition all_pages (m : memory) (l : list proc) : list Z := concat (proc_pages m <$> l).

(** The user pages of a process are those of its first [p_sz] bytes. *)
Record space_ok (m : memory) (x : proc) : Prop := {
  so_sz : 0 <= p_sz x < KERNBASE;
  so_pages : forall v, 0 <= v < NUSER -> present (pte m (p_pgdir x) v) = (v <? npages (p_sz x));
}.

(** The memory of the current process by virtual address, [um], and its pages
    hold the same bytes: [flushed] is the kernel's memory with the pages brought
    up to date. *)
Definition flushed (m um : memory) (pg sz : Z) : memory := fun a =>
  match List.find (fun v => present (pte m pg v) && (frame_of (pte m pg v) =? a / 4096 * 4096))
          (range 0 (Z.to_nat (npages sz))) with
  | Some v => um (v * 4096 + a mod 4096)
  | None => m a
  end.

Section memory.
Variable kend : Z.
Local Abbreviation valid := (valid_page kend).

Record mem_ok (q : pst) (ps R : list Z) : Prop := {
  mm_kmem : kmem_ok kend (km q) ps;
  mm_nodup : NoDup (R ++ ps ++ all_pages (k_mem (km q)) (procs q));
  mm_valid : Forall valid (R ++ ps ++ all_pages (k_mem (km q)) (procs q));
  mm_space : forall x, x ∈ procs q -> p_state x <> UNUSED -> space_ok (k_mem (km q)) x;
}.

(** ** Pages of one process and of the others *)

Lemma all_pages_insert m l p x y : l !! p = Some x -> all_pages m (<[p := y]> l) ≡ₚ proc_pages m y ++ all_pages m (delete p l).
Proof.
  revert p. induction l as [|z l IH]; intros [|p] H; simplify_eq/=; [done|]. unfold all_pages in *. simpl.
  rewrite (IH p H). apply Permutation_app_swap_app.
Qed.

Lemma all_pages_split m l p x : l !! p = Some x -> all_pages m l ≡ₚ proc_pages m x ++ all_pages m (delete p l).
Proof. intros H. rewrite <- (all_pages_insert m l p x x H). by rewrite list_insert_id. Qed.

Lemma elem_all_pages m l x g : x ∈ l -> g ∈ proc_pages m x -> g ∈ all_pages m l.
Proof.
  intros Hx Hg. unfold all_pages. apply list_elem_of_In, in_concat. exists (proc_pages m x).
  split; apply list_elem_of_In; [|done]. by apply list_elem_of_fmap_2.
Qed.

(** A process whose pages have not changed. *)
Lemma proc_pages_same m m' x : kept (proc_pages m x) m m' -> p_state x <> UNUSED ->
  proc_pages m' x = proc_pages m x /\ forall v, 0 <= v < NPAGES -> pte m' (p_pgdir x) v = pte m (p_pgdir x) v.
Proof.
  unfold proc_pages. intros Hk Hx. rewrite decide_False in Hk |- * by done. rewrite decide_False by done.
  destruct (dir_same m m' (p_pgdir x)) as (_ & Hp & Ht & Hu).
  { intros g a Hg Ha. apply (Hk g); [|done]. unfold owned. clear - Hg. cnt_solve. }
  split; [|done]. unfold owned. by rewrite Ht, Hu.
Qed.

Lemma all_pages_same m m' l : kept (all_pages m l) m m' -> all_pages m' l = all_pages m l.
Proof.
  intros Hk. unfold all_pages. f_equal. apply list_fmap_ext. intros j x Hj.
  destruct (decide (p_state x = UNUSED)) as [Hu|Hu]; [unfold proc_pages; by rewrite !decide_True|].
  apply proc_pages_same; [|done]. intros g a Hg. apply Hk. eapply elem_all_pages; [|done]. by eapply list_elem_of_lookup_2.
Qed.

Lemma space_same m m' x : p_state x <> UNUSED -> kept (proc_pages m x) m m' -> space_ok m x -> space_ok m' x.
Proof.
  intros Hx Hk [H1 H2]. destruct (proc_pages_same m m' x Hk Hx) as [_ Hp]. split; [done|].
  intros v Hv. rewrite Hp; [by apply H2|]. rewrite NUSER_eq in Hv. rewrite NPAGES_eq. lia.
Qed.

(** ** One process changes *)

(** The process in slot [p] becomes [y], in a memory that changed only in its
    pages and in free ones, and the two together are the same pages as before. *)
Lemma mem_ok_update q ps R p x y k' ps' L : mem_ok q ps R -> procs q !! p = Some x ->
  kmem_ok kend k' ps' -> outside L (k_mem (km q)) (k_mem k') ->
  (forall g, g ∈ L -> g ∈ ps ++ proc_pages (k_mem (km q)) x) ->
  ps' ++ proc_pages (k_mem k') y ≡ₚ ps ++ proc_pages (k_mem (km q)) x ->
  (p_state y <> UNUSED -> space_ok (k_mem k') y) ->
  mem_ok (putp p y (set_km k' q)) ps' R /\ kept R (k_mem (km q)) (k_mem k') /\
  kept (all_pages (k_mem (km q)) (delete p (procs q))) (k_mem (km q)) (k_mem k').
Proof.
  intros [Hk Hn Hv Hs] Hx Hk' Ho HL Hperm Hy. set (m := k_mem (km q)) in *. set (m' := k_mem k') in *.
  pose proof (all_pages_split m (procs q) p x Hx) as Hsplit.
  set (o := all_pages m (delete p (procs q))) in *.
  assert (Hkept : kept (R ++ o) m m').
  { rewrite Forall_forall in Hv. apply (outside_kept kend L); [done|..].
    - apply Forall_forall. intros g Hg. apply Hv. apply HL in Hg. clear - Hg Hsplit. cnt_solve.
    - apply Forall_forall. intros g Hg. apply Hv. clear - Hg Hsplit. cnt_solve.
    - intros g Hg HgL. apply HL in HgL. clear - Hg HgL Hn Hsplit. cnt_at g. }
  assert (Hko : kept o m m') by (intros g a Hg; apply Hkept; clear - Hg; cnt_solve).
  assert (Hnew : all_pages m' (<[p := y]> (procs q)) ≡ₚ proc_pages m' y ++ o).
  { rewrite (all_pages_insert m' _ p x) by done. by rewrite (all_pages_same m m'). }
  split; [|split; [|done]].
  2:{ intros g a Hg. apply Hkept. clear - Hg. cnt_solve. }
  split; simpl; fold m'.
  - done.
  - clear - Hn Hsplit Hnew Hperm. cnt_solve.
  - rewrite Hnew. rewrite Hsplit in Hv. eapply Forall_Permutation; [intros ?; reflexivity| |exact Hv].
    clear - Hperm. cnt_solve.
  - intros z Hz Hlive. apply list_elem_of_lookup in Hz as [j Hz].
    apply list_lookup_insert_Some in Hz as [(_ & <- & _)|[Hne Hz]]; [by apply Hy|].
    apply (space_same m); [done| |apply Hs; [by eapply list_elem_of_lookup_2|done]].
    intros g a Hg. apply Hko. eapply elem_all_pages; [|done].
    destruct (decide (j < p)%nat).
    + apply (list_elem_of_lookup_2 _ j). by rewrite list_lookup_delete_lt.
    + apply (list_elem_of_lookup_2 _ (j - 1)%nat). rewrite list_lookup_delete_ge by lia. by replace (S (j - 1)) with j by lia.
Qed.

(** Changes of the table that keep the fields that matter here. *)
Lemma proc_pages_eq m x y : p_state y = p_state x -> p_kstack y = p_kstack x -> p_pgdir y = p_pgdir x ->
  proc_pages m y = proc_pages m x.
Proof. unfold proc_pages. by intros -> -> ->. Qed.

(** The address space of a live process, ready for the operations of vm.c. *)
Lemma mem_dir q ps R p x : mem_ok q ps R -> procs q !! p = Some x -> p_state x <> UNUSED ->
  dir_ok kend (km q) ps (p_pgdir x)
    (upages (k_mem (km q)) (p_pgdir x) ++ p_kstack x :: all_pages (k_mem (km q)) (delete p (procs q)) ++ R).
Proof.
  intros [Hk Hn Hv Hs] Hx Hlive. pose proof (all_pages_split (k_mem (km q)) (procs q) p x Hx) as Hsplit.
  unfold proc_pages in Hsplit. rewrite decide_False in Hsplit by done. unfold owned in Hsplit. split; [done|..].
  - clear - Hn Hsplit. cnt_solve.
  - rewrite Hsplit in Hv. eapply Forall_Permutation; [intros ?; reflexivity| |exact Hv]. cnt_solve.
Qed.

(** ** Growing and shrinking *)

Hypothesis Hend : KERNBASE < kend.

Lemma space_upages m x : space_ok m x -> upages m (p_pgdir x) = frames (pte m (p_pgdir x)) (upto 0 (npages (p_sz x))).
Proof.
  intros [Hsz Hp]. destruct (npages_bound (p_sz x)) as [Hb _]; [lia|]. apply upages_copy; [done|].
  intros v Hv. rewrite Hp by lia. apply Z.ltb_ge. lia.
Qed.

Lemma user_frame_elem m x v : space_ok m x -> 0 <= v < npages (p_sz x) ->
  present (pte m (p_pgdir x) v) = true /\ frame_of (pte m (p_pgdir x) v) ∈ upages m (p_pgdir x).
Proof.
  intros Hs Hv. destruct (npages_bound (p_sz x)) as [Hb _]; [pose proof (so_sz _ _ Hs); lia|].
  assert (Hp : present (pte m (p_pgdir x) v) = true) by (rewrite (so_pages _ _ Hs) by lia; apply Z.ltb_lt; lia).
  split; [done|]. rewrite (space_upages m x Hs). unfold frames. apply list_elem_of_omap. exists v.
  split; [apply elem_of_upto; lia|]. unfold frame. by rewrite Hp.
Qed.

Lemma live_pages m x : p_state x <> UNUSED -> proc_pages m x = p_kstack x :: owned m (p_pgdir x).
Proof. intros H. unfold proc_pages. by rewrite decide_False. Qed.

Lemma npages_mono a b : a <= b -> npages a <= npages b.
Proof. unfold npages. intros. zsolve. Qed.

(** The pages mapped from a new size on. *)
Lemma resized_pages m m' x newsz : space_ok m x -> 0 <= newsz < KERNBASE ->
  (forall v, 0 <= v < NUSER -> present (pte m' (p_pgdir x) v) = (v <? npages newsz)) ->
  space_ok m' (set_sz newsz x) /\ upages m' (p_pgdir x) = frames (pte m' (p_pgdir x)) (upto 0 (npages newsz)).
Proof.
  intros Hs Hn Hp. assert (space_ok m' (set_sz newsz x)) as H by (by split). split; [done|].
  apply (space_upages m' (set_sz newsz x) H).
Qed.

Lemma grow_mem q ps R p x newsz : mem_ok q ps R -> procs q !! p = Some x -> p_state x <> UNUSED ->
  p_sz x <= newsz < KERNBASE ->
  exists r k' ps', allocuvm kend (p_pgdir x) (p_sz x) newsz (km q) = Ok r k' /\
    kept R (k_mem (km q)) (k_mem k') /\
    (r = newsz /\ mem_ok (putp p (set_sz newsz x) (set_km k' q)) ps' R /\
       (forall v, npages (p_sz x) <= v < npages newsz -> zero_page (k_mem k') (pte (k_mem k') (p_pgdir x) v)) \/
     r = 0 /\ mem_ok (set_km k' q) ps' R /\ Z.of_nat (length ps) <= npages newsz - npages (p_sz x) + 1024).
Proof.
  intros Hm Hx Hlive Hsz. pose proof (mm_space _ _ _ Hm x ltac:(by eapply list_elem_of_lookup_2) Hlive) as Hs.
  pose proof Hs as [Hs1 Hs2]. pose proof (mem_dir q ps R p x Hm Hx Hlive) as Hd.
  destruct (npages_bound newsz) as [Hb _]; [lia|]. pose proof (npages_mono (p_sz x) newsz ltac:(lia)) as Hab.
  assert (Ha : 0 <= npages (p_sz x)) by (unfold npages; zsolve).
  assert (HN : NUSER <= NPAGES) by (rewrite NUSER_eq, NPAGES_eq; lia).
  pose proof (space_upages _ _ Hs) as Hup.
  destruct (allocuvm_ok kend Hend (km q) ps (p_pgdir x) _ (p_sz x) newsz ltac:(lia) ltac:(lia) Hd) as (k' & ps' & H).
  { intros v Hv. rewrite Hs2 by lia. apply Z.ltb_ge. lia. }
  assert (HL : forall g, g ∈ p_pgdir x :: ps ++ tables (k_mem (km q)) (p_pgdir x) -> g ∈ ps ++ proc_pages (k_mem (km q)) x).
  { intros g Hg. rewrite live_pages by done. unfold owned. clear - Hg. cnt_solve. }
  destruct H as [[E [G1 G2 G3 G4 G5]]|(E & [G1 G2 G3 G4 G5] & L)].
  - destruct (resized_pages _ (k_mem k') x newsz Hs ltac:(lia)) as [Hsp Hup'].
    { intros v Hv. destruct (decide (npages (p_sz x) <= v < npages newsz)) as [Hi|Hi].
      - rewrite (zp_present _ _ (G4 v Hi)). symmetry. apply Z.ltb_lt. lia.
      - rewrite G3, Hs2 by lia. destruct (Z.ltb_spec v (npages (p_sz x))), (Z.ltb_spec v (npages newsz)); (done || lia). }
    destruct (mem_ok_update q ps R p x (set_sz newsz x) k' ps' _ Hm Hx G1 G5 HL) as (Hok & Hk & _).
    { rewrite !live_pages by done. unfold owned. simpl p_kstack. simpl p_pgdir. rewrite Hup, Hup'.
      rewrite (upto_app 0 (npages (p_sz x))), frames_app by lia.
      rewrite (frames_ext (pte (k_mem (km q)) (p_pgdir x)) (pte (k_mem k') (p_pgdir x)) (upto 0 (npages (p_sz x)))).
      - clear - G2. cnt_solve.
      - intros v Hv. apply elem_of_upto in Hv. apply G3; lia. }
    { done. }
    exists newsz, k', ps'. split; [done|]. split; [done|]. left. done.
  - destruct (mem_ok_update q ps R p x x k' ps' _ Hm Hx G1 G5 HL) as (Hok & Hk & _).
    { rewrite !live_pages by done. unfold owned. rewrite Hup.
      destruct (resized_pages _ (k_mem k') x (p_sz x) Hs Hs1) as [_ ->].
      { intros v Hv. destruct (decide (npages (p_sz x) <= v < npages newsz)) as [Hi|Hi].
        - rewrite G4 by lia. symmetry. apply Z.ltb_ge. lia.
        - by rewrite G3, Hs2 by lia. }
      rewrite (frames_ext (pte (k_mem (km q)) (p_pgdir x)) (pte (k_mem k') (p_pgdir x)) (upto 0 (npages (p_sz x)))).
      - clear - G2. cnt_solve.
      - intros v Hv. apply elem_of_upto in Hv. apply G3; lia. }
    { intros _. split; [done|]. intros v Hv. destruct (decide (npages (p_sz x) <= v < npages newsz)) as [Hi|Hi].
      - rewrite G4 by lia. symmetry. apply Z.ltb_ge. lia.
      - by rewrite G3, Hs2 by lia. }
    exists 0, k', ps'. split; [done|]. split; [done|]. right. split; [done|].
    rewrite putp_id in Hok by done. split; [done|]. rewrite length_app in L. lia.
Qed.

Lemma shrink_mem q ps R p x newsz : mem_ok q ps R -> procs q !! p = Some x -> p_state x <> UNUSED ->
  0 <= newsz < p_sz x ->
  exists k' ps', deallocuvm kend (p_pgdir x) (p_sz x) newsz (km q) = Ok newsz k' /\
    kept R (k_mem (km q)) (k_mem k') /\ mem_ok (putp p (set_sz newsz x) (set_km k' q)) ps' R /\
    ps' ≡ₚ frames (pte (k_mem (km q)) (p_pgdir x)) (upto (npages newsz) (npages (p_sz x))) ++ ps.
Proof.
  intros Hm Hx Hlive Hsz. pose proof (mm_space _ _ _ Hm x ltac:(by eapply list_elem_of_lookup_2) Hlive) as Hs.
  pose proof Hs as [Hs1 Hs2]. pose proof (mem_dir q ps R p x Hm Hx Hlive) as Hd.
  destruct (npages_bound (p_sz x)) as [Hb _]; [lia|]. pose proof (npages_mono newsz (p_sz x) ltac:(lia)) as Hab.
  assert (Ha : 0 <= npages newsz) by (unfold npages; zsolve).
  assert (HN : NUSER <= NPAGES) by (rewrite NUSER_eq, NPAGES_eq; lia).
  pose proof (space_upages _ _ Hs) as Hup.
  rewrite Hup in Hd. rewrite (upto_app 0 (npages newsz)), frames_app in Hd by lia.
  destruct (deallocuvm_ok kend Hend (km q) ps (p_pgdir x)
    (frames (pte (k_mem (km q)) (p_pgdir x)) (upto 0 (npages newsz)) ++ p_kstack x :: all_pages (k_mem (km q)) (delete p (procs q)) ++ R)
    (p_sz x) newsz ltac:(lia) ltac:(lia)) as (k' & ps' & E & [D1 D2 D3 D4 D5 D6]).
  { apply (dir_ok_perm kend _ _ _ _ _ _ _ Hd); [apply Hd|]. clear. cnt_solve. }
  assert (Hpte : forall v, 0 <= v < NUSER -> present (pte (k_mem k') (p_pgdir x) v) = (v <? npages newsz)).
  { intros v Hv. rewrite D5 by lia. unfold cleared. rewrite Hs2 by lia.
    destruct (Z.leb_spec (npages newsz) v), (Z.ltb_spec v (npages (p_sz x))), (Z.ltb_spec v (npages newsz)); try lia; simpl;
      try (rewrite Hs2 by lia); try (apply Z.ltb_lt; lia); try (apply Z.ltb_ge; lia); try done. }
  destruct (resized_pages _ (k_mem k') x newsz Hs ltac:(lia) Hpte) as [Hsp Hup'].
  destruct (mem_ok_update q ps R p x (set_sz newsz x) k' ps' _ Hm Hx D1 D6) as (Hok & Hk & _).
  { intros g Hg. rewrite live_pages by done. unfold owned. rewrite Hup, (upto_app 0 (npages newsz)), frames_app by lia. clear - Hg. cnt_solve. }
  { rewrite !live_pages by done. unfold owned. simpl p_kstack. simpl p_pgdir. rewrite Hup, Hup', D3.
    rewrite (upto_app 0 (npages newsz) (npages (p_sz x))), frames_app by lia.
    rewrite (frames_ext (pte (k_mem (km q)) (p_pgdir x)) (pte (k_mem k') (p_pgdir x)) (upto 0 (npages newsz))).
    - clear - D2. cnt_solve.
    - intros v Hv. apply elem_of_upto in Hv. rewrite D5 by lia. apply cleared_none. lia. }
  { done. }
  exists k', ps'. done.
Qed.

(** ** Bringing the pages up to date *)

Lemma frame_page m pg v o : valid (frame_of (pte m pg v)) -> 0 <= o < 4096 ->
  (frame_of (pte m pg v) + o) / 4096 * 4096 = frame_of (pte m pg v) /\ (frame_of (pte m pg v) + o) mod 4096 = o.
Proof. intros [H _] Ho. unfold PGSIZE in H. zsolve. Qed.

Lemma flushed_outside m u x : space_ok m x -> Forall valid (upages m (p_pgdir x)) ->
  outside (upages m (p_pgdir x)) m (flushed m u (p_pgdir x) (p_sz x)).
Proof.
  intros Hs Hv a Ha. unfold flushed. destruct (List.find _ _) as [v|] eqn:Hf; [|done]. exfalso.
  apply find_range_some in Hf as (Hr & Hb & _). apply andb_true_iff in Hb as [_ Hb]. apply Z.eqb_eq in Hb.
  apply (Ha (frame_of (pte m (p_pgdir x) v))).
  - apply user_frame_elem; [done|lia].
  - rewrite Hb. unfold in_page, PGSIZE. zsolve.
Qed.

Lemma flushed_bytes m u x va : space_ok m x -> NoDup (upages m (p_pgdir x)) -> Forall valid (upages m (p_pgdir x)) ->
  0 <= va < npages (p_sz x) * 4096 ->
  flushed m u (p_pgdir x) (p_sz x) (frame_of (pte m (p_pgdir x) (va / 4096)) + va mod 4096) = u va.
Proof.
  intros Hs Hn Hv Hva. destruct (npages_bound (p_sz x)) as [Hnb _]; [pose proof (so_sz _ _ Hs); lia|].
  assert (Hpage : 0 <= va / 4096 < npages (p_sz x)) by zsolve.
  destruct (user_frame_elem m x (va / 4096) Hs Hpage) as [Hpr Hin].
  rewrite Forall_forall in Hv. destruct (frame_page m (p_pgdir x) (va / 4096) (va mod 4096) (Hv _ Hin)) as [E1 E2]; [zsolve|].
  unfold flushed. rewrite E1, E2. destruct (List.find _ _) as [v|] eqn:Hf.
  - apply find_range_some in Hf as (Hr & Hb & _). apply andb_true_iff in Hb as [Hp Hb]. apply Z.eqb_eq in Hb.
    assert (v = va / 4096) as -> by (apply (user_frame_inj m (p_pgdir x)); (done || lia)). f_equal. zsolve.
  - pose proof (find_range_none _ _ _ (va / 4096) Hf ltac:(lia)) as H. simpl in H. by rewrite Hpr, Z.eqb_refl in H.
Qed.

Lemma flush_mem q ps R p x u : mem_ok q ps R -> procs q !! p = Some x -> p_state x <> UNUSED ->
  let k' := set_mem (flushed (k_mem (km q)) u (p_pgdir x) (p_sz x)) (km q) in
  mem_ok (set_km k' q) ps R /\ kept R (k_mem (km q)) (k_mem k') /\
  (forall v, 0 <= v < NPAGES -> pte (k_mem k') (p_pgdir x) v = pte (k_mem (km q)) (p_pgdir x) v) /\
  forall va, 0 <= va < npages (p_sz x) * 4096 -> ubyte (k_mem k') (p_pgdir x) va = u va.
Proof.
  intros Hm Hx Hlive k'. pose proof (mm_space _ _ _ Hm x ltac:(by eapply list_elem_of_lookup_2) Hlive) as Hs.
  pose proof (mem_dir q ps R p x Hm Hx Hlive) as Hd. pose proof (do_nodup _ _ _ _ _ Hd) as Hn. pose proof (do_valid _ _ _ _ _ Hd) as Hv.
  assert (Vu : Forall valid (upages (k_mem (km q)) (p_pgdir x))) by (rewrite !Forall_app in Hv; apply Hv).
  pose proof (flushed_outside _ u x Hs Vu) as Ho.
  assert (Hdir : kept (p_pgdir x :: tables (k_mem (km q)) (p_pgdir x)) (k_mem (km q)) (k_mem k')).
  { rewrite Forall_forall in Hv. apply (outside_kept kend _ _ _ _ Ho Vu).
    - apply Forall_forall. intros g Hg. apply Hv. clear - Hg. cnt_solve.
    - intros g Hg. clear - Hg Hn. cnt_solve. }
  destruct (dir_same (k_mem (km q)) (k_mem k') (p_pgdir x)) as (_ & Hpte & Ht & Hu); [intros g a Hg; by apply Hdir|].
  assert (Hk' : kmem_ok kend k' ps).
  { apply (kmem_ok_outside kend (km q) ps _ _ (mm_kmem _ _ _ Hm) Ho Vu). intros g Hg. clear - Hg Hn. cnt_solve. }
  destruct (mem_ok_update q ps R p x x k' ps _ Hm Hx Hk' Ho) as (Hok & HR & _).
  - intros g Hg. rewrite live_pages by done. unfold owned. clear - Hg. cnt_solve.
  - rewrite !live_pages by done. unfold owned. by rewrite Ht, Hu.
  - intros _. split; [apply Hs|]. intros v Hvv. rewrite Hpte by (rewrite NPAGES_eq; rewrite NUSER_eq in Hvv; lia). by apply Hs.
  - rewrite putp_id in Hok by done. do 3 (split; [done|]). intros va Hva. unfold ubyte.
    destruct (npages_bound (p_sz x)) as [Hnb _]; [pose proof (so_sz _ _ Hs); lia|].
    rewrite Hpte by (rewrite NPAGES_eq; rewrite NUSER_eq in Hnb; zsolve).
    apply flushed_bytes; [done| |done|done]. clear - Hn. cnt_solve.
Qed.

(** ** The end of a process *)

Lemma reap_mem q ps R p x y : mem_ok q ps R -> procs q !! p = Some x -> p_state x <> UNUSED -> p_state y = UNUSED ->
  exists k1 k2 ps', kfree kend (p_kstack x) (km q) = Ok tt k1 /\ freevm kend (p_pgdir x) k1 = Ok tt k2 /\
    mem_ok (putp p y (set_km k2 q)) ps' R /\ kept R (k_mem (km q)) (k_mem k2) /\
    ps' ≡ₚ proc_pages (k_mem (km q)) x ++ ps.
Proof.
  intros Hm Hx Hlive Hy. pose proof (mem_dir q ps R p x Hm Hx Hlive) as Hd.
  pose proof (do_nodup _ _ _ _ _ Hd) as Hn. pose proof (do_valid _ _ _ _ _ Hd) as Hv. rewrite Forall_forall in Hv.
  assert (Vk : valid (p_kstack x)) by (apply Hv; clear; cnt_solve).
  assert (Hnk : p_kstack x ∉ ps) by (clear - Hn; cnt_solve).
  set (k1 := freed (p_kstack x) (km q)).
  assert (E1 : kfree kend (p_kstack x) (km q) = Ok tt k1) by (apply kfree_ok; [apply (mm_kmem _ _ _ Hm)|done]).
  pose proof (kfree_list kend _ _ _ (mm_kmem _ _ _ Hm) Vk Hnk) as K1. fold k1 in K1.
  assert (O1 : outside [p_kstack x] (k_mem (km q)) (k_mem k1)).
  { intros a Ha. apply freed_mem. apply Ha. by left. }
  assert (Hdir : kept (p_pgdir x :: tables (k_mem (km q)) (p_pgdir x)) (k_mem (km q)) (k_mem k1)).
  { apply (outside_kept kend _ _ _ _ O1); [by constructor|..].
    - apply Forall_forall. intros g Hg. apply Hv. clear - Hg. cnt_solve.
    - intros g Hg. clear - Hg Hn. cnt_solve. }
  destruct (dir_same (k_mem (km q)) (k_mem k1) (p_pgdir x)) as (_ & Hpte & Ht & Hu); [intros g a Hg; by apply Hdir|].
  destruct (freevm_ok kend Hend k1 (p_kstack x :: ps) (p_pgdir x) (all_pages (k_mem (km q)) (delete p (procs q)) ++ R))
    as (k2 & ps2 & E2 & K2 & P2 & O2).
  { rewrite Hu. split; rewrite ?Ht; [done|clear - Hn; cnt_solve|].
    apply Forall_forall. intros g Hg. apply Hv. clear - Hg. cnt_solve. }
  unfold owned in P2, O2. rewrite Ht, Hu in P2, O2. exists k1, k2, ps2. split; [done|]. split; [done|].
  destruct (mem_ok_update q ps R p x y k2 ps2 (p_kstack x :: owned (k_mem (km q)) (p_pgdir x) ++ ps) Hm Hx K2) as (Hok & HR & _).
  - apply (outside_trans _ (p_kstack x :: owned (k_mem (km q)) (p_pgdir x) ++ ps) _ (k_mem k1)); [|..].
    + eapply outside_sub; [exact O1|]. intros g Hg. clear - Hg. cnt_solve.
    + eapply outside_sub; [exact O2|]. intros g Hg. unfold owned. clear - Hg. cnt_solve.
    + done.
  - intros g Hg. rewrite live_pages by done. clear - Hg. cnt_solve.
  - rewrite (live_pages _ x) by done. unfold proc_pages. rewrite decide_True by done. unfold owned. clear - P2. cnt_solve.
  - done.
  - split; [done|]. split; [done|]. rewrite (live_pages _ x) by done. unfold owned. clear - P2. cnt_solve.
Qed.

(** ** A new process *)

Variable kdata : Z.
Hypothesis Hdata : kdata mod 4096 = 0 /\ KERNLINK < kdata < KERNBASE + PHYSTOP.

(** The child has the parent's bytes and permissions. *)
Definition same_image (m m' : memory) (pg d sz : Z) : Prop :=
  (forall va, 0 <= va < npages sz * 4096 -> ubyte m' d va = ubyte m pg va) /\
  (forall v, 0 <= v < npages sz -> PTE_FLAGS (pte m' d v) = PTE_FLAGS (pte m pg v)).

Section new_process.
Context (q : pst) (page : Z) (ps R : list Z) (p np : nat) (x x0 : proc) (k2 : kstate).
Hypothesis Hm : mem_ok q (page :: ps) R.
Hypothesis Hx : procs q !! p = Some x.
Hypothesis Hlive : p_state x <> UNUSED.
Hypothesis Hx0 : procs q !! np = Some x0.
Hypothesis Hfree : p_state x0 = UNUSED.
Hypothesis Hk2 : kmem_ok kend k2 ps.
Hypothesis Ho2 : outside [page] (k_mem (km q)) (k_mem k2).

Local Abbreviation m := (k_mem (km q)).
Local Abbreviation others := (page :: R ++ all_pages m (procs q)).

Lemma fork_pages : NoDup (others ++ ps) /\ Forall valid (others ++ ps) /\
  kept (R ++ all_pages m (procs q)) m (k_mem k2).
Proof.
  destruct Hm as [_ Hn Hv _]. assert (Hp : R ++ (page :: ps) ++ all_pages m (procs q) ≡ₚ others ++ ps) by (clear; cnt_solve).
  rewrite Hp in Hn, Hv. split; [done|]. split; [done|]. rewrite Forall_forall in Hv. apply (outside_kept kend _ _ _ _ Ho2).
  - constructor; [|done]. apply Hv. clear. cnt_solve.
  - apply Forall_forall. intros g Hg. apply Hv. clear - Hg. cnt_solve.
  - intros g Hg. clear - Hg Hn. cnt_solve.
Qed.

Lemma proc_pages_all g : g ∈ proc_pages m x -> g ∈ all_pages m (procs q).
Proof. apply elem_all_pages. by eapply list_elem_of_lookup_2. Qed.

Lemma user_all g : g ∈ upages m (p_pgdir x) -> g ∈ all_pages m (procs q).
Proof. intros Hg. apply proc_pages_all. rewrite live_pages by done. unfold owned. clear - Hg. cnt_solve. Qed.

Lemma fork_parent : parent_ok (k_mem k2) (p_pgdir x) (npages (p_sz x)) others /\
  forall v, 0 <= v < NPAGES -> pte (k_mem k2) (p_pgdir x) v = pte m (p_pgdir x) v.
Proof.
  destruct fork_pages as (Hn & Hv & Hkept).
  destruct (proc_pages_same m (k_mem k2) x) as [Hpp Hpte]; [|done|].
  { intros g a Hg. apply Hkept. apply proc_pages_all in Hg. clear - Hg. cnt_solve. }
  pose proof (mm_space _ _ _ Hm x ltac:(by eapply list_elem_of_lookup_2) Hlive) as Hs. pose proof (space_upages m x Hs) as Hup.
  destruct (npages_bound (p_sz x)) as [Hb _]; [pose proof (so_sz _ _ Hs); lia|].
  assert (HN : NUSER <= NPAGES) by (rewrite NUSER_eq, NPAGES_eq; lia).
  split; [|done]. rewrite !live_pages in Hpp by done. unfold owned in Hpp. simplify_eq. split.
  - intros g Hg. assert (g ∈ proc_pages m x) as Hin%proc_pages_all; [|clear - Hin; cnt_solve].
    rewrite live_pages by done. unfold owned. destruct (dir_same m (k_mem k2) (p_pgdir x)) as (_ & _ & Ht & _).
    { intros g' a Hg'. apply Hkept. assert (g' ∈ proc_pages m x) as Hin%proc_pages_all; [|clear - Hin; cnt_solve].
      rewrite live_pages by done. unfold owned. clear - Hg'. cnt_solve. }
    rewrite Ht in Hg. clear - Hg. cnt_solve.
  - intros v Hv'. rewrite Hpte by lia. destruct (user_frame_elem m x v Hs Hv') as [Hp Hu]. split; [done|].
    apply user_all in Hu. clear - Hu. cnt_solve.
Qed.

Lemma copied_image d m3 : kept others (k_mem k2) m3 -> (forall v, 0 <= v < npages (p_sz x) -> copied m3 (p_pgdir x) d v) ->
  same_image m m3 (p_pgdir x) d (p_sz x).
Proof.
  intros Hk3 C. destruct fork_pages as (Hn & Hv & Hkept). destruct fork_parent as [Hpar Hpte].
  pose proof (mm_space _ _ _ Hm x ltac:(by eapply list_elem_of_lookup_2) Hlive) as Hs.
  destruct (npages_bound (p_sz x)) as [Hb _]; [pose proof (so_sz _ _ Hs); lia|].
  assert (HN : NUSER <= NPAGES) by (rewrite NUSER_eq, NPAGES_eq; lia).
  assert (Hpte3 : forall v, 0 <= v < NPAGES -> pte m3 (p_pgdir x) v = pte m (p_pgdir x) v).
  { intros v Hvv. rewrite (kept_pte (k_mem k2) _ _ _ _ v Hpar Hk3 Hvv). by apply Hpte. }
  split; [|intros v Hvv; rewrite (cp_flags _ _ _ _ (C v Hvv)); by rewrite Hpte3 by lia].
  intros va Hva. unfold ubyte. assert (Hpage : 0 <= va / 4096 < npages (p_sz x)) by zsolve.
  rewrite (cp_bytes _ _ _ _ (C _ Hpage)), Hpte3 by (lia || zsolve).
  destruct (user_frame_elem m x _ Hs Hpage) as [_ Hin%user_all].
  set (fr := frame_of (pte m (p_pgdir x) (va / 4096))) in *.
  assert (Hip : in_page fr (fr + va mod 4096)) by (unfold in_page, PGSIZE; zsolve).
  rewrite (Hk3 fr _ ltac:(clear - Hin; cnt_solve) Hip). apply (Hkept fr); [clear - Hin; cnt_solve|done].
Qed.

Lemma fork_mem :
  (exists k3 k4 ps', copyuvm kend kdata (p_pgdir x) (p_sz x) k2 = Ok 0 k3 /\ kfree kend page k3 = Ok tt k4 /\
    kept R m (k_mem k4) /\ ps' ≡ₚ page :: ps /\ (forall y, p_state y = UNUSED -> mem_ok (putp np y (set_km k4 q)) ps' R) /\
    Z.of_nat (length ps) <= npages (p_sz x) + 1025) \/
  (exists d k3 ps', copyuvm kend kdata (p_pgdir x) (p_sz x) k2 = Ok d k3 /\ d <> 0 /\
    kept (page :: R) (k_mem k2) (k_mem k3) /\ same_image m (k_mem k3) (p_pgdir x) d (p_sz x) /\
    forall y, p_state y <> UNUSED -> p_kstack y = page -> p_pgdir y = d -> p_sz y = p_sz x ->
      mem_ok (putp np y (set_km k3 q)) ps' R).
Proof.
  destruct fork_pages as (Hn & Hv & Hkept). destruct fork_parent as [Hpar Hpte].
  pose proof (mm_space _ _ _ Hm x ltac:(by eapply list_elem_of_lookup_2) Hlive) as Hs.
  apply Forall_app in Hv as [Vo Vp]. assert (Vpage : valid page) by (by apply Forall_cons in Vo as [? _]).
  destruct (copyuvm_ok kend kdata Hend Hdata k2 ps (p_pgdir x) (p_sz x) others Hk2 Hn Vo ltac:(pose proof (so_sz _ _ Hs); lia) Hpar)
    as [(k3 & ps3 & E & [U1 U2 U3] & L)|(d & k3 & ps3 & E & Hd0 & K & P & C & Q & O)].
  - left. assert (Hnp : page ∉ ps3) by (clear - U2 Hn; cnt_solve).
    exists k3, (freed page k3), (page :: ps3). split; [done|]. split; [apply kfree_ok; [apply U1|done]|].
    assert (Ho : outside (page :: ps) m (k_mem (freed page k3))).
    { apply (outside_trans _ (page :: ps) _ (k_mem k3)); [|intros a Ha; apply freed_mem, Ha; by left|done].
      apply (outside_trans _ (page :: ps) _ (k_mem k2)); [eapply outside_sub; [exact Ho2|]|eapply outside_sub; [exact U3|]|done];
        intros g Hg; clear - Hg; cnt_solve. }
    assert (HL : forall g, g ∈ page :: ps -> g ∈ (page :: ps) ++ proc_pages m x0) by (intros g Hg; clear - Hg; cnt_solve).
    split; [|split; [clear - U2; cnt_solve|split; [|done]]].
    2: { intros y Hy. apply (mem_ok_update q (page :: ps) R np x0 y _ _ _ Hm Hx0 (kfree_list kend _ _ _ U1 Vpage Hnp) Ho HL).
      - unfold proc_pages. rewrite !decide_True by done. clear - U2. cnt_solve.
      - done. }
    apply (mem_ok_update q (page :: ps) R np x0 x0 _ _ _ Hm Hx0 (kfree_list kend _ _ _ U1 Vpage Hnp) Ho HL).
    + unfold proc_pages. rewrite !decide_True by done. clear - U2. cnt_solve.
    + done.
  - right. exists d, k3, ps3. split; [done|]. split; [done|].
    assert (Hk3 : kept others (k_mem k2) (k_mem k3)).
    { apply (outside_kept kend _ _ _ _ O); [done|done|]. intros g Hg. clear - Hg Hn. cnt_solve. }
    split; [intros g a Hg; apply Hk3; clear - Hg; cnt_solve|].
    destruct (npages_bound (p_sz x)) as [Hb _]; [pose proof (so_sz _ _ Hs); lia|].
    assert (HN : NUSER <= NPAGES) by (rewrite NUSER_eq, NPAGES_eq; lia).
    split; [by apply copied_image|].
    intros y Hy1 Hy2 Hy3 Hy4.
    assert (Hpr : forall v, 0 <= v < NUSER -> present (pte (k_mem k3) d v) = (v <? npages (p_sz x))).
    { intros v Hv. destruct (Z.ltb_spec v (npages (p_sz x))) as [Hlt|Hge]; [apply (C v); lia|].
      rewrite Q by lia. by rewrite (kernel_pte_user kdata Hdata v Hv). }
    assert (Hsy : space_ok (k_mem k3) y) by (split; rewrite ?Hy3, ?Hy4; [apply Hs|done]).
    apply (mem_ok_update q (page :: ps) R np x0 y k3 ps3 (page :: ps) Hm Hx0 K).
    + apply (outside_trans _ (page :: ps) _ (k_mem k2)); [eapply outside_sub; [exact Ho2|]|eapply outside_sub; [exact O|]|done];
        intros g Hg; clear - Hg; cnt_solve.
    + intros g Hg. clear - Hg. cnt_solve.
    + rewrite (live_pages _ y Hy1). unfold owned. rewrite (space_upages _ y Hsy), Hy2, Hy3, Hy4.
      unfold proc_pages. rewrite decide_True by done. clear - P. cnt_solve.
    + done.
Qed.
End new_process.
End memory.
