(* ===== verification/Args.v ===== *)
(** The arguments of system calls (src/syscall.c): words, pointers and strings
    that the kernel takes from the stack of the current process, and the checks
    that keep them inside its memory. *)

From S2P Require Import Prelude StringC Spinlock Kalloc Ptable Signal.

(* src/syscall.c:16-25 fetchint *)
Definition fetchint (addr : Z) : M ust (option Z) :=
  p <- zoom pt_of curproc ;;
  sz <- pget p p_sz ;;
  if (sz <=? addr) || (sz <? u32 (addr + 4)) then ret None
  else gets (fun s => Some (s32 (load32 (um s) addr))).

(** The length of the string at [addr]: the scan stops at [ep]. *)
Definition find_nul (m : memory) (addr ep : Z) : option Z :=
  List.find (fun n => m (addr + n) =? 0) (range 0 (Z.to_nat (ep - addr))).

(** The pointer and the length of the string. *)

(* src/syscall.c:27-44 fetchstr *)
Definition fetchstr (addr : Z) : M ust (option (Z * Z)) :=
  p <- zoom pt_of curproc ;;
  sz <- pget p p_sz ;;
  if sz <=? addr then ret None
  else gets (fun s => n ← find_nul (um s) addr sz; Some (addr, n)).

(* src/syscall.c:46-50 argint *)
Definition argint (n : Z) : M ust (option Z) :=
  p <- zoom pt_of curproc ;;
  esp <- pget p (fun x => tf_esp (p_tf x)) ;;
  fetchint (u32 (esp + 4 + 4 * n)).

(* src/syscall.c:52-66 argptr *)
Definition argptr (n size : Z) : M ust (option Z) :=
  p <- zoom pt_of curproc ;;
  r <- argint n ;;
  match r with
  | None => ret None
  | Some i =>
      sz <- pget p p_sz ;;
      if (size <? 0) || (sz <=? u32 i) || (sz <? u32 (u32 i + size)) then ret None
      else ret (Some (u32 i))
  end.

(* src/syscall.c:68-78 argstr *)
Definition argstr (n : Z) : M ust (option (Z * Z)) :=
  r <- argint n ;;
  match r with
  | None => ret None
  | Some addr => fetchstr (u32 addr)
  end.

(* ------------------------------------------------------------------ *)
(** * The arguments, without machine arithmetic *)

(** What the three routines should return: the word is in the process's memory,
    the block of [size] bytes is, the string and its terminator are. *)
Definition inside (x : proc) (a n : Z) : bool := (a <? p_sz x) && (a + n <=? p_sz x).

Definition int_arg (m : memory) (x : proc) (n : Z) : option Z :=
  let a := u32 (tf_esp (p_tf x) + 4 + 4 * n) in
  if inside x a 4 then Some (s32 (load32 m a)) else None.

Definition ptr_arg (m : memory) (x : proc) (n size : Z) : option Z :=
  i ← int_arg m x n;
  if (0 <=? size) && inside x (u32 i) size then Some (u32 i) else None.

Definition str_arg (m : memory) (x : proc) (n : Z) : option (Z * Z) :=
  i ← int_arg m x n;
  l ← find_nul m (u32 i) (p_sz x);
  Some (u32 i, l).

(** The current process of the CPU, and what reading through [myproc] leaves. *)
Definition caller (s : ust) (i : nat) (c : cpu) (p : nat) (x : proc) : Prop :=
  cpu_ok (mach (pt s)) i c /\ cproc c = Some p /\ procs (pt s) !! p = Some x.

Definition on_cpu (s s' : ust) (i : nat) (c : cpu) : Prop :=
  exists k, s' = set_pt (set_mach k (pt s)) s /\ same_cpu (mach (pt s)) k i c.

Lemma on_cpu_caller s s' i c p x :
  caller s i c p x -> on_cpu s s' i c -> exists c', caller s' i c' p x /\ ncli c' = ncli c /\
    iflag (mach (pt s')) = iflag (mach (pt s)).
Proof.
  intros (Hc & Hp & Hx) (k & -> & c' & Hc' & Hn & Hp' & Hf).
  exists c'. split; [|done]. split; [done|]. split; [congruence|done].
Qed.

Lemma on_cpu_trans s s' s'' i c c' p x :
  caller s i c p x -> on_cpu s s' i c -> caller s' i c' p x -> ncli c' = ncli c -> on_cpu s' s'' i c' -> on_cpu s s'' i c.
Proof.
  intros (_ & Hp & _) (k & -> & _ & _ & _ & _ & Hf) (_ & Hp' & _) Hn (k' & -> & c2 & Hc2 & Hn2 & Hp2 & Hf2).
  exists k'. split; [done|]. exists c2. simpl in Hf2. repeat split; try apply Hc2; congruence.
Qed.

Section args.
Context (i : nat) (p : nat) (x : proc).

Lemma bind_curproc {A} (k : nat -> M ust A) s c r :
  caller s i c p x ->
  (forall s1 c1, caller s1 i c1 p x -> um s1 = um s ->
     exists s', k p s1 = Ok r s' /\ on_cpu s1 s' i c1) ->
  exists s', bind (zoom pt_of curproc) k s = Ok r s' /\ on_cpu s s' i c.
Proof.
  intros Hs Hk. pose proof Hs as (Hc & Hp & Hx).
  destruct (curproc_ok (pt s) i c p Hc Hp) as (m & H & Hm).
  assert (Ho : on_cpu s (set_pt (set_mach m (pt s)) s) i c) by (exists m; done).
  destruct (on_cpu_caller _ _ _ _ _ _ Hs Ho) as (c1 & Hc1 & Hn & _).
  destruct (Hk _ c1 Hc1 eq_refl) as (s' & Hr & Hs').
  exists s'. split; [|by eapply on_cpu_trans].
  erewrite bind_ok; [exact Hr|]. apply (zoom_ok pt_of). exact H.
Qed.

Lemma on_cpu_refl s c : caller s i c p x -> on_cpu s s i c.
Proof. intros (Hc & Hp & _). exists (mach (pt s)). split; [by destruct s as [[] ?]|]. by exists c. Qed.

Lemma bind_field {A C} (f : proc -> A) (k : A -> M ust C) s c :
  caller s i c p x -> bind (pget p f) k s = k (f x) s.
Proof.
  intros (_ & _ & Hx). unfold pget, zoom, getp, gets, bind. simpl.
  rewrite (proc_at_lookup _ _ _ Hx). by destruct s.
Qed.

(** Sizes of user address spaces are below KERNBASE, so none of the additions
    of the checks wraps around. *)
Hypothesis Hsz : p_sz x <= KERNBASE.

Lemma fetchint_ok s c a : caller s i c p x -> 0 <= a ->
  exists s', fetchint a s = Ok (if inside x a 4 then Some (s32 (load32 (um s) a)) else None) s' /\ on_cpu s s' i c.
Proof.
  intros Hs Ha. unfold fetchint. eapply bind_curproc; [exact Hs|]. intros s1 c1 Hs1 Hu.
  rewrite (bind_field p_sz _ _ _ Hs1). exists s1. split; [|by apply on_cpu_refl].
  unfold inside, KERNBASE in *. destruct (Z.ltb_spec a (p_sz x)) as [H|H].
  - rewrite u32_id by lia. destruct (Z.leb_spec (p_sz x) a); [lia|].
    destruct (Z.ltb_spec (p_sz x) (a + 4)), (Z.leb_spec (a + 4) (p_sz x)); try lia; simpl; unfold gets, ret; by rewrite ?Hu.
  - destruct (Z.leb_spec (p_sz x) a); [done|lia].
Qed.

Lemma argint_ok s c n : caller s i c p x ->
  exists s', argint n s = Ok (int_arg (um s) x n) s' /\ on_cpu s s' i c.
Proof.
  intros Hs. unfold argint. eapply bind_curproc; [exact Hs|]. intros s1 c1 Hs1 Hu.
  rewrite (bind_field _ _ _ _ Hs1), <- Hu. apply fetchint_ok; [done|apply u32_range].
Qed.

(** After [argint] the caller goes on. *)
Lemma bind_argint {A} n (k : option Z -> M ust A) s c r :
  caller s i c p x ->
  (forall s1 c1, caller s1 i c1 p x -> um s1 = um s ->
     exists s', k (int_arg (um s) x n) s1 = Ok r s' /\ on_cpu s1 s' i c1) ->
  exists s', bind (argint n) k s = Ok r s' /\ on_cpu s s' i c.
Proof.
  intros Hs Hk. destruct (argint_ok s c n Hs) as (s1 & H & Ho).
  destruct (on_cpu_caller _ _ _ _ _ _ Hs Ho) as (c1 & Hc1 & Hn & _).
  destruct (Hk s1 c1 Hc1) as (s' & Hr & Hs'); [by destruct Ho as (? & -> & _)|].
  exists s'. rewrite (bind_ok _ _ _ _ _ H). split; [done|by eapply on_cpu_trans].
Qed.

Lemma argptr_ok s c n size : caller s i c p x -> -2147483648 <= size < 2147483648 ->
  exists s', argptr n size s = Ok (ptr_arg (um s) x n size) s' /\ on_cpu s s' i c.
Proof.
  intros Hs Hsize. unfold argptr. eapply bind_curproc; [exact Hs|]. intros s1 c1 Hs1 Hu.
  eapply bind_argint; [exact Hs1|]. intros s2 c2 Hs2 Hu2. rewrite Hu. unfold ptr_arg.
  exists s2. split; [|by apply on_cpu_refl].
  destruct (int_arg (um s) x n) as [v|]; simpl; [|done]. rewrite (bind_field p_sz _ _ _ Hs2).
  pose proof (u32_range v). unfold inside, KERNBASE in *.
  destruct (Z.ltb_spec size 0), (Z.leb_spec 0 size); try lia; [done|].
  destruct (Z.leb_spec (p_sz x) (u32 v)), (Z.ltb_spec (u32 v) (p_sz x)); try lia; [done|].
  rewrite (u32_id (u32 v + size)) by lia.
  by destruct (Z.ltb_spec (p_sz x) (u32 v + size)), (Z.leb_spec (u32 v + size) (p_sz x)); try lia.
Qed.

Lemma argstr_ok s c n : caller s i c p x ->
  exists s', argstr n s = Ok (str_arg (um s) x n) s' /\ on_cpu s s' i c.
Proof.
  intros Hs. unfold argstr. eapply bind_argint; [exact Hs|]. intros s1 c1 Hs1 Hu. unfold str_arg.
  destruct (int_arg (um s) x n) as [v|]; simpl; [|exists s1; split; [done|by apply on_cpu_refl]].
  unfold fetchstr. eapply bind_curproc; [exact Hs1|]. intros s2 c2 Hs2 Hu2.
  rewrite (bind_field p_sz _ _ _ Hs2). exists s2. split; [|by apply on_cpu_refl].
  destruct (Z.leb_spec (p_sz x) (u32 v)); unfold gets, ret; [|congruence].
  unfold find_nul. by rewrite Z2Nat.nonpos by lia.
Qed.
End args.

Lemma inside_spec x a n : inside x a n = true <-> a < p_sz x /\ a + n <= p_sz x.
Proof. unfold inside. rewrite andb_true_iff, Z.ltb_lt, Z.leb_le. done. Qed.

(** A pointer that [argptr] accepts is that of a block inside the process. *)
Lemma ptr_arg_inside m x n size a :
  ptr_arg m x n size = Some a -> 0 <= a < p_sz x /\ 0 <= size /\ a + size <= p_sz x.
Proof.
  unfold ptr_arg. destruct (int_arg m x n) as [v|]; simpl; [|done].
  destruct (Z.leb_spec 0 size); simpl; [|done]. destruct (inside x (u32 v) size) eqn:Hi; intros Ha; simplify_eq.
  apply inside_spec in Hi. pose proof (u32_range v). lia.
Qed.

(** [find_nul] finds the first NUL before the end, and only that. *)
Lemma find_nul_spec m a ep l :
  find_nul m a ep = Some l <->
  0 <= l /\ a + l < ep /\ m (a + l) = 0 /\ forall j, 0 <= j < l -> m (a + j) <> 0.
Proof.
  unfold find_nul. split.
  - intros Hf. apply find_range_some in Hf as (Hl & Hz & Hbefore). split; [lia|]. split; [lia|].
    split; [by apply Z.eqb_eq|]. intros j Hj. apply Z.eqb_neq, Hbefore. lia.
  - intros (Hl & He & Hz & Hb). apply find_range_first; [lia|by apply Z.eqb_eq|].
    intros j Hj. by apply Z.eqb_neq, Hb.
Qed.

(** C32: a system call never leaves the memory of its process through its
    arguments.  The word, the block of bytes or the string that [argint],
    [argptr] and [argstr] accept lies inside the process, terminator included,
    whatever the stack pointer, the pointer and the size are: the additions of
    the checks do not wrap around, because address spaces end at KERNBASE.  All
    three return, and they accept everything that lies inside. *)
Theorem args_in_bounds s i c p x n size :
  caller s i c p x -> p_sz x <= KERNBASE -> -2147483648 <= size < 2147483648 ->
  (exists s', argint n s = Ok (int_arg (um s) x n) s' /\ on_cpu s s' i c) /\
  (exists r s', argptr n size s = Ok r s' /\ on_cpu s s' i c /\
     (forall a, r = Some a <-> (exists v, int_arg (um s) x n = Some v /\ u32 v = a) /\
        0 <= size /\ a < p_sz x /\ a + size <= p_sz x)) /\
  (exists r s', argstr n s = Ok r s' /\ on_cpu s s' i c /\
     (forall a l, r = Some (a, l) <-> (exists v, int_arg (um s) x n = Some v /\ u32 v = a) /\
        0 <= l /\ a + l < p_sz x /\ um s (a + l) = 0 /\ forall j, 0 <= j < l -> um s (a + j) <> 0)).
Proof.
  intros Hs Hsz Hsize. split; [by eapply argint_ok|]. split.
  - destruct (argptr_ok i p x Hsz s c n size Hs Hsize) as (s' & H & Ho).
    exists (ptr_arg (um s) x n size), s'. split; [done|]. split; [done|]. intros a. unfold ptr_arg.
    destruct (int_arg (um s) x n) as [v|]; simpl; [|naive_solver].
    destruct (Z.leb_spec 0 size) as [Hz|Hz]; simpl; [|naive_solver lia].
    destruct (inside x (u32 v) size) eqn:Hi.
    + apply inside_spec in Hi. naive_solver.
    + split; [done|]. intros ((w & Hw & <-) & _ & H1 & H2). simplify_eq.
      by rewrite (proj2 (inside_spec x (u32 w) size)) in Hi.
  - destruct (argstr_ok i p x Hsz s c n Hs) as (s' & H & Ho).
    exists (str_arg (um s) x n), s'. split; [done|]. split; [done|]. intros a l. unfold str_arg.
    destruct (int_arg (um s) x n) as [v|]; simpl; [|naive_solver]. split.
    + destruct (find_nul _ _ _) as [l'|] eqn:Hf; simpl; [|done]. intros Hr. simplify_eq.
      apply find_nul_spec in Hf. eauto.
    + intros ((w & Hw & <-) & Hf). simplify_eq. apply find_nul_spec in Hf. by rewrite Hf.
Qed.

(** ** The hypotheses can hold *)

(** A process of two pages whose stack holds, above the return address, a
    pointer and a pointer past its end. *)
Definition w_arg_proc : proc := set_tf (set_esp 100 zero_tf) (w_proc 0 0).
Definition w_caller : ust := set_um (store32 (store32 (fun _ => 0) 104 200) 108 8192) (w_state w_arg_proc).

Lemma args_in_bounds_witness :
  ptr_arg (um w_caller) w_arg_proc 1 16 = None /\
  exists r s', argptr 0 16 w_caller = Ok r s' /\ r = Some 200.
Proof.
  split; [vm_compute; reflexivity|].
  assert (H : caller w_caller 0 w_cpu 0 w_arg_proc).
  { split; [|done]. split; [done|]. simpl. split; [lia|by left]. }
  destruct (args_in_bounds w_caller _ _ _ _ 0 16 H ltac:(vm_compute; congruence) ltac:(lia)) as (_ & (r & s' & Hr & _ & Hiff) & _).
  exists r, s'. split; [exact Hr|]. apply Hiff.
  split; [exists 200; split; vm_compute; reflexivity|]. vm_compute. intuition congruence.
Defined.
