(* ===== verification/File.v ===== *)
(** Open files (src/file.c), and [pipealloc] of src/pipe.c: the table of open
    files over pipes and inodes.

    [kst] is the state of the kernel as the system calls see it: the process
    table with the memory of the current process, the file system, the file
    table, the pipes by the address of their page, and the clock.  [TxnOps] has the
    calls of the log: [initlog], and [begin_op] and [end_op], which bracket a
    file-system operation; the log and the blocks in memory implement it.  Reads and writes on pipes may
    sleep: [envs] is what the other processes do meanwhile. *)

From S2P Require Import Prelude StringC Spinlock Kalloc Ptable Signal Sleeplock Pipe Block Bio Log Layer Fs.

Class TxnOps (B : Type) := {
  bl_init : Z -> M B unit;   (* initlog(dev) *)
  bl_begin : M B unit;       (* begin_op() *)
  bl_end : M B unit;         (* end_op() *)
}.

#[export] Instance log_txn : TxnOps logst := { bl_init := initlog; bl_begin := begin_op []; bl_end := end_op }.

(** In memory an operation starts and leaves with an empty transaction. *)
#[export] Instance mem_txn : TxnOps memb := {
  bl_init _ := ret tt;
  bl_begin := ret tt;
  bl_end := modify (fun s => Memb (mb_blocks s) (mb_held s) []);
}.

(* src/param.h:5-5 NFILE *)
Definition NFILE : nat := 100.

(* src/file.h:2-2 type *)
Inductive ftype := FD_NONE | FD_PIPE | FD_INODE.

#[export] Instance ftype_eq_dec : EqDecision ftype.
Proof. solve_decision. Defined.

(* src/file.h:1-9 file *)
Record file := File {
  f_type : ftype;
  f_ref : Z;          (* reference count *)
  f_readable : bool;
  f_writable : bool;
  f_pipe : Z;
  f_ip : nat;
  f_off : Z;
}.

Definition file0 : file := File FD_NONE 0 false false 0 0 0.
Definition set_f_ref v f := File (f_type f) v (f_readable f) (f_writable f) (f_pipe f) (f_ip f) (f_off f).
Definition set_f_type v f := File v (f_ref f) (f_readable f) (f_writable f) (f_pipe f) (f_ip f) (f_off f).
Definition set_f_off v f := File (f_type f) (f_ref f) (f_readable f) (f_writable f) (f_pipe f) (f_ip f) v.
Definition set_f_pipe (r w : bool) p f := File FD_PIPE (f_ref f) r w p (f_ip f) (f_off f).
Definition set_f_inode (r w : bool) ip off f := File FD_INODE (f_ref f) r w (f_pipe f) ip off.

(* src/file.c:13-17 ftable *)
Record kst (B : Type) := Kst {
  ku : ust;
  fsys : fsst B;
  ft_lock : lock_view;
  files : list file;
  pipes : gmap Z pipe;
  tickslock : lock_view;   (* trap.c *)
  ticks : Z;
}.
Arguments Kst {B} _ _ _ _ _ _ _.
Arguments ku {B} _.
Arguments fsys {B} _.
Arguments ft_lock {B} _.
Arguments files {B} _.
Arguments pipes {B} _.
Arguments tickslock {B} _.
Arguments ticks {B} _.

Definition set_ku {B} v (s : kst B) := Kst v (fsys s) (ft_lock s) (files s) (pipes s) (tickslock s) (ticks s).
Definition set_fsys {B} (v : fsst B) (s : kst B) := Kst (ku s) v (ft_lock s) (files s) (pipes s) (tickslock s) (ticks s).
Definition set_ft_lock {B} v (s : kst B) := Kst (ku s) (fsys s) v (files s) (pipes s) (tickslock s) (ticks s).
Definition set_files {B} v (s : kst B) := Kst (ku s) (fsys s) (ft_lock s) v (pipes s) (tickslock s) (ticks s).
Definition set_pipes {B} v (s : kst B) := Kst (ku s) (fsys s) (ft_lock s) (files s) v (tickslock s) (ticks s).
Definition set_tickslock {B} v (s : kst B) := Kst (ku s) (fsys s) (ft_lock s) (files s) (pipes s) v (ticks s).
Definition set_ticks {B} v (s : kst B) := Kst (ku s) (fsys s) (ft_lock s) (files s) (pipes s) (tickslock s) v.

Definition ku_of {B} : lens (kst B) ust := Lens ku set_ku.
Definition kpt_of {B} : lens (kst B) pst := compose ku_of pt_of.
Definition fsys_of {B} : lens (kst B) (fsst B) := Lens fsys set_fsys.
Definition ft_lock_of {B} : lens (kst B) lock_view := Lens ft_lock set_ft_lock.
Definition tickslock_of {B} : lens (kst B) lock_view := Lens tickslock set_tickslock.

(** The pipe at address [pa], with the parts of the state its operations use. *)
Definition pipe0 : pipe := Pipe Unlocked (replicate 512 0) 0 0 0 0.
Definition pipe_of {B} (pa : Z) : lens (kst B) pipest :=
  Lens (fun s => Pist (pt (ku s)) (um (ku s)) (default pipe0 (pipes s !! pa)))
       (fun v s => set_pipes (<[pa := pi v]> (pipes s)) (set_ku (Ust (pi_pt v) (pi_um v)) s)).

Section file.
Context {B : Type} {OB : BlockOps B} {TB : TxnOps B}.
Variable kend : Z.
Context (devsw_read : Z -> option (nat -> Z -> M (fsst B) (Z * list Z))).
Context (devsw_write : Z -> option (nat -> list Z -> Z -> M (fsst B) Z)).
Local Abbreviation K := (M (kst B)).

Definition inFs {A} (m : M (fsst B) A) : K A := zoom fsys_of m.
Definition inPt {A} (m : M pst A) : K A := zoom kpt_of m.
Definition begin_op_ : K unit := inFs (zoom fb_of bl_begin).
Definition end_op_ : K unit := inFs (zoom fb_of bl_end).
Definition file_at (s : kst B) (f : nat) : file := nth f (files s) file0.
Definition getf {A} (f : nat) (g : file -> A) : K A := gets (fun s => g (file_at s f)).
Definition setf (f : nat) (g : file -> file) : K unit := modify (fun s => set_files (alter g f (files s)) s).

(** The bytes at a user address, and storing bytes there. *)
Definition user_bytes (a n : Z) : K (list Z) := gets (fun s => um (ku s) <$> range a (Z.to_nat n)).
Definition store_user (a : Z) (l : list Z) : K unit :=
  modify (fun s => set_ku (set_um (put_bytes (um (ku s)) a l) (ku s)) s).

(* src/file.c:19-23 fileinit *)
Definition fileinit : K unit := modify (set_ft_lock Unlocked).

(* src/file.c:25-41 filealloc *)
Definition filealloc : K (option nat) :=
  lock_acquire ft_lock_of ;;
  l <- gets files ;;
  match list_find (fun f => f_ref f = 0) l with
  | Some (f, _) => setf f (set_f_ref 1) ;; lock_release ft_lock_of ;; ret (Some f)
  | None => lock_release ft_lock_of ;; ret None
  end.

(* src/file.c:43-53 filedup *)
Definition filedup (f : nat) : K nat :=
  lock_acquire ft_lock_of ;;
  r <- getf f f_ref ;;
  if r <? 1 then panic "filedup"
  else
    setf f (set_f_ref (s32 (r + 1))) ;;
    lock_release ft_lock_of ;;
    ret f.

(* src/file.c:55-80 fileclose *)
Definition fileclose (f : nat) : K unit :=
  lock_acquire ft_lock_of ;;
  r <- getf f f_ref ;;
  if r <? 1 then panic "fileclose"
  else
    setf f (set_f_ref (r - 1)) ;;
    if 0 <? r - 1 then lock_release ft_lock_of
    else
      ff <- getf f id ;;
      setf f (set_f_ref 0) ;;
      setf f (set_f_type FD_NONE) ;;
      lock_release ft_lock_of ;;
      match f_type ff with
      | FD_PIPE => zoom (pipe_of (f_pipe ff)) (pipeclose kend (f_pipe ff) (f_writable ff))
      | FD_INODE => begin_op_ ;; inFs (iput (f_ip ff)) ;; end_op_
      | FD_NONE => ret tt
      end.

(** [stati] stores field by field: the padding bytes keep their value. *)

(* src/file.c:82-93 filestat *)
Definition filestat (f : nat) (addr : Z) : K Z :=
  x <- getf f id ;;
  if decide (f_type x = FD_INODE) then
    inFs (ilock (f_ip x)) ;;
    st <- inFs (stati (f_ip x)) ;;
    store_user addr (put16 [0; 0] 0 (st_type st)) ;;
    store_user (addr + 4) (put32 [0; 0; 0; 0] 0 (st_dev st)) ;;
    store_user (addr + 8) (put32 [0; 0; 0; 0] 0 (st_ino st)) ;;
    store_user (addr + 12) (put16 [0; 0] 0 (st_nlink st)) ;;
    store_user (addr + 16) (put32 [0; 0; 0; 0] 0 (st_size st)) ;;
    inFs (iunlock (f_ip x)) ;;
    ret 0
  else ret (-1).

(* src/file.c:95-113 fileread *)
Definition fileread (f : nat) (addr n : Z) (envs : list (pipest -> pipest)) : K Z :=
  x <- getf f id ;;
  if negb (f_readable x) then ret (-1)
  else match f_type x with
  | FD_PIPE => zoom (pipe_of (f_pipe x)) (piperead (f_pipe x) addr n envs)
  | FD_INODE =>
      inFs (ilock (f_ip x)) ;;
      off <- getf f f_off ;;
      r <- inFs (readi devsw_read (f_ip x) off (u32 n)) ;;
      store_user addr (snd r) ;;
      (if 0 <? fst r then setf f (fun y => set_f_off (u32 (f_off y + fst r)) y) else ret tt) ;;
      inFs (iunlock (f_ip x)) ;;
      ret (fst r)
  | FD_NONE => panic "fileread"
  end.

(** The most bytes one transaction writes. *)
Definition WRITE_MAX : Z := (MAXOPBLOCKS - 1 - 1 - 2) / 2 * 512.

(** The loop of [filewrite]: [i] bytes have been written; each turn but the
    last writes [WRITE_MAX] of them, so [n] turns are enough. *)

(* src/file.c:133-152 filewrite *)
Fixpoint filewrite_loop (fuel : nat) (f : nat) (addr n i : Z) : K Z :=
  match fuel with
  | O => ret i
  | S fuel' =>
      if i <? n then
        let n1 := Z.min (n - i) WRITE_MAX in
        begin_op_ ;;
        ip <- getf f f_ip ;;
        inFs (ilock ip) ;;
        src <- user_bytes (addr + i) n1 ;;
        off <- getf f f_off ;;
        r <- inFs (writei devsw_write ip src off n1) ;;
        (if 0 <? r then setf f (fun y => set_f_off (u32 (f_off y + r)) y) else ret tt) ;;
        inFs (iunlock ip) ;;
        end_op_ ;;
        if r <? 0 then ret i
        else if negb (r =? n1) then panic "short filewrite"
        else filewrite_loop fuel' f addr n (i + r)
      else ret i
  end.

(* src/file.c:115-157 filewrite *)
Definition filewrite (f : nat) (addr n : Z) (envs : list (pipest -> pipest)) : K Z :=
  x <- getf f id ;;
  if negb (f_writable x) then ret (-1)
  else match f_type x with
  | FD_PIPE => zoom (pipe_of (f_pipe x)) (pipewrite (f_pipe x) addr n envs)
  | FD_INODE => i <- filewrite_loop (Z.to_nat n) f addr n 0 ;; ret (if i =? n then n else -1)
  | FD_NONE => panic "filewrite"
  end.

Definition close_opt (f : option nat) : K unit := match f with Some f => fileclose f | None => ret tt end.

(* src/pipe.c:22-57 pipealloc *)
Definition pipealloc : K (option (nat * nat)) :=
  f0 <- filealloc ;;
  match f0 with
  | None => ret None
  | Some f0 =>
      f1 <- filealloc ;;
      match f1 with
      | None => fileclose f0 ;; ret None
      | Some f1 =>
          p <- inPt (zoom km_of kalloc) ;;
          if p =? 0 then fileclose f0 ;; fileclose f1 ;; ret None
          else
            modify (fun s => set_pipes (<[p := pipeinit (default pipe0 (pipes s !! p))]> (pipes s)) s) ;;
            setf f0 (set_f_pipe true false p) ;;
            setf f1 (set_f_pipe false true p) ;;
            ret (Some (f0, f1))
      end
  end.
End file.
