(* ===== verification/FileSpec.v ===== *)
(** The table of open files: the reference count of a slot is the number of
    handles to it, in the descriptor tables of the processes and in the kernel's
    hands. *)

From S2P Require Import Prelude StringC Spinlock Kalloc Ptable Signal Sleeplock Pipe Block Bio Log Layer Fs File.

Definition refs (f : nat) (hs : list nat) : nat := count_occ Nat.eq_dec hs f.
#[global] Arguments refs : simpl never.

Lemma refs_cons f g hs : refs f (g :: hs) = ((if decide (g = f) then 1 else 0) + refs f hs)%nat.
Proof. unfold refs. simpl. destruct (Nat.eq_dec g f), (decide (g = f)); (lia || done). Qed.

Lemma refs_elem f hs : f ∈ hs <-> (1 <= refs f hs)%nat.
Proof. rewrite list_elem_of_In, (count_occ_In Nat.eq_dec). unfold refs. lia. Qed.

Lemma refs_perm hs hs' f : hs ≡ₚ hs' -> refs f hs = refs f hs'.
Proof. intros H. revert f. by apply (Permutation_count_occ Nat.eq_dec). Qed.

Lemma refs_length f hs : (refs f hs <= length hs)%nat.
Proof. induction hs as [|g hs IH]; [done|]. rewrite refs_cons. simpl. destruct (decide _); lia. Qed.

(** [hs]: every handle to an open file, a slot once per handle. *)
Record files_ok (l : list file) (hs : list nat) : Prop := {
  fo_length : length l = NFILE;
  fo_refs : forall f x, l !! f = Some x -> f_ref x = Z.of_nat (refs f hs);
  fo_range : Forall (fun f => (f < NFILE)%nat) hs;
  fo_bound : Z.of_nat (length hs) < 2147483648;
}.

Lemma files_ok_perm l hs hs' : hs ≡ₚ hs' -> files_ok l hs -> files_ok l hs'.
Proof.
  intros Hp [H1 H2 H3 H4]. split; [done| |by rewrite <- Hp|by rewrite <- Hp].
  intros f x Hx. rewrite (H2 f x Hx). by rewrite (refs_perm _ _ f Hp).
Qed.

#[export] Instance files_ok_proper l : Proper (Permutation ==> iff) (files_ok l).
Proof. intros hs hs' Hp. split; by apply files_ok_perm. Qed.

(** A handle more to slot [f]. *)
Lemma files_ok_add l hs f x g :
  files_ok l hs -> l !! f = Some x -> f_ref (g x) = f_ref x + 1 -> Z.of_nat (length hs) + 1 < 2147483648 ->
  files_ok (alter g f l) (f :: hs).
Proof.
  intros [H1 H2 H3 H4] Hx Hg Hb. split; [by rewrite length_alter| | |simpl; lia].
  - intros f' y Hy. rewrite refs_cons. destruct (decide (f = f')) as [<-|Hne].
    + rewrite list_lookup_alter_eq, Hx in Hy. simplify_eq/=. rewrite Hg, (H2 f x Hx). lia.
    + rewrite list_lookup_alter_ne in Hy by done. by rewrite (H2 f' y Hy).
  - constructor; [|done]. apply lookup_lt_Some in Hx. by rewrite H1 in Hx.
Qed.

(** ... and one less. *)
Lemma files_ok_drop l hs f x g :
  files_ok l (f :: hs) -> l !! f = Some x -> f_ref (g x) = f_ref x - 1 -> files_ok (alter g f l) hs.
Proof.
  intros [H1 H2 H3 H4] Hx Hg. apply Forall_cons in H3 as [_ H3]. simpl in H4.
  split; [by rewrite length_alter| |done|lia].
  intros f' y Hy. destruct (decide (f = f')) as [<-|Hne].
  - rewrite list_lookup_alter_eq, Hx in Hy. simplify_eq/=. rewrite Hg, (H2 f x Hx), refs_cons, decide_True by done. lia.
  - rewrite list_lookup_alter_ne in Hy by done. rewrite (H2 f' y Hy), refs_cons, decide_False by done. done.
Qed.

Section ftable.
Context {B : Type} {OB : BlockOps B} {TB : TxnOps B}.
Variable kend : Z.
Local Abbreviation K := (M (kst B)).

Record ftable_ok (s : kst B) (hs : list nat) : Prop := {
  ft_unlocked : ft_lock s = Unlocked;
  ft_files : files_ok (files s) hs;
}.

Lemma ftable_lookup s hs f : ftable_ok s hs -> f ∈ hs -> exists x, files s !! f = Some x /\ 1 <= f_ref x /\ file_at s f = x.
Proof.
  intros [_ [H1 H2 H3 _]] Hf. rewrite Forall_forall in H3. specialize (H3 f Hf).
  destruct (lookup_lt_is_Some_2 (files s) f) as [x Hx]; [lia|].
  exists x. split; [done|]. split; [rewrite (H2 f x Hx); apply refs_elem in Hf; lia|].
  unfold file_at. by apply nth_lookup_Some.
Qed.

(** The state inside the critical section. *)
Lemma locked_back (s : kst B) l : ft_lock s = Unlocked -> set_ft_lock Unlocked (set_files l (set_ft_lock HeldHere s)) = set_files l s.
Proof. intros H. destruct s; simpl in *. by subst. Qed.
Lemma locked_same (s : kst B) : ft_lock s = Unlocked -> set_ft_lock Unlocked (set_ft_lock HeldHere s) = s.
Proof. intros H. destruct s; simpl in *. by subst. Qed.

Lemma filealloc_ok s hs : ftable_ok s hs -> Z.of_nat (length hs) + 1 < 2147483648 ->
  exists r s', filealloc s = Ok r s' /\
  match r with
  | Some f => f ∉ hs /\ s' = set_files (alter (set_f_ref 1) f (files s)) s /\ ftable_ok s' (f :: hs)
  | None => s' = s /\ forall f, (f < NFILE)%nat -> f ∈ hs
  end.
Proof.
  intros [Hl Hf] Hb. unfold filealloc. rewrite bind_acquire by done. unfold bind at 1, gets at 1.
  change (files (over ft_lock_of HeldHere s)) with (files s).
  destruct (list_find (fun f => f_ref f = 0) (files s)) as [[f x]|] eqn:Hfind.
  - apply list_find_Some in Hfind as (Hx & Href & _). exists (Some f).
    eexists. unfold setf, bind at 1, modify. rewrite bind_release by done. split; [reflexivity|]. cbn [over ft_lock_of].
    change (set_ft_lock Unlocked _) with (set_ft_lock Unlocked (set_files (alter (set_f_ref 1) f (files s)) (set_ft_lock HeldHere s))).
    rewrite locked_back by done. split; [|split; [done|split; [done|]]].
    + rewrite refs_elem. rewrite (fo_refs _ _ Hf f x Hx) in Href. lia.
    + apply (files_ok_add _ _ _ x); [done..| |done]. simpl. lia.
  - exists None, s. rewrite bind_release by done. cbn [over ft_lock_of]. rewrite locked_same by done.
    split; [done|]. split; [done|]. intros f Hlt. apply list_find_None in Hfind. rewrite Forall_lookup in Hfind.
    destruct (lookup_lt_is_Some_2 (files s) f) as [x Hx]; [by rewrite (fo_length _ _ Hf)|].
    specialize (Hfind f x Hx). rewrite (fo_refs _ _ Hf f x Hx) in Hfind. apply refs_elem. lia.
Qed.

Lemma filedup_ok s hs f : ftable_ok s hs -> f ∈ hs -> Z.of_nat (length hs) + 1 < 2147483648 ->
  exists g, filedup f s = Ok f (set_files (alter g f (files s)) s) /\
    (forall x, f_type (g x) = f_type x /\ f_ip (g x) = f_ip x /\ f_pipe (g x) = f_pipe x) /\
    ftable_ok (set_files (alter g f (files s)) s) (f :: hs).
Proof.
  intros Hok Hf Hb. destruct (ftable_lookup s hs f Hok Hf) as (x & Hx & Hr & Hat). destruct Hok as [Hl Hfo].
  exists (set_f_ref (s32 (f_ref x + 1))). split; [|split; [done|split; [done|]]].
  - unfold filedup. rewrite bind_acquire by done. unfold getf, gets, bind at 1.
    change (file_at (over ft_lock_of HeldHere s) f) with (file_at s f). rewrite Hat.
    destruct (Z.ltb_spec (f_ref x) 1); [lia|]. unfold setf, bind at 1, modify. rewrite bind_release by done.
    unfold ret. f_equal. by apply (locked_back s (alter _ f (files s))).
  - apply (files_ok_add _ _ _ x); [done..| |done]. simpl.
    pose proof (refs_length f hs). rewrite (fo_refs _ _ Hfo f x Hx). unfold s32. zsolve.
Qed.

(** What the last [fileclose] does to the pipe or the inode. *)
Definition close_object (ff : file) : K unit :=
  match f_type ff with
  | FD_PIPE => zoom (pipe_of (f_pipe ff)) (pipeclose kend (f_pipe ff) (f_writable ff))
  | FD_INODE => begin_op_ ;; inFs (iput (f_ip ff)) ;; end_op_
  | FD_NONE => ret tt
  end.

Lemma alter_alter {A} (g h : A -> A) f (l : list A) : alter g f (alter h f l) = alter (fun x => g (h x)) f l.
Proof. revert f. induction l as [|y l IH]; intros [|f]; simpl; [done..|]. f_equal. apply IH. Qed.

Lemma fileclose_ok s hs f : ftable_ok s (f :: hs) ->
  exists x s1, files s !! f = Some x /\ ftable_ok s1 hs /\ ku s1 = ku s /\ fsys s1 = fsys s /\ pipes s1 = pipes s /\
    fileclose kend f s = if decide (f ∈ hs) then Ok tt s1 else close_object x s1.
Proof.
  intros Hok. destruct (ftable_lookup s _ f Hok ltac:(by left)) as (x & Hx & Hr & Hat). destruct Hok as [Hl Hfo].
  pose proof (fo_refs _ _ Hfo f x Hx) as Href. rewrite refs_cons, decide_True in Href by done. exists x.
  assert (E : fileclose kend f s =
    (setf f (set_f_ref (f_ref x - 1)) ;;
     if 0 <? f_ref x - 1 then lock_release ft_lock_of
     else ff <- getf f id ;; setf f (set_f_ref 0) ;; setf f (set_f_type FD_NONE) ;; lock_release ft_lock_of ;;
       close_object ff) (set_ft_lock HeldHere s)).
  { unfold fileclose. rewrite bind_acquire by done. unfold getf at 1, gets at 1, bind at 1.
    change (file_at (over ft_lock_of HeldHere s) f) with (file_at s f). rewrite Hat.
    by destruct (Z.ltb_spec (f_ref x) 1); [lia|]. }
  rewrite E. clear E. unfold setf at 1, modify at 1, bind at 1.
  destruct (decide (f ∈ hs)) as [Hin|Hin]; rewrite refs_elem in Hin.
  - exists (set_files (alter (set_f_ref (f_ref x - 1)) f (files s)) s). destruct (Z.ltb_spec 0 (f_ref x - 1)); [|lia].
    split; [done|]. split; [split; [done|by apply (files_ok_drop _ _ _ x)]|]. do 3 (split; [done|]).
    rewrite release_held by done. f_equal. by apply (locked_back s (alter _ f (files s))).
  - exists (set_files (alter (fun y => set_f_type FD_NONE (set_f_ref 0 (set_f_ref (f_ref x - 1) y))) f (files s)) s).
    destruct (Z.ltb_spec 0 (f_ref x - 1)); [lia|]. split; [done|].
    split; [split; [done|apply (files_ok_drop _ _ _ x); [done..|simpl; lia]]|]. do 3 (split; [done|]).
    unfold getf at 1, gets at 1, bind at 1. unfold setf, modify, bind at 1 2. rewrite bind_release by done.
    match goal with |- context [id (file_at ?s2 f)] =>
      assert (Hff : file_at s2 f = set_f_ref (f_ref x - 1) x) end.
    { apply nth_lookup_Some. simpl. by rewrite list_lookup_alter_eq, Hx. }
    unfold id. rewrite Hff. change (close_object (set_f_ref (f_ref x - 1) x)) with (close_object x). f_equal.
    rewrite <- (locked_back s) by done. simpl. by rewrite !alter_alter.
Qed.
End ftable.

(** C33: the reference counts of the file table are right.  With [hs] the handles
    to open files, [filealloc] returns a slot that nobody has a handle to, or 0
    when all have one; [filedup] makes one handle more; [fileclose] one less, and
    it closes the pipe or the inode exactly when that was the last handle.  In
    each case the count of every slot is again the number of its handles. *)
Theorem file_table_refs {B} {OB : BlockOps B} {TB : TxnOps B} (kend : Z) (s : kst B) hs :
  ftable_ok s hs -> Z.of_nat (length hs) + 1 < 2147483648 ->
  (exists r s', filealloc s = Ok r s' /\
     match r with
     | Some f => f ∉ hs /\ s' = set_files (alter (set_f_ref 1) f (files s)) s /\ ftable_ok s' (f :: hs)
     | None => s' = s /\ forall f, (f < NFILE)%nat -> f ∈ hs
     end) /\
  (forall f, f ∈ hs -> exists s', filedup f s = Ok f s' /\ ftable_ok s' (f :: hs)) /\
  (forall f hs', hs ≡ₚ f :: hs' -> exists x s1, files s !! f = Some x /\ ftable_ok s1 hs' /\
     ku s1 = ku s /\ fsys s1 = fsys s /\ pipes s1 = pipes s /\
     fileclose kend f s = if decide (f ∈ hs') then Ok tt s1 else close_object kend x s1).
Proof.
  intros Hok Hb. split; [by apply filealloc_ok|]. split.
  - intros f Hf. destruct (filedup_ok s hs f Hok Hf Hb) as (g & H & _ & Hok'). eauto.
  - intros f hs' Hp. apply fileclose_ok. destruct Hok as [Hl Hf]. split; [done|]. by rewrite <- Hp.
Qed.

(** Slot 0 is open twice. *)
Definition w_files : list file := File FD_PIPE 2 true false 4096 0 0 :: replicate 99 file0.
Definition w_ftable : kst memb :=
  Kst (w_state (w_proc 0 0)) (Fsst (Memb [] [] []) (Superblock 0 0 0 0 0 0 0) Unlocked []) Unlocked w_files ∅ Unlocked 0.

Lemma file_table_refs_witness :
  exists s', filedup 0 w_ftable = Ok 0%nat s' /\ ftable_ok s' [0%nat; 0%nat; 0%nat].
Proof.
  assert (H : ftable_ok w_ftable [0%nat; 0%nat]).
  { split; [done|]. split; [done| |repeat constructor; unfold NFILE; lia|simpl; lia].
    intros [|f] x Hx; [by simplify_eq/=|]. simpl in Hx. change (file0 :: _) with (replicate 99 file0) in Hx.
    apply lookup_replicate in Hx as [-> _]. done. }
  apply (file_table_refs 0 w_ftable [0%nat; 0%nat] H); [simpl; lia|by left].
Defined.
