(* ===== verification/Exec.v ===== *)
(** Running a program (src/exec.c), with [loaduvm] of src/vm.c: the ELF file is
    loaded into a new address space, the arguments are pushed on the new stack,
    and only then the process is switched to it.

    [argv] and [path] are the strings the caller's pointers refer to, without
    their final NUL.  When the call commits, the memory of the process becomes
    what the new page table shows. *)

From S2P Require Import Prelude StringC Spinlock Kalloc Ptable Signal Sleeplock Pipe Block Bio Log Layer Fs File Pages Vm VmSpec VmFree VmOps VmCopy.

(* src/param.h:9-9 MAXARG *)
Definition MAXARG : Z := 32.
(* src/elf.h:3-3 ELF_MAGIC *)
Definition ELF_MAGIC : Z := 1179403647.
(* src/elf.h:37-37 ELF_PROG_LOAD *)
Definition ELF_PROG_LOAD : Z := 1.

(* src/elf.h:5-22 elfhdr *)
Record elfhdr := Elfhdr { e_magic : Z; e_entry : Z; e_phoff : Z; e_phnum : Z }.
Definition ELF_SIZE : Z := 52.
Definition read_elf (d : list Z) : elfhdr := Elfhdr (get32 d 0) (get32 d 24) (get32 d 28) (get16 d 44).

(* src/elf.h:24-34 proghdr *)
Record proghdr := Proghdr { ph_type : Z; ph_off : Z; ph_vaddr : Z; ph_filesz : Z; ph_memsz : Z }.
Definition PH_SIZE : Z := 32.
Definition read_ph (d : list Z) : proghdr := Proghdr (get32 d 0) (get32 d 4) (get32 d 8) (get32 d 16) (get32 d 20).

(** [safestrcpy] of a string into an array of 16 bytes. *)
Definition copy_name (old src : list Z) : list Z :=
  let m := fun a => if a <? 1000 then arr old a else arr src (a - 1000) in
  safestrcpy m 0 1000 16 <$> range 0 16.

(** The part of the path after its last slash. *)
Fixpoint last_elem (path : list Z) (last : list Z) : list Z :=
  match path with
  | [] => last
  | c :: path' => if c =? 47 then last_elem path' path' else last_elem path' last
  end.

Definition word_bytes (w : Z) : list Z := put32 [0; 0; 0; 0] 0 w.

Section exec.
Context {B : Type} {OB : BlockOps B} {TB : TxnOps B}.
Variable kend kdata : Z.
Context (devsw_read : Z -> option (nat -> Z -> M (fsst B) (Z * list Z))).
Local Abbreviation K := (M (kst B)).

Definition inKm {A} (m : M kstate A) : K A := inPt (zoom km_of m).

(** The current directory; [idup] of a null pointer faults. *)
Definition mycwd (path : list Z) : K nat :=
  p <- inPt curproc ;;
  d <- inPt (getp p p_cwd) ;;
  match d with
  | Some d => ret d
  | None => if bool_decide (head path = Some 47) then ret 0%nat else panic "null dereference"
  end.
Definition namei_ (path : list Z) : K (option nat) := d <- mycwd path ;; inFs (namei devsw_read d path).

(* src/vm.c:204-215 loaduvm *)
Fixpoint loaduvm_loop (fuel : nat) (pgdir addr : Z) (ip : nat) (offset i sz : Z) : K Z :=
  match fuel with
  | O => panic "fuel"
  | S f =>
      if i <? sz then
        pte <- inKm (walkpgdir pgdir (u32 (addr + i)) false) ;;
        if pte =? 0 then panic "loaduvm: address should exist"
        else
          e <- inKm (ld pte) ;;
          let pa := PTE_ADDR e in
          let n := if sz - i <? PGSIZE then sz - i else PGSIZE in
          r <- inFs (readi devsw_read ip (u32 (offset + i)) n) ;;
          inKm (put_buf (P2V pa) (snd r)) ;;
          if negb (u32 (fst r) =? n) then ret (-1)
          else loaduvm_loop f pgdir addr ip offset (u32 (i + PGSIZE)) sz
      else ret 0
  end.

(* src/vm.c:195-217 loaduvm *)
Definition loaduvm (pgdir addr : Z) (ip : nat) (offset sz : Z) : K Z :=
  if negb (addr mod PGSIZE =? 0) then panic "loaduvm: addr must be page aligned"
  else loaduvm_loop (S (Z.to_nat (sz / PGSIZE + 1))) pgdir addr ip offset 0 sz.

(** The loop over the program headers, [n] of them left: the size of the image,
    or [None] for [goto bad]. *)

(* src/exec.c:42-59 exec *)
Fixpoint load_segments (n : nat) (ip : nat) (pgdir off sz : Z) : K (option Z) :=
  match n with
  | O => ret (Some sz)
  | S n' =>
      r <- inFs (readi devsw_read ip (u32 off) PH_SIZE) ;;
      if negb (fst r =? PH_SIZE) then ret None
      else
        let ph := read_ph (snd r) in
        if negb (ph_type ph =? ELF_PROG_LOAD) then load_segments n' ip pgdir (s32 (off + PH_SIZE)) sz
        else if ph_memsz ph <? ph_filesz ph then ret None
        else if u32 (ph_vaddr ph + ph_memsz ph) <? ph_vaddr ph then ret None
        else
          sz <- inKm (allocuvm kend pgdir sz (u32 (ph_vaddr ph + ph_memsz ph))) ;;
          if sz =? 0 then ret None
          else if negb (ph_vaddr ph mod PGSIZE =? 0) then ret None
          else
            l <- loaduvm pgdir (ph_vaddr ph) ip (ph_off ph) (ph_filesz ph) ;;
            if l <? 0 then ret None
            else load_segments n' ip pgdir (s32 (off + PH_SIZE)) sz
  end.

(** Pushing the argument strings: the stack pointer and the addresses of the
    strings, or [None] for [goto bad]. *)

(* src/exec.c:73-81 exec *)
Fixpoint push_args (argv : list (list Z)) (pgdir argc sp : Z) (acc : list Z) : K (option (Z * list Z)) :=
  match argv with
  | [] => ret (Some (sp, acc))
  | a :: argv' =>
      if MAXARG <=? argc then ret None
      else
        let len := Z.of_nat (length a) + 1 in
        let sp := Z.land (u32 (sp - len)) 4294967292 in
        r <- inKm (copyout pgdir sp (a ++ [0]) len) ;;
        if r <? 0 then ret None
        else push_args argv' pgdir (argc + 1) sp (acc ++ [sp])
  end.

(* src/exec.c:109-117 exec *)
Definition exec_bad (pgdir : Z) (ip : option nat) : K Z :=
  (if pgdir =? 0 then ret tt else inKm (freevm kend pgdir)) ;;
  match ip with
  | Some ip => inFs (iunlockput ip) ;; end_op_
  | None => ret tt
  end ;;
  ret (-1).

(** The switch to the new image. *)

(* src/exec.c:92-107 exec *)
Definition exec_commit (path : list Z) (pgdir sz entry sp : Z) : K Z :=
  p <- inPt curproc ;;
  inPt (setp p (fun x => set_name (copy_name (p_name x) (last_elem path path)) x)) ;;
  oldpgdir <- inPt (getp p p_pgdir) ;;
  inPt (setp p (set_pgdir pgdir)) ;;
  inPt (setp p (set_sz sz)) ;;
  inPt (setp p (fun x => set_tf (let t := p_tf x in
    Trapframe (tf_edi t) (tf_esi t) (tf_ebp t) (tf_oesp t) (tf_ebx t) (tf_edx t) (tf_ecx t) (tf_eax t)
      (tf_gs t) (tf_fs t) (tf_es t) (tf_ds t) (tf_trapno t) (tf_err t) entry (tf_cs t) (tf_eflags t) sp (tf_ss t)) x)) ;;
  inPt (setp p (fun x => set_handlers ((fun h => if h =? SIG_IGN then h else SIG_DFL) <$> p_handlers x) x)) ;;
  inPt (switchuvm p) ;;
  modify (fun s => set_ku (set_um (ubyte (k_mem (km (pt (ku s)))) pgdir) (ku s)) s) ;;
  inKm (freevm kend oldpgdir) ;;
  ret 0.

(** From the user stack to the end. *)

(* src/exec.c:61-107 exec *)
Definition exec_stack (path : list Z) (argv : list (list Z)) (pgdir sz entry : Z) : K Z :=
  let sz := PGROUNDUP sz in
  sz <- inKm (allocuvm kend pgdir sz (u32 (sz + 2 * PGSIZE))) ;;
  if sz =? 0 then exec_bad pgdir None
  else
    inKm (clearpteu pgdir (u32 (sz - 2 * PGSIZE))) ;;
    a <- push_args argv pgdir 0 sz [] ;;
    match a with
    | None => exec_bad pgdir None
    | Some (sp, addrs) =>
        let argc := Z.of_nat (length addrs) in
        let ustack := [4294967295; argc; u32 (sp - (argc + 1) * 4)] ++ addrs ++ [0] in
        let sp := u32 (sp - (3 + argc + 1) * 4) in
        r <- inKm (copyout pgdir sp (concat (word_bytes <$> ustack)) ((3 + argc + 1) * 4)) ;;
        if r <? 0 then exec_bad pgdir None
        else exec_commit path pgdir sz entry sp
    end.

(* src/exec.c:10-118 exec *)
Definition exec (path : list Z) (argv : list (list Z)) : K Z :=
  begin_op_ ;;
  r <- namei_ path ;;
  match r with
  | None => end_op_ ;; ret (-1)
  | Some ip =>
      inFs (ilock ip) ;;
      h <- inFs (readi devsw_read ip 0 ELF_SIZE) ;;
      if negb (fst h =? ELF_SIZE) then exec_bad 0 (Some ip)
      else
        let elf := read_elf (snd h) in
        if negb (e_magic elf =? ELF_MAGIC) then exec_bad 0 (Some ip)
        else
          pgdir <- inKm (setupkvm kend kdata) ;;
          if pgdir =? 0 then exec_bad 0 (Some ip)
          else
            sz <- load_segments (Z.to_nat (e_phnum elf)) ip pgdir (s32 (e_phoff elf)) 0 ;;
            match sz with
            | None => exec_bad pgdir (Some ip)
            | Some sz =>
                inFs (iunlockput ip) ;;
                end_op_ ;;
                exec_stack path argv pgdir sz (e_entry elf)
            end
  end.
End exec.
