(* ===== verification/KState.v ===== *)
(** Steps of the kernel's state: operations on the process table and on the
    page allocator, run inside a system call. *)

From S2P Require Import Prelude StringC Spinlock Kalloc Ptable Signal Sleeplock Pipe Block Bio Log Layer Fs Args File Pages Vm VmSpec VmFree VmOps VmCopy ProcMem Exec.

(** Replacing the process table of the kernel's state. *)
Definition with_pt {B} (q : pst) (s : kst B) : kst B := set_ku (set_pt q (ku s)) s.
Definition kpt {B} (s : kst B) : pst := pt (ku s).

Lemma inPt_ok {B A} (m : M pst A) (s : kst B) a q : m (kpt s) = Ok a q -> inPt m s = Ok a (with_pt q s).
Proof. intros H. apply (zoom_ok kpt_of). exact H. Qed.

Lemma bind_inPt {B A C} (m : M pst A) (k : A -> M (kst B) C) s a q :
  m (kpt s) = Ok a q -> bind (inPt m) k s = k a (with_pt q s).
Proof. intros H. by rewrite (bind_ok _ _ _ _ _ (inPt_ok _ _ _ _ H)). Qed.

Lemma getp_ok {A} q p (f : proc -> A) x : procs q !! p = Some x -> getp p f q = Ok (f x) q.
Proof. intros H. unfold getp, gets. by rewrite (proc_at_lookup _ _ _ H). Qed.

Lemma with_pt_id {B} (s : kst B) : with_pt (kpt s) s = s.
Proof. by destruct s as [[] ?]. Qed.

Lemma bind_getp {B A C} p (f : proc -> A) x (k : A -> M (kst B) C) s :
  procs (kpt s) !! p = Some x -> bind (inPt (getp p f)) k s = k (f x) s.
Proof. intros H. by rewrite (bind_inPt _ _ _ _ _ (getp_ok _ _ f _ H)), with_pt_id. Qed.

(** The current process of the kernel's state. *)
Definition kcaller {B} (s : kst B) (i : nat) (c : cpu) (p : nat) (x : proc) : Prop := caller (ku s) i c p x.


Lemma kcaller_same {B} (s : kst B) k i c p x :
  kcaller s i c p x -> same_cpu (mach (kpt s)) k i c -> exists c', kcaller (with_pt (set_mach k (kpt s)) s) i c' p x /\ ncli c' = ncli c.
Proof. intros (Hc & Hp & Hx) (c' & Hc' & Hn & Hp' & _). exists c'. split; [|done]. split; [done|]. split; [congruence|done]. Qed.

(** Every system call starts with [myproc()]. *)
Lemma bind_kcurproc {B} (s : kst B) i c p x : kcaller s i c p x ->
  exists m c', (forall C (k : nat -> M (kst B) C), bind (inPt curproc) k s = k p (with_pt (set_mach m (kpt s)) s)) /\
    same_cpu (mach (kpt s)) m i c /\ kcaller (with_pt (set_mach m (kpt s)) s) i c' p x /\ ncli c' = ncli c.
Proof.
  intros Hs. pose proof Hs as (Hc & Hp & _). destruct (curproc_ok (kpt s) i c p Hc Hp) as (m & H & Hm).
  destruct (kcaller_same s m i c p x Hs Hm) as (c' & Hs' & Hn). exists m, c'. split; [|done].
  intros C k. by rewrite (bind_inPt _ _ _ _ _ H).
Qed.

Lemma bind_inKm {B A C} (m : M kstate A) (k : A -> M (kst B) C) s a q :
  m (km (kpt s)) = Ok a q -> bind (inKm m) k s = k a (with_pt (set_km q (kpt s)) s).
Proof. intros H. unfold inKm. erewrite bind_inPt; [reflexivity|]. apply (zoom_ok km_of). exact H. Qed.

(** Storing into a slot. *)
Lemma bind_ksetp {B C} p f x (k : M (kst B) C) s : procs (kpt s) !! p = Some x ->
  (inPt (setp p f) ;; k) s = k (with_pt (putp p (f x) (kpt s)) s).
Proof. intros H. by rewrite (bind_inPt _ _ _ _ _ (setp_ok _ _ f _ H)). Qed.

(** What [mem_ok] depends on. *)
Lemma mem_ok_eq kend q q' ps R : km q' = km q -> procs q' = procs q -> mem_ok kend q ps R -> mem_ok kend q' ps R.
Proof. intros Hk Hp [H1 H2 H3 H4]. by split; rewrite ?Hk, ?Hp. Qed.

Lemma switchuvm_ok q i c p x : cpu_ok (mach q) i c -> procs q !! p = Some x -> p_kstack x <> 0 -> p_pgdir x <> 0 ->
  exists k cr e, switchuvm p q = Ok tt (set_mmu cr e (set_mach k q)) /\ same_cpu (mach q) k i c.
Proof.
  intros (Hr & Hn & Hf) Hx Hk Hg. destruct (push_pop_pair _ i c Hr Hn Hf) as (k1 & k2 & c2 & H1 & H2 & Hr2 & Hn2 & Hc2 & Hi2).
  exists k2, (V2P (p_pgdir x)), (u32 (p_kstack x + KSTACKSIZE)). split; [|exists c2; unfold cpu_ok; rewrite Hn2, Hi2; done].
  unfold switchuvm. rewrite (bind_ok _ _ _ _ _ (getp_ok q p p_kstack x Hx)), (bind_ok _ _ _ _ _ (getp_ok q p p_pgdir x Hx)).
  destruct (Z.eqb_spec (p_kstack x) 0); [done|]. destruct (Z.eqb_spec (p_pgdir x) 0); [done|].
  erewrite bind_ok by (apply (zoom_ok mach_of); exact H1). unfold bind, modify. erewrite (zoom_ok mach_of) by (exact H2). done.
Qed.

(** Steps on the slot of a process that is being made or taken down: [y] is what
    the slot holds, [q] the rest of the table. *)
Definition slot {B} (s : kst B) (p : nat) (q : pst) (y : proc) : kst B := with_pt (putp p y q) s.

Section slot.
Context {B : Type} (s : kst B) (p : nat) (q : pst).
Context (Hp : (p < length (procs q))%nat).
Local Abbreviation K := (M (kst B)).

Lemma slot_lookup y : procs (kpt (slot s p q y)) !! p = Some y.
Proof. by apply (putp_lookup p). Qed.

Lemma slot_getp {A C} (f : proc -> A) (k : A -> K C) y : bind (inPt (getp p f)) k (slot s p q y) = k (f y) (slot s p q y).
Proof. apply bind_getp, slot_lookup. Qed.

Lemma slot_setp {C} f (k : K C) y : (inPt (setp p f) ;; k) (slot s p q y) = k (slot s p q (f y)).
Proof.
  rewrite (bind_ksetp p f y) by apply slot_lookup. f_equal. unfold slot.
  change (kpt (with_pt (putp p y q) s)) with (putp p y q). by rewrite putp_putp.
Qed.

Lemma slot_setp_end f y : inPt (setp p f) (slot s p q y) = Ok tt (slot s p q (f y)).
Proof.
  unfold slot. rewrite <- (putp_putp p y (f y) q). erewrite inPt_ok by (apply setp_ok, slot_lookup). done.
Qed.

Lemma slot_other {A C} j x (f : proc -> A) (k : A -> K C) y : j <> p -> procs q !! j = Some x ->
  bind (inPt (getp j f)) k (slot s p q y) = k (f x) (slot s p q y).
Proof. intros Hj Hx. apply bind_getp. simpl. by rewrite list_lookup_insert_ne. Qed.

Lemma slot_cas {C} a b (k : bool -> K C) y : p_state y = a ->
  bind (inPt (cas p a b)) k (slot s p q y) = k true (slot s p q (set_state b y)).
Proof. intros Ha. erewrite bind_inPt by (apply cas_put_hit; done). done. Qed.

Lemma slot_cas_miss {C} a b (k : bool -> K C) y : p_state y <> a ->
  bind (inPt (cas p a b)) k (slot s p q y) = k false (slot s p q y).
Proof. intros Ha. erewrite bind_inPt by (eapply cas_miss; [apply slot_lookup|done]). by rewrite with_pt_id. Qed.

Lemma slot_inKm {A C} (m : M kstate A) (k : A -> K C) a k' y :
  m (km q) = Ok a k' -> bind (inKm m) k (slot s p q y) = k a (slot s p (set_km k' q) y).
Proof. intros H. by erewrite bind_inKm by (exact H). Qed.

Lemma slot_inPt {A C} (m : M pst A) (k : A -> K C) a q' y y' :
  m (putp p y q) = Ok a (putp p y' q') -> bind (inPt m) k (slot s p q y) = k a (slot s p q' y').
Proof. intros H. by erewrite bind_inPt by (exact H). Qed.
End slot.

(** [slot_run] runs these steps as long as they are the next ones. *)
Create Rewrite HintDb slot.
#[export] Hint Rewrite @slot_getp @slot_setp @slot_setp_end using assumption : slot.
