(* ===== verification/ProcWit.v ===== *)
(** A small machine on which the hypotheses about processes hold: a running
    process of one page with an open file, its child, a zombie with an empty
    address space, and two free pages. *)

From S2P Require Import Prelude StringC Spinlock Kalloc Ptable Signal Sleeplock Pipe Block Bio Log Layer Fs Args File FileSpec Pages Vm VmSpec VmFree VmOps VmCopy VmClaims ProcMem Exec KState.

#[local] Opaque range.

Definition w_stack0 : Z := w_end + 20480.
Definition w_pg1 : Z := w_end + 24576.
Definition w_stack1 : Z := w_end + 28672.

Definition w_parent : proc :=
  set_cwd (Some 0%nat) (set_ofile (<[0%nat := Some 0%nat]> (replicate NOFILE None))
    (set_state RUNNING (set_sz 4096 (set_pgdir w_pg (set_kstack w_stack0 (set_pid 1 unused_proc)))))).
Definition w_zombie : proc :=
  set_state ZOMBIE (set_parent (Some 0%nat) (set_pgdir w_pg1 (set_kstack w_stack1 (set_pid 2 unused_proc)))).
Definition w_table : pst :=
  Pst (w_parent :: w_zombie :: replicate 62 unused_proc) 2 None (Machine [Cpu 0 0 false (Some 0%nat)] true 0) w_vm 0 0.
Definition w_kernel_state : kst memb :=
  Kst (Ust w_table (fun _ => 0)) (Fsst (Memb [] [] []) (Superblock 0 0 0 0 0 0 0) Unlocked []) Unlocked
    (File FD_INODE 1 true false 0 0 0 :: replicate 99 file0) ∅ Unlocked 0.

Lemma w_pages1 : tables VmClaims.w_mem w_pg1 = [] /\ upages VmClaims.w_mem w_pg1 = [] /\
  forall v, 0 <= v < NPAGES -> pte VmClaims.w_mem w_pg1 v = 0.
Proof.
  assert (Hall : forallb (fun d => negb (present (pde VmClaims.w_mem w_pg1 d))) (range 0 1024) = true) by (vm_compute; reflexivity).
  rewrite forallb_forall in Hall.
  assert (Hp : forall v, 0 <= v < NPAGES -> pte VmClaims.w_mem w_pg1 v = 0).
  { intros v Hv. unfold pte. rewrite NPAGES_eq in Hv.
    specialize (Hall (v / 1024) ltac:(apply list_elem_of_In, elem_of_range; zsolve)).
    by destruct (present (pde VmClaims.w_mem w_pg1 (v / 1024))). }
  split; [vm_compute; reflexivity|]. split; [|done]. unfold upages. apply frames_none. intros v Hv. apply elem_of_range in Hv.
  rewrite Hp; [done|]. rewrite NUSER_eq in Hv. rewrite NPAGES_eq. lia.
Qed.

Lemma w_all_pages : all_pages VmClaims.w_mem (procs w_table) = [w_stack0; w_pg; w_tab; w_page; w_stack1; w_pg1].
Proof.
  destruct w_pages1 as (H1 & H2 & _).
  assert (Hu : forall n, all_pages VmClaims.w_mem (replicate n unused_proc) = []) by (intros n; induction n; [done|assumption]).
  unfold all_pages in *. change (procs w_table) with (w_parent :: w_zombie :: replicate 62 unused_proc). rewrite !fmap_cons. cbn [concat]. rewrite (Hu 62%nat).
  unfold proc_pages, owned. rewrite !decide_False by done. simpl p_kstack. simpl p_pgdir. rewrite H1, H2, w_tables, w_upages. done.
Qed.

Lemma w_mem_ok : mem_ok w_end w_table w_free [].
Proof.
  destruct w_pages1 as (_ & _ & H3).
  split; simpl km; simpl k_mem; rewrite ?w_all_pages.
  - apply w_kmem.
  - apply (bool_decide_unpack _). vm_compute. exact I.
  - repeat constructor; vm_compute; congruence.
  - intros x Hx Hl. apply elem_of_cons in Hx as [->|Hx]; [|apply elem_of_cons in Hx as [->|Hx]].
    + split; [vm_compute; split; congruence|]. intros v Hv. simpl p_pgdir. rewrite w_pte by (rewrite NPAGES_eq; rewrite NUSER_eq in Hv; lia).
      change (npages (p_sz w_parent)) with 1. destruct (Z.eqb_spec v 0) as [->|Hne]; [vm_compute; reflexivity|].
      symmetry. apply Z.ltb_ge. lia.
    + split; [vm_compute; split; congruence|]. intros v Hv. simpl p_pgdir. rewrite H3 by (rewrite NPAGES_eq; rewrite NUSER_eq in Hv; lia).
      change (npages (p_sz w_zombie)) with 0. symmetry. apply Z.ltb_ge. lia.
    + apply elem_of_replicate in Hx as [-> _]. done.
Qed.

Lemma w_kcaller : kcaller w_kernel_state 0 w_cpu 0 w_parent.
Proof. split; [|done]. split; [done|]. simpl. split; [lia|by left]. Qed.

Lemma w_ftable_ok : ftable_ok w_kernel_state [0%nat].
Proof.
  split; [done|]. split; [done| |repeat constructor; unfold NFILE; lia|simpl; lia].
  intros [|f] x Hx; [by simplify_eq/=|]. simpl in Hx. change (file0 :: _) with (replicate 99 file0) in Hx.
  apply lookup_replicate in Hx as [-> _]. done.
Qed.
