(* ===== verification/Process.v ===== *)
(** The life of a process (src/proc.c): the first process, [fork], [exit],
    [wait], [growproc], and the first steps of a new process ([forkret]).

    [fork] copies the user pages in kernel memory.  [exit] gives up the CPU for
    good; [wait] sleeps until a child exits, and [envs] is what the other
    processes do meanwhile. *)

From S2P Require Import Prelude StringC Spinlock Kalloc Ptable Signal Sleeplock Pipe Block Bio Log Layer Fs File Pages Vm VmSpec VmFree VmOps VmCopy ProcMem Exec.

(* src/mmu.h:5-5 FL_IF *)
Definition FL_IF : Z := 512.
(* src/mmu.h:53-53 DPL_USER *)
Definition DPL_USER : Z := 3.
Definition USER_CS : Z := 27.   (* (SEG_UCODE << 3) | DPL_USER *)
Definition USER_DS : Z := 35.   (* (SEG_UDATA << 3) | DPL_USER *)

(** The trap frame of the first process. *)
Definition init_tf : trapframe :=
  Trapframe 0 0 0 0 0 0 0 0 0 0 USER_DS USER_DS 0 0 0 USER_CS FL_IF PGSIZE USER_DS.

Definition set_eax (v : Z) (t : trapframe) : trapframe :=
  Trapframe (tf_edi t) (tf_esi t) (tf_ebp t) (tf_oesp t) (tf_ebx t) (tf_edx t) (tf_ecx t) v
    (tf_gs t) (tf_fs t) (tf_es t) (tf_ds t) (tf_trapno t) (tf_err t) (tf_eip t) (tf_cs t) (tf_eflags t) (tf_esp t) (tf_ss t).

(** The string "initcode". *)
Definition initcode_name : list Z := [105; 110; 105; 116; 99; 111; 100; 101].

Section process.
Context {B : Type} {OB : BlockOps B} {TB : TxnOps B}.
Variable kend kdata trapret forkret_pc : Z.
Context (devsw_read : Z -> option (nat -> Z -> M (fsst B) (Z * list Z))).
Local Abbreviation K := (M (kst B)).

Definition inMach {A} (m : M machine A) : K A := inPt (zoom mach_of m).

(** [init_start] and [init_size] are the image of initcode in the kernel. *)

(* src/proc.c:149-189 userinit *)
Definition userinit (init_start init_size : Z) : K unit :=
  r <- inPt (allocproc trapret forkret_pc) ;;
  inPt (modify (set_initproc r)) ;;
  match r with
  | None => panic "null dereference"
  | Some p =>
      pg <- inKm (setupkvm kend kdata) ;;
      inPt (setp p (set_pgdir pg)) ;;
      if pg =? 0 then panic "userinit: out of memory?"
      else
        inKm (inituvm pg init_start init_size) ;;
        inPt (setp p (set_sz PGSIZE)) ;;
        inPt (setp p (set_tf init_tf)) ;;
        inPt (setp p (fun x => set_name (copy_name (p_name x) initcode_name) x)) ;;
        d <- inFs (namei devsw_read 0 [47]) ;;
        inPt (setp p (set_cwd d)) ;;
        inMach pushcli ;;
        b <- inPt (cas p EMBRYO RUNNABLE) ;;
        if negb b then panic "assert p->state == EMBRYO violated"
        else inMach popcli
  end.

(** The new pages of a process that grows show up in its memory. *)
Definition show_new (oldsz pgdir : Z) : K unit :=
  modify (fun s => set_ku (set_um (fun va =>
    if va <? PGROUNDUP oldsz then um (ku s) va else ubyte (k_mem (km (pt (ku s)))) pgdir va) (ku s)) s).

(* src/proc.c:191-209 growproc *)
Definition growproc (n : Z) : K Z :=
  p <- inPt curproc ;;
  sz0 <- inPt (getp p p_sz) ;;
  pg <- inPt (getp p p_pgdir) ;;
  sz <- (if 0 <? n then inKm (allocuvm kend pg sz0 (u32 (sz0 + n)))
         else if n <? 0 then inKm (deallocuvm kend pg sz0 (u32 (sz0 + n)))
         else ret sz0) ;;
  if negb (n =? 0) && (sz =? 0) then ret (-1)
  else
    inPt (setp p (set_sz sz)) ;;
    inPt (switchuvm p) ;;
    (if 0 <? n then show_new sz0 pg else ret tt) ;;
    ret 0.

(* src/proc.c:237-239 fork *)
Definition fork_files (p np : nat) : K unit :=
  for_each (seq 0 NOFILE) (fun i =>
    f <- inPt (getp p (fun x => nth i (p_ofile x) None)) ;;
    match f with
    | None => ret tt
    | Some f =>
        f <- filedup f ;;
        inPt (setp np (fun x => set_ofile (<[i := Some f]> (p_ofile x)) x))
    end).

(** Before the kernel reads the pages of the current process, they are brought
    up to date with its memory. *)
Definition flush_user (p : nat) : K unit := fun s =>
  let x := proc_at (pt (ku s)) p in
  inKm (modify (fun k => set_mem (flushed (k_mem k) (um (ku s)) (p_pgdir x) (p_sz x)) k)) s.

(* src/proc.c:211-265 fork *)
Definition fork : K Z :=
  p <- inPt curproc ;;
  flush_user p ;;
  r <- inPt (allocproc trapret forkret_pc) ;;
  match r with
  | None => ret (-1)
  | Some np =>
      pg <- inPt (getp p p_pgdir) ;;
      sz <- inPt (getp p p_sz) ;;
      npg <- inKm (copyuvm kend kdata pg sz) ;;
      inPt (setp np (set_pgdir npg)) ;;
      if npg =? 0 then
        ks <- inPt (getp np p_kstack) ;;
        inKm (kfree kend ks) ;;
        inPt (setp np (set_kstack 0)) ;;
        inPt (cas_ np EMBRYO UNUSED) ;;
        ret (-1)
      else
        inPt (setp np (set_sz sz)) ;;
        inPt (setp np (set_parent (Some p))) ;;
        tf <- inPt (getp p p_tf) ;;
        (* Clear %eax so that fork returns 0 in the child. *)
        inPt (setp np (set_tf (set_eax 0 tf))) ;;
        fork_files p np ;;
        cwd <- inPt (getp p p_cwd) ;;
        (match cwd with
         | None => panic "null dereference"
         | Some d => d <- inFs (idup d) ;; inPt (setp np (set_cwd (Some d)))
         end) ;;
        name <- inPt (getp p p_name) ;;
        inPt (setp np (fun x => set_name (copy_name (p_name x) name) x)) ;;
        pid <- inPt (getp np p_pid) ;;
        mask <- inPt (getp p p_mask) ;;
        inPt (setp np (set_mask mask)) ;;
        hs <- inPt (getp p p_handlers) ;;
        inPt (setp np (set_handlers hs)) ;;
        inMach pushcli ;;
        b <- inPt (cas np EMBRYO RUNNABLE) ;;
        if negb b then panic "assert p->state == EMBRYO violated"
        else inMach popcli ;; ret pid
  end.

Definition parent_chan (x : option nat) : channel := match x with Some p => ProcChan p | None => NoChan end.

(* src/proc.c:276-282 exit *)
Definition exit_files (p : nat) : K unit :=
  for_each (seq 0 NOFILE) (fun fd =>
    f <- inPt (getp p (fun x => nth fd (p_ofile x) None)) ;;
    match f with
    | None => ret tt
    | Some f => fileclose kend f ;; inPt (setp p (fun x => set_ofile (<[fd := None]> (p_ofile x)) x))
    end).

(** Abandoned children go to init. *)

(* src/proc.c:299-306 exit *)
Definition reparent (p : nat) : K unit :=
  ip <- inPt (gets initproc) ;;
  for_each (seq 0 NPROC) (fun q =>
    pa <- inPt (getp q p_parent) ;;
    if decide (pa = Some p) then
      inPt (setp q (set_parent ip)) ;;
      st <- inPt (getp q p_state) ;;
      if decide (st = ZOMBIE \/ st = NEG_ZOMBIE) then inPt (wakeup1 (parent_chan ip)) else ret tt
    else ret tt).

(* src/proc.c:267-313 exit *)
Definition exit : K unit :=
  p <- inPt curproc ;;
  ip <- inPt (gets initproc) ;;
  if decide (ip = Some p) then panic "init exiting"
  else
    exit_files p ;;
    begin_op_ ;;
    cwd <- inPt (getp p p_cwd) ;;
    (match cwd with
     | None => panic "null dereference"
     | Some d => inFs (iput d)
     end) ;;
    end_op_ ;;
    inPt (setp p (set_cwd None)) ;;
    inMach pushcli ;;
    inPt (cas_ p RUNNING NEG_ZOMBIE) ;;
    pa <- inPt (getp p p_parent) ;;
    inPt (wakeup1 (parent_chan pa)) ;;
    reparent p ;;
    inPt sched ;;
    panic "zombie exit".

(** The inner [while]: another CPU may still be on the stack of a child that is
    NEG_ZOMBIE, then the caller spins. *)

(* src/proc.c:330-349 wait *)
Definition reap (q : nat) : K (option Z) :=
  b1 <- inPt (cas q NEG_ZOMBIE NEG_ZOMBIE) ;;
  if b1 : bool then wait
  else
    b <- inPt (cas q ZOMBIE NEG_UNUSED) ;;
    if negb b then ret None
    else
      pid <- inPt (getp q p_pid) ;;
      ks <- inPt (getp q p_kstack) ;;
      inKm (kfree kend ks) ;;
      inPt (setp q (set_kstack 0)) ;;
      pg <- inPt (getp q p_pgdir) ;;
      inKm (freevm kend pg) ;;
      inPt (setp q (set_pid 0)) ;;
      inPt (setp q (set_parent None)) ;;
      inPt (setp q (fun x => set_name (<[0%nat := 0]> (p_name x)) x)) ;;
      inPt (setp q (set_killed false)) ;;
      c <- inPt (cas q NEG_UNUSED UNUSED) ;;
      if negb c then panic "assert p->state==UNUSED is violated"
      else inMach popcli ;; ret (Some pid).

(** The scan of the table: the pid of a reaped child, and whether there are
    children. *)

(* src/proc.c:325-350 wait *)
Fixpoint wait_scan (p : nat) (l : list nat) (havekids : bool) : K (option Z * bool) :=
  match l with
  | [] => ret (None, havekids)
  | q :: l' =>
      pa <- inPt (getp q p_parent) ;;
      if decide (pa <> Some p) then wait_scan p l' havekids
      else
        r <- reap q ;;
        match r with
        | Some pid => ret (Some pid, true)
        | None => wait_scan p l' true
        end
  end.

(* src/proc.c:322-359 wait *)
Fixpoint wait_loop (p : nat) (envs : list (kst B -> kst B)) : K Z :=
  r <- wait_scan p (seq 0 NPROC) false ;;
  match r with
  | (Some pid, _) => ret pid
  | (None, havekids) =>
      killed <- inPt (getp p p_killed) ;;
      if negb havekids || killed then inMach popcli ;; ret (-1)
      else
        match envs with
        | [] => sleep kpt_of (ProcChan p) None ;; ret 0
        | e :: envs' => sleep_turn kpt_of (ProcChan p) None e ;; wait_loop p envs'
        end
  end.

(* src/proc.c:315-360 wait *)
Definition wait_ (envs : list (kst B -> kst B)) : K Z :=
  p <- inPt curproc ;;
  inMach pushcli ;;
  wait_loop p envs.

(** [first] is the static flag of [forkret]; the result is its new value. *)

(* src/proc.c:462-491 forkret *)
Definition forkret (first : bool) : K bool :=
  inMach popcli ;;
  (if first then inFs (iinit ROOTDEV) ;; inFs (zoom fb_of (bl_init ROOTDEV)) else ret tt) ;;
  ret false.
End process.
