(* ===== verification/ProcSpec.v ===== *)
(** What [growproc], [fork] and [wait] do to the processes and to the memory of
    the machine. *)

From S2P Require Import Prelude StringC Spinlock Kalloc Ptable Signal Sleeplock Pipe Block Bio Log Layer Fs Args File FileSpec Pages Vm VmSpec VmFree VmOps VmCopy VmClaims ProcMem Exec KState ProcWit Process.

#[local] Opaque range.

Section grow.
Context {B : Type} {OB : BlockOps B} {TB : TxnOps B}.
Variable kend : Z.
Hypothesis Hend : KERNBASE < kend.
Local Abbreviation K := (M (kst B)).

(** The state after a system call of process [p] that changes its slot, its
    memory and the page allocator, and nothing else. *)
Record own_step (s s' : kst B) (i p : nat) (x' : proc) : Prop := {
  os_rest : exists u, s' = set_ku u s;
  os_procs : procs (kpt s') = <[p := x']> (procs (kpt s));
  os_caller : exists c', kcaller s' i c' p x';
}.

Lemma live_nonzero q ps R p x : mem_ok kend q ps R -> procs q !! p = Some x -> p_state x <> UNUSED ->
  p_kstack x <> 0 /\ p_pgdir x <> 0.
Proof.
  intros Hm Hx Hl. pose proof (mem_dir kend q ps R p x Hm Hx Hl) as Hd. pose proof (do_valid _ _ _ _ _ Hd) as Hv.
  rewrite Forall_forall in Hv.
  assert (H : forall g, valid_page kend g -> g <> 0) by (intros g (_ & _ & Hg) ->; unfold KERNBASE in Hg; lia).
  split; apply H, Hv; clear; cnt_solve.
Qed.

(** The last steps of [growproc]; [U] is the memory that the process then sees. *)
Lemma grow_finish s i c p x ps R sz (k : K Z) r U :
  kcaller s i c p x -> mem_ok kend (putp p (set_sz sz x) (kpt s)) ps R -> p_state x <> UNUSED ->
  (forall s1, k s1 = Ok r (set_ku (set_um (U (km (kpt s1)) (um (ku s1))) (ku s1)) s1)) ->
  exists s', (inPt (setp p (set_sz sz)) ;; inPt (switchuvm p) ;; k) s = Ok r s' /\
    own_step s s' i p (set_sz sz x) /\ mem_ok kend (kpt s') ps R /\ km (kpt s') = km (kpt s) /\
    um (ku s') = U (km (kpt s)) (um (ku s)).
Proof.
  intros (Hc & Hp & Hx) Hm Hl Hk. rewrite (bind_ksetp p _ x) by done.
  assert (Hy : procs (putp p (set_sz sz x) (kpt s)) !! p = Some (set_sz sz x)).
  { apply putp_lookup. by eapply lookup_lt_Some. }
  destruct (live_nonzero _ _ _ _ _ Hm Hy Hl) as [Hks Hpg].
  destruct (switchuvm_ok (putp p (set_sz sz x) (kpt s)) i c p _ Hc Hy Hks Hpg) as (m & cr & e & H & c' & Hc' & Hn' & Hp' & _).
  erewrite bind_inPt by (exact H). rewrite Hk. eexists. split; [done|]. split; [|split; [|done]].
  - split; [eexists; reflexivity|done|]. exists c'. split; [done|]. split; [congruence|done].
  - by apply (mem_ok_eq kend (putp p (set_sz sz x) (kpt s))).
Qed.

Lemma keep_um (s : kst B) : set_ku (set_um (um (ku s)) (ku s)) s = s.
Proof. by destruct s as [[] ?]. Qed.

(** What a process sees after it has grown: its bytes, then zeros. *)
Lemma show_new_zero k pg oldsz newsz U va : 0 <= oldsz <= newsz -> newsz < KERNBASE ->
  (forall v, npages oldsz <= v < npages newsz -> zero_page (k_mem k) (pte (k_mem k) pg v)) ->
  0 <= va < PGROUNDUP newsz ->
  (if va <? PGROUNDUP oldsz then U va else ubyte (k_mem k) pg va) = if va <? PGROUNDUP oldsz then U va else 0.
Proof.
  intros Ho Hn Hz Hva. rewrite !PGROUNDUP_pages in * by lia. destruct (Z.ltb_spec va (npages oldsz * 4096)); [done|].
  unfold ubyte. apply (zp_zero _ _ (Hz (va / 4096) ltac:(zsolve))). unfold in_page, PGSIZE. zsolve.
Qed.

(** The result of [growproc(n)]: [x'] is the process afterwards, [U] and [U'] its
    memory before and afterwards. *)
Inductive grow_result (ps : list Z) (x : proc) (n : Z) (U U' : memory) : Z -> proc -> Prop :=
| grow_more : 0 < n -> p_sz x + n < KERNBASE ->
    (forall va, 0 <= va < PGROUNDUP (p_sz x + n) -> U' va = if va <? PGROUNDUP (p_sz x) then U va else 0) ->
    grow_result ps x n U U' 0 (set_sz (p_sz x + n) x)
| grow_fails : 0 < n -> KERNBASE <= p_sz x + n \/ Z.of_nat (length ps) <= npages (p_sz x + n) - npages (p_sz x) + 1024 -> U' = U -> grow_result ps x n U U' (-1) x
| grow_less : n <= 0 -> 0 <= p_sz x + n -> U' = U -> grow_result ps x n U U' 0 (set_sz (p_sz x + n) x)
| grow_too_much_less : n < 0 -> p_sz x + n < 0 -> 0 < p_sz x -> U' = U -> grow_result ps x n U U' 0 x
| grow_nothing_left : n < 0 -> p_sz x = 0 -> U' = U -> grow_result ps x n U U' (-1) x.

Lemma set_sz_same x : set_sz (p_sz x) x = x.
Proof. by destruct x. Qed.

(** [growproc] after the first three lines. *)
Definition grow_body (p : nat) (n sz0 pg : Z) : K Z :=
  sz <- (if 0 <? n then inKm (allocuvm kend pg sz0 (u32 (sz0 + n)))
         else if n <? 0 then inKm (deallocuvm kend pg sz0 (u32 (sz0 + n)))
         else ret sz0) ;;
  if negb (n =? 0) && (sz =? 0) then ret (-1)
  else
    inPt (setp p (set_sz sz)) ;;
    inPt (switchuvm p) ;;
    (if 0 <? n then show_new sz0 pg else ret tt) ;;
    ret 0.

Section body.
Context (s : kst B) (i p : nat) (c : cpu) (x : proc) (ps R : list Z).
Hypothesis Hs : kcaller s i c p x.
Hypothesis Hl : p_state x <> UNUSED.
Hypothesis Hm : mem_ok kend (kpt s) ps R.

Definition grown_to (n : Z) : Prop :=
  exists r s' x' ps', grow_body p n (p_sz x) (p_pgdir x) s = Ok r s' /\ own_step s s' i p x' /\ mem_ok kend (kpt s') ps' R /\
    grow_result ps x n (um (ku s)) (um (ku s')) r x'.

Lemma body_size : 0 <= p_sz x < KERNBASE.
Proof. destruct Hs as (_ & _ & Hx). apply (mm_space _ _ _ _ Hm x); [by eapply list_elem_of_lookup_2|done]. Qed.

(** Only the allocator and the pages have changed. *)
Lemma own_step_km k' : own_step s (with_pt (set_km k' (kpt s)) s) i p x /\ kcaller (with_pt (set_km k' (kpt s)) s) i c p x.
Proof.
  assert (H : kcaller (with_pt (set_km k' (kpt s)) s) i c p x) by apply Hs.
  split; [|done]. split; [by eexists| |by exists c]. destruct Hs as (_ & _ & Hx). simpl. by rewrite list_insert_id.
Qed.

Lemma own_step_fails k' ps' n : (forall U, grow_result ps x n U U (-1) x) -> mem_ok kend (set_km k' (kpt s)) ps' R ->
  grow_body p n (p_sz x) (p_pgdir x) s = Ok (-1) (with_pt (set_km k' (kpt s)) s) -> grown_to n.
Proof.
  intros Hn Hk H. exists (-1), (with_pt (set_km k' (kpt s)) s), x, ps'. split; [done|].
  by split; [apply own_step_km|].
Qed.

Lemma grow_up n : 0 < n < 2147483648 -> grown_to n.
Proof.
  intros Hn. pose proof Hs as (_ & _ & Hx). pose proof body_size as Hsz.
  destruct (Z.leb_spec KERNBASE (p_sz x + n)) as [Hbig|Hok].
  { apply (own_step_fails (km (kpt s)) ps); [intros U; by apply grow_fails; [lia|by left|]|by apply (mem_ok_eq kend (kpt s))|].
    unfold grow_body. rewrite (proj2 (Z.ltb_lt 0 n)) by lia. rewrite u32_id by (unfold KERNBASE in *; lia).
    erewrite bind_inKm by (unfold allocuvm; rewrite (proj2 (Z.leb_le _ _) Hbig); reflexivity).
    by rewrite (proj2 (Z.eqb_neq n 0)) by lia. }
  destruct (grow_mem kend Hend (kpt s) ps R p x (p_sz x + n) Hm Hx Hl ltac:(lia)) as (r & k' & ps' & E & _ & H).
  assert (Eb : grow_body p n (p_sz x) (p_pgdir x) s = (if negb (n =? 0) && (r =? 0) then ret (-1)
    else inPt (setp p (set_sz r)) ;; inPt (switchuvm p) ;; show_new (p_sz x) (p_pgdir x) ;; ret 0) (with_pt (set_km k' (kpt s)) s)).
  { unfold grow_body. rewrite (proj2 (Z.ltb_lt 0 n)) by lia. rewrite u32_id by (unfold KERNBASE in *; lia).
    by erewrite bind_inKm by (exact E). }
  rewrite (proj2 (Z.eqb_neq n 0)) in Eb by lia. destruct H as [(-> & Hm2 & Hz)|(-> & Hm2 & Hshort)].
  - rewrite (proj2 (Z.eqb_neq (p_sz x + n) 0)) in Eb by lia.
    destruct (grow_finish (with_pt (set_km k' (kpt s)) s) i c p x ps' R (p_sz x + n)
      (show_new (p_sz x) (p_pgdir x) ;; ret 0) 0
      (fun k U va => if va <? PGROUNDUP (p_sz x) then U va else ubyte (k_mem k) (p_pgdir x) va))
      as (s' & H & [(u & ->) O2 O3] & Hm' & _ & Hu); [done|done|done|done|].
    eexists 0, _, (set_sz (p_sz x + n) x), ps'. split; [rewrite Eb; exact H|]. split; [split; [by eexists|done|done]|].
    split; [done|]. apply grow_more; [lia|done|]. intros va Hva. rewrite Hu.
    by apply (show_new_zero _ _ _ (p_sz x + n)); [lia|..].
  - by apply (own_step_fails k' ps'); [intros U; apply grow_fails; [lia|by right|done]|..].
Qed.

(** The last lines after shrinking to [sz]. *)
Lemma shrink_finish k' sz ps' n r : n <= 0 -> n = 0 \/ r <> 0 -> r = sz ->
  mem_ok kend (putp p (set_sz sz x) (set_km k' (kpt s))) ps' R ->
  grow_body p n (p_sz x) (p_pgdir x) s = (if negb (n =? 0) && (r =? 0) then ret (-1)
    else inPt (setp p (set_sz r)) ;; inPt (switchuvm p) ;; ret tt ;; ret 0) (with_pt (set_km k' (kpt s)) s) ->
  (forall U, grow_result ps x n U U 0 (set_sz sz x)) -> grown_to n.
Proof.
  intros Hn Hr -> Hm2 Eb Hg.
  destruct (grow_finish (with_pt (set_km k' (kpt s)) s) i c p x ps' R sz (ret tt ;; ret 0) 0 (fun _ U => U))
    as (s' & H & [(u & ->) O2 O3] & Hm' & _ & Hu); [apply own_step_km|done|done|intros s2; by rewrite keep_um|].
  eexists 0, _, (set_sz sz x), ps'. split; [rewrite Eb|split; [split; [by eexists|done|done]|split; [done|]]].
  - destruct (Z.eqb_spec n 0) as [|Hn0]; [exact H|]. destruct (Z.eqb_spec sz 0) as [Hz|_]; [by destruct Hr|exact H].
  - simpl in Hu. simpl ku. by rewrite Hu.
Qed.

Lemma grow_down n : -2147483648 <= n <= 0 -> n = 0 \/ p_sz x + n <> 0 -> grown_to n.
Proof.
  intros Hn Hne. pose proof Hs as (_ & _ & Hx). pose proof body_size as Hsz.
  assert (Hpos : (0 <? n) = false) by (apply Z.ltb_ge; lia).
  assert (Hsame : mem_ok kend (putp p (set_sz (p_sz x) x) (set_km (km (kpt s)) (kpt s))) ps R).
  { apply (mem_ok_eq kend (kpt s)); [done| |done]. simpl. rewrite set_sz_same. by rewrite list_insert_id. }
  destruct (Z.ltb_spec n 0) as [Hneg|Hz].
  - destruct (Z.ltb_spec (p_sz x + n) 0) as [Hun|Hok].
    + assert (Eb : grow_body p n (p_sz x) (p_pgdir x) s = (if negb (n =? 0) && (p_sz x =? 0) then ret (-1)
        else inPt (setp p (set_sz (p_sz x))) ;; inPt (switchuvm p) ;; ret tt ;; ret 0) (with_pt (set_km (km (kpt s)) (kpt s)) s)).
      { unfold grow_body. rewrite Hpos, (proj2 (Z.ltb_lt n 0)) by lia. erewrite bind_inKm; [reflexivity|].
        unfold deallocuvm. rewrite (proj2 (Z.leb_le _ _)); [done|]. unfold u32, KERNBASE in *. zsolve. }
      destruct (Z.eqb_spec (p_sz x) 0) as [Hz|Hz].
      * apply (own_step_fails (km (kpt s)) ps); [intros U; by apply grow_nothing_left|by apply (mem_ok_eq kend (kpt s))|].
        rewrite Eb. by rewrite (proj2 (Z.eqb_neq n 0)) by lia.
      * apply (shrink_finish (km (kpt s)) (p_sz x) ps n (p_sz x)); [lia|by right|done|done| |].
        { rewrite Eb. by rewrite (proj2 (Z.eqb_neq (p_sz x) 0)) by lia. }
        { intros U. rewrite set_sz_same. apply grow_too_much_less; (done || lia). }
    + destruct (shrink_mem kend Hend (kpt s) ps R p x (p_sz x + n) Hm Hx Hl ltac:(lia)) as (k' & ps' & E & _ & Hm2 & _).
      apply (shrink_finish k' (p_sz x + n) ps' n (p_sz x + n)); [lia|lia|done|done| |].
      * unfold grow_body. rewrite Hpos, (proj2 (Z.ltb_lt n 0)), u32_id by (unfold KERNBASE in *; lia).
        by erewrite bind_inKm by (exact E).
      * intros U. apply grow_less; (done || lia).
  - apply (shrink_finish (km (kpt s)) (p_sz x) ps n (p_sz x)); [lia|lia|done|done| |].
    + unfold grow_body. rewrite Hpos, (proj2 (Z.ltb_ge n 0)) by lia. rewrite bind_ret.
      assert (n = 0) as -> by lia. simpl. unfold with_pt, kpt. by destruct s as [[[] ?] ?].
    + intros U. replace (set_sz (p_sz x) x) with (set_sz (p_sz x + n) x) by (f_equal; lia). apply grow_less; (done || lia).
Qed.

(** Shrinking to nothing. *)
Lemma grow_to_zero : 0 < p_sz x -> exists k' ps',
  grow_body p (- p_sz x) (p_sz x) (p_pgdir x) s = Ok (-1) (with_pt (set_km k' (kpt s)) s) /\
  mem_ok kend (putp p (set_sz 0 x) (set_km k' (kpt s))) ps' R /\
  ps' ≡ₚ upages (k_mem (km (kpt s))) (p_pgdir x) ++ ps.
Proof.
  intros Hsz0. pose proof Hs as (_ & _ & Hx). pose proof body_size as Hsz.
  destruct (shrink_mem kend Hend (kpt s) ps R p x 0 Hm Hx Hl ltac:(lia)) as (k' & ps' & E & _ & Hm2 & Hp).
  exists k', ps'. split; [|split; [done|]].
  - unfold grow_body. rewrite (proj2 (Z.ltb_ge 0 (- p_sz x))), (proj2 (Z.ltb_lt (- p_sz x) 0)) by lia.
    replace (p_sz x + - p_sz x) with 0 by lia. erewrite bind_inKm by (exact E).
    by rewrite (proj2 (Z.eqb_neq (- p_sz x) 0)) by lia.
  - rewrite (space_upages _ x); [exact Hp|]. apply (mm_space _ _ _ _ Hm); [by eapply list_elem_of_lookup_2|done].
Qed.
End body.

(** The first lines of [growproc]. *)
Lemma grow_start s i c p x n : kcaller s i c p x -> exists m c',
  growproc kend n s = grow_body p n (p_sz x) (p_pgdir x) (with_pt (set_mach m (kpt s)) s) /\
  kcaller (with_pt (set_mach m (kpt s)) s) i c' p x.
Proof.
  intros Hs. unfold growproc. destruct (bind_kcurproc s i c p x Hs) as (m & c' & E & _ & Hs1 & _).
  exists m, c'. rewrite E. clear E. pose proof Hs1 as (_ & _ & Hx). by rewrite !(bind_getp p _ x).
Qed.


(** Shrinking to nothing goes wrong.  [growproc(-sz)] frees all user pages of
    the process but takes the size 0 that [deallocuvm] returns for a failure: it
    returns -1, the process keeps its old size although none of its pages is
    mapped any more, and the page table is not reloaded. *)
Theorem growproc_to_zero_fails (s : kst B) i c p x ps R :
  kcaller s i c p x -> p_state x = RUNNING -> mem_ok kend (kpt s) ps R -> 0 < p_sz x ->
  exists s' ps', growproc kend (- p_sz x) s = Ok (-1) s' /\ procs (kpt s') !! p = Some x /\
    kmem_ok kend (km (kpt s')) ps' /\ ps' ≡ₚ upages (k_mem (km (kpt s))) (p_pgdir x) ++ ps /\
    (forall v, 0 <= v < NUSER -> present (pte (k_mem (km (kpt s'))) (p_pgdir x) v) = false) /\
    cr3 (kpt s') = cr3 (kpt s) /\ ~ mem_ok kend (kpt s') ps' R.
Proof.
  intros Hs Hst Hm Hsz. destruct (grow_start s i c p x (- p_sz x) Hs) as (m & c' & E & Hs1).
  assert (Hm1 : mem_ok kend (kpt (with_pt (set_mach m (kpt s)) s)) ps R) by (by apply (mem_ok_eq kend (kpt s))).
  assert (Hl : p_state x <> UNUSED) by congruence. pose proof Hs1 as (_ & _ & Hx).
  destruct (grow_to_zero _ i p c' x ps R Hs1 Hl Hm1 Hsz) as (k' & ps' & E2 & Hm2 & Hp). rewrite E, E2.
  assert (Hnone : forall v, 0 <= v < NUSER -> present (pte (k_mem k') (p_pgdir x) v) = false).
  { intros v Hv. pose proof (mm_space _ _ _ _ Hm2 (set_sz 0 x)) as [_ Hpg]; [|done|].
    - apply (list_elem_of_lookup_2 _ p), (putp_lookup p). by eapply lookup_lt_Some.
    - simpl in Hpg. rewrite Hpg by done. change (npages 0) with 0. apply Z.ltb_ge. lia. }
  do 2 eexists. split; [done|]. split; [done|]. split; [apply (mm_kmem _ _ _ _ Hm2)|]. split; [done|].
  split; [done|]. split; [done|]. intros [_ _ _ Hbad]. destruct (Hbad x) as [Hs0 Hpg]; [by eapply list_elem_of_lookup_2|done|].
  assert (H0 : 0 <= 0 < NUSER) by (rewrite NUSER_eq; lia). specialize (Hpg 0 H0). simpl in Hpg. rewrite Hnone in Hpg by done.
  symmetry in Hpg. apply Z.ltb_ge in Hpg. unfold npages in Hpg. zsolve.
Qed.
End grow.


Lemma growproc_to_zero_fails_witness :
  exists s', growproc w_end (-4096) w_kernel_state = Ok (-1) s' /\ procs (kpt s') !! 0%nat = Some w_parent.
Proof.
  destruct (growproc_to_zero_fails w_end w_end_ok w_kernel_state 0 w_cpu 0 w_parent w_free [] w_kcaller eq_refl w_mem_ok)
    as (s' & ps' & H & Hx & _); [simpl; lia|]. exists s'. split; [exact H|exact Hx].
Defined.
