(* ===== verification/ProcWait.v ===== *)
(** What [wait] does: it takes down the first zombie child, gives back all of its
    memory and returns its pid; without children it returns -1; it sleeps while
    there are children but no zombie. *)

From S2P Require Import Prelude StringC Spinlock Kalloc Ptable Signal Sleeplock Pipe Block Bio Log Layer Fs Args File FileSpec Pages Vm VmSpec VmFree VmOps VmCopy VmClaims ProcMem Exec KState ProcWit Process.

#[local] Opaque range.

(** The slot of a process that has been waited for. *)
Definition reaped (z : proc) : proc :=
  set_state UNUSED (set_killed false (set_name (<[0%nat := 0]> (p_name z)) (set_parent None (set_pid 0
    (set_kstack 0 (set_state NEG_UNUSED z)))))).

Definition dead (z : proc) : Prop := p_state z = ZOMBIE \/ p_state z = NEG_ZOMBIE.
Definition dead_child (p : nat) (z : proc) : Prop := p_parent z = Some p /\ dead z.

#[export] Instance dead_dec z : Decision (dead z).
Proof. unfold dead. apply _. Defined.
#[export] Instance dead_child_dec p z : Decision (dead_child p z).
Proof. unfold dead_child. apply _. Defined.

Section wait.
Context {B : Type} {OB : BlockOps B} {TB : TxnOps B}.
Variable kend : Z.
Hypothesis Hend : KERNBASE < kend.
Local Abbreviation K := (M (kst B)).

Lemma reap_skip (s : kst B) j z : procs (kpt s) !! j = Some z -> ~ dead z -> reap kend j s = Ok None s.
Proof.
  intros Hz Hd. unfold dead in Hd. rewrite <- (with_pt_id s), <- (putp_id j z (kpt s)) by done.
  fold (slot s j (kpt s) z). pose proof (lookup_lt_Some _ _ _ Hz) as Hj. unfold reap.
  rewrite slot_cas_miss by (done || tauto). rewrite slot_cas_miss by (done || tauto). done.
Qed.

(** [popcli] after [pushcli]. *)
Lemma bind_popcli {C} (k : K C) (s : kst B) i c : running (mach (kpt s)) i c -> iflag (mach (kpt s)) = false -> 1 <= ncli c ->
  exists m, (inMach popcli ;; k) s = k (with_pt (set_mach m (kpt s)) s) /\ running m i (popped c) /\
    iflag m = (ncli c =? 1) && intena c.
Proof.
  intros Hr Hf Hn. destruct (z_pop (kpt s) i c Hr Hf Hn) as (m & H & Hr' & Hf'). exists m. split; [|done].
  unfold inMach. by rewrite (bind_inPt _ _ _ _ _ H).
Qed.

(** The nesting after a matching [popcli]. *)
Lemma pop_pushed k m i c : cpu_ok k i c -> running m i (popped (pushed c (iflag k))) ->
  iflag m = (ncli (pushed c (iflag k)) =? 1) && intena (pushed c (iflag k)) -> same_cpu k m i c.
Proof.
  intros (Hr & Hn & Hf) Hr' Hf'. simpl in Hf'. assert (Hif : iflag m = iflag k).
  { rewrite Hf'. destruct (Z.eqb_spec (ncli c) 0) as [Hz|Hz]; [by rewrite Hz|]. destruct Hf as [|Hf]; [lia|].
    rewrite Hf. destruct (Z.eqb_spec (ncli c + 1) 1); [lia|done]. }
  eexists. split; [split; [exact Hr'|]|]; simpl; rewrite ?Hif; [split; [lia|]|split; [lia|done]].
  destruct Hf; [left; lia|by right].
Qed.

Lemma reap_zombie (s : kst B) i c j z ps R : procs (kpt s) !! j = Some z -> p_state z = ZOMBIE -> mem_ok kend (kpt s) ps R ->
  running (mach (kpt s)) i c -> iflag (mach (kpt s)) = false -> 1 <= ncli c ->
  exists k2 m ps', reap kend j s = Ok (Some (p_pid z)) (with_pt (set_mach m (putp j (reaped z) (set_km k2 (kpt s)))) s) /\
    running m i (popped c) /\ iflag m = (ncli c =? 1) && intena c /\
    mem_ok kend (putp j (reaped z) (set_km k2 (kpt s))) ps' R /\ ps' ≡ₚ proc_pages (k_mem (km (kpt s))) z ++ ps.
Proof.
  intros Hz Hst Hm Hr Hf Hn. pose proof (lookup_lt_Some _ _ _ Hz) as Hj. set (q := kpt s) in *.
  destruct (reap_mem kend Hend q ps R j z (reaped z) Hm Hz ltac:(congruence) eq_refl) as (k1 & k2 & ps' & E1 & E2 & Hm' & _ & Hp).
  assert (Hs : s = slot s j q z) by (unfold slot; rewrite putp_id by done; symmetry; apply with_pt_id).
  assert (Hj1 : (j < length (procs (set_km k1 q)))%nat) by done. assert (Hj2 : (j < length (procs (set_km k2 q)))%nat) by done.
  destruct (bind_popcli (ret (Some (p_pid z))) (slot s j (set_km k2 q) (reaped z)) i c Hr Hf Hn) as (m & Hpop & Hm1 & Hm2).
  exists k2, m, ps'. split; [|done]. rewrite Hs at 1. unfold reap. rewrite slot_cas_miss by (done || congruence).
  rewrite slot_cas by done. cbv iota beta. change (negb true) with false. cbv iota. rewrite !slot_getp by done.
  change (p_kstack (set_state NEG_UNUSED z)) with (p_kstack z). rewrite (slot_inKm s j q _ _ _ _ _ E1).
  rewrite slot_setp, slot_getp by done. change (p_pgdir _) with (p_pgdir z).
  rewrite (slot_inKm s j (set_km k1 q) _ _ _ _ _ E2). change (set_km k2 (set_km k1 q)) with (set_km k2 q).
  rewrite !slot_setp by done. rewrite slot_cas by done. cbv iota beta. change (negb true) with false. cbv iota. exact Hpop.
Qed.

(** The scan stops at the first dead child. *)
Lemma wait_scan_skip (s : kst B) p n : forall j hk, (forall k z, (j <= k < j + n)%nat -> procs (kpt s) !! k = Some z -> ~ dead_child p z) ->
  (j + n <= length (procs (kpt s)))%nat -> forall l,
  exists hk', wait_scan kend p (seq j n ++ l) hk s = wait_scan kend p l hk' s /\
    (hk' = true <-> hk = true \/ exists k z, (j <= k < j + n)%nat /\ procs (kpt s) !! k = Some z /\ p_parent z = Some p).
Proof.
  induction n as [|n IH]; intros j hk Hnone Hlen l.
  { exists hk. split; [done|]. split; [by left|]. intros [H|(k & z & Hk & _)]; [done|lia]. }
  simpl seq. simpl app. destruct (lookup_lt_is_Some_2 (procs (kpt s)) j) as [z Hz]; [lia|].
  assert (Hgo : forall b, (b = true <-> hk = true \/ p_parent z = Some p) ->
    wait_scan kend p (j :: seq (S j) n ++ l) hk s = wait_scan kend p (seq (S j) n ++ l) b s ->
    exists hk', wait_scan kend p (j :: seq (S j) n ++ l) hk s = wait_scan kend p l hk' s /\
    (hk' = true <-> hk = true \/ exists k z, (j <= k < j + S n)%nat /\ procs (kpt s) !! k = Some z /\ p_parent z = Some p)).
  { intros b Hb E. destruct (IH (S j) b) with (l := l) as (hk' & E' & Hiff); [intros k y Hk; apply Hnone; lia|lia|].
    exists hk'. split; [by rewrite E|]. rewrite Hiff, Hb. split.
    - intros [[?|Hpar]|(k & y & Hk & Hy)]; [by left|right; exists j, z; split; [lia|done]|right; exists k, y; split; [lia|done]].
    - intros [?|(k & y & Hk & Hy & Hpar)]; [tauto|]. destruct (decide (k = j)) as [->|]; [simplify_eq; tauto|].
      right. exists k, y. split; [lia|done]. }
  cbn [wait_scan] in Hgo |- *. rewrite (bind_getp j _ z) in Hgo by done. rewrite (bind_getp j _ z) by done. case_decide as Hpar.
  - apply (Hgo hk); [|done]. tauto.
  - apply (Hgo true); [tauto|].
    assert (Hnd : ~ dead z) by (intros Hd; apply (Hnone j z); [lia|done|done]).
    by rewrite (bind_ok _ _ _ _ _ (reap_skip s j z Hz Hnd)).
Qed.

(** The scan of the whole table. *)
Lemma wait_scan_all (s : kst B) i c p ps R : length (procs (kpt s)) = NPROC -> mem_ok kend (kpt s) ps R ->
  running (mach (kpt s)) i c -> iflag (mach (kpt s)) = false -> 1 <= ncli c ->
  match list_find (dead_child p) (procs (kpt s)) with
  | None => exists hk, wait_scan kend p (seq 0 NPROC) false s = Ok (None, hk) s /\
      (hk = true <-> exists z, z ∈ procs (kpt s) /\ p_parent z = Some p)
  | Some (j, z) => p_state z = ZOMBIE ->
      exists k2 m ps', wait_scan kend p (seq 0 NPROC) false s =
          Ok (Some (p_pid z), true) (with_pt (set_mach m (putp j (reaped z) (set_km k2 (kpt s)))) s) /\
        running m i (popped c) /\ iflag m = (ncli c =? 1) && intena c /\
        mem_ok kend (putp j (reaped z) (set_km k2 (kpt s))) ps' R /\ ps' ≡ₚ proc_pages (k_mem (km (kpt s))) z ++ ps
  end.
Proof.
  intros Hlen Hm Hr Hf Hn. destruct (list_find (dead_child p) (procs (kpt s))) as [[j z]|] eqn:Hfind.
  - intros Hst. apply list_find_Some in Hfind as (Hz & [Hpar _] & Hbefore). pose proof (lookup_lt_Some _ _ _ Hz) as Hj.
    destruct (wait_scan_skip s p j 0 false) with (l := seq j (NPROC - j)) as (hk & E & _).
    { intros k y Hk Hy. apply (Hbefore k y Hy). lia. }
    { lia. }
    assert (Eseq : seq 0 NPROC = seq 0 j ++ seq j (NPROC - j)).
    { replace NPROC with (j + (NPROC - j))%nat at 1 by lia. apply seq_app. }
    rewrite <- Eseq in E.
    destruct (reap_zombie s i c j z ps R Hz Hst Hm Hr Hf Hn) as (k2 & m & ps' & E2 & H).
    exists k2, m, ps'. split; [|done]. rewrite E. replace (NPROC - j)%nat with (S (NPROC - S j)) by lia. cbn [seq wait_scan].
    rewrite (bind_getp j _ z), decide_False by (done || tauto). by rewrite (bind_ok _ _ _ _ _ E2).
  - apply list_find_None in Hfind. rewrite Forall_lookup in Hfind.
    destruct (wait_scan_skip s p NPROC 0 false) with (l := @nil nat) as (hk & E & Hiff); [intros k y Hk Hy; by apply (Hfind k)|lia|].
    rewrite app_nil_r in E. exists hk. split; [exact E|]. rewrite Hiff. split.
    + intros [?|(k & y & _ & Hy & Hpar)]; [done|]. exists y. split; [by eapply list_elem_of_lookup_2|done].
    + intros (y & Hy & Hpar). right. apply list_elem_of_lookup in Hy as [k Hy]. exists k, y. split; [|done].
      apply lookup_lt_Some in Hy. lia.
Qed.

(** C13: [wait] reaps.  When a child of the caller is a ZOMBIE (and no child
    earlier in the table is still leaving the CPU) [wait] returns the pid of the
    first such child, whose slot becomes UNUSED; its kernel stack, its page
    directory, its page tables and its pages all go back to the allocator, and
    no other page changes hands.  Without any child, or when the caller has been
    killed, it returns -1 and changes nothing.  The interrupt nesting is as
    before. *)
Theorem wait_reaps (s : kst B) i c p x ps R envs :
  kcaller s i c p x -> length (procs (kpt s)) = NPROC -> mem_ok kend (kpt s) ps R ->
  match list_find (dead_child p) (procs (kpt s)) with
  | Some (j, z) => p_state z = ZOMBIE ->
      exists s' ps', wait_ kend envs s = Ok (p_pid z) s' /\ procs (kpt s') = <[j := reaped z]> (procs (kpt s)) /\
        same_cpu (mach (kpt s)) (mach (kpt s')) i c /\
        mem_ok kend (kpt s') ps' R /\ ps' ≡ₚ proc_pages (k_mem (km (kpt s))) z ++ ps
  | None => (forall z, z ∈ procs (kpt s) -> p_parent z <> Some p) \/ p_killed x = true ->
      exists m, wait_ kend envs s = Ok (-1) (with_pt (set_mach m (kpt s)) s) /\ same_cpu (mach (kpt s)) m i c
  end.
Proof.
  intros Hs Hlen Hm. unfold wait_. destruct (bind_kcurproc s i c p x Hs) as (m & c1 & E & Hsame & Hs1 & Hn1). rewrite E. clear E.
  set (s1 := with_pt (set_mach m (kpt s)) s) in *. pose proof Hs1 as ((Hr1 & Hnc & Hfl) & Hp1 & Hx1).
  destruct (z_push (kpt s1) i c1 Hr1) as (m2 & Hpush & Hr2 & Hf2).
  unfold inMach. rewrite (bind_inPt _ _ _ _ _ Hpush). set (s2 := with_pt (set_mach m2 (kpt s1)) s1).
  assert (Hm2 : mem_ok kend (kpt s2) ps R) by (by apply (mem_ok_eq kend (kpt s))).
  pose proof (wait_scan_all s2 i _ p ps R Hlen Hm2 Hr2 Hf2 ltac:(simpl; lia)) as Hscan.
  assert (Hback : forall m3, running m3 i (popped (pushed c1 (iflag (mach (kpt s1))))) ->
    iflag m3 = (ncli (pushed c1 (iflag (mach (kpt s1)))) =? 1) && intena (pushed c1 (iflag (mach (kpt s1)))) ->
    same_cpu (mach (kpt s)) m3 i c).
  { intros m3 Hr3 Hf3. destruct Hsame as (c0 & _ & _ & _ & Hif). destruct Hs as (_ & Hcp & _).
    destruct (pop_pushed (mach (kpt s1)) m3 i c1) as (c3 & Hc3 & Hn3 & Hp3 & Hf3'); [done..|].
    exists c3. split; [done|]. split; [congruence|]. split; [congruence|]. rewrite Hf3'. exact Hif. }
  change (procs (kpt s2)) with (procs (kpt s)) in Hscan. destruct (list_find (dead_child p) (procs (kpt s))) as [[j z]|].
  - intros Hst. destruct (Hscan Hst) as (k2 & m3 & ps' & E & Hr3 & Hf3 & Hm3 & Hp).
    eexists _, ps'. split; [destruct envs; cbn [wait_loop]; rewrite (bind_ok _ _ _ _ _ E); reflexivity|].
    split; [done|]. split; [by apply Hback|]. split; [|done].
    by apply (mem_ok_eq kend (putp j (reaped z) (set_km k2 (kpt s2)))).
  - destruct Hscan as (hk & E & Hiff). intros Hno.
    destruct (bind_popcli (ret (-1)) s2 i _ Hr2 Hf2 ltac:(simpl; lia)) as (m3 & Hpop & Hr3 & Hf3).
    exists m3. split; [|by apply Hback].
    assert (Eloop : wait_loop kend p envs s2 = (inMach popcli ;; ret (-1)) s2); [|by rewrite Eloop].
    assert (Hb : negb hk || p_killed x = true).
    { destruct Hno as [Hno| ->]; [|apply orb_true_r]. destruct hk; [|done]. destruct (proj1 Hiff eq_refl) as (z & Hz & Hpar).
      by destruct (Hno z Hz). }
    destruct envs; cbn [wait_loop]; rewrite (bind_ok _ _ _ _ _ E), (bind_getp p _ x) by done; by rewrite Hb.
Qed.
End wait.

Lemma wait_reaps_witness :
  exists s' ps', wait_ w_end [] w_kernel_state = Ok 2 s' /\ mem_ok w_end (kpt s') ps' [] /\
    ps' ≡ₚ [w_stack1; w_pg1] ++ w_free.
Proof.
  destruct (wait_reaps w_end w_end_ok w_kernel_state 0 w_cpu 0 w_parent w_free [] [] w_kcaller eq_refl w_mem_ok eq_refl)
    as (s' & ps' & H & _ & _ & Hm & Hp).
  exists s', ps'. split; [exact H|]. split; [exact Hm|]. rewrite Hp. unfold proc_pages. rewrite decide_False by done.
  unfold owned. destruct w_pages1 as (E1 & E2 & _). simpl k_mem. simpl p_pgdir. rewrite E1, E2. done.
Defined.
