(* ===== verification/ProcFork.v ===== *)
(** What [fork] does: the child has the parent's memory, registers, open files,
    directory and signal settings, in pages of its own; when anything is missing
    nothing is lost. *)

From S2P Require Import Prelude StringC Spinlock Kalloc Ptable Signal Sleeplock Pipe Block Bio Log Layer Fs Args File FileSpec Pages Vm VmSpec VmFree VmOps VmCopy VmClaims ProcMem Exec KState ProcWit Process.

#[local] Opaque range.

(** [allocproc], with the state it leaves. *)
Section alloc.
Variable kend trapret forkret_pc : Z.

Definition no_stack (pid : Z) (x : proc) : proc :=
  set_state UNUSED (set_kstack 0 (set_pid pid (set_mask 0 (set_pending 0 (set_handlers (replicate 32 SIG_DFL) (set_state EMBRYO x)))))).

Lemma allocproc_run q i c ps : length (procs q) = NPROC -> cpu_ok (mach q) i c -> kmem_ok kend (km q) ps ->
  let pid := s32 (nextpid q + 1) in
  exists m, same_cpu (mach q) m i c /\
  match list_find is_unused (procs q), ps with
  | None, _ => allocproc trapret forkret_pc q = Ok None (set_mach m q)
  | Some (np, x0), [] => allocproc trapret forkret_pc q = Ok None (putp np (no_stack pid x0) (set_nextpid pid (set_mach m q)))
  | Some (np, x0), page :: ps' => exists k2,
      allocproc trapret forkret_pc q = Ok (Some np)
        (putp np (embryo trapret forkret_pc pid page (k_mem (km q)) (set_state EMBRYO x0)) (set_nextpid pid (set_km k2 (set_mach m q)))) /\
      kmem_ok kend k2 ps' /\ k_mem k2 = stack_init trapret forkret_pc page (k_mem (km q))
  end.
Proof.
  intros Hl Hc Hk pid. unfold allocproc.
  destruct (alloc_claim q (fun r => match r with None => ret None | Some p => init_slot trapret forkret_pc p end) i c Hl Hc) as (m & Hm & E).
  exists m. split; [done|]. rewrite E. clear E.
  destruct (list_find is_unused (procs q)) as [[np x0]|] eqn:Hf; [|done]. simpl.
  apply list_find_Some in Hf as (Hp & _ & _). apply lookup_lt_Some in Hp.
  change (set_procs _ (set_mach m q)) with (putp np (set_state EMBRYO x0) (set_mach m q)).
  destruct ps as [|page ps].
  - by rewrite (init_slot_ok trapret forkret_pc (set_mach m q) np (set_state EMBRYO x0) Hp eq_refl 0 (km q) (kalloc_empty kend _ Hk)).
  - destruct (kalloc_list kend _ _ _ Hk) as (k' & Ha & Hk' & Hme). destruct (kmem_ok_head kend _ _ _ Hk) as [Hv Hnin].
    exists (set_mem (stack_init trapret forkret_pc page (k_mem k')) k').
    rewrite (init_slot_ok trapret forkret_pc (set_mach m q) np (set_state EMBRYO x0) Hp eq_refl page k' Ha).
    destruct (Z.eqb_spec page 0) as [->|_]; [by apply valid_page_nonzero in Hv|]. rewrite Hme.
    split; [done|]. split; [|done]. rewrite <- Hme. apply (kmem_ok_write kend k' ps page); [done..|]. intros y. apply stack_init_frame.
Qed.
End alloc.

Section fork.
Context {B : Type} {OB : BlockOps B} {TB : TxnOps B}.
Variable kend kdata trapret forkret_pc : Z.
Hypothesis Hend : KERNBASE < kend.
Hypothesis Hdata : kdata mod 4096 = 0 /\ KERNLINK < kdata < KERNBASE + PHYSTOP.
Local Abbreviation K := (M (kst B)).

(** ** The open files *)

Section files.
Context (s : kst B) (p np : nat) (q : pst) (x : proc).
Hypothesis Hnp : (np < length (procs q))%nat.
Hypothesis Hne : p <> np.
Hypothesis Hx : procs q !! p = Some x.
Hypothesis Hlen : length (p_ofile x) = NOFILE.
Hypothesis Hlock : ft_lock s = Unlocked.

Local Abbreviation at_ l y := (slot (set_files l s) np q y).

Lemma ofile_step j o : p_ofile x !! j = Some o -> forall n, (j + S n = NOFILE)%nat ->
  take (S j) (p_ofile x) ++ replicate n None = <[j := o]> (take j (p_ofile x) ++ replicate (S n) None).
Proof.
  intros Ho n Hn. rewrite (take_S_r _ _ o) by done. rewrite insert_app_r_alt by (rewrite length_take; lia).
  rewrite length_take, Nat.min_l, Nat.sub_diag by lia. simpl. by rewrite <- app_assoc.
Qed.

Lemma fork_files_loop n : forall j l y hs, (j + n = NOFILE)%nat ->
  p_ofile y = take j (p_ofile x) ++ replicate n None -> files_ok l hs ->
  (forall f, Some f ∈ p_ofile x -> f ∈ hs) -> Z.of_nat (length hs) + Z.of_nat n < 2147483648 ->
  exists l', for_each (seq j n) (fun i =>
      f <- inPt (getp p (fun x => nth i (p_ofile x) None)) ;;
      match f with
      | None => ret tt
      | Some f => f <- filedup f ;; inPt (setp np (fun x => set_ofile (<[i := Some f]> (p_ofile x)) x))
      end) (at_ l y) = Ok tt (at_ l' (set_ofile (p_ofile x) y)) /\
    files_ok l' (omap id (drop j (p_ofile x)) ++ hs).
Proof.
  induction n as [|n IH]; intros j l y hs Hj Hy Hf Hin Hb.
  { exists l. rewrite take_ge, app_nil_r in Hy by lia. rewrite drop_ge by lia. split; [|done].
    simpl. unfold ret. do 2 f_equal. rewrite <- Hy. by destruct y. }
  destruct (lookup_lt_is_Some_2 (p_ofile x) j) as [o Ho]; [lia|].
  simpl for_each. rewrite bind_assoc, (slot_other _ _ _ _ x) by done. rewrite (nth_lookup_Some _ _ _ _ Ho).
  rewrite (drop_S _ o) by done. simpl omap. destruct o as [f|]; simpl id; cbv iota.
  - destruct (filedup_ok (at_ l y) hs f) as (g & E & _ & [_ Hf']); [by split|apply Hin; by eapply list_elem_of_lookup_2|lia|].
    rewrite bind_assoc, (bind_ok _ _ _ _ _ E).
    change (set_files (alter g f (files (at_ l y))) (at_ l y)) with (at_ (alter g f l) y).
    rewrite slot_setp by done.
    destruct (IH (S j) (alter g f l) (set_ofile (<[j := Some f]> (p_ofile y)) y) (f :: hs)) as (l' & E' & Hok).
    + lia.
    + simpl. rewrite Hy. by rewrite (ofile_step j (Some f) Ho n) by lia.
    + done.
    + intros f' Hf''. right. by apply Hin.
    + simpl. lia.
    + exists l'. split; [exact E'|]. rewrite <- Permutation_middle in Hok. done.
  - rewrite bind_ret. apply IH; [lia| |done|done|lia].
    rewrite Hy. rewrite (ofile_step j None Ho n) by lia. rewrite list_insert_id; [done|].
    rewrite lookup_app_r by (rewrite length_take; lia). rewrite length_take, Nat.min_l, Nat.sub_diag by lia. done.
Qed.
End files.

(** ** The child *)

Lemma idup_ok (fs : fsst B) d : ic_lock fs = Unlocked ->
  idup d fs = Ok d (set_inodes (alter (fun n => set_i_ref (s32 (i_ref n + 1)) n) d (inodes fs)) fs).
Proof.
  intros H. unfold idup. rewrite bind_acquire by done. unfold seti, bind at 1, modify. rewrite bind_release by done.
  unfold ret. f_equal. destruct fs; simpl in *. by subst.
Qed.

(** The slot [y] of the new process after [fork]: [x] is the parent, in slot [p]. *)
Definition child (p : nat) (x y : proc) : proc :=
  set_state RUNNABLE (set_handlers (p_handlers x) (set_mask (p_mask x) (set_name (copy_name (p_name y) (p_name x))
    (set_cwd (p_cwd x) (set_ofile (p_ofile x) (set_tf (set_eax 0 (p_tf x)) (set_parent (Some p) (set_sz (p_sz x) y)))))))).

(** [fork] once the child has its address space. *)
Definition fork_child (p np : nat) (sz : Z) : K Z :=
  inPt (setp np (set_sz sz)) ;;
  inPt (setp np (set_parent (Some p))) ;;
  tf <- inPt (getp p p_tf) ;;
  inPt (setp np (set_tf (set_eax 0 tf))) ;;
  fork_files p np ;;
  cwd <- inPt (getp p p_cwd) ;;
  (match cwd with
   | None => panic "null dereference"
   | Some d => d <- inFs (idup d) ;; inPt (setp np (set_cwd (Some d)))
   end) ;;
  name <- inPt (getp p p_name) ;;
  inPt (setp np (fun x => set_name (copy_name (p_name x) name) x)) ;;
  pid <- inPt (getp np p_pid) ;;
  mask <- inPt (getp p p_mask) ;;
  inPt (setp np (set_mask mask)) ;;
  hs <- inPt (getp p p_handlers) ;;
  inPt (setp np (set_handlers hs)) ;;
  inMach pushcli ;;
  b <- inPt (cas np EMBRYO RUNNABLE) ;;
  if negb b then panic "assert p->state == EMBRYO violated"
  else inMach popcli ;; ret pid.

Section child.
Context (s : kst B) (p np : nat) (q : pst) (x y : proc) (i : nat) (c : cpu) (hs : list nat) (d : nat).
Hypothesis Hnp : (np < length (procs q))%nat.
Hypothesis Hne : p <> np.
Hypothesis Hx : procs q !! p = Some x.
Hypothesis Hlen : length (p_ofile x) = NOFILE.
Hypothesis Hft : ftable_ok s hs.
Hypothesis Hin : forall f, Some f ∈ p_ofile x -> f ∈ hs.
Hypothesis Hb : Z.of_nat (length hs) + Z.of_nat NOFILE < 2147483648.
Hypothesis Hic : ic_lock (fsys s) = Unlocked.
Hypothesis Hcwd : p_cwd x = Some d.
Hypothesis Hc : cpu_ok (mach q) i c.
Hypothesis Hy : p_state y = EMBRYO.
Hypothesis Hof : p_ofile y = replicate NOFILE None.

Lemma fork_child_ok : exists l' m,
  fork_child p np (p_sz x) (slot s np q y) =
    Ok (p_pid y) (slot (set_fsys (set_inodes (alter (fun n => set_i_ref (s32 (i_ref n + 1)) n) d (inodes (fsys s))) (fsys s)) (set_files l' s))
      np (set_mach m q) (child p x y)) /\
  files_ok l' (omap id (p_ofile x) ++ hs) /\ same_cpu (mach q) m i c.
Proof.
  destruct Hft as [Hlock Hfo].
  destruct (fork_files_loop s p np q x Hnp Hne Hx Hlen Hlock NOFILE 0 (files s)
    (set_tf (set_eax 0 (p_tf x)) (set_parent (Some p) (set_sz (p_sz x) y))) hs) as (l' & E & Hok); [done|done|done|done|done|].
  set (s2 := set_fsys (set_inodes (alter (fun n => set_i_ref (s32 (i_ref n + 1)) n) d (inodes (fsys s))) (fsys s)) (set_files l' s)).
  pose proof Hc as (Hr & Hn & Hf). destruct (push_pop_pair _ i c Hr Hn Hf) as (m1 & m2 & c2 & P1 & P2 & Hr2 & Hn2 & Hc2 & Hi2).
  exists l', m2. split; [|split; [done|exists c2; unfold cpu_ok; rewrite Hn2, Hi2; done]].
  unfold fork_child. rewrite !slot_setp by done. rewrite (slot_other _ _ _ _ x) by done. rewrite slot_setp by done.
  replace (slot s np q (set_tf (set_eax 0 (p_tf x)) (set_parent (Some p) (set_sz (p_sz x) y)))) with
    (slot (set_files (files s) s) np q (set_tf (set_eax 0 (p_tf x)) (set_parent (Some p) (set_sz (p_sz x) y)))) by (by destruct s).
  unfold fork_files. rewrite (bind_ok _ _ _ _ _ E). rewrite (slot_other _ _ _ _ x) by done. rewrite Hcwd. rewrite bind_assoc.
  erewrite bind_ok by (apply (zoom_ok fsys_of); by apply idup_ok).
  match goal with |- (_ ;; _) ?t = _ => change t with (slot s2 np q (set_ofile (p_ofile x) (set_tf (set_eax 0 (p_tf x)) (set_parent (Some p) (set_sz (p_sz x) y))))) end.
  rewrite slot_setp by done. rewrite (slot_other _ _ _ _ x) by done. rewrite slot_setp, slot_getp by done.
  rewrite (slot_other _ _ _ _ x) by done. rewrite slot_setp by done. rewrite (slot_other _ _ _ _ x) by done. rewrite slot_setp by done.
  unfold inMach. erewrite (slot_inPt _ _ _ _ _ tt (set_mach m1 q)) by (erewrite (zoom_ok mach_of) by (exact P1); reflexivity).
  rewrite slot_cas by done. change (negb true) with false. cbv iota.
  erewrite (slot_inPt _ _ _ _ _ tt (set_mach m2 q)) by (erewrite (zoom_ok mach_of) by (exact P2); reflexivity).
  unfold ret, child. by rewrite Hcwd.
Qed.
End child.

(** ** The whole of [fork] *)

(** [y] is a child of [x], the process in slot [p] that calls [fork] in [s]. *)
Record is_child (s s' : kst B) (p : nat) (x y : proc) : Prop := {
  ch_state : p_state y = RUNNABLE;
  ch_pid : p_pid y = s32 (nextpid (kpt s) + 1);
  ch_parent : p_parent y = Some p;
  ch_tf : p_tf y = set_eax 0 (p_tf x);
  ch_files : p_ofile y = p_ofile x /\ p_cwd y = p_cwd x;
  ch_signals : p_mask y = p_mask x /\ p_handlers y = p_handlers x /\ p_pending y = 0;
  ch_sz : p_sz y = p_sz x;
  ch_memory : forall va, 0 <= va < npages (p_sz x) * 4096 -> ubyte (k_mem (km (kpt s'))) (p_pgdir y) va = um (ku s) va;
  ch_flags : forall v, 0 <= v < npages (p_sz x) ->
    PTE_FLAGS (pte (k_mem (km (kpt s'))) (p_pgdir y) v) = PTE_FLAGS (pte (k_mem (km (kpt s))) (p_pgdir x) v);
  ch_context : load32 (k_mem (km (kpt s'))) (p_context y + 16) = u32 forkret_pc /\
    load32 (k_mem (km (kpt s'))) (p_context y + 20) = u32 trapret;
}.

(** [fork] from the call of [copyuvm] on. *)
Definition fork_copy (p np : nat) : K Z :=
  pg <- inPt (getp p p_pgdir) ;;
  sz <- inPt (getp p p_sz) ;;
  npg <- inKm (copyuvm kend kdata pg sz) ;;
  inPt (setp np (set_pgdir npg)) ;;
  if npg =? 0 then
    ks <- inPt (getp np p_kstack) ;;
    inKm (kfree kend ks) ;;
    inPt (setp np (set_kstack 0)) ;;
    inPt (cas_ np EMBRYO UNUSED) ;;
    ret (-1)
  else fork_child p np sz.

Section copy.
Context (s : kst B) (q : pst) (i : nat) (c : cpu) (p np : nat) (x x0 : proc) (page : Z) (ps R : list Z) (hs : list nat) (d : nat) (k2 : kstate) (m : machine).
Hypothesis Hm : mem_ok kend q (page :: ps) R.
Hypothesis Hx : procs q !! p = Some x.
Hypothesis Hlive : p_state x <> UNUSED.
Hypothesis Hx0 : procs q !! np = Some x0.
Hypothesis Hfree : p_state x0 = UNUSED.
Hypothesis Hk2 : kmem_ok kend k2 ps.
Hypothesis Hstack : k_mem k2 = stack_init trapret forkret_pc page (k_mem (km q)).
Hypothesis Hlen : length (p_ofile x) = NOFILE.
Hypothesis Hft : ftable_ok s hs.
Hypothesis Hin : forall f, Some f ∈ p_ofile x -> f ∈ hs.
Hypothesis Hb : Z.of_nat (length hs) + Z.of_nat NOFILE < 2147483648.
Hypothesis Hic : ic_lock (fsys s) = Unlocked.
Hypothesis Hcwd : p_cwd x = Some d.
Hypothesis Hof : p_ofile x0 = replicate NOFILE None.
Hypothesis Hc : cpu_ok m i c.

Local Abbreviation pid := (s32 (nextpid q + 1)).
Local Abbreviation q2 := (set_nextpid pid (set_km k2 (set_mach m q))).
Local Abbreviation y0 := (embryo trapret forkret_pc pid page (k_mem (km q)) (set_state EMBRYO x0)).

Lemma fork_copy_ok : exists r s' ps', fork_copy p np (slot s np q2 y0) = Ok r s' /\ mem_ok kend (kpt s') ps' R /\
  same_cpu m (mach (kpt s')) i c /\ um (ku s') = um (ku s) /\
  ((exists y, r = p_pid y /\ procs (kpt s') = <[np := y]> (procs q) /\ ftable_ok s' (omap id (p_ofile x) ++ hs) /\
      fsys s' = set_inodes (alter (fun n => set_i_ref (s32 (i_ref n + 1)) n) d (inodes (fsys s))) (fsys s) /\
      (exists dir, y = child p x (set_pgdir dir y0) /\ same_image (k_mem (km q)) (k_mem (km (kpt s'))) (p_pgdir x) dir (p_sz x)) /\
      kept [page] (k_mem k2) (k_mem (km (kpt s')))) \/
   (r = -1 /\ ps' ≡ₚ page :: ps /\ files s' = files s /\ fsys s' = fsys s /\
      (exists y, procs (kpt s') = <[np := y]> (procs q) /\ p_state y = UNUSED) /\ Z.of_nat (length ps) <= npages (p_sz x) + 1025)).
Proof.
  assert (Hne : p <> np) by (intros ->; simplify_eq; congruence).
  assert (Hnp : (np < length (procs q))%nat) by (by eapply lookup_lt_Some).
  assert (Ho2 : outside [page] (k_mem (km q)) (k_mem k2)).
  { intros a Ha. rewrite Hstack. apply stack_init_frame, Ha. by left. }
  unfold fork_copy. rewrite !(slot_other _ _ _ _ x) by done.
  destruct (fork_mem kend Hend kdata Hdata q page ps R p np x x0 k2 Hm Hx Hlive Hx0 Hfree Hk2 Ho2)
    as [(k3 & k4 & ps' & E3 & E4 & _ & Hp & Hm' & Hshort)|(dir & k3 & ps' & E3 & Hd0 & Hk3 & Himg & Hm')].
  - erewrite slot_inKm by (exact E3). rewrite slot_setp by done. change (0 =? 0) with true. cbv iota. rewrite slot_getp by done.
    erewrite slot_inKm by (exact E4). rewrite slot_setp by done. unfold cas_.
    erewrite (slot_inPt _ _ _ _ _ tt) by (erewrite bind_ok by (by apply cas_put_hit); reflexivity).
    eexists (-1), _, ps'. split; [reflexivity|]. split; [|split; [by exists c|split; [done|right]]].
    + match goal with |- mem_ok _ (kpt (slot _ _ _ ?y)) _ _ => by apply (mem_ok_eq kend (putp np y (set_km k4 q))), Hm' end.
    + do 4 (split; [done|]). split; [|done]. eexists. split; [reflexivity|done].
  - erewrite slot_inKm by (exact E3). rewrite slot_setp by done. rewrite (proj2 (Z.eqb_neq dir 0) Hd0).
    destruct (fork_child_ok s p np (set_km k3 q2) x (set_pgdir dir y0) i c hs d Hnp Hne Hx Hlen Hft Hin Hb Hic Hcwd Hc eq_refl Hof)
      as (l' & m' & E & Hfo & Hsame).
    exists (p_pid (set_pgdir dir y0)). eexists _, ps'. split; [exact E|]. split; [|split; [exact Hsame|split; [done|left]]].
    + by apply (mem_ok_eq kend (putp np (child p x (set_pgdir dir y0)) (set_km k3 q))), Hm'.
    + exists (child p x (set_pgdir dir y0)). split; [done|]. split; [done|]. split; [by split; [apply Hft|]|].
      split; [done|]. split; [by exists dir|]. intros g a Hg. apply Hk3. clear - Hg. cnt_solve.
Qed.
End copy.

(** The pages of the current process brought up to date. *)
Lemma flush_user_ok (s : kst B) p x : procs (kpt s) !! p = Some x ->
  flush_user p s = Ok tt (with_pt (set_km (set_mem (flushed (k_mem (km (kpt s))) (um (ku s)) (p_pgdir x) (p_sz x)) (km (kpt s))) (kpt s)) s).
Proof. intros Hx. unfold flush_user. change (pt (ku s)) with (kpt s). by rewrite (proc_at_lookup _ _ _ Hx). Qed.

Lemma fork_alloc (s : kst B) p x : procs (kpt s) !! p = Some x ->
  (r <- inPt (allocproc trapret forkret_pc) ;; match r with None => ret (-1) | Some np => fork_copy p np end) s =
  match allocproc trapret forkret_pc (kpt s) with
  | Ok None q => Ok (-1) (with_pt q s)
  | Ok (Some np) q => fork_copy p np (with_pt q s)
  | Panic msg => Panic msg
  | Wait q => Wait (with_pt q s)
  end.
Proof.
  intros Hx. unfold bind, inPt, zoom. change (view kpt_of s) with (kpt s).
  by destruct (allocproc trapret forkret_pc (kpt s)) as [[np|] q| |].
Qed.

Lemma mem_ok_unused q ps R np x0 y : mem_ok kend q ps R -> procs q !! np = Some x0 -> p_state x0 = UNUSED -> p_state y = UNUSED ->
  mem_ok kend (putp np y q) ps R.
Proof.
  intros Hm Hx0 H0 Hy. destruct (mem_ok_update kend q ps R np x0 y (km q) ps [] Hm Hx0) as (H & _); [apply Hm|done|..].
  - intros g Hg. by apply elem_of_nil in Hg.
  - unfold proc_pages. by rewrite !decide_True.
  - done.
  - by apply (mem_ok_eq kend (putp np y (set_km (km q) q))).
Qed.

Lemma child_of (s s2 s' : kst B) p x x0 page dir k2 : nextpid (kpt s2) = nextpid (kpt s) -> npages (p_sz x) <= NPAGES ->
  (forall v, 0 <= v < NPAGES -> pte (k_mem (km (kpt s2))) (p_pgdir x) v = pte (k_mem (km (kpt s))) (p_pgdir x) v) ->
  (forall va, 0 <= va < npages (p_sz x) * 4096 -> ubyte (k_mem (km (kpt s2))) (p_pgdir x) va = um (ku s) va) ->
  same_image (k_mem (km (kpt s2))) (k_mem (km (kpt s'))) (p_pgdir x) dir (p_sz x) ->
  k_mem k2 = stack_init trapret forkret_pc page (k_mem (km (kpt s2))) -> kept [page] (k_mem k2) (k_mem (km (kpt s'))) ->
  is_child s s' p x (child p x (set_pgdir dir
    (embryo trapret forkret_pc (s32 (nextpid (kpt s2) + 1)) page (k_mem (km (kpt s2))) (set_state EMBRYO x0)))).
Proof.
  intros Hpid Hnp Hpte Hbytes [I1 I2] Hstack Hkept. split; simpl; try done.
  - by rewrite Hpid.
  - intros va Hva. by rewrite I1, Hbytes.
  - intros v Hv. rewrite I2 by done. by rewrite Hpte by lia.
  - destruct (stack_init_context trapret forkret_pc page (k_mem (km (kpt s2)))) as [C1 C2]. cbv zeta in C1, C2.
    split; [rewrite <- C1|rewrite <- C2]; apply load32_ext; intros a Ha; rewrite <- Hstack; apply (Hkept page); try (by left);
      unfold in_page, PGSIZE, KSTACKSIZE, TF_SIZE, CONTEXT_SIZE in *; lia.
Qed.

End fork.

