(* ===== verification/Sysfile.v ===== *)
(** The file-system system calls (src/sysfile.c): argument checks, file
    descriptors, and the operations on names: link, unlink, create, open,
    mkdir, mknod, chdir, exec and pipe. *)

From S2P Require Import Prelude StringC Spinlock Kalloc Ptable Signal Sleeplock Pipe Block Bio Log Layer Fs Args File Pages Vm VmSpec VmFree VmOps VmCopy Exec.

(* src/fcntl.h:1-1 O_RDONLY *)
Definition O_RDONLY : Z := 0.
(* src/fcntl.h:2-2 O_WRONLY *)
Definition O_WRONLY : Z := 1.
(* src/fcntl.h:3-3 O_RDWR *)
Definition O_RDWR : Z := 2.
(* src/fcntl.h:4-4 O_CREATE *)
Definition O_CREATE : Z := 512.

Definition DOT : list Z := [46].
Definition DOTDOT : list Z := [46; 46].

Section sysfile.
Context {B : Type} {OB : BlockOps B} {TB : TxnOps B}.
Variable kend kdata : Z.
Context (devsw_read : Z -> option (nat -> Z -> M (fsst B) (Z * list Z))).
Context (devsw_write : Z -> option (nat -> list Z -> Z -> M (fsst B) Z)).
Local Abbreviation K := (M (kst B)).

Definition inU {A} (m : M ust A) : K A := zoom ku_of m.

(** The rest of a system call that needs an argument: it returns -1 without. *)
Definition need {A} (m : K (option A)) (k : A -> K Z) : K Z :=
  r <- m ;; match r with None => ret (-1) | Some a => k a end.

(** A string argument, as its bytes. *)
Definition argpath (n : Z) : K (option (list Z)) :=
  r <- inU (argstr n) ;;
  match r with
  | None => ret None
  | Some (a, len) => bs <- user_bytes a len ;; ret (Some bs)
  end.

(* src/sysfile.c:19-35 argfd *)
Definition argfd (n : Z) : K (option (nat * nat)) :=
  r <- inU (argint n) ;;
  match r with
  | None => ret None
  | Some fd =>
      if (fd <? 0) || (Z.of_nat NOFILE <=? fd) then ret None
      else
        p <- inPt curproc ;;
        f <- inPt (getp p (fun x => nth (Z.to_nat fd) (p_ofile x) None)) ;;
        ret (f ← f; Some (Z.to_nat fd, f))
  end.

(* src/sysfile.c:37-51 fdalloc *)
Definition fdalloc (f : nat) : K (option nat) :=
  p <- inPt curproc ;;
  l <- inPt (getp p p_ofile) ;;
  match list_find (fun o => o = None) l with
  | Some (fd, _) => inPt (setp p (fun x => set_ofile (<[fd := Some f]> (p_ofile x)) x)) ;; ret (Some fd)
  | None => ret None
  end.

Definition clear_fd (fd : nat) : K unit :=
  p <- inPt curproc ;;
  inPt (setp p (fun x => set_ofile (<[fd := None]> (p_ofile x)) x)).

(* src/sysfile.c:53-64 sys_dup *)
Definition sys_dup : K Z :=
  need (argfd 0) (fun '(_, f) =>
  need (fdalloc f) (fun fd =>
  filedup f ;;
  ret (Z.of_nat fd))).

(* src/sysfile.c:66-75 sys_read *)
Definition sys_read (envs : list (pipest -> pipest)) : K Z :=
  need (argfd 0) (fun '(_, f) =>
  need (inU (argint 2)) (fun n =>
  need (inU (argptr 1 n)) (fun p =>
  fileread devsw_read f p n envs))).

(* src/sysfile.c:77-86 sys_write *)
Definition sys_write (envs : list (pipest -> pipest)) : K Z :=
  need (argfd 0) (fun '(_, f) =>
  need (inU (argint 2)) (fun n =>
  need (inU (argptr 1 n)) (fun p =>
  filewrite devsw_write f p n envs))).

(* src/sysfile.c:88-98 sys_close *)
Definition sys_close : K Z :=
  need (argfd 0) (fun '(fd, f) =>
  clear_fd fd ;;
  fileclose kend f ;;
  ret 0).

(* src/sysfile.c:100-108 sys_fstat *)
Definition sys_fstat : K Z :=
  need (argfd 0) (fun '(_, f) =>
  need (inU (argptr 1 20)) (fun st =>
  filestat f st)).

Definition namei_at (path : list Z) : K (option nat) := namei_ devsw_read path.
Definition nameiparent_at (path : list Z) : K (option nat * list Z) :=
  d <- mycwd path ;; inFs (nameiparent devsw_read d path).

(* src/sysfile.c:150-156 sys_link *)
Definition link_bad (ip : nat) : K Z :=
  inFs (ilock ip) ;;
  inFs (seti ip (fun x => set_i_nlink (s16 (i_nlink x - 1)) x)) ;;
  inFs (iupdate ip) ;;
  inFs (iunlockput ip) ;;
  end_op_ ;;
  ret (-1).

(* src/sysfile.c:110-157 sys_link *)
Definition sys_link : K Z :=
  need (argpath 0) (fun old =>
  need (argpath 1) (fun new =>
  begin_op_ ;;
  r <- namei_at old ;;
  match r with
  | None => end_op_ ;; ret (-1)
  | Some ip =>
      inFs (ilock ip) ;;
      ty <- inFs (geti ip i_type) ;;
      if ty =? T_DIR then inFs (iunlockput ip) ;; end_op_ ;; ret (-1)
      else
        inFs (seti ip (fun x => set_i_nlink (s16 (i_nlink x + 1)) x)) ;;
        inFs (iupdate ip) ;;
        inFs (iunlock ip) ;;
        d <- nameiparent_at new ;;
        match d with
        | (None, _) => link_bad ip
        | (Some dp, name) =>
            inFs (ilock dp) ;;
            ddev <- inFs (geti dp i_dev) ;;
            idev <- inFs (geti ip i_dev) ;;
            inum <- inFs (geti ip i_inum) ;;
            r <- (if negb (ddev =? idev) then ret (-1) else inFs (dirlink devsw_read devsw_write dp name inum)) ;;
            if r <? 0 then inFs (iunlockput dp) ;; link_bad ip
            else
              inFs (iunlockput dp) ;;
              inFs (iput ip) ;;
              end_op_ ;;
              ret 0
        end
  end)).

(** One turn of the loop of [isdirempty]. *)

(* src/sysfile.c:165-170 isdirempty *)
Definition isdirempty_at (dp : nat) (off : Z) : M (fsst B) (option bool) :=
  r <- readi devsw_read dp off 16 ;;
  if negb (fst r =? 16) then panic "isdirempty: readi"
  else if negb (de_inum (snd r) =? 0) then ret (Some false) else ret None.

(* src/sysfile.c:159-172 isdirempty *)
Definition isdirempty (dp : nat) : M (fsst B) bool :=
  size <- geti dp i_size ;;
  r <- for_find (drop 2 (de_offs size)) (isdirempty_at dp) ;;
  ret (default true r).

(* src/sysfile.c:225-228 sys_unlink *)
Definition unlink_bad (dp : nat) : K Z := inFs (iunlockput dp) ;; end_op_ ;; ret (-1).

(** The entry has been found at [off]: clear it and drop the link. *)

(* src/sysfile.c:199-223 sys_unlink *)
Definition unlink_entry (dp ip : nat) (off : Z) : K Z :=
  inFs (ilock ip) ;;
  x <- inFs (geti ip id) ;;
  if i_nlink x <? 1 then panic "unlink: nlink < 1"
  else
    empty <- (if i_type x =? T_DIR then inFs (isdirempty ip) else ret true) ;;
    if negb empty then inFs (iunlockput ip) ;; unlink_bad dp
    else
      n <- inFs (writei devsw_write dp (replicate 16 0) off 16) ;;
      if negb (n =? 16) then panic "unlink: writei"
      else
        ty <- inFs (geti ip i_type) ;;
        (if ty =? T_DIR then
           inFs (seti dp (fun x => set_i_nlink (s16 (i_nlink x - 1)) x)) ;;
           inFs (iupdate dp)
         else ret tt) ;;
        inFs (iunlockput dp) ;;
        inFs (seti ip (fun x => set_i_nlink (s16 (i_nlink x - 1)) x)) ;;
        inFs (iupdate ip) ;;
        inFs (iunlockput ip) ;;
        end_op_ ;;
        ret 0.

(* src/sysfile.c:174-229 sys_unlink *)
Definition sys_unlink : K Z :=
  need (argpath 0) (fun path =>
  begin_op_ ;;
  d <- nameiparent_at path ;;
  match d with
  | (None, _) => end_op_ ;; ret (-1)
  | (Some dp, name) =>
      inFs (ilock dp) ;;
      (* Cannot unlink "." or "..". *)
      if (namecmp name DOT =? 0) || (namecmp name DOTDOT =? 0) then unlink_bad dp
      else
        r <- inFs (dirlookup devsw_read dp name) ;;
        match r with
        | None => unlink_bad dp
        | Some (ip, off) => unlink_entry dp ip off
        end
  end).

(** The new inode is made and entered in the directory; it stays locked. *)

(* src/sysfile.c:247-271 create *)
Definition create_new (dp : nat) (name : list Z) (type major minor : Z) : K (option nat) :=
  ddev <- inFs (geti dp i_dev) ;;
  ip <- inFs (ialloc ddev type) ;;
  inFs (ilock ip) ;;
  inFs (seti ip (set_i_majmin major minor)) ;;
  inFs (seti ip (set_i_nlink 1)) ;;
  inFs (iupdate ip) ;;
  inum <- inFs (geti ip i_inum) ;;
  (if type =? T_DIR then   (* Create . and .. entries. *)
     inFs (seti dp (fun x => set_i_nlink (s16 (i_nlink x + 1)) x)) ;;   (* for ".." *)
     inFs (iupdate dp) ;;
     dinum <- inFs (geti dp i_inum) ;;
     r1 <- inFs (dirlink devsw_read devsw_write ip DOT inum) ;;
     r2 <- (if r1 <? 0 then ret (-1) else inFs (dirlink devsw_read devsw_write ip DOTDOT dinum)) ;;
     if r2 <? 0 then panic "create dots" else ret tt
   else ret tt) ;;
  r <- inFs (dirlink devsw_read devsw_write dp name inum) ;;
  if r <? 0 then panic "create: dirlink"
  else inFs (iunlockput dp) ;; ret (Some ip).

(* src/sysfile.c:231-272 create *)
Definition create (path : list Z) (type major minor : Z) : K (option nat) :=
  d <- nameiparent_at path ;;
  match d with
  | (None, _) => ret None
  | (Some dp, name) =>
      inFs (ilock dp) ;;
      r <- inFs (dirlookup devsw_read dp name) ;;
      match r with
      | Some (ip, _) =>
          inFs (iunlockput dp) ;;
          inFs (ilock ip) ;;
          ty <- inFs (geti ip i_type) ;;
          if (type =? T_FILE) && (ty =? T_FILE) then ret (Some ip)
          else inFs (iunlockput ip) ;; ret None
      | None => create_new dp name type major minor
      end
  end.

(** The inode that [sys_open] opens, locked. *)

(* src/sysfile.c:284-302 sys_open *)
Definition open_inode (path : list Z) (omode : Z) : K (option nat) :=
  if truth (Z.land omode O_CREATE) then create path T_FILE 0 0
  else
    r <- namei_at path ;;
    match r with
    | None => ret None
    | Some ip =>
        inFs (ilock ip) ;;
        ty <- inFs (geti ip i_type) ;;
        if (ty =? T_DIR) && negb (omode =? O_RDONLY) then inFs (iunlockput ip) ;; ret None
        else ret (Some ip)
    end.

(* src/sysfile.c:274-321 sys_open *)
Definition sys_open : K Z :=
  need (argpath 0) (fun path =>
  need (inU (argint 1)) (fun omode =>
  begin_op_ ;;
  r <- open_inode path omode ;;
  match r with
  | None => end_op_ ;; ret (-1)
  | Some ip =>
      f <- filealloc ;;
      fd <- (match f with None => ret None | Some f => fdalloc f end) ;;
      match f, fd with
      | Some f, Some fd =>
          inFs (iunlock ip) ;;
          end_op_ ;;
          setf f (set_f_inode (negb (truth (Z.land omode O_WRONLY)))
                              (truth (Z.land omode O_WRONLY) || truth (Z.land omode O_RDWR)) ip 0) ;;
          ret (Z.of_nat fd)
      | _, _ =>
          close_opt kend f ;;
          inFs (iunlockput ip) ;;
          end_op_ ;;
          ret (-1)
      end
  end)).

(** The end of [sys_mkdir] and [sys_mknod]. *)
Definition finish_create (r : option nat) : K Z :=
  match r with
  | None => end_op_ ;; ret (-1)
  | Some ip => inFs (iunlockput ip) ;; end_op_ ;; ret 0
  end.

(* src/sysfile.c:323-336 sys_mkdir *)
Definition sys_mkdir : K Z :=
  begin_op_ ;;
  path <- argpath 0 ;;
  r <- (match path with None => ret None | Some path => create path T_DIR 0 0 end) ;;
  finish_create r.

(* src/sysfile.c:338-355 sys_mknod *)
Definition sys_mknod : K Z :=
  begin_op_ ;;
  path <- argpath 0 ;;
  major <- (match path with None => ret None | Some _ => inU (argint 1) end) ;;
  minor <- (match major with None => ret None | Some _ => inU (argint 2) end) ;;
  r <- (match path, major, minor with
        | Some path, Some major, Some minor => create path T_DEV (s16 major) (s16 minor)
        | _, _, _ => ret None
        end) ;;
  finish_create r.

(* src/sysfile.c:357-379 sys_chdir *)
Definition sys_chdir : K Z :=
  p <- inPt curproc ;;
  begin_op_ ;;
  path <- argpath 0 ;;
  r <- (match path with None => ret None | Some path => namei_at path end) ;;
  match r with
  | None => end_op_ ;; ret (-1)
  | Some ip =>
      inFs (ilock ip) ;;
      ty <- inFs (geti ip i_type) ;;
      if negb (ty =? T_DIR) then inFs (iunlockput ip) ;; end_op_ ;; ret (-1)
      else
        inFs (iunlock ip) ;;
        cwd <- inPt (getp p p_cwd) ;;
        (match cwd with None => panic "null dereference" | Some d => inFs (iput d) end) ;;
        end_op_ ;;
        inPt (setp p (set_cwd (Some ip))) ;;
        ret 0
  end.

(** The loop of [sys_exec] over the argument pointers from index [i]. *)

(* src/sysfile.c:391-403 sys_exec *)
Fixpoint fetch_args (fuel : nat) (uargv i : Z) : K (option (list (list Z))) :=
  match fuel with
  | O => ret None   (* i >= NELEM(argv) *)
  | S f =>
      r <- inU (fetchint (u32 (uargv + 4 * i))) ;;
      match r with
      | None => ret None
      | Some uarg =>
          if uarg =? 0 then ret (Some [])
          else
            a <- inU (fetchstr (u32 uarg)) ;;
            match a with
            | None => ret None
            | Some (addr, len) =>
                bs <- user_bytes addr len ;;
                rest <- fetch_args f uargv (i + 1) ;;
                ret (rest ← rest; Some (bs :: rest))
            end
      end
  end.

(* src/sysfile.c:381-405 sys_exec *)
Definition sys_exec : K Z :=
  need (argpath 0) (fun path =>
  need (inU (argint 1)) (fun uargv =>
  need (fetch_args (Z.to_nat MAXARG) (u32 uargv) 0) (fun argv =>
  exec kend kdata devsw_read path argv))).

(* src/sysfile.c:407-428 sys_pipe *)
Definition sys_pipe : K Z :=
  need (inU (argptr 0 8)) (fun fdp =>
  need (pipealloc kend) (fun '(rf, wf) =>
  fd0 <- fdalloc rf ;;
  fd1 <- (match fd0 with None => ret None | Some _ => fdalloc wf end) ;;
  match fd0, fd1 with
  | Some fd0, Some fd1 =>
      store_user fdp (word_bytes (Z.of_nat fd0)) ;;
      store_user (fdp + 4) (word_bytes (Z.of_nat fd1)) ;;
      ret 0
  | _, _ =>
      (match fd0 with Some fd => clear_fd fd | None => ret tt end) ;;
      fileclose kend rf ;;
      fileclose kend wf ;;
      ret (-1)
  end)).
End sysfile.
