(* ===== verification/Syscall.v ===== *)
(** System calls: the process-related calls of src/sysproc.c and the dispatcher
    [syscall] of src/syscall.c.

    Calls that sleep take what the other processes do meanwhile: [penvs] for
    pipes, [kenvs] for [wait] and [sleep]. *)

From S2P Require Import Prelude StringC Spinlock Kalloc Ptable Signal Sleeplock Pipe Block Bio Log Layer Fs Args File Pages Vm VmSpec VmFree VmOps VmCopy Exec Process Sysfile.

Section syscall.
Context {B : Type} {OB : BlockOps B} {TB : TxnOps B}.
Variable kend kdata trapret forkret_pc : Z.
Context (devsw_read : Z -> option (nat -> Z -> M (fsst B) (Z * list Z))).
Context (devsw_write : Z -> option (nat -> list Z -> Z -> M (fsst B) Z)).
Local Abbreviation K := (M (kst B)).

(* src/sysproc.c:10-13 sys_fork *)
Definition sys_fork : K Z := fork kend kdata trapret forkret_pc.

(* src/sysproc.c:15-19 sys_exit *)
Definition sys_exit : K Z := exit kend ;; ret 0.

(* src/sysproc.c:21-24 sys_wait *)
Definition sys_wait (kenvs : list (kst B -> kst B)) : K Z := wait_ kend kenvs.

(* src/sysproc.c:26-36 sys_kill *)
Definition sys_kill : K Z :=
  need (inU (argint 0)) (fun pid =>
  need (inU (argint 1)) (fun signum =>
  inPt (kill pid signum))).

(* src/sysproc.c:38-41 sys_getpid *)
Definition sys_getpid : K Z := p <- inPt curproc ;; inPt (getp p p_pid).

(* src/sysproc.c:43-54 sys_sbrk *)
Definition sys_sbrk : K Z :=
  need (inU (argint 0)) (fun n =>
  p <- inPt curproc ;;
  addr <- inPt (getp p p_sz) ;;
  r <- growproc kend n ;;
  if r <? 0 then ret (-1) else ret (s32 addr)).

(** The address of [ticks], on which [sleep] waits. *)
Variable ticks_addr : Z.

(* src/sysproc.c:64-76 sys_sleep *)
Fixpoint sleep_loop (ticks0 n : Z) (kenvs : list (kst B -> kst B)) : K Z :=
  t <- gets ticks ;;
  if u32 (t - ticks0) <? u32 n then
    p <- inPt curproc ;;
    x <- inPt (getp p id) ;;
    if p_killed x then lock_release tickslock_of ;; ret (-1)
    else if has_sig (p_pending x) SIGKILL then lock_release tickslock_of ;; ret 0
    else
      match kenvs with
      | [] => sleep kpt_of (Chan ticks_addr) (Some tickslock_of) ;; ret 0
      | e :: kenvs' => sleep_turn kpt_of (Chan ticks_addr) (Some tickslock_of) e ;; sleep_loop ticks0 n kenvs'
      end
  else lock_release tickslock_of ;; ret 0.

(* src/sysproc.c:56-77 sys_sleep *)
Definition sys_sleep (kenvs : list (kst B -> kst B)) : K Z :=
  need (inU (argint 0)) (fun n =>
  lock_acquire tickslock_of ;;
  ticks0 <- gets ticks ;;
  sleep_loop ticks0 n kenvs).

(* src/sysproc.c:79-89 sys_uptime *)
Definition sys_uptime : K Z :=
  lock_acquire tickslock_of ;;
  xticks <- gets ticks ;;
  lock_release tickslock_of ;;
  ret (s32 xticks).

(* src/sysproc.c:92-100 sys_sigprocmask *)
Definition sys_sigprocmask : K Z :=
  need (inU (argint 0)) (fun sigmask =>
  old <- inPt (sigprocmask (u32 sigmask)) ;;
  ret (s32 old)).

(* src/sysproc.c:103-120 sys_sigaction *)
Definition sys_sigaction : K Z :=
  need (inU (argint 0)) (fun signum =>
  need (inU (argptr 1 8)) (fun act =>
  need (inU (argptr 2 8)) (fun oldact =>
  inU (sigaction signum act oldact)))).

(* src/sysproc.c:122-126 sys_sigret *)
Definition sys_sigret : K Z := inPt sigret ;; ret 0.

(** The table of system calls. *)

(* src/syscall.c:130-155 syscalls *)
Definition syscalls (penvs : list (pipest -> pipest)) (kenvs : list (kst B -> kst B)) (num : Z) : option (K Z) :=
  match num with
  | 1 => Some sys_fork
  | 2 => Some sys_exit
  | 3 => Some (sys_wait kenvs)
  | 4 => Some (sys_pipe kend)
  | 5 => Some (sys_read devsw_read penvs)
  | 6 => Some sys_kill
  | 7 => Some (sys_exec kend kdata devsw_read)
  | 8 => Some sys_fstat
  | 9 => Some (sys_chdir devsw_read)
  | 10 => Some sys_dup
  | 11 => Some sys_getpid
  | 12 => Some sys_sbrk
  | 13 => Some (sys_sleep kenvs)
  | 14 => Some sys_uptime
  | 15 => Some (sys_open kend devsw_read devsw_write)
  | 16 => Some (sys_write devsw_write penvs)
  | 17 => Some (sys_mknod devsw_read devsw_write)
  | 18 => Some (sys_unlink devsw_read devsw_write)
  | 19 => Some (sys_link devsw_read devsw_write)
  | 20 => Some (sys_mkdir devsw_read devsw_write)
  | 21 => Some (sys_close kend)
  | 22 => Some sys_sigprocmask
  | 23 => Some sys_sigaction
  | 24 => Some sys_sigret
  | _ => None
  end.

(** The message about an unknown call is not part of the state. *)

(* src/syscall.c:157-170 syscall *)
Definition syscall (penvs : list (pipest -> pipest)) (kenvs : list (kst B -> kst B)) : K unit :=
  p <- inPt curproc ;;
  eax <- inPt (getp p (fun x => tf_eax (p_tf x))) ;;
  match syscalls penvs kenvs (s32 eax) with
  | Some call => r <- call ;; inPt (setp p (fun x => set_tf (set_eax (u32 r) (p_tf x)) x))
  | None => inPt (setp p (fun x => set_tf (set_eax 4294967295 (p_tf x)) x))
  end.
End syscall.
