(* ===== verification/Trap.v ===== *)
(** Traps (src/trap.c): the interrupt gates, and [trap], which dispatches system
    calls, device interrupts and faults, kills and preempts processes.

    The handlers of the devices, [ideintr], [kbdintr] and [uartintr], are
    parameters; acknowledging the interrupt at the local APIC has no effect on
    the state.  [resched] is what the CPU does between a [yield] and the return
    of the process: without one, the process has given up the CPU. *)

From S2P Require Import Prelude StringC Spinlock Kalloc Ptable Signal Sleeplock Pipe Block Bio Log Layer Fs Args File Pages Vm VmSpec VmFree VmOps VmCopy Exec Process Sysfile Syscall.

(* src/traps.h:27-27 T_SYSCALL *)
Definition T_SYSCALL : Z := 64.
(* src/traps.h:30-30 T_IRQ0 *)
Definition T_IRQ0 : Z := 32.
(* src/traps.h:32-32 IRQ_TIMER *)
Definition IRQ_TIMER : Z := 0.
(* src/traps.h:33-33 IRQ_KBD *)
Definition IRQ_KBD : Z := 1.
(* src/traps.h:34-34 IRQ_COM1 *)
Definition IRQ_COM1 : Z := 4.
(* src/traps.h:35-35 IRQ_IDE *)
Definition IRQ_IDE : Z := 14.
(* src/traps.h:37-37 IRQ_SPURIOUS *)
Definition IRQ_SPURIOUS : Z := 31.

(* src/mmu.h:147-158 gatedesc *)
Record gatedesc := Gatedesc {
  off_15_0 : Z; g_cs : Z; g_args : Z; g_rsv1 : Z; g_type : Z; g_s : Z; g_dpl : Z; g_p : Z; off_31_16 : Z;
}.

(* src/mmu.h:168-179 SETGATE *)
Definition SETGATE (istrap : bool) (sel off d : Z) : gatedesc :=
  Gatedesc (Z.land (u32 off) 65535) sel 0 0 (if istrap then 15 else 14) 0 d 1 (Z.shiftr (u32 off) 16).

(** [vectors] are the entry points that the build generates. *)

(* src/trap.c:17-25 tvinit *)
Definition tvinit (vectors : list Z) : list gatedesc :=
  <[Z.to_nat T_SYSCALL := SETGATE true 8 (nth (Z.to_nat T_SYSCALL) vectors 0) DPL_USER]>
    ((fun i => SETGATE false 8 (nth i vectors 0) 0) <$> seq 0 256).

Section trap.
Context {B : Type} {OB : BlockOps B} {TB : TxnOps B}.
Variable kend kdata trapret forkret_pc ticks_addr : Z.
Context (devsw_read : Z -> option (nat -> Z -> M (fsst B) (Z * list Z))).
Context (devsw_write : Z -> option (nat -> list Z -> Z -> M (fsst B) Z)).
Context (ideintr kbdintr uartintr : M (kst B) unit).
Local Abbreviation K := (M (kst B)).

(* src/trap.c:45-50 trap *)
Definition clock_tick : K unit :=
  lock_acquire tickslock_of ;;
  modify (fun s => set_ticks (u32 (ticks s + 1)) s) ;;
  inPt (wakeup (Chan ticks_addr)) ;;
  lock_release tickslock_of.

(** [myproc() && myproc()->killed && (tf->cs & 3) == DPL_USER], then [exit]. *)

(* src/trap.c:92-96 trap *)
Definition exit_if_killed (tf : trapframe) : K unit :=
  r <- inMach myproc ;;
  match r with
  | None => ret tt
  | Some p =>
      k <- inPt (getp p p_killed) ;;
      if k && (Z.land (tf_cs tf) 3 =? DPL_USER) then exit kend else ret tt
  end.

Definition yield_ (resched : option (kst B -> kst B)) : K unit := fun s =>
  match inPt yield s with
  | Wait s1 =>
      match resched with
      | None => Wait s1
      | Some e =>
          (saved <- inMach (mycpu_get intena) ;;
           modify e ;;
           inPt (yield_resume (default false saved))) s1
      end
  | r => r
  end.

(* src/trap.c:43-90 trap *)
Definition trap_dispatch (tf : trapframe) : K unit :=
  let n := tf_trapno tf in
  if n =? T_IRQ0 + IRQ_TIMER then
    id <- inMach cpuid ;;
    if (id =? 0)%nat then clock_tick else ret tt
  else if n =? T_IRQ0 + IRQ_IDE then ideintr
  else if n =? T_IRQ0 + IRQ_IDE + 1 then ret tt
  else if n =? T_IRQ0 + IRQ_KBD then kbdintr
  else if n =? T_IRQ0 + IRQ_COM1 then uartintr
  else if (n =? T_IRQ0 + 7) || (n =? T_IRQ0 + IRQ_SPURIOUS) then ret tt
  else
    r <- inMach myproc ;;
    match r with
    | None => panic "trap"
    | Some p =>
        if Z.land (tf_cs tf) 3 =? 0 then panic "trap"   (* In kernel, it must be our mistake. *)
        else inPt (setp p (set_killed true))            (* In user space, assume process misbehaved. *)
    end.

(* src/trap.c:32-107 trap *)
Definition trap (tf : trapframe) (penvs : list (pipest -> pipest)) (kenvs : list (kst B -> kst B))
  (resched : option (kst B -> kst B)) : K unit :=
  if tf_trapno tf =? T_SYSCALL then
    p <- inPt curproc ;;
    k <- inPt (getp p p_killed) ;;
    (if k : bool then exit kend else ret tt) ;;
    inPt (setp p (set_tf tf)) ;;
    syscall kend kdata trapret forkret_pc devsw_read devsw_write ticks_addr penvs kenvs
  else
    trap_dispatch tf ;;
    exit_if_killed tf ;;
    r <- inMach myproc ;;
    (match r with
     | None => ret tt
     | Some p =>
         st <- inPt (getp p p_state) ;;
         if bool_decide (st = RUNNING) && (tf_trapno tf =? T_IRQ0 + IRQ_TIMER) then yield_ resched else ret tt
     end) ;;
    exit_if_killed tf.
End trap.
