(* ===== verification/SyscallSpec.v ===== *)
(** What the system-call dispatcher does to the trap frame: unknown numbers, the
    return value, and the return value of [sigret], which is one too many. *)

From S2P Require Import Prelude StringC Spinlock Kalloc Ptable Signal Sleeplock Pipe Block Bio Log Layer Fs Args File Pages Vm VmSpec VmFree VmOps VmCopy VmClaims ProcMem Exec KState ProcWit Process Sysfile Syscall.

Section dispatch.
Context {B : Type} {OB : BlockOps B} {TB : TxnOps B}.
Variable kend kdata trapret forkret_pc ticks_addr : Z.
Context (devsw_read : Z -> option (nat -> Z -> M (fsst B) (Z * list Z))).
Context (devsw_write : Z -> option (nat -> list Z -> Z -> M (fsst B) Z)).
Local Abbreviation SYSCALL := (syscall kend kdata trapret forkret_pc devsw_read devsw_write ticks_addr).
Local Abbreviation CALLS := (syscalls kend kdata trapret forkret_pc devsw_read devsw_write ticks_addr).

(** The dispatcher on a known number: the call, then its value in [eax]. *)
Lemma syscall_known s i c p x penvs kenvs call :
  kcaller s i c p x -> CALLS penvs kenvs (s32 (tf_eax (p_tf x))) = Some call ->
  exists k, SYSCALL penvs kenvs s =
      (r <- call ;; inPt (setp p (fun x => set_tf (set_eax (u32 r) (p_tf x)) x))) (with_pt (set_mach k (kpt s)) s) /\
    same_cpu (mach (kpt s)) k i c.
Proof.
  intros (Hc & Hp & Hx) Hcall. destruct (curproc_ok (kpt s) i c p Hc Hp) as (k & H & Hk).
  exists k. split; [|done]. unfold syscall. rewrite (bind_inPt _ _ _ _ _ H).
  rewrite (bind_getp p _ x) by done. by rewrite Hcall.
Qed.

Lemma syscalls_known penvs kenvs num : is_Some (CALLS penvs kenvs num) <-> 0 < num < 25.
Proof.
  split.
  - intros [call H]. unfold syscalls in H. destruct num as [|q|q]; [done| |done].
    do 5 (destruct q as [q|q|]; simpl in H; try done; try lia).
  - intros H. assert (Hin : num ∈ range 1 24) by (apply elem_of_range; lia).
    revert Hin. clear H. generalize num. apply Forall_forall. repeat constructor; eauto.
Qed.

(** A call number that the table does not have returns -1 and does nothing
    else: every other register, the memory and the rest of the kernel's state
    stay as they are.  The numbers of the table are 1 to 24. *)
Theorem unknown_syscall s i c p x penvs kenvs :
  kcaller s i c p x -> ~ 0 < s32 (tf_eax (p_tf x)) < 25 ->
  exists k, SYSCALL penvs kenvs s =
      Ok tt (with_pt (putp p (set_tf (set_eax (u32 (-1)) (p_tf x)) x) (set_mach k (kpt s))) s) /\
    same_cpu (mach (kpt s)) k i c.
Proof.
  intros (Hc & Hp & Hx) Hn. destruct (curproc_ok (kpt s) i c p Hc Hp) as (k & H & Hk).
  exists k. split; [|done]. unfold syscall. rewrite (bind_inPt _ _ _ _ _ H).
  rewrite (bind_getp p _ x) by done.
  destruct (CALLS penvs kenvs _) as [call|] eqn:Hcall.
  { destruct Hn. apply (syscalls_known penvs kenvs). eauto. }
  by erewrite inPt_ok by (by apply setp_ok).
Qed.

(** [sigret] as a system call does not bring back the interrupted registers:
    the call's own return value 0 is stored in [eax] after the trap frame has
    been restored, so code interrupted by a signal finds 0 in [eax], whatever it
    had there.  All other registers and the mask are the saved ones. *)
Theorem sigret_loses_eax s i c p x penvs kenvs :
  kcaller s i c p x -> tf_eax (p_tf x) = 24 ->
  exists s' x', SYSCALL penvs kenvs s = Ok tt s' /\ procs (kpt s') !! p = Some x' /\
    p_tf x' = set_eax 0 (p_backup x) /\ p_mask x' = p_mask_backup x /\
    (tf_eax (p_backup x) <> 0 -> p_tf x' <> p_backup x).
Proof.
  intros Hs He. destruct (syscall_known s i c p x penvs kenvs sys_sigret Hs) as (k & H & c' & Hc & _ & Hp' & _).
  { by rewrite He. }
  destruct Hs as (_ & Hp & Hx). rewrite H. clear H. unfold sys_sigret, sigret. rewrite bind_assoc.
  destruct (curproc_ok (set_mach k (kpt s)) i c' p Hc ltac:(congruence)) as (k2 & H2 & _).
  erewrite bind_inPt.
  2:{ rewrite (bind_ok _ _ _ _ _ H2). rewrite <- (putp_id p x (set_mach k2 _)) by done.
      rewrite bind_setp by (by eapply lookup_lt_Some). erewrite setp_ok; [reflexivity|].
      apply putp_lookup. by eapply lookup_lt_Some. }
  rewrite bind_ret. do 2 eexists. split; [|split].
  - erewrite inPt_ok; [reflexivity|]. apply setp_ok. apply (putp_lookup p). simpl.
    rewrite length_insert. by eapply lookup_lt_Some.
  - apply (putp_lookup p). simpl. rewrite !length_insert. by eapply lookup_lt_Some.
  - do 2 (split; [done|]). simpl. intros Hne Heq. apply Hne. rewrite <- Heq. done.
Qed.
End dispatch.

(** The calls of a process with number [n] in [eax]. *)
Definition w_calling (n : Z) : proc := set_backup (set_eax 77 zero_tf) (set_tf (set_eax n zero_tf) w_parent).
Definition w_in_call (n : Z) : kst memb := with_pt (putp 0 (w_calling n) w_table) w_kernel_state.

Lemma w_calling_ok n : kcaller (w_in_call n) 0 w_cpu 0 (w_calling n).
Proof. split; [|done]. split; [done|]. simpl. split; [lia|by left]. Qed.

Lemma unknown_syscall_witness :
  exists s', syscall w_end w_data 0 0 (fun _ => None) (fun _ => None) 0 [] [] (w_in_call 25) = Ok tt s'.
Proof.
  destruct (unknown_syscall w_end w_data 0 0 0 (fun _ => None) (fun _ => None) (w_in_call 25) 0 w_cpu 0 (w_calling 25) [] [] (w_calling_ok 25))
    as (k & H & _); [vm_compute; intros [_ H]; discriminate H|]. eexists. exact H.
Defined.

Lemma sigret_loses_eax_witness :
  exists s' x', syscall w_end w_data 0 0 (fun _ => None) (fun _ => None) 0 [] [] (w_in_call 24) = Ok tt s' /\
    procs (kpt s') !! 0%nat = Some x' /\ tf_eax (p_tf x') = 0 /\ tf_eax (p_backup (w_calling 24)) = 77.
Proof.
  destruct (sigret_loses_eax w_end w_data 0 0 0 (fun _ => None) (fun _ => None) (w_in_call 24) 0 w_cpu 0 (w_calling 24) [] [] (w_calling_ok 24) eq_refl)
    as (s' & x' & H & Hx & Ht & _). exists s', x'. split; [exact H|]. split; [exact Hx|]. by rewrite Ht.
Defined.
