(* ===== verification/Ulib.v ===== *)
(** The user library (src/ulib.c, src/printf.c): strings in the memory of a
    process, and formatted output.

    [is_str m a l] says that the C string at address [a] is the bytes [l].  The
    loops that run to the NUL take fuel; each theorem gives the result for every
    fuel beyond the length of the string.  [printf] gives the bytes that it
    writes, one call of [write] for each. *)

From S2P Require Import Prelude StringC Spinlock Kalloc Ptable Ports Console ConsoleScreen.

(* ------------------------------------------------------------------ *)
(** * The routines *)

(* src/ulib.c:7-16 strcpy *)
Fixpoint strcpy (fuel : nat) (m : memory) (s t : Z) : option memory :=
  match fuel with
  | O => None
  | S fuel' => let c := m t in let m := upd m s c in if c =? 0 then Some m else strcpy fuel' m (s + 1) (t + 1)
  end.

(* src/ulib.c:18-24 strcmp *)
Fixpoint strcmp (fuel : nat) (m : memory) (p q : Z) : option Z :=
  match fuel with
  | O => None
  | S fuel' =>
      if negb (m p =? 0) && (m p =? m q) then strcmp fuel' m (p + 1) (q + 1) else Some (u8 (m p) - u8 (m q))
  end.

(* src/ulib.c:26-34 strlen *)
Fixpoint ustrlen (fuel : nat) (m : memory) (s n : Z) : option Z :=
  match fuel with
  | O => None
  | S fuel' => if m (s + n) =? 0 then Some (u32 n) else ustrlen fuel' m s (n + 1)
  end.

(* src/ulib.c:36-41 memset *)
Definition umemset (m : memory) (dst c : Z) (n : nat) : memory := stosb m dst c n.

(** The address of the character, or 0. *)

(* src/ulib.c:43-50 strchr *)
Fixpoint strchr (fuel : nat) (m : memory) (s c : Z) : option Z :=
  match fuel with
  | O => None
  | S fuel' => if m s =? 0 then Some 0 else if m s =? c then Some s else strchr fuel' m (s + 1) c
  end.

(** [input] is what the reads of one byte from standard input return, until
    one returns none.  The result is the string and the input left. *)

(* src/ulib.c:57-65 gets *)
Fixpoint gets_loop (room : nat) (input : list Z) : list Z * list Z :=
  match room, input with
  | O, _ => ([], input)
  | _, [] => ([], [])
  | S room', c :: input => if (c =? 10) || (c =? 13) then ([c], input) else let '(l, r) := gets_loop room' input in (c :: l, r)
  end.

(* src/ulib.c:52-68 gets *)
Definition ugets (max : Z) (input : list Z) : list Z * list Z := gets_loop (Z.to_nat (max - 1)) input.

(* src/ulib.c:84-93 atoi *)
Fixpoint atoi_loop (fuel : nat) (m : memory) (s n : Z) : option Z :=
  match fuel with
  | O => None
  | S fuel' =>
      if (48 <=? m s) && (m s <=? 57) then atoi_loop fuel' m (s + 1) (s32 (n * 10 + m s - 48)) else Some n
  end.

(* src/ulib.c:84-93 atoi *)
Definition atoi (fuel : nat) (m : memory) (s : Z) : option Z := atoi_loop fuel m s 0.

(** The bytes are copied from the first on, also when the regions overlap. *)

(* src/ulib.c:95-106 memmove *)
Definition umemmove (m : memory) (vdst vsrc n : Z) : memory := copy_up m vdst vsrc (Z.to_nat n).

(* src/printf.c:14-14 digits *)
Definition udigits : list Z := [48; 49; 50; 51; 52; 53; 54; 55; 56; 57; 65; 66; 67; 68; 69; 70].

(* src/printf.c:11-36 printint *)
Definition uprintint (xx base : Z) (sgn : bool) : list Z := int_chars udigits xx base sgn.

(** The loop over the format: [state] is 0, or 37 after a percent sign.  [None]:
    a conversion takes a pointer for a number or the other way round, which C
    does not define. *)

(* src/printf.c:38-85 printf *)
Fixpoint printf_loop (fmt : list Z) (state : Z) (ap : list carg) : option (list Z) :=
  match fmt with
  | [] => Some []
  | c :: fmt =>
      let c := Z.land c 255 in
      if state =? 0 then
        if c =? 37 then printf_loop fmt 37 ap else cons c <$> printf_loop fmt state ap
      else if state =? 37 then
        if c =? 100 then
          match ap with Word z :: ap => app (uprintint z 10 true) <$> printf_loop fmt 0 ap | _ => None end
        else if (c =? 120) || (c =? 112) then
          match ap with Word z :: ap => app (uprintint z 16 false) <$> printf_loop fmt 0 ap | _ => None end
        else if c =? 115 then
          match ap with
          | Ptr s :: ap => app s <$> printf_loop fmt 0 ap
          | Word z :: ap => if z =? 0 then app (str "(null)") <$> printf_loop fmt 0 ap else None
          | [] => None
          end
        else if c =? 99 then
          match ap with Word z :: ap => cons (u8 z) <$> printf_loop fmt 0 ap | _ => None end
        else if c =? 37 then cons c <$> printf_loop fmt 0 ap
        else
          (* Unknown % sequence.  Print it to draw attention. *)
          (fun l => 37 :: c :: l) <$> printf_loop fmt 0 ap
      else printf_loop fmt state ap
  end.

(* src/printf.c:38-85 printf *)
Definition printf (fmt : list Z) (ap : list carg) : option (list Z) := printf_loop fmt 0 ap.

(* ------------------------------------------------------------------ *)
(** * Strings *)

Record is_str (m : memory) (a : Z) (l : list Z) : Prop := {
  st_bytes : forall i c, l !! i = Some c -> m (a + Z.of_nat i) = c /\ 0 < c < 256;
  st_nul : m (a + Z.of_nat (length l)) = 0;
}.

Lemma is_str_cons m a c l : is_str m a (c :: l) <-> m a = c /\ 0 < c < 256 /\ is_str m (a + 1) l.
Proof.
  split.
  - intros [Hb Hn]. destruct (Hb 0%nat c eq_refl) as [H0 Hc]. rewrite Z.add_0_r in H0. split; [done|]. split; [done|]. split.
    + intros i x Hi. destruct (Hb (S i) x Hi) as [H1 H2]. split; [|done]. rewrite <- H1. f_equal. lia.
    + rewrite <- Hn. f_equal. simpl. lia.
  - intros (<- & Hc & [Hb Hn]). split.
    + intros [|i] x Hi; simpl in Hi; [injection Hi as <-; by rewrite Z.add_0_r|].
      destruct (Hb i x Hi) as [H1 H2]. split; [|done]. rewrite <- H1. f_equal. lia.
    + rewrite <- Hn. f_equal. simpl. lia.
Qed.

Lemma is_str_nil m a : is_str m a [] <-> m a = 0.
Proof.
  split; [intros [_ H]; by rewrite Z.add_0_r in H|]. intros H. split; [by intros i c Hi|]. by rewrite Z.add_0_r.
Qed.

(** [strcmp] returns 0 for equal strings only. *)
Lemma strcmp_ok l1 : forall fuel m p q l2, is_str m p l1 -> is_str m q l2 -> (length l1 < fuel)%nat ->
  exists r, strcmp fuel m p q = Some r /\ (r = 0 <-> l1 = l2).
Proof.
  induction l1 as [|c l1 IH]; intros fuel m p q l2 H1 H2 Hf; (destruct fuel as [|fuel]; [simpl in Hf; lia|]); cbn [strcmp].
  - apply is_str_nil in H1. rewrite H1. simpl. eexists. split; [done|]. destruct l2 as [|d l2].
    + apply is_str_nil in H2. by rewrite H2.
    + apply is_str_cons in H2 as (H2 & Hd & _). rewrite H2. rewrite !u8_id by lia. split; [lia|done].
  - apply is_str_cons in H1 as (H1 & Hc & Hs1). rewrite H1. destruct (Z.eqb_spec c 0) as [|_]; [lia|]. cbn [negb andb].
    destruct (Z.eqb_spec c (m q)) as [E|n].
    + destruct l2 as [|d l2]; [apply is_str_nil in H2; lia|]. apply is_str_cons in H2 as (H2 & Hd & Hs2).
      destruct (IH fuel m (p + 1) (q + 1) l2) as (r & E' & Hr); [done|done|simpl in Hf; lia|]. exists r. split; [done|].
      rewrite Hr. split; [|by intros [= _ ->]]. intros ->. congruence.
    + eexists. split; [done|]. destruct l2 as [|d l2].
      * apply is_str_nil in H2. rewrite H2, !u8_id by lia. split; [lia|done].
      * apply is_str_cons in H2 as (H2 & Hd & _). rewrite H2 in n |- *. rewrite !u8_id by lia. split; [lia|congruence].
Qed.

Lemma ustrlen_ok l : forall fuel m s n, is_str m (s + n) l -> (length l < fuel)%nat -> ustrlen fuel m s n = Some (u32 (n + Z.of_nat (length l))).
Proof.
  induction l as [|c l IH]; intros fuel m s n Hs Hf; (destruct fuel as [|fuel]; [simpl in Hf; lia|]); cbn [ustrlen].
  - apply is_str_nil in Hs. rewrite Hs. simpl. by rewrite Z.add_0_r.
  - apply is_str_cons in Hs as (Hm & Hc & Hs). rewrite Hm. destruct (Z.eqb_spec c 0); [lia|].
    rewrite IH; [|by rewrite Z.add_assoc|simpl in Hf; lia]. do 2 f_equal. simpl. lia.
Qed.

(** [strcpy] into a region that does not meet the string. *)
Lemma strcpy_ok l : forall fuel m s t, is_str m t l -> (length l < fuel)%nat ->
  s + Z.of_nat (length l) < t \/ t + Z.of_nat (length l) < s -> exists m', strcpy fuel m s t = Some m' /\ is_str m' s l /\
  forall a, a < s \/ s + Z.of_nat (length l) < a -> m' a = m a.
Proof.
  induction l as [|c l IH]; intros fuel m s t Hs Hf Hd; (destruct fuel as [|fuel]; [simpl in Hf; lia|]); cbn [strcpy]; cbv zeta.
  - apply is_str_nil in Hs. rewrite Hs. simpl. exists (upd m s 0). split; [done|]. simpl. split.
    + apply is_str_nil, upd_eq.
    + intros a Ha. apply upd_ne. lia.
  - apply is_str_cons in Hs as (Hm & Hc & Hs). rewrite Hm. destruct (Z.eqb_spec c 0); [lia|]. simpl length in *.
    destruct (IH fuel (upd m s c) (s + 1) (t + 1)) as (m' & E & Hs' & Ho); [|lia|lia|].
    + destruct Hs as [Hb Hn]. split.
      * intros i x Hi. rewrite upd_ne; [by apply Hb|]. apply lookup_lt_Some in Hi. lia.
      * by rewrite upd_ne by lia.
    + exists m'. split; [done|]. split.
      * apply is_str_cons. split; [|done]. rewrite Ho by lia. apply upd_eq.
      * intros a Ha. rewrite Ho by lia. apply upd_ne. lia.
Qed.

(** [strchr] finds the first occurrence. *)
Lemma strchr_ok l : forall fuel m s c, is_str m s l -> (length l < fuel)%nat -> c <> 0 ->
  strchr fuel m s c = Some (match list_find (eq c) l with Some (i, _) => s + Z.of_nat i | None => 0 end).
Proof.
  induction l as [|x l IH]; intros fuel m s c Hs Hf Hc; (destruct fuel as [|fuel]; [simpl in Hf; lia|]); cbn [strchr].
  - apply is_str_nil in Hs. by rewrite Hs.
  - apply is_str_cons in Hs as (Hm & Hx & Hs). rewrite Hm. destruct (Z.eqb_spec x 0) as [|_]; [lia|]. simpl.
    destruct (Z.eqb_spec x c) as [->|n]; [rewrite decide_True by done; do 2 f_equal; lia|]. rewrite decide_False by done.
    rewrite IH by (done || simpl in Hf; lia). destruct (list_find (eq c) l) as [[i y]|]; simpl; [f_equal; lia|done].
Qed.

(** [memmove] of the user library is right when the destination does not begin
    inside the source, ... *)
Lemma umemmove_ok m dst src n x : 0 <= n -> dst <= src \/ src + n <= dst ->
  umemmove m dst src n x = if (dst <=? x) && (x <? dst + n) then m (src + (x - dst)) else m x.
Proof. intros Hn Hd. unfold umemmove. rewrite copy_up_spec by lia. by rewrite Z2Nat.id. Qed.

(** ... and wrong when it does: it repeats the first byte, where the kernel's
    copies the region. *)
Lemma umemmove_overlap :
  let m := fun a => a in umemmove m 11 10 3 13 = 10 /\ memmove m 11 10 3 13 = 12.
Proof. split; vm_compute; reflexivity. Qed.

(* ------------------------------------------------------------------ *)
(** * Formatted output *)

(** The two sets of digits differ in the letters only. *)
Lemma digit_loop_decimal fuel : forall x, digit_loop udigits fuel x 10 = digit_loop digits fuel x 10.
Proof.
  induction fuel as [|fuel IH]; intros x; [done|]. cbn [digit_loop]. cbv zeta. rewrite IH. f_equal.
  assert (Hr : x mod 10 ∈ seqZ 0 10) by (apply elem_of_seqZ; pose proof (Z.mod_pos_bound x 10); lia).
  repeat (apply elem_of_cons in Hr as [->|Hr]; [done|]). by apply elem_of_nil in Hr.
Qed.

Lemma digits_decimal xx sign : int_chars udigits xx 10 sign = int_chars digits xx 10 sign.
Proof. unfold int_chars. by rewrite digit_loop_decimal. Qed.

(** The conversions of [printf]: [%c] besides those of the kernel. *)
Definition uconvert (c : Z) (args : list carg) : option (list Z * list carg) :=
  if c =? 99 then match args with Word z :: args => Some ([u8 z], args) | _ => None end else convert udigits c args.

Definition byte_string (l : list Z) : Prop := Forall is_byte l.

Lemma land_byte c : is_byte c -> Z.land c 255 = c.
Proof. intros Hc. change 255 with (Z.ones 8). rewrite Z.land_ones by lia. by apply Z.mod_small. Qed.

#[local] Opaque str.

Lemma printf_render n : forall fmt ap, (length fmt <= n)%nat -> byte_string fmt -> printf fmt ap = render uconvert (pieces fmt) ap.
Proof.
  unfold printf. induction n as [|n IH]; intros fmt ap Hn Hb; (destruct fmt as [|c fmt]; [done|simpl in Hn]); [lia|].
  apply Forall_cons in Hb as [Hc Hb]. cbn [printf_loop pieces]. cbv zeta. rewrite land_byte by done. change (0 =? 0) with true. cbv iota.
  destruct (Z.eqb_spec c 37) as [->|Hne]; cbn [negb]; cbv iota.
  - destruct fmt as [|d fmt]; [done|]. apply Forall_cons in Hb as [Hd Hb]. cbn [printf_loop render]. cbv zeta.
    rewrite land_byte by done. change (37 =? 0) with false. change (37 =? 37) with true. cbv iota. simpl in Hn.
    assert (IH' : forall ap, printf_loop fmt 0 ap = render uconvert (pieces fmt) ap) by (intros; apply IH; [lia|done]).
    unfold uconvert, convert, uprintint.
    destruct (Z.eqb_spec d 99) as [->|Hc99]; [simpl; destruct ap as [|[z|s] ap]; simpl; [done|by rewrite IH'|done]|].
    destruct (d =? 100); [destruct ap as [|[z|s] ap]; simpl; [done|by rewrite IH'|done]|].
    destruct ((d =? 120) || (d =? 112)); [destruct ap as [|[z|s] ap]; simpl; [done|by rewrite IH'|done]|].
    destruct (d =? 115); [destruct ap as [|[z|s] ap]; simpl; [done|destruct (z =? 0); simpl; [by rewrite IH'|done]|by rewrite IH']|].
    destruct (Z.eqb_spec d 37) as [->|_]; simpl; by rewrite IH'.
  - cbn [render]. rewrite <- IH by (done || lia). done.
Qed.

(** The conversions that the kernel and the library share, numbers in base 16
    apart: there the kernel's digits are small letters. *)
Definition shared_conv (p : piece) : Prop := match p with Conv c => c ∉ [120; 112; 99] | Lit _ => True end.



(** ** Numbers read back *)

Definition decimal (c : Z) : Prop := 48 <= c <= 57.

Lemma decimal_value c : decimal c -> digit_value udigits c = c - 48.
Proof.
  intros Hc. assert (Hr : c ∈ seqZ 48 10) by (apply elem_of_seqZ; unfold decimal in Hc; lia).
  repeat (apply elem_of_cons in Hr as [->|Hr]; [done|]). by apply elem_of_nil in Hr.
Qed.

Definition decimals (n : Z) (l : list Z) : Z := foldl (fun n c => 10 * n + digit_value udigits c) n l.

Lemma decimals_mono l : forall n, Forall decimal l -> 0 <= n -> n <= decimals n l.
Proof.
  induction l as [|c l IH]; intros n Hl Hn; [unfold decimals; simpl; lia|]. apply Forall_cons in Hl as [Hc Hl].
  unfold decimals in *. simpl. rewrite decimal_value by done. unfold decimal in Hc. specialize (IH (10 * n + (c - 48)) Hl). lia.
Qed.

Lemma atoi_loop_ok l : forall fuel m s n, is_str m s l -> Forall decimal l -> (length l < fuel)%nat -> 0 <= n ->
  decimals n l < 2147483648 -> atoi_loop fuel m s n = Some (decimals n l).
Proof.
  induction l as [|c l IH]; intros fuel m s n Hs Hl Hf Hn Hv; (destruct fuel as [|fuel]; [simpl in Hf; lia|]); cbn [atoi_loop].
  - apply is_str_nil in Hs. by rewrite Hs.
  - apply is_str_cons in Hs as (Hm & _ & Hs). apply Forall_cons in Hl as [Hc Hl]. pose proof Hc as [Hc1 Hc2]. rewrite Hm.
    replace ((48 <=? c) && (c <=? 57)) with true by (symmetry; apply andb_true_iff; split; apply Z.leb_le; lia).
    unfold decimals in Hv |- *. simpl in Hv |- *. rewrite decimal_value in Hv |- * by done.
    pose proof (decimals_mono l (10 * n + (c - 48)) Hl ltac:(lia)) as Hm2. unfold decimals in Hm2.
    rewrite s32_id by lia. replace (n * 10 + c - 48) with (10 * n + (c - 48)) by lia. apply IH; [done|done|simpl in Hf; lia|lia|done].
Qed.

(** The digits of a number in base ten. *)
Lemma decimal_digits fuel x : Forall decimal (digit_loop udigits fuel x 10).
Proof.
  revert x. induction fuel as [|fuel IH]; intros x; [constructor|]. cbn [digit_loop]. cbv zeta. constructor.
  - assert (Hr : x mod 10 ∈ seqZ 0 10) by (apply elem_of_seqZ; pose proof (Z.mod_pos_bound x 10); lia).
    repeat (apply elem_of_cons in Hr as [->|Hr]; [vm_compute; split; congruence|]). by apply elem_of_nil in Hr.
  - destruct (x / 10 =? 0); [constructor|apply IH].
Qed.

(** A number that [printf] writes with [%d] is read back by [atoi]: for every
    value of an [int] that is not negative, wherever the text is stored. *)
Theorem atoi_printf x m a l fuel : 0 <= x < 2147483648 -> printf (str "%d") [Word x] = Some l -> is_str m a l -> (16 < fuel)%nat ->
  atoi fuel m a = Some x.
Proof.
  intros Hx Hp Hs Hf. assert (E : l = rev (digit_loop udigits 32 x 10)).
  { change (printf (str "%d") [Word x]) with (Some (int_chars udigits x 10 true ++ [])) in Hp. injection Hp as <-.
    rewrite app_nil_r. unfold int_chars. rewrite s32_id by lia. destruct (Z.ltb_spec x 0); [lia|].
    cbn [andb]. rewrite u32_id by lia. by rewrite app_nil_r. }
  assert (Hl : Forall decimal l) by (rewrite E; apply Forall_rev, decimal_digits).
  destruct (digit_loop_value udigits 10) with (fuel := 32%nat) (x := x) as [Hv _].
  - by apply (bool_decide_unpack (NoDup udigits)); vm_compute.
  - simpl. lia.
  - change (2 ^ Z.of_nat 32) with 4294967296. lia.
  - lia.
  - rewrite <- E in Hv. unfold atoi. rewrite (atoi_loop_ok l); [f_equal; exact Hv|done|done| |lia|]; [|unfold decimals; fold (number udigits 10 l); lia].
    assert (Hlen : (length l <= 10)%nat); [|lia]. rewrite E, length_rev. apply digit_loop_length; [simpl; lia| |lia].
    change (10 ^ Z.of_nat 10) with 10000000000. lia.
Qed.

Lemma atoi_printf_witness : exists m, is_str m 0 [50; 49; 52; 55; 52; 56; 51; 54; 52; 55] /\ atoi 17 m 0 = Some 2147483647.
Proof.
  assert (Hs : is_str (arr [50; 49; 52; 55; 52; 56; 51; 54; 52; 55; 0]) 0 [50; 49; 52; 55; 52; 56; 51; 54; 52; 55]).
  { repeat (apply is_str_cons; split; [reflexivity|split; [lia|]]). apply is_str_nil. reflexivity. }
  exists (arr [50; 49; 52; 55; 52; 56; 51; 54; 52; 55; 0]). split; [exact Hs|].
  apply (atoi_printf 2147483647 _ 0 [50; 49; 52; 55; 52; 56; 51; 54; 52; 55] 17).
  - lia.
  - vm_compute. reflexivity.
  - exact Hs.
  - lia.
Defined.
