(* ===== verification/Uprogs.v ===== *)
(** The small user programs: src/cat.c, src/wc.c, src/ls.c, src/echo.c, src/rm.c,
    src/mkdir.c, src/ln.c, src/kill.c, src/zombie.c and src/init.c, with [stat]
    of src/ulib.c.

    A program is a tree of system calls ([uprog]): it goes on with what the
    kernel answers.  C strings are the lists of their bytes; [printf] writes its
    text byte by byte.  Loops over an input take fuel, and [Stuck] is the tree
    when it is used up. *)

From S2P Require Import Prelude StringC Spinlock Kalloc Ptable Ports Sleeplock Block Bio Log Layer Fs Console ConsoleScreen Ulib.

(* ------------------------------------------------------------------ *)
(** * Programs *)

Abbreviation path := (list Z).

Inductive call :=
| CRead (fd n : Z)
| CWrite (fd : Z) (p : list Z)
| COpen (name : path) (mode : Z)
| CClose (fd : Z)
| CFstat (fd : Z)
| CDup (fd : Z)
| CLink (old new : path)
| CUnlink (name : path)
| CMkdir (name : path)
| CMknod (name : path) (major minor : Z)
| CFork
| CExec (name : path) (argv : list path)
| CWait
| CKill (pid signum : Z)
| CSleep (n : Z).

#[export] Instance call_eq : EqDecision call.
Proof. solve_decision. Defined.

(** The answer: the value returned, the bytes read, the status found. *)
Record reply := Reply { val : Z; bytes : list Z; status : stat }.

Inductive uprog := Halt | Stuck | Call (c : call) (k : reply -> uprog).

(** [printf(fd, ...)] with its text: a [write] for each byte. *)
Fixpoint put (fd : Z) (text : list Z) (k : uprog) : uprog :=
  match text with [] => k | c :: text => Call (CWrite fd [c]) (fun _ => put fd text k) end.
Definition uprintf (fd : Z) (fmt : list Z) (ap : list carg) (k : uprog) : uprog :=
  match printf fmt ap with Some text => put fd text k | None => Stuck end.

(** The arguments after the program's name, one by one. *)
Fixpoint each (args : list path) (f : path -> uprog -> uprog) (k : uprog) : uprog :=
  match args with [] => k | a :: args => f a (each args f k) end.

(* src/ulib.c:70-82 stat *)
Definition ustat (n : path) (k : Z -> stat -> uprog) : uprog :=
  Call (COpen n 0) (fun fd =>
    if val fd <? 0 then k (-1) (status fd)
    else Call (CFstat (val fd)) (fun r => Call (CClose (val fd)) (fun _ => k (val r) (status r)))).

(** ** cat *)

(* src/cat.c:7-22 cat *)
Fixpoint cat (fuel : nat) (fd : Z) (k : uprog) : uprog :=
  match fuel with
  | O => Stuck
  | S fuel' =>
      Call (CRead fd 512) (fun r =>
        if 0 <? val r then
          let p := take (Z.to_nat (val r)) (bytes r) in
          Call (CWrite 1 p) (fun w => if negb (val w =? val r) then uprintf 1 (str "cat: write error" ++ [10]) [] Halt else cat fuel' fd k)
        else if val r <? 0 then uprintf 1 (str "cat: read error" ++ [10]) [] Halt
        else k)
  end.

(* src/cat.c:24-43 main *)
Definition cat_main (fuel : nat) (args : list path) : uprog :=
  match args with
  | [] => cat fuel 0 Halt
  | _ =>
      each args (fun a k =>
        Call (COpen a 0) (fun fd =>
          if val fd <? 0 then uprintf 1 (str "cat: cannot open %s" ++ [10]) [Ptr a] Halt
          else cat fuel (val fd) (Call (CClose (val fd)) (fun _ => k)))) Halt
  end.

(** ** wc *)

(** The counts of lines, words and bytes, and whether in a word. *)
Record counts := Counts { wl : Z; ww : Z; wch : Z; inword : bool }.

(** The separators: blank, return, tab, newline, vertical tab. *)
Definition seps : list Z := [32; 13; 9; 10; 11].

(* src/wc.c:17-25 wc *)
Definition wc_byte (s : counts) (b : Z) : counts :=
  let l := if b =? 10 then wl s + 1 else wl s in
  if bool_decide (b ∈ seps) then Counts l (ww s) (wch s + 1) false
  else if negb (inword s) then Counts l (ww s + 1) (wch s + 1) true
  else Counts l (ww s) (wch s + 1) true.

(* src/wc.c:7-33 wc *)
Fixpoint wc (fuel : nat) (fd : Z) (name : path) (s : counts) (k : uprog) : uprog :=
  match fuel with
  | O => Stuck
  | S fuel' =>
      Call (CRead fd 512) (fun r =>
        if 0 <? val r then wc fuel' fd name (fold_left wc_byte (take (Z.to_nat (val r)) (bytes r)) s) k
        else if val r <? 0 then uprintf 1 (str "wc: read error" ++ [10]) [] Halt
        else uprintf 1 (str "%d %d %d %s" ++ [10]) [Word (wl s); Word (ww s); Word (wch s); Ptr name] k)
  end.

(* src/wc.c:35-54 main *)
Definition wc_main (fuel : nat) (args : list path) : uprog :=
  match args with
  | [] => wc fuel 0 [] (Counts 0 0 0 false) Halt
  | _ =>
      each args (fun a k =>
        Call (COpen a 0) (fun fd =>
          if val fd <? 0 then uprintf 1 (str "wc: cannot open %s" ++ [10]) [Ptr a] Halt
          else wc fuel (val fd) a (Counts 0 0 0 false) (Call (CClose (val fd)) (fun _ => k)))) Halt
  end.

(** ** ls *)

(** The index after the last slash, from [n] characters down. *)

(* src/ls.c:12-15 fmtname *)
Fixpoint fmt_scan (n : nat) (p : path) : nat :=
  match n with O => O | S i => if nth i p 0 =? 47 then S i else fmt_scan i p end.

(* src/ls.c:6-23 fmtname *)
Definition fmtname (p : path) : path :=
  let p := drop (fmt_scan (S (length p)) p) p in
  if (DIRSIZ <=? length p)%nat then p else p ++ replicate (DIRSIZ - length p) 32.

(** [print_entry name st] is the line for a file. *)
Definition print_entry (name : path) (s : stat) (k : uprog) : uprog :=
  uprintf 1 (str "%s %d %d %d" ++ [10]) [Ptr (fmtname name); Word (st_type s); Word (st_ino s); Word (st_size s)] k.

(** The C string in a name field of 14 bytes, with a NUL put after them. *)
Fixpoint c_name (l : list Z) : path := match l with [] => [] | c :: l => if c =? 0 then [] else c :: c_name l end.

(** [dir] is the path with a slash. *)

(* src/ls.c:57-67 ls *)
Fixpoint ls_loop (fuel : nat) (fd : Z) (dir : path) (k : uprog) : uprog :=
  match fuel with
  | O => Stuck
  | S fuel' =>
      Call (CRead fd 16) (fun r =>
        if val r =? 16 then
          if de_inum (bytes r) =? 0 then ls_loop fuel' fd dir k
          else
            let buf := dir ++ c_name (de_name (bytes r)) in
            ustat buf (fun ret st =>
              if ret <? 0 then uprintf 1 (str "ls: cannot stat %s" ++ [10]) [Ptr buf] (ls_loop fuel' fd dir k)
              else print_entry buf st (ls_loop fuel' fd dir k))
        else k)
  end.

(* src/ls.c:25-71 ls *)
Definition ls (fuel : nat) (name : path) (k : uprog) : uprog :=
  Call (COpen name 0) (fun fd =>
    if val fd <? 0 then uprintf 2 (str "ls: cannot open %s" ++ [10]) [Ptr name] k
    else
      let close := Call (CClose (val fd)) (fun _ => k) in
      Call (CFstat (val fd)) (fun r =>
        if val r <? 0 then uprintf 2 (str "ls: cannot stat %s" ++ [10]) [Ptr name] close
        else if st_type (status r) =? T_FILE then print_entry name (status r) close
        else if st_type (status r) =? T_DIR then
          if 512 <? Z.of_nat (length name) + 1 + Z.of_nat DIRSIZ + 1 then uprintf 1 (str "ls: path too long" ++ [10]) [] close
          else ls_loop fuel (val fd) (name ++ [47]) close
        else close)).

(* src/ls.c:73-85 main *)
Definition ls_main (fuel : nat) (args : list path) : uprog :=
  match args with [] => ls fuel [46] Halt | _ => each args (ls fuel) Halt end.

(** ** Programs without a loop over their input *)

(* src/echo.c:5-13 main *)
Fixpoint echo_main (args : list path) : uprog :=
  match args with
  | [] => Halt
  | a :: args => uprintf 1 (str "%s%s") [Ptr a; Ptr (match args with [] => [10] | _ => [32] end)] (echo_main args)
  end.

(** The files, until one fails. *)
Fixpoint until_failure (args : list path) (c : path -> call) (fmt : list Z) : uprog :=
  match args with
  | [] => Halt
  | a :: args => Call (c a) (fun r => if val r <? 0 then uprintf 2 fmt [Ptr a] Halt else until_failure args c fmt)
  end.

(* src/rm.c:5-23 main *)
Definition rm_main (args : list path) : uprog :=
  match args with
  | [] => uprintf 2 (str "Usage: rm files..." ++ [10]) [] Halt
  | _ => until_failure args CUnlink (str "rm: %s failed to delete" ++ [10])
  end.

(* src/mkdir.c:5-23 main *)
Definition mkdir_main (args : list path) : uprog :=
  match args with
  | [] => uprintf 2 (str "Usage: mkdir files..." ++ [10]) [] Halt
  | _ => until_failure args CMkdir (str "mkdir: %s failed to create" ++ [10])
  end.

(* src/ln.c:5-15 main *)
Definition ln_main (args : list path) : uprog :=
  match args with
  | [old; new] => Call (CLink old new) (fun r => if val r <? 0 then uprintf 2 (str "link %s %s: failed" ++ [10]) [Ptr old; Ptr new] Halt else Halt)
  | _ => uprintf 2 (str "Usage: ln old new" ++ [10]) [] Halt
  end.

(* src/kill.c:5-17 main *)
Definition kill_main (args : list path) : uprog :=
  match args with
  | [] => uprintf 2 (str "usage: kill pid..." ++ [10]) [] Halt
  | _ => each args (fun a k => match atoi (S (length a)) (arr a) 0 with Some pid => Call (CKill pid SIGKILL) (fun _ => k) | None => Stuck end) Halt
  end.

(* src/zombie.c:8-14 main *)
Definition zombie_main : uprog :=
  Call CFork (fun r => if 0 <? val r then Call (CSleep 5) (fun _ => Halt) else Halt).

(** ** init *)

(** The waits for the shell [pid]. *)

(* src/init.c:34-35 main *)
Fixpoint init_wait (fuel : nat) (pid : Z) (k : uprog) : uprog :=
  match fuel with
  | O => Stuck
  | S fuel' =>
      Call CWait (fun r =>
        if (0 <=? val r) && negb (val r =? pid) then uprintf 1 (str "zombie!" ++ [10]) [] (init_wait fuel' pid k) else k)
  end.

(* src/init.c:22-36 main *)
Fixpoint init_loop (rounds fuel : nat) : uprog :=
  match rounds with
  | O => Stuck
  | S rounds' =>
      uprintf 1 (str "init: starting sh" ++ [10]) []
        (Call CFork (fun r =>
          if val r <? 0 then uprintf 1 (str "init: fork failed" ++ [10]) [] Halt
          else if val r =? 0 then Call (CExec (str "sh") [str "sh"]) (fun _ => uprintf 1 (str "init: exec sh failed" ++ [10]) [] Halt)
          else init_wait fuel (val r) (init_loop rounds' fuel)))
  end.

(* src/init.c:10-37 main *)
Definition init_main (rounds fuel : nat) : uprog :=
  let go := Call (CDup 0) (fun _ => Call (CDup 0) (fun _ => init_loop rounds fuel)) in
  Call (COpen (str "console") 2) (fun fd =>
    if val fd <? 0 then Call (CMknod (str "console") 1 1) (fun _ => Call (COpen (str "console") 2) (fun _ => go)) else go).

(* ------------------------------------------------------------------ *)
(** * Running them *)

(** [serve] is the kernel: it answers a call. *)
Section run.
Context {W : Type} (serve : call -> W -> reply * W).

Fixpoint run (p : uprog) (w : W) : option W :=
  match p with
  | Halt => Some w
  | Stuck => None
  | Call c k => let '(r, w) := serve c w in run (k r) w
  end.
End run.

(** A kernel that reads files.  [input fd] are the pieces that the next reads of
    a descriptor bring, [contents] those of a file that can be opened, [output]
    the bytes written to descriptor 1. *)
Class FileWorld (W : Type) (serve : call -> W -> reply * W) := {
  contents : W -> path -> option (list (list Z));
  input : W -> Z -> list (list Z);
  output : W -> list Z;
  fw_write : forall p w, exists r w', serve (CWrite 1 p) w = (r, w') /\ val r = Z.of_nat (length p) /\
    output w' = output w ++ p /\ contents w' = contents w /\ input w' = input w;
  fw_read : forall fd n w c cs, input w fd = c :: cs -> 0 < Z.of_nat (length c) <= n -> exists r w', serve (CRead fd n) w = (r, w') /\
    val r = Z.of_nat (length c) /\ bytes r = c /\ output w' = output w /\ contents w' = contents w /\ input w' fd = cs;
  fw_read_end : forall fd n w, input w fd = [] -> exists r w', serve (CRead fd n) w = (r, w') /\
    val r = 0 /\ output w' = output w /\ contents w' = contents w;
  fw_open : forall f w, exists r w', serve (COpen f 0) w = (r, w') /\ output w' = output w /\ contents w' = contents w /\
    match contents w f with Some cs => 0 <= val r /\ input w' (val r) = cs | None => val r = -1 end;
  fw_close : forall fd w, exists r w', serve (CClose fd) w = (r, w') /\ output w' = output w /\ contents w' = contents w;
}.

(** The pieces that a read of 512 bytes can bring. *)
Definition pieces_ok (cs : list (list Z)) : Prop := Forall (fun c => 0 < Z.of_nat (length c) <= 512) cs.

Section programs.
Context {W : Type} (serve : call -> W -> reply * W) {FW : FileWorld W serve}.
Local Abbreviation runs := (run serve).
Implicit Types w : W.

Lemma put_ok text k : forall w, exists w', runs (put 1 text k) w = runs k w' /\ output w' = output w ++ text /\ contents w' = contents w /\ input w' = input w.
Proof.
  induction text as [|c text IH]; intros w; [exists w; by rewrite app_nil_r|]. cbn [put run]. destruct (fw_write [c] w) as (r & w1 & -> & _ & O1 & C1 & I1).
  destruct (IH w1) as (w' & -> & O2 & C2 & I2). exists w'. split; [done|]. rewrite O2, O1, C2, C1, I2, I1, <- app_assoc. done.
Qed.

Lemma uprintf_ok fmt ap text k w : printf fmt ap = Some text -> exists w', runs (uprintf 1 fmt ap k) w = runs k w' /\ output w' = output w ++ text /\ contents w' = contents w /\ input w' = input w.
Proof. intros E. unfold uprintf. rewrite E. apply put_ok. Qed.

Lemma cat_ok fd k cs : forall fuel w, input w fd = cs -> pieces_ok cs -> (length cs < fuel)%nat ->
  exists w', runs (cat fuel fd k) w = runs k w' /\ output w' = output w ++ concat cs /\ contents w' = contents w.
Proof.
  induction cs as [|c cs IH]; intros [|fuel] w Hi Hc Hf; try (simpl in Hf; lia); cbn [cat run].
  - destruct (fw_read_end fd 512 w Hi) as (r & w1 & -> & Hv & O1 & C1). rewrite Hv. simpl. exists w1. by rewrite app_nil_r.
  - apply Forall_cons in Hc as [Hlen Hc]. destruct (fw_read fd 512 w c cs Hi Hlen) as (r & w1 & -> & Hv & Hb & O1 & C1 & I1). rewrite Hv, Hb.
    rewrite (proj2 (Z.ltb_lt _ _)) by lia. rewrite Nat2Z.id, firstn_all. cbn [run]. destruct (fw_write c w1) as (r2 & w2 & -> & Hv2 & O2 & C2 & I2).
    rewrite Hv2, Z.eqb_refl. cbn [negb]. destruct (IH fuel w2) as (w' & E & O3 & C3); [by rewrite I2|done|simpl in Hf; lia|].
    exists w'. split; [exact E|]. rewrite O3, O2, O1, C3, C2, C1. cbn [concat]. by rewrite app_assoc.
Qed.

Lemma wc_ok fd name k cs : forall fuel w s, input w fd = cs -> pieces_ok cs -> (length cs < fuel)%nat -> let s' := fold_left wc_byte (concat cs) s in
  forall text, printf (str "%d %d %d %s" ++ [10]) [Word (wl s'); Word (ww s'); Word (wch s'); Ptr name] = Some text ->
  exists w', runs (wc fuel fd name s k) w = runs k w' /\ output w' = output w ++ text /\ contents w' = contents w.
Proof.
  induction cs as [|c cs IH]; intros [|fuel] w s Hi Hc Hf s' text Ht; try (simpl in Hf; lia); cbn [wc run].
  - destruct (fw_read_end fd 512 w Hi) as (r & w1 & -> & Hv & O1 & C1). rewrite Hv. change (0 <? 0) with false. cbv iota.
    destruct (uprintf_ok _ _ _ k w1 Ht) as (w' & E & O2 & C2 & _). exists w'. split; [exact E|]. by rewrite O2, O1, C2, C1.
  - apply Forall_cons in Hc as [Hlen Hc]. destruct (fw_read fd 512 w c cs Hi Hlen) as (r & w1 & -> & Hv & Hb & O1 & C1 & I1). rewrite Hv, Hb.
    rewrite (proj2 (Z.ltb_lt _ _)) by lia. rewrite Nat2Z.id, firstn_all. cbn [concat] in s'. subst s'. rewrite fold_left_app in Ht.
    destruct (IH fuel w1 (fold_left wc_byte c s) I1 Hc ltac:(simpl in Hf; lia) text Ht) as (w' & E & O2 & C2). exists w'. split; [exact E|]. by rewrite O2, O1, C2, C1.
Qed.

(** The files of a command line, one after the other until one cannot be
    opened. *)
Fixpoint outcome_of (show miss : path -> list (list Z) -> list Z) (fs : path -> option (list (list Z))) (args : list path) : list Z :=
  match args with
  | [] => []
  | a :: args => match fs a with Some cs => show a cs ++ outcome_of show miss fs args | None => miss a [] end
  end.

Lemma each_files args (body : Z -> path -> uprog -> uprog) (missing : path -> uprog) show miss fs :
  (forall a w, a ∈ args -> exists w', runs (missing a) w = Some w' /\ output w' = output w ++ miss a []) ->
  (forall fd a cs k w, a ∈ args -> fs a = Some cs -> input w fd = cs -> exists w', runs (body fd a k) w = runs k w' /\ output w' = output w ++ show a cs /\ contents w' = contents w) ->
  forall w, contents w = fs ->
  exists w', runs (each args (fun a k => Call (COpen a 0) (fun fd => if val fd <? 0 then missing a else body (val fd) a (Call (CClose (val fd)) (fun _ => k)))) Halt) w = Some w' /\
    output w' = output w ++ outcome_of show miss fs args.
Proof.
  intros Hmiss Hbody. induction args as [|a args IH]; intros w Hw; [exists w; by rewrite app_nil_r|]. cbn [each run outcome_of].
  destruct (fw_open a w) as (r & w1 & -> & O1 & C1 & Hr). rewrite Hw in Hr. destruct (fs a) as [cs|] eqn:Ea.
  - destruct Hr as [Hv Hi]. rewrite (proj2 (Z.ltb_ge _ _)) by lia. edestruct (Hbody (val r) a cs) as (w2 & E2 & O2 & C2); [by left|done|exact Hi|]. rewrite E2. cbn [run].
    destruct (fw_close (val r) w2) as (r3 & w3 & -> & O3 & C3). destruct (IH) with (w := w3) as (w' & E & O4).
    + intros b w0 Hb. apply Hmiss. by right.
    + intros fd b cs0 k w0 Hb. apply Hbody. by right.
    + by rewrite C3, C2, C1.
    + exists w'. split; [exact E|]. by rewrite O4, O3, O2, O1, app_assoc.
  - rewrite Hr. change (-1 <? 0) with true. cbv iota. destruct (Hmiss a w1 ltac:(by left)) as (w' & E & O2). exists w'. split; [exact E|]. by rewrite O2, O1.
Qed.
End programs.

(* ------------------------------------------------------------------ *)
(** * What they print *)

Definition cannot_open (prog : string) (a : path) : list Z := str prog ++ str ": cannot open " ++ a ++ [10].

Lemma cat_message a : printf (str "cat: cannot open %s" ++ [10]) [Ptr a] = Some (cannot_open "cat" a).
Proof. reflexivity. Qed.
Lemma wc_message a : printf (str "wc: cannot open %s" ++ [10]) [Ptr a] = Some (cannot_open "wc" a).
Proof. reflexivity. Qed.

(** The line that [wc] prints. *)
Definition dec (z : Z) : list Z := uprintint z 10 true.
Definition wc_line (l w c : Z) (name : path) : list Z := dec l ++ [32] ++ dec w ++ [32] ++ dec c ++ [32] ++ name ++ [10].

Lemma wc_text l w c name : printf (str "%d %d %d %s" ++ [10]) [Word l; Word w; Word c; Ptr name] = Some (wc_line l w c name).
Proof. reflexivity. Qed.

(** The words of a text: the fields between separators that are not empty. *)
Fixpoint fields (l : list Z) : list (list Z) :=
  match l with
  | [] => [[]]
  | c :: l => if bool_decide (c ∈ seps) then [] :: fields l else match fields l with f :: fs => (c :: f) :: fs | [] => [[c]] end
  end.
Definition words (l : list Z) : list (list Z) := filter (fun f => f <> []) (fields l).
Definition newlines (l : list Z) : list Z := filter (fun c => c = 10) l.

Lemma fields_cons l : exists f fs, fields l = f :: fs.
Proof. induction l as [|c l (f & fs & E)]; simpl; [by exists [], []|]. rewrite E. case_bool_decide; [by exists [], (f :: fs)|by exists (c :: f), fs]. Qed.

(** The state after a text, [b] telling whether a word goes on from before it. *)
Lemma wc_fold l : forall s, fold_left wc_byte l s =
  Counts (wl s + Z.of_nat (length (newlines l)))
    (ww s + Z.of_nat (length (words l)) - (if inword s then match fields l with (_ :: _) :: _ => 1 | _ => 0 end else 0))
    (wch s + Z.of_nat (length l)) (match l with [] => inword s | _ => bool_decide (List.last l 0 ∉ seps) end).
Proof.
  induction l as [|c l IH]; intros s; cbn [fold_left].
  { assert (words [] = []) as -> by reflexivity. destruct s as [a b c []]; cbn [wl ww wch inword fields newlines length Z.of_nat]; f_equal; cbn; lia. }
  assert (Hlast : forall b, (match l with [] => b | _ => bool_decide (List.last l 0 ∉ seps) end) = match l with [] => b | _ => bool_decide (List.last (c :: l) 0 ∉ seps) end) by (intros b; by destruct l).
  assert (Hnl : wl (wc_byte s c) + Z.of_nat (length (newlines l)) = wl s + Z.of_nat (length (newlines (c :: l)))).
  { unfold newlines. rewrite filter_cons. unfold wc_byte. cbv zeta. destruct (Z.eqb_spec c 10) as [->|Hc]; [rewrite decide_True by done|rewrite decide_False by done]; repeat case_match; cbn [wl length]; lia. }
  rewrite IH, Hlast, Hnl. destruct (fields_cons l) as (f & fs & Ef). unfold words. cbn [fields]. rewrite Ef. unfold wc_byte. cbv zeta.
  destruct (bool_decide (c ∈ seps)) eqn:Hsep; [apply bool_decide_eq_true in Hsep|apply bool_decide_eq_false in Hsep].
  - cbn [ww wch inword length]. rewrite (filter_cons_False _ _ (f :: fs)) by naive_solver. f_equal; [destruct (inword s); lia|lia|].
    destruct l; [|done]. cbn [List.last]. symmetry. apply bool_decide_false. tauto.
  - rewrite (filter_cons_True _ (c :: f)) by done.
    assert (Hf : Z.of_nat (length (filter (fun x => x <> []) (f :: fs))) = Z.of_nat (length (filter (fun x => x <> []) fs)) + match f with [] => 0 | _ => 1 end).
    { rewrite filter_cons. destruct f; [rewrite decide_False by naive_solver; lia|rewrite decide_True by done; cbn [length]; lia]. }
    destruct (inword s); cbn [negb ww wch inword length]; (f_equal; [rewrite Hf; destruct f; lia|lia|]); (destruct l; [|done]); cbn [List.last]; symmetry; by apply bool_decide_true.
Qed.

Lemma wc_total l : fold_left wc_byte l (Counts 0 0 0 false) =
  Counts (Z.of_nat (length (newlines l))) (Z.of_nat (length (words l))) (Z.of_nat (length l)) (match l with [] => false | _ => bool_decide (List.last l 0 ∉ seps) end).
Proof. rewrite wc_fold. cbn [wl ww wch inword]. f_equal; lia. Qed.

(** The files that a command line names have pieces a read can bring, fewer than
    [fuel]. *)
Definition readable (fuel : nat) (fs : path -> option (list (list Z))) (args : list path) : Prop :=
  forall a cs, a ∈ args -> fs a = Some cs -> pieces_ok cs /\ (length cs < fuel)%nat.

(** [cat] of some files writes their contents to its output, one after the
    other and whatever the sizes of the pieces in which they are read; it stops
    with a message at the first file that cannot be opened. *)
Theorem cat_copies {W} (serve : call -> W -> reply * W) `{FileWorld W serve} (fuel : nat) (args : list path) (w : W) :
  args <> [] -> readable fuel (contents w) args ->
  exists w', run serve (cat_main fuel args) w = Some w' /\
    output w' = output w ++ outcome_of (fun _ cs => concat cs) (fun a _ => cannot_open "cat" a) (contents w) args.
Proof.
  intros Hne Hr. unfold cat_main. destruct args as [|a0 args]; [done|].
  apply (each_files serve (a0 :: args) (fun fd a k => cat fuel fd k) (fun a => uprintf 1 (str "cat: cannot open %s" ++ [10]) [Ptr a] Halt)); [| |done].
  - intros a w0 _. destruct (uprintf_ok serve _ _ _ Halt w0 (cat_message a)) as (w' & E & O & _ & _). by exists w'.
  - intros fd a cs k w0 Ha Hfs Hi. destruct (Hr a cs Ha Hfs). by apply (cat_ok serve fd k cs).
Qed.

(** [wc] of some files prints for each the number of newlines, of words (the
    non-empty fields between separators) and of bytes, wherever the reads cut
    the text; it stops with a message at the first file that cannot be
    opened. *)
Theorem wc_counts {W} (serve : call -> W -> reply * W) `{FileWorld W serve} (fuel : nat) (args : list path) (w : W) :
  args <> [] -> readable fuel (contents w) args ->
  exists w', run serve (wc_main fuel args) w = Some w' /\
    output w' = output w ++ outcome_of
      (fun a cs => let l := concat cs in wc_line (Z.of_nat (length (newlines l))) (Z.of_nat (length (words l))) (Z.of_nat (length l)) a)
      (fun a _ => cannot_open "wc" a) (contents w) args.
Proof.
  intros Hne Hr. unfold wc_main. destruct args as [|a0 args]; [done|].
  apply (each_files serve (a0 :: args) (fun fd a k => wc fuel fd a (Counts 0 0 0 false) k) (fun a => uprintf 1 (str "wc: cannot open %s" ++ [10]) [Ptr a] Halt)); [| |done].
  - intros a w0 _. destruct (uprintf_ok serve _ _ _ Halt w0 (wc_message a)) as (w' & E & O & _ & _). by exists w'.
  - intros fd a cs k w0 Ha Hfs Hi. destruct (Hr a cs Ha Hfs). apply (wc_ok serve fd a k cs); [done|done|done|]. rewrite wc_total. apply wc_text.
Qed.

(** [echo] writes its arguments with blanks between them. *)
Fixpoint joined (args : list path) : list Z :=
  match args with [] => [] | [a] => a ++ [10] | a :: args => a ++ [32] ++ joined args end.

Lemma echo_prints {W} (serve : call -> W -> reply * W) `{FileWorld W serve} (args : list path) : forall w : W,
  exists w', run serve (echo_main args) w = Some w' /\ output w' = output w ++ joined args.
Proof.
  induction args as [|a args IH]; intros w; [exists w; by rewrite app_nil_r|]. cbn [echo_main joined].
  edestruct (uprintf_ok serve (str "%s%s") [Ptr a; Ptr (match args with [] => [10] | _ => [32] end)]) as (w1 & E1 & O1 & _ & _); [reflexivity|]. rewrite E1.
  destruct (IH w1) as (w' & E2 & O2). exists w'. split; [exact E2|]. rewrite O2, O1, <- !app_assoc. destruct args; [done|]. done.
Qed.

(** ** A kernel with files *)

Record small := Small { sm_files : list (path * list (list Z)); sm_fd : list (list (list Z)); sm_out : list Z }.

Definition sm_lookup (s : small) (a : path) : option (list (list Z)) := snd <$> List.find (fun f => bool_decide (fst f = a)) (sm_files s).
Definition sm_input (s : small) (fd : Z) : list (list Z) := if fd <? 0 then [] else nth (Z.to_nat fd) (sm_fd s) [].
Definition no_stat : stat := Stat 0 0 0 0 0.

Definition sm_serve (c : call) (s : small) : reply * small :=
  match c with
  | CWrite 1 p => (Reply (Z.of_nat (length p)) [] no_stat, Small (sm_files s) (sm_fd s) (sm_out s ++ p))
  | CRead fd n =>
      match sm_input s fd with
      | [] => (Reply 0 [] no_stat, s)
      | c :: cs => (Reply (Z.of_nat (length c)) c no_stat, Small (sm_files s) (<[Z.to_nat fd := cs]> (sm_fd s)) (sm_out s))
      end
  | COpen f _ =>
      match sm_lookup s f with
      | Some cs => (Reply (Z.of_nat (length (sm_fd s))) [] no_stat, Small (sm_files s) (sm_fd s ++ [cs]) (sm_out s))
      | None => (Reply (-1) [] no_stat, s)
      end
  | _ => (Reply 0 [] no_stat, s)
  end.

#[export] Instance small_world : FileWorld small sm_serve.
Proof.
  refine {| contents := sm_lookup; input := sm_input; output := sm_out |}.
  - intros p w. do 2 eexists. split; [reflexivity|]. done.
  - intros fd n w c cs Hi Hc. do 2 eexists. split; [cbn [sm_serve]; rewrite Hi; reflexivity|]. cbn [val bytes]. do 2 (split; [done|]). split; [done|]. split; [done|].
    unfold sm_input in *. cbn [sm_fd]. destruct (fd <? 0); [done|]. rewrite nth_lookup in *. rewrite list_lookup_insert_eq; [done|].
    apply lookup_lt_is_Some. destruct (sm_fd w !! Z.to_nat fd); [by eexists|done].
  - intros fd n w Hi. do 2 eexists. split; [cbn [sm_serve]; rewrite Hi; reflexivity|]. done.
  - intros f w. cbn [sm_serve]. destruct (sm_lookup w f) as [cs|]; do 2 eexists; (split; [reflexivity|]); (split; [done|]); (split; [done|]); [|done].
    cbn [val]. split; [lia|]. unfold sm_input. cbn [sm_fd]. rewrite (proj2 (Z.ltb_ge _ _)) by lia. rewrite Nat2Z.id, app_nth2, Nat.sub_diag by lia. done.
  - intros fd w. do 2 eexists. split; [reflexivity|]. done.
Defined.

(** Two files; the second comes in pieces that cut a word. *)
Definition demo_small : small := Small [([97], [[104; 105; 10]]); ([98], [[120; 32; 121]; [122; 10; 49]])] [] [].

Lemma demo_readable : readable 3 (sm_lookup demo_small) [[97]; [98]; [99]].
Proof.
  intros a cs _ Hl. assert (Hc : cs ∈ [[[104; 105; 10]]; [[120; 32; 121]; [122; 10; 49]]]).
  { unfold sm_lookup in Hl. simpl in Hl. repeat case_bool_decide; simpl in Hl; try discriminate Hl; injection Hl as <-; set_solver. }
  rewrite !elem_of_cons, elem_of_nil in Hc. destruct Hc as [-> | [-> | []]]; (split; [repeat (apply Forall_cons; split; [simpl; lia|]); apply Forall_nil; exact I|simpl; lia]).
Qed.

Lemma cat_copies_witness : exists w', run sm_serve (cat_main 3 [[97]; [98]; [99]]) demo_small = Some w' /\
  sm_out w' = [104; 105; 10; 120; 32; 121; 122; 10; 49] ++ cannot_open "cat" [99].
Proof. destruct (cat_copies sm_serve 3 [[97]; [98]; [99]] demo_small) as (w' & E & O); [discriminate|exact demo_readable|]. exists w'. split; [exact E|]. etrans; [exact O|]. vm_compute. reflexivity. Defined.

Lemma wc_counts_witness : exists w', run sm_serve (wc_main 3 [[97]; [98]]) demo_small = Some w' /\ sm_out w' = wc_line 1 1 3 [97] ++ wc_line 1 3 6 [98].
Proof.
  destruct (wc_counts sm_serve 3 [[97]; [98]] demo_small) as (w' & E & O); [discriminate|intros a cs Ha; apply demo_readable; set_solver|].
  exists w'. split; [exact E|]. etrans; [exact O|]. vm_compute. reflexivity.
Defined.

(** ** The names that [ls] prints *)

Lemma fmt_scan_ok p n : (n <= length p)%nat -> (fmt_scan n p <= n)%nat /\ Forall (fun c => c <> 47) (take (n - fmt_scan n p) (drop (fmt_scan n p) p)) /\
  (fmt_scan n p = 0%nat \/ p !! (fmt_scan n p - 1)%nat = Some 47).
Proof.
  induction n as [|i IH]; intros Hn; [split; [simpl; lia|]; split; [by constructor|by left]|]. cbn [fmt_scan].
  destruct (lookup_lt_is_Some_2 p i ltac:(lia)) as [c Hc]. rewrite (nth_lookup_Some _ _ _ _ Hc). destruct (Z.eqb_spec c 47) as [->|Hne].
  - split; [lia|]. split; [rewrite Nat.sub_diag; by constructor|]. right. by replace (S i - 1)%nat with i by lia.
  - destruct (IH ltac:(lia)) as (H1 & H2 & H3). split; [lia|]. split; [|done]. replace (S i - fmt_scan i p)%nat with (S (i - fmt_scan i p)) by lia.
    rewrite (take_S_r _ _ c); [apply Forall_app; split; [done|by constructor]|]. rewrite lookup_drop. by replace (fmt_scan i p + (i - fmt_scan i p))%nat with i by lia.
Qed.

(** [fmtname] gives what follows the last slash, padded with blanks to 14
    characters. *)
Theorem fmtname_last p : exists dir base, p = dir ++ base /\ Forall (fun c => c <> 47) base /\ (dir = [] \/ List.last dir 0 = 47) /\
  fmtname p = base ++ replicate (14 - length base) 32.
Proof.
  set (n := fmt_scan (length p) p). destruct (fmt_scan_ok p (length p) ltac:(lia)) as (H1 & H2 & H3). fold n in H1, H2, H3. exists (take n p), (drop n p). split; [by rewrite take_drop|].
  split; [by rewrite take_ge in H2 by (rewrite length_drop; lia)|]. split.
  - clearbody n. destruct n as [|i]; [by left|right]. destruct H3 as [H3|H3]; [lia|]. replace (S i - 1)%nat with i in H3 by lia. rewrite (take_S_r _ _ _ H3). apply last_last.
  - unfold fmtname. cbn [fmt_scan]. rewrite (nth_overflow p) by lia. change (0 =? 47) with false. cbv iota. fold n. change DIRSIZ with 14%nat.
    destruct (Nat.leb_spec 14 (length (drop n p))) as [Hl|Hl]; [|done]. replace (14 - length (drop n p))%nat with 0%nat by lia. by rewrite app_nil_r.
Qed.

(* ------------------------------------------------------------------ *)
(** * init *)

(** The calls of a process so far, with their answers, and what is left of it. *)
Inductive trace : uprog -> list (call * reply) -> uprog -> Prop :=
| trace_nil p : trace p [] p
| trace_call c k r tr q : trace (k r) tr q -> trace (Call c k) ((c, r) :: tr) q.

(** The shell of [init]: the last process it made that has not been waited for,
    unless there was none to wait for. *)
Definition shell_after (sh : option Z) (e : call * reply) : option Z :=
  match e with
  | (CFork, r) => if 0 <? val r then Some (val r) else sh
  | (CWait, r) => if bool_decide (sh = Some (val r)) || (val r <? 0) then None else sh
  | _ => sh
  end.

(** [failed] tells whether a fork has failed, or this is the child. *)
Definition safe (sh : option Z) (failed : bool) (p : uprog) : Prop := forall tr q, trace p tr q ->
  (forall k, q = Call CFork k -> fold_left shell_after tr sh = None) /\
  (q = Halt -> failed = true \/ exists r, (CFork, r) ∈ tr /\ val r <= 0).

Lemma safe_call sh failed c k : (c = CFork -> sh = None) -> (forall r, safe (shell_after sh (c, r)) (failed || bool_decide (c = CFork /\ val r <= 0)) (k r)) -> safe sh failed (Call c k).
Proof.
  intros Hc Hk tr q Ht. inversion Ht as [p|c' k' r tr' q' Ht']; subst.
  - split; [intros k' [= -> _]; by apply Hc|done].
  - destruct (Hk r tr' q Ht') as [H1 H2]. split; [done|]. intros Hq. destruct (H2 Hq) as [Hf|(r' & Hin & Hr)]; [|right; exists r'; split; [by right|done]].
    apply orb_true_iff in Hf as [Hf|[-> Hr]%bool_decide_eq_true]; [by left|]. right. exists r. split; [by left|done].
Qed.

Lemma safe_stuck sh failed : safe sh failed Stuck.
Proof. intros tr q Ht. inversion Ht; subst. done. Qed.

Lemma safe_halt sh : safe sh true Halt.
Proof. intros tr q Ht. inversion Ht; subst. split; [done|by left]. Qed.

(** A call that is neither a fork nor a wait. *)
Lemma safe_other sh failed c k : c <> CFork -> c <> CWait -> (forall r, safe sh failed (k r)) -> safe sh failed (Call c k).
Proof.
  intros Hf Hw Hk. apply safe_call; [done|]. intros r. replace (shell_after sh (c, r)) with sh by (by destruct c). rewrite bool_decide_false, orb_false_r by tauto. done.
Qed.

Lemma safe_printf sh failed fmt ap k : safe sh failed k -> safe sh failed (uprintf 1 fmt ap k).
Proof.
  intros Hk. unfold uprintf. destruct (printf fmt ap) as [text|]; [|apply safe_stuck]. induction text as [|c text IH]; [done|]. cbn [put]. by apply safe_other.
Qed.

Lemma init_wait_safe fuel pid k : 0 < pid -> safe None false k -> safe (Some pid) false (init_wait fuel pid k).
Proof.
  intros Hp Hk. induction fuel as [|fuel IH]; [apply safe_stuck|]. cbn [init_wait]. apply safe_call; [done|]. intros r. cbn [shell_after]. rewrite (bool_decide_false (CWait = CFork /\ _)) by (by intros []).
  destruct (Z.leb_spec 0 (val r)); cbn [andb].
  - destruct (Z.eqb_spec (val r) pid) as [->|Hne]; cbn [negb]; [by rewrite bool_decide_true|]. rewrite bool_decide_false by congruence. rewrite (proj2 (Z.ltb_ge _ _)) by lia. by apply safe_printf.
  - rewrite (proj2 (Z.ltb_lt _ _)), orb_true_r by lia. done.
Qed.

Lemma init_loop_safe rounds fuel : safe None false (init_loop rounds fuel).
Proof.
  induction rounds as [|rounds IH]; [apply safe_stuck|]. cbn [init_loop]. apply safe_printf, safe_call; [done|]. intros r. cbn [shell_after]. destruct (Z.ltb_spec (val r) 0).
  - rewrite (proj2 (Z.ltb_ge _ _)) by lia. rewrite bool_decide_true by (split; [done|lia]). apply safe_printf, safe_halt.
  - destruct (Z.eqb_spec (val r) 0) as [E|Hne].
    + rewrite E. rewrite bool_decide_true by done. apply safe_other; [done|done|]. intros r'. apply safe_printf, safe_halt.
    + rewrite (proj2 (Z.ltb_lt _ _)) by lia. rewrite bool_decide_false by (intros [_ ?]; lia). apply init_wait_safe; [lia|done].
Qed.

(** C30: whatever the kernel answers, [init] makes a new shell only when it has no
    shell: the last one has been waited for, or there was no child left; and it
    ends only after a fork that failed, or as the child. *)
Theorem init_one_shell (rounds fuel : nat) (tr : list (call * reply)) (q : uprog) : trace (init_main rounds fuel) tr q ->
  (forall k, q = Call CFork k -> fold_left shell_after tr None = None) /\ (q = Halt -> exists r, (CFork, r) ∈ tr /\ val r <= 0).
Proof.
  intros Ht. assert (Hs : safe None false (init_main rounds fuel)).
  { unfold init_main. cbv zeta. assert (Hgo : safe None false (Call (CDup 0) (fun _ => Call (CDup 0) (fun _ => init_loop rounds fuel)))) by (do 2 (apply safe_other; [done|done|]; intros _); apply init_loop_safe).
    apply safe_other; [done|done|]. intros fd. destruct (val fd <? 0); [|done]. do 2 (apply safe_other; [done|done|]; intros _). done. }
  destruct (Hs tr q Ht) as [H1 H2]. split; [done|]. intros Hq. by destruct (H2 Hq).
Qed.

(** Init finds the console missing, starts a shell as process 2, collects an
    orphan, and is about to start another shell after the first one's end. *)
Fixpoint answers (rs : list reply) (p : uprog) : list (call * reply) * uprog :=
  match rs, p with r :: rs, Call c k => let '(tr, q) := answers rs (k r) in ((c, r) :: tr, q) | _, _ => ([], p) end.

Lemma answers_trace rs : forall p, trace p (fst (answers rs p)) (snd (answers rs p)).
Proof.
  induction rs as [|r rs IH]; intros p; [by constructor|]. destruct p as [| |c k]; [constructor..|]. cbn [answers]. specialize (IH (k r)). destruct (answers rs (k r)). by constructor.
Qed.

Definition ok (z : Z) : reply := Reply z [] no_stat.
Definition demo_replies : list reply := [ok (-1); ok 0; ok 0; ok 1; ok 2] ++ replicate 18 (ok 1) ++ [ok 2; ok 7] ++ replicate 8 (ok 1) ++ [ok 2] ++ replicate 18 (ok 1).

Lemma init_one_shell_witness : exists k, snd (answers demo_replies (init_main 2 3)) = Call CFork k /\ fold_left shell_after (fst (answers demo_replies (init_main 2 3))) None = None.
Proof.
  destruct (init_one_shell 2 3 _ _ (answers_trace demo_replies (init_main 2 3))) as [H _]. eexists. split; [vm_compute; reflexivity|]. eapply H. vm_compute. reflexivity.
Defined.
