(* ===== verification/Grep.v ===== *)
(** grep (src/grep.c): the matcher for patterns with [^ . * $], and the loop that
    reads a file in pieces and prints the lines that match.

    C strings are the lists of their bytes, without the NUL.  [denote] is the
    reference meaning of a pattern, by the pieces of the text that its items
    match. *)

From S2P Require Import Prelude.

(* ------------------------------------------------------------------ *)
(** * The matcher *)

(** Character constants: [* . $ ^], newline. *)
Definition STAR : Z := 42.
Definition DOT : Z := 46.
Definition DOLLAR : Z := 36.
Definition CARET : Z := 94.
Definition NL : Z := 10.

(** The loop of [matchstar]; [here] is [matchhere] of the rest of the pattern. *)

(* src/grep.c:98-106 matchstar *)
Fixpoint matchstar (here : list Z -> bool) (c : Z) (text : list Z) : bool :=
  here text ||
  match text with
  | [] => false
  | x :: text => ((x =? c) || (c =? DOT)) && matchstar here c text
  end.

(* src/grep.c:84-96 matchhere *)
Fixpoint matchhere (re text : list Z) : bool :=
  match re with
  | [] => true
  | c :: re1 =>
      let step :=
        match text with
        | x :: text => ((c =? DOT) || (c =? x)) && matchhere re1 text
        | [] => false
        end in
      match re1 with
      | [] => if c =? DOLLAR then bool_decide (text = []) else step
      | d :: re2 => if d =? STAR then matchstar (matchhere re2) c text else step
      end
  end.

(** The loop of [match], which looks at the empty rest too. *)

(* src/grep.c:76-80 match *)
Fixpoint match_loop (re text : list Z) : bool :=
  matchhere re text || match text with [] => false | _ :: text => match_loop re text end.

(* src/grep.c:71-82 match *)
Definition match_ (re text : list Z) : bool :=
  match re with
  | c :: re' => if c =? CARET then matchhere re' text else match_loop re text
  | [] => match_loop re text
  end.

(* ------------------------------------------------------------------ *)
(** * What a pattern means *)

(** The items of a pattern: a character or any, repeated or not, and the end of
    the text. *)
Inductive item := One (c : Z) | Many (c : Z) | End.

Fixpoint items (re : list Z) : list item :=
  match re with
  | [] => []
  | c :: re1 =>
      match re1 with
      | [] => [if c =? DOLLAR then End else One c]
      | d :: re2 => if d =? STAR then Many c :: items re2 else One c :: items re1
      end
  end.

(** A character of the pattern stands for itself, the dot for every character. *)
Definition stands (c x : Z) : Prop := c = DOT \/ c = x.

(** The items match the text [u], which the text [v] follows. *)
Fixpoint denote (its : list item) (u v : list Z) : Prop :=
  match its with
  | [] => u = []
  | One c :: its => exists x u', u = x :: u' /\ stands c x /\ denote its u' v
  | Many c :: its => exists a b, u = a ++ b /\ Forall (stands c) a /\ denote its b v
  | End :: its => u = [] /\ v = [] /\ denote its u v
  end.

Lemma stands_spec c x : (c =? DOT) || (c =? x) = true <-> stands c x.
Proof. unfold stands. rewrite orb_true_iff, !Z.eqb_eq. done. Qed.

Lemma stands_spec' c x : (x =? c) || (c =? DOT) = true <-> stands c x.
Proof. unfold stands. rewrite orb_true_iff, !Z.eqb_eq. intuition congruence. Qed.

(** A match at the beginning of a text. *)
Definition prefix_match (its : list item) (text : list Z) : Prop := exists u v, text = u ++ v /\ denote its u v.

Lemma matchstar_spec here its c text : (forall t, here t = true <-> prefix_match its t) ->
  matchstar here c text = true <-> prefix_match (Many c :: its) text.
Proof.
  intros Hh. induction text as [|x text IH]; cbn [matchstar]; rewrite orb_true_iff, Hh.
  - split.
    + intros [(u & v & E & Hd)|]; [|done]. exists u, v. split; [done|]. exists [], u. done.
    + intros (u & v & E & a & b & -> & _ & Hd). left. exists b, v. destruct a; [done|]. done.
  - rewrite andb_true_iff, IH, stands_spec'. split.
    + intros [(u & v & E & Hd)|(Hs & u & v & -> & a & b & -> & Ha & Hd)].
      * exists u, v. split; [done|]. by exists [], u.
      * exists (x :: a ++ b), v. split; [done|]. exists (x :: a), b. split; [done|]. by split; [constructor|].
    + intros (u & v & E & a & b & -> & Ha & Hd). destruct a as [|y a].
      * left. by exists b, v.
      * right. injection E as -> ->. apply Forall_cons in Ha as [Hy Ha]. split; [done|].
        exists (a ++ b), v. split; [done|]. by exists a, b.
Qed.

Lemma matchhere_spec n : forall re text, (length re <= n)%nat -> matchhere re text = true <-> prefix_match (items re) text.
Proof.
  induction n as [|n IH]; intros re text Hn; (destruct re as [|c re1]; [|simpl in Hn]).
  - split; [|done]. intros _. by exists [], text.
  - lia.
  - split; [|done]. intros _. by exists [], text.
  - assert (Hstep : forall its, (forall t, matchhere re1 t = true <-> prefix_match its t) ->
      match text with x :: text => ((c =? DOT) || (c =? x)) && matchhere re1 text | [] => false end = true <->
      prefix_match (One c :: its) text).
    { intros its Hits. destruct text as [|x text]; [split; [done|]; intros (u & v & E & x & u' & -> & _); done|].
      rewrite andb_true_iff, stands_spec, Hits. split.
      - intros (Hs & u & v & -> & Hd). exists (x :: u), v. split; [done|]. by exists x, u.
      - intros (u & v & E & y & u' & -> & Hs & Hd). injection E as -> ->. split; [done|]. by exists u', v. }
    destruct re1 as [|d re2]; cbn [matchhere items].
    + destruct (c =? DOLLAR).
      * rewrite bool_decide_eq_true. split.
        -- intros ->. by exists [], [].
        -- intros (u & v & -> & -> & -> & _). done.
      * apply (Hstep []). intros t. split; [intros _; by exists [], t|done].
    + destruct (d =? STAR).
      * apply matchstar_spec. intros t. apply IH. simpl in Hn. lia.
      * apply Hstep. intros t. apply IH. lia.
Qed.

(** C27: [match] finds a pattern in a text exactly when a piece of the text is what
    the pattern means: items one after the other, a star for any number of
    repetitions, the dollar sign for the end of the text, and a caret at the
    front for its beginning. *)
Theorem match_correct re text :
  match_ re text = true <->
  exists pre u post, text = pre ++ u ++ post /\
    match re with
    | c :: re' => if c =? CARET then pre = [] /\ denote (items re') u post else denote (items re) u post
    | [] => u = []
    end.
Proof.
  assert (Hloop : forall re text, match_loop re text = true <-> exists pre u post, text = pre ++ u ++ post /\ denote (items re) u post).
  { clear. intros re text. induction text as [|x text IH]; cbn [match_loop]; rewrite orb_true_iff, (matchhere_spec (length re)) by done.
    - split.
      + intros [(u & v & E & Hd)|]; [|done]. by exists [], u, v.
      + intros (pre & u & post & E & Hd). left. exists u, post. destruct pre; [done|]. done.
    - rewrite IH. split.
      + intros [(u & v & E & Hd)|(pre & u & post & -> & Hd)]; [by exists [], u, v|by exists (x :: pre), u, post].
      + intros (pre & u & post & E & Hd). destruct pre as [|y pre]; [left; by exists u, post|].
        right. injection E as -> ->. by exists pre, u, post. }
  unfold match_. destruct re as [|c re]; [apply Hloop|]. destruct (c =? CARET); [|apply Hloop].
  rewrite (matchhere_spec (length re)) by done. split.
  - intros (u & v & E & Hd). by exists [], u, v.
  - intros (pre & u & post & E & -> & Hd). by exists u, post.
Qed.

(* ------------------------------------------------------------------ *)
(** * The loop over a file *)

(** [strchr(p, '\n')]: the bytes before the newline and those after it; a NUL
    ends the search. *)

(* src/ulib.c:43-50 strchr *)
Fixpoint strchr_nl (p : list Z) : option (list Z * list Z) :=
  match p with
  | [] => None
  | x :: p => if x =? 0 then None else if x =? NL then Some ([], p) else '(l, r) ← strchr_nl p; Some (x :: l, r)
  end.

(** The loop over the lines in the buffer: the writes, and the bytes from [p] on
    at the end.  Each turn takes at least a byte. *)

(* src/grep.c:21-28 grep *)
Fixpoint print_lines (fuel : nat) (pattern p : list Z) : list (list Z) * list Z :=
  match fuel with
  | O => ([], p)
  | S fuel' =>
      match strchr_nl p with
      | None => ([], p)
      | Some (line, rest) =>
          let '(out, p) := print_lines fuel' pattern rest in
          (if match_ pattern line then (line ++ [NL]) :: out else out, p)
      end
  end.

(** The loop over the reads: [reads] are the numbers of bytes that the calls of
    [read] are willing to return, [data] is what is left of the file, [m] the
    bytes kept in the buffer. *)

(* src/grep.c:10-36 grep *)
Fixpoint grep (pattern : list Z) (reads : list nat) (data m : list Z) : list (list Z) :=
  match reads with
  | [] => []
  | k :: reads =>
      let n := Nat.min k (Nat.min (1024 - length m - 1) (length data)) in
      if (n =? 0)%nat then []
      else
        let buf := m ++ take n data in
        let '(out, p) := print_lines (length buf) pattern buf in
        let m := if bool_decide (length p = length buf) then [] else p in
        out ++ grep pattern reads (drop n data) m
  end.

(** The complete lines of a text, and what follows the last newline. *)
Fixpoint lines (l : list Z) : list (list Z) * list Z :=
  match l with
  | [] => ([], [])
  | x :: l =>
      let '(ls, t) := lines l in
      if x =? NL then ([] :: ls, t)
      else match ls with [] => ([], x :: t) | h :: ls => ((x :: h) :: ls, t) end
  end.

Definition text_ok (l : list Z) : Prop := Forall (fun x => x <> 0) l.

Lemma lines_app a b : lines (a ++ b) = (fst (lines a) ++ fst (lines (snd (lines a) ++ b)), snd (lines (snd (lines a) ++ b))).
Proof.
  induction a as [|x a IH]; [by simpl; destruct (lines b)|]. simpl. rewrite IH.
  destruct (lines a) as [[|h ls] t] eqn:E; simpl in *; destruct (x =? NL) eqn:Ex; simpl; rewrite ?Ex; try done.
  destruct (lines (t ++ b)) as [[|h ls] t']; done.
Qed.

Lemma lines_tail l : fst (lines (snd (lines l))) = [] /\ snd (lines (snd (lines l))) = snd (lines l).
Proof.
  induction l as [|x l [IH1 IH2]]; [done|]. simpl. destruct (lines l) as [[|h ls] t]; simpl in *; destruct (x =? NL) eqn:Ex; try done.
  simpl. rewrite Ex. destruct (lines t) as [ls t']. simpl in *. by subst.
Qed.

(** A newline in the first line of a text. *)
Lemma strchr_lines p : text_ok p ->
  match strchr_nl p with
  | None => lines p = ([], p)
  | Some (l, r) => lines p = (l :: fst (lines r), snd (lines r)) /\ (length r < length p)%nat /\ text_ok r
  end.
Proof.
  induction p as [|x p IH]; intros Hp; [done|]. apply Forall_cons in Hp as [Hx Hp]. specialize (IH Hp). simpl.
  destruct (Z.eqb_spec x 0); [done|]. destruct (x =? NL).
  - destruct (lines p) as [ls t]. simpl. split; [done|]. split; [lia|done].
  - destruct (strchr_nl p) as [[l r]|]; simpl.
    + destruct IH as (-> & Hl & Hr). split; [done|]. split; [lia|done].
    + by rewrite IH.
Qed.

Lemma print_lines_ok pattern fuel : forall p, text_ok p -> (length p <= fuel)%nat ->
  print_lines fuel pattern p = ((fun l => l ++ [NL]) <$> filter (fun l => match_ pattern l = true) (fst (lines p)), snd (lines p)).
Proof.
  induction fuel as [|fuel IH]; intros p Hp Hf; [destruct p; [done|simpl in Hf; lia]|]. cbn [print_lines].
  pose proof (strchr_lines p Hp) as H. destruct (strchr_nl p) as [[l r]|].
  - destruct H as (-> & Hl & Hr). rewrite IH by (done || lia). cbn [fst snd]. rewrite filter_cons. 
    destruct (match_ pattern l); [by rewrite decide_True|by rewrite decide_False].
  - by rewrite H.
Qed.

(** A text without a newline before another. *)
Lemma lines_none a b : fst (lines a) = [] ->
  lines (a ++ b) = match fst (lines b) with [] => ([], a ++ snd (lines b)) | h :: ls => ((a ++ h) :: ls, snd (lines b)) end.
Proof.
  induction a as [|x a IH]; intros Ha; [by simpl; destruct (lines b) as [[] t]|]. simpl in *.
  destruct (lines a) as [[|h ls] t] eqn:E; destruct (x =? NL); try done. rewrite IH by done. by destruct (fst (lines b)).
Qed.

Lemma lines_le a : (length (snd (lines a)) <= length a)%nat.
Proof. induction a as [|x a IH]; [done|]. simpl. destruct (lines a) as [[|h ls] t]; destruct (x =? NL); simpl in *; lia. Qed.

Lemma lines_length a : length (snd (lines a)) = length a -> fst (lines a) = [] /\ snd (lines a) = a.
Proof.
  induction a as [|x a IH]; [done|]. pose proof (lines_le a). simpl.
  destruct (lines a) as [[|h ls] t]; destruct (x =? NL); simpl in *; intros Hl; try lia. destruct IH as [_ ->]; [lia|]. done.
Qed.

Definition printed (pattern : list Z) (ls : list (list Z)) : list (list Z) :=
  (fun l => l ++ [NL]) <$> filter (fun l => match_ pattern l = true) ls.

Lemma grep_reads pattern reads : forall data m, Forall (fun k => 1023 <= k)%nat reads -> (length data < length reads)%nat ->
  text_ok (m ++ data) -> (length m <= 1022)%nat -> fst (lines m) = [] ->
  Forall (fun l => length l <= 1022)%nat (fst (lines (m ++ data))) ->
  grep pattern reads data m = printed pattern (fst (lines (m ++ data))).
Proof.
  induction reads as [|k reads IH]; intros data m Hk Hlen Htext Hm Hlm Hshort; [simpl in Hlen; lia|].
  apply Forall_cons in Hk as [Hk Hks]. simpl in Hlen. cbn [grep]. set (n := Nat.min k _).
  assert (Hn : n = Nat.min (1023 - length m) (length data)) by lia. clearbody n.
  destruct (Nat.eqb_spec n 0) as [Hz|Hz].
  { assert (data = []) as -> by (apply length_zero_iff_nil; lia). by rewrite app_nil_r, Hlm. }
  set (buf := m ++ take n data). set (rest := drop n data).
  assert (Es : m ++ data = buf ++ rest) by (unfold buf, rest; by rewrite <- app_assoc, take_drop).
  assert (Hbl : length buf = (length m + n)%nat) by (unfold buf; rewrite length_app, length_take; lia).
  assert (Hrl : length rest = (length data - n)%nat) by (unfold rest; by rewrite length_drop).
  rewrite Es in *. clearbody buf rest. apply Forall_app in Htext as [Htb Htr].
  rewrite print_lines_ok by done. rewrite (lines_app buf rest) in *. cbn [fst snd] in *.
  apply Forall_app in Hshort as [Hs1 Hs2]. unfold printed in *. rewrite filter_app, fmap_app. f_equal.
  destruct (lines_tail buf) as [Ht1 Ht2]. case_bool_decide as Hl.
  - destruct (lines_length buf Hl) as [E1 E2]. rewrite E2 in *. rewrite lines_none in * by done.
    assert (Hnone : fst (lines rest) = []).
    { destruct (fst (lines rest)) as [|h ls] eqn:E; [done|]. cbn [fst] in Hs2. apply Forall_cons in Hs2 as [Hh _].
      rewrite length_app in Hh. assert (rest = []) as -> by (apply length_zero_iff_nil; lia). done. }
    rewrite Hnone. cbn [fst]. rewrite <- Hnone. apply (IH rest []); simpl; rewrite ?Hnone; (done || lia).
  - pose proof (lines_le buf). apply IH; [done|lia| |lia|done|done]. apply Forall_app. split; [|done].
    clear - Htb. revert Htb. induction buf as [|x b IH]; [done|]. intros Hb. apply Forall_cons in Hb as [Hx Hb]. specialize (IH Hb).
    simpl. destruct (lines b) as [[|h ls] t]; destruct (x =? NL); simpl in *; try done. by constructor.
Qed.

(** [grep] of a file prints exactly the lines that match, in order, each with
    its newline, when every read returns as much as it can: no line is cut or
    lost at the end of a buffer as long as it fits one with its newline, and a
    text after the last newline is not a line. *)
Theorem grep_file pattern data : text_ok data -> Forall (fun l => length l <= 1022)%nat (fst (lines data)) ->
  grep pattern (replicate (S (length data)) 1023%nat) data [] = printed pattern (fst (lines data)).
Proof.
  intros Ht Hs. apply grep_reads; simpl; rewrite ?length_replicate; try (done || lia).
  constructor; [lia|]. apply Forall_replicate. lia.
Qed.

Lemma grep_file_witness : grep [97; 42; 98] (replicate 9 1023%nat) [97; 98; 10; 99; 10; 98; 10; 98] [] = [[97; 98; 10]; [98; 10]].
Proof.
  etrans; [apply (grep_file [97; 42; 98] [97; 98; 10; 99; 10; 98; 10; 98])|].
  - repeat (constructor; [lia|]). constructor.
  - simpl. repeat (constructor; [simpl; lia|]). constructor.
  - vm_compute. reflexivity.
Defined.

(** A line that arrives in two reads is lost or cut: when a read brings no
    newline, [grep] throws the buffer away, although the line goes on.  Here the
    line "ab" matches the pattern "a", but it is read in two pieces. *)
Theorem grep_short_read_loses :
  grep [97] [1; 2]%nat [97; 98; 10] [] = [] /\ printed [97] (fst (lines [97; 98; 10])) = [[97; 98; 10]].
Proof. split; vm_compute; reflexivity. Qed.
