(* ===== verification/Umalloc.v ===== *)
(** The allocator of the user library (src/umalloc.c), after Kernighan and
    Ritchie: a circular list of free blocks in the memory of the process, in the
    order of their addresses, which starts at the static header [base].

    A block is a header of 8 bytes and what follows it, [size] units of 8 bytes
    in all; the header holds the address of the next free block and the size.
    Addresses are 32-bit.  [grow] is what the kernel does for the system call
    [sbrk]: from the end of the memory and the argument, the new end, or [None]
    when the call fails. *)

From Stdlib Require Import Sorted.
From S2P Require Import Prelude StringC.

(* src/umalloc.c:21-22 freep *)
Record heap := Heap { hmem : memory; freep : Z; brk : Z }.

Definition set_hmem v h := Heap v (freep h) (brk h).
Definition set_freep v h := Heap (hmem h) v (brk h).
Definition set_brk v h := Heap (hmem h) (freep h) v.

(** The fields [s.ptr] and [s.size] of a header. *)
Definition ptr_of (m : memory) (p : Z) : Z := load32 m p.
Definition size_of (m : memory) (p : Z) : Z := load32 m (p + 4).
Definition getptr (p : Z) : M heap Z := gets (fun h => ptr_of (hmem h) p).
Definition getsize (p : Z) : M heap Z := gets (fun h => size_of (hmem h) p).
Definition setptr (p v : Z) : M heap unit := modify (fun h => set_hmem (store32 (hmem h) p v) h).
Definition setsize (p v : Z) : M heap unit := modify (fun h => set_hmem (store32 (hmem h) (p + 4) v) h).

(** [p + n] for a pointer to a header. *)
Definition units (p n : Z) : Z := u32 (p + 8 * n).

Section umalloc.
Variable (base : Z) (grow : Z -> Z -> option Z).

(** The loop of [free] that looks for the place of [bp]. *)

(* src/umalloc.c:30-32 free *)
Fixpoint free_find (fuel : nat) (bp p : Z) : M heap Z :=
  match fuel with
  | O => wait
  | S fuel' =>
      n <- getptr p ;;
      if (p <? bp) && (bp <? n) then ret p
      else if (n <=? p) && ((p <? bp) || (bp <? n)) then ret p
      else free_find fuel' bp n
  end.

(* src/umalloc.c:24-44 free *)
Definition free (fuel : nat) (ap : Z) : M heap unit :=
  let bp := ap - 8 in
  fp <- gets freep ;;
  p <- free_find fuel bp fp ;;
  n <- getptr p ;;
  sz <- getsize bp ;;
  (if units bp sz =? n then
     nsz <- getsize n ;;
     setsize bp (u32 (sz + nsz)) ;;
     nn <- getptr n ;;
     setptr bp nn
   else setptr bp n) ;;
  psz <- getsize p ;;
  (if units p psz =? bp then
     bsz <- getsize bp ;;
     setsize p (u32 (psz + bsz)) ;;
     bn <- getptr bp ;;
     setptr p bn
   else setptr p bp) ;;
  modify (set_freep p).

(** The argument is an [int]; the result is the old end of the memory, or -1. *)
Definition sbrk (n : Z) : M heap Z :=
  b <- gets brk ;;
  match grow b (s32 n) with
  | Some b' => modify (set_brk b') ;; ret b
  | None => ret (-1)
  end.

(* src/umalloc.c:46-61 morecore *)
Definition morecore (fuel : nat) (nu : Z) : M heap Z :=
  let nu := if nu <? 4096 then 4096 else nu in
  p <- sbrk (u32 (nu * 8)) ;;
  if p =? -1 then ret 0
  else
    setsize p nu ;;
    free fuel (p + 8) ;;
    gets freep.

(* src/umalloc.c:74-89 malloc *)
Fixpoint malloc_loop (fuel : nat) (nunits prevp p : Z) : M heap Z :=
  match fuel with
  | O => wait
  | S fuel' =>
      sz <- getsize p ;;
      if nunits <=? sz then
        r <- (if sz =? nunits then
                n <- getptr p ;;
                setptr prevp n ;;
                ret p
              else
                setsize p (sz - nunits) ;;
                let p := units p (sz - nunits) in
                setsize p nunits ;;
                ret p) ;;
        modify (set_freep prevp) ;;
        ret (r + 8)
      else
        fp <- gets freep ;;
        if p =? fp then
          p <- morecore fuel nunits ;;
          if p =? 0 then ret 0
          else n <- getptr p ;; malloc_loop fuel' nunits p n
        else n <- getptr p ;; malloc_loop fuel' nunits p n
  end.

(* src/umalloc.c:63-90 malloc *)
Definition malloc (fuel : nat) (nbytes : Z) : M heap Z :=
  let nunits := u32 (nbytes + 7) / 8 + 1 in
  prevp <- gets freep ;;
  prevp <- (if prevp =? 0 then
              setptr base base ;;
              modify (set_freep base) ;;
              setsize base 0 ;;
              ret base
            else ret prevp) ;;
  p <- getptr prevp ;;
  malloc_loop fuel nunits prevp p.
End umalloc.

(* ------------------------------------------------------------------ *)
(** * Blocks *)

(** A block: the address of its header, and its size in units. *)
Abbreviation blk := (Z * Z)%type.
Definition b_addr (b : blk) : Z := fst b.
Definition b_size (b : blk) : Z := snd b.
Definition b_end (b : blk) : Z := fst b + 8 * snd b.

Definition apart (b c : blk) : Prop := b_end b <= b_addr c \/ b_end c <= b_addr b.

(** Blocks between [lo] and [hi], none of them empty, no two of them meeting. *)
Fixpoint blocks (lo hi : Z) (bs : list blk) : Prop :=
  match bs with
  | [] => True
  | b :: bs => lo <= b_addr b /\ 0 < b_size b /\ b_end b <= hi /\ (forall c, c ∈ bs -> apart b c) /\ blocks lo hi bs
  end.

Lemma blocks_perm lo hi bs bs' : bs ≡ₚ bs' -> blocks lo hi bs -> blocks lo hi bs'.
Proof.
  induction 1 as [|b bs bs' Hp IH|b c bs|bs bs' bs'' H1 IH1 H2 IH2]; simpl.
  - done.
  - intros (H1 & H2 & H3 & H4 & H5). repeat (split; [done|]). split; [|by apply IH]. intros c Hc. apply H4. by rewrite Hp.
  - intros (H1 & H2 & H3 & H4 & H5 & H6 & H7 & H8 & H9). repeat (split; [done|]). split.
    + intros d Hd. apply elem_of_cons in Hd as [->|Hd]; [|by apply H8]. assert (Hbc : apart c b) by (apply H4; by left). destruct Hbc; [by right|by left].
    + repeat (split; [done|]). split; [|done]. intros d Hd. apply H4. by right.
  - auto.
Qed.

#[export] Instance blocks_proper lo hi : Proper (Permutation ==> iff) (blocks lo hi).
Proof. intros bs bs' Hp. split; apply blocks_perm; [done|by symmetry]. Qed.

Lemma blocks_in lo hi bs b : blocks lo hi bs -> b ∈ bs -> lo <= b_addr b /\ 0 < b_size b /\ b_end b <= hi.
Proof.
  induction bs as [|c bs IH]; simpl; [by intros _ ?%elem_of_nil|]. intros (H1 & H2 & H3 & _ & H5) Hb.
  apply elem_of_cons in Hb as [->|Hb]; [done|by apply IH].
Qed.

(** Two neighbours become one, and one becomes two. *)
Lemma blocks_merge lo hi a n k bs : blocks lo hi ((a, n) :: (a + 8 * n, k) :: bs) -> blocks lo hi ((a, n + k) :: bs).
Proof.
  simpl. unfold apart, b_end, b_addr, b_size. simpl. intros (H1 & H2 & H3 & H4 & H5 & H6 & H7 & H8 & H9).
  split; [lia|]. split; [lia|]. split; [lia|]. split; [|done]. intros c Hc.
  destruct (blocks_in lo hi bs c H9 Hc) as (C1 & C2 & C3). unfold b_addr, b_size, b_end in *.
  pose proof (H4 c ltac:(by right)). pose proof (H8 c Hc). lia.
Qed.

Lemma blocks_merge_in lo hi x a n k bs : blocks lo hi (x :: (a, n) :: (a + 8 * n, k) :: bs) -> blocks lo hi (x :: (a, n + k) :: bs).
Proof.
  intros H. apply (blocks_perm _ _ ((a, n + k) :: x :: bs)); [constructor|]. apply blocks_merge. revert H. apply blocks_perm.
  rewrite (Permutation_swap (a, n) x). by rewrite (Permutation_swap (a + 8 * n, k) x).
Qed.

Lemma blocks_cross lo hi xs ys b c : blocks lo hi (xs ++ ys) -> b ∈ xs -> c ∈ ys -> apart b c.
Proof.
  induction xs as [|d xs IH]; intros H Hb Hc; [by apply elem_of_nil in Hb|]. destruct H as (_ & _ & _ & H4 & H5).
  apply elem_of_cons in Hb as [->|Hb]; [apply H4; set_solver|by apply IH].
Qed.

Lemma blocks_part lo hi xs ys : blocks lo hi (xs ++ ys) -> blocks lo hi xs /\ blocks lo hi ys.
Proof.
  induction xs as [|d xs IH]; [done|]. intros (H1 & H2 & H3 & H4 & H5). apply IH in H5 as [H5 H6]. split; [|done].
  repeat (split; [done|]). split; [|done]. intros c Hc. apply H4. set_solver.
Qed.

Lemma blocks_wider lo hi hi' bs : hi <= hi' -> blocks lo hi bs -> blocks lo hi' bs.
Proof. intros Hle. induction bs as [|b bs IH]; [done|]. intros (H1 & H2 & H3 & H4 & H5). repeat (split; [done || lia|]). auto. Qed.

(** The header of a block is in range. *)
Lemma blocks_addr lo hi bs b : blocks lo hi bs -> b ∈ bs -> lo <= b_addr b /\ b_addr b + 8 <= b_end b /\ b_end b <= hi.
Proof. intros H Hb. destruct (blocks_in _ _ _ _ H Hb) as (H1 & H2 & H3). unfold b_end, b_addr, b_size in *. lia. Qed.

Lemma blocks_split lo hi a n k bs : blocks lo hi ((a, n) :: bs) -> 0 < k < n -> blocks lo hi ((a, n - k) :: (a + 8 * (n - k), k) :: bs).
Proof.
  simpl. unfold apart, b_end, b_addr, b_size. simpl. intros (H1 & H2 & H3 & H4 & H5) Hk.
  split; [lia|]. split; [lia|]. split; [lia|]. split.
  - intros c Hc. apply elem_of_cons in Hc as [->|Hc]; [simpl; lia|]. pose proof (H4 c Hc). lia.
  - split; [lia|]. split; [lia|]. split; [lia|]. split; [|done]. intros c Hc. pose proof (H4 c Hc). lia.
Qed.

(* ------------------------------------------------------------------ *)
(** * The list in memory *)

Definition hd_addr (ns : list blk) (e : Z) : Z := match ns with [] => e | b :: _ => b_addr b end.

(** The headers of [ns] link them in this order, and the last one to [e]. *)
Fixpoint links (m : memory) (ns : list blk) (e : Z) : Prop :=
  match ns with
  | [] => True
  | b :: ns => ptr_of m (b_addr b) = hd_addr ns e /\ size_of m (b_addr b) = b_size b /\ links m ns e
  end.

Lemma hd_addr_app xs ys e : hd_addr (xs ++ ys) e = hd_addr xs (hd_addr ys e).
Proof. by destruct xs. Qed.

Lemma links_app m xs ys e : links m (xs ++ ys) e <-> links m xs (hd_addr ys e) /\ links m ys e.
Proof. induction xs as [|b xs IH]; simpl; [tauto|]. rewrite IH, hd_addr_app. tauto. Qed.

(** Memories with the same header at [a]. *)
Definition same_hdr (m m' : memory) (a : Z) : Prop := forall x, a <= x < a + 8 -> m' x = m x.

Lemma same_ptr m m' a : same_hdr m m' a -> ptr_of m' a = ptr_of m a.
Proof. intros H. apply load32_ext. intros x Hx. apply H. lia. Qed.
Lemma same_size m m' a : same_hdr m m' a -> size_of m' a = size_of m a.
Proof. intros H. apply load32_ext. intros x Hx. apply H. lia. Qed.

Lemma links_same m m' ns e : (forall b, b ∈ ns -> same_hdr m m' (b_addr b)) -> links m ns e -> links m' ns e.
Proof.
  induction ns as [|b ns IH]; simpl; [done|]. intros Hs (H1 & H2 & H3). rewrite (same_ptr m m'), (same_size m m') by (apply Hs; by left).
  split; [done|]. split; [done|]. apply IH; [|done]. intros c Hc. apply Hs. by right.
Qed.

(** Stores to another header. *)
Lemma hdr_store m p v a : a + 8 <= p \/ p + 8 <= a -> same_hdr m (store32 m p v) a /\ same_hdr m (store32 m (p + 4) v) a.
Proof. intros Ha. split; intros x Hx; apply store32_ne; lia. Qed.

Lemma size_setptr m p v : size_of (store32 m p v) p = size_of m p.
Proof. apply load32_store32_ne. lia. Qed.
Lemma ptr_setsize m p v : ptr_of (store32 m (p + 4) v) p = ptr_of m p.
Proof. apply load32_store32_ne. lia. Qed.
Lemma ptr_setptr m p v : 0 <= v < 4294967296 -> ptr_of (store32 m p v) p = v.
Proof. intros Hv. unfold ptr_of. by rewrite load32_store32, u32_id. Qed.
Lemma size_setsize m p v : 0 <= v < 4294967296 -> size_of (store32 m (p + 4) v) p = v.
Proof. intros Hv. unfold size_of. by rewrite load32_store32, u32_id. Qed.

#[local] Opaque ptr_of size_of.

(** ** The heap: free blocks [fl] in the order of their addresses, blocks in use
    [used] *)
Section heap.
Variables (base : Z) (grow : Z -> Z -> option Z).

Definition nodes (fl : list blk) : list blk := (base, 0) :: fl.
Definition before (b c : blk) : Prop := b_addr b < b_addr c.

Record heap_ok (h : heap) (fl used : list blk) : Prop := {
  hk_base : 0 < base;
  hk_brk : brk h <= 2147483648;
  hk_blocks : blocks base (brk h) ((base, 1) :: fl ++ used);
  hk_sorted : StronglySorted before (nodes fl);
  hk_links : links (hmem h) (nodes fl) base;
  hk_freep : exists b, b ∈ nodes fl /\ freep h = b_addr b;
  hk_used : forall b, b ∈ used -> size_of (hmem h) (b_addr b) = b_size b;
}.

(** Different headers do not meet. *)
Lemma blocks_pair lo hi bs b c : blocks lo hi bs -> b ∈ bs -> c ∈ bs -> b_addr b <> b_addr c ->
  b_end b <= b_addr c \/ b_end c <= b_addr b.
Proof.
  intros H Hb Hc Hne. induction bs as [|d bs IH]; [by apply elem_of_nil in Hb|]. destruct H as (H1 & H2 & H3 & H4 & H5).
  apply elem_of_cons in Hb as [->|Hb]; apply elem_of_cons in Hc as [->|Hc]; [done|by apply H4| |by apply IH].
  destruct (H4 b Hb); [by right|by left].
Qed.

Definition hdr_apart (a b : Z) : Prop := a + 8 <= b \/ b + 8 <= a.

(** The blocks of a list, with the header [base]. *)
Context (hi : Z) (bs : list blk) (Hbs : blocks base hi ((base, 1) :: bs)).

Lemma hdr_base b : b ∈ bs -> hdr_apart base (b_addr b).
Proof using Hbs. intros Hb. destruct Hbs as (_ & _ & _ & Ha & H). pose proof (Ha b Hb). pose proof (blocks_in _ _ _ b H Hb).
  unfold apart, hdr_apart, b_end, b_addr, b_size in *. simpl in *. lia. Qed.

Lemma hdr_pair b c : b ∈ bs -> c ∈ bs -> b_addr b <> b_addr c -> hdr_apart (b_addr b) (b_addr c).
Proof using Hbs.
  intros Hb Hc Hne. destruct Hbs as (_ & _ & _ & _ & H). pose proof (blocks_pair _ _ _ b c H Hb Hc Hne) as Ha.
  pose proof (blocks_in _ _ _ b H Hb). pose proof (blocks_in _ _ _ c H Hc).
  unfold hdr_apart, b_end, b_addr, b_size in *. lia.
Qed.

Lemma hdr_node fl b c : fl ⊆ bs -> b ∈ nodes fl -> c ∈ bs -> b_addr b <> b_addr c -> hdr_apart (b_addr b) (b_addr c).
Proof using Hbs.
  intros Hfl Hb Hc Hne. apply elem_of_cons in Hb as [->|Hb]; [by apply hdr_base|]. apply hdr_pair; [by apply Hfl|done|done].
Qed.
End heap.

(** ** The order of the addresses *)
Section order.

Lemma sorted_app (xs ys : list blk) : StronglySorted before (xs ++ ys) -> forall b c, b ∈ xs -> c ∈ ys -> b_addr b < b_addr c.
Proof.
  induction xs as [|d xs IH]; intros Hs b c Hb Hc; [by apply elem_of_nil in Hb|]. simpl in Hs. apply StronglySorted_inv in Hs as [Hs Hd].
  apply elem_of_cons in Hb as [->|Hb]; [|by apply IH]. apply (proj1 (Forall_forall _ _) Hd). set_solver.
Qed.

Lemma sorted_parts (xs ys : list blk) : StronglySorted before (xs ++ ys) -> StronglySorted before xs /\ StronglySorted before ys.
Proof.
  induction xs as [|d xs IH]; simpl; [intros H; split; [constructor|done]|]. intros Hs. apply StronglySorted_inv in Hs as [Hs Hd].
  apply IH in Hs as [H1 H2]. split; [|done]. constructor; [done|]. apply Forall_app in Hd. apply Hd.
Qed.

Lemma sorted_join (xs ys : list blk) : StronglySorted before xs -> StronglySorted before ys ->
  (forall b c, b ∈ xs -> c ∈ ys -> b_addr b < b_addr c) -> StronglySorted before (xs ++ ys).
Proof.
  induction xs as [|d xs IH]; intros H1 H2 Ha; [done|]. apply StronglySorted_inv in H1 as [H1 Hd]. simpl. constructor.
  - apply IH; [done|done|]. intros b c Hb Hc. apply Ha; [by right|done].
  - apply Forall_app. split; [done|]. apply Forall_forall. intros c Hc. apply Ha; [by left|done].
Qed.

(** The place of an address in a sorted list. *)
Lemma sorted_place (ns : list blk) bp : StronglySorted before ns -> (forall b, b ∈ ns -> b_addr b <> bp) ->
  exists l1 l2, ns = l1 ++ l2 /\ (forall b, b ∈ l1 -> b_addr b < bp) /\ (forall b, b ∈ l2 -> bp < b_addr b).
Proof.
  induction ns as [|b ns IH]; intros Hs Hne; [by exists [], []; split; [done|]; split; intros b ?%elem_of_nil|].
  apply StronglySorted_inv in Hs as [Hs Hd]. destruct (Z.lt_ge_cases (b_addr b) bp) as [H|H].
  - destruct IH as (l1 & l2 & -> & H1 & H2); [done|intros c Hc; apply Hne; by right|]. exists (b :: l1), l2. split; [done|]. split; [|done].
    intros c Hc. apply elem_of_cons in Hc as [->|Hc]; [done|by apply H1].
  - exists [], (b :: ns). split; [done|]. split; [by intros c ?%elem_of_nil|]. intros c Hc. pose proof (Hne b ltac:(by left)).
    apply elem_of_cons in Hc as [->|Hc]; [lia|]. pose proof (proj1 (Forall_forall _ _) Hd c Hc). unfold before in *. lia.
Qed.

(** Only the addresses matter. *)
Lemma sorted_addr (xs ys : list blk) : b_addr <$> xs = b_addr <$> ys -> StronglySorted before xs -> StronglySorted before ys.
Proof.
  revert ys. induction xs as [|b xs IH]; intros [|c ys] E Hs; [done|done|done|]. injection E as Eb E.
  apply StronglySorted_inv in Hs as [Hs Hd]. constructor; [by apply IH|]. clear -Eb E Hd. unfold before in *. rewrite <- Eb.
  revert ys E. induction Hd as [|d xs Hd Hds IH]; intros [|c' ys] E; try done. injection E as Ec E. constructor; [lia|by apply IH].
Qed.

Lemma sorted_insert (xs pre ys : list blk) b : StronglySorted before (xs ++ pre ++ ys) ->
  (forall c, c ∈ xs -> b_addr c < b_addr b) -> (forall c, c ∈ pre ++ ys -> b_addr b < b_addr c) ->
  StronglySorted before (xs ++ b :: ys) /\ StronglySorted before (xs ++ ys).
Proof.
  intros Hs H1 H2. pose proof (sorted_app _ _ Hs) as Hx. apply sorted_parts in Hs as [Hs1 Hs2]. apply sorted_parts in Hs2 as [_ Hs2]. split; apply sorted_join; [done| | |done|done|].
  - constructor; [done|]. apply Forall_forall. intros c Hc. apply H2. set_solver.
  - intros c d Hc Hd. apply elem_of_cons in Hd as [->|Hd]; [by apply H1|]. apply Hx; [done|set_solver].
  - intros c d Hc Hd. apply Hx; [done|set_solver].
Qed.
End order.

(** ** Where [free] stops *)
Section find.
Variable base : Z.

Definition stops (bp p n : Z) : bool := ((p <? bp) && (bp <? n)) || ((n <=? p) && ((p <? bp) || (bp <? n))).

Lemma stops_true bp p n : p < bp -> bp < n \/ n <= p -> stops bp p n = true.
Proof. intros H1 H2. unfold stops. apply orb_true_iff. rewrite !andb_true_iff, orb_true_iff, !Z.ltb_lt, Z.leb_le. lia. Qed.

Lemma stops_false bp p n : (p < n /\ n < bp) \/ (bp < p /\ (p < n \/ n < bp)) -> stops bp p n = false.
Proof. intros H. unfold stops. apply orb_false_iff. rewrite !andb_false_iff, orb_false_iff, !Z.ltb_ge, Z.leb_gt. lia. Qed.

(** The walk along [xs], where it does not stop, to [y], where it does. *)
Lemma free_find_walk xs : forall y ys e fuel bp h, links (hmem h) (xs ++ y :: ys) e ->
  (forall xs1 x xs2, xs = xs1 ++ x :: xs2 -> stops bp (b_addr x) (hd_addr (xs2 ++ [y]) e) = false) ->
  stops bp (b_addr y) (hd_addr ys e) = true -> (length xs < fuel)%nat ->
  free_find fuel bp (hd_addr (xs ++ [y]) e) h = Ok (b_addr y) h.
Proof.
  assert (Hstep : forall fuel bp p h, free_find (S fuel) bp p h =
    if stops bp p (ptr_of (hmem h) p) then Ok p h else free_find fuel bp (ptr_of (hmem h) p) h).
  { intros. cbn [free_find]. unfold bind, getptr, gets, stops. destruct ((p <? bp) && _); [done|]. by destruct ((_ <=? p) && _). }
  induction xs as [|x xs IH]; intros y ys e fuel bp h Hl Hx Hy Hf; (destruct fuel as [|fuel]; [lia|]); simpl hd_addr; rewrite Hstep.
  - destruct Hl as (Hp & _). by rewrite Hp, Hy.
  - destruct Hl as (Hp & _ & Hl). rewrite Hp.
    assert (E : hd_addr (xs ++ y :: ys) e = hd_addr (xs ++ [y]) e) by (by destruct xs). rewrite E.
    rewrite (Hx [] x xs eq_refl). apply (IH y ys); [done| |done|simpl in Hf; lia].
    intros xs1 x' xs2 ->. by apply (Hx (x :: xs1)).
Qed.

(** The list goes round: the walk can start at any node. *)
Lemma links_rotate m (u v : list blk) : u <> [] -> v <> [] -> links m (u ++ v) (hd_addr u 0) -> links m (v ++ u) (hd_addr v 0).
Proof.
  intros Hu Hv H. apply links_app in H as [H1 H2]. apply links_app.
  destruct u as [|b u]; [done|]. destruct v as [|c v]; [done|]. split; done.
Qed.

Lemma hd_addr_last ys y e : exists z, z ∈ ys ++ [y] /\ hd_addr (ys ++ [y]) e = b_addr z.
Proof. destruct ys as [|z ys]; [exists y|exists z]; split; (done || by left). Qed.

(** Below [bp] the walk goes on to the node [p], the last one below it; above
    [bp] it goes on to the end, where the first node is below [bp]. *)
Lemma low_goes_on xs p e bp xs1 x xs2 : StronglySorted before (xs ++ [p]) -> b_addr p < bp -> xs = xs1 ++ x :: xs2 ->
  stops bp (b_addr x) (hd_addr (xs2 ++ [p]) e) = false.
Proof.
  intros Hs Hp ->. apply stops_false. left. destruct (hd_addr_last xs2 p e) as (z & Hz & ->).
  assert (Hle : b_addr z <= b_addr p).
  { apply elem_of_app in Hz as [Hz| ->%list_elem_of_singleton]; [|lia]. apply Z.lt_le_incl. eapply sorted_app; [exact Hs| |by left]. set_solver. }
  split; [|lia]. rewrite <- app_assoc in Hs. apply sorted_parts in Hs as [_ Hs]. by apply (sorted_app [x] (xs2 ++ [p]) Hs); [left|].
Qed.

Lemma high_goes_on xs e bp xs1 x xs2 : StronglySorted before xs -> (forall b, b ∈ xs -> bp < b_addr b) -> e < bp -> xs = xs1 ++ x :: xs2 ->
  stops bp (b_addr x) (hd_addr xs2 e) = false.
Proof.
  intros Hs Hb He ->. apply stops_false. right. split; [apply Hb; set_solver|]. destruct xs2 as [|z xs2]; [by right|left].
  apply sorted_parts in Hs as [_ Hs]. by apply (sorted_app [x] (z :: xs2) Hs); left.
Qed.

(** The node after which [bp] belongs is found from any node. *)
Lemma free_find_ok l1 p l2 f bp fuel h : let ns := l1 ++ p :: l2 in
  links (hmem h) ns base -> hd_addr ns 0 = base -> StronglySorted before ns ->
  (forall b, b ∈ l1 ++ [p] -> b_addr b < bp) -> (forall b, b ∈ l2 -> bp < b_addr b) ->
  f ∈ ns -> (length ns <= fuel)%nat -> free_find fuel bp (b_addr f) h = Ok (b_addr p) h.
Proof.
  intros ns Hl Hb Hs H1 H2 Hf Hfu. subst ns. rewrite length_app in Hfu. simpl in Hfu.
  assert (Hp : b_addr p < bp) by (apply H1; set_solver).
  assert (Hsl : StronglySorted before (l1 ++ [p]) /\ StronglySorted before l2).
  { rewrite (app_assoc l1 [p] l2 : l1 ++ p :: l2 = _) in Hs. by apply sorted_parts. }
  assert (Hlow : hd_addr (l1 ++ [p]) 0 = base) by (by destruct l1).
  assert (Hbp : base < bp). { destruct (hd_addr_last l1 p 0) as (z & Hz & E). rewrite E in Hlow. rewrite <- Hlow. by apply H1. }
  assert (Hend : stops bp (b_addr p) (hd_addr l2 base) = true).
  { apply stops_true; [done|]. destruct l2 as [|z l2]; [|left; apply H2; by left]. right. simpl.
    destruct l1 as [|y l1]; simpl in Hlow; [lia|]. rewrite <- Hlow. apply Z.lt_le_incl. eapply (sorted_app (y :: l1) [p]); [apply Hsl|by left|by left]. }
  apply elem_of_app in Hf as [Hf|Hf]; [|apply elem_of_cons in Hf as [->|Hf]].
  - apply list_elem_of_split in Hf as (a & c & ->). rewrite <- app_assoc in Hl. apply links_app in Hl as [_ Hl].
    apply (free_find_walk (f :: c) p l2 base); [done| |done|rewrite length_app in Hfu; simpl in *; lia].
    intros xs1 x xs2. apply low_goes_on; [|done]. destruct Hsl as [Hsl _]. rewrite <- app_assoc in Hsl. exact (proj2 (sorted_parts _ _ Hsl)).
  - apply (free_find_walk [] p l2 base); [exact (proj2 (proj1 (links_app _ _ _ _) Hl))| |done|simpl; lia]. by intros [|? xs1] x xs2.
  - apply list_elem_of_split in Hf as (a & c & ->). destruct Hsl as [Hs1 Hs2].
    assert (Hr : links (hmem h) ((f :: c) ++ (l1 ++ p :: a)) (b_addr f)).
    { apply (links_rotate _ (l1 ++ p :: a) (f :: c)); [by destruct l1|done|]. rewrite <- app_assoc. simpl. by replace (hd_addr (l1 ++ p :: a) 0) with base by (by destruct l1). }
    rewrite (app_assoc (f :: c) l1 (p :: a)) in Hr.
    apply (free_find_walk ((f :: c) ++ l1) p a (b_addr f) fuel bp h Hr).
    + intros xs1 x xs2 E. apply app_eq_app in E as (l & [[E1 E2]|[_ E2]]); [|by apply (low_goes_on l1 p (b_addr f) bp l)].
      destruct l as [|y l]; [by apply (low_goes_on l1 p (b_addr f) bp []); [..|symmetry]|]. injection E2 as -> ->.
      rewrite <- app_assoc, hd_addr_app. replace (hd_addr (l1 ++ [p]) (b_addr f)) with base by (by destruct l1).
      apply (high_goes_on (f :: c) base bp xs1); [exact (proj2 (sorted_parts _ _ Hs2))|intros b Hb'; apply H2; set_solver|done|done].
    + apply stops_true; [done|left]. destruct a as [|z a]; apply H2; set_solver.
    + rewrite !length_app in *. simpl in *. lia.
Qed.
End find.

(* ------------------------------------------------------------------ *)
(** * [free] *)

Definition total (bs : list blk) : Z := fold_right (fun b s => b_size b + s) 0 bs.

Lemma total_app xs ys : total (xs ++ ys) = total xs + total ys.
Proof. induction xs as [|b xs IH]; simpl; [done|]. rewrite IH. lia. Qed.

Lemma total_nonneg lo hi bs : blocks lo hi bs -> 0 <= total bs.
Proof. induction bs as [|b bs IH]; simpl; [done|]. intros (_ & H & _ & _ & Hb). apply IH in Hb. lia. Qed.

(** [m'] differs from [m] in the header at [a] only. *)
Definition upd_hdr (a : Z) (m m' : memory) : Prop := forall x, x < a \/ a + 8 <= x -> m' x = m x.

Lemma upd_same a m m' b : upd_hdr a m m' -> hdr_apart a b -> same_hdr m m' b.
Proof. intros H Ha x Hx. apply H. unfold hdr_apart in Ha. lia. Qed.

Lemma upd_links a m m' ns e : upd_hdr a m m' -> (forall b, b ∈ ns -> hdr_apart a (b_addr b)) -> links m ns e -> links m' ns e.
Proof. intros Hu Ha. apply links_same. intros b Hb. eapply upd_same; [exact Hu|by apply Ha]. Qed.

Lemma upd_setptr a v m : upd_hdr a m (store32 m a v).
Proof. intros x Hx. apply store32_ne. lia. Qed.
Lemma upd_setsize a v m : upd_hdr a m (store32 m (a + 4) v).
Proof. intros x Hx. apply store32_ne. lia. Qed.
Lemma upd_trans a m m' m'' : upd_hdr a m m' -> upd_hdr a m' m'' -> upd_hdr a m m''.
Proof. intros H1 H2 x Hx. by rewrite H2, H1. Qed.

(** A header with both fields stored. *)
Lemma upd_both a sz v m : 0 <= sz < 4294967296 -> 0 <= v < 4294967296 ->
  let m' := store32 (store32 m (a + 4) sz) a v in upd_hdr a m m' /\ ptr_of m' a = v /\ size_of m' a = sz.
Proof.
  intros Hs Hv m'. split; [exact (upd_trans a _ _ _ (upd_setsize a sz m) (upd_setptr a v _))|].
  unfold m'. by rewrite ptr_setptr, size_setptr, size_setsize.
Qed.

Section free.
Variables (base hi : Z) (Hbase : 0 < base) (Hhi : hi <= 2147483648).

(** The block is joined to the next one when they meet. *)
Definition join_next (bp sz n : Z) : M heap unit :=
  if units bp sz =? n then
    nsz <- getsize n ;;
    setsize bp (u32 (sz + nsz)) ;;
    nn <- getptr n ;;
    setptr bp nn
  else setptr bp n.

Lemma join_next_ok bp sz l2 os h : blocks base hi ((base, 1) :: (bp, sz) :: l2 ++ os) -> links (hmem h) l2 base -> size_of (hmem h) bp = sz ->
  exists k l2' m, join_next bp sz (hd_addr l2 base) h = Ok tt (set_hmem m h) /\ upd_hdr bp (hmem h) m /\
    links m ((bp, k) :: l2') base /\ blocks base hi ((base, 1) :: (bp, k) :: l2' ++ os) /\
    (exists pre, l2 = pre ++ l2' /\ k = sz + total pre).
Proof.
  intros Hb Hl Hsz. pose proof Hb as (_ & _ & _ & B4 & C1 & C2 & C3 & C4 & C5).
  pose proof (B4 (bp, sz) ltac:(by left)) as Hlow. unfold apart, b_end, b_addr, b_size in C1, C2, C3, Hlow. simpl in C1, C2, C3, Hlow.
  assert (Hu : units bp sz = bp + 8 * sz) by (apply u32_id; lia).
  assert (Hd : forall l e, l ⊆ l2 -> hd_addr l base = e -> 0 <= e < 4294967296).
  { intros [|b l] e Hin <-; simpl; [lia|]. pose proof (blocks_addr base hi _ b C5 ltac:(set_solver)). lia. }
  assert (Ha : forall b, b ∈ l2 -> hdr_apart bp (b_addr b)).
  { intros b Hb2. pose proof (C4 b ltac:(set_solver)). pose proof (blocks_addr base hi _ b C5 ltac:(set_solver)).
    unfold apart, hdr_apart, b_end, b_addr, b_size in *. simpl in *. lia. }
  unfold join_next. destruct (Z.eqb_spec (units bp sz) (hd_addr l2 base)) as [E|E].
  - destruct l2 as [|[q k] l2]; simpl in E; [lia|]. unfold b_addr in E. simpl in E. destruct Hl as (Hp & Hk & Hl).
    unfold b_addr in Hp, Hk. simpl in Hp, Hk. rewrite Hu in E. subst q.
    destruct (blocks_in base hi _ (bp + 8 * sz, k) C5 ltac:(by left)) as (Q1 & Q2 & Q3). unfold b_addr, b_size, b_end in Q1, Q2, Q3. simpl in Q1, Q2, Q3.
    destruct (upd_both bp (sz + k) (hd_addr l2 base) (hmem h) ltac:(lia) (Hd l2 _ ltac:(set_solver) eq_refl)) as (U1 & U2 & U3).
    eexists (sz + k), l2, _. split; [|split; [exact U1|split; [|split]]].
    + cbn [hd_addr]. unfold bind, getsize, getptr, gets, setsize, setptr, modify. cbn [set_hmem hmem b_addr fst].
      rewrite Hk, (u32_id (sz + k)) by lia. rewrite (same_ptr (hmem h)), Hp; [done|]. apply hdr_store. lia.
    + split; [done|]. split; [done|]. eapply upd_links; [exact U1| |done]. intros b Hb2. apply Ha. by right.
    + by apply blocks_merge_in.
    + exists [(bp + 8 * sz, k)]. split; [done|]. simpl. lia.
  - eexists sz, l2, _. split; [done|]. split; [apply upd_setptr|]. split; [|split; [done|exists []; split; [done|simpl; lia]]].
    split; [|split].
    + apply ptr_setptr. by apply (Hd l2).
    + unfold b_addr. simpl. by rewrite size_setptr.
    + eapply upd_links; [apply upd_setptr|exact Ha|done].
Qed.
(** And the block before it to it. *)
Definition join_prev (p psz bp : Z) : M heap unit :=
  if units p psz =? bp then
    bsz <- getsize bp ;;
    setsize p (u32 (psz + bsz)) ;;
    bn <- getptr bp ;;
    setptr p bn
  else setptr p bp.

Lemma join_prev_ok p bp k l2 h : blocks base hi ((base, 1) :: (bp, k) :: l2) -> links (hmem h) ((bp, k) :: l2) base ->
  base <= b_addr p -> b_addr p + 8 <= bp -> b_end p <= bp -> 0 <= b_size p -> size_of (hmem h) (b_addr p) = b_size p ->
  (forall b, b ∈ l2 -> hdr_apart (b_addr p) (b_addr b)) ->
  exists p' l2' m, join_prev (b_addr p) (b_size p) bp h = Ok tt (set_hmem m h) /\ upd_hdr (b_addr p) (hmem h) m /\
    links m (p' :: l2') base /\ b_addr p' = b_addr p /\
    ((p' = p /\ l2' = (bp, k) :: l2) \/ (b_end p = bp /\ b_size p' = b_size p + k /\ l2' = l2)).
Proof.
  destruct p as [a n]. unfold b_addr at 1 2 3 4 5 6 7, b_size at 1 2 3 4 5, b_end at 1 2. cbn [fst snd].
  intros Hb Hl Hp1 Hp2 Hp3 Hn Hsz Ha. pose proof Hb as (_ & _ & _ & _ & C1 & C2 & C3 & C4 & C5). destruct Hl as (Hp & Hk & Hl).
  unfold b_addr, b_size, b_end in C1, C2, C3, Hp, Hk. cbn [fst snd] in C1, C2, C3, Hp, Hk.
  assert (Hu : units a n = a + 8 * n) by (apply u32_id; lia).
  assert (Hd : 0 <= hd_addr l2 base < 4294967296).
  { destruct l2 as [|b l2]; simpl; [lia|]. pose proof (blocks_addr base hi _ b C5 ltac:(set_solver)). lia. }
  unfold join_prev. rewrite Hu. destruct (Z.eqb_spec (a + 8 * n) bp) as [E|E].
  - destruct (upd_both a (n + k) (hd_addr l2 base) (hmem h) ltac:(lia) Hd) as (U1 & U2 & U3).
    eexists (a, n + k), l2, _. split; [|split; [exact U1|split; [|split; [done|right; auto]]]].
    + unfold bind, getsize, getptr, gets, setsize, setptr, modify. cbn [set_hmem hmem].
      rewrite Hk, (u32_id (n + k)) by lia. rewrite (same_ptr (hmem h)), Hp; [done|]. apply hdr_store. lia.
    + split; [done|]. split; [done|]. by eapply upd_links.
  - eexists (a, n), ((bp, k) :: l2), _. split; [done|]. split; [apply upd_setptr|]. split; [|auto].
    split; [apply ptr_setptr; unfold b_addr; simpl; lia|]. split; [unfold b_addr; simpl; by rewrite size_setptr|].
    eapply upd_links; [apply upd_setptr| |exact (conj Hp (conj Hk Hl))]. intros b Hb2.
    apply elem_of_cons in Hb2 as [->|Hb2]; [left; unfold b_addr; simpl; lia|by apply Ha].
Qed.
End free.

(** What the program has in its blocks is kept. *)
Definition kept (base : Z) (used : list blk) (h h' : heap) : Prop :=
  forall x, x < base \/ brk h' <= x \/ (exists b, b ∈ used /\ b_addr b <= x < b_end b) -> hmem h' x = hmem h x.

Section free_ok.
Context (base : Z) (h : heap) (fl used : list blk) (bp n : Z) (Hh : heap_ok base h fl ((bp, n) :: used)).

Lemma free_bp : base + 8 <= bp /\ 0 < n /\ bp + 8 * n <= brk h.
Proof using Hh.
  pose proof (hk_blocks _ _ _ _ Hh) as Hb. pose proof (blocks_cross _ _ [(base, 1)] _ (base, 1) (bp, n) Hb ltac:(by left) ltac:(set_solver)) as Ha.
  pose proof (blocks_in _ _ _ (bp, n) Hb ltac:(set_solver)) as Hi. unfold apart, b_end, b_addr, b_size in *. simpl in *. lia.
Qed.

(** The nodes around the place of the block. *)
Lemma free_place : exists mid l1 p l2, fl = mid ++ l2 /\ (base, 0) :: mid = l1 ++ [p] /\
  (forall b, b ∈ (base, 0) :: mid -> b_addr b < bp) /\ (forall b, b ∈ l2 -> bp < b_addr b).
Proof using Hh.
  destruct (sorted_place (nodes base fl) bp (hk_sorted _ _ _ _ Hh)) as (l1 & l2 & E & H1 & H2).
  { intros b Hb. pose proof free_bp as Hbp. apply elem_of_cons in Hb as [->|Hb]; [unfold b_addr; simpl; lia|].
    pose proof (hk_blocks _ _ _ _ Hh) as Hbs. destruct Hbs as (_ & _ & _ & _ & Hbs).
    pose proof (blocks_cross _ _ fl _ b (bp, n) Hbs Hb ltac:(set_solver)). pose proof (blocks_addr _ _ _ b Hbs ltac:(set_solver)).
    unfold apart, b_end, b_addr, b_size in *. simpl in *. lia. }
  destruct l1 as [|b mid]; [exfalso|].
  - simpl in E. subst l2. pose proof (H2 (base, 0) ltac:(by left)) as Hx. pose proof free_bp. unfold b_addr in Hx. simpl in Hx. lia.
  - injection E as <- ->. destruct (exists_last (l := (base, 0) :: mid)) as (l1 & p & E1); [done|]. exists mid, l1, p, l2. auto.
Qed.

Context (mid l1 : list blk) (p : blk) (l2 : list blk) (Hfl : fl = mid ++ l2) (Hmid : (base, 0) :: mid = l1 ++ [p]).
Context (Hlow : forall b, b ∈ (base, 0) :: mid -> b_addr b < bp) (Hhigh : forall b, b ∈ l2 -> bp < b_addr b).

Lemma node_low b : b ∈ (base, 0) :: mid -> base <= b_addr b /\ b_addr b + 8 <= bp /\ b_end b <= bp /\ 0 <= b_size b.
Proof using Hh Hfl Hlow.
  clear Hmid Hhigh. intros Hb. pose proof (Hlow b Hb) as Hl. pose proof free_bp as Hbp. apply elem_of_cons in Hb as [->|Hb]; [unfold b_end, b_addr, b_size in *; simpl in *; lia|].
  pose proof (hk_blocks _ _ _ _ Hh) as (_ & _ & _ & _ & Hbs). assert (b ∈ fl) by set_solver.
  pose proof (blocks_cross _ _ fl _ b (bp, n) Hbs ltac:(done) ltac:(by left)). pose proof (blocks_in _ _ _ b Hbs ltac:(set_solver)).
  unfold apart, b_end, b_addr, b_size in *. simpl in *. lia.
Qed.

Lemma node_p : p ∈ (base, 0) :: mid.
Proof using Hmid. rewrite Hmid. apply elem_of_app. right. by left. Qed.

Lemma node_l1 b : b ∈ l1 -> hdr_apart (b_addr p) (b_addr b).
Proof using Hh Hfl Hmid.
  clear Hlow Hhigh. intros Hb. destruct l1 as [|c l1']; [by apply elem_of_nil in Hb|]. injection Hmid as <- Hm.
  pose proof (hk_blocks _ _ _ _ Hh) as Hbs. rewrite Hfl, Hm, <- !app_assoc in Hbs.
  pose proof (blocks_addr _ _ _ p Hbs ltac:(set_solver)) as Hp. apply elem_of_cons in Hb as [->|Hb].
  - pose proof (blocks_cross _ _ [(base, 1)] _ (base, 1) p Hbs ltac:(by left) ltac:(set_solver)).
    unfold hdr_apart, apart, b_end, b_addr, b_size in *. simpl in *. lia.
  - pose proof (blocks_cross _ _ ((base, 1) :: l1') _ b p Hbs ltac:(set_solver) ltac:(set_solver)).
    pose proof (blocks_addr _ _ _ b Hbs ltac:(set_solver)). unfold hdr_apart, apart, b_end, b_addr, b_size in *. simpl in *. lia.
Qed.

(** The run: first the header of the block, then that of the node before it. *)
Lemma free_run fuel : (length fl < fuel)%nat -> exists k pre l2' p' l2'' m1 m2,
  free fuel (bp + 8) h = Ok tt (Heap m2 (b_addr p) (brk h)) /\ upd_hdr bp (hmem h) m1 /\ upd_hdr (b_addr p) m1 m2 /\
  links m2 (l1 ++ p' :: l2'') base /\ l2 = pre ++ l2' /\ k = n + total pre /\ b_addr p' = b_addr p /\
  blocks base (brk h) ((base, 1) :: (bp, k) :: l2' ++ mid ++ used) /\
  ((p' = p /\ l2'' = (bp, k) :: l2') \/ (b_end p = bp /\ b_size p' = b_size p + k /\ l2'' = l2')).
Proof using All.
  intros Hf. assert (Ens : nodes base fl = l1 ++ p :: l2). { unfold nodes. rewrite Hfl, (app_comm_cons mid l2), Hmid, <- app_assoc. done. }
  pose proof (hk_links _ _ _ _ Hh) as Hl. pose proof (hk_sorted _ _ _ _ Hh) as Hs. destruct (hk_freep _ _ _ _ Hh) as (f & Hf1 & Hf2).
  rewrite Ens in Hl, Hs, Hf1. assert (Hlen : (length (l1 ++ p :: l2) <= fuel)%nat) by (rewrite <- Ens; simpl; lia).
  assert (Hfind : free_find fuel bp (b_addr f) h = Ok (b_addr p) h).
  { apply (free_find_ok base l1 p l2); [done|by rewrite <- Ens|done|by rewrite <- Hmid|done|done|done]. }
  apply links_app in Hl as [Hl1 (Hp & Hps & Hl2)]. pose proof (node_low p node_p) as (P1 & P2 & P3 & P4).
  assert (Hb0 : blocks base (brk h) ((base, 1) :: (bp, n) :: l2 ++ mid ++ used)).
  { eapply blocks_perm; [|apply (hk_blocks _ _ _ _ Hh)]. rewrite Hfl. constructor. rewrite <- Permutation_middle. constructor. rewrite !app_assoc. f_equiv. apply Permutation_app_comm. }
  assert (Hsz : size_of (hmem h) bp = n) by (apply (hk_used _ _ _ _ Hh (bp, n)); by left).
  destruct (join_next_ok base (brk h) (hk_base _ _ _ _ Hh) (hk_brk _ _ _ _ Hh) bp n l2 (mid ++ used) h Hb0 Hl2 Hsz) as (k & l2' & m1 & R1 & U1 & L1 & B1 & pre & E1 & Ek).
  destruct (join_prev_ok base (brk h) (hk_base _ _ _ _ Hh) (hk_brk _ _ _ _ Hh) p bp k l2' (set_hmem m1 h)) as (p' & l2'' & m2 & R2 & U2 & L2 & Ep & Hcase); [| |done|done|done|done| | |].
  - exact (proj1 (blocks_part _ _ ((base, 1) :: (bp, k) :: l2') _ B1)).
  - done.
  - cbn [set_hmem hmem]. rewrite (same_size (hmem h)); [done|]. eapply upd_same; [exact U1|]. by right.
  - intros b Hb. left. pose proof (Hhigh b ltac:(set_solver)). lia.
  - exists k, pre, l2', p', l2'', m1, m2. split; [|split; [done|split; [done|]]].
    + unfold free. replace (bp + 8 - 8) with bp by lia. cbv zeta. rewrite (bind_ok _ _ _ _ _ (eq_refl : gets freep h = Ok (freep h) h)), Hf2.
      rewrite (bind_ok _ _ _ _ _ Hfind). rewrite (bind_ok _ _ _ _ _ (f_equal (fun v => Ok v h) Hp : getptr (b_addr p) h = _)).
      rewrite (bind_ok _ _ _ _ _ (f_equal (fun v => Ok v h) Hsz : getsize bp h = _)).
      rewrite (bind_ok _ _ _ _ _ R1). erewrite bind_ok by (unfold getsize, gets; cbn [set_hmem hmem]; rewrite (same_size (hmem h)), Hps by (eapply upd_same; [exact U1|by right]); reflexivity).
      by rewrite (bind_ok _ _ _ _ _ R2).
    + split; [|auto]. apply links_app. split; [|done]. simpl. rewrite Ep.
      apply (upd_links (b_addr p) m1); [done|exact node_l1|]. apply (upd_links bp (hmem h)); [done| |done].
      intros b Hb. right. apply node_low. rewrite Hmid. apply elem_of_app. by left.
Qed.

(** The new list of free blocks. *)
Lemma free_list k pre l2' p' l2'' : l2 = pre ++ l2' -> k = n + total pre -> b_addr p' = b_addr p ->
  blocks base (brk h) ((base, 1) :: (bp, k) :: l2' ++ mid ++ used) ->
  ((p' = p /\ l2'' = (bp, k) :: l2') \/ (b_end p = bp /\ b_size p' = b_size p + k /\ l2'' = l2')) ->
  exists fl', nodes base fl' = l1 ++ p' :: l2'' /\ blocks base (brk h) ((base, 1) :: fl' ++ used) /\ total fl' = total fl + n /\
    (length fl' <= S (length fl))%nat /\ exists b, b ∈ fl' /\ k <= b_size b.
Proof using Hh Hfl Hmid Hlow.
  clear Hhigh. intros El2 Ek Ep HB [[-> ->]|(Eb & Es & ->)].
  - exists (mid ++ (bp, k) :: l2'). split; [unfold nodes; rewrite (app_comm_cons mid), Hmid, <- app_assoc; done|]. split; [|split; [|split]].
    + eapply blocks_perm; [|exact HB]. constructor. rewrite <- app_assoc, <- app_comm_cons, <- Permutation_middle. constructor. rewrite !app_assoc. f_equiv. apply Permutation_app_comm.
    + rewrite Hfl, El2, !total_app. simpl. rewrite Ek. unfold b_size. simpl. lia.
    + rewrite Hfl, El2, !length_app. simpl. lia.
    + exists (bp, k). split; [|unfold b_size; simpl; lia]. apply elem_of_app. right. by left.
  - assert (Hsz : 0 <= b_size p) by (apply node_low, node_p). destruct l1 as [|c mid'].
    { injection Hmid as <- _. pose proof free_bp. unfold b_end in Eb. simpl in Eb. lia. }
    injection Hmid as <- Em.
    exists (mid' ++ p' :: l2'). split; [done|]. destruct p' as [a k']. unfold b_addr in Ep. simpl in Ep, Es. unfold b_size at 1 in Es. simpl in Es. subst a k'. split; [|split; [|split]].
    + apply (blocks_perm _ _ ((b_addr p, b_size p + k) :: (base, 1) :: l2' ++ mid' ++ used)).
      { rewrite Permutation_swap. constructor. rewrite <- app_assoc, <- app_comm_cons, <- Permutation_middle. constructor. rewrite !app_assoc. f_equiv. apply Permutation_app_comm. }
      apply blocks_merge. replace (b_addr p + 8 * b_size p) with bp by (rewrite <- Eb; done). eapply blocks_perm; [|exact HB]. rewrite Em.
      rewrite <- !app_assoc. replace (b_addr p, b_size p) with p by (by destruct p). simpl. rewrite (app_assoc l2' mid'), <- Permutation_middle. rewrite <- app_assoc.
      rewrite (Permutation_swap (bp, k) p), (Permutation_swap (base, 1) p). constructor.
    + rewrite Hfl, El2, Em, !total_app. simpl. rewrite Ek. unfold b_size at 1. simpl. lia.
    + rewrite Hfl, El2, Em, !length_app. simpl. lia.
    + exists (b_addr p, b_size p + k). split; [apply elem_of_app; right; by left|unfold b_size at 1; simpl; lia].
Qed.

(** Neither header is in a block in use. *)
Lemma hdr_used b c : b ∈ (bp, 1) :: (base, 0) :: mid -> c ∈ used -> b_addr b + 8 <= b_addr c \/ b_end c <= b_addr b.
Proof using Hh Hfl.
  clear Hmid Hlow Hhigh. intros Hb Hc. pose proof (hk_blocks _ _ _ _ Hh) as Hbs. pose proof (blocks_addr _ _ _ c Hbs ltac:(set_solver)) as Hca. pose proof free_bp as Hbp.
  apply elem_of_cons in Hb as [->|Hb]; [|apply elem_of_cons in Hb as [->|Hb]].
  - rewrite (app_comm_cons fl), cons_middle, app_assoc in Hbs. pose proof (blocks_cross _ _ _ _ (bp, n) c Hbs ltac:(set_solver) Hc). unfold apart, b_end, b_addr, b_size in *. simpl in *. lia.
  - pose proof (blocks_cross _ _ [(base, 1)] _ (base, 1) c Hbs ltac:(by left) ltac:(set_solver)). unfold apart, b_end, b_addr, b_size in *. simpl in *. lia.
  - pose proof (blocks_cross _ _ ((base, 1) :: fl) _ b c Hbs ltac:(set_solver) ltac:(set_solver)). pose proof (blocks_addr _ _ _ b Hbs ltac:(set_solver)). unfold apart in *. lia.
Qed.
End free_ok.

(** [free] of a block in use: it is free now, joined to its neighbours, and the
    blocks still in use are as they were. *)
Lemma free_ok base h fl used bp n fuel : heap_ok base h fl ((bp, n) :: used) -> (length fl < fuel)%nat ->
  exists fl' m p, let h' := Heap m p (brk h) in
    free fuel (bp + 8) h = Ok tt h' /\ heap_ok base h' fl' used /\ kept base used h h' /\ total fl' = total fl + n /\
    (length fl' <= S (length fl))%nat /\ exists b, b ∈ fl' /\ n <= b_size b.
Proof.
  intros Hh Hf. destruct (free_place base h fl used bp n Hh) as (mid & l1 & p & l2 & Hfl & Hmid & Hlow & Hhigh).
  destruct (free_run base h fl used bp n Hh mid l1 p l2 Hfl Hmid Hlow Hhigh fuel Hf) as (k & pre & l2' & p' & l2'' & m1 & m2 & R & U1 & U2 & HL & El2 & Ek & Ep & HB & Hcase).
  destruct (free_list base h fl used bp n Hh mid l1 p l2 Hfl Hmid Hlow k pre l2' p' l2'' El2 Ek Ep HB Hcase) as (fl' & En & HB' & Ht & Hlen & b & Hb & Hbk).
  pose proof (free_bp base h fl used bp n Hh) as Hbp. pose proof (node_low base h fl used bp n Hh mid l2 Hfl Hlow p (node_p base mid l1 p Hmid)) as Hp.
  assert (Hk : kept base used h (Heap m2 (b_addr p) (brk h))).
  { intros x Hx. cbn [hmem brk] in *. destruct Hx as [Hx|[Hx|(c & Hc & Hx)]]; [rewrite U2, U1; lia..|].
    pose proof (hdr_used base h fl used bp n Hh mid l2 Hfl (bp, 1) c ltac:(by left) Hc) as H1.
    pose proof (hdr_used base h fl used bp n Hh mid l2 Hfl p c ltac:(right; by rewrite Hmid; apply elem_of_app; right; left) Hc) as H2.
    change (b_addr (bp, 1)) with bp in H1. rewrite U2, U1; lia. }
  exists fl', m2, (b_addr p). split; [done|]. split; [|split; [done|split; [done|split; [done|exists b]]]].
  - split; cbn [brk hmem freep]; [apply (hk_base _ _ _ _ Hh)|apply (hk_brk _ _ _ _ Hh)|done| |by rewrite En| |].
    + rewrite En. destruct (sorted_insert ((base, 0) :: mid) pre l2' (bp, k)) as [S1 S2]; [|done|by rewrite <- El2|].
      { rewrite <- El2, <- app_comm_cons, <- Hfl. apply (hk_sorted _ _ _ _ Hh). }
      rewrite Hmid, <- app_assoc in S1, S2. destruct Hcase as [[-> ->]|(_ & _ & ->)]; [done|].
      eapply sorted_addr; [|exact S2]. rewrite !fmap_app. simpl. by rewrite Ep.
    + exists p'. split; [|done]. rewrite En. apply elem_of_app. right. by left.
    + intros c Hc. rewrite <- (hk_used _ _ _ _ Hh c) by (by right). apply same_size. intros x Hx. apply Hk. right. right. exists c. split; [done|].
      pose proof (blocks_addr _ _ _ c (hk_blocks _ _ _ _ Hh) ltac:(set_solver)). lia.
  - split; [done|]. assert (0 <= total pre); [|lia]. apply (total_nonneg base (brk h)). pose proof (hk_blocks _ _ _ _ Hh) as (_ & _ & _ & _ & Hb0).
    rewrite Hfl, El2 in Hb0. apply blocks_part in Hb0 as [Hb0 _]. apply blocks_part in Hb0 as [_ Hb0]. by apply blocks_part in Hb0 as [Hb0 _].
Qed.

(* ------------------------------------------------------------------ *)
(** * [morecore] *)

(** What the allocator needs of [sbrk] (see [growproc]): when the call succeeds
    the memory has grown by what was asked, and stays below [KERNBASE]. *)
Class Sbrk (grow : Z -> Z -> option Z) : Prop :=
  sbrk_grows : forall b n b', 0 <= n -> grow b n = Some b' -> b' = b + n /\ b' <= 2147483648.

Lemma kept_trans base used h h1 h2 : kept base used h h1 -> kept base used h1 h2 -> brk h1 <= brk h2 -> kept base used h h2.
Proof. intros H1 H2 Hb x Hx. rewrite H2 by done. apply H1. destruct Hx as [Hx|[Hx|Hx]]; auto. right. left. lia. Qed.

Section morecore.
Context (base : Z) (grow : Z -> Z -> option Z) `{!Sbrk grow}.

(** The memory the kernel gives is a block in use, until it is freed. *)
Lemma sbrk_block h fl used n b' : heap_ok base h fl used -> 0 < n -> b' = brk h + 8 * n -> b' <= 2147483648 ->
  let h' := Heap (store32 (hmem h) (brk h + 4) n) (freep h) b' in heap_ok base h' fl ((brk h, n) :: used) /\ kept base used h h'.
Proof.
  intros Hh Hn -> Hb' h'. pose proof (hk_blocks _ _ _ _ Hh) as Hbs. pose proof (hk_brk _ _ _ _ Hh) as Hbr. pose proof (hk_base _ _ _ _ Hh) as Hba.
  assert (Hi : forall b, b ∈ (base, 1) :: fl ++ used -> b_addr b + 8 <= brk h /\ b_end b <= brk h).
  { intros b Hb. pose proof (blocks_addr _ _ _ b Hbs Hb). lia. }
  assert (Hbase : base + 8 <= brk h) by (apply (Hi (base, 1)); by left).
  assert (Hu : upd_hdr (brk h) (hmem h) (hmem h')) by apply upd_setsize.
  assert (Hk : kept base used h h').
  { intros x [Hx|[Hx|(c & Hc & Hx)]]; apply Hu; [lia|unfold h' in Hx; cbn [brk] in Hx; lia|]. pose proof (Hi c ltac:(set_solver)). lia. }
  split; [|done]. split; cbn [brk freep h']; [done|lia| |apply (hk_sorted _ _ _ _ Hh)| |apply (hk_freep _ _ _ _ Hh)|].
  - apply (blocks_perm _ _ ((brk h, n) :: (base, 1) :: fl ++ used)).
    { rewrite Permutation_swap. constructor. by rewrite <- Permutation_middle. }
    cbn [blocks]. unfold b_addr at 1, b_size at 1, b_end at 1. cbn [fst snd]. split; [lia|]. split; [lia|]. split; [lia|]. split.
    + intros c Hc. right. by apply Hi.
    + apply (blocks_wider base (brk h) _ ((base, 1) :: fl ++ used)); [lia|done].
  - eapply upd_links; [exact Hu| |apply (hk_links _ _ _ _ Hh)]. intros b Hb. right.
    apply elem_of_cons in Hb as [->|Hb]; [exact Hbase|]. apply Hi. set_solver.
  - intros b Hb. apply elem_of_cons in Hb as [->|Hb]; [apply size_setsize; unfold b_size; simpl; lia|].
    rewrite <- (hk_used _ _ _ _ Hh b Hb). apply same_size. eapply upd_same; [exact Hu|]. right. apply Hi. set_solver.
Qed.

Lemma morecore_ok h fl used nu fuel : heap_ok base h fl used -> 0 < nu < 268435456 -> (length fl < fuel)%nat ->
  let n := Z.max nu 4096 in
  (grow (brk h) (8 * n) = None /\ morecore grow fuel nu h = Ok 0 h) \/
  exists fl' h', morecore grow fuel nu h = Ok (freep h') h' /\ heap_ok base h' fl' used /\ kept base used h h' /\
    grow (brk h) (8 * n) = Some (brk h') /\ brk h <= brk h' /\ (length fl' <= S (length fl))%nat /\ exists b, b ∈ fl' /\ nu <= b_size b.
Proof.
  intros Hh Hnu Hf n. assert (En : (if nu <? 4096 then 4096 else nu) = n) by (unfold n; destruct (Z.ltb_spec nu 4096); lia).
  assert (Es : s32 (u32 (n * 8)) = 8 * n). { rewrite u32_id by lia. rewrite s32_id by lia. lia. }
  unfold morecore. cbv zeta. rewrite En. unfold sbrk. rewrite Es. destruct (grow (brk h) (8 * n)) as [b'|] eqn:Eg.
  - right. destruct (sbrk_grows (brk h) (8 * n) b' ltac:(lia) Eg) as [Eb Hb'].
    destruct (sbrk_block h fl used n b' Hh ltac:(lia) Eb Hb') as [Hh1 Hk1].
    destruct (free_ok base _ fl used (brk h) n fuel Hh1 Hf) as (fl' & m & p & R & Hh2 & Hk2 & _ & Hl & b & Hb & Hbs).
    exists fl', (Heap m p b'). split; [|split; [done|split; [eapply kept_trans; [exact Hk1|exact Hk2|done]|split; [done|split; [cbn [brk]; lia|split; [done|]]]]]].
    + erewrite bind_ok by (erewrite bind_ok by reflexivity; rewrite Eg; reflexivity).
      destruct (Z.eqb_spec (brk h) (-1)) as [E|E]; [pose proof (hk_base _ _ _ _ Hh); pose proof (blocks_addr _ _ _ (base, 1) (hk_blocks _ _ _ _ Hh) ltac:(by left)); unfold b_addr in *; simpl in *; lia|]. erewrite bind_ok by reflexivity. by erewrite bind_ok by exact R.
    + exists b. split; [done|lia].
  - left. split; [done|]. erewrite bind_ok by (erewrite bind_ok by reflexivity; rewrite Eg; reflexivity). done.
Qed.
End morecore.
