(* ===== verification/UmallocSpec.v ===== *)
(** [malloc] (src/umalloc.c): it returns a block of its own, or 0 when no free
    block is large enough and the kernel gives no more memory; and what a program
    that uses its blocks only relies on. *)

From Stdlib Require Import Sorted.
From S2P Require Import Prelude StringC Umalloc.

#[local] Opaque ptr_of size_of.

(* ------------------------------------------------------------------ *)
(** * First fit *)

(** The first element that is large enough. *)
Lemma first_big (nu : Z) (l : list blk) : (forall b, b ∈ l -> b_size b < nu) \/
  exists a q c, l = a ++ q :: c /\ (forall b, b ∈ a -> b_size b < nu) /\ nu <= b_size q.
Proof.
  induction l as [|b l IH]; [by left; intros b ?%elem_of_nil|]. destruct (Z.le_gt_cases nu (b_size b)) as [H|H].
  - right. exists [], b, l. split; [done|]. split; [by intros c ?%elem_of_nil|done].
  - destruct IH as [IH|(a & q & c & -> & Ha & Hq)]; [left|right; exists (b :: a), q, c; split; [done|split; [|done]]];
      intros d Hd; apply elem_of_cons in Hd as [->|Hd]; auto.
Qed.

(** The last of the nodes passed from [d]. *)
Definition last_of (d : blk) (a : list blk) : blk := fold_left (fun _ b => b) a d.

Lemma last_of_snoc d a b : last_of d (a ++ [b]) = b.
Proof. unfold last_of. by rewrite fold_left_app. Qed.

Section ring.
Context (base nu : Z) (m : memory) (u : list blk) (f : blk) (v : list blk).
Context (Hhd : hd_addr (u ++ f :: v) 0 = base) (Hl : links m (u ++ f :: v) base) (Hs : StronglySorted before (u ++ f :: v)).
Context (Hnu : 0 < nu) (H0 : forall b, b ∈ u ++ f :: v -> b_addr b = base -> b_size b = 0).

Lemma ring_links : links m (f :: v ++ u) (b_addr f).
Proof using Hhd Hl.
  clear Hs H0. destruct u as [|b u']; [rewrite app_nil_r; cbn [hd_addr app] in Hhd; by rewrite Hhd|].
  apply (links_rotate m (b :: u') (f :: v)); [done|done|]. cbn [hd_addr app] in *. by rewrite Hhd.
Qed.

Lemma ring_other b : b ∈ v ++ u -> b_addr b <> b_addr f.
Proof using Hs.
  intros Hb E. pose proof (sorted_app _ _ Hs) as Hx. apply sorted_parts in Hs as [_ Hv]. pose proof (sorted_app [f] v Hv) as Hy.
  apply elem_of_app in Hb as [Hb|Hb]; [pose proof (Hy f b ltac:(by left) Hb)|pose proof (Hx b f Hb ltac:(by left))]; lia.
Qed.

(** Going round from the node [f], the first block that is large enough, the
    node before it, and the nodes passed on the way. *)
Lemma ring_fit : (forall b, b ∈ f :: v ++ u -> b_size b < nu) \/
  exists a q l1 d l2, u ++ f :: v = l1 ++ d :: q :: l2 /\ nu <= b_size q /\ links m (f :: a) (b_addr q) /\
    (forall b, b ∈ a -> b_size b < nu /\ b_addr b <> b_addr f) /\ last_of f a = d /\ (length a <= length (u ++ v))%nat.
Proof using All.
  assert (Hr := ring_links). assert (Hot := ring_other). destruct (first_big nu (v ++ u)) as [Hsm|(a & q & c & E & Ha & Hq)].
  - destruct (Z.le_gt_cases nu (b_size f)) as [Hf|Hf]; [right|left; intros b Hb; apply elem_of_cons in Hb as [->|Hb]; auto].
    destruct (exists_last (l := u)) as (l1 & d & ->).
    { intros ->. cbn [hd_addr app] in Hhd. pose proof (H0 f ltac:(by left) Hhd). lia. }
    exists (v ++ l1 ++ [d]), f, l1, d, v. rewrite <- app_assoc. split; [done|]. split; [done|]. split; [done|]. split; [|split].
    + intros b Hb. split; [by apply Hsm|by apply Hot].
    + by rewrite app_assoc, last_of_snoc.
    + rewrite !length_app. lia.
  - right. rewrite E, app_comm_cons in Hr. apply links_app in Hr as [Hr _].
    assert (Ho : forall b, b ∈ a -> b_size b < nu /\ b_addr b <> b_addr f).
    { intros b Hb. split; [by apply Ha|]. apply Hot. rewrite E. set_solver. }
    assert (Hlen : (length a <= length (u ++ v))%nat). { pose proof (f_equal length E) as El. rewrite !length_app in *. simpl in El. lia. }
    apply app_eq_app in E as (l & [[-> E]|[-> E]]).
    + destruct l as [|q' l]; simpl in E.
      { subst u. cbn [hd_addr app] in Hhd. pose proof (H0 q ltac:(by left) Hhd). lia. }
      injection E as <- ->. destruct (exists_last (l := f :: a)) as (l1 & d & El); [done|].
      exists a, q, (u ++ l1), d, l. split; [by rewrite app_comm_cons, El, <- !app_assoc|]. split; [done|]. split; [done|]. split; [done|]. split; [|done].
      destruct l1 as [|f' l1]; injection El as <- ->; [done|apply last_of_snoc].
    + destruct (exists_last (l := l)) as (l1 & d & ->).
      { intros ->. simpl in E. subst u. cbn [hd_addr app] in Hhd. pose proof (H0 q ltac:(by left) Hhd). lia. }
      exists (v ++ l1 ++ [d]), q, l1, d, (c ++ f :: v). rewrite E, <- !app_assoc. split; [done|]. split; [done|]. split; [done|]. split; [done|].
      split; [by rewrite app_assoc, last_of_snoc|]. by rewrite E, <- !app_assoc in Hlen.
Qed.
End ring.

(* ------------------------------------------------------------------ *)
(** * The loop *)
Section malloc.
Variable base : Z.

(** The nodes that are too small are passed. *)
Lemma loop_skip grow nu a : forall d q fuel h, links (hmem h) (d :: a) (b_addr q) -> (forall b, b ∈ a -> b_size b < nu /\ b_addr b <> freep h) ->
  malloc_loop grow (length a + fuel) nu (b_addr d) (hd_addr a (b_addr q)) h = malloc_loop grow fuel nu (b_addr (last_of d a)) (b_addr q) h.
Proof.
  induction a as [|b a IH]; intros d q fuel h Hl Ha; [done|]. destruct Hl as (_ & _ & Hl). pose proof Hl as (Hp & Hs & _).
  destruct (Ha b ltac:(by left)) as [Hb1 Hb2]. cbn [length Nat.add hd_addr malloc_loop].
  erewrite bind_ok by (unfold getsize, gets; rewrite Hs; reflexivity). rewrite (proj2 (Z.leb_gt _ _) Hb1).
  erewrite bind_ok by reflexivity. rewrite (proj2 (Z.eqb_neq _ _) Hb2).
  erewrite bind_ok by (unfold getptr, gets; rewrite Hp; reflexivity).
  rewrite IH; [|done|intros c Hc; apply Ha; by right]. done.
Qed.

(** A node other than the blocks in use. *)
Lemma node_used h fl used b c : heap_ok base h fl used -> b ∈ nodes base fl -> c ∈ used -> b_addr b + 8 <= b_addr c \/ b_end c <= b_addr b.
Proof.
  intros Hh Hb Hc. pose proof (hk_blocks _ _ _ _ Hh) as Hbs. apply elem_of_cons in Hb as [->|Hb].
  - apply (blocks_cross _ _ ((base, 1) :: fl) used (base, 1) c Hbs); [by left|done].
  - pose proof (blocks_cross _ _ ((base, 1) :: fl) used b c Hbs ltac:(by right) Hc). pose proof (blocks_addr _ _ _ b Hbs ltac:(set_solver)). unfold apart in *. lia.
Qed.

Lemma node_apart h fl used b c : heap_ok base h fl used -> b ∈ nodes base fl -> c ∈ nodes base fl -> b_addr b <> b_addr c -> hdr_apart (b_addr b) (b_addr c).
Proof.
  intros Hh Hb Hc Hne. pose proof (hk_blocks _ _ _ _ Hh) as Hbs. apply elem_of_cons in Hc as [->|Hc].
  - apply elem_of_cons in Hb as [->|Hb]; [done|]. destruct (hdr_base base _ _ Hbs b ltac:(set_solver)); [by right|by left].
  - apply (hdr_node base _ _ Hbs fl); [set_solver|done|set_solver|done].
Qed.

Lemma hd_addr_range h fl used l : heap_ok base h fl used -> l ⊆ fl -> 0 <= hd_addr l base < 4294967296.
Proof.
  intros Hh Hin. pose proof (hk_base _ _ _ _ Hh). pose proof (hk_brk _ _ _ _ Hh). pose proof (hk_blocks _ _ _ _ Hh) as Hbs.
  destruct l as [|b l]; simpl.
  - pose proof (blocks_addr _ _ _ (base, 1) Hbs ltac:(by left)). unfold b_addr, b_end in *. simpl in *. lia.
  - pose proof (blocks_addr _ _ _ b Hbs ltac:(set_solver)). lia.
Qed.

Lemma kept_upd h fl used m p b : heap_ok base h fl used -> b ∈ nodes base fl -> upd_hdr (b_addr b) (hmem h) m -> kept base used h (Heap m p (brk h)).
Proof.
  intros Hh Hb Hu x Hx. cbn [hmem brk] in *. apply Hu. pose proof (hk_blocks _ _ _ _ Hh) as Hbs.
  assert (Hr : base <= b_addr b /\ b_addr b + 8 <= brk h).
  { apply elem_of_cons in Hb as [->|Hb]; [pose proof (blocks_addr _ _ _ (base, 1) Hbs ltac:(by left)); unfold b_addr, b_end in *; simpl in *; lia|].
    pose proof (blocks_addr _ _ _ b Hbs ltac:(set_solver)). lia. }
  destruct Hx as [Hx|[Hx|(c & Hc & Hx)]]; [lia..|]. pose proof (node_used h fl used b c Hh Hb Hc). lia.
Qed.

Lemma sorted_remove (xs ys : list blk) q : StronglySorted before (xs ++ q :: ys) -> StronglySorted before (xs ++ ys).
Proof.
  intros Hs. pose proof (sorted_app _ _ Hs) as Hx. apply sorted_parts in Hs as [H1 H2]. apply StronglySorted_inv in H2 as [H2 _].
  apply sorted_join; [done|done|]. intros b c Hb Hc. apply Hx; [done|by right].
Qed.

Section fit.
Context (h : heap) (fl used : list blk) (Hh : heap_ok base h fl used) (mid l1 : list blk) (d q : blk) (l2 : list blk).
Context (Hfl : fl = mid ++ q :: l2) (Hmid : (base, 0) :: mid = l1 ++ [d]).

Lemma fit_nodes : nodes base fl = l1 ++ d :: q :: l2.
Proof using Hfl Hmid. unfold nodes. rewrite Hfl, (app_comm_cons mid), Hmid, <- app_assoc. done. Qed.

(** The block taken as a whole. *)
Lemma fit_exact : let h' := Heap (store32 (hmem h) (b_addr d) (hd_addr l2 base)) (b_addr d) (brk h) in
  heap_ok base h' (mid ++ l2) (q :: used) /\ kept base used h h'.
Proof using Hh Hfl Hmid.
  assert (Hn := fit_nodes). pose proof (hk_blocks _ _ _ _ Hh) as Hbs. pose proof (hk_links _ _ _ _ Hh) as Hl. pose proof (hk_sorted _ _ _ _ Hh) as Hs.
  rewrite Hn in Hl, Hs. assert (Hd : d ∈ nodes base fl) by (rewrite Hn; apply elem_of_app; right; by left).
  assert (En' : nodes base (mid ++ l2) = l1 ++ d :: l2). { unfold nodes. rewrite (app_comm_cons mid), Hmid, <- app_assoc. done. }
  set (m := store32 (hmem h) (b_addr d) (hd_addr l2 base)). assert (Hu : upd_hdr (b_addr d) (hmem h) m) by apply upd_setptr.
  assert (Hapart : forall b, b ∈ l1 ++ q :: l2 -> hdr_apart (b_addr d) (b_addr b)).
  { intros b Hb. apply (node_apart h fl used); [done|done|rewrite Hn; set_solver|]. pose proof (sorted_app _ _ Hs) as Hx. pose proof (sorted_app [d] (q :: l2) (proj2 (sorted_parts _ _ Hs))) as Hy.
    apply elem_of_app in Hb as [Hb|Hb]; [pose proof (Hx b d Hb ltac:(by left))|pose proof (Hy d b ltac:(by left) Hb)]; lia. }
  split; [|by eapply kept_upd].
  apply links_app in Hl as (L1 & L2 & L3 & L4 & L5 & L6).
  split; cbn [brk freep hmem]; [apply (hk_base _ _ _ _ Hh)|apply (hk_brk _ _ _ _ Hh)| | | | |].
  - eapply blocks_perm; [|exact Hbs]. constructor. rewrite Hfl, <- !app_assoc. f_equiv. rewrite <- app_comm_cons. apply Permutation_middle.
  - rewrite En'. rewrite (cons_middle d l1), app_assoc in Hs. apply sorted_remove in Hs. by rewrite <- app_assoc in Hs.
  - rewrite En'. apply links_app. split; [eapply upd_links; [exact Hu|intros b Hb; apply Hapart; set_solver|done]|]. split; [|split].
    + apply ptr_setptr. apply (hd_addr_range h fl used); [done|rewrite Hfl; set_solver].
    + unfold m. by rewrite size_setptr.
    + eapply upd_links; [exact Hu|intros b Hb; apply Hapart; set_solver|done].
  - exists d. split; [|done]. rewrite En'. apply elem_of_app. right. by left.
  - intros b Hb. apply elem_of_cons in Hb as [->|Hb].
    + rewrite <- L5. apply same_size. eapply upd_same; [exact Hu|]. apply Hapart. set_solver.
    + rewrite <- (hk_used _ _ _ _ Hh b Hb). apply same_size. eapply upd_same; [exact Hu|].
      pose proof (node_used h fl used d b Hh Hd Hb). pose proof (blocks_addr _ _ _ b Hbs ltac:(set_solver)). unfold hdr_apart. lia.
Qed.

(** A part of it, at its end. *)
Lemma fit_split nu : 0 < nu < b_size q -> let a := b_addr q in let k := b_size q - nu in let bp := a + 8 * k in
  let h' := Heap (store32 (store32 (hmem h) (a + 4) k) (bp + 4) nu) (b_addr d) (brk h) in
  heap_ok base h' (mid ++ (a, k) :: l2) ((bp, nu) :: used) /\ kept base used h h' /\ units a k = bp.
Proof using Hh Hfl Hmid.
  intros Hnu a k bp h'. assert (Hn := fit_nodes). pose proof (hk_blocks _ _ _ _ Hh) as Hbs. pose proof (hk_links _ _ _ _ Hh) as Hl.
  rewrite Hn in Hl. pose proof (hk_base _ _ _ _ Hh) as Hba. pose proof (hk_brk _ _ _ _ Hh) as Hbr.
  assert (Hnew : blocks base (brk h) ((a, k) :: (bp, nu) :: (base, 1) :: mid ++ l2 ++ used)).
  { apply blocks_split; [|done]. eapply blocks_perm; [|exact Hbs]. rewrite Hfl, <- app_assoc, <- app_comm_cons, <- Permutation_middle.
    replace (a, b_size q) with q by (by destruct q). constructor. }
  pose proof Hnew as (N1 & N2 & N3 & N4 & N5 & N6 & N7 & N8 & _). unfold b_addr at 1 in N1. unfold b_addr at 1 in N5. unfold b_size at 1 in N2. unfold b_size at 1 in N6.
  unfold b_end at 1 in N3. unfold b_end at 1 in N7. cbn [fst snd] in *.
  assert (Hap : forall c, c ∈ (base, 1) :: mid ++ l2 ++ used -> (a + 8 <= b_addr c \/ b_end c <= a) /\ (bp + 8 <= b_addr c \/ b_end c <= bp)).
  { intros c Hc. pose proof (N4 c ltac:(by right)) as H1. pose proof (N8 c Hc) as H2. unfold apart, b_end at 1, b_addr at 2 in H1. unfold apart, b_end at 1, b_addr at 2 in H2. cbn [fst snd] in *. lia. }
  assert (Hnd : forall c, c ∈ ((base, 0) :: mid) ++ l2 -> hdr_apart a (b_addr c) /\ hdr_apart bp (b_addr c)).
  { intros c Hc. simpl in Hc. apply elem_of_cons in Hc as [->|Hc].
    - destruct (Hap (base, 1) ltac:(by left)) as [H1 H2]. unfold hdr_apart, b_end, b_addr in *. simpl in *. lia.
    - destruct (Hap c ltac:(set_solver)) as [H1 H2]. pose proof (blocks_addr _ _ _ c Hnew ltac:(set_solver)). unfold hdr_apart. lia. }
  set (m1 := store32 (hmem h) (a + 4) k). assert (U1 : upd_hdr a (hmem h) m1) by apply upd_setsize. assert (U2 : upd_hdr bp m1 (hmem h')) by apply upd_setsize.
  assert (Hk : kept base used h h').
  { intros x Hx. unfold h' in Hx. cbn [brk] in Hx. destruct Hx as [Hx|[Hx|(c & Hc & Hx)]]; [rewrite U2, U1 by lia; done..|].
    destruct (Hap c ltac:(set_solver)). rewrite U2, U1 by lia. done. }
  assert (En' : nodes base (mid ++ (a, k) :: l2) = (l1 ++ [d]) ++ (a, k) :: l2) by (unfold nodes; by rewrite (app_comm_cons mid), Hmid).
  split; [|split; [done|apply u32_id; lia]].
  rewrite (cons_middle d l1), app_assoc in Hl. apply links_app in Hl as (L1 & L2 & L3 & L4).
  assert (Hsame : forall ns e, ns ⊆ ((base, 0) :: mid) ++ l2 -> links (hmem h) ns e -> links (hmem h') ns e).
  { intros ns e Hin Hl. apply (upd_links bp m1); [done|intros c Hc; by apply Hnd, Hin|]. apply (upd_links a (hmem h)); [done|intros c Hc; by apply Hnd, Hin|done]. }
  split; cbn [brk freep]; [done|done| | | | |].
  - eapply blocks_perm; [|exact Hnew]. rewrite (Permutation_swap (base, 1) (bp, nu)), (Permutation_swap (base, 1) (a, k)). constructor.
    rewrite <- app_assoc. simpl. rewrite <- (Permutation_middle mid), <- (Permutation_middle l2), <- (Permutation_middle mid). done.
  - rewrite En'. eapply sorted_addr; [|apply (hk_sorted _ _ _ _ Hh)]. rewrite Hn, <- app_assoc, !fmap_app. done.
  - rewrite En'. apply links_app. split; [apply Hsame; [rewrite Hmid; set_solver|done]|]. split; [|split].
    + rewrite (same_ptr m1) by (eapply upd_same; [exact U2|right; unfold b_addr; simpl; lia]). unfold m1. by rewrite ptr_setsize.
    + rewrite (same_size m1) by (eapply upd_same; [exact U2|right; unfold b_addr; simpl; lia]). apply size_setsize. unfold b_size; simpl. lia.
    + apply Hsame; [set_solver|done].
  - exists d. split; [|done]. rewrite En'. set_solver.
  - intros c Hc. apply elem_of_cons in Hc as [->|Hc]; [apply size_setsize; unfold b_size; simpl; lia|].
    rewrite <- (hk_used _ _ _ _ Hh c Hc). apply same_size. intros x Hx. apply Hk. right. right. exists c. split; [done|].
    pose proof (blocks_addr _ _ _ c Hbs ltac:(set_solver)). lia.
Qed.
End fit.

(** A block of [nu] units is given to the program. *)
Definition gives (nu : Z) (used : list blk) (h : heap) (out : outcome heap Z) : Prop :=
  exists bp fl' h', out = Ok (bp + 8) h' /\ heap_ok base h' fl' ((bp, nu) :: used) /\ kept base used h h' /\ brk h <= brk h'.

Lemma loop_fit grow nu h fl used l1 d q l2 fuel : heap_ok base h fl used -> nodes base fl = l1 ++ d :: q :: l2 -> 0 < nu <= b_size q ->
  gives nu used h (malloc_loop grow (S fuel) nu (b_addr d) (b_addr q) h).
Proof.
  intros Hh Hn Hnu. pose proof (hk_links _ _ _ _ Hh) as Hl. rewrite Hn in Hl. apply links_app in Hl as (_ & L2 & L3 & L4 & L5 & L6).
  assert (Hm : exists mid, fl = mid ++ q :: l2 /\ (base, 0) :: mid = l1 ++ [d]).
  { destruct l1 as [|b l1]; injection Hn as <- ->; [by exists []|]. exists (l1 ++ [d]). by rewrite <- app_assoc. }
  destruct Hm as (mid & Hfl & Hmid). cbn [malloc_loop]. erewrite bind_ok by (unfold getsize, gets; rewrite L5; reflexivity).
  rewrite (proj2 (Z.leb_le _ _)) by lia. destruct (Z.eqb_spec (b_size q) nu) as [E|E].
  - destruct (fit_exact h fl used Hh mid l1 d q l2 Hfl Hmid) as [H1 H2]. eexists (b_addr q), (mid ++ l2), _.
    split; [|split; [|split; [exact H2|cbn [brk]; lia]]].
    + erewrite bind_ok by (erewrite bind_ok by (unfold getptr, gets; rewrite L4; reflexivity); reflexivity). reflexivity.
    + rewrite <- E. by destruct q.
  - destruct (fit_split h fl used Hh mid l1 d q l2 Hfl Hmid nu ltac:(lia)) as (H1 & H2 & H3). eexists _, _, _.
    split; [|split; [exact H1|split; [exact H2|cbn [brk]; lia]]].
    erewrite bind_ok by (erewrite bind_ok by reflexivity; rewrite H3; reflexivity). reflexivity.
Qed.

(** A round of the list, from [freep]. *)
Lemma loop_round grow nu h fl used fuel : heap_ok base h fl used -> 0 < nu -> (length fl <= fuel)%nat ->
  let out := malloc_loop grow (S fuel) nu (freep h) (ptr_of (hmem h) (freep h)) h in
  gives nu used h out \/
  ((forall b, b ∈ fl -> b_size b < nu) /\ exists prevp, out = malloc_loop grow (S (fuel - length fl)) nu prevp (freep h) h).
Proof.
  intros Hh Hnu Hf out. destruct (hk_freep _ _ _ _ Hh) as (f & Hin & Ef). apply list_elem_of_split in Hin as (u & v & Hn).
  pose proof (hk_links _ _ _ _ Hh) as Hl. pose proof (hk_sorted _ _ _ _ Hh) as Hs. rewrite Hn in Hl, Hs.
  assert (Hhd : hd_addr (u ++ f :: v) 0 = base) by (by rewrite <- Hn).
  assert (H0 : forall b, b ∈ u ++ f :: v -> b_addr b = base -> b_size b = 0).
  { rewrite <- Hn. intros b Hb E. apply elem_of_cons in Hb as [->|Hb]; [done|]. pose proof (hdr_base base _ _ (hk_blocks _ _ _ _ Hh) b ltac:(set_solver)) as Ha. unfold hdr_apart in Ha. lia. }
  assert (Hlen : length (v ++ u) = length fl). { pose proof (f_equal length Hn) as E. rewrite length_app in *. simpl in E. lia. }
  pose proof (ring_links base (hmem h) u f v Hhd Hl) as Hr. pose proof (ring_other u f v Hs) as Hot.
  destruct (ring_fit base nu (hmem h) u f v Hhd Hl Hs Hnu H0) as [Hsm|(a & q & l1 & d & l2 & En & Hq & La & Ha & Ed & Hla)].
  - right. split.
    + intros b Hb. apply Hsm. assert (Hb' : b ∈ u ++ f :: v) by (rewrite <- Hn; by right). set_solver.
    + exists (b_addr (last_of f (v ++ u))). unfold out. rewrite Ef. destruct Hr as (Hp & Hr). rewrite Hp. replace (S fuel) with (length (v ++ u) + S (fuel - length fl))%nat by lia.
      apply loop_skip; [split; [exact Hp|exact Hr]|]. intros b Hb. rewrite Ef. split; [apply Hsm; by right|by apply Hot].
  - left. unfold out. rewrite Ef. destruct La as (Hp & La). rewrite Hp. rewrite length_app in *. replace (S fuel) with (length a + S (fuel - length a))%nat by lia.
    rewrite loop_skip; [|split; [exact Hp|exact La]|intros b Hb; rewrite Ef; by apply Ha]. rewrite Ed. eapply loop_fit; [exact Hh|by rewrite Hn|lia].
Qed.

Lemma freep_pos h fl used : heap_ok base h fl used -> 0 < freep h.
Proof.
  intros Hh. pose proof (hk_base _ _ _ _ Hh). destruct (hk_freep _ _ _ _ Hh) as (f & Hin & ->). apply elem_of_cons in Hin as [->|Hin]; [done|].
  pose proof (blocks_addr _ _ _ f (hk_blocks _ _ _ _ Hh) ltac:(set_solver)). lia.
Qed.

Context (grow : Z -> Z -> option Z) `{!Sbrk grow}.

Lemma malloc_loop_ok nu h fl used fuel : heap_ok base h fl used -> 0 < nu < 268435456 -> (2 * length fl + 2 <= fuel)%nat ->
  let out := malloc_loop grow (S fuel) nu (freep h) (ptr_of (hmem h) (freep h)) h in
  gives nu used h out \/
  (out = Ok 0 h /\ (forall b, b ∈ fl -> b_size b < nu) /\ grow (brk h) (8 * Z.max nu 4096) = None).
Proof.
  intros Hh Hnu Hf out. destruct (loop_round grow nu h fl used fuel Hh ltac:(lia) ltac:(lia)) as [H|(Hsm & prevp & E)]; [by left|].
  set (fu := (fuel - length fl)%nat) in *. assert (Hsz : size_of (hmem h) (freep h) < nu).
  { destruct (hk_freep _ _ _ _ Hh) as (f & Hin & ->). pose proof (hk_links _ _ _ _ Hh) as Hl. pose proof Hin as Hin'. apply list_elem_of_split in Hin' as (u & v & Hn).
    rewrite Hn in Hl. apply links_app in Hl as (_ & _ & -> & _). apply elem_of_cons in Hin as [->|Hin]; [unfold b_size; simpl; lia|by apply Hsm]. }
  assert (E' : out = (p <- morecore grow (S fu) nu ;; if p =? 0 then ret 0 else n <- getptr p ;; malloc_loop grow fu nu p n) h).
  { unfold out. rewrite E. cbn [malloc_loop]. erewrite bind_ok by reflexivity. rewrite (proj2 (Z.leb_gt _ _) Hsz). erewrite bind_ok by reflexivity. by rewrite Z.eqb_refl. }
  rewrite E'. assert (Hfu : (length fl + 2 <= fu)%nat) by lia. clearbody fu.
  destruct (morecore_ok base grow h fl used nu (S fu) Hh Hnu ltac:(lia)) as [[Eg Em]|(fl' & h' & Em & Hh' & Hk & Eg & Hb & Hlen & b & Hbin & Hbs)].
  - right. rewrite (bind_ok _ _ _ _ _ Em). auto.
  - left. rewrite (bind_ok _ _ _ _ _ Em). destruct (Z.eqb_spec (freep h') 0) as [E0|E0]; [pose proof (freep_pos h' fl' used Hh'); lia|].
    erewrite bind_ok by reflexivity. destruct fu as [|fu]; [lia|].
    destruct (loop_round grow nu h' fl' used fu Hh' ltac:(lia) ltac:(lia)) as [(bp & fl'' & h'' & -> & Hh'' & Hk'' & Hb'')|(Hsm' & _)].
    + exists bp, fl'', h''. split; [done|]. split; [done|]. split; [by eapply kept_trans|lia].
    + pose proof (Hsm' b Hbin). lia.
Qed.

(** Before the first call the list is not there yet. *)
Definition ready (h : heap) (fl used : list blk) : Prop :=
  heap_ok base h fl used \/ (freep h = 0 /\ fl = [] /\ used = [] /\ 0 < base /\ base + 8 <= brk h <= 2147483648).

(** The units of a block of [nbytes] bytes, with its header. *)
Definition nunits (nbytes : Z) : Z := (nbytes + 7) / 8 + 1.

Lemma nunits_range nbytes : 0 <= nbytes <= 2147483632 -> 0 < nunits nbytes < 268435456 /\ nbytes + 8 <= 8 * nunits nbytes.
Proof. intros H. unfold nunits. pose proof (Z.div_mod (nbytes + 7) 8 ltac:(lia)). pose proof (Z.mod_pos_bound (nbytes + 7) 8 ltac:(lia)). lia. Qed.

Lemma malloc_start h : freep h = 0 -> 0 < base -> base + 8 <= brk h <= 2147483648 ->
  let h' := Heap (store32 (store32 (hmem h) base base) (base + 4) 0) base (brk h) in heap_ok base h' [] [] /\ kept base [] h h'.
Proof.
  intros Hf Hb Hbr h'. split.
  - split; cbn [brk freep h']; [done|lia| | | | |by intros b ?%elem_of_nil].
    + cbn [blocks app]. unfold b_addr, b_size, b_end. cbn [fst snd]. repeat (split; [lia|]). split; [by intros b ?%elem_of_nil|done].
    + repeat constructor.
    + split; [|split; [|done]]; unfold b_addr; cbn [fst snd hmem h'].
      * rewrite ptr_setsize. apply ptr_setptr. simpl. lia.
      * by apply size_setsize.
    + exists (base, 0). split; [by left|done].
  - intros x Hx. unfold h' in *. cbn [hmem brk] in *. rewrite !store32_ne; [done|..]; destruct Hx as [Hx|[Hx|(c & Hc & _)]]; try lia; by apply elem_of_nil in Hc.
Qed.

(** [malloc], from any heap: it returns; it gives a block of the right size, or 0. *)
Lemma malloc_ok nbytes h fl used fuel : ready h fl used -> 0 <= nbytes <= 2147483632 -> (2 * length fl + 3 <= fuel)%nat ->
  gives (nunits nbytes) used h (malloc base grow fuel nbytes h) \/
  exists h', malloc base grow fuel nbytes h = Ok 0 h' /\ heap_ok base h' fl used /\ kept base used h h' /\ brk h' = brk h /\
    (forall b, b ∈ fl -> b_size b < nunits nbytes) /\ grow (brk h) (8 * Z.max (nunits nbytes) 4096) = None.
Proof.
  intros Hr Hn Hf. destruct (nunits_range nbytes Hn) as [Hu _]. destruct fuel as [|fuel]; [lia|].
  unfold malloc. rewrite (u32_id (nbytes + 7)) by lia. fold (nunits nbytes). cbv zeta. erewrite bind_ok by reflexivity.
  destruct Hr as [Hh|(Hf0 & -> & -> & Hb & Hbr)].
  - rewrite (proj2 (Z.eqb_neq _ _)) by (pose proof (freep_pos h fl used Hh); lia). erewrite bind_ok by reflexivity. erewrite bind_ok by reflexivity.
    destruct (malloc_loop_ok (nunits nbytes) h fl used fuel Hh Hu ltac:(lia)) as [H|(E & Hsm & Hg)]; [by left|].
    right. exists h. repeat (split; [done|]). done.
  - rewrite Hf0. simpl Z.eqb. cbv iota. destruct (malloc_start h Hf0 Hb Hbr) as [Hh Hk]. set (h' := Heap _ _ _) in *.
    erewrite bind_ok by reflexivity. erewrite bind_ok by reflexivity.
    destruct (malloc_loop_ok (nunits nbytes) h' [] [] fuel Hh Hu ltac:(simpl in *; lia)) as [(bp & fl' & h'' & E & Hh'' & Hk'' & Hb'')|(E & Hsm & Hg)].
    + left. exists bp, fl', h''. split; [exact E|]. split; [done|]. split; [by eapply kept_trans|done].
    + right. exists h'. repeat (split; [done|]). done.
Qed.
End malloc.

(* ------------------------------------------------------------------ *)
(** * More fuel gives the same result *)
Section fuel.
Context (base : Z) (grow : Z -> Z -> option Z).

Definition le_out {A} (a b : outcome heap A) : Prop := forall x h, a = Ok x h -> b = Ok x h.

Lemma le_refl {A} (a : outcome heap A) : le_out a a.
Proof. by intros x h. Qed.
#[local] Hint Resolve le_refl : core.

Lemma le_bind {A B} (m m' : M heap A) (k k' : A -> M heap B) h : le_out (m h) (m' h) -> (forall a h', le_out (k a h') (k' a h')) ->
  le_out (bind m k h) (bind m' k' h).
Proof. intros Hm Hk b h'. unfold bind. destruct (m h) as [a h1|e|h1] eqn:E; try done. rewrite (Hm a h1 eq_refl). apply Hk. Qed.

Lemma free_find_le fuel : forall fuel' bp p h, (fuel <= fuel')%nat -> le_out (free_find fuel bp p h) (free_find fuel' bp p h).
Proof.
  induction fuel as [|fuel IH]; intros fuel' bp p h Hle; [by intros ? ? ?|]. destruct fuel' as [|fuel']; [lia|]. cbn [free_find].
  apply le_bind; [done|]. intros n h'. destruct (_ && _); [done|]. destruct (_ && _); [done|]. apply IH. lia.
Qed.

Lemma free_le fuel fuel' ap h : (fuel <= fuel')%nat -> le_out (free fuel ap h) (free fuel' ap h).
Proof. intros Hle. unfold free. apply le_bind; [done|]. intros fp h1. apply le_bind; [by apply free_find_le|done]. Qed.

Lemma morecore_le fuel fuel' nu h : (fuel <= fuel')%nat -> le_out (morecore grow fuel nu h) (morecore grow fuel' nu h).
Proof.
  intros Hle. unfold morecore. cbv zeta. apply le_bind; [done|]. intros p h1. destruct (p =? -1); [done|]. apply le_bind; [done|]. intros _ h2.
  apply le_bind; [by apply free_le|done].
Qed.

Lemma malloc_loop_le fuel : forall fuel' nu prevp p h, (fuel <= fuel')%nat -> le_out (malloc_loop grow fuel nu prevp p h) (malloc_loop grow fuel' nu prevp p h).
Proof.
  induction fuel as [|fuel IH]; intros fuel' nu prevp p h Hle; [by intros ? ? ?|]. destruct fuel' as [|fuel']; [lia|]. cbn [malloc_loop].
  apply le_bind; [done|]. intros sz h1. destruct (nu <=? sz); [done|]. apply le_bind; [done|]. intros fp h2. destruct (p =? fp).
  - apply le_bind; [by apply morecore_le|]. intros p' h3. destruct (p' =? 0); [done|]. apply le_bind; [done|]. intros n h4. apply IH. lia.
  - apply le_bind; [done|]. intros n h4. apply IH. lia.
Qed.

Lemma malloc_le fuel fuel' n h : (fuel <= fuel')%nat -> le_out (malloc base grow fuel n h) (malloc base grow fuel' n h).
Proof.
  intros Hle. unfold malloc. cbv zeta. apply le_bind; [done|]. intros prevp h1. apply le_bind; [done|]. intros prevp' h2.
  apply le_bind; [done|]. intros p h3. by apply malloc_loop_le.
Qed.
End fuel.

(* ------------------------------------------------------------------ *)
(** * A program that keeps to its blocks *)
Section client.
Context (base : Z) (grow : Z -> Z -> option Z) `{!Sbrk grow}.

(** The heap, the blocks the program has, and what it has put in them. *)
Record client := Client { c_heap : heap; c_live : list blk; c_view : memory }.

Definition payload (b : blk) (x : Z) : bool := (b_addr b + 8 <=? x) && (x <? b_end b).
Definition fill (b : blk) (m g : memory) : memory := fun x => if payload b x then m x else g x.

(** It calls [malloc] and [free], of a block it has and once, and writes in its
    blocks.  What a new block holds is what it finds there. *)
Inductive cstep : client -> client -> Prop :=
| c_malloc fuel n h live g r h' : 0 <= n <= 2147483632 -> malloc base grow fuel n h = Ok r h' -> r <> 0 ->
    let b := (r - 8, nunits n) in cstep (Client h live g) (Client h' (b :: live) (fill b (hmem h') g))
| c_malloc_fails fuel n h live g h' : 0 <= n <= 2147483632 -> malloc base grow fuel n h = Ok 0 h' ->
    cstep (Client h live g) (Client h' live g)
| c_free fuel h live1 b live2 g h' : free fuel (b_addr b + 8) h = Ok tt h' ->
    cstep (Client h (live1 ++ b :: live2) g) (Client h' (live1 ++ live2) g)
| c_write h live g b x v : b ∈ live -> payload b x = true ->
    cstep (Client h live g) (Client (set_hmem (upd (hmem h) x v) h) live (upd g x v)).

Definition client_ok (c : client) : Prop :=
  (exists fl, ready base (c_heap c) fl (c_live c)) /\ forall b x, b ∈ c_live c -> payload b x = true -> hmem (c_heap c) x = c_view c x.

Lemma payload_in b x : payload b x = true <-> b_addr b + 8 <= x < b_end b.
Proof. unfold payload. rewrite andb_true_iff, Z.leb_le, Z.ltb_lt. done. Qed.

Lemma ready_used h fl used b : ready base h fl used -> b ∈ used -> heap_ok base h fl used.
Proof. intros [H|(_ & _ & -> & _)] Hb; [done|by apply elem_of_nil in Hb]. Qed.

(** What the program has put in its blocks stays. *)
Lemma view_kept used h h' (g : memory) : kept base used h h' -> (forall b x, b ∈ used -> payload b x = true -> hmem h x = g x) ->
  forall b x, b ∈ used -> payload b x = true -> hmem h' x = g x.
Proof. intros Hk Hv b x Hb Hx. rewrite <- (Hv b x Hb Hx). apply Hk. right. right. exists b. split; [done|]. apply payload_in in Hx. lia. Qed.

Lemma heap_ok_perm h fl used used' : used ≡ₚ used' -> heap_ok base h fl used -> heap_ok base h fl used'.
Proof. intros Hp [H1 H2 H3 H4 H5 H6 H7]. split; try done; [by rewrite <- Hp|]. intros b Hb. apply H7. by rewrite Hp. Qed.

(** A write in a block does not touch the headers. *)
Lemma write_ok h fl used b x v : heap_ok base h fl used -> b ∈ used -> payload b x = true -> heap_ok base (set_hmem (upd (hmem h) x v) h) fl used.
Proof.
  intros Hh Hb Hx. apply payload_in in Hx. pose proof (hk_blocks _ _ _ _ Hh) as Hbs.
  assert (Hd : forall a, (a + 8 <= b_addr b \/ b_end b <= a \/ a = b_addr b) -> same_hdr (hmem h) (upd (hmem h) x v) a).
  { intros a Ha y Hy. unfold upd. destruct (Z.eqb_spec y x); [lia|done]. }
  pose proof Hh as [H1 H2 H3 H4 H5 H6 H7]. split; cbn [set_hmem hmem brk freep]; try done.
  - eapply links_same; [|exact H5]. intros c Hc. apply Hd. pose proof (node_used base h fl used c b Hh Hc Hb). lia.
  - intros c Hc. rewrite <- (H7 c Hc). apply same_size, Hd. destruct (decide (b_addr c = b_addr b)) as [E|E]; [auto|].
    pose proof (blocks_pair _ _ _ c b Hbs ltac:(set_solver) ltac:(set_solver) E). pose proof (blocks_addr _ _ _ c Hbs ltac:(set_solver)). lia.
Qed.

Lemma used_blocks h fl used : heap_ok base h fl used -> blocks (base + 8) (brk h) used.
Proof.
  intros Hh. pose proof (hk_blocks _ _ _ _ Hh) as Hbs. assert (Hlo : forall b, b ∈ used -> base + 8 <= b_addr b).
  { intros b Hb. pose proof (node_used base h fl used (base, 0) b Hh ltac:(by left) Hb) as H. pose proof (blocks_addr _ _ _ b Hbs ltac:(set_solver)). change (b_addr (base, 0)) with base in H. lia. }
  destruct Hbs as (_ & _ & _ & _ & Hbs). apply blocks_part in Hbs as [_ Hbs]. clear Hh. revert Hlo Hbs. induction used as [|b used IH]; intros Hlo Hbs; [done|].
  destruct Hbs as (_ & H2 & H3 & H4 & H5). split; [apply Hlo; by left|]. split; [done|]. split; [done|]. split; [done|]. apply IH; [|done]. intros c Hc. apply Hlo. by right.
Qed.

Lemma client_step c c' : client_ok c -> cstep c c' -> client_ok c'.
Proof.
  intros [[fl Hr] Hv] Hs. destruct Hs as [fuel n h live g r h' Hn Hm Hne|fuel n h live g h' Hn Hm|fuel h live1 b live2 g h' Hf|h live g b x v Hb Hx]; cbn [c_heap c_live c_view] in *.
  - set (F := (2 * length fl + 3 + fuel)%nat). apply (malloc_le base grow fuel F) in Hm; [|lia].
    destruct (malloc_ok base grow n h fl live F Hr Hn ltac:(lia)) as [(bp & fl' & h'' & E & Hh & Hk & _)|(h'' & E & _)]; rewrite Hm in E; injection E as -> <-; [|done].
    assert (Eb : b = (bp, nunits n)) by (unfold b; f_equal; lia). clearbody b. subst b. split; [exists fl'; by left|]. cbn [c_heap c_live c_view].
    intros c x Hc Hx. unfold fill. destruct (payload (bp, nunits n) x) eqn:Ex; [done|].
    apply elem_of_cons in Hc as [->|Hc]; [congruence|]. by apply (view_kept live h h' g Hk Hv c).
  - set (F := (2 * length fl + 3 + fuel)%nat). apply (malloc_le base grow fuel F) in Hm; [|lia].
    destruct (malloc_ok base grow n h fl live F Hr Hn ltac:(lia)) as [(bp & fl' & h'' & E & Hh & Hk & _)|(h'' & E & Hh & Hk & _)]; rewrite Hm in E.
    + injection E as E <-. pose proof (free_bp base h' fl' live bp _ Hh). pose proof (hk_base _ _ _ _ Hh). lia.
    + injection E as <-. split; [exists fl; by left|]. by apply (view_kept live h h' g).
  - assert (Hh : heap_ok base h fl (b :: live1 ++ live2)).
    { apply (heap_ok_perm _ _ (live1 ++ b :: live2)); [by rewrite <- Permutation_middle|]. apply (ready_used _ _ _ b Hr). set_solver. }
    destruct b as [bp n]. set (F := (S (length fl) + fuel)%nat). apply (free_le fuel F) in Hf; [|lia].
    destruct (free_ok base h fl (live1 ++ live2) bp n F Hh ltac:(lia)) as (fl' & m & p & E & Hh' & Hk & _). cbn [b_addr fst] in Hf. rewrite Hf in E. injection E as ->.
    split; [exists fl'; by left|]. apply (view_kept (live1 ++ live2) h _ g Hk). intros c x Hc. apply Hv. set_solver.
  - split; [exists fl; left; eapply write_ok; [by eapply ready_used|done|done]|]. cbn [c_heap c_live c_view set_hmem hmem].
    intros c y Hc Hy. unfold upd. destruct (y =? x); [done|by apply (Hv c)].
Qed.

Lemma client_run c c' : rtc cstep c c' -> client_ok c -> client_ok c'.
Proof. induction 1 as [|c1 c2 c3 Hs _ IH]; [done|]. intros H. apply IH. by eapply client_step. Qed.
End client.

(* ------------------------------------------------------------------ *)
(** * Claims *)

(** A kernel with [lim] bytes. *)
Definition sbrk_upto (lim b n : Z) : option Z := if b + n <=? Z.min lim 2147483648 then Some (b + n) else None.

#[export] Instance sbrk_upto_ok lim : Sbrk (sbrk_upto lim).
Proof. intros b n b' Hn. unfold sbrk_upto. destruct (Z.leb_spec (b + n) (Z.min lim 2147483648)); [|done]. intros [= <-]. lia. Qed.

Definition w_heap : heap := Heap (fun _ => 0) 0 4096.



(** C23: A program that starts with no blocks, calls [malloc] and [free] in any
    order, frees only what it has, and writes only after the headers of its
    blocks, is safe: its blocks never meet each other or the header [base], they
    hold what the program last wrote there, and every further call returns. *)
Theorem heap_client_safe base grow `{!Sbrk grow} h g c :
  freep h = 0 -> 0 < base -> base + 8 <= brk h <= 2147483648 -> rtc (cstep base grow) (Client h [] g) c ->
  blocks (base + 8) (brk (c_heap c)) (c_live c) /\
  (forall b x, b ∈ c_live c -> payload b x = true -> hmem (c_heap c) x = c_view c x) /\
  (forall n, 0 <= n <= 2147483632 -> exists fuel r h', malloc base grow fuel n (c_heap c) = Ok r h') /\
  (forall b, b ∈ c_live c -> exists fuel h', free fuel (b_addr b + 8) (c_heap c) = Ok tt h').
Proof.
  intros Hf Hb Hbr Hs. assert (Hc : client_ok base c).
  { apply (client_run base grow _ _ Hs). split; [exists []; right; auto|by intros b x ?%elem_of_nil]. }
  destruct Hc as [[fl Hr] Hv]. split; [|split; [done|split]].
  - destruct Hr as [Hh|(_ & _ & -> & _)]; [|done]. by eapply used_blocks.
  - intros n Hn. destruct (malloc_ok base grow n _ fl _ _ Hr Hn (Nat.le_refl _)) as [(bp & _ & h' & E & _)|(h' & E & _)]; eauto.
  - intros [bp n] Hin. assert (Hh := ready_used base _ fl _ _ Hr Hin). apply list_elem_of_split in Hin as (l1 & l2 & E). rewrite E in Hh.
    apply (heap_ok_perm base _ _ _ ((bp, n) :: l1 ++ l2)) in Hh; [|by rewrite <- Permutation_middle].
    destruct (free_ok base _ fl _ bp n _ Hh (Nat.lt_succ_diag_r _)) as (fl' & m & p & R & _). eauto.
Qed.

Lemma heap_client_safe_witness : exists c b,
  (blocks 2056 (brk (c_heap c)) (c_live c) /\
   (forall b x, b ∈ c_live c -> payload b x = true -> hmem (c_heap c) x = c_view c x) /\
   (forall n, 0 <= n <= 2147483632 -> exists fuel r h', malloc 2048 (sbrk_upto 65536) fuel n (c_heap c) = Ok r h') /\
   (forall b, b ∈ c_live c -> exists fuel h', free fuel (b_addr b + 8) (c_heap c) = Ok tt h')) /\ c_live c = [b].
Proof.
  eexists _, _. split; [apply (heap_client_safe 2048 (sbrk_upto 65536) w_heap (fun _ => 0)); [done|done|simpl; lia|]; eapply rtc_l; [|eapply rtc_l; [|apply rtc_refl]]|].
  - eapply (c_malloc _ _ 3 100); [lia|vm_compute; reflexivity|done].
  - eapply (c_write _ _ _ _ _ _ 36760 7); [by left|]. vm_compute. reflexivity.
  - reflexivity.
Defined.

(** The arithmetic of [malloc] overflows: asked for 4294967295 bytes it does
    what it does for 0 bytes, and its block, where it gives one, has no byte
    after the header. *)
Theorem malloc_overflow base grow fuel h :
  malloc base grow fuel 4294967295 h = malloc base grow fuel 0 h /\ forall a x, payload (a, nunits 0) x = false.
Proof.
  split; [reflexivity|]. intros a x. unfold payload, b_end, b_addr. change (nunits 0) with 1. cbn [fst snd].
  apply andb_false_iff. rewrite Z.leb_gt, Z.ltb_ge. lia.
Qed.
