(* ===== verification/Sh.v ===== *)
(** The shell (src/sh.c): the parser of command lines.

    The line is in the buffer of the shell; the parser keeps pointers into it,
    and the commands it builds are structs in the heap, [cmds], a command being
    named by its place there.  The heap does not run out.  [nulterminate] then
    ends every word of the line with a NUL, in the buffer. *)

From S2P Require Import Prelude StringC Spinlock Kalloc Ptable Ports Console ConsoleScreen Ulib.

(* src/sh.c:14-14 MAXARGS *)
Definition MAXARGS : nat := 10.

(** A command; the sub-commands are pointers. *)

(* src/sh.c:7-50 cmd *)
Inductive cmd :=
| EXEC (argv eargv : list Z)
| REDIR (sub : nat) (file efile mode fd : Z)
| PIPE (left right : nat)
| LIST (left right : nat)
| BACK (sub : nat).

(** The position in the line, and the commands. *)
Record shell := Shell { ps : Z; cmds : list cmd }.

Definition set_ps v s := Shell v (cmds s).
Definition set_cmds v s := Shell (ps s) v.

(** [malloc] of a command. *)
Definition new_cmd (c : cmd) : M shell nat := st <- gets cmds ;; modify (set_cmds (st ++ [c])) ;; ret (length st).

(* src/sh.c:195-204 execcmd *)
Definition execcmd : M shell nat := new_cmd (EXEC (replicate MAXARGS 0) (replicate MAXARGS 0)).

(* src/sh.c:206-220 redircmd *)
Definition redircmd (sub : nat) (file efile mode fd : Z) : M shell nat := new_cmd (REDIR sub file efile mode fd).

(* src/sh.c:222-233 pipecmd *)
Definition pipecmd (left right : nat) : M shell nat := new_cmd (PIPE left right).

(* src/sh.c:235-246 listcmd *)
Definition listcmd (left right : nat) : M shell nat := new_cmd (LIST left right).

(* src/sh.c:248-258 backcmd *)
Definition backcmd (sub : nat) : M shell nat := new_cmd (BACK sub).

(** [strchr] in a constant string. *)
Definition in_str (cs : list Z) (c : Z) : bool := existsb (Z.eqb c) cs.

(* src/sh.c:262-262 whitespace *)
Definition whitespace : list Z := [32; 9; 13; 10; 11].

(* src/sh.c:263-263 symbols *)
Definition symbols : list Z := [60; 124; 62; 38; 59; 40; 41].

(* src/fcntl.h:1-1 O_RDONLY *)
Definition O_RDONLY : Z := 0.
(* src/fcntl.h:2-2 O_WRONLY *)
Definition O_WRONLY : Z := 1.
(* src/fcntl.h:3-3 O_RDWR *)
Definition O_RDWR : Z := 2.
(* src/fcntl.h:4-4 O_CREATE *)
Definition O_CREATE : Z := 512.

Section parser.
Variable (m : memory) (es : Z).

(** The loops run while [s < es]: [n] is what is left of the line. *)

(* src/sh.c:272-273 gettoken *)
Fixpoint skip_white (n : nat) (s : Z) : Z :=
  match n with
  | O => s
  | S n' => if (s <? es) && in_str whitespace (m s) then skip_white n' (s + 1) else s
  end.

(* src/sh.c:297-298 gettoken *)
Fixpoint skip_word (n : nat) (s : Z) : Z :=
  match n with
  | O => s
  | S n' => if (s <? es) && negb (in_str whitespace (m s)) && negb (in_str symbols (m s)) then skip_word n' (s + 1) else s
  end.

Definition rest (s : Z) : nat := Z.to_nat (es - s).

(* src/sh.c:276-300 gettoken *)
Definition scan (s : Z) : Z * Z :=
  if m s =? 0 then (m s, s)
  else if in_str [124; 40; 41; 59; 38; 60] (m s) then (m s, s + 1)
  else if m s =? 62 then if m (s + 1) =? 62 then (43, s + 1 + 1) else (m s, s + 1)
  else (97, skip_word (rest s) s).

(** The token, and where its text starts and ends. *)

(* src/sh.c:265-308 gettoken *)
Definition gettoken : M shell (Z * (Z * Z)) :=
  s <- gets ps ;;
  let q := skip_white (rest s) s in
  let '(r, eq) := scan q in
  modify (set_ps (skip_white (rest eq) eq)) ;;
  ret (r, (q, eq)).

(* src/sh.c:310-320 peek *)
Definition peek (toks : list Z) : M shell bool :=
  s <- gets ps ;;
  let s := skip_white (rest s) s in
  modify (set_ps s) ;;
  ret (negb (m s =? 0) && in_str toks (m s)).

(* src/sh.c:374-397 parseredirs *)
Fixpoint parseredirs (fuel : nat) (c : nat) : M shell nat :=
  match fuel with
  | O => wait
  | S fuel' =>
      b <- peek [60; 62] ;;
      if b then
        t <- gettoken ;;
        f <- gettoken ;;
        if negb (fst f =? 97) then panic "missing file for redirection"
        else
          let '(q, eq) := snd f in
          c <- (if fst t =? 60 then redircmd c q eq O_RDONLY 0
                else if fst t =? 62 then redircmd c q eq (Z.lor O_WRONLY O_CREATE) 1
                else if fst t =? 43 then redircmd c q eq (Z.lor O_WRONLY O_CREATE) 1
                else ret c) ;;
          parseredirs fuel' c
      else ret c
  end.

(** [cmd->argv[argc] = q; cmd->eargv[argc] = eq], which must be in the arrays. *)
Definition set_arg (c argc : nat) (q eq : Z) : M shell unit :=
  st <- gets cmds ;;
  match st !! c with
  | Some (EXEC argv eargv) =>
      if (argc <? MAXARGS)%nat then modify (set_cmds (<[c := EXEC (<[argc := q]> argv) (<[argc := eq]> eargv)]> st))
      else panic "array bounds"
  | _ => panic "bad pointer"
  end.

(* src/sh.c:431-442 parseexec *)
Fixpoint args_loop (fuel : nat) (c argc rt : nat) : M shell (nat * nat) :=
  match fuel with
  | O => wait
  | S fuel' =>
      b <- peek [124; 41; 38; 59] ;;
      if b then ret (argc, rt)
      else
        t <- gettoken ;;
        if fst t =? 0 then ret (argc, rt)
        else if negb (fst t =? 97) then panic "syntax"
        else
          let '(q, eq) := snd t in
          set_arg c argc q eq ;;
          if (MAXARGS <=? S argc)%nat then panic "too many args"
          else
            rt <- parseredirs fuel' rt ;;
            args_loop fuel' c (S argc) rt
  end.

(* src/sh.c:350-353 parseline *)
Fixpoint back_loop (fuel : nat) (c : nat) : M shell nat :=
  match fuel with
  | O => wait
  | S fuel' =>
      b <- peek [38] ;;
      if b then gettoken ;; c <- backcmd c ;; back_loop fuel' c
      else ret c
  end.

(** [line] is [parseline], for the line between parentheses. *)

(* src/sh.c:399-413 parseblock *)
Definition parseblock (line : M shell nat) (fuel : nat) : M shell nat :=
  b <- peek [40] ;;
  if negb b then panic "parseblock"
  else
    gettoken ;;
    c <- line ;;
    b <- peek [41] ;;
    if negb b then panic "syntax - missing )"
    else gettoken ;; parseredirs fuel c.

(* src/sh.c:415-446 parseexec *)
Definition parseexec (line : M shell nat) (fuel : nat) : M shell nat :=
  b <- peek [40] ;;
  if b then parseblock line fuel
  else
    c <- execcmd ;;
    rt <- parseredirs fuel c ;;
    r <- args_loop fuel c 0 rt ;;
    set_arg c (fst r) 0 0 ;;
    ret (snd r).

(* src/sh.c:361-372 parsepipe *)
Fixpoint parsepipe (line : M shell nat) (fuel : nat) : M shell nat :=
  match fuel with
  | O => wait
  | S fuel' =>
      c <- parseexec line fuel' ;;
      b <- peek [124] ;;
      if b then gettoken ;; r <- parsepipe line fuel' ;; pipecmd c r
      else ret c
  end.

(* src/sh.c:344-359 parseline *)
Fixpoint parseline (fuel : nat) : M shell nat :=
  match fuel with
  | O => wait
  | S fuel' =>
      c <- parsepipe (parseline fuel') fuel' ;;
      c <- back_loop fuel' c ;;
      b <- peek [59] ;;
      if b then gettoken ;; r <- parseline fuel' ;; listcmd c r
      else ret c
  end.
End parser.

(** The words of an [EXEC], to the null pointer. *)

(* src/sh.c:465-466 nulterminate *)
Fixpoint nul_args (argv eargv : list Z) (m : memory) : memory :=
  match argv, eargv with
  | a :: argv, e :: eargv => if a =? 0 then m else nul_args argv eargv (upd m e 0)
  | _, _ => m
  end.

(* src/sh.c:448-493 nulterminate *)
Fixpoint nulterminate (fuel : nat) (st : list cmd) (c : nat) (m : memory) : option memory :=
  match fuel with
  | O => None
  | S fuel' =>
      match st !! c with
      | None => None
      | Some (EXEC argv eargv) => Some (nul_args argv eargv m)
      | Some (REDIR sub _ efile _ _) => m ← nulterminate fuel' st sub m; Some (upd m efile 0)
      | Some (PIPE l r) | Some (LIST l r) => m ← nulterminate fuel' st l m; nulterminate fuel' st r m
      | Some (BACK sub) => nulterminate fuel' st sub m
      end
  end.

(** The command, and the buffer after it.  The line is at [s].  The text that
    [printf] gives before the error for what is left of the line is left out. *)

(* src/sh.c:327-342 parsecmd *)
Definition parsecmd (fuel : nat) (m : memory) (s : Z) : M shell (nat * memory) :=
  match ustrlen fuel m s 0 with
  | None => wait
  | Some n =>
      let es := s + n in
      modify (set_ps s) ;;
      c <- parseline m es fuel ;;
      peek m es [] ;;
      s <- gets ps ;;
      if negb (s =? es) then panic "syntax"
      else
        st <- gets cmds ;;
        match nulterminate fuel st c m with
        | None => wait
        | Some m => ret (c, m)
        end
  end.
