(* ===== verification/ShGrammar.v ===== *)
(** The language of the shell: its tokens, its grammar, and a parser of lists of
    tokens, which accepts exactly the grammar. *)

From S2P Require Import Prelude StringC Spinlock Kalloc Ptable Ports Console ConsoleScreen Ulib Sh.

(* ------------------------------------------------------------------ *)
(** * Tokens *)

Abbreviation word := (list Z).

(** A word, or a symbol; [>>] is the symbol 43. *)
Inductive tok := Word (w : word) | Sym (c : Z).

Definition is_white (c : Z) : bool := in_str whitespace c.
Definition is_word (c : Z) : bool := negb (in_str whitespace c) && negb (in_str symbols c).

Fixpoint drop_while (p : Z -> bool) (l : list Z) : list Z :=
  match l with [] => [] | c :: r => if p c then drop_while p r else l end.
Fixpoint take_while (p : Z -> bool) (l : list Z) : list Z :=
  match l with [] => [] | c :: r => if p c then c :: take_while p r else [] end.

Definition drop_white : list Z -> list Z := drop_while is_white.

(** The first token of a text that does not start with white space. *)
Definition token (l : list Z) : option (tok * list Z) :=
  match l with
  | [] => None
  | c :: r =>
      if in_str [124; 40; 41; 59; 38; 60] c then Some (Sym c, r)
      else if c =? 62 then match r with d :: r' => if d =? 62 then Some (Sym 43, r') else Some (Sym 62, r) | [] => Some (Sym 62, r) end
      else Some (Word (take_while is_word l), drop_while is_word l)
  end.

Fixpoint lex_upto (n : nat) (l : list Z) : list tok :=
  match n with
  | O => []
  | S n' => match token (drop_white l) with None => [] | Some (t, r) => t :: lex_upto n' r end
  end.

Definition lex (l : list Z) : list tok := lex_upto (length l) l.

Lemma drop_while_length p l : (length (drop_while p l) <= length l)%nat.
Proof. induction l as [|c l IH]; simpl; [lia|]. destruct (p c); simpl; lia. Qed.

Lemma drop_white_idemp l : drop_white (drop_white l) = drop_white l.
Proof. unfold drop_white. induction l as [|c l IH]; [done|]. simpl. destruct (is_white c) eqn:E; [done|]. simpl. by rewrite E. Qed.

Lemma word_char l c r : drop_white l = c :: r -> in_str [124; 40; 41; 59; 38; 60] c = false -> (c =? 62) = false -> is_word c = true.
Proof.
  intros E H1 H2. assert (Hw : is_white c = false).
  { revert E. unfold drop_white. induction l as [|d l IH]; simpl; [done|]. destruct (is_white d) eqn:Ed; [done|]. by intros [= -> ->]. }
  unfold is_word. unfold is_white in Hw. rewrite Hw. unfold in_str, symbols in *. simpl in *. rewrite !orb_false_iff in H1. destruct H1 as (A & B & C & D & F & G & _).
  rewrite A, B, C, D, F, G, H2. done.
Qed.

Lemma token_shorter l t r : token (drop_white l) = Some (t, r) -> (length r < length (drop_white l))%nat.
Proof.
  destruct (drop_white l) as [|c l'] eqn:E; [done|]. unfold token. destruct (in_str _ c) eqn:E1; [intros [= <- <-]; simpl; lia|].
  destruct (c =? 62) eqn:E2.
  - destruct l' as [|d l'']; [intros [= <- <-]; simpl; lia|]. destruct (d =? 62); intros [= <- <-]; simpl; lia.
  - intros [= <- <-]. cbn [drop_while]. rewrite (word_char l c l' E E1 E2). pose proof (drop_while_length is_word l'). simpl. lia.
Qed.

Lemma lex_more n : forall k l, (length l <= n)%nat -> (n <= k)%nat -> lex_upto k l = lex_upto n l.
Proof.
  induction n as [|n IH]; intros k l Hl Hk.
  - destruct l; [|simpl in Hl; lia]. by destruct k.
  - destruct k as [|k]; [lia|]. simpl. destruct (token (drop_white l)) as [[t r]|] eqn:E; [|done]. f_equal. apply token_shorter in E.
    pose proof (drop_while_length is_white l). unfold drop_white in E. apply IH; lia.
Qed.

(** The tokens of a text are its first token and those of the rest. *)
Lemma lex_token l : lex l = match token (drop_white l) with None => [] | Some (t, r) => t :: lex r end.
Proof.
  unfold lex. destruct (length l) as [|n] eqn:El; [by destruct l|]. simpl. destruct (token (drop_white l)) as [[t r]|] eqn:E; [|done]. f_equal.
  apply token_shorter in E. pose proof (drop_while_length is_white l). unfold drop_white in E. apply lex_more; lia.
Qed.

Lemma lex_white l : lex (drop_white l) = lex l.
Proof. by rewrite (lex_token l), lex_token, drop_white_idemp. Qed.

Lemma lex_length l : (length (lex l) <= length l)%nat.
Proof.
  assert (H : forall n l, (length l <= n)%nat -> (length (lex l) <= length l)%nat).
  { induction n as [|n IH]; intros l' Hl; [by destruct l'; [|simpl in Hl; lia]|]. rewrite lex_token.
    destruct (token (drop_white l')) as [[t r]|] eqn:E; [|simpl; lia]. apply token_shorter in E. pose proof (drop_while_length is_white l') as Hd. unfold drop_white in E.
    assert (Hr : (length (lex r) <= length r)%nat) by (apply IH; lia). simpl. lia. }
  by apply (H (length l)).
Qed.

(* ------------------------------------------------------------------ *)
(** * The grammar *)

Inductive redir := Redir (file : word) (mode fd : Z).

Inductive ast :=
| AExec (args : list word)
| ARedir (a : ast) (r : redir)
| APipe (a b : ast)
| AList (a b : ast)
| ABack (a : ast).

(** [<] reads; [>] and [>>] write, and create the file. *)
Definition redir_of (c : Z) (w : word) : redir := if c =? 60 then Redir w O_RDONLY 0 else Redir w (Z.lor O_WRONLY O_CREATE) 1.

(** Redirections apply from the outside in: the last one is opened first. *)
Definition wrap (a : ast) (rs : list redir) : ast := fold_left ARedir rs a.

(** Words and redirections, in any order. *)
Inductive items : list tok -> list word -> list redir -> Prop :=
| it_nil : items [] [] []
| it_word w ts args rs : items ts args rs -> items (Word w :: ts) (w :: args) rs
| it_redir c w ts args rs : in_str [60; 62; 43] c = true -> items ts args rs -> items (Sym c :: Word w :: ts) args (redir_of c w :: rs).

Inductive nonterminal := Command | Pipeline | Line.

(** - a command is words and redirections, with less than [MAXARGS] words, or a
      line between parentheses and redirections;
    - a pipeline is commands with [|] between them;
    - a line is a pipeline, any number of [&], and optionally [;] and a line. *)
Inductive derives : nonterminal -> list tok -> ast -> Prop :=
| d_simple ts args rs : items ts args rs -> (length args < MAXARGS)%nat -> derives Command ts (wrap (AExec args) rs)
| d_block ts a us rs : derives Line ts a -> items us [] rs -> derives Command (Sym 40 :: ts ++ Sym 41 :: us) (wrap a rs)
| d_command ts a : derives Command ts a -> derives Pipeline ts a
| d_pipe ts a us b : derives Command ts a -> derives Pipeline us b -> derives Pipeline (ts ++ Sym 124 :: us) (APipe a b)
| d_line ts a n : derives Pipeline ts a -> derives Line (ts ++ replicate n (Sym 38)) (Nat.iter n ABack a)
| d_list ts a n us b : derives Pipeline ts a -> derives Line us b ->
    derives Line (ts ++ replicate n (Sym 38) ++ Sym 59 :: us) (AList (Nat.iter n ABack a) b).

(* ------------------------------------------------------------------ *)
(** * The parser of tokens *)

(** The character [peek] sees. *)
Definition first_char (t : tok) : Z := match t with Word _ => 97 | Sym c => if c =? 43 then 62 else c end.

Definition t_peek (cs : list Z) : M (list tok) bool := gets (fun ts => match ts with t :: _ => in_str cs (first_char t) | [] => false end).
Definition t_get : M (list tok) (option tok) := ts <- gets (fun ts => ts) ;; modify (fun _ => List.tl ts) ;; ret (head ts).

Fixpoint t_redirs (fuel : nat) : M (list tok) (list redir) :=
  match fuel with
  | O => wait
  | S fuel' =>
      b <- t_peek [60; 62] ;;
      if b then
        t <- t_get ;;
        f <- t_get ;;
        match t, f with
        | Some (Sym c), Some (Word w) => rs <- t_redirs fuel' ;; ret (redir_of c w :: rs)
        | _, _ => panic "missing file for redirection"
        end
      else ret []
  end.

Fixpoint t_args (fuel argc : nat) : M (list tok) (list word * list redir) :=
  match fuel with
  | O => wait
  | S fuel' =>
      b <- t_peek [124; 41; 38; 59] ;;
      if b then ret ([], [])
      else
        t <- t_get ;;
        match t with
        | None => ret ([], [])
        | Some (Sym _) => panic "syntax"
        | Some (Word w) =>
            if (MAXARGS <=? S argc)%nat then panic "too many args"
            else
              rs <- t_redirs fuel' ;;
              r <- t_args fuel' (S argc) ;;
              ret (w :: fst r, rs ++ snd r)
        end
  end.

Fixpoint t_back (fuel : nat) (a : ast) : M (list tok) ast :=
  match fuel with
  | O => wait
  | S fuel' => b <- t_peek [38] ;; if b then t_get ;; t_back fuel' (ABack a) else ret a
  end.

Definition t_block (line : M (list tok) ast) (fuel : nat) : M (list tok) ast :=
  t_get ;;
  a <- line ;;
  b <- t_peek [41] ;;
  if b then t_get ;; rs <- t_redirs fuel ;; ret (wrap a rs) else panic "syntax - missing )".

Definition t_exec (line : M (list tok) ast) (fuel : nat) : M (list tok) ast :=
  b <- t_peek [40] ;;
  if b then t_block line fuel
  else rs <- t_redirs fuel ;; r <- t_args fuel 0 ;; ret (wrap (AExec (fst r)) (rs ++ snd r)).

Fixpoint t_pipe (line : M (list tok) ast) (fuel : nat) : M (list tok) ast :=
  match fuel with
  | O => wait
  | S fuel' =>
      a <- t_exec line fuel' ;;
      b <- t_peek [124] ;;
      if b then t_get ;; c <- t_pipe line fuel' ;; ret (APipe a c) else ret a
  end.

Fixpoint t_line (fuel : nat) : M (list tok) ast :=
  match fuel with
  | O => wait
  | S fuel' =>
      a <- t_pipe (t_line fuel') fuel' ;;
      a <- t_back fuel' a ;;
      b <- t_peek [59] ;;
      if b then t_get ;; c <- t_line fuel' ;; ret (AList a c) else ret a
  end.

(* ------------------------------------------------------------------ *)
(** * It accepts the grammar only *)

Lemma t_peek_run cs ts : t_peek cs ts = Ok (match ts with t :: _ => in_str cs (first_char t) | [] => false end) ts.
Proof. done. Qed.
Lemma t_get_run ts : t_get ts = Ok (head ts) (List.tl ts).
Proof. done. Qed.

(** Symbols other than the redirections are seen as they are. *)
Lemma peek_sym cs t : in_str cs 97 = false -> in_str cs 62 = false -> in_str cs (first_char t) = true -> exists c, t = Sym c /\ in_str cs c = true.
Proof. intros H1 H2. destruct t as [w|c]; simpl; [congruence|]. destruct (c =? 43) eqn:E; [congruence|]. by exists c. Qed.

Lemma peek_inv {A} c (k : bool -> M (list tok) A) ts a rest : c <> 97 -> c <> 62 -> bind (t_peek [c]) k ts = Ok a rest ->
  (exists r, ts = Sym c :: r /\ k true ts = Ok a rest) \/ k false ts = Ok a rest.
Proof.
  intros H1 H2. erewrite bind_ok by apply t_peek_run. destruct ts as [|t r]; [by right|].
  destruct (in_str [c] (first_char t)) eqn:E; [left|by right]. exists r. split; [|done].
  destruct (peek_sym [c] t) as (d & -> & Hd); [| |done|]; unfold in_str in *; cbn [existsb] in *.
  - destruct (Z.eqb_spec 97 c); [congruence|done].
  - destruct (Z.eqb_spec 62 c); [congruence|done].
  - rewrite orb_false_r in Hd. apply Z.eqb_eq in Hd as ->. done.
Qed.

Lemma items_app us ua ur vs va vr : items us ua ur -> items vs va vr -> items (us ++ vs) (ua ++ va) (ur ++ vr).
Proof. induction 1; simpl; [done|by constructor; auto|by constructor; auto]. Qed.

Lemma t_redirs_sound fuel : forall ts rs rest, t_redirs fuel ts = Ok rs rest -> exists used, ts = used ++ rest /\ items used [] rs.
Proof.
  induction fuel as [|fuel IH]; intros ts rs rest; [done|]. cbn [t_redirs]. erewrite bind_ok by apply t_peek_run.
  destruct ts as [|t ts]; [intros [= <- <-]; exists []; split; [done|constructor]|].
  destruct (in_str [60; 62] (first_char t)) eqn:E; [|intros [= <- <-]; exists []; split; [done|constructor]].
  erewrite bind_ok by apply t_get_run. erewrite bind_ok by apply t_get_run. cbn [head List.tl].
  destruct t as [w|c]; [done|]. destruct ts as [|[w|d] ts]; [done| |done]. cbn [head List.tl].
  intros H. apply bind_Ok_inv in H as (rs' & s1 & H & [= <- <-]). apply IH in H as (used & -> & Hi). exists (Sym c :: Word w :: used).
  split; [done|]. constructor; [|done]. simpl in E |- *. destruct (Z.eqb_spec c 43); [by subst|]. destruct (c =? 60), (c =? 62); done.
Qed.

Lemma t_args_sound fuel : forall argc ts args rs rest, t_args fuel argc ts = Ok (args, rs) rest ->
  exists used, ts = used ++ rest /\ items used args rs /\ (argc < MAXARGS -> argc + length args < MAXARGS)%nat.
Proof.
  induction fuel as [|fuel IH]; intros argc ts args rs rest; [done|]. cbn [t_args]. erewrite bind_ok by apply t_peek_run.
  destruct (match ts with [] => _ | _ => _ end); [intros [= <- <- <-]; exists []; split; [done|]; split; [constructor|simpl; lia]|].
  erewrite bind_ok by apply t_get_run. destruct ts as [|[w|c] ts]; cbn [head List.tl]; [intros [= <- <- <-]; exists []; split; [done|]; split; [constructor|simpl; lia]| |done].
  destruct (Nat.leb_spec MAXARGS (S argc)) as [|Hlt]; [done|]. intros H. apply bind_Ok_inv in H as (rs1 & s1 & H1 & H). apply bind_Ok_inv in H as ([args' rs2] & s2 & H2 & [= <- <- <-]).
  apply t_redirs_sound in H1 as (u1 & -> & I1). apply IH in H2 as (u2 & -> & I2 & Hn). exists (Word w :: u1 ++ u2). split; [simpl; by rewrite <- app_assoc|].
  split; [|simpl; lia]. constructor. by apply (items_app _ [] _ _ args').
Qed.

Lemma t_back_sound fuel : forall a ts b rest, t_back fuel a ts = Ok b rest -> exists n, ts = replicate n (Sym 38) ++ rest /\ b = Nat.iter n ABack a.
Proof.
  induction fuel as [|fuel IH]; intros a ts b rest; [done|]. cbn [t_back]. intros H.
  apply peek_inv in H as [(r & -> & H)|H]; [|injection H as <- <-; by exists 0%nat|done|done]. erewrite bind_ok in H by apply t_get_run. apply IH in H as (n & E & ->). exists (S n). simpl in E. subst r. split; [done|].
  by rewrite Nat.iter_succ_r.
Qed.

Definition sound (nt : nonterminal) (p : M (list tok) ast) : Prop :=
  forall ts a rest, p ts = Ok a rest -> exists used, ts = used ++ rest /\ derives nt used a.

Lemma t_exec_sound line fuel : sound Line line -> sound Command (t_exec line fuel).
Proof.
  intros Hl ts a rest. unfold t_exec. intros H. apply peek_inv in H as [(r & -> & H)|H]; [| |done|done].
  - unfold t_block in H. erewrite bind_ok in H by apply t_get_run. apply bind_Ok_inv in H as (b & s2 & Hb & H).
    apply Hl in Hb as (u1 & E1 & D1). apply peek_inv in H as [(r2 & -> & H)|H]; [|done|done|done]. erewrite bind_ok in H by apply t_get_run. apply bind_Ok_inv in H as (rs & s4 & H & [= <- <-]).
    apply t_redirs_sound in H as (u2 & E2 & I2). simpl in E1, E2. subst r r2. exists (Sym 40 :: u1 ++ Sym 41 :: u2). split; [simpl; by rewrite <- app_assoc|by constructor].
  - apply bind_Ok_inv in H as (rs & s2 & H1 & H). apply bind_Ok_inv in H as ([args rs2] & s3 & H2 & [= <- <-]).
    apply t_redirs_sound in H1 as (u1 & -> & I1). apply t_args_sound in H2 as (u2 & -> & I2 & Hn). exists (u1 ++ u2). split; [by rewrite <- app_assoc|].
    constructor; [by apply (items_app _ [] _ _ args)|]. apply Hn. unfold MAXARGS. lia.
Qed.

Lemma t_pipe_sound line fuel : sound Line line -> sound Pipeline (t_pipe line fuel).
Proof.
  intros Hl. induction fuel as [|fuel IH]; intros ts a rest; [done|]. cbn [t_pipe]. intros H. apply bind_Ok_inv in H as (b & s1 & Hb & H).
  apply (t_exec_sound line fuel Hl) in Hb as (u1 & -> & D1). apply peek_inv in H as [(r & -> & H)|H]; [|injection H as <- <-; exists u1; split; [done|by constructor]|done|done].
  erewrite bind_ok in H by apply t_get_run. apply bind_Ok_inv in H as (c & s3 & Hc & [= <- <-]).
  apply IH in Hc as (u2 & E2 & D2). simpl in E2. subst r. exists (u1 ++ Sym 124 :: u2). split; [by rewrite <- app_assoc|by constructor].
Qed.

Lemma t_line_sound fuel : sound Line (t_line fuel).
Proof.
  induction fuel as [|fuel IH]; intros ts a rest; [done|]. cbn [t_line]. intros H. apply bind_Ok_inv in H as (b & s1 & Hb & H).
  apply (t_pipe_sound _ fuel IH) in Hb as (u1 & -> & D1). apply bind_Ok_inv in H as (c & s2 & Hc & H). apply t_back_sound in Hc as (n & -> & ->).
  apply peek_inv in H as [(r & -> & H)|H]; [|injection H as <- <-; eexists; split; [by rewrite app_assoc|by constructor]|done|done].
  erewrite bind_ok in H by apply t_get_run. apply bind_Ok_inv in H as (d & s4 & Hd & [= <- <-]).
  apply IH in Hd as (u2 & E2 & D2). simpl in E2. subst r. exists (u1 ++ replicate n (Sym 38) ++ Sym 59 :: u2). split; [by rewrite <- !app_assoc|by constructor].
Qed.

(* ------------------------------------------------------------------ *)
(** * And all of it *)

(** What can come after a phrase. *)
Definition follow (nt : nonterminal) (rest : list tok) : Prop :=
  match rest with
  | [] => True
  | Word _ :: _ => False
  | Sym c :: _ => in_str (match nt with Command => [124; 41; 38; 59] | Pipeline => [41; 38; 59] | Line => [41] end) c = true
  end.

Definition ends (cs : list Z) (rest : list tok) : Prop := match rest with t :: _ => in_str cs (first_char t) = false | [] => True end.

Lemma peek_ends {A} cs (k : bool -> M (list tok) A) rest : ends cs rest -> bind (t_peek cs) k rest = k false rest.
Proof. intros H. erewrite bind_ok by apply t_peek_run. destruct rest as [|t r]; [done|]. by rewrite H. Qed.

Lemma peek_here {A} c (k : bool -> M (list tok) A) rest : c <> 43 -> bind (t_peek [c]) k (Sym c :: rest) = k true (Sym c :: rest).
Proof. intros H. erewrite bind_ok by apply t_peek_run. cbn [first_char]. destruct (Z.eqb_spec c 43); [done|]. unfold in_str. cbn [existsb]. by rewrite Z.eqb_refl. Qed.

(** The symbols that can follow, one by one. *)
Lemma in_str_cases cs c : in_str cs c = true -> c ∈ cs.
Proof. unfold in_str. intros H. apply existsb_exists in H as (d & Hd & E). apply Z.eqb_eq in E as ->. by apply list_elem_of_In. Qed.

Ltac sym_cases H :=
  apply in_str_cases in H; repeat (apply elem_of_cons in H as [->|H]; [done|]); by apply elem_of_nil in H.

Lemma follow_ends nt rest : follow nt rest -> ends [60; 62] rest /\ ends [40] rest /\ (nt <> Command -> ends [124] rest) /\ (nt = Line -> ends [38] rest /\ ends [59] rest).
Proof.
  destruct rest as [|[w|c] r]; [done|done|]. simpl. intros H.
  destruct nt; (split; [|split; [|split; [intros ?|intros ?; try done]]]); try congruence; try split; try sym_cases H.
Qed.

Lemma t_redirs_complete us args rs : items us args rs -> args = [] -> forall fuel rest, ends [60; 62] rest -> (length us < fuel)%nat ->
  t_redirs fuel (us ++ rest) = Ok rs rest.
Proof.
  induction 1 as [|w ts args rs _ _|c w ts args rs Hc _ IH]; intros Ha fuel rest He Hf; (destruct fuel as [|fuel]; [simpl in Hf; lia|]); cbn [t_redirs].
  - simpl. by rewrite peek_ends.
  - done.
  - erewrite bind_ok by apply t_peek_run. cbn [app first_char]. replace (in_str [60; 62] (if c =? 43 then 62 else c)) with true by (symmetry; sym_cases Hc).
    erewrite bind_ok by apply t_get_run. erewrite bind_ok by apply t_get_run. cbn [head List.tl]. erewrite bind_ok; [done|]. apply IH; [done|done|simpl in Hf; lia].
Qed.

Lemma follow_stops rest : follow Command rest -> match rest with t :: _ => in_str [124; 41; 38; 59] (first_char t) = true | [] => True end.
Proof. destruct rest as [|[w|c] r]; [done|done|]. cbn [follow first_char]. intros H. sym_cases H. Qed.

Lemma t_args_complete ts args rs : items ts args rs -> forall f1 f2 argc rest, follow Command rest -> (length ts < f1)%nat -> (length ts < f2)%nat ->
  (argc + length args < MAXARGS)%nat ->
  exists rs1 rest1 rs2, t_redirs f1 (ts ++ rest) = Ok rs1 rest1 /\ t_args f2 argc rest1 = Ok (args, rs2) rest /\ rs = rs1 ++ rs2.
Proof.
  induction 1 as [|w ts args rs Hi IH|c w ts args rs Hc Hi IH]; intros f1 f2 argc rest Hfo H1 H2 Hn;
    (destruct f1 as [|f1]; [lia|]); (destruct f2 as [|f2]; [lia|]); cbn [length] in *.
  - exists [], rest, []. split; [|split; [|done]].
    + cbn [t_redirs app]. by rewrite peek_ends by (by apply (follow_ends Command)).
    + cbn [t_args]. erewrite bind_ok by apply t_peek_run. apply follow_stops in Hfo. destruct rest as [|t r]; [done|]. by rewrite Hfo.
  - destruct (IH f2 f2 (S argc) rest Hfo ltac:(lia) ltac:(lia) ltac:(lia)) as (rs1 & rest1 & rs2 & R1 & R2 & ->).
    exists [], (Word w :: ts ++ rest), (rs1 ++ rs2). split; [done|]. split; [|done]. cbn [t_args]. erewrite bind_ok by apply t_peek_run. cbn [first_char].
    replace (in_str [124; 41; 38; 59] 97) with false by reflexivity. cbv iota. erewrite bind_ok by apply t_get_run. cbn [head List.tl].
    destruct (Nat.leb_spec MAXARGS (S argc)); [lia|]. rewrite (bind_ok _ _ _ _ _ R1), (bind_ok _ _ _ _ _ R2). done.
  - destruct (IH f1 (S f2) argc rest Hfo ltac:(lia) ltac:(lia) ltac:(lia)) as (rs1 & rest1 & rs2 & R1 & R2 & ->).
    exists (redir_of c w :: rs1), rest1, rs2. split; [|done]. cbn [t_redirs app]. erewrite bind_ok by apply t_peek_run. cbn [first_char].
    replace (in_str [60; 62] (if c =? 43 then 62 else c)) with true by (symmetry; sym_cases Hc).
    erewrite bind_ok by apply t_get_run. erewrite bind_ok by apply t_get_run. cbn [head List.tl]. by rewrite (bind_ok _ _ _ _ _ R1).
Qed.

Lemma t_back_complete n : forall fuel a rest, ends [38] rest -> (n < fuel)%nat -> t_back fuel a (replicate n (Sym 38) ++ rest) = Ok (Nat.iter n ABack a) rest.
Proof.
  induction n as [|n IH]; intros fuel a rest He Hf; (destruct fuel as [|fuel]; [lia|]); cbn [t_back replicate app].
  - by rewrite peek_ends.
  - rewrite peek_here by done. cbv iota. erewrite bind_ok by apply t_get_run. cbn [List.tl]. rewrite IH by (done || lia). by rewrite Nat.iter_succ_r.
Qed.

(** The parser of a nonterminal. *)
Definition t_parse (nt : nonterminal) (F fuel : nat) : M (list tok) ast :=
  match nt with Command => t_exec (t_line F) fuel | Pipeline => t_pipe (t_line F) fuel | Line => t_line fuel end.

Definition room (nt : nonterminal) : nat := match nt with Command => 1 | Pipeline => 2 | Line => 3 end.

Lemma t_complete nt ts a : derives nt ts a -> forall F fuel rest, follow nt rest -> (length ts + 1 <= F)%nat -> (length ts + room nt <= fuel)%nat ->
  t_parse nt F fuel (ts ++ rest) = Ok a rest.
Proof.
  induction 1 as [ts args rs Hi Hn|ts a us rs Hd IH Hi|ts a Hd IH|ts a us b Hd IH Hd2 IH2|ts a n Hd IH|ts a n us b Hd IH Hd2 IH2];
    intros F fuel rest Hfo HF Hf; cbn [t_parse room] in *.
  - unfold t_exec. rewrite peek_ends.
    + destruct (t_args_complete ts args rs Hi fuel fuel 0 rest Hfo ltac:(lia) ltac:(lia) Hn) as (rs1 & rest1 & rs2 & R1 & R2 & ->).
      rewrite (bind_ok _ _ _ _ _ R1), (bind_ok _ _ _ _ _ R2). done.
    + destruct Hi as [|w ts' ? ?|c w ts' ? ? Hc]; [by apply (follow_ends Command)|done|]. simpl. sym_cases Hc.
  - unfold t_exec, t_block. cbn [app length] in *. rewrite length_app in HF, Hf. cbn [length] in HF, Hf. rewrite <- app_assoc. rewrite peek_here by done. cbv iota.
    erewrite bind_ok by apply t_get_run. cbn [List.tl]. rewrite (bind_ok _ _ _ _ _ (IH F F (Sym 41 :: us ++ rest) eq_refl ltac:(lia) ltac:(lia))).
    rewrite peek_here by done. cbv iota. erewrite bind_ok by apply t_get_run. cbn [List.tl].
    erewrite bind_ok; [done|]. eapply t_redirs_complete; [exact Hi|done|by apply (follow_ends Command)|lia].
  - destruct fuel as [|fuel]; [lia|]. cbn [t_pipe]. assert (Hc : follow Command rest). { destruct rest as [|[w|c] r]; [done|done|]. cbn [follow] in *. sym_cases Hfo. }
    rewrite (bind_ok _ _ _ _ _ (IH F fuel rest Hc HF ltac:(lia))). by rewrite peek_ends by (by apply (follow_ends Pipeline)).
  - destruct fuel as [|fuel]; [lia|]. rewrite length_app in *. cbn [length t_pipe] in *. rewrite <- app_assoc. cbn [app].
    rewrite (bind_ok _ _ _ _ _ (IH F fuel (Sym 124 :: us ++ rest) eq_refl ltac:(lia) ltac:(lia))). rewrite peek_here by done. cbv iota.
    erewrite bind_ok by apply t_get_run. cbn [List.tl]. by rewrite (bind_ok _ _ _ _ _ (IH2 F fuel rest Hfo ltac:(lia) ltac:(lia))).
  - destruct fuel as [|fuel]; [lia|]. rewrite length_app, length_replicate in *. cbn [t_line]. rewrite <- app_assoc.
    destruct (follow_ends Line rest Hfo) as (_ & _ & _ & He). destruct (He eq_refl) as [He1 He2].
    assert (Hp : follow Pipeline (replicate n (Sym 38) ++ rest)).
    { destruct n; [|done]. destruct rest as [|[w|c] r]; [done|done|]. cbn [follow app replicate] in *. sym_cases Hfo. }
    rewrite (bind_ok _ _ _ _ _ (IH fuel fuel _ Hp ltac:(lia) ltac:(lia))). rewrite (bind_ok _ _ _ _ _ (t_back_complete n fuel a rest He1 ltac:(lia))).
    by rewrite peek_ends.
  - destruct fuel as [|fuel]; [lia|]. rewrite !length_app, length_replicate in *. cbn [t_line length] in *. rewrite <- !app_assoc. cbn [app].
    assert (Hp : follow Pipeline (replicate n (Sym 38) ++ Sym 59 :: us ++ rest)) by (by destruct n).
    rewrite (bind_ok _ _ _ _ _ (IH fuel fuel _ Hp ltac:(lia) ltac:(lia))). rewrite (bind_ok _ _ _ _ _ (t_back_complete n fuel a (Sym 59 :: us ++ rest) eq_refl ltac:(lia))).
    rewrite peek_here by done. cbv iota. erewrite bind_ok by apply t_get_run. cbn [List.tl].
    by rewrite (bind_ok _ _ _ _ _ (IH2 fuel fuel rest Hfo ltac:(lia) ltac:(lia))).
Qed.

(* ------------------------------------------------------------------ *)
(** * It always ends *)

(** On at most [n] tokens [p] gives a result or an error, and does not add
    tokens. *)
Definition halts {A} (n : nat) (p : M (list tok) A) : Prop :=
  forall ts, (length ts <= n)%nat -> match p ts with Ok _ r => (length r <= length ts)%nat | Panic _ => True | Wait _ => False end.

Lemma halts_ret {A} n (a : A) : halts n (ret a).
Proof. intros ts H. simpl. lia. Qed.
Lemma halts_panic {A} n e : halts n (@panic _ A e).
Proof. intros ts H. done. Qed.

Lemma halts_bind {A B} n (p : M (list tok) A) (k : A -> M (list tok) B) : halts n p -> (forall a, halts n (k a)) -> halts n (bind p k).
Proof.
  intros Hp Hk ts H. pose proof (Hp ts H) as Hpt. unfold bind. destruct (p ts) as [a r|e|r]; [|done|done].
  pose proof (Hk a r ltac:(lia)) as Hkt. destruct (k a r); [lia|done|done].
Qed.

Lemma halts_get {A} n (k : option tok -> M (list tok) A) : (forall t, halts n (k t)) -> halts n (bind t_get k).
Proof. intros Hk. apply halts_bind; [|done]. intros ts H. rewrite t_get_run. destruct ts; simpl; lia. Qed.

(** After a token that was seen there is one token less. *)
Lemma halts_peek {A} n cs (k1 : option tok -> M (list tok) A) k2 : (forall n', n = S n' -> forall t, halts n' (k1 t)) -> halts n k2 ->
  halts n (b <- t_peek cs ;; if b then bind t_get k1 else k2).
Proof.
  intros H1 H2 ts H. erewrite bind_ok by apply t_peek_run. destruct ts as [|t r]; [by apply H2|]. destruct (in_str cs (first_char t)); [|by apply H2].
  erewrite bind_ok by apply t_get_run. simpl in *. destruct n as [|n]; [lia|]. pose proof (H1 n eq_refl (Some t) r ltac:(lia)) as Hr. destruct (k1 (Some t) r); [lia|done|done].
Qed.

Lemma t_redirs_halts fuel : forall n, (n < fuel)%nat -> halts n (t_redirs fuel).
Proof.
  induction fuel as [|fuel IH]; intros n Hn; [lia|]. cbn [t_redirs]. apply halts_peek; [|apply halts_ret]. intros n' -> t. apply halts_get. intros f.
  destruct t as [[w|c]|]; try apply halts_panic. destruct f as [[w|d]|]; try apply halts_panic. apply halts_bind; [apply IH; lia|intros rs; apply halts_ret].
Qed.

Lemma t_args_halts fuel : forall n argc, (n < fuel)%nat -> halts n (t_args fuel argc).
Proof.
  induction fuel as [|fuel IH]; intros n argc Hn; [lia|]. cbn [t_args]. intros ts H. erewrite bind_ok by apply t_peek_run.
  destruct (match ts with [] => _ | _ => _ end); [simpl; lia|]. erewrite bind_ok by apply t_get_run. destruct ts as [|[w|c] ts]; cbn [head List.tl]; [simpl; lia| |done].
  destruct (_ <=? _)%nat; [done|]. simpl in H. destruct n as [|n]; [lia|].
  assert (Hk : halts n (rs <- t_redirs fuel ;; r <- t_args fuel (S argc) ;; ret (w :: fst r, rs ++ snd r))).
  { apply halts_bind; [apply t_redirs_halts; lia|]. intros rs. apply halts_bind; [apply IH; lia|]. intros r. apply halts_ret. }
  pose proof (Hk ts ltac:(lia)) as Hr. destruct (bind _ _ ts); simpl; [lia|done|done].
Qed.

Lemma t_back_halts fuel : forall n a, (n < fuel)%nat -> halts n (t_back fuel a).
Proof.
  induction fuel as [|fuel IH]; intros n a Hn; [lia|]. cbn [t_back]. apply halts_peek; [|apply halts_ret]. intros n' -> t. apply IH. lia.
Qed.

Lemma t_exec_halts line fuel n : (n < fuel)%nat -> (forall n', n = S n' -> halts n' line) -> halts n (t_exec line fuel).
Proof.
  intros Hn Hl. unfold t_exec, t_block. apply halts_peek.
  - intros n' -> t. apply halts_bind; [by apply Hl|]. intros a. apply halts_peek; [|apply halts_panic]. intros n'' -> t'.
    apply halts_bind; [apply t_redirs_halts; lia|]. intros rs. apply halts_ret.
  - apply halts_bind; [by apply t_redirs_halts|]. intros rs. apply halts_bind; [by apply t_args_halts|]. intros r. apply halts_ret.
Qed.

Lemma t_pipe_halts line fuel : forall n, (S n < fuel)%nat -> (forall n', (n' < n)%nat -> halts n' line) -> halts n (t_pipe line fuel).
Proof.
  induction fuel as [|fuel IH]; intros n Hn Hl; [lia|]. cbn [t_pipe]. apply halts_bind; [apply t_exec_halts; [lia|intros n' ->; apply Hl; lia]|].
  intros a. apply halts_peek; [|apply halts_ret]. intros n' -> t. apply halts_bind; [|intros c; apply halts_ret]. apply IH; [lia|]. intros k Hk. apply Hl. lia.
Qed.

Lemma t_line_halts fuel : forall n, (S (S n) < fuel)%nat -> halts n (t_line fuel).
Proof.
  induction fuel as [|fuel IH]; intros n Hn; [lia|]. cbn [t_line]. apply halts_bind; [apply t_pipe_halts; [lia|intros n' Hn'; apply IH; lia]|].
  intros a. apply halts_bind; [apply t_back_halts; lia|]. intros b. apply halts_peek; [|apply halts_ret]. intros n' -> t.
  apply halts_bind; [apply IH; lia|]. intros c. apply halts_ret.
Qed.
