(* ===== verification/ShSpec.v ===== *)
(** The parser of the shell (src/sh.c) against the grammar: it builds the command
    that the grammar gives for the line, or reports a syntax error. *)

From S2P Require Import Prelude StringC Spinlock Kalloc Ptable Ports Console ConsoleScreen Ulib Sh ShGrammar.

Section parser.
Context (m : memory) (es : Z).

(** [l] is what is left of the line at [s]. *)
Definition text (s : Z) (l : list Z) : Prop := is_str m s l /\ s + Z.of_nat (length l) = es /\ 0 < s.

Lemma text_cons s c l : text s (c :: l) -> m s = c /\ 0 < c < 256 /\ s < es /\ text (s + 1) l.
Proof. intros (H & E & Hs). apply is_str_cons in H as (H1 & H2 & H3). cbn [length] in E. split; [done|]. split; [done|]. split; [lia|]. split; [done|]. split; lia. Qed.
Lemma text_nil s : text s [] -> s = es /\ m s = 0.
Proof. intros (H & E & _). apply is_str_nil in H. simpl in E. split; [lia|done]. Qed.
Lemma text_rest s l : text s l -> rest es s = length l.
Proof. intros (_ & E & _). unfold rest. lia. Qed.

Lemma skip_white_ok l : forall s n, text s l -> (length l <= n)%nat -> text (skip_white m es n s) (drop_white l).
Proof.
  unfold drop_white. induction l as [|c l IH]; intros s n H Hn.
  - destruct n as [|n]; [done|]. cbn [skip_white]. destruct (text_nil s H) as [-> _]. rewrite Z.ltb_irrefl. done.
  - destruct n as [|n]; [simpl in Hn; lia|]. cbn [skip_white drop_while]. destruct (text_cons s c l H) as (Hc & _ & Hs & H').
    rewrite Hc, (proj2 (Z.ltb_lt _ _) Hs). fold (is_white c). destruct (is_white c); [apply IH; [done|simpl in Hn; lia]|done].
Qed.

(** The text of a word: in the line, and what follows it is not part of it. *)
Record span (q e : Z) (w : word) : Prop := {
  sp_pos : 0 < q;
  sp_end : e = q + Z.of_nat (length w);
  sp_bytes : forall i c, w !! i = Some c -> m (q + Z.of_nat i) = c /\ 0 < c < 256 /\ is_word c = true;
  sp_stop : m e = 0 \/ is_word (m e) = false;
}.

Lemma span_cons q e c w : span (q + 1) e w -> 0 < q -> m q = c -> 0 < c < 256 -> is_word c = true -> span q e (c :: w).
Proof.
  intros [H1 H2 H3 H4] Hq Hm Hc Hw. split; [done|simpl; lia| |done]. intros [|i] d Hd; simpl in Hd; [injection Hd as <-; by rewrite Z.add_0_r|].
  destruct (H3 i d Hd) as [E H]. split; [|done]. rewrite <- E. f_equal. lia.
Qed.

Lemma skip_word_ok l : forall s n, text s l -> (length l <= n)%nat ->
  text (skip_word m es n s) (drop_while is_word l) /\ span s (skip_word m es n s) (take_while is_word l).
Proof.
  assert (Hst : forall s, 0 < s -> m s = 0 \/ is_word (m s) = false -> span s s []). { intros s H1 H2. split; [done|simpl; lia|done|done]. }
  induction l as [|c l IH]; intros s n H Hn; pose proof H as (_ & _ & Hpos).
  - destruct (text_nil s H) as [-> Hz]. assert (E : skip_word m es n es = es) by (destruct n; [done|]; cbn [skip_word]; by rewrite Z.ltb_irrefl).
    rewrite E. split; [done|]. apply Hst; [done|by left].
  - destruct n as [|n]; [simpl in Hn; lia|]. destruct (text_cons s c l H) as (Hc & Hr & Hs & H'). cbn [skip_word drop_while take_while].
    rewrite Hc, (proj2 (Z.ltb_lt _ _) Hs). cbn [andb]. fold (is_word c). destruct (is_word c) eqn:Ew.
    + destruct (IH (s + 1) n H' ltac:(simpl in Hn; lia)) as [H1 H2]. split; [done|]. by apply span_cons.
    + split; [done|]. apply Hst; [done|]. right. by rewrite Hc.
Qed.

(** The position, and the tokens to come. *)
Definition at_ (s : shell) (ts : list tok) : Prop := exists l, text (ps s) l /\ lex l = ts.

Definition is_sym (c : Z) : bool := in_str [124; 40; 41; 59; 38; 60; 62; 43] c.

Lemma scan_token_ok q l : text q l -> drop_white l = l ->
  match token l with
  | None => scan m es q = (0, q)
  | Some (t, r) => exists e, text e r /\
      match t with Sym c => scan m es q = (c, e) /\ is_sym c = true | Word w => scan m es q = (97, e) /\ span q e w end
  end.
Proof.
  intros H Hd. unfold scan, token. destruct l as [|c l]; [by destruct (text_nil q H) as [_ ->]|].
  destruct (text_cons q c l H) as (Hc & Hr & Hs & H'). rewrite Hc. destruct (Z.eqb_spec c 0) as [|_]; [lia|].
  destruct (in_str [124; 40; 41; 59; 38; 60] c) eqn:E1.
  { exists (q + 1). split; [done|]. split; [done|]. unfold is_sym. sym_cases E1. }
  destruct (c =? 62) eqn:E2.
  - apply Z.eqb_eq in E2 as ->. destruct l as [|d l]; [destruct (text_nil (q + 1) H') as [_ ->]; by exists (q + 1)|].
    destruct (text_cons (q + 1) d l H') as (Hd' & _ & _ & H''). rewrite Hd'. destruct (d =? 62); [by exists (q + 1 + 1)|by exists (q + 1)].
  - destruct (skip_word_ok (c :: l) q (rest es q) H) as [H1 H2]; [by rewrite (text_rest q (c :: l))|].
    exists (skip_word m es (rest es q) q). done.
Qed.

(** [gettoken] gives the next token. *)
Lemma gettoken_ok s ts : at_ s ts -> exists t q e s', gettoken m es s = Ok (t, (q, e)) s' /\ cmds s' = cmds s /\ at_ s' (List.tl ts) /\
  match ts with [] => t = 0 | Sym c :: _ => t = c /\ is_sym c = true | Word w :: _ => t = 97 /\ span q e w end.
Proof.
  intros (l & H & <-). pose proof (skip_white_ok l (ps s) (rest es (ps s)) H ltac:(by rewrite (text_rest _ l))) as Hq. set (q := skip_white m es (rest es (ps s)) (ps s)) in *.
  pose proof (scan_token_ok q (drop_white l) Hq (drop_white_idemp l)) as Hs. rewrite (lex_token l). unfold gettoken. erewrite bind_ok by reflexivity. cbv zeta. fold q.
  assert (Hn : forall e r, text e r -> at_ (set_ps (skip_white m es (rest es e) e) s) (lex r)).
  { intros e r He. exists (drop_white r). split; [|apply lex_white]. apply skip_white_ok; [done|by rewrite (text_rest _ r)]. }
  destruct (token (drop_white l)) as [[[w|c] r]|] eqn:E.
  - destruct Hs as (e & He & Hs & Hsp). rewrite Hs. exists 97, q, e, (set_ps (skip_white m es (rest es e) e) s). repeat (split; [done || by apply Hn|]). done.
  - destruct Hs as (e & He & Hs & Hsp). rewrite Hs. exists c, q, e, (set_ps (skip_white m es (rest es e) e) s). repeat (split; [done || by apply Hn|]). done.
  - rewrite Hs. exists 0, q, q, (set_ps (skip_white m es (rest es q) q) s). split; [done|]. split; [done|]. split; [|done].
    replace (List.tl []) with (lex (drop_white l)); [by apply Hn|]. rewrite lex_white, (lex_token l), E. done.
Qed.

(** [peek] for symbols. *)
Lemma peek_ok cs s ts : (forall c, in_str cs c = true -> in_str symbols c = true) -> at_ s ts ->
  exists s', peek m es cs s = Ok (match ts with t :: _ => in_str cs (first_char t) | [] => false end) s' /\ cmds s' = cmds s /\ at_ s' ts.
Proof.
  intros Hcs (l & H & <-). pose proof (skip_white_ok l (ps s) (rest es (ps s)) H ltac:(by rewrite (text_rest _ l))) as Hq. set (q := skip_white m es (rest es (ps s)) (ps s)) in *.
  exists (set_ps q s). split; [|split; [done|exists (drop_white l); split; [done|apply lex_white]]].
  unfold peek. erewrite bind_ok by reflexivity. cbv zeta. fold q. erewrite bind_ok by reflexivity. unfold ret. f_equal. rewrite (lex_token l).
  destruct (drop_white l) as [|c r] eqn:E; [by destruct (text_nil q Hq) as [_ ->]|].
  destruct (text_cons q c r Hq) as (-> & Hr & _). destruct (Z.eqb_spec c 0) as [|_]; [lia|]. cbn [negb andb]. unfold token.
  destruct (in_str [124; 40; 41; 59; 38; 60] c) eqn:E1; [|destruct (c =? 62) eqn:E2].
  - cbn [first_char]. destruct (Z.eqb_spec c 43) as [->|_]; [done|done].
  - apply Z.eqb_eq in E2 as ->. destruct r as [|d r]; [done|]. by destruct (d =? 62).
  - cbn [first_char]. pose proof (word_char l c r E E1 E2) as Hw. unfold is_word in Hw. apply andb_true_iff in Hw as [_ Hw]. apply negb_true_iff in Hw.
    destruct (in_str cs c) eqn:Ec; [apply Hcs in Ec; congruence|]. destruct (in_str cs 97) eqn:E9; [by apply Hcs in E9|done].
Qed.

(* ------------------------------------------------------------------ *)
(** * The commands in the heap *)

(** The arrays of an [EXEC], with null pointers after the words. *)
Definition pad (l : list Z) : list Z := l ++ replicate (MAXARGS - length l) 0.

Definition exec_of (sps : list (Z * Z)) : cmd := EXEC (pad (fst <$> sps)) (pad (snd <$> sps)).

Definition spans : list (Z * Z) -> list word -> Prop := Forall2 (fun sp w => span (fst sp) (snd sp) w).

(** The command [c] of the heap is [a]. *)
Fixpoint rep (st : list cmd) (c : nat) (a : ast) : Prop :=
  match a with
  | AExec args => exists sps, st !! c = Some (exec_of sps) /\ spans sps args /\ (length args < MAXARGS)%nat
  | ARedir a (Redir f mode fd) => exists c' q e, st !! c = Some (REDIR c' q e mode fd) /\ span q e f /\ rep st c' a
  | APipe a b => exists l r, st !! c = Some (PIPE l r) /\ rep st l a /\ rep st r b
  | AList a b => exists l r, st !! c = Some (LIST l r) /\ rep st l a /\ rep st r b
  | ABack a => exists c', st !! c = Some (BACK c') /\ rep st c' a
  end.

Lemma rep_mono st st' a : st `prefix_of` st' -> forall c, rep st c a -> rep st' c a.
Proof.
  intros Hp. assert (Hl : forall c x, st !! c = Some x -> st' !! c = Some x) by (intros c x Hx; by eapply prefix_lookup_Some).
  induction a as [args|a IH [f mode fd]|a IHa b IHb|a IHa b IHb|a IH]; intros c; simpl.
  - intros (sps & H & Hs). exists sps. split; [by apply Hl|done].
  - intros (c' & q & e & H & Hs & Hr). exists c', q, e. split; [by apply Hl|]. split; [done|by apply IH].
  - intros (l & r & H & H1 & H2). exists l, r. split; [by apply Hl|]. split; [by apply IHa|by apply IHb].
  - intros (l & r & H & H1 & H2). exists l, r. split; [by apply Hl|]. split; [by apply IHa|by apply IHb].
  - intros (c' & H & H1). exists c'. split; [by apply Hl|by apply IH].
Qed.

(** Redirections of the command [c], the last of which is [c']. *)
Fixpoint chain (st : list cmd) (c : nat) (rs : list redir) (c' : nat) : Prop :=
  match rs with
  | [] => c' = c
  | Redir f mode fd :: rs => exists c1 q e, st !! c1 = Some (REDIR c q e mode fd) /\ span q e f /\ chain st c1 rs c'
  end.

Lemma chain_wrap st rs : forall c c' a, rep st c a -> chain st c rs c' -> rep st c' (wrap a rs).
Proof.
  induction rs as [|[f mode fd] rs IH]; intros c c' a Hr; simpl; [by intros ->|]. intros (c1 & q & e & H & Hs & Hc).
  apply (IH c1); [|done]. simpl. by exists c, q, e.
Qed.

Lemma redirs_app st rs : forall rs' c c1 c2, chain st c rs c1 -> chain st c1 rs' c2 -> chain st c (rs ++ rs') c2.
Proof.
  induction rs as [|[f mode fd] rs IH]; intros rs' c c1 c2; simpl; [by intros ->|]. intros (c3 & q & e & H & Hs & Hc) H2.
  exists c3, q, e. split; [done|]. split; [done|]. by apply (IH _ _ c1).
Qed.

(** Only the redirections matter to it. *)
Lemma chain_keep st st' rs : (forall c c1 q e mode fd, st !! c = Some (REDIR c1 q e mode fd) -> st' !! c = st !! c) ->
  forall c c', chain st c rs c' -> chain st' c rs c'.
Proof.
  intros Hl. induction rs as [|[f mode fd] rs IH]; intros c c'; simpl; [done|]. intros (c1 & q & e & H & Hs & Hc).
  exists c1, q, e. split; [by rewrite (Hl _ _ _ _ _ _ H)|]. split; [done|by apply IH].
Qed.

Lemma new_cmd_ok c s : new_cmd c s = Ok (length (cmds s)) (set_cmds (cmds s ++ [c]) s).
Proof. done. Qed.

Lemma at_cmds s ts st : at_ s ts -> at_ (set_cmds st s) ts.
Proof. done. Qed.

(** ** Redirections *)
Definition redir_node (d : Z) (c : nat) (q e : Z) : M shell nat :=
  if d =? 60 then redircmd c q e O_RDONLY 0
  else if d =? 62 then redircmd c q e (Z.lor O_WRONLY O_CREATE) 1
  else if d =? 43 then redircmd c q e (Z.lor O_WRONLY O_CREATE) 1
  else ret c.

Lemma redir_node_ok d c q e w s : is_sym d = true -> in_str [60; 62] (first_char (Sym d)) = true -> span q e w ->
  exists x, redir_node d c q e s = Ok (length (cmds s)) (set_cmds (cmds s ++ [x]) s) /\
    forall st rs c', st !! length (cmds s) = Some x -> chain st (length (cmds s)) rs c' -> chain st c (redir_of d w :: rs) c'.
Proof.
  intros Hd Hf Hs. assert (Hc : d ∈ [60; 62; 43]).
  { unfold is_sym in Hd. apply in_str_cases in Hd. repeat (apply elem_of_cons in Hd as [->|Hd]; [by revert Hf; (by vm_compute) || (intros _; set_solver)|]). by apply elem_of_nil in Hd. }
  repeat (apply elem_of_cons in Hc as [->|Hc]); [..|by apply elem_of_nil in Hc]; eexists; (split; [reflexivity|]); intros st rs c' Hx Hch; simpl; by eexists _, q, e.
Qed.

Lemma parseredirs_ok fuel : forall c s ts, at_ s ts ->
  match t_redirs fuel ts with
  | Ok rs ts' => exists c' s', parseredirs m es fuel c s = Ok c' s' /\ at_ s' ts' /\ cmds s `prefix_of` cmds s' /\ chain (cmds s') c rs c'
  | Panic e => parseredirs m es fuel c s = Panic e
  | Wait _ => True
  end.
Proof.
  induction fuel as [|fuel IH]; intros c s ts Ha; [done|]. cbn [t_redirs parseredirs]. erewrite bind_ok by apply t_peek_run.
  destruct (peek_ok [60; 62] s ts) as (s1 & R1 & C1 & A1); [intros d Hd; sym_cases Hd|done|]. rewrite (bind_ok _ _ _ _ _ R1).
  destruct ts as [|t ts]; [exists c, s1; by rewrite C1|]. destruct (in_str [60; 62] (first_char t)) eqn:E; [|exists c, s1; by rewrite C1].
  erewrite bind_ok by apply t_get_run. erewrite bind_ok by apply t_get_run.
  destruct (gettoken_ok s1 _ A1) as (tk & q & e & s2 & R2 & C2 & A2 & T2). rewrite (bind_ok _ _ _ _ _ R2).
  destruct (gettoken_ok s2 _ A2) as (tk' & q' & e' & s3 & R3 & C3 & A3 & T3). rewrite (bind_ok _ _ _ _ _ R3). cbn [head List.tl fst snd] in *.
  destruct t as [w|d]; [done|]. destruct T2 as [-> Hd].
  destruct ts as [|[w|d'] ts]; cbn [head List.tl] in *; [by subst tk'| |destruct T3 as [-> Hs]; destruct (Z.eqb_spec d' 97) as [->|]; done].
  destruct T3 as [-> Hsp]. cbn [Z.eqb negb Pos.eqb]. destruct (redir_node_ok d c q' e' w s3 Hd E Hsp) as (x & R4 & Hx).
  rewrite (bind_ok _ _ _ _ _ (R4 : _ = _)). specialize (IH (length (cmds s3)) _ ts (at_cmds _ _ (cmds s3 ++ [x]) A3)).
  unfold bind at 1. destruct (t_redirs fuel ts) as [rs ts'|err|ts']; [|done|done].
  destruct IH as (c' & s' & R5 & A5 & P5 & Ch5). exists c', s'. split; [done|]. split; [done|]. cbn [cmds set_cmds] in P5.
  assert (P4 : cmds s `prefix_of` cmds s3 ++ [x]) by (rewrite C3, C2, C1; by apply prefix_app_r). split; [by etransitivity|].
  apply Hx; [|done]. eapply prefix_lookup_Some; [|exact P5]. by apply list_lookup_middle.
Qed.

(** ** The words *)
Lemma pad_insert l v : (length l < MAXARGS)%nat -> <[length l := v]> (pad l) = pad (l ++ [v]).
Proof.
  intros Hl. unfold pad. rewrite insert_app_r_alt, Nat.sub_diag, length_app by lia. simpl. rewrite <- app_assoc. f_equal.
  destruct (MAXARGS - length l)%nat as [|k] eqn:E; [lia|]. simpl. do 2 f_equal. lia.
Qed.

Lemma pad_null l : (length l < MAXARGS)%nat -> <[length l := 0]> (pad l) = pad l.
Proof.
  intros Hl. unfold pad. rewrite insert_app_r_alt, Nat.sub_diag by lia. f_equal. destruct (MAXARGS - length l)%nat; done.
Qed.

Lemma set_arg_ok c argc q e s sps : cmds s !! c = Some (exec_of sps) -> length sps = argc -> (argc < MAXARGS)%nat ->
  set_arg c argc q e s = Ok tt (set_cmds (<[c := EXEC (<[argc := q]> (pad (fst <$> sps))) (<[argc := e]> (pad (snd <$> sps)))]> (cmds s)) s).
Proof. intros Hc Hl Ha. unfold set_arg. erewrite bind_ok by reflexivity. rewrite Hc. unfold exec_of. by rewrite (proj2 (Nat.ltb_lt _ _) Ha). Qed.

(** The node [c], with the words up to now, and the redirections around it. *)
Record building (st0 : list cmd) (s : shell) (c : nat) (sps : list (Z * Z)) (rs : list redir) (rt : nat) : Prop := {
  bd_old : st0 `prefix_of` cmds s;
  bd_new : (length st0 <= c)%nat;
  bd_node : cmds s !! c = Some (exec_of sps);
  bd_chain : chain (cmds s) c rs rt;
}.

Lemma building_arg st0 s c sps rs rt q e : building st0 s c sps rs rt -> (length sps < MAXARGS)%nat ->
  exists s', set_arg c (length sps) q e s = Ok tt s' /\ ps s' = ps s /\ building st0 s' c (sps ++ [(q, e)]) rs rt.
Proof.
  intros [H1 H2 H3 H4] Hn. eexists. split; [by apply set_arg_ok|]. split; [done|].
  rewrite <- (length_fmap fst sps) at 1. rewrite pad_insert by (by rewrite length_fmap). rewrite <- (length_fmap snd sps) at 1. rewrite pad_insert by (by rewrite length_fmap).
  split; cbn [cmds set_cmds]; [|done| |].
  - destruct H1 as [k ->]. rewrite insert_app_r_alt by done. by apply prefix_app_r.
  - rewrite list_lookup_insert_eq by (by eapply lookup_lt_Some). unfold exec_of. by rewrite !fmap_app.
  - eapply chain_keep; [|exact H4]. intros d c1 q' e' mode fd Hd. apply list_lookup_insert_ne. intros ->. by rewrite H3 in Hd.
Qed.

(** The null pointers at the end are there already. *)
Lemma building_null st0 s c sps rs rt : building st0 s c sps rs rt -> (length sps < MAXARGS)%nat -> set_arg c (length sps) 0 0 s = Ok tt s.
Proof.
  intros [_ _ Hc _] Hn. rewrite (set_arg_ok c (length sps) 0 0 s sps Hc eq_refl Hn). f_equal.
  pose proof (pad_null (fst <$> sps)) as E1. pose proof (pad_null (snd <$> sps)) as E2. rewrite length_fmap in E1, E2. rewrite E1, E2 by done.
  rewrite list_insert_id by exact Hc. by destruct s.
Qed.

Lemma building_redirs st0 s s' c sps rs rt rs' rt' : building st0 s c sps rs rt -> cmds s `prefix_of` cmds s' -> chain (cmds s') rt rs' rt' ->
  building st0 s' c sps (rs ++ rs') rt'.
Proof.
  intros [H1 H2 H3 H4] Hp Hc. split; [by etransitivity|done|by eapply prefix_lookup_Some|]. eapply redirs_app; [|exact Hc].
  eapply chain_keep; [|exact H4]. intros d c1 q e mode fd Hd. rewrite Hd. by eapply prefix_lookup_Some.
Qed.

Lemma args_loop_ok fuel : forall st0 s c sps rs rt ts, at_ s ts -> building st0 s c sps rs rt -> (length sps < MAXARGS)%nat ->
  match t_args fuel (length sps) ts with
  | Ok (args, rs') ts' => exists rt' s' sps', args_loop m es fuel c (length sps) rt s = Ok (length (sps ++ sps'), rt') s' /\ at_ s' ts' /\
      building st0 s' c (sps ++ sps') (rs ++ rs') rt' /\ spans sps' args
  | Panic e => args_loop m es fuel c (length sps) rt s = Panic e
  | Wait _ => True
  end.
Proof.
  induction fuel as [|fuel IH]; intros st0 s c sps rs rt ts Ha Hb Hn; [done|]. cbn [t_args args_loop]. erewrite bind_ok by apply t_peek_run.
  destruct (peek_ok [124; 41; 38; 59] s ts) as (s1 & R1 & C1 & A1); [intros d Hd; sym_cases Hd|done|]. rewrite (bind_ok _ _ _ _ _ R1).
  assert (Hb1 : building st0 s1 c sps rs rt) by (destruct Hb; split; by rewrite ?C1).
  destruct (match ts with [] => _ | _ => _ end).
  { exists rt, s1, []. rewrite !app_nil_r. split; [done|]. split; [done|]. split; [done|constructor]. }
  erewrite bind_ok by apply t_get_run. destruct (gettoken_ok s1 _ A1) as (tk & q & e & s2 & R2 & C2 & A2 & T2). rewrite (bind_ok _ _ _ _ _ R2). cbn [fst snd].
  assert (Hb2 : building st0 s2 c sps rs rt) by (destruct Hb1; split; by rewrite ?C2).
  destruct ts as [|[w|d] ts]; cbn [head List.tl] in *.
  - subst tk. exists rt, s2, []. rewrite !app_nil_r. split; [done|]. split; [done|]. split; [done|constructor].
  - destruct T2 as [-> Hsp]. cbn [Z.eqb negb Pos.eqb]. destruct (building_arg st0 s2 c sps rs rt q e Hb2 Hn) as (s3 & R3 & E3 & Hb3). rewrite (bind_ok _ _ _ _ _ R3).
    destruct (Nat.leb_spec MAXARGS (S (length sps))) as [|Hlt]; [done|]. assert (A3 : at_ s3 ts) by (destruct A2 as (l & Hl & El); exists l; by rewrite E3).
    pose proof (parseredirs_ok fuel rt s3 ts A3) as R4. unfold bind at 1. destruct (t_redirs fuel ts) as [rs1 ts1|err|ts1]; [|by unfold bind; rewrite R4|done].
    destruct R4 as (rt1 & s4 & R4 & A4 & P4 & Ch4). rewrite (bind_ok _ _ _ _ _ R4).
    pose proof (building_redirs _ _ _ _ _ _ _ _ _ Hb3 P4 Ch4) as Hb4. replace (S (length sps)) with (length (sps ++ [(q, e)])) in * by (rewrite length_app; simpl; lia).
    specialize (IH st0 s4 c (sps ++ [(q, e)]) (rs ++ rs1) rt1 ts1 A4 Hb4 Hlt). unfold bind. destruct (t_args fuel _ ts1) as [[args rs2] ts2|err|ts2]; [|done|done].
    destruct IH as (rt' & s' & sps' & R5 & A5 & Hb5 & Hs5). exists rt', s', ((q, e) :: sps'). rewrite <- !app_assoc in *. split; [done|]. split; [done|]. split; [done|by constructor].
  - destruct T2 as [-> Hd]. destruct (Z.eqb_spec d 0) as [->|_]; [done|]. destruct (Z.eqb_spec d 97) as [->|_]; done.
Qed.

(* ------------------------------------------------------------------ *)
(** * The parser follows the parser of tokens *)

Definition sim (code : M shell nat) (tk : M (list tok) ast) : Prop :=
  forall s ts, at_ s ts ->
  match tk ts with
  | Ok a ts' => exists c s', code s = Ok c s' /\ at_ s' ts' /\ cmds s `prefix_of` cmds s' /\ rep (cmds s') c a
  | Panic e => code s = Panic e
  | Wait _ => True
  end.

(** A symbol that was seen is taken. *)
Lemma take_token_ok s t ts : at_ s (t :: ts) -> exists x s', gettoken m es s = Ok x s' /\ cmds s' = cmds s /\ at_ s' ts.
Proof. intros Ha. destruct (gettoken_ok s _ Ha) as (tk & q & e & s' & R & C & A & _). by exists (tk, (q, e)), s'. Qed.

Lemma parseblock_ok line tline fuel s r : sim line tline -> at_ s (Sym 40 :: r) ->
  match t_block tline fuel (Sym 40 :: r) with
  | Ok a ts' => exists c s', parseblock m es line fuel s = Ok c s' /\ at_ s' ts' /\ cmds s `prefix_of` cmds s' /\ rep (cmds s') c a
  | Panic e => parseblock m es line fuel s = Panic e
  | Wait _ => True
  end.
Proof.
  intros Hl Ha. unfold t_block, parseblock. erewrite bind_ok by apply t_get_run. cbn [List.tl].
  destruct (peek_ok [40] s _ ltac:(intros d Hd; sym_cases Hd) Ha) as (s1 & R1 & C1 & A1). rewrite (bind_ok _ _ _ _ _ R1). cbn [first_char in_str existsb Z.eqb Pos.eqb orb negb].
  destruct (take_token_ok s1 _ _ A1) as (x & s2 & R2 & C2 & A2). rewrite (bind_ok _ _ _ _ _ R2).
  pose proof (Hl s2 r A2) as R3. unfold bind at 1. destruct (tline r) as [a ts3|err|ts3]; [|by unfold bind; rewrite R3|done].
  destruct R3 as (c & s3 & R3 & A3 & P3 & Rp3). rewrite (bind_ok _ _ _ _ _ R3). erewrite bind_ok by apply t_peek_run.
  destruct (peek_ok [41] s3 _ ltac:(intros d Hd; sym_cases Hd) A3) as (s4 & R4 & C4 & A4). rewrite (bind_ok _ _ _ _ _ R4).
  destruct ts3 as [|t ts3]; [done|]. destruct (in_str [41] (first_char t)); [|done]. cbn [negb]. erewrite bind_ok by apply t_get_run. cbn [List.tl].
  destruct (take_token_ok s4 _ _ A4) as (x' & s5 & R5 & C5 & A5). rewrite (bind_ok _ _ _ _ _ R5).
  pose proof (parseredirs_ok fuel c s5 ts3 A5) as R6. unfold bind. destruct (t_redirs fuel ts3) as [rs ts6|err|ts6]; [|done|done].
  destruct R6 as (c' & s6 & R6 & A6 & P6 & Ch). exists c', s6. split; [done|]. split; [done|]. rewrite C2, C1 in P3. rewrite C5, C4 in P6. split; [by etransitivity|].
  eapply chain_wrap; [|exact Ch]. by eapply rep_mono.
Qed.

Lemma parseexec_ok line tline fuel : sim line tline -> sim (parseexec m es line fuel) (t_exec tline fuel).
Proof.
  intros Hl s ts Ha. unfold t_exec, parseexec. erewrite bind_ok by apply t_peek_run.
  destruct (peek_ok [40] s ts ltac:(intros d Hd; sym_cases Hd) Ha) as (s1 & R1 & C1 & A1). rewrite (bind_ok _ _ _ _ _ R1).
  destruct (match ts with [] => _ | _ => _ end) eqn:E.
  { destruct ts as [|t ts]; [done|]. destruct (peek_sym [40] t eq_refl eq_refl E) as (d & -> & Hd). assert (d = 40) as -> by (apply in_str_cases in Hd; set_solver).
    pose proof (parseblock_ok line tline fuel s1 ts Hl A1) as R2. rewrite C1 in R2. exact R2. }
  clear E. erewrite (bind_ok execcmd) by apply new_cmd_ok. set (c := length (cmds s1)). set (s2 := set_cmds _ s1).
  assert (Hb : building (cmds s) s2 c [] [] c).
  { split; cbn [s2 cmds set_cmds]; [rewrite C1; by apply prefix_app_r|by rewrite <- C1|by apply list_lookup_middle|done]. }
  pose proof (parseredirs_ok fuel c s2 ts A1) as R3. unfold bind at 1. destruct (t_redirs fuel ts) as [rs1 ts3|err|ts3]; [|by unfold bind; rewrite R3|done].
  destruct R3 as (rt & s3 & R3 & A3 & P3 & Ch3). rewrite (bind_ok _ _ _ _ _ R3). pose proof (building_redirs _ _ _ _ _ _ _ _ _ Hb P3 Ch3) as Hb3.
  pose proof (args_loop_ok fuel _ _ _ [] _ _ _ A3 Hb3 ltac:(unfold MAXARGS; simpl; lia)) as R4. cbn [length app] in R4. unfold bind at 1.
  destruct (t_args fuel 0 ts3) as [[args rs2] ts4|err|ts4] eqn:Et; [|by unfold bind; rewrite R4|done].
  destruct R4 as (rt' & s4 & sps & R4 & A4 & Hb4 & Hs4). rewrite (bind_ok _ _ _ _ _ R4). cbn [fst snd]. apply t_args_sound in Et as (_ & _ & _ & Hn).
  assert (Hlen : length sps = length args) by (by eapply Forall2_length). specialize (Hn ltac:(unfold MAXARGS; lia)).
  rewrite (bind_ok _ _ _ _ _ (building_null _ _ _ _ _ _ Hb4 ltac:(lia))). destruct Hb4 as [B1 B2 B3 B4]. eexists _, _. split; [done|]. split; [done|]. split; [done|]. eapply chain_wrap; [|exact B4]. simpl. by exists sps.
Qed.

Lemma parsepipe_ok line tline fuel : sim line tline -> sim (parsepipe m es line fuel) (t_pipe tline fuel).
Proof.
  intros Hl. induction fuel as [|fuel IH]; intros s ts Ha; [done|]. cbn [t_pipe parsepipe].
  pose proof (parseexec_ok line tline fuel Hl s ts Ha) as R1. unfold bind at 1. destruct (t_exec tline fuel ts) as [a ts1|err|ts1]; [|by unfold bind; rewrite R1|done].
  destruct R1 as (c & s1 & R1 & A1 & P1 & Rp1). rewrite (bind_ok _ _ _ _ _ R1). erewrite bind_ok by apply t_peek_run.
  destruct (peek_ok [124] s1 _ ltac:(intros d Hd; sym_cases Hd) A1) as (s2 & R2 & C2 & A2). rewrite (bind_ok _ _ _ _ _ R2). rewrite <- C2 in P1, Rp1.
  destruct ts1 as [|t ts1]; [by exists c, s2|]. destruct (in_str [124] (first_char t)); [|by exists c, s2]. erewrite bind_ok by apply t_get_run. cbn [List.tl].
  destruct (take_token_ok s2 _ _ A2) as (x & s3 & R3 & C3 & A3). rewrite (bind_ok _ _ _ _ _ R3).
  specialize (IH s3 ts1 A3). unfold bind at 1. destruct (t_pipe tline fuel ts1) as [b ts4|err|ts4]; [|by unfold bind; rewrite IH|done].
  destruct IH as (d & s4 & R4 & A4 & P4 & Rp4). rewrite (bind_ok _ _ _ _ _ R4). rewrite C3 in P4. eexists _, _. split; [apply new_cmd_ok|]. split; [done|]. cbn [cmds set_cmds].
  split; [etransitivity; [exact P1|]; etransitivity; [exact P4|by apply prefix_app_r]|]. simpl. exists c, d. split; [by apply list_lookup_middle|].
  split; [|eapply rep_mono; [|exact Rp4]; by apply prefix_app_r]. eapply rep_mono; [|exact Rp1]. etransitivity; [exact P4|by apply prefix_app_r].
Qed.

Lemma back_loop_ok fuel : forall c a s ts, at_ s ts -> rep (cmds s) c a ->
  match t_back fuel a ts with
  | Ok b ts' => exists c' s', back_loop m es fuel c s = Ok c' s' /\ at_ s' ts' /\ cmds s `prefix_of` cmds s' /\ rep (cmds s') c' b
  | Panic e => back_loop m es fuel c s = Panic e
  | Wait _ => True
  end.
Proof.
  induction fuel as [|fuel IH]; intros c a s ts Ha Hr; [done|]. cbn [t_back back_loop]. erewrite bind_ok by apply t_peek_run.
  destruct (peek_ok [38] s ts ltac:(intros d Hd; sym_cases Hd) Ha) as (s1 & R1 & C1 & A1). rewrite (bind_ok _ _ _ _ _ R1). rewrite <- C1 in Hr |- *.
  destruct ts as [|t ts]; [by exists c, s1|]. destruct (in_str [38] (first_char t)); [|by exists c, s1]. erewrite bind_ok by apply t_get_run. cbn [List.tl].
  destruct (take_token_ok s1 _ _ A1) as (x & s2 & R2 & C2 & A2). rewrite (bind_ok _ _ _ _ _ R2). erewrite (bind_ok (backcmd c)) by apply new_cmd_ok.
  set (s3 := set_cmds (cmds s2 ++ [BACK c]) s2). assert (P3 : cmds s1 `prefix_of` cmds s3) by (rewrite <- C2; by apply prefix_app_r).
  assert (Hr3 : rep (cmds s3) (length (cmds s2)) (ABack a)). { simpl. exists c. split; [by apply list_lookup_middle|]. eapply rep_mono; [exact P3|done]. }
  pose proof (IH _ _ s3 ts A2 Hr3) as R4. destruct (t_back fuel (ABack a) ts) as [b ts4|err|ts4]; [|done|done].
  destruct R4 as (c' & s4 & R4 & A4 & P4 & Rp4). exists c', s4. split; [done|]. split; [done|]. split; [by etransitivity|done].
Qed.

Lemma parseline_ok fuel : sim (parseline m es fuel) (t_line fuel).
Proof.
  induction fuel as [|fuel IH]; intros s ts Ha; [done|]. cbn [t_line parseline].
  pose proof (parsepipe_ok _ _ fuel IH s ts Ha) as R1. unfold bind at 1. destruct (t_pipe (t_line fuel) fuel ts) as [a ts1|err|ts1]; [|by unfold bind; rewrite R1|done].
  destruct R1 as (c & s1 & R1 & A1 & P1 & Rp1). rewrite (bind_ok _ _ _ _ _ R1).
  pose proof (back_loop_ok fuel c a s1 ts1 A1 Rp1) as R2. unfold bind at 1. destruct (t_back fuel a ts1) as [b ts2|err|ts2]; [|by unfold bind; rewrite R2|done].
  destruct R2 as (c2 & s2 & R2 & A2 & P2 & Rp2). rewrite (bind_ok _ _ _ _ _ R2). erewrite bind_ok by apply t_peek_run.
  assert (P02 : cmds s `prefix_of` cmds s2) by (by etransitivity).
  destruct (peek_ok [59] s2 _ ltac:(intros d Hd; sym_cases Hd) A2) as (s3 & R3 & C3 & A3). rewrite (bind_ok _ _ _ _ _ R3). rewrite <- C3 in P02, Rp2.
  destruct ts2 as [|t ts2]; [by exists c2, s3|]. destruct (in_str [59] (first_char t)); [|by exists c2, s3]. erewrite bind_ok by apply t_get_run. cbn [List.tl].
  destruct (take_token_ok s3 _ _ A3) as (x & s4 & R4 & C4 & A4). rewrite (bind_ok _ _ _ _ _ R4).
  specialize (IH s4 ts2 A4). unfold bind at 1. destruct (t_line fuel ts2) as [d ts5|err|ts5]; [|by unfold bind; rewrite IH|done].
  destruct IH as (c5 & s5 & R5 & A5 & P5 & Rp5). rewrite (bind_ok _ _ _ _ _ R5). rewrite C4 in P5. eexists _, _. split; [apply new_cmd_ok|]. split; [done|]. cbn [cmds set_cmds].
  split; [etransitivity; [exact P02|]; etransitivity; [exact P5|by apply prefix_app_r]|]. simpl. exists c2, c5. split; [by apply list_lookup_middle|].
  split; [|eapply rep_mono; [|exact Rp5]; by apply prefix_app_r]. eapply rep_mono; [|exact Rp2]. etransitivity; [exact P5|by apply prefix_app_r].
Qed.

(* ------------------------------------------------------------------ *)
(** * The ends of the words *)

(** [nulterminate] stores only where no word has a byte. *)
Definition nulled (m1 m2 : memory) : Prop := forall x, m2 x = m1 x \/ (m2 x = 0 /\ (m x = 0 \/ is_word (m x) = false)).

Lemma nulled_refl m1 : nulled m1 m1.
Proof. by left. Qed.
Lemma nulled_trans m1 m2 m3 : nulled m1 m2 -> nulled m2 m3 -> nulled m1 m3.
Proof. intros H1 H2 x. destruct (H2 x) as [->|H]; [apply H1|by right]. Qed.
Lemma nulled_upd q e w m1 : span q e w -> nulled m1 (upd m1 e 0).
Proof. intros Hs x. unfold upd. destruct (Z.eqb_spec x e) as [->|]; [right|by left]. split; [done|]. apply Hs. Qed.
Lemma nulled_zero m1 m2 e : nulled m1 m2 -> m1 e = 0 -> m2 e = 0.
Proof. intros H He. destruct (H e) as [->|[H' _]]; done. Qed.

(** The command, with the strings in [m']. *)
Fixpoint shows (st : list cmd) (m' : memory) (c : nat) (a : ast) : Prop :=
  match a with
  | AExec args => exists argv eargv, st !! c = Some (EXEC argv eargv) /\ length argv = MAXARGS /\ argv !! length args = Some 0 /\
      forall i w, args !! i = Some w -> exists q, argv !! i = Some q /\ q <> 0 /\ is_str m' q w
  | ARedir a (Redir f mode fd) => exists c' q e, st !! c = Some (REDIR c' q e mode fd) /\ is_str m' q f /\ shows st m' c' a
  | APipe a b => exists l r, st !! c = Some (PIPE l r) /\ shows st m' l a /\ shows st m' r b
  | AList a b => exists l r, st !! c = Some (LIST l r) /\ shows st m' l a /\ shows st m' r b
  | ABack a => exists c', st !! c = Some (BACK c') /\ shows st m' c' a
  end.

Lemma span_str q e w m' : span q e w -> nulled m m' -> m' e = 0 -> is_str m' q w.
Proof.
  intros [H1 H2 H3 H4] Hn He. split.
  - intros i c Hi. destruct (H3 i c Hi) as (E & Hc & Hw). split; [|done]. destruct (Hn (q + Z.of_nat i)) as [->|[_ [Hx|Hx]]]; [done|lia|congruence].
  - by rewrite <- H2.
Qed.

Lemma nul_args_ok sps args : spans sps args -> forall k m1,
  let m2 := nul_args ((fst <$> sps) ++ replicate k 0) ((snd <$> sps) ++ replicate k 0) m1 in
  nulled m1 m2 /\ forall sp, sp ∈ sps -> m2 (snd sp) = 0.
Proof.
  induction 1 as [|[q e] w sps args Hs _ IH]; intros k m1.
  - assert (E : forall k, nul_args (replicate k 0) (replicate k 0) m1 = m1) by (by intros []). simpl. rewrite E. split; [apply nulled_refl|by intros sp ?%elem_of_nil].
  - cbn [fst snd] in Hs. rewrite !fmap_cons. cbn [fst snd app nul_args]. destruct (Z.eqb_spec q 0) as [->|_]; [by pose proof (sp_pos _ _ _ Hs)|].
    destruct (IH k (upd m1 e 0)) as (Hn & Hz). split; [eapply nulled_trans; [by eapply nulled_upd|done]|].
    intros sp Hsp. apply elem_of_cons in Hsp as [->|Hsp]; [|by apply Hz]. apply (nulled_zero _ _ _ Hn). apply upd_eq.
Qed.

Fixpoint depth (a : ast) : nat :=
  match a with AExec _ => 1 | ARedir a _ | ABack a => S (depth a) | APipe a b | AList a b => S (Nat.max (depth a) (depth b)) end.

Lemma exec_shows sps args c st m2 m3 : st !! c = Some (exec_of sps) -> spans sps args -> (length args < MAXARGS)%nat ->
  nulled m m3 -> nulled m2 m3 -> (forall sp, sp ∈ sps -> m2 (snd sp) = 0) -> shows st m3 c (AExec args).
Proof.
  intros Hc Hs Hl Hn Hn2 Hz. pose proof (Forall2_length _ _ _ Hs) as Hlen. eexists _, _. split; [exact Hc|]. unfold pad. split; [|split].
  - rewrite length_app, length_replicate, length_fmap. lia.
  - rewrite lookup_app_r by (rewrite length_fmap; lia). rewrite length_fmap, Hlen, Nat.sub_diag. by apply lookup_replicate_2; lia.
  - intros i w Hi. destruct (Forall2_lookup_r _ _ _ _ _ Hs Hi) as ([q e] & Hq & Hsp). cbn [fst snd] in Hsp. exists q.
    assert (Hq' : (fst <$> sps) !! i = Some q) by (by rewrite list_lookup_fmap, Hq). split; [by apply lookup_app_l_Some|].
    split; [pose proof (sp_pos _ _ _ Hsp); lia|]. eapply span_str; [exact Hsp|done|]. apply (nulled_zero _ _ _ Hn2). apply (Hz (q, e)). by eapply list_elem_of_lookup_2.
Qed.

Lemma nulterminate_ok st a : forall fuel c m1, rep st c a -> (depth a <= fuel)%nat -> nulled m m1 ->
  exists m2, nulterminate fuel st c m1 = Some m2 /\ nulled m1 m2 /\ forall m3, nulled m2 m3 -> shows st m3 c a.
Proof.
  induction a as [args|a IH [f mode fd]|a IHa b IHb|a IHa b IHb|a IH]; intros fuel c m1 Hr Hd Hn; simpl in Hd; (destruct fuel as [|fuel]; [lia|]); cbn [nulterminate].
  - destruct Hr as (sps & Hc & Hs & Hl). rewrite Hc. destruct (nul_args_ok sps args Hs (MAXARGS - length sps) m1) as (Hn2 & Hz).
    eexists. split; [unfold exec_of, pad; rewrite !length_fmap; reflexivity|]. split; [done|]. intros m3 Hn3. eapply exec_shows; [done|done|done| |exact Hn3|done].
    by eapply nulled_trans; [|eapply nulled_trans].
  - destruct Hr as (c' & q & e & Hc & Hs & Hr). rewrite Hc. destruct (IH fuel c' m1 Hr ltac:(lia) Hn) as (m2 & E & Hn2 & Hsh). rewrite E.
    exists (upd m2 e 0). split; [done|]. assert (Hu : nulled m2 (upd m2 e 0)) by (by eapply nulled_upd). split; [by eapply nulled_trans|]. intros m3 Hn3. simpl. exists c', q, e. split; [done|]. split.
    + eapply span_str; [exact Hs| |apply (nulled_zero _ _ _ Hn3), upd_eq]. by eapply nulled_trans; [|eapply nulled_trans; [|eapply nulled_trans]].
    + apply Hsh. by eapply nulled_trans.
  - destruct Hr as (l & r & Hc & H1 & H2). rewrite Hc. destruct (IHa fuel l m1 H1 ltac:(lia) Hn) as (m2 & E & Hn2 & Hsh). rewrite E. simpl.
    destruct (IHb fuel r m2 H2 ltac:(lia) ltac:(by eapply nulled_trans)) as (m3 & E3 & Hn3 & Hsh3). exists m3. split; [done|]. split; [by eapply nulled_trans|].
    intros m4 Hn4. simpl. exists l, r. split; [done|]. split; [apply Hsh; by eapply nulled_trans|by apply Hsh3].
  - destruct Hr as (l & r & Hc & H1 & H2). rewrite Hc. destruct (IHa fuel l m1 H1 ltac:(lia) Hn) as (m2 & E & Hn2 & Hsh). rewrite E. simpl.
    destruct (IHb fuel r m2 H2 ltac:(lia) ltac:(by eapply nulled_trans)) as (m3 & E3 & Hn3 & Hsh3). exists m3. split; [done|]. split; [by eapply nulled_trans|].
    intros m4 Hn4. simpl. exists l, r. split; [done|]. split; [apply Hsh; by eapply nulled_trans|by apply Hsh3].
  - destruct Hr as (c' & Hc & Hr). rewrite Hc. destruct (IH fuel c' m1 Hr ltac:(lia) Hn) as (m2 & E & Hn2 & Hsh). exists m2. split; [done|]. split; [done|].
    intros m3 Hn3. simpl. exists c'. split; [done|by apply Hsh].
Qed.
End parser.

(* ------------------------------------------------------------------ *)
(** * The whole line *)

Lemma wrap_depth rs : forall a, depth (wrap a rs) = (depth a + length rs)%nat.
Proof. induction rs as [|r rs IH]; intros a; [simpl; lia|]. change (wrap a (r :: rs)) with (wrap (ARedir a r) rs). rewrite IH. simpl. lia. Qed.

Lemma items_length ts args rs : items ts args rs -> (length rs <= length ts)%nat.
Proof. induction 1; simpl; lia. Qed.

Lemma iter_depth n a : depth (Nat.iter n ABack a) = (n + depth a)%nat.
Proof. induction n as [|n IH]; simpl; [done|]. by rewrite IH. Qed.

Lemma derives_depth nt ts a : derives nt ts a -> (depth a <= length ts + 1)%nat.
Proof.
  induction 1 as [ts args rs Hi _|ts a us rs _ IH Hi|ts a _ IH|ts a us b _ IH _ IH2|ts a n _ IH|ts a n us b _ IH _ IH2];
    try apply items_length in Hi; rewrite ?wrap_depth, ?length_app; cbn [length depth]; rewrite ?iter_depth, ?length_app, ?length_replicate; cbn [length]; lia.
Qed.

Lemma lex_nil l : lex l = [] <-> drop_white l = [].
Proof.
  rewrite lex_token. destruct (drop_white l) as [|c r]; [done|]. split; [|done]. unfold token. destruct (in_str _ c); [done|].
  destruct (c =? 62); [|done]. destruct r as [|d r]; [done|]. by destruct (d =? 62).
Qed.

(** The last [peek]: the line is at its end when no token is left. *)
Lemma peek_end m es cs s ts : at_ m es s ts -> exists b s', peek m es cs s = Ok b s' /\ cmds s' = cmds s /\ (ps s' = es <-> ts = []).
Proof.
  intros (l & H & <-). pose proof (skip_white_ok m es l (ps s) (rest es (ps s)) H ltac:(by rewrite (text_rest m es _ l))) as Hq.
  set (q := skip_white m es (rest es (ps s)) (ps s)) in *. exists (negb (m q =? 0) && in_str cs (m q)), (set_ps q s). split; [done|]. split; [done|]. cbn [ps set_ps]. rewrite lex_nil. split.
  - intros E. destruct Hq as (_ & Hq & _). destruct (drop_white l); [done|]. simpl in Hq. lia.
  - intros E. rewrite E in Hq. by apply (text_nil m es).
Qed.

(** The parser against the grammar. *)
Lemma parsecmd_ok m s l fuel sh :
  is_str m s l -> 0 < s -> Z.of_nat (length l) < 4294967296 -> (length l + 3 <= fuel)%nat ->
  (exists a c m' sh', parsecmd fuel m s sh = Ok (c, m') sh' /\ shows (cmds sh') m' c a /\
     derives Line (lex l) a /\ forall a', derives Line (lex l) a' -> a' = a) \/
  ((exists msg, parsecmd fuel m s sh = Panic msg) /\ forall a, ~ derives Line (lex l) a).
Proof.
  intros Hs Hpos Hlen Hf. unfold parsecmd. rewrite (ustrlen_ok l) by (rewrite ?Z.add_0_r; done || lia). rewrite u32_id, Z.add_0_l by lia. set (es := s + Z.of_nat (length l)).
  assert (Ha : at_ m es (set_ps s sh) (lex l)) by (exists l; split; [split; [done|split; [done|done]]|done]). pose proof (lex_length l) as Hll. cbv zeta.
  erewrite bind_ok by reflexivity. pose proof (parseline_ok m es fuel _ _ Ha) as R1. pose proof (t_line_halts fuel (length (lex l)) ltac:(lia) (lex l) (le_n _)) as Hh.
  assert (Hc : forall a', derives Line (lex l) a' -> t_line fuel (lex l) = Ok a' []).
  { intros a' Hd. pose proof (t_complete Line (lex l) a' Hd fuel fuel [] I ltac:(lia) ltac:(simpl; lia)) as E. by rewrite app_nil_r in E. }
  destruct (t_line fuel (lex l)) as [a ts|e|ts] eqn:Et; [| |done].
  - destruct R1 as (c & s1 & R1 & A1 & _ & Rp). rewrite (bind_ok _ _ _ _ _ R1). destruct (peek_end m es [] s1 ts A1) as (b & s2 & R2 & C2 & E2). rewrite (bind_ok _ _ _ _ _ R2).
    erewrite bind_ok by reflexivity. destruct (Z.eqb_spec (ps s2) es) as [E|E]; cbn [negb].
    + apply E2 in E as ->. apply t_line_sound in Et as (used & Eu & Hd). rewrite app_nil_r in Eu. subst used. left.
      destruct (nulterminate_ok m (cmds s2) a fuel c m) as (m' & E3 & _ & Hsh); [by rewrite C2|apply derives_depth in Hd; lia|apply nulled_refl|].
      exists a, c, m', s2. erewrite bind_ok by reflexivity. rewrite E3. split; [done|]. split; [apply Hsh, nulled_refl|]. split; [done|]. intros a' Hd'. apply Hc in Hd'. congruence.
    + right. split; [by eexists|]. intros a' Hd'. apply Hc in Hd' as [= _ ->]. by apply E, E2.
  - right. split; [eexists; by unfold bind; rewrite R1|]. intros a' Hd'. by apply Hc in Hd'.
Qed.

(** C22: The parser of the shell is right, and always ends: for a line the grammar
    gives a command for, it returns that command, its arrays of words ended by a
    null pointer within their bounds, and each word and file name a C string in
    the buffer; no other command is derived from the line.  For every other line
    it reports an error. *)
Theorem parsecmd_correct m s l fuel sh :
  is_str m s l -> 0 < s -> Z.of_nat (length l) < 4294967296 -> (length l + 3 <= fuel)%nat ->
  (exists a c m' sh', parsecmd fuel m s sh = Ok (c, m') sh' /\ shows (cmds sh') m' c a /\
     derives Line (lex l) a /\ forall a', derives Line (lex l) a' -> a' = a) \/
  ((exists msg, parsecmd fuel m s sh = Panic msg) /\ forall a, ~ derives Line (lex l) a).
Proof. apply parsecmd_ok. Qed.

Definition w_text : list Z := Eval vm_compute in str "ls -l | wc >out; cd&".
Definition w_buf : memory := fun x => arr w_text (x - 4096).

Lemma w_buf_str : is_str w_buf 4096 w_text.
Proof.
  split; [|reflexivity]. intros i c Hi. assert (Hr : 0 < c < 256).
  { assert (H : Forall (fun c => 0 < c < 256) w_text) by (repeat constructor; lia). by apply (proj1 (Forall_lookup _ _) H i). }
  split; [|done]. unfold w_buf, arr. replace (4096 + Z.of_nat i - 4096) with (Z.of_nat i) by lia. destruct (Z.ltb_spec (Z.of_nat i) 0); [lia|].
  rewrite Nat2Z.id. by apply nth_lookup_Some.
Qed.

Lemma parsecmd_correct_witness : 
  (exists a c m' sh', parsecmd 23 w_buf 4096 (Shell 0 []) = Ok (c, m') sh' /\ shows (cmds sh') m' c a /\
     derives Line (lex w_text) a /\ forall a', derives Line (lex w_text) a' -> a' = a) \/
  ((exists msg, parsecmd 23 w_buf 4096 (Shell 0 []) = Panic msg) /\ forall a, ~ derives Line (lex w_text) a).
Proof. apply (parsecmd_correct w_buf 4096 w_text 23 (Shell 0 [])); [exact w_buf_str|lia|vm_compute; reflexivity|vm_compute; lia]. Defined.

(** The command of this line, and an error. *)
Lemma parsecmd_runs : (match parsecmd 23 w_buf 4096 (Shell 0 []) with Ok (c, _) sh => Some (c, cmds sh) | _ => None end = Some (6%nat,
  [EXEC [4096; 4099; 0; 0; 0; 0; 0; 0; 0; 0] [4098; 4101; 0; 0; 0; 0; 0; 0; 0; 0]; EXEC [4104; 0; 0; 0; 0; 0; 0; 0; 0; 0] [4106; 0; 0; 0; 0; 0; 0; 0; 0; 0];
   REDIR 1 4108 4111 513 1; PIPE 0 2; EXEC [4113; 0; 0; 0; 0; 0; 0; 0; 0; 0] [4115; 0; 0; 0; 0; 0; 0; 0; 0; 0]; BACK 4; LIST 3 5])) /\
  parsecmd 23 (arr (str "ls > | x")) 0 (Shell 0 []) = Panic "missing file for redirection".
Proof. split; vm_compute; reflexivity. Qed.
