(* ===== verification/ShRun.v ===== *)
(** The shell (src/sh.c) at work: the system calls of [runcmd] and of the main
    loop, and what they amount to: which programs are run, with which files, and
    in which order.

    A process is a tree of system calls ([prog]); [sem] gives its meaning for a
    table of open files.  A new descriptor is the lowest free one, as in the
    kernel ([fdalloc]); an [exec] is recorded with the table it happens with. *)

From S2P Require Import Prelude StringC Spinlock Kalloc Ptable Ports Console ConsoleScreen Ulib Sh ShGrammar ShSpec.

(* ------------------------------------------------------------------ *)
(** * Processes *)

Inductive prog :=
| Exit
| Exec (path : word) (argv : list word) (k : prog)
| Open (file : word) (mode : Z) (k : Z -> prog)
| Close (fd : Z) (k : prog)
| Dup (fd : Z) (k : prog)
| Pipe (k : option (Z * Z) -> prog)
| Fork (k : Z -> prog)
| Wait_ (k : prog)
| Chdir (dir : word) (k : Z -> prog)
| Printf (text : option (list Z)) (k : prog)
| Stuck.

(** The C string at [q], of less than [n] bytes. *)
Fixpoint cstr (n : nat) (m : memory) (q : Z) : word :=
  match n with O => [] | S n' => if m q =? 0 then [] else m q :: cstr n' m (q + 1) end.

(** An array of strings, to the null pointer. *)
Fixpoint cstrs (n : nat) (m : memory) (argv : list Z) : list word :=
  match argv with [] => [] | q :: argv => if q =? 0 then [] else cstr n m q :: cstrs n m argv end.

(* src/sh.c:174-179 panic *)
Definition sh_panic (s : list Z) : prog := Printf (printf (str "%s" ++ [10]) [Ptr s]) Exit.

(* src/sh.c:181-190 fork1 *)
Definition fork1 (k : Z -> prog) : prog := Fork (fun pid => if pid =? -1 then sh_panic (str "fork") else k pid).

(** [n] bounds the strings of the line. *)

(* src/sh.c:56-131 runcmd *)
Fixpoint runcmd (fuel n : nat) (st : list cmd) (m : memory) (c : nat) : prog :=
  match fuel with
  | O => Stuck
  | S fuel' =>
      match st !! c with
      | None => Stuck
      | Some (EXEC argv _) =>
          let arg0 := nth 0 argv 0 in
          if arg0 =? 0 then Exit
          else Exec (cstr n m arg0) (cstrs n m argv) (Printf (printf (str "exec %s failed" ++ [10]) [Ptr (cstr n m arg0)]) Exit)
      | Some (REDIR sub file _ mode fd) =>
          Close fd (Open (cstr n m file) mode (fun fd' =>
            if fd' <? 0 then Printf (printf (str "open %s failed" ++ [10]) [Ptr (cstr n m file)]) Exit
            else runcmd fuel' n st m sub))
      | Some (LIST l r) =>
          fork1 (fun pid => if pid =? 0 then runcmd fuel' n st m l else Wait_ (runcmd fuel' n st m r))
      | Some (PIPE l r) =>
          Pipe (fun p =>
            match p with
            | None => sh_panic (str "pipe")
            | Some (p0, p1) =>
                fork1 (fun pid =>
                  if pid =? 0 then Close 1 (Dup p1 (Close p0 (Close p1 (runcmd fuel' n st m l))))
                  else fork1 (fun pid =>
                    if pid =? 0 then Close 0 (Dup p0 (Close p0 (Close p1 (runcmd fuel' n st m r))))
                    else Close p0 (Close p1 (Wait_ (Wait_ Exit)))))
            end)
      | Some (BACK sub) => fork1 (fun pid => if pid =? 0 then runcmd fuel' n st m sub else Exit)
      end
  end.

(** The line read, in a buffer of [nbuf] bytes, and what is left of the input. *)

(* src/sh.c:133-142 getcmd *)
Definition getcmd (nbuf : Z) (input : list Z) : option (list Z * list Z) :=
  let '(line, input) := ugets nbuf input in if nth 0 line 0 =? 0 then None else Some (line, input).

(** The bytes before the first NUL: what [strlen] counts. *)
Definition c_line (line : list Z) : word := take_while (fun c => negb (c =? 0)) line.

(** The buffer is at the address [buf], filled with zeros. *)
Definition buffer (buf : Z) (line : list Z) : memory := fun x => arr line (x - buf).

(* src/sh.c:167-168 main *)
Definition child (fuel : nat) (buf : Z) (line : list Z) : prog :=
  match parsecmd fuel (buffer buf line) buf (Shell 0 []) with
  | Ok (c, m) sh => runcmd fuel fuel (cmds sh) m c
  | Panic msg => sh_panic (str msg)
  | Wait _ => Stuck
  end.

(* src/sh.c:160-169 main *)
Definition main_line (fuel : nat) (buf : Z) (line : list Z) (k : prog) : prog :=
  if (nth 0 line 0 =? 99) && (nth 1 line 0 =? 100) && (nth 2 line 0 =? 32) then
    let dir := drop 3 (removelast (c_line line)) in
    Chdir dir (fun r => if r <? 0 then Printf (printf (str "cannot cd %s" ++ [10]) [Ptr dir]) k else k)
  else fork1 (fun pid => if pid =? 0 then child fuel buf line else Wait_ k).

(* src/sh.c:158-172 main *)
Fixpoint main_loop (lines fuel : nat) (buf : Z) (input : list Z) : prog :=
  match lines with
  | O => Stuck
  | S lines' =>
      Printf (printf (str "$ ") [])
        match getcmd 100 input with
        | None => Exit
        | Some (line, input) => main_line fuel buf line (main_loop lines' fuel buf input)
        end
  end.

(* src/sh.c:150-156 main *)
Fixpoint open_console (tries : nat) (k : prog) : prog :=
  match tries with
  | O => Stuck
  | S tries' => Open (str "console") O_RDWR (fun fd => if fd <? 0 then k else if 3 <=? fd then Close fd k else open_console tries' k)
  end.

(* src/sh.c:144-172 main *)
Definition main (tries lines fuel : nat) (buf : Z) (input : list Z) : prog := open_console tries (main_loop lines fuel buf input).

(* ------------------------------------------------------------------ *)
(** * Their meaning *)

Inductive file := Device (name : word) (mode : Z) | PipeRead (id : nat) | PipeWrite (id : nat).

(** The open files of a process. *)
Abbreviation table := (list (option file)).

Fixpoint lowest (t : table) : option nat :=
  match t with [] => None | None :: _ => Some 0%nat | Some _ :: t => S <$> lowest t end.

Definition close_fd (fd : Z) (t : table) : table := if fd <? 0 then t else <[Z.to_nat fd := None]> t.
Definition fd_file (t : table) (fd : Z) : option file := if fd <? 0 then None else mjoin (t !! Z.to_nat fd).

(** What the processes of a command do: run a program with a table of files, one
    thing after the other, two at once, or without waiting for it. *)
Inductive job := Skip | Launch (argv : list word) (t : table) | Seq (a b : job) | Par (a b : job) | Bg (a : job).

Fixpoint par (js : list job) : job := match js with [] => Skip | [j] => j | j :: js => Par j (par js) end.

(** [opens] says which files can be opened.  [out] are the children not waited
    for, [w] the number of waits since there were none; pipes are numbered. *)
Section sem.
Variable opens : word -> Z -> bool.

Fixpoint sem (p : prog) (t : table) (np : nat) (out : list job) (w : nat) : job * nat :=
  match p with
  | Exit | Stuck => (match out with [] => Skip | _ => Bg (par out) end, np)
  | Exec _ argv _ => (match out with [] => Launch argv t | _ => Par (Bg (par out)) (Launch argv t) end, np)
  | Open f mode k =>
      match lowest t with
      | Some i => if opens f mode then sem (k (Z.of_nat i)) (<[i := Some (Device f mode)]> t) np out w else sem (k (-1)) t np out w
      | None => sem (k (-1)) t np out w
      end
  | Close fd k => sem k (close_fd fd t) np out w
  | Dup fd k =>
      match fd_file t fd, lowest t with
      | Some f, Some i => sem k (<[i := Some f]> t) np out w
      | _, _ => sem k t np out w
      end
  | Pipe k =>
      match lowest t with
      | None => sem (k None) t np out w
      | Some i =>
          let t1 := <[i := Some (PipeRead np)]> t in
          match lowest t1 with
          | None => sem (k None) t np out w
          | Some j => sem (k (Some (Z.of_nat i, Z.of_nat j))) (<[j := Some (PipeWrite np)]> t1) (S np) out w
          end
      end
  | Fork k => let '(j, np) := sem (k 0) t np [] 0 in sem (k 1) t np (out ++ [j]) w
  | Wait_ k =>
      if (S w =? length out)%nat then let '(j, np) := sem k t np [] 0 in (Seq (par out) j, np)
      else sem k t np out (S w)
  | Chdir _ k => sem (k 0) t np out w
  | Printf _ k => sem k t np out w
  end.

(** What a command is meant to do. *)
Fixpoint job_of (a : ast) (t : table) (np : nat) : job * nat :=
  match a with
  | AExec [] => (Skip, np)
  | AExec args => (Launch args t, np)
  | ARedir a (Redir f mode fd) =>
      if opens f mode then job_of a (<[Z.to_nat fd := Some (Device f mode)]> t) np else (Skip, np)
  | APipe a b =>
      let '(ja, np1) := job_of a (<[1%nat := Some (PipeWrite np)]> t) (S np) in
      let '(jb, np2) := job_of b (<[0%nat := Some (PipeRead np)]> t) np1 in
      (Seq (Par ja jb) Skip, np2)
  | AList a b =>
      let '(ja, np1) := job_of a t np in
      let '(jb, np2) := job_of b t np1 in
      (Seq ja jb, np2)
  | ABack a => let '(ja, np1) := job_of a t np in (Bg ja, np1)
  end.
End sem.

(* ------------------------------------------------------------------ *)
(** * Strings *)

Lemma cstr_ok w : forall n m q, is_str m q w -> (length w < n)%nat -> cstr n m q = w.
Proof.
  induction w as [|c w IH]; intros n m q H Hn; (destruct n as [|n]; [simpl in Hn; lia|]); cbn [cstr].
  - apply is_str_nil in H. by rewrite H.
  - apply is_str_cons in H as (-> & Hc & H). destruct (Z.eqb_spec c 0); [lia|]. f_equal. apply IH; [done|simpl in Hn; lia].
Qed.

Lemma cstrs_ok n m args : forall argv, argv !! length args = Some 0 ->
  (forall i w, args !! i = Some w -> exists q, argv !! i = Some q /\ q <> 0 /\ is_str m q w) -> Forall (fun w => length w < n)%nat args -> cstrs n m argv = args.
Proof.
  induction args as [|w args IH]; intros [|q argv] Hz Ha Hl; try done; cbn [cstrs].
  - simpl in Hz. by injection Hz as ->.
  - destruct (Ha 0%nat w eq_refl) as (q' & [= <-] & Hq & Hs). apply Forall_cons in Hl as [Hw Hl]. rewrite (proj2 (Z.eqb_neq _ _) Hq), (cstr_ok w) by done. f_equal.
    apply IH; [done| |done]. intros i x Hi. by apply (Ha (S i)).
Qed.

(** All the words of a command, and the files of its redirections. *)
Fixpoint ast_all (P : word -> Prop) (a : ast) : Prop :=
  match a with
  | AExec args => Forall P args
  | ARedir a (Redir f _ fd) => P f /\ (fd = 0 \/ fd = 1) /\ ast_all P a
  | APipe a b | AList a b => ast_all P a /\ ast_all P b
  | ABack a => ast_all P a
  end.

Lemma wrap_all P rs : forall a, ast_all P a -> (forall f mode fd, Redir f mode fd ∈ rs -> P f /\ (fd = 0 \/ fd = 1)) -> ast_all P (wrap a rs).
Proof.
  induction rs as [|[f mode fd] rs IH]; intros a Ha Hr; [done|]. change (wrap a (Redir f mode fd :: rs)) with (wrap (ARedir a (Redir f mode fd)) rs).
  apply IH; [|intros; apply (Hr f0 mode0); by right]. destruct (Hr f mode fd ltac:(by left)). done.
Qed.

Lemma items_all P ts args rs : items ts args rs -> (forall w, Word w ∈ ts -> P w) -> Forall P args /\ forall f mode fd, Redir f mode fd ∈ rs -> P f /\ (fd = 0 \/ fd = 1).
Proof.
  induction 1 as [|w ts args rs _ IH|c w ts args rs _ _ IH]; intros Hw.
  - split; [constructor|by intros f mode fd ?%elem_of_nil].
  - destruct IH as [H1 H2]; [intros x Hx; apply Hw; by right|]. split; [|done]. constructor; [apply Hw; by left|done].
  - destruct IH as [H1 H2]; [intros x Hx; apply Hw; by right; right|]. split; [done|]. intros f mode fd Hf. apply elem_of_cons in Hf as [E|Hf]; [|by eapply H2].
    assert (f = w /\ (fd = 0 \/ fd = 1)) as [-> Hfd] by (unfold redir_of in E; destruct (c =? 60); injection E as -> _ ->; auto).
    split; [apply Hw; right; by left|done].
Qed.

Lemma iter_all P n a : ast_all P a -> ast_all P (Nat.iter n ABack a).
Proof. intros H. induction n; done. Qed.

Lemma derives_all P nt ts a : derives nt ts a -> (forall w, Word w ∈ ts -> P w) -> ast_all P a.
Proof.
  induction 1 as [ts args rs Hi _|ts a us rs _ IH Hi|ts a _ IH|ts a us b _ IH _ IH2|ts a n _ IH|ts a n us b _ IH _ IH2]; intros Hw.
  - destruct (items_all P _ _ _ Hi Hw) as [H1 H2]. by apply wrap_all.
  - destruct (items_all P _ _ _ Hi) as [H1 H2]; [intros w H; apply Hw; set_solver|]. apply wrap_all; [|done]. apply IH. intros w H. apply Hw. set_solver.
  - by apply IH.
  - split; [apply IH|apply IH2]; intros w H; apply Hw; set_solver.
  - apply iter_all, IH. intros w H. apply Hw. set_solver.
  - split; [apply iter_all, IH|apply IH2]; intros w H; apply Hw; set_solver.
Qed.

Lemma take_while_length p l : (length (take_while p l) <= length l)%nat.
Proof. induction l as [|c l IH]; simpl; [lia|]. destruct (p c); simpl; lia. Qed.

Lemma token_word l t r : token l = Some (t, r) -> (length r <= length l)%nat /\ forall w, t = Word w -> (length w <= length l)%nat.
Proof.
  unfold token. destruct l as [|c l]; [done|]. destruct (in_str _ c); [intros [= <- <-]; split; [simpl; lia|done]|].
  destruct (c =? 62); [destruct l as [|d l]; [|destruct (d =? 62)]; intros [= <- <-]; (split; [simpl; lia|done])|].
  intros [= <- <-]. split; [apply (drop_while_length is_word (c :: l))|]. intros w [= <-]. apply (take_while_length is_word (c :: l)).
Qed.

Lemma lex_words l w : Word w ∈ lex l -> (length w <= length l)%nat.
Proof.
  unfold lex. generalize (length l) at 1 as n. intros n. revert l. induction n as [|n IH]; intros l; simpl; [by intros ?%elem_of_nil|].
  pose proof (drop_while_length is_white l) as Hd. destruct (token (drop_white l)) as [[t r]|] eqn:E; [|by intros ?%elem_of_nil].
  destruct (token_word _ _ _ E) as [Hr Hw]. unfold drop_white in Hr, Hw. intros H. apply elem_of_cons in H as [H|H]; [symmetry in H; apply Hw in H; lia|apply IH in H; lia].
Qed.

(* ------------------------------------------------------------------ *)
(** * Files *)

(** Standard input and output are open, and there is room for a pipe. *)
Definition table_ok (t : table) : Prop :=
  exists f0 f1 r i j, t = Some f0 :: Some f1 :: r /\ r !! i = Some None /\ r !! j = Some None /\ i <> j.

Lemma lowest_ok r : forall i, r !! i = Some None -> exists k, lowest r = Some k /\ r !! k = Some None.
Proof.
  induction r as [|[f|] r IH]; intros [|i] Hi; try done; simpl in *; [|by exists 0%nat|by exists 0%nat].
  destruct (IH i Hi) as (k & -> & Hk). by exists (S k).
Qed.

(** Another free slot. *)
Lemma second_free (r : table) i j k : r !! i = Some None -> r !! j = Some None -> i <> j -> exists k', r !! k' = Some None /\ k' <> k.
Proof. intros Hi Hj Hij. destruct (decide (i = k)) as [->|]; [exists j; auto|by exists i]. Qed.

Lemma table_redirect t fd x : table_ok t -> fd = 0 \/ fd = 1 ->
  lowest (close_fd fd t) = Some (Z.to_nat fd) /\ <[Z.to_nat fd := Some x]> (close_fd fd t) = <[Z.to_nat fd := Some x]> t /\ table_ok (<[Z.to_nat fd := Some x]> t).
Proof.
  intros (f0 & f1 & r & i & j & -> & Hi & Hj & Hij) [->| ->]; (split; [done|]; split; [done|]); simpl; [exists x, f1, r, i, j|exists f0, x, r, i, j]; auto.
Qed.

(** Both ends of a pipe: the descriptors, and the tables of the two sides once
    they have closed the ends they do not use. *)
Lemma table_pipe t np : table_ok t -> exists i j t2, lowest t = Some i /\ lowest (<[i := Some (PipeRead np)]> t) = Some j /\
  t2 = <[j := Some (PipeWrite np)]> (<[i := Some (PipeRead np)]> t) /\
  fd_file (close_fd 1 t2) (Z.of_nat j) = Some (PipeWrite np) /\ lowest (close_fd 1 t2) = Some 1%nat /\
  close_fd (Z.of_nat j) (close_fd (Z.of_nat i) (<[1%nat := Some (PipeWrite np)]> (close_fd 1 t2))) = <[1%nat := Some (PipeWrite np)]> t /\
  fd_file (close_fd 0 t2) (Z.of_nat i) = Some (PipeRead np) /\ lowest (close_fd 0 t2) = Some 0%nat /\
  close_fd (Z.of_nat j) (close_fd (Z.of_nat i) (<[0%nat := Some (PipeRead np)]> (close_fd 0 t2))) = <[0%nat := Some (PipeRead np)]> t.
Proof.
  intros (f0 & f1 & r & a & b & -> & Ha & Hb & Hab). destruct (lowest_ok r a Ha) as (i & Ei & Hi).
  destruct (second_free r a b i Ha Hb Hab) as (k & Hk & Hki). set (r1 := <[i := Some (PipeRead np)]> r).
  assert (Hk1 : r1 !! k = Some None) by (unfold r1; by rewrite list_lookup_insert_ne by done).
  destruct (lowest_ok r1 k Hk1) as (j & Ej & Hj). pose proof (lookup_lt_Some _ _ _ Hi) as Li.
  assert (Hij : i <> j). { intros <-. unfold r1 in Hj. rewrite list_lookup_insert_eq in Hj by done. done. }
  assert (Hj0 : r !! j = Some None) by (unfold r1 in Hj; by rewrite list_lookup_insert_ne in Hj by done).
  pose proof (lookup_lt_Some _ _ _ Hj) as Lj.
  assert (Hback : <[j := None]> (<[i := None]> (<[j := Some (PipeWrite np)]> r1)) = r).
  { unfold r1. rewrite (list_insert_insert_ne _ i j) by done. rewrite !list_insert_insert_eq.
    rewrite (list_insert_id r i) by done. by apply list_insert_id. }
  set (r2 := <[j := Some (PipeWrite np)]> r1) in *. exists (S (S i)), (S (S j)), (Some f0 :: Some f1 :: r2). simpl lowest. rewrite Ei. split; [done|]. fold r1. rewrite Ej.
  split; [done|]. split; [done|]. change (close_fd 1 (Some f0 :: Some f1 :: r2)) with (Some f0 :: None :: r2). change (close_fd 0 (Some f0 :: Some f1 :: r2)) with (None :: Some f1 :: r2).
  assert (Hc : forall n x y l, close_fd (Z.of_nat (S (S n))) (x :: y :: l) = x :: y :: <[n := None]> l).
  { intros n x y l. unfold close_fd. destruct (Z.ltb_spec (Z.of_nat (S (S n))) 0); [lia|]. by rewrite Nat2Z.id. }
  assert (Hf : forall n x y l, fd_file (x :: y :: l) (Z.of_nat (S (S n))) = mjoin (l !! n)).
  { intros n x y l. unfold fd_file. destruct (Z.ltb_spec (Z.of_nat (S (S n))) 0); [lia|]. by rewrite Nat2Z.id. }
  rewrite !Hf. cbn [insert list_insert]. rewrite !Hc, Hback. unfold r2, r1.
  rewrite list_lookup_insert_eq by exact Lj. rewrite list_lookup_insert_ne, list_lookup_insert_eq by done. done.
Qed.

(* ------------------------------------------------------------------ *)
(** * [runcmd] *)

Section run.
Context (opens : word -> Z -> bool) (n : nat) (st : list cmd) (m : memory).

Lemma runcmd_ok a : forall fuel c t np, shows st m c a -> ast_all (fun w => length w < n)%nat a -> (depth a <= fuel)%nat -> table_ok t ->
  sem opens (runcmd fuel n st m c) t np [] 0 = job_of opens a t np.
Proof.
  induction a as [args|a IH [f mode fd]|a IHa b IHb|a IHa b IHb|a IH]; intros fuel c t np Hs Hw Hd Ht; simpl in Hd; (destruct fuel as [|fuel]; [lia|]); cbn [runcmd].
  - destruct Hs as (argv & eargv & Hc & _ & Hz & Ha). rewrite Hc. simpl in Hw. rewrite (cstrs_ok n m args) by done. destruct args as [|w args].
    + destruct argv as [|q argv]; [done|]. simpl in Hz. injection Hz as ->. done.
    + destruct (Ha 0%nat w eq_refl) as (q & Hq & Hne & _). destruct argv as [|q' argv]; [done|]. injection Hq as ->. simpl nth. by rewrite (proj2 (Z.eqb_neq _ _) Hne).
  - destruct Hs as (c' & q & e & Hc & Hstr & Hs). rewrite Hc. destruct Hw as (Hf & Hfd & Hw). rewrite (cstr_ok f) by done. cbn [sem job_of].
    destruct (table_redirect t fd (Device f mode) Ht Hfd) as (El & Ei & Ht'). rewrite El. destruct (opens f mode) eqn:Eo; [|done].
    rewrite (proj2 (Z.ltb_ge (Z.of_nat (Z.to_nat fd)) 0)) by lia. rewrite Ei. apply IH; [done|done|lia|done].
  - destruct Hs as (l & r & Hc & Hs1 & Hs2). rewrite Hc. destruct Hw as [Hw1 Hw2]. unfold fork1. cbn [sem job_of].
    destruct (table_pipe t np Ht) as (i & j & t2 & El & El2 & Et2 & F1 & L1 & C1 & F0 & L0 & C0). rewrite El, El2, <- Et2. cbn [Z.eqb Pos.eqb]. cbv iota. cbn [sem].
    rewrite F1, L1, C1. destruct (table_redirect t 1 (PipeWrite np) Ht ltac:(by right)) as (_ & _ & T1). destruct (table_redirect t 0 (PipeRead np) Ht ltac:(by left)) as (_ & _ & T0).
    change (Z.to_nat 1) with 1%nat in T1. change (Z.to_nat 0) with 0%nat in T0.
    rewrite (IHa fuel l _ (S np) Hs1 Hw1 ltac:(lia) T1). destruct (job_of opens a _ (S np)) as [ja np1]. cbn [sem Z.eqb Pos.eqb app]. cbv iota. cbn [sem]. rewrite F0, L0, C0.
    rewrite (IHb fuel r _ np1 Hs2 Hw2 ltac:(lia) T0). by destruct (job_of opens b _ np1).
  - destruct Hs as (l & r & Hc & Hs1 & Hs2). rewrite Hc. destruct Hw as [Hw1 Hw2]. unfold fork1. cbn [sem job_of Z.eqb]. cbv iota. cbn [sem].
    rewrite (IHa fuel l t np) by (done || lia). destruct (job_of opens a t np) as [ja np1]. cbn [app length Nat.eqb]. cbv iota.
    rewrite (IHb fuel r t np1) by (done || lia). by destruct (job_of opens b t np1).
  - destruct Hs as (c' & Hc & Hs). rewrite Hc. unfold fork1. cbn [sem job_of Z.eqb]. cbv iota. rewrite (IH fuel c' t np) by (done || lia). by destruct (job_of opens a t np).
Qed.
End run.

(* ------------------------------------------------------------------ *)
(** * Lines *)

Lemma arr_shift c l x y : x = y + 1 -> 0 <= y -> arr (c :: l) x = arr l y.
Proof.
  intros -> Hy. unfold arr. destruct (Z.ltb_spec (y + 1) 0); [lia|]. destruct (Z.ltb_spec y 0); [lia|]. by replace (Z.to_nat (y + 1)) with (S (Z.to_nat y)) by lia.
Qed.

Lemma buffer_str buf line : Forall (fun c => 0 <= c < 256) line -> is_str (buffer buf line) buf (c_line line).
Proof.
  revert buf. induction line as [|c line IH]; intros buf Hl; [by apply is_str_nil; unfold buffer; rewrite Z.sub_diag|].
  apply Forall_cons in Hl as [Hc Hl]. unfold c_line. cbn [take_while]. destruct (Z.eqb_spec c 0) as [->|Hne]; cbn [negb].
  - apply is_str_nil. unfold buffer. by rewrite Z.sub_diag.
  - apply is_str_cons. split; [unfold buffer; by rewrite Z.sub_diag|]. split; [lia|]. destruct (IH (buf + 1) Hl) as [H1 H2]. split.
    + intros i d Hi. destruct (H1 i d Hi) as [E Hd]. split; [|done]. rewrite <- E. unfold buffer. apply arr_shift; lia.
    + etransitivity; [|exact H2]. unfold buffer. apply arr_shift; unfold c_line; lia.
Qed.

(** The child: the command of the line is run, or an error is reported. *)
Lemma child_ok opens fuel buf line t np : Forall (fun c => 0 <= c < 256) line -> 0 < buf -> Z.of_nat (length line) < 4294967296 -> (length line + 3 <= fuel)%nat -> table_ok t ->
  (exists a, derives Line (lex (c_line line)) a /\ sem opens (child fuel buf line) t np [] 0 = job_of opens a t np) \/
  ((forall a, ~ derives Line (lex (c_line line)) a) /\ sem opens (child fuel buf line) t np [] 0 = (Skip, np)).
Proof.
  intros Hl Hb Hlen Hf Ht. pose proof (take_while_length (fun c => negb (c =? 0)) line) as Hc. fold (c_line line) in Hc. unfold child.
  destruct (parsecmd_ok (buffer buf line) buf (c_line line) fuel (Shell 0 []) (buffer_str buf line Hl) Hb ltac:(lia) ltac:(lia)) as [(a & c & m' & sh & E & Hs & Hd & _)|[[msg E] Hno]]; rewrite E; [left|by right].
  exists a. split; [done|]. apply runcmd_ok; [done| |pose proof (derives_depth _ _ _ Hd); pose proof (lex_length (c_line line)); lia|done].
  eapply derives_all; [exact Hd|]. intros w Hw. apply lex_words in Hw. lia.
Qed.

Lemma gets_loop_ok room : forall input l r, gets_loop room input = (l, r) -> input = l ++ r /\ (length l <= room)%nat.
Proof.
  induction room as [|room IH]; intros [|c input] l r; simpl; try (intros [= <- <-]; split; [done|simpl; lia]).
  destruct (_ || _); [intros [= <- <-]; split; [done|simpl; lia]|]. destruct (gets_loop room input) as [l' r'] eqn:E. intros [= <- <-].
  apply IH in E as [-> Hl]. split; [done|simpl; lia].
Qed.

Lemma getcmd_ok input line rest : getcmd 100 input = Some (line, rest) -> input = line ++ rest /\ (length line <= 99)%nat /\ line <> [].
Proof.
  unfold getcmd, ugets. destruct (gets_loop _ input) as [l r] eqn:E. destruct (Z.eqb_spec (nth 0 l 0) 0) as [|Hne]; [done|]. intros [= <- <-].
  apply gets_loop_ok in E as [-> Hl]. split; [done|]. split; [exact Hl|]. by intros ->.
Qed.

(** [cd], which the shell does itself. *)
Definition is_cd (line : list Z) : bool := (nth 0 line 0 =? 99) && (nth 1 line 0 =? 100) && (nth 2 line 0 =? 32).

(** What a session is meant to do: line by line, each command to its end before
    the next line; a line that is no command does nothing. *)
Inductive session (opens : word -> Z -> bool) (t : table) : list Z -> nat -> job -> nat -> Prop :=
| s_eof input np : getcmd 100 input = None -> session opens t input np Skip np
| s_cd input line rest np j np' : getcmd 100 input = Some (line, rest) -> is_cd line = true ->
    session opens t rest np j np' -> session opens t input np j np'
| s_cmd input line rest a ja np np1 j np' : getcmd 100 input = Some (line, rest) -> is_cd line = false ->
    derives Line (lex (c_line line)) a -> job_of opens a t np = (ja, np1) -> session opens t rest np1 j np' -> session opens t input np (Seq ja j) np'
| s_error input line rest np j np' : getcmd 100 input = Some (line, rest) -> is_cd line = false ->
    (forall a, ~ derives Line (lex (c_line line)) a) -> session opens t rest np j np' -> session opens t input np (Seq Skip j) np'.

Lemma main_loop_ok opens t fuel buf lines : forall input np, Forall (fun c => 0 <= c < 256) input -> 0 < buf -> (102 <= fuel)%nat -> table_ok t -> (length input < lines)%nat ->
  exists j np', session opens t input np j np' /\ sem opens (main_loop lines fuel buf input) t np [] 0 = (j, np').
Proof.
  induction lines as [|lines IH]; intros input np Hi Hb Hf Ht Hn; [lia|]. cbn [main_loop sem]. destruct (getcmd 100 input) as [[line rest]|] eqn:E; [|exists Skip, np; split; [by constructor|done]].
  destruct (getcmd_ok _ _ _ E) as (Ei & Hl & Hne). rewrite Ei in Hi, Hn. apply Forall_app in Hi as [Hi1 Hi2]. rewrite length_app in Hn. destruct line as [|c line]; [done|]. simpl in Hn. set (ln := c :: line) in *.
  unfold main_line. fold (is_cd ln). destruct (is_cd ln) eqn:Ecd.
  - cbn [sem]. cbv zeta. cbn [sem]. rewrite (proj2 (Z.ltb_ge 0 0)) by lia. destruct (IH rest np Hi2 Hb Hf Ht ltac:(lia)) as (j & np' & Hs & R). exists j, np'. split; [by eapply s_cd|done].
  - unfold fork1. cbn [sem Z.eqb Pos.eqb]. cbv iota. destruct (child_ok opens fuel buf ln t np Hi1 Hb ltac:(lia) ltac:(lia) Ht) as [(a & Hd & R)|[Hno R]]; rewrite R.
    + destruct (job_of opens a t np) as [ja np1] eqn:Ej. cbn [sem app length Nat.eqb]. cbv iota.
      destruct (IH rest np1 Hi2 Hb Hf Ht ltac:(lia)) as (j & np' & Hs & R2). rewrite R2. exists (Seq ja j), np'. split; [by eapply s_cmd|done].
    + cbn [sem app length Nat.eqb]. cbv iota. destruct (IH rest np Hi2 Hb Hf Ht ltac:(lia)) as (j & np' & Hs & R2). rewrite R2. exists (Seq Skip j), np'. split; [by eapply s_error|done].
Qed.

(** The first loop of [main] leaves the table as it is, with three files open. *)
Lemma open_console_ok opens tries k f0 f1 f2 r i np : r !! i = Some None ->
  sem opens (open_console (S tries) k) (Some f0 :: Some f1 :: Some f2 :: r) np [] 0 = sem opens k (Some f0 :: Some f1 :: Some f2 :: r) np [] 0.
Proof.
  intros Hi. destruct (lowest_ok r i Hi) as (j & Ej & Hj). cbn [open_console sem]. simpl lowest. rewrite Ej. simpl fmap. destruct (opens (str "console") O_RDWR); [|done].
  rewrite (proj2 (Z.ltb_ge (Z.of_nat (S (S (S j)))) 0)) by lia. rewrite (proj2 (Z.leb_le 3 (Z.of_nat (S (S (S j)))))) by lia. cbn [sem]. f_equal.
  unfold close_fd. rewrite (proj2 (Z.ltb_ge (Z.of_nat (S (S (S j)))) 0)), Nat2Z.id by lia. cbn [insert list_insert]. do 3 f_equal.
  etransitivity; [apply list_insert_insert_eq|by apply list_insert_id].
Qed.


Definition w_con : file := Device (str "console") O_RDWR.


(** A session of two lines. *)
Lemma shell_runs : sem (fun _ _ => true) (main 1 40 102 4096 (str "ls | wc >out" ++ [10] ++ str "cat <a &" ++ [10])) (Some w_con :: Some w_con :: Some w_con :: replicate 3 None) 0 [] 0 =
  (Seq (Seq (Par (Launch [str "ls"] [Some w_con; Some (PipeWrite 0); Some w_con; None; None; None])
                 (Launch [str "wc"] [Some (PipeRead 0); Some (Device (str "out") 513); Some w_con; None; None; None])) Skip)
       (Seq (Bg (Launch [str "cat"] [Some (Device (str "a") 0); Some w_con; Some w_con; None; None; None])) Skip), 1%nat).
Proof. vm_compute. reflexivity. Qed.

(** [cd] takes the last byte of the line for its newline also when it is not:
    at the end of the input, or of a full buffer. *)
Lemma cd_chops fuel buf k : exists k', main_line fuel buf (str "cd /tmp") k = Chdir (str "/tm") k'.
Proof. eexists. reflexivity. Qed.

(** [>>] opens its file as [>] does: what is there is overwritten from the
    start. *)
Lemma append_overwrites w : redir_of 43 w = redir_of 62 w.
Proof. done. Qed.
